(* ===== verification/_CoqProject ===== *)
-Q . S2P
Prelude.v
PyText.v
Projects.v
RunData.v
RunStatusOps.v
RunControl.v
RunDispatch.v
RunCreate.v
RunExecution.v
RunWeb.v
RunInvariant.v
RunHandlers.v
RunSystem.v
RunExample.v
RunTheorems.v
RunControlTheorems.v
RunExecutionTheorems.v
RunWebTheorems.v
Slots.v
Calendar.v
CalendarSearch.v
CronText.v
CalendarTheorems.v
PlanData.v
Webhooks.v
WebhookTheorems.v
TestPlans.v
PlanSystem.v
PlanTheorems.v
Schedules.v
ScheduleSystem.v
ScheduleTheorems.v
CiAccess.v
CiTheorems.v
SafeRegex.v
SafeRegexSyntax.v
SafeRegexTheorems.v
Json.v
JsonSchema.v
JsonSchemaTheorems.v
PyJson.v
PyJsonLemmas.v
ScenarioData.v
RunnerValues.v
ScenarioSql.v
PyUrl.v
ScenarioMonad.v
ScenarioActions.v
ScenarioRun.v
ScenarioProtocol.v
ScenarioLogic.v
ScenarioInvariant.v
ScenarioFlow.v
ScenarioReport.v
ScenarioEnds.v
ScenarioTheorems.v
ScenarioCompletion.v
PyUrlLemmas.v
Envelope.v
EnvelopeLemmas.v
EnvelopeTheorems.v
ApiTemplate.v
ApiExecutor.v
ApiRedirects.v
ApiErrors.v
ApiTheorems.v
ApiPipeline.v
ApiPipelineLogic.v
ApiPipelineTheorems.v
ApiConsumer.v
ApiConsumerLogic.v
ApiConsumerLemmas.v
Supervision.v
ScenarioConsumer.v
WebConsumer.v
RecordingConsumer.v
PerformanceConsumer.v
TaskConsumer.v
ApiReports.v
WebReports.v
