(* ===== verification/Prelude.v ===== *)
(** * A verification of the test orchestration platform

    The platform stores test assets, plans and schedules, turns them into runs,
    hands the runs to runner processes through a message broker, and collects
    what the runners report.  This library models the execution core of the
    Python back end (src/backend/app) and, on the runner (src/runner/runner), the
    consumption of tasks and the execution of scenarios and API cases, and proves
    the properties that make it trustworthy: a reported verdict is backed by
    results, a task is executed by one runner and its message settled once, a
    finished result never changes, a schedule fires once per occurrence, a
    pipeline's request starts one plan run.

    ** Parts and files

    - Python: [Prelude] (this file: the errors of core/exceptions.py as values, a
      result monad, lemmas and tactics) and [PyText] (text as lists of code
      points, the [str] methods in use, the redaction [_safe_error] of
      runs/service.py).
    - Projects: [Projects] (modules/projects: authorization and every operation
      on projects and members).
    - Runs (modules/runs, all of service.py unless said otherwise): [RunData]
      (enums.py, models.py, events.py), [RunStatusOps] (transition tables,
      setters, status reports), [RunControl] (cancel, force stop, overdue runs,
      disconnected runners), [RunDispatch] (outbox, dispatch, claim),
      [RunCreate] (validation and creation), [RunExecution] (start and
      completion of API and scenario executions), [RunWeb] (start and completion
      of Web executions, refreshed login states).  [RunInvariant],
      [RunHandlers] and [RunSystem] build the abstract contract and the
      transition system; [RunTheorems], [RunControlTheorems],
      [RunExecutionTheorems] and [RunWebTheorems] state the properties, on the
      small deployment of [RunExample] where an example is needed.
    - Plans: [PlanData] (the tables of test_plans, ci_cd and schedules),
      [TestPlans] (test_plans/service.py), [PlanSystem] (the transition system
      above the contract of the run service, with an example), [PlanTheorems].
    - Webhooks: [Webhooks] and [WebhookTheorems] (ci_cd/service.py: endpoints,
      the completion event of a plan run, delivery with a lease and retries).
    - Schedules: [Calendar] (schedules/calendar.py), [CalendarSearch] and
      [CronText] (its lemmas), [CalendarTheorems]; [Schedules]
      (schedules/service.py, schemas.py and the scan of coordinator.py),
      [ScheduleSystem], [ScheduleTheorems].
    - Pipelines: [CiAccess] and [CiTheorems] (ci_cd/service.py: tokens and plan
      runs triggered with an idempotency key).
    - Assertions: [SafeRegex] (test_cases/safe_regex.py), [SafeRegexSyntax]
      (regular expressions as trees, from tree to text), [SafeRegexTheorems] (the
      way back and the properties); [Json] (Python's JSON values),
      [JsonSchema] (the JSON Schema branch of test_cases/assertions.py and
      prompt_center/validator.py), [JsonSchemaTheorems].
    - Runner: [Slots] (slots.py: the slot accounting shared by the threads of a
      runner process); [PyJson], [PyJsonLemmas] (json.dumps, json.loads, float
      repr) and [PyUrl], [PyUrlLemmas] (UTF-8, Base64, urllib.parse).
    - The message between them: [Envelope] (the body that the back end publishes
      with infrastructure/rabbitmq/client.py and the parser of the runner's
      envelope.py), [EnvelopeLemmas], [EnvelopeTheorems].
    - Scenarios on the runner: [ScenarioData] (plans of models.py, exceptions of
      errors.py, traces), [RunnerValues] (runtime_values.py and the templates and
      conditions of scenario.py), [ScenarioSql] (the SQL statements it accepts),
      [ScenarioMonad] (the attributes of [ScenarioExecutor] as a state),
      [ScenarioActions] (leaf nodes), [ScenarioRun] (control flow, retries,
      traces, cleanup, result, worker process of isolation.py),
      [ScenarioProtocol] (the checks of protocol.py and the completion of
      consumer.py).  [ScenarioLogic], [ScenarioInvariant], [ScenarioFlow],
      [ScenarioReport] and [ScenarioEnds] carry the proofs, [ScenarioTheorems]
      states them on the deployment of [ScenarioEnds.ScenarioDemo], and
      [ScenarioCompletion] composes the executor with the completion handler of
      the back end.
    - API cases on the runner: [ApiTemplate] (requests, their parsing and
      validation) and [ApiExecutor] (executors/api.py: authentication,
      redirects, response snapshots), [ApiRedirects], [ApiErrors],
      [ApiTheorems]; [ApiPipeline] (api_pipeline.py: actions, retries,
      resources, cleanups; the worker process), [ApiPipelineLogic],
      [ApiPipelineTheorems].
    - Tasks on the runner (consumer.py, with the answers it accepts from
      protocol.py): [ApiConsumer] (what all kinds of tasks share, and the API
      path), [ApiConsumerLogic] and [ApiConsumerLemmas] (a program logic on the
      log of what the consumer did), [Supervision] (the watch over a child
      process), [ScenarioConsumer], [WebConsumer], [RecordingConsumer]
      (recordings and explorations), [PerformanceConsumer] (load tests and the
      results kept for a message delivered again) and [TaskConsumer] (the
      consumer as a whole and its theorems).
    - Both ends of a report: [ApiReports] and [WebReports] compose the consumer
      with the completion handlers of [RunExecution] and [RunWeb].

    ** How the code is represented

    A request handler is a function of the database and of what it receives from
    its surroundings (the clock, generated keys, heartbeats read from Redis, the
    broker's answer); it returns the new database, the events it publishes and
    its answer or error.  A handler that commits once is a [result] or a
    [transaction] whose changes are dropped when it raises; one that commits
    several times ([effect]) keeps what it committed.  A table is a finite map
    from its key to its rows; a unique constraint that a handler relies on is
    checked where the handler inserts.  Rows have the columns that a modelled
    handler reads or writes; columns that are only displayed, and the runtime
    variables of plans, are left out.

    A [datetime] is a number of microseconds since 1970-01-01T00:00, without
    first or last year; the rounding of a MySQL DATETIME column to seconds is not
    modelled.  Text is a list of code points where the code looks into it, and a
    string where it is passed through.

    Locked reads see committed rows.  Where the code reads without a lock, or
    lets other transactions in between, the model does too, in the handlers
    where it matters: dispatching (opening the outbox row and handing it to the
    broker is one step, recording the broker's answer another), webhook delivery
    (the two transactions around the HTTP request), retrying a trigger (the
    check and the update), starting a plan (one step per commit).  The races of
    two completions of one execution that the database resolves with an
    IntegrityError are not modelled.

    On the runner a method is a computation over the state of its object and of
    its surroundings that returns, raises one of the exceptions the code
    distinguishes, or does not finish within the fuel of its loops ([M] for
    scenarios, [P] for pipelines, [py] for code without state).  The surroundings
    are a type class with a state of their own ([Surroundings]: clock, stop
    event, SQL driver, script interpreter; [HttpClient]: the httpx client;
    [PipelineLibrary]: random numbers; for the consumer [ConsumerWorld] and one
    class for each further kind of task: the client's requests, the child
    process, the stop event, the slots, the store of load results);
    [api_surroundings] puts the API executor
    among the surroundings of a scenario.  The consumer's state is the world, its
    cache of load results and the log of what it did: messages settled, processes
    started, killed and closed, completions confirmed.  Time is in nanoseconds
    (microseconds in the consumer), without the rounding of [time.monotonic()] to
    a float.  Objects shared by reference are
    modelled as shared: the context of a pipeline is that of the embedded
    scenario executor.  [Unicode] and [UrlLibrary] stand for the tables of the
    Python release.

    Code outside the modelled parts enters as type classes: [Settings] (the
    keyed digest and two settings), [Catalog] (which cases the runner can
    execute), [Evaluation] (the assertion engine and signed evaluation tokens),
    [Assets] and [AssetTables] (versions, environments, datasets), [Cipher],
    [UserDirectory], [RegexEngine] (Python's re.search), and [ZoneDatabase] with [ZoneLaws] (the IANA time zones:
    local times are ordered, an existing local time is read back).  The theorems
    hold for all instances; the examples give one of each.  Where an execution
    must end, the laws of [TimedWorld] and its extensions say that the clock does
    not go back and that waiting 0.2 s for a process that goes on takes that
    long.

    ** What is proved

    - Refinement: [run_service_refines] and [plan_service_refines].  Every
      request keeps the database invariant and moves each run, plan run,
      delivery and result only as an abstract contract allows; plans use the
      runs only through that contract.  From it: closed results are immutable,
      a success is backed by results ([verdict_sound], [plan_success_sound]), a
      run is claimed once, the life of a run is bounded.
    - Control: cancelling always works, an overdue run is closed exactly when it
      is due, disconnection needs evidence and then reaches every run, repeated
      requests change nothing, failed requests change nothing.
    - Execution: how assertion results become verdicts and node results become
      the result of a case; a Web execution is stored as it was reported, and a
      login state is replaced by compare-and-swap.
    - Time: [next_occurrence] finds the least instant at which a schedule fires,
      also where the wall clock jumps, the preview is complete, printed cron
      expressions are read back; no occurrence is triggered twice, a scan serves
      what it selects, a claim and a dispatch happen once.
    - Pipelines and deliveries: an idempotency key starts one plan run, a dead
      token stays dead, a delivery in progress is not sent a second time before
      its lease has run out.
    - Assertions: the safety check of regular expressions accepts exactly the
      texts of trees without nested repetitions ([safe_regex_errors_decides]),
      and a JSON Schema assertion runs only patterns that passed it.
    - Slots are conserved under any interleaving of threads and releasing never
      fails.
    - Scenarios: every execution ends and every node is reported once and in
      order; the outcome agrees with the traces; after a failure nothing is
      called any more but every cleanup is; a failed attempt leaves no variables
      behind; what is reported passes the checks of the client and is accepted
      by the back end ([scenario_report_accepted]).
    - API cases: credentials are sent to the origin of the request only, whatever
      redirects the target answers with ([credentials_stay_at_origin]); results
      are bounded; failures are errors the caller knows; query strings are read
      back as built; every resource a pipeline registered is cleaned up or
      skipped as its policy says ([pipeline_cleans_up]); its traces tell which
      action failed; the worker always answers.
    - The message: what the back end dispatched is read back by the runner field
      for field and goes to the path of its run type
      ([dispatched_message_reaches_runner], [envelope_crosses_broker]), and what
      the parser accepts is well formed.
    - Tasks: whatever the client, the processes and the broker do, a delivery is
      settled exactly once unless an exception leaves it to the broker, it is
      acknowledged only after the back end confirmed its result, every process
      that was started is closed, every execution with a deadline ends
      ([executions_end]), and a load is applied once however often its message
      arrives at the process that measured it ([load_applied_once]).
    - Reports: a completion the back end accepts makes the runner acknowledge
      ([single_case_report_acknowledged], [web_report_acknowledged]), the failure
      of a supervised Web process closes the run
      ([supervised_web_failure_completes]), and incomplete Web reports are
      refused.
    - Behaviour that contradicts the intent of the code is proved as well: a
      cancelled run with a failed iteration never completes, a verdict REVIEW is
      stored as a failure, one cancelling node blocks the disconnection of all
      runs of its runner, a bearer credential survives redaction, a stale
      delivery exceeds its attempts, concurrent retries start a plan twice, a
      login that timed out cannot be reported, a quantifier without a lower
      bound escapes the check of regular expressions, a disabled cleanup node
      runs, a scenario that failed after an AI assertion is refused, a response
      cut at the end of a chunk counts as complete, a failed cleanup loses the
      traces of its pipeline, a WEB slot for an API run is published and refused
      by the runner, a Web result without traces is refused
      ([incomplete_web_report_refused]).

    ** Bounds

    All definitions are total.  The search for an occurrence goes through
    [HORIZON] = 2928 days, the code's own bound; [next_occurrence_least] says
    that it fails exactly when nothing fires within it.  Ten attempts of a
    dispatch and 100 schedules per scan are the code's bounds too.  The
    recursions of the text functions are structural or on the length of the
    text ([scan_text_cons]); those on schemas have the height of the schema as
    fuel, and more changes nothing ([validate_fuel], [schema_definition_fuel]).
    The executor of scenarios descends at most as deep as there are nodes
    ([depth_fuel]) and waits in at most [wait_fuel] steps, the redirect loop of
    the API executor has the code's eleven rounds, the request of a pipeline is
    repeated at most [max_retries] times; the theorems on termination show that
    none of them ever runs out.  The consumer looks at a child process every
    0.2 s until the deadline of the execution, and fuel for these rounds is
    enough; a recording has no deadline, its watch ends with the process or with
    a request to stop, so the theorems about it hold for any fuel and say nothing
    about its end.  Python's recursion limit is not modelled.

    ** Not modelled

    Execution plans, the AI evaluation and the evidence of Web executions; the
    editing of login states by users; the resolution of a run's target; the
    threads that repeat the background scans; listings and other reads; of the
    runner the browser, JMeter, load, recording and exploration executors, the
    file store of load results, the preparation of Web evidence, the script
    interpreter, redaction, the broker connection, registration and heartbeats,
    the other messages of its protocol, and in the consumer the texts of error
    messages; authoring of cases, scenarios and Web assets;
    accounts, models, prompts, requirements, datasets, environments, reports;
    the deployment scripts and the front end.  These are drivers of third-party
    libraries, queries without logic of their own, or components whose contracts
    appear above as type classes. *)
From Stdlib Require Import SpecFloat.
From Stdlib Require Export ZifyBool ZifyN ZifyNat.
From stdpp Require Export base tactics option numbers strings gmap list.

Declare Scope platform_scope.
Delimit Scope platform_scope with platform.
Open Scope platform_scope.

(** * Errors as values

    [app/core/exceptions.py] derives every service error from [AppError]; a
    handler either returns or raises one of them.  The HTTP status code and the
    machine code are functions of the class, so the class and the message are
    what the model keeps. *)

Inductive app_error : Type :=
  | AuthenticationError (message : string)
  | AuthorizationError (message : string)
  | ResourceNotFoundError (message : string)
  | ResourceConflictError (message : string)
  | RedisUnavailableError (message : string)
  | RunValidationError (issues : list string)
  | RunStateConflictError (message : string)
  | RunDispatchPendingError
  | RunExecutionUnsupportedError (message : string)
  | EvidenceStorageError (message : string)
  | UnexpectedError (message : string).

(** The [code] each class passes to [AppError.__init__]. *)
Definition error_code (e : app_error) : string :=
  match e with
  | AuthenticationError _ => "AUTH_ERROR"
  | AuthorizationError _ => "PERMISSION_DENIED"
  | ResourceNotFoundError _ => "RESOURCE_NOT_FOUND"
  | ResourceConflictError _ => "RESOURCE_CONFLICT"
  | RedisUnavailableError _ => "REDIS_UNAVAILABLE"
  | RunValidationError _ => "RUN_VALIDATION_FAILED"
  | RunStateConflictError _ => "RUN_STATE_CONFLICT"
  | RunDispatchPendingError => "RUN_DISPATCH_PENDING"
  | RunExecutionUnsupportedError _ => "RUN_EXECUTION_UNSUPPORTED"
  | EvidenceStorageError _ => "EVIDENCE_STORAGE_UNAVAILABLE"
  | UnexpectedError _ => "INTERNAL_ERROR"
  end.

(** The [message] of an error; [str(exc)] of an exception outside the hierarchy. *)
Definition error_message (e : app_error) : string :=
  match e with
  | AuthenticationError m | AuthorizationError m | ResourceNotFoundError m
  | ResourceConflictError m | RedisUnavailableError m | RunStateConflictError m
  | RunExecutionUnsupportedError m | EvidenceStorageError m | UnexpectedError m => m
  | RunValidationError _ => "Run 执行前校验失败"
  | RunDispatchPendingError => "Run 任务发布确认尚未完成，请稍后重试"
  end.

(** [isinstance(exc, AppError)]. *)
Definition is_app_error (e : app_error) : bool :=
  match e with UnexpectedError _ => false | _ => true end.

Inductive result (A : Type) : Type :=
  | Ok (a : A)
  | Err (e : app_error).
Arguments Ok {A} a.
Arguments Err {A} e.

#[global] Instance result_ret : MRet result := fun A a => Ok a.
#[global] Instance result_bind : MBind result := fun A B f r =>
  match r with Ok a => f a | Err e => Err e end.
#[global] Instance result_fmap : FMap result := fun A B f r =>
  match r with Ok a => Ok (f a) | Err e => Err e end.

Definition is_ok {A} (r : result A) : bool := match r with Ok _ => true | Err _ => false end.

(** [raise_unless b e] is [if not b: raise e]; [raise_if] its dual. *)
Definition raise_unless (b : bool) (e : app_error) : result unit := if b then Ok tt else Err e.
Definition raise_if (b : bool) (e : app_error) : result unit := if b then Err e else Ok tt.

(** [x = lookup(); if x is None: raise e]. *)
Definition some_or {A} (o : option A) (e : app_error) : result A :=
  match o with Some a => Ok a | None => Err e end.

(** A Python [for] loop whose body may raise and rebuilds each element. *)
Fixpoint map_result {A B} (f : A -> result B) (l : list A) : result (list B) :=
  match l with
  | [] => Ok []
  | x :: l' => y ← f x; ys ← map_result f l'; Ok (y :: ys)
  end.

(** A Python [for] loop whose body updates a state and may raise. *)
Fixpoint fold_result {A B} (f : B -> A -> result B) (b : B) (l : list A) : result B :=
  match l with
  | [] => Ok b
  | x :: l' => b' ← f b x; fold_result f b' l'
  end.

(** * Automation *)

Create HintDb platform.

Lemma Ok_inj {A} (x y : A) : Ok x = Ok y -> x = y.
Proof. by injection 1. Qed.

(** Peel the guards off a hypothesis [m ≫= k = Ok x], one bind at a time. *)
Ltac inv_ok :=
  repeat match goal with
  | H : Ok ?x = Ok ?x |- _ => clear H
  | H : Ok _ = Ok _ |- _ => apply Ok_inj in H; try subst
  | H : Err _ = Ok _ |- _ => discriminate H
  | H : Ok _ = Err _ |- _ => discriminate H
  | H : None = Some _ |- _ => discriminate H
  | H : Some _ = None |- _ => discriminate H
  | H : mret _ = _ |- _ => unfold mret, result_ret in H
  | H : raise_unless ?b _ = Ok _ |- _ =>
      let E := fresh "G" in destruct b eqn:E; cbn [raise_unless] in H; [clear H | discriminate H]
  | H : raise_if ?b _ = Ok _ |- _ =>
      let E := fresh "G" in destruct b eqn:E; cbn [raise_if] in H; [discriminate H | clear H]
  | H : some_or ?o _ = Ok _ |- _ =>
      let E := fresh "G" in destruct o eqn:E; cbn [some_or] in H; [| discriminate H]
  | H : mbind ?f ?m = Ok _ |- _ =>
      let E := fresh "E" in destruct m eqn:E;
      cbn [mbind result_bind] in H; [| discriminate H]
  | H : (_, _) = (_, _) |- _ => apply pair_eq in H; destruct H; try subst
  | H : unit |- _ => destruct H
  end.

(** Case analysis on every [match]/[if] in the goal or in a hypothesis, closing
    the contradictory branches. *)
Ltac split_match :=
  repeat (case_match; simplify_eq/=; try done).

Lemma bind_ok {A B} (m : result A) (k : A -> result B) y :
  (x ← m; k x) = Ok y <-> exists x, m = Ok x /\ k x = Ok y.
Proof.
  destruct m as [a|e]; cbn; split.
  - by exists a.
  - by intros (? & [= ->] & ?).
  - done.
  - by intros (? & ? & ?).
Qed.

Lemma map_result_ok {A B} (f : A -> result B) l l' :
  map_result f l = Ok l' <-> Forall2 (fun x y => f x = Ok y) l l'.
Proof.
  revert l'. induction l as [|x l IH]; intros l'; cbn.
  - split; [intros ?; inv_ok; constructor | by inversion 1].
  - split.
    + intros ?; inv_ok. constructor; [done | by apply IH].
    + intros Hl. inversion Hl as [|? y ? ys Hx Hys]; simplify_eq. rewrite Hx; cbn.
      apply IH in Hys. by rewrite Hys.
Qed.

(** If the body never raises, neither does the loop. *)
Lemma map_result_total {A B} (f : A -> result B) l :
  (forall x, x ∈ l -> exists y, f x = Ok y) -> exists l', map_result f l = Ok l'.
Proof.
  induction l as [|x l IH]; intros H; [by eexists|]. cbn.
  destruct (H x) as [y ->]; [by left|]. cbn.
  destruct IH as [l' ->]; [intros; apply H; by right|]. by eexists.
Qed.

(** A property every body result has holds of the whole list. *)
Lemma map_result_Forall {A B} (f : A -> result B) (P : B -> Prop) l l' :
  map_result f l = Ok l' -> (forall x y, x ∈ l -> f x = Ok y -> P y) -> Forall P l'.
Proof.
  rewrite map_result_ok.
  induction 1 as [|x y l l' Hxy Hll IH]; intros Hp; constructor; [eapply Hp; [by left | done]|].
  apply IH. intros; eapply Hp; [by right | done].
Qed.

(** What the body relates pointwise, the loop relates pointwise. *)
Lemma map_result_Forall2 {A B} (f : A -> result B) (R : A -> B -> Prop) l l' :
  map_result f l = Ok l' -> (forall x y, x ∈ l -> f x = Ok y -> R x y) -> Forall2 R l l'.
Proof.
  rewrite map_result_ok. induction 1 as [|x y l l' Hxy Hl IH]; intros HR; constructor.
  - eapply HR; [by left | done].
  - apply IH. intros; eapply HR; [by right | done].
Qed.

(** One raising body makes the whole loop raise. *)
Lemma map_result_Err {A B} (f : A -> result B) l x :
  x ∈ l -> is_ok (f x) = false -> is_ok (map_result f l) = false.
Proof.
  induction l as [|y l IH]; [by inversion 1|]. cbn. intros [<-|Hx]%elem_of_cons Hf.
  - by destruct (f x).
  - destruct (f y); [|done]. cbn. specialize (IH Hx Hf). by destruct (map_result f l).
Qed.

Lemma Forall2_elem_l {A B} (R : A -> B -> Prop) l l' x :
  Forall2 R l l' -> x ∈ l -> exists y, y ∈ l' /\ R x y.
Proof.
  intros Hl [i Hi]%list_elem_of_lookup. destruct (Forall2_lookup_l _ _ _ _ _ Hl Hi) as (y & Hy & HR).
  exists y. split; [by eapply list_elem_of_lookup_2 | done].
Qed.

Lemma NoDup_ids_inj {A B} (f : A -> B) l x y :
  NoDup (f <$> l) -> x ∈ l -> y ∈ l -> f x = f y -> x = y.
Proof.
  induction l as [|z l IH]; cbn; [by inversion 2|]. intros [Hz Hnd]%NoDup_cons Hx Hy Hf.
  apply elem_of_cons in Hx as [->|Hx], Hy as [->|Hy]; try done; [| |by apply IH].
  - destruct Hz. rewrite Hf. by apply list_elem_of_fmap_2.
  - destruct Hz. rewrite <- Hf. by apply list_elem_of_fmap_2.
Qed.

Lemma Forall2_conj {A B} (P Q : A -> B -> Prop) l l' :
  Forall2 P l l' -> Forall2 Q l l' -> Forall2 (fun x y => P x y /\ Q x y) l l'.
Proof. induction 1; inversion 1; constructor; auto. Qed.

(** * Milliseconds between two datetimes

    [int((b - a).total_seconds() * 1000)] goes through a binary64 division and a
    binary64 product, so it can fall one millisecond short of the exact
    quotient; the model computes the same two rounded operations. *)
Module Float64.
Definition prec : Z := 53.
Definition emax : Z := 1024.
Definition of_Z (z : Z) : spec_float := binary_normalize prec emax z 0 false.
Definition div := SFdiv prec emax.
Definition mul := SFmul prec emax.
(** Python's [int(float)]: truncation towards zero. *)
Definition to_Z (f : spec_float) : Z :=
  match f with
  | S754_finite s m e =>
      let q := match e with
               | Z0 => Zpos m
               | Zpos p => Zpos m * 2 ^ Zpos p
               | Zneg p => Zpos m / 2 ^ Zpos p
               end%Z in
      if s then (- q)%Z else q
  | _ => 0%Z
  end.
End Float64.

(** [int(timedelta(microseconds=us).total_seconds() * 1000)]. *)
Definition total_seconds_ms (us : Z) : Z :=
  Float64.to_Z (Float64.mul (Float64.div (Float64.of_Z us) (Float64.of_Z 1000000))
                            (Float64.of_Z 1000)).

Example total_seconds_ms_exact : total_seconds_ms 2500000 = 2500%Z.
Proof. vm_compute. reflexivity. Qed.

(** 1.001 s is reported as 1000 ms: the product rounds below 1001. *)
Example total_seconds_ms_rounds_down : total_seconds_ms 1001000 = 1000%Z.
Proof. vm_compute. reflexivity. Qed.
