(* ===== verification/PyText.v ===== *)
(** Python text: [str] values as lists of code points, the [str] methods the
    services call, and the redaction of error text
    ([_SENSITIVE_TEXT] / [_safe_error] in [runs/service.py]). *)
From S2P Require Import Prelude.
From Stdlib Require Import Ascii.

Open Scope N_scope.

Abbreviation pytext := (list N).

(** ** Literals: the UTF-8 bytes of a Rocq string decoded to code points *)

Fixpoint bytes_of (s : string) : list N :=
  match s with
  | EmptyString => []
  | String c s' => N_of_ascii c :: bytes_of s'
  end.

Definition cont (b : N) : N := N.land b 63.

Fixpoint utf8_decode (bs : list N) : pytext :=
  match bs with
  | [] => []
  | b :: r =>
      if b <? 128 then b :: utf8_decode r
      else if b <? 224 then
        match r with
        | b1 :: r1 => (N.land b 31 * 64 + cont b1) :: utf8_decode r1
        | _ => []
        end
      else if b <? 240 then
        match r with
        | b1 :: b2 :: r2 => (N.land b 15 * 4096 + cont b1 * 64 + cont b2) :: utf8_decode r2
        | _ => []
        end
      else
        match r with
        | b1 :: b2 :: b3 :: r3 =>
            (N.land b 7 * 262144 + cont b1 * 4096 + cont b2 * 64 + cont b3) :: utf8_decode r3
        | _ => []
        end
  end.

Definition u (s : string) : pytext := utf8_decode (bytes_of s).

(** ** [str.isspace], [str.strip], slicing *)

(** The code points for which [str.isspace()] holds; [\s] matches the same set. *)
Definition isspace (c : N) : bool :=
  ((9 <=? c) && (c <=? 13)) || ((28 <=? c) && (c <=? 32)) || (c =? 133) || (c =? 160)
  || (c =? 5760) || ((8192 <=? c) && (c <=? 8202)) || (c =? 8232) || (c =? 8233)
  || (c =? 8239) || (c =? 8287) || (c =? 12288).

Fixpoint lstrip (s : pytext) : pytext :=
  match s with
  | [] => []
  | c :: s' => if isspace c then lstrip s' else s
  end.

Definition strip (s : pytext) : pytext := reverse (lstrip (reverse (lstrip s))).

(** [s or None]. *)
Definition or_none (s : pytext) : option pytext := match s with [] => None | _ => Some s end.

(** ** The [_SENSITIVE_TEXT] regular expression

    [(?i)(?:bearer\s+[^\s,;]+|(?:password|token|access[_-]?token|refresh[_-]?token|
    authorization|cookie|secret|api[_-]?key|credential)\s*[:=]\s*[^\s,;]+)]

    Under [(?i)] a pattern letter also matches the code points whose simple
    lower case is that letter (U+212A for k, U+0130 for i) and the engine's
    extra equivalents (U+017F for s, U+0131 for i).  At one position at most one
    alternative can match, and every repeated class is disjoint from what
    follows it, so greedy matching never backtracks into another result. *)

Definition re_lower (c : N) : N :=
  if (65 <=? c) && (c <=? 90) then c + 32
  else if c =? 304 then 105
  else if c =? 8490 then 107
  else c.

Definition ci_match (p c : N) : bool :=
  let l := re_lower c in
  (l =? p) || ((p =? 105) && (l =? 305)) || ((p =? 115) && (l =? 383)).

Inductive kw_elem := Lit (c : N) | OptSep.

Definition lits (s : string) : list kw_elem := Lit <$> u s.

Definition bearer_kw : list kw_elem := lits "bearer".

Definition assign_kws : list (list kw_elem) :=
  [ lits "password"; lits "token";
    lits "access" ++ [OptSep] ++ lits "token";
    lits "refresh" ++ [OptSep] ++ lits "token";
    lits "authorization"; lits "cookie"; lits "secret";
    lits "api" ++ [OptSep] ++ lits "key"; lits "credential" ].

Definition is_sep (c : N) : bool := (c =? 95) || (c =? 45).
Definition is_value (c : N) : bool := negb (isspace c) && negb (c =? 44) && negb (c =? 59).
Definition is_assign (c : N) : bool := (c =? 58) || (c =? 61).

(** Match a keyword at the front; the number of characters consumed and the rest. *)
Fixpoint match_kw (p : list kw_elem) (s : pytext) : option (nat * pytext) :=
  match p with
  | [] => Some (0%nat, s)
  | Lit l :: p' =>
      match s with
      | c :: s' =>
          if ci_match l c then
            match match_kw p' s' with Some (n, r) => Some (S n, r) | None => None end
          else None
      | [] => None
      end
  | OptSep :: p' =>
      match s with
      | c :: s' =>
          if is_sep c then
            match match_kw p' s' with Some (n, r) => Some (S n, r) | None => None end
          else match_kw p' s
      | [] => match_kw p' s
      end
  end.

(** Length of the longest prefix in a class, and what follows it. *)
Fixpoint span (f : N -> bool) (s : pytext) : nat * pytext :=
  match s with
  | c :: s' => if f c then let '(n, r) := span f s' in (S n, r) else (0%nat, s)
  | [] => (0%nat, [])
  end.

Definition match_value (s : pytext) : option nat :=
  match span is_value s with (0%nat, _) => None | (n, _) => Some n end.

Definition match_bearer (s : pytext) : option nat :=
  match match_kw bearer_kw s with
  | None => None
  | Some (n, r) =>
      match span isspace r with
      | (0%nat, _) => None
      | (k, r') =>
          match match_value r' with Some v => Some (n + k + v)%nat | None => None end
      end
  end.

Definition match_assignment (kw : list kw_elem) (s : pytext) : option nat :=
  match match_kw kw s with
  | None => None
  | Some (n, r) =>
      let '(k, r') := span isspace r in
      match r' with
      | c :: r'' =>
          if is_assign c then
            let '(j, r3) := span isspace r'' in
            match match_value r3 with Some v => Some (n + k + S (j + v))%nat | None => None end
          else None
      | [] => None
      end
  end.

Fixpoint first_match (fs : list (pytext -> option nat)) (s : pytext) : option nat :=
  match fs with
  | [] => None
  | f :: fs' => match f s with Some n => Some n | None => first_match fs' s end
  end.

(** The length matched by [_SENSITIVE_TEXT.match] at the front of [s]. *)
Definition match_sensitive (s : pytext) : option nat :=
  first_match (match_bearer :: (match_assignment <$> assign_kws)) s.

Definition redacted : pytext := u "<redacted>".

(** [_SENSITIVE_TEXT.sub("<redacted>", s)]: [skip] counts the characters of the
    current match still to be dropped. *)
Fixpoint sub_sensitive (s : pytext) (skip : nat) : pytext :=
  match s with
  | [] => []
  | c :: s' =>
      match skip with
      | S k => sub_sensitive s' k
      | O =>
          match match_sensitive s with
          | Some (S n) => redacted ++ sub_sensitive s' n
          | _ => c :: sub_sensitive s' 0
          end
      end
  end.

(** [_safe_error(value, maximum=...)]. *)
Definition safe_error (maximum : nat) (value : option pytext) : option pytext :=
  match value with
  | None => None
  | Some v => Some (take maximum (sub_sensitive v 0))
  end.

Example sub_sensitive_1 :
  sub_sensitive (u "登录失败 Authorization: Bearer abc, api-key = K1; ok") 0
  = u "登录失败 <redacted> abc, <redacted>; ok".
Proof. vm_compute. reflexivity. Qed.

(** ** Redaction is complete with respect to its own pattern *)

(** No position of [s] starts a [_SENSITIVE_TEXT] match. *)
Definition sensitive_free (s : pytext) : Prop :=
  forall i, match_sensitive (drop i s) = None.

Section redaction.
(** ['<'], the first character of the replacement. *)
Abbreviation LT := 60.

Definition kw_ok (e : kw_elem) : Prop :=
  match e with Lit l => 97 <= l <= 122 | OptSep => True end.

(** What the characters that can start a keyword have in common. *)
Definition kw_start (c : N) : Prop :=
  is_value c = true /\ isspace c = false /\ is_sep c = false.

Lemma ci_match_start l c : 97 <= l <= 122 -> ci_match l c = true -> kw_start c.
Proof.
  intros Hl Hm. assert (Hc : 65 <= c <= 122 /\ c <> 95 \/ c = 304 \/ c = 305 \/ c = 383 \/ c = 8490).
  { unfold ci_match, re_lower in Hm.
    destruct ((65 <=? c) && (c <=? 90)) eqn:E1; [lia|].
    destruct (c =? 304) eqn:E2; [lia|]. destruct (c =? 8490) eqn:E3; [lia|]. lia. }
  unfold kw_start, is_value, is_sep, isspace. lia.
Qed.

Lemma ci_match_LT l : 97 <= l <= 122 -> ci_match l LT = false.
Proof. intros Hl. unfold ci_match. change (re_lower LT) with LT. lia. Qed.

(** [lockstep s o]: [o] is [s] up to a point where a keyword character of [s]
    has been replaced by ['<'] and whatever follows. *)
Inductive lockstep : pytext -> pytext -> Prop :=
  | lock_nil : lockstep [] []
  | lock_keep c s o : lockstep s o -> lockstep (c :: s) (c :: o)
  | lock_cut c s o : kw_start c -> lockstep (c :: s) (LT :: o).

Lemma match_kw_lockstep p s o n r :
  Forall kw_ok p -> lockstep s o -> match_kw p o = Some (n, r) ->
  exists r0, match_kw p s = Some (n, r0) /\ lockstep r0 r.
Proof.
  intros Hp. revert s o n r.
  induction Hp as [|e p He Hp IH]; intros s o n r Hl Hm; cbn in *; [naive_solver|].
  destruct e as [l|]; destruct Hl as [|c s o Hl|c s o Hc]; try done.
  - destruct (ci_match l c) eqn:Hlc; [|done]. destruct (match_kw p o) as [[??]|] eqn:E; [|done].
    simplify_eq. destruct (IH _ _ _ _ Hl E) as (r0 & -> & ?). eauto.
  - by rewrite ci_match_LT in Hm.
  - by apply (IH [] [] _ _ lock_nil).
  - destruct (is_sep c).
    + destruct (match_kw p o) as [[??]|] eqn:E; [|done].
      simplify_eq. destruct (IH _ _ _ _ Hl E) as (r0 & -> & ?). eauto.
    + by apply (IH _ _ _ _ (lock_keep c _ _ Hl)).
  - destruct Hc as (? & ? & Hsep). rewrite Hsep. cbn in Hm.
    eapply IH; [|done]. by apply lock_cut.
Qed.

Lemma span_space_lockstep s o n r :
  lockstep s o -> span isspace o = (n, r) ->
  exists r0, span isspace s = (n, r0) /\ lockstep r0 r.
Proof.
  intros Hl. revert n r. induction Hl as [|c s o Hl IH|c s o Hc]; intros n r Hm; cbn in *.
  - simplify_eq. eauto using lockstep.
  - destruct (isspace c).
    + destruct (span isspace o) as [k q]. simplify_eq.
      destruct (IH _ _ eq_refl) as (r0 & -> & ?). eauto.
    + simplify_eq. eauto using lockstep.
  - destruct Hc as (? & Hs & ?). rewrite Hs. simplify_eq. eexists; split; [done|].
    by apply lock_cut.
Qed.

Lemma match_value_lockstep s o n :
  lockstep s o -> match_value o = Some n -> exists m, match_value s = Some m.
Proof.
  unfold match_value. destruct 1 as [|c s o Hl|c s o Hc]; [done| |]; cbn.
  - destruct (is_value c); [|done]. destruct (span is_value s); eauto.
  - destruct Hc as (-> & ? & ?). destruct (span is_value s); eauto.
Qed.

Lemma match_bearer_lockstep s o n :
  lockstep s o -> match_bearer o = Some n -> exists m, match_bearer s = Some m.
Proof.
  intros Hl. unfold match_bearer. intros Hm.
  destruct (match_kw bearer_kw o) as [[k r]|] eqn:Ek; [|done].
  destruct (match_kw_lockstep bearer_kw s o k r) as (r0 & -> & Hl0);
    [by repeat constructor | done | done |].
  destruct (span isspace r) as [j r1] eqn:Es.
  destruct (span_space_lockstep _ _ _ _ Hl0 Es) as (r2 & -> & Hl2).
  destruct j; [done|]. destruct (match_value r1) eqn:Ev; [|done].
  destruct (match_value_lockstep _ _ _ Hl2 Ev) as [m ->]. eauto.
Qed.

Lemma match_assignment_lockstep kw s o n :
  Forall kw_ok kw -> lockstep s o ->
  match_assignment kw o = Some n -> exists m, match_assignment kw s = Some m.
Proof.
  intros Hkw Hl. unfold match_assignment. intros Hm.
  destruct (match_kw kw o) as [[k r]|] eqn:Ek; [|done].
  destruct (match_kw_lockstep kw s o k r) as (r0 & -> & Hl0); [done..|].
  destruct (span isspace r) as [j r1] eqn:Es.
  destruct (span_space_lockstep _ _ _ _ Hl0 Es) as (r2 & -> & Hl2).
  destruct Hl2 as [|c r2 r1 Hl2|c r2 r1 Hc]; [done| |done].
  destruct (is_assign c); [|done].
  destruct (span isspace r1) as [j' r3] eqn:Es'.
  destruct (span_space_lockstep _ _ _ _ Hl2 Es') as (r4 & -> & Hl4).
  destruct (match_value r3) eqn:Ev; [|done].
  destruct (match_value_lockstep _ _ _ Hl4 Ev) as [m ->]. eauto.
Qed.

Lemma first_match_Some fs s n :
  first_match fs s = Some n -> exists f, f ∈ fs /\ f s = Some n.
Proof.
  induction fs as [|f fs IH]; cbn; [done|]. destruct (f s) eqn:E; intros; simplify_eq.
  - exists f. split; [by left|done].
  - destruct IH as (g & ? & ?); [done|]. exists g. split; [by right|done].
Qed.

Lemma first_match_None fs s f : first_match fs s = None -> f ∈ fs -> f s = None.
Proof.
  induction fs as [|g fs IH]; cbn; [by inversion 2|].
  destruct (g s) eqn:E; [done|]. intros ? [->|?]%elem_of_cons; auto.
Qed.

Lemma assign_kws_ok : Forall (Forall kw_ok) assign_kws.
Proof. vm_compute. repeat constructor; discriminate. Qed.

(** A match in the rewritten text was already one in the source text. *)
Lemma match_sensitive_lockstep s o :
  lockstep s o -> match_sensitive s = None -> match_sensitive o = None.
Proof.
  intros Hl Hn. destruct (match_sensitive o) as [n|] eqn:E; [|done]. exfalso.
  apply first_match_Some in E as (f & Hf & E).
  apply elem_of_cons in Hf as [->|(kw & -> & Hkw)%list_elem_of_fmap].
  - destruct (match_bearer_lockstep _ _ _ Hl E) as [m Hm].
    by rewrite (first_match_None _ _ match_bearer Hn ltac:(by left)) in Hm.
  - pose proof (proj1 (Forall_forall _ _) assign_kws_ok kw Hkw) as Hok.
    destruct (match_assignment_lockstep _ _ _ _ Hok Hl E) as [m Hm].
    rewrite (first_match_None _ _ (match_assignment kw) Hn) in Hm; [done|].
    right. by apply list_elem_of_fmap_2.
Qed.

Lemma match_kw_start l p c s x :
  97 <= l <= 122 -> match_kw (Lit l :: p) (c :: s) = Some x -> kw_start c.
Proof.
  cbn. intros Hl. destruct (ci_match l c) eqn:E; [|done]. intros _. by eapply ci_match_start.
Qed.

Lemma assign_kws_head kw : kw ∈ assign_kws -> exists l p, kw = Lit l :: p /\ 97 <= l <= 122.
Proof.
  intros Hin. assert (Hok : Forall (fun kw => exists l p, kw = Lit l :: p /\ 97 <= l <= 122)
    assign_kws).
  { vm_compute. repeat constructor; do 2 eexists; (split; [reflexivity | by split]). }
  exact (proj1 (Forall_forall _ _) Hok kw Hin).
Qed.

Lemma match_sensitive_start c s n : match_sensitive (c :: s) = Some n -> kw_start c.
Proof.
  intros (f & Hf & E)%first_match_Some.
  apply elem_of_cons in Hf as [->|(kw & -> & Hkw)%list_elem_of_fmap].
  - unfold match_bearer in E. destruct (match_kw _ _) as [[??]|] eqn:Ek; [|done].
    by apply (match_kw_start 98 (lits "earer")) in Ek.
  - unfold match_assignment in E. destruct (match_kw _ _) as [[??]|] eqn:Ek; [|done].
    destruct (assign_kws_head _ Hkw) as (h & p & -> & ?). by apply match_kw_start in Ek.
Qed.

Lemma sub_sensitive_lockstep s : lockstep s (sub_sensitive s 0).
Proof.
  induction s as [|c s IH]; cbn [sub_sensitive]; [constructor|].
  destruct (match_sensitive (c :: s)) as [[|n]|] eqn:E; [by apply lock_keep| |by apply lock_keep].
  apply lock_cut. by eapply match_sensitive_start.
Qed.

Lemma match_sensitive_nonzero s : match_sensitive s <> Some 0%nat.
Proof.
  intros (f & Hf & E)%first_match_Some.
  apply elem_of_cons in Hf as [->|(kw & -> & Hkw)%list_elem_of_fmap].
  - unfold match_bearer in E. repeat case_match; simplify_eq; lia.
  - unfold match_assignment in E. repeat case_match; simplify_eq; lia.
Qed.

(** No suffix of the replacement can open a match, whatever follows it. *)
Lemma redacted_no_match i s :
  (i < 10)%nat -> match_sensitive (drop i (redacted ++ s)) = None.
Proof. intros Hi. do 10 (destruct i as [|i]; [reflexivity|]). lia. Qed.

(** Substitution leaves no match anywhere in its result. *)
Lemma sub_sensitive_free s k : sensitive_free (sub_sensitive s k).
Proof.
  revert k. induction s as [|c s IH]; intros k i; cbn [sub_sensitive].
  { by rewrite drop_nil. }
  destruct k as [|k]; [|apply IH].
  assert (Hkeep : match_sensitive (c :: s) = None ->
    match_sensitive (drop i (c :: sub_sensitive s 0)) = None).
  { intros Hn. destruct i as [|i]; [|apply IH]. cbn [drop].
    eapply match_sensitive_lockstep; [|exact Hn]. apply lock_keep, sub_sensitive_lockstep. }
  destruct (match_sensitive (c :: s)) as [[|n]|] eqn:E; [|clear Hkeep|by apply Hkeep].
  - by apply match_sensitive_nonzero in E.
  - destruct (decide (i < 10)%nat) as [Hi|Hi]; [by apply redacted_no_match|].
    rewrite drop_app_ge by (change (length redacted) with 10%nat; lia). apply IH.
Qed.
End redaction.

(** Cutting a match-free text cannot create a match: a match in a prefix is a
    match in the whole. *)
Lemma span_prefix f s t n r :
  span f s = (n, r) -> r <> [] -> span f (s ++ t) = (n, r ++ t).
Proof.
  revert n r. induction s as [|c s IH]; intros n r; cbn; [by intros [= <- <-]|].
  destruct (f c); [|by intros [= <- <-]]. destruct (span f s) as [k q]. intros [= <- <-] Hq.
  by rewrite (IH k q eq_refl Hq).
Qed.

Lemma match_kw_nil p n r : match_kw p [] = Some (n, r) -> r = [].
Proof. induction p as [|[l|] p IH]; cbn; [by intros [= <- <-]|done|done]. Qed.

Lemma match_kw_prefix p s t n r :
  match_kw p s = Some (n, r) -> r <> [] -> match_kw p (s ++ t) = Some (n, r ++ t).
Proof.
  revert s n r. induction p as [|e p IH]; intros s n r; cbn; [by intros [= <- <-]|].
  destruct s as [|c s].
  { intros Hm Hr. destruct e; [done|]. by apply match_kw_nil in Hm. }
  cbn. destruct e as [l|].
  - destruct (ci_match l c); [|done]. destruct (match_kw p s) as [[k q]|] eqn:E; [|done].
    intros [= <- <-] Hr. by rewrite (IH _ _ _ E Hr).
  - destruct (is_sep c); [|apply (IH (c :: s))].
    destruct (match_kw p s) as [[k q]|] eqn:E; [|done].
    intros [= <- <-] Hr. by rewrite (IH _ _ _ E Hr).
Qed.

Lemma match_value_prefix s t n :
  match_value s = Some n -> s <> [] /\ exists m, match_value (s ++ t) = Some m.
Proof.
  unfold match_value. destruct s as [|c s]; [done|]. cbn.
  destruct (is_value c); [|done]. destruct (span is_value (s ++ t)). eauto.
Qed.

Lemma match_bearer_prefix s t n :
  match_bearer s = Some n -> exists m, match_bearer (s ++ t) = Some m.
Proof.
  unfold match_bearer. destruct (match_kw _ s) as [[k r]|] eqn:Ek; [|done].
  destruct (span isspace r) as [j r1] eqn:Es. destruct j as [|j]; [done|].
  destruct (match_value r1) as [v|] eqn:Ev; [|done]. intros _.
  destruct (match_value_prefix _ t _ Ev) as (Hr1 & m & Hm).
  assert (r <> []) as Hr by (intros ->; done).
  rewrite (match_kw_prefix _ _ _ _ _ Ek Hr), (span_prefix _ _ _ _ _ Es Hr1), Hm. eauto.
Qed.

Lemma match_assignment_prefix kw s t n :
  match_assignment kw s = Some n -> exists m, match_assignment kw (s ++ t) = Some m.
Proof.
  unfold match_assignment. destruct (match_kw _ s) as [[k r]|] eqn:Ek; [|done].
  destruct (span isspace r) as [j r1] eqn:Es. destruct r1 as [|c r1]; [done|].
  destruct (is_assign c) eqn:Ec; [|done]. destruct (span isspace r1) as [j' r2] eqn:Es2.
  destruct (match_value r2) as [v|] eqn:Ev; [|done]. intros _.
  destruct (match_value_prefix _ t _ Ev) as (Hr2 & m & Hm).
  assert (r <> []) as Hr by (intros ->; done).
  rewrite (match_kw_prefix _ _ _ _ _ Ek Hr), (span_prefix _ _ _ _ _ Es) by done. cbn.
  rewrite Ec, (span_prefix _ _ _ _ _ Es2 Hr2), Hm. eauto.
Qed.

Lemma match_sensitive_prefix s t : match_sensitive (s ++ t) = None -> match_sensitive s = None.
Proof.
  intros Hn. destruct (match_sensitive s) as [n|] eqn:E; [|done]. exfalso.
  apply first_match_Some in E as (f & Hf & E).
  pose proof (first_match_None _ _ _ Hn Hf) as Hnone.
  apply elem_of_cons in Hf as [->|(kw & -> & Hkw)%list_elem_of_fmap].
  - apply (match_bearer_prefix _ t) in E as [m Hm]. congruence.
  - apply (match_assignment_prefix _ _ t) in E as [m Hm]. congruence.
Qed.

Lemma sensitive_free_take n s : sensitive_free s -> sensitive_free (take n s).
Proof.
  intros Hs i. apply (match_sensitive_prefix _ (drop (n - i) (drop i s))).
  rewrite skipn_firstn_comm, take_drop. apply Hs.
Qed.

Module SafeError.
(** The text [_safe_error] returns is at most [maximum] characters long and
    contains no fragment its own pattern would redact. *)
Theorem safe_error_bounded_and_redacted maximum value out :
  safe_error maximum value = Some out -> (length out <= maximum)%nat /\ sensitive_free out.
Proof.
  destruct value as [v|]; [|done]. cbn. intros [= <-]. split.
  - rewrite length_take. lia.
  - apply sensitive_free_take, sub_sensitive_free.
Qed.

Lemma safe_error_witness :
  exists out, safe_error 12 (Some (u "token=abc; cookie: x")) = Some out
    /\ (length out <= 12)%nat /\ sensitive_free out.
Proof.
  eexists. split; [vm_compute; reflexivity|].
  apply (safe_error_bounded_and_redacted 12 (Some (u "token=abc; cookie: x"))).
  vm_compute. reflexivity.
Defined.

(** The [authorization] alternative takes the scheme name for its value: in
    [Authorization: Bearer <credential>] only [Authorization: Bearer] is
    replaced and the credential that follows is left as it was written. *)
Theorem bearer_header_credential_survives credential :
  sub_sensitive (u "Authorization: Bearer " ++ credential) 0
  = redacted ++ u " " ++ sub_sensitive credential 0.
Proof.
  change (u "Authorization: Bearer ") with (u "Authorization: Bearer" ++ [32]).
  rewrite <- app_assoc.
  assert (Hm : match_sensitive (u "Authorization: Bearer" ++ [32] ++ credential) = Some 21%nat)
    by reflexivity.
  transitivity (redacted ++ sub_sensitive (u "uthorization: Bearer" ++ [32] ++ credential) 20).
  { change (u "Authorization: Bearer" ++ [32] ++ credential)
      with (65 :: (u "uthorization: Bearer" ++ [32] ++ credential)) in *.
    cbn [sub_sensitive]. by rewrite Hm. }
  reflexivity.
Qed.
End SafeError.
