(* ===== verification/Projects.v ===== *)
(** Projects and membership: [projects/service.py] and its tables.  Every other
    service asks this component whether a user may read or write a project. *)
From S2P Require Import Prelude PyText.

Module ProjectStatus.
Inductive t := ACTIVE | ARCHIVED.
#[global] Instance eq_dec : EqDecision t.
Proof. solve_decision. Defined.
End ProjectStatus.

Module ProjectRole.
Inductive t := PROJECT_OWNER | TESTER | VIEWER.
#[global] Instance eq_dec : EqDecision t.
Proof. solve_decision. Defined.
End ProjectRole.

(** [auth.schemas.CurrentUser], as far as authorization reads it. *)
Record CurrentUser := { user_id : string; user_roles : list string }.

Record Project := {
  p_name : pytext;
  p_code : pytext;
  p_description : option pytext;
  p_status : ProjectStatus.t;
  p_owner_id : string;
  p_archived_at : option Z;
  p_archived_at_basis : option string;
}.

(** The [projects], [project_members] and [users] tables; a user row is the flag
    [status == ACTIVE]. *)
Record ProjectDb := {
  projects : gmap Z Project;
  members : gmap (Z * string) ProjectRole.t;
  users : gmap string bool;
}.

Definition set_project (d : ProjectDb) (id : Z) (p : Project) : ProjectDb :=
  {| projects := <[id := p]> (projects d); members := members d; users := users d |}.
Definition set_members (d : ProjectDb) (m : gmap (Z * string) ProjectRole.t) : ProjectDb :=
  {| projects := projects d; members := m; users := users d |}.

(** ** Authorization *)

Definition is_admin (user : CurrentUser) : bool := bool_decide ("ADMIN" ∈ user_roles user).

(** [code.strip().upper()]; the request schema admits only ASCII codes. *)
Definition upper_ascii (c : N) : N := if ((97 <=? c) && (c <=? 122))%N then (c - 32)%N else c.
Definition normalize_code (code : pytext) : pytext := upper_ascii <$> strip code.

Definition get_project_row (d : ProjectDb) (project_id : Z) : result Project :=
  some_or (projects d !! project_id) (ResourceNotFoundError "项目不存在").

Definition require_active_user (d : ProjectDb) (uid : string) : result unit :=
  raise_unless (bool_decide (users d !! uid = Some true))
    (ResourceConflictError "目标用户不存在或已停用").

Definition ensure_project_visible (d : ProjectDb) (project_id : Z) (user : CurrentUser) : result unit :=
  if is_admin user then Ok tt
  else raise_unless (bool_decide (is_Some (members d !! (project_id, user_id user))))
         (ResourceNotFoundError "项目不存在").

Definition ensure_project_writable (d : ProjectDb) (project_id : Z) (user : CurrentUser) : result unit :=
  if is_admin user then Ok tt
  else
    match members d !! (project_id, user_id user) with
    | Some ProjectRole.PROJECT_OWNER | Some ProjectRole.TESTER => Ok tt
    | _ => Err (AuthorizationError "只有管理员、项目负责人或测试人员可以修改测试资产")
    end.

Definition ensure_project_owner (d : ProjectDb) (project_id : Z) (user : CurrentUser) : result unit :=
  if is_admin user then Ok tt
  else
    match members d !! (project_id, user_id user) with
    | Some ProjectRole.PROJECT_OWNER => Ok tt
    | _ => Err (AuthorizationError "只有管理员或项目负责人可以修改项目配置")
    end.

(** [get_project]: the row, provided the user can see it. *)
Definition get_project (d : ProjectDb) (user : CurrentUser) (project_id : Z) : result Project :=
  p ← get_project_row d project_id;
  _ ← ensure_project_visible d project_id user;
  Ok p.

(** ** Project operations *)

Record ProjectCreate := { pc_name : pytext; pc_code : pytext; pc_description : option pytext }.

(** [None] for a field the request did not set. *)
Record ProjectUpdate := {
  pu_name : option (option pytext);
  pu_code : option (option pytext);
  pu_description : option (option pytext);
}.

(** [select(Project.id).where(func.upper(Project.code) == code)], leaving out [self]. *)
Definition code_taken (d : ProjectDb) (code : pytext) (self : option Z) : bool :=
  bool_decide (Exists (fun '(id, p) => (upper_ascii <$> p_code p) = code /\ Some id <> self)
                 (map_to_list (projects d))).

(** [description.strip() if description else None]. *)
Definition clean_description (v : option pytext) : option pytext :=
  match v with Some (c :: s) => Some (strip (c :: s)) | _ => None end.

(** [new_id] is the key the database assigns to the inserted row. *)
Definition create_project (d : ProjectDb) (user : CurrentUser) (new_id : Z) (payload : ProjectCreate)
  : result (ProjectDb * Project) :=
  _ ← raise_unless (is_admin user) (AuthorizationError "只有管理员可以创建项目");
  let code := normalize_code (pc_code payload) in
  _ ← raise_if (code_taken d code None) (ResourceConflictError "项目编码已存在");
  let p := {| p_name := strip (pc_name payload); p_code := code;
              p_description := clean_description (pc_description payload);
              p_status := ProjectStatus.ACTIVE; p_owner_id := user_id user;
              p_archived_at := None; p_archived_at_basis := None |} in
  Ok (set_members (set_project d new_id p)
        (<[(new_id, user_id user) := ProjectRole.PROJECT_OWNER]> (members d)), p).

Definition with_code (p : Project) (code : pytext) : Project :=
  {| p_name := p_name p; p_code := code; p_description := p_description p; p_status := p_status p;
     p_owner_id := p_owner_id p; p_archived_at := p_archived_at p;
     p_archived_at_basis := p_archived_at_basis p |}.
Definition with_name (p : Project) (name : pytext) : Project :=
  {| p_name := name; p_code := p_code p; p_description := p_description p; p_status := p_status p;
     p_owner_id := p_owner_id p; p_archived_at := p_archived_at p;
     p_archived_at_basis := p_archived_at_basis p |}.
Definition with_description (p : Project) (v : option pytext) : Project :=
  {| p_name := p_name p; p_code := p_code p; p_description := v; p_status := p_status p;
     p_owner_id := p_owner_id p; p_archived_at := p_archived_at p;
     p_archived_at_basis := p_archived_at_basis p |}.
Definition with_archive (p : Project) (s : ProjectStatus.t) (at_ : option Z) (b : option string) : Project :=
  {| p_name := p_name p; p_code := p_code p; p_description := p_description p; p_status := s;
     p_owner_id := p_owner_id p; p_archived_at := at_; p_archived_at_basis := b |}.

Definition update_project (d : ProjectDb) (user : CurrentUser) (project_id : Z) (payload : ProjectUpdate)
  : result (ProjectDb * Project) :=
  p ← get_project_row d project_id;
  _ ← ensure_project_owner d project_id user;
  _ ← raise_if (bool_decide (p_status p = ProjectStatus.ARCHIVED))
        (ResourceConflictError "归档项目请先恢复后再编辑");
  p1 ← match pu_code payload with
       | Some (Some c) =>
           let code := normalize_code c in
           _ ← raise_if (code_taken d code (Some project_id)) (ResourceConflictError "项目编码已存在");
           Ok (with_code p code)
       | _ => Ok p
       end;
  let p2 := match pu_name payload with Some (Some n) => with_name p1 (strip n) | _ => p1 end in
  let p3 := match pu_description payload with
            | Some v => with_description p2 (clean_description v)
            | None => p2
            end in
  Ok (set_project d project_id p3, p3).

Definition archive_project (d : ProjectDb) (user : CurrentUser) (now : Z) (project_id : Z)
  : result (ProjectDb * Project) :=
  p ← get_project_row d project_id;
  _ ← ensure_project_owner d project_id user;
  if decide (p_status p = ProjectStatus.ARCHIVED) then Ok (d, p)
  else let p' := with_archive p ProjectStatus.ARCHIVED (Some now) (Some "UTC") in
       Ok (set_project d project_id p', p').

Definition restore_project (d : ProjectDb) (user : CurrentUser) (project_id : Z)
  : result (ProjectDb * Project) :=
  p ← get_project_row d project_id;
  _ ← ensure_project_owner d project_id user;
  if decide (p_status p = ProjectStatus.ACTIVE) then Ok (d, p)
  else let p' := with_archive p ProjectStatus.ACTIVE None None in
       Ok (set_project d project_id p', p').

(** ** Membership operations *)

Definition add_project_member (d : ProjectDb) (user : CurrentUser) (project_id : Z)
    (uid : string) (role : ProjectRole.t) : result ProjectDb :=
  p ← get_project_row d project_id;
  _ ← ensure_project_owner d project_id user;
  _ ← raise_if (bool_decide (p_status p = ProjectStatus.ARCHIVED))
        (ResourceConflictError "归档项目不能修改成员");
  _ ← require_active_user d uid;
  _ ← raise_if (bool_decide (is_Some (members d !! (project_id, uid))))
        (ResourceConflictError "该用户已经是项目成员");
  Ok (set_members d (<[(project_id, uid) := role]> (members d))).

Definition update_project_member (d : ProjectDb) (user : CurrentUser) (project_id : Z)
    (uid : string) (role : ProjectRole.t) : result ProjectDb :=
  p ← get_project_row d project_id;
  _ ← ensure_project_owner d project_id user;
  _ ← some_or (members d !! (project_id, uid)) (ResourceNotFoundError "项目成员不存在");
  _ ← require_active_user d uid;
  _ ← raise_if (bool_decide (uid = p_owner_id p) && negb (bool_decide (role = ProjectRole.PROJECT_OWNER)))
        (ResourceConflictError "项目创建者必须保留 PROJECT_OWNER 角色");
  Ok (set_members d (<[(project_id, uid) := role]> (members d))).

Definition remove_project_member (d : ProjectDb) (user : CurrentUser) (project_id : Z)
    (uid : string) : result ProjectDb :=
  p ← get_project_row d project_id;
  _ ← ensure_project_owner d project_id user;
  _ ← some_or (members d !! (project_id, uid)) (ResourceNotFoundError "项目成员不存在");
  _ ← raise_if (bool_decide (uid = p_owner_id p)) (ResourceConflictError "不能移除项目创建者");
  Ok (set_members d (delete (project_id, uid) (members d))).

(** ** The component as a transition system *)

Inductive project_command :=
  | CreateProject (new_id : Z) (payload : ProjectCreate)
  | UpdateProject (project_id : Z) (payload : ProjectUpdate)
  | ArchiveProject (now project_id : Z)
  | RestoreProject (project_id : Z)
  | AddMember (project_id : Z) (uid : string) (role : ProjectRole.t)
  | UpdateMember (project_id : Z) (uid : string) (role : ProjectRole.t)
  | RemoveMember (project_id : Z) (uid : string).

Definition project_exec (d : ProjectDb) (user : CurrentUser) (c : project_command) : result ProjectDb :=
  match c with
  | CreateProject i p => fst <$> create_project d user i p
  | UpdateProject i p => fst <$> update_project d user i p
  | ArchiveProject now i => fst <$> archive_project d user now i
  | RestoreProject i => fst <$> restore_project d user i
  | AddMember i m r => add_project_member d user i m r
  | UpdateMember i m r => update_project_member d user i m r
  | RemoveMember i m => remove_project_member d user i m
  end.

(** An insert never reuses a key that is already in the table. *)
Definition fresh_for (d : ProjectDb) (c : project_command) : Prop :=
  match c with CreateProject i _ => projects d !! i = None | _ => True end.

(** Every project's creator is a member with the owner role, and project codes
    are upper case and pairwise different. *)
Definition project_wf (d : ProjectDb) : Prop :=
  (forall i p, projects d !! i = Some p -> members d !! (i, p_owner_id p) = Some ProjectRole.PROJECT_OWNER)
  /\ (forall i p, projects d !! i = Some p -> upper_ascii <$> p_code p = p_code p)
  /\ (forall i j p q, projects d !! i = Some p -> projects d !! j = Some q ->
        p_code p = p_code q -> i = j).

Lemma upper_ascii_idem s : upper_ascii <$> (upper_ascii <$> s) = (upper_ascii <$> s : pytext).
Proof.
  rewrite <- list_fmap_compose. apply list_fmap_ext. intros i c _. unfold compose, upper_ascii.
  repeat case_match; lia.
Qed.

Lemma code_taken_false d code self i p :
  code_taken d code self = false -> projects d !! i = Some p -> Some i <> self ->
  upper_ascii <$> p_code p <> code.
Proof.
  unfold code_taken. rewrite bool_decide_eq_false, Exists_exists.
  intros Hn Hi Hs Hc. apply Hn. exists (i, p). split; [by apply elem_of_map_to_list | done].
Qed.

(** Replacing a row by one with the same owner and a code no other row has. *)
Lemma set_project_wf d i p p' :
  project_wf d -> projects d !! i = Some p -> p_owner_id p' = p_owner_id p ->
  upper_ascii <$> p_code p' = p_code p' ->
  (forall j q, projects d !! j = Some q -> j <> i -> p_code q <> p_code p') ->
  project_wf (set_project d i p').
Proof.
  intros (Ho & Hu & Hc) Hi Hown Hup Hne. split_and!; cbn.
  - intros j q [[<- <-]|[? ?]]%lookup_insert_Some; [rewrite Hown|]; eauto.
  - intros j q [[<- <-]|[? ?]]%lookup_insert_Some; eauto.
  - intros j k q r [[<- <-]|[? Hj]]%lookup_insert_Some [[<- <-]|[? Hk]]%lookup_insert_Some He;
      [done | by destruct (Hne _ _ Hk); congruence | by destruct (Hne _ _ Hj); congruence | eauto].
Qed.

Lemma set_members_wf d m :
  project_wf d ->
  (forall i p, projects d !! i = Some p ->
     members d !! (i, p_owner_id p) = Some ProjectRole.PROJECT_OWNER ->
     m !! (i, p_owner_id p) = Some ProjectRole.PROJECT_OWNER) ->
  project_wf (set_members d m).
Proof. intros (Ho & Hu & Hc) Hm. split_and!; cbn; eauto. Qed.

Lemma get_project_row_ok d i p : get_project_row d i = Ok p -> projects d !! i = Some p.
Proof. unfold get_project_row. destruct (projects d !! i); cbn; naive_solver. Qed.
#[export] Hint Resolve get_project_row_ok : platform.

Lemma create_project_wf d user i pl d' p' :
  project_wf d -> projects d !! i = None -> create_project d user i pl = Ok (d', p') -> project_wf d'.
Proof.
  intros (Ho & Hu & Hc) Hf Hx. unfold create_project in Hx. inv_ok. split_and!; cbn.
  - intros j q [[<- <-]|[? Hj]]%lookup_insert_Some; [by rewrite lookup_insert_eq|].
    rewrite lookup_insert_ne by congruence. eauto.
  - intros j q [[<- <-]|[? Hj]]%lookup_insert_Some; [apply upper_ascii_idem|eauto].
  - assert (Hfree : forall j q, projects d !! j = Some q -> p_code q <> normalize_code (pc_code pl)).
    { intros j q Hj. rewrite <- (Hu _ _ Hj). by eapply code_taken_false. }
    intros j k q q' [[<- <-]|[? Hj]]%lookup_insert_Some [[<- <-]|[? Hk]]%lookup_insert_Some He;
      cbn in He; [done | by destruct (Hfree _ _ Hk) | by destruct (Hfree _ _ Hj) | eauto].
Qed.

Lemma update_project_wf d user i pl d' p' :
  project_wf d -> update_project d user i pl = Ok (d', p') -> project_wf d'.
Proof.
  intros Hwf Hx. pose proof Hwf as (Ho & Hu & Hc). unfold update_project in Hx. inv_ok.
  rename a into p, a2 into p1. apply get_project_row_ok in E.
  assert (Hp1 : p_owner_id p1 = p_owner_id p /\ upper_ascii <$> p_code p1 = p_code p1 /\
    (forall j q, projects d !! j = Some q -> j <> i -> p_code q <> p_code p1)).
  { assert (forall j q, projects d !! j = Some q -> j <> i -> p_code q <> p_code p) by eauto.
    destruct (pu_code pl) as [[c|]|]; inv_ok; cbn; [|by eauto..].
    split_and!; [done | apply upper_ascii_idem |]. intros j q Hj Hne.
    rewrite <- (Hu _ _ Hj). by eapply code_taken_false; [done..|congruence]. }
  destruct Hp1 as (? & ? & ?).
  eapply set_project_wf; [done|done|..];
    destruct (pu_name pl) as [[]|], (pu_description pl); cbn; eauto.
Qed.

Lemma archive_project_wf d user now i d' p' :
  project_wf d -> archive_project d user now i = Ok (d', p') -> project_wf d'.
Proof.
  intros Hwf Hx. pose proof Hwf as (Ho & Hu & Hc). unfold archive_project in Hx. inv_ok.
  case_decide; inv_ok; [done|]. eapply set_project_wf; cbn; eauto with platform.
Qed.

Lemma restore_project_wf d user i d' p' :
  project_wf d -> restore_project d user i = Ok (d', p') -> project_wf d'.
Proof.
  intros Hwf Hx. pose proof Hwf as (Ho & Hu & Hc). unfold restore_project in Hx. inv_ok.
  case_decide; inv_ok; [done|]. eapply set_project_wf; cbn; eauto with platform.
Qed.

(** A membership edit keeps the invariant when it leaves every owner's row alone
    or rewrites it to the owner role. *)
Lemma insert_member_wf d i m r :
  project_wf d ->
  (forall p, projects d !! i = Some p -> m = p_owner_id p -> r = ProjectRole.PROJECT_OWNER) ->
  project_wf (set_members d (<[(i, m) := r]> (members d))).
Proof.
  intros Hwf Hr. apply set_members_wf; [done|]. intros j q Hj Hm.
  destruct (decide ((i, m) = (j, p_owner_id q))); [|by rewrite lookup_insert_ne].
  simplify_eq. rewrite lookup_insert_eq. f_equal. by eapply Hr.
Qed.

Lemma add_project_member_wf d user i m r d' :
  project_wf d -> add_project_member d user i m r = Ok d' -> project_wf d'.
Proof.
  intros Hwf Hx. pose proof Hwf as (Ho & _). unfold add_project_member in Hx. inv_ok.
  apply insert_member_wf; [done|]. intros p Hp ->. exfalso.
  rewrite bool_decide_eq_false in *. naive_solver.
Qed.

Lemma update_project_member_wf d user i m r d' :
  project_wf d -> update_project_member d user i m r = Ok d' -> project_wf d'.
Proof.
  intros Hwf Hx. unfold update_project_member in Hx. inv_ok.
  apply insert_member_wf; [done|]. intros q Hq ->.
  apply get_project_row_ok in E. simplify_eq. rewrite bool_decide_eq_true_2 in * by done.
  by case_bool_decide.
Qed.

Lemma remove_project_member_wf d user i m d' :
  project_wf d -> remove_project_member d user i m = Ok d' -> project_wf d'.
Proof.
  intros Hwf Hx. unfold remove_project_member in Hx. inv_ok.
  apply set_members_wf; [done|]. intros j q Hj Hm.
  rewrite lookup_delete_ne; [done|]. intros [= -> ->].
  apply get_project_row_ok in E. simplify_eq. by case_bool_decide.
Qed.

Lemma fst_ok {A B} (r : result (A * B)) a : fst <$> r = Ok a -> exists b, r = Ok (a, b).
Proof. destruct r as [[x y]|]; cbn; [|done]. intros. inv_ok. eauto. Qed.

Module ProjectsSpec.
(** Every operation of the service preserves the invariant. *)
Theorem project_exec_wf d user c d' :
  project_wf d -> fresh_for d c -> project_exec d user c = Ok d' -> project_wf d'.
Proof.
  intros Hwf Hf Hx. destruct c; cbn in Hx, Hf;
    try (apply fst_ok in Hx as [? Hx]);
    eauto using create_project_wf, update_project_wf, archive_project_wf, restore_project_wf,
      add_project_member_wf, update_project_member_wf, remove_project_member_wf.
Qed.

Definition admin : CurrentUser := {| user_id := "u_admin"; user_roles := ["ADMIN"] |}.
Definition empty_db : ProjectDb := {| projects := ∅; members := ∅; users := {["u_2" := true]} |}.
Definition create_cmd : project_command :=
  CreateProject 1 {| pc_name := u "Demo"; pc_code := u "demo-1"; pc_description := None |}.

Lemma empty_db_wf : project_wf empty_db.
Proof. by split_and!; cbn; intros *; rewrite ?lookup_empty. Qed.

Lemma project_exec_witness :
  exists d', project_exec empty_db admin create_cmd = Ok d' /\ project_wf d'.
Proof.
  eexists. split; [reflexivity|].
  apply (project_exec_wf empty_db admin create_cmd); [apply empty_db_wf | reflexivity | reflexivity].
Defined.
End ProjectsSpec.
