(* ===== verification/RunData.v ===== *)
(** The run aggregate: the enums of [runs/enums.py], the rows of
    [runs/models.py] and [runners/models.py] the run service reads and writes,
    and the event contract of [runs/events.py]. *)
From S2P Require Import Prelude PyText Projects.

(** A [datetime]: microseconds since the epoch, UTC. *)
Abbreviation datetime := Z (only parsing).

Module RunType.
Inductive t := API_CASE | SCENARIO | WEB_CASE.
#[global] Instance eq_dec : EqDecision t.
Proof. solve_decision. Defined.
Definition value (x : t) : string :=
  match x with API_CASE => "API_CASE" | SCENARIO => "SCENARIO" | WEB_CASE => "WEB_CASE" end.
End RunType.

Module RunStatus.
Inductive t :=
  | CREATED | QUEUED | ASSIGNED | RUNNING | CANCELLING
  | SUCCESS | FAILED | CANCELLED | TIMEOUT.
#[global] Instance eq_dec : EqDecision t.
Proof. solve_decision. Defined.
Definition value (x : t) : string :=
  match x with
  | CREATED => "CREATED" | QUEUED => "QUEUED" | ASSIGNED => "ASSIGNED" | RUNNING => "RUNNING"
  | CANCELLING => "CANCELLING" | SUCCESS => "SUCCESS" | FAILED => "FAILED"
  | CANCELLED => "CANCELLED" | TIMEOUT => "TIMEOUT"
  end.
End RunStatus.

Module RunNodeStatus.
Inductive t :=
  | CREATED | ASSIGNED | RUNNING | CANCELLING
  | SUCCESS | FAILED | REVIEW | CANCELLED | TIMEOUT | SKIPPED.
#[global] Instance eq_dec : EqDecision t.
Proof. solve_decision. Defined.
Definition value (x : t) : string :=
  match x with
  | CREATED => "CREATED" | ASSIGNED => "ASSIGNED" | RUNNING => "RUNNING"
  | CANCELLING => "CANCELLING" | SUCCESS => "SUCCESS" | FAILED => "FAILED" | REVIEW => "REVIEW"
  | CANCELLED => "CANCELLED" | TIMEOUT => "TIMEOUT" | SKIPPED => "SKIPPED"
  end.
End RunNodeStatus.

Module DispatchOutboxStatus.
Inductive t := PENDING | PUBLISHED | FAILED.
#[global] Instance eq_dec : EqDecision t.
Proof. solve_decision. Defined.
End DispatchOutboxStatus.

Module RunnerSlotType.
Inductive t := API | WEB | PERFORMANCE.
#[global] Instance eq_dec : EqDecision t.
Proof. solve_decision. Defined.
Definition value (x : t) : string :=
  match x with API => "API" | WEB => "WEB" | PERFORMANCE => "PERFORMANCE" end.
(** [required_slot_type.lower()]. *)
Definition lower (x : t) : string :=
  match x with API => "api" | WEB => "web" | PERFORMANCE => "performance" end.
End RunnerSlotType.

(** [TERMINAL_RUN_STATUSES] and [TERMINAL_NODE_STATUSES]. *)
Definition TERMINAL_RUN_STATUSES : list RunStatus.t :=
  [RunStatus.SUCCESS; RunStatus.FAILED; RunStatus.CANCELLED; RunStatus.TIMEOUT].
Definition TERMINAL_NODE_STATUSES : list RunNodeStatus.t :=
  [RunNodeStatus.SUCCESS; RunNodeStatus.FAILED; RunNodeStatus.REVIEW;
   RunNodeStatus.CANCELLED; RunNodeStatus.TIMEOUT; RunNodeStatus.SKIPPED].

Definition run_terminal (s : RunStatus.t) : bool := bool_decide (s ∈ TERMINAL_RUN_STATUSES).
Definition node_terminal (s : RunNodeStatus.t) : bool := bool_decide (s ∈ TERMINAL_NODE_STATUSES).

(** ** Rows *)

(** The columns [CaseRun] and [StepRun] share, the ones [_set_node_status] touches. *)
Record NodeState := {
  n_status : RunNodeStatus.t;
  n_duration : Z;
  n_retry_count : Z;
  n_started_at : option datetime;
  n_ended_at : option datetime;
  n_error_type : option pytext;
  n_error_message : option pytext;
}.

(** The column defaults of a fresh row. *)
Definition new_node : NodeState :=
  {| n_status := RunNodeStatus.CREATED; n_duration := 0; n_retry_count := 0; n_started_at := None;
     n_ended_at := None; n_error_type := None; n_error_message := None |}.

Record StepRun := {
  sr_id : Z;
  sr_sequence_no : Z;
  sr_node_id : string;
  sr_step_name : string;
  sr_step_type : string;
  sr_node : NodeState;
}.
Definition sr_status (s : StepRun) : RunNodeStatus.t := n_status (sr_node s).
Definition sr_with (s : StepRun) (n : NodeState) : StepRun :=
  {| sr_id := sr_id s; sr_sequence_no := sr_sequence_no s; sr_node_id := sr_node_id s;
     sr_step_name := sr_step_name s; sr_step_type := sr_step_type s; sr_node := n |}.

(** What a run executes: the table's CHECK constraint lets exactly one pair of
    target columns be set, so the pair is the constructor. *)
Inductive RunTarget :=
  | CaseTarget (case_id case_version_id : Z)
  | ScenarioTarget (scenario_id scenario_version_id : Z)
  | WebTarget (web_case_id web_case_version_id : Z).
Definition run_type_of (t : RunTarget) : RunType.t :=
  match t with
  | CaseTarget _ _ => RunType.API_CASE
  | ScenarioTarget _ _ => RunType.SCENARIO
  | WebTarget _ _ => RunType.WEB_CASE
  end.

(** Identity of one dataset row: [dataset_id], [dataset_version_id], [row_index]. *)
Record DatasetRow := { ds_id : Z; ds_version_id : Z; ds_row_index : Z }.

Record CaseRun := {
  cr_id : Z;
  cr_sequence_no : Z;
  cr_target : RunTarget;
  cr_dataset : option DatasetRow;
  cr_node : NodeState;
  cr_steps : list StepRun;
}.
Definition cr_status (c : CaseRun) : RunNodeStatus.t := n_status (cr_node c).
Definition cr_with_node (c : CaseRun) (n : NodeState) : CaseRun :=
  {| cr_id := cr_id c; cr_sequence_no := cr_sequence_no c; cr_target := cr_target c;
     cr_dataset := cr_dataset c; cr_node := n; cr_steps := cr_steps c |}.
Definition cr_with_steps (c : CaseRun) (l : list StepRun) : CaseRun :=
  {| cr_id := cr_id c; cr_sequence_no := cr_sequence_no c; cr_target := cr_target c;
     cr_dataset := cr_dataset c; cr_node := cr_node c; cr_steps := l |}.

(** The stored task envelope, before validation: enum columns are still text. *)
Record TaskPayload := {
  tp_schema_version : Z;
  tp_message_id : string;
  tp_run_id : string;
  tp_runner_id : string;
  tp_run_type : string;
  tp_required_slot_type : string;
  tp_attempt : Z;
  tp_enqueued_at : datetime;
}.
Definition tp_with_attempt (p : TaskPayload) (n : Z) : TaskPayload :=
  {| tp_schema_version := tp_schema_version p; tp_message_id := tp_message_id p;
     tp_run_id := tp_run_id p; tp_runner_id := tp_runner_id p; tp_run_type := tp_run_type p;
     tp_required_slot_type := tp_required_slot_type p; tp_attempt := n;
     tp_enqueued_at := tp_enqueued_at p |}.

Record RunDispatchOutbox := {
  ob_message_id : string;
  ob_run_id : string;
  ob_runner_id : string;
  ob_routing_key : string;
  ob_schema_version : Z;
  ob_payload : TaskPayload;
  ob_status : DispatchOutboxStatus.t;
  ob_attempt_count : Z;
  ob_last_error : option string;
  ob_published_at : option datetime;
  ob_claimed_at : option datetime;
  ob_claimed_runner_id : option string;
}.

(** The columns of [TestRun] that no handler changes after [create_run]. *)
Record RunHeader := {
  h_id : string;
  h_target : RunTarget;
  h_project_id : Z;
  h_environment_id : option Z;
  h_runner_id : option string;
  h_required_capabilities : list string;
  h_required_tags : list string;
  h_required_slot_type : RunnerSlotType.t;
  h_required_slot_count : Z;
  h_created_by : string;
  h_created_at : datetime;
}.

Record TestRun := {
  r_header : RunHeader;
  r_status : RunStatus.t;
  r_total_timeout_ms : option Z;
  r_force_stop_requested_at : option datetime;
  r_force_stopped : bool;
  r_started_at : option datetime;
  r_ended_at : option datetime;
  r_total : Z;
  r_pass_count : Z;
  r_fail_count : Z;
  r_review_count : Z;
  r_timeout_count : Z;
  r_error_type : option pytext;
  r_error_message : option pytext;
  r_case_runs : list CaseRun;
  r_outbox : option RunDispatchOutbox;
}.
Definition r_id (r : TestRun) : string := h_id (r_header r).
Definition r_run_type (r : TestRun) : RunType.t := run_type_of (h_target (r_header r)).
Definition r_runner_id (r : TestRun) : option string := h_runner_id (r_header r).

Definition r_with_case_runs (r : TestRun) (l : list CaseRun) : TestRun :=
  {| r_header := r_header r; r_status := r_status r; r_total_timeout_ms := r_total_timeout_ms r;
     r_force_stop_requested_at := r_force_stop_requested_at r; r_force_stopped := r_force_stopped r;
     r_started_at := r_started_at r; r_ended_at := r_ended_at r; r_total := r_total r;
     r_pass_count := r_pass_count r; r_fail_count := r_fail_count r;
     r_review_count := r_review_count r; r_timeout_count := r_timeout_count r;
     r_error_type := r_error_type r; r_error_message := r_error_message r; r_case_runs := l;
     r_outbox := r_outbox r |}.
Definition r_with_outbox (r : TestRun) (o : option RunDispatchOutbox) : TestRun :=
  {| r_header := r_header r; r_status := r_status r; r_total_timeout_ms := r_total_timeout_ms r;
     r_force_stop_requested_at := r_force_stop_requested_at r; r_force_stopped := r_force_stopped r;
     r_started_at := r_started_at r; r_ended_at := r_ended_at r; r_total := r_total r;
     r_pass_count := r_pass_count r; r_fail_count := r_fail_count r;
     r_review_count := r_review_count r; r_timeout_count := r_timeout_count r;
     r_error_type := r_error_type r; r_error_message := r_error_message r;
     r_case_runs := r_case_runs r; r_outbox := o |}.
Definition r_with_control (r : TestRun) (timeout_ms : option Z) (force_at : option datetime)
    (forced : bool) : TestRun :=
  {| r_header := r_header r; r_status := r_status r; r_total_timeout_ms := timeout_ms;
     r_force_stop_requested_at := force_at; r_force_stopped := forced;
     r_started_at := r_started_at r; r_ended_at := r_ended_at r; r_total := r_total r;
     r_pass_count := r_pass_count r; r_fail_count := r_fail_count r;
     r_review_count := r_review_count r; r_timeout_count := r_timeout_count r;
     r_error_type := r_error_type r; r_error_message := r_error_message r;
     r_case_runs := r_case_runs r; r_outbox := r_outbox r |}.

(** ** Runners *)

Module RunnerStatus.
Inductive t := ACTIVE | REVOKED.
#[global] Instance eq_dec : EqDecision t.
Proof. solve_decision. Defined.
End RunnerStatus.

Module OnlineStatus.
Inductive t := ONLINE | OFFLINE | UNKNOWN.
#[global] Instance eq_dec : EqDecision t.
Proof. solve_decision. Defined.
End OnlineStatus.

Record RunnerSlot := { sl_type : RunnerSlotType.t; sl_total : Z; sl_available : Z }.

Record Runner := {
  rn_id : string;
  rn_status : RunnerStatus.t;
  rn_credential_digest : string;
  rn_last_heartbeat_at : option datetime;
  rn_tags : list string;
  rn_ready_capabilities : list string;
  rn_slots : list RunnerSlot;
  rn_chrome_version : option string;
}.

(** What the Redis heartbeat store answers for one runner: it can be
    unreachable, or report that the key is present or absent. *)
Inductive heartbeat_read := HeartbeatUnavailable | HeartbeatAbsent | HeartbeatPresent.

(** [_online_state]: [(online_status, is_online, redis_available)]. *)
Definition online_state (runner : Runner) (hb : heartbeat_read) : OnlineStatus.t * bool * bool :=
  match hb with
  | HeartbeatUnavailable => (OnlineStatus.UNKNOWN, false, false)
  | HeartbeatAbsent => (OnlineStatus.OFFLINE, false, true)
  | HeartbeatPresent =>
      if decide (rn_status runner = RunnerStatus.ACTIVE) then (OnlineStatus.ONLINE, true, true)
      else (OnlineStatus.OFFLINE, false, true)
  end.

(** ** Events ([runs/events.py]) *)

Record RunEvent := {
  ev_type : string;
  ev_project_id : Z;
  ev_run_id : string;
  ev_case_run_id : option Z;
  ev_from_status : option RunStatus.t;
  ev_to_status : RunStatus.t;
  ev_total : Z;
  ev_pass_count : Z;
  ev_fail_count : Z;
  ev_review_count : Z;
  ev_timeout_count : Z;
}.

Definition event_type (to_status : RunStatus.t) (from_status : option RunStatus.t) : string :=
  match to_status with
  | RunStatus.CREATED =>
      match from_status with None => "RUN_CREATED" | Some _ => "RUN_STATUS_CHANGED" end
  | RunStatus.QUEUED => "RUN_DISPATCHED"
  | RunStatus.ASSIGNED => "RUN_CLAIMED"
  | RunStatus.RUNNING => "RUN_STARTED"
  | RunStatus.CANCELLING => "RUN_CANCELLING"
  | RunStatus.CANCELLED => "RUN_CANCELLED"
  | RunStatus.SUCCESS | RunStatus.FAILED | RunStatus.TIMEOUT => "RUN_COMPLETED"
  end.

(** [publish_run_event_best_effort]: nothing for a status that did not change;
    otherwise one event built from the committed run.  A Redis failure is
    swallowed, so the outcome of the append never reaches the caller. *)
Definition publish_run_event (run : TestRun) (from_status : option RunStatus.t)
    (to_status : RunStatus.t) (case_run_id : option Z) (forced_type : option string)
  : list RunEvent :=
  if decide (from_status = Some to_status) then []
  else
    [ {| ev_type := default (event_type to_status from_status) forced_type;
         ev_project_id := h_project_id (r_header run);
         ev_run_id := r_id run;
         ev_case_run_id := case_run_id;
         ev_from_status := from_status;
         ev_to_status := to_status;
         ev_total := r_total run;
         ev_pass_count := r_pass_count run;
         ev_fail_count := r_fail_count run;
         ev_review_count := r_review_count run;
         ev_timeout_count := r_timeout_count run |} ].

(** [case_runs[0].id if case_runs else None]. *)
Definition first_case_id (l : list CaseRun) : option Z := cr_id <$> head l.

(** ** The database the run service works on *)

Record ApiExecutionResult := {
  ar_message_id : string;
  ar_outcome : string;
  ar_status : RunNodeStatus.t;
  ar_retry_count : Z;
  ar_error_type : option pytext;
  ar_error_message : option pytext;
  ar_completed_at : datetime;
}.

(** A Scenario execution result: [outcome] and [status] hold the same value. *)
Record TraceExecutionResult := {
  tr_message_id : string;
  tr_status : RunStatus.t;
  tr_error_type : option pytext;
  tr_error_message : option pytext;
  tr_completed_at : datetime;
}.

(** The outcome of storing a refreshed login state. *)
Inductive PersistenceStatus := UPDATED | CONFLICT | NOT_ATTEMPTED.
#[global] Instance persistence_status_eq_dec : EqDecision PersistenceStatus.
Proof. solve_decision. Defined.

(** A Web execution result; [wr_session_recovery] is the [persistence_status] of
    its session audit. *)
Record WebExecutionResult := {
  wr_message_id : string;
  wr_status : RunStatus.t;
  wr_session_recovery : option PersistenceStatus;
  wr_error_type : option pytext;
  wr_error_message : option pytext;
  wr_completed_at : datetime;
}.

(** The login state a Web case runs with ([web_cases/models.py]). *)
Record SessionProfile := {
  pf_project_id : Z;
  pf_environment_id : option Z;
  pf_active : bool;
  pf_storage_state_ciphertext : string;
  pf_storage_state_fingerprint : string;
  pf_revision : Z;
  pf_refresh_ttl_seconds : Z;
  pf_expires_at : option datetime;
  pf_login_web_case_version_id : option Z;
}.

(** A [ResourceRegistryEntry] row, as a completed execution inserts it. *)
Record ResourceEntry := {
  re_run_id : string;
  re_resource_type : string;
  re_resource_id : string;
  re_status : string;
  re_registration_sequence : Z;
  re_attempt_count : Z;
  re_cleaned_at : option datetime;
}.

(** An evidence row with the summary that was stored for it. *)
Record EvidenceEntry := {
  evd_run_id : string;
  evd_case_run_id : Z;
  evd_message_id : string;
  evd_summary : string;
}.

Record Db := {
  db_projects : ProjectDb;
  db_runs : gmap string TestRun;
  db_runners : gmap string Runner;
  db_api_results : gmap (string * Z) ApiExecutionResult;
  db_scenario_results : gmap (string * Z) TraceExecutionResult;
  db_web_results : gmap (string * Z) WebExecutionResult;
  db_session_profiles : gmap Z SessionProfile;
  db_resources : list ResourceEntry;
  db_evidence : list EvidenceEntry;
}.

Definition put_run (d : Db) (r : TestRun) : Db :=
  {| db_projects := db_projects d; db_runs := <[r_id r := r]> (db_runs d);
     db_runners := db_runners d; db_api_results := db_api_results d;
     db_scenario_results := db_scenario_results d;
     db_web_results := db_web_results d; db_session_profiles := db_session_profiles d;
     db_resources := db_resources d;
     db_evidence := db_evidence d |}.
Definition put_api_result (d : Db) (k : string * Z) (x : ApiExecutionResult) : Db :=
  {| db_projects := db_projects d; db_runs := db_runs d; db_runners := db_runners d;
     db_api_results := <[k := x]> (db_api_results d);
     db_scenario_results := db_scenario_results d;
     db_web_results := db_web_results d; db_session_profiles := db_session_profiles d;
     db_resources := db_resources d;
     db_evidence := db_evidence d |}.
Definition put_scenario_result (d : Db) (k : string * Z) (x : TraceExecutionResult) : Db :=
  {| db_projects := db_projects d; db_runs := db_runs d; db_runners := db_runners d;
     db_api_results := db_api_results d;
     db_scenario_results := <[k := x]> (db_scenario_results d);
     db_web_results := db_web_results d; db_session_profiles := db_session_profiles d;
     db_resources := db_resources d;
     db_evidence := db_evidence d |}.
Definition put_web_result (d : Db) (k : string * Z) (x : WebExecutionResult) : Db :=
  {| db_projects := db_projects d; db_runs := db_runs d; db_runners := db_runners d;
     db_api_results := db_api_results d; db_scenario_results := db_scenario_results d;
     db_web_results := <[k := x]> (db_web_results d); db_session_profiles := db_session_profiles d;
     db_resources := db_resources d; db_evidence := db_evidence d |}.
Definition put_session_profile (d : Db) (k : Z) (p : SessionProfile) : Db :=
  {| db_projects := db_projects d; db_runs := db_runs d; db_runners := db_runners d;
     db_api_results := db_api_results d; db_scenario_results := db_scenario_results d;
     db_web_results := db_web_results d; db_session_profiles := <[k := p]> (db_session_profiles d);
     db_resources := db_resources d; db_evidence := db_evidence d |}.
Definition add_rows (d : Db) (resources : list ResourceEntry) (evidence : list EvidenceEntry) : Db :=
  {| db_projects := db_projects d; db_runs := db_runs d; db_runners := db_runners d;
     db_api_results := db_api_results d; db_scenario_results := db_scenario_results d;
     db_web_results := db_web_results d; db_session_profiles := db_session_profiles d;
     db_resources := db_resources d ++ resources; db_evidence := db_evidence d ++ evidence |}.

(** [get_run(session, run_id, for_update=True)] with its [None] check. *)
Definition get_run (d : Db) (run_id : string) : result TestRun :=
  some_or (db_runs d !! run_id) (ResourceNotFoundError "Run 不存在").

(** ** Requests as transactions

    A handler computes on one session.  An exception leaves the database as it
    was at the last commit; a normal return hands back the committed database,
    the events published after the commit and the response. *)
Abbreviation outcome A := (Db * list RunEvent * result A)%type.

Definition transact {A} (d : Db) (body : result (Db * list RunEvent * A)) : outcome A :=
  match body with
  | Ok (d', evs, a) => (d', evs, Ok a)
  | Err e => (d, [], Err e)
  end.

Definition out_db {A} (o : outcome A) : Db := o.1.1.
Definition out_events {A} (o : outcome A) : list RunEvent := o.1.2.
Definition out_result {A} (o : outcome A) : result A := o.2.

Lemma transact_Err {A} d (body : result (Db * list RunEvent * A)) e :
  out_result (transact d body) = Err e -> out_db (transact d body) = d.
Proof. by destruct body as [[[??]?]|?]. Qed.

(** The rows are stored under their own key. *)
Definition db_keys_ok (d : Db) : Prop := forall k r, db_runs d !! k = Some r -> r_id r = k.
