(* ===== verification/RunStatusOps.v ===== *)
(** Status changes of runs and their nodes: the transition tables,
    [_set_run_status], [_set_node_status], [_aggregate_case_status],
    [_recompute_summary], the authorization of status reports, and the three
    status-update handlers of [runs/service.py]. *)
From S2P Require Import Prelude PyText Projects RunData.

(** ** Transition tables *)

(** [_RUN_TRANSITIONS]. *)
Definition RUN_TRANSITIONS (s : RunStatus.t) : list RunStatus.t :=
  match s with
  | RunStatus.CREATED => [RunStatus.QUEUED; RunStatus.CANCELLED; RunStatus.FAILED]
  | RunStatus.QUEUED =>
      [RunStatus.ASSIGNED; RunStatus.CANCELLED; RunStatus.FAILED; RunStatus.TIMEOUT]
  | RunStatus.ASSIGNED =>
      [RunStatus.RUNNING; RunStatus.CANCELLING; RunStatus.CANCELLED; RunStatus.FAILED;
       RunStatus.TIMEOUT]
  | RunStatus.RUNNING =>
      [RunStatus.SUCCESS; RunStatus.FAILED; RunStatus.CANCELLING; RunStatus.TIMEOUT]
  | RunStatus.CANCELLING => [RunStatus.CANCELLED]
  | RunStatus.SUCCESS | RunStatus.FAILED | RunStatus.CANCELLED | RunStatus.TIMEOUT => []
  end.

(** [_NODE_TRANSITIONS]. *)
Definition NODE_TRANSITIONS (s : RunNodeStatus.t) : list RunNodeStatus.t :=
  match s with
  | RunNodeStatus.CREATED =>
      [RunNodeStatus.ASSIGNED; RunNodeStatus.RUNNING; RunNodeStatus.SUCCESS; RunNodeStatus.FAILED;
       RunNodeStatus.REVIEW; RunNodeStatus.CANCELLED; RunNodeStatus.TIMEOUT; RunNodeStatus.SKIPPED]
  | RunNodeStatus.ASSIGNED =>
      [RunNodeStatus.RUNNING; RunNodeStatus.SUCCESS; RunNodeStatus.FAILED; RunNodeStatus.REVIEW;
       RunNodeStatus.CANCELLED; RunNodeStatus.TIMEOUT; RunNodeStatus.SKIPPED]
  | RunNodeStatus.RUNNING =>
      [RunNodeStatus.SUCCESS; RunNodeStatus.FAILED; RunNodeStatus.REVIEW; RunNodeStatus.CANCELLING;
       RunNodeStatus.CANCELLED; RunNodeStatus.TIMEOUT; RunNodeStatus.SKIPPED]
  | RunNodeStatus.CANCELLING => [RunNodeStatus.CANCELLED]
  | RunNodeStatus.SUCCESS | RunNodeStatus.FAILED | RunNodeStatus.REVIEW
  | RunNodeStatus.CANCELLED | RunNodeStatus.TIMEOUT | RunNodeStatus.SKIPPED => []
  end.

(** ** Status setters *)

Record RunStatusUpdateRequest := {
  ru_status : RunStatus.t;
  ru_error_type : option pytext;
  ru_error_message : option pytext;
}.
Definition run_update (s : RunStatus.t) : RunStatusUpdateRequest :=
  {| ru_status := s; ru_error_type := None; ru_error_message := None |}.

Record NodeStatusUpdateRequest := {
  nu_status : RunNodeStatus.t;
  nu_duration : option Z;
  nu_retry_count : option Z;
  nu_error_type : option pytext;
  nu_error_message : option pytext;
}.
Definition node_update (s : RunNodeStatus.t) (error_type error_message : option pytext)
  : NodeStatusUpdateRequest :=
  {| nu_status := s; nu_duration := None; nu_retry_count := None;
     nu_error_type := error_type; nu_error_message := error_message |}.

(** [x.strip() or None] for a given value, the old one when it is absent. *)
Definition merge_error_type (given old : option pytext) : option pytext :=
  match given with Some t => or_none (strip t) | None => old end.
Definition merge_error_message (given old : option pytext) : option pytext :=
  match given with Some _ => safe_error 1000 given | None => old end.

Definition conflict_transition (from to : string) : app_error :=
  RunStateConflictError ("不允许从 " +:+ from +:+ " 更新为 " +:+ to).

(** [_set_run_status]; the returned flag is [changed]. *)
Definition set_run_status (now : datetime) (run : TestRun) (requested : RunStatus.t)
    (payload : RunStatusUpdateRequest) : result (bool * TestRun) :=
  if decide (r_status run = requested) then Ok (false, run)
  else
    _ ← raise_unless (bool_decide (requested ∈ RUN_TRANSITIONS (r_status run)))
          (conflict_transition (RunStatus.value (r_status run)) (RunStatus.value requested));
    Ok (true,
      {| r_header := r_header run; r_status := requested;
         r_total_timeout_ms := r_total_timeout_ms run;
         r_force_stop_requested_at := r_force_stop_requested_at run;
         r_force_stopped := r_force_stopped run;
         r_started_at := if decide (requested = RunStatus.RUNNING)
                         then Some (default now (r_started_at run)) else r_started_at run;
         r_ended_at := if run_terminal requested
                       then Some (default now (r_ended_at run)) else r_ended_at run;
         r_total := r_total run; r_pass_count := r_pass_count run;
         r_fail_count := r_fail_count run; r_review_count := r_review_count run;
         r_timeout_count := r_timeout_count run;
         r_error_type := merge_error_type (ru_error_type payload) (r_error_type run);
         r_error_message := merge_error_message (ru_error_message payload) (r_error_message run);
         r_case_runs := r_case_runs run; r_outbox := r_outbox run |}).

(** [_set_node_status]. *)
Definition set_node_status (now : datetime) (node : NodeState) (requested : RunNodeStatus.t)
    (payload : NodeStatusUpdateRequest) : result (bool * NodeState) :=
  if decide (n_status node = requested) then Ok (false, node)
  else
    _ ← raise_unless (bool_decide (requested ∈ NODE_TRANSITIONS (n_status node)))
          (conflict_transition (RunNodeStatus.value (n_status node)) (RunNodeStatus.value requested));
    let started := if decide (requested = RunNodeStatus.RUNNING)
                   then Some (default now (n_started_at node)) else n_started_at node in
    let ended := if node_terminal requested then Some (default now (n_ended_at node))
                 else n_ended_at node in
    let duration :=
      if node_terminal requested then
        match nu_duration payload, started with
        | Some ms, _ => ms
        | None, Some s => Z.max 0 (total_seconds_ms (default now (n_ended_at node) - s))
        | None, None => n_duration node
        end
      else n_duration node in
    Ok (true,
      {| n_status := requested; n_duration := duration;
         n_retry_count := default (n_retry_count node) (nu_retry_count payload);
         n_started_at := started; n_ended_at := ended;
         n_error_type := merge_error_type (nu_error_type payload) (n_error_type node);
         n_error_message := merge_error_message (nu_error_message payload) (n_error_message node) |}).

Definition set_step_status now (s : StepRun) requested payload : result StepRun :=
  '(_, n) ← set_node_status now (sr_node s) requested payload; Ok (sr_with s n).
Definition set_case_status now (c : CaseRun) requested payload : result CaseRun :=
  '(_, n) ← set_node_status now (cr_node c) requested payload; Ok (cr_with_node c n).

(** ** Aggregation *)

(** The status the steps imply, by [_aggregate_case_status]'s precedence. *)
Definition desired_case_status (statuses : list RunNodeStatus.t) : RunNodeStatus.t :=
  let has s := bool_decide (s ∈ statuses) in
  if has RunNodeStatus.CANCELLING then RunNodeStatus.CANCELLING
  else if has RunNodeStatus.ASSIGNED || has RunNodeStatus.RUNNING then RunNodeStatus.RUNNING
  else if negb (forallb node_terminal statuses) then RunNodeStatus.CREATED
  else if has RunNodeStatus.CANCELLED then RunNodeStatus.CANCELLED
  else if has RunNodeStatus.TIMEOUT then RunNodeStatus.TIMEOUT
  else if has RunNodeStatus.FAILED then RunNodeStatus.FAILED
  else if has RunNodeStatus.REVIEW then RunNodeStatus.REVIEW
  else RunNodeStatus.SUCCESS.

Definition sum_Z (l : list Z) : Z := foldr Z.add 0%Z l.

(** [_aggregate_case_status]. *)
Definition aggregate_case_status (now : datetime) (c : CaseRun) : CaseRun :=
  match cr_steps c with
  | [] => c
  | _ =>
      if node_terminal (cr_status c) then c
      else
        let desired := desired_case_status (sr_status <$> cr_steps c) in
        if decide (cr_status c = desired) then c
        else if decide (desired = RunNodeStatus.CREATED) then c
        else
          let n := cr_node c in
          cr_with_node c
            {| n_status := desired;
               n_duration := if node_terminal desired
                             then sum_Z ((fun s => n_duration (sr_node s)) <$> cr_steps c)
                             else n_duration n;
               n_retry_count := n_retry_count n;
               n_started_at := if decide (desired = RunNodeStatus.RUNNING)
                               then Some (default now (n_started_at n)) else n_started_at n;
               n_ended_at := if node_terminal desired
                             then Some (default now (n_ended_at n)) else n_ended_at n;
               n_error_type := n_error_type n; n_error_message := n_error_message n |}
  end.

Definition count_status (s : RunNodeStatus.t) (l : list CaseRun) : Z :=
  Z.of_nat (length (filter (fun c => cr_status c = s) l)).

(** [_recompute_summary]. *)
Definition recompute_summary (run : TestRun) : TestRun :=
  let l := r_case_runs run in
  {| r_header := r_header run; r_status := r_status run;
     r_total_timeout_ms := r_total_timeout_ms run;
     r_force_stop_requested_at := r_force_stop_requested_at run;
     r_force_stopped := r_force_stopped run; r_started_at := r_started_at run;
     r_ended_at := r_ended_at run;
     r_total := Z.of_nat (length l);
     r_pass_count := count_status RunNodeStatus.SUCCESS l;
     r_fail_count := count_status RunNodeStatus.FAILED l;
     r_review_count := count_status RunNodeStatus.REVIEW l;
     r_timeout_count := count_status RunNodeStatus.TIMEOUT l;
     r_error_type := r_error_type run; r_error_message := r_error_message run;
     r_case_runs := l; r_outbox := r_outbox run |}.

(** ** Authorization of status reports *)

(** The server-side facts the handlers use and that lie outside the repository's
    code: the keyed digest of a credential (HMAC-SHA256 under the server key), the
    encryption of a login state under that key ([None] when the deployment has no
    usable key), SHA-256, and the deployment's settings. *)
Class Settings := {
  digest_secret : string -> string;
  encrypt_state : string -> option string;
  sha256_hex : string -> string;
  runner_total_timeout_default_ms : Z;
  runner_heartbeat_ttl_us : Z;
}.

Definition authorize_run_write (d : Db) (user : CurrentUser) (run : TestRun) : result unit :=
  let pid := h_project_id (r_header run) in
  _ ← get_project (db_projects d) user pid;
  ensure_project_writable (db_projects d) pid user.

(** [_authenticate_runner_for_run]. *)
Definition authenticate_runner_for_run `{Settings} (d : Db) (run : TestRun) (credential : string)
  : result Runner :=
  match r_runner_id run ≫= fun i => db_runners d !! i with
  | Some runner =>
      if bool_decide (rn_status runner = RunnerStatus.ACTIVE)
         && negb (bool_decide (credential = "")) && (String.length credential <=? 512)%nat
         && bool_decide (digest_secret credential = rn_credential_digest runner)
      then Ok runner
      else Err (AuthenticationError "Runner credential 无效或不属于该 Run")
  | None => Err (AuthenticationError "Runner credential 无效或不属于该 Run")
  end.

(** [_authorize_user_run_transition]. *)
Definition authorize_user_run_transition (run : TestRun) (requested : RunStatus.t) : result unit :=
  match r_status run, requested with
  | RunStatus.CANCELLED, RunStatus.CANCELLED => Ok tt
  | RunStatus.CREATED, RunStatus.CANCELLED => Ok tt
  | _, _ => Err (RunStateConflictError "项目用户只能通过取消接口请求取消，不能直接伪造 Run 执行状态")
  end.

(** The [allowed] table of [_authorize_runner_run_transition]. *)
Definition runner_allowed (s : RunStatus.t) : list RunStatus.t :=
  match s with
  | RunStatus.ASSIGNED => [RunStatus.RUNNING]
  | RunStatus.RUNNING => [RunStatus.SUCCESS; RunStatus.FAILED; RunStatus.TIMEOUT]
  | RunStatus.CANCELLING => [RunStatus.CANCELLED]
  | _ => []
  end.

(** [_authorize_runner_run_transition]. *)
Definition authorize_runner_run_transition (run : TestRun) (requested : RunStatus.t) : result unit :=
  if bool_decide (r_status run = requested)
     && bool_decide (requested ∈ [RunStatus.RUNNING; RunStatus.SUCCESS; RunStatus.FAILED;
                                  RunStatus.CANCELLED; RunStatus.TIMEOUT])
  then Ok tt
  else raise_unless (bool_decide (requested ∈ runner_allowed (r_status run)))
         (RunStateConflictError ("Runner 不允许从 " +:+ RunStatus.value (r_status run)
            +:+ " 上报为 " +:+ RunStatus.value requested)).

(** [_ensure_terminal_run_matches_children]. *)
Definition ensure_terminal_run_matches_children (run : TestRun) (requested : RunStatus.t) : result unit :=
  if negb (run_terminal requested) then Ok tt
  else
    let statuses := cr_status <$> r_case_runs run in
    let has s := bool_decide (s ∈ statuses) in
    _ ← raise_if (bool_decide (statuses = []) || negb (forallb node_terminal statuses))
          (RunStateConflictError "Run 仍有未结束的 CaseRun");
    match requested with
    | RunStatus.SUCCESS =>
        raise_unless
          (forallb (fun s => bool_decide (s ∈ [RunNodeStatus.SUCCESS; RunNodeStatus.SKIPPED])) statuses)
          (RunStateConflictError "存在非成功 CaseRun，不能上报 Run SUCCESS")
    | RunStatus.FAILED =>
        raise_unless (has RunNodeStatus.FAILED || has RunNodeStatus.REVIEW)
          (RunStateConflictError "不存在失败或待复核 CaseRun，不能上报 Run FAILED")
    | RunStatus.TIMEOUT =>
        raise_unless (has RunNodeStatus.TIMEOUT)
          (RunStateConflictError "不存在超时 CaseRun，不能上报 Run TIMEOUT")
    | RunStatus.CANCELLED =>
        raise_unless (bool_decide (r_status run ∈ [RunStatus.CANCELLING; RunStatus.CANCELLED])
                      && has RunNodeStatus.CANCELLED)
          (RunStateConflictError "Run 未在取消中或不存在已取消 CaseRun")
    | _ => Ok tt
    end.

(** ** Status-update handlers *)

(** Who calls [update_run_status]: the routes pass either a user or a credential. *)
Inductive reporter := ByUser (user : CurrentUser) | ByRunner (credential : string) | ByNobody.

Section handlers.
Context `{Settings}.

(** The guards of [update_run_status]. *)
Definition authorize_run_update (d : Db) (run : TestRun) (who : reporter) (requested : RunStatus.t)
  : result unit :=
  match who with
  | ByUser user =>
      _ ← authorize_run_write d user run; authorize_user_run_transition run requested
  | ByRunner credential =>
      _ ← authenticate_runner_for_run d run credential;
      _ ← authorize_runner_run_transition run requested;
      ensure_terminal_run_matches_children run requested
  | ByNobody => Err (AuthenticationError "Run 状态更新需要认证")
  end.

Definition update_run_status (d : Db) (now : datetime) (run_id : string)
    (payload : RunStatusUpdateRequest) (who : reporter) : outcome TestRun :=
  transact d (
    run ← get_run d run_id;
    _ ← authorize_run_update d run who (ru_status payload);
    '(changed, run') ← set_run_status now run (ru_status payload) payload;
    if changed : bool then
      Ok (put_run d run',
          publish_run_event run' (Some (r_status run)) (ru_status payload)
            (first_case_id (r_case_runs run')) None, run')
    else Ok (d, [], run)).

(** [_authorize_child_update]. *)
Definition authorize_child_update (d : Db) (run : TestRun) (who : reporter) : result unit :=
  _ ← match who with
      | ByUser _ => Err (AuthenticationError "CaseRun/StepRun 执行状态只能由 Runner 上报")
      | ByRunner credential => (fun _ => tt) <$> authenticate_runner_for_run d run credential
      | ByNobody => Err (AuthenticationError "Run 状态更新需要认证")
      end;
  raise_unless (bool_decide (r_status run ∈ [RunStatus.RUNNING; RunStatus.CANCELLING]))
    (RunStateConflictError "Run 尚未进入可执行状态，不能上报子任务状态").

Definition find_case (run : TestRun) (case_run_id : Z) : result CaseRun :=
  some_or (head (filter (fun c => cr_id c = case_run_id) (r_case_runs run)))
    (ResourceNotFoundError "CaseRun 不存在").
Definition find_step (c : CaseRun) (step_run_id : Z) : result StepRun :=
  some_or (head (filter (fun s => sr_id s = step_run_id) (cr_steps c)))
    (ResourceNotFoundError "StepRun 不存在").

(** Write a changed child row back under its primary key. *)
Definition replace_case (run : TestRun) (c : CaseRun) : TestRun :=
  r_with_case_runs run
    ((fun x => if decide (cr_id x = cr_id c) then c else x) <$> r_case_runs run).
Definition replace_step (c : CaseRun) (s : StepRun) : CaseRun :=
  cr_with_steps c ((fun x => if decide (sr_id x = sr_id s) then s else x) <$> cr_steps c).

Definition update_case_run_status (d : Db) (now : datetime) (run_id : string) (case_run_id : Z)
    (payload : NodeStatusUpdateRequest) (who : reporter) : outcome TestRun :=
  transact d (
    run ← get_run d run_id;
    _ ← authorize_child_update d run who;
    c ← find_case run case_run_id;
    _ ← raise_if (negb (bool_decide (cr_steps c = []))
                  && negb (bool_decide (cr_status c = nu_status payload)))
          (RunStateConflictError "包含 StepRun 的 CaseRun 状态只能由服务端聚合");
    _ ← raise_if (node_terminal (nu_status payload)
                  && negb (forallb (fun s => node_terminal (sr_status s)) (cr_steps c)))
          (RunStateConflictError "CaseRun 仍有未结束的 StepRun");
    '(changed, n) ← set_node_status now (cr_node c) (nu_status payload) payload;
    if changed : bool then
      let run' := recompute_summary (replace_case run (cr_with_node c n)) in
      Ok (put_run d run', [], run')
    else Ok (d, [], run)).

Definition update_step_run_status (d : Db) (now : datetime) (run_id : string)
    (case_run_id step_run_id : Z) (payload : NodeStatusUpdateRequest) (who : reporter)
  : outcome TestRun :=
  transact d (
    run ← get_run d run_id;
    _ ← authorize_child_update d run who;
    c ← find_case run case_run_id;
    s ← find_step c step_run_id;
    _ ← raise_if (node_terminal (cr_status c)
                  && negb (bool_decide (sr_status s = nu_status payload)))
          (RunStateConflictError "CaseRun 已进入终态，不能再更新 StepRun");
    '(changed, n) ← set_node_status now (sr_node s) (nu_status payload) payload;
    if changed : bool then
      let c' := aggregate_case_status now (replace_step c (sr_with s n)) in
      let run' := recompute_summary (replace_case run c') in
      Ok (put_run d run', [], run')
    else Ok (d, [], run)).
End handlers.
