(* ===== verification/RunControl.v ===== *)
(** Control-plane handlers of [runs/service.py]: [cancel_run],
    [force_stop_run], [reconcile_disconnected_runner_runs_core] and
    [reconcile_overdue_run_core]. *)
From S2P Require Import Prelude PyText Projects RunData RunStatusOps.
From stdpp Require Import sorting.

(** ** Bulk node updates

    Each of these handlers walks the steps of the run and then its case runs and
    moves the nodes its rule selects.  A rule gives the requested status and
    payload for a node status, or leaves the node alone. *)
Definition node_rule := RunNodeStatus.t -> option (RunNodeStatus.t * NodeStatusUpdateRequest).

Definition apply_rule (now : datetime) (rule : node_rule) (n : NodeState) : result NodeState :=
  match rule (n_status n) with
  | None => Ok n
  | Some (requested, payload) => snd <$> set_node_status now n requested payload
  end.

(** [for step_run in step_runs: ...] over the steps of every case run. *)
Definition update_steps (now : datetime) (rule : node_rule) (cs : list CaseRun) : result (list CaseRun) :=
  map_result (fun c =>
    steps ← map_result (fun s => sr_with s <$> apply_rule now rule (sr_node s)) (cr_steps c);
    Ok (cr_with_steps c steps)) cs.

(** [for case_run in case_runs: ...]. *)
Definition update_cases (now : datetime) (rule : node_rule) (cs : list CaseRun) : result (list CaseRun) :=
  map_result (fun c => cr_with_node c <$> apply_rule now rule (cr_node c)) cs.

Definition update_nodes (now : datetime) (rule : node_rule) (run : TestRun) : result TestRun :=
  cs ← update_steps now rule (r_case_runs run);
  cs' ← update_cases now rule cs;
  Ok (r_with_case_runs run cs').

(** Move every node that is not terminal yet. *)
Definition close_rule (requested : RunNodeStatus.t) (payload : NodeStatusUpdateRequest) : node_rule :=
  fun s => if node_terminal s then None else Some (requested, payload).

(** ** [cancel_run] *)

(** The loop guard of [cancel_run]: before execution every open node is
    cancelled; afterwards only the running ones are asked to stop. *)
Definition cancel_rule (node_status : RunNodeStatus.t) : node_rule :=
  fun s =>
    if negb (node_terminal s)
       && (bool_decide (node_status = RunNodeStatus.CANCELLED)
           || bool_decide (s = RunNodeStatus.RUNNING))
    then Some (node_status, node_update node_status None None)
    else None.

Definition cancel_targets (current : RunStatus.t) : RunNodeStatus.t * RunStatus.t :=
  match current with
  | RunStatus.CREATED | RunStatus.QUEUED => (RunNodeStatus.CANCELLED, RunStatus.CANCELLED)
  | _ => (RunNodeStatus.CANCELLING, RunStatus.CANCELLING)
  end.

(** The part of [cancel_run] that changes rows. *)
Definition cancel_core (now : datetime) (run : TestRun) : result TestRun :=
  let '(node_status, run_status) := cancel_targets (r_status run) in
  run1 ← update_nodes now (cancel_rule node_status) run;
  '(_, run2) ← set_run_status now (recompute_summary run1) run_status (run_update run_status);
  Ok run2.

Definition cancel_run (d : Db) (now : datetime) (user : CurrentUser) (run_id : string) : outcome TestRun :=
  transact d (
    run ← get_run d run_id;
    _ ← authorize_run_write d user run;
    match r_status run with
    | RunStatus.CANCELLED | RunStatus.CANCELLING => Ok (d, [], run)
    | RunStatus.SUCCESS | RunStatus.FAILED | RunStatus.TIMEOUT =>
        Err (RunStateConflictError "只有 CREATED/QUEUED/ASSIGNED/RUNNING Run 可以请求取消")
    | RunStatus.CREATED | RunStatus.QUEUED | RunStatus.ASSIGNED | RunStatus.RUNNING =>
        run' ← cancel_core now run;
        Ok (put_run d run',
            publish_run_event run' (Some (r_status run)) (r_status run')
              (first_case_id (r_case_runs run')) None, run')
    end).

(** ** [force_stop_run] *)

Definition force_stop_core (now : datetime) (run : TestRun) : result TestRun :=
  match r_status run with
  | RunStatus.CREATED | RunStatus.QUEUED =>
      run1 ← update_nodes now
               (close_rule RunNodeStatus.CANCELLED (node_update RunNodeStatus.CANCELLED None None)) run;
      '(_, run2) ← set_run_status now (recompute_summary run1) RunStatus.CANCELLED
                     (run_update RunStatus.CANCELLED);
      Ok run2
  | _ =>
      run1 ← match r_status run with
             | RunStatus.ASSIGNED | RunStatus.RUNNING =>
                 snd <$> set_run_status now run RunStatus.CANCELLING (run_update RunStatus.CANCELLING)
             | _ => Ok run
             end;
      Ok (r_with_control run1 (r_total_timeout_ms run1)
            (Some (default now (r_force_stop_requested_at run1))) (r_force_stopped run1))
  end.

Definition force_stop_run (d : Db) (now : datetime) (user : CurrentUser) (run_id : string) : outcome TestRun :=
  transact d (
    run ← get_run d run_id;
    _ ← authorize_run_write d user run;
    if run_terminal (r_status run) then Ok (d, [], run)
    else
      run' ← force_stop_core now run;
      let forced := match r_status run with
                    | RunStatus.CREATED | RunStatus.QUEUED => None
                    | _ => Some "RUN_FORCE_STOP_REQUESTED"
                    end in
      Ok (put_run d run',
          publish_run_event run' (Some (r_status run)) (r_status run')
            (first_case_id (r_case_runs run')) forced, run')).

(** ** Disconnected runners *)

Definition RUNNER_DISCONNECTED_ERROR_TYPE : pytext := u "RUNNER_DISCONNECTED".
Definition RUNNER_DISCONNECTED_ERROR_MESSAGE : pytext := u "Runner 心跳超时，执行已异常终止".

(** [_heartbeat_expired]. *)
Definition heartbeat_expired (runner : Runner) (now ttl : Z) : bool :=
  match rn_last_heartbeat_at runner with
  | None => false
  | Some t => (t + ttl <=? now)%Z
  end.

(** [_disconnect_gate_blocks]. *)
Definition disconnect_gate_blocks (runner : Runner) (online : OnlineStatus.t) (redis_available : bool)
    (require_heartbeat_expiry : bool) (now ttl : Z) : bool :=
  if negb (bool_decide (online = OnlineStatus.OFFLINE)) || negb redis_available then true
  else if require_heartbeat_expiry && negb (heartbeat_expired runner now ttl) then true
  else negb (bool_decide (rn_status runner = RunnerStatus.ACTIVE)).

Record DisconnectResponse := {
  dr_runner_id : string;
  dr_online_status : OnlineStatus.t;
  dr_redis_available : bool;
  dr_reconciled_run_ids : list string;
}.

Definition fail_payload : NodeStatusUpdateRequest :=
  node_update RunNodeStatus.FAILED (Some RUNNER_DISCONNECTED_ERROR_TYPE)
    (Some RUNNER_DISCONNECTED_ERROR_MESSAGE).

(** The body of the [for run in runs] loop. *)
Definition fail_disconnected_run (now : datetime) (run : TestRun) : result TestRun :=
  run1 ← update_nodes now (close_rule RunNodeStatus.FAILED fail_payload) run;
  let run2 := recompute_summary run1 in
  _ ← ensure_terminal_run_matches_children run2 RunStatus.FAILED;
  '(_, run3) ← set_run_status now run2 RunStatus.FAILED
    {| ru_status := RunStatus.FAILED; ru_error_type := Some RUNNER_DISCONNECTED_ERROR_TYPE;
       ru_error_message := Some RUNNER_DISCONNECTED_ERROR_MESSAGE |};
  Ok run3.

Definition disconnect_candidate (runner_id : string) (run : TestRun) : bool :=
  bool_decide (r_runner_id run = Some runner_id)
  && bool_decide (r_status run ∈ [RunStatus.ASSIGNED; RunStatus.RUNNING]).

(** [order_by(TestRun.created_at.asc(), TestRun.id.asc())]. *)
Definition run_before (a b : TestRun) : Prop :=
  (h_created_at (r_header a) < h_created_at (r_header b))%Z
  \/ (h_created_at (r_header a) = h_created_at (r_header b) /\ String.leb (r_id a) (r_id b) = true).
#[global] Instance run_before_dec : RelDecision run_before.
Proof. intros a b. unfold run_before. apply _. Defined.

Definition disconnect_runs (d : Db) (runner_id : string) : list TestRun :=
  merge_sort run_before
    (filter (fun r => disconnect_candidate runner_id r = true) ((map_to_list (db_runs d)).*2)).

(** [reconcile_disconnected_runner_runs_core].  The Redis key is read twice,
    before and after the run rows are locked ([hb1], [hb2]); all runs are
    committed together. *)
Definition reconcile_disconnected_runner_runs_core `{Settings} (d : Db) (now : datetime)
    (runner_id : string) (hb1 hb2 : heartbeat_read) (require_heartbeat_expiry : bool)
    (heartbeat_ttl : option Z) : outcome DisconnectResponse :=
  let ttl := default runner_heartbeat_ttl_us heartbeat_ttl in
  let skip '(o, _, a) := Ok (d, [], {| dr_runner_id := runner_id; dr_online_status := o;
                                       dr_redis_available := a; dr_reconciled_run_ids := [] |}) in
  let blocked runner '(o, _, a) :=
    disconnect_gate_blocks runner o a require_heartbeat_expiry now ttl in
  transact d (
    runner ← some_or (db_runners d !! runner_id) (ResourceNotFoundError "Runner 不存在");
    if blocked runner (online_state runner hb1) then skip (online_state runner hb1)
    else if blocked runner (online_state runner hb2) then skip (online_state runner hb2)
    else
      let runs := disconnect_runs d runner_id in
      runs' ← map_result (fail_disconnected_run now) runs;
      let '(o, _, a) := online_state runner hb2 in
      Ok (foldl put_run d runs',
          mjoin ((fun '(r, r') => publish_run_event r' (Some (r_status r)) RunStatus.FAILED
                                    (first_case_id (r_case_runs r')) None) <$> zip runs runs'),
          {| dr_runner_id := rn_id runner; dr_online_status := o; dr_redis_available := a;
             dr_reconciled_run_ids := r_id <$> runs' |})).

(** The administrator's entry point: Redis evidence alone is enough. *)
Definition reconcile_disconnected_runner_runs `{Settings} (d : Db) (now : datetime)
    (user : CurrentUser) (runner_id : string) (hb1 hb2 : heartbeat_read) : outcome DisconnectResponse :=
  if is_admin user
  then reconcile_disconnected_runner_runs_core d now runner_id hb1 hb2 false None
  else (d, [], Err (AuthorizationError "只有管理员可以收口 Runner 断线任务")).

(** ** Overdue runs *)

Definition RUN_TOTAL_TIMEOUT_ERROR_TYPE : pytext := u "TOTAL_TIMEOUT".
Definition RUN_TOTAL_TIMEOUT_ERROR_MESSAGE : pytext := u "Run 总超时且超过上报宽限，执行结果未确认".
Definition RUN_CANCEL_OVERDUE_ERROR_MESSAGE : pytext :=
  u "取消请求已超过上报宽限，远端执行与 Cleanup 状态未确认".
Definition RUN_FORCE_STOP_OVERDUE_ERROR_MESSAGE : pytext :=
  u "强制停止请求已超过上报宽限，远端执行与 Cleanup 状态未确认".

(** [_overdue_run_deadline]; [grace] in microseconds. *)
Definition overdue_run_deadline (run : TestRun) (grace : Z) : option datetime :=
  match r_started_at run, r_total_timeout_ms run with
  | Some s, Some ms => Some (s + ms * 1000 + grace)%Z
  | _, _ => None
  end.

(** [_overdue_cancellation_error]. *)
Definition overdue_cancellation_error (run : TestRun) : pytext * pytext :=
  match r_force_stop_requested_at run with
  | Some _ => (u "FORCE_STOP_REQUESTED", RUN_FORCE_STOP_OVERDUE_ERROR_MESSAGE)
  | None => (u "CANCEL_REQUESTED", RUN_CANCEL_OVERDUE_ERROR_MESSAGE)
  end.

(** The two loops for a RUNNING run: a node already asked to stop is cancelled,
    any other open node times out. *)
Definition overdue_running_rule : node_rule := fun s =>
  if node_terminal s then None
  else if decide (s = RunNodeStatus.CANCELLING)
  then Some (RunNodeStatus.CANCELLED,
             node_update RunNodeStatus.CANCELLED (Some (u "CANCEL_REQUESTED"))
               (Some RUN_CANCEL_OVERDUE_ERROR_MESSAGE))
  else Some (RunNodeStatus.TIMEOUT,
             node_update RunNodeStatus.TIMEOUT (Some RUN_TOTAL_TIMEOUT_ERROR_TYPE)
               (Some RUN_TOTAL_TIMEOUT_ERROR_MESSAGE)).

(** Terminal status, error and node rule chosen from the status of the run. *)
Definition overdue_plan (run : TestRun) : RunStatus.t * (pytext * pytext) * node_rule :=
  if decide (r_status run = RunStatus.RUNNING)
  then (RunStatus.TIMEOUT, (RUN_TOTAL_TIMEOUT_ERROR_TYPE, RUN_TOTAL_TIMEOUT_ERROR_MESSAGE),
        overdue_running_rule)
  else
    let err := overdue_cancellation_error run in
    (RunStatus.CANCELLED, err,
     close_rule RunNodeStatus.CANCELLED
       (node_update RunNodeStatus.CANCELLED (Some err.1) (Some err.2))).

Definition overdue_core (now : datetime) (run : TestRun) : result TestRun :=
  let '(run_status, (error_type, error_message), rule) := overdue_plan run in
  run1 ← update_nodes now rule run;
  _ ← raise_unless (forallb (fun c => node_terminal (cr_status c)) (r_case_runs run1))
        (RunStateConflictError "超期 Run 仍有无法安全收口的 CaseRun");
  '(_, run2) ← set_run_status now (recompute_summary run1) run_status
    {| ru_status := run_status; ru_error_type := Some error_type;
       ru_error_message := Some error_message |};
  Ok run2.

(** [reconcile_overdue_run_core]: [None] when there is nothing to close. *)
Definition reconcile_overdue_run_core (d : Db) (now : datetime) (run_id : string) (grace : Z)
  : outcome (option RunStatus.t) :=
  transact d (
    match db_runs d !! run_id with
    | None => Ok (d, [], None)
    | Some run =>
        if negb (bool_decide (r_status run ∈ [RunStatus.RUNNING; RunStatus.CANCELLING]))
        then Ok (d, [], None)
        else
          match overdue_run_deadline run grace with
          | None => Ok (d, [], None)
          | Some deadline =>
              if (now <=? deadline)%Z || bool_decide (r_case_runs run = []) then Ok (d, [], None)
              else
                run' ← overdue_core now run;
                Ok (put_run d run',
                    publish_run_event run' (Some (r_status run)) (r_status run')
                      (first_case_id (r_case_runs run')) None, Some (r_status run'))
          end
    end).
