(* ===== verification/RunDispatch.v ===== *)
(** Dispatch and claim: the outbox half of [runs/service.py]
    ([_dispatch_runner_issues], [_task_envelope], [_validate_dispatch_payload],
    [_record_publish_result], [dispatch_run], [dispatch_runs_batch],
    [_finalize_cancelling_run_on_claim], [claim_run]). *)
From S2P Require Import Prelude PyText Projects RunData RunStatusOps RunControl.
From Stdlib Require Import Ascii.

(** ** Interfaces to the rest of the platform *)

(** An assertion of a pinned API case: its kind, the [enabled] flag, and whether
    [type.strip().upper()] is [AI_SEMANTIC]. *)
Record AssertionDef := { ad_deterministic : bool; ad_enabled : bool; ad_semantic : bool }.

(** What the run service reads of a pinned API case once the test-case component
    accepted it: the retry limit of its request ([None] without a request) and
    its assertions. *)
Record ApiCase := { ac_max_retries : option Z; ac_assertions : list AssertionDef }.

(** A node of a pinned Scenario DSL. *)
Record DslNode := { dn_id : string; dn_enabled : bool; dn_ai_assertion : bool }.

(** A pinned Web case: which of its assertions are [ASSERT_AI_SEMANTIC], and its
    session profile. *)
Record WebCaseContent := { wc_ai_semantic : list bool; wc_session_profile_id : option Z }.

(** What the test-case, scenario and web-case components promise to the run
    service: each either yields the pinned, supported content or raises.  The
    flag is [enforce_v1_retry_limit]; a recovery binding is represented by the pinned
    version of the login case. *)
Class Catalog := {
  load_supported_api_case : TestRun -> bool -> result ApiCase;
  load_supported_scenario : TestRun -> result (list DslNode);
  load_pinned_web_case : TestRun -> result WebCaseContent;
  web_session_recovery_binding : Z -> option Z -> SessionProfile -> result (option Z);
}.

(** [TaskPublishResult] of [infrastructure/rabbitmq/client.py]. *)
Record TaskPublishResult := { pr_published : bool; pr_code : option string }.

(** ** Envelope validation *)

(** [A-Za-z0-9_-]. *)
Definition safe_char (c : ascii) : bool :=
  let n := N_of_ascii c in
  (((48 <=? n) && (n <=? 57)) || ((65 <=? n) && (n <=? 90)) || ((97 <=? n) && (n <=? 122))
   || (n =? 95) || (n =? 45))%N.

Fixpoint all_safe (s : string) : bool :=
  match s with EmptyString => true | String c s' => safe_char c && all_safe s' end.

(** [^[A-Za-z0-9_-]+$] with a length bound. *)
Definition safe_id (max : nat) (s : string) : bool :=
  negb (bool_decide (s = "")) && (String.length s <=? max)%nat && all_safe s.

Definition run_type_ok (s : string) : bool :=
  bool_decide (s ∈ ["API_CASE"; "SCENARIO"; "WEB_CASE"]).
Definition slot_type_ok (s : string) : bool :=
  bool_decide (s ∈ ["API"; "WEB"; "PERFORMANCE"]).

(** [RunTaskEnvelope.model_validate]. *)
Definition envelope_valid (p : TaskPayload) : bool :=
  (tp_schema_version p =? 1)%Z && safe_id 64 (tp_message_id p) && safe_id 128 (tp_run_id p)
  && safe_id 64 (tp_runner_id p) && run_type_ok (tp_run_type p)
  && slot_type_ok (tp_required_slot_type p) && (1 <=? tp_attempt p)%Z && (tp_attempt p <=? 10)%Z.

(** [_task_envelope]: constructing the model validates it. *)
Definition task_envelope (run : TestRun) (message_id : string) (attempt : Z) (enqueued_at : datetime)
  : result TaskPayload :=
  match r_runner_id run with
  | None => Err (UnexpectedError "ValidationError")
  | Some runner_id =>
      let p := {| tp_schema_version := 1; tp_message_id := message_id; tp_run_id := r_id run;
                  tp_runner_id := runner_id; tp_run_type := RunType.value (r_run_type run);
                  tp_required_slot_type := RunnerSlotType.value (h_required_slot_type (r_header run));
                  tp_attempt := attempt; tp_enqueued_at := enqueued_at |} in
      _ ← raise_unless (envelope_valid p) (UnexpectedError "ValidationError");
      Ok p
  end.

(** [_expected_dispatch_routing_key]; Python renders a missing runner as [None]. *)
Definition expected_dispatch_routing_key (run : TestRun) : string :=
  "runner." +:+ default "None" (r_runner_id run) +:+ "."
  +:+ RunnerSlotType.lower (h_required_slot_type (r_header run)).

(** [_validate_dispatch_payload]. *)
Definition validate_dispatch_payload (run : TestRun) (ob : RunDispatchOutbox) : option TaskPayload :=
  let p := ob_payload ob in
  if bool_decide (ob_schema_version ob = 1%Z) && bool_decide (ob_run_id ob = r_id run)
     && bool_decide (Some (ob_runner_id ob) = r_runner_id run)
     && bool_decide (ob_routing_key ob = expected_dispatch_routing_key run)
     && envelope_valid p
     && bool_decide (tp_run_id p = r_id run)
     && bool_decide (Some (tp_runner_id p) = r_runner_id run)
     && bool_decide (tp_run_type p = RunType.value (r_run_type run))
     && bool_decide (tp_required_slot_type p
                     = RunnerSlotType.value (h_required_slot_type (r_header run)))
     && bool_decide (tp_message_id p = ob_message_id ob)
  then Some p else None.

(** ** Outbox updates *)

Definition ob_with (ob : RunDispatchOutbox) (payload : TaskPayload) (status : DispatchOutboxStatus.t)
    (attempts : Z) (last_error : option string) (published_at : option datetime) : RunDispatchOutbox :=
  {| ob_message_id := ob_message_id ob; ob_run_id := ob_run_id ob; ob_runner_id := ob_runner_id ob;
     ob_routing_key := ob_routing_key ob; ob_schema_version := ob_schema_version ob;
     ob_payload := payload; ob_status := status; ob_attempt_count := attempts;
     ob_last_error := last_error; ob_published_at := published_at;
     ob_claimed_at := ob_claimed_at ob; ob_claimed_runner_id := ob_claimed_runner_id ob |}.

Definition ob_failed (ob : RunDispatchOutbox) (error : string) : RunDispatchOutbox :=
  ob_with ob (ob_payload ob) DispatchOutboxStatus.FAILED (ob_attempt_count ob) (Some error)
    (ob_published_at ob).

Definition ob_claim (ob : RunDispatchOutbox) (runner_id : string) (now : datetime) : RunDispatchOutbox :=
  {| ob_message_id := ob_message_id ob; ob_run_id := ob_run_id ob; ob_runner_id := ob_runner_id ob;
     ob_routing_key := ob_routing_key ob; ob_schema_version := ob_schema_version ob;
     ob_payload := ob_payload ob; ob_status := ob_status ob; ob_attempt_count := ob_attempt_count ob;
     ob_last_error := ob_last_error ob; ob_published_at := ob_published_at ob;
     ob_claimed_at := Some now; ob_claimed_runner_id := Some runner_id |}.

Definition DISPATCH_MAX_ATTEMPTS : Z := 10.

Definition PUBLISH_ERROR_MESSAGES (code : string) : option string :=
  if decide (code = "BROKER_NACK") then Some "RabbitMQ 未确认任务消息"
  else if decide (code = "BROKER_UNROUTABLE") then Some "RabbitMQ 未找到可接收该任务的 Runner 路由"
  else if decide (code = "BROKER_UNAVAILABLE") then Some "RabbitMQ 暂不可用，任务已保留待重试"
  else if decide (code = "BROKER_ERROR") then Some "RabbitMQ 任务投递失败，任务已保留待重试"
  else None.

Record DispatchResponse := {
  dp_run_id : string;
  dp_run_status : RunStatus.t;
  dp_outbox_status : DispatchOutboxStatus.t;
  dp_message_id : string;
  dp_routing_key : string;
  dp_attempt_count : Z;
  dp_last_error : option string;
  dp_published_at : option datetime;
}.
Definition dispatch_response (run : TestRun) (ob : RunDispatchOutbox) : DispatchResponse :=
  {| dp_run_id := r_id run; dp_run_status := r_status run; dp_outbox_status := ob_status ob;
     dp_message_id := ob_message_id ob; dp_routing_key := ob_routing_key ob;
     dp_attempt_count := ob_attempt_count ob; dp_last_error := ob_last_error ob;
     dp_published_at := ob_published_at ob |}.

(** The row change of [_record_publish_result]. *)
Definition publish_result_row (now : datetime) (ob : RunDispatchOutbox) (result : TaskPublishResult)
  : RunDispatchOutbox :=
  if decide (ob_status ob = DispatchOutboxStatus.PUBLISHED) then ob
  else if pr_published result then
    ob_with ob (ob_payload ob) DispatchOutboxStatus.PUBLISHED (ob_attempt_count ob) None (Some now)
  else
    let given := default "" (pr_code result) in
    let code := match PUBLISH_ERROR_MESSAGES given with Some _ => given | None => "BROKER_ERROR" end in
    ob_failed ob (code +:+ ": " +:+ default "" (PUBLISH_ERROR_MESSAGES code)).

Definition record_publish_result (d : Db) (now : datetime) (run_id : string) (result : TaskPublishResult)
  : outcome DispatchResponse :=
  transact d (
    run ← get_run d run_id;
    ob ← some_or (r_outbox run) (ResourceConflictError "Run Dispatch Outbox 不存在");
    let ob' := publish_result_row now ob result in
    let run' := r_with_outbox run (Some ob') in
    Ok (put_run d run', [], dispatch_response run' ob')).

(** ** [dispatch_run] *)

(** [_dispatch_runner_issues]: the issue codes, in the order the code appends them. *)
Definition dispatch_issue_codes (run : TestRun) (runner : Runner) (hb : heartbeat_read) : list string :=
  (if decide (rn_status runner = RunnerStatus.ACTIVE) then [] else ["RUNNER_REVOKED"])
  ++ (if (String.length (rn_credential_digest runner) =? 64)%nat then [] else ["RUNNER_CREDENTIAL_INVALID"])
  ++ (match hb with HeartbeatAbsent => ["RUNNER_OFFLINE"] | _ => [] end)
  ++ (if forallb (fun t => bool_decide (t ∈ rn_tags runner)) (h_required_tags (r_header run))
      then [] else ["RUNNER_TAG_MISSING"])
  ++ (if forallb (fun t => bool_decide (t ∈ rn_ready_capabilities runner))
           (h_required_capabilities (r_header run))
      then [] else ["RUNNER_CAPABILITY_MISSING"])
  ++ (match head (filter (fun s => sl_type s = h_required_slot_type (r_header run)) (rn_slots runner)) with
      | Some s => if (sl_available s <? h_required_slot_count (r_header run))%Z
                  then ["RUNNER_SLOT_UNAVAILABLE"] else []
      | None => ["RUNNER_SLOT_UNAVAILABLE"]
      end)
  ++ (if negb (bool_decide (rn_id runner = "")) && all_safe (rn_id runner)
      then [] else ["RUNNER_ID_INVALID"]).

Definition dispatch_runner_issues (d : Db) (run : TestRun) (hb : heartbeat_read) : result Runner :=
  match r_runner_id run ≫= fun i => db_runners d !! i with
  | None => Err (RunValidationError ["RUNNER_NOT_FOUND"])
  | Some runner =>
      match hb with
      | HeartbeatUnavailable => Err (RedisUnavailableError "Runner 在线状态暂不可用，请稍后重试")
      | _ =>
          match dispatch_issue_codes run runner hb with
          | [] => Ok runner
          | issues => Err (RunValidationError issues)
          end
      end
  end.

Section dispatch.
Context `{Settings} `{Catalog}.

(** [if run.run_type == API_CASE: _load_supported_api_case(session, run)]. *)
Definition require_supported_case (run : TestRun) : result unit :=
  if decide (r_run_type run = RunType.API_CASE)
  then (fun _ => tt) <$> load_supported_api_case run true
  else Ok tt.

(** The outbox row a first dispatch inserts. *)
Definition new_outbox (run : TestRun) (message_id : string) (payload : TaskPayload) : RunDispatchOutbox :=
  {| ob_message_id := message_id; ob_run_id := r_id run;
     ob_runner_id := default "" (r_runner_id run);
     ob_routing_key := expected_dispatch_routing_key run; ob_schema_version := 1;
     ob_payload := payload; ob_status := DispatchOutboxStatus.PENDING; ob_attempt_count := 0;
     ob_last_error := None; ob_published_at := None; ob_claimed_at := None;
     ob_claimed_runner_id := None |}.

(** Up to the first commit: the guards, and for a CREATED run the new outbox row
    and the QUEUED status.  [inl] is the early return for a published message. *)
Definition dispatch_open (d : Db) (now : datetime) (user : CurrentUser) (run_id : string)
    (hb : heartbeat_read) (runner_prevalidated : bool) (message_id : string)
  : outcome (DispatchResponse + unit) :=
  transact d (
    run ← get_run d run_id;
    _ ← authorize_run_write d user run;
    let open_new :=
      payload ← task_envelope run message_id 1 now;
      '(changed, run1) ← set_run_status now run RunStatus.QUEUED (run_update RunStatus.QUEUED);
      let run2 := r_with_outbox run1 (Some (new_outbox run message_id payload)) in
      Ok (put_run d run2,
          if changed : bool then
            publish_run_event run2 (Some RunStatus.CREATED) RunStatus.QUEUED
              (first_case_id (r_case_runs run2)) None
          else [], inr tt) in
    let guards :=
      _ ← raise_unless (bool_decide (r_status run ∈ [RunStatus.CREATED; RunStatus.QUEUED]))
            (RunStateConflictError "只有 CREATED 或待重试的 QUEUED Run 可以投递");
      _ ← raise_if (bool_decide (r_status run = RunStatus.QUEUED) && bool_decide (r_outbox run = None))
            (RunStateConflictError "QUEUED Run 缺少 Dispatch Outbox，不能重新投递");
      _ ← require_supported_case run;
      if runner_prevalidated then Ok tt else (fun _ => tt) <$> dispatch_runner_issues d run hb in
    match r_outbox run with
    | Some ob =>
        if decide (ob_status ob = DispatchOutboxStatus.PUBLISHED) then
          match validate_dispatch_payload run ob with
          | None => Err (ResourceConflictError "Run 任务信封无效，不能重复投递")
          | Some _ => Ok (d, [], inl (dispatch_response run ob))
          end
        else _ ← guards; Ok (d, [], inr tt)
    | None => _ ← guards; open_new
    end).

(** From the first to the second commit: count the attempt, or give up.
    [inr] carries what is handed to the publisher. *)
Definition dispatch_attempt (d : Db) (run_id : string)
  : outcome (DispatchResponse + (string * TaskPayload)) :=
  transact d (
    run ← get_run d run_id;
    ob ← some_or (r_outbox run) (ResourceConflictError "Run Dispatch Outbox 不存在");
    let finish ob' resp :=
      let run' := r_with_outbox run (Some ob') in Ok (put_run d run', [], resp run') in
    match validate_dispatch_payload run ob with
    | None =>
        let ob' := ob_failed ob "TASK_ENVELOPE_INVALID: 任务信封不符合 V1 协议" in
        finish ob' (fun r => inl (dispatch_response r ob'))
    | Some envelope =>
        if (DISPATCH_MAX_ATTEMPTS <=? ob_attempt_count ob)%Z then
          let ob' := ob_failed ob "DISPATCH_ATTEMPTS_EXHAUSTED: 超过任务投递重试上限" in
          finish ob' (fun r => inl (dispatch_response r ob'))
        else
          let next_attempt := (ob_attempt_count ob + 1)%Z in
          let payload := tp_with_attempt envelope next_attempt in
          let ob' := ob_with ob payload DispatchOutboxStatus.PENDING next_attempt None
                       (ob_published_at ob) in
          finish ob' (fun _ => inr (ob_routing_key ob', payload))
    end).

(** [dispatch_run]: open, count the attempt, publish, record the broker's answer.
    [publish] is the RabbitMQ publisher. *)
Definition dispatch_run (publish : string -> TaskPayload -> TaskPublishResult) (d : Db)
    (now : datetime) (user : CurrentUser) (run_id : string) (hb : heartbeat_read)
    (runner_prevalidated : bool) (message_id : string) : outcome DispatchResponse :=
  let '(d1, evs, r1) := dispatch_open d now user run_id hb runner_prevalidated message_id in
  match r1 with
  | Err e => (d1, evs, Err e)
  | Ok (inl resp) => (d1, evs, Ok resp)
  | Ok (inr _) =>
      let '(d2, evs2, r2) := dispatch_attempt d1 run_id in
      match r2 with
      | Err e => (d2, evs ++ evs2, Err e)
      | Ok (inl resp) => (d2, evs ++ evs2, Ok resp)
      | Ok (inr (routing_key, payload)) =>
          let '(d3, evs3, r3) := record_publish_result d2 now run_id (publish routing_key payload) in
          (d3, evs ++ evs2 ++ evs3, r3)
      end
  end.

(** ** [dispatch_runs_batch] *)

Record BatchItem := {
  bi_run_id : string;
  bi_dispatched : bool;
  bi_run_status : option RunStatus.t;
  bi_outbox_status : option DispatchOutboxStatus.t;
  bi_error_code : option string;
}.
Record BatchResponse := {
  br_requested : Z;
  br_dispatched : Z;
  br_failed : Z;
  br_items : list BatchItem;
}.

(** The preflight body of the first loop. *)
Definition batch_preflight (d : Db) (project_id : Z) (hbs : string -> heartbeat_read) (run_id : string)
  : result unit :=
  run ← match db_runs d !! run_id with
        | Some r => if decide (h_project_id (r_header r) = project_id) then Ok r
                    else Err (ResourceNotFoundError "运行不存在或不属于当前项目")
        | None => Err (ResourceNotFoundError "运行不存在或不属于当前项目")
        end;
  _ ← raise_unless (bool_decide (r_status run = RunStatus.CREATED))
        (RunStateConflictError "只有“已创建”的运行可以加入本次批量执行");
  _ ← require_supported_case run;
  (fun _ => tt) <$> dispatch_runner_issues d run (hbs (default "" (r_runner_id run))).

Definition batch_error_item (run_id : string) (e : app_error) : BatchItem :=
  {| bi_run_id := run_id; bi_dispatched := false; bi_run_status := None; bi_outbox_status := None;
     bi_error_code := Some (match e with UnexpectedError _ => "RUN_DISPATCH_ERROR" | _ => error_code e end) |}.

Definition batch_item (run_id : string) (resp : DispatchResponse) : BatchItem :=
  let dispatched := bool_decide (dp_outbox_status resp = DispatchOutboxStatus.PUBLISHED) in
  {| bi_run_id := run_id; bi_dispatched := dispatched;
     bi_run_status := Some (dp_run_status resp); bi_outbox_status := Some (dp_outbox_status resp);
     bi_error_code := if dispatched then None else Some "RUN_DISPATCH_NOT_PUBLISHED" |}.

(** The second loop: each prevalidated run is dispatched; a failure is recorded
    against its run and the loop goes on. *)
Fixpoint batch_dispatch (publish : string -> TaskPayload -> TaskPublishResult) (now : datetime)
    (user : CurrentUser) (fresh : string -> string) (d : Db) (ready : list string) : Db * list RunEvent * list (string * BatchItem) :=
  match ready with
  | [] => (d, [], [])
  | run_id :: rest =>
      let '(d1, evs, r) := dispatch_run publish d now user run_id HeartbeatPresent true (fresh run_id) in
      let item := match r with Ok resp => batch_item run_id resp | Err e => batch_error_item run_id e end in
      let '(d2, evs2, items) := batch_dispatch publish now user fresh d1 rest in
      (d2, evs ++ evs2, (run_id, item) :: items)
  end.

Definition lookup_item (items : list (string * BatchItem)) (run_id : string) : result BatchItem :=
  some_or (snd <$> head (filter (fun x => x.1 = run_id) items)) (UnexpectedError "KeyError").

(** [dispatch_runs_batch]; the request schema rejects repeated run ids. *)
Definition dispatch_runs_batch (publish : string -> TaskPayload -> TaskPublishResult) (d : Db)
    (now : datetime) (user : CurrentUser) (project_id : Z) (run_ids : list string)
    (hbs : string -> heartbeat_read) (fresh : string -> string) : outcome BatchResponse :=
  match (_ ← get_project (db_projects d) user project_id;
         ensure_project_writable (db_projects d) project_id user) with
  | Err e => (d, [], Err e)
  | Ok _ =>
      let checked := (fun i => (i, batch_preflight d project_id hbs i)) <$> run_ids in
      let ready := fst <$> filter (fun x => is_ok x.2 = true) checked in
      let failed := omap (fun '(i, r) => match r with
                                         | Ok _ => None
                                         | Err e => Some (i, batch_error_item i e)
                                         end) checked in
      let '(d', evs, done) := batch_dispatch publish now user fresh d ready in
      (d', evs,
       items ← map_result (lookup_item (failed ++ done)) run_ids;
       let n := Z.of_nat (length (filter (fun x => bi_dispatched x = true) items)) in
       Ok {| br_requested := Z.of_nat (length items); br_dispatched := n;
             br_failed := (Z.of_nat (length items) - n)%Z; br_items := items |})
  end.

(** ** [claim_run] *)

Record ClaimResponse := {
  cl_run_id : string;
  cl_message_id : string;
  cl_runner_id : string;
  cl_status : RunStatus.t;
  cl_claimed_at : option datetime;
  cl_idempotent : bool;
}.

(** [_finalize_cancelling_run_on_claim]. *)
Definition finalize_cancelling_core (now : datetime) (run : TestRun) : result TestRun :=
  let forced := bool_decide (is_Some (r_force_stop_requested_at run)) in
  let error_type := u (if forced then "FORCE_STOP_REQUESTED" else "CANCEL_REQUESTED") in
  let error_message := u (if forced then "执行已被强制停止，Cleanup 可能未完成" else "执行已取消") in
  run1 ← update_nodes now
           (close_rule RunNodeStatus.CANCELLED
              (node_update RunNodeStatus.CANCELLED (Some error_type) (Some error_message))) run;
  let run2 := recompute_summary
                (r_with_control run1 (r_total_timeout_ms run1) (r_force_stop_requested_at run1)
                   (if forced then true else r_force_stopped run1)) in
  _ ← ensure_terminal_run_matches_children run2 RunStatus.CANCELLED;
  '(_, run3) ← set_run_status now run2 RunStatus.CANCELLED
    {| ru_status := RunStatus.CANCELLED; ru_error_type := Some error_type;
       ru_error_message := Some error_message |};
  Ok run3.

Definition claim_response (run : TestRun) (ob : RunDispatchOutbox) (runner : Runner)
    (status : RunStatus.t) (claimed_at : option datetime) (idempotent : bool) : ClaimResponse :=
  {| cl_run_id := r_id run; cl_message_id := ob_message_id ob; cl_runner_id := rn_id runner;
     cl_status := status; cl_claimed_at := claimed_at; cl_idempotent := idempotent |}.

Definition claim_run (d : Db) (now : datetime) (run_id : string) (credential message_id : string)
  : outcome ClaimResponse :=
  transact d (
    run ← get_run d run_id;
    runner ← authenticate_runner_for_run d run credential;
    ob ← some_or (r_outbox run) (RunStateConflictError "任务消息与 Run 不匹配");
    _ ← raise_unless (bool_decide (ob_message_id ob = message_id))
          (RunStateConflictError "任务消息与 Run 不匹配");
    _ ← raise_unless (bool_decide (is_Some (validate_dispatch_payload run ob)))
          (RunStateConflictError "任务信封无效，不能认领");
    let published := bool_decide (ob_status ob = DispatchOutboxStatus.PUBLISHED) in
    if bool_decide (r_status run ∈ [RunStatus.ASSIGNED; RunStatus.RUNNING]) && published
       && bool_decide (ob_claimed_runner_id ob = Some (rn_id runner))
       && bool_decide (is_Some (ob_claimed_at ob))
    then Ok (d, [], claim_response run ob runner RunStatus.ASSIGNED (ob_claimed_at ob) true)
    else
      match r_status run with
      | RunStatus.CANCELLED =>
          _ ← raise_if (negb published || bool_decide (is_Some (ob_claimed_runner_id ob))
                        || bool_decide (is_Some (ob_claimed_at ob)))
                (RunStateConflictError "已取消 Run 的任务消息不可认领");
          Ok (d, [], claim_response run ob runner RunStatus.CANCELLED None true)
      | RunStatus.CANCELLING =>
          _ ← raise_if (negb published
                        || (bool_decide (is_Some (ob_claimed_runner_id ob))
                            && negb (bool_decide (ob_claimed_runner_id ob = Some (rn_id runner)))))
                (RunStateConflictError "取消中 Run 的任务消息不可认领");
          let ob' := match ob_claimed_runner_id ob with
                     | None => ob_claim ob (rn_id runner) now
                     | Some _ => ob
                     end in
          run' ← finalize_cancelling_core now (r_with_outbox run (Some ob'));
          Ok (put_run d run',
              publish_run_event run' (Some RunStatus.CANCELLING) RunStatus.CANCELLED
                (first_case_id (r_case_runs run')) None,
              claim_response run ob runner RunStatus.CANCELLED None true)
      | RunStatus.QUEUED =>
          _ ← require_supported_case run;
          _ ← raise_if (bool_decide (ob_status ob = DispatchOutboxStatus.PENDING)
                        && bool_decide (ob_claimed_runner_id ob = None)
                        && bool_decide (ob_claimed_at ob = None))
                RunDispatchPendingError;
          _ ← raise_unless published (RunStateConflictError "任务尚未被 RabbitMQ 确认发布");
          _ ← raise_if (bool_decide (is_Some (ob_claimed_runner_id ob)))
                (RunStateConflictError "任务已被其他消息认领");
          let run1 := r_with_control (r_with_outbox run (Some (ob_claim ob (rn_id runner) now)))
                        (Some (default runner_total_timeout_default_ms (r_total_timeout_ms run)))
                        (r_force_stop_requested_at run) (r_force_stopped run) in
          '(_, run') ← set_run_status now run1 RunStatus.ASSIGNED (run_update RunStatus.ASSIGNED);
          Ok (put_run d run',
              publish_run_event run' (Some RunStatus.QUEUED) RunStatus.ASSIGNED
                (first_case_id (r_case_runs run')) None,
              claim_response run ob runner RunStatus.ASSIGNED (Some now) false)
      | _ => Err (RunStateConflictError "只有 QUEUED Run 可以被 Runner 认领")
      end).
End dispatch.
