(* ===== verification/RunCreate.v ===== *)
(** Run creation: [validate_run_request], [_validate_runner] and [create_run] of
    [runs/service.py].  Resolving the target (which version, which steps, which
    dataset rows) is the contract of the test-case, scenario and web-case
    components. *)
From S2P Require Import Prelude PyText Projects RunData RunStatusOps RunDispatch.
From Stdlib Require Import Ascii.

Record RunCreateRequest := {
  rq_project_id : Z;
  rq_environment_id : Z;
  rq_runner_id : string;
  rq_run_type : RunType.t;
  rq_case_id : option Z;
  rq_case_version_id : option Z;
  rq_scenario_id : option Z;
  rq_scenario_version_id : option Z;
  rq_web_case_id : option Z;
  rq_web_case_version_id : option Z;
  rq_required_capabilities : list string;
  rq_required_tags : list string;
  rq_required_slot_type : RunnerSlotType.t;
  rq_required_slot_count : Z;
  rq_total_timeout_ms : option Z;
}.

(** [_TargetSpec]; the six id columns are one [RunTarget], absent while the
    target could not be resolved. *)
Record TargetSpec := {
  ts_target : option RunTarget;
  ts_required_capabilities : list string;
  ts_steps : list (string * string * string);
  ts_iterations : list DatasetRow;
}.

Record Environment := { env_project_id : Z; env_enabled : bool }.

(** What the asset components answer: the issues found while resolving the
    target together with the resolved target, an environment row, and the
    capture of a case run's requirement sources. *)
Class Assets := {
  resolve_target : RunCreateRequest -> list string * TargetSpec;
  get_environment : Z -> option Environment;
  capture_case_run_requirement_sources : CaseRun -> result unit;
}.

(** [character in "0123456789abcdef"] after [lower()]. *)
Definition hex_char (c : ascii) : bool :=
  let n := N_of_ascii c in
  (((48 <=? n) && (n <=? 57)) || ((65 <=? n) && (n <=? 70)) || ((97 <=? n) && (n <=? 102)))%N.
Fixpoint all_hex (s : string) : bool :=
  match s with EmptyString => true | String c s' => hex_char c && all_hex s' end.

(** [_validate_runner]: the issue codes in the order they are appended. *)
Definition validate_runner (d : Db) (payload : RunCreateRequest) (capabilities : list string)
    (hb : heartbeat_read) : list string :=
  match db_runners d !! rq_runner_id payload with
  | None => ["RUNNER_NOT_FOUND"]
  | Some runner =>
      (if decide (rn_status runner = RunnerStatus.ACTIVE) then [] else ["RUNNER_REVOKED"])
      ++ (if (String.length (rn_credential_digest runner) =? 64)%nat && all_hex (rn_credential_digest runner)
          then [] else ["RUNNER_CREDENTIAL_INVALID"])
      ++ (match hb with
          | HeartbeatUnavailable => ["RUNNER_STATE_UNAVAILABLE"]
          | HeartbeatAbsent => ["RUNNER_OFFLINE"]
          | HeartbeatPresent => []
          end)
      ++ (if forallb (fun t => bool_decide (t ∈ rn_tags runner)) (rq_required_tags payload)
          then [] else ["RUNNER_TAG_MISSING"])
      ++ (if forallb (fun t => bool_decide (t ∈ rn_ready_capabilities runner)) capabilities
          then [] else ["RUNNER_CAPABILITY_MISSING"])
      ++ (match head (filter (fun s => sl_type s = rq_required_slot_type payload) (rn_slots runner)) with
          | Some s => if (sl_available s <? rq_required_slot_count payload)%Z
                      then ["RUNNER_SLOT_UNAVAILABLE"] else []
          | None => ["RUNNER_SLOT_UNAVAILABLE"]
          end)
      ++ (if bool_decide (rq_run_type payload = RunType.WEB_CASE)
             && bool_decide (default "" (rn_chrome_version runner) = "")
          then ["RUNNER_CHROME_UNAVAILABLE"] else [])
  end.

Section create.
Context `{Assets}.

(** [validate_run_request]: the issues, the required capabilities (the request's
    added to the target's) and the resolved target. *)
Definition validate_run_request (d : Db) (user : CurrentUser) (payload : RunCreateRequest)
    (hb : heartbeat_read) : result (list string * list string * TargetSpec) :=
  project ← get_project (db_projects d) user (rq_project_id payload);
  let archived := if decide (p_status project = ProjectStatus.ARCHIVED) then ["PROJECT_ARCHIVED"] else [] in
  let environment :=
    match get_environment (rq_environment_id payload) with
    | Some e => if bool_decide (env_project_id e = rq_project_id payload) && env_enabled e
                then [] else ["ENVIRONMENT_INVALID"]
    | None => ["ENVIRONMENT_INVALID"]
    end in
  let '(issues, target) := resolve_target payload in
  let web_slot := if bool_decide (rq_run_type payload = RunType.WEB_CASE)
                     && negb (bool_decide (rq_required_slot_type payload = RunnerSlotType.WEB))
                  then ["WEB_SLOT_REQUIRED"] else [] in
  let capabilities :=
    remove_dups (ts_required_capabilities target ++ rq_required_capabilities payload) in
  Ok (archived ++ environment ++ issues ++ web_slot ++ validate_runner d payload capabilities hb,
      capabilities, target).

(** The step rows of one case run; the database numbers them from [base]. *)
Definition new_steps (base : Z) (steps : list (string * string * string)) : list StepRun :=
  imap (fun j '(node_id, step_name, step_type) =>
          {| sr_id := (base + Z.of_nat j)%Z; sr_sequence_no := (Z.of_nat j + 1)%Z; sr_node_id := node_id;
             sr_step_name := step_name; sr_step_type := step_type; sr_node := new_node |}) steps.

(** The case rows: one per dataset row, or one. *)
Definition new_cases (case_base step_base : Z) (target : RunTarget) (spec : TargetSpec) : list CaseRun :=
  let iterations := match ts_iterations spec with [] => [None] | l => Some <$> l end in
  let n := Z.of_nat (length (ts_steps spec)) in
  imap (fun i row =>
          {| cr_id := (case_base + Z.of_nat i)%Z; cr_sequence_no := (Z.of_nat i + 1)%Z; cr_target := target;
             cr_dataset := row; cr_node := new_node;
             cr_steps := new_steps (step_base + Z.of_nat i * n)%Z (ts_steps spec) |}) iterations.

Definition new_run (now : datetime) (user : CurrentUser) (run_id : string) (case_base step_base : Z)
    (payload : RunCreateRequest) (capabilities : list string) (target : RunTarget) (spec : TargetSpec)
  : TestRun :=
  let cases := new_cases case_base step_base target spec in
  {| r_header :=
       {| h_id := run_id; h_target := target; h_project_id := rq_project_id payload;
          h_environment_id := Some (rq_environment_id payload);
          h_runner_id := Some (rq_runner_id payload); h_required_capabilities := capabilities;
          h_required_tags := rq_required_tags payload;
          h_required_slot_type := rq_required_slot_type payload;
          h_required_slot_count := rq_required_slot_count payload; h_created_by := user_id user;
          h_created_at := now |};
     r_status := RunStatus.CREATED; r_total_timeout_ms := rq_total_timeout_ms payload;
     r_force_stop_requested_at := None; r_force_stopped := false; r_started_at := None;
     r_ended_at := None; r_total := Z.of_nat (length cases); r_pass_count := 0; r_fail_count := 0;
     r_review_count := 0; r_timeout_count := 0; r_error_type := None; r_error_message := None;
     r_case_runs := cases; r_outbox := None |}.

(** [create_run]; [run_id] is the generated id, [case_base] and [step_base] the
    next keys of the two child tables.  A duplicate id and a target that breaks
    the table's CHECK constraint are integrity errors. *)
Definition create_run (d : Db) (now : datetime) (user : CurrentUser) (payload : RunCreateRequest)
    (hb : heartbeat_read) (run_id : string) (case_base step_base : Z) : outcome TestRun :=
  transact d (
    _ ← get_project (db_projects d) user (rq_project_id payload);
    _ ← ensure_project_writable (db_projects d) (rq_project_id payload) user;
    '(issues, capabilities, spec) ← validate_run_request d user payload hb;
    _ ← raise_unless (bool_decide (issues = [])) (RunValidationError issues);
    target ← some_or (ts_target spec) (ResourceConflictError "Run 创建失败");
    _ ← raise_if (bool_decide (is_Some (db_runs d !! run_id))) (ResourceConflictError "Run 创建失败");
    let run := new_run now user run_id case_base step_base payload capabilities target spec in
    _ ← map_result capture_case_run_requirement_sources (r_case_runs run);
    Ok (put_run d run,
        publish_run_event run None RunStatus.CREATED (first_case_id (r_case_runs run)) None, run)).
End create.
