(* ===== verification/RunExecution.v ===== *)
(** Execution reports of [runs/service.py]: [_execution_context],
    [start_api_execution], [start_scenario_execution], [complete_api_execution] and
    [complete_scenario_execution]; and [summarize_final_status] of
    [test_cases/assertions.py]. *)
From S2P Require Import Prelude PyText Projects RunData RunStatusOps RunControl RunDispatch.

(** ** Assertion results *)

Module AssertionStatus.
Inductive t := PASS | FAIL | REVIEW | SKIPPED.
#[global] Instance eq_dec : EqDecision t.
Proof. solve_decision. Defined.
End AssertionStatus.

(** [as_semantic]: [type.strip().upper() == "AI_SEMANTIC"]. *)
Record AssertionResult := { as_status : AssertionStatus.t; as_semantic : bool }.

(** [summarize_final_status]; the answer is never SKIPPED. *)
Definition summarize_final_status (results : list AssertionResult) : AssertionStatus.t :=
  let active := filter (fun r => as_status r <> AssertionStatus.SKIPPED) results in
  let ai := filter (fun r => as_semantic r = true) active in
  let fails semantic :=
    existsb (fun r => bool_decide (as_status r = AssertionStatus.FAIL)
                      && bool_decide (as_semantic r = semantic)) active in
  match active with
  | [] => AssertionStatus.PASS
  | _ =>
      if fails false then AssertionStatus.FAIL
      else
        match ai with
        | [] => AssertionStatus.PASS
        | _ =>
            if existsb (fun r => bool_decide (as_status r = AssertionStatus.REVIEW)) ai
            then AssertionStatus.REVIEW
            else if fails true then
              if existsb (fun r => negb (as_semantic r)
                                   && bool_decide (as_status r = AssertionStatus.PASS)) active
              then AssertionStatus.REVIEW else AssertionStatus.FAIL
            else AssertionStatus.PASS
        end
  end.

(** ** Interfaces: assertion engine, evaluation tokens, evidence *)

(** The claims of a signed evaluation token, for API, Scenario and Web runs alike;
    [None] for a claim that is absent or not of the expected shape. *)
Record EvaluationClaims := {
  ec_kind : option string;
  ec_run_id : option string;
  ec_message_id : option string;
  ec_case_run_id : option Z;
  ec_scenario_version_id : option Z;
  ec_web_case_version_id : option Z;
  ec_response_summary : option string;
  ec_assertion_status : option AssertionStatus.t;
  ec_assertion_results : option (list (option AssertionResult));
  ec_node_results : option (list (option (string * AssertionStatus.t)));
}.

(** [run_assertion] of the assertion engine, the redacted summary of a response,
    and the HMAC check of an evaluation token. *)
Class Evaluation := {
  run_assertion : AssertionDef -> Z -> string -> AssertionResult;
  execution_response_summary : string -> string;
  decode_execution_evaluation : datetime -> string -> result EvaluationClaims;
}.

(** ** The execution context *)

Record ExecutionContext := {
  cx_run : TestRun;
  cx_runner : Runner;
  cx_outbox : RunDispatchOutbox;
  cx_case : CaseRun;
}.

Section execution.
Context `{Settings} `{Catalog} `{Evaluation}.

(** [_execution_context]. *)
Definition execution_context (d : Db) (run_id credential message_id : string)
    (case_run_id : option Z) : result ExecutionContext :=
  run ← get_run d run_id;
  runner ← authenticate_runner_for_run d run credential;
  ob ← some_or (r_outbox run) (RunStateConflictError "Run 尚未由当前 Runner 认领");
  _ ← raise_unless (bool_decide (ob_message_id ob = message_id)
                    && bool_decide (ob_status ob = DispatchOutboxStatus.PUBLISHED)
                    && bool_decide (ob_claimed_runner_id ob = Some (rn_id runner))
                    && bool_decide (is_Some (ob_claimed_at ob)))
        (RunStateConflictError "Run 尚未由当前 Runner 认领");
  let cases :=
    match case_run_id with
    | Some i => filter (fun c => cr_id c = i) (r_case_runs run)
    | None =>
        if decide (r_run_type run = RunType.API_CASE)
        then take 1 (filter (fun c => node_terminal (cr_status c) = false) (r_case_runs run))
        else r_case_runs run
    end in
  match cases with
  | [c] => Ok {| cx_run := run; cx_runner := runner; cx_outbox := ob; cx_case := c |}
  | _ => Err (ResourceNotFoundError "CaseRun 不存在")
  end.

(** ** Starting an execution *)

Record StartResponse := {
  st_run_id : string;
  st_case_run_id : Z;
  st_status : RunStatus.t;
  st_started_at : option datetime;
  st_idempotent : bool;
}.
Definition start_response (cx : ExecutionContext) (status : RunStatus.t) (started : option datetime)
    (idempotent : bool) : StartResponse :=
  {| st_run_id := r_id (cx_run cx); st_case_run_id := cr_id (cx_case cx); st_status := status;
     st_started_at := started; st_idempotent := idempotent |}.

(** The loop that starts every step, then the case run. *)
Definition start_case (now : datetime) (c : CaseRun) (terminal_message : string) : result CaseRun :=
  let payload := node_update RunNodeStatus.RUNNING None None in
  steps ← map_result (fun s =>
    _ ← raise_if (node_terminal (sr_status s)) (RunStateConflictError terminal_message);
    set_step_status now s RunNodeStatus.RUNNING payload) (cr_steps c);
  set_case_status now (cr_with_steps c steps) RunNodeStatus.RUNNING payload.

Definition already_running (cx : ExecutionContext) : bool :=
  bool_decide (r_status (cx_run cx) = RunStatus.RUNNING)
  && bool_decide (cr_status (cx_case cx) = RunNodeStatus.RUNNING)
  && bool_decide (is_Some (r_started_at (cx_run cx))).

(** [start_api_execution]: a data-driven run starts its later iterations while
    it is already RUNNING. *)
Definition start_api_execution (d : Db) (now : datetime) (run_id credential message_id : string)
    (case_run_id : Z) : outcome StartResponse :=
  let '(d', evs, r) := transact d (
    cx ← execution_context d run_id credential message_id (Some case_run_id);
    let run := cx_run cx in
    if decide (r_status run = RunStatus.CANCELLING)
    then Ok (d, [], start_response cx RunStatus.CANCELLING (r_started_at run) true)
    else if already_running cx
    then Ok (d, [], start_response cx RunStatus.RUNNING (r_started_at run) true)
    else
      _ ← load_supported_api_case run true;
      _ ← raise_unless (bool_decide (r_status run ∈ [RunStatus.ASSIGNED; RunStatus.RUNNING]))
            (RunStateConflictError "只有 ASSIGNED/RUNNING Run 可以开始 API_CASE 迭代");
      _ ← raise_unless (bool_decide (cr_status (cx_case cx)
                                     ∈ [RunNodeStatus.CREATED; RunNodeStatus.ASSIGNED]))
            (RunStateConflictError "CaseRun 状态不允许开始 API_CASE 执行");
      c ← start_case now (cx_case cx) "StepRun 已结束，不能开始 API_CASE 执行";
      '(_, run') ← (if decide (r_status run = RunStatus.ASSIGNED)
                    then set_run_status now (replace_case run c) RunStatus.RUNNING
                           (run_update RunStatus.RUNNING)
                    else Ok (false, replace_case run c));
      Ok (put_run d run',
          publish_run_event run' (Some (r_status run)) RunStatus.RUNNING
            (Some (cr_id (cx_case cx))) None,
          start_response cx RunStatus.RUNNING (r_started_at run') false)) in
  (** The check after the commit. *)
  (d', evs,
   resp ← r;
   _ ← raise_if (negb (st_idempotent resp) && bool_decide (st_started_at resp = None))
         (ResourceConflictError "API_CASE 执行开始时间保存失败");
   Ok resp).

(** The common body of [start_scenario_execution] and [start_web_execution],
    which differ in the loader, the messages and the WEB_CASE-specific error for
    a RUNNING run whose case run is not. *)
Definition start_single_execution (load : TestRun -> result unit) (running_error : app_error)
    (assigned_error case_error : app_error) (terminal_message : string)
    (d : Db) (now : datetime) (run_id credential message_id : string) (case_run_id : Z)
  : outcome StartResponse :=
  transact d (
    cx ← execution_context d run_id credential message_id (Some case_run_id);
    let run := cx_run cx in
    if decide (r_status run = RunStatus.CANCELLING)
    then Ok (d, [], start_response cx RunStatus.CANCELLING (r_started_at run) true)
    else
      _ ← load run;
      if already_running cx
      then Ok (d, [], start_response cx RunStatus.RUNNING (r_started_at run) true)
      else
        _ ← raise_if (bool_decide (r_status run = RunStatus.RUNNING)) running_error;
        _ ← raise_unless (bool_decide (r_status run = RunStatus.ASSIGNED)) assigned_error;
        _ ← raise_unless (bool_decide (cr_status (cx_case cx)
                                       ∈ [RunNodeStatus.CREATED; RunNodeStatus.ASSIGNED])) case_error;
        c ← start_case now (cx_case cx) terminal_message;
        '(_, run') ← set_run_status now (replace_case run c) RunStatus.RUNNING
                       (run_update RunStatus.RUNNING);
        Ok (put_run d run',
            publish_run_event run' (Some RunStatus.ASSIGNED) RunStatus.RUNNING
              (Some (cr_id (cx_case cx))) None,
            start_response cx RunStatus.RUNNING (r_started_at run') false)).

Definition start_scenario_execution : Db -> datetime -> string -> string -> string -> Z ->
    outcome StartResponse :=
  start_single_execution (fun run => (fun _ => tt) <$> load_supported_scenario run)
    (RunStateConflictError "只有 ASSIGNED Scenario Run 可以开始执行")
    (RunStateConflictError "只有 ASSIGNED Scenario Run 可以开始执行")
    (RunStateConflictError "Scenario CaseRun 状态不允许开始执行")
    "Scenario StepRun 已结束，不能开始执行".

(** [get_execution_cancellation]: what a runner polls between steps. *)
Definition get_execution_cancellation (d : Db) (run_id credential message_id : string)
    (case_run_id : Z) : result (RunStatus.t * bool * bool) :=
  cx ← execution_context d run_id credential message_id (Some case_run_id);
  let s := r_status (cx_run cx) in
  Ok (s, bool_decide (s ∈ [RunStatus.CANCELLING; RunStatus.CANCELLED]),
      bool_decide (is_Some (r_force_stop_requested_at (cx_run cx)))).

(** ** Completing an API execution *)

Inductive ExecutionOutcome := HTTP_RESPONSE | EXECUTION_ERROR | O_TIMEOUT | O_CANCELLED.
#[global] Instance ExecutionOutcome_eq_dec : EqDecision ExecutionOutcome.
Proof. solve_decision. Defined.
Definition outcome_value (o : ExecutionOutcome) : string :=
  match o with
  | HTTP_RESPONSE => "HTTP_RESPONSE" | EXECUTION_ERROR => "EXECUTION_ERROR"
  | O_TIMEOUT => "TIMEOUT" | O_CANCELLED => "CANCELLED"
  end.

Record ResourceReport := {
  rr_type : string; rr_id : string; rr_status : string; rr_sequence : Z; rr_attempts : Z;
}.

Record ApiCompleteRequest := {
  ap_message_id : string;
  ap_case_run_id : Z;
  ap_outcome : ExecutionOutcome;
  ap_response : option string;
  ap_error_type : option pytext;
  ap_error_message : option pytext;
  ap_retry_count : Z;
  ap_resources : list ResourceReport;
  ap_evaluation_token : option string;
}.

(** [_evaluate_formal_api_assertions]: the deterministic assertions run first; if
    one of them fails, the enabled AI assertions are reported as skipped. *)
Definition evaluate_formal_api_assertions (content : ApiCase) (response : string)
  : list AssertionResult :=
  let indexed := imap (fun i a => ((Z.of_nat i + 1)%Z, a)) (ac_assertions content) in
  let deterministic_failed :=
    existsb (fun '(i, a) => ad_deterministic a
      && bool_decide (as_status (run_assertion a i response) = AssertionStatus.FAIL)) indexed in
  (fun '(i, a) =>
     if ad_deterministic a then run_assertion a i response
     else if deterministic_failed && ad_enabled a
     then {| as_status := AssertionStatus.SKIPPED; as_semantic := ad_semantic a |}
     else run_assertion a i response) <$> indexed.

(** The assertion verdict of an HTTP response: from the evaluation token when
    the runner supplies one, evaluated now otherwise. *)
Definition api_verdict (now : datetime) (cx : ExecutionContext) (payload : ApiCompleteRequest)
    (content : ApiCase) (response : string) : result AssertionStatus.t :=
  match ap_evaluation_token payload with
  | None => Ok (summarize_final_status (evaluate_formal_api_assertions content response))
  | Some token =>
      claims ← decode_execution_evaluation now token;
      _ ← raise_unless
            (bool_decide (ec_run_id claims = Some (r_id (cx_run cx)))
             && bool_decide (ec_message_id claims = Some (ap_message_id payload))
             && bool_decide (ec_case_run_id claims = Some (cr_id (cx_case cx)))
             && bool_decide (ec_response_summary claims = Some (execution_response_summary response)))
            (RunStateConflictError "execution evaluation token 与本次执行不匹配");
      match ec_assertion_status claims, ec_assertion_results claims with
      | Some AssertionStatus.SKIPPED, _ | None, _ | _, None =>
          Err (RunStateConflictError "execution evaluation token 内容无效")
      | Some s, Some raw =>
          _ ← map_result (fun r => some_or r (RunStateConflictError
                "execution evaluation token 断言结果无效")) raw;
          Ok s
      end
  end.

(** [result_status] with its error fields. *)
Definition api_result_status (now : datetime) (cx : ExecutionContext) (payload : ApiCompleteRequest)
    (content : ApiCase) (effective : ExecutionOutcome)
  : result (RunNodeStatus.t * option pytext * option pytext) :=
  match effective with
  | O_CANCELLED =>
      if bool_decide (ap_error_type payload = Some (u "FORCE_STOP_REQUESTED"))
         || bool_decide (is_Some (r_force_stop_requested_at (cx_run cx)))
      then Ok (RunNodeStatus.CANCELLED, Some (u "FORCE_STOP_REQUESTED"),
               Some (u "执行已被强制停止，Cleanup 可能未完成"))
      else Ok (RunNodeStatus.CANCELLED, Some (u "CANCEL_REQUESTED"), Some (u "执行已取消"))
  | HTTP_RESPONSE =>
      response ← some_or (ap_response payload)
        (RunExecutionUnsupportedError "HTTP_RESPONSE 缺少 response");
      verdict ← api_verdict now cx payload content response;
      Ok match verdict with
         | AssertionStatus.PASS => (RunNodeStatus.SUCCESS, None, None)
         | AssertionStatus.REVIEW =>
             (RunNodeStatus.REVIEW, Some (u "ASSERTION_REVIEW"), Some (u "一个或多个 AI 断言需要人工复核"))
         | _ => (RunNodeStatus.FAILED, Some (u "ASSERTION_FAILED"), Some (u "一个或多个确定性断言未通过"))
         end
  | O_TIMEOUT =>
      Ok (if bool_decide (ap_error_type payload = Some (u "TOTAL_TIMEOUT"))
          then (RunNodeStatus.TIMEOUT, Some (u "TOTAL_TIMEOUT"), Some (u "Run 总超时已终止执行"))
          else (RunNodeStatus.TIMEOUT, Some (u "TARGET_TIMEOUT"), Some (u "目标执行超时")))
  | EXECUTION_ERROR =>
      Ok (RunNodeStatus.FAILED,
          match ap_error_type payload with Some (c :: s) => Some (strip (c :: s)) | _ => None end,
          safe_error 1000 (ap_error_message payload))
  end.

(** [node_payload.status]: REVIEW is stored on the nodes as FAILED. *)
Definition api_node_status (s : RunNodeStatus.t) : RunNodeStatus.t :=
  match s with
  | RunNodeStatus.SUCCESS | RunNodeStatus.TIMEOUT | RunNodeStatus.CANCELLED => s
  | _ => RunNodeStatus.FAILED
  end.

(** Close the open steps of one case run and then the case run itself. *)
Definition finish_case (now : datetime) (c : CaseRun) (payload : NodeStatusUpdateRequest)
    (requested : RunNodeStatus.t) : result CaseRun :=
  steps ← map_result (fun s =>
    if node_terminal (sr_status s) then Ok s else set_step_status now s requested payload) (cr_steps c);
  set_case_status now (cr_with_steps c steps) requested payload.

(** The cancellation loop over the other case runs. *)
Definition cancel_other_cases (now : datetime) (self : Z) (payload : NodeStatusUpdateRequest)
    (cs : list CaseRun) : result (list CaseRun) :=
  map_result (fun c =>
    if bool_decide (cr_id c = self) || node_terminal (cr_status c) then Ok c
    else finish_case now c payload RunNodeStatus.CANCELLED) cs.

(** [effective_run_status] once every case run is terminal. *)
Definition api_final_status (statuses : list RunNodeStatus.t) : RunStatus.t :=
  let has s := bool_decide (s ∈ statuses) in
  if has RunNodeStatus.FAILED || has RunNodeStatus.REVIEW then RunStatus.FAILED
  else if has RunNodeStatus.TIMEOUT then RunStatus.TIMEOUT
  else if has RunNodeStatus.CANCELLED then RunStatus.CANCELLED
  else RunStatus.SUCCESS.

(** [effective_run_status == result_status], a comparison of enum values. *)
Definition same_value (a : RunStatus.t) (b : RunNodeStatus.t) : bool :=
  bool_decide (RunStatus.value a = RunNodeStatus.value b).

Definition api_final_error (final : RunStatus.t) (result_status : RunNodeStatus.t)
    (error_type error_message : option pytext) : option pytext * option pytext :=
  if same_value final result_status then (error_type, error_message)
  else
    match final with
    | RunStatus.FAILED => (Some (u "ITERATION_FAILED"), Some (u "一个或多个数据驱动迭代未成功"))
    | RunStatus.TIMEOUT => (Some (u "ITERATION_TIMEOUT"), Some (u "一个或多个数据驱动迭代未成功"))
    | RunStatus.CANCELLED => (Some (u "ITERATION_CANCELLED"), Some (u "一个或多个数据驱动迭代未成功"))
    | _ => (None, if decide (final = RunStatus.SUCCESS) then None
                  else Some (u "一个或多个数据驱动迭代未成功"))
    end.

(** Close the run when its last case run ended. *)
Definition api_close_run (now : datetime) (run : TestRun) (result_status : RunNodeStatus.t)
    (error_type error_message : option pytext) : result (RunStatus.t * TestRun) :=
  let statuses := cr_status <$> r_case_runs run in
  if negb (forallb node_terminal statuses) then Ok (RunStatus.RUNNING, run)
  else
    let final := api_final_status statuses in
    let '(et, em) := api_final_error final result_status error_type error_message in
    _ ← ensure_terminal_run_matches_children run final;
    '(_, run') ← set_run_status now run final
      {| ru_status := final; ru_error_type := et; ru_error_message := em |};
    Ok (final, run').

(** The row changes of [complete_api_execution] on the run aggregate. *)
Definition complete_api_core (now : datetime) (cx : ExecutionContext) (payload : ApiCompleteRequest)
    (effective : ExecutionOutcome) (result_status : RunNodeStatus.t)
    (error_type error_message : option pytext) : result (RunStatus.t * TestRun) :=
  let run := cx_run cx in
  let forced := bool_decide (error_type = Some (u "FORCE_STOP_REQUESTED"))
                && bool_decide (effective = O_CANCELLED) in
  let run0 := r_with_control run (r_total_timeout_ms run) (r_force_stop_requested_at run)
                (if forced then true else r_force_stopped run) in
  let node_payload := {| nu_status := api_node_status result_status; nu_duration := None;
                         nu_retry_count := Some (ap_retry_count payload);
                         nu_error_type := error_type; nu_error_message := error_message |} in
  c ← finish_case now (cx_case cx) node_payload (api_node_status result_status);
  let run1 := replace_case run0 c in
  cs ← (if decide (effective = O_CANCELLED)
        then cancel_other_cases now (cr_id (cx_case cx)) node_payload (r_case_runs run1)
        else Ok (r_case_runs run1));
  api_close_run now (recompute_summary (r_with_case_runs run1 cs)) result_status
    error_type error_message.

Record ApiCompleteResponse := {
  ax_run_status : RunStatus.t;
  ax_case_run_status : RunNodeStatus.t;
  ax_idempotent : bool;
}.

Definition complete_api_guards (cx : ExecutionContext) (effective : ExecutionOutcome) : result unit :=
  let s := r_status (cx_run cx) in
  if decide (effective = O_CANCELLED)
  then raise_unless (bool_decide (s ∈ [RunStatus.CANCELLING; RunStatus.CANCELLED]))
         (RunStateConflictError "只有 CANCELLING Run 可以完成取消")
  else raise_unless (bool_decide (s = RunStatus.RUNNING)
                     && bool_decide (cr_status (cx_case cx) = RunNodeStatus.RUNNING))
         (RunStateConflictError "只有 RUNNING Run/CaseRun 可以完成 API_CASE 执行").

Definition resource_rows (d : Db) (now : datetime) (run_id : string) (l : list ResourceReport)
  : list ResourceEntry :=
  let existing := Z.of_nat (length (filter (fun r => re_run_id r = run_id) (db_resources d))) in
  (fun r => {| re_run_id := run_id; re_resource_type := rr_type r; re_resource_id := rr_id r;
               re_status := rr_status r; re_registration_sequence := (existing + rr_sequence r)%Z;
               re_attempt_count := rr_attempts r;
               re_cleaned_at := if decide (rr_status r = "CLEANED") then Some now else None |}) <$> l.

(** [complete_api_execution]; [evidence_ok] is whether the object store accepts
    the evidence upload. *)
Definition complete_api_execution (d : Db) (now : datetime) (run_id credential : string)
    (payload : ApiCompleteRequest) (evidence_ok : bool) : outcome ApiCompleteResponse :=
  transact d (
    cx ← execution_context d run_id credential (ap_message_id payload) (Some (ap_case_run_id payload));
    let run := cx_run cx in
    let key := (r_id run, cr_id (cx_case cx)) in
    match db_api_results d !! key with
    | Some existing =>
        _ ← raise_unless (bool_decide (ar_message_id existing = ap_message_id payload))
              (RunStateConflictError "重复完成的 message_id 不匹配");
        Ok (d, [], {| ax_run_status := r_status run; ax_case_run_status := ar_status existing;
                      ax_idempotent := true |})
    | None =>
        let effective := if decide (r_status run = RunStatus.CANCELLING) then O_CANCELLED
                         else ap_outcome payload in
        _ ← complete_api_guards cx effective;
        content ← load_supported_api_case run false;
        max_retries ← some_or (ac_max_retries content)
          (RunExecutionUnsupportedError "当前 API_CASE 执行计划不受支持");
        _ ← raise_if (max_retries <? ap_retry_count payload)%Z
              (RunStateConflictError "retry_count 超过当前 API Case 的重试策略上限");
        '(result_status, error_type, error_message) ← api_result_status now cx payload content effective;
        '(final, run') ← complete_api_core now cx payload effective result_status error_type error_message;
        let summary := if decide (effective = HTTP_RESPONSE)
                       then execution_response_summary <$> ap_response payload else None in
        evidence ← match summary with
                   | None => Ok []
                   | Some s =>
                       if evidence_ok
                       then Ok [ {| evd_run_id := r_id run; evd_case_run_id := cr_id (cx_case cx);
                                    evd_message_id := ap_message_id payload; evd_summary := s |} ]
                       else Err (EvidenceStorageError "Evidence 存储暂不可用，请稍后重试")
                   end;
        let row := {| ar_message_id := ap_message_id payload; ar_outcome := outcome_value effective;
                      ar_status := result_status; ar_retry_count := ap_retry_count payload;
                      ar_error_type := error_type; ar_error_message := error_message;
                      ar_completed_at := now |} in
        Ok (put_api_result
              (add_rows (put_run d run') (resource_rows d now (r_id run) (ap_resources payload)) evidence)
              key row,
            publish_run_event run' (Some (r_status run)) final (Some (cr_id (cx_case cx))) None,
            {| ax_run_status := final; ax_case_run_status := result_status; ax_idempotent := false |})
    end).

(** ** Completing a Scenario execution *)

(** [ScenarioExecutionOutcome]. *)
Inductive ScenarioOutcome := S_SUCCESS | S_FAILED | S_TIMEOUT | S_CANCELLED.
#[global] Instance ScenarioOutcome_eq_dec : EqDecision ScenarioOutcome.
Proof. solve_decision. Defined.

(** A reported trace; PASSED and SUCCESS are both accepted for a passed node. *)
Inductive TraceStatus := T_PASSED | T_NODE (s : RunNodeStatus.t).
#[global] Instance TraceStatus_eq_dec : EqDecision TraceStatus.
Proof. solve_decision. Defined.

Record ScenarioTrace := {
  tc_node_id : string;
  tc_status : TraceStatus;
  tc_duration_ms : Z;
  tc_retry_count : Z;
  tc_error_type : option pytext;
  tc_error_message : option pytext;
}.

Record ScenarioCompleteRequest := {
  sp_message_id : string;
  sp_case_run_id : Z;
  sp_outcome : ScenarioOutcome;
  sp_traces : list ScenarioTrace;
  sp_error_type : option pytext;
  sp_error_message : option pytext;
  sp_evaluation_token : option string;
}.

(** [_scenario_trace_status]. *)
Definition scenario_trace_status (s : TraceStatus) : RunNodeStatus.t :=
  match s with T_PASSED => RunNodeStatus.SUCCESS | T_NODE n => n end.

(** [traces.get(node_id)] of the dictionary built from a duplicate-free list. *)
Definition trace_of (l : list ScenarioTrace) (node_id : string) : option ScenarioTrace :=
  head (filter (fun t => tc_node_id t = node_id) l).

(** [_validate_scenario_traces]. *)
Fixpoint check_traces (node_ids seen : list string) (l : list ScenarioTrace) : result unit :=
  match l with
  | [] => Ok tt
  | t :: l' =>
      _ ← raise_unless (bool_decide (tc_node_id t ∈ node_ids))
            (RunStateConflictError "Scenario trace 包含未知 node_id");
      _ ← raise_if (bool_decide (tc_node_id t ∈ seen))
            (RunStateConflictError "Scenario trace 不能重复上报同一 node_id");
      check_traces node_ids (tc_node_id t :: seen) l'
  end.

Definition validate_scenario_traces (dsl : list DslNode) (payload : ScenarioCompleteRequest) : result unit :=
  let node_ids := dn_id <$> dsl in
  _ ← check_traces node_ids [] (sp_traces payload);
  raise_if (bool_decide (sp_outcome payload = S_SUCCESS)
            && negb (forallb (fun i => bool_decide (i ∈ tc_node_id <$> sp_traces payload)) node_ids))
    (RunStateConflictError "Scenario SUCCESS 必须为固定 DSL 的每个节点提供 trace").

(** [expected_trace_status]. *)
Definition expected_trace_status (s : AssertionStatus.t) : option TraceStatus :=
  match s with
  | AssertionStatus.PASS => Some T_PASSED
  | AssertionStatus.FAIL => Some (T_NODE RunNodeStatus.FAILED)
  | AssertionStatus.REVIEW => Some (T_NODE RunNodeStatus.REVIEW)
  | AssertionStatus.SKIPPED => None
  end.

Definition node_result_matches (traces : list ScenarioTrace) (node : DslNode)
    (r : option (string * AssertionStatus.t)) : bool :=
  match r with
  | Some (i, s) =>
      bool_decide (i = dn_id node)
      && match expected_trace_status s, trace_of traces (dn_id node) with
         | Some expected, Some t => bool_decide (tc_status t = expected)
         | _, _ => false
         end
  | None => false
  end.

(** The checks of a supplied evaluation token, or of its absence when the DSL has
    enabled AI assertions. *)
Definition check_scenario_evaluation (now : datetime) (cx : ExecutionContext) (dsl : list DslNode)
    (payload : ScenarioCompleteRequest) (effective : ScenarioOutcome) : result unit :=
  let ai_nodes := filter (fun n => dn_enabled n && dn_ai_assertion n = true) dsl in
  let traces := sp_traces payload in
  match sp_evaluation_token payload with
  | Some token =>
      _ ← raise_if (bool_decide (effective ∈ [S_CANCELLED; S_TIMEOUT]))
            (RunStateConflictError "取消或超时 Scenario 不能提供 AI evaluation token");
      claims ← decode_execution_evaluation now token;
      _ ← raise_unless
            (bool_decide (ec_kind claims = Some "SCENARIO_AI_ASSERTION")
             && bool_decide (ec_run_id claims = Some (r_id (cx_run cx)))
             && bool_decide (ec_message_id claims = Some (sp_message_id payload))
             && bool_decide (ec_case_run_id claims = Some (cr_id (cx_case cx)))
             && bool_decide (ec_scenario_version_id claims =
                  match h_target (r_header (cx_run cx)) with ScenarioTarget _ v => Some v | _ => None end))
            (RunStateConflictError "Scenario AI evaluation token 与本次执行不匹配");
      match ec_assertion_status claims, ec_assertion_results claims, ec_node_results claims with
      | Some verdict, Some raw, Some nodes =>
          _ ← raise_unless (negb (bool_decide (verdict = AssertionStatus.SKIPPED))
                            && (length nodes =? length ai_nodes)%nat)
                (RunStateConflictError "Scenario AI evaluation token 内容无效");
          results ← map_result (fun r => some_or r (RunStateConflictError
                      "Scenario AI evaluation token 断言结果无效")) raw;
          _ ← raise_unless (length results =? length ai_nodes)%nat
                (RunStateConflictError "Scenario AI evaluation token 断言数量无效");
          _ ← raise_unless
                (forallb (fun '(n, r) => node_result_matches traces n r) (zip ai_nodes nodes))
                (RunStateConflictError "Scenario AI evaluation 与 trace 不匹配");
          raise_if (negb (bool_decide (verdict = AssertionStatus.PASS))
                    && negb (bool_decide (effective = S_FAILED)))
            (RunStateConflictError "Scenario AI 断言未通过时 outcome 必须为 FAILED")
      | _, _, _ => Err (RunStateConflictError "Scenario AI evaluation token 内容无效")
      end
  | None =>
      raise_if (negb (bool_decide (ai_nodes = []))
        && (bool_decide (effective = S_SUCCESS)
            || existsb (fun n => match trace_of traces (dn_id n) with
                                 | Some t => negb (bool_decide (tc_status t = T_NODE RunNodeStatus.SKIPPED))
                                 | None => false
                                 end) ai_nodes))
        (RunStateConflictError "Scenario AI 断言缺少受信评估结果")
  end.

Definition complete_scenario_guards (cx : ExecutionContext) (effective : ScenarioOutcome) : result unit :=
  let s := r_status (cx_run cx) in
  if decide (effective = S_CANCELLED)
  then raise_unless (bool_decide (s ∈ [RunStatus.CANCELLING; RunStatus.CANCELLED]))
         (RunStateConflictError "只有 CANCELLING/CANCELLED Scenario Run 可以完成取消")
  else raise_unless (bool_decide (s = RunStatus.RUNNING)
                     && bool_decide (cr_status (cx_case cx) = RunNodeStatus.RUNNING))
         (RunStateConflictError "只有 RUNNING Scenario Run/CaseRun 可以完成执行").

(** The error fields and the closed case run of a cancelled Scenario. *)
Definition scenario_cancel_error (run : TestRun) : pytext * pytext :=
  match r_force_stop_requested_at run with
  | Some _ => (u "FORCE_STOP_REQUESTED", u "执行已被强制停止，Cleanup 可能未完成")
  | None => (u "CANCEL_REQUESTED", u "执行已取消")
  end.

(** [status_by_node]: the reported statuses, plus a status for the first open
    step when the outcome has no node to show for it. *)
Definition first_unfinished (c : CaseRun) : option StepRun :=
  head (filter (fun s => node_terminal (sr_status s) = false) (cr_steps c)).

Definition status_by_node (effective : ScenarioOutcome) (traces : list ScenarioTrace) (c : CaseRun)
  : gmap string RunNodeStatus.t :=
  let reported : gmap string RunNodeStatus.t :=
    list_to_map (reverse ((fun t => (tc_node_id t, scenario_trace_status (tc_status t))) <$> traces)) in
  let values := (map_to_list reported).*2 in
  let mark s := match first_unfinished c with
                | Some st => <[sr_node_id st := s]> reported
                | None => reported
                end in
  match effective with
  | S_FAILED =>
      if existsb (fun s => bool_decide (s ∈ [RunNodeStatus.FAILED; RunNodeStatus.REVIEW])) values
      then reported else mark RunNodeStatus.FAILED
  | S_TIMEOUT =>
      if existsb (fun s => bool_decide (s = RunNodeStatus.TIMEOUT)) values
      then reported else mark RunNodeStatus.TIMEOUT
  | _ => reported
  end.

(** Close one open step from its trace. *)
Definition finish_scenario_step (now : datetime) (effective : ScenarioOutcome)
    (traces : list ScenarioTrace) (by_node : gmap string RunNodeStatus.t)
    (error_type error_message : option pytext) (s : StepRun) : result StepRun :=
  if node_terminal (sr_status s) then Ok s
  else
    desired ← match by_node !! sr_node_id s, effective with
              | Some d, _ => Ok d
              | None, S_FAILED => Ok RunNodeStatus.SKIPPED
              | None, S_TIMEOUT => Ok RunNodeStatus.TIMEOUT
              | None, _ => Err (RunStateConflictError "Scenario SUCCESS 缺少节点 trace")
              end;
    let payload :=
      match trace_of traces (sr_node_id s) with
      | Some t => {| nu_status := desired; nu_duration := Some (tc_duration_ms t);
                     nu_retry_count := Some (tc_retry_count t);
                     nu_error_type := safe_error 100 (tc_error_type t);
                     nu_error_message := safe_error 500 (tc_error_message t) |}
      | None => node_update desired error_type error_message
      end in
    set_step_status now s desired payload.

(** The case run after a completion that is not a cancellation. *)
Definition finish_scenario_case (now : datetime) (effective : ScenarioOutcome)
    (payload : ScenarioCompleteRequest) (error_type error_message : option pytext) (c : CaseRun)
  : result CaseRun :=
  let by_node := status_by_node effective (sp_traces payload) c in
  _ ← raise_if (bool_decide (effective = S_SUCCESS)
        && existsb (fun s => bool_decide (s ∈ [RunNodeStatus.FAILED; RunNodeStatus.TIMEOUT;
                                               RunNodeStatus.CANCELLED])) ((map_to_list by_node).*2))
        (RunStateConflictError "Scenario trace 与 SUCCESS outcome 不一致");
  steps ← map_result (finish_scenario_step now effective (sp_traces payload) by_node
                        error_type error_message) (cr_steps c);
  Ok (aggregate_case_status now (cr_with_steps c steps)).

(** [a or b] on optional text. *)
Definition text_or (a : option pytext) (b : pytext) : option pytext :=
  match a with Some (c :: s) => Some (c :: s) | _ => Some b end.

(** Final status and error fields of the run. *)
Definition scenario_result (effective : ScenarioOutcome) (run : TestRun)
    (error_type error_message : option pytext) : RunStatus.t * option pytext * option pytext :=
  match effective with
  | S_SUCCESS => (RunStatus.SUCCESS, None, None)
  | S_FAILED => (RunStatus.FAILED, text_or error_type (u "SCENARIO_EXECUTION_FAILED"),
                 text_or error_message (u "Scenario 执行失败"))
  | S_TIMEOUT => (RunStatus.TIMEOUT, text_or error_type (u "SCENARIO_TIMEOUT"),
                  text_or error_message (u "Scenario 执行超时"))
  | S_CANCELLED => let e := scenario_cancel_error run in (RunStatus.CANCELLED, Some e.1, Some e.2)
  end.

Definition complete_scenario_core (now : datetime) (cx : ExecutionContext)
    (payload : ScenarioCompleteRequest) (effective : ScenarioOutcome)
  : result (RunStatus.t * option pytext * option pytext * TestRun) :=
  let run := cx_run cx in
  let et0 := safe_error 100 (sp_error_type payload) in
  let em0 := safe_error 500 (sp_error_message payload) in
  let '(result_status, error_type, error_message) := scenario_result effective run et0 em0 in
  c ← (if decide (effective = S_CANCELLED) then
         let p := node_update RunNodeStatus.CANCELLED error_type error_message in
         steps ← map_result (fun s => sr_with s <$> apply_rule now (close_rule RunNodeStatus.CANCELLED p) (sr_node s))
                   (cr_steps (cx_case cx));
         n ← apply_rule now (close_rule RunNodeStatus.CANCELLED p) (cr_node (cx_case cx));
         Ok (cr_with_node (cr_with_steps (cx_case cx) steps) n)
       else finish_scenario_case now effective payload et0 em0 (cx_case cx));
  let forced := bool_decide (effective = S_CANCELLED)
                && bool_decide (is_Some (r_force_stop_requested_at run)) in
  let run1 := recompute_summary (replace_case
                (r_with_control run (r_total_timeout_ms run) (r_force_stop_requested_at run)
                   (r_force_stopped run || forced)) c) in
  _ ← ensure_terminal_run_matches_children run1 result_status;
  '(_, run2) ← set_run_status now run1 result_status
    {| ru_status := result_status; ru_error_type := error_type; ru_error_message := error_message |};
  Ok (result_status, error_type, error_message, run2).

Record ScenarioCompleteResponse := {
  sx_run_status : RunStatus.t;
  sx_case_run_status : RunNodeStatus.t;
  sx_idempotent : bool;
}.

(** [complete_scenario_execution]. *)
Definition complete_scenario_execution (d : Db) (now : datetime) (run_id credential : string)
    (payload : ScenarioCompleteRequest) : outcome ScenarioCompleteResponse :=
  transact d (
    cx ← execution_context d run_id credential (sp_message_id payload) (Some (sp_case_run_id payload));
    let run := cx_run cx in
    let key := (r_id run, cr_id (cx_case cx)) in
    match db_scenario_results d !! key with
    | Some existing =>
        _ ← raise_unless (bool_decide (tr_message_id existing = sp_message_id payload))
              (RunStateConflictError "重复完成的 message_id 不匹配");
        Ok (d, [], {| sx_run_status := tr_status existing;
                      sx_case_run_status := cr_status (cx_case cx); sx_idempotent := true |})
    | None =>
        dsl ← load_supported_scenario run;
        let effective := if decide (r_status run = RunStatus.CANCELLING) then S_CANCELLED
                         else sp_outcome payload in
        _ ← complete_scenario_guards cx effective;
        _ ← validate_scenario_traces dsl payload;
        _ ← check_scenario_evaluation now cx dsl payload effective;
        _ ← raise_unless
              (forallb (fun i => bool_decide (i ∈ dn_id <$> dsl)) (sr_node_id <$> cr_steps (cx_case cx))
               && forallb (fun i => bool_decide (i ∈ sr_node_id <$> cr_steps (cx_case cx))) (dn_id <$> dsl))
              (RunStateConflictError "固定 DSL 与 StepRun 节点不一致");
        '(result_status, error_type, error_message, run') ←
          complete_scenario_core now cx payload effective;
        let row := {| tr_message_id := sp_message_id payload; tr_status := result_status;
                      tr_error_type := error_type; tr_error_message := error_message;
                      tr_completed_at := now |} in
        let case_status := match find_case run' (cr_id (cx_case cx)) with
                           | Ok c => cr_status c | Err _ => cr_status (cx_case cx) end in
        Ok (put_scenario_result (put_run d run') key row,
            publish_run_event run' (Some (r_status run)) result_status
              (Some (cr_id (cx_case cx))) None,
            {| sx_run_status := result_status; sx_case_run_status := case_status;
               sx_idempotent := false |})
    end).
End execution.
