(* ===== verification/RunWeb.v ===== *)
(** Completion of Web executions: [complete_web_execution],
    [_apply_web_session_refresh] and [_load_supported_web_case] of
    [runs/service.py]. *)
From stdpp Require Import pretty.
From S2P Require Import Prelude PyText Projects RunData RunStatusOps RunControl RunDispatch RunExecution.

Inductive WebOutcome := W_SUCCESS | W_FAILED | W_TIMEOUT | W_CANCELLED.
#[global] Instance web_outcome_eq_dec : EqDecision WebOutcome.
Proof. solve_decision. Defined.

Inductive WebTraceStatus := WT_SUCCESS | WT_FAILED | WT_REVIEW | WT_SKIPPED | WT_TIMEOUT | WT_CANCELLED.
#[global] Instance web_trace_status_eq_dec : EqDecision WebTraceStatus.
Proof. solve_decision. Defined.

(** Locator attempts and healing contexts are only kept for display. *)
Record WebTrace := {
  wt_node_id : string;
  wt_status : WebTraceStatus;
  wt_duration_ms : Z;
  wt_error_type : option pytext;
  wt_error_message : option pytext;
}.

Inductive RecoveryStatus := NOT_NEEDED | RECOVERED | RECOVERY_FAILED.
#[global] Instance recovery_status_eq_dec : EqDecision RecoveryStatus.
Proof. solve_decision. Defined.

Record WebSessionRecoveryAudit := { ra_status : RecoveryStatus; ra_login_web_case_version_id : Z }.

(** [rs_storage_state]: the sorted compact JSON text of the storage state. *)
Record WebRefreshedSession := {
  rs_profile_id : Z;
  rs_expected_revision : Z;
  rs_expected_fingerprint : string;
  rs_storage_state : string;
}.

Record WebCompleteRequest := {
  wp_message_id : string;
  wp_case_run_id : Z;
  wp_outcome : WebOutcome;
  wp_traces : list WebTrace;
  wp_error_type : option pytext;
  wp_error_message : option pytext;
  wp_refreshed_session : option WebRefreshedSession;
  wp_session_recovery : option WebSessionRecoveryAudit;
  wp_evaluation_token : option string;
}.

(** [WebExecutionCompleteRequest.validate_outcome]. *)
Definition web_request_valid (p : WebCompleteRequest) : bool :=
  let text v := match v with Some (_ :: _) => true | _ => false end in
  match wp_outcome p with
  | W_CANCELLED => bool_decide (wp_traces p = []) && bool_decide (wp_error_type p = Some (u "CANCEL_REQUESTED"))
                   && text (wp_error_message p)
  | W_SUCCESS => bool_decide (wp_error_type p = None) && bool_decide (wp_error_message p = None)
  | _ => text (wp_error_type p) && text (wp_error_message p)
  end
  && bool_decide (is_Some (wp_refreshed_session p)
                  <-> (ra_status <$> wp_session_recovery p) = Some RECOVERED).

(** [_WEB_EVIDENCE_ERROR_TYPE] and [_WEB_EVIDENCE_ERROR_MESSAGE]. *)
Definition WEB_EVIDENCE_ERROR_TYPE : pytext := u "WEB_EVIDENCE_ERROR".
Definition WEB_EVIDENCE_ERROR_MESSAGE : pytext := u "Web 执行证据处理失败".
Definition WEB_SESSION_RECOVERY_FAILED : pytext := u "WEB_SESSION_RECOVERY_FAILED".

(** The dictionary from node to status of [complete_web_execution]. *)
Definition web_node_status (s : WebTraceStatus) : RunNodeStatus.t :=
  match s with
  | WT_SUCCESS => RunNodeStatus.SUCCESS
  | WT_FAILED => RunNodeStatus.FAILED
  | WT_REVIEW => RunNodeStatus.REVIEW
  | WT_SKIPPED => RunNodeStatus.SKIPPED
  | WT_TIMEOUT => RunNodeStatus.TIMEOUT
  | WT_CANCELLED => RunNodeStatus.CANCELLED
  end.

(** [{item.node_id: item for item in traces}.get(node_id)]: the last one wins. *)
Definition web_trace_of (l : list WebTrace) (node_id : string) : option WebTrace :=
  last (filter (fun t => wt_node_id t = node_id) l).

(** [_web_ai_assertions]: the node ids of the AI assertions. *)
Definition web_ai_assertions (content : WebCaseContent) : list string :=
  (filter (fun p => p.2 = true)
     (imap (fun i ai => ("assertion_" +:+ pretty (S i), ai)) (wc_ai_semantic content))).*1.

Section web.
Context `{Settings} `{Catalog} `{Evaluation}.

(** ** The pinned case *)

(** [_load_supported_web_case]; the checks of the case itself are the catalog's. *)
Definition load_supported_web_case (d : Db) (now : datetime) (run : TestRun) : result WebCaseContent :=
  let project_id := h_project_id (r_header run) in
  let environment_id := h_environment_id (r_header run) in
  content ← load_pinned_web_case run;
  match wc_session_profile_id content with
  | None => Ok content
  | Some pid =>
      let unusable := RunExecutionUnsupportedError "固定 Web Case Session Profile 不可用" in
      profile ← some_or (db_session_profiles d !! pid) unusable;
      raise_unless (bool_decide (pf_project_id profile = project_id)
                    && bool_decide (pf_environment_id profile ∈ [None; environment_id])
                    && pf_active profile) unusable;;
      recovery ← web_session_recovery_binding project_id environment_id profile;
      raise_if (match pf_expires_at profile with
                | Some e => (e <=? now)%Z && bool_decide (recovery = None)
                | None => false
                end) (RunExecutionUnsupportedError "固定 Web Case Session Profile 已过期且无法恢复");;
      Ok content
  end.

Definition start_web_execution (d : Db) (now : datetime) (run_id credential message_id : string)
    (case_run_id : Z) : outcome StartResponse :=
  start_single_execution (fun run => (fun _ => tt) <$> load_supported_web_case d now run)
    (RunStateConflictError "Run 与 CaseRun 状态不一致，不能幂等开始 Web_CASE 执行")
    (RunStateConflictError "只有 ASSIGNED Run 可以开始 Web_CASE 执行")
    (RunStateConflictError "CaseRun 状态不允许开始 Web_CASE 执行")
    "Web Case StepRun 已结束，不能开始执行" d now run_id credential message_id case_run_id.

(** ** The evaluation token *)

Definition expected_web_trace_status (s : AssertionStatus.t) : option WebTraceStatus :=
  match s with
  | AssertionStatus.PASS => Some WT_SUCCESS
  | AssertionStatus.FAIL => Some WT_FAILED
  | AssertionStatus.REVIEW => Some WT_REVIEW
  | AssertionStatus.SKIPPED => None
  end.

Definition web_node_result_matches (traces : list WebTrace) (node_id : string)
    (r : option (string * AssertionStatus.t)) : bool :=
  match r with
  | Some (i, s) =>
      bool_decide (i = node_id)
      && match expected_web_trace_status s, web_trace_of traces node_id with
         | Some expected, Some t => bool_decide (wt_status t = expected)
         | _, _ => false
         end
  | None => false
  end.

Definition check_web_evaluation (now : datetime) (cx : ExecutionContext) (ai : list string)
    (payload : WebCompleteRequest) (effective : WebOutcome) : result unit :=
  let traces := wp_traces payload in
  match wp_evaluation_token payload with
  | Some token =>
      raise_if (bool_decide (effective ∈ [W_CANCELLED; W_TIMEOUT]))
        (RunStateConflictError "取消或超时 Web Run 不能提供 AI evaluation token");;
      claims ← decode_execution_evaluation now token;
      raise_unless
        (bool_decide (ec_kind claims = Some "WEB_AI_ASSERTION")
         && bool_decide (ec_run_id claims = Some (r_id (cx_run cx)))
         && bool_decide (ec_message_id claims = Some (wp_message_id payload))
         && bool_decide (ec_case_run_id claims = Some (cr_id (cx_case cx)))
         && bool_decide (ec_web_case_version_id claims =
              match h_target (r_header (cx_run cx)) with WebTarget _ v => Some v | _ => None end))
        (RunStateConflictError "Web AI evaluation token 与本次执行不匹配");;
      match ec_assertion_status claims, ec_assertion_results claims, ec_node_results claims with
      | Some verdict, Some raw, Some nodes =>
          raise_unless (negb (bool_decide (verdict = AssertionStatus.SKIPPED))
                        && (length nodes =? length ai)%nat)
            (RunStateConflictError "Web AI evaluation token 内容无效");;
          results ← map_result (fun r => some_or r (RunStateConflictError
                      "Web AI evaluation token 断言结果无效")) raw;
          raise_unless (length results =? length ai)%nat
            (RunStateConflictError "Web AI evaluation token 断言数量无效");;
          raise_unless (forallb (fun '(n, r) => web_node_result_matches traces n r) (zip ai nodes))
            (RunStateConflictError "Web AI evaluation 与 trace 不匹配");;
          raise_if (negb (bool_decide (verdict = AssertionStatus.PASS))
                    && negb (bool_decide (effective = W_FAILED)))
            (RunStateConflictError "Web AI 断言未通过时 outcome 必须为 FAILED")
      | _, _, _ => Err (RunStateConflictError "Web AI evaluation token 内容无效")
      end
  | None =>
      raise_if (negb (bool_decide (ai = []))
                && negb (bool_decide (effective ∈ [W_CANCELLED; W_TIMEOUT]))
                && (bool_decide (effective = W_SUCCESS)
                    || existsb (fun t => bool_decide (wt_node_id t ∈ ai)
                                         && negb (bool_decide (wt_status t = WT_SKIPPED))) traces))
        (RunStateConflictError "Web AI 断言缺少受信评估结果")
  end.

(** ** Failures that are not a node's *)

Definition web_failure (cancellation_first : bool) (payload : WebCompleteRequest) (code : pytext) : bool :=
  negb cancellation_first && bool_decide (wp_outcome payload = W_FAILED)
  && bool_decide (wp_error_type payload = Some code).

Definition check_web_failures (cancellation_first : bool) (payload : WebCompleteRequest) : result unit :=
  let session_recovery_failure := web_failure cancellation_first payload WEB_SESSION_RECOVERY_FAILED in
  let audit_failed := bool_decide ((ra_status <$> wp_session_recovery payload) = Some RECOVERY_FAILED) in
  raise_if (session_recovery_failure && negb audit_failed)
    (RunStateConflictError "Session 恢复失败必须携带匹配的恢复审计");;
  raise_if (audit_failed && negb session_recovery_failure)
    (RunStateConflictError "Session 恢复失败审计与 Web outcome 不一致");;
  raise_if (negb cancellation_first && bool_decide (wp_error_type payload = Some WEB_EVIDENCE_ERROR_TYPE)
            && negb (bool_decide (wp_outcome payload = W_FAILED)))
    (RunStateConflictError "WEB_EVIDENCE_ERROR 只允许与 FAILED outcome 一起上报").

Definition complete_web_guards (cx : ExecutionContext) (effective : WebOutcome) : result unit :=
  let s := r_status (cx_run cx) in
  if decide (effective = W_CANCELLED)
  then raise_unless (bool_decide (s ∈ [RunStatus.CANCELLING; RunStatus.CANCELLED]))
         (RunStateConflictError "只有 CANCELLING/CANCELLED Web Run 可以完成取消")
  else raise_unless (bool_decide (s = RunStatus.RUNNING)
                     && bool_decide (cr_status (cx_case cx) = RunNodeStatus.RUNNING))
         (RunStateConflictError "只有 RUNNING Web Run/CaseRun 可以完成执行").

(** Every step has exactly one trace. *)
Definition traces_cover (c : CaseRun) (traces : list WebTrace) : bool :=
  let expected : gset string := list_to_set (sr_node_id <$> cr_steps c) in
  bool_decide (length traces = size expected)
  && bool_decide ((list_to_set (wt_node_id <$> traces) : gset string) = expected).

(** ** The closed case run *)

Definition check_web_outcome (effective : WebOutcome) (failure : bool) (payload : WebCompleteRequest)
  : result unit :=
  let has l := existsb (fun t => bool_decide (wt_status t ∈ l)) (wp_traces payload) in
  raise_if (bool_decide (effective = W_SUCCESS) && has [WT_FAILED; WT_TIMEOUT; WT_CANCELLED])
    (RunStateConflictError "Web trace 与 SUCCESS outcome 不一致");;
  raise_if (bool_decide (effective = W_FAILED) && negb failure && negb (has [WT_FAILED; WT_REVIEW]))
    (RunStateConflictError "Web FAILED outcome 必须包含失败节点 trace");;
  raise_if (bool_decide (effective = W_TIMEOUT) && negb (has [WT_TIMEOUT]))
    (RunStateConflictError "Web TIMEOUT outcome 必须包含超时节点 trace").

Definition finish_web_step (now : datetime) (traces : list WebTrace) (s : StepRun) : result StepRun :=
  trace ← some_or (web_trace_of traces (sr_node_id s)) (UnexpectedError "KeyError");
  let desired := web_node_status (wt_status trace) in
  set_step_status now s desired
    {| nu_status := desired; nu_duration := Some (wt_duration_ms trace); nu_retry_count := None;
       nu_error_type := safe_error 100 (wt_error_type trace);
       nu_error_message := safe_error 500 (wt_error_message trace) |}.

(** [special]: the error fields of an evidence or session failure, which fail the
    case run whatever its steps say. *)
Definition finish_web_case (now : datetime) (traces : list WebTrace) (special : option (pytext * pytext))
    (c : CaseRun) : result CaseRun :=
  steps ← map_result (finish_web_step now traces) (cr_steps c);
  let c1 := cr_with_steps c steps in
  match special with
  | Some (code, message) =>
      set_case_status now c1 RunNodeStatus.FAILED
        (node_update RunNodeStatus.FAILED (Some code) (Some message))
  | None => Ok (aggregate_case_status now c1)
  end.

Definition cancel_web_case (now : datetime) (error_type error_message : option pytext) (c : CaseRun)
  : result CaseRun :=
  let p := node_update RunNodeStatus.CANCELLED error_type error_message in
  steps ← map_result (fun s => sr_with s <$> apply_rule now (close_rule RunNodeStatus.CANCELLED p) (sr_node s))
            (cr_steps c);
  n ← apply_rule now (close_rule RunNodeStatus.CANCELLED p) (cr_node c);
  Ok (cr_with_node (cr_with_steps c steps) n).

(** Status and error fields of the result. *)
Definition web_result (effective : WebOutcome) (run : TestRun) (error_type error_message : option pytext)
  : RunStatus.t * option pytext * option pytext :=
  match effective with
  | W_SUCCESS => (RunStatus.SUCCESS, None, None)
  | W_FAILED => (RunStatus.FAILED, text_or error_type (u "WEB_EXECUTION_FAILED"),
                 text_or error_message (u "Web 执行失败"))
  | W_TIMEOUT => (RunStatus.TIMEOUT, text_or error_type (u "WEB_EXECUTION_TIMEOUT"),
                  text_or error_message (u "Web 执行超时"))
  | W_CANCELLED =>
      match r_force_stop_requested_at run with
      | Some _ => (RunStatus.CANCELLED, Some (u "FORCE_STOP_REQUESTED"), Some (u "执行已被强制停止"))
      | None => (RunStatus.CANCELLED, Some (u "CANCEL_REQUESTED"), Some (u "执行已取消"))
      end
  end.

(** The run after its case run has been closed. *)
Definition close_web_run (now : datetime) (run : TestRun) (c : CaseRun)
    (r : RunStatus.t * option pytext * option pytext) : result TestRun :=
  let run1 := recompute_summary (replace_case run c) in
  ensure_terminal_run_matches_children run1 r.1.1;;
  '(_, run2) ← set_run_status now run1 r.1.1
    {| ru_status := r.1.1; ru_error_type := r.1.2; ru_error_message := r.2 |};
  Ok run2.

(** ** The refreshed session *)

(** [_apply_web_session_refresh]. *)
Definition apply_web_session_refresh (d : Db) (now : datetime) (cx : ExecutionContext)
    (content : WebCaseContent) (payload : WebCompleteRequest) : result (Db * option PersistenceStatus) :=
  let h := r_header (cx_run cx) in
  match wp_session_recovery payload, wp_refreshed_session payload with
  | None, None => Ok (d, None)
  | recovery, refreshed =>
      pid ← some_or (wc_session_profile_id content)
              (RunStateConflictError "当前 Web Case 未绑定 Session Profile");
      let foreign := RunStateConflictError "Session Profile 不存在或归属不匹配" in
      profile ← some_or (db_session_profiles d !! pid) foreign;
      raise_unless (bool_decide (pf_project_id profile = h_project_id h)) foreign;;
      binding ← web_session_recovery_binding (h_project_id h) (h_environment_id h) profile;
      let mismatch := RunStateConflictError "Session 恢复审计与固定登录版本不匹配" in
      login ← some_or binding mismatch;
      audit ← some_or recovery (UnexpectedError "AttributeError");
      raise_unless (bool_decide (login = ra_login_web_case_version_id audit)) mismatch;;
      match refreshed with
      | None => Ok (d, Some NOT_ATTEMPTED)
      | Some r =>
          raise_unless (bool_decide (rs_profile_id r = pid))
            (RunStateConflictError "刷新回传的 Session Profile 身份不匹配");;
          if negb (pf_active profile && bool_decide (pf_revision profile = rs_expected_revision r)
                   && bool_decide (pf_storage_state_fingerprint profile = rs_expected_fingerprint r)
                   && bool_decide (pf_login_web_case_version_id profile
                                   = Some (ra_login_web_case_version_id audit)))
          then Ok (d, Some CONFLICT)
          else
            cipher ← some_or (encrypt_state (rs_storage_state r))
                       (RunStateConflictError "刷新后的 Session Profile 无法安全加密");
            Ok (put_session_profile d pid
                  {| pf_project_id := pf_project_id profile; pf_environment_id := pf_environment_id profile;
                     pf_active := pf_active profile; pf_storage_state_ciphertext := cipher;
                     pf_storage_state_fingerprint := sha256_hex (rs_storage_state r);
                     pf_revision := (pf_revision profile + 1)%Z;
                     pf_refresh_ttl_seconds := pf_refresh_ttl_seconds profile;
                     pf_expires_at := Some (now + 1000000 * pf_refresh_ttl_seconds profile)%Z;
                     pf_login_web_case_version_id := pf_login_web_case_version_id profile |},
                Some UPDATED)
      end
  end.

(** ** The handler *)

Record WebCompleteResponse := {
  wx_run_status : RunStatus.t;
  wx_case_run_status : RunNodeStatus.t;
  wx_session_recovery : option PersistenceStatus;
  wx_idempotent : bool;
}.

(** The closed run and the result, before anything is stored. *)
Definition complete_web_case (now : datetime) (cx : ExecutionContext) (payload : WebCompleteRequest)
    (cancellation_first : bool) (effective : WebOutcome)
  : result (CaseRun * (RunStatus.t * option pytext * option pytext)) :=
  let evidence_failure := web_failure cancellation_first payload WEB_EVIDENCE_ERROR_TYPE in
  let session_recovery_failure := web_failure cancellation_first payload WEB_SESSION_RECOVERY_FAILED in
  let error_type := if evidence_failure then Some WEB_EVIDENCE_ERROR_TYPE
                    else safe_error 100 (wp_error_type payload) in
  let error_message := if evidence_failure then Some WEB_EVIDENCE_ERROR_MESSAGE
                       else safe_error 500 (wp_error_message payload) in
  let r := web_result effective (cx_run cx) error_type error_message in
  c ← (if decide (effective = W_CANCELLED) then cancel_web_case now r.1.2 r.2 (cx_case cx)
       else
         check_web_outcome effective
           (evidence_failure || bool_decide (wp_error_type payload = Some WEB_SESSION_RECOVERY_FAILED))
           payload;;
         finish_web_case now (wp_traces payload)
           (if evidence_failure then Some (WEB_EVIDENCE_ERROR_TYPE, WEB_EVIDENCE_ERROR_MESSAGE)
            else if session_recovery_failure then Some (WEB_SESSION_RECOVERY_FAILED, u "Web 登录态恢复失败")
            else None) (cx_case cx));
  Ok (c, r).

Definition complete_web_execution (d : Db) (now : datetime) (run_id credential : string)
    (payload : WebCompleteRequest) : outcome WebCompleteResponse :=
  transact d (
    cx ← execution_context d run_id credential (wp_message_id payload) (Some (wp_case_run_id payload));
    let run := cx_run cx in
    let key := (r_id run, cr_id (cx_case cx)) in
    match db_web_results d !! key with
    | Some existing =>
        raise_unless (bool_decide (wr_message_id existing = wp_message_id payload))
          (RunStateConflictError "重复完成的 message_id 不匹配");;
        Ok (d, [], {| wx_run_status := wr_status existing; wx_case_run_status := cr_status (cx_case cx);
                      wx_session_recovery := wr_session_recovery existing; wx_idempotent := true |})
    | None =>
        content ← load_supported_web_case d now run;
        let cancellation_first := bool_decide (r_status run ∈ [RunStatus.CANCELLING; RunStatus.CANCELLED]) in
        let effective := if cancellation_first then W_CANCELLED else wp_outcome payload in
        check_web_evaluation now cx (web_ai_assertions content) payload effective;;
        check_web_failures cancellation_first payload;;
        complete_web_guards cx effective;;
        raise_unless (bool_decide (effective = W_CANCELLED) || traces_cover (cx_case cx) (wp_traces payload))
          (RunStateConflictError "Web 执行 trace 必须且只能完整覆盖固定 Action/Assertion 节点");;
        '(c, r) ← complete_web_case now cx payload cancellation_first effective;
        '(d1, recovery) ← apply_web_session_refresh d now cx content payload;
        run' ← close_web_run now run c r;
        let row := {| wr_message_id := wp_message_id payload; wr_status := r.1.1;
                      wr_session_recovery := recovery; wr_error_type := r.1.2; wr_error_message := r.2;
                      wr_completed_at := now |} in
        Ok (put_web_result (put_run d1 run') key row,
            publish_run_event run' (Some (r_status run)) r.1.1 (Some (cr_id (cx_case cx))) None,
            {| wx_run_status := r.1.1; wx_case_run_status := cr_status c;
               wx_session_recovery := recovery; wx_idempotent := false |})
    end).
End web.
