(* ===== verification/RunInvariant.v ===== *)
(** What the run service keeps true of a run aggregate, and how an aggregate may
    evolve: [run_inv] is the invariant of one run with its children and its
    outbox row, [run_evolves] the abstract contract every handler implements
    (status edges, immutable terminal results, stable timestamps, one claim).
    The lemmas relate the building blocks of the handlers to both. *)
From S2P Require Import Prelude PyText Projects RunData RunStatusOps RunControl RunDispatch.

(** ** Evolution: the abstract contract *)

(** A column that is written at most once. *)
Definition keeps {A} (o o' : option A) : Prop := forall a, o = Some a -> o' = Some a.

(** Terminal nodes are immutable; the start time is written once. *)
Record node_evolves (n n' : NodeState) : Prop := {
  ne_terminal : node_terminal (n_status n) = true -> n' = n;
  ne_started : keeps (n_started_at n) (n_started_at n');
}.

Record step_evolves (s s' : StepRun) : Prop := {
  se_with : s' = sr_with s (sr_node s');
  se_node : node_evolves (sr_node s) (sr_node s');
}.

Record case_evolves (c c' : CaseRun) : Prop := {
  ce_id : cr_id c' = cr_id c;
  ce_target : cr_target c' = cr_target c;
  ce_dataset : cr_dataset c' = cr_dataset c;
  ce_sequence : cr_sequence_no c' = cr_sequence_no c;
  ce_terminal : node_terminal (cr_status c) = true -> c' = c;
  ce_node : node_evolves (cr_node c) (cr_node c');
  ce_steps : Forall2 step_evolves (cr_steps c) (cr_steps c');
}.

(** The outbox row of a run keeps its identity; attempts only grow; a published
    message is never published again; a claim is never changed. *)
Record outbox_evolves (ob ob' : RunDispatchOutbox) : Prop := {
  oe_message : ob_message_id ob' = ob_message_id ob;
  oe_runner : ob_runner_id ob' = ob_runner_id ob;
  oe_routing : ob_routing_key ob' = ob_routing_key ob;
  oe_attempts : (ob_attempt_count ob <= ob_attempt_count ob')%Z;
  oe_published : ob_status ob = DispatchOutboxStatus.PUBLISHED ->
    ob_status ob' = DispatchOutboxStatus.PUBLISHED /\ ob_payload ob' = ob_payload ob
    /\ ob_attempt_count ob' = ob_attempt_count ob /\ ob_published_at ob' = ob_published_at ob;
  oe_claimed_at : keeps (ob_claimed_at ob) (ob_claimed_at ob');
  oe_claimed_by : keeps (ob_claimed_runner_id ob) (ob_claimed_runner_id ob');
}.

(** One edge of the run state machine. *)
Definition run_edge (s s' : RunStatus.t) : Prop := s' ∈ RUN_TRANSITIONS s.
#[global] Instance run_edge_dec : RelDecision run_edge.
Proof. intros s s'. unfold run_edge. apply _. Defined.

Record run_evolves (r r' : TestRun) : Prop := {
  re_header : r_header r' = r_header r;
  re_status : rtc run_edge (r_status r) (r_status r');
  re_cases : Forall2 case_evolves (r_case_runs r) (r_case_runs r');
  re_timeout : keeps (r_total_timeout_ms r) (r_total_timeout_ms r');
  re_started : keeps (r_started_at r) (r_started_at r');
  re_ended : keeps (r_ended_at r) (r_ended_at r');
  re_outbox : forall ob, r_outbox r = Some ob ->
    exists ob', r_outbox r' = Some ob' /\ outbox_evolves ob ob';
}.

#[global] Instance keeps_preorder {A} : PreOrder (@keeps A).
Proof. split; [by intros o a | intros x y z Hxy Hyz a Ha; auto]. Qed.

#[global] Instance node_evolves_preorder : PreOrder node_evolves.
Proof.
  split; [by split | intros x y z [H1 S1] [H2 S2]; split].
  - intros Ht. pose proof (H1 Ht) as ->. auto.
  - by etrans.
Qed.

#[global] Instance step_evolves_preorder : PreOrder step_evolves.
Proof.
  split; [intros []; by split | intros x y z [H1 N1] [H2 N2]; split; [|by etrans]].
  rewrite H2, H1. by destruct z.
Qed.

#[global] Instance case_evolves_preorder : PreOrder case_evolves.
Proof.
  split; [intros c; by split | intros x y z [] []; split; try congruence].
  - intros Ht. pose proof (ce_terminal0 Ht) as ->. auto.
  - by etrans.
  - by etrans.
Qed.

#[global] Instance outbox_evolves_preorder : PreOrder outbox_evolves.
Proof.
  split; [by split | intros x y z [] []; split; try congruence; try lia; [|by etrans|by etrans]].
  intros Hp. destruct (oe_published0 Hp) as (Hy & ? & ? & ?), (oe_published1 Hy) as (? & ? & ? & ?).
  repeat split; congruence.
Qed.

#[global] Instance run_evolves_preorder : PreOrder run_evolves.
Proof.
  split; [intros r; split; try done; intros ob ->; by exists ob |].
  intros x y z [] []; split; try congruence; try (by etrans).
  intros ob Hob. destruct (re_outbox0 _ Hob) as (ob' & Hy & E1), (re_outbox1 _ Hy) as (ob'' & Hz & E2).
  exists ob''. split; [done | by etrans].
Qed.

(** ** The invariant *)

Record node_ok (n : NodeState) : Prop := {
  no_ended : node_terminal (n_status n) = true <-> is_Some (n_ended_at n);
  no_started : n_status n = RunNodeStatus.RUNNING -> is_Some (n_started_at n);
}.

Record case_ok (c : CaseRun) : Prop := {
  co_node : node_ok (cr_node c);
  co_steps : Forall (fun s => node_ok (sr_node s)) (cr_steps c);
  co_nodup : NoDup (sr_id <$> cr_steps c);
  co_closed : node_terminal (cr_status c) = true ->
    Forall (fun s => node_terminal (sr_status s) = true) (cr_steps c);
}.

Definition case_closed (c : CaseRun) : Prop := node_terminal (cr_status c) = true.
Definition case_created (c : CaseRun) : Prop :=
  cr_status c = RunNodeStatus.CREATED
  /\ Forall (fun s => sr_status s = RunNodeStatus.CREATED) (cr_steps c).

(** Which run statuses come before any execution report. *)
Definition not_started (s : RunStatus.t) : Prop :=
  s ∈ [RunStatus.CREATED; RunStatus.QUEUED; RunStatus.ASSIGNED].

(** What a verdict claims about the case runs: SUCCESS that none of them failed,
    FAILED that one of them did (or needs a review). *)
Definition passed (s : RunNodeStatus.t) : Prop := s ∈ [RunNodeStatus.SUCCESS; RunNodeStatus.SKIPPED].
Definition rejected (s : RunNodeStatus.t) : Prop := s ∈ [RunNodeStatus.FAILED; RunNodeStatus.REVIEW].
Definition verdict_ok (s : RunStatus.t) (cs : list CaseRun) : Prop :=
  (s = RunStatus.SUCCESS -> Forall (fun c => passed (cr_status c)) cs)
  /\ (s = RunStatus.FAILED -> Exists (fun c => rejected (cr_status c)) cs).

(** The outbox row against its run. *)
Record outbox_ok (r : TestRun) (ob : RunDispatchOutbox) : Prop := {
  ook_status : r_status r <> RunStatus.CREATED;
  ook_valid : is_Some (validate_dispatch_payload r ob);
  ook_attempts : (0 <= ob_attempt_count ob <= DISPATCH_MAX_ATTEMPTS)%Z;
  ook_published : ob_status ob = DispatchOutboxStatus.PUBLISHED <-> is_Some (ob_published_at ob);
  ook_claim : is_Some (ob_claimed_at ob) <-> is_Some (ob_claimed_runner_id ob);
  ook_claimed : forall i, ob_claimed_runner_id ob = Some i ->
    ob_status ob = DispatchOutboxStatus.PUBLISHED /\ r_runner_id r = Some i
    /\ is_Some (r_total_timeout_ms r);
  ook_unclaimed : r_status r = RunStatus.QUEUED -> ob_claimed_runner_id ob = None;
  ook_executing : r_status r ∉ [RunStatus.QUEUED; RunStatus.CANCELLED] ->
    is_Some (ob_claimed_runner_id ob);
}.

Record run_inv (r : TestRun) : Prop := {
  ri_cases : r_case_runs r <> [];
  ri_nodup : NoDup (cr_id <$> r_case_runs r);
  ri_case_ok : Forall case_ok (r_case_runs r);
  ri_summary : recompute_summary r = r;
  ri_started : r_status r = RunStatus.RUNNING -> is_Some (r_started_at r);
  ri_ended : run_terminal (r_status r) = true <-> is_Some (r_ended_at r);
  ri_fresh : not_started (r_status r) -> Forall case_created (r_case_runs r);
  ri_closed : run_terminal (r_status r) = true ->
    Forall case_closed (r_case_runs r)
    \/ (r_status r = RunStatus.CANCELLED /\ r_outbox r = None /\ Forall case_created (r_case_runs r));
  ri_verdict : verdict_ok (r_status r) (r_case_runs r);
  ri_outbox_none : r_outbox r = None -> r_status r ∈ [RunStatus.CREATED; RunStatus.CANCELLED];
  ri_outbox : forall ob, r_outbox r = Some ob -> outbox_ok r ob;
}.

(** ** Nodes *)

Lemma node_terminal_spec s : node_terminal s = true <-> s ∈ TERMINAL_NODE_STATUSES.
Proof. apply bool_decide_eq_true. Qed.

Lemma node_terminal_final s : node_terminal s = true -> NODE_TRANSITIONS s = [].
Proof. by destruct s. Qed.

Lemma run_terminal_final s : run_terminal s = true -> RUN_TRANSITIONS s = [].
Proof. by destruct s. Qed.

Lemma set_node_status_ok now n s p b n' :
  node_ok n -> set_node_status now n s p = Ok (b, n') ->
  node_ok n' /\ node_evolves n n' /\ n_status n' = s.
Proof.
  intros [He Hs]. unfold set_node_status. case_decide as Hd; intros; inv_ok.
  { split; [by split | split; [done | by simplify_eq]]. }
  apply bool_decide_eq_true in G. split; [|split; [split|]]; cbn; try done.
  - split; cbn.
    + destruct (node_terminal s) eqn:Ht; [split; by eauto|].
      rewrite <- He. split; [done|]. intros Hn. by rewrite (node_terminal_final _ Hn) in G; inversion G.
    + intros ->. by rewrite decide_True by done; eexists.
  - intros Ht. rewrite (node_terminal_final _ Ht) in G. inversion G.
  - intros a Ha. case_decide; [by rewrite Ha | done].
Qed.

Definition rule_status (rule : node_rule) (s : RunNodeStatus.t) : RunNodeStatus.t :=
  match rule s with Some (s', _) => s' | None => s end.

Lemma apply_rule_ok now rule n n' :
  node_ok n -> apply_rule now rule n = Ok n' ->
  node_ok n' /\ node_evolves n n' /\ n_status n' = rule_status rule (n_status n).
Proof.
  intros Hn. unfold apply_rule, rule_status. destruct (rule (n_status n)) as [[s p]|].
  - intros E. destruct (set_node_status now n s p) as [[b n1]|] eqn:Hset; [|done].
    cbn in E. inv_ok. by eapply set_node_status_ok.
  - intros; inv_ok. done.
Qed.

(** ** Cases *)

Lemma step_evolves_with s n : node_evolves (sr_node s) n -> step_evolves s (sr_with s n).
Proof. by split. Qed.

Lemma steps_evolve_terminal l l' :
  Forall2 step_evolves l l' -> Forall (fun s => node_terminal (sr_status s) = true) l -> l' = l.
Proof.
  induction 1 as [|s s' l l' [Hw Hn] Hl IH]; [done|]. intros [Ht Htl]%Forall_cons.
  rewrite IH by done. f_equal. rewrite Hw, (ne_terminal _ _ Hn Ht). by destruct s.
Qed.

Lemma steps_evolve_ids l l' : Forall2 step_evolves l l' -> sr_id <$> l' = sr_id <$> l.
Proof.
  induction 1 as [|s s' l l' [Hw _] Hl IH]; [done|]. rewrite !fmap_cons, IH. f_equal. by rewrite Hw.
Qed.

(** Rebuilding a case run from evolved steps and an evolved node. *)
Definition cr_rebuild (c : CaseRun) (steps : list StepRun) (n : NodeState) : CaseRun :=
  cr_with_node (cr_with_steps c steps) n.

Lemma case_evolves_rebuild c steps n :
  case_ok c -> Forall2 step_evolves (cr_steps c) steps -> node_evolves (cr_node c) n ->
  case_evolves c (cr_rebuild c steps n).
Proof.
  intros Hc Hs Hn. split; try done.
  intros Ht. rewrite (steps_evolve_terminal _ _ Hs (co_closed _ Hc Ht)).
  unfold cr_rebuild. rewrite (ne_terminal _ _ Hn Ht). by destruct c.
Qed.

Lemma case_ok_rebuild c steps n :
  case_ok c -> Forall2 step_evolves (cr_steps c) steps ->
  Forall (fun s => node_ok (sr_node s)) steps -> node_ok n ->
  (node_terminal (n_status n) = true -> Forall (fun s => node_terminal (sr_status s) = true) steps) ->
  case_ok (cr_rebuild c steps n).
Proof.
  intros Hc Hs Hok Hn Hcl. split; try done. cbn. rewrite (steps_evolve_ids _ _ Hs). apply Hc.
Qed.

Lemma cr_with_steps_rebuild c steps : cr_with_steps c steps = cr_rebuild c steps (cr_node c).
Proof. done. Qed.
Lemma cr_with_node_rebuild c n : cr_with_node c n = cr_rebuild c (cr_steps c) n.
Proof. by destruct c. Qed.

(** What a loop over steps yields: every step evolved and well-formed. *)
Definition step_step (s s' : StepRun) : Prop := step_evolves s s' /\ node_ok (sr_node s').

Lemma step_steps_split l l' :
  Forall2 step_step l l' -> Forall2 step_evolves l l' /\ Forall (fun s => node_ok (sr_node s)) l'.
Proof. induction 1 as [|??? ? []? []]; split; constructor; auto. Qed.

Definition case_step (c c' : CaseRun) : Prop := case_evolves c c' /\ case_ok c'.

Lemma case_steps_split l l' :
  Forall2 case_step l l' -> Forall2 case_evolves l l' /\ Forall case_ok l'.
Proof. induction 1 as [|??? ? []? []]; split; constructor; auto. Qed.

Lemma case_step_refl c : case_ok c -> case_step c c.
Proof. by split. Qed.

Lemma cases_evolve_ids l l' : Forall2 case_evolves l l' -> cr_id <$> l' = cr_id <$> l.
Proof.
  induction 1 as [|c c' l l' Hc Hl IH]; [done|]. rewrite !fmap_cons, IH. f_equal. apply Hc.
Qed.

Lemma cases_evolve_terminal l l' : Forall2 case_evolves l l' -> Forall case_closed l -> l' = l.
Proof.
  induction 1 as [|c c' l l' Hc Hl IH]; [done|]. intros [Ht Htl]%Forall_cons.
  rewrite IH by done. f_equal. by apply (ce_terminal _ _ Hc).
Qed.

(** ** Bulk updates *)

(** A rule either closes every node it meets, or never closes one. *)
Definition rule_uniform (rule : node_rule) : Prop :=
  (forall s, node_terminal (rule_status rule s) = true)
  \/ (forall s, node_terminal (rule_status rule s) = node_terminal s).

Lemma close_rule_status s p st :
  rule_status (close_rule s p) st = if node_terminal st then st else s.
Proof. unfold rule_status, close_rule. by destruct (node_terminal st). Qed.

Lemma close_rule_uniform s p : node_terminal s = true -> rule_uniform (close_rule s p).
Proof. intros Hs. left. intros st. rewrite close_rule_status. by destruct (node_terminal st) eqn:?. Qed.

Lemma cancel_rule_uniform s :
  s ∈ [RunNodeStatus.CANCELLED; RunNodeStatus.CANCELLING] -> rule_uniform (cancel_rule s).
Proof. intros Hs. set_unfold in Hs. destruct_or?; subst; [left | right]; by intros []. Qed.

Lemma overdue_running_rule_uniform : rule_uniform overdue_running_rule.
Proof. left. by intros []. Qed.

#[export] Hint Resolve close_rule_uniform cancel_rule_uniform overdue_running_rule_uniform : platform.

(** One case run after the two loops of a bulk update. *)
Record rule_case (rule : node_rule) (c c' : CaseRun) : Prop := {
  rc_step : case_step c c';
  rc_status : cr_status c' = rule_status rule (cr_status c);
  rc_steps : (sr_status <$> cr_steps c') = (fun s => rule_status rule (sr_status s)) <$> cr_steps c;
}.

Lemma rule_steps_ok now rule l l' :
  Forall (fun s => node_ok (sr_node s)) l ->
  map_result (fun s => sr_with s <$> apply_rule now rule (sr_node s)) l = Ok l' ->
  Forall2 step_step l l' /\ (sr_status <$> l') = (fun s => rule_status rule (sr_status s)) <$> l.
Proof.
  intros Hl Hm. apply map_result_ok in Hm. induction Hm as [|s s' l l' Hs Hm IH]; [done|].
  apply Forall_cons in Hl as [Hn Hl]. destruct (IH Hl) as [IH1 IH2].
  destruct (apply_rule now rule (sr_node s)) as [n|] eqn:En; [|done]. cbn in Hs. inv_ok.
  destruct (apply_rule_ok _ _ _ _ Hn En) as (Hok & Hev & Hst).
  split; [constructor; [split; [by apply step_evolves_with | done] | done]|].
  rewrite !fmap_cons, IH2. by f_equal.
Qed.

(** The steps of a case run decide whether it may be closed by the rule. *)
Lemma rule_uniform_closed rule c l' :
  rule_uniform rule -> case_ok c ->
  (sr_status <$> l') = (fun s => rule_status rule (sr_status s)) <$> cr_steps c ->
  node_terminal (rule_status rule (cr_status c)) = true ->
  Forall (fun s => node_terminal (sr_status s) = true) l'.
Proof.
  intros Hu Hc Hl Ht.
  cut (Forall (fun st => node_terminal st = true) (sr_status <$> l')); [by rewrite Forall_fmap|].
  rewrite Hl. apply Forall_fmap. unfold compose. destruct Hu as [Hall|Hsame].
  - by apply Forall_true.
  - rewrite Hsame in Ht. eapply Forall_impl; [by apply (co_closed _ Hc)|]. cbn. intros s. by rewrite Hsame.
Qed.

Lemma update_nodes_ok now rule r r' :
  rule_uniform rule -> Forall case_ok (r_case_runs r) -> update_nodes now rule r = Ok r' ->
  exists cs, r' = r_with_case_runs r cs /\ Forall2 (rule_case rule) (r_case_runs r) cs.
Proof.
  intros Hu Hok. unfold update_nodes, update_steps, update_cases. intros ?; inv_ok.
  eexists; split; [done|]. apply map_result_ok in E, E0. clear -Hu Hok E E0.
  revert a0 E0 Hok. induction E as [|c c1 cs cs1 Hc Hcs IH]; intros a0 E0 Hok.
  { inversion E0. constructor. }
  apply Forall_cons in Hok as [Hc0 Hok]. inversion E0 as [|? c2 ? cs2 Hc2 Hcs2]; subst.
  constructor; [|by apply IH]. clear IH Hcs Hcs2 E0. inv_ok.
  destruct (rule_steps_ok _ _ _ _ (co_steps _ Hc0) E) as [Hst Hss].
  destruct (apply_rule now rule (cr_node (cr_with_steps c a))) as [n|] eqn:En; [|done].
  cbn in Hc2. inv_ok. destruct (apply_rule_ok _ _ _ _ (co_node _ Hc0) En) as (Hn & Hev & Hns).
  apply step_steps_split in Hst as [Hse Hso]. split; [|done|done].
  split; [by apply case_evolves_rebuild | apply case_ok_rebuild; try done].
  rewrite Hns. intros Ht. by eapply rule_uniform_closed.
Qed.

Lemma rule_cases_step rule l l' : Forall2 (rule_case rule) l l' -> Forall2 case_step l l'.
Proof. intros Hl. eapply Forall2_impl; [done|]. by intros ?? []. Qed.

Lemma rule_cases_closed rule l l' :
  (forall s, node_terminal (rule_status rule s) = true) ->
  Forall2 (rule_case rule) l l' -> Forall case_closed l'.
Proof.
  intros Ht. induction 1 as [|c c' l l' Hc Hl IH]; constructor; [|done].
  unfold case_closed. rewrite (rc_status _ _ _ Hc). apply Ht.
Qed.

(** ** Aggregation *)

Lemma desired_terminal l :
  node_terminal (desired_case_status l) = true -> Forall (fun s => node_terminal s = true) l.
Proof.
  unfold desired_case_status. intros H. apply Forall_forall. intros s Hs.
  destruct (forallb node_terminal l) eqn:Hf.
  - rewrite forallb_forall in Hf. apply Hf. by apply list_elem_of_In.
  - by repeat case_match.
Qed.

Lemma aggregate_ok now c0 steps :
  let c := cr_with_steps c0 steps in
  case_ok c0 -> (node_terminal (cr_status c0) = true -> steps = cr_steps c0) ->
  Forall2 step_step (cr_steps c0) steps ->
  case_step c0 (aggregate_case_status now c).
Proof.
  intros c Hc Hterm Hst. apply step_steps_split in Hst as [Hse Hso].
  assert (Hkeep : case_step c0 c).
  { split; [by apply case_evolves_rebuild | apply case_ok_rebuild; try done; [apply Hc|]].
    intros Ht. rewrite (Hterm Ht). by apply (co_closed _ Hc). }
  unfold aggregate_case_status. destruct (cr_steps c) eqn:Hcs; [done|]. rewrite <- Hcs.
  destruct (node_terminal (cr_status c)) eqn:Ht; [done|]. case_decide; [done|]. case_decide; [done|].
  set (n' := Build_NodeState _ _ _ _ _ _ _). change (cr_with_node c n') with (cr_rebuild c0 steps n').
  destruct (co_node _ Hc) as [He Hs].
  assert (Hn : node_evolves (cr_node c0) n').
  { split; [cbn; unfold cr_status in Ht; cbn in Ht; congruence | intros a Ha; cbn].
    case_decide; [by rewrite Ha | done]. }
  split; [by apply case_evolves_rebuild | apply case_ok_rebuild; try done].
  - split; cbn.
    + change (n_status (cr_node c0)) with (cr_status c0) in *. 
      destruct (node_terminal (desired_case_status _)) eqn:Hd; [split; by eauto|].
      rewrite <- He. split; [done|]. unfold cr_status in *; cbn in *. congruence.
    + intros ->. by rewrite decide_True by done; eexists.
  - cbn. intros Hd. by apply desired_terminal, Forall_fmap in Hd.
Qed.

(** ** Replacing one child *)

Lemma head_filter_Some {A} (P : A -> Prop) `{!forall x, Decision (P x)} l x :
  head (filter P l) = Some x -> x ∈ l /\ P x.
Proof.
  intros Hh. assert (Hx : x ∈ filter P l) by (destruct (filter P l); simplify_eq/=; by left).
  apply list_elem_of_filter in Hx. tauto.
Qed.

Lemma replace_case_step r c c' :
  NoDup (cr_id <$> r_case_runs r) -> Forall case_ok (r_case_runs r) -> c ∈ r_case_runs r ->
  case_step c c' ->
  Forall2 case_step (r_case_runs r)
    ((fun x => if decide (cr_id x = cr_id c') then c' else x) <$> r_case_runs r).
Proof.
  intros Hnd Hok Hc Hstep. apply Forall2_fmap_r, Forall_Forall2_diag, Forall_forall.
  intros x Hx. unfold compose. case_decide as Hid.
  - assert (x = c) as ->; [|done]. eapply NoDup_ids_inj; [done..|].
    rewrite Hid. apply Hstep.
  - apply case_step_refl. rewrite Forall_forall in Hok. auto.
Qed.

Lemma replace_step_step c s s' :
  case_ok c -> s ∈ cr_steps c -> sr_id s' = sr_id s -> step_step s s' ->
  Forall2 step_step (cr_steps c)
    ((fun x => if decide (sr_id x = sr_id s') then s' else x) <$> cr_steps c).
Proof.
  intros Hok Hs Hids Hstep. apply Forall2_fmap_r, Forall_Forall2_diag, Forall_forall.
  intros x Hx. unfold compose. case_decide as Hid.
  - assert (x = s) as ->; [|done]. eapply NoDup_ids_inj; [apply Hok|done..|congruence].
  - split; [done|]. pose proof (co_steps _ Hok) as Hso. rewrite Forall_forall in Hso. auto.
Qed.

(** ** Runs *)

(** Refute or decide a membership in a concrete list of statuses. *)
Ltac decide_in H := apply (bool_decide_pack _) in H; vm_compute in H; try destruct H.
Ltac solve_in := apply (bool_decide_unpack _); vm_compute; exact I.

Lemma verdict_open s cs : s <> RunStatus.SUCCESS -> s <> RunStatus.FAILED -> verdict_ok s cs.
Proof. by split. Qed.

Lemma run_edge_CREATED s : ~ run_edge s RunStatus.CREATED.
Proof. intros He. destruct s; decide_in He. Qed.
Lemma run_edge_QUEUED s : run_edge s RunStatus.QUEUED -> s = RunStatus.CREATED.
Proof. intros He. destruct s; [done|..]; decide_in He. Qed.
Lemma run_edge_nonterminal s s' : run_edge s s' -> run_terminal s = false.
Proof. unfold run_edge. destruct (run_terminal s) eqn:Ht; [|done].
  rewrite (run_terminal_final _ Ht). by intros ?%elem_of_nil. Qed.

(** A handler's effect on one run: it evolves and the invariant still holds. *)
Definition run_step (r r' : TestRun) : Prop := run_evolves r r' /\ run_inv r'.

Lemma run_step_refl r : run_inv r -> run_step r r.
Proof. by split. Qed.
Lemma run_step_trans r1 r2 r3 : run_step r1 r2 -> run_step r2 r3 -> run_step r1 r3.
Proof. intros [E1 _] [E2 ?]. split; [by etrans | done]. Qed.

(** The columns [set_run_status] writes, and those it leaves alone. *)
Record status_set (now : datetime) (s : RunStatus.t) (r r' : TestRun) : Prop := {
  ss_header : r_header r' = r_header r;
  ss_status : r_status r' = s;
  ss_edge : s = r_status r \/ run_edge (r_status r) s;
  ss_cases : r_case_runs r' = r_case_runs r;
  ss_outbox : r_outbox r' = r_outbox r;
  ss_timeout : r_total_timeout_ms r' = r_total_timeout_ms r;
  ss_started : r_started_at r' = r_started_at r
    \/ (s = RunStatus.RUNNING /\ r_started_at r' = Some (default now (r_started_at r)));
  ss_running : s = RunStatus.RUNNING -> s <> r_status r -> is_Some (r_started_at r');
  ss_ended : s <> r_status r ->
    r_ended_at r' = if run_terminal s then Some (default now (r_ended_at r)) else r_ended_at r;
  ss_same : s = r_status r -> r' = r;
  ss_summary : recompute_summary r = r -> recompute_summary r' = r';
}.

Lemma set_run_status_set now r s p b r' :
  set_run_status now r s p = Ok (b, r') -> status_set now s r r' /\ b = negb (bool_decide (r_status r = s)).
Proof.
  unfold set_run_status. case_decide as Hd; intros; inv_ok.
  { split; [split; auto; congruence | by rewrite bool_decide_true by done]. }
  apply bool_decide_eq_true in G. split; [|by rewrite bool_decide_false by done].
  split; cbn; auto; try congruence.
  - case_decide; [right; auto | by left].
  - intros -> _. by rewrite decide_True by done; eexists.
  - intros Hs. unfold recompute_summary in *. destruct r; cbn in *. injection Hs as -> -> -> -> ->. done.
Qed.

(** Two versions of a run that differ in children, counters and control flags only. *)
Record same_columns (r r0 : TestRun) : Prop := {
  sc_header : r_header r0 = r_header r;
  sc_status : r_status r0 = r_status r;
  sc_timeout : r_total_timeout_ms r0 = r_total_timeout_ms r;
  sc_started : r_started_at r0 = r_started_at r;
  sc_ended : r_ended_at r0 = r_ended_at r;
  sc_outbox : r_outbox r0 = r_outbox r;
}.

Lemma validate_dispatch_payload_header r r' ob :
  r_header r' = r_header r -> validate_dispatch_payload r' ob = validate_dispatch_payload r ob.
Proof.
  intros Hh. unfold validate_dispatch_payload, expected_dispatch_routing_key, r_id, r_runner_id, r_run_type.
  by rewrite Hh.
Qed.

(** The status edges a handler takes without touching the outbox. *)
Definition outbox_free (s s' : RunStatus.t) : Prop :=
  s ∈ [RunStatus.CREATED; RunStatus.QUEUED] -> s' = s \/ s' = RunStatus.CANCELLED.

Lemma outbox_ok_status r r' ob :
  outbox_ok r ob -> r_header r' = r_header r -> r_total_timeout_ms r' = r_total_timeout_ms r ->
  (r_status r' = r_status r \/ run_edge (r_status r) (r_status r')) ->
  outbox_free (r_status r) (r_status r') -> outbox_ok r' ob.
Proof.
  intros [] Hh Ht He Hf. unfold outbox_free in *.
  assert (Hrunner : r_runner_id r' = r_runner_id r) by (unfold r_runner_id; by rewrite Hh).
  split; try done.
  - intros Hc. rewrite Hc in He. destruct He as [He|He]; [congruence | by apply run_edge_CREATED in He].
  - by rewrite (validate_dispatch_payload_header r).
  - by rewrite Ht, Hrunner.
  - intros Hq. rewrite Hq in He. destruct He as [He|He%run_edge_QUEUED]; [auto | done].
  - intros Hq. apply ook_executing0. intros Hin. apply Hq.
    apply elem_of_cons in Hin as [Hin|Hin%list_elem_of_singleton].
    + rewrite Hin in Hf. destruct Hf as [->| ->]; solve_in.
    + rewrite Hin in He. destruct He as [->|He%run_edge_nonterminal]; [solve_in | done].
Qed.

Section finish.
Context (now : datetime) (r r0 : TestRun) (s : RunStatus.t) (p : RunStatusUpdateRequest) (b : bool)
  (r' : TestRun).
Hypothesis Hinv : run_inv r.
Hypothesis Hsame : same_columns r r0.
Hypothesis Hcases : Forall2 case_step (r_case_runs r) (r_case_runs r0).
Hypothesis Hsum : recompute_summary r0 = r0.
Hypothesis Hset : set_run_status now r0 s p = Ok (b, r').

Lemma finish_evolves : run_evolves r r'.
Proof.
  apply case_steps_split in Hcases as [Hev Hok]. apply set_run_status_set in Hset as [[] _].
  destruct Hsame. split; try congruence.
  - rewrite ss_status0. destruct ss_edge0 as [->|He]; [by rewrite sc_status0|].
    apply rtc_once. by rewrite <- sc_status0.
  - intros a Ha. rewrite sc_started0 in *. destruct ss_started0 as [->|[_ ->]]; by rewrite Ha.
  - intros a Ha. destruct (decide (s = r_status r0)) as [Heq|Hne]; [by rewrite ss_same0, sc_ended0|].
    rewrite ss_ended0, sc_ended0 by done. destruct (run_terminal s); [by rewrite Ha | done].
  - intros ob Hob. exists ob. split; [congruence | done].
Qed.

Hypothesis Hfree : outbox_free (r_status r) s.
Hypothesis Hfresh : not_started s -> Forall case_created (r_case_runs r0).
Hypothesis Hclosed : run_terminal s = true ->
  Forall case_closed (r_case_runs r0)
  \/ (s = RunStatus.CANCELLED /\ r_outbox r = None /\ Forall case_created (r_case_runs r0)).

Hypothesis Hverdict : verdict_ok s (r_case_runs r0).

Lemma finish_times :
  (r_status r' = RunStatus.RUNNING -> is_Some (r_started_at r'))
  /\ (run_terminal (r_status r') = true <-> is_Some (r_ended_at r')).
Proof.
  apply set_run_status_set in Hset as [[] _]. destruct Hsame.
  destruct (ri_ended _ Hinv) as [He1 He2], (decide (s = r_status r0)) as [Heq|Hne].
  - rewrite ss_same0, sc_started0, sc_ended0, sc_status0 by done. split; [apply Hinv | done].
  - rewrite ss_status0. split; [auto|]. rewrite ss_ended0 by done.
    destruct (run_terminal s) eqn:Ht; [split; by eauto|]. split; [done|]. rewrite sc_ended0.
    intros Hend. destruct ss_edge0 as [|Hedge]; [done|].
    apply run_edge_nonterminal in Hedge. rewrite sc_status0, (He2 Hend) in Hedge. done.
Qed.

Lemma finish_step : run_step r r'.
Proof.
  split; [apply finish_evolves|]. destruct finish_times as [Hrun Hend].
  pose proof finish_evolves as Hev. apply set_run_status_set in Hset as [[] _].
  apply case_steps_split in Hcases as [Hcev Hok]. destruct Hsame. split; try done.
  - rewrite ss_cases0. pose proof (ri_cases _ Hinv) as Hne. by destruct Hcev.
  - rewrite ss_cases0, (cases_evolve_ids _ _ Hcev). apply Hinv.
  - by rewrite ss_cases0.
  - auto.
  - by rewrite ss_status0, ss_cases0.
  - rewrite ss_status0, ss_cases0, ss_outbox0, sc_outbox0. done.
  - by rewrite ss_status0, ss_cases0.
  - rewrite ss_outbox0, sc_outbox0, ss_status0. intros Hnone.
    pose proof (ri_outbox_none _ Hinv Hnone) as Hin.
    apply elem_of_cons in Hin as [Hin|Hin%list_elem_of_singleton].
    + unfold outbox_free in Hfree. rewrite Hin in Hfree. destruct Hfree as [->| ->]; solve_in.
    + rewrite sc_status0, Hin in ss_edge0. destruct ss_edge0 as [->|Hx%run_edge_nonterminal]; [solve_in|done].
  - rewrite ss_outbox0, sc_outbox0. intros ob Hob.
    apply (outbox_ok_status r); [by apply Hinv|congruence|congruence| |by rewrite ss_status0].
    rewrite ss_status0. by rewrite <- sc_status0.
Qed.
End finish.
