(* ===== verification/RunHandlers.v ===== *)
(** Each handler of the run service maps a run that satisfies the invariant to a
    run that satisfies it, along the abstract contract [run_evolves].  One lemma
    per row-changing core; [RunSystem] lifts them to the database. *)
From S2P Require Import Prelude PyText Projects RunData RunStatusOps RunControl RunDispatch.
From S2P Require Import RunCreate RunExecution RunWeb RunInvariant.

(** ** Shared shapes *)

Lemma ensure_terminal_closed r s :
  ensure_terminal_run_matches_children r s = Ok tt -> run_terminal s = true ->
  Forall case_closed (r_case_runs r).
Proof.
  unfold ensure_terminal_run_matches_children. intros He Ht. rewrite Ht in He. cbn [negb] in He.
  inv_ok. apply orb_false_iff in G as [_ G]. rewrite negb_false_iff, forallb_forall in G.
  apply Forall_forall. intros c Hc. apply G, list_elem_of_In. by apply list_elem_of_fmap_2.
Qed.

Lemma ensure_terminal_verdict r s :
  ensure_terminal_run_matches_children r s = Ok tt -> verdict_ok s (r_case_runs r).
Proof.
  unfold ensure_terminal_run_matches_children. intros He. split; intros ->; cbn [negb run_terminal] in He.
  - change (run_terminal RunStatus.SUCCESS) with true in He. cbn [negb] in He. inv_ok.
    rewrite forallb_forall in G. apply Forall_forall. intros c Hc. eapply (bool_decide_eq_true_1 _), G.
    by apply list_elem_of_In, list_elem_of_fmap_2.
  - change (run_terminal RunStatus.FAILED) with true in He. cbn [negb] in He. inv_ok.
    apply Exists_exists. apply orb_true_iff in G.
    assert (Hx : exists s, rejected s /\ s ∈ cr_status <$> r_case_runs r).
    { destruct G as [G%bool_decide_eq_true|G%bool_decide_eq_true]; eexists; (split; [|exact G]);
        unfold rejected; solve_in. }
    destruct Hx as (st & Hst & (c & -> & Hc)%list_elem_of_fmap). by exists c.
Qed.

Definition executing (s : RunStatus.t) : Prop := s ∈ [RunStatus.RUNNING; RunStatus.CANCELLING].

Lemma executing_spec s : executing s -> s = RunStatus.RUNNING \/ s = RunStatus.CANCELLING.
Proof. unfold executing. intros Hs. destruct s; decide_in Hs; auto. Qed.

(** Children of an executing run change, the run itself keeps its status. *)
Lemma keep_step (now : datetime) r r0 :
  run_inv r -> same_columns r r0 -> Forall2 case_step (r_case_runs r) (r_case_runs r0) ->
  recompute_summary r0 = r0 -> executing (r_status r) -> run_step r r0.
Proof.
  intros Hinv Hsame Hc Hsum Hex.
  assert (Hset : set_run_status now r0 (r_status r0) (run_update (r_status r0)) = Ok (false, r0)).
  { unfold set_run_status. by rewrite decide_True. }
  rewrite (sc_status _ _ Hsame) in Hset.
  eapply finish_step; try done; [intros ?; by left | | |].
  - intros Hn. destruct (executing_spec _ Hex) as [E|E]; rewrite E in Hn; decide_in Hn.
  - intros Hn. destruct (executing_spec _ Hex) as [E|E]; rewrite E in Hn; discriminate.
  - destruct (executing_spec _ Hex) as [E|E]; rewrite E; by apply verdict_open.
Qed.

(** Every case run is closed and the run takes a terminal status. *)
Lemma close_step now r r0 s p b r' :
  run_inv r -> same_columns r r0 -> Forall2 case_step (r_case_runs r) (r_case_runs r0) ->
  recompute_summary r0 = r0 -> set_run_status now r0 s p = Ok (b, r') ->
  outbox_free (r_status r) s -> run_terminal s = true -> Forall case_closed (r_case_runs r0) ->
  verdict_ok s (r_case_runs r0) -> run_step r r'.
Proof.
  intros. eapply finish_step; try done; [|by left].
  intros Hn. destruct s; try done; decide_in Hn.
Qed.

(** Only terminal or executing runs are touched by an edge out of these. *)
Lemma outbox_free_late s s' :
  s ∉ [RunStatus.CREATED; RunStatus.QUEUED] -> outbox_free s s'.
Proof. by intros ? ?. Qed.
Lemma outbox_free_cancel s : outbox_free s RunStatus.CANCELLED.
Proof. by right. Qed.
Lemma executing_late s : executing s -> s ∉ [RunStatus.CREATED; RunStatus.QUEUED].
Proof. intros [-> | ->]%executing_spec Hi; decide_in Hi. Qed.
#[export] Hint Resolve outbox_free_late outbox_free_cancel executing_late : platform.

Lemma recompute_same_columns r r0 : same_columns r r0 -> same_columns r (recompute_summary r0).
Proof. by intros []. Qed.
Lemma with_cases_same_columns r cs : same_columns r (r_with_case_runs r cs).
Proof. done. Qed.

(** A control flag changes nothing the invariant speaks about. *)
Lemma control_step r at_ forced :
  run_inv r -> run_step r (r_with_control r (r_total_timeout_ms r) at_ forced).
Proof.
  intros Hr. assert (Hv : forall ob, outbox_ok r ob ->
    outbox_ok (r_with_control r (r_total_timeout_ms r) at_ forced) ob).
  { intros ob Hob. eapply outbox_ok_status; [done..| by left |]. intros ?; by left. }
  destruct Hr. split; split; try done.
  - intros ob Hob. by exists ob.
  - cbn. unfold recompute_summary in *. destruct r; cbn in *. injection ri_summary as -> -> -> -> ->. done.
  - intros ob Hob. auto.
Qed.

(** ** [create_run] *)

Lemma new_node_ok : node_ok new_node.
Proof. split; cbn; [split; [done | by intros [? ?]] | done]. Qed.

Lemma imap_ids {A B} (f : nat -> A -> B) (g : B -> Z) (base : Z) l :
  (forall i x, g (f i x) = (base + Z.of_nat i)%Z) -> NoDup (g <$> imap f l).
Proof.
  intros Hg. rewrite fmap_imap. apply NoDup_alt. intros i j x Hi Hj.
  rewrite list_lookup_imap in Hi, Hj.
  apply fmap_Some in Hi as (a & _ & ->), Hj as (b & _ & Hj). unfold compose in Hj. rewrite !Hg in Hj. lia.
Qed.

Lemma Forall_imap_any {A B} (f : nat -> A -> B) (P : B -> Prop) l :
  (forall i x, P (f i x)) -> Forall P (imap f l).
Proof.
  intros Hf. apply Forall_lookup. intros i x Hi. rewrite list_lookup_imap in Hi.
  apply fmap_Some in Hi as (a & _ & ->). apply Hf.
Qed.

Lemma new_steps_created base l :
  Forall (fun s => node_ok (sr_node s)) (new_steps base l)
  /\ Forall (fun s => sr_status s = RunNodeStatus.CREATED) (new_steps base l).
Proof. split; apply Forall_imap_any; intros i [[]]; [apply new_node_ok | done]. Qed.

Lemma new_cases_ok cb sb t spec :
  new_cases cb sb t spec <> [] /\ NoDup (cr_id <$> new_cases cb sb t spec)
  /\ Forall case_ok (new_cases cb sb t spec) /\ Forall case_created (new_cases cb sb t spec).
Proof.
  unfold new_cases. split_and!.
  - by destruct (ts_iterations spec).
  - by apply imap_ids with cb.
  - apply Forall_imap_any. intros i x. split; cbn; [apply new_node_ok | apply new_steps_created | | done].
    apply imap_ids with (sb + Z.of_nat i * Z.of_nat (length (ts_steps spec)))%Z. by intros j [[]].
  - apply Forall_imap_any. intros i x. split; cbn; [done | apply new_steps_created].
Qed.

Lemma created_count s l :
  Forall case_created l -> s <> RunNodeStatus.CREATED -> count_status s l = 0%Z.
Proof.
  intros Hl Hs. unfold count_status. induction Hl as [|c l [Hc _] Hl IH]; [done|].
  rewrite filter_cons_False; [done | congruence].
Qed.

Lemma new_run_inv now user i cb sb p caps t spec : run_inv (new_run now user i cb sb p caps t spec).
Proof.
  destruct (new_cases_ok cb sb t spec) as (Hne & Hnd & Hok & Hcr). split; cbn; try done.
  - unfold recompute_summary; cbn. by rewrite !created_count.
  - intros _. solve_in.
Qed.

(** ** [update_run_status] *)

Section handlers.
Context `{Settings} `{Catalog} `{Evaluation}.

Lemma runner_transition_cases r s :
  authorize_runner_run_transition r s = Ok tt ->
  (s = r_status r /\ s ∈ [RunStatus.RUNNING; RunStatus.SUCCESS; RunStatus.FAILED;
                          RunStatus.CANCELLED; RunStatus.TIMEOUT])
  \/ s ∈ runner_allowed (r_status r).
Proof.
  unfold authorize_runner_run_transition. destruct (_ && _) eqn:Hb; intros; inv_ok.
  - apply andb_true_iff in Hb as [Hb1%bool_decide_eq_true Hb2%bool_decide_eq_true]. by left.
  - right. by apply bool_decide_eq_true in G.
Qed.

Lemma user_transition_cases r s :
  authorize_user_run_transition r s = Ok tt ->
  s = RunStatus.CANCELLED /\ r_status r ∈ [RunStatus.CREATED; RunStatus.CANCELLED].
Proof.
  unfold authorize_user_run_transition. intros Ha.
  destruct (r_status r), s; try done; split; try done; solve_in.
Qed.

Lemma created_no_outbox r : run_inv r -> r_status r = RunStatus.CREATED -> r_outbox r = None.
Proof.
  intros Hr Hs. destruct (r_outbox r) as [ob|] eqn:Hob; [|done].
  destruct (ri_outbox _ Hr _ Hob). done.
Qed.

Lemma user_update_step now r s p b r' :
  run_inv r -> authorize_user_run_transition r s = Ok tt ->
  set_run_status now r s p = Ok (b, r') -> run_step r r'.
Proof.
  intros Hr [-> Hs]%user_transition_cases Hset.
  eapply (finish_step now r r); try done; auto with platform; try apply Hr.
  - apply Forall_Forall2_diag. eapply Forall_impl; [apply Hr | apply case_step_refl].
  - intros Hn. decide_in Hn.
  - intros _. apply elem_of_cons in Hs as [Hs|Hs%list_elem_of_singleton].
    + right. split; [done|]. split; [by apply created_no_outbox|].
      apply (ri_fresh _ Hr). rewrite Hs. unfold not_started. solve_in.
    + destruct (ri_closed _ Hr) as [|(_ & ? & ?)]; [by rewrite Hs | by left | by right].
Qed.

Lemma runner_update_step now r s p b r' :
  run_inv r -> authorize_runner_run_transition r s = Ok tt ->
  ensure_terminal_run_matches_children r s = Ok tt ->
  set_run_status now r s p = Ok (b, r') -> run_step r r'.
Proof.
  intros Hr Ha%runner_transition_cases He Hset.
  eapply (finish_step now r r); try done; try apply Hr.
  - apply Forall_Forall2_diag. eapply Forall_impl; [apply Hr | apply case_step_refl].
  - intros Hs. destruct Ha as [[-> _]|Ha]; [by left|].
    destruct (r_status r), s; try (decide_in Hs); decide_in Ha.
  - intros Hn. destruct Ha as [[-> Ha]|Ha].
    + destruct (r_status r); try (decide_in Hn); decide_in Ha.
    + destruct s; try (decide_in Hn); destruct (r_status r); decide_in Ha.
  - intros Ht. left. by eapply ensure_terminal_closed.
  - by apply ensure_terminal_verdict.
Qed.

Lemma update_run_step d now r who s p b r' :
  run_inv r -> authorize_run_update d r who s = Ok tt ->
  set_run_status now r s p = Ok (b, r') -> run_step r r'.
Proof.
  intros Hr Ha Hset. destruct who; cbn in Ha; inv_ok.
  - by eapply user_update_step.
  - by eapply runner_update_step.
Qed.

(** ** [update_case_run_status] and [update_step_run_status] *)

Lemma authorize_child_executing d r who :
  authorize_child_update d r who = Ok tt -> executing (r_status r).
Proof. unfold authorize_child_update. intros ?; inv_ok. by apply bool_decide_eq_true in G. Qed.

Lemma find_case_elem r i c : find_case r i = Ok c -> c ∈ r_case_runs r /\ cr_id c = i.
Proof. unfold find_case. intros ?; inv_ok. by apply head_filter_Some in G. Qed.
Lemma find_step_elem c i s : find_step c i = Ok s -> s ∈ cr_steps c /\ sr_id s = i.
Proof. unfold find_step. intros ?; inv_ok. by apply head_filter_Some in G. Qed.

Lemma run_case_ok r c : run_inv r -> c ∈ r_case_runs r -> case_ok c.
Proof. intros Hr Hc. pose proof (ri_case_ok _ Hr) as Ho. rewrite Forall_forall in Ho. auto. Qed.

(** A case run of an executing run takes one step. *)
Lemma replace_case_keep (now : datetime) r c c' :
  run_inv r -> executing (r_status r) -> c ∈ r_case_runs r -> case_step c c' ->
  run_step r (recompute_summary (replace_case r c')).
Proof.
  intros Hr Hex Hc Hstep. apply (keep_step now); try done.
  cbn. by eapply replace_case_step; [apply Hr | apply Hr | |].
Qed.

Lemma set_node_case_step now c s p b n :
  case_ok c -> (node_terminal s = true -> Forall (fun x => node_terminal (sr_status x) = true) (cr_steps c)) ->
  set_node_status now (cr_node c) s p = Ok (b, n) -> case_step c (cr_with_node c n).
Proof.
  intros Hc Ht Hset. destruct (set_node_status_ok _ _ _ _ _ _ (co_node _ Hc) Hset) as (? & ? & Hs).
  rewrite cr_with_node_rebuild. split; [by apply case_evolves_rebuild | apply case_ok_rebuild; try done].
  - by apply Hc.
  - by rewrite Hs.
Qed.

Lemma set_node_step_step now s st p b n :
  node_ok (sr_node s) -> set_node_status now (sr_node s) st p = Ok (b, n) -> step_step s (sr_with s n).
Proof.
  intros Hs Hset. destruct (set_node_status_ok _ _ _ _ _ _ Hs Hset) as (? & ? & _).
  split; [by apply step_evolves_with | done].
Qed.

Lemma forallb_closed l :
  forallb (fun s => node_terminal (sr_status s)) l = true ->
  Forall (fun s => node_terminal (sr_status s) = true) l.
Proof.
  rewrite forallb_forall. intros Hf. apply Forall_forall. intros s Hs. by apply Hf, list_elem_of_In.
Qed.

Lemma update_case_step now r c p b n :
  run_inv r -> executing (r_status r) -> c ∈ r_case_runs r ->
  node_terminal (nu_status p) && negb (forallb (fun s => node_terminal (sr_status s)) (cr_steps c)) = false ->
  set_node_status now (cr_node c) (nu_status p) p = Ok (b, n) ->
  run_step r (recompute_summary (replace_case r (cr_with_node c n))).
Proof.
  intros Hr Hex Hc Hg Hset. eapply replace_case_keep; try done.
  eapply set_node_case_step; [by eapply run_case_ok | | done].
  intros Ht. rewrite Ht in Hg. by apply negb_false_iff, forallb_closed in Hg.
Qed.

Lemma update_step_step now r c s p b n :
  run_inv r -> executing (r_status r) -> c ∈ r_case_runs r -> s ∈ cr_steps c ->
  node_terminal (cr_status c) && negb (bool_decide (sr_status s = nu_status p)) = false ->
  set_node_status now (sr_node s) (nu_status p) p = Ok (b, n) ->
  run_step r (recompute_summary (replace_case r (aggregate_case_status now (replace_step c (sr_with s n))))).
Proof.
  intros Hr Hex Hc Hs Hg Hset. pose proof (run_case_ok _ _ Hr Hc) as Hok.
  pose proof (co_steps _ Hok) as Hso. rewrite Forall_forall in Hso. pose proof (Hso _ Hs) as Hsn.
  assert (Hsteps : Forall2 step_step (cr_steps c)
            ((fun x => if decide (sr_id x = sr_id (sr_with s n)) then sr_with s n else x) <$> cr_steps c)).
  { eapply replace_step_step; try done. by eapply set_node_step_step. }
  eapply replace_case_keep; try done. apply aggregate_ok; [done | | done].
  intros Ht. apply step_steps_split in Hsteps as [He _].
  apply (steps_evolve_terminal _ _ He). by apply (co_closed _ Hok).
Qed.

(** ** Control-plane handlers *)

Lemma rule_all_closing s p :
  node_terminal s = true -> forall st, node_terminal (rule_status (close_rule s p) st) = true.
Proof. intros Hs st. rewrite close_rule_status. by destruct (node_terminal st) eqn:?. Qed.

(** A bulk update that closes every node, then a terminal run status.  [f] is
    what the handler does to the control flags in between. *)
Lemma bulk_close_step now rule r r1 r0 s p b r' :
  run_inv r -> rule_uniform rule -> (forall st, node_terminal (rule_status rule st) = true) ->
  update_nodes now rule r = Ok r1 -> set_run_status now r0 s p = Ok (b, r') ->
  same_columns r1 r0 -> r_case_runs r0 = r_case_runs r1 -> recompute_summary r0 = r0 ->
  outbox_free (r_status r) s -> run_terminal s = true -> verdict_ok s (r_case_runs r0) -> run_step r r'.
Proof.
  intros Hr Hu Hall Hup Hset [] Hcs Hsum Hf Ht Hv.
  destruct (update_nodes_ok _ _ _ _ Hu (ri_case_ok _ Hr) Hup) as (cs & -> & Hrc). cbn in *.
  eapply close_step; try done.
  - rewrite Hcs. by eapply rule_cases_step.
  - rewrite Hcs. by eapply rule_cases_closed.
Qed.

Lemma cancel_core_step now r r' :
  run_inv r -> r_status r ∈ [RunStatus.CREATED; RunStatus.QUEUED; RunStatus.ASSIGNED; RunStatus.RUNNING] ->
  cancel_core now r = Ok r' -> run_step r r'.
Proof.
  intros Hr Hs. unfold cancel_core. destruct (cancel_targets (r_status r)) as [ns rs] eqn:Ht.
  intros ?; inv_ok. destruct a0 as [b r2]. inv_ok.
  assert (Hcase : (ns = RunNodeStatus.CANCELLED /\ rs = RunStatus.CANCELLED)
                  \/ (ns = RunNodeStatus.CANCELLING /\ rs = RunStatus.CANCELLING
                      /\ r_status r ∉ [RunStatus.CREATED; RunStatus.QUEUED])).
  { destruct (r_status r); decide_in Hs; simplify_eq/=; auto; right; split_and!; try done;
      intros Hx; decide_in Hx. }
  destruct Hcase as [[-> ->]|(-> & -> & Hlate)].
  - eapply (bulk_close_step now (cancel_rule RunNodeStatus.CANCELLED)); try done;
      [apply cancel_rule_uniform; solve_in | by intros [] | auto with platform].
  - destruct (update_nodes_ok now (cancel_rule RunNodeStatus.CANCELLING) r a) as (cs & -> & Hrc); try done;
      [apply cancel_rule_uniform; solve_in | apply Hr |].
    eapply (finish_step now r (recompute_summary (r_with_case_runs r cs))); try done;
      [by eapply rule_cases_step | auto with platform | intros Hx; decide_in Hx].
Qed.

Lemma same_cases_refl r : run_inv r -> Forall2 case_step (r_case_runs r) (r_case_runs r).
Proof.
  intros Hr. apply Forall_Forall2_diag. eapply Forall_impl; [apply Hr | apply case_step_refl].
Qed.

(** The run asks its runner to stop; children are left alone. *)
Lemma cancelling_step now r p b r' :
  run_inv r -> r_status r ∉ [RunStatus.CREATED; RunStatus.QUEUED] ->
  set_run_status now r RunStatus.CANCELLING p = Ok (b, r') -> run_step r r'.
Proof.
  intros Hr Hl Hset. eapply (finish_step now r r); try done; try apply Hr; auto with platform.
  - by apply same_cases_refl.
  - intros Hx. decide_in Hx.
Qed.

Lemma force_stop_core_step now r r' :
  run_inv r -> run_terminal (r_status r) = false -> force_stop_core now r = Ok r' -> run_step r r'.
Proof.
  intros Hr Ht. unfold force_stop_core.
  assert (Hstop : forall r1, run_step r r1 ->
    run_step r (r_with_control r1 (r_total_timeout_ms r1)
                  (Some (default now (r_force_stop_requested_at r1))) (r_force_stopped r1))).
  { intros r1 Hr1. eapply run_step_trans; [done|]. apply control_step, Hr1. }
  destruct (r_status r) eqn:Hs; try done; intros ?; inv_ok.
  1,2: destruct a0 as [b r2]; inv_ok; eapply (bulk_close_step now); try done;
    [by apply close_rule_uniform | by apply rule_all_closing | auto with platform].
  1,2: apply Hstop; destruct (set_run_status _ _ _ _) as [[b r1]|] eqn:Hset; [|done]; cbn in E; inv_ok;
    eapply cancelling_step; try done; rewrite Hs; intros Hx; decide_in Hx.
  by apply Hstop, run_step_refl.
Qed.

Lemma fail_disconnected_step now r r' :
  run_inv r -> r_status r ∈ [RunStatus.ASSIGNED; RunStatus.RUNNING] ->
  fail_disconnected_run now r = Ok r' -> run_step r r'.
Proof.
  intros Hr Hs. unfold fail_disconnected_run. intros ?; inv_ok. destruct a1 as [b r2]. inv_ok.
  eapply (bulk_close_step now); try done;
    [by apply close_rule_uniform | by apply rule_all_closing | |by apply ensure_terminal_verdict].
  apply outbox_free_late. intros Hx. destruct (r_status r); decide_in Hs; decide_in Hx.
Qed.

Lemma overdue_core_step now r r' :
  run_inv r -> executing (r_status r) -> overdue_core now r = Ok r' -> run_step r r'.
Proof.
  intros Hr Hx. unfold overdue_core. destruct (overdue_plan r) as [[s [et em]] rule] eqn:Hp.
  intros ?; inv_ok. destruct a1 as [b r2]. inv_ok.
  assert (Hplan : rule_uniform rule /\ (forall st, node_terminal (rule_status rule st) = true)
                  /\ run_terminal s = true /\ forall cs, verdict_ok s cs).
  { unfold overdue_plan in Hp. case_decide; simplify_eq; split_and!; auto with platform;
      try (by intros cs; apply verdict_open); [by intros [] | by apply rule_all_closing]. }
  destruct Hplan as (? & ? & ? & ?). eapply (bulk_close_step now); try done; auto with platform.
Qed.

Lemma finalize_cancelling_step now r r' :
  run_inv r -> finalize_cancelling_core now r = Ok r' -> run_step r r'.
Proof.
  intros Hr. unfold finalize_cancelling_core. intros ?; inv_ok. destruct a1 as [b r2]. inv_ok.
  eapply (bulk_close_step now); try done; [by apply close_rule_uniform | by apply rule_all_closing | auto with platform].
Qed.

(** ** Dispatch *)

Lemma outbox_step r ob ob' :
  run_inv r -> r_outbox r = Some ob -> outbox_evolves ob ob' -> outbox_ok r ob' ->
  run_step r (r_with_outbox r (Some ob')).
Proof.
  intros Hr Hob Hev Hok. destruct Hr. split; split; try done.
  - intros o Ho. exists ob'. split; [done|]. congruence.
  - cbn. unfold recompute_summary in *. destruct r; cbn in *. injection ri_summary as -> -> -> -> ->. done.
  - cbn. intros Ht. destruct (ri_closed Ht) as [|(_ & Hn & _)]; [by left | congruence].
  - intros o Ho. cbn in Ho. simplify_eq. by destruct Hok.
Qed.

Lemma unpublished_unclaimed r ob :
  outbox_ok r ob -> ob_status ob <> DispatchOutboxStatus.PUBLISHED ->
  ob_claimed_runner_id ob = None /\ ob_claimed_at ob = None.
Proof.
  intros [] Hs. destruct (ob_claimed_runner_id ob) eqn:Hc.
  { by destruct (ook_claimed _ eq_refl). }
  split; [done|]. destruct (ob_claimed_at ob) eqn:Ha; [|done].
  destruct ook_claim as [Hi _]. destruct Hi as [? ?]; by eauto.
Qed.

(** Rewriting a row whose message has not been published. *)
Lemma ob_with_step r ob payload st n err pub :
  run_inv r -> r_outbox r = Some ob -> ob_status ob <> DispatchOutboxStatus.PUBLISHED ->
  (ob_attempt_count ob <= n <= DISPATCH_MAX_ATTEMPTS)%Z ->
  (st = DispatchOutboxStatus.PUBLISHED <-> is_Some pub) ->
  is_Some (validate_dispatch_payload r (ob_with ob payload st n err pub)) ->
  run_step r (r_with_outbox r (Some (ob_with ob payload st n err pub))).
Proof.
  intros Hr Hob Hs Hn Hp Hv. pose proof (ri_outbox _ Hr _ Hob) as Hok.
  destruct (unpublished_unclaimed _ _ Hok Hs) as [Hc1 Hc2]. destruct Hok.
  eapply outbox_step; try done.
  - split; cbn; try done. lia.
  - split; cbn; try done; try lia. by rewrite Hc1.
Qed.

Lemma validate_payload r ob p : validate_dispatch_payload r ob = Some p -> p = ob_payload ob.
Proof. unfold validate_dispatch_payload. by case_match; intros; simplify_eq. Qed.

(** Validation reads the identity columns and the payload of a row. *)
Lemma validate_ob_with r ob st n err pub :
  validate_dispatch_payload r (ob_with ob (ob_payload ob) st n err pub) = validate_dispatch_payload r ob.
Proof. done. Qed.

Lemma envelope_next_attempt p n :
  envelope_valid p = true -> (1 <=? n)%Z = true -> (n <=? 10)%Z = true ->
  envelope_valid (tp_with_attempt p n) = true.
Proof.
  unfold envelope_valid. rewrite !andb_true_iff. intros [[Hids _] _] Hlo Hhi. by split; [split|].
Qed.

Lemma validate_next_attempt r ob st n err pub :
  is_Some (validate_dispatch_payload r ob) -> (1 <= n <= 10)%Z ->
  is_Some (validate_dispatch_payload r (ob_with ob (tp_with_attempt (ob_payload ob) n) st n err pub)).
Proof.
  intros [p Hp] [Hlo%Z.leb_le Hhi%Z.leb_le]. unfold validate_dispatch_payload in *.
  destruct (_ && _) eqn:Hb in Hp; [|done]. clear Hp. rewrite !andb_true_iff in Hb.
  cbn [ob_with ob_schema_version ob_run_id ob_runner_id ob_routing_key ob_payload ob_message_id
       tp_with_attempt tp_run_id tp_runner_id tp_run_type tp_required_slot_type tp_message_id].
  destruct Hb as [[[[[[[[[-> ->] ->] ->] Henv] ->] ->] ->] ->] ->].
  rewrite (envelope_next_attempt _ _ Henv Hlo Hhi). by eexists.
Qed.

Lemma ob_failed_step r ob err :
  run_inv r -> r_outbox r = Some ob -> ob_status ob <> DispatchOutboxStatus.PUBLISHED ->
  run_step r (r_with_outbox r (Some (ob_failed ob err))).
Proof.
  intros Hr Hob Hs. pose proof (ri_outbox _ Hr _ Hob) as []. apply ob_with_step; try done; [lia|].
  by rewrite <- ook_published.
Qed.

Lemma attempt_row_step r ob p :
  run_inv r -> r_outbox r = Some ob -> ob_status ob <> DispatchOutboxStatus.PUBLISHED ->
  validate_dispatch_payload r ob = Some p -> (DISPATCH_MAX_ATTEMPTS <=? ob_attempt_count ob)%Z = false ->
  let n := (ob_attempt_count ob + 1)%Z in
  run_step r (r_with_outbox r (Some (ob_with ob (tp_with_attempt p n) DispatchOutboxStatus.PENDING n None
                                       (ob_published_at ob)))).
Proof.
  intros Hr Hob Hs Hv Hn n. pose proof (ri_outbox _ Hr _ Hob) as [].
  unfold DISPATCH_MAX_ATTEMPTS in *. rewrite (validate_payload _ _ _ Hv).
  apply ob_with_step; try done; [unfold DISPATCH_MAX_ATTEMPTS; lia| |].
  - split; [done|]. by rewrite <- ook_published.
  - apply validate_next_attempt; [done | lia].
Qed.

Lemma publish_row_step now r ob res :
  run_inv r -> r_outbox r = Some ob -> run_step r (r_with_outbox r (Some (publish_result_row now ob res))).
Proof.
  intros Hr Hob. unfold publish_result_row. case_decide as Hs.
  - eapply outbox_step; try done. by apply Hr.
  - case_match; [|by apply ob_failed_step]. pose proof (ri_outbox _ Hr _ Hob) as [].
    apply ob_with_step; [done..|lia|split; by eauto|by rewrite validate_ob_with].
Qed.

Lemma new_outbox_valid r msg now p :
  task_envelope r msg 1 now = Ok p -> is_Some (validate_dispatch_payload r (new_outbox r msg p)).
Proof.
  unfold task_envelope. destruct (r_runner_id r) as [i|] eqn:Hi; [|done]. intros ?; inv_ok.
  unfold validate_dispatch_payload. cbn -[envelope_valid]. rewrite G, Hi. cbn.
  rewrite !bool_decide_true by done. by eexists.
Qed.

Lemma open_new_step now r msg p b r1 :
  run_inv r -> r_outbox r = None -> r_status r = RunStatus.CREATED ->
  task_envelope r msg 1 now = Ok p ->
  set_run_status now r RunStatus.QUEUED (run_update RunStatus.QUEUED) = Ok (b, r1) ->
  run_step r (r_with_outbox r1 (Some (new_outbox r msg p))).
Proof.
  intros Hr Hob Hs Hp%new_outbox_valid Hset. unfold set_run_status in Hset. rewrite Hs in Hset.
  rewrite !decide_False in Hset by done. inv_ok. destruct Hr. rewrite Hs in *.
  split; split; cbn; try done.
  - rewrite ?Hs. apply rtc_once. solve_in.
  - by rewrite Hob.
  - unfold recompute_summary in *. destruct r; cbn in *. injection ri_summary as -> -> -> -> ->. done.
  - intros _. apply ri_fresh. solve_in.
  - intros o [= <-]. split; cbn; try done.
    intros Hx. destruct Hx. solve_in.
Qed.

Lemma claim_step now r ob runner b r' :
  run_inv r -> r_outbox r = Some ob -> r_status r = RunStatus.QUEUED ->
  r_runner_id r = Some (rn_id runner) -> ob_status ob = DispatchOutboxStatus.PUBLISHED ->
  set_run_status now
    (r_with_control (r_with_outbox r (Some (ob_claim ob (rn_id runner) now)))
       (Some (default runner_total_timeout_default_ms (r_total_timeout_ms r)))
       (r_force_stop_requested_at r) (r_force_stopped r))
    RunStatus.ASSIGNED (run_update RunStatus.ASSIGNED) = Ok (b, r') -> run_step r r'.
Proof.
  intros Hr Hob Hs Hi Hp Hset. unfold set_run_status in Hset. cbn in Hset. rewrite Hs in Hset.
  rewrite !decide_False in Hset by done. inv_ok. pose proof (ri_outbox _ Hr _ Hob) as []. destruct Hr. rewrite Hs in *.
  pose proof (ook_unclaimed eq_refl) as Hc.
  assert (Ha : ob_claimed_at ob = None).
  { destruct (ob_claimed_at ob); [|done]. destruct ook_claim as [Hx _]. rewrite Hc in Hx.
    by destruct Hx as [? [=]]. }
  split; split; cbn; try done.
  - rewrite ?Hs. apply rtc_once. solve_in.
  - intros a ->. done.
  - intros o Ho. rewrite Hob in Ho. injection Ho as <-. eexists. split; [done|].
    split; cbn; try done; [by rewrite Ha | by rewrite Hc].
  - unfold recompute_summary in *. destruct r; cbn in *. injection ri_summary as -> -> -> -> ->. done.
  - intros _. apply ri_fresh. solve_in.
  - intros o [= <-]. split; cbn; try done. intros i [= <-]. split_and!; [done..|by eexists].
Qed.

(** ** Execution reports *)

Lemma set_step_status_step now s st p s' :
  node_ok (sr_node s) -> set_step_status now s st p = Ok s' -> step_step s s' /\ sr_status s' = st.
Proof.
  intros Hs. unfold set_step_status. intros ?; inv_ok. destruct a as [b n]. inv_ok.
  split; [by eapply set_node_step_step|]. by apply (set_node_status_ok _ _ _ _ _ _ Hs) in E as (_ & _ & ?).
Qed.

(** A loop over the steps of a case run, whatever it does to each of them. *)
Lemma map_steps_step (f : StepRun -> result StepRun) c steps :
  case_ok c -> map_result f (cr_steps c) = Ok steps ->
  (forall s s', node_ok (sr_node s) -> f s = Ok s' -> step_step s s') ->
  Forall2 step_step (cr_steps c) steps.
Proof.
  intros Hc Hm Hf. pose proof (co_steps _ Hc) as Hs. rewrite Forall_forall in Hs.
  eapply map_result_Forall2; [done|]. intros s s' Hin. apply Hf. auto.
Qed.

(** Set the node of a case run whose steps have just been moved. *)
Lemma set_case_status_step now c steps st p c' :
  case_ok c -> set_case_status now (cr_with_steps c steps) st p = Ok c' ->
  Forall2 step_step (cr_steps c) steps ->
  (node_terminal st = true -> Forall (fun s => node_terminal (sr_status s) = true) steps) ->
  case_step c c' /\ cr_status c' = st.
Proof.
  intros Hc Hset [Hev Hok]%step_steps_split Ht. unfold set_case_status in Hset. inv_ok.
  destruct a as [b n]. inv_ok. cbn in E.
  destruct (set_node_status_ok _ _ _ _ _ _ (co_node _ Hc) E) as (Hn & Hne & Hst).
  split; [split|done]; [by apply (case_evolves_rebuild c steps n)|].
  apply (case_ok_rebuild c steps n); try done. by rewrite Hst.
Qed.

Lemma start_case_step now c m c' :
  case_ok c -> start_case now c m = Ok c' -> case_step c c' /\ cr_status c' = RunNodeStatus.RUNNING.
Proof.
  intros Hc. unfold start_case. intros ?; inv_ok. eapply set_case_status_step; try done.
  eapply map_steps_step; try done. intros s s' Hs Hx; cbn beta in Hx. inv_ok. by apply (set_step_status_step now s) in Hx as [? _].
Qed.

Lemma finish_case_step now c p st c' :
  case_ok c -> node_terminal st = true -> finish_case now c p st = Ok c' ->
  case_step c c' /\ cr_status c' = st.
Proof.
  intros Hc Ht. unfold finish_case. intros ?; inv_ok. eapply set_case_status_step; try done.
  - eapply map_steps_step; try done. intros s s' Hs; cbn. destruct (node_terminal (sr_status s)); intros Hx.
    + inv_ok. by split.
    + by apply (set_step_status_step now s) in Hx as [? _].
  - intros _. eapply map_result_Forall; [done|]. cbn. intros s s' Hin.
    pose proof (co_steps _ Hc) as Hso. rewrite Forall_forall in Hso.
    destruct (node_terminal (sr_status s)) eqn:Hs; intros Hx; [by inv_ok|].
    destruct (set_step_status_step _ _ _ _ _ (Hso _ Hin) Hx) as [_ ->]. done.
Qed.

(** The counters only see terminal statuses. *)
Lemma count_status_Forall2 s l l' :
  Forall2 (fun c c' => cr_status c = s <-> cr_status c' = s) l l' -> count_status s l = count_status s l'.
Proof.
  unfold count_status. induction 1 as [|c c' l l' Hc Hl IH]; [done|]. rewrite !filter_cons.
  destruct (decide (cr_status c = s)), (decide (cr_status c' = s)); cbn; lia || tauto.
Qed.

Lemma summary_replace_open r c c' :
  recompute_summary r = r -> cr_id c' = cr_id c -> NoDup (cr_id <$> r_case_runs r) -> c ∈ r_case_runs r ->
  node_terminal (cr_status c) = false -> node_terminal (cr_status c') = false ->
  recompute_summary (replace_case r c') = replace_case r c'.
Proof.
  intros Hsum Hid Hnd Hc Ht Ht'.
  assert (Hcnt : forall s, node_terminal s = true ->
    count_status s (r_case_runs (replace_case r c')) = count_status s (r_case_runs r)).
  { intros s Hs. symmetry. apply count_status_Forall2. cbn. apply Forall2_fmap_r, Forall_Forall2_diag, Forall_forall.
    intros x Hx. unfold compose. case_decide as Hi; [|done].
    assert (x = c) as -> by (eapply NoDup_ids_inj; [done..|congruence]).
    split; intros; congruence. }
  unfold recompute_summary in *. cbn in *. rewrite !Hcnt by done. rewrite length_fmap.
  destruct r; cbn in *. injection Hsum as -> -> -> -> ->. done.
Qed.

Lemma start_run_step now r c m c' r' :
  run_inv r -> c ∈ r_case_runs r -> r_status r ∈ [RunStatus.ASSIGNED; RunStatus.RUNNING] ->
  cr_status c ∈ [RunNodeStatus.CREATED; RunNodeStatus.ASSIGNED] ->
  start_case now c m = Ok c' ->
  (r_status r = RunStatus.ASSIGNED ->
    exists b, set_run_status now (replace_case r c') RunStatus.RUNNING (run_update RunStatus.RUNNING) = Ok (b, r')) ->
  (r_status r = RunStatus.RUNNING -> r' = replace_case r c') ->
  run_step r r'.
Proof.
  intros Hr Hc Hs Hcs Hst Ha Hb. pose proof (run_case_ok _ _ Hr Hc) as Hok.
  destruct (start_case_step _ _ _ _ Hok Hst) as [Hstep Hrun].
  assert (Hcases : Forall2 case_step (r_case_runs r) (r_case_runs (replace_case r c'))).
  { cbn. eapply replace_case_step; try done; apply Hr. }
  assert (Hopen : node_terminal (cr_status c) = false).
  { destruct (cr_status c); try done; decide_in Hcs. }
  assert (Hsum : recompute_summary (replace_case r c') = replace_case r c').
  { apply (summary_replace_open r c); try done; [apply Hr | apply Hstep | apply Hr | by rewrite Hrun]. }
  destruct (r_status r) eqn:Hrs; decide_in Hs.
  - destruct Ha as [b Hset]; [done|].
    eapply (finish_step now r (replace_case r c')); try done.
    + rewrite Hrs. apply outbox_free_late. intros Hx. decide_in Hx.
    + intros Hx. decide_in Hx.
  - rewrite Hb by done. eapply (keep_step now); try done. rewrite Hrs. unfold executing. solve_in.
Qed.

(** What [_execution_context] establishes. *)
Record context_ok (d : Db) (run_id message_id : string) (i : Z) (cx : ExecutionContext) : Prop := {
  xo_run : db_runs d !! run_id = Some (cx_run cx);
  xo_outbox : r_outbox (cx_run cx) = Some (cx_outbox cx);
  xo_message : ob_message_id (cx_outbox cx) = message_id;
  xo_claimed : is_Some (ob_claimed_runner_id (cx_outbox cx));
  xo_case : cx_case cx ∈ r_case_runs (cx_run cx);
  xo_case_id : cr_id (cx_case cx) = i;
}.

Lemma get_run_Some d i r : get_run d i = Ok r <-> db_runs d !! i = Some r.
Proof. unfold get_run, some_or. destruct (db_runs d !! i); naive_solver. Qed.

Lemma execution_context_ok d run_id cred msg i cx :
  execution_context d run_id cred msg (Some i) = Ok cx -> context_ok d run_id msg i cx.
Proof.
  unfold execution_context. intros ?; inv_ok.
  destruct (filter _ _) as [|c [|? ?]] eqn:Hf in H2; try done. inv_ok.
  rewrite !andb_true_iff, !bool_decide_eq_true in G0. destruct G0 as [[[Hm _] Hcl] _].
  assert (Hc : c ∈ filter (fun c => cr_id c = i) (r_case_runs a)) by (rewrite Hf; by left).
  apply list_elem_of_filter in Hc as [Hi Hc].
  split; cbn; try done. by apply get_run_Some.
Qed.

(** A claimed run in a terminal status has closed all its case runs. *)
Lemma claimed_terminal_closed r ob :
  run_inv r -> r_outbox r = Some ob -> run_terminal (r_status r) = true ->
  Forall case_closed (r_case_runs r).
Proof. intros Hr Hob Ht. destruct (ri_closed _ Hr Ht) as [|(_ & ? & _)]; [done | congruence]. Qed.

Lemma cancel_other_step now self p cs cs' :
  Forall case_ok cs -> cancel_other_cases now self p cs = Ok cs' -> Forall2 case_step cs cs'.
Proof.
  intros Hok Hm. rewrite Forall_forall in Hok. eapply map_result_Forall2; [done|].
  intros c c' Hin; cbn beta. destruct (_ || _); intros Hx.
  - inv_ok. by apply case_step_refl, Hok.
  - apply finish_case_step in Hx as [? _]; auto.
Qed.

#[local] Instance case_step_trans : Transitive case_step.
Proof. intros c1 c2 c3 [? _] [? ?]. split; [by etrans | done]. Qed.

Definition completing (s : RunStatus.t) : Prop := executing s \/ s = RunStatus.CANCELLED.

Lemma completing_late s : completing s -> s ∉ [RunStatus.CREATED; RunStatus.QUEUED].
Proof. intros [Hx| ->]; [by apply executing_late | intros Hi; decide_in Hi]. Qed.

Lemma forallb_case_closed l :
  forallb node_terminal (cr_status <$> l) = true -> Forall case_closed l.
Proof.
  rewrite forallb_forall. intros Hf. apply Forall_forall. intros c Hc.
  apply Hf, list_elem_of_In. by apply list_elem_of_fmap_2.
Qed.

Lemma case_closed_forallb l :
  Forall case_closed l -> forallb node_terminal (cr_status <$> l) = true.
Proof.
  rewrite forallb_forall. intros Hf s Hs. apply list_elem_of_In, list_elem_of_fmap in Hs as (c & -> & Hc).
  rewrite Forall_forall in Hf. by apply Hf.
Qed.

Lemma api_final_terminal l : run_terminal (api_final_status l) = true.
Proof. unfold api_final_status. by repeat case_match. Qed.

Lemma api_close_run_step now r r0 st et em final r' ob :
  run_inv r -> r_outbox r = Some ob -> completing (r_status r) ->
  api_close_run now r0 st et em = Ok (final, r') -> same_columns r r0 ->
  Forall2 case_step (r_case_runs r) (r_case_runs r0) -> recompute_summary r0 = r0 -> run_step r r'.
Proof.
  intros Hr Hob Hco Hclose Hsame Hcs Hsum. revert Hclose. unfold api_close_run.
  destruct (forallb _ _) eqn:Hall; cbn [negb].
  - destruct (api_final_error _ _ _ _) as [et' em']. intros ?; inv_ok. destruct a0 as [b r2]. inv_ok.
    eapply (close_step now r r0); try done;
      [|apply api_final_terminal | by apply forallb_case_closed |].
    + by apply outbox_free_late, completing_late.
    + by match goal with x : ensure_terminal_run_matches_children _ _ = Ok _ |- _ =>
        apply ensure_terminal_verdict in x end.
  - intros; inv_ok. destruct Hco as [Hex|Hca]; [by eapply (keep_step now)|].
    assert (Hcl : Forall case_closed (r_case_runs r)).
    { eapply claimed_terminal_closed; try done. by rewrite Hca. }
    apply case_steps_split in Hcs as [Hev _]. apply (cases_evolve_terminal _ _ Hev) in Hcl as Heq.
    rewrite Heq, case_closed_forallb in Hall by done. done.
Qed.

Lemma api_node_status_terminal s : node_terminal (api_node_status s) = true.
Proof. by destruct s. Qed.

Lemma complete_api_core_step now cx p eff st et em final r' :
  run_inv (cx_run cx) -> r_outbox (cx_run cx) = Some (cx_outbox cx) ->
  cx_case cx ∈ r_case_runs (cx_run cx) -> completing (r_status (cx_run cx)) ->
  complete_api_core now cx p eff st et em = Ok (final, r') -> run_step (cx_run cx) r'.
Proof.
  intros Hr Hob Hc Hco. unfold complete_api_core. intros ?; inv_ok.
  apply finish_case_step in E as [Hstep _]; [| by eapply run_case_ok | apply api_node_status_terminal].
  assert (Hcs : Forall2 case_step (r_case_runs (cx_run cx)) (r_case_runs (replace_case (cx_run cx) a))).
  { cbn. eapply replace_case_step; try done; apply Hr. }
  eapply (api_close_run_step now); try done; cbn.
  destruct (decide (eff = O_CANCELLED)); [|by inv_ok].
  etrans; [done|]. eapply cancel_other_step; [|done].
  by apply case_steps_split in Hcs as [_ ?].
Qed.

Lemma finish_scenario_case_step now eff p et em c c' :
  case_ok c -> finish_scenario_case now eff p et em c = Ok c' -> case_step c c'.
Proof.
  intros Hc. unfold finish_scenario_case. intros ?; inv_ok.
  assert (Hst : Forall2 step_step (cr_steps c) a0).
  { eapply map_steps_step; try done. intros s s' Hs Hx. unfold finish_scenario_step in Hx.
    destruct (node_terminal (sr_status s)); inv_ok; [by split|].
    by apply (set_step_status_step now s) in Hx as [? _]. }
  apply aggregate_ok; try done. intros Ht. apply step_steps_split in Hst as [Hev _].
  apply (steps_evolve_terminal _ _ Hev). by apply (co_closed _ Hc).
Qed.

Lemma cancel_scenario_case_step now p c steps n :
  case_ok c ->
  map_result (fun s => sr_with s <$> apply_rule now (close_rule RunNodeStatus.CANCELLED p) (sr_node s))
    (cr_steps c) = Ok steps ->
  apply_rule now (close_rule RunNodeStatus.CANCELLED p) (cr_node c) = Ok n ->
  case_step c (cr_rebuild c steps n).
Proof.
  intros Hc Hm Hn. destruct (rule_steps_ok _ _ _ _ (co_steps _ Hc) Hm) as [Hst Hss].
  destruct (apply_rule_ok _ _ _ _ (co_node _ Hc) Hn) as (Hok & Hev & Hs).
  apply step_steps_split in Hst as [Hse Hso].
  split; [by apply case_evolves_rebuild | apply case_ok_rebuild; try done].
  rewrite Hs. intros Ht. eapply (rule_uniform_closed (close_rule RunNodeStatus.CANCELLED p)); try done.
  by apply close_rule_uniform.
Qed.

Lemma complete_scenario_core_step now cx p eff rs et em r' :
  run_inv (cx_run cx) -> cx_case cx ∈ r_case_runs (cx_run cx) -> completing (r_status (cx_run cx)) ->
  complete_scenario_core now cx p eff = Ok (rs, et, em, r') -> run_step (cx_run cx) r'.
Proof.
  intros Hr Hc Hco. unfold complete_scenario_core.
  destruct (scenario_result _ _ _ _) as [[rs0 et0] em0] eqn:Hres. intros ?; inv_ok.
  destruct a1 as [b r2]. inv_ok.
  assert (Hstep : case_step (cx_case cx) a).
  { case_decide; inv_ok; [by eapply cancel_scenario_case_step; [eapply run_case_ok|..]|].
    by eapply finish_scenario_case_step; [eapply run_case_ok|]. }
  assert (Ht : run_terminal rs = true).
  { unfold scenario_result in Hres. by destruct eff; simplify_eq/=. }
  eapply (close_step now (cx_run cx)); [done| | | |done|..]; try done.
  - cbn. eapply replace_case_step; try done; apply Hr.
  - by apply outbox_free_late, completing_late.
  - by eapply ensure_terminal_closed.
  - by apply ensure_terminal_verdict.
Qed.

(** ** Web executions *)

Lemma web_node_status_terminal s : node_terminal (web_node_status s) = true.
Proof. by destruct s. Qed.

Lemma finish_web_case_step now traces special c c' :
  case_ok c -> finish_web_case now traces special c = Ok c' -> case_step c c'.
Proof.
  intros Hc. unfold finish_web_case. intros ?; inv_ok. rename a into steps.
  assert (Hone : forall s s', node_ok (sr_node s) -> finish_web_step now traces s = Ok s' ->
            step_step s s' /\ node_terminal (sr_status s') = true).
  { intros s s' Hs Hx. unfold finish_web_step in Hx. inv_ok.
    apply (set_step_status_step now s) in Hx as [? ->]; [|done]. split; [done | apply web_node_status_terminal]. }
  assert (Hst : Forall2 step_step (cr_steps c) steps).
  { eapply map_steps_step; try done. intros s s' Hs Hx. by apply Hone in Hx as [? _]. }
  destruct special as [[code message]|].
  - eapply set_case_status_step; try done. intros _. eapply map_result_Forall; [done|]. cbn. intros s s' Hin Hx.
    pose proof (co_steps _ Hc) as Hso. rewrite Forall_forall in Hso. by apply Hone in Hx as [_ ?]; auto.
  - inv_ok. apply aggregate_ok; try done. intros Ht. apply step_steps_split in Hst as [Hev _].
    apply (steps_evolve_terminal _ _ Hev). by apply (co_closed _ Hc).
Qed.

Lemma web_result_terminal eff r et em : run_terminal (web_result eff r et em).1.1 = true.
Proof.
  unfold web_result. destruct eff; [reflexivity..|]. destruct (r_force_stop_requested_at r); reflexivity.
Qed.

Lemma complete_web_case_step now cx p first eff c r :
  case_ok (cx_case cx) -> complete_web_case now cx p first eff = Ok (c, r) ->
  case_step (cx_case cx) c /\ run_terminal r.1.1 = true.
Proof.
  intros Hc. unfold complete_web_case. intros (c0 & E & Hcr)%bind_ok. injection Hcr as <- <-. split.
  - case_decide; inv_ok; [|by eapply finish_web_case_step].
    unfold cancel_web_case in *. inv_ok. by eapply cancel_scenario_case_step.
  - apply web_result_terminal.
Qed.

Lemma close_web_run_step now r c c' res r' :
  run_inv r -> c ∈ r_case_runs r -> completing (r_status r) -> case_step c c' ->
  run_terminal res.1.1 = true -> close_web_run now r c' res = Ok r' ->
  run_step r r' /\ r_status r' = res.1.1.
Proof.
  intros Hr Hc Hco Hstep Ht. unfold close_web_run. intros ?; inv_ok. destruct a0 as [b r2]. inv_ok. split.
  - eapply (close_step now r); [done| | | |done|..]; try done.
    + cbn. eapply replace_case_step; try done; apply Hr.
    + by apply outbox_free_late, completing_late.
    + by eapply ensure_terminal_closed.
    + by apply ensure_terminal_verdict.
  - match goal with x : set_run_status _ _ _ _ = _ |- _ => by apply set_run_status_set in x as [[] _] end.
Qed.
End handlers.
