(* ===== verification/RunSystem.v ===== *)
(** The run service as a transition system: the requests of users, runners and
    the background scanner, the database invariant, and the theorems that every
    request preserves it and implements the abstract contract [db_evolves]. *)
From S2P Require Import Prelude PyText Projects RunData RunStatusOps RunControl RunDispatch.
From S2P Require Import RunCreate RunExecution RunWeb RunInvariant RunHandlers.
From stdpp Require Import sorting.

Section system.
Context `{Settings} `{Catalog} `{Evaluation} `{Assets}.

(** The part of [dispatch_run] before the broker is called. *)
Definition dispatch_request (d : Db) (now : datetime) (user : CurrentUser) (run_id : string)
    (hb : heartbeat_read) (runner_prevalidated : bool) (message_id : string)
  : outcome (DispatchResponse + (string * TaskPayload)) :=
  let '(d1, evs, r1) := dispatch_open d now user run_id hb runner_prevalidated message_id in
  match r1 with
  | Err e => (d1, evs, Err e)
  | Ok (inl resp) => (d1, evs, Ok (inl resp))
  | Ok (inr _) =>
      let '(d2, evs2, r2) := dispatch_attempt d1 run_id in (d2, evs ++ evs2, r2)
  end.

(** Requests; a dispatch is two steps, so that anything can happen while the
    broker is being called. *)
Inductive request :=
  | RCreate (user : CurrentUser) (payload : RunCreateRequest) (hb : heartbeat_read) (run_id : string)
      (case_base step_base : Z)
  | RUpdateRun (run_id : string) (payload : RunStatusUpdateRequest) (who : reporter)
  | RUpdateCase (run_id : string) (case_run_id : Z) (payload : NodeStatusUpdateRequest) (who : reporter)
  | RUpdateStep (run_id : string) (case_run_id step_run_id : Z) (payload : NodeStatusUpdateRequest)
      (who : reporter)
  | RCancel (user : CurrentUser) (run_id : string)
  | RForceStop (user : CurrentUser) (run_id : string)
  | RDisconnect (runner_id : string) (hb1 hb2 : heartbeat_read) (require_expiry : bool) (ttl : option Z)
  | ROverdue (run_id : string) (grace : Z)
  | RDispatch (user : CurrentUser) (run_id : string) (hb : heartbeat_read) (prevalidated : bool)
      (message_id : string)
  | RPublished (run_id : string) (answer : TaskPublishResult)
  | RClaim (run_id credential message_id : string)
  | RStartApi (run_id credential message_id : string) (case_run_id : Z)
  | RStartScenario (run_id credential message_id : string) (case_run_id : Z)
  | RStartWeb (run_id credential message_id : string) (case_run_id : Z)
  | RCompleteApi (run_id credential : string) (payload : ApiCompleteRequest) (evidence_ok : bool)
  | RCompleteScenario (run_id credential : string) (payload : ScenarioCompleteRequest)
  | RCompleteWeb (run_id credential : string) (payload : WebCompleteRequest).

(** The database after a request, and whether it was answered without an error. *)
Definition handle (d : Db) (now : datetime) (q : request) : Db * bool :=
  let fin {A} (o : outcome A) := (out_db o, is_ok (out_result o)) in
  match q with
  | RCreate user p hb i cb sb => fin (create_run d now user p hb i cb sb)
  | RUpdateRun i p who => fin (update_run_status d now i p who)
  | RUpdateCase i c p who => fin (update_case_run_status d now i c p who)
  | RUpdateStep i c s p who => fin (update_step_run_status d now i c s p who)
  | RCancel user i => fin (cancel_run d now user i)
  | RForceStop user i => fin (force_stop_run d now user i)
  | RDisconnect i hb1 hb2 e ttl =>
      fin (reconcile_disconnected_runner_runs_core d now i hb1 hb2 e ttl)
  | ROverdue i g => fin (reconcile_overdue_run_core d now i g)
  | RDispatch user i hb pre m => fin (dispatch_request d now user i hb pre m)
  | RPublished i a => fin (record_publish_result d now i a)
  | RClaim i cred m => fin (claim_run d now i cred m)
  | RStartApi i cred m c => fin (start_api_execution d now i cred m c)
  | RStartScenario i cred m c => fin (start_scenario_execution d now i cred m c)
  | RStartWeb i cred m c => fin (start_web_execution d now i cred m c)
  | RCompleteApi i cred p e => fin (complete_api_execution d now i cred p e)
  | RCompleteScenario i cred p => fin (complete_scenario_execution d now i cred p)
  | RCompleteWeb i cred p => fin (complete_web_execution d now i cred p)
  end.

(** Any number of requests, each at its own time. *)
Definition step (d d' : Db) : Prop := exists now q, d' = (handle d now q).1.
Definition reachable : Db -> Db -> Prop := rtc step.

(** ** The database invariant and the abstract contract *)

Definition case_reported (d : Db) (k : string * Z) : Prop :=
  exists r c, db_runs d !! k.1 = Some r /\ c ∈ r_case_runs r /\ cr_id c = k.2 /\ case_closed c.

Record db_inv (d : Db) : Prop := {
  di_keys : db_keys_ok d;
  di_runners : forall k rn, db_runners d !! k = Some rn -> rn_id rn = k;
  di_runs : forall k r, db_runs d !! k = Some r -> run_inv r;
  di_api : forall k, is_Some (db_api_results d !! k) -> case_reported d k;
  di_scenario : forall k, is_Some (db_scenario_results d !! k) -> case_reported d k;
  di_web : forall k, is_Some (db_web_results d !! k) -> case_reported d k;
}.

(** A login state is replaced as a whole, under a new revision. *)
Record profile_evolves (p p' : SessionProfile) : Prop := {
  pe_project : pf_project_id p' = pf_project_id p;
  pe_environment : pf_environment_id p' = pf_environment_id p;
  pe_active : pf_active p' = pf_active p;
  pe_login : pf_login_web_case_version_id p' = pf_login_web_case_version_id p;
  pe_revision : (pf_revision p <= pf_revision p')%Z;
  pe_same : pf_revision p' = pf_revision p -> p' = p;
}.

#[export] Instance profile_evolves_preorder : PreOrder profile_evolves.
Proof.
  split; [by split | intros x y z [] []; split; try congruence; [lia|]].
  intros Hr. rewrite pe_same1 by lia. apply pe_same0. lia.
Qed.

Record db_evolves (d d' : Db) : Prop := {
  de_runs : forall k r, db_runs d !! k = Some r -> exists r', db_runs d' !! k = Some r' /\ run_evolves r r';
  de_new : forall k r', db_runs d !! k = None -> db_runs d' !! k = Some r' ->
    rtc run_edge RunStatus.CREATED (r_status r');
  de_runners : db_runners d' = db_runners d;
  de_projects : db_projects d' = db_projects d;
  de_api : db_api_results d ⊆ db_api_results d';
  de_scenario : db_scenario_results d ⊆ db_scenario_results d';
  de_web : db_web_results d ⊆ db_web_results d';
  de_profiles : map_included (fun _ => profile_evolves) (db_session_profiles d) (db_session_profiles d');
  de_resources : db_resources d `prefix_of` db_resources d';
  de_evidence : db_evidence d `prefix_of` db_evidence d';
}.

#[export] Instance db_evolves_preorder : PreOrder db_evolves.
Proof.
  split; [intros d; split; try done; [intros k r Hr; by exists r | congruence] |].
  intros x y z [] []; split; try (by etrans); try congruence.
  - intros k r Hr. destruct (de_runs0 _ _ Hr) as (r' & Hr' & E1).
    destruct (de_runs1 _ _ Hr') as (r'' & ? & E2). exists r''. split; [done | by etrans].
  - intros k r'' Hx Hz. destruct (db_runs y !! k) as [r'|] eqn:Hy; [|by eapply de_new1].
    destruct (de_runs1 _ _ Hy) as (r0 & Hr0 & E). rewrite Hz in Hr0. injection Hr0 as <-.
    etrans; [by eapply de_new0 | apply E].
Qed.

Definition db_step (d d' : Db) : Prop := db_inv d' /\ db_evolves d d'.

Lemma db_step_refl d : db_inv d -> db_step d d.
Proof. by split. Qed.
Lemma db_step_trans d1 d2 d3 : db_step d1 d2 -> db_step d2 d3 -> db_step d1 d3.
Proof. intros [_ E1] [? E2]. split; [done | by etrans]. Qed.

(** A closed case run survives, unchanged, any evolution of its run. *)
Lemma case_reported_evolves d d' k : db_evolves d d' -> case_reported d k -> case_reported d' k.
Proof.
  intros Hev (r & c & Hr & Hc & Hi & Hcl). destruct (de_runs _ _ Hev _ _ Hr) as (r' & Hr' & He).
  exists r', c. split_and!; try done.
  destruct (Forall2_elem_l _ _ _ _ (re_cases _ _ He) Hc) as (c' & Hc' & Hce).
  by rewrite (ce_terminal _ _ Hce Hcl) in Hc'.
Qed.

Lemma put_run_evolves d k r r' :
  db_inv d -> db_runs d !! k = Some r -> run_evolves r r' -> db_evolves d (put_run d r').
Proof.
  intros Hd Hr He. pose proof (di_keys _ Hd _ _ Hr) as Hk.
  assert (Hk' : r_id r' = k) by (unfold r_id in *; by rewrite (re_header _ _ He)).
  split; try done; cbn; rewrite Hk'.
  - intros k0 r0 Hr0. destruct (decide (k0 = k)) as [->|Hne].
    + rewrite lookup_insert_eq. exists r'. by simplify_eq.
    + rewrite lookup_insert_ne by done. by exists r0.
  - intros k0 r0 Hn. rewrite lookup_insert_ne; congruence.
Qed.

Lemma put_run_step d k r r' :
  db_inv d -> db_runs d !! k = Some r -> run_step r r' -> db_step d (put_run d r').
Proof.
  intros Hd Hr [He Hi]. pose proof (put_run_evolves _ _ _ _ Hd Hr He) as Hev.
  split; [|done]. pose proof (di_keys _ Hd _ _ Hr) as Hk.
  assert (Hk' : r_id r' = k) by (unfold r_id in *; by rewrite (re_header _ _ He)).
  split; try apply Hd; cbn; rewrite ?Hk'.
  - intros k0 r0. cbn. rewrite Hk'. intros [[<- <-]|[Hne Hr0]]%lookup_insert_Some; [done|].
    by apply (di_keys _ Hd).
  - intros k0 r0 [[<- <-]|[Hne Hr0]]%lookup_insert_Some; [done|]. by eapply di_runs.
  - intros k0 Hk0. eapply case_reported_evolves; [done | by apply (di_api _ Hd)].
  - intros k0 Hk0. eapply case_reported_evolves; [done | by apply (di_scenario _ Hd)].
  - intros k0 Hk0. eapply case_reported_evolves; [done | by apply (di_web _ Hd)].
Qed.

Lemma transact_step {A} d (body : result (Db * list RunEvent * A)) :
  db_inv d -> (forall d' evs a, body = Ok (d', evs, a) -> db_step d d') ->
  db_step d (out_db (transact d body)).
Proof.
  intros Hd Hb. destruct body as [[[d' evs] a]|e]; [by eapply Hb | by apply db_step_refl].
Qed.

(** ** One lemma per handler *)

Lemma new_run_step d i r :
  db_inv d -> db_runs d !! i = None -> r_id r = i -> r_status r = RunStatus.CREATED -> run_inv r ->
  db_step d (put_run d r).
Proof.
  intros Hd Hn Hi Hs Hr.
  assert (Hev : db_evolves d (put_run d r)).
  { split; try done; cbn; rewrite Hi.
    - intros k r0 Hr0. exists r0. rewrite lookup_insert_ne; [done | congruence].
    - intros k r' Hk [[-> <-]|[Hne Hr0]]%lookup_insert_Some; [by rewrite Hs | congruence]. }
  split; [|done]. split; cbn; try apply Hd; rewrite ?Hi.
  - intros k r0. cbn. rewrite Hi. intros [[<- <-]|[Hne Hr0]]%lookup_insert_Some; [done|].
    by apply (di_keys _ Hd).
  - intros k r0 [[<- <-]|[Hne Hr0]]%lookup_insert_Some; [done|]. by eapply di_runs.
  - intros k Hk. eapply case_reported_evolves; [done | by apply (di_api _ Hd)].
  - intros k Hk. eapply case_reported_evolves; [done | by apply (di_scenario _ Hd)].
  - intros k Hk. eapply case_reported_evolves; [done | by apply (di_web _ Hd)].
Qed.

Lemma create_run_step d now user p hb i cb sb :
  db_inv d -> db_step d (out_db (create_run d now user p hb i cb sb)).
Proof.
  intros Hd. apply transact_step; [done|]. intros d' evs x ?; inv_ok.
  match goal with x : list string * list string * TargetSpec |- _ => destruct x as [[iss caps] spec] end.
  inv_ok. match goal with x : bool_decide (is_Some _) = false |- _ => apply bool_decide_eq_false in x as Hn end.
  rewrite <- eq_None_not_Some in Hn. eapply new_run_step; try done. apply new_run_inv.
Qed.

Lemma update_run_status_step d now i p who :
  db_inv d -> db_step d (out_db (update_run_status d now i p who)).
Proof.
  intros Hd. apply transact_step; [done|]. intros d' evs a ?; inv_ok. apply get_run_Some in E.
  match goal with x : bool * TestRun |- _ => destruct x as [b r'] end. pose proof (di_runs _ Hd _ _ E) as Hr.
  destruct b; inv_ok; [|by apply db_step_refl]. eapply put_run_step; try done.
  by eapply update_run_step.
Qed.

Lemma update_case_status_step d now i c p who :
  db_inv d -> db_step d (out_db (update_case_run_status d now i c p who)).
Proof.
  intros Hd. apply transact_step; [done|]. intros d' evs a ?; inv_ok. apply get_run_Some in E.
  pose proof (di_runs _ Hd _ _ E) as Hr. apply authorize_child_executing in E0.
  apply find_case_elem in E1 as [Hc _]. match goal with x : bool * NodeState |- _ => destruct x as [b n] end.
  destruct b; inv_ok; [|by apply db_step_refl]. eapply put_run_step; try done.
  by eapply update_case_step.
Qed.

Lemma update_step_status_step d now i c s p who :
  db_inv d -> db_step d (out_db (update_step_run_status d now i c s p who)).
Proof.
  intros Hd. apply transact_step; [done|]. intros d' evs a ?; inv_ok. apply get_run_Some in E.
  pose proof (di_runs _ Hd _ _ E) as Hr. apply authorize_child_executing in E0.
  apply find_case_elem in E1 as [Hc _]. apply find_step_elem in E2 as [Hs _]. match goal with x : bool * NodeState |- _ => destruct x as [b n] end.
  destruct b; inv_ok; [|by apply db_step_refl]. eapply put_run_step; try done.
  by eapply update_step_step.
Qed.

Lemma cancel_run_step d now user i : db_inv d -> db_step d (out_db (cancel_run d now user i)).
Proof.
  intros Hd. apply transact_step; [done|]. intros d' evs a ?; inv_ok. apply get_run_Some in E.
  pose proof (di_runs _ Hd _ _ E) as Hr.
  destruct (r_status a0) eqn:Hs; inv_ok; try (by apply db_step_refl).
  all: eapply put_run_step; try done; eapply cancel_core_step; try done; rewrite Hs; solve_in.
Qed.

Lemma force_stop_run_step d now user i : db_inv d -> db_step d (out_db (force_stop_run d now user i)).
Proof.
  intros Hd. apply transact_step; [done|]. intros d' evs a ?; inv_ok. apply get_run_Some in E.
  destruct (run_terminal (r_status a0)) eqn:Ht; inv_ok; [by apply db_step_refl|].
  eapply put_run_step; try done. eapply force_stop_core_step; try done. by eapply di_runs.
Qed.

Lemma overdue_step d now i g : db_inv d -> db_step d (out_db (reconcile_overdue_run_core d now i g)).
Proof.
  intros Hd. apply transact_step; [done|]. intros d' evs a.
  destruct (db_runs d !! i) as [r|] eqn:Hr; [|by intros; inv_ok].
  destruct (bool_decide _) eqn:Hex; cbn [negb]; [|by intros; inv_ok; apply db_step_refl].
  apply bool_decide_eq_true in Hex.
  destruct (overdue_run_deadline r g); [|by intros; inv_ok; apply db_step_refl].
  destruct (_ || _); intros; inv_ok; [by apply db_step_refl|].
  eapply put_run_step; try done. eapply overdue_core_step; try done. by eapply di_runs.
Qed.

(** All runs of a disconnected runner are written back together. *)
Lemma put_runs_step d rs rs' :
  db_inv d -> NoDup (r_id <$> rs) -> Forall (fun r => db_runs d !! r_id r = Some r) rs ->
  Forall2 run_step rs rs' -> db_step d (foldl put_run d rs').
Proof.
  intros Hd Hnd Hin Hst. revert d Hd Hin. induction Hst as [|r r' rs rs' Hr Hrs IH]; intros d Hd Hin.
  { by apply db_step_refl. }
  apply NoDup_cons in Hnd as [Hni Hnd]. apply Forall_cons in Hin as [Hr0 Hin]. cbn.
  pose proof (put_run_step _ _ _ _ Hd Hr0 Hr) as Hs. eapply db_step_trans; [done|].
  apply IH; [done | apply Hs |]. apply Forall_forall. intros r1 Hr1. cbn.
  assert (Hid : r_id r' = r_id r) by (unfold r_id; by rewrite (re_header _ _ (proj1 Hr))).
  rewrite Hid, lookup_insert_ne; [by rewrite Forall_forall in Hin; apply Hin|].
  intros Heq. apply Hni. rewrite Heq. by apply list_elem_of_fmap_2.
Qed.

Lemma disconnect_runs_spec d i :
  db_inv d -> NoDup (r_id <$> disconnect_runs d i)
  /\ forall r, r ∈ disconnect_runs d i <->
       db_runs d !! r_id r = Some r /\ disconnect_candidate i r = true.
Proof.
  intros Hd. unfold disconnect_runs.
  set (l := filter _ _). assert (Hp : merge_sort run_before l ≡ₚ l) by apply merge_sort_Permutation.
  assert (Hids : r_id <$> (map_to_list (db_runs d)).*2 = (map_to_list (db_runs d)).*1).
  { rewrite <- list_fmap_compose. apply list_fmap_ext. intros n [k r] Hl. cbn.
    apply list_elem_of_lookup_2, elem_of_map_to_list in Hl. by apply (di_keys _ Hd). }
  split.
  - rewrite Hp. eapply sublist_NoDup; [|apply fmap_sublist, sublist_filter].
    rewrite Hids. apply NoDup_fst_map_to_list.
  - intros r. rewrite Hp. unfold l. rewrite list_elem_of_filter, list_elem_of_fmap. split.
    + intros [Hc ([k r0] & -> & Hin%elem_of_map_to_list)]. cbn in *.
      by rewrite (di_keys _ Hd _ _ Hin).
    + intros [Hr Hc]. split; [done|]. exists (r_id r, r). split; [done|]. by apply elem_of_map_to_list.
Qed.

Lemma disconnect_runs_fail d now i rs' :
  db_inv d -> map_result (fail_disconnected_run now) (disconnect_runs d i) = Ok rs' ->
  Forall2 run_step (disconnect_runs d i) rs'.
Proof.
  intros Hd Hm. eapply map_result_Forall2; [done|]. intros r r' [Hr Hc]%(disconnect_runs_spec _ _ Hd) Hf.
  apply andb_true_iff in Hc as [_ Hs%bool_decide_eq_true].
  eapply fail_disconnected_step; try done. by eapply di_runs.
Qed.

Lemma disconnect_step d now i hb1 hb2 e ttl :
  db_inv d -> db_step d (out_db (reconcile_disconnected_runner_runs_core d now i hb1 hb2 e ttl)).
Proof.
  intros Hd. apply transact_step; [done|]. intros d' evs a ?; inv_ok.
  match goal with x : Runner |- _ => rename x into r end.
  destruct (online_state r hb1) as [[o1 b1] v1], (online_state r hb2) as [[o2 b2] v2].
  destruct (disconnect_gate_blocks _ _ _ _ _ _); [inv_ok; by apply db_step_refl|].
  destruct (disconnect_gate_blocks _ _ _ _ _ _); inv_ok; [by apply db_step_refl|].
  destruct (disconnect_runs_spec _ i Hd) as [Hnd Hin].
  eapply put_runs_step; try done; [|by eapply disconnect_runs_fail].
  apply Forall_forall. intros r0 Hr0. by apply Hin.
Qed.

Lemma record_step d now i a : db_inv d -> db_step d (out_db (record_publish_result d now i a)).
Proof.
  intros Hd. apply transact_step; [done|]. intros d' evs x ?; inv_ok. apply get_run_Some in E.
  eapply put_run_step; try done. apply publish_row_step; [by eapply di_runs | done].
Qed.

(** An attempt is only counted while the message is unpublished. *)
Lemma attempt_step d i :
  db_inv d ->
  (forall r ob, db_runs d !! i = Some r -> r_outbox r = Some ob ->
    ob_status ob <> DispatchOutboxStatus.PUBLISHED) ->
  db_step d (out_db (dispatch_attempt d i)).
Proof.
  intros Hd Hu. apply transact_step; [done|]. intros d' evs x ?; inv_ok. apply get_run_Some in E.
  match goal with x : RunDispatchOutbox |- _ => rename x into ob end.
  pose proof (Hu _ _ E G) as Hs. pose proof (di_runs _ Hd _ _ E) as Hr.
  destruct (validate_dispatch_payload _ _) as [p|] eqn:Hv.
  - destruct (_ <=? _)%Z eqn:Hn; inv_ok; eapply put_run_step; try done.
    + by apply ob_failed_step.
    + by apply attempt_row_step.
  - inv_ok. eapply put_run_step; try done. by apply ob_failed_step.
Qed.

(** What the first half of a dispatch leaves when it goes on to the attempt. *)
Lemma dispatch_open_step d now user i hb pre m :
  db_inv d ->
  let o := dispatch_open d now user i hb pre m in
  db_step d (out_db o)
  /\ (forall u, out_result o = Ok (inr u) ->
        exists r ob, db_runs (out_db o) !! i = Some r /\ r_outbox r = Some ob
                    /\ ob_status ob <> DispatchOutboxStatus.PUBLISHED
                    /\ r_status r = RunStatus.QUEUED
                    /\ (db_runs d !! i = Some r
                        \/ exists r0, db_runs d !! i = Some r0 /\ r_outbox r0 = None)).
Proof.
  intros Hd o. subst o. unfold dispatch_open.
  destruct (get_run d i) as [r|] eqn:Hg; cbn [mbind result_bind]; [|by split; [apply db_step_refl|]].
  apply get_run_Some in Hg.
  destruct (authorize_run_write d user r); cbn [mbind result_bind]; [|by split; [apply db_step_refl|]].
  pose proof (di_runs _ Hd _ _ Hg) as Hr. destruct (r_outbox r) as [ob|] eqn:Hob.
  - case_decide as Hs.
    { destruct (validate_dispatch_payload r ob); split; try done; by apply db_step_refl. }
    match goal with |- context [mbind _ ?g] => destruct g eqn:Hguard end; cbn; split; try done;
      try by apply db_step_refl.
    intros u _. exists r, ob. split_and!; try done; [|by left]. inv_ok.
    apply bool_decide_eq_true in G. destruct (ri_outbox _ Hr _ Hob).
    destruct (r_status r); try done; decide_in G.
  - match goal with |- context [mbind _ ?g] => destruct g as [[]|] eqn:Hguard end;
      cbn [mbind result_bind]; [|split; [by apply db_step_refl | done]].
    inv_ok. assert (Hcr : r_status r = RunStatus.CREATED).
    { apply bool_decide_eq_true in G. destruct (r_status r); try done; decide_in G. }
    destruct (task_envelope r m 1 now) as [p|] eqn:Hp; cbn [mbind result_bind]; [|split; [by apply db_step_refl | done]].
    destruct (set_run_status _ _ _ _) as [[b r1]|] eqn:Hset; cbn [mbind result_bind]; [|split; [by apply db_step_refl | done]].
    pose proof (open_new_step _ _ _ _ _ _ Hr Hob Hcr Hp Hset) as Hst. split.
    + by eapply put_run_step.
    + intros u _. exists (r_with_outbox r1 (Some (new_outbox r m p))), (new_outbox r m p).
      assert (Hq : r_status r1 = RunStatus.QUEUED) by by apply set_run_status_set in Hset as [[] _].
      split; [cbn | split_and!; try done; right; by exists r].
      assert (Hid : r_id (r_with_outbox r1 (Some (new_outbox r m p))) = i).
      { unfold r_id. rewrite (re_header _ _ (proj1 Hst)). by apply (di_keys _ Hd). }
      cbn in Hid. by rewrite Hid, lookup_insert_eq.
Qed.

Lemma dispatch_request_step d now user i hb pre m :
  db_inv d -> db_step d (out_db (dispatch_request d now user i hb pre m)).
Proof.
  intros Hd. destruct (dispatch_open_step d now user i hb pre m Hd) as [Ho Hr].
  unfold dispatch_request. destruct (dispatch_open _ _ _ _ _ _ _) as [[d1 evs] res] eqn:Eo.
  cbn in Ho, Hr. destruct res as [[resp|u0]|e]; [done | | done].
  destruct (Hr _ eq_refl) as (r & ob & Hrun & Hob & Hs & _).
  pose proof (attempt_step d1 i (proj1 Ho)) as Ha.
  destruct (dispatch_attempt d1 i) as [[d2 evs2] r2]. cbn in *. eapply db_step_trans; [done|].
  apply Ha. intros r0 ob0 Hr0 Hob0. simplify_eq. done.
Qed.

Lemma authenticate_runner_id d r cred rn :
  db_inv d -> authenticate_runner_for_run d r cred = Ok rn -> r_runner_id r = Some (rn_id rn).
Proof.
  intros Hd. unfold authenticate_runner_for_run. destruct (r_runner_id r) as [k|]; [|done]. cbn.
  destruct (db_runners d !! k) as [x|] eqn:Hx; [|done]. case_match; intros; inv_ok.
  by rewrite (di_runners _ Hd _ _ Hx).
Qed.

(** A cancelling run has been claimed, so the claim leaves its outbox alone. *)
Lemma cancelling_claimed r ob :
  run_inv r -> r_outbox r = Some ob -> r_status r = RunStatus.CANCELLING ->
  is_Some (ob_claimed_runner_id ob).
Proof.
  intros Hr Hob Hs. destruct (ri_outbox _ Hr _ Hob). apply ook_executing. rewrite Hs. intros Hx. decide_in Hx.
Qed.

Lemma r_with_outbox_same r ob : r_outbox r = Some ob -> r_with_outbox r (Some ob) = r.
Proof. destruct r; cbn. by intros ->. Qed.

Lemma claim_run_step d now i cred m : db_inv d -> db_step d (out_db (claim_run d now i cred m)).
Proof.
  intros Hd. apply transact_step; [done|]. intros d' evs x ?; inv_ok. apply get_run_Some in E.
  match goal with x : RunDispatchOutbox |- _ => rename x into ob end.
  match goal with x : Runner |- _ => rename x into rn end.
  pose proof (authenticate_runner_id _ _ _ _ Hd E0) as Hid. pose proof (di_runs _ Hd _ _ E) as Hr.
  match goal with x : (if ?c then _ else _) = Ok _ |- _ => destruct c; [by inv_ok; apply db_step_refl|] end.
  destruct (r_status _) eqn:Hs; inv_ok; try (by apply db_step_refl).
  - match goal with x : bool * TestRun |- _ => destruct x as [b r'] end. inv_ok.
    eapply put_run_step; try done. eapply claim_step; try done. by apply bool_decide_eq_true in G3.
  - destruct (cancelling_claimed _ _ Hr G Hs) as [k Hk]. rewrite Hk in *.
    rewrite r_with_outbox_same in * by done. eapply put_run_step; try done.
    by eapply finalize_cancelling_step.
Qed.

Lemma start_single_step load e1 e2 e3 msg d now i cred m c :
  db_inv d -> db_step d (out_db (start_single_execution load e1 e2 e3 msg d now i cred m c)).
Proof.
  intros Hd. apply transact_step; [done|]. intros d' evs x ?; inv_ok.
  match goal with x : ExecutionContext |- _ => rename x into cx end.
  destruct (execution_context_ok _ _ _ _ _ _ E) as []. pose proof (di_runs _ Hd _ _ xo_run) as Hr.
  case_decide; [by inv_ok; apply db_step_refl|]. inv_ok.
  destruct (already_running cx); [by inv_ok; apply db_step_refl|]. inv_ok.
  match goal with x : bool * TestRun |- _ => destruct x as [b r'] end. inv_ok.
  apply bool_decide_eq_true in G0, G1. eapply put_run_step; try done.
  eapply start_run_step; try done; [rewrite G0; solve_in | by eexists | congruence].
Qed.

Lemma out_db_check {A B} (o : outcome A) (f : A -> result B) :
  out_db (let '(d', evs, r) := o in (d', evs, x ← r; f x)) = out_db o.
Proof. by destruct o as [[??]?]. Qed.

Lemma start_api_step d now i cred m c :
  db_inv d -> db_step d (out_db (start_api_execution d now i cred m c)).
Proof.
  intros Hd. unfold start_api_execution. rewrite out_db_check.
  apply transact_step; [done|]. intros d' evs x ?; inv_ok.
  match goal with x : ExecutionContext |- _ => rename x into cx end.
  destruct (execution_context_ok _ _ _ _ _ _ E) as []. pose proof (di_runs _ Hd _ _ xo_run) as Hr.
  case_decide; [by inv_ok; apply db_step_refl|].
  destruct (already_running cx); [by inv_ok; apply db_step_refl|]. inv_ok.
  match goal with x : bool * TestRun |- _ => destruct x as [b r'] end. inv_ok.
  apply bool_decide_eq_true in G, G0. eapply put_run_step; try done.
  eapply start_run_step; try done.
  - intros Hs. rewrite decide_True in E2 by done. by eexists.
  - intros Hs. rewrite decide_False in E2 by congruence. by inv_ok.
Qed.

(** ** Completion: the result row and the closed case run appear together *)

Lemma add_rows_step d d1 res evd : db_step d d1 -> db_step d (add_rows d1 res evd).
Proof.
  intros [[] []]. split; split; cbn; try done.
  - etrans; [done | by apply prefix_app_r].
  - etrans; [done | by apply prefix_app_r].
Qed.

Lemma put_api_result_step d d1 k x :
  db_step d d1 -> db_api_results d !! k = None -> db_api_results d1 = db_api_results d ->
  case_reported d1 k -> db_step d (put_api_result d1 k x).
Proof.
  intros [[] []] Hn Hsame Hc. split; split; cbn; try done.
  - intros k0 [y [[<- _]|[Hne Hy]]%lookup_insert_Some]; [done|]. apply di_api0. by eexists.
  - rewrite Hsame. by apply insert_subseteq.
Qed.

Lemma put_scenario_result_step d d1 k x :
  db_step d d1 -> db_scenario_results d !! k = None ->
  db_scenario_results d1 = db_scenario_results d ->
  case_reported d1 k -> db_step d (put_scenario_result d1 k x).
Proof.
  intros [[] []] Hn Hsame Hc. split; split; cbn; try done.
  - intros k0 [y [[<- _]|[Hne Hy]]%lookup_insert_Some]; [done|]. apply di_scenario0. by eexists.
  - rewrite Hsame. by apply insert_subseteq.
Qed.

Lemma put_web_result_step d d1 k x :
  db_step d d1 -> db_web_results d !! k = None -> db_web_results d1 = db_web_results d ->
  case_reported d1 k -> db_step d (put_web_result d1 k x).
Proof.
  intros [[] []] Hn Hsame Hc. split; split; cbn; try done.
  - intros k0 [y [[<- _]|[Hne Hy]]%lookup_insert_Some]; [done|]. apply di_web0. by eexists.
  - rewrite Hsame. by apply insert_subseteq.
Qed.

Lemma put_session_profile_step d k p p' :
  db_inv d -> db_session_profiles d !! k = Some p -> profile_evolves p p' ->
  db_step d (put_session_profile d k p').
Proof.
  intros Hd Hp He. split.
  - destruct Hd. by split.
  - split; cbn; try done; [by intros j r Hr; exists r | congruence |].
    apply insert_included; [intros j; unfold Reflexive; reflexivity|]. intros y Hy. by simplify_eq.
Qed.

Lemma replace_case_elem r c c' :
  c ∈ r_case_runs r -> cr_id c' = cr_id c -> c' ∈ r_case_runs (replace_case r c').
Proof.
  intros Hc Hid. cbn. apply list_elem_of_fmap. exists c. split; [|done]. by rewrite decide_True.
Qed.

Lemma api_close_run_cases now r st et em final r' :
  api_close_run now r st et em = Ok (final, r') -> r_case_runs r' = r_case_runs r.
Proof.
  unfold api_close_run. case_match; [by intros; inv_ok|].
  destruct (api_final_error _ _ _ _). intros ?; inv_ok. destruct a0 as [b r2]. inv_ok.
  by apply set_run_status_set in E0 as [[] _].
Qed.

(** The completed case run is closed with the node status of its result. *)
Lemma complete_api_core_reported now cx p eff st et em final r' :
  run_inv (cx_run cx) -> cx_case cx ∈ r_case_runs (cx_run cx) ->
  complete_api_core now cx p eff st et em = Ok (final, r') ->
  exists c, c ∈ r_case_runs r' /\ cr_id c = cr_id (cx_case cx) /\ cr_status c = api_node_status st.
Proof.
  intros Hr Hc. unfold complete_api_core. intros ?; inv_ok.
  match goal with x : CaseRun |- _ => rename x into c' end.
  apply finish_case_step in E as [Hstep Hst]; [| by eapply run_case_ok | apply api_node_status_terminal].
  assert (Hid : cr_id c' = cr_id (cx_case cx)) by apply Hstep.
  exists c'. split; [|done]. erewrite api_close_run_cases by done. cbn.
  pose proof (replace_case_elem _ _ _ Hc Hid) as Hin. cbn in Hin.
  destruct (decide (eff = O_CANCELLED)); [|by inv_ok].
  apply map_result_ok in E0. destruct (Forall2_elem_l _ _ _ _ E0 Hin) as (y & Hy & Hf).
  rewrite bool_decide_true in Hf by done. cbn in Hf. by inv_ok.
Qed.

Lemma complete_api_guards_completing cx eff :
  complete_api_guards cx eff = Ok tt -> completing (r_status (cx_run cx)).
Proof.
  unfold complete_api_guards, completing, executing. case_decide; intros; inv_ok.
  - apply bool_decide_eq_true in G. destruct (r_status _); decide_in G; [left; solve_in | by right].
  - apply andb_true_iff in G as [->%bool_decide_eq_true _]. left. solve_in.
Qed.

Lemma put_run_reported d k r r' i :
  db_inv d -> db_runs d !! k = Some r -> run_evolves r r' ->
  (exists c, c ∈ r_case_runs r' /\ cr_id c = i /\ case_closed c) ->
  case_reported (put_run d r') (r_id r, i).
Proof.
  intros Hd Hr He (c & Hc & Hi & Hcl). exists r', c. split_and!; try done. cbn.
  unfold r_id. rewrite (re_header _ _ He). by rewrite lookup_insert_eq.
Qed.

Lemma complete_api_step d now i cred p ev :
  db_inv d -> db_step d (out_db (complete_api_execution d now i cred p ev)).
Proof.
  intros Hd. apply transact_step; [done|]. intros d' evs x ?; inv_ok.
  match goal with x : ExecutionContext |- _ => rename x into cx end.
  destruct (execution_context_ok _ _ _ _ _ _ E) as []. pose proof (di_runs _ Hd _ _ xo_run) as Hr.
  destruct (db_api_results d !! _) eqn:Hres; inv_ok; [by apply db_step_refl|].
  match goal with x : RunNodeStatus.t * option pytext * option pytext |- _ => destruct x as [[st et] em] end.
  inv_ok. match goal with x : RunStatus.t * TestRun |- _ => destruct x as [final r'] end. inv_ok.
  apply complete_api_guards_completing in E0.
  match goal with x : complete_api_core _ _ _ _ _ _ _ = _ |- _ => rename x into Hcore end.
  pose proof (complete_api_core_step _ _ _ _ _ _ _ _ _ Hr xo_outbox xo_case E0 Hcore) as Hst.
  destruct (complete_api_core_reported _ _ _ _ _ _ _ _ _ Hr xo_case Hcore) as (c & Hc & Hci & Hcs).
  apply put_api_result_step; [by apply add_rows_step; eapply put_run_step | done | done |].
  apply (put_run_reported d i); try done; [apply Hst|].
  exists c. split_and!; try done. unfold case_closed. rewrite Hcs. apply api_node_status_terminal.
Qed.

Lemma complete_scenario_guards_completing cx eff :
  complete_scenario_guards cx eff = Ok tt -> completing (r_status (cx_run cx)).
Proof.
  unfold complete_scenario_guards, completing, executing. case_decide; intros; inv_ok.
  - apply bool_decide_eq_true in G. destruct (r_status _); decide_in G; [left; solve_in | by right].
  - apply andb_true_iff in G as [->%bool_decide_eq_true _]. left. solve_in.
Qed.

Lemma scenario_result_terminal eff r et em :
  run_terminal (scenario_result eff r et em).1.1 = true.
Proof. by destruct eff. Qed.

Lemma complete_scenario_core_terminal now cx p eff rs et em r' :
  complete_scenario_core now cx p eff = Ok (rs, et, em, r') -> r_status r' = rs /\ run_terminal rs = true.
Proof.
  unfold complete_scenario_core.
  destruct (scenario_result _ _ _ _) as [[rs0 et0] em0] eqn:Hres. intros ?; inv_ok.
  match goal with x : bool * TestRun |- _ => destruct x as [b r2] end. inv_ok.
  match goal with x : set_run_status _ _ _ _ = _ |- _ => apply set_run_status_set in x as [[] _] end.
  split; [done|]. pose proof (scenario_result_terminal eff (cx_run cx) (safe_error 100 (sp_error_type p))
    (safe_error 500 (sp_error_message p))) as Ht. by rewrite Hres in Ht.
Qed.

Lemma complete_scenario_step d now i cred p :
  db_inv d -> db_step d (out_db (complete_scenario_execution d now i cred p)).
Proof.
  intros Hd. apply transact_step; [done|]. intros d' evs x ?; inv_ok.
  match goal with x : ExecutionContext |- _ => rename x into cx end.
  destruct (execution_context_ok _ _ _ _ _ _ E) as []. pose proof (di_runs _ Hd _ _ xo_run) as Hr.
  destruct (db_scenario_results d !! _) eqn:Hres; inv_ok; [by apply db_step_refl|].
  match goal with x : RunStatus.t * option pytext * option pytext * TestRun |- _ =>
    destruct x as [[[rs et] em] r'] end.
  inv_ok. match goal with x : complete_scenario_guards _ _ = _ |- _ =>
    apply complete_scenario_guards_completing in x as Hco end.
  match goal with x : complete_scenario_core _ _ _ _ = _ |- _ => rename x into Hcore end.
  pose proof (complete_scenario_core_step _ _ _ _ _ _ _ _ Hr xo_case Hco Hcore) as Hst.
  destruct (complete_scenario_core_terminal _ _ _ _ _ _ _ _ Hcore) as [Hrs Ht].
  apply put_scenario_result_step; [by eapply put_run_step | done | done |].
  apply (put_run_reported d i); try done; [apply Hst|].
  destruct (re_outbox _ _ (proj1 Hst) _ xo_outbox) as (ob' & Hob' & _).
  destruct (Forall2_elem_l _ _ _ _ (re_cases _ _ (proj1 Hst)) xo_case) as (c & Hc & Hce).
  exists c. split_and!; [done | apply Hce |].
  assert (Hcl : Forall case_closed (r_case_runs r')).
  { eapply claimed_terminal_closed; [apply Hst | done | by rewrite Hrs]. }
  rewrite Forall_forall in Hcl. auto.
Qed.

(** ** Web executions *)

Lemma session_refresh_step d now cx content p d1 s :
  db_inv d -> apply_web_session_refresh d now cx content p = Ok (d1, s) ->
  db_step d d1 /\ db_runs d1 = db_runs d /\ db_web_results d1 = db_web_results d.
Proof.
  intros Hd. unfold apply_web_session_refresh. intros E.
  assert (d1 = d \/ exists k p0 p1, db_session_profiles d !! k = Some p0 /\ profile_evolves p0 p1
            /\ d1 = put_session_profile d k p1) as [->|(k & p0 & p1 & Hk & He & ->)].
  { destruct (wp_session_recovery p), (wp_refreshed_session p);
      repeat (inv_ok; try match type of E with context [if ?b then _ else _] => destruct b end);
      simplify_eq; try (by left).
    all: right; do 3 eexists; split_and!; [done | | done]; split; cbn; try done; lia. }
  - split; [by apply db_step_refl | done].
  - split; [by eapply put_session_profile_step | done].
Qed.

Lemma complete_web_guards_completing cx eff :
  complete_web_guards cx eff = Ok tt -> completing (r_status (cx_run cx)).
Proof.
  unfold complete_web_guards, completing, executing. case_decide; intros; inv_ok.
  - apply bool_decide_eq_true in G. destruct (r_status _); decide_in G; [left; solve_in | by right].
  - apply andb_true_iff in G as [->%bool_decide_eq_true _]. left. solve_in.
Qed.

Lemma complete_web_step d now i cred p :
  db_inv d -> db_step d (out_db (complete_web_execution d now i cred p)).
Proof.
  intros Hd. apply transact_step; [done|]. intros d' evs x (cx & Hcx & E)%bind_ok.
  destruct (execution_context_ok _ _ _ _ _ _ Hcx) as []. pose proof (di_runs _ Hd _ _ xo_run) as Hr.
  cbn zeta in E. destruct (db_web_results d !! _) eqn:Hres; [inv_ok; simplify_eq; by apply db_step_refl|].
  apply bind_ok in E as (content & _ & E). apply bind_ok in E as ([] & _ & E).
  apply bind_ok in E as ([] & _ & E). apply bind_ok in E as ([] & Hco%complete_web_guards_completing & E).
  apply bind_ok in E as ([] & _ & E). apply bind_ok in E as ([c r] & Hcase & E).
  apply bind_ok in E as ([d1 rec] & Href & E). apply bind_ok in E as (r' & Hclose & E).
  injection E as <- _ _.
  apply complete_web_case_step in Hcase as [Hstep Ht]; [|by eapply run_case_ok].
  destruct (close_web_run_step _ _ _ _ _ _ Hr xo_case Hco Hstep Ht Hclose) as [Hst Hrs].
  destruct (session_refresh_step _ _ _ _ _ _ _ Hd Href) as (Hd1 & Hruns & Hweb).
  rewrite <-Hruns in xo_run.
  assert (db_step d (put_run d1 r')) as Hput
    by (eapply db_step_trans; [done|]; eapply put_run_step; [apply Hd1 | done | done]).
  apply put_web_result_step; [done | done | done |].
  apply (put_run_reported d1 i); try done; [apply Hd1 | apply Hst|].
  destruct (re_outbox _ _ (proj1 Hst) _ xo_outbox) as (ob' & Hob' & _).
  destruct (Forall2_elem_l _ _ _ _ (re_cases _ _ (proj1 Hst)) xo_case) as (c' & Hc' & Hce).
  exists c'. split_and!; [done | apply Hce |].
  assert (Hcl : Forall case_closed (r_case_runs r')).
  { eapply claimed_terminal_closed; [apply Hst | done | by rewrite Hrs]. }
  rewrite Forall_forall in Hcl. auto.
Qed.

Lemma handle_step d now q : db_inv d -> db_step d (handle d now q).1.
Proof.
  intros Hd. destruct q; cbn [handle fst];
    [ apply create_run_step | apply update_run_status_step | apply update_case_status_step | apply update_step_status_step
    | apply cancel_run_step | apply force_stop_run_step | apply disconnect_step | apply overdue_step
    | apply dispatch_request_step | apply record_step | apply claim_run_step | apply start_api_step
    | apply start_single_step | apply start_single_step | apply complete_api_step
    | apply complete_scenario_step | apply complete_web_step ]; done.
Qed.

Lemma reachable_step d d' : db_inv d -> reachable d d' -> db_step d d'.
Proof.
  intros Hd. induction 1 as [d|d d1 d2 (now & q & ->) _ IH]; [by apply db_step_refl|].
  pose proof (handle_step d now q Hd) as Hs. eapply db_step_trans; [done|]. apply IH, Hs.
Qed.
End system.
