(* ===== verification/RunExample.v ===== *)
(** A small deployment on which the theorems about the run service are
    evaluated: one project, one environment, one runner, one API case. *)
From S2P Require Import Prelude PyText Projects RunData RunStatusOps RunControl RunDispatch.
From S2P Require Import RunCreate RunExecution RunInvariant RunHandlers RunSystem.

Module Demo.
Definition digest64 : string := "0123456789abcdef0123456789abcdef0123456789abcdef0123456789abcdef".

#[export] Instance settings : Settings := {|
  digest_secret := fun s => if decide (s = "credential") then digest64 else s;
  encrypt_state := fun s => Some ("enc:" +:+ s);
  sha256_hex := fun s => "sha:" +:+ s;
  runner_total_timeout_default_ms := 60000;
  runner_heartbeat_ttl_us := 30000000;
|}.

(** A case with one deterministic and one AI assertion. *)
Definition api_case : ApiCase :=
  {| ac_max_retries := Some 2%Z;
     ac_assertions := [ {| ad_deterministic := true; ad_enabled := true; ad_semantic := false |};
                        {| ad_deterministic := false; ad_enabled := true; ad_semantic := true |} ] |}.
#[export] Instance catalog : Catalog := {|
  load_supported_api_case := fun _ _ => Ok api_case;
  load_supported_scenario := fun _ => Ok [ {| dn_id := "n1"; dn_enabled := true; dn_ai_assertion := false |} ];
  load_pinned_web_case := fun _ => Ok {| wc_ai_semantic := [false]; wc_session_profile_id := Some 7%Z |};
  web_session_recovery_binding := fun _ _ p => Ok (pf_login_web_case_version_id p);
|}.

(** Assertions pass on the response "ok"; on "unsure" the AI asks for a review. *)
#[export] Instance evaluation : Evaluation := {|
  run_assertion := fun a _ response =>
    {| as_status := if decide (response = "ok") then AssertionStatus.PASS
                    else if decide (response = "unsure")
                    then if ad_semantic a then AssertionStatus.REVIEW else AssertionStatus.PASS
                    else AssertionStatus.FAIL;
       as_semantic := ad_semantic a |};
  execution_response_summary := fun r => r;
  decode_execution_evaluation := fun _ _ => Err (RunStateConflictError "execution evaluation token 无效");
|}.

Definition target (rows : list DatasetRow) : TargetSpec :=
  {| ts_target := Some (CaseTarget 1 1); ts_required_capabilities := ["API"];
     ts_steps := [("n1", "request", "HTTP")]; ts_iterations := rows |}.
(** Version 2 of the case is driven by two dataset rows. *)
Definition rows : list DatasetRow :=
  [ {| ds_id := 1; ds_version_id := 1; ds_row_index := 1 |};
    {| ds_id := 1; ds_version_id := 1; ds_row_index := 2 |} ].
#[export] Instance assets : Assets := {|
  resolve_target := fun p => ([], target (if decide (rq_case_version_id p = Some 2%Z) then rows else []));
  get_environment := fun i => if decide (i = 1%Z) then Some {| env_project_id := 1; env_enabled := true |} else None;
  capture_case_run_requirement_sources := fun _ => Ok tt;
|}.

Definition admin : CurrentUser := {| user_id := "admin"; user_roles := ["ADMIN"] |}.
Definition project : Project :=
  {| p_name := u "Demo"; p_code := u "DEMO"; p_description := None; p_status := ProjectStatus.ACTIVE;
     p_owner_id := "admin"; p_archived_at := None; p_archived_at_basis := None |}.
Definition runner : Runner :=
  {| rn_id := "r1"; rn_status := RunnerStatus.ACTIVE; rn_credential_digest := digest64;
     rn_last_heartbeat_at := Some 0%Z; rn_tags := ["linux"]; rn_ready_capabilities := ["API"];
     rn_slots := [ {| sl_type := RunnerSlotType.API; sl_total := 4; sl_available := 4 |} ];
     rn_chrome_version := None |}.

Definition base_db : Db :=
  {| db_projects := {| projects := {[ 1%Z := project ]}; members := ∅; users := ∅ |};
     db_runs := ∅; db_runners := {[ "r1" := runner ]}; db_api_results := ∅;
     db_scenario_results := ∅; db_web_results := ∅; db_session_profiles := ∅;
     db_resources := []; db_evidence := [] |}.

Definition create_payload (version : Z) : RunCreateRequest :=
  {| rq_project_id := 1; rq_environment_id := 1; rq_runner_id := "r1"; rq_run_type := RunType.API_CASE;
     rq_case_id := Some 1%Z; rq_case_version_id := Some version; rq_scenario_id := None;
     rq_scenario_version_id := None; rq_web_case_id := None; rq_web_case_version_id := None;
     rq_required_capabilities := []; rq_required_tags := ["linux"];
     rq_required_slot_type := RunnerSlotType.API; rq_required_slot_count := 1;
     rq_total_timeout_ms := None |}.

Definition complete_payload (outcome : ExecutionOutcome) (response : option string) (case_run_id : Z)
  : ApiCompleteRequest :=
  {| ap_message_id := "msg_1"; ap_case_run_id := case_run_id; ap_outcome := outcome;
     ap_response := response; ap_error_type := None; ap_error_message := None; ap_retry_count := 0;
     ap_resources := []; ap_evaluation_token := None |}.

(** A history of requests, one second apart. *)
Fixpoint play (d : Db) (now : Z) (l : list request) : Db :=
  match l with [] => d | q :: l' => play (handle d now q).1 (now + 1000000) l' end.

Lemma play_reachable d now l : reachable d (play d now l).
Proof.
  revert d now. induction l as [|q l IH]; intros d now; cbn; [constructor|].
  eapply rtc_l; [by exists now, q | apply IH].
Qed.

Definition create version := RCreate admin (create_payload version) HeartbeatPresent "run_1" 1 1.
Definition dispatch := RDispatch admin "run_1" HeartbeatPresent false "msg_1".
Definition published := RPublished "run_1" {| pr_published := true; pr_code := None |}.
Definition claim := RClaim "run_1" "credential" "msg_1".
Definition start case_run_id := RStartApi "run_1" "credential" "msg_1" case_run_id.
Definition complete outcome response case_run_id :=
  RCompleteApi "run_1" "credential" (complete_payload outcome response case_run_id) true.

Definition created : Db := play base_db 0 [create 1].
Definition queued : Db := play base_db 0 [create 1; dispatch; published].
Definition assigned : Db := play queued 3000000 [claim].
Definition running : Db := play assigned 4000000 [start 1].
Definition finished : Db := play running 5000000 [complete HTTP_RESPONSE (Some "ok") 1].
(** Two iterations, both started. *)
Definition running2 : Db := play base_db 0 [create 2; dispatch; published; claim; start 1; start 2].

Definition status_of (d : Db) (i : string) : option RunStatus.t := r_status <$> db_runs d !! i.
Definition cases_of (d : Db) (i : string) : option (list RunNodeStatus.t) :=
  (fun r => cr_status <$> r_case_runs r) <$> db_runs d !! i.

Example demo_history :
  (status_of created "run_1", status_of queued "run_1", status_of assigned "run_1",
   status_of running "run_1", status_of finished "run_1")
  = (Some RunStatus.CREATED, Some RunStatus.QUEUED, Some RunStatus.ASSIGNED,
     Some RunStatus.RUNNING, Some RunStatus.SUCCESS).
Proof. vm_compute. reflexivity. Qed.

Lemma base_inv : db_inv base_db.
Proof.
  split; unfold base_db, db_keys_ok; cbn [db_runs db_runners db_api_results db_scenario_results db_web_results].
  - intros k r Hr. by apply lookup_empty_Some in Hr.
  - intros k rn [<- <-]%lookup_singleton_Some. done.
  - intros k r Hr. by apply lookup_empty_Some in Hr.
  - intros k [x Hx]. by apply lookup_empty_Some in Hx.
  - intros k [x Hx]. by apply lookup_empty_Some in Hx.
  - intros k [x Hx]. by apply lookup_empty_Some in Hx.
Qed.

Lemma play_inv d now l : db_inv d -> db_inv (play d now l).
Proof. intros Hd. apply (reachable_step d); [done | apply play_reachable]. Qed.

Lemma queued_inv : db_inv queued.
Proof. apply play_inv, base_inv. Qed.
Lemma assigned_inv : db_inv assigned.
Proof. apply play_inv, queued_inv. Qed.
Lemma running_inv : db_inv running.
Proof. apply play_inv, assigned_inv. Qed.
Lemma running2_inv : db_inv running2.
Proof. apply play_inv, base_inv. Qed.

(** The run of a history, for witnesses that name it. *)
Definition run_of (d : Db) : TestRun :=
  default (new_run 0 admin "none" 0 0 (create_payload 1) [] (CaseTarget 0 0) (target [])) (db_runs d !! "run_1").
Definition case_of (d : Db) (i : nat) : CaseRun :=
  default {| cr_id := 0; cr_sequence_no := 0; cr_target := CaseTarget 0 0; cr_dataset := None;
             cr_node := new_node; cr_steps := [] |} (r_case_runs (run_of d) !! i).
Definition outbox_of (d : Db) : RunDispatchOutbox :=
  default (new_outbox (run_of d) "none"
             {| tp_schema_version := 1; tp_message_id := "none"; tp_run_id := "none"; tp_runner_id := "none";
                tp_run_type := "API_CASE"; tp_required_slot_type := "API"; tp_attempt := 1;
                tp_enqueued_at := 0 |}) (r_outbox (run_of d)).
Definition context_of (d : Db) (i : nat) : ExecutionContext :=
  {| cx_run := run_of d; cx_runner := runner; cx_outbox := outbox_of d; cx_case := case_of d i |}.
End Demo.
