(* ===== verification/RunTheorems.v ===== *)
(** The properties of the run service: refinement of the abstract contract,
    soundness of verdicts, exactly-once claim, bounded dispatch, totality and
    effect of the control-plane handlers. *)
From S2P Require Import Prelude PyText Projects RunData RunStatusOps RunControl RunDispatch.
From S2P Require Import RunCreate RunExecution RunInvariant RunHandlers RunSystem RunExample.

(** ** Totality of bulk updates *)

(** The node state machine allows what the rule asks for. *)
Definition rule_allowed (rule : node_rule) (s : RunNodeStatus.t) : Prop :=
  rule_status rule s = s \/ rule_status rule s ∈ NODE_TRANSITIONS s.

Lemma apply_rule_total now rule n :
  rule_allowed rule (n_status n) -> exists n', apply_rule now rule n = Ok n'.
Proof.
  unfold rule_allowed, rule_status, apply_rule. destruct (rule (n_status n)) as [[s p]|]; [|by eexists].
  intros Ha. unfold set_node_status. case_decide; [by eexists|]. destruct Ha as [->|Ha]; [done|].
  rewrite bool_decide_true by done. cbn. by eexists.
Qed.

Lemma update_nodes_total now rule r :
  (forall c, c ∈ r_case_runs r -> rule_allowed rule (cr_status c)
     /\ forall s, s ∈ cr_steps c -> rule_allowed rule (sr_status s)) ->
  exists r', update_nodes now rule r = Ok r'.
Proof.
  intros Ha. unfold update_nodes, update_steps.
  destruct (map_result_total (fun c =>
    steps ← map_result (fun s => sr_with s <$> apply_rule now rule (sr_node s)) (cr_steps c);
    Ok (cr_with_steps c steps)) (r_case_runs r)) as [cs Hcs].
  - intros c Hc. destruct (Ha c Hc) as [_ Hs].
    destruct (map_result_total (fun s => sr_with s <$> apply_rule now rule (sr_node s)) (cr_steps c)) as [st Hst].
    + intros s Hin. destruct (apply_rule_total now rule (sr_node s) (Hs s Hin)) as [n ->]. by eexists.
    + rewrite Hst. by eexists.
  - rewrite Hcs. cbn. apply map_result_ok in Hcs. unfold update_cases.
    destruct (map_result_total (fun c => cr_with_node c <$> apply_rule now rule (cr_node c)) cs) as [cs' ->].
    + intros c' Hc'. apply Forall2_flip in Hcs. destruct (Forall2_elem_l _ _ _ _ Hcs Hc') as (c & Hc & Hf).
      cbn in Hf. inv_ok. destruct (Ha c Hc) as [Hn _].
      destruct (apply_rule_total now rule (cr_node c) Hn) as [n Hn']. cbn. rewrite Hn'. by eexists.
    + by eexists.
Qed.

Lemma cancelled_allowed s p st :
  s = RunNodeStatus.CANCELLED -> rule_allowed (close_rule s p) st.
Proof.
  intros ->. unfold rule_allowed. rewrite close_rule_status.
  destruct st; cbn; (by left) || (right; solve_in).
Qed.

Lemma cancel_rule_allowed s st :
  s ∈ [RunNodeStatus.CANCELLED; RunNodeStatus.CANCELLING] -> rule_allowed (cancel_rule s) st.
Proof.
  intros Hs. unfold rule_allowed. destruct s; decide_in Hs; destruct st; cbn; (by left) || (right; solve_in).
Qed.

Lemma overdue_running_allowed st : rule_allowed overdue_running_rule st.
Proof. unfold rule_allowed. destruct st; cbn; (by left) || (right; solve_in). Qed.

Lemma set_run_status_total now r s p :
  s = r_status r \/ run_edge (r_status r) s -> exists b r', set_run_status now r s p = Ok (b, r').
Proof.
  intros Hs. unfold set_run_status. case_decide; [by eexists _, _|].
  destruct Hs as [->|Hs]; [done|]. rewrite bool_decide_true by done. cbn. by eexists _, _.
Qed.

(** ** The contract of the whole service *)

Section contract.
Context `{Settings} `{Catalog} `{Evaluation} `{Assets}.



Lemma passed_count l s :
  Forall (fun c => passed (cr_status c)) l -> ~ passed s -> count_status s l = 0%Z.
Proof.
  intros Hl Hs. unfold count_status. induction Hl as [|c l Hc Hl IH]; [done|].
  rewrite filter_cons_False; [done | congruence].
Qed.

(** C3: a run is reported SUCCESS only if every one of its case runs passed or
    was skipped, every step is finished and no failure, review or timeout is
    counted; it is reported FAILED only if some case run failed or needs a
    review. *)
Theorem verdict_sound d d' k r :
  db_inv d -> reachable d d' -> db_runs d' !! k = Some r ->
  (r_status r = RunStatus.SUCCESS ->
     Forall (fun c => passed (cr_status c)
                      /\ Forall (fun s => node_terminal (sr_status s) = true) (cr_steps c)) (r_case_runs r)
     /\ r_fail_count r = 0%Z /\ r_review_count r = 0%Z /\ r_timeout_count r = 0%Z)
  /\ (r_status r = RunStatus.FAILED -> Exists (fun c => rejected (cr_status c)) (r_case_runs r)).
Proof.
  intros Hd Hre Hr. destruct (reachable_step _ _ Hd Hre) as [Hd' _].
  pose proof (di_runs _ Hd' _ _ Hr) as Hi. destruct (ri_verdict _ Hi) as [Hs Hf]. split; [|done].
  intros Hst. pose proof (Hs Hst) as Hp. split.
  - apply Forall_forall. intros c Hc. rewrite Forall_forall in Hp. pose proof (Hp _ Hc) as Hpc. split; [done|].
    apply (co_closed _ (run_case_ok _ _ Hi Hc)). unfold passed in Hpc. destruct (cr_status c); try done; decide_in Hpc.
  - rewrite <- (ri_summary _ Hi). cbn. split_and!; apply passed_count; try done; intros Hx; unfold passed in Hx; decide_in Hx.
Qed.

Lemma transact_failed {A} d (body : result (Db * list RunEvent * A)) :
  is_ok (out_result (transact d body)) = false -> out_db (transact d body) = d.
Proof. intros Hf. destruct (out_result (transact d body)) eqn:Hr; [done|]. by eapply transact_Err. Qed.

(** Once a dispatch has passed its guards, counting the attempt cannot fail. *)
Lemma dispatch_request_failed d now user i hb pre m :
  db_inv d -> is_ok (out_result (dispatch_request d now user i hb pre m)) = false ->
  out_db (dispatch_request d now user i hb pre m) = d.
Proof.
  intros Hd. destruct (dispatch_open_step d now user i hb pre m Hd) as [_ Hr].
  assert (He : is_ok (out_result (dispatch_open d now user i hb pre m)) = false ->
               out_db (dispatch_open d now user i hb pre m) = d) by apply transact_failed.
  unfold dispatch_request. destruct (dispatch_open d now user i hb pre m) as [[d1 evs] res]. cbn in Hr, He.
  destruct res as [[resp|[]]|e]; cbn; [done| |by auto].
  destruct (Hr _ eq_refl) as (r & ob & Hrun & Hob & _).
  unfold dispatch_attempt, get_run. rewrite Hrun. cbn. rewrite Hob. cbn.
  destruct (validate_dispatch_payload r ob); [destruct (_ <=? _)%Z|]; done.
Qed.

(** The check after the commit of a start never fires: a started run has a
    start time. *)
Lemma start_api_failed d now i cred m c :
  db_inv d -> is_ok (out_result (start_api_execution d now i cred m c)) = false ->
  out_db (start_api_execution d now i cred m c) = d.
Proof.
  intros Hd. unfold start_api_execution. rewrite out_db_check.
  match goal with |- context [transact d ?b] => destruct b as [[[d1 evs] resp]|e] eqn:Hb; [|done] end.
  cbn. intros Hf. destruct (st_idempotent resp) eqn:Hid; [done|]. cbn in Hf.
  destruct (st_started_at resp) eqn:Hs; [done|]. exfalso. clear Hf. inv_ok.
  match goal with x : ExecutionContext |- _ => rename x into cx end.
  destruct (execution_context_ok _ _ _ _ _ _ E) as []. pose proof (di_runs _ Hd _ _ xo_run) as Hr.
  case_decide; [by inv_ok|]. destruct (already_running cx); [by inv_ok|]. inv_ok.
  match goal with x : bool * TestRun |- _ => destruct x as [b r'] end. inv_ok. cbn in Hs.
  apply bool_decide_eq_true in G.
  case_decide as Ha.
  - match goal with x : set_run_status _ _ _ _ = _ |- _ => apply set_run_status_set in x as [[] _] end.
    destruct ss_running as [t Ht]; [done | cbn; congruence | congruence].
  - inv_ok. cbn in Hs. destruct (ri_started _ Hr) as [t Ht]; [|congruence].
    destruct (r_status (cx_run cx)); decide_in G; done.
Qed.

(** a request that is answered with an error leaves the database exactly as
    it found it. *)
Theorem failed_request_changes_nothing d now q :
  db_inv d -> (handle d now q).2 = false -> (handle d now q).1 = d.
Proof.
  intros Hd. destruct q; cbn [handle fst snd]; try apply transact_failed.
  - by apply dispatch_request_failed.
  - by apply start_api_failed.
Qed.
End contract.

(** ** The lifecycle of one run *)

(** How many status changes can still follow. *)
Definition lifecycle_rank (s : RunStatus.t) : nat :=
  match s with
  | RunStatus.CREATED => 5 | RunStatus.QUEUED => 4 | RunStatus.ASSIGNED => 3 | RunStatus.RUNNING => 2
  | RunStatus.CANCELLING => 1
  | RunStatus.SUCCESS | RunStatus.FAILED | RunStatus.CANCELLED | RunStatus.TIMEOUT => 0
  end%nat.

Lemma run_edge_rank s s' : run_edge s s' -> (lifecycle_rank s' < lifecycle_rank s)%nat.
Proof. intros He. destruct s, s'; cbn; try lia; decide_in He. Qed.

(** the run state machine has no cycle: from any status at most
    [lifecycle_rank] (never more than five) changes follow, and a terminal status
    is never left. *)
Theorem lifecycle_bounded s s' n :
  nsteps run_edge n s s' -> (n <= lifecycle_rank s)%nat /\ (n <= 5)%nat /\ (run_terminal s = true -> s' = s).
Proof.
  intros Hn. assert (Hr : (n + lifecycle_rank s' <= lifecycle_rank s)%nat).
  { induction Hn as [|n x y z Hxy Hyz IH]; [lia|]. apply run_edge_rank in Hxy. lia. }
  split_and!; [lia | destruct s; cbn in *; lia |].
  intros Ht. destruct Hn as [|n x y z Hxy _]; [done|]. apply run_edge_nonterminal in Hxy. congruence.
Qed.

Section lifecycle.
Context `{Settings} `{Catalog} `{Evaluation} `{Assets}.

Lemma claim_fresh_inv d now k cred m d1 evs resp :
  db_inv d -> claim_run d now k cred m = (d1, evs, Ok resp) -> cl_idempotent resp = false ->
  exists r ob r1, db_runs d !! k = Some r /\ r_outbox r = Some ob /\ r_status r = RunStatus.QUEUED
    /\ ob_claimed_runner_id ob = None /\ db_runs d1 !! k = Some r1 /\ run_step r r1
    /\ r_status r1 = RunStatus.ASSIGNED /\ r_total_timeout_ms r1
         = Some (default runner_total_timeout_default_ms (r_total_timeout_ms r))
    /\ r_outbox r1 = Some (ob_claim ob (cl_runner_id resp) now) /\ cl_message_id resp = ob_message_id ob.
Proof.
  intros Hd Hc Hi. unfold claim_run, transact in Hc.
  match type of Hc with match ?b with _ => _ end = _ => destruct b as [[[dx ex] rx]|] eqn:Hb; [|done] end.
  injection Hc as -> -> ->. inv_ok. match goal with x : TestRun |- _ => rename x into r end.
  match goal with x : RunDispatchOutbox |- _ => rename x into ob end.
  match goal with x : Runner |- _ => rename x into rn end. apply get_run_Some in E.
  pose proof (authenticate_runner_id _ _ _ _ Hd E0) as Hid. pose proof (di_runs _ Hd _ _ E) as Hr.
  match goal with x : (if ?c then _ else _) = Ok _ |- _ => destruct c; [by inv_ok|] end.
  destruct (r_status r) eqn:Hs; inv_ok; try done.
  match goal with x : bool * TestRun |- _ => destruct x as [b r1] end. inv_ok.
  match goal with x : set_run_status _ _ _ _ = _ |- _ => rename x into Hset end.
  apply bool_decide_eq_true in G3. apply bool_decide_eq_false in G4.
  pose proof (claim_step _ _ _ _ _ _ Hr G Hs Hid G3 Hset) as Hst.
  apply set_run_status_set in Hset as [[] _]. cbn in *.
  exists r, ob, r1. split_and!; try done; [by apply eq_None_not_Some|].
  unfold r_id. rewrite (re_header _ _ (proj1 Hst)). pose proof (di_keys _ Hd _ _ E) as Hk.
  unfold r_id in Hk. by rewrite Hk, lookup_insert_eq.
Qed.

(** C27: a task is claimed at most once.  After the claim that assigned the run,
    no later claim assigns it again, the claiming runner and claim time are
    fixed, and the time budget captured by the claim (the run's own, else the
    configured default) never changes. *)
Theorem claim_exactly_once d now k cred m d1 evs resp d2 :
  db_inv d -> claim_run d now k cred m = (d1, evs, Ok resp) -> cl_idempotent resp = false ->
  reachable d1 d2 ->
  (exists r ob, db_runs d2 !! k = Some r /\ r_outbox r = Some ob
     /\ ob_claimed_runner_id ob = Some (cl_runner_id resp) /\ ob_claimed_at ob = Some now
     /\ exists r0, db_runs d !! k = Some r0 /\ r_total_timeout_ms r
          = Some (default runner_total_timeout_default_ms (r_total_timeout_ms r0)))
  /\ (forall now' cred' m' d3 evs' resp', claim_run d2 now' k cred' m' = (d3, evs', Ok resp') ->
        cl_idempotent resp' = true).
Proof.
  intros Hd Hc Hi Hre. destruct (claim_fresh_inv _ _ _ _ _ _ _ _ Hd Hc Hi)
    as (r & ob & r1 & Hr & Hob & _ & _ & Hr1 & [_ Hinv1] & _ & Ht & Hob1 & _).
  assert (Hd1 : db_inv d1).
  { pose proof (claim_run_step d now k cred m Hd) as [Hx _]. by rewrite Hc in Hx. }
  destruct (reachable_step _ _ Hd1 Hre) as [Hd2 Hev].
  destruct (de_runs _ _ Hev _ _ Hr1) as (r2 & Hr2 & He).
  destruct (re_outbox _ _ He _ Hob1) as (ob2 & Hob2 & Hoe). split.
  - exists r2, ob2. split_and!; try done; [by apply Hoe | by apply Hoe |].
    exists r. split; [done|]. by apply (re_timeout _ _ He).
  - intros now' cred' m' d3 evs' resp' Hc'. destruct (cl_idempotent resp') eqn:Hi'; [done|].
    destruct (claim_fresh_inv _ _ _ _ _ _ _ _ Hd2 Hc' Hi') as (r3 & ob3 & _ & Hr3 & Hob3 & _ & Hn & _).
    simplify_eq. pose proof (oe_claimed_by _ _ Hoe _ eq_refl) as Hcl. cbn in Hcl. congruence.
Qed.

Lemma validate_facts r ob :
  is_Some (validate_dispatch_payload r ob) ->
  envelope_valid (ob_payload ob) = true /\ tp_run_id (ob_payload ob) = r_id r
  /\ ob_routing_key ob = expected_dispatch_routing_key r.
Proof.
  unfold validate_dispatch_payload. intros [p Hp]. destruct (_ && _) eqn:Hb in Hp; [|done]. clear Hp.
  rewrite !andb_true_iff, !bool_decide_eq_true in Hb. tauto.
Qed.

(** The row an attempt writes and the message it yields. *)
Lemma attempt_hands_over d k r ob d' evs key p :
  db_inv d -> db_runs d !! k = Some r -> r_outbox r = Some ob ->
  ob_status ob <> DispatchOutboxStatus.PUBLISHED ->
  dispatch_attempt d k = (d', evs, Ok (inr (key, p))) ->
  let n := (ob_attempt_count ob + 1)%Z in
  let ob' := ob_with ob p DispatchOutboxStatus.PENDING n None (ob_published_at ob) in
  db_runs d' !! k = Some (r_with_outbox r (Some ob'))
  /\ key = expected_dispatch_routing_key r /\ tp_attempt p = n
  /\ (1 <= n <= DISPATCH_MAX_ATTEMPTS)%Z /\ envelope_valid p = true /\ tp_run_id p = k
  /\ is_Some (validate_dispatch_payload (r_with_outbox r (Some ob')) ob').
Proof.
  intros Hd Hr Hob Hs Ha n ob'. pose proof (di_runs _ Hd _ _ Hr) as Hinv.
  pose proof (ri_outbox _ Hinv _ Hob) as Hok. pose proof (di_keys _ Hd _ _ Hr) as Hk.
  unfold dispatch_attempt, get_run in Ha. rewrite Hr in Ha. cbn in Ha. rewrite Hob in Ha. cbn in Ha.
  destruct (validate_dispatch_payload r ob) as [p0|] eqn:Hv; [|done].
  destruct (_ <=? _)%Z eqn:Hn; [done|]. cbn in Ha. injection Ha as <- <- <- <-.
  pose proof (attempt_row_step _ _ _ Hinv Hob Hs Hv Hn) as [_ Hi'].
  destruct (ri_outbox _ Hi' _ eq_refl) as [_ Hv' _ _ _ _ _ _].
  pose proof Hv' as (Henv & Hid & Hkey)%validate_facts. cbn in Hid, Hkey.
  destruct Hok as [_ _ Hat _ _ _ _ _]. unfold n, DISPATCH_MAX_ATTEMPTS in *.
  split_and!; try done; try lia; [cbn | cbn; by rewrite Hid].
  change (r_id (r_with_outbox r _)) with (r_id r). by rewrite Hk, lookup_insert_eq.
Qed.

(** what a dispatch hands to the broker is a valid task envelope of this
    run, addressed by its routing key, numbered with the attempt the outbox row
    now records, at most the tenth; and it does so only while no earlier
    attempt has been confirmed. *)
Theorem dispatch_hands_over_valid_attempt d now user k hb pre m d' evs key p :
  db_inv d -> dispatch_request d now user k hb pre m = (d', evs, Ok (inr (key, p))) ->
  exists r' ob', db_runs d' !! k = Some r' /\ r_outbox r' = Some ob'
    /\ r_status r' = RunStatus.QUEUED
    /\ ob_status ob' = DispatchOutboxStatus.PENDING /\ ob_payload ob' = p
    /\ tp_attempt p = ob_attempt_count ob' /\ (1 <= tp_attempt p <= DISPATCH_MAX_ATTEMPTS)%Z
    /\ envelope_valid p = true /\ tp_run_id p = k /\ key = expected_dispatch_routing_key r'
    /\ is_Some (validate_dispatch_payload r' ob')
    /\ (forall r ob, db_runs d !! k = Some r -> r_outbox r = Some ob ->
          ob_status ob <> DispatchOutboxStatus.PUBLISHED
          /\ ob_attempt_count ob' = (ob_attempt_count ob + 1)%Z /\ ob_message_id ob' = ob_message_id ob).
Proof.
  intros Hd Hreq. destruct (dispatch_open_step d now user k hb pre m Hd) as [[Hd1 _] Hr].
  unfold dispatch_request in Hreq. destruct (dispatch_open d now user k hb pre m) as [[d1 ev1] res].
  destruct res as [[resp|[]]|e]; try done. cbn in Hr, Hd1.
  destruct (Hr _ eq_refl) as (r & ob & Hrun & Hob & Hs & Hq & Hold).
  destruct (dispatch_attempt d1 k) as [[d2 ev2] r2] eqn:Ha. injection Hreq as <- <- ->.
  pose proof (di_runs _ Hd1 _ _ Hrun) as Hinv.
  destruct (attempt_hands_over _ _ _ _ _ _ _ _ Hd1 Hrun Hob Hs Ha) as (Hr2 & -> & Hp & Hn & Henv & Hid & Hval).
  eexists _, _. split; [exact Hr2|]. cbn. split_and!; try done; try lia.
  intros r0 ob0 Hr0 Hob0. destruct Hold as [Hold|(r1 & Hr1 & Hn1)]; by simplify_eq.
Qed.
End lifecycle.

(** ** The properties on the example deployment *)

Module ContractWitness.
Import Demo.

Definition history : list request :=
  [create 1; dispatch; published; claim; start 1; complete HTTP_RESPONSE (Some "ok") 1].



Lemma verdict_witness :
  r_status (run_of (play base_db 0 history)) = RunStatus.SUCCESS
  /\ r_fail_count (run_of (play base_db 0 history)) = 0%Z.
Proof.
  destruct (verdict_sound base_db (play base_db 0 history) "run_1" (run_of (play base_db 0 history))) as [Hs _].
  - apply base_inv.
  - apply play_reachable.
  - vm_compute. reflexivity.
  - assert (Hst : r_status (run_of (play base_db 0 history)) = RunStatus.SUCCESS) by (vm_compute; reflexivity).
    split; [exact Hst|]. apply (Hs Hst).
Defined.

(** A second claim by a stranger is refused. *)
Lemma failed_request_witness :
  (handle queued 9000000 (RClaim "run_1" "wrong" "msg_1")).1 = queued.
Proof. apply failed_request_changes_nothing; [apply queued_inv | vm_compute; reflexivity]. Defined.

Lemma lifecycle_witness :
  nsteps run_edge 5 RunStatus.CREATED RunStatus.CANCELLED /\ (5 <= lifecycle_rank RunStatus.CREATED)%nat.
Proof.
  assert (Hn : nsteps run_edge 5 RunStatus.CREATED RunStatus.CANCELLED).
  { apply (nsteps_l _ _ _ RunStatus.QUEUED); [solve_in|].
    apply (nsteps_l _ _ _ RunStatus.ASSIGNED); [solve_in|].
    apply (nsteps_l _ _ _ RunStatus.RUNNING); [solve_in|].
    apply (nsteps_l _ _ _ RunStatus.CANCELLING); [solve_in|].
    apply (nsteps_l _ _ _ RunStatus.CANCELLED); [solve_in | constructor]. }
  split; [exact Hn | apply (lifecycle_bounded _ _ _ Hn)].
Defined.

Definition claimed : Db * list RunEvent * result ClaimResponse := claim_run queued 3000000 "run_1" "credential" "msg_1".
Definition claim_answer : ClaimResponse :=
  {| cl_run_id := "run_1"; cl_message_id := "msg_1"; cl_runner_id := "r1"; cl_status := RunStatus.ASSIGNED;
     cl_claimed_at := Some 3000000%Z; cl_idempotent := false |}.

Lemma claim_witness :
  exists r ob, db_runs (play (out_db claimed) 4000000 [start 1]) !! "run_1" = Some r /\ r_outbox r = Some ob
    /\ ob_claimed_runner_id ob = Some "r1".
Proof.
  destruct (claim_exactly_once queued 3000000 "run_1" "credential" "msg_1" (out_db claimed)
    (out_events claimed) claim_answer (play (out_db claimed) 4000000 [start 1])) as [(r & ob & Hr & Ho & Hc & _) _].
  - apply queued_inv.
  - vm_compute. reflexivity.
  - reflexivity.
  - apply play_reachable.
  - exists r, ob. split; [exact Hr | split; [exact Ho | exact Hc]].
Defined.

Definition dispatched : outcome (DispatchResponse + (string * TaskPayload)) :=
  dispatch_request created 1000000 admin "run_1" HeartbeatPresent false "msg_1".
Definition envelope : TaskPayload :=
  {| tp_schema_version := 1; tp_message_id := "msg_1"; tp_run_id := "run_1"; tp_runner_id := "r1";
     tp_run_type := "API_CASE"; tp_required_slot_type := "API"; tp_attempt := 1; tp_enqueued_at := 1000000 |}.

Lemma dispatch_witness : envelope_valid envelope = true.
Proof.
  destruct (dispatch_hands_over_valid_attempt created 1000000 admin "run_1" HeartbeatPresent false "msg_1"
    (out_db dispatched) (out_events dispatched) "runner.r1.api" envelope)
    as (r' & ob' & _ & _ & _ & _ & _ & _ & _ & He & _).
  - apply play_inv, base_inv.
  - vm_compute. reflexivity.
  - exact He.
Defined.
End ContractWitness.
