(* ===== verification/RunControlTheorems.v ===== *)
(** What the control-plane handlers achieve: cancellation, forced stop, overdue
    runs and disconnected runners. *)
From S2P Require Import Prelude PyText Projects RunData RunStatusOps RunControl RunDispatch.
From S2P Require Import RunCreate RunExecution RunInvariant RunHandlers RunSystem RunExample RunTheorems.

(** One event for a status that changed, none otherwise. *)
Lemma publish_changed r from to c ty : from <> Some to -> length (publish_run_event r from to c ty) = 1%nat.
Proof. intros Hne. unfold publish_run_event. by rewrite decide_False. Qed.
Lemma publish_unchanged r s c ty : publish_run_event r (Some s) s c ty = [].
Proof. unfold publish_run_event. by rewrite decide_True. Qed.

Section control.
Context `{Settings} `{Catalog} `{Evaluation} `{Assets}.

(** ** Cancellation *)

Definition cancellable (s : RunStatus.t) : Prop :=
  s ∈ [RunStatus.CREATED; RunStatus.QUEUED; RunStatus.ASSIGNED; RunStatus.RUNNING].

(** How a cancellation moves one node of a run. *)
Definition cancelled_from (s : RunStatus.t) (n : RunNodeStatus.t) : RunNodeStatus.t :=
  rule_status (cancel_rule (cancel_targets s).1) n.

Lemma cancel_targets_spec s :
  cancellable s -> run_edge s (cancel_targets s).2
  /\ (cancel_targets s).1 ∈ [RunNodeStatus.CANCELLED; RunNodeStatus.CANCELLING].
Proof. intros Hs. unfold cancellable in Hs. destruct s; decide_in Hs; split; cbn; solve_in. Qed.

Lemma cancel_core_total now r :
  run_inv r -> cancellable (r_status r) ->
  exists r', cancel_core now r = Ok r' /\ r_status r' = (cancel_targets (r_status r)).2
    /\ Forall2 (rule_case (cancel_rule (cancel_targets (r_status r)).1)) (r_case_runs r) (r_case_runs r').
Proof.
  intros Hr Hs. destruct (cancel_targets_spec _ Hs) as [Hedge Hns]. unfold cancel_core.
  destruct (cancel_targets (r_status r)) as [ns rs]. cbn in *.
  destruct (update_nodes_total now (cancel_rule ns) r) as [r1 Hr1].
  { intros c _. split; [|intros ? _]; by apply cancel_rule_allowed. }
  destruct (update_nodes_ok _ _ _ _ (cancel_rule_uniform _ Hns) (ri_case_ok _ Hr) Hr1) as (cs & -> & Hrc).
  rewrite Hr1. cbn [mbind result_bind].
  destruct (set_run_status_total now (recompute_summary (r_with_case_runs r cs)) rs (run_update rs))
    as (b & r' & Hset); [by right|].
  rewrite Hset. exists r'. apply set_run_status_set in Hset as [[] _].
  split_and!; [done | done | by rewrite ss_cases].
Qed.


(** ** Forced stop *)

Lemma put_run_same d r : db_runs d !! r_id r = Some r -> put_run d r = d.
Proof. intros Hr. destruct d; unfold put_run; cbn in *. by rewrite insert_id. Qed.

Lemma force_stop_terminal d now user k r :
  db_runs d !! k = Some r -> authorize_run_write d user r = Ok tt -> run_terminal (r_status r) = true ->
  force_stop_run d now user k = (d, [], Ok r).
Proof.
  intros Hr Ha Ht. unfold force_stop_run, get_run. rewrite Hr. cbn [mbind result_bind some_or].
  rewrite Ha. cbn [mbind result_bind]. by rewrite Ht.
Qed.

(** A stop that is already pending is left as it is. *)
Lemma force_stop_again d now user k r t :
  db_runs d !! k = Some r -> authorize_run_write d user r = Ok tt ->
  r_status r = RunStatus.CANCELLING -> r_force_stop_requested_at r = Some t -> r_id r = k ->
  force_stop_run d now user k = (d, [], Ok r).
Proof.
  intros Hr Ha Hs Ht Hk. unfold force_stop_run, get_run. rewrite Hr. cbn [mbind result_bind some_or].
  rewrite Ha. cbn [mbind result_bind]. unfold force_stop_core. rewrite Hs. cbn [mbind result_bind].
  change (run_terminal RunStatus.CANCELLING) with false. cbn iota. rewrite Ht. cbn [default].
  assert (Hsame : r_with_control r (r_total_timeout_ms r) (Some t) (r_force_stopped r) = r).
  { destruct r; cbn in *. by subst. }
  cbn. rewrite Hsame, Hs, publish_unchanged, put_run_same; [done | by rewrite Hk].
Qed.

Lemma force_stop_core_result now r r' :
  run_terminal (r_status r) = false -> force_stop_core now r = Ok r' ->
  run_terminal (r_status r') = true
  \/ (r_status r' = RunStatus.CANCELLING /\ is_Some (r_force_stop_requested_at r')).
Proof.
  intros Ht. unfold force_stop_core. destruct (r_status r) eqn:Hs; try done; intros ?; inv_ok.
  1,2: destruct a0 as [b r2]; inv_ok; apply set_run_status_set in E0 as [[] _]; left; by rewrite ss_status.
  1,2: right; destruct (set_run_status _ _ _ _) as [[b r1]|] eqn:Hset; [|done]; cbn in E; inv_ok;
    apply set_run_status_set in Hset as [[] _]; cbn; by eauto.
  right. cbn. by eauto.
Qed.

(** Asking twice for a forced stop is asking once: the second request
    answers with the same run, changes nothing and publishes nothing. *)
Theorem force_stop_idempotent d now user k d1 evs r1 now' :
  db_inv d -> force_stop_run d now user k = (d1, evs, Ok r1) ->
  force_stop_run d1 now' user k = (d1, [], Ok r1)
  /\ (run_terminal (r_status r1) = true
      \/ (r_status r1 = RunStatus.CANCELLING /\ is_Some (r_force_stop_requested_at r1))).
Proof.
  intros Hd Hf. unfold force_stop_run, transact in Hf.
  match type of Hf with match ?b with _ => _ end = _ => destruct b as [[[dx ex] rx]|] eqn:Hb; [|done] end.
  injection Hf as -> -> ->. inv_ok. match goal with x : TestRun |- _ => rename x into r end.
  apply get_run_Some in E. pose proof (di_runs _ Hd _ _ E) as Hinv.
  destruct (run_terminal (r_status r)) eqn:Ht; inv_ok.
  { split; [|by left]. by rewrite (force_stop_terminal _ _ _ _ _ E E0 Ht). }
  match goal with x : force_stop_core _ _ = Ok _ |- _ => rename x into Hc end.
  pose proof (force_stop_core_step _ _ _ Hinv Ht Hc) as [He _]. pose proof (di_keys _ Hd _ _ E) as Hk.
  assert (Hr1 : db_runs (put_run d r1) !! k = Some r1).
  { cbn. unfold r_id in *. by rewrite (re_header _ _ He), Hk, lookup_insert_eq. }
  assert (Ha1 : authorize_run_write (put_run d r1) user r1 = Ok tt).
  { unfold authorize_run_write in *. by rewrite (re_header _ _ He). }
  pose proof (force_stop_core_result _ _ _ Ht Hc) as Hres. split; [|done].
  destruct Hres as [Hterm|[Hcan [t Hfs]]]; [by apply force_stop_terminal|].
  apply (force_stop_again _ _ _ _ r1 t); try done. unfold r_id in *. by rewrite (re_header _ _ He).
Qed.

(** ** Overdue runs *)

Lemma overdue_plan_spec r :
  executing (r_status r) ->
  let '(s, _, rule) := overdue_plan r in
  s = (if decide (r_status r = RunStatus.RUNNING) then RunStatus.TIMEOUT else RunStatus.CANCELLED)
  /\ run_edge (r_status r) s /\ rule_uniform rule
  /\ (forall st, node_terminal (rule_status rule st) = true) /\ (forall st, rule_allowed rule st).
Proof.
  intros [Hs|Hs]%executing_spec; unfold overdue_plan; rewrite Hs.
  - rewrite !decide_True by done. split_and!; [done | solve_in | auto with platform | by intros [] |].
    apply overdue_running_allowed.
  - rewrite !decide_False by done. split_and!; [done | solve_in | auto with platform | |].
    + by apply rule_all_closing.
    + intros st. by apply cancelled_allowed.
Qed.

Lemma overdue_core_total now r :
  run_inv r -> executing (r_status r) ->
  exists r', overdue_core now r = Ok r' /\ Forall case_closed (r_case_runs r')
    /\ r_status r' = (if decide (r_status r = RunStatus.RUNNING) then RunStatus.TIMEOUT else RunStatus.CANCELLED).
Proof.
  intros Hr Hx. pose proof (overdue_plan_spec r Hx) as Hp. unfold overdue_core.
  destruct (overdue_plan r) as [[s [et em]] rule]. destruct Hp as (Hs & Hedge & Hu & Hall & Hok).
  destruct (update_nodes_total now rule r) as [r1 Hr1]; [by intros c _|].
  destruct (update_nodes_ok _ _ _ _ Hu (ri_case_ok _ Hr) Hr1) as (cs & -> & Hrc).
  pose proof (rule_cases_closed _ _ _ Hall Hrc) as Hcl. rewrite Hr1. cbn [mbind result_bind].
  assert (Hf : forallb (fun c => node_terminal (cr_status c)) cs = true).
  { apply forallb_forall. intros c Hc%list_elem_of_In. rewrite Forall_forall in Hcl. by apply Hcl. }
  cbn [r_case_runs r_with_case_runs]. rewrite Hf. cbn [raise_unless mbind result_bind].
  match goal with |- context [set_run_status now ?x s ?p] =>
    destruct (set_run_status_total now x s p) as (b & r' & Hset); [by right|]; rewrite Hset end.
  exists r'. apply set_run_status_set in Hset as [[] _]. split_and!; [done | by rewrite ss_cases | congruence].
Qed.

(** C29: the scanner closes an executing run as soon as its start time plus its
    time budget plus the reporting grace has passed, and not a microsecond
    earlier.  A RUNNING run becomes TIMEOUT, a CANCELLING one CANCELLED; all
    case runs are closed; what was already terminal is untouched; one event is
    published.  A run without a start time or without a budget is left alone. *)
Theorem overdue_run_closed_exactly_when_due d now k grace r :
  db_inv d -> db_runs d !! k = Some r -> executing (r_status r) ->
  match overdue_run_deadline r grace with
  | Some t =>
      if (now <=? t)%Z then reconcile_overdue_run_core d now k grace = (d, [], Ok None)
      else exists r' ev, reconcile_overdue_run_core d now k grace = (put_run d r', [ev], Ok (Some (r_status r')))
        /\ r_status r' = (if decide (r_status r = RunStatus.RUNNING) then RunStatus.TIMEOUT else RunStatus.CANCELLED)
        /\ Forall case_closed (r_case_runs r') /\ run_evolves r r'
  | None => reconcile_overdue_run_core d now k grace = (d, [], Ok None)
  end.
Proof.
  intros Hd Hr Hx. pose proof (di_runs _ Hd _ _ Hr) as Hinv. unfold reconcile_overdue_run_core. rewrite Hr.
  rewrite (bool_decide_true (r_status r ∈ _)) by done. cbn [negb].
  destruct (overdue_run_deadline r grace) as [t|]; [|done]. destruct (now <=? t)%Z; [done|].
  rewrite bool_decide_false by apply Hinv. cbn [orb].
  destruct (overdue_core_total now r Hinv Hx) as (r' & Hc & Hcl & Hs). rewrite Hc. cbn.
  assert (Hne : Some (r_status r) <> Some (r_status r')).
  { rewrite Hs. apply executing_spec in Hx as [-> | ->]; by vm_compute. }
  pose proof (publish_changed r' _ _ (first_case_id (r_case_runs r')) None Hne) as Hev.
  destruct (publish_run_event r' _ _ _ _) as [|ev [|? ?]]; try done.
  exists r', ev. split_and!; try done. by eapply overdue_core_step.
Qed.

(** ** Disconnected runners *)

(** The evidence that a runner is gone. *)
Definition runner_gone (rn : Runner) (hb1 hb2 : heartbeat_read) (require_expiry : bool) (now ttl : Z) : Prop :=
  hb1 = HeartbeatAbsent /\ hb2 = HeartbeatAbsent /\ rn_status rn = RunnerStatus.ACTIVE
  /\ (require_expiry = true -> heartbeat_expired rn now ttl = true).

Lemma gate_open rn hb e now ttl :
  (let '(o, _, a) := online_state rn hb in disconnect_gate_blocks rn o a e now ttl) = false <->
  hb = HeartbeatAbsent /\ rn_status rn = RunnerStatus.ACTIVE
  /\ (e = true -> heartbeat_expired rn now ttl = true).
Proof.
  unfold online_state, disconnect_gate_blocks.
  destruct hb; cbn; [split; [done | by intros [? _]] | | split; [|by intros [? _]]].
  - rewrite (bool_decide_true (OnlineStatus.OFFLINE = _)) by done.
    destruct e, (heartbeat_expired rn now ttl); cbn; rewrite ?negb_false_iff, ?bool_decide_eq_true;
      (split; [intros Hx; split_and!; done || congruence | intros (_ & Hx & Hy); done || by specialize (Hy eq_refl)]).
  - case_decide as Hs; [done|]. cbn. rewrite (bool_decide_true (OnlineStatus.OFFLINE = _)) by done.
    cbn. destruct (_ && _); [done|]. rewrite negb_false_iff, bool_decide_eq_true. by intros ?.
Qed.

(** no run is failed on behalf of a runner unless both heartbeat reads
    found the key absent, the runner is active and, for the background scanner,
    its last persisted heartbeat is older than the time to live. *)
Theorem disconnect_needs_evidence d now i rn hb1 hb2 e ttl :
  db_runners d !! i = Some rn ->
  ~ runner_gone rn hb1 hb2 e now (default runner_heartbeat_ttl_us ttl) ->
  let o := reconcile_disconnected_runner_runs_core d now i hb1 hb2 e ttl in
  out_db o = d /\ out_events o = [] /\ exists resp, out_result o = Ok resp /\ dr_reconciled_run_ids resp = [].
Proof.
  intros Hrn Hg. unfold reconcile_disconnected_runner_runs_core. rewrite Hrn. cbn [some_or mbind result_bind].
  pose proof (gate_open rn hb1 e now (default runner_heartbeat_ttl_us ttl)) as H1g.
  pose proof (gate_open rn hb2 e now (default runner_heartbeat_ttl_us ttl)) as H2g.
  destruct (online_state rn hb1) as [[o1 b1] v1], (online_state rn hb2) as [[o2 b2] v2].
  destruct (disconnect_gate_blocks rn o1 v1 _ _ _); [by cbn; eauto|].
  destruct (disconnect_gate_blocks rn o2 v2 _ _ _); [by cbn; eauto|].
  destruct Hg. unfold runner_gone. naive_solver.
Qed.

(** A run the disconnect handler is able to fail: no node is half-way through a
    cancellation, and some case run is still open or has already failed. *)
Definition failable (r : TestRun) : Prop :=
  Forall (fun c => cr_status c <> RunNodeStatus.CANCELLING
     /\ Forall (fun s => sr_status s <> RunNodeStatus.CANCELLING) (cr_steps c)) (r_case_runs r)
  /\ Exists (fun c => node_terminal (cr_status c) = false \/ rejected (cr_status c)) (r_case_runs r).

Lemma failed_allowed p st : st <> RunNodeStatus.CANCELLING -> rule_allowed (close_rule RunNodeStatus.FAILED p) st.
Proof.
  intros Hs. unfold rule_allowed. rewrite close_rule_status. destruct st; cbn; (by left) || (right; solve_in) || done.
Qed.

Lemma ensure_failed_ok r :
  r_case_runs r <> [] -> Forall case_closed (r_case_runs r) ->
  Exists (fun c => rejected (cr_status c)) (r_case_runs r) ->
  ensure_terminal_run_matches_children r RunStatus.FAILED = Ok tt.
Proof.
  intros Hne Hcl Hex. unfold ensure_terminal_run_matches_children.
  change (run_terminal RunStatus.FAILED) with true. cbn [negb].
  rewrite (case_closed_forallb _ Hcl), (bool_decide_false (_ = [])) by (by intros ?%fmap_nil_inv). cbn.
  apply Exists_exists in Hex as (c & Hc & Hrej).
  assert (Hin : cr_status c ∈ cr_status <$> r_case_runs r) by by apply list_elem_of_fmap_2.
  unfold rejected in Hrej. destruct (cr_status c); decide_in Hrej;
    rewrite (bool_decide_true _ Hin); by rewrite ?orb_true_r.
Qed.

Lemma rule_cases_rejected p l l' :
  Forall2 (rule_case (close_rule RunNodeStatus.FAILED p)) l l' ->
  Exists (fun c => node_terminal (cr_status c) = false \/ rejected (cr_status c)) l ->
  Exists (fun c => rejected (cr_status c)) l'.
Proof.
  intros Hrc (c & Hc & Ho)%Exists_exists. destruct (Forall2_elem_l _ _ _ _ Hrc Hc) as (c' & Hc' & [_ Hs _]).
  apply Exists_exists. exists c'. split; [done|]. rewrite Hs, close_rule_status.
  destruct Ho as [->|Hrej]; [unfold rejected; solve_in|]. destruct (node_terminal (cr_status c)); [done|].
  unfold rejected; solve_in.
Qed.

Lemma fail_disconnected_total now r :
  run_inv r -> r_status r ∈ [RunStatus.ASSIGNED; RunStatus.RUNNING] -> failable r ->
  exists r', fail_disconnected_run now r = Ok r' /\ r_status r' = RunStatus.FAILED
    /\ Forall case_closed (r_case_runs r').
Proof.
  intros Hr Hs [Hnc Hex]. unfold fail_disconnected_run.
  set (rule := close_rule RunNodeStatus.FAILED fail_payload).
  destruct (update_nodes_total now rule r) as [r1 Hr1].
  { intros c Hc. rewrite Forall_forall in Hnc. destruct (Hnc c Hc) as [Hcs Hss].
    rewrite Forall_forall in Hss. split; [by apply failed_allowed|].
    intros s Hin. by apply failed_allowed, Hss. }
  destruct (update_nodes_ok now rule r r1) as (cs & -> & Hrc); [by apply close_rule_uniform | apply Hr | done |].
  rewrite Hr1. cbn [mbind result_bind].
  assert (Hcl : Forall case_closed cs) by (eapply rule_cases_closed; [|done]; by apply rule_all_closing).
  assert (Hne : cs <> []) by (pose proof (ri_cases _ Hr); by destruct Hrc).
  rewrite ensure_failed_ok; [|done|done|by eapply rule_cases_rejected]. cbn [mbind result_bind].
  match goal with |- context [set_run_status now ?x ?s ?p] =>
    destruct (set_run_status_total now x s p) as (b & r' & Hset) end.
  { right. cbn [recompute_summary r_status r_with_case_runs].
    destruct (r_status r); decide_in Hs; solve_in. }
  rewrite Hset. exists r'. apply set_run_status_set in Hset as [[] _].
  split_and!; [done | done | by rewrite ss_cases].
Qed.

Lemma foldl_put_run_lookup d rs k :
  NoDup (r_id <$> rs) ->
  db_runs (foldl put_run d rs) !! k =
    match head (filter (fun r => r_id r = k) rs) with Some r => Some r | None => db_runs d !! k end.
Proof.
  revert d. induction rs as [|r rs IH]; intros d Hnd; [done|]. apply NoDup_cons in Hnd as [Hni Hnd].
  cbn [foldl]. rewrite IH by done. rewrite filter_cons. case_decide as Hk; cbn.
  - assert (Hnil : filter (fun x => r_id x = k) rs = []).
    { destruct (filter _ rs) as [|x l] eqn:Hf; [done|]. destruct Hni.
      assert (Hx : x ∈ filter (fun x => r_id x = k) rs) by (rewrite Hf; by left).
      apply list_elem_of_filter in Hx as [Hx1 Hx2]. rewrite Hk, <- Hx1. by apply list_elem_of_fmap_2. }
    by rewrite Hnil, Hk, lookup_insert_eq.
  - destruct (head _); [done|]. by rewrite lookup_insert_ne.
Qed.

(** Past the gate, the handler is one loop over the runner's runs. *)
Lemma disconnect_body d now i rn hb1 hb2 e ttl :
  db_runners d !! i = Some rn ->
  runner_gone rn hb1 hb2 e now (default runner_heartbeat_ttl_us ttl) ->
  match map_result (fail_disconnected_run now) (disconnect_runs d i) with
  | Ok rs' => exists evs resp,
      reconcile_disconnected_runner_runs_core d now i hb1 hb2 e ttl = (foldl put_run d rs', evs, Ok resp)
      /\ dr_reconciled_run_ids resp = r_id <$> rs'
  | Err err => reconcile_disconnected_runner_runs_core d now i hb1 hb2 e ttl = (d, [], Err err)
  end.
Proof.
  intros Hrn (-> & -> & Ha & He). unfold reconcile_disconnected_runner_runs_core. rewrite Hrn.
  cbn [some_or mbind result_bind].
  pose proof (gate_open rn HeartbeatAbsent e now (default runner_heartbeat_ttl_us ttl)) as Hg.
  destruct (online_state rn HeartbeatAbsent) as [[o b] v].
  rewrite (proj2 Hg) by done. destruct (map_result _ _); cbn; [by eexists _, _ | done].
Qed.

Lemma disconnected_run_result d now i rs' k r :
  db_inv d -> map_result (fail_disconnected_run now) (disconnect_runs d i) = Ok rs' ->
  db_runs d !! k = Some r -> disconnect_candidate i r = true -> NoDup (r_id <$> rs') -> failable r ->
  k ∈ r_id <$> rs' /\ exists r', 
    match head (filter (fun x => r_id x = k) rs') with Some x => Some x | None => db_runs d !! k end = Some r'
    /\ r_status r' = RunStatus.FAILED /\ Forall case_closed (r_case_runs r') /\ run_evolves r r'.
Proof.
  intros Hd Hm Hr Hc Hnd Hfa. pose proof (di_keys _ Hd _ _ Hr) as Hk.
  assert (Hin : r ∈ disconnect_runs d i) by (apply disconnect_runs_spec; [done|]; by rewrite Hk).
  pose proof (disconnect_runs_fail _ _ _ _ Hd Hm) as Hst.
  apply map_result_ok in Hm. destruct (Forall2_elem_l _ _ _ _ (Forall2_conj _ _ _ _ Hst Hm) Hin)
    as (r' & Hr' & [[He _] Hf]).
  pose proof Hc as [_ Hs%bool_decide_eq_true]%andb_true_iff.
  destruct (fail_disconnected_total now r) as (r0 & Hf0 & Hs0 & Hcl0); eauto using di_runs.
  rewrite Hf in Hf0. injection Hf0 as <-.
  assert (Hk' : r_id r' = k) by (unfold r_id in *; by rewrite (re_header _ _ He)).
  split; [rewrite <- Hk'; by apply list_elem_of_fmap_2|]. exists r'. split; [|done].
  assert (Hf' : r' ∈ filter (fun x => r_id x = k) rs') by by apply list_elem_of_filter.
  destruct (filter _ rs') as [|x l] eqn:Hfil; [by apply elem_of_nil in Hf'|]. cbn. f_equal.
  assert (Hx : x ∈ filter (fun x => r_id x = k) rs') by (rewrite Hfil; by left).
  apply list_elem_of_filter in Hx as [Hxk Hx]. eapply NoDup_ids_inj; try done. congruence.
Qed.

Lemma fail_disconnected_cancelling now r c :
  c ∈ r_case_runs r -> cr_status c = RunNodeStatus.CANCELLING ->
  is_ok (fail_disconnected_run now r) = false.
Proof.
  intros Hc Hs. unfold fail_disconnected_run, update_nodes.
  destruct (update_steps _ _ _) as [cs|] eqn:Hu; [|done]. cbn [mbind result_bind].
  apply map_result_ok in Hu. destruct (Forall2_elem_l _ _ _ _ Hu Hc) as (c1 & Hc1 & Hf).
  cbn beta in Hf. inv_ok.
  assert (He : is_ok (update_cases now (close_rule RunNodeStatus.FAILED fail_payload) cs) = false).
  { eapply map_result_Err; [done|]. unfold apply_rule, close_rule. unfold cr_status in Hs. cbn [cr_node cr_with_steps].
    rewrite Hs. change (node_terminal RunNodeStatus.CANCELLING) with false. cbn iota.
    unfold set_node_status. rewrite Hs, decide_False, bool_decide_false by (done || (intros Hx; decide_in Hx)).
    done. }
  by destruct (update_cases _ _ _).
Qed.

(** once a runner is known to be gone, every ASSIGNED or RUNNING run of that
    runner is FAILED with all its case runs closed, and no other run is touched. *)
Theorem disconnect_fails_every_run d now i rn hb1 hb2 e ttl :
  db_inv d -> db_runners d !! i = Some rn ->
  runner_gone rn hb1 hb2 e now (default runner_heartbeat_ttl_us ttl) ->
  (forall k r, db_runs d !! k = Some r -> disconnect_candidate i r = true -> failable r) ->
  exists d' evs resp,
    reconcile_disconnected_runner_runs_core d now i hb1 hb2 e ttl = (d', evs, Ok resp)
    /\ forall k r, db_runs d !! k = Some r ->
         if disconnect_candidate i r then
           k ∈ dr_reconciled_run_ids resp /\ exists r', db_runs d' !! k = Some r'
             /\ r_status r' = RunStatus.FAILED /\ Forall case_closed (r_case_runs r') /\ run_evolves r r'
         else db_runs d' !! k = Some r.
Proof.
  intros Hd Hrn Hg Hf. destruct (disconnect_runs_spec d i Hd) as [Hnd Hin].
  destruct (map_result_total (fail_disconnected_run now) (disconnect_runs d i)) as [rs' Hm].
  { intros r [Hr Hc]%Hin. pose proof Hc as [_ Hs%bool_decide_eq_true]%andb_true_iff.
    destruct (fail_disconnected_total now r) as (r' & ? & _); eauto using di_runs. }
  pose proof (disconnect_body _ now _ _ _ _ _ _ Hrn Hg) as Hb. rewrite Hm in Hb.
  destruct Hb as (evs & resp & -> & Hids). eexists _, _, _. split; [done|]. intros k r Hr.
  pose proof (disconnect_runs_fail _ _ _ _ Hd Hm) as Hst. rewrite Hids. clear Hids.
  assert (Hid' : r_id <$> rs' = r_id <$> disconnect_runs d i).
  { clear -Hst. induction Hst as [|x y l l' [Hx _] _ IH]; [done|]. rewrite !fmap_cons, IH. f_equal.
    unfold r_id. by rewrite (re_header _ _ Hx). }
  rewrite foldl_put_run_lookup by by rewrite Hid'. pose proof (di_keys _ Hd _ _ Hr) as Hk.
  destruct (disconnect_candidate i r) eqn:Hc.
  - apply (disconnected_run_result d now i rs' k r); try done; [by rewrite Hid' | by eapply Hf].
  - destruct (filter _ rs') as [|x l] eqn:Hfil; [done|]. exfalso.
    assert (Hx : x ∈ filter (fun x => r_id x = k) rs') by (rewrite Hfil; by left).
    apply list_elem_of_filter in Hx as [Hxk Hx]. apply (list_elem_of_fmap_2 r_id) in Hx.
    rewrite Hid' in Hx. apply list_elem_of_fmap in Hx as (y & Hy & [Hyr Hyc]%Hin).
    rewrite <- Hy, Hxk in Hyr. congruence.
Qed.

(** one node of one candidate run that a runner has reported as CANCELLING
    stops the whole reconciliation: it raises, and none of the runner's runs is
    failed. *)
Theorem disconnect_blocked_by_cancelling_node d now i rn hb1 hb2 e ttl k r c :
  db_inv d -> db_runners d !! i = Some rn ->
  runner_gone rn hb1 hb2 e now (default runner_heartbeat_ttl_us ttl) ->
  db_runs d !! k = Some r -> disconnect_candidate i r = true -> c ∈ r_case_runs r ->
  cr_status c = RunNodeStatus.CANCELLING ->
  exists err, reconcile_disconnected_runner_runs_core d now i hb1 hb2 e ttl = (d, [], Err err).
Proof.
  intros Hd Hrn Hg Hr Hc Hin Hs. pose proof (disconnect_body _ now _ _ _ _ _ _ Hrn Hg) as Hb.
  assert (Herr : is_ok (map_result (fail_disconnected_run now) (disconnect_runs d i)) = false).
  { apply (map_result_Err _ _ r).
    - apply disconnect_runs_spec; [done|]. by rewrite (di_keys _ Hd _ _ Hr).
    - by eapply fail_disconnected_cancelling. }
  destruct (map_result _ _); [done | by eexists].
Qed.
End control.

(** ** The properties on the example deployment *)

Module ControlWitness.
Import Demo.


Definition stopped : outcome TestRun := force_stop_run running 9000000 admin "run_1".
Lemma force_stop_witness :
  force_stop_run (out_db stopped) 9500000 admin "run_1" = (out_db stopped, [], Ok (run_of (out_db stopped))).
Proof.
  destruct (force_stop_idempotent running 9000000 admin "run_1" (out_db stopped) (out_events stopped)
    (run_of (out_db stopped)) 9500000) as [Hf _].
  - apply running_inv.
  - vm_compute. reflexivity.
  - exact Hf.
Defined.

(** Started at 4 s with a budget of 60 s and a grace of 60 s. *)
Lemma overdue_witness :
  reconcile_overdue_run_core running 124000000 "run_1" 60000000 = (running, [], Ok None)
  /\ exists r' ev, reconcile_overdue_run_core running 124000001 "run_1" 60000000
       = (put_run running r', [ev], Ok (Some (r_status r'))) /\ r_status r' = RunStatus.TIMEOUT.
Proof.
  assert (Hr : db_runs running !! "run_1" = Some (run_of running)) by (vm_compute; reflexivity).
  assert (Hx : executing (r_status (run_of running))) by (unfold executing; solve_in).
  assert (Hdl : overdue_run_deadline (run_of running) 60000000 = Some 124000000%Z) by (vm_compute; reflexivity).
  split.
  - pose proof (overdue_run_closed_exactly_when_due running 124000000 "run_1" 60000000 (run_of running)
      running_inv Hr Hx) as Ht. rewrite Hdl in Ht. exact Ht.
  - pose proof (overdue_run_closed_exactly_when_due running 124000001 "run_1" 60000000 (run_of running)
      running_inv Hr Hx) as Ht. rewrite Hdl in Ht. cbn [Z.leb] in Ht.
    destruct Ht as (r' & ev & He & Hs & _). exists r', ev. split; [exact He|]. rewrite Hs. vm_compute. reflexivity.
Defined.

Lemma evidence_witness :
  out_db (reconcile_disconnected_runner_runs_core running 9000000 "r1" HeartbeatAbsent HeartbeatPresent false None)
  = running.
Proof.
  destruct (disconnect_needs_evidence running 9000000 "r1" runner HeartbeatAbsent HeartbeatPresent false None)
    as [Hd _].
  - vm_compute. reflexivity.
  - intros (_ & Hb & _). discriminate Hb.
  - exact Hd.
Defined.

Lemma runner_is_gone : runner_gone runner HeartbeatAbsent HeartbeatAbsent true 90000000 30000000.
Proof. split_and!; try done. Qed.

Lemma running_runs k r : db_runs running !! k = Some r -> k = "run_1" /\ r = run_of running.
Proof.
  assert (Hm : db_runs running = {[ "run_1" := run_of running ]}) by (vm_compute; reflexivity).
  rewrite Hm. intros [<- <-]%lookup_singleton_Some. split; reflexivity.
Qed.

Lemma disconnect_witness :
  exists d' evs resp, reconcile_disconnected_runner_runs_core running 90000000 "r1"
    HeartbeatAbsent HeartbeatAbsent true None = (d', evs, Ok resp)
    /\ exists r', db_runs d' !! "run_1" = Some r' /\ r_status r' = RunStatus.FAILED.
Proof.
  destruct (disconnect_fails_every_run running 90000000 "r1" runner HeartbeatAbsent HeartbeatAbsent true None)
    as (d' & evs & resp & He & Hall).
  - apply running_inv.
  - vm_compute. reflexivity.
  - apply runner_is_gone.
  - intros k r [-> ->]%running_runs _. unfold failable, rejected. solve_in.
  - exists d', evs, resp. split; [exact He|].
    pose proof (Hall "run_1" (run_of running) ltac:(vm_compute; reflexivity)) as Hone.
    replace (disconnect_candidate "r1" (run_of running)) with true in Hone by (vm_compute; reflexivity).
    destruct Hone as (_ & r' & Hr' & Hs & _). exists r'. split; [exact Hr' | exact Hs].
Defined.

(** The runner reports that the step is being cancelled, and disappears. *)
Definition half_cancelled : Db :=
  play running 9000000
    [RUpdateStep "run_1" 1 1 (node_update RunNodeStatus.CANCELLING None None) (ByRunner "credential")].
Lemma blocked_witness :
  exists err, reconcile_disconnected_runner_runs_core half_cancelled 90000000 "r1"
    HeartbeatAbsent HeartbeatAbsent true None = (half_cancelled, [], Err err).
Proof.
  apply (disconnect_blocked_by_cancelling_node half_cancelled 90000000 "r1" runner HeartbeatAbsent
           HeartbeatAbsent true None "run_1" (run_of half_cancelled) (case_of half_cancelled 0)).
  - apply play_inv, running_inv.
  - vm_compute. reflexivity.
  - apply runner_is_gone.
  - vm_compute. reflexivity.
  - vm_compute. reflexivity.
  - assert (Hl : r_case_runs (run_of half_cancelled) = [(case_of half_cancelled 0)]) by (vm_compute; reflexivity).
    rewrite Hl. left.
  - vm_compute. reflexivity.
Defined.
End ControlWitness.
