(* ===== verification/RunExecutionTheorems.v ===== *)
(** Properties of execution reports: assertion verdicts, aggregation of steps,
    repeated completions, and two behaviours of [complete_api_execution] that
    contradict its own intent. *)
From S2P Require Import Prelude PyText Projects RunData RunStatusOps RunControl RunDispatch.
From S2P Require Import RunCreate RunExecution RunInvariant RunHandlers RunSystem RunExample RunTheorems.

(** ** Verdicts *)

(** Some assertion ended with this status and is (not) an AI assertion. *)
Definition some_result (l : list AssertionResult) (s : AssertionStatus.t) (semantic : bool) : Prop :=
  exists r, r ∈ l /\ as_status r = s /\ as_semantic r = semantic.

Lemma existsb_some_result l s b :
  s <> AssertionStatus.SKIPPED ->
  existsb (fun r => bool_decide (as_status r = s) && bool_decide (as_semantic r = b))
    (filter (fun r => as_status r <> AssertionStatus.SKIPPED) l) = true <-> some_result l s b.
Proof.
  intros Hs. rewrite existsb_exists. unfold some_result. split.
  - intros (r & Hr & Hb). apply list_elem_of_In, list_elem_of_filter in Hr as [_ Hr].
    apply andb_true_iff in Hb as [Hb1%bool_decide_eq_true Hb2%bool_decide_eq_true]. by exists r.
  - intros (r & Hr & Hst & Hsem). exists r. split.
    + apply list_elem_of_In, list_elem_of_filter. split; [by rewrite Hst | done].
    + by rewrite !bool_decide_true.
Qed.

(** The summary as a function of which kinds of results occur. *)
Definition summary_of (det_fail ai_fail ai_review det_pass : bool) : AssertionStatus.t :=
  if det_fail then AssertionStatus.FAIL
  else if ai_review then AssertionStatus.REVIEW
  else if ai_fail then if det_pass then AssertionStatus.REVIEW else AssertionStatus.FAIL
  else AssertionStatus.PASS.

Definition has_result (active : list AssertionResult) (s : AssertionStatus.t) (b : bool) : bool :=
  existsb (fun r => bool_decide (as_status r = s) && bool_decide (as_semantic r = b)) active.

Lemma summarize_summary l :
  let active := filter (fun r => as_status r <> AssertionStatus.SKIPPED) l in
  summarize_final_status l =
    summary_of (has_result active AssertionStatus.FAIL false) (has_result active AssertionStatus.FAIL true)
      (has_result active AssertionStatus.REVIEW true) (has_result active AssertionStatus.PASS false).
Proof.
  unfold summarize_final_status, summary_of.
  generalize (filter (fun r => as_status r <> AssertionStatus.SKIPPED) l) as act. clear l.
  intros [|a0 act]; [done|]. cbn zeta. set (active := a0 :: act). clearbody active. clear a0 act.
  set (has := has_result active). fold (has_result active AssertionStatus.FAIL false). fold has.
  fold (has_result active AssertionStatus.FAIL true). fold has.
  destruct (has AssertionStatus.FAIL false); [done|].
  assert (Hrev : existsb (fun r => bool_decide (as_status r = AssertionStatus.REVIEW))
                   (filter (fun r => as_semantic r = true) active) = has AssertionStatus.REVIEW true).
  { unfold has, has_result. clear. induction active as [|r l IH]; [done|]. rewrite filter_cons. cbn. rewrite <- IH.
    case_decide as Hs; cbn; [by rewrite (bool_decide_true (as_semantic r = true)), andb_true_r|].
    by rewrite (bool_decide_false (as_semantic r = true)), andb_false_r. }
  assert (Hpass : existsb (fun r => negb (as_semantic r) && bool_decide (as_status r = AssertionStatus.PASS)) active
                  = has AssertionStatus.PASS false).
  { unfold has, has_result. clear. induction active as [|r l IH]; [done|]. cbn. rewrite IH. f_equal.
    destruct (as_semantic r); [by rewrite andb_comm, andb_false_r, (bool_decide_false (true = false)), andb_comm|].
    by rewrite (bool_decide_true (false = false)), andb_true_r. }
  rewrite Hrev, Hpass. destruct (filter (fun r => as_semantic r = true) active) as [|ai0 ai] eqn:Hai; [|done].
  assert (Hnone : forall s, has s true = false).
  { intros s. apply not_true_iff_false. unfold has, has_result. rewrite existsb_exists. intros (r & Hr & Hb).
    apply andb_true_iff in Hb as [_ Hb%bool_decide_eq_true].
    assert (Hin : r ∈ filter (fun r => as_semantic r = true) active)
      by (apply list_elem_of_filter; split; [done | by apply list_elem_of_In]).
    rewrite Hai in Hin. by apply elem_of_nil in Hin. }
  by rewrite !Hnone.
Qed.

(** the verdict of an API case.  FAIL when a deterministic assertion failed,
    or when an AI assertion failed, none asks for a review and no deterministic
    assertion passed; REVIEW when no deterministic assertion failed and an AI
    assertion asks for it, or failed against a passing deterministic one; PASS
    otherwise.  Never SKIPPED. *)
Theorem summarize_final_status_spec l :
  let det_fail := some_result l AssertionStatus.FAIL false in
  let ai_fail := some_result l AssertionStatus.FAIL true in
  let ai_review := some_result l AssertionStatus.REVIEW true in
  let det_pass := some_result l AssertionStatus.PASS false in
  (summarize_final_status l = AssertionStatus.FAIL <->
     det_fail \/ (ai_fail /\ ~ ai_review /\ ~ det_pass))
  /\ (summarize_final_status l = AssertionStatus.REVIEW <->
        ~ det_fail /\ (ai_review \/ (ai_fail /\ det_pass)))
  /\ (summarize_final_status l = AssertionStatus.PASS <-> ~ det_fail /\ ~ ai_fail /\ ~ ai_review)
  /\ summarize_final_status l <> AssertionStatus.SKIPPED.
Proof.
  intros det_fail ai_fail ai_review det_pass. rewrite summarize_summary. unfold summary_of, has_result.
  pose proof (existsb_some_result l AssertionStatus.FAIL false ltac:(done)) as H1.
  pose proof (existsb_some_result l AssertionStatus.FAIL true ltac:(done)) as H2.
  pose proof (existsb_some_result l AssertionStatus.REVIEW true ltac:(done)) as H3.
  pose proof (existsb_some_result l AssertionStatus.PASS false ltac:(done)) as H4.
  fold det_fail in H1. fold ai_fail in H2. fold ai_review in H3. fold det_pass in H4.
  rewrite <- H1, <- H2, <- H3, <- H4. clear.
  repeat match goal with |- context [existsb ?f ?x] => destruct (existsb f x) end; split_and!; try done; naive_solver.
Qed.

(** ** Aggregation of steps *)

(** Nothing but which statuses occur matters. *)
Lemma desired_same_set l l' :
  (forall s, s ∈ l <-> s ∈ l') -> desired_case_status l' = desired_case_status l.
Proof.
  intros Hl. unfold desired_case_status.
  assert (Hb : forall s, bool_decide (s ∈ l') = bool_decide (s ∈ l)) by (intros s; apply bool_decide_ext; by rewrite Hl).
  assert (Hf : forallb node_terminal l' = forallb node_terminal l).
  { apply eq_true_iff_eq. rewrite !forallb_forall. setoid_rewrite <- list_elem_of_In. by setoid_rewrite Hl. }
  by rewrite !Hb, Hf.
Qed.

(** When every step is finished, the status is terminal and names the worst one. *)
Lemma desired_of_closed l :
  Forall (fun s => node_terminal s = true) l ->
  node_terminal (desired_case_status l) = true
  /\ (desired_case_status l = RunNodeStatus.CANCELLED <-> RunNodeStatus.CANCELLED ∈ l)
  /\ (desired_case_status l = RunNodeStatus.TIMEOUT <-> RunNodeStatus.TIMEOUT ∈ l /\ (RunNodeStatus.CANCELLED ∉ l))
  /\ (desired_case_status l = RunNodeStatus.SUCCESS <-> Forall passed l).
Proof.
  intros Hl. rewrite Forall_forall in Hl.
  assert (Hopen : forall s, node_terminal s = false -> bool_decide (s ∈ l) = false).
  { intros s Hs. apply bool_decide_eq_false. intros Hin%Hl. congruence. }
  assert (Hf : forallb node_terminal l = true).
  { apply forallb_forall. intros s Hs%list_elem_of_In. auto. }
  assert (Hp : Forall passed l <->
    (RunNodeStatus.CANCELLED ∉ l) /\ (RunNodeStatus.TIMEOUT ∉ l)
    /\ (RunNodeStatus.FAILED ∉ l) /\ (RunNodeStatus.REVIEW ∉ l)).
  { rewrite Forall_forall. split.
    - intros Hp. split_and!; intros Hx%Hp; unfold passed in Hx; decide_in Hx.
    - intros (? & ? & ? & ?) s Hs. pose proof (Hl _ Hs). unfold passed. destruct s; try done; solve_in. }
  rewrite Hp. unfold desired_case_status. rewrite !Hopen, Hf by done. cbn [negb orb].
  repeat case_bool_decide; split_and!; try done; naive_solver.
Qed.

(** The status a case run gets from its steps depends only on which statuses
    occur, and follows a fixed precedence: a step being cancelled, then one in
    progress, then one not finished, then cancelled, timed out, failed, to be
    reviewed; SUCCESS means that every step succeeded or was skipped. *)
Theorem desired_case_status_precedence l :
  let has s := s ∈ l in
  let d := desired_case_status l in
  (has RunNodeStatus.CANCELLING -> d = RunNodeStatus.CANCELLING)
  /\ (~ has RunNodeStatus.CANCELLING -> has RunNodeStatus.ASSIGNED \/ has RunNodeStatus.RUNNING ->
        d = RunNodeStatus.RUNNING)
  /\ (node_terminal d = true <-> Forall (fun s => node_terminal s = true) l)
  /\ (node_terminal d = true ->
        (d = RunNodeStatus.CANCELLED <-> has RunNodeStatus.CANCELLED)
        /\ (d = RunNodeStatus.TIMEOUT <-> has RunNodeStatus.TIMEOUT /\ ~ has RunNodeStatus.CANCELLED)
        /\ (d = RunNodeStatus.SUCCESS <-> Forall (fun s => passed s) l))
  /\ (forall l', (forall s, s ∈ l <-> s ∈ l') -> desired_case_status l' = d).
Proof.
  intros has d. assert (Hall : forallb node_terminal l = true <-> Forall (fun s => node_terminal s = true) l).
  { rewrite forallb_forall, Forall_forall. by setoid_rewrite list_elem_of_In. }
  split_and!.
  - intros Hc. unfold d, desired_case_status. by rewrite (bool_decide_true _ Hc).
  - intros Hc Hr. unfold d, desired_case_status. rewrite (bool_decide_false _ Hc).
    destruct Hr as [Hr|Hr]; rewrite (bool_decide_true _ Hr); by rewrite ?orb_true_r.
  - split; [apply desired_terminal|]. intros Ht. by apply desired_of_closed.
  - intros Ht%desired_terminal. by apply desired_of_closed.
  - intros l' Hl. by apply desired_same_set.
Qed.

(** ** Assertions of a formal API execution *)

Section execution.
Context `{Settings} `{Catalog} `{Evaluation} `{Assets}.

(** The results line up with the assertions of the case. *)
Lemma evaluate_lookup content response i a :
  ac_assertions content !! i = Some a ->
  evaluate_formal_api_assertions content response !! i = Some
    (if ad_deterministic a then run_assertion a (Z.of_nat i + 1) response
     else if existsb (fun '(j, b) => ad_deterministic b
                && bool_decide (as_status (run_assertion b j response) = AssertionStatus.FAIL))
               (imap (fun i a => ((Z.of_nat i + 1)%Z, a)) (ac_assertions content)) && ad_enabled a
     then {| as_status := AssertionStatus.SKIPPED; as_semantic := ad_semantic a |}
     else run_assertion a (Z.of_nat i + 1) response).
Proof.
  intros Ha. unfold evaluate_formal_api_assertions.
  rewrite list_lookup_fmap, list_lookup_imap, Ha. done.
Qed.

(** As soon as one deterministic assertion fails, no enabled AI assertion is
    executed (each is reported SKIPPED) and the case fails. *)
Theorem deterministic_failure_short_circuits content response i a :
  ac_assertions content !! i = Some a -> ad_deterministic a = true ->
  as_status (run_assertion a (Z.of_nat i + 1) response) = AssertionStatus.FAIL ->
  as_semantic (run_assertion a (Z.of_nat i + 1) response) = false ->
  summarize_final_status (evaluate_formal_api_assertions content response) = AssertionStatus.FAIL
  /\ (forall j b, ac_assertions content !! j = Some b -> ad_deterministic b = false -> ad_enabled b = true ->
        evaluate_formal_api_assertions content response !! j
        = Some {| as_status := AssertionStatus.SKIPPED; as_semantic := ad_semantic b |}).
Proof.
  intros Ha Hdet Hfail Hsem. split.
  - rewrite summarize_summary. unfold summary_of.
    replace (has_result _ AssertionStatus.FAIL false) with true; [done|]. symmetry.
    apply existsb_some_result; [done|]. eexists. split; [|split; [exact Hfail | exact Hsem]].
    eapply list_elem_of_lookup_2. rewrite (evaluate_lookup _ _ _ _ Ha), Hdet. done.
  - intros j b Hb Hbd Hbe. rewrite (evaluate_lookup _ _ _ _ Hb), Hbd, Hbe.
    replace (existsb _ _) with true; [done|]. symmetry. apply existsb_exists.
    exists ((Z.of_nat i + 1)%Z, a). split; [|by rewrite Hdet, bool_decide_true].
    apply list_elem_of_In, (list_elem_of_lookup_2 _ i). by rewrite list_lookup_imap, Ha.
Qed.

(** ** Repeated completion *)

Lemma filter_case_evolves i l l' c :
  Forall2 case_evolves l l' -> filter (fun x => cr_id x = i) l = [c] ->
  exists c', filter (fun x => cr_id x = i) l' = [c'] /\ case_evolves c c'.
Proof.
  intros Hl. assert (Hf : Forall2 case_evolves (filter (fun x => cr_id x = i) l) (filter (fun x => cr_id x = i) l')).
  { induction Hl as [|x y l l' Hxy Hl IH]; [constructor|]. rewrite !filter_cons, (ce_id _ _ Hxy).
    case_decide; [by constructor | done]. }
  intros Hc. rewrite Hc in Hf. inversion Hf as [|? y ? ? Hcy Hnil]; subst. inversion Hnil; subst. by exists y.
Qed.

(** The context of a claimed run survives the evolution of the run. *)
Lemma execution_context_evolves d d' k cred m i cx r' :
  db_runners d' = db_runners d -> execution_context d k cred m (Some i) = Ok cx ->
  db_runs d' !! k = Some r' -> run_evolves (cx_run cx) r' ->
  exists cx', execution_context d' k cred m (Some i) = Ok cx' /\ cx_run cx' = r'
    /\ cr_id (cx_case cx') = cr_id (cx_case cx).
Proof.
  intros Hrn. unfold execution_context. intros Hcx Hr' He. inv_ok.
  match goal with x : TestRun |- _ => rename x into r end.
  destruct (filter _ _) as [|c [|? ?]] eqn:Hf; try done. inv_ok. cbn in He.
  unfold get_run. rewrite Hr'. cbn [some_or mbind result_bind].
  match goal with x : authenticate_runner_for_run d r cred = _ |- _ => rename x into Hauth end.
  assert (Ha : authenticate_runner_for_run d' r' cred = authenticate_runner_for_run d r cred).
  { unfold authenticate_runner_for_run, r_runner_id. by rewrite (re_header _ _ He), Hrn. }
  rewrite Ha, Hauth. cbn [mbind result_bind].
  match goal with x : r_outbox r = Some _ |- _ => destruct (re_outbox _ _ He _ x) as (ob' & -> & Hoe) end.
  cbn [some_or mbind result_bind].
  match goal with x : _ && _ = true |- _ => rewrite !andb_true_iff, !bool_decide_eq_true in x;
    destruct x as [[[Hm Hp] Hcl] [t Ht]] end.
  rewrite (oe_message _ _ Hoe), Hm, (proj1 (oe_published _ _ Hoe Hp)), (oe_claimed_by _ _ Hoe _ Hcl),
    (oe_claimed_at _ _ Hoe _ Ht), !bool_decide_true by (done || by eexists).
  cbn [andb raise_unless mbind result_bind].
  destruct (filter_case_evolves _ _ _ _ (re_cases _ _ He) Hf) as (c' & -> & Hce).
  eexists. split; [done|]. split; [done|]. apply Hce.
Qed.

(** A completion, first or repeated, leaves the result row of its case run. *)
Lemma complete_api_recorded d now k cred p ev d1 evs x :
  db_inv d -> complete_api_execution d now k cred p ev = (d1, evs, Ok x) ->
  exists cx row, execution_context d k cred (ap_message_id p) (Some (ap_case_run_id p)) = Ok cx
    /\ db_api_results d1 !! (r_id (cx_run cx), cr_id (cx_case cx)) = Some row
    /\ ar_message_id row = ap_message_id p /\ ar_status row = ax_case_run_status x.
Proof.
  intros Hd Hc. unfold complete_api_execution, transact in Hc.
  match type of Hc with match ?b with _ => _ end = _ => destruct b as [[[dx ex] rx]|] eqn:Hb; [|done] end.
  injection Hc as -> -> ->. inv_ok. match goal with x : ExecutionContext |- _ => rename x into cx end.
  exists cx. destruct (db_api_results d !! _) as [row|] eqn:Hres; inv_ok.
  - exists row. split_and!; try done. by match goal with x : bool_decide _ = true |- _ => apply bool_decide_eq_true in x end.
  - match goal with x : RunNodeStatus.t * option pytext * option pytext |- _ => destruct x as [[st et] em] end.
    inv_ok. match goal with x : RunStatus.t * TestRun |- _ => destruct x as [final r'] end. inv_ok.
    eexists. split; [done|]. cbn. rewrite lookup_insert_eq. by split_and!.
Qed.

(** a runner may repeat a completion it is not sure about.  The repeated
    report is answered as idempotent with the recorded status of the case run,
    changes no row and publishes no event, whatever the rest of it says. *)
Theorem complete_api_idempotent d now k cred p ev d1 evs x now' p' ev' :
  db_inv d -> complete_api_execution d now k cred p ev = (d1, evs, Ok x) ->
  ap_message_id p' = ap_message_id p -> ap_case_run_id p' = ap_case_run_id p ->
  exists x', complete_api_execution d1 now' k cred p' ev' = (d1, [], Ok x')
    /\ ax_idempotent x' = true /\ ax_case_run_status x' = ax_case_run_status x.
Proof.
  intros Hd Hc Hm Hi. pose proof (complete_api_step d now k cred p ev Hd) as [_ Hev]. rewrite Hc in Hev. cbn in Hev.
  destruct (complete_api_recorded _ _ _ _ _ _ _ _ _ Hd Hc) as (cx & row & Hcx & Hrow & Hmsg & Hst).
  pose proof (execution_context_ok _ _ _ _ _ _ Hcx) as [Hr _ _ _ _ _].
  destruct (de_runs _ _ Hev _ _ Hr) as (r' & Hr' & He).
  destruct (execution_context_evolves _ _ _ _ _ _ _ _ (de_runners _ _ Hev) Hcx Hr' He) as (cx' & Hcx' & <- & Hid).
  unfold complete_api_execution. rewrite Hm, Hi, Hcx'. cbn [mbind result_bind].
  assert (Hkey : r_id (cx_run cx') = r_id (cx_run cx)) by (unfold r_id; by rewrite (re_header _ _ He)).
  rewrite Hkey, Hid, Hrow, Hmsg, bool_decide_true by done. cbn. eexists. split; [done|]. by split.
Qed.

(** ** Cancelling a data-driven run *)

Lemma cancel_other_closed now self p cs cs' :
  Forall case_ok cs -> cancel_other_cases now self p cs = Ok cs' ->
  (forall c, c ∈ cs -> cr_id c = self -> case_closed c) -> Forall case_closed cs'.
Proof.
  intros Hok Hm Hself. rewrite Forall_forall in Hok. eapply map_result_Forall; [done|].
  intros c c' Hin; cbn beta. destruct (_ || _) eqn:Hb; intros Hx.
  - inv_ok. apply orb_true_iff in Hb as [Hb%bool_decide_eq_true|Hb]; [by apply Hself | done].
  - apply finish_case_step in Hx as [_ Hs]; [unfold case_closed; by rewrite Hs | auto | done].
Qed.

(** Completing a cancellation closes every case run, so the run takes the
    status its case runs imply. *)
Lemma complete_api_cancel_final now cx p st et em final r' :
  run_inv (cx_run cx) -> cx_case cx ∈ r_case_runs (cx_run cx) ->
  complete_api_core now cx p O_CANCELLED st et em = Ok (final, r') ->
  r_status r' = api_final_status (cr_status <$> r_case_runs r')
  /\ (r_status r' = r_status (cx_run cx) \/ run_edge (r_status (cx_run cx)) (r_status r')).
Proof.
  intros Hr Hc. unfold complete_api_core. intros ?; inv_ok.
  match goal with x : CaseRun |- _ => rename x into c' end.
  apply finish_case_step in E as [Hstep Hst]; [| by eapply run_case_ok | apply api_node_status_terminal].
  assert (Hcs : Forall2 case_step (r_case_runs (cx_run cx)) (r_case_runs (replace_case (cx_run cx) c'))).
  { cbn. eapply replace_case_step; try done; apply Hr. }
  rewrite decide_True in E0 by done.
  assert (Hcl : Forall case_closed a0).
  { eapply cancel_other_closed; [|exact E0|]; [by apply case_steps_split in Hcs as [_ ?]|].
    cbn. intros x (y & -> & Hy)%list_elem_of_fmap Hid. case_decide as Hd.
    - unfold case_closed. rewrite Hst. apply api_node_status_terminal.
    - destruct Hd. rewrite Hid. symmetry. apply Hstep. }
  match goal with x : api_close_run _ _ _ _ _ = _ |- _ => rename x into Hclose end.
  unfold api_close_run in Hclose. cbn [r_case_runs recompute_summary r_with_case_runs] in Hclose.
  rewrite (case_closed_forallb _ Hcl) in Hclose. cbn [negb] in Hclose.
  destruct (api_final_error _ _ _ _) as [e1 e2]. inv_ok.
  match goal with x : bool * TestRun |- _ => destruct x as [b r2] end. inv_ok.
  match goal with x : set_run_status _ _ _ _ = _ |- _ => apply set_run_status_set in x as [[] _] end.
  cbn [r_status r_case_runs recompute_summary r_with_case_runs replace_case r_with_control] in ss_edge, ss_cases.
  rewrite ss_cases, ss_status. split; [done|]. destruct ss_edge; [by left | by right].
Qed.

(** a data-driven run that is being cancelled after one of its iterations
    failed, timed out or needs a review can never be completed: every completion
    report of its remaining iterations is rejected. *)
Theorem cancelled_run_with_failed_iteration_never_completes d now k cred p ev cx c0 :
  db_inv d -> execution_context d k cred (ap_message_id p) (Some (ap_case_run_id p)) = Ok cx ->
  r_status (cx_run cx) = RunStatus.CANCELLING ->
  db_api_results d !! (r_id (cx_run cx), cr_id (cx_case cx)) = None ->
  c0 ∈ r_case_runs (cx_run cx) ->
  cr_status c0 ∈ [RunNodeStatus.FAILED; RunNodeStatus.REVIEW; RunNodeStatus.TIMEOUT] ->
  exists err, complete_api_execution d now k cred p ev = (d, [], Err err).
Proof.
  intros Hd Hcx Hs Hres Hc0 Hst. destruct (execution_context_ok _ _ _ _ _ _ Hcx) as [Hrun Hob _ _ Hcase _].
  pose proof (di_runs _ Hd _ _ Hrun) as Hr.
  unfold complete_api_execution, transact. rewrite Hcx. cbn [mbind result_bind]. rewrite Hres.
  rewrite !(decide_True (P := r_status (cx_run cx) = RunStatus.CANCELLING)) by done.
  match goal with |- context [match ?b with Ok _ => _ | Err _ => _ end] => destruct b as [[[dx ex] x]|e] eqn:Hb end;
    [|by eexists]. exfalso. inv_ok.
  match goal with x : RunNodeStatus.t * option pytext * option pytext |- _ => destruct x as [[st et] em] end.
  inv_ok. match goal with x : RunStatus.t * TestRun |- _ => destruct x as [final r'] end. inv_ok.
  match goal with x : complete_api_core _ _ _ _ _ _ _ = _ |- _ => rename x into Hcore end.
  assert (Hco : completing (r_status (cx_run cx))) by (rewrite Hs; left; unfold executing; solve_in).
  pose proof (complete_api_core_step _ _ _ _ _ _ _ _ _ Hr Hob Hcase Hco Hcore) as [He _].
  destruct (complete_api_cancel_final _ _ _ _ _ _ _ _ Hr Hcase Hcore) as [Hfin Hedge].
  assert (Hin : cr_status c0 ∈ cr_status <$> r_case_runs r').
  { apply list_elem_of_fmap_2. destruct (Forall2_elem_l _ _ _ _ (re_cases _ _ He) Hc0) as (c1 & Hc1 & Hce).
    rewrite (ce_terminal _ _ Hce) in Hc1; [done|]. destruct (cr_status c0); try done; decide_in Hst. }
  assert (Hbad : r_status r' = RunStatus.FAILED \/ r_status r' = RunStatus.TIMEOUT).
  { rewrite Hfin. unfold api_final_status. destruct (cr_status c0); decide_in Hst;
      rewrite (bool_decide_true _ Hin); rewrite ?orb_true_r; auto. destruct (_ || _); auto. }
  rewrite Hs in Hedge. destruct Hedge as [Hedge|Hedge]; destruct Hbad as [Hbad|Hbad]; rewrite Hbad in Hedge;
    try done; decide_in Hedge.
Qed.

(** an execution whose assertions ask for a human review is reported to the
    runner as REVIEW, but the case run is stored as FAILED. *)
Theorem review_is_stored_as_failure d now k cred p ev d1 evs x :
  db_inv d -> complete_api_execution d now k cred p ev = (d1, evs, Ok x) -> ax_idempotent x = false ->
  ax_case_run_status x = RunNodeStatus.REVIEW ->
  exists r' c, db_runs d1 !! k = Some r' /\ c ∈ r_case_runs r' /\ cr_id c = ap_case_run_id p
    /\ cr_status c = RunNodeStatus.FAILED.
Proof.
  intros Hd Hc Hi Hx. unfold complete_api_execution, transact in Hc.
  match type of Hc with match ?b with _ => _ end = _ => destruct b as [[[dx ex] rx]|] eqn:Hb; [|done] end.
  injection Hc as -> -> ->. inv_ok. match goal with x : ExecutionContext |- _ => rename x into cx end.
  destruct (execution_context_ok _ _ _ _ _ _ E) as [Hrun Hob _ _ Hcase Hid].
  pose proof (di_runs _ Hd _ _ Hrun) as Hr.
  destruct (db_api_results d !! _) as [row|] eqn:Hres; inv_ok; [done|].
  match goal with x : RunNodeStatus.t * option pytext * option pytext |- _ => destruct x as [[st et] em] end.
  inv_ok. match goal with x : RunStatus.t * TestRun |- _ => destruct x as [final r'] end. inv_ok. cbn in Hx. subst st.
  match goal with x : complete_api_core _ _ _ _ _ _ _ = _ |- _ => rename x into Hcore end.
  match goal with x : complete_api_guards _ _ = _ |- _ => apply complete_api_guards_completing in x as Hco end.
  pose proof (complete_api_core_step _ _ _ _ _ _ _ _ _ Hr Hob Hcase Hco Hcore) as [He _].
  destruct (complete_api_core_reported _ _ _ _ _ _ _ _ _ Hr Hcase Hcore) as (c & Hc & Hci & Hcs).
  exists r', c. split_and!; [|done|by rewrite Hci|done]. cbn. unfold r_id. rewrite (re_header _ _ He).
  pose proof (di_keys _ Hd _ _ Hrun) as Hk. unfold r_id in Hk. by rewrite Hk, lookup_insert_eq.
Qed.
End execution.

(** ** The properties on the example deployment *)

Module ExecutionWitness.
Import Demo.

Lemma short_circuit_witness :
  summarize_final_status (evaluate_formal_api_assertions api_case "bad") = AssertionStatus.FAIL.
Proof.
  destruct (deterministic_failure_short_circuits api_case "bad" 0
    {| ad_deterministic := true; ad_enabled := true; ad_semantic := false |}) as [Hs _];
    [reflexivity | reflexivity | vm_compute; reflexivity | vm_compute; reflexivity | exact Hs].
Defined.

Definition completed : outcome ApiCompleteResponse :=
  complete_api_execution running 9000000 "run_1" "credential" (complete_payload HTTP_RESPONSE (Some "ok") 1) true.
Lemma idempotent_witness :
  exists x', complete_api_execution (out_db completed) 9500000 "run_1" "credential"
    (complete_payload EXECUTION_ERROR None 1) false = (out_db completed, [], Ok x')
    /\ ax_case_run_status x' = RunNodeStatus.SUCCESS.
Proof.
  destruct (complete_api_idempotent running 9000000 "run_1" "credential"
    (complete_payload HTTP_RESPONSE (Some "ok") 1) true (out_db completed) (out_events completed)
    {| ax_run_status := RunStatus.SUCCESS; ax_case_run_status := RunNodeStatus.SUCCESS; ax_idempotent := false |}
    9500000 (complete_payload EXECUTION_ERROR None 1) false) as (x' & Hx & _ & Hs).
  - apply running_inv.
  - vm_compute. reflexivity.
  - reflexivity.
  - reflexivity.
  - exists x'. split; [exact Hx | exact Hs].
Defined.

(** The first of two iterations failed, then the user cancelled the run. *)
Definition stuck : Db :=
  play running2 9000000 [complete HTTP_RESPONSE (Some "bad") 1; RCancel admin "run_1"].
Lemma stuck_witness :
  exists err, complete_api_execution stuck 12000000 "run_1" "credential" (complete_payload O_CANCELLED None 2) true
    = (stuck, [], Err err).
Proof.
  apply (cancelled_run_with_failed_iteration_never_completes stuck 12000000 "run_1" "credential"
           (complete_payload O_CANCELLED None 2) true (context_of stuck 1) (case_of stuck 0)).
  - apply play_inv, running2_inv.
  - vm_compute. reflexivity.
  - vm_compute. reflexivity.
  - vm_compute. reflexivity.
  - apply (list_elem_of_lookup_2 _ 0). vm_compute. reflexivity.
  - solve_in.
Defined.

Definition reviewed : outcome ApiCompleteResponse :=
  complete_api_execution running 9000000 "run_1" "credential" (complete_payload HTTP_RESPONSE (Some "unsure") 1) true.
Lemma review_witness :
  exists r' c, db_runs (out_db reviewed) !! "run_1" = Some r' /\ c ∈ r_case_runs r' /\ cr_id c = 1%Z
    /\ cr_status c = RunNodeStatus.FAILED.
Proof.
  apply (review_is_stored_as_failure running 9000000 "run_1" "credential"
    (complete_payload HTTP_RESPONSE (Some "unsure") 1) true (out_db reviewed) (out_events reviewed)
    {| ax_run_status := RunStatus.FAILED; ax_case_run_status := RunNodeStatus.REVIEW; ax_idempotent := false |}).
  - apply running_inv.
  - vm_compute. reflexivity.
  - reflexivity.
  - reflexivity.
Defined.
End ExecutionWitness.
