(* ===== verification/RunWebTheorems.v ===== *)
(** Properties of the completion of Web executions: what is stored is what was
    reported, login states are replaced by compare-and-swap, and which reports of
    a failed login are refused. *)
From S2P Require Import Prelude PyText Projects RunData RunStatusOps RunControl RunDispatch.
From S2P Require Import RunCreate RunExecution RunWeb RunInvariant RunHandlers RunSystem RunExample.
From S2P Require Import RunTheorems RunExecutionTheorems.

(** The status of a run after an outcome. *)
Definition outcome_status (o : WebOutcome) : RunStatus.t :=
  match o with
  | W_SUCCESS => RunStatus.SUCCESS
  | W_FAILED => RunStatus.FAILED
  | W_TIMEOUT => RunStatus.TIMEOUT
  | W_CANCELLED => RunStatus.CANCELLED
  end.

(** A step shows what its trace says. *)
Definition step_shows (traces : list WebTrace) (s : StepRun) : Prop :=
  exists t, web_trace_of traces (sr_node_id s) = Some t /\ sr_status s = web_node_status (wt_status t).

Section lemmas.
Context `{Settings} `{Catalog} `{Evaluation} `{Assets}.

Lemma web_result_status eff r et em : (web_result eff r et em).1.1 = outcome_status eff.
Proof. unfold web_result. destruct eff; [reflexivity..|]. destruct (r_force_stop_requested_at r); reflexivity. Qed.

Lemma aggregate_steps now c : cr_steps (aggregate_case_status now c) = cr_steps c.
Proof. unfold aggregate_case_status. by repeat (case_match || case_decide). Qed.

Lemma finish_web_steps_show now traces l steps :
  Forall (fun s => node_ok (sr_node s)) l ->
  Forall2 (fun s s' => finish_web_step now traces s = Ok s') l steps ->
  Forall2 (fun s s' => step_shows traces s' /\ sr_node_id s' = sr_node_id s) l steps.
Proof.
  intros Hs Hm. induction Hm as [|s s' l l' Hone _ IH]; constructor; apply Forall_cons in Hs as [Hok Hs]; [|auto].
  unfold finish_web_step in Hone. apply bind_ok in Hone as (t & Ht & Hset).
  pose proof (set_step_status_step now s _ _ _ Hok Hset) as [_ Hst].
  assert (sr_node_id s' = sr_node_id s) as Hid.
  { unfold set_step_status in Hset. apply bind_ok in Hset as ([b n] & _ & E'). by injection E' as <-. }
  split; [|done]. exists t. rewrite Hid. split; [|done]. by destruct (web_trace_of _ _); simplify_eq/=.
Qed.

Lemma finish_web_case_shows now traces special c c' :
  case_ok c -> finish_web_case now traces special c = Ok c' ->
  Forall (step_shows traces) (cr_steps c') /\ (sr_node_id <$> cr_steps c') = (sr_node_id <$> cr_steps c).
Proof.
  intros Hc. unfold finish_web_case. intros (steps & Hm & E)%bind_ok.
  assert (cr_steps c' = steps) as ->.
  { destruct special as [[code message]|].
    - unfold set_case_status in E. apply bind_ok in E as ([b n] & _ & E). injection E as <-. done.
    - injection E as <-. by rewrite aggregate_steps. }
  apply map_result_ok in Hm.
  pose proof (finish_web_steps_show now traces _ _ (co_steps _ Hc) Hm) as Hf.
  split.
  - clear -Hf. induction Hf as [|s s' l l' [? _] _ IH]; by constructor.
  - clear -Hf. induction Hf as [|s s' l l' [_ ?] _ IH]; cbn; congruence.
Qed.

Lemma desired_not_skipped l : desired_case_status l <> RunNodeStatus.SKIPPED.
Proof. unfold desired_case_status. by repeat case_match. Qed.

(** ** The parts of a first completion *)

(** What the handler computed on the way to a completion that is not a repetition. *)
Record web_completion (d : Db) (now : datetime) (k cred : string) (p : WebCompleteRequest) (d' : Db)
    (x : WebCompleteResponse) (cx : ExecutionContext) (content : WebCaseContent) (c : CaseRun)
    (r : RunStatus.t * option pytext * option pytext) (d1 : Db) (run' : TestRun) : Prop := {
  wc_context : execution_context d k cred (wp_message_id p) (Some (wp_case_run_id p)) = Ok cx;
  wc_first : db_web_results d !! (r_id (cx_run cx), cr_id (cx_case cx)) = None;
  wc_content : load_supported_web_case d now (cx_run cx) = Ok content;
  wc_cancelling := bool_decide (r_status (cx_run cx) ∈ [RunStatus.CANCELLING; RunStatus.CANCELLED]);
  wc_effective := if wc_cancelling then W_CANCELLED else wp_outcome p;
  wc_evaluation : check_web_evaluation now cx (web_ai_assertions content) p wc_effective = Ok tt;
  wc_failures : check_web_failures wc_cancelling p = Ok tt;
  wc_guards : complete_web_guards cx wc_effective = Ok tt;
  wc_cover : bool_decide (wc_effective = W_CANCELLED) || traces_cover (cx_case cx) (wp_traces p) = true;
  wc_case : complete_web_case now cx p wc_cancelling wc_effective = Ok (c, r);
  wc_refresh : apply_web_session_refresh d now cx content p = Ok (d1, wx_session_recovery x);
  wc_close : close_web_run now (cx_run cx) c r = Ok run';
  wc_db : d' = put_web_result (put_run d1 run') (r_id (cx_run cx), cr_id (cx_case cx))
                 {| wr_message_id := wp_message_id p; wr_status := r.1.1;
                    wr_session_recovery := wx_session_recovery x; wr_error_type := r.1.2;
                    wr_error_message := r.2; wr_completed_at := now |};
  wc_run_status : wx_run_status x = r.1.1;
  wc_case_status : wx_case_run_status x = cr_status c;
}.

Lemma complete_web_open d now k cred p d' evs x :
  complete_web_execution d now k cred p = (d', evs, Ok x) -> wx_idempotent x = false ->
  exists cx content c r d1 run', web_completion d now k cred p d' x cx content c r d1 run'.
Proof.
  unfold complete_web_execution, transact.
  match goal with |- match ?b with _ => _ end = _ -> _ => destruct b as [[[dx ex] rx]|] eqn:Hb; [|done] end.
  intros Hc Hi. injection Hc as -> -> ->. apply bind_ok in Hb as (cx & Hcx & E). cbn zeta in E.
  destruct (db_web_results d !! _) eqn:Hres.
  { apply bind_ok in E as (? & _ & E). injection E as _ _ <-. done. }
  apply bind_ok in E as (content & Hl & E). apply bind_ok in E as ([] & Hai & E).
  apply bind_ok in E as ([] & Hf & E). apply bind_ok in E as ([] & Hg & E).
  apply bind_ok in E as ([] & Hcov & E). apply bind_ok in E as ([c r] & Hcase & E).
  apply bind_ok in E as ([d1 rec] & Href & E). apply bind_ok in E as (run' & Hclose & E).
  injection E as <- _ <-. exists cx, content, c, r, d1, run'. split; try done.
  by destruct (_ || _).
Qed.

(** ** The completed case run *)

Lemma step_shows_terminal traces s : step_shows traces s -> node_terminal (sr_status s) = true.
Proof. intros (t & _ & ->). apply web_node_status_terminal. Qed.

(** A running case run whose steps have all ended gets the status they imply. *)
Lemma aggregate_finished now c :
  cr_status c = RunNodeStatus.RUNNING -> cr_steps c <> [] ->
  Forall (fun s => node_terminal (sr_status s) = true) (cr_steps c) ->
  cr_status (aggregate_case_status now c) = desired_case_status (sr_status <$> cr_steps c).
Proof.
  intros Hr Hne Ht. unfold aggregate_case_status. destruct (cr_steps c) as [|s l] eqn:Hs; [done|].
  rewrite <- Hs in *. rewrite Hr. cbn [node_terminal].
  assert (node_terminal (desired_case_status (sr_status <$> cr_steps c)) = true) as Hd.
  { apply desired_of_closed. by apply Forall_fmap. }
  change (node_terminal RunNodeStatus.RUNNING) with false. cbn zeta iota.
  rewrite decide_False by (intros E; by rewrite <- E in Hd).
  rewrite decide_False by (intros E; by rewrite E in Hd). done.
Qed.

(** The failures that are not a node's: lost evidence and a failed login. *)
Definition web_failure_reported (p : WebCompleteRequest) : Prop :=
  wp_outcome p = W_FAILED /\ wp_error_type p ∈ [Some WEB_EVIDENCE_ERROR_TYPE; Some WEB_SESSION_RECOVERY_FAILED].

#[export] Instance web_failure_reported_dec p : Decision (web_failure_reported p).
Proof. unfold web_failure_reported. apply _. Defined.

Lemma web_failure_spec p code :
  web_failure false p code = true <-> wp_outcome p = W_FAILED /\ wp_error_type p = Some code.
Proof. unfold web_failure. cbn [negb andb]. by rewrite andb_true_iff, !bool_decide_eq_true. Qed.

(** What the case run of a running execution says after its completion. *)
Definition web_case_shows (p : WebCompleteRequest) (c : CaseRun) : Prop :=
  Forall (step_shows (wp_traces p)) (cr_steps c)
  /\ cr_status c = if decide (web_failure_reported p) then RunNodeStatus.FAILED
                   else desired_case_status (sr_status <$> cr_steps c).

Lemma finish_web_case_status now traces special c c' :
  case_ok c -> cr_status c = RunNodeStatus.RUNNING -> finish_web_case now traces special c = Ok c' ->
  case_closed c' ->
  cr_status c' = if special is Some _ then RunNodeStatus.FAILED else desired_case_status (sr_status <$> cr_steps c').
Proof.
  intros Hc Hr Hf Hcl. pose proof (finish_web_case_shows _ _ _ _ _ Hc Hf) as [Hs _].
  unfold finish_web_case in Hf. apply bind_ok in Hf as (steps & _ & E). destruct special as [[code message]|].
  - unfold set_case_status in E. apply bind_ok in E as ([b n] & Hn & E). injection E as <-.
    by apply set_node_status_ok in Hn as (_ & _ & ?); [|apply Hc].
  - injection E as <-. rewrite aggregate_steps in Hs |- *. cbn [cr_steps cr_with_steps] in Hs |- *.
    apply (aggregate_finished now (cr_with_steps c steps)); [done| |].
    + cbn. intros ->. unfold case_closed, aggregate_case_status in Hcl. cbn [cr_steps cr_with_steps] in Hcl.
      change (node_terminal (cr_status c) = true) in Hcl. by rewrite Hr in Hcl.
    + cbn. eapply Forall_impl; [exact Hs|]. intros s0. apply step_shows_terminal.
Qed.

Lemma complete_web_case_shows now cx p c r :
  case_ok (cx_case cx) -> cr_status (cx_case cx) = RunNodeStatus.RUNNING -> wp_outcome p <> W_CANCELLED ->
  complete_web_case now cx p false (wp_outcome p) = Ok (c, r) -> case_closed c ->
  web_case_shows p c /\ r.1.1 = outcome_status (wp_outcome p).
Proof.
  intros Hc Hr Hne. unfold complete_web_case. intros (c0 & E & Hcr)%bind_ok Hcl. injection Hcr as <- <-.
  split; [|apply web_result_status].
  rewrite decide_False in E by done. apply bind_ok in E as (_ & _ & E).
  split; [by apply (finish_web_case_shows _ _ _ _ _ Hc) in E as [? _]|].
  rewrite (finish_web_case_status _ _ _ _ _ Hc Hr E Hcl).
  pose proof (web_failure_spec p WEB_EVIDENCE_ERROR_TYPE) as Hw1.
  pose proof (web_failure_spec p WEB_SESSION_RECOVERY_FAILED) as Hw2.
  assert (web_failure_reported p <-> (wp_outcome p = W_FAILED /\ wp_error_type p = Some WEB_EVIDENCE_ERROR_TYPE)
            \/ (wp_outcome p = W_FAILED /\ wp_error_type p = Some WEB_SESSION_RECOVERY_FAILED)) as Hw3.
  { unfold web_failure_reported. rewrite !elem_of_cons, elem_of_nil. naive_solver. }
  rewrite <- Hw1, <- Hw2 in Hw3.
  destruct (web_failure false p WEB_EVIDENCE_ERROR_TYPE); [by rewrite decide_True by (apply Hw3; auto)|].
  destruct (web_failure false p WEB_SESSION_RECOVERY_FAILED); [by rewrite decide_True by (apply Hw3; auto)|].
  rewrite decide_False; [done|]. intros [? | ?]%Hw3; done.
Qed.

(** ** The traces cover the steps one to one *)

Lemma traces_cover_spec c traces :
  traces_cover c traces = true ->
  NoDup (wt_node_id <$> traces) /\ forall n, n ∈ wt_node_id <$> traces <-> n ∈ sr_node_id <$> cr_steps c.
Proof.
  unfold traces_cover. rewrite andb_true_iff, !bool_decide_eq_true. intros [Hlen Hset]. split.
  - rewrite <- Hset in Hlen. clear -Hlen. rewrite <- (length_fmap wt_node_id) in Hlen.
    revert Hlen. generalize (wt_node_id <$> traces). induction l as [|n l IH]; [constructor|]. cbn. intros Hl.
    assert (size (list_to_set l : gset string) <= length l)%nat as Hle.
    { clear. induction l as [|n l IH]; [done|]. cbn. rewrite size_union_alt, size_singleton.
      pose proof (subseteq_size (list_to_set l ∖ {[n]}) (list_to_set l : gset string) ltac:(set_solver)). lia. }
    destruct (decide (n ∈ l)) as [Hin|Hni].
    + rewrite subseteq_union_1_L in Hl by set_solver. lia.
    + constructor; [done|]. apply IH. rewrite size_union, size_singleton in Hl by set_solver. lia.
  - intros n. rewrite <- !(elem_of_list_to_set (C := gset string)). by rewrite Hset.
Qed.

Lemma web_trace_of_unique traces t :
  NoDup (wt_node_id <$> traces) -> t ∈ traces -> web_trace_of traces (wt_node_id t) = Some t.
Proof.
  intros Hnd Hin. unfold web_trace_of. induction traces as [|t0 l IH]; [by apply elem_of_nil in Hin|].
  cbn in Hnd. apply NoDup_cons in Hnd as [Hni Hnd]. rewrite filter_cons.
  apply elem_of_cons in Hin as [->|Hin].
  - rewrite decide_True by done.
    destruct (filter _ l) as [|t' l'] eqn:Hf; [done|]. destruct Hni.
    assert (t' ∈ filter (fun t1 => wt_node_id t1 = wt_node_id t0) l) as [<- Hin]%list_elem_of_filter
      by (rewrite Hf; left).
    by apply list_elem_of_fmap_2.
  - rewrite decide_False; [by apply IH|]. intros E. apply Hni. rewrite E. by apply list_elem_of_fmap_2.
Qed.

(** Whatever holds of every completed step holds of every trace. *)
Lemma traces_of_steps (P : RunNodeStatus.t -> Prop) traces c0 c :
  traces_cover c0 traces = true -> (sr_node_id <$> cr_steps c) = (sr_node_id <$> cr_steps c0) ->
  Forall (step_shows traces) (cr_steps c) -> Forall P (sr_status <$> cr_steps c) ->
  Forall (fun t => P (web_node_status (wt_status t))) traces.
Proof.
  intros [Hnd Hcov]%traces_cover_spec Hids Hs HP. apply Forall_forall. intros t Ht.
  assert (wt_node_id t ∈ sr_node_id <$> cr_steps c) as (s & Hsn & Hin)%list_elem_of_fmap.
  { rewrite Hids. apply Hcov. by apply list_elem_of_fmap_2. }
  rewrite Forall_forall in Hs. destruct (Hs _ Hin) as (t' & Ht' & Hst).
  rewrite <- Hsn, (web_trace_of_unique _ _ Hnd Ht) in Ht'. injection Ht' as <-. rewrite <- Hst.
  rewrite Forall_forall in HP. apply HP. by apply list_elem_of_fmap_2.
Qed.

(** What was computed is what is stored. *)
Lemma web_completion_stored d now k cred p d' x cx content c r d1 run' :
  db_inv d -> web_completion d now k cred p d' x cx content c r d1 run' ->
  db_runs d !! k = Some (cx_run cx) /\ run_inv (cx_run cx) /\ case_ok (cx_case cx)
  /\ db_runs d' !! k = Some run' /\ c ∈ r_case_runs run' /\ cr_id c = wp_case_run_id p
  /\ r_status run' = r.1.1 /\ run_inv run' /\ case_closed c
  /\ (wr_status <$> db_web_results d' !! (k, wp_case_run_id p)) = Some r.1.1.
Proof.
  intros Hd [Hcx _ _ first eff _ _ Hg _ Hcase Href Hclose -> _ _].
  destruct (execution_context_ok _ _ _ _ _ _ Hcx) as [Hrun Hob _ _ Hin Hid].
  pose proof (di_runs _ Hd _ _ Hrun) as Hr. pose proof (di_keys _ Hd _ _ Hrun) as Hk.
  assert (case_ok (cx_case cx)) as Hcok by (by eapply run_case_ok).
  destruct (complete_web_case_step _ _ _ _ _ _ _ Hcok Hcase) as [Hstep Ht].
  apply complete_web_guards_completing in Hg.
  destruct (close_web_run_step _ _ _ _ _ _ Hr Hin Hg Hstep Ht Hclose) as [[He Hri] Hst].
  assert (r_id run' = k) as Hk' by (unfold r_id in *; by rewrite (re_header _ _ He)).
  assert (c ∈ r_case_runs run') as Hc'.
  { unfold close_web_run in Hclose. apply bind_ok in Hclose as ([] & _ & E).
    apply bind_ok in E as ([b r2] & Hset & E). injection E as <-.
    apply set_run_status_set in Hset as [[] _]. rewrite ss_cases.
    apply (replace_case_elem _ _ _ Hin). apply Hstep. }
  assert (cr_id c = wp_case_run_id p) as Hidc by (rewrite <- Hid; apply Hstep).
  split_and!; try done.
  - cbn. by rewrite Hk', lookup_insert_eq.
  - destruct (re_outbox _ _ He _ Hob) as (ob' & Hob' & _).
    assert (Forall case_closed (r_case_runs run')) as Hall
      by (eapply claimed_terminal_closed; [done..|by rewrite Hst]).
    rewrite Forall_forall in Hall. auto.
  - cbn. by rewrite Hk, Hid, lookup_insert_eq.
Qed.
End lemmas.

(** ** The theorems *)

Section web.
Context `{Settings} `{Catalog} `{Evaluation} `{Assets}.

(** C30: a first completion of a running Web execution is stored as it was
    reported.  The run and its result row get the status of the outcome, every
    step the status of the one trace of its node, and the case run the status its
    steps imply, or FAILED when evidence was lost or the login failed.  A run is
    completed as SUCCESS only when every trace says SUCCESS or SKIPPED, and never
    as CANCELLED. *)
Theorem web_completion_faithful d now k cred p d' evs x r :
  db_inv d -> db_runs d !! k = Some r -> r_status r = RunStatus.RUNNING ->
  complete_web_execution d now k cred p = (d', evs, Ok x) -> wx_idempotent x = false ->
  wp_outcome p <> W_CANCELLED
  /\ (exists r' c, db_runs d' !! k = Some r' /\ r_status r' = outcome_status (wp_outcome p)
        /\ c ∈ r_case_runs r' /\ cr_id c = wp_case_run_id p /\ web_case_shows p c
        /\ wx_case_run_status x = cr_status c)
  /\ (wr_status <$> db_web_results d' !! (k, wp_case_run_id p)) = Some (outcome_status (wp_outcome p))
  /\ (wp_outcome p = W_SUCCESS -> Forall (fun t => wt_status t ∈ [WT_SUCCESS; WT_SKIPPED]) (wp_traces p)).
Proof.
  intros Hd Hr Hs Hc Hi. destruct (complete_web_open _ _ _ _ _ _ _ _ Hc Hi) as (cx & content & c & res & d1 & r' & Hw).
  destruct (web_completion_stored _ _ _ _ _ _ _ _ _ _ _ _ _ Hd Hw)
    as (Hr0 & _ & Hcok & Hr' & Hin & Hid & Hst & Hri & Hcl & Hrow).
  rewrite Hr in Hr0. injection Hr0 as ->.
  destruct Hw as [_ _ _ first eff _ _ Hg Hcov Hcase _ _ _ _ Hxc].
  assert (first = false) as Hf by (unfold first; rewrite Hs; reflexivity).
  unfold eff in *. rewrite Hf in *. clear eff.
  assert (wp_outcome p <> W_CANCELLED) as Hne.
  { intros E. unfold complete_web_guards in Hg. rewrite decide_True in Hg by done. by rewrite Hs in Hg. }
  assert (cr_status (cx_case cx) = RunNodeStatus.RUNNING) as Hrun.
  { unfold complete_web_guards in Hg. rewrite decide_False in Hg by done. inv_ok.
    apply andb_true_iff in G as [_ G]. by apply bool_decide_eq_true in G. }
  destruct (complete_web_case_shows _ _ _ _ _ Hcok Hrun Hne Hcase Hcl) as [Hshow Hres]. rewrite Hres in *.
  split_and!; [done | by exists r', c | done |].
  intros Hsu. rewrite bool_decide_false in Hcov by done. cbn [orb] in Hcov.
  pose proof (proj1 (ri_verdict _ Hri)) as Hv. rewrite Hst, Hsu in Hv. specialize (Hv eq_refl).
  rewrite Forall_forall in Hv. specialize (Hv _ Hin).
  destruct Hshow as [Hsteps Hdes]. rewrite decide_False in Hdes by (intros [E _]; congruence).
  assert (Forall (fun s => node_terminal s = true) (sr_status <$> cr_steps c)) as Hterm
    by (apply Forall_fmap; eapply Forall_impl; [exact Hsteps | apply step_shows_terminal]).
  assert (Forall passed (sr_status <$> cr_steps c)) as Hp.
  { apply (desired_of_closed _ Hterm). rewrite <- Hdes. unfold passed in Hv.
    pose proof (desired_not_skipped (sr_status <$> cr_steps c)) as Hsk. rewrite <- Hdes in Hsk.
    destruct (cr_status c); decide_in Hv; done. }
  unfold complete_web_case in Hcase. apply bind_ok in Hcase as (c0 & E & Hcr). injection Hcr as <- _.
  rewrite decide_False in E by done. apply bind_ok in E as (_ & _ & E).
  apply (finish_web_case_shows _ _ _ _ _ Hcok) in E as [_ Hids].
  pose proof (traces_of_steps passed _ _ _ Hcov Hids Hsteps Hp) as HP.
  eapply Forall_impl; [exact HP|]. intros t Ht. unfold passed in Ht. cbn in Ht.
  destruct (wt_status t); decide_in Ht; solve_in.
Qed.

(** ** Login states *)

(** A refreshed login state in the database: what was stored and what is. *)
Record session_swapped (d d1 : Db) (now : datetime) (rs : WebRefreshedSession) (old new : SessionProfile) : Prop := {
  sw_old : db_session_profiles d !! rs_profile_id rs = Some old;
  sw_active : pf_active old = true;
  sw_revision : pf_revision old = rs_expected_revision rs;
  sw_fingerprint : pf_storage_state_fingerprint old = rs_expected_fingerprint rs;
  sw_new : db_session_profiles d1 = <[rs_profile_id rs := new]> (db_session_profiles d);
  sw_next : pf_revision new = (rs_expected_revision rs + 1)%Z;
  sw_state : encrypt_state (rs_storage_state rs) = Some (pf_storage_state_ciphertext new);
  sw_digest : pf_storage_state_fingerprint new = sha256_hex (rs_storage_state rs);
  sw_expires : pf_expires_at new = Some (now + 1000000 * pf_refresh_ttl_seconds old)%Z;
}.

Lemma session_refresh_swaps d now cx content p d1 s rs :
  apply_web_session_refresh d now cx content p = Ok (d1, s) -> wp_refreshed_session p = Some rs ->
  (s = Some CONFLICT /\ d1 = d) \/ (s = Some UPDATED /\ exists old new, session_swapped d d1 now rs old new).
Proof.
  intros E Hrs. unfold apply_web_session_refresh in E. rewrite Hrs in E.
  destruct (wp_session_recovery p) as [audit|];
    (apply bind_ok in E as (pid & _ & E); apply bind_ok in E as (pr & Hpr & E);
     apply bind_ok in E as (_ & _ & E); apply bind_ok in E as (b & _ & E);
     apply bind_ok in E as (login & _ & E); apply bind_ok in E as (a & Ha & E); try discriminate Ha).
  apply bind_ok in E as ([] & _ & E). apply bind_ok in E as ([] & Hid & E).
  assert (rs_profile_id rs = pid) as <- by (by destruct (bool_decide _) eqn:Hb in Hid; [apply bool_decide_eq_true in Hb|]).
  assert (db_session_profiles d !! rs_profile_id rs = Some pr) as Hk by (by destruct (_ !! _); simplify_eq/=).
  destruct (_ && _) eqn:Hb in E; cbn [negb] in E; [|injection E as <- <-; by left].
  rewrite !andb_true_iff, !bool_decide_eq_true in Hb. destruct Hb as [[[? ?] ?] _].
  apply bind_ok in E as (cipher & Hc & E). injection E as <- <-. right. split; [done|].
  exists pr. eexists. split; try done; cbn.
  - congruence.
  - by destruct (encrypt_state _); simplify_eq/=.
Qed.

Lemma refresh_absent d now cx content p d1 s :
  apply_web_session_refresh d now cx content p = Ok (d1, s) -> wp_refreshed_session p = None ->
  s <> Some UPDATED /\ d1 = d.
Proof.
  intros E Hrs. unfold apply_web_session_refresh in E. rewrite Hrs in E.
  destruct (wp_session_recovery p); [|by injection E as <- <-].
  repeat (apply bind_ok in E as (? & _ & E)). by injection E as <- <-.
Qed.

(** C31: login states are replaced by compare-and-swap.  A completion that reports
    UPDATED found the profile active, at the revision and with the fingerprint the
    runner started from, and stored the runner's state under the next revision;
    any other completion that was accepted leaves all login states alone.  After
    an update, whatever requests follow, a completion that started from the same
    or an older revision of the profile is answered CONFLICT and changes no login
    state: two runs that refresh the same login never overwrite one another. *)
Theorem session_refresh_compare_and_swap d now k cred p d1 evs x :
  db_inv d -> complete_web_execution d now k cred p = (d1, evs, Ok x) -> wx_idempotent x = false ->
  (wx_session_recovery x <> Some UPDATED -> db_session_profiles d1 = db_session_profiles d)
  /\ (wx_session_recovery x = Some UPDATED ->
       exists rs old new, wp_refreshed_session p = Some rs /\ session_swapped d d1 now rs old new
       /\ forall d2 now' k' cred' p' d3 evs' x' rs',
            reachable d1 d2 -> complete_web_execution d2 now' k' cred' p' = (d3, evs', Ok x') ->
            wx_idempotent x' = false -> wp_refreshed_session p' = Some rs' ->
            rs_profile_id rs' = rs_profile_id rs -> (rs_expected_revision rs' <= rs_expected_revision rs)%Z ->
            wx_session_recovery x' = Some CONFLICT /\ db_session_profiles d3 = db_session_profiles d2).
Proof.
  intros Hd Hc Hi. destruct (complete_web_open _ _ _ _ _ _ _ _ Hc Hi) as (cx & content & c & r & d0 & run' & Hw).
  pose proof (wc_refresh _ _ _ _ _ _ _ _ _ _ _ _ _ Hw) as Href. pose proof (wc_db _ _ _ _ _ _ _ _ _ _ _ _ _ Hw) as Hdb.
  assert (db_session_profiles d1 = db_session_profiles d0) as Hp by (by rewrite Hdb).
  rewrite Hp. destruct (wp_refreshed_session p) as [rs|] eqn:Hrs.
  2: { destruct (refresh_absent _ _ _ _ _ _ _ Href Hrs) as [? ->]. by split. }
  destruct (session_refresh_swaps _ _ _ _ _ _ _ _ Href Hrs) as [[-> ->]|[Hu (old & new & Hsw)]]; [by split|].
  split; [done|]. intros _. exists rs, old, new. split; [done|]. split; [destruct Hsw; split; congruence|].
  intros d2 now' k' cred' p' d3 evs' x' rs' Hreach Hc' Hi' Hrs' Hpid Hrev.
  destruct (complete_web_open _ _ _ _ _ _ _ _ Hc' Hi') as (cx' & content' & c' & r' & d0' & run'' & Hw').
  pose proof (wc_refresh _ _ _ _ _ _ _ _ _ _ _ _ _ Hw') as Href'.
  rewrite (wc_db _ _ _ _ _ _ _ _ _ _ _ _ _ Hw').
  destruct (session_refresh_swaps _ _ _ _ _ _ _ _ Href' Hrs') as [[-> ->]|[_ (old' & new' & Hsw')]]; [done|].
  exfalso. pose proof (complete_web_step d now k cred p Hd) as Hst. rewrite Hc in Hst. cbn in Hst.
  destruct (reachable_step _ _ (proj1 Hst) Hreach) as [_ Hev].
  assert (db_session_profiles d1 !! rs_profile_id rs' = Some new) as Hnew
    by (rewrite Hp, Hpid, (sw_new _ _ _ _ _ _ Hsw), lookup_insert_eq; done).
  pose proof (de_profiles _ _ Hev (rs_profile_id rs')) as Hpe.
  rewrite Hnew, (sw_old _ _ _ _ _ _ Hsw') in Hpe. cbn in Hpe.
  pose proof (pe_revision _ _ Hpe) as Hle. rewrite (sw_next _ _ _ _ _ _ Hsw), (sw_revision _ _ _ _ _ _ Hsw') in Hle. lia.
Qed.

(** ** Refused reports *)

(** A first report that no completion fits is refused, and changes nothing. *)
Lemma web_report_refused d now k cred p r :
  db_runs d !! k = Some r -> db_web_results d !! (r_id r, wp_case_run_id p) = None ->
  (forall d' x cx content c res d1 r', r = cx_run cx -> web_completion d now k cred p d' x cx content c res d1 r' -> False) ->
  exists err, complete_web_execution d now k cred p = (d, [], Err err).
Proof.
  intros Hr Hres Hno. destruct (complete_web_execution d now k cred p) as [[d' evs] [x|e]] eqn:Hc.
  2: { unfold complete_web_execution, transact in Hc.
       match type of Hc with match ?b with _ => _ end = _ => destruct b as [[[? ?] ?]|] end; [done|].
       injection Hc as <- <- <-. by eexists. }
  exfalso. destruct (wx_idempotent x) eqn:Hi.
  - unfold complete_web_execution, transact in Hc.
    match type of Hc with match ?b with _ => _ end = _ => destruct b as [[[dx ex] rx]|] eqn:Hb; [|done] end.
    injection Hc as -> -> ->. apply bind_ok in Hb as (cx & Hcx & E). cbn zeta in E.
    destruct (execution_context_ok _ _ _ _ _ _ Hcx) as [Hr' _ _ _ _ Hid].
    rewrite Hr in Hr'. injection Hr' as ->. rewrite Hid, Hres in E.
    repeat (apply bind_ok in E as ([] & _ & E) || apply bind_ok in E as (? & _ & E)). by injection E as _ _ <-.
  - destruct (complete_web_open _ _ _ _ _ _ _ _ Hc Hi) as (cx & content & c & res & d1 & r' & Hw).
    destruct (execution_context_ok _ _ _ _ _ _ (wc_context _ _ _ _ _ _ _ _ _ _ _ _ _ Hw)) as [Hr' _ _ _ _ _].
    rewrite Hr in Hr'. injection Hr' as Hr'. by eapply Hno.
Qed.

(** ** Failed logins *)

(** a first report whose audit says that the login failed is refused, and
    changes nothing, unless the run is still running and the outcome is FAILED
    with the error type of a failed login.  A login that timed out, one that
    failed with the error type of a browser step, and one that failed while the
    run was being cancelled can therefore never be reported. *)
Theorem failed_recovery_report_refused d now k cred p r :
  db_runs d !! k = Some r -> (ra_status <$> wp_session_recovery p) = Some RECOVERY_FAILED ->
  r_status r ∈ [RunStatus.CANCELLING; RunStatus.CANCELLED] \/ wp_outcome p <> W_FAILED
    \/ wp_error_type p <> Some WEB_SESSION_RECOVERY_FAILED ->
  db_web_results d !! (r_id r, wp_case_run_id p) = None ->
  exists err, complete_web_execution d now k cred p = (d, [], Err err).
Proof.
  intros Hr Haudit Hbad Hres. apply (web_report_refused _ _ _ _ _ r Hr Hres). intros d' x cx content c res d1 r' -> Hw.
  pose proof (wc_failures _ _ _ _ _ _ _ _ _ _ _ _ _ Hw) as Hf. cbn zeta in Hf.
  unfold check_web_failures in Hf. rewrite (bool_decide_true _ Haudit) in Hf. cbn zeta in Hf.
  apply bind_ok in Hf as ([] & _ & Hf). apply bind_ok in Hf as ([] & Hf & _). inv_ok.
  apply negb_false_iff in G. unfold web_failure in G.
  apply andb_true_iff in G as [[Hn Ho%bool_decide_eq_true]%andb_true_iff Ht%bool_decide_eq_true].
  apply negb_true_iff, bool_decide_eq_false in Hn. tauto.
Qed.
End web.

(** ** Two Web runs that share a login *)

Module WebDemo.
Import Demo.

Definition web_target : TargetSpec :=
  {| ts_target := Some (WebTarget 1 1); ts_required_capabilities := ["WEB"];
     ts_steps := [("action_1", "open", "OPEN"); ("assertion_1", "title", "ASSERT_TITLE")]; ts_iterations := [] |}.
#[export] Instance web_assets : Assets := {|
  resolve_target := fun _ => ([], web_target);
  get_environment := fun i => if decide (i = 1%Z) then Some {| env_project_id := 1; env_enabled := true |} else None;
  capture_case_run_requirement_sources := fun _ => Ok tt;
|}.

Definition web_runner : Runner :=
  {| rn_id := "r1"; rn_status := RunnerStatus.ACTIVE; rn_credential_digest := digest64;
     rn_last_heartbeat_at := Some 0%Z; rn_tags := []; rn_ready_capabilities := ["WEB"];
     rn_slots := [ {| sl_type := RunnerSlotType.WEB; sl_total := 2; sl_available := 2 |} ];
     rn_chrome_version := Some "120" |}.
Definition login : SessionProfile :=
  {| pf_project_id := 1; pf_environment_id := None; pf_active := true;
     pf_storage_state_ciphertext := "enc:old"; pf_storage_state_fingerprint := "sha:old"; pf_revision := 4;
     pf_refresh_ttl_seconds := 3600; pf_expires_at := None; pf_login_web_case_version_id := Some 3%Z |}.
Definition web_db : Db :=
  {| db_projects := {| projects := {[ 1%Z := project ]}; members := ∅; users := ∅ |};
     db_runs := ∅; db_runners := {[ "r1" := web_runner ]}; db_api_results := ∅;
     db_scenario_results := ∅; db_web_results := ∅; db_session_profiles := {[ 7%Z := login ]};
     db_resources := []; db_evidence := [] |}.

Definition web_payload : RunCreateRequest :=
  {| rq_project_id := 1; rq_environment_id := 1; rq_runner_id := "r1"; rq_run_type := RunType.WEB_CASE;
     rq_case_id := None; rq_case_version_id := None; rq_scenario_id := None;
     rq_scenario_version_id := None; rq_web_case_id := Some 1%Z; rq_web_case_version_id := Some 1%Z;
     rq_required_capabilities := []; rq_required_tags := [];
     rq_required_slot_type := RunnerSlotType.WEB; rq_required_slot_count := 1;
     rq_total_timeout_ms := None |}.

Fixpoint web_play (d : Db) (now : Z) (l : list request) : Db :=
  match l with [] => d | q :: l' => web_play (handle d now q).1 (now + 1000000) l' end.

Lemma web_play_reachable d now l : reachable d (web_play d now l).
Proof.
  revert d now. induction l as [|q l IH]; intros d now; cbn; [constructor|].
  eapply rtc_l; [by exists now, q | apply IH].
Qed.

(** A run from its creation to the start of its case run. *)
Definition launch (i m : string) (c s : Z) : list request :=
  [ RCreate admin web_payload HeartbeatPresent i c s; RDispatch admin i HeartbeatPresent false m;
    RPublished i {| pr_published := true; pr_code := None |}; RClaim i "credential" m;
    RStartWeb i "credential" m c ].
Definition both_running : Db := web_play web_db 0 (launch "run_1" "msg_1" 1 1 ++ launch "run_2" "msg_2" 2 11).

Lemma both_running_inv : db_inv both_running.
Proof.
  apply (reachable_step web_db); [|apply web_play_reachable].
  split; unfold web_db, db_keys_ok; cbn [db_runs db_runners db_api_results db_scenario_results db_web_results].
  - intros k r Hr. by apply lookup_empty_Some in Hr.
  - intros k rn [<- <-]%lookup_singleton_Some. done.
  - intros k r Hr. by apply lookup_empty_Some in Hr.
  - intros k [x Hx]. by apply lookup_empty_Some in Hx.
  - intros k [x Hx]. by apply lookup_empty_Some in Hx.
  - intros k [x Hx]. by apply lookup_empty_Some in Hx.
Qed.

Definition trace (n : string) (s : WebTraceStatus) : WebTrace :=
  {| wt_node_id := n; wt_status := s; wt_duration_ms := 5; wt_error_type := None; wt_error_message := None |}.
(** A successful run that had to log in again. *)
Definition refreshed (m : string) (c : Z) (state : string) : WebCompleteRequest :=
  {| wp_message_id := m; wp_case_run_id := c; wp_outcome := W_SUCCESS;
     wp_traces := [trace "action_1" WT_SUCCESS; trace "assertion_1" WT_SUCCESS];
     wp_error_type := None; wp_error_message := None;
     wp_refreshed_session := Some {| rs_profile_id := 7; rs_expected_revision := 4;
                                     rs_expected_fingerprint := "sha:old"; rs_storage_state := state |};
     wp_session_recovery := Some {| ra_status := RECOVERED; ra_login_web_case_version_id := 3 |};
     wp_evaluation_token := None |}.
Definition first : outcome WebCompleteResponse :=
  complete_web_execution both_running 20000000 "run_1" "credential" (refreshed "msg_1" 1 "one").
Definition second : outcome WebCompleteResponse :=
  complete_web_execution (out_db first) 21000000 "run_2" "credential" (refreshed "msg_2" 2 "two").
(** The answer to a successful completion. *)
Definition answer (s : PersistenceStatus) : WebCompleteResponse :=
  {| wx_run_status := RunStatus.SUCCESS; wx_case_run_status := RunNodeStatus.SUCCESS;
     wx_session_recovery := Some s; wx_idempotent := false |}.

Definition web_run_of (d : Db) (i : string) : TestRun :=
  default (new_run 0 admin "none" 0 0 web_payload [] (WebTarget 0 0) web_target) (db_runs d !! i).

Example web_history :
  (r_status <$> db_runs both_running !! "run_1", out_result first, out_result second)
  = (Some RunStatus.RUNNING, Ok (answer UPDATED), Ok (answer CONFLICT)).
Proof. vm_compute. reflexivity. Qed.

Lemma web_faithful_witness :
  (wr_status <$> db_web_results (out_db first) !! ("run_1", 1%Z)) = Some RunStatus.SUCCESS.
Proof.
  destruct (web_completion_faithful both_running 20000000 "run_1" "credential" (refreshed "msg_1" 1 "one")
    (out_db first) (out_events first) (answer UPDATED) (web_run_of both_running "run_1")) as (_ & _ & Hrow & _).
  - apply both_running_inv.
  - vm_compute. reflexivity.
  - vm_compute. reflexivity.
  - vm_compute. reflexivity.
  - reflexivity.
  - exact Hrow.
Defined.

(** The second run started from the revision the first one has replaced. *)
Lemma session_swap_witness :
  wx_session_recovery (answer CONFLICT) = Some CONFLICT
  /\ db_session_profiles (out_db second) = db_session_profiles (out_db first).
Proof.
  destruct (session_refresh_compare_and_swap both_running 20000000 "run_1" "credential"
    (refreshed "msg_1" 1 "one") (out_db first) (out_events first) (answer UPDATED)) as [_ Hu].
  - apply both_running_inv.
  - vm_compute. reflexivity.
  - reflexivity.
  - destruct (Hu eq_refl) as (rs & old & new & Hrs & _ & Hlater). injection Hrs as <-.
    eapply (Hlater (out_db first) 21000000%Z "run_2" "credential" (refreshed "msg_2" 2 "two") (out_db second)
      (out_events second)); [constructor | vm_compute; reflexivity | reflexivity | reflexivity | reflexivity |].
    reflexivity.
Defined.

(** The login ran into the time budget of the run. *)
Definition login_timed_out : WebCompleteRequest :=
  {| wp_message_id := "msg_1"; wp_case_run_id := 1; wp_outcome := W_TIMEOUT;
     wp_traces := [trace "action_1" WT_SKIPPED; trace "assertion_1" WT_SKIPPED];
     wp_error_type := Some (u "WEB_TOTAL_TIMEOUT"); wp_error_message := Some (u "Web Run 总超时");
     wp_refreshed_session := None;
     wp_session_recovery := Some {| ra_status := RECOVERY_FAILED; ra_login_web_case_version_id := 3 |};
     wp_evaluation_token := None |}.
Lemma failed_recovery_witness :
  web_request_valid login_timed_out = true
  /\ exists err, complete_web_execution both_running 20000000 "run_1" "credential" login_timed_out
                 = (both_running, [], Err err).
Proof.
  split; [vm_compute; reflexivity|].
  apply (failed_recovery_report_refused both_running 20000000 "run_1" "credential" login_timed_out
           (web_run_of both_running "run_1")).
  - vm_compute. reflexivity.
  - reflexivity.
  - right. left. discriminate.
  - vm_compute. reflexivity.
Defined.
End WebDemo.
