(* ===== verification/Slots.v ===== *)
(** The slot accounting of a runner process ([runner/runner/slots.py]): a
    [SlotState] shared by the worker threads and one [SlotLease] object per
    occupied slot.

    Each [with self._lock] block is one atomic step; what a thread does between
    two blocks is a program point of its own, so the model admits every
    interleaving of the threads.  Lease objects live in a shared store, because
    the same lease may be released from several places (a [finally] block and
    an [__exit__], two threads).  The change callback is client code: the model
    records which callback is invoked and when; [_notify] swallows whatever it
    raises. *)
From S2P Require Import Prelude PyText.
Open Scope Z_scope.

(** ** Data *)

Inductive slot_type := API | WEB | PERFORMANCE.
#[global] Instance slot_type_eq_dec : EqDecision slot_type.
Proof. solve_decision. Defined.

(** [SLOT_TYPES], the keys of the two dictionaries. *)
Definition SLOT_TYPES : list (pytext * slot_type) :=
  [(u "API", API); (u "WEB", WEB); (u "PERFORMANCE", PERFORMANCE)].

(** [RunnerError]. *)
Inductive runner_error := RunnerError (message : string).

(** What a caller may pass as the value of a slot total: [bool] is a subclass of
    [int] in Python, so it is told apart explicitly. *)
Inductive py_value := PyInt (z : Z) | PyBool (b : bool) | PyOther.

Abbreviation callback := nat.

Record SlotLease := { slot_type_of : slot_type; released : bool }.

(** Program points between two critical sections. *)
Inductive program_point :=
  | Acquired (t : slot_type) (cb : option callback) (* [try_acquire], after its block *)
  | Marked (t : slot_type)                          (* [release], after its block *)
  | Returned (cb : option callback).                (* [_release], after its block *)

Record SlotState := {
  totals : slot_type -> Z;
  available : slot_type -> Z;
  on_change : option callback;
  leases : gmap nat SlotLease;
  threads : gmap nat program_point;
  notified : list callback }.

Definition set_slot (f : slot_type -> Z) (t : slot_type) (v : Z) : slot_type -> Z :=
  fun t' => if decide (t' = t) then v else f t'.

(** ** Operations *)

Definition valid_total (v : py_value) : option Z :=
  match v with
  | PyInt z => if (0 <=? z) && (z <=? 10000) then Some z else None
  | PyBool _ | PyOther => None
  end.

(** [SlotState.__init__]; [given] is [totals.get]. *)
Definition init (given : slot_type -> option py_value) (cb : option callback)
  : SlotState + runner_error :=
  let value t := valid_total (default (PyInt 0) (given t)) in
  match value API, value WEB, value PERFORMANCE with
  | Some a, Some w, Some p =>
      let normalized t := match t with API => a | WEB => w | PERFORMANCE => p end in
      inl {| totals := normalized; available := normalized; on_change := cb;
             leases := ∅; threads := ∅; notified := [] |}
  | _, _, _ => inr (RunnerError "Runner slot 总量必须在 0 到 10000 之间")
  end.

Section operations.
(** The full upper-case mapping of a code point outside ASCII, a table of the
    Unicode character database. *)
Context (upper_other : N -> pytext).

Definition upper (s : pytext) : pytext :=
  s ≫= fun c => if ((97 <=? c) && (c <=? 122))%N then [(c - 32)%N]
                else if (c <? 128)%N then [c] else upper_other c.

(** [_normalize_type]; a value that is not a [str] normalizes to [""]. *)
Definition normalize_type (s : option pytext) : slot_type + runner_error :=
  let normalized := match s with Some s => upper s | None => [] end in
  match list_find (fun p => p.1 = normalized) SLOT_TYPES with
  | Some (_, (_, t)) => inl t
  | None => inr (RunnerError "Runner slot 类型无效")
  end.

Definition notify (cb : option callback) (st : SlotState) : SlotState :=
  match cb with
  | None => st
  | Some c => {| totals := totals st; available := available st; on_change := on_change st;
                 leases := leases st; threads := threads st; notified := notified st ++ [c] |}
  end.

Definition set_available (st : SlotState) (f : slot_type -> Z) : SlotState :=
  {| totals := totals st; available := f; on_change := on_change st;
     leases := leases st; threads := threads st; notified := notified st |}.

Definition set_leases (st : SlotState) (ls : gmap nat SlotLease) : SlotState :=
  {| totals := totals st; available := available st; on_change := on_change st;
     leases := ls; threads := threads st; notified := notified st |}.

Definition set_threads (st : SlotState) (ts : gmap nat program_point) : SlotState :=
  {| totals := totals st; available := available st; on_change := on_change st;
     leases := leases st; threads := ts; notified := notified st |}.

Definition set_on_change (cb : option callback) (st : SlotState) : SlotState :=
  {| totals := totals st; available := available st; on_change := cb;
     leases := leases st; threads := threads st; notified := notified st |}.

(** What the step of a thread produced. *)
Inductive outcome :=
  | Continues                       (* the thread has more to do *)
  | ReturnsLease (lease : nat)      (* [try_acquire] returned a lease *)
  | ReturnsNone                     (* the call returned [None] *)
  | Raises (e : runner_error).

(** The critical section of [try_acquire]. *)
Definition try_acquire_enter (tid : nat) (s : option pytext) (st : SlotState)
  : SlotState * outcome :=
  match normalize_type s with
  | inr e => (st, Raises e)
  | inl t =>
      if available st t <=? 0 then (st, ReturnsNone)
      else (set_threads (set_available st (set_slot (available st) t (available st t - 1)))
              (<[tid := Acquired t (on_change st)]> (threads st)), Continues)
  end.

(** Its tail: the notification and the construction of the lease. *)
Definition try_acquire_return (tid : nat) (t : slot_type) (cb : option callback)
  (st : SlotState) : SlotState * outcome :=
  let st := notify cb (set_threads st (delete tid (threads st))) in
  let l := fresh (dom (leases st) : gset nat) in
  (set_leases st (<[l := {| slot_type_of := t; released := false |}]> (leases st)),
   ReturnsLease l).

(** The critical section of [SlotLease.release]. *)
Definition release_mark (tid lid : nat) (lease : SlotLease) (st : SlotState)
  : SlotState * outcome :=
  if released lease then (st, ReturnsNone)
  else (set_threads
          (set_leases st (<[lid := {| slot_type_of := slot_type_of lease; released := true |}]>
                            (leases st)))
          (<[tid := Marked (slot_type_of lease)]> (threads st)), Continues).

(** The critical section of [SlotState._release]. *)
Definition release_slot (tid : nat) (t : slot_type) (st : SlotState) : SlotState * outcome :=
  if totals st t <=? available st t
  then (set_threads st (delete tid (threads st)), Raises (RunnerError "Runner slot 重复释放"))
  else (set_threads (set_available st (set_slot (available st) t (available st t + 1)))
          (<[tid := Returned (on_change st)]> (threads st)), Continues).

Definition release_return (tid : nat) (cb : option callback) (st : SlotState)
  : SlotState * outcome :=
  (notify cb (set_threads st (delete tid (threads st))), ReturnsNone).

(** ** Threads *)

Inductive call := CallTryAcquire (s : option pytext) | CallRelease (lease : nat)
  | CallSetOnChange (cb : option callback).

(** A thread that is between calls enters one; [None] if the lease does not
    exist. *)
Definition enter (tid : nat) (c : call) (st : SlotState) : option (SlotState * outcome) :=
  match c with
  | CallTryAcquire s => Some (try_acquire_enter tid s st)
  | CallRelease lid => lease ← leases st !! lid; Some (release_mark tid lid lease st)
  | CallSetOnChange cb => Some (set_on_change cb st, ReturnsNone)
  end.

(** A thread that is inside a call runs to its next program point. *)
Definition continue (tid : nat) (pp : program_point) (st : SlotState) : SlotState * outcome :=
  match pp with
  | Acquired t cb => try_acquire_return tid t cb st
  | Marked t => release_slot tid t st
  | Returned cb => release_return tid cb st
  end.

(** The next step of thread [tid]; [c] is the call it makes if it is idle. *)
Definition thread_step (tid : nat) (c : call) (st : SlotState) : option (SlotState * outcome) :=
  match threads st !! tid with
  | Some pp => Some (continue tid pp st)
  | None => enter tid c st
  end.

Inductive reaches (st0 : SlotState) : SlotState -> Prop :=
  | reaches_refl : reaches st0 st0
  | reaches_step st tid c st' o :
      reaches st0 st -> thread_step tid c st = Some (st', o) -> reaches st0 st'.

(** ** Accounting *)

Definition count {A} (P : A -> bool) (m : gmap nat A) : nat :=
  size (filter (fun p : nat * A => P p.2 = true) m).

Lemma count_insert_new {A} (P : A -> bool) (m : gmap nat A) k x :
  m !! k = None -> count P (<[k := x]> m) = (Nat.b2n (P x) + count P m)%nat.
Proof.
  intros Hk. unfold count. destruct (P x) eqn:HP; cbn [Nat.b2n Nat.add].
  - rewrite map_filter_insert_True by done. apply map_size_insert_None.
    by apply map_lookup_filter_None; left.
  - rewrite map_filter_insert_False by (cbn; congruence).
    by rewrite delete_id.
Qed.

Lemma count_delete {A} (P : A -> bool) (m : gmap nat A) k x :
  m !! k = Some x -> (count P m = Nat.b2n (P x) + count P (delete k m))%nat.
Proof.
  intros Hk. rewrite <-(insert_delete_id m k x Hk) at 1.
  apply count_insert_new, lookup_delete_eq.
Qed.

Lemma count_update {A} (P : A -> bool) (m : gmap nat A) k x y :
  m !! k = Some x ->
  (count P (<[k := y]> m) + Nat.b2n (P x) = Nat.b2n (P y) + count P m)%nat.
Proof.
  intros Hk. rewrite <-insert_delete_eq, count_insert_new by apply lookup_delete_eq.
  rewrite (count_delete P m k x Hk). lia.
Qed.

Definition live (t : slot_type) (l : SlotLease) : bool :=
  bool_decide (slot_type_of l = t) && negb (released l).

Definition holding (t : slot_type) (pp : program_point) : bool :=
  match pp with
  | Acquired t' _ | Marked t' => bool_decide (t' = t)
  | Returned _ => false
  end.

(** The slots of type [t] that are taken: by a lease that has not been released,
    or by a thread that is about to hand out a lease or to give the slot back. *)
Definition in_use (t : slot_type) (st : SlotState) : nat :=
  count (live t) (leases st) + count (holding t) (threads st).

Definition slot_inv (st : SlotState) : Prop :=
  forall t, available st t + Z.of_nat (in_use t st) = totals st t
            /\ 0 <= available st t /\ totals st t <= 10000.

Lemma init_inv given cb st : init given cb = inl st -> slot_inv st.
Proof.
  unfold init. intros H t.
  repeat case_match; simplify_eq/=.
  unfold in_use, count; cbn. rewrite !map_filter_empty, !map_size_empty.
  unfold valid_total in *. destruct t; repeat case_match; simplify_eq/=; lia.
Qed.

Lemma notify_inv cb st : slot_inv st -> slot_inv (notify cb st).
Proof. by destruct cb. Qed.

Lemma notify_fields cb st :
  leases (notify cb st) = leases st /\ totals (notify cb st) = totals st
  /\ available (notify cb st) = available st /\ threads (notify cb st) = threads st.
Proof. by destruct cb. Qed.

(** Settles the accounting of one slot type after a step on another. *)
Ltac slot_account t t' :=
  destruct (decide (t = t')) as [<-|];
  [ rewrite ?bool_decide_true in * by done | rewrite ?bool_decide_false in * by congruence ];
  unfold set_slot in *; repeat case_decide; simplify_eq/=; try lia.

Lemma try_acquire_enter_inv tid s st :
  slot_inv st -> threads st !! tid = None -> slot_inv (try_acquire_enter tid s st).1.
Proof.
  intros Hinv Htid t. unfold try_acquire_enter.
  destruct (normalize_type s) as [t'|e]; cbn; [|apply Hinv].
  case_match eqn:Ha; cbn; [apply Hinv|]. specialize (Hinv t). revert Hinv.
  unfold in_use; cbn. rewrite count_insert_new by done. cbn [holding].
  slot_account t' t.
Qed.

Lemma try_acquire_return_inv tid t' cb st :
  slot_inv st -> threads st !! tid = Some (Acquired t' cb) ->
  slot_inv (try_acquire_return tid t' cb st).1.
Proof.
  intros Hinv Htid t. unfold try_acquire_return. set (st0 := set_threads _ _).
  destruct (notify_fields cb st0) as (Hl & Ht & Ha & Hth). unfold in_use; cbn.
  rewrite Hl, Ht, Ha, Hth. cbn. rewrite count_insert_new.
  2:{ apply (not_elem_of_dom (D := gset nat)), is_fresh. }
  specialize (Hinv t). revert Hinv. unfold in_use.
  rewrite (count_delete (holding t) (threads st) tid _ Htid). unfold live; cbn.
  slot_account t' t.
Qed.

Lemma release_mark_inv tid lid lease st :
  slot_inv st -> threads st !! tid = None -> leases st !! lid = Some lease ->
  slot_inv (release_mark tid lid lease st).1.
Proof.
  intros Hinv Htid Hl t. unfold release_mark. destruct (released lease) eqn:Hr; [apply Hinv|].
  specialize (Hinv t). revert Hinv. unfold in_use; cbn. rewrite (count_insert_new (holding t)) by done.
  pose proof (count_update (live t) (leases st) lid lease
                {| slot_type_of := slot_type_of lease; released := true |} Hl) as Hc.
  revert Hc. unfold live; cbn. rewrite Hr. cbn.
  destruct (decide (slot_type_of lease = t)) as [->|];
    rewrite ?bool_decide_true, ?bool_decide_false by done; cbn; lia.
Qed.

Lemma marked_below_total tid t st :
  slot_inv st -> threads st !! tid = Some (Marked t) -> available st t < totals st t.
Proof.
  intros Hinv Htid. destruct (Hinv t) as [Hsum _]. revert Hsum. unfold in_use.
  rewrite (count_delete (holding t) (threads st) tid _ Htid). cbn.
  rewrite bool_decide_true by done. cbn. lia.
Qed.

Lemma release_slot_inv tid t' st :
  slot_inv st -> threads st !! tid = Some (Marked t') -> slot_inv (release_slot tid t' st).1.
Proof.
  intros Hinv Htid t. pose proof (marked_below_total _ _ _ Hinv Htid).
  unfold release_slot. case_match eqn:Ha; [lia|].
  specialize (Hinv t). revert Hinv. unfold in_use; cbn.
  pose proof (count_update (holding t) (threads st) tid _ (Returned (on_change st)) Htid) as Hc.
  revert Hc. cbn. slot_account t' t.
Qed.

Lemma release_return_inv tid cb st :
  slot_inv st -> threads st !! tid = Some (Returned cb) -> slot_inv (release_return tid cb st).1.
Proof.
  intros Hinv Htid. apply notify_inv. intros t. specialize (Hinv t). revert Hinv.
  unfold in_use; cbn. rewrite (count_delete (holding t) (threads st) tid _ Htid). cbn. lia.
Qed.

#[local] Hint Resolve try_acquire_enter_inv try_acquire_return_inv release_mark_inv
  release_slot_inv release_return_inv : platform.

Lemma thread_step_inv tid c st st' o :
  slot_inv st -> thread_step tid c st = Some (st', o) -> slot_inv st'.
Proof.
  unfold thread_step. intros Hinv H. destruct (threads st !! tid) as [pp|] eqn:Htid.
  - injection H as H. apply (f_equal fst) in H; cbn [fst] in H; subst st'.
    destruct pp; cbn [continue]; eauto with platform.
  - destruct c; cbn [enter] in H.
    + injection H as H. apply (f_equal fst) in H; cbn [fst] in H; subst st'. eauto with platform.
    + apply bind_Some in H as (l & Hl & H). injection H as H.
      apply (f_equal fst) in H; cbn [fst] in H; subst st'. eauto with platform.
    + by injection H as <- _.
Qed.

Lemma thread_step_totals tid c st st' o :
  thread_step tid c st = Some (st', o) -> totals st' = totals st.
Proof.
  unfold thread_step, enter, continue, try_acquire_enter, try_acquire_return, release_mark,
    release_slot, release_return, notify.
  intros H. destruct (threads st !! tid) as [[]|]; [..|destruct c as [|l|]].
  5: destruct (leases st !! l); cbn in H; [|discriminate].
  all: repeat case_match; simplify_eq/=; done.
Qed.

Lemma reaches_inv given cb st0 st :
  init given cb = inl st0 -> reaches st0 st -> slot_inv st /\ totals st = totals st0.
Proof.
  intros Hi. induction 1 as [|st tid c st' o _ [IH IHt] Hs].
  - eauto using init_inv.
  - split; [by eapply thread_step_inv|]. by rewrite (thread_step_totals _ _ _ _ _ Hs).
Qed.

End operations.

(** ** Properties *)

Module SlotsSpec.
Section spec.
Context (upper_other : N -> pytext).

(** C40: Whatever calls the threads of a runner make and however
    their critical sections interleave, for every slot type the free slots and
    the taken slots add up to the configured total; the free count stays within
    [0] and the total, so there are never more unreleased leases than slots;
    and as soon as no call is in progress and every lease has been released,
    all slots are free again. *)
Theorem slots_conserved given cb st0 st t :
  init given cb = inl st0 -> reaches upper_other st0 st ->
  available st t + Z.of_nat (in_use t st) = totals st0 t
  /\ 0 <= available st t <= totals st0 t
  /\ Z.of_nat (count (live t) (leases st)) <= totals st0 t <= 10000
  /\ (threads st = ∅ -> map_Forall (fun _ l => released l = true) (leases st) ->
      available st t = totals st0 t).
Proof.
  intros Hi Hr. destruct (reaches_inv _ _ _ _ _ Hi Hr) as [Hinv <-].
  destruct (Hinv t) as (Hsum & Hpos & Hmax). unfold in_use in *.
  repeat split; try lia. intros Hth Hl. rewrite Hth in Hsum.
  assert (count (live t) (leases st) = 0%nat) as Hc.
  { unfold count. apply map_size_empty_iff, map_empty. intros i.
    apply map_lookup_filter_None; right; intros l Hli. specialize (Hl i l Hli).
    unfold live; cbn. rewrite Hl, andb_false_r. done. }
  rewrite Hc in Hsum. unfold count in Hsum. rewrite map_filter_empty, map_size_empty in Hsum.
  lia.
Qed.

(** The calls of a runner's threads fail only on an unknown slot
    type: the "released twice" error is unreachable, because a lease is marked
    under its own lock before the slot is given back.  A thread that has marked
    a lease always gives its slot back, and a request for a slot is refused
    exactly when none is free. *)
Theorem release_never_fails given cb st0 st tid c st' o :
  init given cb = inl st0 -> reaches upper_other st0 st ->
  thread_step upper_other tid c st = Some (st', o) ->
  (forall e, o = Raises e ->
     e = RunnerError "Runner slot 类型无效" /\ st' = st
     /\ exists s, c = CallTryAcquire s /\ normalize_type upper_other s = inr e)
  /\ (forall t, threads st !! tid = Some (Marked t) ->
        available st' t = available st t + 1 /\ o = Continues)
  /\ (forall s t, threads st !! tid = None -> c = CallTryAcquire s ->
        normalize_type upper_other s = inl t ->
        (o = ReturnsNone <-> Z.of_nat (in_use t st) = totals st0 t)
        /\ (o = Continues <-> Z.of_nat (in_use t st) < totals st0 t)).
Proof.
  intros Hi Hr Hs. destruct (reaches_inv _ _ _ _ _ Hi Hr) as [Hinv <-].
  unfold thread_step in Hs. destruct (threads st !! tid) as [pp|] eqn:Htid.
  - destruct pp as [t cb'|t|cb']; cbn [continue] in Hs; simplify_eq/=;
      unfold try_acquire_return, release_return, release_slot in *; simplify_eq.
    + split_and!; intros; by simplify_eq.
    + pose proof (marked_below_total _ _ _ Hinv Htid).
      case_match eqn:Hb; [lia|]. simplify_eq. split_and!; intros; simplify_eq/=.
      unfold set_slot. by rewrite decide_True.
    + split_and!; intros; by simplify_eq.
  - split_and!; [| done |].
    + intros e ->. destruct c as [s|l|cb']; cbn [enter] in Hs; [| |done].
      * unfold try_acquire_enter in Hs. destruct (normalize_type upper_other s) eqn:Hn.
        { case_match; simplify_eq. }
        simplify_eq. unfold normalize_type in Hn. case_match; [by repeat case_match|].
        simplify_eq. split_and!; [done..|]. exists s. unfold normalize_type.
        by rewrite H.
      * apply bind_Some in Hs as (? & _ & Hs). unfold release_mark in Hs.
        case_match; simplify_eq.
    + intros s t _ -> Hn. cbn [enter] in Hs. unfold try_acquire_enter in Hs. rewrite Hn in Hs.
      destruct (Hinv t) as (Hsum & Hpos & _).
      case_match eqn:Hb; simplify_eq; (split; split; intros ?; [try done; lia..]).
Qed.

End spec.

(** A runner with one API slot; threads 1 and 2 ask for it, thread 1 gets it,
    and both release the same lease concurrently. *)
Definition demo_totals (t : slot_type) : option py_value :=
  match t with API => Some (PyInt 1) | WEB => None | PERFORMANCE => Some (PyInt 0) end.

Definition demo_start : SlotState :=
  match init demo_totals (Some 7%nat) with inl st => st
  | inr _ => {| totals := fun _ => 0; available := fun _ => 0; on_change := None;
                leases := ∅; threads := ∅; notified := [] |} end.

Definition demo_steps : list (nat * call) :=
  [(1%nat, CallTryAcquire (Some (u "api"))); (2%nat, CallTryAcquire (Some (u "API")));
   (1%nat, CallSetOnChange None); (1%nat, CallRelease 0); (2%nat, CallRelease 0)].

Fixpoint play (steps : list (nat * call)) (st : SlotState) : SlotState :=
  match steps with
  | [] => st
  | (tid, c) :: rest =>
      match thread_step (fun c => [c]) tid c st with
      | Some (st', _) => play rest st'
      | None => st
      end
  end.

Lemma play_reaches steps st0 st :
  reaches (fun c => [c]) st0 st -> reaches (fun c => [c]) st0 (play steps st).
Proof.
  revert st. induction steps as [|[tid c] rest IH]; intros st Hr; [done|]. cbn.
  destruct (thread_step _ tid c st) as [[st' o]|] eqn:Hs; [|done].
  apply IH. by eapply reaches_step.
Qed.

Lemma slots_conserved_witness :
  available (play demo_steps demo_start) API + Z.of_nat (in_use API (play demo_steps demo_start)) = 1.
Proof.
  refine (proj1 (slots_conserved (fun c => [c]) demo_totals (Some 7%nat) demo_start
                   (play demo_steps demo_start) API _ _)).
  - vm_compute. reflexivity.
  - apply play_reaches, reaches_refl.
Defined.

(** The thread that marked the lease gives the slot back. *)
Lemma release_never_fails_witness :
  match thread_step (fun c => [c]) 1%nat (CallSetOnChange None) (play demo_steps demo_start) with
  | Some (st', o) => available st' API = 1 /\ o = Continues
  | None => False
  end.
Proof.
  destruct (thread_step (fun c => [c]) 1%nat (CallSetOnChange None) (play demo_steps demo_start))
    as [[st' o]|] eqn:Hs; [| vm_compute in Hs; discriminate Hs].
  destruct (release_never_fails (fun c => [c]) demo_totals (Some 7%nat) demo_start
              (play demo_steps demo_start) 1%nat (CallSetOnChange None) st' o) as (_ & H & _).
  - vm_compute. reflexivity.
  - apply play_reaches, reaches_refl.
  - exact Hs.
  - refine (eq_ind _ (fun z => available st' API = z + 1 /\ o = Continues) (H API _) 0 _).
    + vm_compute. reflexivity.
    + vm_compute. reflexivity.
Defined.

End SlotsSpec.
