(* ===== verification/Calendar.v ===== *)
(** When a schedule fires ([app/modules/schedules/calendar.py]): the parsers of
    times and cron expressions, the calendar they are matched against, and
    [next_occurrence].

    Instants are UTC microseconds and wall-clock times local microseconds, both
    counted from 1970-01-01T00:00, days are counted from 1970-01-01; the model
    has no first or last year, so the [OverflowError] of [datetime] beyond year
    9999 does not occur.  The time zone database is a parameter. *)
From S2P Require Import Prelude PyText.
From stdpp Require Import sorting.
Open Scope Z_scope.

(** ** Python text primitives *)

(** First code points of the blocks of ten decimal digits (Unicode category
    [Nd], version 15.0). *)
Definition digit_zeros : list N :=
  [48; 1632; 1776; 1984; 2406; 2534; 2662; 2790; 2918; 3046; 3174; 3302; 3430; 3558; 3664; 3792;
   3872; 4160; 4240; 6112; 6160; 6470; 6608; 6784; 6800; 6992; 7088; 7232; 7248; 42528; 43216;
   43264; 43472; 43504; 43600; 44016; 65296; 66720; 68912; 69734; 69872; 69942; 70096; 70384;
   70736; 70864; 71248; 71360; 71472; 71904; 72016; 72784; 73040; 73120; 73552; 92768; 92864;
   93008; 120782; 120792; 120802; 120812; 120822; 123200; 123632; 124144; 125264; 130032]%N.

Fixpoint digit_in (zeros : list N) (c : N) : option Z :=
  match zeros with
  | [] => None
  | z :: rest => if ((z <=? c) && (c <? z + 10))%N then Some (Z.of_N (c - z)) else digit_in rest c
  end.

(** The decimal value of a code point, if it is a digit ([\d]). *)
Definition digit_value (c : N) : option Z := digit_in digit_zeros c.

(** [s.split(sep)] for a separator of one character. *)
Fixpoint split_on (sep : N) (s : pytext) : list pytext :=
  match s with
  | [] => [[]]
  | c :: s' =>
      if (c =? sep)%N then [] :: split_on sep s'
      else match split_on sep s' with
           | [] => [[c]]
           | w :: ws => (c :: w) :: ws
           end
  end.

(** [s.partition(sep)], and [s.split(sep, 1)] where [sep] occurs. *)
Fixpoint partition_on (sep : N) (s : pytext) : option (pytext * pytext) :=
  match s with
  | [] => None
  | c :: s' =>
      if (c =? sep)%N then Some ([], s')
      else '(a, b) ← partition_on sep s'; Some (c :: a, b)
  end.

(** [s.split()]: the maximal runs of non-space characters. *)
Fixpoint words_go (s word : pytext) : list pytext :=
  let flush := match word with [] => [] | _ => [reverse word] end in
  match s with
  | [] => flush
  | c :: s' => if isspace c then flush ++ words_go s' [] else words_go s' (c :: word)
  end.
Definition words (s : pytext) : list pytext := words_go s [].

(** [sep.join(ws)]. *)
Fixpoint join (sep : N) (ws : list pytext) : pytext :=
  match ws with
  | [] => []
  | [w] => w
  | w :: rest => w ++ sep :: join sep rest
  end.

(** [int(text)]: surrounding white space (the ASCII separators 28 to 31 are not
    accepted), one sign, digits with single underscores between them, at most
    4300 digits. [None] stands for [ValueError]. *)
Definition int_space (c : N) : bool := isspace c && negb ((28 <=? c) && (c <=? 31))%N.

Fixpoint drop_space (s : pytext) : pytext :=
  match s with
  | [] => []
  | c :: s' => if int_space c then drop_space s' else s
  end.

Fixpoint int_digits (s : pytext) (acc : Z) (n : nat) : option Z :=
  match s with
  | [] => if (n <=? 4300)%nat then Some acc else None
  | c :: s' =>
      match digit_value c with
      | Some d => int_digits s' (10 * acc + d) (S n)
      | None =>
          if (c =? 95)%N then
            match s' with
            | c' :: s'' =>
                d ← digit_value c'; int_digits s'' (10 * acc + d) (S n)
            | [] => None
            end
          else None
      end
  end.

Definition int_unsigned (s : pytext) : option Z :=
  match s with
  | [] => None
  | c :: s' => d ← digit_value c; int_digits s' d 1
  end.

Definition py_int (text : pytext) : option Z :=
  match reverse (drop_space (reverse (drop_space text))) with
  | [] => None
  | c :: s => if (c =? 43)%N then int_unsigned s
              else if (c =? 45)%N then Z.opp <$> int_unsigned s
              else int_unsigned (c :: s)
  end.

(** ** The proleptic Gregorian calendar *)

Record date := { year : Z; month : Z; day : Z }.

Definition leap (y : Z) : bool :=
  (y mod 4 =? 0) && (negb (y mod 100 =? 0) || (y mod 400 =? 0)).

Definition days_in_month (y m : Z) : Z :=
  if m =? 2 then if leap y then 29 else 28
  else if (m =? 4) || (m =? 6) || (m =? 9) || (m =? 11) then 30 else 31.

(** Days of a year before the first of a month. *)
Definition days_before_month (is_leap : bool) (m : Z) : Z :=
  nth (Z.to_nat m) [-1; 0; 31; 59; 90; 120; 151; 181; 212; 243; 273; 304; 334] 0
  + (if (2 <? m) && is_leap then 1 else 0).

(** The year (from year 1, day 0) and the day of the year of a day number:
    cycles of 400, 100, 4 years and 1 year, as [datetime] decomposes ordinals. *)
Definition year_day (n : Z) : Z * Z :=
  let n400 := n / 146097 in let n := n mod 146097 in
  let n100 := n / 36524 in let n := n mod 36524 in
  let n4 := n / 1461 in let n := n mod 1461 in
  let n1 := n / 365 in let n := n mod 365 in
  let y := n400 * 400 + 1 + n100 * 100 + n4 * 4 + n1 in
  if (n1 =? 4) || (n100 =? 4) then (y - 1, 365) else (y, n).

(** Month and day of a day of the year: an estimate that is at most one too high. *)
Definition month_day (is_leap : bool) (n : Z) : Z * Z :=
  let m := Z.shiftr (n + 50) 5 in
  let m := if n <? days_before_month is_leap m then m - 1 else m in
  (m, n - days_before_month is_leap m + 1).

(** The date of a day number counted from 1970-01-01. *)
Definition date_of (n : Z) : date :=
  let '(y, r) := year_day (n + 719162) in
  let '(m, d) := month_day (leap y) r in
  {| year := y; month := m; day := d |}.

(** [date.weekday()] (Monday is 0) and [date.isoweekday()] (Monday is 1). *)
Definition weekday (n : Z) : Z := (n + 3) mod 7.
Definition isoweekday (n : Z) : Z := weekday n + 1.

(** [date.toordinal()], counted from 1970-01-01. *)
Definition days_before_year (y : Z) : Z :=
  let y := y - 1 in y * 365 + y / 4 - y / 100 + y / 400.
Definition day_number (d : date) : Z :=
  days_before_year (year d) + days_before_month (leap (year d)) (month d) + day d - 1 - 719162.

Definition date_wf (d : date) : Prop :=
  1 <= month d <= 12 /\ 1 <= day d <= days_in_month (year d) (month d).

Section gregorian.
#[local] Ltac Zify.zify_post_hook ::= Z.to_euclidean_division_equations.

(** Names the quotient and the remainder of a division by a constant. *)
#[local] Ltac name_division n k q r :=
  pose proof (Z.div_mod n k ltac:(lia)); pose proof (Z.mod_pos_bound n k ltac:(lia));
  set (q := n / k) in *; set (r := n mod k) in *; clearbody q r.

Lemma year_day_spec n :
  let '(y, r) := year_day n in
  n = days_before_year y + r /\ 0 <= r <= (if leap y then 365 else 364).
Proof.
  unfold year_day.
  name_division n 146097 a n1. name_division n1 36524 b n2.
  name_division n2 1461 c n3. name_division n3 365 d r.
  assert (0 <= b <= 4) by lia. assert (0 <= c <= 24) by lia. assert (0 <= d <= 4) by lia.
  unfold days_before_year. destruct (d =? 4) eqn:D; [|destruct (b =? 4) eqn:B]; cbn [orb].
  - replace (leap _) with true; [lia|]. unfold leap. destruct (decide (c = 24)); lia.
  - replace (leap _) with true; [lia|]. unfold leap. lia.
  - split; [lia|]. destruct (leap _); lia.
Qed.
End gregorian.

Definition month_day_ok (is_leap : bool) (n : nat) : bool :=
  let '(m, d) := month_day is_leap (Z.of_nat n) in
  (1 <=? m) && (m <=? 12) && (1 <=? d)
  && (d <=? (if m =? 2 then if is_leap then 29 else 28
             else if (m =? 4) || (m =? 6) || (m =? 9) || (m =? 11) then 30 else 31))
  && (days_before_month is_leap m + d - 1 =? Z.of_nat n).

Lemma month_day_checked :
  forallb (month_day_ok true) (seq 0 366) && forallb (month_day_ok false) (seq 0 365) = true.
Proof. vm_compute. reflexivity. Qed.

Lemma month_day_spec (is_leap : bool) (n : Z) :
  0 <= n <= (if is_leap then 365 else 364) -> month_day_ok is_leap (Z.to_nat n) = true.
Proof.
  intros Hn. pose proof month_day_checked as [Ht Hf]%andb_true_iff.
  rewrite forallb_forall in Ht, Hf.
  destruct is_leap; [apply Ht | apply Hf]; apply in_seq; lia.
Qed.

(** [date_of] and [day_number] are inverse: every day number is the number of
    the well-formed date it denotes. *)
Lemma date_of_spec n : day_number (date_of n) = n /\ date_wf (date_of n).
Proof.
  unfold date_of. pose proof (year_day_spec (n + 719162)) as H.
  destruct (year_day (n + 719162)) as [y r]. destruct H as [Hn Hr].
  pose proof (month_day_spec _ _ Hr) as Hm. unfold month_day_ok in Hm.
  rewrite Z2Nat.id in Hm by (destruct (leap y); lia).
  destruct (month_day (leap y) r) as [m d].
  unfold day_number, date_wf, days_in_month; cbn [year month day]. split; lia.
Qed.

(** ** Expressions *)

(** [ScheduleExpressionError]: a [ValueError], not an [AppError]. *)
Definition ScheduleExpressionError (message : string) : app_error := UnexpectedError message.

Record time := { hour : Z; minute : Z }.

(** The alternatives of the [%H] pattern, [2[0-3]|[0-1]\d|\d], in order: the
    value matched and the text that is left. *)
Definition hour_matches (s : pytext) : list (Z * pytext) :=
  match s with
  | c1 :: c2 :: r =>
      (if ((c1 =? 50) && (48 <=? c2) && (c2 <=? 51))%N then [(20 + Z.of_N (c2 - 48), r)] else [])
      ++ (if ((48 <=? c1) && (c1 <=? 49))%N
          then match digit_value c2 with
               | Some d => [(10 * Z.of_N (c1 - 48) + d, r)]
               | None => []
               end
          else [])
  | _ => []
  end ++
  match s with
  | c :: r => match digit_value c with Some d => [(d, r)] | None => [] end
  | [] => []
  end.

(** [[0-5]\d|\d]. *)
Definition minute_matches (s : pytext) : list (Z * pytext) :=
  match s with
  | c1 :: c2 :: r =>
      if ((48 <=? c1) && (c1 <=? 53))%N
      then match digit_value c2 with
           | Some d => [(10 * Z.of_N (c1 - 48) + d, r)]
           | None => []
           end
      else []
  | _ => []
  end ++
  match s with
  | c :: r => match digit_value c with Some d => [(d, r)] | None => [] end
  | [] => []
  end.

(** The first way the pattern [%H:%M] matches at the start of the text. *)
Definition match_time (value : pytext) : option (time * pytext) :=
  head (hour_matches value ≫= fun '(h, r) =>
          match r with
          | c :: r' => if (c =? 58)%N
                       then (fun '(m, rest) => ({| hour := h; minute := m |}, rest)) <$> minute_matches r'
                       else []
          | [] => []
          end).

(** [_parse_time]: [strptime] rejects text that is left over. *)
Definition parse_time (value : pytext) : result time :=
  match match_time value with
  | Some (t, []) => Ok t
  | _ => Err (ScheduleExpressionError "时间必须使用 HH:MM 格式")
  end.

Record CronSpec := {
  minutes : gset Z; hours : gset Z; days : gset Z; months : gset Z; weekdays : gset Z;
  day_wildcard : bool; weekday_wildcard : bool }.

Definition day_matches (cron : CronSpec) (n : Z) : bool :=
  let day_matches := bool_decide (day (date_of n) ∈ days cron) in
  let cron_weekday := (weekday n + 1) mod 7 in
  let weekday_matches := bool_decide (cron_weekday ∈ weekdays cron) in
  if day_wildcard cron && weekday_wildcard cron then true
  else if day_wildcard cron then weekday_matches
  else if weekday_wildcard cron then day_matches
  else day_matches || weekday_matches.

(** [range(start, stop, step)] for a positive step. *)
Definition py_range (start stop step : Z) : list Z :=
  (fun k => start + Z.of_nat k * step) <$> seq 0 (Z.to_nat ((stop - start + step - 1) / step)).

Definition star : pytext := [42%N].

(** The pieces of the loop body of [_parse_field] for one comma-separated token:
    the text before the step and the step, *)
Definition parse_step (minimum maximum : Z) (label : string) (token : pytext)
  : result (pytext * Z) :=
  match partition_on 47 token with
  | Some (base, step_text) =>
      step ← some_or (py_int step_text)
               (ScheduleExpressionError ("Cron " +:+ label +:+ "步长无效"));
      raise_if ((step <=? 0) || (maximum - minimum + 1 <? step))
        (ScheduleExpressionError ("Cron " +:+ label +:+ "步长超出范围"));;
      Ok (base, step)
  | None => Ok (token, 1)
  end.

(** the first and the last value, *)
Definition parse_bounds (minimum maximum : Z) (label : string) (base : pytext)
  : result (Z * Z) :=
  if bool_decide (base = star) then Ok (minimum, maximum)
  else match partition_on 45 base with
       | Some (start_text, end_text) =>
           let invalid := ScheduleExpressionError ("Cron " +:+ label +:+ "范围无效") in
           start ← some_or (py_int start_text) invalid;
           end_ ← some_or (py_int end_text) invalid;
           Ok (start, end_)
       | None =>
           v ← some_or (py_int base)
                 (ScheduleExpressionError ("Cron " +:+ label +:+ "值无效"));
           Ok (v, v)
       end.

(** and the whole body: the values the token adds. *)
Definition parse_token (minimum maximum : Z) (label : string) (normalize_weekday : bool)
  (token : pytext) : result (list Z) :=
  raise_if (bool_decide (token = [])) (ScheduleExpressionError ("Cron " +:+ label +:+ "字段格式无效"));;
  p ← parse_step minimum maximum label token;
  r ← parse_bounds minimum maximum label p.1;
  let allowed_maximum := if normalize_weekday then 7 else maximum in
  raise_if ((r.1 <? minimum) || (allowed_maximum <? r.2) || (r.2 <? r.1))
    (ScheduleExpressionError ("Cron " +:+ label +:+ "值超出范围"));;
  Ok ((fun v => if normalize_weekday && (v =? 7) then 0 else v)
        <$> py_range r.1 (r.2 + 1) p.2).

Definition parse_field (source : pytext) (minimum maximum : Z) (label : string)
  (normalize_weekday : bool) : result (gset Z * bool) :=
  values ← map_result (parse_token minimum maximum label normalize_weekday) (split_on 44 source);
  Ok (list_to_set (mjoin values), bool_decide (source = star)).

Definition parse_cron (expression : pytext) : result CronSpec :=
  let normalized := join 32 (words (strip expression)) in
  match split_on 32 normalized with
  | [f0; f1; f2; f3; f4] =>
      '(minutes, _) ← parse_field f0 0 59 "分钟" false;
      '(hours, _) ← parse_field f1 0 23 "小时" false;
      '(days, day_wildcard) ← parse_field f2 1 31 "日期" false;
      '(months, _) ← parse_field f3 1 12 "月份" false;
      '(weekdays, weekday_wildcard) ← parse_field f4 0 6 "星期" true;
      Ok {| minutes := minutes; hours := hours; days := days; months := months;
            weekdays := weekdays; day_wildcard := day_wildcard;
            weekday_wildcard := weekday_wildcard |}
  | _ => Err (ScheduleExpressionError "Cron 必须是 5 段表达式：分 时 日 月 周")
  end.

(** ** Time zones *)

Definition minute_us : Z := 60 * 1000000.
Definition day_us : Z := 1440 * minute_us.

(** What [datetime] asks a [ZoneInfo]: the offset in force at an instant, and the
    offset of a wall-clock time, which for an ambiguous time is that of its first
    occurrence ([fold=0]). *)
Record Zone := { offset_at : Z -> Z; offset_of_local : Z -> Z }.

Definition to_utc (z : Zone) (l : Z) : Z := l - offset_of_local z l.
Definition to_local (z : Zone) (i : Z) : Z := i + offset_at z i.

(** A wall-clock time that exists (is not skipped when clocks go forward). *)
Definition exists_local (z : Zone) (l : Z) : Prop := to_local z (to_utc z l) = l.

(** The time zone database; [None] for [ZoneInfoNotFoundError] or [ValueError]. *)
Class ZoneDatabase := zone_info : pytext -> option Zone.

(** What PEP 495 promises of a zone: wall-clock times read with [fold=0] follow
    each other in the order of their instants, and the wall-clock time of an
    instant exists and, read with [fold=0], is the earliest instant showing it. *)
Class ZoneLaws (z : Zone) : Prop := {
  to_utc_increasing l1 l2 :
    exists_local z l1 -> exists_local z l2 -> l1 < l2 -> to_utc z l1 < to_utc z l2;
  to_local_exists i : exists_local z (to_local z i);
  to_utc_earliest i : to_utc z (to_local z i) <= i }.

(** A Python [datetime]: naive, or aware with its offset from UTC. *)
Inductive pydatetime := Naive (us : Z) | Aware (us offset : Z).

Definition as_utc_naive (value : pydatetime) : Z :=
  match value with Naive us => us | Aware us offset => us - offset end.

Definition time_us (t : time) : Z := (hour t * 60 + minute t) * minute_us.
Definition combine (n : Z) (t : time) : Z := n * day_us + time_us t.

Definition valid_local_candidate (n : Z) (t : time) (z : Zone) : option Z :=
  let utc_candidate := to_utc z (combine n t) in
  let round_trip := to_local z utc_candidate in
  if negb (round_trip / day_us =? n) || negb (round_trip mod day_us =? time_us t)
  then None else Some utc_candidate.

(** ** [next_occurrence] *)

Inductive schedule_type := DAILY | WEEKLY | CRON | UnsupportedType.
#[global] Instance schedule_type_eq_dec : EqDecision schedule_type.
Proof. solve_decision. Defined.

(** The arguments that describe when a schedule fires; also columns of
    [TestSchedule]. *)
Record Expression := {
  e_type : schedule_type;
  e_timezone : pytext;
  e_daily_time : option pytext;
  e_weekdays : option (list Z);
  e_cron : option pytext }.

(** [sorted(s)]. *)
Definition sorted (s : gset Z) : list Z := merge_sort Z.le (elements s).

(** The local variables [times], [allowed_weekdays] and [cron]. *)
Record Firing := {
  times : list time; allowed_weekdays : option (gset Z); cron : option CronSpec }.

Definition iso_days : gset Z := list_to_set [1; 2; 3; 4; 5; 6; 7].

Definition firing_of (e : Expression) : result Firing :=
  match e_type e with
  | DAILY =>
      t ← parse_time (default [] (e_daily_time e));
      Ok {| times := [t]; allowed_weekdays := None; cron := None |}
  | WEEKLY =>
      t ← parse_time (default [] (e_daily_time e));
      let allowed : gset Z := list_to_set (default [] (e_weekdays e)) in
      raise_if (bool_decide (allowed = ∅) || negb (bool_decide (allowed ⊆ iso_days)))
        (ScheduleExpressionError "Weekly 至少选择一个星期，取值为 1 到 7");;
      Ok {| times := [t]; allowed_weekdays := Some allowed; cron := None |}
  | CRON =>
      c ← parse_cron (default [] (e_cron e));
      Ok {| times := sorted (hours c) ≫= (fun h =>
                       (fun m => {| hour := h; minute := m |}) <$> sorted (minutes c));
            allowed_weekdays := None; cron := Some c |}
  | UnsupportedType => Err (ScheduleExpressionError "不支持的调度类型")
  end.

(** The two [continue] guards of the day loop. *)
Definition day_allowed (f : Firing) (n : Z) : bool :=
  match allowed_weekdays f with
  | Some allowed => bool_decide (isoweekday n ∈ allowed)
  | None => true
  end &&
  match cron f with
  | Some c => bool_decide (month (date_of n) ∈ months c) && day_matches c n
  | None => true
  end.

Fixpoint first_some {A B} (f : A -> option B) (l : list A) : option B :=
  match l with
  | [] => None
  | x :: l' => match f x with Some b => Some b | None => first_some f l' end
  end.

Definition candidate (z : Zone) (after_utc n : Z) (t : time) : option Z :=
  match valid_local_candidate n t z with
  | Some c => if after_utc <? c then Some c else None
  | None => None
  end.

Definition search_day (z : Zone) (f : Firing) (after_utc n : Z) : option Z :=
  if day_allowed f n then first_some (candidate z after_utc n) (times f) else None.

Definition HORIZON : Z := 366 * 8.

Section calendar.
Context `{ZoneDatabase}.

Definition validate_timezone (value : pytext) : result pytext :=
  let normalized := strip value in
  match zone_info normalized with
  | Some _ => Ok normalized
  | None => Err (ScheduleExpressionError "无效的 IANA 时区")
  end.

Definition load_zone (timezone : pytext) : result Zone :=
  normalized ← validate_timezone timezone;
  some_or (zone_info normalized) (UnexpectedError "ZoneInfoNotFoundError").

Definition next_occurrence (e : Expression) (after : pydatetime) : result Z :=
  zone ← load_zone (e_timezone e);
  let after_utc := as_utc_naive after in
  let first_day := to_local zone after_utc / day_us in
  f ← firing_of e;
  match first_some (search_day zone f after_utc)
          ((fun offset => first_day + offset) <$> py_range 0 HORIZON 1) with
  | Some c => Ok c
  | None => Err (ScheduleExpressionError "未来 8 年内没有可触发时间，请检查调度表达式")
  end.

(** [preview_schedule]: the next [count] occurrences. *)
Fixpoint preview_schedule (e : Expression) (count : nat) (cursor : pydatetime)
  : result (list Z) :=
  match count with
  | O => Ok []
  | S count =>
      c ← next_occurrence e cursor;
      rest ← preview_schedule e count (Naive c);
      Ok (c :: rest)
  end.

End calendar.
