(* ===== verification/CalendarSearch.v ===== *)
(** Facts about [next_occurrence]: the bounds of what the parsers of [Calendar]
    accept, the order in which candidates are tried, and that the first hit is
    the earliest instant at which the schedule fires. *)
From stdpp Require Import sorting.
From S2P Require Import Prelude PyText Calendar.
Open Scope Z_scope.

(** ** Shape of what the parsers accept *)

Lemma py_range_elem start stop step v :
  0 < step ->
  v ∈ py_range start stop step <-> start <= v < stop /\ (v - start) mod step = 0.
Proof.
  intros Hs. unfold py_range. rewrite list_elem_of_fmap. split.
  - intros (k & -> & Hk). apply elem_of_seq in Hk.
    assert (Z.of_nat k < (stop - start + step - 1) / step) by lia.
    assert ((Z.of_nat k + 1) * step <= stop - start + step - 1).
    { pose proof (Z.mul_div_le (stop - start + step - 1) step Hs). nia. }
    split; [nia|]. replace (start + Z.of_nat k * step - start) with (Z.of_nat k * step) by lia.
    apply Z.mod_mul. lia.
  - intros [Hr Hm]. exists (Z.to_nat ((v - start) / step)).
    pose proof (Z.div_mod (v - start) step ltac:(lia)) as Hd. rewrite Hm in Hd.
    pose proof (Z.div_pos (v - start) step ltac:(lia) Hs). split.
    + rewrite Z2Nat.id by done. lia.
    + apply elem_of_seq. split; [lia|]. cbn [Nat.add]. apply Z2Nat.inj_lt; [done | |].
      * apply Z.div_pos; lia.
      * apply Z.lt_le_trans with ((v - start) / step + 1); [lia|].
        apply Z.div_le_lower_bound; lia.
Qed.

Lemma py_range_start start stop step :
  0 < step -> start < stop -> start ∈ py_range start stop step.
Proof. intros. apply py_range_elem; [done|]. rewrite Z.sub_diag, Z.mod_0_l; lia. Qed.

Lemma parse_step_pos lo hi label token p : parse_step lo hi label token = Ok p -> 0 < p.2.
Proof.
  unfold parse_step. intros H. destruct (partition_on 47 token) as [[b st]|]; inv_ok; cbn; lia.
Qed.

(** The values a token contributes. *)
Lemma parse_token_bounds lo hi label w token vs :
  (w = true -> lo = 0 /\ hi = 6) ->
  parse_token lo hi label w token = Ok vs ->
  vs <> [] /\ Forall (fun v => lo <= v <= hi) vs.
Proof.
  unfold parse_token. intros Hw H. inv_ok.
  match goal with E : parse_step _ _ _ _ = Ok ?p |- _ =>
    pose proof (parse_step_pos _ _ _ _ _ E); destruct p as [base step] end.
  match goal with G : (_ || _ || _) = false |- _ => rename G into Hr end.
  destruct a1 as [start end_]. cbn [fst snd] in *. split.
  - intros Hnil%fmap_nil_inv. pose proof (py_range_start start (end_ + 1) step) as Hin.
    rewrite Hnil in Hin. apply not_elem_of_nil in Hin; lia.
  - apply Forall_fmap, Forall_forall. intros v Hv%py_range_elem; [|done].
    cbn. destruct w; cbn [andb]; [destruct (Hw eq_refl), (v =? 7) eqn:E7|]; lia.
Qed.

Lemma parse_field_bounds source lo hi label w vs wild :
  (w = true -> lo = 0 /\ hi = 6) ->
  parse_field source lo hi label w = Ok (vs, wild) ->
  vs <> ∅ /\ (forall v, v ∈ vs -> lo <= v <= hi).
Proof.
  unfold parse_field. intros Hw H. inv_ok. rename E into Ev.
  assert (Forall (fun l => l <> [] /\ Forall (fun v => lo <= v <= hi) l) a) as Hall.
  { eapply map_result_Forall; [exact Ev|]. intros. by eapply parse_token_bounds. }
  split.
  - assert (a <> []) as Ha.
    { intros ->. apply map_result_ok in Ev. destruct (split_on 44 source) eqn:Es;
        [|by inversion Ev]. revert Es. clear. destruct source as [|c s]; cbn; [done|].
      destruct (c =? 44)%N; [done|]. by destruct (split_on 44 s). }
    destruct a as [|l a]; [done|]. inversion Hall as [|? ? [Hl _]]; subst.
    destruct l as [|v l]; [done|]. cbn. set_solver.
  - intros v Hv. apply elem_of_list_to_set, list_elem_of_join in Hv as (l & Hv & Hl).
    rewrite Forall_forall in Hall. destruct (Hall _ Hl) as [_ Hb].
    rewrite Forall_forall in Hb. by apply Hb.
Qed.

Record cron_wf (c : CronSpec) : Prop := {
  cron_minutes : minutes c <> ∅ /\ forall v, v ∈ minutes c -> 0 <= v <= 59;
  cron_hours : hours c <> ∅ /\ forall v, v ∈ hours c -> 0 <= v <= 23;
  cron_days : days c <> ∅ /\ forall v, v ∈ days c -> 1 <= v <= 31;
  cron_months : months c <> ∅ /\ forall v, v ∈ months c -> 1 <= v <= 12;
  cron_weekdays : weekdays c <> ∅ /\ forall v, v ∈ weekdays c -> 0 <= v <= 6 }.

Lemma parse_cron_wf expression c : parse_cron expression = Ok c -> cron_wf c.
Proof.
  unfold parse_cron.
  destruct (split_on 32 _) as [|f0 [|f1 [|f2 [|f3 [|f4 [|]]]]]]; try discriminate. intros H.
  inv_ok. destruct a as [vm bm]. inv_ok. destruct a as [vh bh]. inv_ok. destruct a as [vd bd].
  inv_ok. destruct a as [vmo bmo]. inv_ok. destruct a as [vw bw]. inv_ok.
  split; cbn [minutes hours days months weekdays]; eapply parse_field_bounds; eauto; discriminate.
Qed.

Lemma digit_value_bounds c d : digit_value c = Some d -> 0 <= d <= 9.
Proof.
  unfold digit_value. induction digit_zeros as [|z zs IH]; cbn; [done|].
  destruct (_ && _) eqn:E; [|done]. intros [= <-]. lia.
Qed.

Definition time_ok (t : time) : Prop := 0 <= hour t <= 23 /\ 0 <= minute t <= 59.

(** Case analysis on the alternatives of a [strptime] directive. *)
Ltac digit_cases :=
  repeat match goal with
  | H : _ ∈ _ ++ _ |- _ => apply elem_of_app in H as [H|H]
  | H : _ ∈ [] |- _ => by apply not_elem_of_nil in H
  | H : _ ∈ [_] |- _ => apply list_elem_of_singleton in H; simplify_eq
  | H : digit_value _ = Some _ |- _ => apply digit_value_bounds in H
  | H : _ ∈ match ?x with _ => _ end |- _ => destruct x eqn:?
  | H : _ ∈ (if ?x then _ else _) |- _ => destruct x eqn:?
  end.

Lemma hour_matches_bounds s h r : (h, r) ∈ hour_matches s -> 0 <= h <= 23.
Proof. unfold hour_matches. intros H. digit_cases; lia. Qed.

Lemma minute_matches_bounds s m r : (m, r) ∈ minute_matches s -> 0 <= m <= 59.
Proof. unfold minute_matches. intros H. digit_cases; lia. Qed.

Lemma parse_time_ok value t : parse_time value = Ok t -> time_ok t.
Proof.
  unfold parse_time. destruct (match_time value) as [[t' [|]]|] eqn:E; try discriminate.
  intros [= ->]. unfold match_time in E. apply head_Some_elem_of, list_elem_of_bind in E
    as ((h & r) & Hm & Hh).
  destruct r as [|c r]; [by apply not_elem_of_nil in Hm|].
  destruct (c =? 58)%N; [|by apply not_elem_of_nil in Hm].
  apply list_elem_of_fmap in Hm as ([m rest] & [= -> <-] & Hmin).
  split; cbn; eauto using hour_matches_bounds, minute_matches_bounds.
Qed.

(** ** Order of the candidates *)

Lemma sorted_elem s v : v ∈ sorted s <-> v ∈ s.
Proof. unfold sorted. by rewrite merge_sort_Permutation, elem_of_elements. Qed.

Lemma sorted_strict s : StronglySorted Z.lt (sorted s).
Proof.
  assert (StronglySorted Z.le (sorted s)) as Hs.
  { apply Sorted_StronglySorted; [exact Z.le_trans|].
    apply Sorted_merge_sort. intros x y. lia. }
  assert (NoDup (sorted s)) as Hn.
  { unfold sorted. rewrite merge_sort_Permutation. apply NoDup_elements. }
  induction Hs as [|x l Hs IH Hx]; constructor.
  - apply IH. by inversion Hn.
  - apply NoDup_cons in Hn as [Hx' _]. rewrite Forall_forall in *. intros y Hy.
    specialize (Hx y Hy). assert (x <> y) by (intros ->; done). lia.
Qed.

Lemma StronglySorted_app_intro {A} (R : A -> A -> Prop) l1 l2 :
  StronglySorted R l1 -> StronglySorted R l2 -> (forall x y, x ∈ l1 -> y ∈ l2 -> R x y) ->
  StronglySorted R (l1 ++ l2).
Proof.
  intros H1 H2 H12. induction H1 as [|x l H1 IH Hx]; cbn; [done|]. constructor.
  - apply IH. intros; apply H12; [by right | done].
  - apply Forall_app. split; [done|]. apply Forall_forall. intros. apply H12; [by left|done].
Qed.

Definition time_lt (a b : time) : Prop := time_us a < time_us b.

Lemma cron_times_sorted (hs ms : list Z) :
  StronglySorted Z.lt hs -> StronglySorted Z.lt ms -> Forall (fun m => 0 <= m <= 59) ms ->
  StronglySorted time_lt (hs ≫= fun h => (fun m => {| hour := h; minute := m |}) <$> ms).
Proof.
  intros Hh Hm Hb. induction Hh as [|h hs Hh IH Hhs]; cbn; [constructor|].
  apply StronglySorted_app_intro; [| exact IH |].
  - clear -Hm. induction Hm as [|m ms Hm IH Hms]; cbn; [constructor|]. constructor; [done|].
    apply Forall_fmap. eapply Forall_impl; [exact Hms|]. intros m' Hlt.
    unfold time_lt, time_us, minute_us; cbn. lia.
  - intros x y Hx Hy. apply list_elem_of_fmap in Hx as (m & -> & Hmx).
    apply list_elem_of_bind in Hy as (h' & Hy & Hh').
    apply list_elem_of_fmap in Hy as (m' & -> & Hmy).
    rewrite Forall_forall in Hb, Hhs. specialize (Hhs _ Hh').
    pose proof (Hb _ Hmx). pose proof (Hb _ Hmy).
    unfold time_lt, time_us, minute_us; cbn. lia.
Qed.

Record firing_wf (f : Firing) : Prop := {
  firing_times_ok : Forall time_ok (times f);
  firing_times_sorted : StronglySorted time_lt (times f) }.

Lemma firing_of_wf e f : firing_of e = Ok f -> firing_wf f.
Proof.
  unfold firing_of. destruct (e_type e); intros H; inv_ok; try discriminate.
  1-2: split; cbn; repeat constructor; eauto using parse_time_ok.
  all: try (by eapply parse_time_ok).
  pose proof (parse_cron_wf _ _ E) as [Hm Hh _ _ _]. split; cbn [times].
  - apply Forall_forall. intros t (h & Ht & Hin)%list_elem_of_bind.
    apply list_elem_of_fmap in Ht as (m & -> & Hmm). rewrite sorted_elem in Hin, Hmm.
    split; cbn; [by apply Hh | by apply Hm].
  - apply cron_times_sorted; eauto using sorted_strict.
    apply Forall_forall. intros m Hmm%sorted_elem. by apply Hm.
Qed.

(** ** What [next_occurrence] computes *)

(** The schedule fires at instant [i]: it is the instant of an existing wall-clock
    time on an allowed day. *)
Definition fires (z : Zone) (f : Firing) (i : Z) : Prop :=
  exists n t, day_allowed f n = true /\ t ∈ times f
              /\ exists_local z (combine n t) /\ i = to_utc z (combine n t).

Lemma time_us_bounds t : time_ok t -> 0 <= time_us t < day_us.
Proof. intros [? ?]. unfold time_us, day_us, minute_us. lia. Qed.

Lemma combine_split n t :
  time_ok t -> combine n t / day_us = n /\ combine n t mod day_us = time_us t.
Proof.
  intros Ht%time_us_bounds. unfold combine. split.
  - rewrite Z.div_add_l by (unfold day_us, minute_us; lia). rewrite Z.div_small by done. lia.
  - rewrite Z.add_comm, Z.mod_add by (unfold day_us, minute_us; lia). by apply Z.mod_small.
Qed.

Lemma combine_lt n t n' t' :
  time_ok t -> time_ok t' ->
  combine n t < combine n' t' <-> n < n' \/ (n = n' /\ time_us t < time_us t').
Proof.
  intros H1%time_us_bounds H2%time_us_bounds. unfold combine.
  assert (0 < day_us) by (unfold day_us, minute_us; lia). nia.
Qed.

Lemma valid_local_candidate_spec n t z c :
  time_ok t ->
  valid_local_candidate n t z = Some c <->
  exists_local z (combine n t) /\ c = to_utc z (combine n t).
Proof.
  intros Ht. unfold valid_local_candidate, exists_local.
  destruct (combine_split n t Ht) as [Hq Hr]. set (l := to_local z _).
  destruct (_ || _) eqn:E.
  - split; [done|]. intros [Hl _]. rewrite Hl, Hq, Hr in E. lia.
  - split; [intros [= <-]; split; [|done] | by intros [_ ->]].
    pose proof (Z.div_mod l day_us ltac:(unfold day_us, minute_us; lia)) as Hl.
    unfold combine in *. lia.
Qed.

Lemma candidate_spec z a n t c :
  time_ok t ->
  candidate z a n t = Some c <->
  exists_local z (combine n t) /\ c = to_utc z (combine n t) /\ a < c.
Proof.
  intros Ht. unfold candidate. pose proof (valid_local_candidate_spec n t z) as Hv.
  destruct (valid_local_candidate n t z) as [c'|].
  - destruct (proj1 (Hv c' Ht) eq_refl) as [He ->]. destruct (a <? _) eqn:E.
    + split; [intros [= <-]; split_and!; [done..|lia] | by intros (_ & -> & _)].
    + split; [done | intros (_ & -> & ?); lia].
  - split; [done|]. intros (He & -> & _). by apply Hv.
Qed.

Lemma first_some_Some {A B} (f : A -> option B) l b :
  first_some f l = Some b ->
  exists l1 x l2, l = l1 ++ x :: l2 /\ f x = Some b /\ Forall (fun y => f y = None) l1.
Proof.
  induction l as [|x l IH]; cbn; [done|]. destruct (f x) as [b'|] eqn:E.
  - intros [= ->]. by exists [], x, l.
  - intros (l1 & y & l2 & -> & Hy & Hn)%IH. exists (x :: l1), y, l2. split_and!; [done..|].
    by constructor.
Qed.

Lemma first_some_None {A B} (f : A -> option B) l :
  first_some f l = None <-> Forall (fun y => f y = None) l.
Proof.
  induction l as [|x l IH]; cbn; [by split|]. destruct (f x) eqn:E.
  - split; [done|]. intros Hf. inversion Hf; congruence.
  - rewrite IH. split; [by constructor | by inversion 1].
Qed.

Section search.
Context (z : Zone) `{!ZoneLaws z} (f : Firing) (Hf : firing_wf f) (a : Z).

Let first_day := to_local z a / day_us.

Lemma times_ok t : t ∈ times f -> time_ok t.
Proof. destruct Hf as [Ht _]. rewrite Forall_forall in Ht. apply Ht. Qed.

(** Wall-clock times of earlier days are over. *)
Lemma past_day n t :
  t ∈ times f -> n < first_day -> exists_local z (combine n t) -> to_utc z (combine n t) <= a.
Proof.
  intros Ht Hn He. pose proof (time_us_bounds t (times_ok t Ht)).
  assert (combine n t < to_local z a).
  { unfold first_day, combine in *.
    pose proof (Z.mul_div_le (to_local z a) day_us ltac:(unfold day_us, minute_us; lia)).
    assert (0 < day_us) by (unfold day_us, minute_us; lia). nia. }
  pose proof (to_utc_increasing _ _ He (to_local_exists a) H0).
  pose proof (to_utc_earliest a). lia.
Qed.

Lemma search_day_None n :
  search_day z f a n = None <->
  (day_allowed f n = true -> forall t, t ∈ times f -> exists_local z (combine n t) ->
     to_utc z (combine n t) <= a).
Proof.
  unfold search_day. destruct (day_allowed f n); [|by split].
  rewrite first_some_None, Forall_forall. split.
  - intros Hn _ t Ht He. specialize (Hn t Ht). apply Z.nlt_ge. intros Hlt.
    assert (candidate z a n t = Some (to_utc z (combine n t))); [|congruence].
    by apply candidate_spec; [apply times_ok|].
  - intros Hn t Ht. destruct (candidate z a n t) as [c|] eqn:E; [|done].
    apply candidate_spec in E as (He & -> & Hlt); [|by apply times_ok].
    specialize (Hn eq_refl t Ht He). lia.
Qed.

(** The first hit on a day is the day's earliest wall-clock time that is left. *)
Lemma search_day_Some n c :
  search_day z f a n = Some c ->
  exists t, day_allowed f n = true /\ t ∈ times f /\ exists_local z (combine n t)
    /\ c = to_utc z (combine n t) /\ a < c
    /\ forall t', t' ∈ times f -> exists_local z (combine n t') -> time_us t' < time_us t ->
         to_utc z (combine n t') <= a.
Proof.
  unfold search_day. destruct (day_allowed f n); [|done]. intros H.
  destruct Hf as [_ Hs].
  destruct (first_some_Some _ _ _ H) as (l1 & t & l2 & Hl & Hc & Hn).
  assert (t ∈ times f) as Ht by (rewrite Hl; set_solver).
  apply candidate_spec in Hc as (He & -> & Hlt); [|by apply times_ok].
  exists t. split_and!; try done. intros t' Ht' He' Hlt'.
  assert (t' ∈ l1) as Hin.
  { rewrite Hl in Ht', Hs. apply elem_of_app in Ht' as [|Ht']; [done|].
    apply StronglySorted_app_1_r in Hs. apply StronglySorted_inv in Hs as [_ Hall].
    rewrite Forall_forall in Hall.
    apply elem_of_cons in Ht' as [->|Ht']; [lia|]. specialize (Hall _ Ht').
    unfold time_lt in Hall. lia. }
  rewrite Forall_forall in Hn. specialize (Hn _ Hin). apply Z.nlt_ge. intros ?.
  assert (candidate z a n t' = Some (to_utc z (combine n t'))); [|congruence].
  by apply candidate_spec; [apply times_ok|].
Qed.

Definition search_days : list Z := (fun offset => first_day + offset) <$> py_range 0 HORIZON 1.

Lemma search_days_elem n : n ∈ search_days <-> first_day <= n < first_day + HORIZON.
Proof.
  unfold search_days. rewrite list_elem_of_fmap. split.
  - intros (k & -> & Hk%py_range_elem); lia.
  - intros Hn. exists (n - first_day). split; [lia|]. apply py_range_elem; [lia|].
    rewrite Z.mod_1_r. lia.
Qed.

Lemma search_days_split l1 n l2 n' :
  search_days = l1 ++ n :: l2 -> first_day <= n' < n -> n' ∈ l1.
Proof.
  intros Hl Hn.
  assert (StronglySorted Z.lt search_days) as Hs.
  { unfold search_days, py_range. rewrite <-list_fmap_compose.
    generalize 0%nat. induction (Z.to_nat _) as [|k IH]; intros o; cbn; constructor; [apply IH|].
    apply Forall_fmap, Forall_forall. intros j Hj%elem_of_seq. cbn. lia. }
  assert (n ∈ search_days) as Hin by (rewrite Hl; set_solver).
  assert (n' ∈ search_days) as Hin'.
  { apply search_days_elem. apply search_days_elem in Hin. lia. }
  rewrite Hl in Hin', Hs. apply elem_of_app in Hin' as [|Hin']; [done|].
  apply StronglySorted_app_1_r, StronglySorted_inv in Hs as [_ Hall].
  rewrite Forall_forall in Hall.
  apply elem_of_cons in Hin' as [->|Hin']; [lia|]. specialize (Hall _ Hin'). lia.
Qed.

Lemma search_least c :
  first_some (search_day z f a) search_days = Some c ->
  fires z f c /\ a < c /\ forall i, fires z f i -> a < i -> c <= i.
Proof.
  intros (l1 & n & l2 & Hl & Hc & Hn)%first_some_Some.
  apply search_day_Some in Hc as (t & Hd & Ht & He & -> & Hlt & Hbefore).
  split_and!; [by exists n, t | done |]. intros i (n' & t' & Hd' & Ht' & He' & ->) Hi.
  pose proof (combine_lt n' t' n t (times_ok _ Ht') (times_ok _ Ht)) as Hcmp.
  destruct (Z.lt_ge_cases (combine n' t') (combine n t)) as [Hc|Hc].
  - apply Hcmp in Hc as [Hc|[-> Hc]].
    + destruct (Z.lt_ge_cases n' first_day) as [Hf'|Hf'].
      * pose proof (past_day _ _ Ht' Hf' He'). lia.
      * rewrite Forall_forall in Hn.
        pose proof (Hn n' (search_days_split _ _ _ _ Hl (conj Hf' Hc))) as Hnone.
        rewrite search_day_None in Hnone. specialize (Hnone Hd' _ Ht' He'). lia.
    + specialize (Hbefore _ Ht' He' Hc). lia.
  - destruct (Z.eq_dec (combine n' t') (combine n t)) as [->|]; [lia|].
    pose proof (to_utc_increasing _ _ He He' ltac:(lia)). lia.
Qed.

Lemma search_none :
  first_some (search_day z f a) search_days = None <->
  forall n t, first_day <= n < first_day + HORIZON -> day_allowed f n = true -> t ∈ times f ->
    exists_local z (combine n t) -> to_utc z (combine n t) <= a.
Proof.
  rewrite first_some_None, Forall_forall. split.
  - intros H n t Hn Hd Ht He. apply search_days_elem, H in Hn.
    rewrite search_day_None in Hn. by apply Hn.
  - intros H n Hn%search_days_elem. apply search_day_None. intros. by apply H.
Qed.

End search.
