(* ===== verification/CronText.v ===== *)
(** Cron expressions as text: a printer for structured cron fields, what they
    denote, and that [parse_cron] reads back what was printed. *)
From S2P Require Import Prelude PyText Calendar CalendarSearch.
Open Scope Z_scope.

(** ** Printing cron expressions *)

Inductive cron_base := Every | Only (a : Z) | Between (a b : Z).
Record cron_item := { item_base : cron_base; item_step : option Z }.

Definition decimal (v : Z) : pytext :=
  if v <? 10 then [48 + Z.to_N v]%N else [48 + Z.to_N (v / 10); 48 + Z.to_N (v mod 10)]%N.

Definition print_base (b : cron_base) : pytext :=
  match b with
  | Every => star
  | Only a => decimal a
  | Between a b => decimal a ++ 45%N :: decimal b
  end.

Definition print_item (i : cron_item) : pytext :=
  print_base (item_base i) ++
  match item_step i with Some s => 47%N :: decimal s | None => [] end.

Definition print_field (items : list cron_item) : pytext := join 44 (print_item <$> items).
Definition print_cron (fields : list (list cron_item)) : pytext := join 32 (print_field <$> fields).

Definition base_range (lo hi : Z) (b : cron_base) : Z * Z :=
  match b with Every => (lo, hi) | Only a => (a, a) | Between a b => (a, b) end.

(** The range of a field and whether it is the day of the week, where 7 is a
    second name of Sunday. *)
Record field_kind := { f_lo : Z; f_hi : Z; f_weekday : bool }.
Definition field_kinds : list field_kind :=
  [{| f_lo := 0; f_hi := 59; f_weekday := false |}; {| f_lo := 0; f_hi := 23; f_weekday := false |};
   {| f_lo := 1; f_hi := 31; f_weekday := false |}; {| f_lo := 1; f_hi := 12; f_weekday := false |};
   {| f_lo := 0; f_hi := 6; f_weekday := true |}].

Definition item_wf (k : field_kind) (i : cron_item) : bool :=
  let r := base_range (f_lo k) (f_hi k) (item_base i) in
  (f_lo k <=? r.1) && (r.1 <=? r.2) && (r.2 <=? (if f_weekday k then 7 else f_hi k))
  && match item_step i with
     | Some s => (1 <=? s) && (s <=? f_hi k - f_lo k + 1)
     | None => true
     end.

Definition field_wf (k : field_kind) (items : list cron_item) : bool :=
  negb (bool_decide (items = [])) && forallb (item_wf k) items.

(** The values an item stands for: every [step]-th value of its range. *)
Definition item_denotes (k : field_kind) (i : cron_item) (v : Z) : Prop :=
  let r := base_range (f_lo k) (f_hi k) (item_base i) in
  exists x, r.1 <= x <= r.2 /\ (x - r.1) mod (default 1 (item_step i)) = 0
            /\ v = (if f_weekday k && (x =? 7) then 0 else x).

Definition field_denotes (k : field_kind) (items : list cron_item) (v : Z) : Prop :=
  exists i, i ∈ items /\ item_denotes k i v.

#[global] Instance cron_base_eq_dec : EqDecision cron_base.
Proof. solve_decision. Defined.
#[global] Instance cron_item_eq_dec : EqDecision cron_item.
Proof. solve_decision. Defined.
Definition unrestricted (items : list cron_item) : bool :=
  bool_decide (items = [{| item_base := Every; item_step := None |}]).

(** The characters of a printed item. *)
Definition item_char (c : N) : bool :=
  ((48 <=? c) && (c <=? 57) || (c =? 42) || (c =? 45) || (c =? 47))%N.
Definition digit_char (c : N) : bool := ((48 <=? c) && (c <=? 57))%N.

Lemma decimal_checked :
  forallb (fun n => let v := Z.of_nat n in
                    bool_decide (py_int (decimal v) = Some v) && forallb digit_char (decimal v)
                    && negb (bool_decide (decimal v = []))) (seq 0 100) = true.
Proof. vm_compute. reflexivity. Qed.

Lemma decimal_spec v :
  0 <= v < 100 ->
  py_int (decimal v) = Some v /\ Forall (fun c => digit_char c = true) (decimal v)
  /\ decimal v <> [].
Proof.
  intros Hv. pose proof decimal_checked as H. rewrite forallb_forall in H.
  specialize (H (Z.to_nat v)). rewrite Z2Nat.id in H by lia.
  rewrite !andb_true_iff, forallb_forall, negb_true_iff, bool_decide_eq_true,
    bool_decide_eq_false in H.
  destruct H as [[H1 H2] H3]; [apply in_seq; lia|]. split_and!; [done| |done].
  apply Forall_forall. intros c Hc. by apply H2, list_elem_of_In.
Qed.

Lemma partition_on_app sep a b :
  Forall (fun c => c <> sep) a -> partition_on sep (a ++ sep :: b) = Some (a, b).
Proof.
  induction 1 as [|c a Hc Ha IH]; cbn; [by rewrite N.eqb_refl|].
  rewrite (proj2 (N.eqb_neq c sep)) by done. by rewrite IH.
Qed.

Lemma partition_on_none sep a : Forall (fun c => c <> sep) a -> partition_on sep a = None.
Proof.
  induction 1 as [|c a Hc Ha IH]; cbn; [done|].
  rewrite (proj2 (N.eqb_neq c sep)) by done. by rewrite IH.
Qed.

Lemma split_on_app sep w s :
  Forall (fun c => c <> sep) w -> split_on sep (w ++ sep :: s) = w :: split_on sep s.
Proof.
  induction 1 as [|c w Hc Hw IH]; cbn; [by rewrite N.eqb_refl|].
  rewrite (proj2 (N.eqb_neq c sep)) by done. by rewrite IH.
Qed.

Lemma split_on_word sep w : Forall (fun c => c <> sep) w -> split_on sep w = [w].
Proof.
  induction 1 as [|c w Hc Hw IH]; cbn; [done|].
  rewrite (proj2 (N.eqb_neq c sep)) by done. by rewrite IH.
Qed.

Lemma split_on_join sep ws :
  ws <> [] -> Forall (Forall (fun c => c <> sep)) ws -> split_on sep (join sep ws) = ws.
Proof.
  intros Hne Hws. induction Hws as [|w ws Hw Hws IH]; [done|]. destruct ws as [|w' ws].
  - by apply split_on_word.
  - change (join sep (w :: w' :: ws)) with (w ++ sep :: join sep (w' :: ws)).
    by rewrite split_on_app, IH.
Qed.

Definition kind_ok (k : field_kind) : Prop :=
  0 <= f_lo k <= f_hi k /\ f_hi k <= 59 /\ (f_weekday k = true -> f_hi k = 6).

Lemma field_kinds_ok k : k ∈ field_kinds -> kind_ok k.
Proof.
  intros Hk. unfold field_kinds in Hk.
  repeat (apply elem_of_cons in Hk as [->|Hk]; [repeat split; cbn; done || lia|]).
  by apply not_elem_of_nil in Hk.
Qed.

Lemma digits_avoid v c :
  0 <= v < 100 -> digit_char c = false -> Forall (fun x => x <> c) (decimal v).
Proof.
  intros (_ & Hd & _)%decimal_spec Hc. eapply Forall_impl; [exact Hd|].
  intros x Hx ->. congruence.
Qed.

Section item.
Context (k : field_kind) (Hk : kind_ok k) (i : cron_item) (Hi : item_wf k i = true).

Lemma item_ranges :
  let r := base_range (f_lo k) (f_hi k) (item_base i) in
  f_lo k <= r.1 <= r.2 /\ r.2 <= (if f_weekday k then 7 else f_hi k)
  /\ (forall s, item_step i = Some s -> 1 <= s <= f_hi k - f_lo k + 1).
Proof.
  destruct Hk as (? & ? & _). unfold item_wf in Hi. cbn zeta in *.
  split_and!; try lia. intros s Hs. rewrite Hs in Hi. lia.
Qed.

Lemma print_base_chars : Forall (fun c => item_char c = true /\ c <> 47%N) (print_base (item_base i)).
Proof.
  destruct Hk as (? & ? & ?). destruct item_ranges as (Hr & Hr2 & _).
  assert (forall v, 0 <= v < 100 ->
            Forall (fun c => item_char c = true /\ c <> 47%N) (decimal v)) as Hd.
  { intros v (_ & Hv & _)%decimal_spec. eapply Forall_impl; [exact Hv|].
    intros c. unfold digit_char, item_char. lia. }
  destruct (item_base i) as [|a|a b]; cbn in *.
  - repeat constructor; done.
  - apply Hd. destruct (f_weekday k); lia.
  - apply Forall_app; split; [apply Hd; destruct (f_weekday k); lia|]. constructor; [done|].
    apply Hd. destruct (f_weekday k); lia.
Qed.

Lemma print_item_chars : Forall (fun c => item_char c = true) (print_item i) /\ print_item i <> [].
Proof.
  destruct Hk as (? & ? & ?). destruct item_ranges as (Hr & Hr2 & Hs). split.
  - apply Forall_app; split.
    + eapply Forall_impl; [apply print_base_chars|]. tauto.
    + destruct (item_step i) as [s|]; [|constructor]. specialize (Hs s eq_refl).
      constructor; [done|]. destruct (decimal_spec s) as (_ & Hd & _); [lia|].
      eapply Forall_impl; [exact Hd|]. intros c. unfold digit_char, item_char. lia.
  - unfold print_item. intros [Hb _]%app_nil. destruct (item_base i) as [|a|a b]; cbn in *.
    + done.
    + destruct (decimal_spec a) as (_ & _ & Hn); [destruct (f_weekday k); lia | done].
    + by apply app_nil in Hb as [_ ?].
Qed.

Lemma parse_step_print label :
  parse_step (f_lo k) (f_hi k) label (print_item i)
  = Ok (print_base (item_base i), default 1 (item_step i)).
Proof.
  destruct Hk as (? & ? & ?). destruct item_ranges as (_ & _ & Hs).
  assert (Forall (fun c => c <> 47%N) (print_base (item_base i))) as Hb.
  { eapply Forall_impl; [apply print_base_chars|]. tauto. }
  unfold parse_step, print_item. destruct (item_step i) as [s|].
  - specialize (Hs s eq_refl). rewrite partition_on_app by done.
    destruct (decimal_spec s) as (-> & _); [lia|]. cbn [some_or mbind result_bind].
    unfold raise_if. replace (_ || _) with false by lia. done.
  - rewrite app_nil_r, partition_on_none by done. done.
Qed.

Lemma decimal_not_star v : 0 <= v < 100 -> decimal v <> star.
Proof.
  intros (_ & Hd & _)%decimal_spec Heq. rewrite Heq in Hd. by inversion Hd.
Qed.

Lemma parse_bounds_print label :
  parse_bounds (f_lo k) (f_hi k) label (print_base (item_base i))
  = Ok (base_range (f_lo k) (f_hi k) (item_base i)).
Proof.
  destruct Hk as (? & ? & ?). destruct item_ranges as (Hr & Hr2 & _).
  unfold parse_bounds. destruct (item_base i) as [|a|a b]; cbn [print_base base_range fst snd] in *.
  - by rewrite bool_decide_true.
  - assert (0 <= a < 100) as Ha by (destruct (f_weekday k); lia).
    rewrite bool_decide_false by (by apply decimal_not_star).
    rewrite partition_on_none by (by apply digits_avoid).
    destruct (decimal_spec a Ha) as (-> & _). done.
  - assert (0 <= a < 100 /\ 0 <= b < 100) as [Ha Hb] by (destruct (f_weekday k); lia).
    rewrite bool_decide_false.
    2:{ intros Heq. destruct (decimal_spec a Ha) as (_ & _ & Hn).
        destruct (decimal a) as [|c [|]]; [done| |]; by simplify_eq/=. }
    rewrite partition_on_app by (by apply digits_avoid).
    destruct (decimal_spec a Ha) as (-> & _), (decimal_spec b Hb) as (-> & _). done.
Qed.

Lemma parse_token_print label :
  exists vs, parse_token (f_lo k) (f_hi k) label (f_weekday k) (print_item i) = Ok vs
             /\ forall v, v ∈ vs <-> item_denotes k i v.
Proof.
  unfold parse_token. destruct print_item_chars as [_ Hne]. destruct item_ranges as (Hr & Hr2 & Hs).
  rewrite bool_decide_false by done. cbn [raise_if mbind result_bind].
  rewrite parse_step_print. cbn [mbind result_bind fst snd].
  rewrite parse_bounds_print. cbn [mbind result_bind].
  unfold item_denotes. cbn zeta in *. set (r := base_range _ _ _) in *.
  assert (0 < default 1 (item_step i)).
  { destruct (item_step i) as [s|]; cbn; [specialize (Hs s eq_refl)|]; lia. }
  unfold raise_if. replace (_ || _) with false by (destruct (f_weekday k); lia).
  cbn [mbind result_bind]. eexists; split; [done|]. intros v.
  rewrite list_elem_of_fmap. split.
  - intros (x & -> & Hx%py_range_elem); [|done]. exists x. split; [lia|]. by split; [apply Hx|].
  - intros (x & Hx & Hm & ->). exists x. split; [done|]. apply py_range_elem; [done|]. lia.
Qed.
End item.

Lemma print_field_star k items :
  kind_ok k -> field_wf k items = true ->
  bool_decide (print_field items = star) = unrestricted items.
Proof.
  intros Hk [Hne Hall]%andb_true_iff. rewrite negb_true_iff, bool_decide_eq_false in Hne.
  rewrite forallb_forall in Hall. unfold unrestricted. apply bool_decide_ext. split; [|by intros ->].
  destruct items as [|i [|j rest]]; [done| |].
  - unfold print_field; cbn [fmap list_fmap join]. intros Hp.
    pose proof (item_ranges k Hk i (Hall i ltac:(by left))) as (Hr & Hr2 & _).
    destruct Hk as (? & ? & ?). unfold print_item in Hp.
    destruct i as [b [s|]]; cbn [item_base item_step base_range fst snd] in *.
    + exfalso. destruct (print_base b) as [|c [|]] eqn:Hb; simplify_eq/=.
    + rewrite app_nil_r in Hp. destruct b as [|a|a b]; [done| |]; exfalso; cbn in *.
      * revert Hp. apply decimal_not_star. destruct (f_weekday k); lia.
      * destruct (decimal_spec a) as (_ & _ & Hn); [destruct (f_weekday k); lia|].
        destruct (decimal a) as [|c [|]]; [done| |]; by simplify_eq/=.
  - unfold print_field; cbn [fmap list_fmap]. intros Hp.
    change (join 44 (print_item i :: print_item j :: list_fmap _ _ print_item rest))
      with (print_item i ++ 44%N :: join 44 (print_item <$> j :: rest)) in Hp.
    destruct (print_item i) as [|c [|]]; by simplify_eq/=.
Qed.

Lemma item_char_avoid (c sep : N) : item_char c = true -> item_char sep = false -> c <> sep.
Proof. intros Hc Hs ->. congruence. Qed.

Lemma print_items_chars k items sep :
  kind_ok k -> field_wf k items = true -> item_char sep = false ->
  Forall (Forall (fun c => c <> sep)) (print_item <$> items).
Proof.
  intros Hk [_ Hall]%andb_true_iff Hsep. rewrite forallb_forall in Hall.
  apply Forall_fmap, Forall_forall. intros i Hi%list_elem_of_In. cbn.
  destruct (print_item_chars k Hk i (Hall i Hi)) as [Hc _].
  eapply Forall_impl; [exact Hc|]. intros c Hch. by eapply item_char_avoid.
Qed.

Lemma parse_field_print k items label :
  kind_ok k -> field_wf k items = true ->
  exists vs, parse_field (print_field items) (f_lo k) (f_hi k) label (f_weekday k)
             = Ok (vs, unrestricted items)
             /\ forall v, v ∈ vs <-> field_denotes k items v.
Proof.
  intros Hk Hf. pose proof Hf as [Hne Hall]%andb_true_iff.
  rewrite negb_true_iff, bool_decide_eq_false in Hne. rewrite forallb_forall in Hall.
  unfold parse_field. rewrite (print_field_star k) by done.
  unfold print_field. rewrite split_on_join;
    [| by destruct items | by eapply print_items_chars].
  assert (exists vss, map_result (parse_token (f_lo k) (f_hi k) label (f_weekday k))
                        (print_item <$> items) = Ok vss
                      /\ forall v, v ∈ mjoin vss <-> field_denotes k items v)
    as (vss & -> & Hv).
  { clear Hf Hne. induction items as [|i items IH].
    - exists []. split; [done|]. intros v. cbn. split; [by intros ?%not_elem_of_nil|].
      intros (i & Hi & _). by apply not_elem_of_nil in Hi.
    - destruct (parse_token_print k Hk i (Hall i ltac:(by left)) label) as (vs & Hvs & Hd).
      destruct IH as (vss & Hvss & Hds); [intros j Hj; apply Hall; by right|].
      exists (vs :: vss). cbn [fmap list_fmap map_result]. rewrite Hvs. cbn [mbind result_bind].
      change (list_fmap cron_item pytext print_item items) with (print_item <$> items).
      rewrite Hvss. split; [done|]. intros v. cbn. rewrite elem_of_app, Hd, Hds.
      unfold field_denotes. setoid_rewrite elem_of_cons. split.
      + intros [?|(j & ? & ?)]; eauto.
      + intros (j & [->|?] & ?); eauto. }
  cbn [mbind result_bind]. eexists; split; [done|]. intros v. by rewrite elem_of_list_to_set.
Qed.

(** ** Words separated by single spaces *)

Definition is_word (w : pytext) : Prop := w <> [] /\ Forall (fun c => isspace c = false) w.

Lemma words_go_word w s acc :
  Forall (fun c => isspace c = false) w -> words_go (w ++ s) acc = words_go s (reverse w ++ acc).
Proof.
  intros Hw. revert acc. induction Hw as [|c w Hc Hw IH]; intros acc; [done|].
  cbn [app words_go]. rewrite Hc, IH, reverse_cons, <-app_assoc. done.
Qed.

Lemma flush_word (w : pytext) (rest : list pytext) :
  w <> [] -> match reverse w with [] => [] | _ => [reverse (reverse w)] end ++ rest = w :: rest.
Proof.
  intros Hw. rewrite reverse_involutive. destruct (reverse w) eqn:Hr; [|done].
  by apply (f_equal reverse) in Hr; rewrite reverse_involutive in Hr.
Qed.

Lemma words_join ws : Forall is_word ws -> words (join 32 ws) = ws.
Proof.
  unfold words. induction 1 as [|w ws [Hne Hw] Hws IH]; [done|]. destruct ws as [|w' ws].
  - cbn [join]. rewrite <-(app_nil_r w) at 1. rewrite words_go_word by done.
    cbn [words_go]. rewrite app_nil_r, <-(app_nil_r (match _ with [] => _ | _ => _ end)).
    by apply flush_word.
  - change (join 32 (w :: w' :: ws)) with (w ++ 32%N :: join 32 (w' :: ws)).
    rewrite words_go_word by done. cbn [words_go]. rewrite app_nil_r.
    change (isspace 32) with true. cbn iota. rewrite IH. by apply flush_word.
Qed.

Lemma strip_id c s d t :
  c :: s = t ++ [d] -> isspace c = false -> isspace d = false -> strip (c :: s) = c :: s.
Proof.
  intros Heq Hc Hd. unfold strip. cbn [lstrip]. rewrite Hc, Heq, reverse_snoc. cbn [lstrip].
  by rewrite Hd, reverse_cons, reverse_involutive.
Qed.

Lemma join_ends ws :
  ws <> [] -> Forall is_word ws ->
  exists c s d t, join 32 ws = c :: s /\ join 32 ws = t ++ [d]
    /\ isspace c = false /\ isspace d = false.
Proof.
  intros Hne Hws. induction Hws as [|w ws [Hw Hsp] Hws IH]; [done|].
  destruct w as [|c w]; [done|]. destruct ws as [|w' ws].
  - cbn [join]. destruct (exists_last (l := c :: w) ltac:(done)) as (t & d & Hl).
    exists c, w, d, t. rewrite Hl in Hsp |- *. split_and!; [done..| |].
    + rewrite <-Hl in Hsp. by inversion Hsp.
    + apply Forall_app in Hsp as [_ Hsp]. by inversion Hsp.
  - change (join 32 ((c :: w) :: w' :: ws)) with (c :: w ++ 32%N :: join 32 (w' :: ws)).
    destruct IH as (c' & s & d & t & _ & Ht & _ & Hd); [done|].
    exists c, (w ++ 32%N :: join 32 (w' :: ws)), d, (c :: w ++ 32%N :: t).
    split_and!; [done| |by inversion Hsp|done]. rewrite Ht. cbn. by rewrite <-app_assoc.
Qed.

Lemma words_strip_join ws :
  ws <> [] -> Forall is_word ws -> words (strip (join 32 ws)) = ws.
Proof.
  intros Hne Hws. destruct (join_ends ws Hne Hws) as (c & s & d & t & Hc & Ht & Hcs & Hds).
  rewrite <-(words_join ws) at 2 by done. rewrite Hc in Ht |- *. by erewrite strip_id.
Qed.

Lemma print_field_word k items :
  kind_ok k -> field_wf k items = true ->
  is_word (print_field items) /\ Forall (fun c => c <> 32%N) (print_field items).
Proof.
  intros Hk Hf. pose proof Hf as [Hne Hall]%andb_true_iff.
  rewrite negb_true_iff, bool_decide_eq_false in Hne. rewrite forallb_forall in Hall.
  assert (forall l : list cron_item, (forall i, In i l -> item_wf k i = true) ->
            Forall (fun c => isspace c = false /\ c <> 32%N) (print_field l)) as Hsp.
  { induction l as [|i l IH]; intros Hl; [constructor|].
    assert (Forall (fun c => isspace c = false /\ c <> 32%N) (print_item i)) as Hi.
    { destruct (print_item_chars k Hk i (Hl i ltac:(by left))) as [Hc _].
      eapply Forall_impl; [exact Hc|]. intros c. unfold item_char, isspace. lia. }
    destruct l as [|j l]; [done|].
    change (print_field (i :: j :: l)) with (print_item i ++ 44%N :: print_field (j :: l)).
    apply Forall_app; split; [done|]. constructor; [done|]. apply IH. intros; apply Hl; by right. }
  specialize (Hsp items Hall). split; [split|].
  - destruct items as [|i l]; [done|].
    destruct (print_item_chars k Hk i (Hall i ltac:(by left))) as [_ Hi].
    destruct l as [|j l]; [done|].
    change (print_field (i :: j :: l)) with (print_item i ++ 44%N :: print_field (j :: l)).
    by destruct (print_item i).
  - eapply Forall_impl; [exact Hsp|]. by intros c [? ?].
  - eapply Forall_impl; [exact Hsp|]. by intros c [? ?].
Qed.
