(* ===== verification/CalendarTheorems.v ===== *)
(** The properties of the schedule calendar, with concrete runs. *)
From Stdlib Require Import Sorting.Sorted.
From S2P Require Import Prelude PyText Calendar CalendarSearch CronText.
Open Scope Z_scope.

Section theorems.
Context `{ZoneDatabase}.

(** C37: [next_occurrence] is exact.  In a zone that behaves as
    PEP 495 says, its answer is an instant at which the schedule fires, lies
    strictly after the given instant, and no firing lies in between: neither the
    hour that occurs twice nor the one that is skipped makes it miss or repeat
    one.  It fails exactly when nothing fires on the 2928 days it looks at. *)
Theorem next_occurrence_least e after z f :
  load_zone (e_timezone e) = Ok z -> firing_of e = Ok f -> ZoneLaws z ->
  let a := as_utc_naive after in
  let first_day := to_local z a / day_us in
  (forall r, next_occurrence e after = Ok r ->
     fires z f r /\ a < r /\ forall i, fires z f i -> a < i -> r <= i)
  /\ (is_ok (next_occurrence e after) = false <->
      forall n t, first_day <= n < first_day + 2928 -> day_allowed f n = true -> t ∈ times f ->
        exists_local z (combine n t) -> to_utc z (combine n t) <= a).
Proof.
  intros Hz He Hl. cbn zeta. pose proof (firing_of_wf _ _ He) as Hwf.
  pose proof (search_least z f Hwf (as_utc_naive after)) as Hleast.
  pose proof (search_none z f Hwf (as_utc_naive after)) as Hnone.
  unfold search_days in Hleast, Hnone. unfold next_occurrence.
  rewrite Hz. cbn [mbind result_bind]. rewrite He. cbn [mbind result_bind].
  destruct (first_some _ _) as [c|]; split.
  - intros r Hr. inv_ok. by apply Hleast.
  - split; [done|]. intros Hall. by apply Hnone in Hall.
  - done.
  - split; [|done]. intros _. by apply Hnone.
Qed.

Lemma next_occurrence_after e after z f r :
  load_zone (e_timezone e) = Ok z -> firing_of e = Ok f -> ZoneLaws z ->
  next_occurrence e after = Ok r ->
  fires z f r /\ as_utc_naive after < r /\ forall i, fires z f i -> as_utc_naive after < i -> r <= i.
Proof.
  intros Hz He Hl. pose proof (firing_of_wf _ _ He) as Hwf. unfold next_occurrence.
  rewrite Hz. cbn [mbind result_bind]. rewrite He. cbn [mbind result_bind].
  destruct (first_some _ _) as [c|] eqn:E; [|done]. intros Hr. inv_ok.
  by apply (search_least z f Hwf (as_utc_naive after)).
Qed.

(** A preview lists the next occurrences completely and in order: it has the
    requested length, is strictly increasing, starts after the cursor, and an
    instant after the cursor and up to its last entry is in it exactly when the
    schedule fires there. *)
Theorem preview_complete e n cursor l z f :
  load_zone (e_timezone e) = Ok z -> firing_of e = Ok f -> ZoneLaws z ->
  preview_schedule e n cursor = Ok l ->
  length l = n /\ StronglySorted Z.lt l
  /\ forall i, as_utc_naive cursor < i -> (exists r, r ∈ l /\ i <= r) -> i ∈ l <-> fires z f i.
Proof.
  intros Hz He Hl. revert cursor l.
  assert (forall n cursor l, preview_schedule e n cursor = Ok l ->
            Forall (fun r => as_utc_naive cursor < r) l /\ length l = n /\ StronglySorted Z.lt l
            /\ forall i, as_utc_naive cursor < i -> (exists r, r ∈ l /\ i <= r) ->
                 i ∈ l <-> fires z f i) as Hgen.
  { clear n. induction n as [|n IH]; cbn; intros cursor l Hp; inv_ok.
    - split_and!; [constructor | done | constructor |]. intros i _ (r & Hr & _).
      by apply not_elem_of_nil in Hr.
    - rename a into c, a0 into rest.
      destruct (next_occurrence_after _ _ _ _ _ Hz He Hl E) as (Hf & Hc & Hmin).
      destruct (IH _ _ E0) as (Hall & Hlen & Hs & Hex). cbn [as_utc_naive] in *.
      split_and!.
      + constructor; [done|]. eapply Forall_impl; [exact Hall|]. cbn. lia.
      + cbn. by rewrite Hlen.
      + by constructor.
      + intros i Hi (r & Hr & Hir). rewrite elem_of_cons.
        destruct (Z.lt_trichotomy i c) as [Hlt|[->|Hgt]].
        * split; [|intros Hfi; specialize (Hmin i Hfi Hi); lia].
          intros [->|Hin]; [lia|]. rewrite Forall_forall in Hall. specialize (Hall _ Hin). lia.
        * split; [done | by left].
        * rewrite <-Hex; [|done|].
          { split; [intros [->|?]; [lia|done] | by right]. }
          apply elem_of_cons in Hr as [->|Hr]; [lia|]. by exists r. }
  intros cursor l Hp. by destruct (Hgen n cursor l Hp) as (_ & ? & ? & ?).
Qed.
End theorems.

(** The parser reads back every printed cron expression: five
    fields of comma-separated items (a star, a value or a range, each with an
    optional step) yield exactly the values the items denote, Sunday being 0
    whether it is written 0 or 7, and the day and weekday fields count as
    unrestricted exactly when they are a bare star. *)
Theorem parse_print_cron fm fh fd fmo fw :
  Forall2 (fun k items => field_wf k items = true) field_kinds [fm; fh; fd; fmo; fw] ->
  exists c, parse_cron (print_cron [fm; fh; fd; fmo; fw]) = Ok c
    /\ Forall2 (fun '(k, items) (vs : gset Z) => forall v, v ∈ vs <-> field_denotes k items v)
         (zip field_kinds [fm; fh; fd; fmo; fw])
         [minutes c; hours c; days c; months c; weekdays c]
    /\ day_wildcard c = unrestricted fd /\ weekday_wildcard c = unrestricted fw.
Proof.
  intros Hwf. pose proof field_kinds_ok as Hk. unfold field_kinds in *.
  repeat match goal with H : Forall2 _ (_ :: _) _ |- _ => inversion H; subst; clear H end.
  assert (forall k items, k ∈ field_kinds -> field_wf k items = true ->
            is_word (print_field items) /\ Forall (fun c => c <> 32%N) (print_field items)) as Hw
    by eauto using print_field_word.
  unfold parse_cron, print_cron. cbn [fmap list_fmap].
  rewrite words_strip_join, split_on_join; [| done | | done |].
  2-3: repeat (apply Forall_cons; split; [eapply Hw; [|eassumption]; unfold field_kinds; set_solver|]);
       constructor.
  assert (forall k items label, k ∈ field_kinds -> field_wf k items = true ->
            exists vs, parse_field (print_field items) (f_lo k) (f_hi k) label (f_weekday k)
                       = Ok (vs, unrestricted items) /\ forall v, v ∈ vs <-> field_denotes k items v)
    as Hp by eauto using parse_field_print.
  let field x label v E D :=
    match goal with W : field_wf ?k x = true |- _ =>
      destruct (Hp k x label) as (v & E & D); [unfold field_kinds; set_solver | exact W |] end in
  field fm "分钟" v1 E1 D1; field fh "小时" v2 E2 D2; field fd "日期" v3 E3 D3;
  field fmo "月份" v4 E4 D4; field fw "星期" v5 E5 D5.
  cbn [f_lo f_hi f_weekday] in *.
  rewrite E1; cbn [mbind result_bind]. rewrite E2; cbn [mbind result_bind].
  rewrite E3; cbn [mbind result_bind]. rewrite E4; cbn [mbind result_bind].
  rewrite E5; cbn [mbind result_bind].
  eexists; split; [done|]. cbn [minutes hours days months weekdays day_wildcard weekday_wildcard].
  split; [|done]. do 5 (constructor; [assumption|]). constructor.
Qed.

(** ** A zone with summer time *)

Module CalendarWitness.

Definition hour_us : Z := 60 * minute_us.
(** 2026-03-29T01:00Z and 2026-10-25T01:00Z. *)
Definition spring : Z := 20541 * day_us + hour_us.
Definition autumn : Z := 20751 * day_us + hour_us.

(** Central European time in 2026: the wall clock skips 02:00 to 03:00 in March
    and repeats it in October. *)
Definition berlin : Zone :=
  {| offset_at i := if (spring <=? i) && (i <? autumn) then 2 * hour_us else hour_us;
     offset_of_local l :=
       if (spring + 2 * hour_us <=? l) && (l <? autumn + 2 * hour_us) then 2 * hour_us
       else hour_us |}.

#[global] Instance demo_zones : ZoneDatabase :=
  fun name => if decide (name = u "Europe/Berlin") then Some berlin else None.

Lemma berlin_laws : ZoneLaws berlin.
Proof.
  split; unfold exists_local, to_local, to_utc, berlin, spring, autumn, hour_us, day_us, minute_us;
    cbn [offset_at offset_of_local].
  - intros l1 l2.
    repeat match goal with |- context [if ?b then _ else _] => destruct b eqn:? end; lia.
  - intros i.
    repeat match goal with |- context [if ?b then _ else _] => destruct b eqn:? end; lia.
  - intros i.
    repeat match goal with |- context [if ?b then _ else _] => destruct b eqn:? end; lia.
Qed.

Definition nightly : Expression :=
  {| e_type := DAILY; e_timezone := u " Europe/Berlin"; e_daily_time := Some (u "2:30");
     e_weekdays := None; e_cron := None |}.

Definition nightly_firing : Firing :=
  {| times := [{| hour := 2; minute := 30 |}]; allowed_weekdays := None; cron := None |}.

Lemma nightly_zone : load_zone (e_timezone nightly) = Ok berlin.
Proof.
  unfold load_zone, validate_timezone, zone_info, demo_zones.
  assert (strip (e_timezone nightly) = u "Europe/Berlin") as -> by (vm_compute; reflexivity).
  rewrite decide_True by reflexivity. cbn [mbind result_bind].
  rewrite decide_True by reflexivity. reflexivity.
Qed.

Lemma nightly_fires : firing_of nightly = Ok nightly_firing.
Proof. vm_compute. reflexivity. Qed.

(** 2026-03-28T01:30Z, the run before the night without 02:30. *)
Definition before_gap : Z := 20540 * day_us + hour_us + 30 * minute_us.

(** The schedule next fires on the 30th, at 00:30Z. *)
Lemma next_occurrence_witness :
  next_occurrence nightly (Naive before_gap) = Ok (20542 * day_us + 30 * minute_us)
  /\ forall i, fires berlin nightly_firing i -> before_gap < i -> 20542 * day_us + 30 * minute_us <= i.
Proof.
  assert (next_occurrence nightly (Naive before_gap) = Ok (20542 * day_us + 30 * minute_us)) as E
    by (vm_compute; reflexivity).
  split; [exact E|].
  destruct (next_occurrence_least nightly (Naive before_gap) berlin nightly_firing
              nightly_zone nightly_fires berlin_laws) as [H _].
  exact (proj2 (proj2 (H _ E))).
Defined.

Lemma preview_witness :
  preview_schedule nightly 2 (Naive before_gap)
    = Ok [20542 * day_us + 30 * minute_us; 20543 * day_us + 30 * minute_us]
  /\ (fires berlin nightly_firing (20542 * day_us + 45 * minute_us) -> False).
Proof.
  assert (preview_schedule nightly 2 (Naive before_gap)
          = Ok [20542 * day_us + 30 * minute_us; 20543 * day_us + 30 * minute_us]) as E
    by (vm_compute; reflexivity).
  split; [exact E|]. intros Hf.
  destruct (preview_complete nightly 2 (Naive before_gap) _ berlin nightly_firing
              nightly_zone nightly_fires berlin_laws E) as (_ & _ & H).
  apply H in Hf.
  - apply elem_of_cons in Hf as [Hf|Hf]; [vm_compute in Hf; discriminate Hf|].
    apply elem_of_cons in Hf as [Hf|Hf]; [vm_compute in Hf; discriminate Hf|].
    exact (not_elem_of_nil _ Hf).
  - vm_compute. reflexivity.
  - exists (20543 * day_us + 30 * minute_us). split.
    + right. left.
    + vm_compute. discriminate.
Defined.

(** "*/15 9-17 * 1,4,7,10 7": quarter hours of office hours on the Sundays of
    the quarters' first months. *)
Definition office : list (list cron_item) :=
  [[{| item_base := Every; item_step := Some 15 |}];
   [{| item_base := Between 9 17; item_step := None |}];
   [{| item_base := Every; item_step := None |}];
   [{| item_base := Only 1; item_step := None |}; {| item_base := Only 4; item_step := None |};
    {| item_base := Only 7; item_step := None |}; {| item_base := Only 10; item_step := None |}];
   [{| item_base := Only 7; item_step := None |}]].

Lemma parse_print_witness :
  print_cron office = u "*/15 9-17 * 1,4,7,10 7"
  /\ exists c, parse_cron (print_cron office) = Ok c /\ 0 ∈ weekdays c /\ day_wildcard c = true.
Proof.
  split; [vm_compute; reflexivity|].
  destruct (parse_print_cron (office !!! 0%nat) (office !!! 1%nat) (office !!! 2%nat)
              (office !!! 3%nat) (office !!! 4%nat)) as (c & Hc & Hd & Hw & _).
  - repeat constructor; vm_compute; reflexivity.
  - exists c. split; [exact Hc|]. split; [|rewrite Hw; vm_compute; reflexivity].
    apply Forall2_cons_1 in Hd as [_ Hd]. apply Forall2_cons_1 in Hd as [_ Hd].
    apply Forall2_cons_1 in Hd as [_ Hd]. apply Forall2_cons_1 in Hd as [_ Hd].
    apply Forall2_cons_1 in Hd as [Hd _]. apply Hd.
    exists {| item_base := Only 7; item_step := None |}. split; [left|].
    exists 7. cbn. repeat split; lia.
Defined.

End CalendarWitness.
