(* ===== verification/PlanData.v ===== *)
(** The tables above the run service: test plans and plan runs
    ([test_plans/models.py]), webhook endpoints and deliveries, CI tokens and
    invocations ([ci_cd/models.py]), schedules and triggers
    ([schedules/models.py]), and the database that holds them beside the run
    tables.  Columns that are only displayed are left out, as are the runtime
    variables, which the run service passes through unread. *)
From S2P Require Import Prelude PyText Projects Calendar RunData.

(** The [status] of plans, schedules and webhook endpoints. *)
Module LifeStatus.
Inductive t := ACTIVE | ARCHIVED.
#[global] Instance eq_dec : EqDecision t.
Proof. solve_decision. Defined.
End LifeStatus.

(** ** Test plans *)

Record TestPlanItem := {
  pi_id : Z;
  pi_sequence_no : Z;
  pi_target : RunTarget;
  pi_target_name : pytext;
  pi_enabled : bool;
}.

Record TestPlan := {
  pl_id : Z;
  pl_project_id : Z;
  pl_name : pytext;
  pl_description : option pytext;
  pl_environment_id : Z;
  pl_runner_id : string;
  pl_status : LifeStatus.t;
  pl_created_by : string;
  pl_items : list TestPlanItem;
}.

Inductive PlanTrigger := MANUAL | SCHEDULE | API.
#[global] Instance plan_trigger_eq_dec : EqDecision PlanTrigger.
Proof. solve_decision. Defined.

(** [plan_snapshot]. *)
Record PlanSnapshot := {
  sn_name : pytext;
  sn_description : option pytext;
  sn_environment_id : Z;
  sn_runner_id : string;
  sn_items : list (Z * RunTarget * pytext);
}.

Record TestPlanRunItem := {
  ri_id : Z;
  ri_plan_item_id : Z;
  ri_sequence_no : Z;
  ri_target_type : RunType.t;
  ri_target_name : pytext;
  ri_run_id : option string;
  ri_status : RunStatus.t;
  ri_error_code : option string;
  ri_error_message : option string;
}.

Record TestPlanRun := {
  tp_id : string;
  tp_plan_id : Z;
  tp_project_id : Z;
  tp_status : RunStatus.t;
  tp_trigger : PlanTrigger;
  tp_schedule_id : option Z;
  tp_snapshot : PlanSnapshot;
  tp_created_by : string;
  tp_started_at : option datetime;
  tp_ended_at : option datetime;
  tp_items : list TestPlanRunItem;
}.

Definition ri_with (i : TestPlanRunItem) (run_id : option string) (s : RunStatus.t)
    (code message : option string) : TestPlanRunItem :=
  {| ri_id := ri_id i; ri_plan_item_id := ri_plan_item_id i; ri_sequence_no := ri_sequence_no i;
     ri_target_type := ri_target_type i; ri_target_name := ri_target_name i; ri_run_id := run_id;
     ri_status := s; ri_error_code := code; ri_error_message := message |}.
Definition ri_with_status (i : TestPlanRunItem) (s : RunStatus.t) : TestPlanRunItem :=
  ri_with i (ri_run_id i) s (ri_error_code i) (ri_error_message i).
Definition ri_with_error (i : TestPlanRunItem) (code message : option string) : TestPlanRunItem :=
  ri_with i (ri_run_id i) (ri_status i) code message.

Definition tp_with (r : TestPlanRun) (s : RunStatus.t) (ended : option datetime)
    (items : list TestPlanRunItem) : TestPlanRun :=
  {| tp_id := tp_id r; tp_plan_id := tp_plan_id r; tp_project_id := tp_project_id r; tp_status := s;
     tp_trigger := tp_trigger r; tp_schedule_id := tp_schedule_id r; tp_snapshot := tp_snapshot r;
     tp_created_by := tp_created_by r; tp_started_at := tp_started_at r; tp_ended_at := ended;
     tp_items := items |}.

(** ** Webhooks *)

Record WebhookEndpoint := {
  we_project_id : Z;
  we_name : pytext;
  we_encrypted_url : string;
  we_encrypted_signing_secret : option string;
  we_events : list string;
  we_enabled : bool;
  we_status : LifeStatus.t;
  we_max_attempts : Z;
  we_timeout_seconds : Z;
  we_created_by : string;
}.

Module DeliveryStatus.
Inductive t := PENDING | SENDING | RETRY | SUCCEEDED | FAILED.
#[global] Instance eq_dec : EqDecision t.
Proof. solve_decision. Defined.
End DeliveryStatus.

(** The JSON document sent to the endpoint. *)
Record WebhookPayload := {
  wp_event_id : string;
  wp_event_type : string;
  wp_project_id : Z;
  wp_plan_id : Z;
  wp_plan_run_id : string;
  wp_plan_name : pytext;
  wp_trigger_type : PlanTrigger;
  wp_status : RunStatus.t;
  wp_total : Z;
  wp_passed : Z;
  wp_failed : Z;
  wp_started_at : option datetime;
  wp_ended_at : option datetime;
}.

Record WebhookDelivery := {
  wd_endpoint_id : Z;
  wd_project_id : Z;
  wd_plan_run_id : string;
  wd_event_id : string;
  wd_payload : WebhookPayload;
  wd_status : DeliveryStatus.t;
  wd_attempt_count : Z;
  wd_next_attempt_at : datetime;
  wd_response_status : option Z;
  wd_last_error_code : option string;
  wd_last_error_message : option string;
  wd_last_attempt_at : option datetime;
  wd_completed_at : option datetime;
}.

(** ** Schedules *)

Module TriggerStatus.
Inductive t := CLAIMED | DISPATCHED | FAILED | SKIPPED.
#[global] Instance eq_dec : EqDecision t.
Proof. solve_decision. Defined.
End TriggerStatus.

Record TestSchedule := {
  s_project_id : Z;
  s_plan_id : Z;
  s_name : pytext;
  s_expression : Expression;
  s_enabled : bool;
  s_status : LifeStatus.t;
  s_next_run_at : option Z;
  s_last_scheduled_at : option Z;
  s_last_trigger_status : option TriggerStatus.t;
  s_last_error_code : option string;
  s_last_error_message : option string;
  s_created_by : string;
}.

Record ScheduleTrigger := {
  st_schedule_id : Z;
  st_project_id : Z;
  st_scheduled_for_at : Z;
  st_status : TriggerStatus.t;
  st_plan_run_id : option string;
  st_error_code : option string;
  st_error_message : option string;
  st_completed_at : option datetime;
}.

(** ** CI access *)

Module TokenStatus.
Inductive t := ACTIVE | REVOKED | EXPIRED.
#[global] Instance eq_dec : EqDecision t.
Proof. solve_decision. Defined.
End TokenStatus.

Record CiAccessToken := {
  ct_project_id : Z;
  ct_name : pytext;
  ct_token_digest : string;
  ct_allowed_plan_ids : option (list Z);
  ct_status : TokenStatus.t;
  ct_expires_at : datetime;
  ct_last_used_at : option datetime;
  ct_revoked_at : option datetime;
  ct_created_by : string;
}.

Module InvocationStatus.
Inductive t := STARTING | STARTED | FAILED.
#[global] Instance eq_dec : EqDecision t.
Proof. solve_decision. Defined.
End InvocationStatus.

Record CiRunInvocation := {
  ci_token_id : Z;
  ci_project_id : Z;
  ci_plan_id : Z;
  ci_idempotency_digest : string;
  ci_pipeline_ref : option pytext;
  ci_commit_sha : option pytext;
  ci_status : InvocationStatus.t;
  ci_plan_run_id : option string;
  ci_error_code : option string;
  ci_error_message : option string;
  ci_completed_at : option datetime;
}.

(** ** The database *)

Record PlanTables := { plans : gmap Z TestPlan; plan_runs : gmap string TestPlanRun }.
Record HookTables := { endpoints : gmap Z WebhookEndpoint; deliveries : gmap string WebhookDelivery }.
Record ScheduleTables := { schedules : gmap Z TestSchedule; triggers : gmap string ScheduleTrigger }.
Record CiTables := { tokens : gmap Z CiAccessToken; invocations : gmap string CiRunInvocation }.

Record PlatformDb := {
  core : Db;
  planning : PlanTables;
  hooks : HookTables;
  scheduling : ScheduleTables;
  ci : CiTables;
}.

Definition with_core (pd : PlatformDb) (d : Db) : PlatformDb :=
  {| core := d; planning := planning pd; hooks := hooks pd; scheduling := scheduling pd; ci := ci pd |}.
Definition with_planning (pd : PlatformDb) (t : PlanTables) : PlatformDb :=
  {| core := core pd; planning := t; hooks := hooks pd; scheduling := scheduling pd; ci := ci pd |}.
Definition with_hooks (pd : PlatformDb) (t : HookTables) : PlatformDb :=
  {| core := core pd; planning := planning pd; hooks := t; scheduling := scheduling pd; ci := ci pd |}.
Definition with_scheduling (pd : PlatformDb) (t : ScheduleTables) : PlatformDb :=
  {| core := core pd; planning := planning pd; hooks := hooks pd; scheduling := t; ci := ci pd |}.
Definition with_ci (pd : PlatformDb) (t : CiTables) : PlatformDb :=
  {| core := core pd; planning := planning pd; hooks := hooks pd; scheduling := scheduling pd; ci := t |}.

Definition put_plan (pd : PlatformDb) (p : TestPlan) : PlatformDb :=
  with_planning pd {| plans := <[pl_id p := p]> (plans (planning pd));
                      plan_runs := plan_runs (planning pd) |}.
Definition put_plan_run (pd : PlatformDb) (r : TestPlanRun) : PlatformDb :=
  with_planning pd {| plans := plans (planning pd);
                      plan_runs := <[tp_id r := r]> (plan_runs (planning pd)) |}.
Definition put_endpoint (pd : PlatformDb) (id : Z) (e : WebhookEndpoint) : PlatformDb :=
  with_hooks pd {| endpoints := <[id := e]> (endpoints (hooks pd)); deliveries := deliveries (hooks pd) |}.
Definition put_delivery (pd : PlatformDb) (id : string) (w : WebhookDelivery) : PlatformDb :=
  with_hooks pd {| endpoints := endpoints (hooks pd); deliveries := <[id := w]> (deliveries (hooks pd)) |}.
Definition put_schedule (pd : PlatformDb) (id : Z) (s : TestSchedule) : PlatformDb :=
  with_scheduling pd {| schedules := <[id := s]> (schedules (scheduling pd));
                        triggers := triggers (scheduling pd) |}.
Definition put_trigger (pd : PlatformDb) (id : string) (t : ScheduleTrigger) : PlatformDb :=
  with_scheduling pd {| schedules := schedules (scheduling pd);
                        triggers := <[id := t]> (triggers (scheduling pd)) |}.
Definition put_token (pd : PlatformDb) (id : Z) (t : CiAccessToken) : PlatformDb :=
  with_ci pd {| tokens := <[id := t]> (tokens (ci pd)); invocations := invocations (ci pd) |}.
Definition put_invocation (pd : PlatformDb) (id : string) (i : CiRunInvocation) : PlatformDb :=
  with_ci pd {| tokens := tokens (ci pd); invocations := <[id := i]> (invocations (ci pd)) |}.

(** A handler's effect: the committed database, the run events published, and
    the answer.  Handlers of this layer commit more than once, so a failed one
    may have changed the database. *)
Abbreviation effect A := (PlatformDb * list RunEvent * result A)%type.
Definition eff_db {A} (o : effect A) : PlatformDb := o.1.1.
Definition eff_result {A} (o : effect A) : result A := o.2.

(** A single transaction: nothing is kept when it raises. *)
Definition transaction {A} (pd : PlatformDb) (body : result (PlatformDb * A)) : effect A :=
  match body with
  | Ok (pd', a) => (pd', [], Ok a)
  | Err e => (pd, [], Err e)
  end.

(** The user a background job or a CI token acts for. *)
Class UserDirectory := platform_role : string -> string.
Definition acting_user `{UserDirectory} (uid : string) : CurrentUser :=
  {| user_id := uid; user_roles := [platform_role uid] |}.
