(* ===== verification/Webhooks.v ===== *)
(** Webhook endpoints and the delivery outbox ([ci_cd/service.py]): endpoints,
    [enqueue_test_plan_run_webhooks], and [dispatch_webhook_delivery] in the two
    transactions it consists of, with the HTTP request in between.  The cipher
    and the HTTP sender are parameters. *)
From stdpp Require Import pretty.
From S2P Require Import Prelude PyText Projects Calendar RunData PlanData.
Open Scope Z_scope.

Definition WEBHOOK_EVENT : string := "TEST_PLAN_RUN_COMPLETED".
Definition second_us : Z := 1000000.
(** [_WEBHOOK_SENDING_LEASE_SECONDS]. *)
Definition SENDING_LEASE : Z := 90 * second_us.

(** ** Endpoints *)

Record WebhookEndpointCreate := {
  wc_project_id : Z;
  wc_name : pytext;
  wc_url : string;
  wc_signing_secret : option string;
  wc_events : list string;
  wc_enabled : bool;
  wc_max_attempts : Z;
  wc_timeout_seconds : Z;
}.

(** [encrypt_secret] under the key of a project. *)
Class Cipher := encrypt_secret : Z -> string -> string.

Definition create_webhook_endpoint `{Cipher} (pd : PlatformDb) (user : CurrentUser) (new_id : Z)
    (payload : WebhookEndpointCreate) : effect WebhookEndpoint :=
  transaction pd (
    let pid := wc_project_id payload in
    project ← get_project (db_projects (core pd)) user pid;
    ensure_project_owner (db_projects (core pd)) pid user;;
    raise_if (bool_decide (p_status project = ProjectStatus.ARCHIVED))
      (ResourceConflictError "归档项目不能创建 Webhook");;
    let endpoint :=
      {| we_project_id := pid; we_name := wc_name payload;
         we_encrypted_url := encrypt_secret pid (wc_url payload);
         we_encrypted_signing_secret := encrypt_secret pid <$> wc_signing_secret payload;
         we_events := wc_events payload; we_enabled := wc_enabled payload;
         we_status := LifeStatus.ACTIVE; we_max_attempts := wc_max_attempts payload;
         we_timeout_seconds := wc_timeout_seconds payload; we_created_by := user_id user |} in
    Ok (put_endpoint pd new_id endpoint, endpoint)).

Definition we_with_status (e : WebhookEndpoint) (s : LifeStatus.t) : WebhookEndpoint :=
  {| we_project_id := we_project_id e; we_name := we_name e; we_encrypted_url := we_encrypted_url e;
     we_encrypted_signing_secret := we_encrypted_signing_secret e; we_events := we_events e;
     we_enabled := bool_decide (s = LifeStatus.ACTIVE); we_status := s;
     we_max_attempts := we_max_attempts e; we_timeout_seconds := we_timeout_seconds e;
     we_created_by := we_created_by e |}.

Definition set_webhook_endpoint_status (pd : PlatformDb) (user : CurrentUser) (endpoint_id : Z)
    (s : LifeStatus.t) : effect WebhookEndpoint :=
  transaction pd (
    endpoint ← some_or (endpoints (hooks pd) !! endpoint_id) (ResourceNotFoundError "Webhook 不存在");
    get_project (db_projects (core pd)) user (we_project_id endpoint);;
    ensure_project_owner (db_projects (core pd)) (we_project_id endpoint) user;;
    let endpoint' := we_with_status endpoint s in
    Ok (put_endpoint pd endpoint_id endpoint', endpoint')).

(** ** Enqueueing *)

Definition endpoint_live (e : WebhookEndpoint) : bool :=
  bool_decide (we_status e = LifeStatus.ACTIVE) && we_enabled e.

(** [f"test-plan-run:{plan_run.id}:completed"]. *)
Definition event_id_of (plan_run_id : string) : string :=
  "test-plan-run:" +:+ plan_run_id +:+ ":completed".

Definition finished_status (s : RunStatus.t) : bool :=
  bool_decide (s ∈ [RunStatus.SUCCESS; RunStatus.FAILED; RunStatus.CANCELLED; RunStatus.TIMEOUT]).

Definition new_delivery (run : TestPlanRun) (endpoint_id : Z) (now : datetime) : WebhookDelivery :=
  let statuses := ri_status <$> tp_items run in
  let passed := Z.of_nat (length (filter (fun s => s = RunStatus.SUCCESS) statuses)) in
  let event_id := event_id_of (tp_id run) in
  {| wd_endpoint_id := endpoint_id; wd_project_id := tp_project_id run; wd_plan_run_id := tp_id run;
     wd_event_id := event_id;
     wd_payload :=
       {| wp_event_id := event_id; wp_event_type := WEBHOOK_EVENT; wp_project_id := tp_project_id run;
          wp_plan_id := tp_plan_id run; wp_plan_run_id := tp_id run;
          wp_plan_name := match sn_name (tp_snapshot run) with [] => u "Test Plan" | n => n end;
          wp_trigger_type := tp_trigger run; wp_status := tp_status run;
          wp_total := Z.of_nat (length statuses); wp_passed := passed;
          wp_failed := Z.of_nat (length statuses) - passed;
          wp_started_at := tp_started_at run; wp_ended_at := tp_ended_at run |};
     wd_status := DeliveryStatus.PENDING; wd_attempt_count := 0; wd_next_attempt_at := now;
     wd_response_status := None; wd_last_error_code := None; wd_last_error_message := None;
     wd_last_attempt_at := None; wd_completed_at := None |}.

(** A delivery of this event to this endpoint exists. *)
Definition delivery_exists (ds : gmap string WebhookDelivery) (endpoint_id : Z) (event_id : string)
  : bool :=
  bool_decide (map_Exists (fun _ w => wd_endpoint_id w = endpoint_id /\ wd_event_id w = event_id) ds).

(** The endpoints for which the loop adds a delivery. *)
Definition enqueue_targets (h : HookTables) (run : TestPlanRun) : list Z :=
  (filter (fun '(id, e) =>
     we_project_id e = tp_project_id run /\ endpoint_live e = true /\ WEBHOOK_EVENT ∈ we_events e
     /\ delivery_exists (deliveries h) id (event_id_of (tp_id run)) = false)
     (map_to_list (endpoints h))).*1.

(** [enqueue_test_plan_run_webhooks]; [new_id] gives the generated key of the
    delivery to an endpoint.  A key that exists violates the primary key and
    rolls everything back. *)
Definition enqueue_test_plan_run_webhooks (h : HookTables) (run : TestPlanRun) (now : datetime)
    (new_id : Z -> string) : HookTables * nat :=
  if negb (finished_status (tp_status run)) then (h, 0%nat)
  else
    let targets := enqueue_targets h run in
    let ids := new_id <$> targets in
    if bool_decide (NoDup ids) && forallb (fun k => bool_decide (deliveries h !! k = None)) ids
    then ({| endpoints := endpoints h;
             deliveries :=
               list_to_map ((fun e => (new_id e, new_delivery run e now)) <$> targets)
               ∪ deliveries h |}, length targets)
    else (h, 0%nat).

(** ** Delivering *)

Definition wd_with (w : WebhookDelivery) (s : DeliveryStatus.t) (attempts : Z) (next : datetime)
    (response : option Z) (code message : option string) (last completed : option datetime)
  : WebhookDelivery :=
  {| wd_endpoint_id := wd_endpoint_id w; wd_project_id := wd_project_id w;
     wd_plan_run_id := wd_plan_run_id w; wd_event_id := wd_event_id w; wd_payload := wd_payload w;
     wd_status := s; wd_attempt_count := attempts; wd_next_attempt_at := next;
     wd_response_status := response; wd_last_error_code := code; wd_last_error_message := message;
     wd_last_attempt_at := last; wd_completed_at := completed |}.

(** What the session remembers while the request is under way: the identity map
    keeps the attempt counter and the endpoint as they were read. *)
Record Sending := { sd_id : string; sd_attempt : Z; sd_max_attempts : Z; sd_started : datetime }.

Definition stale_sending (w : WebhookDelivery) (now : datetime) : bool :=
  bool_decide (wd_status w = DeliveryStatus.SENDING)
  && match wd_last_attempt_at w with Some t => t <=? now - SENDING_LEASE | None => false end.

(** [dispatch_webhook_delivery] up to the commit before the request: the row as
    it is left, and the send to perform, if any. *)
Definition dispatch_begin (h : HookTables) (id : string) (now : datetime)
  : result (HookTables * option Sending) :=
  w ← some_or (deliveries h !! id) (ResourceNotFoundError "Webhook Delivery 不存在");
  let status := if stale_sending w now then DeliveryStatus.RETRY else wd_status w in
  if negb (bool_decide (status ∈ [DeliveryStatus.PENDING; DeliveryStatus.RETRY]))
     || (now <? wd_next_attempt_at w)
  then Ok (h, None)
  else
    let put w' := {| endpoints := endpoints h; deliveries := <[id := w']> (deliveries h) |} in
    match endpoints h !! wd_endpoint_id w with
    | Some e =>
        if endpoint_live e then
          let attempt := wd_attempt_count w + 1 in
          Ok (put (wd_with w DeliveryStatus.SENDING attempt (wd_next_attempt_at w)
                     (wd_response_status w) (wd_last_error_code w) (wd_last_error_message w)
                     (Some now) (wd_completed_at w)),
              Some {| sd_id := id; sd_attempt := attempt; sd_max_attempts := we_max_attempts e;
                      sd_started := now |})
        else Ok (put (wd_with w DeliveryStatus.FAILED (wd_attempt_count w) (wd_next_attempt_at w)
                        (wd_response_status w) (Some "WEBHOOK_DISABLED") (Some "Webhook 已停用或归档")
                        (wd_last_attempt_at w) (Some now)), None)
    | None => Ok (put (wd_with w DeliveryStatus.FAILED (wd_attempt_count w) (wd_next_attempt_at w)
                         (wd_response_status w) (Some "WEBHOOK_DISABLED") (Some "Webhook 已停用或归档")
                         (wd_last_attempt_at w) (Some now)), None)
    end.

(** What [sender.send] does: an HTTP status, or a [WebhookSendError]. *)
Inductive send_result :=
  | HttpStatus (code : Z)
  | SendError (code message : string) (retryable : bool).

(** The local variables [error] and [response_status]. *)
Definition send_error (r : send_result) : option (string * string * bool) :=
  match r with
  | HttpStatus c =>
      if (200 <=? c) && (c <? 300) then None
      else Some ("WEBHOOK_HTTP_ERROR", "Webhook 返回 HTTP " +:+ pretty c, (500 <=? c) || (c =? 429))
  | SendError code message retryable => Some (code, message, retryable)
  end.
Definition response_status (r : send_result) : option Z :=
  match r with HttpStatus c => Some c | SendError _ _ _ => None end.

(** [min(900, 30 * (2 ** (attempt_count - 1)))] seconds. *)
Definition backoff (attempt : Z) : Z := Z.min 900 (30 * 2 ^ (attempt - 1)) * second_us.

(** The row change after the request. *)
Definition delivery_after (w : WebhookDelivery) (sd : Sending) (r : send_result) (now : datetime)
  : WebhookDelivery :=
  match send_error r with
  | None =>
      wd_with w DeliveryStatus.SUCCEEDED (wd_attempt_count w) (wd_next_attempt_at w) (response_status r)
        None None (wd_last_attempt_at w) (Some now)
  | Some (code, message, retryable) =>
      if retryable && (sd_attempt sd <? sd_max_attempts sd) then
        wd_with w DeliveryStatus.RETRY (wd_attempt_count w) (now + backoff (sd_attempt sd))
          (response_status r) (Some code) (Some message) (wd_last_attempt_at w) (wd_completed_at w)
      else
        wd_with w DeliveryStatus.FAILED (wd_attempt_count w) (wd_next_attempt_at w)
          (response_status r) (Some code) (Some message) (wd_last_attempt_at w) (Some now)
  end.

(** [dispatch_webhook_delivery] from the answer to its last commit. *)
Definition dispatch_finish (h : HookTables) (sd : Sending) (r : send_result) (now : datetime)
  : result HookTables :=
  w ← some_or (deliveries h !! sd_id sd) (UnexpectedError "AssertionError");
  some_or (endpoints h !! wd_endpoint_id w) (UnexpectedError "AssertionError");;
  Ok {| endpoints := endpoints h; deliveries := <[sd_id sd := delivery_after w sd r now]> (deliveries h) |}.

(** [dispatch_webhook_delivery] run without interference. *)
Definition dispatch_webhook_delivery (send : Sending -> send_result) (h : HookTables) (id : string)
    (now later : datetime) : result HookTables :=
  '(h1, sending) ← dispatch_begin h id now;
  match sending with
  | None => Ok h1
  | Some sd => dispatch_finish h1 sd (send sd) later
  end.

(** The reset of [retry_webhook_delivery], which then dispatches. *)
Definition retry_webhook_delivery (pd : PlatformDb) (user : CurrentUser) (id : string)
    (now : datetime) : result HookTables :=
  let h := hooks pd in
  w ← some_or (deliveries h !! id) (ResourceNotFoundError "Webhook Delivery 不存在");
  get_project (db_projects (core pd)) user (wd_project_id w);;
  ensure_project_writable (db_projects (core pd)) (wd_project_id w) user;;
  raise_unless (bool_decide (wd_status w = DeliveryStatus.FAILED))
    (ResourceConflictError "只有最终失败的 Webhook Delivery 可以手动重试");;
  Ok {| endpoints := endpoints h;
        deliveries := <[id := wd_with w DeliveryStatus.PENDING 0 now None None None None None]>
                        (deliveries h) |}.

(** The rows the background scan picks up. *)
Definition delivery_due (w : WebhookDelivery) (due_at : datetime) : bool :=
  (bool_decide (wd_status w ∈ [DeliveryStatus.PENDING; DeliveryStatus.RETRY])
   && (wd_next_attempt_at w <=? due_at)) || stale_sending w due_at.

(** Enqueueing only adds rows. *)
Lemma enqueue_keeps h run now new_id id w :
  deliveries h !! id = Some w ->
  deliveries (enqueue_test_plan_run_webhooks h run now new_id).1 !! id = Some w.
Proof.
  intros Hw. unfold enqueue_test_plan_run_webhooks. destruct (negb _); [done|].
  destruct (_ && _) eqn:E; [|done]. cbn. apply lookup_union_Some_raw. right. split; [|done].
  apply not_elem_of_list_to_map_1. intros Hin. apply andb_true_iff in E as [_ Hall].
  rewrite forallb_forall in Hall. rewrite <-list_fmap_compose in Hin.
  apply list_elem_of_fmap in Hin as (e & -> & He). cbn in Hw.
  specialize (Hall (new_id e)). rewrite bool_decide_eq_true in Hall.
  rewrite Hall in Hw; [done|]. by apply list_elem_of_In, list_elem_of_fmap_2.
Qed.
