(* ===== verification/WebhookTheorems.v ===== *)
(** Delivery of webhooks as a transition system: several workers, each of which
    may be slow or die between its two transactions, and the lease that keeps
    them apart. *)
From S2P Require Import Prelude PyText Projects Calendar RunData PlanData Webhooks.
Open Scope Z_scope.

(** The tables, the requests under way, and the clock. *)
Record wstate := { ws_hooks : HookTables; ws_flight : list Sending; ws_clock : datetime }.

(** A step of the delivery system.  A worker whose lease has run out no longer
    reports ([ws_finish]); it may die at any time ([ws_crash]). *)
Inductive wstep : wstate -> wstate -> Prop :=
  | ws_begin h fl clock id now h' o :
      clock <= now -> dispatch_begin h id now = Ok (h', o) ->
      wstep {| ws_hooks := h; ws_flight := fl; ws_clock := clock |}
            {| ws_hooks := h'; ws_flight := option_list o ++ fl; ws_clock := now |}
  | ws_finish h l1 sd l2 clock now r h' :
      clock <= now -> now < sd_started sd + SENDING_LEASE -> dispatch_finish h sd r now = Ok h' ->
      wstep {| ws_hooks := h; ws_flight := l1 ++ sd :: l2; ws_clock := clock |}
            {| ws_hooks := h'; ws_flight := l1 ++ l2; ws_clock := now |}
  | ws_crash h l1 sd l2 clock :
      wstep {| ws_hooks := h; ws_flight := l1 ++ sd :: l2; ws_clock := clock |}
            {| ws_hooks := h; ws_flight := l1 ++ l2; ws_clock := clock |}
  | ws_retry pd fl clock user id now h' :
      clock <= now -> retry_webhook_delivery pd user id now = Ok h' ->
      wstep {| ws_hooks := hooks pd; ws_flight := fl; ws_clock := clock |}
            {| ws_hooks := h'; ws_flight := fl; ws_clock := now |}
  | ws_enqueue h fl clock run now new_id :
      clock <= now ->
      wstep {| ws_hooks := h; ws_flight := fl; ws_clock := clock |}
            {| ws_hooks := (enqueue_test_plan_run_webhooks h run now new_id).1;
               ws_flight := fl; ws_clock := now |}
  | ws_endpoints h fl clock es :
      wstep {| ws_hooks := h; ws_flight := fl; ws_clock := clock |}
            {| ws_hooks := {| endpoints := es; deliveries := deliveries h |};
               ws_flight := fl; ws_clock := clock |}.

(** ** One worker per lease *)

Definition in_lease (clock : datetime) (sd : Sending) : Prop := clock < sd_started sd + SENDING_LEASE.
#[global] Instance in_lease_dec clock sd : Decision (in_lease clock sd).
Proof. unfold in_lease. apply _. Defined.

(** The row a worker within its lease is working on. *)
Definition row_of (h : HookTables) (sd : Sending) : Prop :=
  exists w, deliveries h !! sd_id sd = Some w /\ wd_status w = DeliveryStatus.SENDING
            /\ wd_last_attempt_at w = Some (sd_started sd) /\ wd_attempt_count w = sd_attempt sd.

Record winv (st : wstate) : Prop := {
  wi_rows : Forall (fun sd => in_lease (ws_clock st) sd -> row_of (ws_hooks st) sd) (ws_flight st);
  wi_alone : NoDup (sd_id <$> filter (in_lease (ws_clock st)) (ws_flight st));
}.

Lemma in_lease_mono c c' sd : c <= c' -> in_lease c' sd -> in_lease c sd.
Proof. unfold in_lease. lia. Qed.

(** As time passes leases only run out. *)
Lemma live_sublist c c' fl :
  c <= c' -> sd_id <$> filter (in_lease c') fl `sublist_of` sd_id <$> filter (in_lease c) fl.
Proof.
  intros Hc. induction fl as [|sd fl IH]; [done|]. rewrite !filter_cons.
  destruct (decide (in_lease c' sd)) as [Hl|Hl].
  - rewrite decide_True by (by eapply in_lease_mono). cbn. by apply sublist_skip.
  - destruct (decide (in_lease c sd)); [by apply sublist_cons | done].
Qed.

Lemma winv_time h fl c c' :
  c <= c' -> winv {| ws_hooks := h; ws_flight := fl; ws_clock := c |} ->
  winv {| ws_hooks := h; ws_flight := fl; ws_clock := c' |}.
Proof.
  intros Hc [Hr Ha]. cbn in *. split; cbn.
  - eapply Forall_impl; [exact Hr|]. intros sd H Hl. by apply H, (in_lease_mono c c').
  - eapply sublist_NoDup; [exact Ha | by apply live_sublist].
Qed.

(** A step that leaves the rows of the workers within their lease alone. *)
Lemma winv_frame h h' fl c :
  winv {| ws_hooks := h; ws_flight := fl; ws_clock := c |} ->
  (forall sd, sd ∈ fl -> in_lease c sd -> row_of h sd -> row_of h' sd) ->
  winv {| ws_hooks := h'; ws_flight := fl; ws_clock := c |}.
Proof.
  intros [Hr Ha] Hf. split; cbn in *; [|done]. rewrite Forall_forall in *.
  intros sd Hsd Hl. eauto.
Qed.

Lemma row_of_same h h' sd :
  deliveries h' !! sd_id sd = deliveries h !! sd_id sd -> row_of h sd -> row_of h' sd.
Proof. intros Heq (w & Hw & Hrest). exists w. by rewrite Heq. Qed.

Lemma winv_drop h l1 sd l2 c :
  winv {| ws_hooks := h; ws_flight := l1 ++ sd :: l2; ws_clock := c |} ->
  winv {| ws_hooks := h; ws_flight := l1 ++ l2; ws_clock := c |}.
Proof.
  intros [Hr Ha]. cbn in *. split; cbn.
  - apply Forall_app in Hr as [H1 H2]. apply Forall_cons in H2 as [_ H2].
    by apply Forall_app.
  - eapply sublist_NoDup; [exact Ha|]. rewrite !filter_app, filter_cons, !fmap_app.
    apply sublist_app; [done|]. destruct (decide _); cbn; [by apply sublist_cons | done].
Qed.

(** Whom a worker within its lease excludes. *)
Lemma winv_other h l1 sd l2 c sd' :
  winv {| ws_hooks := h; ws_flight := l1 ++ sd :: l2; ws_clock := c |} ->
  in_lease c sd -> sd' ∈ l1 ++ l2 -> in_lease c sd' -> sd_id sd' <> sd_id sd.
Proof.
  intros [_ Ha] Hl Hin Hl' Heq. cbn in Ha.
  rewrite filter_app, filter_cons, decide_True, fmap_app in Ha by done. cbn in Ha.
  apply NoDup_app in Ha as (_ & Hd & Hn). apply NoDup_cons in Hn as [Hn _].
  apply elem_of_app in Hin as [Hin|Hin].
  - apply (Hd (sd_id sd)); [|by left]. rewrite <-Heq. apply list_elem_of_fmap_2, list_elem_of_filter.
    by split.
  - apply Hn. rewrite <-Heq. apply list_elem_of_fmap_2, list_elem_of_filter. by split.
Qed.

(** What the first transaction does to the tables. *)
Lemma dispatch_begin_cases h id now h' o :
  dispatch_begin h id now = Ok (h', o) ->
  (h' = h /\ o = None)
  \/ exists w w', deliveries h !! id = Some w
       /\ deliveries h' = <[id := w']> (deliveries h)
       /\ (wd_status w ∈ [DeliveryStatus.PENDING; DeliveryStatus.RETRY] \/ stale_sending w now = true)
       /\ (o = None \/ exists sd, o = Some sd /\ sd_id sd = id /\ sd_started sd = now /\ row_of h' sd).
Proof.
  unfold dispatch_begin. destruct (deliveries h !! id) as [w|] eqn:Hw; [|done].
  cbn [some_or mbind result_bind]. intros H.
  destruct (negb _ || _) eqn:Eg; [inv_ok; by left|]. right.
  apply orb_false_iff in Eg as [Es _]. apply negb_false_iff, bool_decide_eq_true in Es.
  assert (wd_status w ∈ [DeliveryStatus.PENDING; DeliveryStatus.RETRY] \/ stale_sending w now = true)
    as Hs by (destruct (stale_sending w now); [by right | by left]).
  destruct (endpoints h !! wd_endpoint_id w) as [e|]; [destruct (endpoint_live e)|]; inv_ok;
    eexists w, _; (split_and!; [done | done | done |]); [right | by left | by left].
  eexists; split_and!; [done..|]. eexists; split_and!; [cbn; apply lookup_insert_eq | done..].
Qed.

Lemma stale_not_in_lease w now c sd :
  c <= now -> stale_sending w now = true -> wd_last_attempt_at w = Some (sd_started sd) ->
  in_lease now sd -> False.
Proof.
  unfold stale_sending, in_lease. intros Hc Hs Hl. rewrite Hl in Hs. lia.
Qed.

Lemma winv_begin h fl clock id now h' o :
  clock <= now -> dispatch_begin h id now = Ok (h', o) ->
  winv {| ws_hooks := h; ws_flight := fl; ws_clock := clock |} ->
  winv {| ws_hooks := h'; ws_flight := option_list o ++ fl; ws_clock := now |}.
Proof.
  intros Hc Hb Hi. apply (winv_time _ _ _ now Hc) in Hi.
  destruct (dispatch_begin_cases _ _ _ _ _ Hb) as [[-> ->]|(w & w' & Hw & Hd & Hs & Ho)]; [done|].
  assert (forall sd, sd ∈ fl -> in_lease now sd -> sd_id sd <> id) as Hfree.
  { intros sd Hsd Hl <-. destruct Hi as [Hr _]. cbn in Hr. rewrite Forall_forall in Hr.
    destruct (Hr sd Hsd Hl) as (w0 & Hw0 & Hst & Hla & _). rewrite Hw in Hw0. simplify_eq.
    destruct Hs as [Hs|Hs]; [|by eapply stale_not_in_lease].
    rewrite Hst in Hs. set_solver. }
  assert (winv {| ws_hooks := h'; ws_flight := fl; ws_clock := now |}) as Hi'.
  { eapply winv_frame; [exact Hi|]. intros sd Hsd Hl. apply row_of_same. rewrite Hd.
    apply lookup_insert_ne. by apply not_eq_sym, Hfree. }
  destruct Ho as [->|(sd & -> & Hid & Hstart & Hrow)]; [done|]. destruct Hi' as [Hr Ha].
  cbn [ws_hooks ws_flight ws_clock] in *.
  split; cbn [ws_hooks ws_flight ws_clock option_list app].
  - constructor; [by intros _ | done].
  - change (option_list (Some sd) ++ fl) with (sd :: fl).
    rewrite filter_cons, decide_True by (unfold in_lease, SENDING_LEASE, second_us; lia).
    rewrite fmap_cons. apply NoDup_cons. split; [|done]. rewrite Hid. intros Hin.
    apply list_elem_of_fmap in Hin as (sd' & Heq & Hin). apply list_elem_of_filter in Hin as [Hl Hin].
    by apply (Hfree sd').
Qed.

Lemma dispatch_finish_cases h sd r now h' :
  dispatch_finish h sd r now = Ok h' ->
  exists w, deliveries h !! sd_id sd = Some w
            /\ deliveries h' = <[sd_id sd := delivery_after w sd r now]> (deliveries h).
Proof. unfold dispatch_finish. intros H. inv_ok. by eexists. Qed.

Lemma wstep_inv st st' : wstep st st' -> winv st -> winv st'.
Proof.
  destruct 1 as [h fl clock id now h' o Hc Hb|h l1 sd l2 clock now r h' Hc Hl Hf|h l1 sd l2 clock
                |pd fl clock user id now h' Hc Hr|h fl clock run now new_id Hc|h fl clock es]; intros Hi.
  - by eapply winv_begin.
  - apply (winv_time _ _ _ now Hc) in Hi. destruct (dispatch_finish_cases _ _ _ _ _ Hf) as (w & Hw & Hd).
    eapply winv_frame; [by eapply winv_drop|]. intros sd' Hin Hl'. apply row_of_same. rewrite Hd.
    apply lookup_insert_ne, not_eq_sym. by eapply winv_other.
  - by eapply winv_drop.
  - apply (winv_time _ _ _ now Hc) in Hi. eapply winv_frame; [exact Hi|].
    intros sd Hin Hl (w & Hw & Hst & Hrest). unfold retry_webhook_delivery in Hr. inv_ok.
    exists w. split; [|done]. cbn. rewrite lookup_insert_ne; [done|]. intros ->.
    rewrite Hw in G. simplify_eq. rewrite Hst in G0. done.
  - apply (winv_time _ _ _ now Hc) in Hi. eapply winv_frame; [exact Hi|].
    intros sd Hin Hl (w & Hw & Hrest). exists w. split; [|done]. by apply enqueue_keeps.
  - eapply winv_frame; [exact Hi|]. intros sd _ _. by apply row_of_same.
Qed.

(** A delivered row is never touched by a step of workers that keep their lease. *)
Lemma wstep_succeeded st st' id w :
  wstep st st' -> winv st -> deliveries (ws_hooks st) !! id = Some w ->
  wd_status w = DeliveryStatus.SUCCEEDED -> deliveries (ws_hooks st') !! id = Some w.
Proof.
  destruct 1 as [h fl clock i now h' o Hc Hb|h l1 sd l2 clock now r h' Hc Hl Hf|h l1 sd l2 clock
                |pd fl clock user i now h' Hc Hr|h fl clock run now new_id Hc|h fl clock es];
    intros Hi Hw Hs; cbn in *; try done.
  - destruct (dispatch_begin_cases _ _ _ _ _ Hb) as [[-> _]|(w0 & w' & Hw0 & Hd & Hst & _)]; [done|].
    rewrite Hd, lookup_insert_ne; [done|]. intros ->. rewrite Hw in Hw0. simplify_eq.
    unfold stale_sending in Hst. rewrite Hs in Hst. destruct Hst as [Hst|Hst]; [set_solver | done].
  - destruct (dispatch_finish_cases _ _ _ _ _ Hf) as (w0 & Hw0 & Hd).
    rewrite Hd, lookup_insert_ne; [done|]. intros <-. destruct Hi as [Hrows _]. cbn in Hrows.
    apply Forall_app in Hrows as [_ Hrows]. apply Forall_cons in Hrows as [Hrow _].
    destruct Hrow as (w1 & Hw1 & Hst & _); [unfold in_lease; lia|]. rewrite Hw in Hw1.
    simplify_eq. congruence.
  - unfold retry_webhook_delivery in Hr. inv_ok. cbn. rewrite lookup_insert_ne; [done|].
    intros ->. rewrite Hw in G. simplify_eq. rewrite Hs in G0. done.
  - by apply enqueue_keeps.
Qed.

Lemma wsteps_inv st st' : rtc wstep st st' -> winv st -> winv st'.
Proof. induction 1; eauto using wstep_inv. Qed.

(** However many workers send deliveries and however often they
    die, as long as none reports after its 90-second lease: at any time at most
    one worker within its lease holds a delivery, the row then says so (SENDING,
    with this worker's start time and attempt number), and a delivery that was
    reported as delivered is final, so the endpoint is not called again. *)
Theorem delivery_lease_exclusive st0 st :
  ws_flight st0 = [] -> rtc wstep st0 st ->
  NoDup (sd_id <$> filter (in_lease (ws_clock st)) (ws_flight st))
  /\ (forall sd, sd ∈ ws_flight st -> in_lease (ws_clock st) sd -> row_of (ws_hooks st) sd)
  /\ (forall id w st', deliveries (ws_hooks st) !! id = Some w ->
        wd_status w = DeliveryStatus.SUCCEEDED -> rtc wstep st st' ->
        deliveries (ws_hooks st') !! id = Some w).
Proof.
  intros H0 Hr. assert (winv st0) as Hi0.
  { split; rewrite H0; constructor. }
  pose proof (wsteps_inv _ _ Hr Hi0) as Hi. split_and!.
  - apply Hi.
  - destruct Hi as [Hrows _]. by rewrite Forall_forall in Hrows.
  - intros id w st' Hw Hs Hsteps. clear Hr H0 Hi0.
    induction Hsteps as [|st1 st2 st3 Hstep _ IH]; [done|].
    apply IH; [by eapply wstep_inv | by eapply wstep_succeeded].
Qed.

(** The configured number of attempts does not bound the requests:
    a delivery whose worker died is sent again once its lease has run out, with
    the next attempt number, whatever the endpoint's maximum. *)
Theorem stale_delivery_exceeds_max_attempts h id w e now :
  deliveries h !! id = Some w -> endpoints h !! wd_endpoint_id w = Some e ->
  endpoint_live e = true -> wd_next_attempt_at w <= now -> stale_sending w now = true ->
  exists h' sd, dispatch_begin h id now = Ok (h', Some sd)
    /\ sd_attempt sd = wd_attempt_count w + 1
    /\ (we_max_attempts e <= wd_attempt_count w -> sd_max_attempts sd < sd_attempt sd).
Proof.
  intros Hw He Hl Hn Hs. unfold dispatch_begin. rewrite Hw. cbn [some_or mbind result_bind].
  rewrite Hs, bool_decide_true by set_solver. replace (now <? _) with false by lia.
  cbn [negb orb]. rewrite He, Hl. eexists _, _. split_and!; [done | done |]. cbn. lia.
Qed.

(** ** Concrete histories *)

Module WebhookWitness.

Definition endpoint : WebhookEndpoint :=
  {| we_project_id := 1; we_name := u "ops"; we_encrypted_url := "..."; we_encrypted_signing_secret := None;
     we_events := [WEBHOOK_EVENT]; we_enabled := true; we_status := LifeStatus.ACTIVE;
     we_max_attempts := 1; we_timeout_seconds := 10; we_created_by := "u1" |}.

Definition plan_run : TestPlanRun :=
  {| tp_id := "planrun_1"; tp_plan_id := 1; tp_project_id := 1; tp_status := RunStatus.SUCCESS;
     tp_trigger := MANUAL; tp_schedule_id := None;
     tp_snapshot := {| sn_name := u "nightly"; sn_description := None; sn_environment_id := 1;
                       sn_runner_id := "r"; sn_items := [] |};
     tp_created_by := "u1"; tp_started_at := Some 0; tp_ended_at := Some 5; tp_items := [] |}.

Definition start : wstate :=
  {| ws_hooks := {| endpoints := {[ 7 := endpoint ]}; deliveries := ∅ |}; ws_flight := []; ws_clock := 0 |}.

(** The event is enqueued for endpoint 7 as delivery ["d"]. *)
Definition h1 : HookTables :=
  (enqueue_test_plan_run_webhooks (ws_hooks start) plan_run 0 (fun _ => "d")).1.
Definition sent (h : HookTables) (now : datetime) : HookTables * option Sending :=
  match dispatch_begin h "d" now with Ok r => r | Err _ => (h, None) end.
Definition worker : Sending := {| sd_id := "d"; sd_attempt := 1; sd_max_attempts := 1; sd_started := 1 |}.
Definition h2 : HookTables := (sent h1 1).1.
Definition h3 : HookTables :=
  match dispatch_finish h2 worker (HttpStatus 204) 2 with Ok h => h | Err _ => h2 end.

Lemma run_to_h3 : rtc wstep start {| ws_hooks := h3; ws_flight := []; ws_clock := 2 |}.
Proof.
  eapply rtc_l; [apply (ws_enqueue _ _ _ plan_run 0 (fun _ => "d")); reflexivity|].
  eapply rtc_l; [eapply (ws_begin h1 [] 0 "d" 1 h2 (Some worker));
                 [discriminate | vm_compute; reflexivity]|].
  eapply rtc_l; [eapply (ws_finish h2 [] worker [] 1 2 (HttpStatus 204) h3);
                 [discriminate | reflexivity | vm_compute; reflexivity]|].
  apply rtc_refl.
Qed.

Lemma delivery_lease_witness :
  exists w, deliveries h3 !! "d" = Some w /\ wd_status w = DeliveryStatus.SUCCEEDED
    /\ forall st', rtc wstep {| ws_hooks := h3; ws_flight := []; ws_clock := 2 |} st' ->
         deliveries (ws_hooks st') !! "d" = Some w.
Proof.
  destruct (delivery_lease_exclusive start {| ws_hooks := h3; ws_flight := []; ws_clock := 2 |})
    as (_ & _ & Hfinal); [reflexivity | apply run_to_h3 |].
  destruct (deliveries h3 !! "d") as [w|] eqn:Hw; [|vm_compute in Hw; discriminate Hw].
  exists w. split; [reflexivity|].
  assert (wd_status w = DeliveryStatus.SUCCEEDED) as Hs.
  { apply (f_equal (fmap wd_status)) in Hw. vm_compute in Hw. injection Hw as Hw. symmetry. exact Hw. }
  split; [exact Hs|]. intros st' Hst. exact (Hfinal "d" w st' Hw Hs Hst).
Defined.

(** The endpoint allows one attempt; the worker of the first one died. *)
Lemma stale_delivery_witness :
  exists sd h', dispatch_begin h2 "d" (100 * second_us) = Ok (h', Some sd) /\ sd_max_attempts sd < sd_attempt sd.
Proof.
  destruct (deliveries h2 !! "d") as [w|] eqn:Hw; [|vm_compute in Hw; discriminate Hw].
  pose proof Hw as Hw'. vm_compute in Hw'. injection Hw' as Hw'.
  destruct (stale_delivery_exceeds_max_attempts h2 "d" w endpoint (100 * second_us) Hw)
    as (h' & sd & Hd & _ & Hx); try (rewrite <-Hw'; vm_compute; reflexivity).
  - reflexivity.
  - rewrite <-Hw'. vm_compute. discriminate.
  - exists sd, h'. split; [exact Hd|]. apply Hx. rewrite <-Hw'. vm_compute. discriminate.
Defined.

End WebhookWitness.
