(* ===== verification/TestPlans.v ===== *)
(** Test plans and their runs ([test_plans/service.py]): saving plans, starting a
    plan (one run per enabled item, through [create_run] and [dispatch_run]),
    the aggregation of the item runs, cancelling and dispatching again. *)
From S2P Require Import Prelude PyText Projects Calendar RunData RunStatusOps RunControl RunDispatch.
From S2P Require Import RunCreate PlanData Webhooks.
Open Scope Z_scope.

(** ** Saving plans *)

(** The asset rows [_pin_item] reads. *)
Record TestCaseRow := {
  tc_project_id : Z; tc_name : pytext; tc_active : bool; tc_is_api : bool; tc_current_version_id : option Z }.
Record ScenarioRow := {
  sc_project_id : Z; sc_name : pytext; sc_archived : bool; sc_current_version_id : option Z }.
Record WebCaseRow := {
  wb_project_id : Z; wb_name : pytext; wb_approved : bool; wb_current_version_id : option Z }.

(** The tables of the asset components; a version row is the id of its owner,
    and for web cases whether it is approved. *)
Class AssetTables := {
  get_test_case : Z -> option TestCaseRow;
  get_case_version : Z -> option Z;
  get_scenario : Z -> option ScenarioRow;
  get_scenario_version : Z -> option Z;
  get_web_case : Z -> option WebCaseRow;
  get_web_case_version : Z -> option (Z * bool);
}.

(** [TestPlanItemInput]: the schema admits exactly one kind of target. *)
Inductive PlanTargetInput :=
  | CaseInput (case_id : Z) (version_id : option Z)
  | ScenarioInput (scenario_id : Z) (version_id : option Z)
  | WebInput (web_case_id : Z) (version_id : option Z).
Record TestPlanItemInput := { in_target : PlanTargetInput; in_enabled : bool }.

Record TestPlanWrite := {
  pw_project_id : Z;
  pw_name : pytext;
  pw_description : option pytext;
  pw_environment_id : Z;
  pw_runner_id : string;
  pw_items : list TestPlanItemInput;
}.

(** [item.version_id or target.current_version_id]. *)
Definition first_id (a b : option Z) : option Z := match a with Some x => Some x | None => b end.

Section plans.
Context `{Settings} `{Catalog} `{Assets} `{AssetTables}.

Definition pin_target (project_id : Z) (t : PlanTargetInput) : result (RunTarget * pytext) :=
  match t with
  | CaseInput case_id version_id =>
      let bad := ResourceConflictError "Test Plan 包含不可执行的 API Case" in
      target ← some_or (get_test_case case_id) bad;
      raise_unless (bool_decide (tc_project_id target = project_id) && tc_active target && tc_is_api target) bad;;
      let missing := ResourceConflictError "Test Plan API Case 缺少有效固定版本" in
      v ← some_or (first_id version_id (tc_current_version_id target)) missing;
      owner ← some_or (get_case_version v) missing;
      raise_unless (bool_decide (owner = case_id)) missing;;
      Ok (CaseTarget case_id v, tc_name target)
  | ScenarioInput scenario_id version_id =>
      let bad := ResourceConflictError "Test Plan 包含不可执行的 Scenario" in
      target ← some_or (get_scenario scenario_id) bad;
      raise_unless (bool_decide (sc_project_id target = project_id) && negb (sc_archived target)) bad;;
      let missing := ResourceConflictError "Test Plan Scenario 缺少有效固定版本" in
      v ← some_or (first_id version_id (sc_current_version_id target)) missing;
      owner ← some_or (get_scenario_version v) missing;
      raise_unless (bool_decide (owner = scenario_id)) missing;;
      Ok (ScenarioTarget scenario_id v, sc_name target)
  | WebInput web_case_id version_id =>
      let bad := ResourceConflictError "Test Plan 包含未审批或不可执行的 Web Case" in
      target ← some_or (get_web_case web_case_id) bad;
      raise_unless (bool_decide (wb_project_id target = project_id) && wb_approved target) bad;;
      let missing := ResourceConflictError "Test Plan Web Case 缺少有效已审批固定版本" in
      v ← some_or (first_id version_id (wb_current_version_id target)) missing;
      owner ← some_or (get_web_case_version v) missing;
      raise_unless (bool_decide (owner.1 = web_case_id) && owner.2) missing;;
      Ok (WebTarget web_case_id v, wb_name target)
  end.

(** [_pin_item]; the database numbers the rows after [item_base]. *)
Definition pin_item (project_id item_base : Z) (numbered : nat * TestPlanItemInput)
  : result TestPlanItem :=
  let sequence_no := Z.of_nat numbered.1 + 1 in
  t ← pin_target project_id (in_target numbered.2);
  Ok {| pi_id := item_base + sequence_no; pi_sequence_no := sequence_no; pi_target := t.1;
        pi_target_name := t.2; pi_enabled := in_enabled numbered.2 |}.

Definition pin_items (project_id item_base : Z) (items : list TestPlanItemInput)
  : result (list TestPlanItem) :=
  map_result (pin_item project_id item_base) (imap pair items).

Definition validate_plan_config (pd : PlatformDb) (user : CurrentUser) (payload : TestPlanWrite)
  : result unit :=
  let pid := pw_project_id payload in
  project ← get_project (db_projects (core pd)) user pid;
  ensure_project_writable (db_projects (core pd)) pid user;;
  raise_if (bool_decide (p_status project = ProjectStatus.ARCHIVED))
    (ResourceConflictError "归档项目不能保存 Test Plan");;
  raise_unless (match get_environment (pw_environment_id payload) with
                | Some e => bool_decide (env_project_id e = pid) && env_enabled e
                | None => false
                end) (ResourceConflictError "Test Plan Environment 不存在、不属于项目或已停用");;
  raise_unless (match db_runners (core pd) !! pw_runner_id payload with
                | Some r => bool_decide (rn_status r = RunnerStatus.ACTIVE)
                | None => false
                end) (ResourceConflictError "Test Plan Runner 不存在或已停用").

Definition load_plan (pd : PlatformDb) (user : CurrentUser) (plan_id : Z) : result TestPlan :=
  plan ← some_or (plans (planning pd) !! plan_id) (ResourceNotFoundError "Test Plan 不存在");
  get_project (db_projects (core pd)) user (pl_project_id plan);;
  Ok plan.

Definition create_test_plan (pd : PlatformDb) (user : CurrentUser) (new_id item_base : Z)
    (payload : TestPlanWrite) : effect TestPlan :=
  transaction pd (
    validate_plan_config pd user payload;;
    items ← pin_items (pw_project_id payload) item_base (pw_items payload);
    raise_if (bool_decide (is_Some (plans (planning pd) !! new_id)))
      (ResourceConflictError "Test Plan 创建冲突");;
    let plan :=
      {| pl_id := new_id; pl_project_id := pw_project_id payload; pl_name := pw_name payload;
         pl_description := pw_description payload; pl_environment_id := pw_environment_id payload;
         pl_runner_id := pw_runner_id payload; pl_status := LifeStatus.ACTIVE;
         pl_created_by := user_id user; pl_items := items |} in
    Ok (put_plan pd plan, plan)).

Definition update_test_plan (pd : PlatformDb) (user : CurrentUser) (plan_id item_base : Z)
    (payload : TestPlanWrite) : effect TestPlan :=
  transaction pd (
    plan ← load_plan pd user plan_id;
    raise_unless (bool_decide (pl_project_id plan = pw_project_id payload))
      (ResourceConflictError "Test Plan 不能跨项目移动");;
    validate_plan_config pd user payload;;
    get_project (db_projects (core pd)) user (pl_project_id plan);;
    ensure_project_writable (db_projects (core pd)) (pl_project_id plan) user;;
    raise_unless (bool_decide (pl_status plan = LifeStatus.ACTIVE))
      (ResourceConflictError "已归档 Test Plan 不能编辑");;
    items ← pin_items (pw_project_id payload) item_base (pw_items payload);
    let plan' :=
      {| pl_id := pl_id plan; pl_project_id := pl_project_id plan; pl_name := pw_name payload;
         pl_description := pw_description payload; pl_environment_id := pw_environment_id payload;
         pl_runner_id := pw_runner_id payload; pl_status := pl_status plan;
         pl_created_by := pl_created_by plan; pl_items := items |} in
    Ok (put_plan pd plan', plan')).

Definition set_test_plan_status (pd : PlatformDb) (user : CurrentUser) (plan_id : Z) (s : LifeStatus.t)
  : effect TestPlan :=
  transaction pd (
    plan ← load_plan pd user plan_id;
    get_project (db_projects (core pd)) user (pl_project_id plan);;
    ensure_project_writable (db_projects (core pd)) (pl_project_id plan) user;;
    let plan' :=
      {| pl_id := pl_id plan; pl_project_id := pl_project_id plan; pl_name := pl_name plan;
         pl_description := pl_description plan; pl_environment_id := pl_environment_id plan;
         pl_runner_id := pl_runner_id plan; pl_status := s; pl_created_by := pl_created_by plan;
         pl_items := pl_items plan |} in
    Ok (put_plan pd plan', plan')).

(** ** Validation *)

Definition item_run_payload (plan : TestPlan) (item : TestPlanItem) : RunCreateRequest :=
  let t := pi_target item in
  {| rq_project_id := pl_project_id plan; rq_environment_id := pl_environment_id plan;
     rq_runner_id := pl_runner_id plan; rq_run_type := run_type_of t;
     rq_case_id := match t with CaseTarget c _ => Some c | _ => None end;
     rq_case_version_id := match t with CaseTarget _ v => Some v | _ => None end;
     rq_scenario_id := match t with ScenarioTarget s _ => Some s | _ => None end;
     rq_scenario_version_id := match t with ScenarioTarget _ v => Some v | _ => None end;
     rq_web_case_id := match t with WebTarget w _ => Some w | _ => None end;
     rq_web_case_version_id := match t with WebTarget _ v => Some v | _ => None end;
     rq_required_capabilities := []; rq_required_tags := [];
     rq_required_slot_type :=
       match run_type_of t with RunType.WEB_CASE => RunnerSlotType.WEB | _ => RunnerSlotType.API end;
     rq_required_slot_count := 1; rq_total_timeout_ms := None |}.

Definition enabled_items (plan : TestPlan) : list TestPlanItem :=
  filter (fun i => pi_enabled i = true) (pl_items plan).

(** [validate_test_plan]: the enabled items with the issues found for each;
    [hb] is the heartbeat read for an item's runner. *)
Definition validate_test_plan (pd : PlatformDb) (user : CurrentUser) (plan_id : Z)
    (hb : Z -> heartbeat_read) : result (list (Z * list string)) :=
  plan ← load_plan pd user plan_id;
  map_result (fun item =>
    r ← validate_run_request (core pd) user (item_run_payload plan item) (hb (pi_sequence_no item));
    Ok (pi_sequence_no item, r.1.1)) (enabled_items plan).

(** [TestPlanValidationResponse.valid]. *)
Definition validation_valid (v : list (Z * list string)) : bool :=
  negb (bool_decide (v = [])) && forallb (fun p => bool_decide (p.2 = [])) v.

(** ** Aggregation *)

Definition in_progress (s : RunStatus.t) : bool :=
  bool_decide (s ∈ [RunStatus.ASSIGNED; RunStatus.RUNNING; RunStatus.CANCELLING]).
Definition terminal_status (s : RunStatus.t) : bool := bool_decide (s ∈ TERMINAL_RUN_STATUSES).

(** The [aggregate] of [_refresh_plan_run]. *)
Definition aggregate_status (statuses : list RunStatus.t) : RunStatus.t :=
  let all s := negb (bool_decide (statuses = [])) && forallb (fun x => bool_decide (x = s)) statuses in
  if all RunStatus.SUCCESS then RunStatus.SUCCESS
  else if all RunStatus.CANCELLED then RunStatus.CANCELLED
  else if all RunStatus.TIMEOUT then RunStatus.TIMEOUT
  else if forallb terminal_status statuses then RunStatus.FAILED
  else if existsb in_progress statuses then RunStatus.RUNNING
  else if existsb (fun x => bool_decide (x = RunStatus.QUEUED)) statuses then RunStatus.QUEUED
  else RunStatus.CREATED.

(** An item takes the status of its run. *)
Definition refresh_item (d : Db) (i : TestPlanRunItem) : TestPlanRunItem :=
  match ri_run_id i with
  | Some run_id =>
      match db_runs d !! run_id with Some run => ri_with_status i (r_status run) | None => i end
  | None => i
  end.

(** The row changes of [_refresh_plan_run]. *)
Definition refreshed (d : Db) (run : TestPlanRun) (now : datetime) : TestPlanRun :=
  let items := refresh_item d <$> tp_items run in
  let statuses := ri_status <$> items in
  tp_with run (aggregate_status statuses)
    (if forallb terminal_status statuses
     then match tp_ended_at run with None => Some now | t => t end
     else tp_ended_at run) items.

(** [_refresh_plan_run]: the refreshed row is committed, then the completion
    events of a finished run are enqueued; [new_id] generates delivery keys. *)
Definition refresh_plan_run (pd : PlatformDb) (run : TestPlanRun) (now : datetime)
    (new_id : Z -> string) : PlatformDb * TestPlanRun :=
  let run' := refreshed (core pd) run now in
  let pd1 := put_plan_run pd run' in
  if forallb terminal_status (ri_status <$> tp_items run')
  then (with_hooks pd1 (enqueue_test_plan_run_webhooks (hooks pd1) run' now new_id).1, run')
  else (pd1, run').

Definition load_plan_run (pd : PlatformDb) (user : CurrentUser) (plan_run_id : string)
  : result TestPlanRun :=
  run ← some_or (plan_runs (planning pd) !! plan_run_id) (ResourceNotFoundError "Test Plan Run 不存在");
  get_project (db_projects (core pd)) user (tp_project_id run);;
  Ok run.

Definition get_test_plan_run (pd : PlatformDb) (user : CurrentUser) (plan_run_id : string)
    (now : datetime) (new_id : Z -> string) : effect TestPlanRun :=
  transaction pd (run ← load_plan_run pd user plan_run_id; Ok (refresh_plan_run pd run now new_id)).

(** [refresh_test_plan_run_state]: the same for a background job. *)
Definition refresh_test_plan_run_state (pd : PlatformDb) (plan_run_id : string) (now : datetime)
    (new_id : Z -> string) : effect TestPlanRun :=
  transaction pd (
    run ← some_or (plan_runs (planning pd) !! plan_run_id)
            (ResourceNotFoundError "Test Plan Run 不存在");
    Ok (refresh_plan_run pd run now new_id)).

(** [list_test_plan_runs] refreshes every plan run of the project. *)
Definition list_test_plan_runs (pd : PlatformDb) (user : CurrentUser) (project_id : Z) (now : datetime)
    (new_id : string -> Z -> string) : effect unit :=
  transaction pd (
    get_project (db_projects (core pd)) user project_id;;
    let ids := (filter (fun p => tp_project_id p.2 = project_id)
                  (map_to_list (plan_runs (planning pd)))).*1 in
    Ok (foldl (fun pd id =>
                 match plan_runs (planning pd) !! id with
                 | Some run => (refresh_plan_run pd run now (new_id id)).1
                 | None => pd
                 end) pd ids, tt)).

(** ** Starting a plan *)

Definition plan_snapshot (plan : TestPlan) : PlanSnapshot :=
  {| sn_name := pl_name plan; sn_description := pl_description plan;
     sn_environment_id := pl_environment_id plan; sn_runner_id := pl_runner_id plan;
     sn_items := (fun i => (pi_sequence_no i, pi_target i, pi_target_name i)) <$> enabled_items plan |}.

(** The item rows; the database numbers them after [item_base]. *)
Definition new_run_item (item_base : Z) (k : nat) (i : TestPlanItem) : TestPlanRunItem :=
  {| ri_id := item_base + Z.of_nat k; ri_plan_item_id := pi_id i; ri_sequence_no := pi_sequence_no i;
     ri_target_type := run_type_of (pi_target i); ri_target_name := pi_target_name i;
     ri_run_id := None; ri_status := RunStatus.CREATED; ri_error_code := None;
     ri_error_message := None |}.
Definition new_run_items (item_base : Z) (items : list TestPlanItem) : list TestPlanRunItem :=
  imap (new_run_item item_base) items.

(** [start_test_plan_run] up to the commit of the plan run. *)
Definition start_open (pd : PlatformDb) (user : CurrentUser) (plan_id : Z) (hb : Z -> heartbeat_read)
    (trigger : PlanTrigger) (schedule_id : option Z) (plan_run_id : string) (item_base : Z)
    (now : datetime) : result (PlatformDb * TestPlan * TestPlanRun) :=
  plan ← load_plan pd user plan_id;
  get_project (db_projects (core pd)) user (pl_project_id plan);;
  ensure_project_writable (db_projects (core pd)) (pl_project_id plan) user;;
  raise_unless (bool_decide (pl_status plan = LifeStatus.ACTIVE))
    (ResourceConflictError "已归档 Test Plan 不能执行");;
  validation ← validate_test_plan pd user plan_id hb;
  raise_unless (validation_valid validation) (RunValidationError (validation ≫= snd));;
  raise_if (bool_decide (is_Some (plan_runs (planning pd) !! plan_run_id)))
    (UnexpectedError "IntegrityError");;
  let run :=
    {| tp_id := plan_run_id; tp_plan_id := pl_id plan; tp_project_id := pl_project_id plan;
       tp_status := RunStatus.CREATED; tp_trigger := trigger; tp_schedule_id := schedule_id;
       tp_snapshot := plan_snapshot plan; tp_created_by := user_id user; tp_started_at := Some now;
       tp_ended_at := None; tp_items := new_run_items item_base (enabled_items plan) |} in
  Ok (put_plan_run pd run, plan, run).

(** An [UPDATE] of one item row of a plan run. *)
Definition update_item (pd : PlatformDb) (plan_run_id : string) (item_id : Z)
    (f : TestPlanRunItem -> TestPlanRunItem) : PlatformDb :=
  match plan_runs (planning pd) !! plan_run_id with
  | Some run =>
      put_plan_run pd
        (tp_with run (tp_status run) (tp_ended_at run)
           ((fun i => if decide (ri_id i = item_id) then f i else i) <$> tp_items run))
  | None => pd
  end.

(** What the surroundings contribute to starting one item: the clock, the
    heartbeats read, the generated keys and the broker. *)
Record ItemInput := {
  ii_now : datetime;
  ii_create_hb : heartbeat_read;
  ii_dispatch_hb : heartbeat_read;
  ii_run_id : string;
  ii_case_base : Z;
  ii_step_base : Z;
  ii_message_id : string;
  ii_publish : string -> TaskPayload -> TaskPublishResult;
}.

(** What the item row becomes after its dispatch. *)
Definition report_dispatch (resp : DispatchResponse) (i : TestPlanRunItem) : TestPlanRunItem :=
  if decide (dp_outbox_status resp = DispatchOutboxStatus.FAILED)
  then ri_with i (ri_run_id i) (dp_run_status resp) (Some "DISPATCH_FAILED") (dp_last_error resp)
  else ri_with_status i (dp_run_status resp).
Definition report_failure (e : app_error) (i : TestPlanRunItem) : TestPlanRunItem :=
  ri_with i (ri_run_id i) RunStatus.FAILED (Some (error_code e)) (Some (error_message e)).

(** The body of the loop over the enabled items; an exception that is not an
    [AppError] leaves the loop. *)
Definition start_item (pd : PlatformDb) (user : CurrentUser) (plan : TestPlan) (plan_run_id : string)
    (item : TestPlanItem) (item_id : Z) (x : ItemInput) : effect unit :=
  let failed pd evs e :=
    if is_app_error e then (update_item pd plan_run_id item_id (report_failure e), evs, Ok tt)
    else (pd, evs, Err e) in
  let '(d1, evs1, created) :=
    create_run (core pd) (ii_now x) user (item_run_payload plan item) (ii_create_hb x)
      (ii_run_id x) (ii_case_base x) (ii_step_base x) in
  let pd1 := with_core pd d1 in
  match created with
  | Err e => failed pd1 evs1 e
  | Ok run =>
      let pd2 := update_item pd1 plan_run_id item_id
                   (fun i => ri_with i (Some (r_id run)) (r_status run) (ri_error_code i)
                               (ri_error_message i)) in
      let '(d3, evs3, dispatched) :=
        dispatch_run (ii_publish x) (core pd2) (ii_now x) user (r_id run) (ii_dispatch_hb x) false
          (ii_message_id x) in
      let pd3 := with_core pd2 d3 in
      match dispatched with
      | Err e => failed pd3 (evs1 ++ evs3) e
      | Ok resp => (update_item pd3 plan_run_id item_id (report_dispatch resp), evs1 ++ evs3, Ok tt)
      end
  end.

Fixpoint start_items (pd : PlatformDb) (user : CurrentUser) (plan : TestPlan) (plan_run_id : string)
    (items : list (TestPlanItem * Z)) (input : Z -> ItemInput) : effect unit :=
  match items with
  | [] => (pd, [], Ok tt)
  | (item, item_id) :: rest =>
      let '(pd1, evs1, r) := start_item pd user plan plan_run_id item item_id (input item_id) in
      match r with
      | Err e => (pd1, evs1, Err e)
      | Ok _ =>
          let '(pd2, evs2, r2) := start_items pd1 user plan plan_run_id rest input in
          (pd2, evs1 ++ evs2, r2)
      end
  end.

(** What the surroundings contribute to starting a plan. *)
Record StartInput := {
  si_hb : Z -> heartbeat_read;
  si_plan_run_id : string;
  si_item_base : Z;
  si_now : datetime;
  si_item : Z -> ItemInput;
  si_end : datetime;
  si_delivery_id : Z -> string;
}.

Definition start_test_plan_run (pd : PlatformDb) (user : CurrentUser) (plan_id : Z)
    (trigger : PlanTrigger) (schedule_id : option Z) (x : StartInput) : effect TestPlanRun :=
  match start_open pd user plan_id (si_hb x) trigger schedule_id (si_plan_run_id x)
          (si_item_base x) (si_now x) with
  | Err e => (pd, [], Err e)
  | Ok (pd1, plan, run) =>
      let '(pd2, evs, r) :=
        start_items pd1 user plan (tp_id run)
          (zip (enabled_items plan) (ri_id <$> tp_items run)) (si_item x) in
      match r with
      | Err e => (pd2, evs, Err e)
      | Ok _ =>
          match load_plan_run pd2 user (tp_id run) with
          | Err e => (pd2, evs, Err e)
          | Ok run2 =>
              let '(pd3, run3) := refresh_plan_run pd2 run2 (si_end x) (si_delivery_id x) in
              (pd3, evs, Ok run3)
          end
      end
  end.

(** ** Cancelling and dispatching again *)

(** The body of the loop of [cancel_test_plan_run]. *)
Definition cancel_item (now : datetime) (user : CurrentUser) (plan_run_id : string)
    (acc : effect unit) (item : TestPlanRunItem) : effect unit :=
  let '(pd, evs, r) := acc in
  match r, ri_run_id item with
  | Ok _, Some run_id =>
      match db_runs (core pd) !! run_id with
      | Some run =>
          if terminal_status (r_status run) then acc
          else
            let '(d, evs', c) := cancel_run (core pd) now user run_id in
            let pd' := with_core pd d in
            match c with
            | Ok _ => (pd', evs ++ evs', Ok tt)
            | Err e =>
                if is_app_error e
                then (update_item pd' plan_run_id (ri_id item)
                        (fun i => ri_with_error i (Some (error_code e)) (Some (error_message e))),
                      evs ++ evs', Ok tt)
                else (pd', evs ++ evs', Err e)
            end
      | None => acc
      end
  | _, _ => acc
  end.

(** The end of both handlers: the plan run is read again and refreshed. *)
Definition reload_and_refresh (acc : effect unit) (user : CurrentUser) (plan_run_id : string)
    (now : datetime) (new_id : Z -> string) : effect TestPlanRun :=
  let '(pd, evs, r) := acc in
  match (_ ← r; load_plan_run pd user plan_run_id) with
  | Err e => (pd, evs, Err e)
  | Ok run => let '(pd', run') := refresh_plan_run pd run now new_id in (pd', evs, Ok run')
  end.

Definition authorize_plan_run (pd : PlatformDb) (user : CurrentUser) (plan_run_id : string)
  : result TestPlanRun :=
  run ← load_plan_run pd user plan_run_id;
  get_project (db_projects (core pd)) user (tp_project_id run);;
  ensure_project_writable (db_projects (core pd)) (tp_project_id run) user;;
  Ok run.

Definition cancel_test_plan_run (pd : PlatformDb) (user : CurrentUser) (plan_run_id : string)
    (now : datetime) (new_id : Z -> string) : effect TestPlanRun :=
  match authorize_plan_run pd user plan_run_id with
  | Err e => (pd, [], Err e)
  | Ok run =>
      reload_and_refresh (foldl (cancel_item now user plan_run_id) (pd, [], Ok tt) (tp_items run))
        user plan_run_id now new_id
  end.

(** The body of the loop of [retry_test_plan_run_dispatch]. *)
Definition redispatch_item (input : Z -> ItemInput) (user : CurrentUser) (plan_run_id : string)
    (acc : effect unit) (item : TestPlanRunItem) : effect unit :=
  let '(pd, evs, r) := acc in
  match r, ri_run_id item with
  | Ok _, Some run_id =>
      match db_runs (core pd) !! run_id with
      | Some run =>
          if negb (bool_decide (r_status run ∈ [RunStatus.CREATED; RunStatus.QUEUED])) then acc
          else
            let x := input (ri_id item) in
            let '(d, evs', c) :=
              dispatch_run (ii_publish x) (core pd) (ii_now x) user run_id (ii_dispatch_hb x) false
                (ii_message_id x) in
            let pd' := with_core pd d in
            match c with
            | Ok resp =>
                (update_item pd' plan_run_id (ri_id item) (fun i =>
                   if decide (dp_outbox_status resp = DispatchOutboxStatus.FAILED)
                   then ri_with i (ri_run_id i) (dp_run_status resp) (Some "DISPATCH_FAILED")
                          (dp_last_error resp)
                   else ri_with i (ri_run_id i) (dp_run_status resp) None None),
                 evs ++ evs', Ok tt)
            | Err e =>
                if is_app_error e
                then (update_item pd' plan_run_id (ri_id item)
                        (fun i => ri_with_error i (Some (error_code e)) (Some (error_message e))),
                      evs ++ evs', Ok tt)
                else (pd', evs ++ evs', Err e)
            end
      | None => acc
      end
  | _, _ => acc
  end.

Definition retry_test_plan_run_dispatch (pd : PlatformDb) (user : CurrentUser) (plan_run_id : string)
    (input : Z -> ItemInput) (now : datetime) (new_id : Z -> string) : effect TestPlanRun :=
  match authorize_plan_run pd user plan_run_id with
  | Err e => (pd, [], Err e)
  | Ok run =>
      reload_and_refresh (foldl (redispatch_item input user plan_run_id) (pd, [], Ok tt) (tp_items run))
        user plan_run_id now new_id
  end.

End plans.
