(* ===== verification/PlanSystem.v ===== *)
(** Test plans above the run service as one transition system.  Every commit of a
    plan handler is a step, and between two of them anything may happen to the
    runs, the webhooks, the schedules and the CI tables.  Towards the run service
    only its contract [db_evolves] is used, towards the webhooks only
    [hook_evolves]. *)
From S2P Require Import Prelude PyText Projects Calendar RunData RunStatusOps RunControl RunDispatch.
From S2P Require Import RunCreate RunExecution RunInvariant RunHandlers RunSystem.
From S2P Require Import PlanData Webhooks TestPlans.

(** ** Aggregation *)

Lemma terminal_status_run s : terminal_status s = run_terminal s.
Proof. by destruct s. Qed.

Lemma all_equal_spec (s : RunStatus.t) l :
  negb (bool_decide (l = [])) && forallb (fun x => bool_decide (x = s)) l = true
  <-> l <> [] /\ Forall (fun x => x = s) l.
Proof.
  rewrite andb_true_iff, negb_true_iff, bool_decide_eq_false, forallb_forall, Forall_forall.
  setoid_rewrite list_elem_of_In. by setoid_rewrite bool_decide_eq_true.
Qed.

(** A plan run is finished exactly when all its items are. *)
Lemma aggregate_terminal l :
  l <> [] -> terminal_status (aggregate_status l) = forallb terminal_status l.
Proof.
  intros Hne. unfold aggregate_status.
  assert (forall s, terminal_status s = true ->
            negb (bool_decide (l = [])) && forallb (fun x => bool_decide (x = s)) l = true ->
            forallb terminal_status l = true) as Hall.
  { intros s Hs [_ Hf]%all_equal_spec. apply forallb_forall. intros x Hx.
    rewrite Forall_forall in Hf. rewrite (Hf x); [done | by apply list_elem_of_In]. }
  destruct (_ && _) eqn:E1; [by rewrite (Hall RunStatus.SUCCESS)|].
  destruct (negb _ && forallb (fun x => bool_decide (x = RunStatus.CANCELLED)) l) eqn:E2;
    [by rewrite (Hall RunStatus.CANCELLED)|].
  destruct (negb _ && forallb (fun x => bool_decide (x = RunStatus.TIMEOUT)) l) eqn:E3;
    [by rewrite (Hall RunStatus.TIMEOUT)|].
  destruct (forallb terminal_status l); [done|].
  destruct (existsb in_progress l); [done|]. by destruct (existsb _ l).
Qed.

Lemma aggregate_success l : aggregate_status l = RunStatus.SUCCESS -> Forall (fun s => s = RunStatus.SUCCESS) l.
Proof.
  unfold aggregate_status. destruct (_ && _) eqn:E1; [by apply all_equal_spec in E1 as [_ ?]|].
  repeat (destruct (_ && _); [done|]). destruct (forallb _ _); [done|].
  destruct (existsb _ _); [done|]. by destruct (existsb _ _).
Qed.

(** ** Invariant *)

Definition effective (d : Db) (i : TestPlanRunItem) : RunStatus.t := ri_status (refresh_item d i).
Definition effective_statuses (d : Db) (r : TestPlanRun) : list RunStatus.t :=
  effective d <$> tp_items r.

Record plan_run_ok (d : Db) (r : TestPlanRun) : Prop := {
  pr_items : tp_items r <> [];
  pr_nodup : NoDup (ri_id <$> tp_items r);
  pr_links : forall i k, i ∈ tp_items r -> ri_run_id i = Some k ->
    exists run, db_runs d !! k = Some run /\ h_project_id (r_header run) = tp_project_id r;
  pr_unstarted : forall i, i ∈ tp_items r -> ri_run_id i = None ->
    ri_status i ∈ [RunStatus.CREATED; RunStatus.FAILED];
  pr_final : terminal_status (tp_status r) = true ->
    tp_status r = aggregate_status (effective_statuses d r);
  pr_ended : terminal_status (tp_status r) = true <-> is_Some (tp_ended_at r);
}.

(** A run belongs to at most one item of one plan run. *)
Definition linked (pd : PlatformDb) (k : string) (i : Z) (run_id : string) : Prop :=
  exists r item, plan_runs (planning pd) !! k = Some r /\ item ∈ tp_items r /\ ri_id item = i
                 /\ ri_run_id item = Some run_id.

Record delivery_ok (t : PlanTables) (w : WebhookDelivery) : Prop := {
  dk_event : wd_event_id w = event_id_of (wd_plan_run_id w);
  dk_run : exists r, plan_runs t !! wd_plan_run_id w = Some r /\ terminal_status (tp_status r) = true
                     /\ wp_status (wd_payload w) = tp_status r
                     /\ wp_ended_at (wd_payload w) = tp_ended_at r
                     /\ wd_project_id w = tp_project_id r;
}.

Record plan_inv (pd : PlatformDb) : Prop := {
  pv_core : db_inv (core pd);
  pv_keys : forall k r, plan_runs (planning pd) !! k = Some r -> tp_id r = k;
  pv_runs : forall k r, plan_runs (planning pd) !! k = Some r -> plan_run_ok (core pd) r;
  pv_linked : forall k k' i i' x, linked pd k i x -> linked pd k' i' x -> k = k' /\ i = i';
  pv_deliveries : forall id w, deliveries (hooks pd) !! id = Some w -> delivery_ok (planning pd) w;
  pv_unique : forall id id' w w', deliveries (hooks pd) !! id = Some w ->
    deliveries (hooks pd) !! id' = Some w' ->
    wd_endpoint_id w = wd_endpoint_id w' -> wd_event_id w = wd_event_id w' -> id = id';
}.

(** ** Contract *)

Record item_evolves (i i' : TestPlanRunItem) : Prop := {
  ie_id : ri_id i' = ri_id i;
  ie_plan_item : ri_plan_item_id i' = ri_plan_item_id i;
  ie_sequence : ri_sequence_no i' = ri_sequence_no i;
  ie_type : ri_target_type i' = ri_target_type i;
  ie_run : keeps (ri_run_id i) (ri_run_id i');
}.

Record plan_run_evolves (r r' : TestPlanRun) : Prop := {
  te_header : tp_with r' RunStatus.CREATED None [] = tp_with r RunStatus.CREATED None [];
  te_final : terminal_status (tp_status r) = true ->
    tp_status r' = tp_status r /\ tp_ended_at r' = tp_ended_at r;
  te_items : Forall2 item_evolves (tp_items r) (tp_items r');
}.

(** What a delivery is about never changes. *)
Definition same_message (w w' : WebhookDelivery) : Prop :=
  wd_endpoint_id w' = wd_endpoint_id w /\ wd_event_id w' = wd_event_id w
  /\ wd_plan_run_id w' = wd_plan_run_id w /\ wd_payload w' = wd_payload w
  /\ wd_project_id w' = wd_project_id w.

Definition hook_evolves (h h' : HookTables) : Prop :=
  forall id, match deliveries h !! id, deliveries h' !! id with
             | Some w, Some w' => same_message w w'
             | None, None => True
             | _, _ => False
             end.

Record plan_evolves (pd pd' : PlatformDb) : Prop := {
  pe_core : db_evolves (core pd) (core pd');
  pe_runs : forall k r, plan_runs (planning pd) !! k = Some r ->
    exists r', plan_runs (planning pd') !! k = Some r' /\ plan_run_evolves r r';
  pe_deliveries : forall id w, deliveries (hooks pd) !! id = Some w ->
    exists w', deliveries (hooks pd') !! id = Some w' /\ same_message w w';
}.

#[export] Instance item_evolves_preorder : PreOrder item_evolves.
Proof.
  split; [by split | intros x y z [] []; split; try congruence; by etrans].
Qed.

#[export] Instance plan_run_evolves_preorder : PreOrder plan_run_evolves.
Proof.
  split; [by split | intros x y z [] []; split; [congruence | | by etrans]].
  intros Ht. destruct (te_final0 Ht) as [Hs He], te_final1 as [Hs' He']; [congruence|].
  split; congruence.
Qed.

#[export] Instance same_message_preorder : PreOrder same_message.
Proof.
  split; [done | intros x y z (? & ? & ? & ? & ?) (? & ? & ? & ? & ?)].
  repeat split; congruence.
Qed.

#[export] Instance plan_evolves_preorder : PreOrder plan_evolves.
Proof.
  split.
  - intros pd. split; [done | intros k r Hr; by exists r | intros id w Hw; by exists w].
  - intros x y z [] []. split; [by etrans | |].
    + intros k r Hr. destruct (pe_runs0 _ _ Hr) as (r' & Hr' & E1), (pe_runs1 _ _ Hr') as (r'' & ? & E2).
      exists r''. split; [done | by etrans].
    + intros id w Hw. destruct (pe_deliveries0 _ _ Hw) as (w' & Hw' & E1),
        (pe_deliveries1 _ _ Hw') as (w'' & ? & E2). exists w''. split; [done | by etrans].
Qed.

Definition plan_step (pd pd' : PlatformDb) : Prop := plan_inv pd' /\ plan_evolves pd pd'.

Lemma plan_step_refl pd : plan_inv pd -> plan_step pd pd.
Proof. by split. Qed.

(** ** The run service below *)

Lemma terminal_rtc s s' : terminal_status s = true -> rtc run_edge s s' -> s' = s.
Proof.
  rewrite terminal_status_run. intros Ht. induction 1 as [|s s1 s2 He _ IH]; [done|].
  apply run_edge_nonterminal in He. congruence.
Qed.

Lemma effective_stable d d' i :
  db_evolves d d' -> (forall k, ri_run_id i = Some k -> is_Some (db_runs d !! k)) ->
  terminal_status (effective d i) = true -> effective d' i = effective d i.
Proof.
  unfold effective, refresh_item. intros He Hex. destruct (ri_run_id i) as [k|]; [|done].
  destruct (Hex k eq_refl) as [run Hrun]. rewrite Hrun. cbn. intros Ht.
  destruct (de_runs _ _ He _ _ Hrun) as (run' & -> & Hev). cbn.
  by apply terminal_rtc, Hev.
Qed.

Lemma effective_statuses_terminal d r :
  plan_run_ok d r -> terminal_status (tp_status r) = true ->
  Forall (fun i => terminal_status (effective d i) = true) (tp_items r).
Proof.
  intros Hr Ht. rewrite (pr_final _ _ Hr Ht), aggregate_terminal, forallb_forall in Ht.
  - apply Forall_forall. intros i Hi. apply Ht, list_elem_of_In, list_elem_of_fmap_2, Hi.
  - unfold effective_statuses. intros Hn%fmap_nil_inv. by apply (pr_items _ _ Hr).
Qed.

(** What happens to the runs leaves a plan run well-formed, and a finished one
    keeps the status its items add up to. *)
Lemma plan_run_ok_core d d' r : db_evolves d d' -> plan_run_ok d r -> plan_run_ok d' r.
Proof.
  intros He Hr. pose proof Hr as []. split; try done.
  - intros i k Hi Hk. destruct (pr_links0 i k Hi Hk) as (run & Hrun & Hp).
    destruct (de_runs _ _ He _ _ Hrun) as (run' & Hrun' & Hev). exists run'.
    by rewrite (re_header _ _ Hev).
  - intros Ht. rewrite (pr_final0 Ht). f_equal. unfold effective_statuses.
    pose proof (effective_statuses_terminal _ _ Hr Ht) as Hall.
    apply list_fmap_ext. intros n i Hi%list_elem_of_lookup_2. symmetry.
    rewrite Forall_forall in Hall. apply effective_stable; [done | | by apply Hall].
    intros k Hk. destruct (pr_links0 i k Hi Hk) as (run & Hrun & _). by eexists.
Qed.

Lemma core_step pd d' : plan_inv pd -> db_step (core pd) d' -> plan_step pd (with_core pd d').
Proof.
  intros Hp [Hi He]. pose proof Hp as []. split; split; try done; cbn.
  - intros k r Hr. eapply plan_run_ok_core; eauto.
  - intros k r Hr. by exists r.
  - intros id w Hw. by exists w.
Qed.

(** ** Writing one plan run *)

Lemma delivery_ok_evolves t k r r' w :
  plan_runs t !! k = Some r -> tp_id r' = k -> plan_run_evolves r r' -> delivery_ok t w ->
  delivery_ok {| plans := plans t; plan_runs := <[tp_id r' := r']> (plan_runs t) |} w.
Proof.
  intros Hr Hk He [Hev (r0 & Hr0 & Ht & Hs & Hd & Hpid)]. split; [done|]. cbn. rewrite Hk.
  destruct (decide (wd_plan_run_id w = k)) as [Heq|Hne].
  - rewrite Heq in *. rewrite Hr in Hr0. simplify_eq. exists r'. rewrite lookup_insert_eq.
    destruct (te_final _ _ He Ht) as [Hs' Hd']. pose proof (te_header _ _ He) as Hh.
    apply (f_equal tp_project_id) in Hh. cbn in Hh. rewrite Hs', Hd', Hh. done.
  - exists r0. by rewrite lookup_insert_ne.
Qed.

(** A plan run that existed is replaced; [new] is the link it gains, if any. *)
Lemma put_plan_run_step pd k r r' (new : option (Z * string)) :
  plan_inv pd -> plan_runs (planning pd) !! k = Some r ->
  plan_run_evolves r r' -> plan_run_ok (core pd) r' ->
  (forall i x, i ∈ tp_items r' -> ri_run_id i = Some x ->
     linked pd k (ri_id i) x \/ new = Some (ri_id i, x)) ->
  (forall i x, new = Some (i, x) -> forall k i', ~ linked pd k i' x) ->
  plan_step pd (put_plan_run pd r').
Proof.
  intros Hp Hr He Hok Hl Hnew. pose proof Hp as [].
  assert (tp_id r' = k) as Hk.
  { pose proof (te_header _ _ He) as Hh. apply (f_equal tp_id) in Hh. cbn in Hh.
    rewrite Hh. by apply pv_keys0. }
  assert (forall k' i x, linked (put_plan_run pd r') k' i x ->
            linked pd k' i x \/ (k' = k /\ new = Some (i, x))) as Hback.
  { intros k' i x (r0 & item & Hr0 & Hin & <- & Hx). cbn in Hr0. rewrite Hk in Hr0.
    apply lookup_insert_Some in Hr0 as [[<- <-]|[Hne Hr0]].
    - destruct (Hl _ _ Hin Hx); [by left | by right].
    - left. by exists r0, item. }
  split; split; cbn; rewrite ?Hk; try done.
  - intros k0 r0 [[<- <-]|[? ?]]%lookup_insert_Some; [done | by apply pv_keys0].
  - intros k0 r0 [[<- <-]|[? ?]]%lookup_insert_Some; [done | by eapply pv_runs0].
  - intros k1 k2 i1 i2 x [H1|[-> H1]]%Hback [H2|[-> H2]]%Hback.
    + eauto.
    + by destruct (Hnew _ _ H2 k1 i1).
    + by destruct (Hnew _ _ H1 k2 i2).
    + by simplify_eq.
  - intros id w Hw. rewrite <-Hk. eapply delivery_ok_evolves; eauto.
  - intros k0 r0 Hr0. destruct (decide (k0 = k)) as [->|Hne].
    + exists r'. rewrite lookup_insert_eq. by simplify_eq.
    + exists r0. by rewrite lookup_insert_ne.
  - intros id w Hw. by exists w.
Qed.

(** ** Refreshing *)

Lemma refresh_item_fields d i :
  ri_id (refresh_item d i) = ri_id i /\ ri_run_id (refresh_item d i) = ri_run_id i
  /\ item_evolves i (refresh_item d i).
Proof.
  unfold refresh_item. destruct (ri_run_id i) as [k|] eqn:Hk; [destruct (db_runs d !! k)|]; cbn;
    (split_and!; [done | done |]); split; cbn; try done; by rewrite Hk.
Qed.

Lemma refresh_item_idem d i : refresh_item d (refresh_item d i) = refresh_item d i.
Proof.
  unfold refresh_item. destruct (ri_run_id i) as [k|] eqn:Hk; [|by rewrite Hk].
  destruct (db_runs d !! k) eqn:Hr; cbn; [|by rewrite Hk, Hr]. by rewrite Hk, Hr.
Qed.

Lemma refreshed_statuses d r now :
  effective_statuses d (refreshed d r now) = effective_statuses d r
  /\ ri_status <$> tp_items (refreshed d r now) = effective_statuses d r.
Proof.
  unfold refreshed, effective_statuses, effective; cbn. rewrite <-!list_fmap_compose.
  split; apply list_fmap_ext; intros n i _; cbn; by rewrite ?refresh_item_idem.
Qed.

Lemma refreshed_status d r now :
  tp_status (refreshed d r now) = aggregate_status (effective_statuses d r).
Proof.
  unfold refreshed, effective_statuses, effective. cbn. by rewrite <-list_fmap_compose.
Qed.

Lemma refreshed_ok d r now : plan_run_ok d r -> plan_run_ok d (refreshed d r now).
Proof.
  intros Hr. pose proof Hr as []. destruct (refreshed_statuses d r now) as [Heff Hst].
  assert (effective_statuses d r <> []) as Hne by (by intros ?%fmap_nil_inv).
  split.
  - cbn. by intros ?%fmap_nil_inv.
  - cbn. rewrite <-list_fmap_compose.
    rewrite (list_fmap_ext _ ri_id (tp_items r)); [done|].
    intros n i _. cbn. apply refresh_item_fields.
  - cbn. intros i k Hi Hk. apply list_elem_of_fmap in Hi as (i0 & -> & Hi).
    destruct (refresh_item_fields d i0) as (_ & Hrun & _). rewrite Hrun in Hk. eauto.
  - cbn. intros i Hi Hk. apply list_elem_of_fmap in Hi as (i0 & -> & Hi).
    destruct (refresh_item_fields d i0) as (_ & Hrun & _). rewrite Hrun in Hk.
    unfold refresh_item. rewrite Hk. eauto.
  - intros _. by rewrite Heff, refreshed_status.
  - rewrite refreshed_status, aggregate_terminal by done. unfold refreshed. cbn.
    change (ri_status <$> (refresh_item d <$> tp_items r)) with (ri_status <$> tp_items (refreshed d r now)).
    rewrite Hst. destruct (forallb _ _) eqn:Hf.
    + split; [|done]. intros _. by destruct (tp_ended_at r).
    + split; [done|]. intros He. apply pr_ended0 in He. rewrite (pr_final0 He) in He.
      rewrite aggregate_terminal in He by done. congruence.
Qed.

Lemma refreshed_evolves d r now : plan_run_ok d r -> plan_run_evolves r (refreshed d r now).
Proof.
  intros Hr. split; [done | |].
  - intros Ht. rewrite refreshed_status, <-(pr_final _ _ Hr Ht). split; [done|].
    apply (pr_ended _ _ Hr) in Ht as [t Ht]. unfold refreshed; cbn. rewrite Ht. by destruct (forallb _ _).
  - cbn. induction (tp_items r) as [|i l IH]; constructor; [|done]. apply refresh_item_fields.
Qed.

Lemma refreshed_step pd k r now :
  plan_inv pd -> plan_runs (planning pd) !! k = Some r ->
  plan_step pd (put_plan_run pd (refreshed (core pd) r now)).
Proof.
  intros Hp Hr. pose proof (pv_runs _ Hp _ _ Hr) as Hok.
  eapply (put_plan_run_step _ _ _ _ None);
    eauto using refreshed_evolves, refreshed_ok; [|done].
  cbn. intros i x Hi Hx. left. apply list_elem_of_fmap in Hi as (i0 & -> & Hi).
  destruct (refresh_item_fields (core pd) i0) as (Hid & Hrun & _). exists r, i0.
  rewrite Hid. by rewrite Hrun in Hx.
Qed.

(** ** Completion events *)

Lemma enqueue_targets_spec h r e :
  e ∈ enqueue_targets h r ->
  delivery_exists (deliveries h) e (event_id_of (tp_id r)) = false.
Proof.
  unfold enqueue_targets. intros He. apply list_elem_of_fmap in He as ([e' x] & -> & Hin).
  apply list_elem_of_filter in Hin as [(_ & _ & _ & H) _]. done.
Qed.

Lemma delivery_exists_false ds e ev id w :
  delivery_exists ds e ev = false -> ds !! id = Some w -> wd_endpoint_id w = e ->
  wd_event_id w <> ev.
Proof.
  unfold delivery_exists. rewrite bool_decide_eq_false. intros Hn Hw He Hv.
  apply Hn, map_Exists_lookup_2 with id w; [done | by split].
Qed.

(** The rows after enqueueing: the old ones and one new row per target. *)
Lemma enqueue_cases h r now new_id id w :
  deliveries (enqueue_test_plan_run_webhooks h r now new_id).1 !! id = Some w ->
  deliveries h !! id = Some w
  \/ exists e, e ∈ enqueue_targets h r /\ id = new_id e /\ w = new_delivery r e now.
Proof.
  unfold enqueue_test_plan_run_webhooks. destruct (negb _); [by left|].
  destruct (_ && _); [|by left]. cbn. intros [Hw|[_ Hw]]%lookup_union_Some_raw; [|by left].
  apply elem_of_list_to_map_2, list_elem_of_fmap in Hw as (e & [= -> ->] & He).
  right. by exists e.
Qed.

Lemma enqueue_step pd k r now new_id :
  plan_inv pd -> plan_runs (planning pd) !! k = Some r -> terminal_status (tp_status r) = true ->
  plan_step pd (with_hooks pd (enqueue_test_plan_run_webhooks (hooks pd) r now new_id).1).
Proof.
  intros Hp Hr Ht. pose proof Hp as []. pose proof (pv_keys0 _ _ Hr) as Hk.
  split; split; cbn; try done.
  - intros id w [Hw|(e & He & -> & ->)]%enqueue_cases; [eauto|]. split; [done|]. cbn.
    exists r. by rewrite Hk.
  - intros id id' w w' Hw Hw' He Hv.
    apply enqueue_cases in Hw as [Hw|(e & Hin & -> & ->)];
      apply enqueue_cases in Hw' as [Hw'|(e' & Hin' & -> & ->)].
    + eauto.
    + apply enqueue_targets_spec in Hin'.
      exfalso. eapply (delivery_exists_false _ _ _ id w); eauto.
    + apply enqueue_targets_spec in Hin.
      exfalso. eapply (delivery_exists_false _ _ _ id' w'); eauto.
    + cbn in He. by subst.
  - intros k0 r0 Hr0. by exists r0.
  - intros id w Hw. exists w. split; [|done]. by apply enqueue_keeps.
Qed.

Lemma plan_step_trans pd1 pd2 pd3 : plan_step pd1 pd2 -> plan_step pd2 pd3 -> plan_step pd1 pd3.
Proof. intros [_ E1] [? E2]. split; [done | by etrans]. Qed.

Lemma refresh_step pd k r now new_id :
  plan_inv pd -> plan_runs (planning pd) !! k = Some r ->
  plan_step pd (refresh_plan_run pd r now new_id).1.
Proof.
  intros Hp Hr. pose proof (refreshed_step _ _ _ now Hp Hr) as Hs. unfold refresh_plan_run.
  destruct (forallb _ _) eqn:Hf; [|done]. eapply plan_step_trans; [exact Hs|]. cbn [fst].
  pose proof (pv_runs _ Hp _ _ Hr) as Hok. eapply enqueue_step; [apply Hs | cbn; apply lookup_insert_eq |].
  rewrite refreshed_status, aggregate_terminal.
  - destruct (refreshed_statuses (core pd) r now) as [_ Heq]. by rewrite <-Heq.
  - by intros ?%fmap_nil_inv; apply (pr_items _ _ Hok).
Qed.

Lemma hooks_step pd h : plan_inv pd -> hook_evolves (hooks pd) h -> plan_step pd (with_hooks pd h).
Proof.
  intros Hp He. pose proof Hp as [].
  assert (forall id w', deliveries h !! id = Some w' ->
            exists w, deliveries (hooks pd) !! id = Some w /\ same_message w w') as Hback.
  { intros id w' Hw'. specialize (He id). rewrite Hw' in He.
    destruct (deliveries (hooks pd) !! id) as [w|]; [by exists w | done]. }
  split; split; cbn; try done.
  - intros id w' (w & Hw & (He1 & He2 & He3 & He4 & He5))%Hback.
    destruct (pv_deliveries0 _ _ Hw). split; rewrite ?He2, ?He3, ?He4, ?He5; done.
  - intros id id' w w' (w0 & Hw0 & (He1 & He2 & _))%Hback (w1 & Hw1 & (Hf1 & Hf2 & _))%Hback.
    rewrite He1, He2, Hf1, Hf2. eauto.
  - intros k r Hr. by exists r.
  - intros id w Hw. specialize (He id). rewrite Hw in He.
    destruct (deliveries h !! id) as [w'|]; [by exists w' | done].
Qed.

(** The webhook operations keep what a delivery is about. *)
Lemma insert_evolves h id w w' es :
  deliveries h !! id = Some w -> same_message w w' ->
  hook_evolves h {| endpoints := es; deliveries := <[id := w']> (deliveries h) |}.
Proof.
  intros Hw Hs id'. cbn. destruct (decide (id = id')) as [<-|Hne].
  - by rewrite Hw, lookup_insert_eq.
  - rewrite lookup_insert_ne by done. by destruct (deliveries h !! id').
Qed.

Lemma hook_evolves_refl h es : hook_evolves h {| endpoints := es; deliveries := deliveries h |}.
Proof. intros id. cbn. by destruct (deliveries h !! id). Qed.

Lemma dispatch_begin_evolves h id now h' o : dispatch_begin h id now = Ok (h', o) -> hook_evolves h h'.
Proof.
  unfold dispatch_begin. destruct (deliveries h !! id) as [w|] eqn:Hw; [|done].
  cbn [some_or mbind result_bind]. intros H.
  destruct (_ || _); [inv_ok; destruct h'; apply hook_evolves_refl|].
  destruct (endpoints h !! wd_endpoint_id w) as [e|]; [destruct (endpoint_live e)|]; inv_ok;
    by eapply insert_evolves.
Qed.

Lemma dispatch_finish_evolves h sd r now h' : dispatch_finish h sd r now = Ok h' -> hook_evolves h h'.
Proof.
  unfold dispatch_finish. destruct (deliveries h !! sd_id sd) as [w|] eqn:Hw; [|done].
  cbn [some_or mbind result_bind]. intros H. inv_ok. eapply insert_evolves; [done|].
  unfold delivery_after. destruct (send_error r) as [[[??]?]|]; [by destruct (_ && _) | done].
Qed.

Lemma retry_delivery_evolves pd user id now h' :
  retry_webhook_delivery pd user id now = Ok h' -> hook_evolves (hooks pd) h'.
Proof.
  unfold retry_webhook_delivery. destruct (deliveries (hooks pd) !! id) as [w|] eqn:Hw; [|done].
  cbn [some_or mbind result_bind]. intros H. inv_ok. by eapply insert_evolves.
Qed.

(** ** Starting a plan *)

Definition unstarted (i : TestPlanRunItem) : Prop :=
  ri_run_id i = None /\ ri_status i = RunStatus.CREATED.

Section start.
Context `{Settings} `{Catalog} `{Evaluation} `{Assets} `{AssetTables}.

Lemma new_run_items_unstarted base items : Forall unstarted (new_run_items base items).
Proof.
  unfold new_run_items. apply Forall_forall. intros i Hi.
  apply elem_of_lookup_imap in Hi as (k & x & -> & _). done.
Qed.

Lemma new_run_items_nodup base items : NoDup (ri_id <$> new_run_items base items).
Proof.
  unfold new_run_items. rewrite fmap_imap. apply NoDup_alt. intros i j x Hi Hj.
  rewrite list_lookup_imap in Hi, Hj.
  apply fmap_Some in Hi as (y & _ & ->), Hj as (z & _ & Hj). cbn in Hj. lia.
Qed.

Lemma validation_nonempty pd user plan_id hb v plan :
  load_plan pd user plan_id = Ok plan -> validate_test_plan pd user plan_id hb = Ok v ->
  validation_valid v = true -> enabled_items plan <> [].
Proof.
  unfold validate_test_plan. intros Hl Hv Hval. rewrite Hl in Hv. cbn [mbind result_bind] in Hv.
  intros He. rewrite He in Hv. cbn in Hv. inv_ok. done.
Qed.

Lemma start_open_step pd user plan_id hb tr sid prid base now pd' plan run :
  plan_inv pd ->
  start_open pd user plan_id hb tr sid prid base now = Ok (pd', plan, run) ->
  plan_step pd pd' /\ core pd' = core pd /\ plan_runs (planning pd') !! tp_id run = Some run
  /\ tp_id run = prid /\ tp_items run = new_run_items base (enabled_items plan)
  /\ tp_project_id run = pl_project_id plan.
Proof.
  intros Hp Ho. unfold start_open in Ho. inv_ok. pose proof Hp as [].
  match goal with E : load_plan _ _ _ = Ok _, E' : validate_test_plan _ _ _ _ = Ok _,
    G : validation_valid _ = true |- _ => pose proof (validation_nonempty _ _ _ _ _ _ E E' G) as Hne end.
  match goal with G : bool_decide (is_Some _) = false |- _ =>
    apply bool_decide_eq_false in G; rewrite <-eq_None_not_Some in G; rename G into Hfresh end.
  match goal with |- context [put_plan_run pd ?r] => set (run := r) in * end.
  assert (plan_run_ok (core pd) run) as Hok.
  { pose proof (new_run_items_unstarted base (enabled_items plan)) as Hun.
    rewrite Forall_forall in Hun. split; cbn.
    - unfold new_run_items. intros Hn. apply (f_equal length) in Hn. rewrite length_imap in Hn.
      by destruct (enabled_items plan).
    - apply new_run_items_nodup.
    - intros i k Hi Hk. destruct (Hun i Hi). congruence.
    - intros i Hi _. destruct (Hun i Hi) as [_ ->]. by left.
    - done.
    - split; [done|]. by intros []. }
  split_and!; try done; [|cbn; by rewrite lookup_insert_eq].
  split; split; cbn; try done.
  - intros k r [[<- <-]|[_ Hr]]%lookup_insert_Some; [done | by apply pv_keys0].
  - intros k r [[<- <-]|[_ Hr]]%lookup_insert_Some; [done | by eapply pv_runs0].
  - assert (forall k i x, linked (put_plan_run pd run) k i x -> linked pd k i x) as Hback.
    { intros k i x (r & item & Hr & Hin & Hid & Hx). cbn in Hr.
      apply lookup_insert_Some in Hr as [[<- <-]|[_ Hr]]; [|by exists r, item].
      pose proof (new_run_items_unstarted base (enabled_items plan)) as Hun.
      rewrite Forall_forall in Hun. destruct (Hun item Hin). congruence. }
    intros k k' i i' x L1%Hback L2%Hback. eauto.
  - intros id w Hw. destruct (pv_deliveries0 _ _ Hw) as [Hv (r & Hr & Hrest)]. split; [done|].
    exists r. split; [|done]. cbn. rewrite lookup_insert_ne; [done|]. intros Heq. cbn in Heq. congruence.
  - intros k r Hr. exists r. split; [|done]. rewrite lookup_insert_ne; [done|].
    intros Heq. cbn in Heq. congruence.
  - intros id w Hw. by exists w.
Qed.
End start.

(** ** Writing one item *)

(** What a handler may do to an item: report on a started one, or record that an
    unstarted one failed or got a run. *)
Definition item_update_ok (d : Db) (r : TestPlanRun) (new : option (Z * string))
    (i i' : TestPlanRunItem) : Prop :=
  (is_Some (ri_run_id i) /\ ri_run_id i' = ri_run_id i)
  \/ (unstarted i
      /\ match ri_run_id i' with
         | None => ri_status i' ∈ [RunStatus.CREATED; RunStatus.FAILED]
         | Some x => new = Some (ri_id i, x)
                     /\ exists run, db_runs d !! x = Some run
                                    /\ h_project_id (r_header run) = tp_project_id r
         end).

Lemma started_effective d r i i' :
  plan_run_ok d r -> i ∈ tp_items r -> is_Some (ri_run_id i) -> ri_run_id i' = ri_run_id i ->
  effective d i' = effective d i.
Proof.
  intros Hr Hi [k Hk] Heq. unfold effective, refresh_item. rewrite Heq, Hk.
  destruct (pr_links _ _ Hr i k Hi Hk) as (run & -> & _). done.
Qed.

Lemma unstarted_effective d i : unstarted i -> terminal_status (effective d i) = false.
Proof. intros [Hk Hs]. unfold effective, refresh_item. by rewrite Hk, Hs. Qed.

Lemma update_item_step pd k r item_id f new :
  plan_inv pd -> plan_runs (planning pd) !! k = Some r ->
  (forall i, i ∈ tp_items r -> ri_id i = item_id ->
     item_evolves i (f i) /\ item_update_ok (core pd) r new i (f i)) ->
  (forall i x, new = Some (i, x) -> forall k i', ~ linked pd k i' x) ->
  plan_step pd (update_item pd k item_id f).
Proof.
  intros Hp Hr Hf Hnew. unfold update_item. rewrite Hr.
  assert (forall i, i ∈ tp_items r -> ri_id i = item_id -> item_update_ok (core pd) r new i (f i))
    as Hok by (intros; by apply Hf).
  pose proof (pv_runs _ Hp _ _ Hr) as Hrok. pose proof Hrok as [].
  set (g := fun i => if decide (ri_id i = item_id) then f i else i).
  assert (forall i, i ∈ tp_items r -> item_evolves i (g i)) as Hg.
  { intros i Hi. unfold g. case_decide; [|done]. by apply Hf. }
  assert (forall i, i ∈ tp_items r -> terminal_status (tp_status r) = true ->
            effective (core pd) (g i) = effective (core pd) i) as Heff.
  { intros i Hi Ht. unfold g. case_decide as Hid; [|done].
    pose proof (effective_statuses_terminal _ _ Hrok Ht) as Hall. rewrite Forall_forall in Hall.
    destruct (Hok i Hi Hid) as [[Hs Hsame]|[Hu _]]; [by eapply started_effective|].
    apply (unstarted_effective (core pd)) in Hu. rewrite (Hall i Hi) in Hu. done. }
  eapply (put_plan_run_step pd k r _ new); [done | done | | | | exact Hnew].
  - split; [done | done |]. cbn. apply Forall2_fmap_r, Forall_Forall2_diag, Forall_forall. exact Hg.
  - split; cbn; try done.
    + by intros ?%fmap_nil_inv.
    + rewrite <-list_fmap_compose. rewrite (list_fmap_ext _ ri_id (tp_items r)); [done|].
      intros n i Hi%list_elem_of_lookup_2. cbn. by apply Hg.
    + intros i' x Hi' Hx. apply list_elem_of_fmap in Hi' as (i & -> & Hi). unfold g in Hx.
      case_decide as Hid; [|eauto]. destruct (Hok i Hi Hid) as [[Hs Hsame]|[_ Hm]].
      * rewrite Hsame in Hx. eauto.
      * rewrite Hx in Hm. by destruct Hm as [_ ?].
    + intros i' Hi' Hx. apply list_elem_of_fmap in Hi' as (i & -> & Hi). unfold g in *.
      case_decide as Hid; [|eauto]. destruct (Hok i Hi Hid) as [[[y Hs] Hsame]|[_ Hm]]; [congruence|].
      by rewrite Hx in Hm.
    + intros Ht. rewrite (pr_final0 Ht). f_equal. unfold effective_statuses. cbn.
      rewrite <-list_fmap_compose. apply list_fmap_ext. intros n i Hi%list_elem_of_lookup_2.
      symmetry. by apply Heff.
  - cbn. intros i' x Hi' Hx. apply list_elem_of_fmap in Hi' as (i & -> & Hi).
    rewrite (ie_id _ _ (Hg i Hi)). unfold g in Hx. case_decide as Hid; [|by left; exists r, i].
    destruct (Hok i Hi Hid) as [[Hs Hsame]|[_ Hm]].
    + left. exists r, i. by rewrite Hsame in Hx.
    + rewrite Hx in Hm. right. apply Hm.
Qed.

(** ** The transition system *)

Section system.
Context `{Settings} `{Catalog} `{Evaluation} `{Assets} `{AssetTables}.

Inductive pstep (pd : PlatformDb) : PlatformDb -> Prop :=
  (* the run service handles requests *)
  | ps_runs d' : reachable (core pd) d' -> pstep pd (with_core pd d')
  (* a plan is saved *)
  | ps_plan p : pstep pd (put_plan pd p)
  (* a plan run is created *)
  | ps_open user plan_id hb tr sid prid base now pd' plan run :
      start_open pd user plan_id hb tr sid prid base now = Ok (pd', plan, run) -> pstep pd pd'
  (* an item row is written *)
  | ps_item k r item_id f new :
      plan_runs (planning pd) !! k = Some r ->
      (forall i, i ∈ tp_items r -> ri_id i = item_id ->
         item_evolves i (f i) /\ item_update_ok (core pd) r new i (f i)) ->
      (forall i x, new = Some (i, x) -> forall k i', ~ linked pd k i' x) ->
      pstep pd (update_item pd k item_id f)
  (* a plan run is refreshed *)
  | ps_refresh k r now new_id :
      plan_runs (planning pd) !! k = Some r -> pstep pd (refresh_plan_run pd r now new_id).1
  (* the webhook, schedule and CI tables change *)
  | ps_hooks h : hook_evolves (hooks pd) h -> pstep pd (with_hooks pd h)
  | ps_scheduling t : pstep pd (with_scheduling pd t)
  | ps_ci t : pstep pd (with_ci pd t).

(** Steps that touch neither runs, plan runs nor deliveries. *)
Lemma frame_step pd pd' :
  core pd' = core pd -> plan_runs (planning pd') = plan_runs (planning pd) ->
  deliveries (hooks pd') = deliveries (hooks pd) -> plan_inv pd -> plan_step pd pd'.
Proof.
  intros Hc Hr Hd []. unfold plan_step.
  split; split; rewrite ?Hc, ?Hr, ?Hd; unfold linked in *; rewrite ?Hr; try done.
  - intros id w Hw. destruct (pv_deliveries0 _ _ Hw). split; rewrite ?Hr; done.
  - intros k r Hk. by exists r.
  - intros id w Hw. by exists w.
Qed.

Lemma pstep_step pd pd' : plan_inv pd -> pstep pd pd' -> plan_step pd pd'.
Proof.
  intros Hp. destruct 1; try by apply frame_step.
  - apply core_step; [done|]. apply reachable_step; [apply Hp | done].
  - by eapply start_open_step.
  - by eapply update_item_step.
  - by eapply refresh_step.
  - by apply hooks_step.
Qed.

Lemma psteps_step pd pd' : plan_inv pd -> rtc pstep pd pd' -> plan_step pd pd'.
Proof.
  intros Hp Hr. revert Hp. induction Hr as [|x y z Hs _ IH]; intros Hp; [by apply plan_step_refl|].
  pose proof (pstep_step _ _ Hp Hs) as Hst. eapply plan_step_trans; [exact Hst|].
  apply IH, Hst.
Qed.

(** ** The handlers are sequences of steps *)

Lemma handle_reachable d now q : reachable d (handle d now q).1.
Proof. apply rtc_once. by exists now, q. Qed.

Lemma dispatch_run_reachable publish d now user i hb pre m :
  reachable d (out_db (dispatch_run publish d now user i hb pre m)).
Proof.
  pose proof (handle_reachable d now (RDispatch user i hb pre m)) as Hd. cbn in Hd.
  unfold dispatch_request in Hd. unfold dispatch_run.
  destruct (dispatch_open d now user i hb pre m) as [[d1 evs] [[resp|x]|e]]; [done | | done].
  destruct (dispatch_attempt d1 i) as [[d2 evs2] [[resp|[rk payload]]|e]]; [done | | done].
  cbn in Hd. etrans; [exact Hd|].
  pose proof (handle_reachable d2 now (RPublished i (publish rk payload))) as Hp. cbn in Hp.
  by destruct (record_publish_result d2 now i (publish rk payload)) as [[d3 evs3] r3].
Qed.

Lemma create_run_ok d now user p hb i cb sb d' evs run :
  create_run d now user p hb i cb sb = (d', evs, Ok run) ->
  r_id run = i /\ db_runs d !! i = None /\ db_runs d' !! i = Some run
  /\ h_project_id (r_header run) = rq_project_id p.
Proof.
  unfold create_run, transact. intros Hc.
  match goal with Hc : match ?b with _ => _ end = _ |- _ => destruct b as [[[d0 evs0] a]|e] eqn:Hb end;
    [|done].
  simplify_eq. inv_ok.
  match goal with x : list string * list string * TargetSpec |- _ => destruct x as [[iss caps] spec] end.
  inv_ok. match goal with x : bool_decide (is_Some _) = false |- _ => apply bool_decide_eq_false in x as Hn end.
  rewrite <-eq_None_not_Some in Hn. split_and!; try done. cbn. by rewrite lookup_insert_eq.
Qed.

(** What is known of a plan run while its items are being started. *)
Record starting (pd : PlatformDb) (k : string) (project_id : Z) (todo : Z -> Prop) : Prop := {
  sg_run : exists r, plan_runs (planning pd) !! k = Some r /\ tp_project_id r = project_id
    /\ forall i, i ∈ tp_items r -> todo (ri_id i) -> unstarted i;
}.

Lemma starting_core pd d k p todo : starting pd k p todo -> starting (with_core pd d) k p todo.
Proof. by intros [?]; split. Qed.

Lemma starting_update pd k p todo item_id f :
  starting pd k p todo -> (forall i, ri_id (f i) = ri_id i) ->
  starting (update_item pd k item_id f) k p (fun j => todo j /\ j <> item_id).
Proof.
  intros [(r & Hr & Hp & Hu)] Hf. split. unfold update_item. rewrite Hr. cbn.
  destruct (decide (tp_id r = k)) as [Hk|Hk].
  - rewrite Hk, lookup_insert_eq. eexists; split_and!; [done | done |]. cbn.
    intros i' Hi' [Ht Hne]. apply list_elem_of_fmap in Hi' as (i & -> & Hi).
    case_decide as Hid; [by rewrite Hf in Hne|]. by apply Hu.
  - rewrite lookup_insert_ne by done. exists r. split_and!; [done..|]. intros i Hi [? _]. by apply Hu.
Qed.

Lemma starting_weaken pd k p (todo todo' : Z -> Prop) :
  (forall j, todo' j -> todo j) -> starting pd k p todo -> starting pd k p todo'.
Proof. intros Hw [(r & Hr & Hp & Hu)]. split. exists r. split_and!; auto. Qed.

Lemma core_update_item pd k i f : core (update_item pd k i f) = core pd.
Proof. unfold update_item. by destruct (_ !! _). Qed.

(** An item row gets a fresh run. *)
Lemma link_item_steps pd k p item_id run :
  plan_inv pd -> starting pd k p (fun j => j = item_id) ->
  db_runs (core pd) !! r_id run = Some run -> h_project_id (r_header run) = p ->
  (forall k' i', ~ linked pd k' i' (r_id run)) ->
  pstep pd (update_item pd k item_id
              (fun i => ri_with i (Some (r_id run)) (r_status run) (ri_error_code i) (ri_error_message i))).
Proof.
  intros Hp [(r & Hr & Hpr & Hu)] Hrun Hproj Hfree.
  apply (ps_item _ k r item_id _ (Some (item_id, r_id run))); [done | |].
  - intros i Hi Hid. destruct (Hu i Hi Hid) as [Hn Hs]. split.
    + split; cbn; try done. by rewrite Hn.
    + right. split; [done|]. cbn. rewrite Hid. split; [done|]. exists run. by rewrite Hpr.
  - intros i x [= <- <-]. exact Hfree.
Qed.

(** A report on an item that has its run, or a failure of one that has none. *)
Lemma report_item_steps pd k r item_id f :
  plan_runs (planning pd) !! k = Some r ->
  (forall i, item_evolves i (f i) /\ ri_run_id (f i) = ri_run_id i) ->
  (forall i, i ∈ tp_items r -> ri_id i = item_id ->
     is_Some (ri_run_id i) \/ (unstarted i /\ ri_status (f i) = RunStatus.FAILED)) ->
  pstep pd (update_item pd k item_id f).
Proof.
  intros Hr Hf Hi. apply (ps_item _ k r item_id _ None); [done | | done].
  intros i Hin Hid. destruct (Hf i) as [He Hrun]. split; [done|].
  destruct (Hi i Hin Hid) as [Hs|[Hu Hfail]]; [by left|]. right. split; [done|].
  rewrite Hrun. destruct Hu as [-> _]. rewrite Hfail. by right; left.
Qed.

Lemma report_failure_evolves e i :
  item_evolves i (report_failure e i) /\ ri_run_id (report_failure e i) = ri_run_id i.
Proof. by split; [split|]. Qed.
Lemma report_dispatch_evolves resp i :
  item_evolves i (report_dispatch resp i) /\ ri_run_id (report_dispatch resp i) = ri_run_id i.
Proof. unfold report_dispatch. case_decide; by split; [split|]. Qed.

Lemma linked_exists pd k i x : plan_inv pd -> linked pd k i x -> is_Some (db_runs (core pd) !! x).
Proof.
  intros Hp (r & item & Hr & Hin & _ & Hx).
  destruct (pr_links _ _ (pv_runs _ Hp _ _ Hr) item x Hin Hx) as (run & Hrun & _). by eexists.
Qed.

(** After a link every row with the item's id has a run. *)
Lemma linked_rows pd k item_id x s :
  (forall k r, plan_runs (planning pd) !! k = Some r -> tp_id r = k) ->
  forall r, plan_runs (planning (update_item pd k item_id
      (fun i => ri_with i (Some x) s (ri_error_code i) (ri_error_message i)))) !! k = Some r ->
    forall i, i ∈ tp_items r -> ri_id i = item_id -> is_Some (ri_run_id i).
Proof.
  intros Hk r. unfold update_item. destruct (plan_runs (planning pd) !! k) as [r0|] eqn:Hr0; [|congruence].
  cbn. rewrite (Hk _ _ Hr0), lookup_insert_eq. intros [= <-] i Hi Hid. cbn in Hi.
  apply list_elem_of_fmap in Hi as (i0 & -> & Hi). case_decide; [by eexists | done].
Qed.

(** The second half of starting an item: the dispatch and the report on it. *)
Lemma dispatch_report_steps pd k p (todo : Z -> Prop) item_id d f :
  starting pd k p todo -> ~ todo item_id ->
  (forall r, plan_runs (planning pd) !! k = Some r ->
     forall i, i ∈ tp_items r -> ri_id i = item_id -> is_Some (ri_run_id i)) ->
  reachable (core pd) d ->
  (forall i, item_evolves i (f i) /\ ri_run_id (f i) = ri_run_id i) ->
  rtc pstep pd (update_item (with_core pd d) k item_id f)
  /\ starting (update_item (with_core pd d) k item_id f) k p todo.
Proof.
  intros Hst Hn Hrows Hd Hf. pose proof Hst as [(r & Hr & _)]. split.
  - eapply rtc_l; [by apply ps_runs|]. apply rtc_once.
    eapply report_item_steps; [exact Hr | done |]. intros i Hi Hid. left. eauto.
  - eapply (starting_weaken _ _ _ (fun j => todo j /\ j <> item_id)).
    + intros j Hj. split; [done|]. by intros ->.
    + apply starting_update; [by apply starting_core|]. intros i. apply Hf.
Qed.

(** Its first half: the run is created and linked. *)
Lemma create_link_steps pd k p (todo : Z -> Prop) item_id now user payload hb i cb sb d evs run :
  plan_inv pd -> starting pd k p todo -> todo item_id -> rq_project_id payload = p ->
  create_run (core pd) now user payload hb i cb sb = (d, evs, Ok run) ->
  let pd' := update_item (with_core pd d) k item_id
    (fun i => ri_with i (Some (r_id run)) (r_status run) (ri_error_code i) (ri_error_message i)) in
  rtc pstep pd pd' /\ starting pd' k p (fun j => todo j /\ j <> item_id)
  /\ (forall r, plan_runs (planning pd') !! k = Some r ->
        forall i, i ∈ tp_items r -> ri_id i = item_id -> is_Some (ri_run_id i)).
Proof.
  intros Hp Hst Htodo Hpay Hc.
  pose proof (handle_reachable (core pd) now (RCreate user payload hb i cb sb)) as Hcreate.
  cbn in Hcreate. rewrite Hc in Hcreate. cbn in Hcreate.
  apply create_run_ok in Hc as (Hid & Hfresh & Hrun & Hproj).
  assert (pstep pd (with_core pd d)) as S1 by by apply ps_runs.
  pose proof (pstep_step _ _ Hp S1) as [Hp1 _]. split_and!.
  - eapply rtc_l; [exact S1|]. apply rtc_once. eapply (link_item_steps _ _ p); [done | | | |].
    + apply starting_core. eapply starting_weaken; [|exact Hst]. by intros j ->.
    + by rewrite Hid.
    + congruence.
    + intros k' i' Hl. rewrite Hid in Hl. destruct (linked_exists pd k' i' i Hp Hl). congruence.
  - apply starting_update; [by apply starting_core | done].
  - eapply linked_rows, Hp1.
Qed.

Lemma start_item_steps pd user plan k item item_id x (todo : Z -> Prop) :
  plan_inv pd -> starting pd k (pl_project_id plan) todo -> todo item_id ->
  let pd' := eff_db (start_item pd user plan k item item_id x) in
  rtc pstep pd pd' /\ starting pd' k (pl_project_id plan) (fun j => todo j /\ j <> item_id).
Proof.
  intros Hp Hst Htodo. unfold start_item.
  destruct (create_run _ _ _ _ _ _ _ _) as [[d1 evs1] [run|e]] eqn:Hc.
  - destruct (create_link_steps _ _ _ _ item_id _ _ (item_run_payload plan item) _ _ _ _ _ _ _
                Hp Hst Htodo eq_refl Hc)
      as (Hsteps & Hst2 & Hrows). set (pd2 := update_item _ _ _ _) in *.
    pose proof (dispatch_run_reachable (ii_publish x) (core pd2) (ii_now x) user (r_id run)
                  (ii_dispatch_hb x) false (ii_message_id x)) as Hdisp.
    destruct (dispatch_run _ _ _ _ _ _ _ _) as [[d3 evs3] dr]. cbn in Hdisp.
    assert (forall f, (forall i, item_evolves i (f i) /\ ri_run_id (f i) = ri_run_id i) ->
              rtc pstep pd (update_item (with_core pd2 d3) k item_id f)
              /\ starting (update_item (with_core pd2 d3) k item_id f) k (pl_project_id plan)
                   (fun j => todo j /\ j <> item_id)) as Hreport.
    { intros f Hf. destruct (dispatch_report_steps pd2 k _ _ item_id d3 f Hst2) as [Hs Hg];
        [tauto | done..|]. split; [by etrans | done]. }
    destruct dr as [resp|e]; [apply Hreport, report_dispatch_evolves|].
    destruct (is_app_error e); [apply Hreport, report_failure_evolves|].
    split; [|by apply starting_core]. eapply rtc_r; [exact Hsteps | by apply ps_runs].
  - pose proof (handle_reachable (core pd) (ii_now x)
      (RCreate user (item_run_payload plan item) (ii_create_hb x) (ii_run_id x) (ii_case_base x)
         (ii_step_base x))) as Hcreate. cbn in Hcreate. rewrite Hc in Hcreate. cbn in Hcreate.
    assert (pstep pd (with_core pd d1)) as S1 by by apply ps_runs.
    destruct (is_app_error e); cbn [eff_db fst]; (split; [|apply starting_update || apply starting_core]).
    + eapply rtc_l; [exact S1|]. apply rtc_once. destruct Hst as [(r & Hr & _ & Hu)].
      eapply report_item_steps; [exact Hr | apply report_failure_evolves |].
      intros i Hi Hid. right. split; [apply Hu; [done | congruence] | done].
    + by apply starting_core.
    + done.
    + by apply rtc_once.
    + eapply starting_weaken; [|exact Hst]. tauto.
Qed.

Lemma start_items_steps pd user plan k items x (todo : Z -> Prop) :
  plan_inv pd -> starting pd k (pl_project_id plan) todo ->
  NoDup items.*2 -> Forall todo items.*2 ->
  rtc pstep pd (eff_db (start_items pd user plan k items x)).
Proof.
  revert pd todo. induction items as [|[item item_id] rest IH]; intros pd todo Hp Hst Hnd Hall; [done|].
  apply NoDup_cons in Hnd as [Hni Hnd]. apply Forall_cons in Hall as [Ht Hall]. cbn [start_items].
  destruct (start_item_steps pd user plan k item item_id (x item_id) todo Hp Hst Ht) as [Hs Hg].
  destruct (start_item _ _ _ _ _ _ _) as [[pd1 evs1] [[]|e]]; cbn in Hs, Hg; [|done].
  pose proof (psteps_step _ _ Hp Hs) as [Hp1 _]. specialize (IH pd1 _ Hp1 Hg Hnd).
  destruct (start_items pd1 user plan k rest x) as [[pd2 evs2] r2]. cbn in IH. etrans; [exact Hs|].
  apply IH. rewrite Forall_forall in *. intros j Hj. split; [by apply Hall|]. by intros ->.
Qed.

Lemma start_test_plan_run_steps pd user plan_id tr sid x :
  plan_inv pd -> rtc pstep pd (eff_db (start_test_plan_run pd user plan_id tr sid x)).
Proof.
  intros Hp. unfold start_test_plan_run.
  destruct (start_open _ _ _ _ _ _ _ _ _) as [[[pd1 plan] run]|e] eqn:Ho; [|done].
  destruct (start_open_step _ _ _ _ _ _ _ _ _ _ _ _ Hp Ho) as ([Hp1 _] & _ & Hr & Hid & Hitems & Hproj).
  apply (ps_open pd) in Ho.
  assert (ri_id <$> tp_items run = (zip (enabled_items plan) (ri_id <$> tp_items run)).*2) as Hz.
  { symmetry. apply snd_zip. rewrite Hitems. unfold new_run_items. by rewrite length_fmap, length_imap. }
  pose proof (start_items_steps pd1 user plan (tp_id run) (zip (enabled_items plan) (ri_id <$> tp_items run))
                (si_item x) (fun _ => True) Hp1) as Hs.
  destruct (start_items _ _ _ _ _ _) as [[pd2 evs] r]. cbn in Hs.
  assert (rtc pstep pd pd2) as Hpd2.
  { eapply rtc_l; [exact Ho|]. apply Hs.
    - split. exists run. split_and!; [done..|]. intros i Hi _. rewrite Hitems in Hi.
      pose proof (new_run_items_unstarted (si_item_base x) (enabled_items plan)) as Hun.
      rewrite Forall_forall in Hun. by apply Hun.
    - rewrite <-Hz, Hitems. apply new_run_items_nodup.
    - by apply Forall_forall. }
  destruct r as [[]|e]; [|done]. destruct (load_plan_run pd2 user (tp_id run)) as [run2|e] eqn:Hl; [|done].
  assert (plan_runs (planning pd2) !! tp_id run = Some run2) as Hrun2
    by (unfold load_plan_run in Hl; by inv_ok).
  pose proof (ps_refresh pd2 _ _ (si_end x) (si_delivery_id x) Hrun2) as Href.
  destruct (refresh_plan_run pd2 run2 (si_end x) (si_delivery_id x)) as [pd3 run3].
  eapply rtc_r; [exact Hpd2 | exact Href].
Qed.

(** A started item is still started later on. *)
Lemma started_later pd0 pd k r0 item :
  plan_inv pd0 -> plan_runs (planning pd0) !! k = Some r0 -> item ∈ tp_items r0 ->
  is_Some (ri_run_id item) -> rtc pstep pd0 pd ->
  exists r, plan_runs (planning pd) !! k = Some r
    /\ forall i, i ∈ tp_items r -> ri_id i = ri_id item -> is_Some (ri_run_id i).
Proof.
  intros Hp Hr0 Hin [x Hx] Hs. destruct (psteps_step _ _ Hp Hs) as [_ He].
  destruct (pe_runs _ _ He _ _ Hr0) as (r & Hr & Hev). exists r. split; [done|].
  intros i Hi Hid. pose proof (te_items _ _ Hev) as Hall. apply Forall2_flip in Hall.
  destruct (Forall2_elem_l _ _ _ i Hall Hi) as (i0 & Hi0 & Hie). cbn in Hie.
  assert (i0 = item) as ->.
  { eapply (NoDup_ids_inj ri_id (tp_items r0)); [apply (pr_nodup _ _ (pv_runs _ Hp _ _ Hr0)) | done..|].
    by rewrite <-(ie_id _ _ Hie). }
  eexists. by apply (ie_run _ _ Hie).
Qed.

Lemma items_fold_steps (body : effect unit -> TestPlanRunItem -> effect unit) pd0 items :
  (forall acc item, item ∈ items -> rtc pstep pd0 (eff_db acc) ->
     rtc pstep (eff_db acc) (eff_db (body acc item))) ->
  forall acc, rtc pstep pd0 (eff_db acc) -> rtc pstep pd0 (eff_db (foldl body acc items)).
Proof.
  induction items as [|item items IH]; intros Hb acc Hacc; [done|]. cbn.
  apply IH; [intros; apply Hb; [by right | done]|].
  etrans; [exact Hacc|]. apply Hb; [by left | done].
Qed.

Lemma reload_steps acc user k now new_id :
  rtc pstep (eff_db acc) (eff_db (reload_and_refresh acc user k now new_id)).
Proof.
  destruct acc as [[pd evs] r]. unfold reload_and_refresh. cbn [eff_db fst].
  destruct (_ ← r; load_plan_run pd user k) as [run|e] eqn:Hl; [|done]. inv_ok.
  assert (plan_runs (planning pd) !! k = Some run) as Hr by (unfold load_plan_run in Hl; by inv_ok).
  pose proof (ps_refresh pd _ _ now new_id Hr) as Href.
  destruct (refresh_plan_run pd run now new_id). by apply rtc_once.
Qed.

Lemma authorize_plan_run_ok pd user k r :
  authorize_plan_run pd user k = Ok r -> plan_runs (planning pd) !! k = Some r.
Proof. unfold authorize_plan_run, load_plan_run. intros Ha. by inv_ok. Qed.

(** A run request followed by a report on the item that has the run. *)
Lemma run_and_report_steps pd0 pd k r0 item d f :
  plan_inv pd0 -> plan_runs (planning pd0) !! k = Some r0 -> item ∈ tp_items r0 ->
  is_Some (ri_run_id item) -> rtc pstep pd0 pd -> reachable (core pd) d ->
  (forall i, item_evolves i (f i) /\ ri_run_id (f i) = ri_run_id i) ->
  rtc pstep pd (update_item (with_core pd d) k (ri_id item) f).
Proof.
  intros Hp Hr0 Hin Hx Hs Hd Hf. destruct (started_later _ _ _ _ _ Hp Hr0 Hin Hx Hs) as (r & Hr & Hall).
  eapply rtc_l; [by apply ps_runs|]. apply rtc_once.
  eapply report_item_steps; [exact Hr | done |]. intros i Hi Hid. left. by apply Hall.
Qed.

Lemma cancel_test_plan_run_steps pd user k now new_id :
  plan_inv pd -> rtc pstep pd (eff_db (cancel_test_plan_run pd user k now new_id)).
Proof.
  intros Hp. unfold cancel_test_plan_run.
  destruct (authorize_plan_run pd user k) as [r0|e] eqn:Ha; [|done]. apply authorize_plan_run_ok in Ha.
  etrans; [|apply reload_steps]. apply items_fold_steps; [|done].
  intros [[pd1 evs] [[]|e]] item Hin Hs; cbn [eff_db fst] in *; [|by destruct (ri_run_id item)].
  unfold cancel_item. destruct (ri_run_id item) as [x|] eqn:Hx; [|done].
  destruct (db_runs (core pd1) !! x) as [run|]; [|done]. destruct (terminal_status _); [done|].
  pose proof (handle_reachable (core pd1) now (RCancel user x)) as Hd. cbn in Hd.
  destruct (cancel_run (core pd1) now user x) as [[d evs'] [c|e]]; cbn in *.
  - by apply rtc_once, ps_runs.
  - destruct (is_app_error e); [|by apply rtc_once, ps_runs].
    eapply run_and_report_steps; eauto. intros i. by split; [split|].
Qed.

Lemma retry_test_plan_run_steps pd user k input now new_id :
  plan_inv pd -> rtc pstep pd (eff_db (retry_test_plan_run_dispatch pd user k input now new_id)).
Proof.
  intros Hp. unfold retry_test_plan_run_dispatch.
  destruct (authorize_plan_run pd user k) as [r0|e] eqn:Ha; [|done]. apply authorize_plan_run_ok in Ha.
  etrans; [|apply reload_steps]. apply items_fold_steps; [|done].
  intros [[pd1 evs] [[]|e]] item Hin Hs; cbn [eff_db fst] in *; [|by destruct (ri_run_id item)].
  unfold redispatch_item. destruct (ri_run_id item) as [x|] eqn:Hx; [|done].
  destruct (db_runs (core pd1) !! x) as [run|]; [|done]. destruct (negb _); [done|].
  pose proof (dispatch_run_reachable (ii_publish (input (ri_id item))) (core pd1)
    (ii_now (input (ri_id item))) user x (ii_dispatch_hb (input (ri_id item))) false
    (ii_message_id (input (ri_id item)))) as Hd.
  destruct (dispatch_run _ _ _ _ _ _ _ _) as [[d evs'] [c|e]]; cbn in *.
  - eapply run_and_report_steps; eauto. intros i. case_decide; by split; [split|].
  - destruct (is_app_error e); [|by apply rtc_once, ps_runs].
    eapply run_and_report_steps; eauto. intros i. by split; [split|].
Qed.

Lemma transaction_steps {A} pd (body : result (PlatformDb * A)) :
  (forall pd' a, body = Ok (pd', a) -> rtc pstep pd pd') -> rtc pstep pd (eff_db (transaction pd body)).
Proof. destruct body as [[pd' a]|e]; [|done]. intros Hb. by apply (Hb pd' a). Qed.

Lemma get_test_plan_run_steps pd user k now new_id :
  rtc pstep pd (eff_db (get_test_plan_run pd user k now new_id)).
Proof.
  apply transaction_steps. intros pd' a Hb. inv_ok. unfold load_plan_run in E. inv_ok.
  replace pd' with (refresh_plan_run pd a0 now new_id).1 by (by rewrite Hb).
  by apply rtc_once, ps_refresh with k.
Qed.

Lemma refresh_ids_steps pd ids now new_id :
  rtc pstep pd (foldl (fun pd id =>
                   match plan_runs (planning pd) !! id with
                   | Some run => (refresh_plan_run pd run now (new_id id)).1
                   | None => pd
                   end) pd ids).
Proof.
  revert pd. induction ids as [|id ids IH]; intros pd; [done|]. cbn.
  destruct (plan_runs (planning pd) !! id) as [run|] eqn:Hr; [|apply IH].
  eapply rtc_l; [by eapply ps_refresh | apply IH].
Qed.

Lemma list_test_plan_runs_steps pd user project_id now new_id :
  rtc pstep pd (eff_db (list_test_plan_runs pd user project_id now new_id)).
Proof. apply transaction_steps. intros pd' a Hb. inv_ok. apply refresh_ids_steps. Qed.

Lemma create_test_plan_steps pd user id base payload :
  rtc pstep pd (eff_db (create_test_plan pd user id base payload)).
Proof. apply transaction_steps; intros pd' a Hb; inv_ok; apply rtc_once, ps_plan. Qed.
Lemma update_test_plan_steps pd user id base payload :
  rtc pstep pd (eff_db (update_test_plan pd user id base payload)).
Proof. apply transaction_steps; intros pd' a Hb; inv_ok; apply rtc_once, ps_plan. Qed.
Lemma set_test_plan_status_steps pd user id s :
  rtc pstep pd (eff_db (set_test_plan_status pd user id s)).
Proof. apply transaction_steps; intros pd' a Hb; inv_ok; apply rtc_once, ps_plan. Qed.

(** ** The tables no other service writes *)

Definition own_tables (pd : PlatformDb) : ScheduleTables * CiTables := (scheduling pd, ci pd).

Lemma update_item_own pd k i f : own_tables (update_item pd k i f) = own_tables pd.
Proof. unfold update_item. by case_match. Qed.

Lemma refresh_own pd run now new_id : own_tables (refresh_plan_run pd run now new_id).1 = own_tables pd.
Proof. unfold refresh_plan_run. by case_match. Qed.

Lemma with_core_own pd d : own_tables (with_core pd d) = own_tables pd.
Proof. done. Qed.

Lemma start_item_own pd user plan k item item_id x :
  own_tables (eff_db (start_item pd user plan k item item_id x)) = own_tables pd.
Proof.
  unfold start_item. destruct (create_run _ _ _ _ _ _ _ _) as [[d1 e1] [run|e]].
  - destruct (dispatch_run _ _ _ _ _ _ _ _) as [[d3 e3] [resp|e]]; [|destruct (is_app_error e)];
      cbn [eff_db fst snd]; by rewrite ?update_item_own, ?with_core_own, ?update_item_own, ?with_core_own.
  - destruct (is_app_error e); cbn [eff_db fst snd]; by rewrite ?update_item_own.
Qed.

Lemma start_items_own pd user plan k items x :
  own_tables (eff_db (start_items pd user plan k items x)) = own_tables pd.
Proof.
  revert pd. induction items as [|[item item_id] rest IH]; intros pd; cbn; [done|].
  pose proof (start_item_own pd user plan k item item_id (x item_id)) as Hone.
  destruct (start_item _ _ _ _ _ _ _) as [[pd1 e1] [[]|e]]; [|done]. cbn in Hone.
  specialize (IH pd1). destruct (start_items _ _ _ _ _ _) as [[pd2 e2] r2]. cbn in *. congruence.
Qed.

Lemma start_plan_own pd user plan_id tr sid x :
  own_tables (eff_db (start_test_plan_run pd user plan_id tr sid x)) = own_tables pd.
Proof.
  unfold start_test_plan_run. destruct (start_open _ _ _ _ _ _ _ _ _) as [[[pd1 plan] run]|e] eqn:Ho; [|done].
  assert (own_tables pd1 = own_tables pd) as Hopen by (unfold start_open in Ho; by inv_ok).
  rewrite <-Hopen. clear Ho Hopen.
  pose proof (start_items_own pd1 user plan (tp_id run) (zip (enabled_items plan) (ri_id <$> tp_items run))
                (si_item x)) as Hitems.
  destruct (start_items _ _ _ _ _ _) as [[pd2 evs] [[]|e]]; [|done]. cbn in Hitems. rewrite <-Hitems.
  destruct (load_plan_run _ _ _) as [run2|e]; [|done].
  rewrite <-(refresh_own pd2 run2 (si_end x) (si_delivery_id x)). by destruct (refresh_plan_run _ _ _ _).
Qed.

End system.

(** ** The small deployment of [RunExample] with a test plan, a webhook endpoint and
    a schedule *)

From S2P Require Import RunExample.

Module PlanDemo.
Export Demo.

#[export] Instance asset_tables : AssetTables := {|
  get_test_case := fun i =>
    if decide (i = 1%Z)
    then Some {| tc_project_id := 1; tc_name := u "login"; tc_active := true; tc_is_api := true;
                 tc_current_version_id := Some 1%Z |}
    else None;
  get_case_version := fun _ => Some 1%Z;
  get_scenario := fun _ => None;
  get_scenario_version := fun _ => None;
  get_web_case := fun _ => None;
  get_web_case_version := fun _ => None;
|}.
#[export] Instance users_all_admin : UserDirectory := fun _ => "ADMIN".

Definition endpoint : WebhookEndpoint :=
  {| we_project_id := 1; we_name := u "ops"; we_encrypted_url := "..."; we_encrypted_signing_secret := None;
     we_events := [WEBHOOK_EVENT]; we_enabled := true; we_status := LifeStatus.ACTIVE;
     we_max_attempts := 3; we_timeout_seconds := 10; we_created_by := "admin" |}.

(** The second item is switched off. *)
Definition plan_payload : TestPlanWrite :=
  {| pw_project_id := 1; pw_name := u "nightly"; pw_description := None; pw_environment_id := 1;
     pw_runner_id := "r1";
     pw_items := [ {| in_target := CaseInput 1 None; in_enabled := true |};
                   {| in_target := CaseInput 1 (Some 2%Z); in_enabled := false |} ] |}.

Definition empty_db : PlatformDb :=
  {| core := base_db; planning := {| plans := ∅; plan_runs := ∅ |};
     hooks := {| endpoints := {[ 7%Z := endpoint ]}; deliveries := ∅ |};
     scheduling := {| schedules := ∅; triggers := ∅ |}; ci := {| tokens := ∅; invocations := ∅ |} |}.

Definition saved : PlatformDb := eff_db (create_test_plan empty_db admin 1 0 plan_payload).

Definition item_input (run_id : string) : ItemInput :=
  {| ii_now := 0; ii_create_hb := HeartbeatPresent; ii_dispatch_hb := HeartbeatPresent;
     ii_run_id := run_id; ii_case_base := 1; ii_step_base := 1; ii_message_id := "msg_1";
     ii_publish := fun _ _ => {| pr_published := true; pr_code := None |} |}.

Definition start_input (plan_run_id run_id : string) : StartInput :=
  {| si_hb := fun _ => HeartbeatPresent; si_plan_run_id := plan_run_id; si_item_base := 1; si_now := 0;
     si_item := fun _ => item_input run_id; si_end := 1; si_delivery_id := fun _ => "whd_" +:+ plan_run_id |}.

(** The plan is started: one run, queued. *)
Definition started : PlatformDb :=
  eff_db (start_test_plan_run saved admin 1 MANUAL None (start_input "planrun_1" "run_1")).

(** The runner executes it successfully, and the plan run is looked at. *)
Definition executed : PlatformDb :=
  with_core started (play (core started) 3000000 [claim; start 1; complete HTTP_RESPONSE (Some "ok") 1]).
Definition finished_plan : PlatformDb :=
  eff_db (get_test_plan_run executed admin "planrun_1" 9000000 (fun _ => "whd_1")).

Definition plan_status (pd : PlatformDb) : option RunStatus.t :=
  tp_status <$> plan_runs (planning pd) !! "planrun_1".

Example plan_history :
  (plan_status started, plan_status executed, plan_status finished_plan,
   wd_status <$> deliveries (hooks finished_plan) !! "whd_1")
  = (Some RunStatus.QUEUED, Some RunStatus.QUEUED, Some RunStatus.SUCCESS, Some DeliveryStatus.PENDING).
Proof. vm_compute. reflexivity. Qed.

Lemma empty_inv : plan_inv empty_db.
Proof.
  split; cbn.
  - apply base_inv.
  - intros k r Hr. by apply lookup_empty_Some in Hr.
  - intros k r Hr. by apply lookup_empty_Some in Hr.
  - intros k k' i i' x (r & item & Hr & _). cbn in Hr. by apply lookup_empty_Some in Hr.
  - intros id w Hw. by apply lookup_empty_Some in Hw.
  - intros id id' w w' Hw. by apply lookup_empty_Some in Hw.
Qed.

Lemma saved_steps : rtc pstep empty_db saved.
Proof. apply create_test_plan_steps. Qed.

Lemma saved_inv : plan_inv saved.
Proof. exact (proj1 (psteps_step _ _ empty_inv saved_steps)). Qed.

Lemma started_steps : rtc pstep saved started.
Proof. apply start_test_plan_run_steps, saved_inv. Qed.

Lemma started_inv : plan_inv started.
Proof. exact (proj1 (psteps_step _ _ saved_inv started_steps)). Qed.

Lemma executed_steps : rtc pstep started executed.
Proof. apply rtc_once. exact (ps_runs _ _ (play_reachable _ _ _)). Qed.

Lemma finished_steps : rtc pstep started finished_plan.
Proof. exact (transitivity executed_steps (get_test_plan_run_steps _ _ _ _ _)). Qed.

End PlanDemo.
