(* ===== verification/PlanTheorems.v ===== *)
(** The properties of test plans and their runs. *)
From S2P Require Import Prelude PyText Projects Calendar RunData RunStatusOps RunControl RunDispatch.
From S2P Require Import RunCreate RunExecution RunInvariant RunHandlers RunSystem.
From S2P Require Import PlanData Webhooks TestPlans PlanSystem.

(** ** What starting a plan leaves behind *)

(** An item has been dealt with: it has its run, or says why it has none. *)
Definition settled (i : TestPlanRunItem) : Prop :=
  is_Some (ri_run_id i) \/ (ri_status i = RunStatus.FAILED /\ is_Some (ri_error_code i)).

Definition same_item (i i' : TestPlanRunItem) : Prop :=
  item_evolves (ri_with i None RunStatus.CREATED None None)
               (ri_with i' None RunStatus.CREATED None None).

#[export] Instance same_item_preorder : PreOrder same_item.
Proof.
  split; [by intros i | intros x y z Hxy Hyz]. unfold same_item in *. by etrans.
Qed.

Lemma same_item_id i i' : same_item i i' -> ri_id i' = ri_id i.
Proof. by intros []. Qed.

(** The rows of a plan run after a part of the loop: the items [ids] have been
    dealt with, the others are untouched. *)
Definition rows_after (pd : PlatformDb) (r : TestPlanRun) (ids : list Z) : Prop :=
  exists g, plan_runs (planning pd) !! tp_id r
              = Some (tp_with r (tp_status r) (tp_ended_at r) (g <$> tp_items r))
            /\ (forall i, same_item i (g i))
            /\ (forall i, ri_id i ∉ ids -> g i = i)
            /\ (forall i, ri_id i ∈ ids -> settled (g i)).

Lemma update_item_row pd r item_id f :
  plan_runs (planning pd) !! tp_id r = Some r ->
  plan_runs (planning (update_item pd (tp_id r) item_id f)) !! tp_id r
  = Some (tp_with r (tp_status r) (tp_ended_at r)
            ((fun i => if decide (ri_id i = item_id) then f i else i) <$> tp_items r)).
Proof. intros Hr. unfold update_item. rewrite Hr. cbn. by rewrite lookup_insert_eq. Qed.

Lemma tp_with_id r s e l : tp_id (tp_with r s e l) = tp_id r.
Proof. done. Qed.

Section theorems.
Context `{Settings} `{Catalog} `{Evaluation} `{Assets} `{AssetTables}.

(** The requests of users and background jobs to the plan service. *)
Inductive plan_request :=
  | QCreate (user : CurrentUser) (new_id item_base : Z) (payload : TestPlanWrite)
  | QUpdate (user : CurrentUser) (plan_id item_base : Z) (payload : TestPlanWrite)
  | QStatus (user : CurrentUser) (plan_id : Z) (s : LifeStatus.t)
  | QStart (user : CurrentUser) (plan_id : Z) (tr : PlanTrigger) (schedule_id : option Z) (x : StartInput)
  | QCancel (user : CurrentUser) (plan_run_id : string) (now : datetime) (new_id : Z -> string)
  | QRedispatch (user : CurrentUser) (plan_run_id : string) (input : Z -> ItemInput) (now : datetime)
      (new_id : Z -> string)
  | QGet (user : CurrentUser) (plan_run_id : string) (now : datetime) (new_id : Z -> string)
  | QList (user : CurrentUser) (project_id : Z) (now : datetime) (new_id : string -> Z -> string).

Definition plan_handle (pd : PlatformDb) (q : plan_request) : PlatformDb :=
  match q with
  | QCreate user i b p => eff_db (create_test_plan pd user i b p)
  | QUpdate user i b p => eff_db (update_test_plan pd user i b p)
  | QStatus user i s => eff_db (set_test_plan_status pd user i s)
  | QStart user i tr sid x => eff_db (start_test_plan_run pd user i tr sid x)
  | QCancel user k now f => eff_db (cancel_test_plan_run pd user k now f)
  | QRedispatch user k x now f => eff_db (retry_test_plan_run_dispatch pd user k x now f)
  | QGet user k now f => eff_db (get_test_plan_run pd user k now f)
  | QList user p now f => eff_db (list_test_plan_runs pd user p now f)
  end.


(** C33: A plan run that is SUCCESS has at least one item, and every item has a run
    of the same project that is SUCCESS and all of whose case runs passed or
    were skipped; the completion events enqueued for it say SUCCESS as well. *)
Theorem plan_success_sound pd pd' k r :
  plan_inv pd -> rtc pstep pd pd' -> plan_runs (planning pd') !! k = Some r ->
  tp_status r = RunStatus.SUCCESS ->
  tp_items r <> []
  /\ Forall (fun i => exists x run, ri_run_id i = Some x /\ db_runs (core pd') !! x = Some run
                        /\ r_status run = RunStatus.SUCCESS
                        /\ h_project_id (r_header run) = tp_project_id r
                        /\ Forall (fun c => passed (cr_status c)) (r_case_runs run)) (tp_items r)
  /\ (forall id w, deliveries (hooks pd') !! id = Some w -> wd_plan_run_id w = k ->
        wp_status (wd_payload w) = RunStatus.SUCCESS).
Proof.
  intros Hp Hs Hr Hst. destruct (psteps_step _ _ Hp Hs) as [Hi _].
  pose proof (pv_runs _ Hi _ _ Hr) as Hok. split_and!; [apply Hok | |].
  - pose proof (pr_final _ _ Hok) as Hfin. rewrite Hst in Hfin.
    specialize (Hfin eq_refl). symmetry in Hfin. apply aggregate_success in Hfin.
    unfold effective_statuses in Hfin. rewrite Forall_fmap in Hfin.
    rewrite Forall_forall in Hfin |- *. intros i Hin. specialize (Hfin i Hin). cbn in Hfin.
    unfold effective, refresh_item in Hfin. destruct (ri_run_id i) as [x|] eqn:Hx.
    + destruct (pr_links _ _ Hok i x Hin Hx) as (run & Hrun & Hproj). rewrite Hrun in Hfin. cbn in Hfin.
      exists x, run. split_and!; try done.
      destruct (ri_verdict _ (di_runs _ (pv_core _ Hi) _ _ Hrun)) as [Hv _]. by apply Hv.
    + pose proof (pr_unstarted _ _ Hok i Hin Hx) as Hu. rewrite Hfin in Hu.
      set_solver.
  - intros id w Hw Hk. destruct (dk_run _ _ (pv_deliveries _ Hi _ _ Hw)) as (r0 & Hr0 & _ & Hs0 & _).
    rewrite Hk, Hr in Hr0. by simplify_eq; rewrite Hs0.
Qed.
Lemma start_item_rows pd user plan r item item_id x pd' evs :
  plan_runs (planning pd) !! tp_id r = Some r ->
  start_item pd user plan (tp_id r) item item_id x = (pd', evs, Ok tt) ->
  rows_after pd' r [item_id].
Proof.
  intros Hr. unfold start_item.
  assert (forall d f, (forall i, same_item i (f i)) -> (forall i, settled (f i)) ->
            rows_after (update_item (with_core pd d) (tp_id r) item_id f) r [item_id]) as Hone.
  { intros d f Hf Hs. exists (fun i => if decide (ri_id i = item_id) then f i else i).
    split_and!.
    - by apply update_item_row.
    - intros i. case_decide; [apply Hf | by split].
    - intros i Hi. rewrite decide_False; [done|]. intros Heq. apply Hi. rewrite Heq. by left.
    - intros i Hi. apply list_elem_of_singleton in Hi. by rewrite decide_True. }
  destruct (create_run _ _ _ _ _ _ _ _) as [[d1 evs1] [run|e]].
  - set (lk := fun i => ri_with i (Some (r_id run)) (r_status run) (ri_error_code i) (ri_error_message i)).
    pose proof (update_item_row (with_core pd d1) r item_id lk Hr) as Hr1.
    set (pd2 := update_item (with_core pd d1) (tp_id r) item_id lk) in *.
    destruct (dispatch_run _ _ _ _ _ _ _ _) as [[d3 evs3] dr].
    assert (forall f, (forall i, same_item i (f i)) -> (forall i, is_Some (ri_run_id i) -> settled (f i)) ->
              rows_after (update_item (with_core pd2 d3) (tp_id r) item_id f) r [item_id]) as Htwo.
    { intros f Hf Hs.
      exists (fun i => if decide (ri_id i = item_id) then f (lk i) else i). split_and!.
      - change (tp_id r) with (tp_id (tp_with r (tp_status r) (tp_ended_at r)
          ((fun i => if decide (ri_id i = item_id) then lk i else i) <$> tp_items r))) at 1 2.
        rewrite update_item_row by exact Hr1. cbn. f_equal. unfold tp_with; cbn. f_equal.
        rewrite <-list_fmap_compose. apply list_fmap_ext. intros n i _. cbn.
        destruct (decide (ri_id i = item_id)) as [Hid|Hid];
          [by rewrite decide_True | by rewrite decide_False].
      - intros i. case_decide; [|by split]. etrans; [|apply Hf]. by split.
      - intros i Hi. rewrite decide_False; [done|]. intros Heq. apply Hi. rewrite Heq. by left.
      - intros i Hi. apply list_elem_of_singleton in Hi. rewrite decide_True by done. apply Hs. by eexists. }
    destruct dr as [resp|e]; [|destruct (is_app_error e)]; intros [= <- _]; apply Htwo.
    + intros i. unfold report_dispatch. case_decide; by split.
    + intros i Hi. left. unfold report_dispatch. by case_decide.
    + intros i. by split.
    + intros i Hi. by left.
  - destruct (is_app_error e); intros [= <- _]. apply Hone; intros i; [by split|]. right. by eexists.
Qed.

Lemma start_items_rows pd user plan r items x pd' evs :
  plan_runs (planning pd) !! tp_id r = Some r ->
  start_items pd user plan (tp_id r) items x = (pd', evs, Ok tt) ->
  rows_after pd' r items.*2.
Proof.
  revert pd r evs. induction items as [|[item item_id] rest IH]; intros pd r evs Hr; cbn [start_items].
  - intros [= <- _]. exists id. rewrite list_fmap_id. split_and!; [|by split | done | by intros i Hi%not_elem_of_nil].
    rewrite Hr. by destruct r.
  - destruct (start_item _ _ _ _ _ _ _) as [[pd1 evs1] [[]|e]] eqn:Hfst; [|done].
    apply start_item_rows in Hfst as (g & Hg & Hsame & Hkeep & Hset); [|done].
    destruct (start_items pd1 user plan (tp_id r) rest x) as [[pd2 evs2] r2] eqn:Hsnd.
    intros [= <- _ ->]. set (r1 := tp_with r (tp_status r) (tp_ended_at r) (g <$> tp_items r)) in *.
    apply (IH pd1 r1) in Hsnd as (g2 & Hg2 & Hsame2 & Hkeep2 & Hset2); [|done].
    exists (g2 ∘ g). split_and!.
    + cbn in Hg2. rewrite Hg2. unfold r1, tp_with; cbn. by rewrite list_fmap_compose.
    + intros i. etrans; [apply Hsame | apply Hsame2].
    + intros i Hi. cbn in Hi. apply not_elem_of_cons in Hi as [Hne Hi]. cbn.
      rewrite (Hkeep i) by (by intros ?%list_elem_of_singleton). by apply Hkeep2.
    + intros i Hi. cbn. rewrite <-(same_item_id _ _ (Hsame i)) in Hi.
      destruct (decide (ri_id (g i) ∈ rest.*2)) as [Hin|Hnin]; [by apply Hset2|].
      rewrite Hkeep2 by done. apply Hset. cbn in Hi. apply elem_of_cons in Hi as [Hi|]; [|done].
      rewrite (same_item_id _ _ (Hsame i)) in Hi. rewrite Hi. by left.
Qed.

(** A column of the item rows that follows from the plan's items. *)
Lemma fmap_new_items {A} (h : TestPlanRunItem -> A) (k : TestPlanRunItem -> TestPlanRunItem)
    (h' : TestPlanItem -> A) base items :
  (forall n i, h (k (new_run_item base n i)) = h' i) ->
  h <$> (k <$> new_run_items base items) = h' <$> items.
Proof.
  intros Hh. unfold new_run_items. rewrite !fmap_imap, <-(imap_const h').
  apply imap_ext. intros n i _. apply Hh.
Qed.

(** Starting a plan is all or nothing before it continues on
    failure: if any enabled item fails its checks, or none is enabled, the
    request fails and nothing is created; once the plan run exists and the
    request succeeds, it has exactly one item per enabled plan item, in order
    and with its target type, and each of them has a run or is FAILED with the
    reason. *)
Theorem plan_start_all_or_nothing pd user plan_id tr sid x plan :
  plan_inv pd -> load_plan pd user plan_id = Ok plan ->
  let o := start_test_plan_run pd user plan_id tr sid x in
  (forall v, validate_test_plan pd user plan_id (si_hb x) = Ok v -> validation_valid v = false ->
     eff_db o = pd /\ is_ok (eff_result o) = false)
  /\ (forall run, eff_result o = Ok run ->
        ri_plan_item_id <$> tp_items run = pi_id <$> enabled_items plan
        /\ ri_target_type <$> tp_items run = (run_type_of ∘ pi_target) <$> enabled_items plan
        /\ Forall settled (tp_items run)).
Proof.
  intros Hp Hl. cbn zeta. unfold start_test_plan_run. split.
  - intros v Hv Hval. destruct (start_open _ _ _ _ _ _ _ _ _) as [[[pd1 plan'] run]|e] eqn:Ho; [|done].
    unfold start_open in Ho. inv_ok. congruence.
  - intros run. destruct (start_open _ _ _ _ _ _ _ _ _) as [[[pd1 plan'] run0]|e] eqn:Ho; [|done].
    destruct (start_open_step _ _ _ _ _ _ _ _ _ _ _ _ Hp Ho) as (_ & _ & Hr & _ & Hitems & _).
    assert (plan' = plan) as -> by (unfold start_open in Ho; inv_ok; congruence).
    destruct (start_items _ _ _ _ _ _) as [[pd2 evs] [[]|e]] eqn:Hs; [|done].
    apply start_items_rows in Hs as (g & Hg & Hsame & _ & Hset); [|done].
    destruct (load_plan_run pd2 user (tp_id run0)) as [run2|e] eqn:Hload; [|done].
    unfold load_plan_run in Hload. inv_ok. rewrite Hg in G. simplify_eq.
    unfold refresh_plan_run. match goal with |- context [refreshed ?d ?r ?t] => set (r3 := refreshed d r t) end.
    intros Hres. assert (run = r3) as -> by (by destruct (forallb _ _); cbn in Hres; simplify_eq).
    clear Hres. unfold r3, refreshed. cbn [tp_items tp_with]. rewrite Hitems.
    set (items := refresh_item (core pd2) <$> _).
    assert (items = refresh_item (core pd2) ∘ g <$> new_run_items (si_item_base x) (enabled_items plan))
      as -> by (symmetry; apply list_fmap_compose).
    assert (forall i, ri_plan_item_id (refresh_item (core pd2) (g i)) = ri_plan_item_id i
                      /\ ri_target_type (refresh_item (core pd2) (g i)) = ri_target_type i) as Hf.
    { intros i. destruct (Hsame i). destruct (refresh_item_fields (core pd2) (g i)) as (_ & _ & []).
      cbn in *; split; congruence. }
    split_and!.
    + apply fmap_new_items. intros. apply Hf.
    + apply (fmap_new_items ri_target_type _ (run_type_of ∘ pi_target)). intros. apply Hf.
    + apply Forall_fmap, Forall_forall. intros i Hi. cbn.
      assert (settled (g i)) as Hsi.
      { apply Hset. rewrite Hitems, snd_zip; [by apply list_elem_of_fmap_2|].
        unfold new_run_items. by rewrite length_fmap, length_imap. }
      unfold refresh_item. destruct (ri_run_id (g i)) as [k|] eqn:Hk; [|done].
      destruct (db_runs (core pd2) !! k); left; cbn; by rewrite Hk.
Qed.
End theorems.

(** ** The demonstration plan *)

Module PlanWitness.
Import PlanDemo.


Lemma plan_success_witness :
  exists r, plan_runs (planning finished_plan) !! "planrun_1" = Some r
    /\ Forall (fun i => exists x run, ri_run_id i = Some x /\ db_runs (core finished_plan) !! x = Some run
                          /\ r_status run = RunStatus.SUCCESS
                          /\ h_project_id (r_header run) = tp_project_id r
                          /\ Forall (fun c => passed (cr_status c)) (r_case_runs run)) (tp_items r).
Proof.
  destruct (plan_runs (planning finished_plan) !! "planrun_1") as [r|] eqn:Hr;
    [|vm_compute in Hr; discriminate Hr].
  exists r. split; [reflexivity|].
  assert (tp_status r = RunStatus.SUCCESS) as Hs.
  { apply (f_equal (fmap tp_status)) in Hr. vm_compute in Hr. injection Hr as Hr. symmetry. exact Hr. }
  exact (proj1 (proj2 (plan_success_sound started finished_plan "planrun_1" r started_inv
                         finished_steps Hr Hs))).
Defined.

Definition saved_plan : TestPlan :=
  match load_plan saved admin 1 with
  | Ok p => p
  | Err _ => {| pl_id := 0; pl_project_id := 0; pl_name := []; pl_description := None;
                pl_environment_id := 0; pl_runner_id := ""; pl_status := LifeStatus.ACTIVE;
                pl_created_by := ""; pl_items := [] |}
  end.

Lemma plan_start_witness :
  length (enabled_items saved_plan) = 1%nat
  /\ exists run, eff_result (start_test_plan_run saved admin 1 MANUAL None (start_input "planrun_1" "run_1"))
                 = Ok run
       /\ ri_plan_item_id <$> tp_items run = pi_id <$> enabled_items saved_plan /\ Forall settled (tp_items run).
Proof.
  split; [vm_compute; reflexivity|].
  destruct (plan_start_all_or_nothing saved admin 1 MANUAL None (start_input "planrun_1" "run_1") saved_plan
              saved_inv) as [_ Hok]; [vm_compute; reflexivity|].
  destruct (eff_result (start_test_plan_run saved admin 1 MANUAL None (start_input "planrun_1" "run_1")))
    as [run|e] eqn:Hres.
  - exists run. split; [reflexivity|]. destruct (Hok run eq_refl) as (H1 & _ & H3). split; [exact H1 | exact H3].
  - apply (f_equal is_ok) in Hres. vm_compute in Hres. discriminate Hres.
Defined.

End PlanWitness.
