(* ===== verification/Schedules.v ===== *)
(** Schedules ([schedules/service.py], [schedules/schemas.py]) and the scan of
    [schedules/coordinator.py]: saving a schedule, claiming a due occurrence,
    starting the plan for a claimed trigger, retrying a failed one. *)
From stdpp Require Import sorting.
From S2P Require Import Prelude PyText Projects Calendar RunData RunStatusOps RunControl RunDispatch.
From S2P Require Import RunCreate PlanData Webhooks TestPlans.
Open Scope Z_scope.

Record ScheduleWrite := {
  sw_project_id : Z;
  sw_plan_id : Z;
  sw_name : pytext;
  sw_expression : Expression;
  sw_enabled : bool;
}.

Definition s_with_next (s : TestSchedule) (next : option Z) : TestSchedule :=
  {| s_project_id := s_project_id s; s_plan_id := s_plan_id s; s_name := s_name s;
     s_expression := s_expression s; s_enabled := s_enabled s; s_status := s_status s;
     s_next_run_at := next; s_last_scheduled_at := s_last_scheduled_at s;
     s_last_trigger_status := s_last_trigger_status s; s_last_error_code := s_last_error_code s;
     s_last_error_message := s_last_error_message s; s_created_by := s_created_by s |}.

Definition s_with_last (s : TestSchedule) (scheduled : option Z) (status : option TriggerStatus.t)
    (code message : option string) : TestSchedule :=
  {| s_project_id := s_project_id s; s_plan_id := s_plan_id s; s_name := s_name s;
     s_expression := s_expression s; s_enabled := s_enabled s; s_status := s_status s;
     s_next_run_at := s_next_run_at s; s_last_scheduled_at := scheduled;
     s_last_trigger_status := status; s_last_error_code := code; s_last_error_message := message;
     s_created_by := s_created_by s |}.

Definition s_with_status (s : TestSchedule) (enabled : bool) (status : LifeStatus.t) : TestSchedule :=
  {| s_project_id := s_project_id s; s_plan_id := s_plan_id s; s_name := s_name s;
     s_expression := s_expression s; s_enabled := enabled; s_status := status;
     s_next_run_at := s_next_run_at s; s_last_scheduled_at := s_last_scheduled_at s;
     s_last_trigger_status := s_last_trigger_status s; s_last_error_code := s_last_error_code s;
     s_last_error_message := s_last_error_message s; s_created_by := s_created_by s |}.

Definition t_with (t : ScheduleTrigger) (status : TriggerStatus.t) (plan_run_id code message : option string)
    (completed : option datetime) : ScheduleTrigger :=
  {| st_schedule_id := st_schedule_id t; st_project_id := st_project_id t;
     st_scheduled_for_at := st_scheduled_for_at t; st_status := status; st_plan_run_id := plan_run_id;
     st_error_code := code; st_error_message := message; st_completed_at := completed |}.

Section schedules.
Context `{Settings} `{Catalog} `{Assets} `{AssetTables} `{ZoneDatabase} `{UserDirectory}.

(** ** Request validation *)

(** [datetime(2026, 1, 1)]. *)
Definition probe_instant : Z := 20454 * day_us.

Definition expression_with (e : Expression) (tz : pytext) (wd : option (list Z)) (cron : option pytext)
  : Expression :=
  {| e_type := e_type e; e_timezone := tz; e_daily_time := e_daily_time e; e_weekdays := wd; e_cron := cron |}.

(** [bool(value)] of an optional text or list. *)
Definition truthy {A} (v : option (list A)) : bool := match v with Some (_ :: _) => true | _ => false end.

(** The validators of [ScheduleWrite]: text is normalized, the fields fit the
    kind of schedule, and the expression fires at all. *)
Definition validate_expression (e0 : Expression) : result Expression :=
  let cron0 := match e_cron e0 with Some (c :: v) => Some (join 32 (words (c :: v))) | _ => None end in
  let e := expression_with e0 (strip (e_timezone e0)) (e_weekdays e0) cron0 in
  tz ← validate_timezone (e_timezone e);
  wd ← match e_type e with
       | DAILY =>
           raise_if (negb (truthy (e_daily_time e)) || bool_decide (is_Some (e_weekdays e))
                     || bool_decide (is_Some (e_cron e)))
             (ScheduleExpressionError "Daily 只允许配置执行时间");;
           Ok (e_weekdays e)
       | WEEKLY =>
           raise_if (negb (truthy (e_daily_time e)) || negb (truthy (e_weekdays e))
                     || bool_decide (is_Some (e_cron e)))
             (ScheduleExpressionError "Weekly 必须配置执行时间和星期");;
           Ok (Some (sorted (list_to_set (default [] (e_weekdays e)))))
       | CRON | UnsupportedType =>
           raise_if (negb (truthy (e_cron e)) || bool_decide (is_Some (e_daily_time e))
                     || bool_decide (is_Some (e_weekdays e)))
             (ScheduleExpressionError "Cron 只允许配置 5 段 Cron 表达式");;
           Ok (e_weekdays e)
       end;
  let e' := expression_with e tz wd (e_cron e) in
  (if truthy (e_cron e') then (_ ← parse_cron (default [] (e_cron e')); Ok tt) else Ok tt);;
  next_occurrence e' (Naive probe_instant);;
  Ok e'.

(** ** Saving *)

Definition load_schedule (pd : PlatformDb) (user : CurrentUser) (schedule_id : Z) : result TestSchedule :=
  s ← some_or (schedules (scheduling pd) !! schedule_id) (ResourceNotFoundError "定时任务不存在");
  get_project (db_projects (core pd)) user (s_project_id s);;
  Ok s.

Definition validate_target (pd : PlatformDb) (user : CurrentUser) (project_id plan_id : Z) : result unit :=
  project ← get_project (db_projects (core pd)) user project_id;
  ensure_project_writable (db_projects (core pd)) project_id user;;
  raise_if (bool_decide (p_status project = ProjectStatus.ARCHIVED))
    (ResourceConflictError "归档项目不能保存定时任务");;
  raise_unless (match plans (planning pd) !! plan_id with
                | Some plan => bool_decide (pl_project_id plan = project_id)
                               && bool_decide (pl_status plan = LifeStatus.ACTIVE)
                | None => false
                end) (ResourceConflictError "定时任务必须绑定本项目已启用的 Test Plan").

Definition calculate_next (s : TestSchedule) (after : Z) : result Z :=
  next_occurrence (s_expression s) (Naive after).

(** [_calculate_next(...) if enabled else None]. *)
Definition next_if_enabled (s : TestSchedule) (now : Z) : result (option Z) :=
  if s_enabled s then n ← calculate_next s now; Ok (Some n) else Ok None.

Definition create_schedule (pd : PlatformDb) (user : CurrentUser) (new_id : Z) (payload : ScheduleWrite)
    (now : datetime) : effect TestSchedule :=
  transaction pd (
    validate_target pd user (sw_project_id payload) (sw_plan_id payload);;
    let s := {| s_project_id := sw_project_id payload; s_plan_id := sw_plan_id payload;
                s_name := sw_name payload; s_expression := sw_expression payload;
                s_enabled := sw_enabled payload; s_status := LifeStatus.ACTIVE; s_next_run_at := None;
                s_last_scheduled_at := None; s_last_trigger_status := None; s_last_error_code := None;
                s_last_error_message := None; s_created_by := user_id user |} in
    next ← next_if_enabled s now;
    raise_if (bool_decide (is_Some (schedules (scheduling pd) !! new_id))) (UnexpectedError "IntegrityError");;
    let s' := s_with_next s next in
    Ok (put_schedule pd new_id s', s')).

(** [_apply_payload]. *)
Definition apply_payload (s : TestSchedule) (payload : ScheduleWrite) (now : datetime) : result TestSchedule :=
  let s1 := {| s_project_id := sw_project_id payload; s_plan_id := sw_plan_id payload;
               s_name := sw_name payload; s_expression := sw_expression payload;
               s_enabled := sw_enabled payload; s_status := s_status s; s_next_run_at := s_next_run_at s;
               s_last_scheduled_at := s_last_scheduled_at s;
               s_last_trigger_status := s_last_trigger_status s; s_last_error_code := None;
               s_last_error_message := None; s_created_by := s_created_by s |} in
  next ← next_if_enabled s1 now;
  Ok (s_with_next s1 next).

Definition update_schedule (pd : PlatformDb) (user : CurrentUser) (schedule_id : Z) (payload : ScheduleWrite)
    (now : datetime) : effect TestSchedule :=
  transaction pd (
    s ← load_schedule pd user schedule_id;
    raise_unless (bool_decide (s_project_id s = sw_project_id payload))
      (ResourceConflictError "定时任务不能跨项目移动");;
    raise_unless (bool_decide (s_status s = LifeStatus.ACTIVE))
      (ResourceConflictError "已归档定时任务不能编辑");;
    validate_target pd user (sw_project_id payload) (sw_plan_id payload);;
    s' ← apply_payload s payload now;
    Ok (put_schedule pd schedule_id s', s')).

Definition set_schedule_status (pd : PlatformDb) (user : CurrentUser) (schedule_id : Z) (status : LifeStatus.t)
    (now : datetime) : effect TestSchedule :=
  transaction pd (
    s ← load_schedule pd user schedule_id;
    get_project (db_projects (core pd)) user (s_project_id s);;
    ensure_project_writable (db_projects (core pd)) (s_project_id s) user;;
    s' ← (if decide (status = LifeStatus.ARCHIVED)
          then Ok (s_with_next (s_with_status s false status) None)
          else let s1 := s_with_status s (s_enabled s) status in
               next ← next_if_enabled s1 now; Ok (s_with_next s1 next));
    Ok (put_schedule pd schedule_id s', s')).

(** ** Claiming a due occurrence *)

(** The unique constraint on [(schedule_id, scheduled_for_at)]. *)
Definition occurrence_taken (pd : PlatformDb) (schedule_id scheduled_for : Z) : bool :=
  bool_decide (map_Exists (fun _ t => st_schedule_id t = schedule_id
                                      /\ st_scheduled_for_at t = scheduled_for)
                 (triggers (scheduling pd))).

Definition schedule_due (s : TestSchedule) (now : datetime) : bool :=
  bool_decide (s_status s = LifeStatus.ACTIVE) && s_enabled s
  && match s_next_run_at s with Some n => n <=? now | None => false end.

(** [claim_due_schedule]; [trigger_id] is the generated key. *)
Definition claim_due_schedule (pd : PlatformDb) (schedule_id : Z) (now : datetime) (trigger_id : string)
  : effect (option string) :=
  transaction pd (
    match schedules (scheduling pd) !! schedule_id with
    | Some s =>
        match s_next_run_at s with
        | Some scheduled_for =>
            if schedule_due s now then
              let trigger :=
                {| st_schedule_id := schedule_id; st_project_id := s_project_id s;
                   st_scheduled_for_at := scheduled_for; st_status := TriggerStatus.CLAIMED;
                   st_plan_run_id := None; st_error_code := None; st_error_message := None;
                   st_completed_at := None |} in
              let s1 := s_with_last s (Some scheduled_for) (Some TriggerStatus.CLAIMED) None None in
              next ← calculate_next s1 (Z.max now scheduled_for);
              if occurrence_taken pd schedule_id scheduled_for
                 || bool_decide (is_Some (triggers (scheduling pd) !! trigger_id))
              then Ok (pd, None)
              else Ok (put_trigger (put_schedule pd schedule_id (s_with_next s1 (Some next))) trigger_id trigger,
                       Some trigger_id)
            else Ok (pd, None)
        | None => Ok (pd, None)
        end
    | None => Ok (pd, None)
    end).

(** ** Starting the plan of a claimed trigger *)

(** [_current_user_for_schedule]. *)
Definition current_user_for_schedule (pd : PlatformDb) (s : TestSchedule) : result CurrentUser :=
  raise_unless (bool_decide (users (db_projects (core pd)) !! s_created_by s = Some true))
    (ResourceConflictError "定时任务创建人不存在或已停用");;
  Ok (acting_user (s_created_by s)).

(** The end of [dispatch_claimed_trigger]: the trigger is written and its outcome
    shown on the schedule. *)
Definition close_trigger (pd : PlatformDb) (trigger_id : string) (t : ScheduleTrigger) : PlatformDb :=
  let pd1 := put_trigger pd trigger_id t in
  match schedules (scheduling pd) !! st_schedule_id t with
  | Some s => put_schedule pd1 (st_schedule_id t)
                (s_with_last s (s_last_scheduled_at s) (Some (st_status t)) (st_error_code t)
                   (st_error_message t))
  | None => pd1
  end.

Definition dispatch_claimed_trigger (pd : PlatformDb) (trigger_id : string) (x : StartInput)
    (now : datetime) : effect ScheduleTrigger :=
  match triggers (scheduling pd) !! trigger_id with
  | None => (pd, [], Err (ResourceNotFoundError "调度触发记录不存在"))
  | Some t =>
      match schedules (scheduling pd) !! st_schedule_id t with
      | None =>
          let t' := t_with t TriggerStatus.SKIPPED (st_plan_run_id t) (Some "SCHEDULE_NOT_FOUND")
                      (Some "定时任务已不存在") (Some now) in
          (put_trigger pd trigger_id t', [], Ok t')
      | Some s =>
          if negb (bool_decide (st_status t = TriggerStatus.CLAIMED)) then (pd, [], Ok t)
          else if negb (bool_decide (s_status s = LifeStatus.ACTIVE) && s_enabled s) then
            let t' := t_with t TriggerStatus.SKIPPED (st_plan_run_id t) (Some "SCHEDULE_DISABLED")
                        (Some "定时任务已停用或归档") (Some now) in
            (close_trigger pd trigger_id t', [], Ok t')
          else
            let '(pd1, evs, r) :=
              match current_user_for_schedule pd s with
              | Err e => (pd, [], Err e)
              | Ok actor =>
                  start_test_plan_run pd actor (s_plan_id s) SCHEDULE (Some (st_schedule_id t)) x
              end in
            match r with
            | Ok run =>
                let t' := t_with t TriggerStatus.DISPATCHED (Some (tp_id run)) None None (Some now) in
                (close_trigger pd1 trigger_id t', evs, Ok t')
            | Err e =>
                if is_app_error e then
                  let t' := t_with t TriggerStatus.FAILED (st_plan_run_id t) (Some (error_code e))
                              (Some (error_message e)) (Some now) in
                  (close_trigger pd1 trigger_id t', evs, Ok t')
                else (pd1, evs, Err e)
            end
      end
  end.

(** ** Retrying *)

(** The checks of [retry_schedule_trigger], on the row as it was read (without a
    lock), *)
Definition retry_check (pd : PlatformDb) (user : CurrentUser) (trigger_id : string) : result unit :=
  t ← some_or (triggers (scheduling pd) !! trigger_id) (ResourceNotFoundError "调度触发记录不存在");
  get_project (db_projects (core pd)) user (st_project_id t);;
  ensure_project_writable (db_projects (core pd)) (st_project_id t) user;;
  raise_unless (bool_decide (st_status t = TriggerStatus.FAILED) && bool_decide (st_plan_run_id t = None))
    (ResourceConflictError "只有尚未创建计划 Run 的失败触发可以重试").

(** and the [UPDATE] it then commits. *)
Definition retry_write (pd : PlatformDb) (trigger_id : string) : PlatformDb :=
  match triggers (scheduling pd) !! trigger_id with
  | Some t => put_trigger pd trigger_id (t_with t TriggerStatus.CLAIMED (st_plan_run_id t) None None None)
  | None => pd
  end.

Definition retry_schedule_trigger (pd : PlatformDb) (user : CurrentUser) (trigger_id : string)
    (x : StartInput) (now : datetime) : effect ScheduleTrigger :=
  match retry_check pd user trigger_id with
  | Err e => (pd, [], Err e)
  | Ok _ => dispatch_claimed_trigger (retry_write pd trigger_id) trigger_id x now
  end.

(** ** The scan *)

(** The due schedules in the order of the query: by due time, then by key; at
    most 100. *)
Definition due_before (a b : Z * TestSchedule) : Prop :=
  default 0 (s_next_run_at a.2) < default 0 (s_next_run_at b.2)
  \/ (default 0 (s_next_run_at a.2) = default 0 (s_next_run_at b.2) /\ a.1 <= b.1).
#[global] Instance due_before_dec : RelDecision due_before.
Proof. intros a b. unfold due_before. apply _. Defined.

Definition due_schedule_ids (pd : PlatformDb) (now : datetime) : list Z :=
  take 100 (merge_sort due_before
              (filter (fun p => schedule_due p.2 now = true) (map_to_list (schedules (scheduling pd))))).*1.

(** The exception handler of the scan: a trigger still CLAIMED is marked. *)
Definition scan_failure (pd : PlatformDb) (trigger_id : string) (now : datetime) : PlatformDb :=
  match triggers (scheduling pd) !! trigger_id with
  | Some t =>
      if decide (st_status t = TriggerStatus.CLAIMED)
      then close_trigger pd trigger_id
             (t_with t TriggerStatus.FAILED (st_plan_run_id t) (Some "SCHEDULER_INTERNAL_ERROR")
                (Some "调度触发失败，请检查服务日志后重试") (Some now))
      else pd
  | None => pd
  end.

(** The generated keys and the surroundings of one scan. *)
Record ScanInput := { sc_trigger_id : Z -> string; sc_start : Z -> StartInput; sc_done : datetime }.

(** The loop of [scan_once] over the due schedules; an exception of
    [claim_due_schedule] ends the round.  The result lists the claimed triggers. *)
Fixpoint scan_schedules (pd : PlatformDb) (now : datetime) (x : ScanInput) (ids : list Z)
  : effect (list string) :=
  match ids with
  | [] => (pd, [], Ok [])
  | id :: rest =>
      let '(pd1, _, claimed) := claim_due_schedule pd id now (sc_trigger_id x id) in
      match claimed with
      | Err e => (pd1, [], Err e)
      | Ok None => scan_schedules pd1 now x rest
      | Ok (Some trigger_id) =>
          let '(pd2, evs, r) := dispatch_claimed_trigger pd1 trigger_id (sc_start x id) (sc_done x) in
          let pd3 := match r with Ok _ => pd2 | Err _ => scan_failure pd2 trigger_id (sc_done x) end in
          let '(pd4, evs4, r4) := scan_schedules pd3 now x rest in
          (pd4, evs ++ evs4, (fun l => trigger_id :: l) <$> r4)
      end
  end.

Definition scan_once (pd : PlatformDb) (now : datetime) (x : ScanInput) : effect (list string) :=
  scan_schedules pd now x (due_schedule_ids pd now).

End schedules.
