(* ===== verification/ScheduleSystem.v ===== *)
(** Schedules under a clock that never goes back: no occurrence is triggered
    twice, every due schedule is served by a scan, a closed trigger stays closed.
    Every commit of the schedule service is a step; between two of them any other
    part of the platform may change anything but the two schedule tables. *)
From stdpp Require Import sorting.
From S2P Require Import Prelude PyText Projects Calendar CalendarSearch RunData RunStatusOps RunControl RunDispatch.
From S2P Require Import RunCreate RunExecution RunInvariant RunHandlers RunSystem RunExample.
From S2P Require Import PlanData Webhooks TestPlans PlanSystem Schedules.
Open Scope Z_scope.

(** ** Invariant *)

Record sched_inv (clock : Z) (t : ScheduleTables) : Prop := {
  sv_enabled : forall id s, schedules t !! id = Some s -> is_Some (s_next_run_at s) <-> s_enabled s = true;
  sv_archived : forall id s, schedules t !! id = Some s -> s_status s = LifeStatus.ARCHIVED ->
    s_enabled s = false;
  sv_known : forall k tr, triggers t !! k = Some tr -> is_Some (schedules t !! st_schedule_id tr);
  sv_past : forall k tr, triggers t !! k = Some tr -> st_scheduled_for_at tr <= clock;
  sv_next : forall k tr s n, triggers t !! k = Some tr -> schedules t !! st_schedule_id tr = Some s ->
    s_next_run_at s = Some n -> st_scheduled_for_at tr < n;
  sv_unique : forall k k' tr tr', triggers t !! k = Some tr -> triggers t !! k' = Some tr' ->
    st_schedule_id tr = st_schedule_id tr' -> st_scheduled_for_at tr = st_scheduled_for_at tr' -> k = k';
}.

(** The columns that decide when a schedule fires. *)
Definition timing (s : TestSchedule) : Expression * bool * LifeStatus.t * option Z :=
  (s_expression s, s_enabled s, s_status s, s_next_run_at s).
(** The columns of a trigger that never change. *)
Definition occasion (t : ScheduleTrigger) : Z * Z * Z :=
  (st_schedule_id t, st_project_id t, st_scheduled_for_at t).

(** Two states of the tables that differ in the outcomes only. *)
Record same_calendar (t t' : ScheduleTables) : Prop := {
  sm_timing : timing <$> schedules t' = timing <$> schedules t;
  sm_occasion : occasion <$> triggers t' = occasion <$> triggers t;
}.

#[export] Instance same_calendar_preorder : PreOrder same_calendar.
Proof. split; [by split | intros x y z [] []; split; by etrans]. Qed.

Lemma fmap_back {K A B} `{Countable K} (f : A -> B) (m m' : gmap K A) k a :
  f <$> m' = f <$> m -> m' !! k = Some a -> exists b, m !! k = Some b /\ f b = f a.
Proof.
  intros Heq Hk. apply (f_equal (lookup k)) in Heq. rewrite !lookup_fmap, Hk in Heq.
  destruct (m !! k) as [b|]; cbn in Heq; simplify_eq. by exists b.
Qed.

Lemma sched_inv_outcomes c t t' : same_calendar t t' -> sched_inv c t -> sched_inv c t'.
Proof.
  intros [Hs Ho] Hi. split.
  - intros id s Hl. destruct (fmap_back _ _ _ _ _ Hs Hl) as (s0 & H0 & [= _ He _ Hn]).
    rewrite <-He, <-Hn. by eapply sv_enabled.
  - intros id s Hl Ha. destruct (fmap_back _ _ _ _ _ Hs Hl) as (s0 & H0 & [= _ He Hst _]).
    rewrite <-He. eapply sv_archived; [done..|]. by rewrite Hst.
  - intros k tr Hl. destruct (fmap_back _ _ _ _ _ Ho Hl) as (t0 & H0 & [= He _ _]).
    rewrite <-He. destruct (sv_known _ _ Hi _ _ H0) as [s Hl'].
    symmetry in Hs. by destruct (fmap_back _ _ _ _ _ Hs Hl') as (s' & ? & _).
  - intros k tr Hl. destruct (fmap_back _ _ _ _ _ Ho Hl) as (t0 & H0 & [= _ _ <-]). by eapply sv_past.
  - intros k tr s n Hl Hsl Hn. destruct (fmap_back _ _ _ _ _ Ho Hl) as (t0 & H0 & [= He _ <-]).
    destruct (fmap_back _ _ _ _ _ Hs Hsl) as (s0 & Hs0 & [= _ _ _ Hn0]).
    eapply sv_next; [done | done | by rewrite He | by rewrite Hn0].
  - intros k k' tr tr' Hl Hl' H1 H2.
    destruct (fmap_back _ _ _ _ _ Ho Hl) as (t0 & H0 & [= E1 _ E2]).
    destruct (fmap_back _ _ _ _ _ Ho Hl') as (t0' & H0' & [= E1' _ E2']).
    eapply sv_unique; [done | done | done | congruence..].
Qed.

Lemma sched_inv_later c c' t : c <= c' -> sched_inv c t -> sched_inv c' t.
Proof. intros Hc []. split; try done. intros k tr Hl. etrans; [by eapply sv_past0 | done]. Qed.

(** A schedule is written with an occurrence, if any, after the clock. *)
Lemma put_schedule_inv c pd id s :
  sched_inv c (scheduling pd) ->
  (is_Some (s_next_run_at s) <-> s_enabled s = true) ->
  (s_status s = LifeStatus.ARCHIVED -> s_enabled s = false) ->
  (forall n, s_next_run_at s = Some n -> c < n) ->
  sched_inv c (scheduling (put_schedule pd id s)).
Proof.
  intros Hi He Ha Hn. split; cbn.
  - intros i x [[<- <-]|[_ Hx]]%lookup_insert_Some; [done | by eapply sv_enabled].
  - intros i x [[<- <-]|[_ Hx]]%lookup_insert_Some; [done | by eapply sv_archived].
  - intros k tr Hk. apply lookup_insert_is_Some'. right. by eapply sv_known.
  - intros k tr Hk. by eapply sv_past.
  - intros k tr x n Hk [[_ <-]|[_ Hx]]%lookup_insert_Some Hnx; [|by eapply sv_next].
    pose proof (sv_past _ _ Hi _ _ Hk). specialize (Hn _ Hnx). lia.
  - intros k k' tr tr' Hk Hk'. by eapply sv_unique.
Qed.

Section schedule_lemmas.
Context `{Settings} `{Catalog} `{Assets} `{AssetTables} `{ZoneDatabase} `{UserDirectory}.

Lemma next_occurrence_later e a n : next_occurrence e (Naive a) = Ok n -> a < n.
Proof.
  unfold next_occurrence. intros E. inv_ok. cbn [as_utc_naive] in *.
  match goal with E : context [first_some ?f ?l] |- _ => destruct (first_some f l) as [c|] eqn:Hc; inv_ok end.
  apply first_some_Some in Hc as (l1 & day & l2 & _ & Hday & _). unfold search_day in Hday.
  destruct (day_allowed _ _); [|done].
  apply first_some_Some in Hday as (t1 & t & t2 & _ & Ht & _). unfold candidate in Ht.
  destruct (valid_local_candidate _ _ _); [|done]. case_match eqn:Hlt; simplify_eq. lia.
Qed.

Lemma next_if_enabled_ok s now next :
  next_if_enabled s now = Ok next ->
  (is_Some next <-> s_enabled s = true) /\ forall n, next = Some n -> now < n.
Proof.
  unfold next_if_enabled, calculate_next. destruct (s_enabled s); intros E; inv_ok.
  - split; [split; [done | by eexists]|]. intros n [= <-]. by eapply next_occurrence_later.
  - split; [|done]. split; [by intros [? ?] | done].
Qed.

(** ** Outcomes *)

Lemma close_trigger_calendar pd k t t' :
  triggers (scheduling pd) !! k = Some t -> occasion t' = occasion t ->
  same_calendar (scheduling pd) (scheduling (close_trigger pd k t')).
Proof.
  intros Hk Ho. unfold close_trigger. destruct (schedules _ !! _) as [s|] eqn:Hs; split; cbn; try done.
  - rewrite fmap_insert. apply insert_id. by rewrite lookup_fmap, Hs.
  - rewrite fmap_insert. apply insert_id. by rewrite lookup_fmap, Hk, Ho.
  - rewrite fmap_insert. apply insert_id. by rewrite lookup_fmap, Hk, Ho.
Qed.

Lemma close_trigger_lookup pd k t : triggers (scheduling (close_trigger pd k t)) = <[k := t]> (triggers (scheduling pd)).
Proof. unfold close_trigger. by case_match. Qed.

(** ** The system *)

(** The clock and the database.  A scan uses the instant at which it began; a
    trigger is claimed again ([retry_write]) and closed ([close_trigger]) in
    commits of their own. *)
Inductive sched_step : Z * PlatformDb -> Z * PlatformDb -> Prop :=
| ss_tick c c' pd : c <= c' -> sched_step (c, pd) (c', pd)
| ss_other c pd pd' : scheduling pd' = scheduling pd -> sched_step (c, pd) (c, pd')
| ss_create c pd user id payload : sched_step (c, pd) (c, eff_db (create_schedule pd user id payload c))
| ss_update c pd user id payload : sched_step (c, pd) (c, eff_db (update_schedule pd user id payload c))
| ss_status c pd user id status : sched_step (c, pd) (c, eff_db (set_schedule_status pd user id status c))
| ss_claim c now pd id k : now <= c -> sched_step (c, pd) (c, eff_db (claim_due_schedule pd id now k))
| ss_retry c pd k : sched_step (c, pd) (c, retry_write pd k)
| ss_close c pd k t t' : triggers (scheduling pd) !! k = Some t -> occasion t' = occasion t ->
    sched_step (c, pd) (c, close_trigger pd k t').

Lemma transaction_inv {A} c pd (body : result (PlatformDb * A)) :
  sched_inv c (scheduling pd) ->
  (forall pd' a, body = Ok (pd', a) -> sched_inv c (scheduling pd')) ->
  sched_inv c (scheduling (eff_db (transaction pd body))).
Proof. intros Hi Hb. destruct body as [[pd' a]|e]; [by eapply Hb | done]. Qed.

Lemma occurrence_taken_spec pd id n :
  occurrence_taken pd id n = true <->
  exists k t, triggers (scheduling pd) !! k = Some t /\ st_schedule_id t = id /\ st_scheduled_for_at t = n.
Proof. unfold occurrence_taken. rewrite bool_decide_eq_true, map_Exists_lookup. naive_solver. Qed.

Lemma claim_inv c now pd id k :
  now <= c -> sched_inv c (scheduling pd) ->
  sched_inv c (scheduling (eff_db (claim_due_schedule pd id now k))).
Proof.
  intros Hc Hi. apply transaction_inv; [done|]. intros pd' o.
  destruct (schedules _ !! id) as [s|] eqn:Hs; [|by intros [= <- _]].
  destruct (s_next_run_at s) as [n|] eqn:Hn; [|by intros [= <- _]].
  destruct (schedule_due s now) eqn:Hd; [|by intros [= <- _]].
  cbn zeta. intros (next & Hnext & E)%bind_ok.
  destruct (_ || _) eqn:Htaken; inv_ok; simplify_eq; [done|].
  unfold calculate_next in Hnext. pose proof (next_occurrence_later _ _ _ Hnext) as Hlater. clear Hnext.
  unfold schedule_due in Hd. rewrite Hn in Hd.
  apply andb_true_iff in Hd as [[Hact Hen]%andb_true_iff Hle%Z.leb_le].
  apply bool_decide_eq_true in Hact. apply orb_false_iff in Htaken as [Hfree Hk].
  apply bool_decide_eq_false in Hk.
  assert (forall k' t, triggers (scheduling pd) !! k' = Some t -> st_schedule_id t = id ->
            st_scheduled_for_at t < n) as Hbefore.
  { intros k' t Ht <-. by eapply sv_next. }
  split; cbn.
  - intros i x [[<- <-]|[_ Hx]]%lookup_insert_Some; cbn; [|by eapply sv_enabled].
    split; [done | by eexists].
  - intros i x [[<- <-]|[_ Hx]]%lookup_insert_Some; cbn; [congruence | by eapply sv_archived].
  - intros k' t [[<- <-]|[_ Ht]]%lookup_insert_Some; apply lookup_insert_is_Some'; cbn; [by left|].
    right. by eapply sv_known.
  - intros k' t [[<- <-]|[_ Ht]]%lookup_insert_Some; cbn; [lia | by eapply sv_past].
  - intros k' t x m [[<- <-]|[_ Ht]]%lookup_insert_Some; cbn.
    + rewrite lookup_insert_eq. intros [= <-] [= <-]. lia.
    + intros [[Hid <-]|[_ Hx]]%lookup_insert_Some Hm; cbn in Hm; [|by eapply sv_next].
      specialize (Hbefore _ _ Ht (eq_sym Hid)). simplify_eq. lia.
  - intros k1 k2 t1 t2 [[<- <-]|[_ Ht1]]%lookup_insert_Some [[<- <-]|[_ Ht2]]%lookup_insert_Some Hid Hat;
      cbn in *; [done | | | by eapply sv_unique].
    + specialize (Hbefore _ _ Ht2 (eq_sym Hid)). lia.
    + specialize (Hbefore _ _ Ht1 Hid). lia.
Qed.

Lemma retry_write_calendar pd k : same_calendar (scheduling pd) (scheduling (retry_write pd k)).
Proof.
  unfold retry_write. destruct (triggers _ !! k) as [t|] eqn:Ht; [|done].
  split; cbn; [done|]. rewrite fmap_insert. apply insert_id. by rewrite lookup_fmap, Ht.
Qed.

Lemma sched_step_inv c pd c' pd' :
  sched_step (c, pd) (c', pd') -> sched_inv c (scheduling pd) -> sched_inv c' (scheduling pd').
Proof.
  intros Hstep Hi. inversion Hstep; subst; clear Hstep.
  - by eapply sched_inv_later.
  - congruence.
  - apply transaction_inv; [done|]. intros pd'' a E. inv_ok. simplify_eq.
    apply next_if_enabled_ok in E1 as [He Hn]. by apply put_schedule_inv.
  - apply transaction_inv; [done|]. intros pd'' a E. inv_ok. simplify_eq.
    unfold apply_payload in *. inv_ok.
    match goal with E : next_if_enabled _ _ = Ok _ |- _ => apply next_if_enabled_ok in E as [He Hn] end.
    apply put_schedule_inv; try done. cbn. apply bool_decide_eq_true in G0. congruence.
  - apply transaction_inv; [done|]. intros pd'' a E. inv_ok. simplify_eq.
    case_decide; inv_ok.
    + apply put_schedule_inv; try done. cbn. split; [by intros [? ?] | done].
    + match goal with E : next_if_enabled _ _ = Ok _ |- _ => apply next_if_enabled_ok in E as [He Hn] end.
      apply put_schedule_inv; try done.
  - by apply claim_inv.
  - eapply sched_inv_outcomes; [apply retry_write_calendar | done].
  - eapply sched_inv_outcomes; [by eapply close_trigger_calendar | done].
Qed.

(** ** Dispatching *)

Lemma dispatch_cases pd k t x now :
  triggers (scheduling pd) !! k = Some t ->
  exists pd1, scheduling pd1 = scheduling pd /\
    let o := dispatch_claimed_trigger pd k x now in
    (exists t' : ScheduleTrigger, eff_db o = close_trigger pd1 k t' /\ eff_result o = Ok t'
       /\ occasion t' = occasion t /\ st_status t' <> TriggerStatus.CLAIMED)
    \/ (eff_db o = pd1 /\ exists e, eff_result o = Err e)
    \/ (o = (pd, [], Ok t) /\ pd1 = pd /\ st_status t <> TriggerStatus.CLAIMED).
Proof.
  intros Hk. unfold dispatch_claimed_trigger. rewrite Hk.
  destruct (schedules _ !! st_schedule_id t) as [s|] eqn:Hs.
  2: { exists pd. split; [done|]. left. eexists. split; [|done]. unfold close_trigger. cbn. by rewrite Hs. }
  destruct (bool_decide (st_status t = _)) eqn:Hst; cbn [negb];
    [apply bool_decide_eq_true in Hst | apply bool_decide_eq_false in Hst].
  2: { exists pd. split; [done|]. by right; right. }
  destruct (_ && s_enabled s); cbn [negb].
  2: { exists pd. split; [done|]. left. by eexists. }
  destruct (current_user_for_schedule pd s) as [actor|e].
  - pose proof (start_plan_own pd actor (s_plan_id s) SCHEDULE (Some (st_schedule_id t)) x) as Hown.
    destruct (start_test_plan_run _ _ _ _ _ _) as [[pd1 evs] r]. exists pd1. cbn in Hown.
    split; [by apply (f_equal fst) in Hown|]. destruct r as [run|e]; [left; by eexists|].
    destruct (is_app_error e); [left | right; left]; by repeat eexists.
  - exists pd. split; [done|]. destruct (is_app_error e); [left | right; left]; by repeat eexists.
Qed.

Lemma dispatch_path c pd k x now :
  rtc sched_step (c, pd) (c, eff_db (dispatch_claimed_trigger pd k x now)).
Proof.
  destruct (triggers (scheduling pd) !! k) as [t|] eqn:Hk.
  2: { unfold dispatch_claimed_trigger. by rewrite Hk. }
  destruct (dispatch_cases pd k t x now Hk) as (pd1 & Hown & [(t' & -> & _ & Ho & _)|[(-> & _)|(-> & _)]]).
  - etrans; [apply rtc_once, (ss_other c pd pd1 Hown)|].
    apply rtc_once. eapply ss_close; [by rewrite Hown | done].
  - by apply rtc_once, ss_other.
  - done.
Qed.

Lemma scan_failure_path c pd k now : rtc sched_step (c, pd) (c, scan_failure pd k now).
Proof.
  unfold scan_failure. destruct (triggers _ !! k) as [t|] eqn:Hk; [|done].
  case_decide; [|done]. by apply rtc_once; eapply ss_close.
Qed.

Lemma scan_path c now pd x ids :
  now <= c -> rtc sched_step (c, pd) (c, eff_db (scan_schedules pd now x ids)).
Proof.
  intros Hc. revert pd. induction ids as [|id rest IH]; intros pd; cbn; [done|].
  pose proof (rtc_once _ _ (ss_claim c now pd id (sc_trigger_id x id) Hc)) as Hclaim.
  destruct (claim_due_schedule _ _ _ _) as [[pd1 e1] [[k|]|e]]; cbn in Hclaim; [|by etrans | done].
  etrans; [exact Hclaim|].
  pose proof (dispatch_path c pd1 k (sc_start x id) (sc_done x)) as Hdisp.
  destruct (dispatch_claimed_trigger _ _ _ _) as [[pd2 evs] r]. cbn in Hdisp.
  set (pd3 := match r with Ok _ => pd2 | Err _ => _ end).
  assert (rtc sched_step (c, pd2) (c, pd3)) as Hfail
    by (unfold pd3; destruct r; [done | apply scan_failure_path]).
  specialize (IH pd3). destruct (scan_schedules _ _ _ _) as [[pd4 e4] r4]. cbn in *.
  etrans; [exact Hdisp|]. by etrans.
Qed.

Lemma rtc_sched_inv st st' :
  rtc sched_step st st' -> sched_inv st.1 (scheduling st.2) -> sched_inv st'.1 (scheduling st'.2).
Proof.
  induction 1 as [|[c pd] [c1 pd1] st' Hs _ IH]; [done|]. intros Hi.
  apply IH. by eapply sched_step_inv.
Qed.

(** ** Claiming *)

Lemma claim_due_ok c pd id s n now k next :
  sched_inv c (scheduling pd) ->
  schedules (scheduling pd) !! id = Some s -> s_next_run_at s = Some n -> schedule_due s now = true ->
  triggers (scheduling pd) !! k = None ->
  next_occurrence (s_expression s) (Naive now) = Ok next ->
  claim_due_schedule pd id now k =
    (put_trigger (put_schedule pd id
        (s_with_next (s_with_last s (Some n) (Some TriggerStatus.CLAIMED) None None) (Some next))) k
        {| st_schedule_id := id; st_project_id := s_project_id s; st_scheduled_for_at := n;
           st_status := TriggerStatus.CLAIMED; st_plan_run_id := None; st_error_code := None;
           st_error_message := None; st_completed_at := None |}, [], Ok (Some k)).
Proof.
  intros Hi Hs Hn Hd Hk Hnext. unfold claim_due_schedule. rewrite Hs, Hn, Hd.
  assert (n <= now) as Hle.
  { unfold schedule_due in Hd. rewrite Hn in Hd. apply andb_true_iff in Hd as [_ Hd]. lia. }
  cbn zeta. unfold calculate_next at 1. cbn [s_expression s_with_last].
  rewrite Z.max_l, Hnext by lia. cbn [mbind result_bind].
  rewrite (bool_decide_eq_false_2 (is_Some _)) by (rewrite Hk; by intros [? ?]).
  destruct (occurrence_taken pd id n) eqn:Ht; [|done].
  apply occurrence_taken_spec in Ht as (k' & t & Ht & Hid & Hat).
  rewrite <-Hid in Hs. pose proof (sv_next _ _ Hi _ _ _ _ Ht Hs Hn). lia.
Qed.

(** ** What a scan leaves alone *)

Record frame (ids : list Z) (ks : list string) (t t' : ScheduleTables) : Prop := {
  fr_schedules : forall id, id ∉ ids -> timing <$> schedules t' !! id = timing <$> schedules t !! id;
  fr_triggers : forall k, k ∉ ks -> triggers t' !! k = triggers t !! k;
}.

Lemma frame_trans ids ks ids' ks' t t' t'' :
  frame ids ks t t' -> frame ids' ks' t' t'' -> frame (ids ++ ids') (ks ++ ks') t t''.
Proof.
  intros [] []. split.
  - intros id [Hi Hi']%not_elem_of_app. by rewrite fr_schedules1, fr_schedules0.
  - intros k [Hk Hk']%not_elem_of_app. by rewrite fr_triggers1, fr_triggers0.
Qed.

Lemma close_frame pd k t t' :
  triggers (scheduling pd) !! k = Some t -> occasion t' = occasion t ->
  frame [] [k] (scheduling pd) (scheduling (close_trigger pd k t')).
Proof.
  intros Hk Ho. destruct (close_trigger_calendar pd k t t' Hk Ho) as [Hs _]. split.
  - intros id _. by rewrite <-!lookup_fmap, Hs.
  - intros k' Hk'%not_elem_of_cons. rewrite close_trigger_lookup. apply lookup_insert_ne. naive_solver.
Qed.

Lemma claim_frame pd id now k :
  frame [id] [k] (scheduling pd) (scheduling (eff_db (claim_due_schedule pd id now k))).
Proof.
  unfold claim_due_schedule. destruct (schedules _ !! id) as [s|] eqn:Hs; [|done].
  destruct (s_next_run_at s) as [n|]; [|done]. destruct (schedule_due s now); [|done]. cbn zeta.
  destruct (calculate_next _ _) as [next|e]; cbn [mbind result_bind]; [|done].
  destruct (_ || _); [done|]. split; cbn.
  - intros id' Hid%not_elem_of_cons. rewrite lookup_insert_ne; [done | naive_solver].
  - intros k' Hk%not_elem_of_cons. rewrite lookup_insert_ne; [done | naive_solver].
Qed.

(** A dispatch with the handler of the scan around it: the trigger is closed. *)
Lemma dispatch_scan_frame pd k t x now done_at :
  triggers (scheduling pd) !! k = Some t ->
  let '(pd2, _, r) := dispatch_claimed_trigger pd k x now in
  let pd3 := match r with Ok _ => pd2 | Err _ => scan_failure pd2 k done_at end in
  frame [] [k] (scheduling pd) (scheduling pd3)
  /\ exists t', triggers (scheduling pd3) !! k = Some t' /\ occasion t' = occasion t
       /\ st_status t' <> TriggerStatus.CLAIMED.
Proof.
  intros Hk. destruct (dispatch_cases pd k t x now Hk) as (pd1 & Hown & Hcase).
  destruct (dispatch_claimed_trigger pd k x now) as [[pd2 evs] r]. unfold eff_db, eff_result in Hcase. cbn in *.
  rewrite <-Hown in Hk |- *.
  destruct Hcase as [(t' & -> & -> & Ho & Hst)|[(-> & e & ->)|([= -> -> ->] & -> & Hst)]].
  - split; [by eapply close_frame|]. exists t'. by rewrite close_trigger_lookup, lookup_insert_eq.
  - unfold scan_failure. rewrite Hk. case_decide as Hst; [|by split; [|exists t]].
    split; [by eapply close_frame|]. eexists. by rewrite close_trigger_lookup, lookup_insert_eq.
  - split; [done|]. by exists t.
Qed.

Lemma scan_frame pd now x ids :
  frame ids (sc_trigger_id x <$> ids) (scheduling pd) (scheduling (eff_db (scan_schedules pd now x ids))).
Proof.
  revert pd. induction ids as [|id rest IH]; intros pd; cbn; [done|].
  pose proof (claim_frame pd id now (sc_trigger_id x id)) as Hclaim.
  destruct (claim_due_schedule _ _ _ _) as [[pd1 e1] [[k|]|e]] eqn:Hc; cbn in Hclaim.
  3: { destruct Hclaim as [F1 F2]. split; cbn; intros ? [? ?]%not_elem_of_cons; [apply F1 | apply F2];
         set_solver. }
  2: exact (frame_trans _ _ _ _ _ _ _ Hclaim (IH pd1)).
  assert (k = sc_trigger_id x id /\ is_Some (triggers (scheduling pd1) !! k)) as [-> [t Hk]].
  { unfold claim_due_schedule, transaction in Hc. repeat case_match; simplify_eq/=.
    all: inv_ok; try case_match; simplify_eq/=; rewrite ?lookup_insert_eq; by eauto. }
  pose proof (dispatch_scan_frame pd1 (sc_trigger_id x id) t (sc_start x id) (sc_done x) (sc_done x) Hk) as Hd.
  destruct (dispatch_claimed_trigger _ _ _ _) as [[pd2 evs] r]. destruct Hd as [Hd _].
  set (pd3 := match r with Ok _ => pd2 | Err _ => _ end) in *. specialize (IH pd3).
  destruct (scan_schedules _ _ _ _) as [[pd4 e4] r4]. cbn in *.
  pose proof (frame_trans _ _ _ _ _ _ _ Hclaim (frame_trans _ _ _ _ _ _ _ Hd IH)) as [F1 F2].
  split; [apply F1|]. intros k' Hk'. apply F2. set_solver.
Qed.

(** ** A scan serves what is due *)

Definition served (t t' : ScheduleTables) (now id : Z) (k : string) : Prop :=
  exists s n m tr, schedules t !! id = Some s /\ s_next_run_at s = Some n
    /\ s_next_run_at <$> schedules t' !! id = Some (Some m) /\ now < m
    /\ triggers t' !! k = Some tr /\ st_schedule_id tr = id /\ st_scheduled_for_at tr = n
    /\ st_status tr <> TriggerStatus.CLAIMED.

Definition ready (pd : PlatformDb) (now : Z) (x : ScanInput) (id : Z) : Prop :=
  exists s next, schedules (scheduling pd) !! id = Some s /\ schedule_due s now = true
    /\ next_occurrence (s_expression s) (Naive now) = Ok next
    /\ triggers (scheduling pd) !! sc_trigger_id x id = None.

Lemma ready_timing pd pd' now x id :
  timing <$> schedules (scheduling pd') !! id = timing <$> schedules (scheduling pd) !! id ->
  triggers (scheduling pd') !! sc_trigger_id x id = triggers (scheduling pd) !! sc_trigger_id x id ->
  ready pd now x id -> ready pd' now x id.
Proof.
  intros Ht Hk (s & next & Hs & Hd & Hn & Hf). rewrite Hs in Ht.
  destruct (schedules (scheduling pd') !! id) as [s'|] eqn:Hs'; [|done]. injection Ht as He Hen Hst Hnx.
  exists s', next. split_and!; [done | | by rewrite He | by rewrite Hk].
  unfold schedule_due in *. by rewrite Hst, Hen, Hnx.
Qed.

Lemma served_timing t t1 t' t'' now id k :
  timing <$> schedules t1 !! id = timing <$> schedules t !! id ->
  timing <$> schedules t'' !! id = timing <$> schedules t' !! id -> triggers t'' !! k = triggers t' !! k ->
  served t1 t' now id k -> served t t'' now id k.
Proof.
  intros Ht1 Ht2 Hk (s & n & m & tr & Hs & Hn & Hm & Hlt & Htr & Hrest).
  rewrite Hs in Ht1. destruct (schedules t !! id) as [s0|] eqn:Hs0; [|done]. injection Ht1 as _ _ _ Hnx.
  exists s0, n, m, tr. split_and!; [done | congruence | | done | by rewrite Hk | apply Hrest..].
  apply (f_equal (fmap (fun p : Expression * bool * LifeStatus.t * option Z => p.2))) in Ht2.
  rewrite <-!option_fmap_compose in Ht2. etrans; [exact Ht2 | exact Hm].
Qed.

Lemma scan_serves pd c now x ids :
  now <= c -> sched_inv c (scheduling pd) -> NoDup ids -> NoDup (sc_trigger_id x <$> ids) ->
  Forall (ready pd now x) ids ->
  eff_result (scan_schedules pd now x ids) = Ok (sc_trigger_id x <$> ids)
  /\ Forall (fun id => served (scheduling pd) (scheduling (eff_db (scan_schedules pd now x ids))) now id
                         (sc_trigger_id x id)) ids.
Proof.
  intros Hc. revert pd. induction ids as [|id rest IH]; intros pd Hi Hnd Hndk Hr; cbn; [done|].
  apply NoDup_cons in Hnd as [Hid Hnd]. apply NoDup_cons in Hndk as [Hik Hndk].
  apply Forall_cons in Hr as [(s & next & Hs & Hd & Hnx & Hk) Hr].
  destruct (s_next_run_at s) as [n|] eqn:Hn.
  2: { unfold schedule_due in Hd. rewrite Hn, andb_false_r in Hd. done. }
  pose proof (claim_frame pd id now (sc_trigger_id x id)) as Hclaim.
  pose proof (claim_inv c now pd id (sc_trigger_id x id) Hc Hi) as Hi1.
  rewrite (claim_due_ok c pd id s n now (sc_trigger_id x id) next) in Hclaim, Hi1 |- * by done.
  match goal with |- context [put_trigger ?a ?b ?e] => set (pd1 := put_trigger a b e) in *; set (t0 := e) in * end.
  assert (triggers (scheduling pd1) !! sc_trigger_id x id = Some t0) as Hk1 by (cbn; by rewrite lookup_insert_eq).
  pose proof (dispatch_scan_frame pd1 _ _ (sc_start x id) (sc_done x) (sc_done x) Hk1) as Hdisp.
  pose proof (dispatch_path c pd1 (sc_trigger_id x id) (sc_start x id) (sc_done x)) as Hpath.
  destruct (dispatch_claimed_trigger _ _ _ _) as [[pd2 evs] r].
  set (pd3 := match r with Ok _ => pd2 | Err _ => _ end) in *.
  destruct Hdisp as [Hframe (t' & Ht' & Ho' & Hst')].
  assert (sched_inv c (scheduling pd3)) as Hi3.
  { refine (rtc_sched_inv (c, pd1) (c, pd3) _ Hi1). etrans; [exact Hpath|].
    unfold pd3. destruct r; [done | apply scan_failure_path]. }
  pose proof (frame_trans _ _ _ _ _ _ _ Hclaim Hframe) as [F1 F2]. cbn in F1, F2.
  destruct (IH pd3 Hi3 Hnd Hndk) as [Hres Hserved].
  { apply Forall_forall. intros id' Hin'. rewrite Forall_forall in Hr.
    apply (ready_timing pd); [apply F1; set_solver | apply F2 | by apply Hr].
    rewrite !not_elem_of_cons. split_and!; [..|set_solver]; intros Heq; apply Hik; rewrite <-Heq;
      by apply list_elem_of_fmap_2. }
  pose proof (scan_frame pd3 now x rest) as [G1 G2].
  destruct (scan_schedules _ _ _ _) as [[pd4 e4] r4]. cbn in *.
  split; [by rewrite Hres|]. constructor.
  - apply (served_timing (scheduling pd) (scheduling pd) (scheduling pd3)); [done | by apply G1 | by apply G2 |].
    injection Ho' as Ho1 _ Ho2.
    exists s, n, next, t'. split_and!; try done; [|by eapply next_occurrence_later].
    pose proof (fr_schedules _ _ _ _ Hframe id (not_elem_of_nil _)) as Ht3. cbn in Ht3.
    rewrite lookup_insert_eq in Ht3.
    apply (f_equal (fmap (fun p : Expression * bool * LifeStatus.t * option Z => p.2))) in Ht3.
    rewrite <-option_fmap_compose in Ht3. exact Ht3.
  - apply Forall_forall. intros id' Hin'. rewrite Forall_forall in Hserved.
    apply (served_timing _ (scheduling pd3) (scheduling pd4)); [apply F1; set_solver | done | done |].
    by apply Hserved.
Qed.

Lemma due_schedule_ids_spec pd now :
  NoDup (due_schedule_ids pd now)
  /\ forall id, id ∈ due_schedule_ids pd now ->
       exists s, schedules (scheduling pd) !! id = Some s /\ schedule_due s now = true.
Proof.
  unfold due_schedule_ids. set (l := filter _ _).
  assert (merge_sort due_before l ≡ₚ l) as Hp by apply merge_sort_Permutation.
  assert (NoDup (merge_sort due_before l).*1) as Hnd.
  { rewrite Hp. unfold l. eapply sublist_NoDup; [apply (NoDup_fst_map_to_list (schedules (scheduling pd)))|].
    apply fmap_sublist, sublist_filter. }
  split.
  - eapply sublist_NoDup; [exact Hnd|]. apply sublist_take.
  - intros id Hid. apply (elem_of_sublist _ _ _) with (2 := sublist_take _ _) in Hid. rewrite Hp in Hid.
    apply list_elem_of_fmap in Hid as ([i s] & -> & Hin). apply list_elem_of_filter in Hin as [Hd Hin].
    apply elem_of_map_to_list in Hin. by exists s.
Qed.
End schedule_lemmas.
