(* ===== verification/ScheduleTheorems.v ===== *)
(** The theorems about schedules, and a nightly plan on which they are evaluated. *)
From stdpp Require Import sorting pretty.
From S2P Require Import Prelude PyText Projects Calendar CalendarSearch CalendarTheorems.
From S2P Require Import RunData RunStatusOps RunControl RunDispatch.
From S2P Require Import RunCreate RunExecution RunInvariant RunHandlers RunSystem RunExample.
From S2P Require Import PlanData Webhooks TestPlans PlanSystem Schedules ScheduleSystem.
Open Scope Z_scope.

Section theorems.
Context `{Settings} `{Catalog} `{Assets} `{AssetTables} `{ZoneDatabase} `{UserDirectory}.


(** Claiming a due schedule records its planned occurrence, once,
    and plans the first occurrence after the scan's instant, so occurrences
    missed in between are not made up for; a second claim at the same instant
    finds nothing to do.  When the schedule is not due nothing happens, and when
    its expression no longer fires the claim fails without a trace. *)
Theorem claim_due_exact c pd id s now k :
  sched_inv c (scheduling pd) -> schedules (scheduling pd) !! id = Some s ->
  triggers (scheduling pd) !! k = None ->
  let o := claim_due_schedule pd id now k in
  (schedule_due s now = false -> o = (pd, [], Ok None))
  /\ (forall e, schedule_due s now = true -> next_occurrence (s_expression s) (Naive now) = Err e ->
        o = (pd, [], Err e))
  /\ (forall next, schedule_due s now = true -> next_occurrence (s_expression s) (Naive now) = Ok next ->
        eff_result o = Ok (Some k)
        /\ (exists n t, s_next_run_at s = Some n /\ triggers (scheduling (eff_db o)) !! k = Some t
              /\ occasion t = (id, s_project_id s, n) /\ st_status t = TriggerStatus.CLAIMED)
        /\ (exists s', schedules (scheduling (eff_db o)) !! id = Some s' /\ s_next_run_at s' = Some next
              /\ s_expression s' = s_expression s)
        /\ now < next
        /\ (forall k', claim_due_schedule (eff_db o) id now k' = (eff_db o, [], Ok None))).
Proof.
  intros Hi Hs Hk o. split_and!.
  - intros Hd. unfold o, claim_due_schedule. rewrite Hs, Hd. by destruct (s_next_run_at s).
  - intros e Hd He. unfold o, claim_due_schedule. rewrite Hs.
    destruct (s_next_run_at s) as [n|] eqn:Hn; [|unfold schedule_due in Hd; by rewrite Hn, andb_false_r in Hd].
    rewrite Hd. cbn zeta. unfold calculate_next. cbn [s_expression s_with_last].
    unfold schedule_due in Hd. rewrite Hn in Hd. apply andb_true_iff in Hd as [_ Hd].
    rewrite Z.max_l, He by lia. done.
  - intros next Hd Hnx.
    destruct (s_next_run_at s) as [n|] eqn:Hn; [|unfold schedule_due in Hd; by rewrite Hn, andb_false_r in Hd].
    pose proof (next_occurrence_later _ _ _ Hnx) as Hlt.
    unfold o. rewrite (claim_due_ok c pd id s n now k next) by done. cbn [eff_db eff_result fst snd].
    split_and!; [done | | | done |].
    + exists n. eexists. split; [done|]. cbn. by rewrite lookup_insert_eq.
    + eexists. cbn. by rewrite lookup_insert_eq.
    + intros k'. unfold claim_due_schedule. cbn. rewrite lookup_insert_eq. cbn.
      unfold schedule_due. cbn. destruct (next <=? now) eqn:Hle; [lia|]. by rewrite andb_false_r.
Qed.


(** Starting the plan of a trigger happens once: when dispatching
    a trigger has answered, dispatching it again answers the same, starts
    nothing and changes nothing. *)
Theorem dispatch_trigger_idempotent c pd k x now t :
  sched_inv c (scheduling pd) ->
  eff_result (dispatch_claimed_trigger pd k x now) = Ok t ->
  let pd' := eff_db (dispatch_claimed_trigger pd k x now) in
  st_status t <> TriggerStatus.CLAIMED
  /\ forall x' now', dispatch_claimed_trigger pd' k x' now' = (pd', [], Ok t).
Proof.
  intros Hi Hres pd'.
  destruct (triggers (scheduling pd) !! k) as [t0|] eqn:Hk.
  2: { unfold dispatch_claimed_trigger in Hres. by rewrite Hk in Hres. }
  assert (sched_inv c (scheduling pd')) as Hi' by exact (rtc_sched_inv _ _ (dispatch_path c pd k x now) Hi).
  assert (triggers (scheduling pd') !! k = Some t /\ st_status t <> TriggerStatus.CLAIMED) as [Hk' Hst].
  { destruct (dispatch_cases pd k t0 x now Hk) as (pd1 & Hown & [(t' & Hdb & Hr & _ & Hst)|[(_ & e & Hr)|(Ho & _ & Hst)]]);
      unfold pd'.
    - rewrite Hr in Hres. simplify_eq. rewrite Hdb, close_trigger_lookup, lookup_insert_eq. done.
    - congruence.
    - rewrite Ho in Hres |- *. cbn in Hres. simplify_eq. done. }
  split; [done|]. intros x' now'. unfold dispatch_claimed_trigger. rewrite Hk'.
  destruct (sv_known _ _ Hi' _ _ Hk') as [s ->]. by rewrite bool_decide_eq_false_2.
Qed.
End theorems.

(** ** A nightly plan *)

Module ScheduleDemo.
Export PlanDemo CalendarWitness.

Definition nightly_write : ScheduleWrite :=
  {| sw_project_id := 1; sw_plan_id := 1; sw_name := u "nightly"; sw_expression := nightly; sw_enabled := true |}.

(** The schedule is saved; the account of its creator does not exist yet. *)
Definition scheduled : PlatformDb := eff_db (create_schedule saved admin 1 nightly_write before_gap).
Definition due_at : Z := 20542 * day_us + 30 * minute_us.

Definition scan_input : ScanInput :=
  {| sc_trigger_id := fun id => "schedule_" +:+ pretty id;
     sc_start := fun _ => start_input "planrun_1" "run_1"; sc_done := due_at |}.

(** The scan fails to start the plan; then the account is created. *)
Definition failed : PlatformDb := eff_db (scan_once scheduled due_at scan_input).
Definition staffed : PlatformDb :=
  let d := core failed in
  with_core failed
    {| db_projects := {| projects := projects (db_projects d); members := members (db_projects d);
                         users := {[ "admin" := true ]} |};
       db_runs := db_runs d; db_runners := db_runners d; db_api_results := db_api_results d;
       db_scenario_results := db_scenario_results d; db_web_results := db_web_results d;
       db_session_profiles := db_session_profiles d; db_resources := db_resources d;
       db_evidence := db_evidence d |}.

Lemma saved_sched_inv : sched_inv before_gap (scheduling saved).
Proof.
  assert (scheduling saved = {| schedules := ∅; triggers := ∅ |}) as -> by (vm_compute; reflexivity).
  split; intros *; cbn; rewrite ?lookup_empty; discriminate.
Qed.

Lemma scheduled_path : rtc sched_step (before_gap, saved) (due_at, scheduled).
Proof.
  eapply rtc_l; [exact (ss_create before_gap saved admin 1 nightly_write)|].
  apply rtc_once. apply ss_tick. vm_compute. discriminate.
Qed.

Lemma scheduled_inv : sched_inv due_at (scheduling scheduled).
Proof. exact (rtc_sched_inv _ _ scheduled_path saved_sched_inv). Qed.


Definition the_schedule : TestSchedule :=
  s_with_next {| s_project_id := 1; s_plan_id := 1; s_name := u "nightly"; s_expression := nightly;
                 s_enabled := true; s_status := LifeStatus.ACTIVE; s_next_run_at := None;
                 s_last_scheduled_at := None; s_last_trigger_status := None; s_last_error_code := None;
                 s_last_error_message := None; s_created_by := "admin" |} (Some due_at).

Lemma the_schedule_saved : schedules (scheduling scheduled) !! 1 = Some the_schedule.
Proof. vm_compute. reflexivity. Qed.

Lemma nothing_triggered k : triggers (scheduling scheduled) !! k = None.
Proof.
  assert (triggers (scheduling scheduled) = ∅) as -> by (vm_compute; reflexivity). apply lookup_empty.
Qed.

Lemma nightly_next : next_occurrence (s_expression the_schedule) (Naive due_at) = Ok (due_at + day_us).
Proof. vm_compute. reflexivity. Qed.

Lemma claim_due_witness :
  eff_result (claim_due_schedule scheduled 1 due_at "schedule_1") = Ok (Some "schedule_1")
  /\ claim_due_schedule (eff_db (claim_due_schedule scheduled 1 due_at "schedule_1")) 1 due_at "schedule_2"
     = (eff_db (claim_due_schedule scheduled 1 due_at "schedule_1"), [], Ok None).
Proof.
  destruct (claim_due_exact due_at scheduled 1 the_schedule due_at "schedule_1" scheduled_inv
              the_schedule_saved (nothing_triggered _)) as (_ & _ & Hok).
  destruct (Hok (due_at + day_us)) as (H1 & _ & _ & _ & H2).
  - vm_compute. reflexivity.
  - exact nightly_next.
  - split; [exact H1 | exact (H2 "schedule_2")].
Defined.

Lemma schedules_only id s : schedules (scheduling scheduled) !! id = Some s -> s = the_schedule.
Proof.
  assert (schedules (scheduling scheduled) = {[ 1 := the_schedule ]}) as -> by (vm_compute; reflexivity).
  intros [_ ->]%lookup_singleton_Some. reflexivity.
Qed.

Lemma scan_ids_inj id id' : sc_trigger_id scan_input id = sc_trigger_id scan_input id' -> id = id'.
Proof. cbn. intros Heq. apply (inj pretty). exact (inj (String.app "schedule_") _ _ Heq). Qed.


(** The trigger that failed while its creator had no account. *)
Definition failed_trigger : ScheduleTrigger :=
  {| st_schedule_id := 1; st_project_id := 1; st_scheduled_for_at := due_at;
     st_status := TriggerStatus.FAILED; st_plan_run_id := None; st_error_code := Some "RESOURCE_CONFLICT";
     st_error_message := Some "定时任务创建人不存在或已停用"; st_completed_at := Some due_at |}.

Definition claimed : PlatformDb := eff_db (claim_due_schedule scheduled 1 due_at "schedule_1").
Lemma claimed_inv : sched_inv due_at (scheduling claimed).
Proof. exact (claim_inv due_at due_at scheduled 1 "schedule_1" (Z.le_refl _) scheduled_inv). Qed.

Lemma dispatch_trigger_witness :
  eff_result (dispatch_claimed_trigger claimed "schedule_1" (start_input "planrun_1" "run_1") due_at)
    = Ok failed_trigger
  /\ let pd := eff_db (dispatch_claimed_trigger claimed "schedule_1" (start_input "planrun_1" "run_1") due_at) in
     dispatch_claimed_trigger pd "schedule_1" (start_input "planrun_2" "run_2") (due_at + day_us)
     = (pd, [], Ok failed_trigger).
Proof.
  assert (eff_result (dispatch_claimed_trigger claimed "schedule_1" (start_input "planrun_1" "run_1") due_at)
          = Ok failed_trigger) as E by (vm_compute; reflexivity).
  split; [exact E|].
  destruct (dispatch_trigger_idempotent due_at claimed "schedule_1" (start_input "planrun_1" "run_1") due_at
              failed_trigger claimed_inv E) as [_ Hagain].
  exact (Hagain (start_input "planrun_2" "run_2") (due_at + day_us)).
Defined.

(** Two users retry at the same time: both checks read the failed row, then the
    first request runs to its end, then the second. *)
Definition first_retry : PlatformDb :=
  eff_db (dispatch_claimed_trigger (retry_write staffed "schedule_1") "schedule_1"
            (start_input "planrun_1" "run_1") due_at).
Definition second_retry : PlatformDb :=
  eff_db (dispatch_claimed_trigger (retry_write first_retry "schedule_1") "schedule_1"
            (start_input "planrun_2" "run_2") due_at).

(** A failed trigger can start its plan twice.  Both of two
    concurrent retries pass the check, which reads the row without a lock; each
    starts a plan run of the schedule, and the trigger keeps the second one
    only.  Serially the second retry is refused. *)
Theorem concurrent_retries_start_twice :
  retry_check staffed admin "schedule_1" = Ok tt
  /\ (tp_schedule_id <$> plan_runs (planning second_retry) !! "planrun_1") = Some (Some 1)
  /\ (tp_schedule_id <$> plan_runs (planning second_retry) !! "planrun_2") = Some (Some 1)
  /\ (st_plan_run_id <$> triggers (scheduling second_retry) !! "schedule_1") = Some (Some "planrun_2")
  /\ eff_result (retry_schedule_trigger first_retry admin "schedule_1" (start_input "planrun_2" "run_2") due_at)
     = Err (ResourceConflictError "只有尚未创建计划 Run 的失败触发可以重试").
Proof. split_and!; vm_compute; reflexivity. Qed.
End ScheduleDemo.
