(* ===== verification/CiAccess.v ===== *)
(** CI access ([ci_cd/service.py], [ci_cd/schemas.py]): tokens for pipelines, plan
    runs triggered with an idempotency key, their status. *)
From S2P Require Import Prelude PyText Projects Calendar RunData RunStatusOps RunControl RunDispatch.
From S2P Require Import RunCreate PlanData Webhooks TestPlans.
Open Scope Z_scope.

Record CiTokenCreate := {
  tc_project_id : Z;
  tc_token_name : pytext;
  tc_expires_in_days : Z;
  tc_allowed_plan_ids : option (list Z);
}.

Record CiRunRequest := { cq_pipeline_ref : option pytext; cq_commit_sha : option pytext }.

Record CiRunStartResponse := {
  cs_plan_run_id : string;
  cs_status : RunStatus.t;
  cs_idempotent_replay : bool;
}.

(** ** Request validation *)

(** [normalize_plan_ids]; [None] stands for a rejected payload. *)
Definition normalize_plan_ids (value : option (list Z)) : option (option (list Z)) :=
  match value with
  | None => Some None
  | Some l => if existsb (fun i => i <=? 0) l then None else Some (Some (sorted (list_to_set l)))
  end.

(** [normalize_optional]. *)
Definition normalize_optional (value : option pytext) : option pytext :=
  match value with
  | Some (c :: v) => match strip (c :: v) with [] => None | w => Some w end
  | _ => None
  end.

Definition hex_digit (c : N) : bool :=
  ((48 <=? c) && (c <=? 57) || (97 <=? c) && (c <=? 102) || (65 <=? c) && (c <=? 70))%N.
Definition hex_lower (c : N) : N := if ((65 <=? c) && (c <=? 70))%N then (c + 32)%N else c.

(** [validate_commit_sha]. *)
Definition validate_commit_sha (value : option pytext) : option (option pytext) :=
  match value with
  | None => Some None
  | Some v =>
      if forallb hex_digit v && (7 <=? Z.of_nat (length v)) && (Z.of_nat (length v) <=? 64)
      then Some (match v with [] => None | _ => Some (hex_lower <$> v) end)
      else None
  end.

Definition validate_ci_run_request (r : CiRunRequest) : option CiRunRequest :=
  sha ← validate_commit_sha (normalize_optional (cq_commit_sha r));
  Some {| cq_pipeline_ref := normalize_optional (cq_pipeline_ref r); cq_commit_sha := sha |}.

Section ci_access.
Context `{Settings} `{Catalog} `{Assets} `{AssetTables} `{UserDirectory}.

(** ** Tokens *)

Definition day_length : Z := 86400 * 1000000.

Definition ct_with (t : CiAccessToken) (s : TokenStatus.t) (used revoked : option datetime) : CiAccessToken :=
  {| ct_project_id := ct_project_id t; ct_name := ct_name t; ct_token_digest := ct_token_digest t;
     ct_allowed_plan_ids := ct_allowed_plan_ids t; ct_status := s; ct_expires_at := ct_expires_at t;
     ct_last_used_at := used; ct_revoked_at := revoked; ct_created_by := ct_created_by t |}.

(** [_actor]. *)
Definition actor (pd : PlatformDb) (uid : string) : result CurrentUser :=
  raise_unless (bool_decide (users (db_projects (core pd)) !! uid = Some true))
    (ResourceConflictError "凭据创建人不存在或已停用");;
  Ok (acting_user uid).

(** [_validate_plan_scope]. *)
Definition validate_plan_scope (pd : PlatformDb) (project_id : Z) (allowed : option (list Z)) : result unit :=
  match allowed with
  | None => Ok tt
  | Some ids =>
      let found := filter (fun i => match plans (planning pd) !! i with
                                    | Some p => bool_decide (pl_project_id p = project_id)
                                    | None => false
                                    end = true) ids in
      raise_unless (bool_decide ((list_to_set found : gset Z) = list_to_set ids))
        (ResourceConflictError "CI Token 包含不属于当前项目的 Test Plan")
  end.

(** The tokens with a digest; the column is unique. *)
Definition tokens_with_digest (pd : PlatformDb) (digest : string) : list (Z * CiAccessToken) :=
  filter (fun p => ct_token_digest p.2 = digest) (map_to_list (tokens (ci pd))).

(** [create_ci_token]; [plaintext] is the generated secret. *)
Definition create_ci_token (pd : PlatformDb) (user : CurrentUser) (new_id : Z) (plaintext : string)
    (payload : CiTokenCreate) (now : datetime) : effect string :=
  transaction pd (
    project ← get_project (db_projects (core pd)) user (tc_project_id payload);
    ensure_project_owner (db_projects (core pd)) (tc_project_id payload) user;;
    raise_if (bool_decide (p_status project = ProjectStatus.ARCHIVED))
      (ResourceConflictError "归档项目不能创建 CI Token");;
    validate_plan_scope pd (tc_project_id payload) (tc_allowed_plan_ids payload);;
    raise_unless (bool_decide (tokens (ci pd) !! new_id = None)
                  && bool_decide (tokens_with_digest pd (digest_secret plaintext) = []))
      (UnexpectedError "IntegrityError");;
    Ok (put_token pd new_id
          {| ct_project_id := tc_project_id payload; ct_name := tc_token_name payload;
             ct_token_digest := digest_secret plaintext;
             ct_allowed_plan_ids := tc_allowed_plan_ids payload; ct_status := TokenStatus.ACTIVE;
             ct_expires_at := now + day_length * tc_expires_in_days payload;
             ct_last_used_at := None; ct_revoked_at := None; ct_created_by := user_id user |},
        plaintext)).

(** A token past its end is marked. *)
Definition expire (now : datetime) (t : CiAccessToken) : CiAccessToken :=
  if bool_decide (ct_status t = TokenStatus.ACTIVE) && (ct_expires_at t <=? now)
  then ct_with t TokenStatus.EXPIRED (ct_last_used_at t) (ct_revoked_at t) else t.

Definition list_ci_tokens (pd : PlatformDb) (user : CurrentUser) (project_id : Z) (now : datetime)
  : effect unit :=
  transaction pd (
    get_project (db_projects (core pd)) user project_id;;
    ensure_project_owner (db_projects (core pd)) project_id user;;
    Ok (with_ci pd {| tokens := (fun t => if decide (ct_project_id t = project_id) then expire now t else t)
                                  <$> tokens (ci pd);
                      invocations := invocations (ci pd) |}, tt)).

Definition revoke_ci_token (pd : PlatformDb) (user : CurrentUser) (token_id : Z) (now : datetime)
  : effect CiAccessToken :=
  transaction pd (
    t ← some_or (tokens (ci pd) !! token_id) (ResourceNotFoundError "CI Token 不存在");
    get_project (db_projects (core pd)) user (ct_project_id t);;
    ensure_project_owner (db_projects (core pd)) (ct_project_id t) user;;
    if decide (ct_status t = TokenStatus.ACTIVE)
    then let t' := ct_with t TokenStatus.REVOKED (ct_last_used_at t) (Some now) in
         Ok (put_token pd token_id t', t')
    else Ok (pd, t)).

Definition invalid_token : app_error := AuthenticationError "CI Token 无效或已失效".

(** [authenticate_ci_token]: the key and the row of the token. *)
Definition authenticate_ci_token (pd : PlatformDb) (plaintext : string) (now : datetime)
  : effect (Z * CiAccessToken) :=
  let len := Z.of_nat (length (u plaintext)) in
  if negb (String.prefix "cit_" plaintext) || negb ((40 <=? len) && (len <=? 64))
  then (pd, [], Err invalid_token)
  else
    match tokens_with_digest pd (digest_secret plaintext) with
    | (id, t) :: _ =>
        if negb (bool_decide (ct_status t = TokenStatus.ACTIVE)) then (pd, [], Err invalid_token)
        else if ct_expires_at t <=? now
        then (put_token pd id (ct_with t TokenStatus.EXPIRED (ct_last_used_at t) (ct_revoked_at t)), [],
              Err invalid_token)
        else let t' := ct_with t (ct_status t) (Some now) (ct_revoked_at t) in
             (put_token pd id t', [], Ok (id, t'))
    | [] => (pd, [], Err invalid_token)
    end.

(** ** Triggering a plan *)

(** [_ensure_ci_plan_allowed]. *)
Definition ensure_ci_plan_allowed (t : CiAccessToken) (plan_id : Z) : result unit :=
  raise_unless (match ct_allowed_plan_ids t with
                | Some ids => bool_decide (plan_id ∈ ids)
                | None => true
                end) (AuthenticationError "CI Token 无权访问该 Test Plan").

Definition idempotency_digest (key : string) : string := digest_secret ("ci-idempotency:" +:+ key).

(** The invocation of a token with a digest; the pair is unique. *)
Definition find_invocation (pd : PlatformDb) (token_id : Z) (digest : string)
  : option (string * CiRunInvocation) :=
  head (filter (fun p => ci_token_id p.2 = token_id /\ ci_idempotency_digest p.2 = digest)
          (map_to_list (invocations (ci pd)))).

Definition ci_with (i : CiRunInvocation) (s : InvocationStatus.t) (plan_run_id code message : option string)
    (completed : option datetime) : CiRunInvocation :=
  {| ci_token_id := ci_token_id i; ci_project_id := ci_project_id i; ci_plan_id := ci_plan_id i;
     ci_idempotency_digest := ci_idempotency_digest i; ci_pipeline_ref := ci_pipeline_ref i;
     ci_commit_sha := ci_commit_sha i; ci_status := s; ci_plan_run_id := plan_run_id;
     ci_error_code := code; ci_error_message := message; ci_completed_at := completed |}.

(** The row [trigger_ci_plan] inserts. *)
Definition new_invocation (token_id : Z) (t : CiAccessToken) (plan_id : Z) (key : string)
    (payload : CiRunRequest) : CiRunInvocation :=
  {| ci_token_id := token_id; ci_project_id := ct_project_id t; ci_plan_id := plan_id;
     ci_idempotency_digest := idempotency_digest key; ci_pipeline_ref := cq_pipeline_ref payload;
     ci_commit_sha := cq_commit_sha payload; ci_status := InvocationStatus.STARTING;
     ci_plan_run_id := None; ci_error_code := None; ci_error_message := None; ci_completed_at := None |}.

(** The answer when the key was used before. *)
Definition replay (pd : PlatformDb) (existing : option CiRunInvocation) (plan_id : Z) (payload : CiRunRequest)
  : result CiRunStartResponse :=
  match existing with
  | Some i =>
      raise_if (negb (bool_decide (ci_plan_id i = plan_id))
                || negb (bool_decide (ci_pipeline_ref i = cq_pipeline_ref payload))
                || negb (bool_decide (ci_commit_sha i = cq_commit_sha payload)))
        (ResourceConflictError "相同 Idempotency-Key 已用于不同的 CI 触发请求");;
      match ci_status i, ci_plan_run_id i with
      | InvocationStatus.STARTED, Some k =>
          Ok {| cs_plan_run_id := k;
                cs_status := match plan_runs (planning pd) !! k with
                             | Some r => tp_status r
                             | None => RunStatus.CREATED
                             end;
                cs_idempotent_replay := true |}
      | _, _ => Err (ResourceConflictError "相同 Idempotency-Key 的触发仍在处理或已经失败")
      end
  | None => Err (ResourceConflictError "相同 Idempotency-Key 的触发仍在处理或已经失败")
  end.

(** The end of [trigger_ci_plan]: the invocation is read again and closed. *)
Definition close_invocation (pd : PlatformDb) (id : string) (f : CiRunInvocation -> CiRunInvocation)
  : PlatformDb :=
  match invocations (ci pd) !! id with
  | Some i => put_invocation pd id (f i)
  | None => pd
  end.

(** What the surroundings contribute: the generated key, the start of the plan,
    the clock at the end. *)
Record TriggerInput := { ti_invocation_id : string; ti_start : StartInput; ti_done : datetime }.

Definition trigger_ci_plan (pd : PlatformDb) (token_id : Z) (t : CiAccessToken) (plan_id : Z) (key : string)
    (payload : CiRunRequest) (x : TriggerInput) : effect CiRunStartResponse :=
  match (ensure_ci_plan_allowed t plan_id;;
         raise_unless (match plans (planning pd) !! plan_id with
                       | Some p => bool_decide (pl_project_id p = ct_project_id t)
                       | None => false
                       end) (ResourceNotFoundError "Test Plan 不存在")) with
  | Err e => (pd, [], Err e)
  | Ok _ =>
      let existing := find_invocation pd token_id (idempotency_digest key) in
      if bool_decide (is_Some existing) || bool_decide (is_Some (invocations (ci pd) !! ti_invocation_id x))
      then (pd, [], replay pd (snd <$> existing) plan_id payload)
      else
        let id := ti_invocation_id x in
        let pd1 := put_invocation pd id (new_invocation token_id t plan_id key payload) in
        let '(pd2, evs, r) :=
          match actor pd1 (ct_created_by t) with
          | Err e => (pd1, [], Err e)
          | Ok user => start_test_plan_run pd1 user plan_id API None (ti_start x)
          end in
        match r with
        | Ok run =>
            (close_invocation pd2 id (fun i =>
               ci_with i InvocationStatus.STARTED (Some (tp_id run)) (ci_error_code i) (ci_error_message i)
                 (Some (ti_done x))), evs,
             Ok {| cs_plan_run_id := tp_id run; cs_status := tp_status run; cs_idempotent_replay := false |})
        | Err e =>
            if is_app_error e
            then (close_invocation pd2 id (fun i =>
                    ci_with i InvocationStatus.FAILED (ci_plan_run_id i) (Some (error_code e))
                      (Some (error_message e)) (Some (ti_done x))), evs, Err e)
            else (pd2, evs, Err e)
        end
  end.

(** ** Reading the state of a plan run *)

Definition get_ci_plan_run_status (pd : PlatformDb) (t : CiAccessToken) (plan_run_id : string)
    (now : datetime) (new_id : Z -> string) : effect (string * TestPlanRun) :=
  match head (filter (fun p => ci_project_id p.2 = ct_project_id t /\ ci_plan_run_id p.2 = Some plan_run_id
                               /\ ci_status p.2 = InvocationStatus.STARTED)
                (map_to_list (invocations (ci pd)))) with
  | None => (pd, [], Err (ResourceNotFoundError "CI Test Plan Run 不存在"))
  | Some (id, i) =>
      match (ensure_ci_plan_allowed t (ci_plan_id i);; actor pd (ct_created_by t)) with
      | Err e => (pd, [], Err e)
      | Ok user =>
          let '(pd', evs, r) := get_test_plan_run pd user plan_run_id now new_id in
          (pd', evs, (fun run => (id, run)) <$> r)
      end
  end.

End ci_access.
