(* ===== verification/CiTheorems.v ===== *)
(** CI access as a transition system: an idempotency key starts at most one plan
    run, a token that is no longer active stays so. *)
From S2P Require Import Prelude PyText Projects Calendar RunData RunStatusOps RunControl RunDispatch.
From S2P Require Import RunCreate RunExecution RunInvariant RunHandlers RunSystem RunExample.
From S2P Require Import PlanData Webhooks TestPlans PlanSystem PlanTheorems CiAccess.
Open Scope Z_scope.

(** ** Invariant and contract *)

Record ci_inv (t : CiTables) : Prop := {
  cv_digests : forall i i' a a', tokens t !! i = Some a -> tokens t !! i' = Some a' ->
    ct_token_digest a = ct_token_digest a' -> i = i';
  cv_keys : forall i i' a a', invocations t !! i = Some a -> invocations t !! i' = Some a' ->
    ci_token_id a = ci_token_id a' -> ci_idempotency_digest a = ci_idempotency_digest a' -> i = i';
  cv_started : forall i a, invocations t !! i = Some a ->
    ci_status a = InvocationStatus.STARTED <-> is_Some (ci_plan_run_id a);
}.

(** What an invocation asked for. *)
Definition request_of (i : CiRunInvocation) : Z * Z * Z * string * option pytext * option pytext :=
  (ci_token_id i, ci_project_id i, ci_plan_id i, ci_idempotency_digest i, ci_pipeline_ref i, ci_commit_sha i).
(** What a token grants. *)
Definition grant_of (t : CiAccessToken) : Z * string * option (list Z) * datetime * string :=
  (ct_project_id t, ct_token_digest t, ct_allowed_plan_ids t, ct_expires_at t, ct_created_by t).

Record ci_evolves (t t' : CiTables) : Prop := {
  ce_tokens : forall i a, tokens t !! i = Some a ->
    exists a', tokens t' !! i = Some a' /\ grant_of a' = grant_of a
      /\ (ct_status a <> TokenStatus.ACTIVE -> ct_status a' = ct_status a);
  ce_invocations : forall i a, invocations t !! i = Some a ->
    exists a', invocations t' !! i = Some a' /\ request_of a' = request_of a
      /\ (ci_status a <> InvocationStatus.STARTING -> a' = a);
}.

#[export] Instance ci_evolves_preorder : PreOrder ci_evolves.
Proof.
  split; [split; eauto|]. intros x y z [T1 I1] [T2 I2]. split.
  - intros i a Ha. destruct (T1 i a Ha) as (b & Hb & Hg & Hs). destruct (T2 i b Hb) as (c & Hc & Hg' & Hs').
    exists c. split_and!; [done | congruence |]. intros Hn. rewrite Hs'; [by apply Hs | by rewrite Hs].
  - intros i a Ha. destruct (I1 i a Ha) as (b & Hb & Hg & Hs). destruct (I2 i b Hb) as (c & Hc & Hg' & Hs').
    exists c. split_and!; [done | congruence |]. intros Hn. specialize (Hs Hn) as ->. by apply Hs'.
Qed.

Definition ci_ok_step (t t' : CiTables) : Prop := ci_inv t' /\ ci_evolves t t'.

(** Token rows are replaced by rows with the same grant. *)
Definition token_kept (a a' : CiAccessToken) : Prop :=
  grant_of a' = grant_of a /\ (ct_status a <> TokenStatus.ACTIVE -> ct_status a' = ct_status a).

Lemma tokens_ok t m :
  ci_inv t -> (forall i a', m !! i = Some a' -> exists a, tokens t !! i = Some a /\ token_kept a a') ->
  (forall i, is_Some (tokens t !! i) -> is_Some (m !! i)) ->
  ci_ok_step t {| tokens := m; invocations := invocations t |}.
Proof.
  intros Hi Hback Hdom. split; split; cbn; try apply Hi.
  - intros i i' b b' Hb Hb' Heq. destruct (Hback _ _ Hb) as (a & Ha & [Hg _]).
    destruct (Hback _ _ Hb') as (a' & Ha' & [Hg' _]). unfold grant_of in *. simplify_eq.
    eapply (cv_digests _ Hi); eauto; congruence.
  - intros i a Ha. destruct (Hdom i) as [a' Ha']; [by eexists|].
    destruct (Hback _ _ Ha') as (a0 & Ha0 & Hk). rewrite Ha in Ha0. injection Ha0 as <-.
    exists a'. split; [done | exact Hk].
  - eauto.
Qed.

Lemma put_token_ok t id a a' :
  ci_inv t -> tokens t !! id = Some a -> token_kept a a' ->
  ci_ok_step t {| tokens := <[id := a']> (tokens t); invocations := invocations t |}.
Proof.
  intros Hi Ha Hk. apply tokens_ok; [done | |].
  - intros i b [[<- <-]|[_ Hb]]%lookup_insert_Some; [by eauto|]. exists b. split; [done|]. by split.
  - intros i Hb. apply lookup_insert_is_Some'. by right.
Qed.

Lemma elem_head {A} (l : list A) x : head l = Some x -> x ∈ l.
Proof. destruct l; cbn; [done|]. intros [= ->]. by left. Qed.

Section system.
Context `{Settings} `{Catalog} `{Assets} `{AssetTables} `{UserDirectory}.

Lemma find_invocation_spec pd token_id digest :
  match find_invocation pd token_id digest with
  | Some (id, i) => invocations (ci pd) !! id = Some i /\ ci_token_id i = token_id
                    /\ ci_idempotency_digest i = digest
  | None => forall id i, invocations (ci pd) !! id = Some i -> ci_token_id i = token_id ->
              ci_idempotency_digest i = digest -> False
  end.
Proof.
  unfold find_invocation. set (l := filter _ _). destruct (head l) as [[id i]|] eqn:Hh.
  - apply elem_head, list_elem_of_filter in Hh as [[Ht Hd] Hin]. by apply elem_of_map_to_list in Hin.
  - intros id i Hi Ht Hd. assert ((id, i) ∈ l) as Hin.
    { apply list_elem_of_filter. split; [done|]. by apply elem_of_map_to_list. }
    destruct l; [by apply not_elem_of_nil in Hin | done].
Qed.

Lemma tokens_with_digest_spec pd digest id t :
  (id, t) ∈ tokens_with_digest pd digest <-> tokens (ci pd) !! id = Some t /\ ct_token_digest t = digest.
Proof.
  unfold tokens_with_digest. rewrite list_elem_of_filter, elem_of_map_to_list. naive_solver.
Qed.

(** ** Steps *)

Inductive ci_step (pd : PlatformDb) : PlatformDb -> Prop :=
| ct_other pd' : ci pd' = ci pd -> ci_step pd pd'
| ct_create user id secret payload now : ci_step pd (eff_db (create_ci_token pd user id secret payload now))
| ct_list user project_id now : ci_step pd (eff_db (list_ci_tokens pd user project_id now))
| ct_revoke user id now : ci_step pd (eff_db (revoke_ci_token pd user id now))
| ct_authenticate secret now : ci_step pd (eff_db (authenticate_ci_token pd secret now))
| ct_open id token_id t plan_id key payload :
    find_invocation pd token_id (idempotency_digest key) = None -> invocations (ci pd) !! id = None ->
    ci_step pd (put_invocation pd id (new_invocation token_id t plan_id key payload))
| ct_close id i s k code message at_ :
    invocations (ci pd) !! id = Some i -> ci_status i = InvocationStatus.STARTING ->
    (s = InvocationStatus.STARTED /\ is_Some k \/ s = InvocationStatus.FAILED /\ k = None) ->
    ci_step pd (put_invocation pd id (ci_with i s k code message at_)).

Lemma ci_same t : ci_inv t -> ci_ok_step t t.
Proof. by split. Qed.

Lemma transaction_ci {A} pd (body : result (PlatformDb * A)) :
  ci_inv (ci pd) -> (forall pd' a, body = Ok (pd', a) -> ci_ok_step (ci pd) (ci pd')) ->
  ci_ok_step (ci pd) (ci (eff_db (transaction pd body))).
Proof. intros Hi Hb. destruct body as [[pd' a]|e]; [by eapply Hb | by apply ci_same]. Qed.

Lemma create_token_ok pd user id secret payload now :
  ci_inv (ci pd) -> ci_ok_step (ci pd) (ci (eff_db (create_ci_token pd user id secret payload now))).
Proof.
  intros Hi. apply transaction_ci; [done|]. intros pd' secret' E. inv_ok. rename secret' into secret.
  apply andb_true_iff in G0 as [Hid%bool_decide_eq_true Hdig%bool_decide_eq_true].
  assert (forall i t, tokens (ci pd) !! i = Some t -> ct_token_digest t <> digest_secret secret) as Hnew.
  { intros i t Ht Heq. assert ((i, t) ∈ tokens_with_digest pd (digest_secret secret)) as Hin
      by by apply tokens_with_digest_spec. rewrite Hdig in Hin. by apply not_elem_of_nil in Hin. }
  split; split; cbn; try apply Hi.
  - intros i i' b b' [[<- <-]|[Hne Hb]]%lookup_insert_Some [[<- <-]|[Hne' Hb']]%lookup_insert_Some Heq; cbn in *.
    + done.
    + by destruct (Hnew _ _ Hb').
    + by destruct (Hnew _ _ Hb).
    + by eapply (cv_digests _ Hi).
  - intros i b Hb. rewrite lookup_insert_ne by congruence. by eauto.
  - eauto.
Qed.

Lemma expire_kept now t : token_kept t (expire now t).
Proof. unfold expire. destruct (bool_decide _) eqn:Hs; [|by split]. apply bool_decide_eq_true in Hs.
  cbn. by case_match. Qed.

Lemma list_tokens_ok pd user project_id now :
  ci_inv (ci pd) -> ci_ok_step (ci pd) (ci (eff_db (list_ci_tokens pd user project_id now))).
Proof.
  intros Hi. apply transaction_ci; [done|]. intros pd' a E. inv_ok. simplify_eq. apply tokens_ok; [done | |].
  - intros i t'. rewrite lookup_fmap, fmap_Some. intros (t & Ht & ->). exists t. split; [done|].
    case_decide; [apply expire_kept | by split].
  - intros i [t Ht]. by rewrite lookup_fmap, Ht.
Qed.

Lemma revoke_token_ok pd user id now :
  ci_inv (ci pd) -> ci_ok_step (ci pd) (ci (eff_db (revoke_ci_token pd user id now))).
Proof.
  intros Hi. apply transaction_ci; [done|]. intros pd' a E. inv_ok. case_decide; inv_ok; simplify_eq.
  - by eapply put_token_ok.
  - by apply ci_same.
Qed.

Lemma authenticate_ok pd secret now :
  ci_inv (ci pd) -> ci_ok_step (ci pd) (ci (eff_db (authenticate_ci_token pd secret now))).
Proof.
  intros Hi. unfold authenticate_ci_token. destruct (_ || _); [by apply ci_same|].
  destruct (tokens_with_digest _ _) as [|[id t] l] eqn:Hl; [by apply ci_same|].
  assert (tokens (ci pd) !! id = Some t) as Ht.
  { eapply tokens_with_digest_spec. rewrite Hl. by left. }
  destruct (bool_decide (ct_status t = _)) eqn:Hst; cbn [negb]; [|by apply ci_same].
  apply bool_decide_eq_true in Hst. destruct (_ <=? _); cbn; by eapply put_token_ok.
Qed.

Lemma open_ok pd id token_id t plan_id key payload :
  ci_inv (ci pd) -> find_invocation pd token_id (idempotency_digest key) = None ->
  invocations (ci pd) !! id = None ->
  ci_ok_step (ci pd) (ci (put_invocation pd id (new_invocation token_id t plan_id key payload))).
Proof.
  intros Hi Hf Hid. pose proof (find_invocation_spec pd token_id (idempotency_digest key)) as Hnew.
  rewrite Hf in Hnew. split; split; cbn; try apply Hi.
  - intros i i' b b' [[<- <-]|[Hne Hb]]%lookup_insert_Some [[<- <-]|[Hne' Hb']]%lookup_insert_Some Htk Hd;
      cbn in *; [done | | | by eapply (cv_keys _ Hi)].
    + destruct (Hnew _ _ Hb'); congruence.
    + destruct (Hnew _ _ Hb); congruence.
  - intros i b [[<- <-]|[Hne Hb]]%lookup_insert_Some; cbn; [|by eapply cv_started].
    split; [done | by intros [? ?]].
  - eauto.
  - intros i b Hb. rewrite lookup_insert_ne by congruence. by eauto.
Qed.

Lemma close_ok pd id i s k code message at_ :
  ci_inv (ci pd) -> invocations (ci pd) !! id = Some i -> ci_status i = InvocationStatus.STARTING ->
  (s = InvocationStatus.STARTED /\ is_Some k \/ s = InvocationStatus.FAILED /\ k = None) ->
  ci_ok_step (ci pd) (ci (put_invocation pd id (ci_with i s k code message at_))).
Proof.
  intros Hi Hid Hst Hs. split; split; cbn; try apply Hi.
  - intros j j' b b' [[<- <-]|[Hne Hb]]%lookup_insert_Some [[<- <-]|[Hne' Hb']]%lookup_insert_Some Htk Hd;
      cbn in *; [done | | | by eapply (cv_keys _ Hi)]; eapply (cv_keys _ Hi); eauto.
  - intros j b [[<- <-]|[Hne Hb]]%lookup_insert_Some; cbn; [|by eapply cv_started].
    destruct Hs as [[-> Hk]|[-> ->]]; [done|]. split; [done | by intros [? ?]].
  - eauto.
  - intros j b Hb. destruct (decide (id = j)) as [<-|Hne].
    + rewrite lookup_insert_eq. simplify_eq. eexists. split; [done|]. split; [done|]. by rewrite Hst.
    + rewrite lookup_insert_ne by done. eauto.
Qed.

Lemma ci_step_ok pd pd' : ci_inv (ci pd) -> ci_step pd pd' -> ci_ok_step (ci pd) (ci pd').
Proof.
  intros Hi []; auto using create_token_ok, list_tokens_ok, revoke_token_ok, authenticate_ok, open_ok, close_ok.
  match goal with E : ci _ = ci _ |- _ => rewrite E end. by apply ci_same.
Qed.

Lemma ci_steps_ok pd pd' : ci_inv (ci pd) -> rtc ci_step pd pd' -> ci_ok_step (ci pd) (ci pd').
Proof.
  intros Hi Hs. induction Hs as [pd|pd pd1 pd2 Hstep _ IH]; [by apply ci_same|].
  destruct (ci_step_ok _ _ Hi Hstep) as [Hi1 He1]. destruct (IH Hi1) as [Hi2 He2].
  split; [done | by etrans].
Qed.

(** ** Triggering *)

Lemma start_run_fields pd user plan_id tr sid x run :
  eff_result (start_test_plan_run pd user plan_id tr sid x) = Ok run ->
  tp_id run = si_plan_run_id x
  /\ plan_runs (planning (eff_db (start_test_plan_run pd user plan_id tr sid x))) !! tp_id run = Some run
  /\ tp_trigger run = tr /\ tp_created_by run = user_id user
  /\ exists plan, plans (planning pd) !! plan_id = Some plan /\ tp_project_id run = pl_project_id plan.
Proof.
  unfold start_test_plan_run. destruct (start_open _ _ _ _ _ _ _ _ _) as [[[pd1 plan] run0]|e] eqn:Ho; [|done].
  unfold start_open in Ho. inv_ok. unfold load_plan in *. inv_ok.
  match goal with |- context [put_plan_run pd ?r] => set (run0 := r) end.
  assert (plan_runs (planning (put_plan_run pd run0)) !! tp_id run0 = Some run0) as Hr
    by (cbn; by rewrite lookup_insert_eq).
  destruct (start_items _ _ _ _ _ _) as [[pd2 evs] [[]|e]] eqn:Hs; [|done].
  apply start_items_rows in Hs as (g & Hg & _); [|done].
  unfold load_plan_run. rewrite Hg. cbn [some_or mbind result_bind].
  match goal with |- context [get_project ?a ?b ?c] => destruct (get_project a b c) end;
    cbn [mbind result_bind]; [|done].
  unfold refresh_plan_run. match goal with |- context [refreshed ?d ?r ?n] => set (r3 := refreshed d r n) end.
  destruct (forallb _ _); cbn [eff_db eff_result fst snd]; intros [= <-]; split_and!; try done.
  1, 3: cbn; by rewrite lookup_insert_eq.
  all: by eexists.
Qed.

(** The three ways a trigger can go. *)
Lemma trigger_cases pd token_id t plan_id key payload x :
  let o := trigger_ci_plan pd token_id t plan_id key payload x in
  (exists e, o = (pd, [], Err e))
  \/ (o = (pd, [], replay pd (snd <$> find_invocation pd token_id (idempotency_digest key)) plan_id payload))
  \/ (find_invocation pd token_id (idempotency_digest key) = None
      /\ invocations (ci pd) !! ti_invocation_id x = None /\ is_ok (ensure_ci_plan_allowed t plan_id) = true
      /\ (pl_project_id <$> plans (planning pd) !! plan_id) = Some (ct_project_id t)
      /\ let i := new_invocation token_id t plan_id key payload in
         exists pd2, ci pd2 = ci (put_invocation pd (ti_invocation_id x) i) /\
         ((eff_db o = pd2 /\ exists e, eff_result o = Err e)
          \/ (exists code message at_,
                eff_db o = put_invocation pd2 (ti_invocation_id x)
                             (ci_with i InvocationStatus.FAILED None code message at_)
                /\ exists e, eff_result o = Err e)
          \/ (exists run code message at_,
                eff_db o = put_invocation pd2 (ti_invocation_id x)
                             (ci_with i InvocationStatus.STARTED (Some (tp_id run)) code message at_)
                /\ eff_result o = Ok {| cs_plan_run_id := tp_id run; cs_status := tp_status run;
                                        cs_idempotent_replay := false |}
                /\ plan_runs (planning (eff_db o)) !! tp_id run = Some run
                /\ tp_project_id run = ct_project_id t /\ tp_trigger run = API
                /\ tp_created_by run = ct_created_by t))).
Proof.
  cbn zeta. unfold trigger_ci_plan.
  destruct (ensure_ci_plan_allowed t plan_id) as [[]|e]; cbn [mbind result_bind]; [|left; by eexists].
  destruct (plans (planning pd) !! plan_id) as [p|] eqn:Hp; cbn [raise_unless]; [|left; by eexists].
  destruct (bool_decide (pl_project_id p = _)) eqn:Hproj; cbn [raise_unless]; [|left; by eexists].
  apply bool_decide_eq_true in Hproj. right.
  destruct (find_invocation _ _ _) as [[k i]|] eqn:Hf; [by left|]. rewrite bool_decide_eq_false_2 by by intros [? ?].
  destruct (bool_decide _) eqn:Hid; cbn [orb]; [by left|]. right.
  apply bool_decide_eq_false, eq_None_not_Some in Hid.
  split_and!; [done | done | done | cbn; by rewrite Hproj |].
  set (i := new_invocation _ _ _ _ _). set (pd1 := put_invocation pd _ i).
  destruct (actor pd1 (ct_created_by t)) as [user|e] eqn:Hactor.
  - pose proof (start_plan_own pd1 user plan_id API None (ti_start x)) as Hown. apply (f_equal snd) in Hown.
    pose proof (start_run_fields pd1 user plan_id API None (ti_start x)) as Hfields.
    destruct (start_test_plan_run _ _ _ _ _ _) as [[pd2 evs] r]. cbn in Hown, Hfields. exists pd2.
    split; [exact Hown|].
    assert (invocations (ci pd2) !! ti_invocation_id x = Some i) as Hi
      by (rewrite Hown; cbn; by rewrite lookup_insert_eq).
    destruct r as [run|e].
    + right; right. unfold close_invocation. rewrite Hi.
      destruct (Hfields run eq_refl) as (_ & Hrun & Htr & Hby & plan & Hplan & Hpp).
      rewrite Hp in Hplan. simplify_eq. unfold actor in Hactor. inv_ok.
      exists run. do 3 eexists. split_and!; try done. by rewrite Hpp.
    + destruct (is_app_error e); [right; left | left]; cbn.
      * unfold close_invocation. rewrite Hi. do 3 eexists. split; [done | by eexists].
      * split; [done | by eexists].
  - exists pd1. split; [done|].
    destruct (is_app_error e); [right; left | left]; cbn.
    + unfold close_invocation. cbn. rewrite lookup_insert_eq. do 3 eexists. split; [done | by eexists].
    + split; [done | by eexists].
Qed.

Lemma trigger_path pd token_id t plan_id key payload x :
  rtc ci_step pd (eff_db (trigger_ci_plan pd token_id t plan_id key payload x)).
Proof.
  destruct (trigger_cases pd token_id t plan_id key payload x)
    as [(e & ->)|[->|(Hf & Hid & _ & _ & pd2 & Hci & Hcase)]]; [done | done |].
  eapply rtc_l; [by apply (ct_open pd (ti_invocation_id x) token_id t plan_id key payload)|].
  eapply rtc_l; [by apply (ct_other _ pd2)|].
  assert (invocations (ci pd2) !! ti_invocation_id x = Some (new_invocation token_id t plan_id key payload))
    as Hi by (rewrite Hci; cbn; by rewrite lookup_insert_eq).
  destruct Hcase as [(-> & _)|[(c & m & a & -> & _)|(run & c & m & a & -> & _)]]; [done | |];
    apply rtc_once, ct_close; try done; [by right | left; split; [done | by eexists]].
Qed.

(** A key that has an invocation starts nothing any more. *)
Lemma used_key_replays pd token_id key id i t plan_id payload x :
  ci_inv (ci pd) -> invocations (ci pd) !! id = Some i ->
  ci_token_id i = token_id -> ci_idempotency_digest i = idempotency_digest key ->
  find_invocation pd token_id (idempotency_digest key) = Some (id, i)
  /\ let o := trigger_ci_plan pd token_id t plan_id key payload x in
     (exists e, o = (pd, [], Err e)) \/ o = (pd, [], replay pd (Some i) plan_id payload).
Proof.
  intros Hinv Hi Ht Hd. pose proof (find_invocation_spec pd token_id (idempotency_digest key)) as Hspec.
  destruct (find_invocation pd token_id (idempotency_digest key)) as [[id' i']|] eqn:Hf;
    [|by destruct (Hspec id i)].
  destruct Hspec as (Hi' & Ht' & Hd'). assert (id' = id) as -> by (eapply (cv_keys _ Hinv); eauto; congruence).
  simplify_eq. split; [done|].
  destruct (trigger_cases pd (ci_token_id i) t plan_id key payload x) as [?|[Ho|(Hf' & _)]];
    [by left | right; by rewrite Hf in Ho | congruence].
Qed.

(** The row behind an answer. *)
Lemma answered_row pd token_id t plan_id key payload x resp id i :
  let o := trigger_ci_plan pd token_id t plan_id key payload x in
  ci_inv (ci pd) -> eff_result o = Ok resp ->
  find_invocation (eff_db o) token_id (idempotency_digest key) = Some (id, i) ->
  ci_status i = InvocationStatus.STARTED /\ ci_plan_run_id i = Some (cs_plan_run_id resp)
  /\ ci_plan_id i = plan_id /\ ci_pipeline_ref i = cq_pipeline_ref payload
  /\ ci_commit_sha i = cq_commit_sha payload.
Proof.
  intros o Hi Hresp Hf.
  pose proof (find_invocation_spec (eff_db o) token_id (idempotency_digest key)) as Hspec.
  rewrite Hf in Hspec. destruct Hspec as (Hrow & Htk & Hdg).
  destruct (ci_steps_ok _ _ Hi (trigger_path pd token_id t plan_id key payload x)) as [Hi1 _]. fold o in Hi1.
  destruct (trigger_cases pd token_id t plan_id key payload x)
    as [(e & Ho)|[Ho|(_ & _ & _ & _ & pd2 & Hci & [(_ & e & Ho)|[(? & ? & ? & _ & e & Ho)|Hcase]])]];
    fold o in Ho || fold o in Hcase; try (rewrite Ho in Hresp; discriminate Hresp).
  - rewrite Ho in Hresp, Hf. cbn in Hresp, Hf. rewrite Hf in Hresp. cbn in Hresp. unfold replay in Hresp.
    inv_ok. destruct (ci_status i), (ci_plan_run_id i); inv_ok. cbn.
    apply orb_false_iff in G as [[G1 G2]%orb_false_iff G3].
    rewrite !negb_false_iff, !bool_decide_eq_true in *. done.
  - destruct Hcase as (run & c & m & a & Hdb & Ho & _). rewrite Ho in Hresp. inv_ok.
    rewrite Hdb in Hrow, Hi1. cbn in Hrow, Hi1.
    assert (id = ti_invocation_id x) as ->.
    { eapply (cv_keys _ Hi1); cbn; [exact Hrow | by rewrite lookup_insert_eq | done | done]. }
    rewrite lookup_insert_eq in Hrow. injection Hrow as <-. done.
Qed.
End system.

Section theorems.
Context `{Settings} `{Catalog} `{Assets} `{AssetTables} `{UserDirectory}.

(** C36: An idempotency key of a token starts at most one plan run.
    After a request with the key was accepted, and whatever else happens in
    between, no later request of the token with that key starts or changes
    anything; if it is answered with a plan run it is the first one, marked as a
    replay, and a repetition of the same request by a token with access to the
    plan is answered so.  A first request that failed is not repeated either. *)
Theorem ci_key_starts_once pd token_id t plan_id key payload x pd' :
  let o := trigger_ci_plan pd token_id t plan_id key payload x in
  ci_inv (ci pd) -> rtc ci_step (eff_db o) pd' ->
  is_Some (find_invocation (eff_db o) token_id (idempotency_digest key)) ->
  forall t' plan' payload' x',
    let o' := trigger_ci_plan pd' token_id t' plan' key payload' x' in
    o'.1 = (pd', [])
    /\ (forall resp, eff_result o = Ok resp ->
          (forall resp', eff_result o' = Ok resp' ->
             cs_plan_run_id resp' = cs_plan_run_id resp /\ cs_idempotent_replay resp' = true)
          /\ (is_ok (ensure_ci_plan_allowed t' plan') = true ->
              (pl_project_id <$> plans (planning pd') !! plan') = Some (ct_project_id t') ->
              plan' = plan_id -> payload' = payload -> is_ok (eff_result o') = true)).
Proof.
  intros o Hi Hs [[id i] Hf] t' plan' payload' x' o'.
  pose proof (find_invocation_spec (eff_db o) token_id (idempotency_digest key)) as Hspec.
  rewrite Hf in Hspec. destruct Hspec as (Hrow & Htk & Hdg).
  destruct (ci_steps_ok _ _ Hi (trigger_path pd token_id t plan_id key payload x)) as [Hi1 _]. fold o in Hi1.
  destruct (ci_steps_ok _ _ Hi1 Hs) as [Hi2 [_ Hev]].
  destruct (Hev id i Hrow) as (i' & Hrow' & Hreq & Hfinal).
  assert (ci_token_id i' = token_id /\ ci_idempotency_digest i' = idempotency_digest key) as [Htk' Hdg'].
  { unfold request_of in Hreq. split; congruence. }
  destruct (used_key_replays pd' token_id key id i' t' plan' payload' x' Hi2 Hrow' Htk' Hdg') as [Hf' Ho'].
  fold o' in Ho'. split; [destruct Ho' as [(e & ->)| ->]; done|].
  intros resp Hresp.
  destruct (answered_row pd token_id t plan_id key payload x resp id i Hi Hresp Hf)
    as (Hst & Hk & Hp & Hpr & Hsha).
  assert (i' = i) as -> by (apply Hfinal; by rewrite Hst).
  split.
  - intros resp' Hr'. destruct Ho' as [(e & Ho')|Ho']; rewrite Ho' in Hr'; cbn in Hr'; [done|].
    unfold replay in Hr'. inv_ok. rewrite Hst, Hk in *. by inv_ok.
  - intros Hallow Hplan -> ->. unfold o', trigger_ci_plan.
    destruct (ensure_ci_plan_allowed t' plan_id) as [[]|e]; [|done]. cbn [mbind result_bind].
    destruct (plans (planning pd') !! plan_id) as [p|]; [|done]. cbn in Hplan. injection Hplan as Hplan.
    rewrite bool_decide_eq_true_2 by done. cbn [raise_unless]. rewrite Hf'.
    rewrite (bool_decide_eq_true_2 (is_Some (Some _))) by done. cbn [orb eff_result snd fmap option_fmap option_map].
    unfold replay. by rewrite !bool_decide_eq_true_2, Hst, Hk.
Qed.

(** A token gives access while it is active, has not reached its
    end, and only to the plans in its scope.  Authentication succeeds for the
    secret of an active token before its end and for no other; once a token has
    been revoked or found expired its secret is refused for ever; a plan run
    started with a token belongs to the token's project, to a plan the token may
    start, and to the account that created the token. *)
Theorem ci_token_access pd secret now :
  ci_inv (ci pd) ->
  (forall id t', eff_result (authenticate_ci_token pd secret now) = Ok (id, t') ->
     exists t, tokens (ci pd) !! id = Some t /\ ct_token_digest t = digest_secret secret
       /\ grant_of t' = grant_of t /\ ct_status t = TokenStatus.ACTIVE /\ now < ct_expires_at t)
  /\ (forall id t pd' later, tokens (ci pd) !! id = Some t -> ct_token_digest t = digest_secret secret ->
        ct_status t <> TokenStatus.ACTIVE \/ ct_expires_at t <= later -> rtc ci_step pd pd' ->
        eff_result (authenticate_ci_token pd' secret later) = Err invalid_token)
  /\ (forall token_id t plan_id key payload x resp,
        eff_result (trigger_ci_plan pd token_id t plan_id key payload x) = Ok resp ->
        cs_idempotent_replay resp = false ->
        is_ok (ensure_ci_plan_allowed t plan_id) = true
        /\ exists run plan, plan_runs (planning (eff_db (trigger_ci_plan pd token_id t plan_id key payload x)))
                              !! cs_plan_run_id resp = Some run
             /\ tp_project_id run = ct_project_id t /\ tp_created_by run = ct_created_by t
             /\ plans (planning pd) !! plan_id = Some plan /\ pl_project_id plan = ct_project_id t).
Proof.
  intros Hi. split_and!.
  - intros id t'. unfold authenticate_ci_token. destruct (_ || _); [done|].
    destruct (tokens_with_digest _ _) as [|[id0 t] l] eqn:Hl; [done|].
    destruct (tokens_with_digest_spec pd (digest_secret secret) id0 t) as [[Ht Hd] _]; [rewrite Hl; by left|].
    destruct (bool_decide (ct_status t = _)) eqn:Hst; cbn [negb]; [|done]. apply bool_decide_eq_true in Hst.
    destruct (_ <=? _) eqn:Hle; [done|]. intros [= <- <-]. exists t. split_and!; try done. lia.
  - intros id t pd' later Ht Hd Hdead Hs. destruct (ci_steps_ok _ _ Hi Hs) as [Hi' [Hev _]].
    destruct (Hev id t Ht) as (t' & Ht' & Hg & Hkeep). injection Hg as _ Hdig _ Hexp _.
    unfold authenticate_ci_token. destruct (_ || _); [done|].
    destruct (tokens_with_digest pd' (digest_secret secret)) as [|[id0 t0] l] eqn:Hl; [done|].
    destruct (tokens_with_digest_spec pd' (digest_secret secret) id0 t0) as [[Ht0 Hd0] _]; [rewrite Hl; by left|].
    assert (id0 = id) as -> by (eapply (cv_digests _ Hi'); eauto; congruence). simplify_eq.
    destruct (bool_decide (ct_status t' = _)) eqn:Hst; cbn [negb]; [|done]. apply bool_decide_eq_true in Hst.
    destruct Hdead as [Hdead|Hend]; [exfalso; rewrite Hkeep in Hst; congruence|].
    rewrite Hexp, (proj2 (Z.leb_le _ _) Hend). done.
  - intros token_id t plan_id key payload x resp Hresp Hnew.
    destruct (trigger_cases pd token_id t plan_id key payload x)
      as [(e & Ho)|[Ho|(_ & _ & Hallow & Hplan & pd2 & _ & [(_ & e & Ho)|[(? & ? & ? & _ & e & Ho)|Hcase]])]];
      try (rewrite Ho in Hresp; discriminate Hresp).
    + rewrite Ho in Hresp. cbn in Hresp. unfold replay in Hresp. exfalso.
      destruct (snd <$> _) as [i|]; [|done]. inv_ok. destruct (ci_status i), (ci_plan_run_id i); by inv_ok.
    + destruct Hcase as (run & c & m & a & _ & Ho & Hrun & Hproj & _ & Hby). rewrite Ho in Hresp. inv_ok.
      apply fmap_Some in Hplan as (plan & Hplan & Hpp). split; [done|]. by exists run, plan.
Qed.
End theorems.

(** ** A pipeline *)

Module CiDemo.
Export PlanDemo.

Definition secret : string := "cit_0123456789abcdef0123456789abcdef0123456789a".
Definition token_payload : CiTokenCreate :=
  {| tc_project_id := 1; tc_token_name := u "pipeline"; tc_expires_in_days := 90;
     tc_allowed_plan_ids := Some [1] |}.
Definition staffed : PlatformDb :=
  let d := core saved in
  with_core saved
    {| db_projects := {| projects := projects (db_projects d); members := members (db_projects d);
                         users := {[ "admin" := true ]} |};
       db_runs := db_runs d; db_runners := db_runners d; db_api_results := db_api_results d;
       db_scenario_results := db_scenario_results d; db_web_results := db_web_results d;
       db_session_profiles := db_session_profiles d; db_resources := db_resources d;
       db_evidence := db_evidence d |}.
Definition issued : PlatformDb := eff_db (create_ci_token staffed admin 5 secret token_payload 0).
Definition the_token : CiAccessToken :=
  {| ct_project_id := 1; ct_name := u "pipeline"; ct_token_digest := secret;
     ct_allowed_plan_ids := Some [1]; ct_status := TokenStatus.ACTIVE; ct_expires_at := 90 * day_length;
     ct_last_used_at := None; ct_revoked_at := None; ct_created_by := "admin" |}.
Definition request : CiRunRequest := {| cq_pipeline_ref := Some (u "main/17"); cq_commit_sha := None |}.
Definition trigger_input (n : string) : TriggerInput :=
  {| ti_invocation_id := "ciinv_" +:+ n; ti_start := start_input ("planrun_" +:+ n) ("run_" +:+ n);
     ti_done := 2 |}.
Definition triggered : PlatformDb :=
  eff_db (trigger_ci_plan issued 5 the_token 1 "build-17" request (trigger_input "1")).

Lemma issued_token : tokens (ci issued) !! 5 = Some the_token.
Proof. vm_compute. reflexivity. Qed.

Lemma issued_inv : ci_inv (ci issued).
Proof.
  refine (proj1 (create_token_ok staffed admin 5 secret token_payload 0 _)).
  assert (ci staffed = {| tokens := ∅; invocations := ∅ |}) as -> by (vm_compute; reflexivity).
  split; intros *; cbn; rewrite ?lookup_empty; discriminate.
Qed.

Lemma ci_key_witness :
  eff_result (trigger_ci_plan issued 5 the_token 1 "build-17" request (trigger_input "1"))
    = Ok {| cs_plan_run_id := "planrun_1"; cs_status := RunStatus.QUEUED; cs_idempotent_replay := false |}
  /\ (trigger_ci_plan triggered 5 the_token 1 "build-17" request (trigger_input "2")).1 = (triggered, [])
  /\ is_ok (eff_result (trigger_ci_plan triggered 5 the_token 1 "build-17" request (trigger_input "2"))) = true.
Proof.
  assert (eff_result (trigger_ci_plan issued 5 the_token 1 "build-17" request (trigger_input "1"))
    = Ok {| cs_plan_run_id := "planrun_1"; cs_status := RunStatus.QUEUED; cs_idempotent_replay := false |})
    as Hok by (vm_compute; reflexivity).
  split; [exact Hok|].
  destruct (ci_key_starts_once issued 5 the_token 1 "build-17" request (trigger_input "1") triggered issued_inv
              (rtc_refl _ _)) with (t' := the_token) (plan' := 1) (payload' := request)
              (x' := trigger_input "2") as [Hsame Hagain].
  - apply (proj1 (bool_decide_eq_true _)). vm_compute. reflexivity.
  - split; [exact Hsame|]. destruct (Hagain _ Hok) as [_ Hrep].
    apply Hrep; [vm_compute; reflexivity.. | reflexivity | reflexivity].
Defined.

(** Revoked on the first day, the token is refused on the second. *)
Definition revoked : PlatformDb := eff_db (revoke_ci_token issued admin 5 day_length).

Lemma ci_token_witness :
  is_ok (eff_result (authenticate_ci_token issued secret 1)) = true
  /\ eff_result (authenticate_ci_token revoked secret (2 * day_length)) = Err invalid_token.
Proof.
  split; [vm_compute; reflexivity|].
  destruct (revoke_token_ok issued admin 5 day_length issued_inv) as [Hi _].
  destruct (ci_token_access revoked secret 0 Hi) as (_ & Hdead & _).
  apply (Hdead 5 (ct_with the_token TokenStatus.REVOKED None (Some day_length))).
  - vm_compute. reflexivity.
  - vm_compute. reflexivity.
  - left. discriminate.
  - apply rtc_refl.
Defined.
End CiDemo.
