(* ===== verification/SafeRegex.v ===== *)
(** The safety check of regular expressions: [test_cases/safe_regex.py].  A
    pattern is scanned as plain text, with a stack of open groups; patterns that
    could backtrack catastrophically are refused. *)
From S2P Require Import Prelude PyText Calendar.
Open Scope N_scope.

(** ** Characters *)

Definition BACKSLASH : N := 92.
Definition LBRACKET : N := 91.
Definition RBRACKET : N := 93.
Definition LPAREN : N := 40.
Definition RPAREN : N := 41.
Definition BAR : N := 124.
Definition STAR : N := 42.
Definition PLUS : N := 43.
Definition QUESTION : N := 63.
Definition LBRACE : N := 123.
Definition RBRACE : N := 125.
Definition COMMA : N := 44.
Definition COLON : N := 58.

(** Digits that are not decimal digits (superscripts, circled digits, ...): for
    these [str.isdigit] holds and [int] raises. *)
Definition digit_signs : list (N * N) :=
  [(178, 179); (185, 185); (4969, 4977); (6618, 6618); (8304, 8304); (8308, 8313); (8320, 8329);
   (9312, 9320); (9332, 9340); (9352, 9360); (9450, 9450); (9461, 9469); (9471, 9471); (10102, 10110);
   (10112, 10120); (10122, 10130); (68160, 68163); (69216, 69224); (69714, 69722); (127232, 127242)].

(** [str.isdigit] of one character. *)
Definition isdigit (c : N) : bool :=
  bool_decide (is_Some (digit_value c)) || existsb (fun '(a, b) => (a <=? c) && (c <=? b)) digit_signs.

(** ** The state of the scan *)

Record GroupState := { has_alternation : bool; has_quantifier : bool; has_optional : bool }.
Definition new_group : GroupState :=
  {| has_alternation := false; has_quantifier := false; has_optional := false |}.

(** [_Atom]: its kind, with the group of a group. *)
Inductive Atom := ALiteral | AEscaped | AClass | AQuantifier | AGroup (g : GroupState).

(** [sc_groups]: the innermost open group first. *)
Record Scan := {
  sc_errors : list string;
  sc_groups : list GroupState;
  sc_last_atom : option Atom;
  sc_in_class : bool;
}.
Definition new_scan : Scan := {| sc_errors := []; sc_groups := []; sc_last_atom := None; sc_in_class := false |}.

Definition with_last (st : Scan) (a : option Atom) : Scan :=
  {| sc_errors := sc_errors st; sc_groups := sc_groups st; sc_last_atom := a; sc_in_class := sc_in_class st |}.
Definition with_groups (st : Scan) (gs : list GroupState) : Scan :=
  {| sc_errors := sc_errors st; sc_groups := gs; sc_last_atom := sc_last_atom st; sc_in_class := sc_in_class st |}.
Definition with_class (st : Scan) (b : bool) : Scan :=
  {| sc_errors := sc_errors st; sc_groups := sc_groups st; sc_last_atom := sc_last_atom st; sc_in_class := b |}.

Definition add_error (message : string) (st : Scan) : Scan :=
  {| sc_errors := if bool_decide (message ∈ sc_errors st) then sc_errors st else sc_errors st ++ [message];
     sc_groups := sc_groups st; sc_last_atom := sc_last_atom st; sc_in_class := sc_in_class st |}.
Definition add_error_if (b : bool) (message : string) (st : Scan) : Scan :=
  if b then add_error message st else st.

Definition BACKREFERENCE : string := "不允许 backreference".
Definition UNCLOSED_ESCAPE : string := "模式包含未闭合转义".
Definition EXTENDED_GROUP : string := "不允许 lookaround、conditional 或其它扩展分组".
Definition BARE_ALTERNATION : string := "模式包含未配对的 alternation".
Definition UNPAIRED_GROUP : string := "模式包含未配对的分组".
Definition NOTHING_TO_REPEAT : string := "量词缺少实际匹配项".
Definition NESTED_QUANTIFIER : string := "不允许嵌套量词".
Definition QUANTIFIED_COMPLEX_GROUP : string := "不允许量化包含 alternation 或内部可选/重复的分组".
Definition UNCLOSED_CLASS : string := "模式包含未闭合字符类".
Definition UNCLOSED_GROUP : string := "模式包含未闭合分组".

(** ** Braced quantifiers *)

(** The longest prefix of characters that satisfy [p], and the rest. *)
Fixpoint split_while (p : N -> bool) (s : pytext) : pytext * pytext :=
  match s with
  | [] => ([], [])
  | c :: s' => if p c then let '(a, b) := split_while p s' in (c :: a, b) else ([], s)
  end.

Definition int_of (digits : pytext) : result Z := some_or (py_int digits) (UnexpectedError "ValueError").

(** [_parse_braced_quantifier] on the text after the brace: the quantifier
    (lower and upper bound, whether it is optional) and the text after it. *)
Definition parse_braced_quantifier (text : pytext) : result (option (Z * option Z * bool * pytext)) :=
  let '(lower_text, r1) := split_while isdigit text in
  match lower_text with
  | [] => Ok None
  | _ =>
      lower ← int_of lower_text;
      match r1 with
      | [] => Ok None
      | c :: r2 =>
          if c =? RBRACE then Ok (Some (lower, Some lower, (lower =? 0)%Z, r2))
          else if negb (c =? COMMA) then Ok None
          else
            let '(upper_text, r3) := split_while isdigit r2 in
            upper ← match upper_text with [] => Ok None | _ => Some <$> int_of upper_text end;
            match r3 with
            | c' :: r4 =>
                if negb (c' =? RBRACE) then Ok None
                else if match upper with Some n => (n <? lower)%Z | None => false end then Ok None
                else Ok (Some (lower, upper, (lower =? 0)%Z, r4))
            | [] => Ok None
            end
      end
  end.

(** ** The scan *)

(** [mark_current_quantifier]. *)
Definition mark_current_quantifier (optional : bool) (st : Scan) : Scan :=
  match sc_groups st with
  | g :: gs =>
      with_groups st ({| has_alternation := has_alternation g; has_quantifier := true;
                         has_optional := has_optional g || optional |} :: gs)
  | [] => st
  end.

Definition check_quantified (st : Scan) : Scan :=
  match sc_last_atom st with
  | None => add_error NOTHING_TO_REPEAT st
  | Some AQuantifier => add_error NESTED_QUANTIFIER st
  | Some (AGroup g) =>
      add_error_if (has_alternation g || has_quantifier g || has_optional g) QUANTIFIED_COMPLEX_GROUP st
  | Some _ => st
  end.

Definition scan_quantifier (optional : bool) (st : Scan) : Scan :=
  with_last (mark_current_quantifier optional (check_quantified st)) (Some AQuantifier).

(** A braced quantifier with nothing to repeat leaves the state alone. *)
Definition scan_braced (optional : bool) (st : Scan) : Scan :=
  match sc_last_atom st with
  | None => add_error NOTHING_TO_REPEAT st
  | Some _ => scan_quantifier optional st
  end.

Definition open_group (st : Scan) : Scan := with_last (with_groups st (new_group :: sc_groups st)) None.

Definition scan_bar (st : Scan) : Scan :=
  with_last
    match sc_groups st with
    | g :: gs => with_groups st ({| has_alternation := true; has_quantifier := has_quantifier g;
                                    has_optional := has_optional g |} :: gs)
    | [] => add_error BARE_ALTERNATION st
    end None.

(** What a closed group passes on to the group around it. *)
Definition merge_group (parent group : GroupState) : GroupState :=
  {| has_alternation := has_alternation parent || has_alternation group;
     has_quantifier := has_quantifier parent || has_quantifier group;
     has_optional := has_optional parent || has_optional group |}.

Definition close_group (st : Scan) : Scan :=
  match sc_groups st with
  | [] => with_last (add_error UNPAIRED_GROUP st) (Some (AGroup new_group))
  | group :: gs =>
      with_last (with_groups st match gs with parent :: gs' => merge_group parent group :: gs' | [] => [] end)
        (Some (AGroup group))
  end.

(** Whether what follows an opening parenthesis is an extension other than [?:]. *)
Definition extended_group (rest : pytext) : bool :=
  match rest with
  | c :: r => (c =? QUESTION) && negb match r with c' :: _ => c' =? COLON | [] => false end
  | [] => false
  end.
Definition skip_marker (rest : pytext) : pytext :=
  match rest with
  | c :: c' :: r => if (c =? QUESTION) && (c' =? COLON) then r else rest
  | _ => rest
  end.

Definition backreference (c : N) : bool := isdigit c || bool_decide (c ∈ [107; 75; 103; 71]).

(** One turn of the loop at a character: the state and the text that is left.
    [break] leaves no text. *)
Definition scan_char (st : Scan) (char : N) (rest : pytext) : result (Scan * pytext) :=
  if sc_in_class st then
    if char =? BACKSLASH then Ok (st, drop 1 rest)
    else if char =? RBRACKET then Ok (with_last (with_class st false) (Some AClass), rest)
    else Ok (st, rest)
  else if char =? BACKSLASH then
    match rest with
    | [] => Ok (add_error UNCLOSED_ESCAPE st, [])
    | escaped :: r => Ok (with_last (add_error_if (backreference escaped) BACKREFERENCE st) (Some AEscaped), r)
    end
  else if char =? LBRACKET then Ok (with_last (with_class st true) (Some AClass), rest)
  else if char =? LPAREN then
    Ok (open_group (add_error_if (extended_group rest) EXTENDED_GROUP st), skip_marker rest)
  else if char =? BAR then Ok (scan_bar st, rest)
  else if char =? RPAREN then Ok (close_group st, rest)
  else if (char =? STAR) || (char =? PLUS) || (char =? QUESTION) then
    Ok (scan_quantifier (negb (char =? PLUS)) st, rest)
  else if char =? LBRACE then
    parsed ← parse_braced_quantifier rest;
    match parsed with
    | Some (_, _, optional, r) => Ok (scan_braced optional st, r)
    | None => Ok (with_last st (Some ALiteral), rest)
    end
  else Ok (with_last st (Some ALiteral), rest).

(** The loop; every turn consumes a character, so the length of the text is
    enough fuel ([scan_text_cons]). *)
Fixpoint scan (fuel : nat) (st : Scan) (text : pytext) : result Scan :=
  match text, fuel with
  | [], _ => Ok st
  | _, O => Ok st
  | char :: rest, S fuel' => '(st', r) ← scan_char st char rest; scan fuel' st' r
  end.
Definition scan_text (st : Scan) (text : pytext) : result Scan := scan (length text) st text.

Definition finish_scan (st : Scan) : list string :=
  sc_errors st ++ (if sc_in_class st then [UNCLOSED_CLASS] else [])
  ++ match sc_groups st with [] => [] | _ => [UNCLOSED_GROUP] end.

Definition MAX_SAFE_REGEX_LENGTH : nat := 1000.

Definition safe_regex_errors (pattern : pytext) : result (list string) :=
  match pattern with
  | [] => Ok ["模式不能为空"]
  | _ =>
      if (MAX_SAFE_REGEX_LENGTH <? length pattern)%nat then Ok ["模式长度不能超过 1000 字符"]
      else finish_scan <$> scan_text new_scan pattern
  end.
