(* ===== verification/SafeRegexSyntax.v ===== *)
(** Regular expressions as syntax trees, the reference predicate on them, and the
    simulation: the scan of the text of a tree is a run over the tree. *)
From S2P Require Import Prelude PyText Calendar SafeRegex.
Open Scope N_scope.

(** ** The scan as an equation *)

Lemma split_while_app p s : (split_while p s).1 ++ (split_while p s).2 = s.
Proof. induction s as [|c s IH]; cbn; [done|]. destruct (p c); cbn; [|done]. destruct (split_while p s). cbn in *. congruence. Qed.

Lemma braced_shorter s lo up opt r :
  parse_braced_quantifier s = Ok (Some (lo, up, opt, r)) -> (length r < length s)%nat.
Proof.
  unfold parse_braced_quantifier. pose proof (f_equal length (split_while_app isdigit s)) as H1.
  destruct (split_while isdigit s) as [a r1]. cbn in H1. rewrite length_app in H1. destruct a as [|d a]; [done|].
  intros (lower & _ & E)%bind_ok. destruct r1 as [|c r2]; [done|]. cbn in H1.
  destruct (c =? RBRACE); [injection E as _ _ _ <-; lia|]. destruct (negb _); [done|].
  pose proof (f_equal length (split_while_app isdigit r2)) as H2. destruct (split_while isdigit r2) as [b r3].
  cbn in H2. rewrite length_app in H2. apply bind_ok in E as (upper & _ & E).
  destruct r3 as [|c' r4]; [done|]. cbn in H2. destruct (negb _); [done|].
  destruct (match upper with Some _ => _ | None => _ end); [done|]. injection E as _ _ _ <-. lia.
Qed.

Lemma skip_marker_shorter s : (length (skip_marker s) <= length s)%nat.
Proof. destruct s as [|a [|b s]]; cbn; try lia. destruct (_ && _); cbn; lia. Qed.

Lemma scan_char_shorter st c r st' r' : scan_char st c r = Ok (st', r') -> (length r' <= length r)%nat.
Proof.
  unfold scan_char. intros E. pose proof (skip_marker_shorter r).
  repeat match type of E with
  | (if ?b then _ else _) = _ => destruct b
  | Ok (_, _) = Ok _ => injection E as <- <-
  | mbind _ _ = _ => apply bind_ok in E as ([[[[lo up] opt] r1]|] & Hb & E); [apply braced_shorter in Hb|]
  | match r with _ => _ end = _ => destruct r
  end; rewrite ?length_drop; cbn [length] in *; lia.
Qed.

Lemma scan_fuel n m st s : (length s <= n)%nat -> (length s <= m)%nat -> scan n st s = scan m st s.
Proof.
  revert m st s. induction n as [|n IH]; intros m st [|c r] Hn Hm; try (by destruct m); [cbn in Hn; lia|].
  destruct m as [|m]; cbn in Hm; [lia|]. cbn in Hn |- *.
  destruct (scan_char st c r) as [[st' r']|e] eqn:E; [|done]. cbn.
  apply scan_char_shorter in E. apply IH; lia.
Qed.

Lemma scan_text_cons st c r :
  scan_text st (c :: r) = '(st', r') ← scan_char st c r; scan_text st' r'.
Proof.
  unfold scan_text. cbn [length scan]. destruct (scan_char st c r) as [[st' r']|e] eqn:E; [|done]. cbn.
  apply scan_char_shorter in E. by apply scan_fuel.
Qed.

(** ** Patterns as syntax trees *)

(** Quantifiers; the bounds of a range are digit texts, as they are written. *)
Inductive quant := QStar | QPlus | QOpt | QExact (m : pytext) | QAtLeast (m : pytext) | QBetween (m n : pytext).

Inductive regex :=
  | REmpty
  | RLit (c : N)
  | REsc (c : N)
  | RClass (body : pytext)
  | RGroup (capturing : bool) (r : regex)
  | RQuant (r : regex) (q : quant)
  | RSeq (r1 r2 : regex)
  | RAlt (r1 r2 : regex).

Definition print_quant (q : quant) : pytext :=
  match q with
  | QStar => [STAR]
  | QPlus => [PLUS]
  | QOpt => [QUESTION]
  | QExact m => LBRACE :: m ++ [RBRACE]
  | QAtLeast m => LBRACE :: m ++ [COMMA; RBRACE]
  | QBetween m n => LBRACE :: m ++ COMMA :: n ++ [RBRACE]
  end.

Fixpoint print_regex (r : regex) : pytext :=
  match r with
  | REmpty => []
  | RLit c => [c]
  | REsc c => [BACKSLASH; c]
  | RClass body => LBRACKET :: body ++ [RBRACKET]
  | RGroup true r => LPAREN :: print_regex r ++ [RPAREN]
  | RGroup false r => LPAREN :: QUESTION :: COLON :: print_regex r ++ [RPAREN]
  | RQuant r q => print_regex r ++ print_quant q
  | RSeq r1 r2 => print_regex r1 ++ print_regex r2
  | RAlt r1 r2 => print_regex r1 ++ BAR :: print_regex r2
  end.

(** Characters that stand for themselves, or for a set or position ([.], [^], [$]). *)
Definition plain_char (c : N) : bool :=
  negb (bool_decide (c ∈ [BACKSLASH; LBRACKET; LPAREN; RPAREN; BAR; STAR; PLUS; QUESTION; LBRACE])).

(** The inside of a character class: escapes and characters other than the closing bracket. *)
Fixpoint class_body (s : pytext) : bool :=
  match s with
  | [] => true
  | c :: s' =>
      if c =? BACKSLASH then match s' with [] => false | _ :: s'' => class_body s'' end
      else negb (c =? RBRACKET) && class_body s'
  end.

Definition number (m : pytext) : bool :=
  negb (bool_decide (m = [])) && forallb (fun c => (48 <=? c) && (c <=? 57)) m && (length m <=? 1000)%nat.
Definition number_value (m : pytext) : Z := default 0%Z (py_int m).

Definition wf_quant (q : quant) : bool :=
  match q with
  | QExact m | QAtLeast m => number m
  | QBetween m n => number m && number n && (number_value m <=? number_value n)%Z
  | _ => true
  end.

Definition is_atom (r : regex) : bool :=
  match r with RLit _ | REsc _ | RClass _ | RGroup _ _ => true | _ => false end.
Definition is_alt (r : regex) : bool := match r with RAlt _ _ => true | _ => false end.

(** The trees that are the reading of their text. *)
Fixpoint wf_regex (r : regex) : bool :=
  match r with
  | REmpty => true
  | RLit c => plain_char c
  | REsc _ => true
  | RClass body => class_body body
  | RGroup _ r => wf_regex r
  | RQuant r q => is_atom r && wf_regex r && wf_quant q
  | RSeq r1 r2 => negb (is_alt r1) && negb (is_alt r2) && wf_regex r1 && wf_regex r2
  | RAlt r1 r2 => wf_regex r1 && wf_regex r2
  end.

(** ** The reference predicate *)

Fixpoint alternates (r : regex) : bool :=
  match r with
  | RAlt _ _ => true
  | RGroup _ r | RQuant r _ => alternates r
  | RSeq r1 r2 => alternates r1 || alternates r2
  | _ => false
  end.
Fixpoint repeats (r : regex) : bool :=
  match r with
  | RQuant _ _ => true
  | RGroup _ r => repeats r
  | RSeq r1 r2 | RAlt r1 r2 => repeats r1 || repeats r2
  | _ => false
  end.
Fixpoint star_height (r : regex) : nat :=
  match r with
  | RQuant r _ => S (star_height r)
  | RGroup _ r => star_height r
  | RSeq r1 r2 | RAlt r1 r2 => Nat.max (star_height r1) (star_height r2)
  | _ => O
  end.

(** No alternation outside a group, no back reference, and under a quantifier
    neither an alternation nor another quantifier. *)
Fixpoint safe_regex (grouped : bool) (r : regex) : bool :=
  match r with
  | REsc c => negb (backreference c)
  | RGroup _ r => safe_regex true r
  | RQuant r _ => safe_regex grouped r && negb (alternates r) && negb (repeats r)
  | RSeq r1 r2 => safe_regex grouped r1 && safe_regex grouped r2
  | RAlt r1 r2 => grouped && safe_regex grouped r1 && safe_regex grouped r2
  | _ => true
  end.

(** ** Reading a printed pattern *)

Definition optional_quant (q : quant) : bool :=
  match q with
  | QStar | QOpt => true
  | QPlus => false
  | QExact m | QAtLeast m | QBetween m _ => (number_value m =? 0)%Z
  end.

(** What the scan does on the text of a tree. *)
Fixpoint exec (r : regex) (st : Scan) : Scan :=
  match r with
  | REmpty => st
  | RLit _ => with_last st (Some ALiteral)
  | REsc c => with_last (add_error_if (backreference c) BACKREFERENCE st) (Some AEscaped)
  | RClass _ => with_last st (Some AClass)
  | RGroup _ r => close_group (exec r (open_group st))
  | RQuant r q => scan_quantifier (optional_quant q) (exec r st)
  | RSeq r1 r2 => exec r2 (exec r1 st)
  | RAlt r1 r2 => exec r2 (scan_bar (exec r1 st))
  end.

(** ASCII digits are digits, and a number has a value. *)
Lemma ascii_digit c : (48 <=? c) && (c <=? 57) = true -> digit_value c = Some (Z.of_N (c - 48)).
Proof. intros Hc. unfold digit_value, digit_zeros. cbn [digit_in]. by replace ((48 <=? c) && (c <? 48 + 10)) with true by lia. Qed.

Lemma number_digits m : number m = true ->
  m <> [] /\ Forall (fun c => (48 <=? c) && (c <=? 57) = true) m /\ (length m <= 1000)%nat.
Proof.
  unfold number. rewrite !andb_true_iff, negb_true_iff, bool_decide_eq_false, forallb_forall, Nat.leb_le.
  intros [[? Hf] ?]. split_and!; try done. apply Forall_forall. intros c Hc. by apply Hf, list_elem_of_In.
Qed.

Lemma int_digits_ascii m acc n :
  Forall (fun c => (48 <=? c) && (c <=? 57) = true) m -> (length m + n <= 4300)%nat ->
  is_Some (int_digits m acc n).
Proof.
  intros Hm. revert acc n. induction Hm as [|c m Hc Hm IH]; intros acc n Hn; cbn [length int_digits] in *.
  - by replace (n <=? 4300)%nat with true by lia.
  - rewrite (ascii_digit _ Hc). apply IH. lia.
Qed.

Lemma drop_space_ascii m : Forall (fun c => (48 <=? c) && (c <=? 57) = true) m -> drop_space m = m.
Proof.
  intros Hm. destruct Hm as [|c m Hc Hm]; [done|]. cbn.
  replace (int_space c) with false; [done|]. unfold int_space, isspace. lia.
Qed.

Lemma number_int m : number m = true -> py_int m = Some (number_value m).
Proof.
  intros (Hne & Hm & Hl)%number_digits. unfold number_value. destruct (py_int m) eqn:E; [done|].
  exfalso. unfold py_int in E. rewrite (drop_space_ascii _ Hm), (drop_space_ascii (reverse m)), reverse_involutive in E
    by (by apply Forall_reverse).
  destruct Hm as [|c m Hc Hm]; [done|]. cbn in Hl.
  replace (c =? 43) with false in E by lia. replace (c =? 45) with false in E by lia. cbn [int_unsigned] in E.
  rewrite (ascii_digit _ Hc) in E. cbn [mbind option_bind] in E. destruct (int_digits_ascii m (Z.of_N (c - 48)) 1 Hm ltac:(lia)) as [v Hv].
  by rewrite Hv in E.
Qed.

Lemma split_while_number m c s : number m = true -> isdigit c = false -> split_while isdigit (m ++ c :: s) = (m, c :: s).
Proof.
  intros (_ & Hm & _)%number_digits Hc. induction Hm as [|d m Hd Hm IH]; cbn; [by rewrite Hc|].
  assert (isdigit d = true) as -> by (unfold isdigit; rewrite (ascii_digit _ Hd); done). by rewrite IH.
Qed.

Lemma number_match {A} m (a b : A) : number m = true -> match m with [] => a | _ => b end = b.
Proof. by destruct m. Qed.

Lemma int_of_number m : number m = true -> int_of m = Ok (number_value m).
Proof. intros Hm. unfold int_of. by rewrite (number_int _ Hm). Qed.

(** A printed range is read as a quantifier. *)
Lemma parse_printed_range q text s :
  wf_quant q = true -> print_quant q = LBRACE :: text ->
  exists lo up, parse_braced_quantifier (text ++ s) = Ok (Some (lo, up, optional_quant q, s)).
Proof.
  intros Hq Ht. unfold parse_braced_quantifier.
  destruct q as [| | |m|m|m n]; simplify_eq/=.
  - rewrite <- app_assoc. cbn [app]. rewrite (split_while_number m _ _ Hq) by (vm_compute; reflexivity).
    rewrite (number_match _ _ _ Hq), (int_of_number _ Hq).
    cbn. by do 2 eexists.
  - rewrite <- app_assoc. cbn [app]. rewrite (split_while_number m _ _ Hq) by (vm_compute; reflexivity).
    rewrite (number_match _ _ _ Hq), (int_of_number _ Hq).
    cbn. by do 2 eexists.
  - apply andb_true_iff in Hq as [[Hm Hn]%andb_true_iff Hle].
    rewrite <- app_assoc. cbn [app]. rewrite <- app_assoc. cbn [app].
    rewrite (split_while_number m _ _ Hm) by (vm_compute; reflexivity).
    rewrite (number_match _ _ _ Hm), (int_of_number _ Hm). cbn.
    rewrite (split_while_number n _ _ Hn) by (vm_compute; reflexivity).
    rewrite (number_match _ _ _ Hn), (int_of_number _ Hn). cbn.
    replace (number_value n <? number_value m)%Z with false by lia. by do 2 eexists.
Qed.

(** *** The state after a tree *)

Lemma with_class_same st b : sc_in_class st = b -> with_class st b = st.
Proof. by destruct st; cbn; intros <-. Qed.

Lemma add_error_class m st : sc_in_class (add_error m st) = sc_in_class st.
Proof. done. Qed.
Lemma add_error_if_class b m st : sc_in_class (add_error_if b m st) = sc_in_class st.
Proof. by destruct b. Qed.
Lemma scan_bar_class st : sc_in_class (scan_bar st) = sc_in_class st.
Proof. unfold scan_bar. cbn. by destruct (sc_groups st). Qed.
Lemma close_group_class st : sc_in_class (close_group st) = sc_in_class st.
Proof. unfold close_group. by destruct (sc_groups st). Qed.
Lemma quantifier_class b st : sc_in_class (scan_quantifier b st) = sc_in_class st.
Proof.
  unfold scan_quantifier, mark_current_quantifier, check_quantified. cbn.
  by repeat (case_match; cbn; rewrite ?add_error_if_class).
Qed.

Lemma exec_class r st : sc_in_class (exec r st) = sc_in_class st.
Proof.
  revert st. induction r; intros st; cbn [exec]; rewrite ?quantifier_class, ?close_group_class; try done.
  - cbn. apply add_error_if_class.
  - by rewrite IHr.
  - by rewrite IHr2, IHr1.
  - by rewrite IHr2, scan_bar_class, IHr1.
Qed.

(** The last atom after an atom. *)
Lemma exec_atom r st : is_atom r = true -> is_Some (sc_last_atom (exec r st)).
Proof. destruct r; try done. intros _. cbn. unfold close_group. by destruct (sc_groups _). Qed.

Lemma print_head r s :
  wf_regex r = true ->
  match print_regex r ++ RPAREN :: s with c :: _ => c <> QUESTION | [] => True end.
Proof.
  assert (forall r1 t, wf_regex r1 = true ->
    match print_regex r1 ++ t with c :: _ => print_regex r1 <> [] -> c <> QUESTION | [] => True end) as Hh.
  { clear. intros r. induction r as [|c|c|b|[] r IH|r IH q|r1 IH1 r2 IH2|r1 IH1 r2 IH2]; intros t Hw; cbn in Hw |- *;
      try done.
    - by destruct t.
    - intros _ ->. done.
    - apply andb_true_iff in Hw as [[Ha Hw]%andb_true_iff _]. rewrite <- app_assoc.
      specialize (IH (print_quant q ++ t) Hw). destruct r; try done; cbn in IH |- *; try naive_solver.
      by destruct capturing.
    - rewrite !andb_true_iff in Hw. destruct Hw as [[_ Hw1] Hw2]. rewrite <- app_assoc.
      specialize (IH1 (print_regex r2 ++ t) Hw1). specialize (IH2 t Hw2).
      destruct (print_regex r1) as [|c s]; [exact IH2|]. cbn in IH1 |- *. intros _. by apply IH1.
    - apply andb_true_iff in Hw as [Hw1 _]. rewrite <- app_assoc. specialize (IH1 ((BAR :: print_regex r2) ++ t) Hw1).
      destruct (print_regex r1) as [|c s]; [done|]. cbn in IH1 |- *. intros _. by apply IH1. }
  intros Hw. specialize (Hh r (RPAREN :: s) Hw). destruct (print_regex r) as [|c t]; [done|]. cbn in *. by apply Hh.
Qed.

Lemma scan_class_body body st k :
  class_body body = true -> sc_in_class st = true ->
  scan_text st (body ++ RBRACKET :: k) = scan_text (with_last (with_class st false) (Some AClass)) k.
Proof.
  intros Hb Hc. remember (length body) as n eqn:Hn. revert body Hb Hn.
  induction (lt_wf n) as [n _ IH]. intros body Hb ->. destruct body as [|c body]; cbn [app].
  - rewrite scan_text_cons. unfold scan_char. rewrite Hc. done.
  - cbn in Hb. rewrite scan_text_cons. unfold scan_char. rewrite Hc.
    destruct (c =? BACKSLASH).
    + destruct body as [|e body]; [done|]. cbn. eapply IH; [|done|done]. cbn. lia.
    + apply andb_true_iff in Hb as [->%negb_true_iff Hb]. cbn. eapply IH; [|done|done]. cbn. lia.
Qed.

Lemma plain_char_scan c st s :
  plain_char c = true -> sc_in_class st = false -> scan_char st c s = Ok (with_last st (Some ALiteral), s).
Proof.
  unfold plain_char. rewrite negb_true_iff, bool_decide_eq_false. intros Hc Hcl.
  assert (forall x, x ∈ [BACKSLASH; LBRACKET; LPAREN; RPAREN; BAR; STAR; PLUS; QUESTION; LBRACE] -> (c =? x) = false) as Hx.
  { intros x Hx. apply N.eqb_neq. by intros ->. }
  unfold scan_char. rewrite Hcl, !Hx by (rewrite !elem_of_cons; tauto). done.
Qed.

Lemma scan_quant q st k :
  wf_quant q = true -> sc_in_class st = false -> is_Some (sc_last_atom st) ->
  scan_text st (print_quant q ++ k) = scan_text (scan_quantifier (optional_quant q) st) k.
Proof.
  intros Hq Hc [a Ha].
  assert (forall text, print_quant q = LBRACE :: text ->
    scan_text st (print_quant q ++ k) = scan_text (scan_quantifier (optional_quant q) st) k) as Hrange.
  { intros text Ht. rewrite Ht. cbn [app]. rewrite scan_text_cons. unfold scan_char. rewrite Hc.
    destruct (parse_printed_range q text k Hq Ht) as (lo & up & E). cbn. rewrite E. cbn.
    unfold scan_braced. by rewrite Ha. }
  destruct q; try (by eapply Hrange); cbn [print_quant app]; rewrite scan_text_cons; unfold scan_char; by rewrite Hc.
Qed.

(** The scan of a printed pattern is the run of its tree. *)
Lemma scan_print r : wf_regex r = true -> forall st k, sc_in_class st = false ->
  scan_text st (print_regex r ++ k) = scan_text (exec r st) k.
Proof.
  induction r as [|c|c|b|cap r IH|r IH q|r1 IH1 r2 IH2|r1 IH1 r2 IH2]; intros Hw st k Hc; cbn in Hw;
    cbn [print_regex exec].
  - done.
  - cbn [app]. rewrite scan_text_cons, plain_char_scan; done.
  - cbn [app]. rewrite scan_text_cons. unfold scan_char. by rewrite Hc.
  - cbn [app]. rewrite <- app_assoc. cbn [app]. rewrite scan_text_cons. unfold scan_char at 1. rewrite Hc. cbn.
    rewrite scan_class_body by done. destruct st; cbn in Hc; by subst.
  - assert (forall s, scan_text (open_group st) (print_regex r ++ RPAREN :: s) = scan_text (close_group (exec r (open_group st))) s) as Hbody.
    { intros s. rewrite IH by done. rewrite scan_text_cons. unfold scan_char.
      rewrite exec_class. cbn. by rewrite Hc. }
    destruct cap; cbn [app].
    + rewrite scan_text_cons. unfold scan_char. rewrite Hc. cbn. rewrite <- app_assoc. cbn [app].
      pose proof (print_head r k Hw) as Hh. rewrite <- Hbody.
      destruct (print_regex r ++ RPAREN :: k) as [|c [|c' t]]; [done|..]; cbn;
        apply N.eqb_neq in Hh; rewrite Hh; done.
    + rewrite scan_text_cons. unfold scan_char. rewrite Hc. cbn. rewrite <- app_assoc. apply Hbody.
  - rewrite !andb_true_iff in Hw. destruct Hw as [[Ha Hw] Hq]. rewrite <- app_assoc, IH by done.
    apply scan_quant; [done | by rewrite exec_class | by apply exec_atom].
  - rewrite !andb_true_iff in Hw. destruct Hw as [[_ Hw1] Hw2]. rewrite <- app_assoc, IH1 by done.
    apply IH2; [done | by rewrite exec_class].
  - rewrite !andb_true_iff in Hw. destruct Hw as [Hw1 Hw2]. rewrite <- app_assoc, IH1 by done. cbn [app].
    rewrite scan_text_cons. unfold scan_char at 1. rewrite exec_class, Hc. cbn.
    apply IH2; [done | by rewrite scan_bar_class, exec_class].
Qed.

(** *** What the run of a tree says about the tree *)

Fixpoint optional_in (r : regex) : bool :=
  match r with
  | RQuant r q => optional_in r || optional_quant q
  | RGroup _ r => optional_in r
  | RSeq r1 r2 | RAlt r1 r2 => optional_in r1 || optional_in r2
  | _ => false
  end.
Definition flags (r : regex) : GroupState :=
  {| has_alternation := alternates r; has_quantifier := repeats r; has_optional := optional_in r |}.

Lemma merge_new g : merge_group new_group g = g.
Proof. by destruct g. Qed.
Lemma merge_assoc a b c : merge_group (merge_group a b) c = merge_group a (merge_group b c).
Proof. unfold merge_group. cbn. by rewrite <- !orb_assoc. Qed.

Lemma optional_repeats r : optional_in r = true -> repeats r = true.
Proof.
  induction r; cbn; try done; rewrite ?orb_true_iff; naive_solver.
Qed.

Definition add_flags (g : GroupState) (gs : list GroupState) : list GroupState :=
  match gs with g0 :: gs' => merge_group g0 g :: gs' | [] => [] end.

Lemma scan_bar_groups st :
  sc_groups (scan_bar st) = add_flags {| has_alternation := true; has_quantifier := false; has_optional := false |} (sc_groups st).
Proof. unfold scan_bar. destruct (sc_groups st) as [|g gs] eqn:E; cbn; rewrite ?E; [done|]. unfold merge_group. cbn. by rewrite orb_true_r, !orb_false_r. Qed.

Lemma quantifier_groups b st :
  sc_groups (scan_quantifier b st)
  = add_flags {| has_alternation := false; has_quantifier := true; has_optional := b |} (sc_groups st).
Proof.
  unfold scan_quantifier. cbn. assert (sc_groups (check_quantified st) = sc_groups st) as Hc.
  { unfold check_quantified, add_error_if. by repeat case_match. }
  unfold mark_current_quantifier. rewrite Hc. destruct (sc_groups st); cbn; [done|]. unfold merge_group. cbn.
  by rewrite orb_false_r, orb_true_r.
Qed.

Lemma add_flags_twice a b gs : add_flags b (add_flags a gs) = add_flags (merge_group a b) gs.
Proof. destruct gs; cbn; [done|]. by rewrite merge_assoc. Qed.

Lemma add_flags_new gs : add_flags new_group gs = gs.
Proof. destruct gs as [|g gs]; [done|]. cbn. unfold merge_group. cbn. rewrite !orb_false_r. by destruct g. Qed.

Lemma exec_groups r st : sc_groups (exec r st) = add_flags (flags r) (sc_groups st).
Proof.
  revert st. induction r as [|c|c|b|cap r IH|r IH q|r1 IH1 r2 IH2|r1 IH1 r2 IH2]; intros st; cbn [exec].
  1, 2, 4: symmetry; apply add_flags_new.
  - symmetry. cbn. rewrite add_flags_new. by destruct (backreference c).
  - unfold close_group. rewrite IH. cbn. rewrite merge_new. done.
  - rewrite quantifier_groups, IH, add_flags_twice. f_equal. unfold merge_group, flags. cbn.
    by rewrite orb_false_r, orb_true_r.
  - by rewrite IH2, IH1, add_flags_twice.
  - rewrite IH2, scan_bar_groups, IH1, !add_flags_twice. f_equal. unfold merge_group, flags. cbn.
    by rewrite orb_true_r.
Qed.

(** The last atom after an atom: a group carries what is inside it. *)
Lemma exec_last_group cap r st : sc_last_atom (exec (RGroup cap r) st) = Some (AGroup (flags r)).
Proof. cbn. unfold close_group. rewrite exec_groups. cbn. by rewrite merge_new. Qed.

Lemma add_error_nonempty m st : sc_errors (add_error m st) <> [].
Proof. cbn. case_bool_decide as Hm; [by destruct (sc_errors st); [apply elem_of_nil in Hm|]|]. by destruct (sc_errors st). Qed.

Lemma add_error_if_nil b m st : sc_errors (add_error_if b m st) = [] <-> sc_errors st = [] /\ b = false.
Proof. destruct b; cbn [add_error_if]; [|naive_solver]. pose proof (add_error_nonempty m st). naive_solver. Qed.

Lemma quantifier_errors b st : sc_errors (scan_quantifier b st) = sc_errors (check_quantified st).
Proof. unfold scan_quantifier, mark_current_quantifier. cbn. by destruct (sc_groups _). Qed.

(** A pattern is accepted exactly when it is safe. *)
Lemma exec_errors r : wf_regex r = true -> forall st,
  sc_errors (exec r st) = [] <->
  sc_errors st = [] /\ safe_regex (negb (bool_decide (sc_groups st = []))) r = true.
Proof.
  induction r as [|c|c|b|cap r IH|r IH q|r1 IH1 r2 IH2|r1 IH1 r2 IH2]; intros Hw st; cbn [exec safe_regex]; cbn in Hw.
  1, 2, 4: cbn; naive_solver.
  - cbn. rewrite add_error_if_nil, negb_true_iff. done.
  - assert (sc_errors (close_group (exec r (open_group st))) = sc_errors (exec r (open_group st))) as ->.
    { unfold close_group. rewrite exec_groups. done. }
    rewrite (IH Hw). done.
  - rewrite !andb_true_iff in Hw. destruct Hw as [[Ha Hw] _]. rewrite quantifier_errors.
    destruct r as [|c|c|b|cap r| | |]; try done.
    1, 2, 3: cbn [exec] in IH |- *; unfold check_quantified; cbn [sc_last_atom with_last]; rewrite (IH Hw); cbn;
      by rewrite ?andb_true_r.
    unfold check_quantified. rewrite exec_last_group, add_error_if_nil, (IH Hw). cbn.
    rewrite !andb_true_iff, !negb_true_iff, !orb_false_iff. pose proof (optional_repeats r) as Ho.
    destruct (optional_in r); [rewrite Ho by done|]; naive_solver.
  - rewrite !andb_true_iff in Hw. destruct Hw as [[_ Hw1] Hw2]. rewrite (IH2 Hw2), (IH1 Hw1), exec_groups, andb_true_iff.
    assert (bool_decide (add_flags (flags r1) (sc_groups st) = []) = bool_decide (sc_groups st = [])) as ->
      by (apply bool_decide_ext; by destruct (sc_groups st)).
    naive_solver.
  - rewrite !andb_true_iff in Hw. destruct Hw as [Hw1 Hw2]. rewrite (IH2 Hw2), scan_bar_groups, exec_groups, add_flags_twice.
    destruct (sc_groups st) as [|g gs] eqn:Hg.
    + assert (sc_errors (scan_bar (exec r1 st)) <> []) as Hne.
      { unfold scan_bar. rewrite exec_groups, Hg. apply add_error_nonempty. }
      cbn. naive_solver.
    + assert (sc_errors (scan_bar (exec r1 st)) = sc_errors (exec r1 st)) as ->.
      { unfold scan_bar. by rewrite exec_groups, Hg. }
      rewrite (IH1 Hw1), Hg. cbn. rewrite !andb_true_iff. naive_solver.
Qed.
