(* ===== verification/SafeRegexTheorems.v ===== *)
(** Properties of the safety check of regular expressions: it decides a reference
    predicate on syntax trees (a text without braces that the scan accepts is the
    text of a tree, which is rebuilt with a zipper), and a quantifier it does not recognise. *)
From S2P Require Import Prelude PyText Calendar SafeRegex SafeRegexSyntax.
Open Scope N_scope.

(** ** Errors stay *)

Lemma quantifier_nil b st :
  sc_errors (scan_quantifier b st) = [] ->
  sc_errors st = [] /\ exists a, sc_last_atom st = Some a /\ a <> AQuantifier.
Proof.
  rewrite quantifier_errors. unfold check_quantified. intros He.
  destruct (sc_last_atom st) as [[| | | |g]|]; try (by apply add_error_nonempty in He); try (split; [exact He | by eexists]).
  apply add_error_if_nil in He as [He _]. split; [exact He | by eexists].
Qed.

Lemma scan_char_errors st c s st' s' :
  scan_char st c s = Ok (st', s') -> sc_errors st' = [] -> sc_errors st = [].
Proof.
  unfold scan_char. intros E He.
  repeat match type of E with
  | (if ?b then _ else _) = _ => destruct b
  | Ok (_, _) = Ok _ => injection E as <- <-
  | mbind _ _ = _ => apply bind_ok in E as ([[[[lo up] opt] r1]|] & _ & E)
  | match s with _ => _ end = _ => destruct s
  end; try exact He; cbn in He.
  - by apply (add_error_nonempty UNCLOSED_ESCAPE) in He.
  - by apply add_error_if_nil in He as [? _].
  - by apply add_error_if_nil in He as [? _].
  - unfold scan_bar in He. cbn in He. destruct (sc_groups st); [by apply (add_error_nonempty BARE_ALTERNATION) in He | done].
  - unfold close_group in He. destruct (sc_groups st); [by apply (add_error_nonempty UNPAIRED_GROUP) in He | done].
  - by apply quantifier_nil in He as [? _].
  - unfold scan_braced in He. destruct (sc_last_atom st); [by apply quantifier_nil in He as [? _]|].
    by apply add_error_nonempty in He.
Qed.

Lemma scan_text_errors st s st' : scan_text st s = Ok st' -> sc_errors st' = [] -> sc_errors st = [].
Proof.
  remember (length s) as n eqn:Hn. revert s Hn st. induction (lt_wf n) as [n _ IH]. intros s -> st E He.
  destruct s as [|c s]; [by injection E as <-|]. rewrite scan_text_cons in E.
  apply bind_ok in E as ([st1 s1] & E1 & E). eapply scan_char_errors; [exact E1|].
  apply scan_char_shorter in E1. eapply (IH (length s1)); try done. cbn. lia.
Qed.

(** ** The zipper *)

(** The branches read before the current one, and the current one. *)
Record branches := { b_before : option regex; b_seq : regex }.
(** [z_outer]: the enclosing groups, innermost first, each with what was read
    around it; [z_last]: the last atom, which a quantifier would repeat. *)
Record zipper := { z_outer : list (bool * branches); z_here : branches; z_last : option regex }.

Definition tree_of (b : branches) : regex :=
  match b_before b with Some r => RAlt r (b_seq b) | None => b_seq b end.
Definition close_last (z : zipper) : branches :=
  match z_last z with
  | Some a => {| b_before := b_before (z_here z); b_seq := RSeq (b_seq (z_here z)) a |}
  | None => z_here z
  end.
Definition print_open (cap : bool) : pytext := if cap then [LPAREN] else [LPAREN; QUESTION; COLON].
Fixpoint print_outer (l : list (bool * branches)) : pytext :=
  match l with
  | [] => []
  | (cap, b) :: l' => print_outer l' ++ print_regex (tree_of b) ++ print_open cap
  end.
Definition print_zipper (z : zipper) : pytext := print_outer (z_outer z) ++ print_regex (tree_of (close_last z)).

Definition wf_branches (b : branches) : bool :=
  match b_before b with Some r => wf_regex r | None => true end
  && wf_regex (b_seq b) && negb (is_alt (b_seq b)).
Definition wf_zipper (z : zipper) : bool :=
  forallb (fun '(_, b) => wf_branches b) (z_outer z) && wf_branches (z_here z)
  && match z_last z with Some a => is_atom a && wf_regex a | None => true end.

Definition quantifiable (a : option Atom) : bool :=
  match a with Some AQuantifier | None => false | _ => true end.

Record reads (st : Scan) (z : zipper) : Prop := {
  rd_class : sc_in_class st = false;
  rd_wf : wf_zipper z = true;
  rd_depth : length (sc_groups st) = length (z_outer z);
  rd_last : quantifiable (sc_last_atom st) = true -> is_Some (z_last z);
}.

Lemma tree_of_wf b : wf_branches b = true -> wf_regex (tree_of b) = true.
Proof. unfold wf_branches, tree_of. rewrite !andb_true_iff. intros [[? ?] _]. destruct (b_before b); cbn; by rewrite ?andb_true_iff. Qed.

Lemma close_last_wf z : wf_zipper z = true -> wf_branches (close_last z) = true.
Proof.
  unfold wf_zipper. rewrite !andb_true_iff. intros [[_ Hh] Hl]. unfold close_last. destruct (z_last z) as [a|]; [|done].
  apply andb_true_iff in Hl as [Ha Hw]. unfold wf_branches in *. rewrite !andb_true_iff in Hh |- *.
  destruct Hh as [[? ?] ?]. cbn. split_and!; try done. rewrite !andb_true_iff. split_and!; try done. by destruct a.
Qed.

(** Reading one more atom. *)
Definition push_atom (a : regex) (z : zipper) : zipper :=
  {| z_outer := z_outer z; z_here := close_last z; z_last := Some a |}.

Lemma tree_of_seq b a :
  print_regex (tree_of {| b_before := b_before b; b_seq := RSeq (b_seq b) a |})
  = print_regex (tree_of b) ++ print_regex a.
Proof. unfold tree_of. cbn. destruct (b_before b); cbn; [by rewrite <- app_assoc | done]. Qed.

Lemma push_atom_print a z : print_zipper (push_atom a z) = print_zipper z ++ print_regex a.
Proof. unfold print_zipper. cbn [z_outer push_atom close_last z_last z_here]. by rewrite tree_of_seq, app_assoc. Qed.

Lemma push_atom_wf a z : wf_zipper z = true -> is_atom a = true -> wf_regex a = true -> wf_zipper (push_atom a z) = true.
Proof.
  intros Hz Ha Hw. pose proof (close_last_wf _ Hz). unfold wf_zipper in *. rewrite !andb_true_iff in *.
  cbn. split_and!; try done; [apply Hz | by rewrite Ha, Hw].
Qed.

Lemma reads_atom a st st' z :
  reads st z -> is_atom a = true -> wf_regex a = true ->
  sc_in_class st' = false -> sc_groups st' = sc_groups st -> reads st' (push_atom a z).
Proof.
  intros [Hc Hw Hd _] Ha Hwa Hc' Hg. split; [done | by apply push_atom_wf | by rewrite Hg | by eexists].
Qed.

(** Reading a quantifier, an opening parenthesis, a bar, a closing parenthesis. *)
Definition push_quant (a : regex) (q : quant) (z : zipper) : zipper :=
  {| z_outer := z_outer z; z_last := None;
     z_here := {| b_before := b_before (z_here z); b_seq := RSeq (b_seq (z_here z)) (RQuant a q) |} |}.
Definition push_open (cap : bool) (z : zipper) : zipper :=
  {| z_outer := (cap, close_last z) :: z_outer z; z_here := {| b_before := None; b_seq := REmpty |}; z_last := None |}.
Definition push_bar (z : zipper) : zipper :=
  {| z_outer := z_outer z; z_here := {| b_before := Some (tree_of (close_last z)); b_seq := REmpty |}; z_last := None |}.
Definition push_close (cap : bool) (b : branches) (l : list (bool * branches)) (z : zipper) : zipper :=
  {| z_outer := l; z_here := b; z_last := Some (RGroup cap (tree_of (close_last z))) |}.

Lemma reads_quant a q st st' z :
  reads st z -> z_last z = Some a -> wf_quant q = true ->
  sc_in_class st' = false -> length (sc_groups st') = length (sc_groups st) -> sc_last_atom st' = Some AQuantifier ->
  reads st' (push_quant a q z) /\ print_zipper (push_quant a q z) = print_zipper z ++ print_quant q.
Proof.
  intros [Hc Hw Hd _] Ha Hq Hc' Hg Hl. split.
  - split; [done | | by rewrite Hg | by rewrite Hl].
    unfold wf_zipper, wf_branches in *. rewrite Ha in Hw. rewrite !andb_true_iff in Hw.
    destruct Hw as [[Ho [[Hb Hs] Hn]] [Hat Hwa]]. cbn. by rewrite Ho, Hb, Hs, Hn, Hat, Hwa, Hq.
  - unfold print_zipper, close_last. rewrite Ha. cbn [z_outer push_quant z_last z_here]. rewrite !tree_of_seq. cbn.
    by rewrite <- !app_assoc.
Qed.

Lemma reads_open cap st st' z :
  reads st z -> sc_in_class st' = false -> sc_groups st' = new_group :: sc_groups st -> sc_last_atom st' = None ->
  reads st' (push_open cap z) /\ print_zipper (push_open cap z) = print_zipper z ++ print_open cap.
Proof.
  intros [Hc Hw Hd _] Hc' Hg Hl. split.
  - pose proof (close_last_wf _ Hw) as Hcl. split; [done | | rewrite Hg; cbn; by rewrite Hd | by rewrite Hl].
    unfold wf_zipper in *. rewrite !andb_true_iff in Hw. destruct Hw as [[Ho _] _].
    cbn [push_open z_outer z_here z_last forallb]. by rewrite Hcl, Ho.
  - unfold print_zipper. cbn [z_outer push_open print_outer close_last z_last z_here tree_of b_before b_seq print_regex].
    by rewrite app_nil_r, <- !app_assoc.
Qed.

Lemma reads_bar st st' z :
  reads st z -> sc_in_class st' = false -> length (sc_groups st') = length (sc_groups st) -> sc_last_atom st' = None ->
  reads st' (push_bar z) /\ print_zipper (push_bar z) = print_zipper z ++ [BAR].
Proof.
  intros [Hc Hw Hd _] Hc' Hg Hl. split.
  - pose proof (tree_of_wf _ (close_last_wf _ Hw)) as Hcl. split; [done | | by rewrite Hg | by rewrite Hl].
    unfold wf_zipper in *. rewrite !andb_true_iff in Hw. destruct Hw as [[Ho _] _].
    cbn [push_bar z_outer z_here z_last]. rewrite Ho. unfold wf_branches. cbn. by rewrite Hcl.
  - unfold print_zipper. cbn [z_outer push_bar close_last z_last z_here]. unfold tree_of at 1. cbn. by rewrite app_assoc.
Qed.

Lemma reads_close cap b l st st' z :
  reads st z -> z_outer z = (cap, b) :: l -> sc_in_class st' = false -> length (sc_groups st') = length l ->
  reads st' (push_close cap b l z) /\ print_zipper (push_close cap b l z) = print_zipper z ++ [RPAREN].
Proof.
  intros [Hc Hw Hd _] Ho Hc' Hg. split.
  - pose proof (tree_of_wf _ (close_last_wf _ Hw)) as Hcl. split; [done | | done | by eexists].
    unfold wf_zipper in *. rewrite Ho in Hw. cbn [forallb] in Hw. rewrite !andb_true_iff in Hw.
    destruct Hw as [[[Hb Hl] _] _]. cbn [push_close z_outer z_here z_last is_atom wf_regex]. by rewrite Hb, Hl, Hcl.
  - unfold print_zipper. rewrite Ho. cbn [z_outer push_close z_last z_here print_outer close_last].
    rewrite tree_of_seq. rewrite <- !app_assoc. do 2 f_equal. by destruct cap; cbn; rewrite <- ?app_assoc.
Qed.

(** A class that is closed has a closing bracket. *)
Lemma class_closed st s st' :
  scan_text st s = Ok st' -> sc_in_class st = true -> sc_in_class st' = false ->
  exists body k, s = body ++ RBRACKET :: k /\ class_body body = true.
Proof.
  remember (length s) as n eqn:Hn. revert s Hn st. induction (lt_wf n) as [n _ IH]. intros s -> st E Hc Hc'.
  destruct s as [|c s]; [injection E as <-; congruence|]. rewrite scan_text_cons in E. unfold scan_char in E.
  rewrite Hc in E. destruct (c =? BACKSLASH) eqn:Hb; [|destruct (c =? RBRACKET) eqn:Hr].
  - cbn in E. destruct s as [|e s]; [injection E as <-; congruence|]. cbn in E.
    destruct (IH (length s) ltac:(cbn; lia) s eq_refl _ E Hc Hc') as (body & k & -> & Hbody).
    exists (c :: e :: body), k. split; [done|]. cbn. by rewrite Hb.
  - exists [], s. apply N.eqb_eq in Hr as ->. done.
  - cbn in E. destruct (IH (length s) ltac:(cbn; lia) s eq_refl _ E Hc Hc') as (body & k & -> & Hbody).
    exists (c :: body), k. split; [done|]. cbn. by rewrite Hb, Hr.
Qed.

(** Reading a character outside classes: the zipper grows by what is consumed. *)
Lemma read_char st z c s st1 s1 :
  reads st z -> c <> LBRACE -> c <> LBRACKET -> scan_char st c s = Ok (st1, s1) -> sc_errors st1 = [] ->
  exists z1 t, reads st1 z1 /\ c :: s = t ++ s1 /\ print_zipper z1 = print_zipper z ++ t.
Proof.
  intros Hr Hnb Hnk E He. pose proof (rd_class _ _ Hr) as Hc. unfold scan_char in E. rewrite Hc in E.
  apply N.eqb_neq in Hnb as Hnb', Hnk as Hnk'. rewrite Hnb', Hnk' in E.
  destruct (c =? BACKSLASH) eqn:H1; [apply N.eqb_eq in H1 as ->|].
  { destruct s as [|e s]; injection E as <- <-; [by apply add_error_nonempty in He|].
    exists (push_atom (REsc e) z), [BACKSLASH; e]. split_and!; [|done|apply push_atom_print].
    eapply reads_atom; try done; cbn; [by rewrite add_error_if_class | by destruct (backreference e)]. }
  destruct (c =? LPAREN) eqn:H2; [apply N.eqb_eq in H2 as ->|].
  { injection E as <- <-. cbn in He. apply add_error_if_nil in He as [He Hx]. rewrite Hx.
    assert (exists cap, LPAREN :: s = print_open cap ++ skip_marker s) as [cap Hcap].
    { destruct s as [|a [|b s]]; [by exists true | by exists true |]. cbn in Hx |- *.
      destruct (a =? QUESTION) eqn:Ha, (b =? COLON) eqn:Hb; try done; cbn; try (by exists true).
      apply N.eqb_eq in Ha as ->, Hb as ->. by exists false. }
    destruct (reads_open cap st (open_group st) z) as [? ?]; try done. by exists (push_open cap z), (print_open cap). }
  destruct (c =? BAR) eqn:H3; [apply N.eqb_eq in H3 as ->|].
  { injection E as <- <-. exists (push_bar z), [BAR]. destruct (reads_bar st (scan_bar st) z) as [? ?]; try done.
    - by rewrite scan_bar_class.
    - rewrite scan_bar_groups. by destruct (sc_groups st). }
  destruct (c =? RPAREN) eqn:H4; [apply N.eqb_eq in H4 as ->|].
  { injection E as <- <-. pose proof (rd_depth _ _ Hr) as Hd. unfold close_group in *.
    destruct (sc_groups st) as [|g gs] eqn:Hg; [by apply add_error_nonempty in He|].
    destruct (z_outer z) as [|[cap b] l] eqn:Ho; [done|]. exists (push_close cap b l z), [RPAREN].
    destruct (reads_close cap b l st (with_last (with_groups st match gs with parent :: gs' => merge_group parent g :: gs' | [] => [] end)
        (Some (AGroup g))) z) as [? ?]; try done.
    cbn in Hd |- *. injection Hd as <-. by destruct gs. }
  destruct ((c =? STAR) || (c =? PLUS) || (c =? QUESTION)) eqn:H5.
  { injection E as <- <-. destruct (quantifier_nil _ _ He) as (_ & a & Ha & Hna).
    destruct (rd_last _ _ Hr) as [x Hx]; [rewrite Ha; by destruct a|].
    assert (exists q, wf_quant q = true /\ print_quant q = [c]) as (q & Hq & Hpq).
    { rewrite !orb_true_iff, !N.eqb_eq in H5. destruct H5 as [[-> | ->] | ->]; [by exists QStar | by exists QPlus | by exists QOpt]. }
    exists (push_quant x q z), [c].
    destruct (reads_quant x q st (scan_quantifier (negb (c =? PLUS)) st) z) as [? Hp]; try done.
    - by rewrite quantifier_class.
    - rewrite quantifier_groups. by destruct (sc_groups st).
    - by rewrite Hpq in Hp. }
  injection E as <- <-. exists (push_atom (RLit c) z), [c]. split_and!; [|done|apply push_atom_print].
  eapply reads_atom; try done. cbn. unfold plain_char. apply negb_true_iff, bool_decide_eq_false.
  rewrite !orb_false_iff, !N.eqb_neq in H5. apply N.eqb_neq in H1, H2, H3, H4. rewrite !elem_of_cons, elem_of_nil. naive_solver.
Qed.

Lemma finish_nil st : finish_scan st = [] -> sc_errors st = [] /\ sc_in_class st = false /\ sc_groups st = [].
Proof.
  unfold finish_scan. intros [He [Hc Hg]%app_eq_nil]%app_eq_nil. by destruct (sc_in_class st), (sc_groups st).
Qed.

Lemma read_text s : LBRACE ∉ s -> forall st z st',
  reads st z -> scan_text st s = Ok st' -> finish_scan st' = [] ->
  exists r, wf_regex r = true /\ print_regex r = print_zipper z ++ s.
Proof.
  remember (length s) as n eqn:Hn. revert s Hn. induction (lt_wf n) as [n _ IH]. intros s -> Hb st z st' Hr E Hf.
  destruct (finish_nil _ Hf) as (He & Hc & Hg). destruct s as [|c s].
  { injection E as <-. exists (tree_of (close_last z)). split; [by apply tree_of_wf, close_last_wf, rd_wf with st|].
    pose proof (rd_depth _ _ Hr) as Hd. rewrite Hg in Hd. unfold print_zipper. rewrite app_nil_r.
    by destruct (z_outer z). }
  apply not_elem_of_cons in Hb as [Hnb Hb]. rewrite scan_text_cons in E. apply bind_ok in E as ([st1 s1] & E1 & E).
  destruct (decide (c = LBRACKET)) as [->|Hnk].
  - unfold scan_char in E1. rewrite (rd_class _ _ Hr) in E1. injection E1 as <- <-.
    destruct (class_closed _ _ _ E eq_refl Hc) as (body & k & -> & Hbody).
    rewrite scan_class_body in E by done.
    destruct (IH (length k) ltac:(cbn; rewrite length_app; cbn; lia) k eq_refl) with
      (st := with_last (with_class (with_last (with_class st true) (Some AClass)) false) (Some AClass))
      (z := push_atom (RClass body) z) (st' := st') as (r & Hw & Hp); try done.
    + intros Hin. apply Hb, elem_of_app. right. by right.
    + eapply reads_atom; done.
    + exists r. split; [done|]. rewrite Hp, push_atom_print, <- app_assoc. cbn [print_regex app]. by rewrite <- app_assoc.
  - pose proof (scan_text_errors _ _ _ E He) as He1. 
    destruct (read_char _ _ _ _ _ _ Hr (not_eq_sym Hnb) Hnk E1 He1) as (z1 & t & Hr1 & Ht & Hp).
    apply scan_char_shorter in E1. destruct (IH (length s1) ltac:(cbn; lia) s1 eq_refl) with (st := st1) (z := z1) (st' := st')
      as (r & Hw & Hpr); try done.
    + intros Hin. assert (LBRACE ∈ c :: s) as [?|?]%elem_of_cons by (rewrite Ht; apply elem_of_app; auto); done.
    + exists r. split; [done|]. by rewrite Hpr, Hp, Ht, <- app_assoc.
Qed.

(** ** The check decides the reference predicate *)

Lemma safe_regex_errors_scan p :
  p <> [] -> (length p <= MAX_SAFE_REGEX_LENGTH)%nat -> safe_regex_errors p = finish_scan <$> scan_text new_scan p.
Proof.
  intros Hp Hl. unfold safe_regex_errors. destruct p as [|c p]; [done|].
  by replace (MAX_SAFE_REGEX_LENGTH <? length (c :: p))%nat with false by (symmetry; apply Nat.ltb_ge; lia).
Qed.

Lemma exec_finish r st :
  wf_regex r = true -> sc_in_class st = false -> sc_groups st = [] -> sc_errors st = [] ->
  finish_scan (exec r st) = [] <-> safe_regex false r = true.
Proof.
  intros Hw Hc Hg He. unfold finish_scan. rewrite exec_class, exec_groups, Hc, Hg. cbn. rewrite app_nil_r.
  rewrite (exec_errors r Hw), He, Hg. cbn. naive_solver.
Qed.

Lemma safe_star_height g r : safe_regex g r = true -> (star_height r <= 1)%nat.
Proof.
  assert (forall x, repeats x = false -> star_height x = O) as Hr.
  { induction x; cbn; try done; rewrite ?orb_false_iff; try (intros [? ?]; by rewrite IHx1, IHx2). }
  revert g. induction r; intros g; cbn; rewrite ?andb_true_iff; try lia.
  - by apply IHr.
  - rewrite !negb_true_iff. intros [_ Hn]. rewrite (Hr _ Hn). lia.
  - intros [Hr1%IHr1 Hr2%IHr2]. lia.
  - intros [[_ Hr1%IHr1] Hr2%IHr2]. lia.
Qed.

(** C38: on the text of a syntax tree of one to a thousand characters the check
    returns, without errors exactly when the tree is safe: no alternation outside
    a group, no back reference, and under a quantifier neither an alternation nor
    another quantifier, so repetitions are never nested.  A text without braces
    is accepted exactly when it is the text of a safe tree. *)
Theorem safe_regex_errors_decides p :
  p <> [] -> (length p <= MAX_SAFE_REGEX_LENGTH)%nat ->
  (forall r, wf_regex r = true -> print_regex r = p ->
     exists errors, safe_regex_errors p = Ok errors /\ (errors = [] <-> safe_regex false r = true))
  /\ (LBRACE ∉ p ->
        safe_regex_errors p = Ok [] <->
        exists r, wf_regex r = true /\ print_regex r = p /\ safe_regex false r = true)
  /\ (forall r, safe_regex false r = true -> (star_height r <= 1)%nat).
Proof.
  intros Hp Hl. rewrite (safe_regex_errors_scan _ Hp Hl).
  assert (forall r, wf_regex r = true -> print_regex r = p -> scan_text new_scan p = Ok (exec r new_scan)) as Hs.
  { intros r Hw <-. rewrite <- (app_nil_r (print_regex r)). by rewrite scan_print. }
  split_and!.
  - intros r Hw Hpr. rewrite (Hs r Hw Hpr). cbn. eexists. split; [done|]. by apply exec_finish.
  - intros Hb. split.
    + intros E. destruct (scan_text new_scan p) as [st|] eqn:Hscan; [|done]. apply Ok_inj in E as Hf.
      destruct (read_text p Hb new_scan {| z_outer := []; z_here := {| b_before := None; b_seq := REmpty |}; z_last := None |} st)
        as (r & Hw & Hpr); try done.
      exists r. split_and!; try done. specialize (Hs r Hw Hpr). apply Ok_inj in Hs; subst st. by apply exec_finish in Hf.
    + intros (r & Hw & Hpr & Hsafe). rewrite (Hs r Hw Hpr). cbn. f_equal. by apply exec_finish.
  - intros r. apply safe_star_height.
Qed.

(** ** A quantifier that is not recognised *)

(** A text of characters that stand for themselves, as a tree. *)
Fixpoint literals (s : pytext) : regex := match s with [] => REmpty | c :: s' => RSeq (RLit c) (literals s') end.

Lemma literals_print s : print_regex (literals s) = s.
Proof. induction s as [|c s IH]; cbn; congruence. Qed.
Lemma literals_wf s : forallb plain_char s = true -> wf_regex (literals s) = true.
Proof.
  induction s as [|c s IH]; cbn; [done|]. rewrite andb_true_iff. intros [-> Hs]. rewrite IH by done. by destruct s.
Qed.
Lemma literals_safe g s : safe_regex g (literals s) = true.
Proof. by induction s. Qed.

Lemma number_plain n : number n = true -> forallb plain_char n = true.
Proof.
  intros (_ & Hn & _)%number_digits. apply forallb_forall. intros c Hc%list_elem_of_In.
  rewrite Forall_forall in Hn. specialize (Hn c Hc). unfold plain_char. apply negb_true_iff, bool_decide_eq_false.
  rewrite !elem_of_cons, elem_of_nil. unfold BACKSLASH, LBRACKET, LPAREN, RPAREN, BAR, STAR, PLUS, QUESTION, LBRACE. lia.
Qed.

(** the quantifier [{,n}] (at most n repetitions) is not recognised: a group
    repeated with it is accepted whatever is inside the group, nested repetitions
    and alternations included. *)
Theorem quantifier_without_minimum_accepted cap r n :
  wf_regex r = true -> safe_regex true r = true -> number n = true ->
  let p := print_regex (RGroup cap r) ++ LBRACE :: COMMA :: n ++ [RBRACE] in
  (length p <= MAX_SAFE_REGEX_LENGTH)%nat -> safe_regex_errors p = Ok [].
Proof.
  intros Hw Hs Hn p Hl. rewrite safe_regex_errors_scan; [|by destruct cap|done]. unfold p.
  rewrite (scan_print (RGroup cap r)) by done. set (st := exec (RGroup cap r) new_scan).
  rewrite scan_text_cons.
  assert (scan_char st LBRACE (COMMA :: n ++ [RBRACE]) = Ok (with_last st (Some ALiteral), COMMA :: n ++ [RBRACE])) as ->.
  { unfold scan_char. unfold st at 1. rewrite exec_class. reflexivity. }
  assert (forallb plain_char (COMMA :: n ++ [RBRACE]) = true) as Hp.
  { cbn. rewrite forallb_app, (number_plain _ Hn). done. }
  cbn [mbind result_bind]. rewrite <- (literals_print (COMMA :: n ++ [RBRACE])), <- (app_nil_r (print_regex _)).
  rewrite scan_print by (by apply literals_wf || (cbn [sc_in_class with_last]; unfold st; by rewrite exec_class)).
  cbn [fmap result_fmap]. unfold scan_text. cbn [length scan]. cbn [fmap result_fmap]. f_equal.
  apply exec_finish; [by apply literals_wf | | | | apply literals_safe]; cbn [sc_in_class sc_groups sc_errors with_last].
  - unfold st. by rewrite exec_class.
  - unfold st. by rewrite exec_groups.
  - unfold st. by apply (exec_errors (RGroup cap r)).
Qed.

(** ** On concrete patterns *)

Module SafeRegexWitness.
(** An identifier, and a classic of catastrophic backtracking. *)
Definition identifier : regex :=
  RSeq (RLit 94) (RSeq (RQuant (RClass (u "a-z")) QPlus) (RSeq (RGroup true (RAlt (RLit 97) (RLit 98))) (RLit 36))).
Definition nested : regex := RQuant (RGroup true (RQuant (RLit 97) QPlus)) QPlus.

Lemma decides_witness :
  (exists errors, safe_regex_errors (u "(a+)+") = Ok errors /\ (errors = [] <-> safe_regex false nested = true))
  /\ safe_regex_errors (u "^[a-z]+(a|b)$") = Ok [].
Proof.
  split.
  - destruct (safe_regex_errors_decides (u "(a+)+")) as (H & _ & _); [discriminate | apply Nat.leb_le; reflexivity |].
    apply H; reflexivity.
  - destruct (safe_regex_errors_decides (u "^[a-z]+(a|b)$")) as (_ & H & _); [discriminate | apply Nat.leb_le; reflexivity |].
    apply H; [|by exists identifier]. apply (bool_decide_unpack _). vm_compute. exact I.
Defined.

Lemma without_minimum_witness : safe_regex_errors (u "(a+){,30}") = Ok [].
Proof.
  apply (quantifier_without_minimum_accepted true (RQuant (RLit 97) QPlus) (u "30"));
    [reflexivity | reflexivity | reflexivity | apply Nat.leb_le; reflexivity].
Defined.
End SafeRegexWitness.
