(* ===== verification/Json.v ===== *)
(** JSON values as Python sees them after [json.loads], with the operations the
    services apply to them: [dict.get], [in], [==] and the comparison of
    numbers. *)
From S2P Require Import Prelude PyText.
From Stdlib Require Import SpecFloat.
Open Scope Z_scope.

(** A [dict] keeps its keys in insertion order; a key occurs once. *)
Inductive json :=
  | JNull
  | JBool (b : bool)
  | JInt (z : Z)
  | JFloat (f : spec_float)
  | JStr (s : pytext)
  | JList (l : list json)
  | JDict (fields : list (pytext * json)).

(** The height of a value, a bound for the recursions on it. *)
Fixpoint height (j : json) : nat :=
  match j with
  | JList l => S (foldr (fun x n => Nat.max (height x) n) O l)
  | JDict fields => S (foldr (fun p n => Nat.max (height p.2) n) O fields)
  | _ => O
  end.

Lemma height_item l x : x ∈ l -> (height x < height (JList l))%nat.
Proof.
  cbn. induction l as [|y l IH]; [by intros ?%elem_of_nil|]. intros [<-|Hx]%elem_of_cons; cbn; [lia|].
  specialize (IH Hx). lia.
Qed.
Lemma height_field fields k x : (k, x) ∈ fields -> (height x < height (JDict fields))%nat.
Proof.
  cbn. induction fields as [|[k' y] l IH]; [by intros ?%elem_of_nil|].
  intros [[= <- <-]|Hx]%elem_of_cons; cbn; [lia|]. specialize (IH Hx). lia.
Qed.

(** [fields.get(key)]. *)
Fixpoint field (key : pytext) (fields : list (pytext * json)) : option json :=
  match fields with
  | [] => None
  | (k, v) :: rest => if decide (k = key) then Some v else field key rest
  end.
Definition has_field (key : pytext) (fields : list (pytext * json)) : bool := bool_decide (is_Some (field key fields)).

Lemma field_elem key fields v : field key fields = Some v -> (key, v) ∈ fields.
Proof.
  induction fields as [|[k x] l IH]; [done|]. cbn. case_decide as Hk; [intros [= ->]; subst; left | right; auto].
Qed.

(** ** Numbers *)

(** The exact value of a number: mantissa and exponent of two, an infinity, or
    not a number. *)
Inductive exact_number := Finite (m e : Z) | Infinite (negative : bool) | NotANumber.

Definition value_of_float (f : spec_float) : exact_number :=
  match f with
  | S754_zero _ => Finite 0 0
  | S754_infinity s => Infinite s
  | S754_nan => NotANumber
  | S754_finite s m e => Finite (if s then Zneg m else Zpos m) e
  end.

(** [True] and [False] are the integers 1 and 0. *)
Definition number_of (j : json) : option exact_number :=
  match j with
  | JBool b => Some (Finite (if b then 1 else 0) 0)
  | JInt z => Some (Finite z 0)
  | JFloat f => Some (value_of_float f)
  | _ => None
  end.

(** Comparison of exact values; nothing compares with a NaN. *)
Definition compare_values (a b : exact_number) : option comparison :=
  match a, b with
  | NotANumber, _ | _, NotANumber => None
  | Infinite s, Infinite s' => Some (if Bool.eqb s s' then Eq else if s then Lt else Gt)
  | Infinite s, Finite _ _ => Some (if s then Lt else Gt)
  | Finite _ _, Infinite s => Some (if s then Gt else Lt)
  | Finite m e, Finite m' e' =>
      let low := Z.min e e' in Some (m * 2 ^ (e - low) ?= m' * 2 ^ (e' - low))
  end.

Definition type_error : app_error := UnexpectedError "TypeError".

(** [a < b]: raises unless both are numbers (or texts, which the callers exclude). *)
Definition less_than (a b : json) : result bool :=
  match number_of a, number_of b with
  | Some x, Some y => Ok (bool_decide (compare_values x y = Some Lt))
  | _, _ => Err type_error
  end.

(** ** Equality *)

(** [a == b]; dictionaries are equal when they have the same keys with equal
    values, in whatever order. *)
Fixpoint py_eq (a b : json) : bool :=
  match a, b with
  | JNull, JNull => true
  | JStr s, JStr t => bool_decide (s = t)
  | JList l, JList l' =>
      (fix go l l' := match l, l' with
                      | [], [] => true
                      | x :: r, y :: r' => py_eq x y && go r r'
                      | _, _ => false
                      end) l l'
  | JDict f, JDict g =>
      (length f =? length g)%nat
      && (fix go f := match f with
                      | [] => true
                      | (k, x) :: r => match field k g with Some y => py_eq x y | None => false end && go r
                      end) f
  | _, _ =>
      match number_of a, number_of b with
      | Some x, Some y => bool_decide (compare_values x y = Some Eq)
      | _, _ => false
      end
  end.

(** [t in s] for texts. *)
Fixpoint is_substring (t s : pytext) : bool :=
  bool_decide (take (length t) s = t) || match s with [] => false | _ :: s' => is_substring t s' end.

(** Whether a value can be looked up in a dictionary. *)
Definition hashable (j : json) : bool := match j with JList _ | JDict _ => false | _ => true end.

(** [value in container]. *)
Definition is_in (value container : json) : result bool :=
  match container with
  | JList l => Ok (existsb (py_eq value) l)
  | JDict fields =>
      if hashable value then Ok (match value with JStr s => has_field s fields | _ => false end) else Err type_error
  | JStr s => match value with JStr t => Ok (is_substring t s) | _ => Err type_error end
  | _ => Err type_error
  end.

Example float_equals_int : py_eq (JFloat (S754_finite false 3 1)) (JInt 6) = true.
Proof. reflexivity. Qed.
