(* ===== verification/JsonSchema.v ===== *)
(** JSON Schema assertions: [schema_pattern_errors] of [test_cases/safe_regex.py],
    [validate_json_schema] of [prompt_center/validator.py], and the checks around
    it in [test_cases/assertions.py]. *)
From S2P Require Import Prelude PyText Calendar SafeRegex Json.
Open Scope Z_scope.

(** ** Reports *)

(** Where in a schema or a value; the code writes it as a text. *)
Inductive path_item := PKey (key : pytext) | PIndex (i : nat).

(** One constructor per message. *)
Inductive schema_issue :=
  | SchemaNotObject | PatternNotText | UnsafePattern (message : string)
  | UnsupportedType | RequiredNotTexts | PropertiesNotObject
  | WrongType (expected : pytext) | TypeNotListed | NotInEnum | NotConst
  | MissingField (key : json) | ExtraField (key : pytext)
  | TooFewItems | TooManyItems | TooShort | PatternMismatch (pattern : pytext)
  | BelowMinimum | AboveMaximum.
Abbreviation issue := (list path_item * schema_issue)%type.

(** [flat_map] for a body that may raise. *)
Fixpoint concat_result {A B} (f : A -> result (list B)) (l : list A) : result (list B) :=
  match l with
  | [] => Ok []
  | x :: l' => a ← f x; b ← concat_result f l'; Ok (a ++ b)
  end.

(** [schema.get(key)]; a null is [None]. *)
Definition get (key : pytext) (fields : list (pytext * json)) : option json :=
  match field key fields with Some JNull => None | o => o end.

(** ** The patterns of a schema *)

Definition dict_keywords : list pytext := u <$> ["properties"; "patternProperties"; "dependentSchemas"].
Definition schema_keywords : list pytext :=
  u <$> ["items"; "additionalProperties"; "contains"; "propertyNames"; "not"; "if"; "then"; "else"].
Definition list_keywords : list pytext := u <$> ["allOf"; "anyOf"; "oneOf"; "prefixItems"].
Definition PATTERN : pytext := u "pattern".

Definition own_pattern_errors (fields : list (pytext * json)) (path : list path_item) : result (list issue) :=
  match field PATTERN fields with
  | None => Ok []
  | Some (JStr p) => map (fun e => (path ++ [PKey PATTERN], UnsafePattern e)) <$> safe_regex_errors p
  | Some _ => Ok [(path ++ [PKey PATTERN], PatternNotText)]
  end.

(** The subschemas a keyword holds, each with its place. *)
Definition dict_children (fields : list (pytext * json)) (keyword : pytext) : list (list path_item * json) :=
  match field keyword fields with
  | Some (JDict children) => (fun '(k, c) => ([PKey keyword; PKey k], c)) <$> children
  | _ => []
  end.
Definition schema_child (fields : list (pytext * json)) (keyword : pytext) : list (list path_item * json) :=
  match field keyword fields with Some (JDict c) => [([PKey keyword], JDict c)] | _ => [] end.
Definition list_children (fields : list (pytext * json)) (keyword : pytext) : list (list path_item * json) :=
  match field keyword fields with
  | Some (JList children) => imap (fun i c => ([PKey keyword; PIndex i], c)) children
  | _ => []
  end.
Definition subschemas (fields : list (pytext * json)) : list (list path_item * json) :=
  (dict_keywords ≫= dict_children fields) ++ (schema_keywords ≫= schema_child fields)
  ++ (list_keywords ≫= list_children fields).

(** [schema_pattern_errors]; the fuel bounds the nesting. *)
Fixpoint schema_pattern_errors (fuel : nat) (schema : json) (path : list path_item) : result (list issue) :=
  match schema, fuel with
  | JDict fields, S n =>
      own ← own_pattern_errors fields path;
      below ← concat_result (fun '(place, child) => schema_pattern_errors n child (path ++ place)) (subschemas fields);
      Ok (own ++ below)
  | JDict _, O => Ok []
  | _, _ => Ok [(path, SchemaNotObject)]
  end.

(** ** The definition of a schema *)

Definition allowed_types : list pytext :=
  u <$> ["object"; "array"; "string"; "number"; "integer"; "boolean"; "null"].

(** [item not in allowed_types], a set. *)
Definition unsupported_type (item : json) : result bool :=
  if hashable item
  then Ok (match item with JStr s => negb (bool_decide (s ∈ allowed_types)) | _ => true end)
  else Err type_error.

(** [any(f(x) for x in l)], which stops at the first that holds. *)
Fixpoint any_result {A} (f : A -> result bool) (l : list A) : result bool :=
  match l with
  | [] => Ok false
  | x :: l' => b ← f x; if b : bool then Ok true else any_result f l'
  end.

Definition type_errors (fields : list (pytext * json)) (path : list path_item) : result (list issue) :=
  match get (u "type") fields with
  | None => Ok []
  | Some t =>
      let values := match t with JList l => l | _ => [t] end in
      bad ← match values with [] => Ok true | _ => any_result unsupported_type values end;
      Ok (if bad : bool then [(path ++ [PKey (u "type")], UnsupportedType)] else [])
  end.

Definition is_text (j : json) : bool := match j with JStr _ => true | _ => false end.
Definition required_errors (fields : list (pytext * json)) (path : list path_item) : list issue :=
  match get (u "required") fields with
  | None => []
  | Some (JList l) => if forallb is_text l then [] else [(path ++ [PKey (u "required")], RequiredNotTexts)]
  | Some _ => [(path ++ [PKey (u "required")], RequiredNotTexts)]
  end.

(** [_schema_definition_errors]. *)
Fixpoint schema_definition_errors (fuel : nat) (schema : json) (path : list path_item) : result (list issue) :=
  match schema, fuel with
  | JDict fields, S n =>
      patterns ← schema_pattern_errors (S n) schema path;
      types ← type_errors fields path;
      properties ←
        match get (u "properties") fields with
        | None => Ok []
        | Some (JDict children) =>
            concat_result (fun '(k, c) => schema_definition_errors n c (path ++ [PKey (u "properties"); PKey k])) children
        | Some _ => Ok [(path ++ [PKey (u "properties")], PropertiesNotObject)]
        end;
      items ←
        match get (u "items") fields with
        | None => Ok []
        | Some c => schema_definition_errors n c (path ++ [PKey (u "items")])
        end;
      Ok (patterns ++ types ++ required_errors fields path ++ properties ++ items)
  | JDict _, O => Ok []
  | _, _ => Ok [(path, SchemaNotObject)]
  end.

(** [_schema_contains_pattern]. *)
Fixpoint schema_contains_pattern (schema : json) : bool :=
  match schema with
  | JDict fields => has_field PATTERN fields || existsb (fun p => schema_contains_pattern p.2) fields
  | JList l => existsb schema_contains_pattern l
  | _ => false
  end.

Definition MAX_REGEX_INPUT_LENGTH : nat := Z.to_nat 20000.

(** Whether [_reject_overlong_strings] raises. *)
Fixpoint has_overlong_string (value : json) : bool :=
  match value with
  | JStr s => (MAX_REGEX_INPUT_LENGTH <? length s)%nat
  | JDict fields => existsb (fun p => has_overlong_string p.2) fields
  | JList l => existsb has_overlong_string l
  | _ => false
  end.

(** ** Validation of a value *)

(** [_matches_type(value, expected)]: a type it does not know matches. *)
Definition matches_type (value expected : json) : result bool :=
  match expected with
  | JStr t =>
      let named name := bool_decide (t = u name) in
      Ok (if named "object" then match value with JDict _ => true | _ => false end
          else if named "array" then match value with JList _ => true | _ => false end
          else if named "string" then is_text value
          else if named "integer" then match value with JInt _ => true | _ => false end
          else if named "number" then match value with JInt _ | JFloat _ => true | _ => false end
          else if named "boolean" then match value with JBool _ => true | _ => false end
          else if named "null" then match value with JNull => true | _ => false end
          else true)
  | JList _ | JDict _ => Err type_error
  | _ => Ok true
  end.

(** The issue of a value of the wrong type, which ends its validation. *)
Definition type_issue (value : json) (fields : list (pytext * json)) : result (option schema_issue) :=
  match field (u "type") fields with
  | Some (JStr t) => b ← matches_type value (JStr t); Ok (if b : bool then None else Some (WrongType t))
  | Some (JList l) => b ← any_result (matches_type value) l; Ok (if b : bool then None else Some TypeNotListed)
  | _ => Ok None
  end.

(** [isinstance(j, int)]: booleans are integers. *)
Definition as_int (j : option json) : option Z :=
  match j with
  | Some (JInt z) => Some z
  | Some (JBool b) => Some (if b then 1 else 0)
  | _ => None
  end.
Definition below (n : nat) (bound : option Z) : bool := match bound with Some z => Z.of_nat n <? z | None => false end.
Definition above (n : nat) (bound : option Z) : bool := match bound with Some z => z <? Z.of_nat n | None => false end.
Definition report_if (b : bool) (path : list path_item) (i : schema_issue) : list issue := if b then [(path, i)] else [].

Definition constant_issues (value : json) (fields : list (pytext * json)) (path : list path_item) : result (list issue) :=
  unlisted ← match field (u "enum") fields with Some e => negb <$> is_in value e | None => Ok false end;
  let other := match field (u "const") fields with Some c => negb (py_eq value c) | None => false end in
  Ok (report_if unlisted path NotInEnum ++ report_if other path NotConst).

(** [key not in value], for a dictionary. *)
Definition missing_field (members : list (pytext * json)) (key : json) : result bool :=
  negb <$> is_in key (JDict members).
Definition required_issues (members fields : list (pytext * json)) (path : list path_item) : result (list issue) :=
  match field (u "required") fields with
  | Some (JList keys) =>
      concat_result (fun key => b ← missing_field members key; Ok (report_if b path (MissingField key))) keys
  | _ => Ok []
  end.
(** Reported in the order of the value, where the code goes through a set. *)
Definition extra_issues (members properties fields : list (pytext * json)) (path : list path_item) : list issue :=
  match field (u "additionalProperties") fields with
  | Some (JBool false) =>
      (fun '(k, _) => (path ++ [PKey k], ExtraField k)) <$> filter (fun p => has_field p.1 properties = false) members
  | _ => []
  end.

Definition number_issues (value : json) (fields : list (pytext * json)) (path : list path_item) : result (list issue) :=
  low ← match field (u "minimum") fields with Some m => less_than value m | None => Ok false end;
  high ← match field (u "maximum") fields with Some m => less_than m value | None => Ok false end;
  Ok (report_if low path BelowMinimum ++ report_if high path AboveMaximum).

(** The regular expressions of Python: [re.search(pattern, text) is not None]. *)
Class RegexEngine := { re_search : pytext -> pytext -> result bool }.

Section validation.
Context `{RegexEngine}.

Definition text_issues (s : pytext) (fields : list (pytext * json)) (path : list path_item) : result (list issue) :=
  let short := below (length s) (as_int (field (u "minLength") fields)) in
  mismatch ← match field PATTERN fields with
             | Some (JStr p) => b ← re_search p s; Ok (report_if (negb b) path (PatternMismatch p))
             | _ => Ok []
             end;
  Ok (report_if short path TooShort ++ mismatch).

(** [_validate]; the fuel bounds the nesting of the schema. *)
Fixpoint validate (fuel : nat) (value schema : json) (path : list path_item) : result (list issue) :=
  match schema, fuel with
  | JDict fields, S n =>
      wrong ← type_issue value fields;
      match wrong with
      | Some i => Ok [(path, i)]
      | None =>
          constants ← constant_issues value fields path;
          parts ←
            match value with
            | JDict members =>
                required ← required_issues members fields path;
                match field (u "properties") fields with
                | Some (JDict properties) =>
                    children ← concat_result (fun '(k, c) =>
                                 match field k members with
                                 | Some v => validate n v c (path ++ [PKey k])
                                 | None => Ok []
                                 end) properties;
                    Ok (required ++ children ++ extra_issues members properties fields path)
                | None => Ok (required ++ extra_issues members [] fields path)
                | Some _ => Ok required
                end
            | JList l =>
                let few := below (length l) (as_int (field (u "minItems") fields)) in
                let many := above (length l) (as_int (field (u "maxItems") fields)) in
                children ← match field (u "items") fields with
                           | Some (JDict c) =>
                               concat_result (fun '(i, v) => validate n v (JDict c) (path ++ [PIndex i]))
                                 (imap (fun i v => (i, v)) l)
                           | _ => Ok []
                           end;
                Ok (report_if few path TooFewItems ++ report_if many path TooManyItems ++ children)
            | JStr s => text_issues s fields path
            | JInt _ | JFloat _ => number_issues value fields path
            | _ => Ok []
            end;
          Ok (constants ++ parts)
      end
  | _, _ => Ok []
  end.

Definition validate_json_schema (value schema : json) : result (list issue) :=
  validate (S (height schema)) value schema [].

(** ** The assertion *)

Definition AssertionEvaluationError : app_error := UnexpectedError "AssertionEvaluationError".

(** The branch of [evaluate_deterministic_assertion] for a JSON Schema: whether
    the assertion passes.  [source] is what the value is taken from. *)
Definition json_schema_assertion (expected : json) (source : result json) : result bool :=
  schema_errors ← schema_definition_errors (S (height expected)) expected [];
  raise_unless (match schema_errors with [] => true | _ => false end) AssertionEvaluationError;;
  actual ← source;
  raise_if (schema_contains_pattern expected && has_overlong_string actual) AssertionEvaluationError;;
  errors ← validate_json_schema actual expected;
  Ok (match errors with [] => true | _ => false end).
End validation.
