(* ===== verification/JsonSchemaTheorems.v ===== *)
(** Properties of JSON Schema assertions: the recursions have enough fuel, and the
    regular expression engine only ever sees patterns that passed the check. *)
From S2P Require Import Prelude PyText Calendar SafeRegex Json JsonSchema.

(** ** Loops over parts *)

Lemma concat_result_ext {A B} (f g : A -> result (list B)) l :
  (forall x, x ∈ l -> f x = g x) -> concat_result f l = concat_result g l.
Proof.
  induction l as [|x l IH]; intros Hfg; [done|]. cbn. rewrite (Hfg x) by left.
  rewrite IH; [done|]. intros y Hy. apply Hfg. by right.
Qed.

Lemma concat_result_nil {A B} (f : A -> result (list B)) l x :
  concat_result f l = Ok [] -> x ∈ l -> f x = Ok [].
Proof.
  induction l as [|y l IH]; [by intros _ ?%elem_of_nil|]. cbn. intros (a & Ha & E)%bind_ok Hx.
  apply bind_ok in E as (b & Hb & E). apply Ok_inj, app_eq_nil in E as [-> ->].
  apply elem_of_cons in Hx as [->|Hx]; auto.
Qed.

Lemma bind_congr {A B} (m m' : result A) (k k' : A -> result B) :
  m = m' -> (forall a, k a = k' a) -> (m ≫= k) = (m' ≫= k').
Proof. intros ->. destruct m'; cbn; auto. Qed.

(** ** Enough fuel *)

Lemma subschemas_height fields place c : (place, c) ∈ subschemas fields -> (height c < height (JDict fields))%nat.
Proof.
  unfold subschemas. rewrite !elem_of_app, !list_elem_of_bind.
  intros [(k & Hc & _)|[(k & Hc & _)|(k & Hc & _)]].
  - unfold dict_children in Hc. destruct (field k fields) as [[]|] eqn:Hf; try by apply elem_of_nil in Hc.
    apply list_elem_of_fmap in Hc as ([k' c'] & [= -> ->] & Hc).
    pose proof (height_field _ _ _ Hc). pose proof (height_field _ _ _ (field_elem _ _ _ Hf)). lia.
  - unfold schema_child in Hc. destruct (field k fields) as [[]|] eqn:Hf; try by apply elem_of_nil in Hc.
    apply list_elem_of_singleton in Hc as [= -> ->]. by pose proof (height_field _ _ _ (field_elem _ _ _ Hf)).
  - unfold list_children in Hc. destruct (field k fields) as [[]|] eqn:Hf; try by apply elem_of_nil in Hc.
    apply list_elem_of_lookup in Hc as [i Hi]. rewrite list_lookup_imap in Hi.
    destruct (l !! i) as [x|] eqn:Hx; [|done]. injection Hi as <- <-. apply list_elem_of_lookup_2 in Hx.
    pose proof (height_item _ _ Hx). pose proof (height_field _ _ _ (field_elem _ _ _ Hf)). lia.
Qed.

Lemma schema_pattern_fuel n m schema path :
  (height schema < n)%nat -> (height schema < m)%nat ->
  schema_pattern_errors n schema path = schema_pattern_errors m schema path.
Proof.
  revert m schema path. induction n as [|n IH]; intros m schema path Hn Hm; [lia|]. destruct m as [|m]; [lia|].
  destruct schema as [| | | | | |fields]; try done. cbn [schema_pattern_errors].
  apply bind_congr; [done|]. intros own. apply bind_congr; [|done]. apply concat_result_ext. intros [place c] Hc%subschemas_height. apply IH; lia.
Qed.

Lemma get_elem key fields v : get key fields = Some v -> (key, v) ∈ fields.
Proof. unfold get. intros E. apply field_elem. destruct (field key fields) as [[]|]; by simplify_eq. Qed.

Lemma schema_definition_fuel n m schema path :
  (height schema < n)%nat -> (height schema < m)%nat ->
  schema_definition_errors n schema path = schema_definition_errors m schema path.
Proof.
  revert m schema path. induction n as [|n IH]; intros m schema path Hn Hm; [lia|]. destruct m as [|m]; [lia|].
  destruct schema as [| | | | | |fields]; try done. cbn [schema_definition_errors].
  apply bind_congr; [by apply schema_pattern_fuel|]. intros ps. apply bind_congr; [done|]. intros ts.
  apply bind_congr.
  - destruct (get (u "properties") fields) as [[| | | | | |children]|] eqn:Hp; try reflexivity.
    apply concat_result_ext. intros [k c] Hc. apply get_elem, height_field in Hp. apply height_field in Hc.
    apply IH; lia.
  - intros ws. apply bind_congr; [|reflexivity]. destruct (get (u "items") fields) as [c|] eqn:Hi; [|reflexivity].
    apply get_elem, height_field in Hi. apply IH; lia.
Qed.

Lemma validate_fuel `{RegexEngine} n m value schema path :
  (height schema < n)%nat -> (height schema < m)%nat -> validate n value schema path = validate m value schema path.
Proof.
  revert m value schema path. induction n as [|n IH]; intros m value schema path Hn Hm; [lia|]. destruct m as [|m]; [lia|].
  destruct schema as [| | | | | |fields]; try reflexivity. cbn [validate]. apply bind_congr; [reflexivity|].
  intros [i|]; [reflexivity|]. apply bind_congr; [reflexivity|]. intros cs. apply bind_congr; [|reflexivity].
  destruct value as [| | | | |l|members]; try reflexivity.
  - destruct (field (u "items") fields) as [[| | | | | |c]|] eqn:Hi; try reflexivity.
    apply bind_congr; [|reflexivity]. apply concat_result_ext. intros [i v] _.
    apply field_elem, height_field in Hi. apply IH; lia.
  - apply bind_congr; [reflexivity|]. intros rs.
    destruct (field (u "properties") fields) as [[| | | | | |children]|] eqn:Hp; try reflexivity.
    apply bind_congr; [|reflexivity]. apply concat_result_ext. intros [k c] Hc.
    apply field_elem, height_field in Hp. apply height_field in Hc.
    destruct (field k members); [|reflexivity]. apply IH; lia.
Qed.

(** ** Which patterns are run *)

(** The parts of a checked schema that [_validate] descends into are checked. *)
Lemma properties_checked n fields path children k c :
  schema_pattern_errors (S n) (JDict fields) path = Ok [] -> field (u "properties") fields = Some (JDict children) ->
  (k, c) ∈ children -> exists path', schema_pattern_errors n c path' = Ok [].
Proof.
  cbn [schema_pattern_errors]. intros (own & _ & E)%bind_ok Hp Hc. apply bind_ok in E as (bs & Hb & E).
  apply Ok_inj, app_eq_nil in E as [_ ->]. exists (path ++ [PKey (u "properties"); PKey k]).
  apply (concat_result_nil _ _ ([PKey (u "properties"); PKey k], c) Hb).
  unfold subschemas. apply elem_of_app. left. apply list_elem_of_bind. exists (u "properties"). split; [|left].
  unfold dict_children. rewrite Hp. apply list_elem_of_fmap. by exists (k, c).
Qed.

Lemma items_checked n fields path c :
  schema_pattern_errors (S n) (JDict fields) path = Ok [] -> field (u "items") fields = Some (JDict c) ->
  exists path', schema_pattern_errors n (JDict c) path' = Ok [].
Proof.
  cbn [schema_pattern_errors]. intros (own & _ & E)%bind_ok Hi. apply bind_ok in E as (bs & Hb & E).
  apply Ok_inj, app_eq_nil in E as [_ ->]. exists (path ++ [PKey (u "items")]).
  apply (concat_result_nil _ _ ([PKey (u "items")], JDict c) Hb).
  unfold subschemas. apply elem_of_app. right. apply elem_of_app. left.
  apply list_elem_of_bind. exists (u "items"). split; [|left].
  unfold schema_child. rewrite Hi. left.
Qed.

Lemma own_checked n fields path p :
  schema_pattern_errors (S n) (JDict fields) path = Ok [] -> field PATTERN fields = Some (JStr p) ->
  safe_regex_errors p = Ok [].
Proof.
  cbn [schema_pattern_errors]. intros (own & Ho & E)%bind_ok Hp. apply bind_ok in E as (bs & _ & E).
  apply Ok_inj, app_eq_nil in E as [-> _]. unfold own_pattern_errors in Ho. rewrite Hp in Ho.
  destruct (safe_regex_errors p) as [[|e l]|]; done.
Qed.

Lemma contains_field fields k c :
  (k, c) ∈ fields -> schema_contains_pattern c = true -> schema_contains_pattern (JDict fields) = true.
Proof.
  intros Hc Hp. cbn [schema_contains_pattern]. apply orb_true_iff. right. apply existsb_exists.
  exists (k, c). split; [by apply list_elem_of_In | done].
Qed.

Lemma overlong_field members k v :
  field k members = Some v -> has_overlong_string (JDict members) = false -> has_overlong_string v = false.
Proof.
  intros Hk%field_elem%list_elem_of_In Hf. cbn in Hf. destruct (has_overlong_string v) eqn:Hv; [|done].
  rewrite <- Hf. symmetry. apply existsb_exists. by exists (k, v).
Qed.
Lemma overlong_item l v : v ∈ l -> has_overlong_string (JList l) = false -> has_overlong_string v = false.
Proof.
  intros Hk%list_elem_of_In Hf. cbn in Hf. destruct (has_overlong_string v) eqn:Hv; [|done].
  rewrite <- Hf. symmetry. apply existsb_exists. by exists v.
Qed.

(** Two engines that agree on checked patterns and bounded texts. *)
Definition agree_on_safe (f g : RegexEngine) : Prop :=
  forall p s, safe_regex_errors p = Ok [] -> (length s <= MAX_REGEX_INPUT_LENGTH)%nat ->
    @re_search f p s = @re_search g p s.

Lemma text_issues_agree f g s fields path n path0 :
  agree_on_safe f g -> schema_pattern_errors (S n) (JDict fields) path0 = Ok [] ->
  (schema_contains_pattern (JDict fields) = true -> has_overlong_string (JStr s) = false) ->
  @text_issues f s fields path = @text_issues g s fields path.
Proof.
  intros Hfg Hc Hlong. unfold text_issues. apply bind_congr; [|reflexivity].
  destruct (field PATTERN fields) as [[| | | |p| |]|] eqn:Hp; try reflexivity.
  apply bind_congr; [|reflexivity]. apply Hfg; [by eapply own_checked|].
  assert (schema_contains_pattern (JDict fields) = true) as Hcp.
  { cbn [schema_contains_pattern]. unfold has_field. rewrite Hp. reflexivity. }
  specialize (Hlong Hcp). cbn in Hlong. by apply Nat.ltb_ge in Hlong.
Qed.

Lemma validate_agree f g n : agree_on_safe f g -> forall value schema path path0,
  schema_pattern_errors n schema path0 = Ok [] ->
  (schema_contains_pattern schema = true -> has_overlong_string value = false) ->
  @validate f n value schema path = @validate g n value schema path.
Proof.
  intros Hfg. induction n as [|n IH]; intros value schema path path0 Hc Hlong; [by destruct schema|].
  destruct schema as [| | | | | |fields]; try reflexivity. cbn [validate]. apply bind_congr; [reflexivity|].
  intros [i|]; [reflexivity|]. apply bind_congr; [reflexivity|]. intros cs. apply bind_congr; [|reflexivity].
  destruct value as [| | | |s|l|members]; try reflexivity.
  - by eapply text_issues_agree.
  - destruct (field (u "items") fields) as [[| | | | | |c]|] eqn:Hi; try reflexivity.
    apply bind_congr; [|reflexivity]. apply concat_result_ext. intros [i v] Hv.
    apply list_elem_of_lookup in Hv as [j Hj]. rewrite list_lookup_imap in Hj.
    destruct (l !! j) as [x|] eqn:Hx; [|done]. injection Hj as <- <-. apply list_elem_of_lookup_2 in Hx.
    destruct (items_checked _ _ _ _ Hc Hi) as [path' Hc']. eapply IH; [exact Hc'|]. intros Hp.
    eapply overlong_item; [exact Hx|]. apply Hlong. eapply contains_field; [by apply field_elem | done].
  - apply bind_congr; [reflexivity|]. intros rs.
    destruct (field (u "properties") fields) as [[| | | | | |children]|] eqn:Hp; try reflexivity.
    apply bind_congr; [|reflexivity]. apply concat_result_ext. intros [k c] Hkc.
    destruct (field k members) as [v|] eqn:Hv; [|reflexivity].
    destruct (properties_checked _ _ _ _ _ _ Hc Hp Hkc) as [path' Hc']. eapply IH; [exact Hc'|]. intros Hcp.
    eapply overlong_field; [exact Hv|]. apply Hlong. eapply contains_field; [by apply field_elem|].
    eapply contains_field; [exact Hkc | done].
Qed.

(** C39: a JSON Schema assertion runs the regular expression engine only on
    patterns that the safety check accepts and on texts of at most 20000
    characters: its result is the same for any two engines that agree there,
    whatever they do (run forever, raise) elsewhere.  The fuel of its recursions
    is enough: more of it changes nothing. *)
Theorem json_schema_runs_safe_patterns f g expected source :
  agree_on_safe f g ->
  @json_schema_assertion f expected source = @json_schema_assertion g expected source
  /\ (forall n value path, (height expected < n)%nat ->
        @validate f n value expected path = @validate f (S (height expected)) value expected path
        /\ schema_definition_errors n expected path = schema_definition_errors (S (height expected)) expected path).
Proof.
  intros Hfg. split.
  2: { intros n value path Hn. split; [apply validate_fuel; lia | apply schema_definition_fuel; lia]. }
  unfold json_schema_assertion. destruct (schema_definition_errors _ _ _) as [errs|e] eqn:Hd; [|reflexivity].
  cbn [mbind result_bind]. destruct errs as [|e errs]; [|reflexivity]. cbn [raise_unless mbind result_bind].
  apply bind_congr; [reflexivity|]. intros actual.
  destruct (schema_contains_pattern expected && has_overlong_string actual) eqn:Hl; [reflexivity|].
  cbn [raise_if mbind result_bind]. apply bind_congr; [|reflexivity]. unfold validate_json_schema.
  apply andb_false_iff in Hl.
  destruct expected as [| | | | | |fields]; try reflexivity. cbn [schema_definition_errors] in Hd.
  apply bind_ok in Hd as (ps & Hps & Hd). apply bind_ok in Hd as (ts & _ & Hd). apply bind_ok in Hd as (ws & _ & Hd).
  apply bind_ok in Hd as (qs & _ & Hd). apply Ok_inj, app_eq_nil in Hd as [-> _].
  eapply validate_agree; [exact Hfg | exact Hps|]. intros Hp. destruct Hl as [Hl|Hl]; congruence.
Qed.

(** ** On a concrete schema *)

Module JsonSchemaWitness.
(** An object whose name is an identifier. *)
Definition schema : json :=
  JDict [(u "type", JStr (u "object"));
         (u "properties", JDict [(u "name", JDict [(u "type", JStr (u "string")); (PATTERN, JStr (u "^[a-z]+$"))])])].
Definition reply (name : string) : json := JDict [(u "name", JStr (u name))].

(** An engine for this one pattern, and one that raises on all others. *)
Definition identifier (s : pytext) : bool :=
  match s with [] => false | _ => forallb (fun c => (97 <=? c)%N && (c <=? 122)%N) s end.
Definition lenient : RegexEngine := {| re_search := fun _ s => Ok (identifier s) |}.
Definition strict : RegexEngine :=
  {| re_search := fun p s => match safe_regex_errors p with Ok [] => Ok (identifier s) | _ => Err (UnexpectedError "unsafe") end |}.

Lemma json_schema_witness :
  @json_schema_assertion strict schema (Ok (reply "alice")) = Ok true
  /\ @json_schema_assertion strict schema (Ok (reply "Bob")) = Ok false.
Proof.
  assert (agree_on_safe strict lenient) as Hag by (intros p s Hp _; cbn; rewrite Hp; reflexivity).
  split.
  - destruct (json_schema_runs_safe_patterns strict lenient schema (Ok (reply "alice")) Hag) as [E _].
    rewrite E. vm_compute. reflexivity.
  - destruct (json_schema_runs_safe_patterns strict lenient schema (Ok (reply "Bob")) Hag) as [E _].
    rewrite E. vm_compute. reflexivity.
Defined.
End JsonSchemaWitness.
