(* ===== verification/PyJson.v ===== *)
(** Python's [json] module and the text of numbers: [json.dumps] with
    [ensure_ascii=False, separators=(",", ":")], [json.loads], [repr] of a float,
    [float] of a decimal, and the length of a text in UTF-8.  Python's recursion
    limit is not modelled. *)
From stdpp Require Import pretty.
From S2P Require Import Prelude PyText Calendar Json.
From Stdlib Require Import SpecFloat.
Open Scope Z_scope.

(** ** Decimal and binary numbers *)

(** The float nearest to [m * 10^e], ties to even.  Below zero the quotient by
    the power of ten is taken with at least 64 bits to spare, and its lowest bit
    records that digits were cut off. *)
Definition float_of_decimal (m e : Z) : spec_float :=
  if decide (m = 0) then S754_zero false
  else if decide (0 <= e) then binary_normalize Float64.prec Float64.emax (m * 10 ^ e) 0 false
  else
    let d := 10 ^ (- e) in
    let s := Z.log2 d + 64 in
    let q := m * 2 ^ s / d in
    let sticky := if decide (m * 2 ^ s mod d = 0) then 0 else 1 in
    binary_normalize Float64.prec Float64.emax (2 * q + sticky) (- s - 1) false.

#[global] Instance spec_float_eq_dec : EqDecision spec_float.
Proof. solve_decision. Defined.

(** The number [k] with [10^(k-1) <= num/den < 10^k], searched downwards. *)
Fixpoint decimal_point (fuel : nat) (num den k : Z) : Z :=
  match fuel with
  | O => k
  | S fuel' =>
      let at_least := if decide (0 <= k - 1) then bool_decide (den * 10 ^ (k - 1) <= num)
                      else bool_decide (den <= num * 10 ^ (1 - k)) in
      if at_least then k else decimal_point fuel' num den (k - 1)
  end.

(** The digits of the shortest decimal that reads back as [f = num/den], the one
    closest to [f] among those of the same length, and its decimal point. *)
Fixpoint shortest_digits (fuel : nat) (n : Z) (f : spec_float) (num den k : Z) : Z * Z :=
  let e := k - n in
  let scaled := if decide (0 <= e) then (num, den * 10 ^ e) else (num * 10 ^ (- e), den) in
  let q := scaled.1 / scaled.2 in
  let r := scaled.1 mod scaled.2 in
  let down := bool_decide (float_of_decimal q e = f) in
  let up := bool_decide (float_of_decimal (q + 1) e = f) in
  let nearer_up := bool_decide (scaled.2 < 2 * r) || bool_decide (2 * r = scaled.2) && Z.odd q in
  match fuel with
  | O => (q, e)
  | S fuel' =>
      if down && up then (if nearer_up then (q + 1, e) else (q, e))
      else if down then (q, e)
      else if up then (q + 1, e)
      else shortest_digits fuel' (n + 1) f num den k
  end.

Definition int_text (z : Z) : pytext := u (pretty z).

Definition zeros (n : Z) : pytext := replicate (Z.to_nat n) 48%N.

(** The trailing zeros of a run of digits are not printed. *)
Definition trim_zeros (ds : pytext) : pytext :=
  reverse (snd (span (N.eqb 48) (reverse ds))).

(** [repr] of a positive float with the digits [ds] and the decimal point [p]. *)
Definition format_float (ds : pytext) (p : Z) : pytext :=
  let n := Z.of_nat (length ds) in
  if decide (-4 < p /\ p <= 16) then
    if decide (p <= 0) then u "0." ++ zeros (- p) ++ ds
    else if decide (n <= p) then ds ++ zeros (p - n) ++ u ".0"
    else take (Z.to_nat p) ds ++ u "." ++ drop (Z.to_nat p) ds
  else
    let x := p - 1 in
    take 1 ds ++ (if decide (n = 1) then [] else u "." ++ drop 1 ds)
    ++ u "e" ++ (if decide (x < 0) then u "-" else u "+")
    ++ (if decide (Z.abs x < 10) then u "0" else []) ++ int_text (Z.abs x).

(** [repr] of a float; the names of the special values are the caller's. *)
Definition float_text (nan inf : pytext) (f : spec_float) : pytext :=
  let sign (s : bool) := if s then u "-" else [] in
  match f with
  | S754_nan => nan
  | S754_infinity s => sign s ++ inf
  | S754_zero s => sign s ++ u "0.0"
  | S754_finite s m e =>
      let num := Zpos m * 2 ^ Z.max e 0 in
      let den := 2 ^ Z.max (- e) 0 in
      let top := (Z.log2 num - Z.log2 den) * 30103 / 100000 + 2 in
      let k := decimal_point 4 num den top in
      let '(q, e10) := shortest_digits 17 1 (S754_finite false m e) num den k in
      let ds := int_text q in
      sign s ++ format_float (trim_zeros ds) (Z.of_nat (length ds) + e10)
  end.

Definition float_repr : spec_float -> pytext := float_text (u "nan") (u "inf").

(** ** [json.dumps] *)

Definition hex_digit (n : N) : N := if (n <? 10)%N then (48 + n)%N else (87 + n)%N.

(** A character of a JSON string. *)
Definition escape_char (c : N) : pytext :=
  if (c =? 34)%N then u "\" ++ [34%N]
  else if (c =? 92)%N then u "\\"
  else if (c =? 10)%N then u "\n"
  else if (c =? 13)%N then u "\r"
  else if (c =? 9)%N then u "\t"
  else if (c =? 12)%N then u "\f"
  else if (c =? 8)%N then u "\b"
  else if (c <? 32)%N then u "\u00" ++ [hex_digit (c / 16); hex_digit (c mod 16)]
  else [c].

Definition quoted (s : pytext) : pytext := [34%N] ++ mjoin (escape_char <$> s) ++ [34%N].

Fixpoint json_dumps (j : json) : pytext :=
  match j with
  | JNull => u "null"
  | JBool b => if b then u "true" else u "false"
  | JInt z => int_text z
  | JFloat f => float_text (u "NaN") (u "Infinity") f
  | JStr s => quoted s
  | JList l => u "[" ++ join 44 (map json_dumps l) ++ u "]"
  | JDict fields =>
      u "{" ++ join 44 (map (fun '(k, v) => quoted k ++ u ":" ++ json_dumps v) fields) ++ u "}"
  end.

(** [allow_nan=False]: a number that is not finite raises [ValueError]. *)
Fixpoint finite_numbers (j : json) : bool :=
  match j with
  | JFloat f => match f with S754_nan | S754_infinity _ => false | _ => true end
  | JList l => forallb finite_numbers l
  | JDict fields => forallb (fun p => finite_numbers p.2) fields
  | _ => true
  end.

(** [len(s.encode("utf-8"))]; a lone surrogate raises [UnicodeEncodeError]. *)
Definition utf8_width (c : N) : option Z :=
  if (c <? 128)%N then Some 1
  else if (c <? 2048)%N then Some 2
  else if ((55296 <=? c) && (c <=? 57343))%N then None
  else if (c <? 65536)%N then Some 3
  else Some 4.

Fixpoint utf8_length (s : pytext) : option Z :=
  match s with
  | [] => Some 0
  | c :: s' => w ← utf8_width c; n ← utf8_length s'; Some (w + n)
  end.

Example repr_tenth : float_repr (float_of_decimal 1 (-1)) = u "0.1".
Proof. vm_compute. reflexivity. Qed.
Example repr_sum : float_repr (float_of_decimal 30000000000000004 (-17)) = u "0.30000000000000004".
Proof. vm_compute. reflexivity. Qed.
Example repr_large : float_repr (float_of_decimal 1 16) = u "1e+16".
Proof. vm_compute. reflexivity. Qed.
Example repr_integral : float_repr (float_of_decimal 1234567 0) = u "1234567.0".
Proof. vm_compute. reflexivity. Qed.
Example repr_small : float_repr (float_of_decimal 125 (-7)) = u "1.25e-05".
Proof. vm_compute. reflexivity. Qed.
Example repr_least : float_repr (S754_finite false 1 (-1074)) = u "5e-324".
Proof. vm_compute. reflexivity. Qed.
Example repr_greatest : float_repr (S754_finite false 9007199254740991 971) = u "1.7976931348623157e+308".
Proof. vm_compute. reflexivity. Qed.
Example dumps_object : json_dumps (JDict [(u "a", JList [JInt (-3); JNull; JBool true]); (u "b", JStr (u "x"))])
  = u "{" ++ quoted (u "a") ++ u ":[-3,null,true]," ++ quoted (u "b") ++ u ":" ++ quoted (u "x") ++ u "}".
Proof. vm_compute. reflexivity. Qed.

(** ** [json.loads] *)

(** [fields[key] = value]. *)
Fixpoint set_field (key : pytext) (value : json) (fields : list (pytext * json)) : list (pytext * json) :=
  match fields with
  | [] => [(key, value)]
  | (k, v) :: rest => if decide (k = key) then (k, value) :: rest else (k, v) :: set_field key value rest
  end.

Lemma field_set_field key value fields :
  field key (set_field key value fields) = Some value.
Proof.
  induction fields as [|[k v] l IH]; cbn; [by rewrite decide_True|].
  case_decide; cbn; [by rewrite decide_True | by rewrite decide_False].
Qed.
Lemma field_set_field_ne key key' value fields :
  key <> key' -> field key' (set_field key value fields) = field key' fields.
Proof.
  intros Hne. induction fields as [|[k v] l IH]; cbn; [by rewrite decide_False|].
  case_decide; subst; cbn; [by rewrite !decide_False | case_decide; [done | apply IH]].
Qed.

Definition json_space (c : N) : bool := ((c =? 32) || (c =? 9) || (c =? 10) || (c =? 13))%N.
Definition skip_json_space (s : pytext) : pytext := snd (span json_space s).
Definition ascii_digit (c : N) : bool := ((48 <=? c) && (c <=? 57))%N.

Fixpoint digits_value (acc : Z) (ds : pytext) : Z :=
  match ds with [] => acc | d :: ds' => digits_value (acc * 10 + Z.of_N (d - 48)) ds' end.

Definition take_digits (s : pytext) : pytext * pytext := let '(n, r) := span ascii_digit s in (take n s, r).

Definition negate_float (f : spec_float) : spec_float :=
  match f with
  | S754_zero s => S754_zero (negb s)
  | S754_infinity s => S754_infinity (negb s)
  | S754_nan => S754_nan
  | S754_finite s m e => S754_finite (negb s) m e
  end.

(** The fraction [\.\d+] and the exponent [[eE][-+]?\d+] of a number, each optional. *)
Definition take_fraction (s : pytext) : option pytext * pytext :=
  match s with
  | 46%N :: r => let '(ds, r') := take_digits r in if decide (ds = []) then (None, s) else (Some ds, r')
  | _ => (None, s)
  end.
Definition take_exponent (s : pytext) : option Z * pytext :=
  match s with
  | c :: r =>
      if ((c =? 69) || (c =? 101))%N then
        let '(negative, r1) := match r with 45%N :: r' => (true, r') | 43%N :: r' => (false, r') | _ => (false, r) end in
        let '(ds, r2) := take_digits r1 in
        if decide (ds = []) then (None, s)
        else (Some (if negative : bool then - digits_value 0 ds else digits_value 0 ds), r2)
      else (None, s)
  | [] => (None, s)
  end.

(** A number without its sign.  An integer of more than 4300 digits raises
    [ValueError]. *)
Definition parse_unsigned (negative : bool) (s : pytext) : option (json * pytext) :=
  let '(ds, r) := match s with
                  | 48%N :: r => ([48%N], r)
                  | _ => take_digits s
                  end in
  if decide (ds = []) then None
  else
    let '(frac, r1) := take_fraction r in
    let '(expo, r2) := take_exponent r1 in
    match frac, expo with
    | None, None =>
        if (4300 <? length ds)%nat then None
        else let v := digits_value 0 ds in Some (JInt (if negative then - v else v), r2)
    | _, _ =>
        let fs := default [] frac in
        let f := float_of_decimal (digits_value 0 (ds ++ fs)) (default 0 expo - Z.of_nat (length fs)) in
        Some (JFloat (if negative then negate_float f else f), r2)
    end.

Definition hex_value (c : N) : option N :=
  if ((48 <=? c) && (c <=? 57))%N then Some (c - 48)%N
  else if ((97 <=? c) && (c <=? 102))%N then Some (c - 87)%N
  else if ((65 <=? c) && (c <=? 70))%N then Some (c - 55)%N
  else None.
Definition hex4 (s : pytext) : option (N * pytext) :=
  match s with
  | a :: b :: c :: d :: r =>
      a ← hex_value a; b ← hex_value b; c ← hex_value c; d ← hex_value d;
      Some ((((a * 16 + b) * 16 + c) * 16 + d)%N, r)
  | _ => None
  end.

(** A [\uXXXX] escape, joined with the low surrogate that may follow a high one. *)
Definition unicode_escape (s : pytext) : option (N * pytext) :=
  '(hi, r) ← hex4 s;
  if ((55296 <=? hi) && (hi <=? 56319))%N then
    match r with
    | 92%N :: 117%N :: r' =>
        match hex4 r' with
        | Some (lo, r'') =>
            if ((56320 <=? lo) && (lo <=? 57343))%N
            then Some ((65536 + (hi - 55296) * 1024 + (lo - 56320))%N, r'')
            else Some (hi, r)
        | None => Some (hi, r)
        end
    | _ => Some (hi, r)
    end
  else Some (hi, r).

Definition simple_escape (c : N) : option N :=
  if ((c =? 34) || (c =? 92) || (c =? 47))%N then Some c
  else if (c =? 98)%N then Some 8%N
  else if (c =? 102)%N then Some 12%N
  else if (c =? 110)%N then Some 10%N
  else if (c =? 114)%N then Some 13%N
  else if (c =? 116)%N then Some 9%N
  else None.

(** The rest of a string after its opening quote. *)
Fixpoint parse_string (fuel : nat) (s : pytext) : option (pytext * pytext) :=
  match fuel, s with
  | S fuel', c :: r =>
      if (c =? 34)%N then Some ([], r)
      else if (c =? 92)%N then
        match r with
        | 117%N :: r1 =>
            '(x, r2) ← unicode_escape r1; '(t, rest) ← parse_string fuel' r2; Some (x :: t, rest)
        | e :: r1 =>
            x ← simple_escape e; '(t, rest) ← parse_string fuel' r1; Some (x :: t, rest)
        | [] => None
        end
      else if (c <? 32)%N then None
      else '(t, rest) ← parse_string fuel' r; Some (c :: t, rest)
  | _, _ => None
  end.

Definition strip_prefix (p s : pytext) : option pytext :=
  if decide (take (length p) s = p) then Some (drop (length p) s) else None.

Definition finite_constants : list (pytext * json) :=
  [(u "null", JNull); (u "true", JBool true); (u "false", JBool false)].
Definition constants : list (pytext * json) :=
  finite_constants
  ++ [(u "NaN", JFloat S754_nan); (u "Infinity", JFloat (S754_infinity false));
      (u "-Infinity", JFloat (S754_infinity true))].

Fixpoint parse_constant (cs : list (pytext * json)) (s : pytext) : option (json * pytext) :=
  match cs with
  | [] => None
  | (name, v) :: rest => match strip_prefix name s with Some r => Some (v, r) | None => parse_constant rest s end
  end.

(** The two hooks of a decoder: the names it takes for constants, and
    [object_pairs_hook], what it makes of the members of an object in the order of
    the text; [None] stands for [ValueError]. *)
Record decoder := {
  dec_constants : list (pytext * json);
  dec_object : list (pytext * json) -> option (list (pytext * json));
}.

(** [dict(pairs)]: a later member replaces the value of an earlier one. *)
Definition dict_of_pairs (pairs : list (pytext * json)) : list (pytext * json) :=
  foldl (fun acc p => set_field p.1 p.2 acc) [] pairs.
Definition default_decoder : decoder :=
  {| dec_constants := constants; dec_object := fun pairs => Some (dict_of_pairs pairs) |}.

Section Decoder.
Context (dec : decoder).

Definition parse_scalar (s : pytext) : option (json * pytext) :=
  match parse_constant (dec_constants dec) s with
  | Some p => Some p
  | None => match s with 45%N :: r => parse_unsigned true r | _ => parse_unsigned false s end
  end.

(** What follows the opening bracket of an array that is not empty; [pv] reads a
    value. *)
Fixpoint parse_items (pv : pytext -> option (json * pytext)) (n : nat) (s : pytext) : option (list json * pytext) :=
  match n with
  | O => None
  | S n' =>
      '(v, r) ← pv (skip_json_space s);
      match skip_json_space r with
      | 44%N :: r' => '(vs, rest) ← parse_items pv n' r'; Some (v :: vs, rest)
      | 93%N :: r' => Some ([v], r')
      | _ => None
      end
  end.

(** One member of an object. *)
Definition parse_member (pv : pytext -> option (json * pytext)) (s : pytext) : option (pytext * json * pytext) :=
  match skip_json_space s with
  | 34%N :: r =>
      '(k, r1) ← parse_string (length r) r;
      match skip_json_space r1 with
      | 58%N :: r2 => '(v, r3) ← pv (skip_json_space r2); Some (k, v, r3)
      | _ => None
      end
  | _ => None
  end.
Fixpoint parse_members (pv : pytext -> option (json * pytext)) (n : nat) (s : pytext)
  : option (list (pytext * json) * pytext) :=
  match n with
  | O => None
  | S n' =>
      '(p, r) ← parse_member pv s;
      match skip_json_space r with
      | 44%N :: r' => '(ps, rest) ← parse_members pv n' r'; Some (p :: ps, rest)
      | 125%N :: r' => Some ([p], r')
      | _ => None
      end
  end.

(** One value.  Every call consumes a character, so the length of the text is
    enough fuel. *)
Fixpoint parse_value (fuel : nat) (s : pytext) : option (json * pytext) :=
  match fuel with
  | O => None
  | S fuel' =>
      match s with
      | 34%N :: r => '(t, rest) ← parse_string (length r) r; Some (JStr t, rest)
      | 91%N :: r =>
          match skip_json_space r with
          | 93%N :: r' => Some (JList [], r')
          | _ => '(vs, rest) ← parse_items (parse_value fuel') (length r) r; Some (JList vs, rest)
          end
      | 123%N :: r =>
          match skip_json_space r with
          | 125%N :: r' => fs ← dec_object dec []; Some (JDict fs, r')
          | _ =>
              '(ps, rest) ← parse_members (parse_value fuel') (length r) r;
              fs ← dec_object dec ps; Some (JDict fs, rest)
          end
      | _ => parse_scalar s
      end
  end.

(** [json.loads(s)] with the decoder's hooks; [None] stands for [ValueError]. *)
Definition json_loads_with (s : pytext) : option json :=
  '(v, r) ← parse_value (S (length s)) (skip_json_space s);
  if decide (skip_json_space r = []) then Some v else None.
End Decoder.

Definition json_loads : pytext -> option json := json_loads_with default_decoder.

Example loads_number : json_loads (u " -12 ") = Some (JInt (-12)).
Proof. vm_compute. reflexivity. Qed.
Example loads_float : json_loads (u "2.5e-1") = Some (JFloat (float_of_decimal 25 (-2))).
Proof. vm_compute. reflexivity. Qed.
Example loads_leading_zero : json_loads (u "007") = None.
Proof. vm_compute. reflexivity. Qed.
Example loads_dumps :
  let v := JDict [(u "a", JList [JInt 1; JStr (u "x\é"); JDict []]); (u "b", JFloat (float_of_decimal 1 (-1)))] in
  json_loads (json_dumps v) = Some v.
Proof. vm_compute. reflexivity. Qed.
