(* ===== verification/PyJsonLemmas.v ===== *)
(** [json.loads] reads back what [json.dumps] wrote, for values without floats
    whose objects have distinct keys; and the text of integers. *)
From stdpp Require Import pretty.
From S2P Require Import Prelude PyText Calendar Json PyJson.
From Stdlib Require Import Ascii.
Open Scope Z_scope.

(** ** The decimal text of an integer *)

Lemma u_ascii c s : (N_of_ascii c < 128)%N -> u (String c s) = N_of_ascii c :: u s.
Proof. intros Hc. unfold u. cbn. by rewrite (proj2 (N.ltb_lt _ _) Hc). Qed.

Lemma pretty_N_char_code n : (n < 10)%N -> N_of_ascii (pretty_N_char n) = (48 + n)%N.
Proof.
  intros Hn. assert (n ∈ [0; 1; 2; 3; 4; 5; 6; 7; 8; 9]%N) as Hin.
  { rewrite !elem_of_cons. lia. }
  repeat (apply elem_of_cons in Hin as [-> | Hin]; [reflexivity|]). by apply elem_of_nil in Hin.
Qed.

Lemma digits_value_app acc l l' : digits_value acc (l ++ l') = digits_value (digits_value acc l) l'.
Proof. revert acc. induction l as [|d l IH]; intros acc; [done|]. apply IH. Qed.

(** The digits of a number: its value, no leading zero, no more of them than its
    size allows. *)
Record digits_of (x : Z) (ds : pytext) : Prop := {
  do_digits : Forall (fun c => ascii_digit c = true) ds;
  do_value : digits_value 0 ds = x;
  do_head : exists d r, ds = d :: r /\ d <> 48%N;
  do_size : 10 ^ (Z.of_nat (length ds) - 1) <= x;
}.

Lemma pretty_go_digits (x : N) : (0 < x)%N ->
  exists ds, digits_of (Z.of_N x) ds /\ forall s, u (pretty_N_go x s) = ds ++ u s.
Proof.
  induction (N.lt_wf_0 x) as [x _ IH]. intros Hx.
  pose proof (N.mod_lt x 10 ltac:(lia)) as Hm. pose proof (N.div_mod x 10 ltac:(lia)) as Hd.
  assert (forall s, u (String (pretty_N_char (x mod 10)) s) = (48 + x mod 10)%N :: u s) as Hu.
  { intros s. rewrite u_ascii; rewrite pretty_N_char_code by lia; [done | lia]. }
  assert (ascii_digit (48 + x mod 10)%N = true) as Hdig by (unfold ascii_digit; lia).
  destruct (decide (x / 10 = 0)%N) as [Hz|Hz].
  - exists [(48 + x mod 10)%N]. split.
    + split; [by repeat constructor | cbn; lia | eexists _, _; split; [done | lia] | cbn; lia].
    + intros s. rewrite pretty_N_go_step by lia. rewrite Hz, pretty_N_go_0. apply Hu.
  - destruct (IH (x / 10)%N) as (ds & [Hds Hv (d & r & -> & Hne) Hs] & Hgo); [by apply N.div_lt; lia | lia|].
    exists ((d :: r) ++ [(48 + x mod 10)%N]). split.
    + split.
      * apply Forall_app. split; [done | by repeat constructor].
      * rewrite digits_value_app, Hv. cbn. lia.
      * eexists _, _. by split.
      * rewrite length_app. cbn [length] in *.
        replace (Z.of_nat (S (length r) + 1) - 1) with ((Z.of_nat (S (length r)) - 1) + 1) by lia.
        rewrite Z.pow_add_r by lia. lia.
    + intros s. rewrite pretty_N_go_step by lia. rewrite Hgo, Hu, <- app_assoc. done.
Qed.

Lemma pretty_digits (p : positive) : exists ds, digits_of (Zpos p) ds /\ u (pretty (Npos p)) = ds.
Proof.
  destruct (pretty_go_digits (Npos p) ltac:(lia)) as (ds & Hds & Hgo). exists ds. split; [done|].
  unfold pretty, pretty_N. rewrite decide_False by done. rewrite Hgo. by rewrite app_nil_r.
Qed.

Lemma int_text_zero : int_text 0 = [48%N].
Proof. reflexivity. Qed.
Lemma int_text_pos p : exists ds, digits_of (Zpos p) ds /\ int_text (Zpos p) = ds.
Proof. apply pretty_digits. Qed.
Lemma int_text_neg p : exists ds, digits_of (Zpos p) ds /\ int_text (Zneg p) = 45%N :: ds.
Proof.
  destruct (pretty_digits p) as (ds & Hds & E). exists ds. split; [done|]. unfold int_text.
  change (pretty (Zneg p)) with (String "-" (pretty (Npos p))). rewrite u_ascii by done. by rewrite E.
Qed.

(** ** Reading numbers *)

(** The integers [json.loads] reads: at most 4300 digits. *)
Definition int_limit : Z := 10 ^ 4300.

(** A text that does not continue a number. *)
Definition ends_number (s : pytext) : Prop :=
  match s with [] => True | c :: _ => (ascii_digit c || (c =? 46) || (c =? 69) || (c =? 101))%N = false end.

Lemma take_digits_app ds rest : Forall (fun c => ascii_digit c = true) ds -> ends_number rest ->
  take_digits (ds ++ rest) = (ds, rest).
Proof.
  intros Hds Hr. unfold take_digits.
  assert (span ascii_digit (ds ++ rest) = (length ds, rest)) as ->.
  { induction Hds as [|d ds Hd _ IH]; cbn; [|by rewrite Hd, IH].
    destruct rest as [|c r]; [done|]. cbn in *. apply orb_false_iff in Hr as [Hr _].
    apply orb_false_iff in Hr as [Hr _]. apply orb_false_iff in Hr as [-> _]. done. }
  by rewrite take_app_length.
Qed.

Lemma no_fraction rest : ends_number rest -> take_fraction rest = (None, rest).
Proof.
  destruct rest as [|c r]; [done|]. cbn. intros Hr. rewrite !orb_false_iff in Hr. destruct Hr as [[[_ Hp] _] _].
  apply N.eqb_neq in Hp. repeat case_match; done.
Qed.
Lemma no_exponent rest : ends_number rest -> take_exponent rest = (None, rest).
Proof.
  destruct rest as [|c r]; [done|]. unfold take_exponent. cbn [ends_number]. intros Hr.
  rewrite !orb_false_iff in Hr. destruct Hr as [[_ ->] ->]. done.
Qed.

Lemma digits_of_size x ds : digits_of x ds -> x < int_limit -> (length ds <= 4300)%nat.
Proof.
  intros [_ _ _ Hs] Hx. destruct (Nat.le_gt_cases (length ds) 4300) as [|Hl]; [done|]. exfalso.
  assert (int_limit <= 10 ^ (Z.of_nat (length ds) - 1)); [|lia].
  unfold int_limit. apply Z.pow_le_mono_r; lia.
Qed.

Lemma parse_unsigned_digits negative x ds rest :
  digits_of x ds -> x < int_limit -> ends_number rest ->
  parse_unsigned negative (ds ++ rest) = Some (JInt (if negative then - x else x), rest).
Proof.
  intros Hof Hx Hr. pose proof (digits_of_size _ _ Hof Hx) as Hsize. destruct Hof as [Hds Hv (d & r & -> & Hd) _].
  unfold parse_unsigned.
  assert (match (d :: r) ++ rest with 48%N :: r' => ([48%N], r') | _ => take_digits ((d :: r) ++ rest) end
          = (d :: r, rest)) as E.
  { rewrite <- (take_digits_app (d :: r) rest) by done. cbn [app]. repeat case_match; done. }
  rewrite E. rewrite decide_False by done. rewrite no_fraction, no_exponent by done.
  rewrite (proj2 (Nat.ltb_ge _ _)) by done. by rewrite Hv.
Qed.
Lemma parse_unsigned_zero rest : ends_number rest -> parse_unsigned false (48%N :: rest) = Some (JInt 0, rest).
Proof. intros Hr. unfold parse_unsigned. rewrite decide_False by done. by rewrite no_fraction, no_exponent. Qed.

(** ** Reading strings *)

Lemma parse_escaped fuel c r :
  parse_string (S fuel) (escape_char c ++ r) = '(t, rest) ← parse_string fuel r; Some (c :: t, rest).
Proof.
  destruct (decide (c < 32)%N) as [Hc|Hc].
  - assert (c ∈ (N.of_nat <$> seq 0 32)) as Hin.
    { apply list_elem_of_fmap. exists (N.to_nat c). split; [lia|]. apply elem_of_seq. lia. }
    cbn in Hin. repeat (apply elem_of_cons in Hin as [-> | Hin]; [reflexivity|]). by apply elem_of_nil in Hin.
  - unfold escape_char. destruct (N.eqb_spec c 34) as [->|H1]; [reflexivity|].
    destruct (N.eqb_spec c 92) as [->|H2]; [reflexivity|].
    rewrite (proj2 (N.eqb_neq c 10)), (proj2 (N.eqb_neq c 13)), (proj2 (N.eqb_neq c 9)), (proj2 (N.eqb_neq c 12)),
      (proj2 (N.eqb_neq c 8)), (proj2 (N.ltb_ge c 32)) by lia.
    cbn [app parse_string]. rewrite (proj2 (N.eqb_neq c 34)), (proj2 (N.eqb_neq c 92)), (proj2 (N.ltb_ge c 32)) by lia.
    done.
Qed.

Lemma parse_quoted s rest fuel : (length s < fuel)%nat ->
  parse_string fuel (mjoin (escape_char <$> s) ++ 34%N :: rest) = Some (s, rest).
Proof.
  revert fuel. induction s as [|c s IH]; intros [|fuel] Hf; cbn in Hf; try lia; [done|].
  change (mjoin (escape_char <$> c :: s)) with (escape_char c ++ mjoin (escape_char <$> s)).
  rewrite <- app_assoc, parse_escaped, IH by lia. done.
Qed.

Lemma escape_char_length c : (1 <= length (escape_char c))%nat.
Proof. unfold escape_char. repeat case_match; rewrite ?length_app; cbn [length]; (lia || by apply Nat.leb_le). Qed.
Lemma escaped_length s : (length s <= length (mjoin (escape_char <$> s)))%nat.
Proof.
  induction s as [|c s IH]; [done|].
  change (mjoin (escape_char <$> c :: s)) with (escape_char c ++ mjoin (escape_char <$> s)).
  rewrite length_app. pose proof (escape_char_length c). cbn. lia.
Qed.

(** ** Reading values *)

(** The values of the round trip: no floats, integers within the limit, and no
    key twice in an object. *)
Inductive plain : json -> Prop :=
  | plain_null : plain JNull
  | plain_bool b : plain (JBool b)
  | plain_int z : Z.abs z < int_limit -> plain (JInt z)
  | plain_str s : plain (JStr s)
  | plain_list l : Forall plain l -> plain (JList l)
  | plain_dict fields : NoDup fields.*1 -> Forall (fun p => plain p.2) fields -> plain (JDict fields).

(** A decoder that takes the JSON constants and keeps an object with distinct keys
    as it is. *)
Class ReadsBack (dec : decoder) : Prop := {
  rb_constants : dec_constants dec = finite_constants \/ dec_constants dec = constants;
  rb_object ps : NoDup ps.*1 -> dec_object dec ps = Some ps;
}.

Lemma set_field_new k v fields : k ∉ fields.*1 -> set_field k v fields = fields ++ [(k, v)].
Proof.
  induction fields as [|[k' v'] l IH]; [done|]. cbn. intros [Hne Hl]%not_elem_of_cons.
  rewrite decide_False by done. by rewrite IH.
Qed.
Lemma dict_of_pairs_distinct ps : NoDup ps.*1 -> dict_of_pairs ps = ps.
Proof.
  assert (forall acc, NoDup (acc ++ ps).*1 -> foldl (fun acc p => set_field p.1 p.2 acc) acc ps = acc ++ ps) as H;
    [|apply (H [])].
  induction ps as [|[k v] ps IH]; intros acc Hnd; cbn; [by rewrite app_nil_r|].
  assert (k ∉ acc.*1).
  { rewrite fmap_app in Hnd. apply NoDup_app in Hnd as (_ & Hx & _). intros Hk. apply (Hx _ Hk). cbn. left. }
  rewrite set_field_new by done. rewrite IH; rewrite <- app_assoc; done.
Qed.
#[global] Instance default_reads_back : ReadsBack default_decoder.
Proof. split; [by right|]. intros ps Hps. cbn. by rewrite dict_of_pairs_distinct. Qed.

Section RoundTrip.
Context (dec : decoder) `{!ReadsBack dec}.

Lemma skip_space_head c r : json_space c = false -> skip_json_space (c :: r) = c :: r.
Proof. intros Hc. unfold skip_json_space. cbn. by rewrite Hc. Qed.

(** No name of a constant begins like a number. *)
Definition not_numeric (name : pytext) : bool :=
  match name with
  | c :: r => negb (ascii_digit c)
              && (negb (c =? 45)%N || match r with d :: _ => negb (ascii_digit d) | [] => false end)
  | [] => false
  end.
Lemma constants_not_numeric : forallb (fun p => not_numeric p.1) (dec_constants dec) = true.
Proof. by destruct rb_constants as [-> | ->]. Qed.

Lemma no_constant_digit d s : ascii_digit d = true -> parse_constant (dec_constants dec) (d :: s) = None.
Proof.
  intros Hd. pose proof constants_not_numeric as H. induction (dec_constants dec) as [|[name v] cs IH]; [done|].
  cbn in *. apply andb_true_iff in H as [Hn H]. unfold strip_prefix.
  rewrite decide_False; [by apply IH|]. destruct name as [|c r]; [done|]. cbn. intros [= <- _]. cbn in Hn. by rewrite Hd in Hn.
Qed.
Lemma no_constant_minus d s : ascii_digit d = true -> parse_constant (dec_constants dec) (45%N :: d :: s) = None.
Proof.
  intros Hd. pose proof constants_not_numeric as H. induction (dec_constants dec) as [|[name v] cs IH]; [done|].
  cbn in *. apply andb_true_iff in H as [Hn H]. unfold strip_prefix.
  rewrite decide_False; [by apply IH|]. destruct name as [|c [|c' r]]; [done | by destruct (c =? 45)%N eqn:E; cbn in Hn; [|intros [= <-]]; rewrite ?E, ?andb_false_r in Hn|].
  cbn. intros [= <- <- _]. cbn in Hn. by rewrite Hd in Hn.
Qed.

Lemma digit_cases d : ascii_digit d = true -> d ∈ (N.of_nat <$> seq 48 10).
Proof.
  unfold ascii_digit. intros Hd. apply list_elem_of_fmap. exists (N.to_nat d). split; [lia|]. apply elem_of_seq. lia.
Qed.

Lemma parse_digit_value fuel d s : ascii_digit d = true ->
  parse_value dec (S fuel) (d :: s) = parse_unsigned false (d :: s).
Proof.
  intros Hd. transitivity (parse_scalar dec (d :: s)).
  - apply digit_cases in Hd. cbn in Hd.
    repeat (apply elem_of_cons in Hd as [-> | Hd]; [reflexivity|]). by apply elem_of_nil in Hd.
  - unfold parse_scalar. rewrite no_constant_digit by done. apply digit_cases in Hd. cbn in Hd.
    repeat (apply elem_of_cons in Hd as [-> | Hd]; [reflexivity|]). by apply elem_of_nil in Hd.
Qed.

Lemma parse_int fuel z rest : Z.abs z < int_limit -> ends_number rest ->
  parse_value dec (S fuel) (int_text z ++ rest) = Some (JInt z, rest).
Proof.
  intros Hz Hr. destruct z as [|p|p].
  - rewrite int_text_zero. cbn [app]. rewrite parse_digit_value by done. by apply parse_unsigned_zero.
  - destruct (int_text_pos p) as (ds & Hof & ->). pose proof Hof as [Hds _ (d & r & -> & _) _].
    cbn [app]. rewrite parse_digit_value by (by apply Forall_cons in Hds as [? _]).
    rewrite app_comm_cons. rewrite (parse_unsigned_digits false (Zpos p)); done.
  - destruct (int_text_neg p) as (ds & Hof & ->). pose proof Hof as [Hds _ (d & r & -> & _) _].
    transitivity (parse_scalar dec (45%N :: d :: r ++ rest)); [done|].
    unfold parse_scalar. rewrite no_constant_minus by (by apply Forall_cons in Hds as [? _]).
    rewrite app_comm_cons. rewrite (parse_unsigned_digits true (Zpos p)); done.
Qed.

(** The text of a value begins with a character that neither is white space nor
    closes an array. *)
Lemma dumps_head v : plain v -> exists c r, json_dumps v = c :: r /\ json_space c = false /\ c <> 93%N.
Proof.
  intros [|b|z Hz|s|l _|fields _ _]; try (eexists _, _; split; [reflexivity|]; split; [reflexivity | by intros [=]]).
  - destruct b; (eexists _, _; split; [reflexivity|]; split; [reflexivity | by intros [=]]).
  - assert (forall d, ascii_digit d = true -> json_space d = false /\ d <> 93%N) as Hd.
    { unfold ascii_digit, json_space. intros d Hd. lia. }
    destruct z as [|p|p]; [by eexists _, _ | |].
    + destruct (int_text_pos p) as (ds & [Hds _ (d & r & -> & _) _] & E). exists d, r. split; [done|].
      apply Hd. by apply Forall_cons in Hds as [? _].
    + destruct (int_text_neg p) as (ds & _ & E). by exists 45%N, ds.
Qed.

(** [pv] reads the text of [v] back, whatever follows. *)
Definition reads (pv : pytext -> option (json * pytext)) (v : json) : Prop :=
  forall rest, ends_number rest -> pv (json_dumps v ++ rest) = Some (v, rest).

Lemma skip_dumps v rest : plain v -> skip_json_space (json_dumps v ++ rest) = json_dumps v ++ rest.
Proof. intros (c & r & -> & Hc & _)%dumps_head. by apply skip_space_head. Qed.

Lemma parse_items_dumps pv l rest n :
  l <> [] -> (length l <= n)%nat -> Forall plain l -> Forall (reads pv) l ->
  parse_items pv n (join 44 (map json_dumps l) ++ 93%N :: rest) = Some (l, rest).
Proof.
  revert n. induction l as [|v l IH]; [done|]. intros [|n] _ Hn [Hv Hl]%Forall_cons [Rv Rl]%Forall_cons; cbn in Hn; [lia|].
  cbn [parse_items]. destruct l as [|v' l].
  - cbn [map join]. rewrite skip_dumps by done. rewrite Rv by done. done.
  - cbn [map join]. rewrite <- app_assoc, skip_dumps by done. rewrite Rv by done. cbn [mbind option_bind].
    rewrite <- app_comm_cons, skip_space_head by done.
    change (join 44 (json_dumps v' :: map json_dumps l)) with (join 44 (map json_dumps (v' :: l))).
    rewrite IH; [done | done | cbn in *; lia | done | done].
Qed.

Definition member_text (p : pytext * json) : pytext := quoted p.1 ++ u ":" ++ json_dumps p.2.

Lemma parse_member_dumps pv p rest : plain p.2 -> reads pv p.2 -> ends_number rest ->
  parse_member pv (member_text p ++ rest) = Some (p, rest).
Proof.
  intros Hp Rp Hr. unfold member_text, quoted. rewrite <- !app_assoc. cbn [app]. unfold parse_member.
  rewrite skip_space_head by done. rewrite parse_quoted.
  - cbn [mbind option_bind]. change (u ":" ++ json_dumps p.2 ++ rest) with (58%N :: json_dumps p.2 ++ rest).
    rewrite skip_space_head by done. rewrite skip_dumps, Rp by done. by destruct p.
  - rewrite length_app. pose proof (escaped_length p.1). cbn. lia.
Qed.

Lemma parse_members_dumps pv ps rest n :
  ps <> [] -> (length ps <= n)%nat -> Forall (fun p => plain p.2) ps -> Forall (fun p => reads pv p.2) ps ->
  parse_members pv n (join 44 (map member_text ps) ++ 125%N :: rest) = Some (ps, rest).
Proof.
  revert n. induction ps as [|p l IH]; [done|]. intros [|n] _ Hn [Hv Hl]%Forall_cons [Rv Rl]%Forall_cons; cbn in Hn; [lia|].
  cbn [parse_members]. destruct l as [|p' l].
  - cbn [map join]. rewrite parse_member_dumps by done. done.
  - cbn [map join]. rewrite <- app_assoc, parse_member_dumps by done. cbn [mbind option_bind].
    rewrite <- app_comm_cons, skip_space_head by done.
    change (join 44 (member_text p' :: map member_text l)) with (join 44 (map member_text (p' :: l))).
    rewrite IH; [done | done | cbn in *; lia | done | done].
Qed.

Lemma join_length {A} (f : A -> pytext) l : (forall x, x ∈ l -> f x <> []) -> (length l <= length (join 44 (map f l)))%nat.
Proof.
  intros Hf. induction l as [|x l IH]; [done|]. assert (1 <= length (f x))%nat.
  { destruct (f x) eqn:E; [exfalso; by apply (Hf x); [left|] | cbn; lia]. }
  destruct l as [|y l]; [cbn; lia|].
  change (join 44 (map f (x :: y :: l))) with (f x ++ 44%N :: join 44 (map f (y :: l))).
  rewrite length_app. cbn [length] in *. specialize (IH ltac:(intros z Hz; apply Hf; by right)). lia.
Qed.

(** The text of a list whose items do not begin with white space or with the
    closing character [x]. *)
Lemma join_head {A} (f : A -> pytext) (x : N) a l :
  (exists c t, f a = c :: t /\ json_space c = false /\ c <> x) ->
  exists c t, join 44 (map f (a :: l)) = c :: t /\ json_space c = false /\ c <> x.
Proof. intros (c & t & E & Hc & Hne). cbn [map join]. destruct l; cbn [map]; rewrite E; by eexists _, _. Qed.

Lemma parse_array fuel l rest : Forall plain l -> Forall (reads (parse_value dec fuel)) l ->
  parse_value dec (S fuel) (json_dumps (JList l) ++ rest) = Some (JList l, rest).
Proof.
  intros Hl Rl. destruct l as [|v l]; [done|].
  change (json_dumps (JList (v :: l))) with ([91%N] ++ join 44 (map json_dumps (v :: l)) ++ [93%N]).
  rewrite <- !app_assoc. change ([93%N] ++ rest) with (93%N :: rest). cbn [app parse_value].
  pose proof (join_length json_dumps (v :: l)) as Hlen. pose proof (parse_items_dumps (parse_value dec fuel) (v :: l) rest) as Hp.
  destruct (join_head json_dumps 93 v l) as (c & t & E & Hc & Hne).
  { apply dumps_head. by apply Forall_cons in Hl as [? _]. }
  rewrite E in *. rewrite <- app_comm_cons, skip_space_head by done.
  transitivity ('(vs, rest') ← parse_items (parse_value dec fuel) (length (c :: t ++ 93%N :: rest)) (c :: t ++ 93%N :: rest);
                Some (JList vs, rest')); [repeat case_match; done|].
  rewrite app_comm_cons, Hp; [done | done | | done | done].
  rewrite length_app. etransitivity; [apply Hlen | cbn; lia].
  intros x Hx. rewrite Forall_forall in Hl. by destruct (dumps_head x (Hl _ Hx)) as (? & ? & -> & _).
Qed.

Lemma dumps_dict p ps : json_dumps (JDict (p :: ps)) = [123%N] ++ join 44 (map member_text (p :: ps)) ++ [125%N].
Proof.
  cbn [json_dumps]. change (u "{") with [123%N]. change (u "}") with [125%N]. f_equal. f_equal. f_equal.
  apply map_ext. by intros [].
Qed.

Lemma parse_object fuel ps rest :
  NoDup ps.*1 -> Forall (fun p => plain p.2) ps -> Forall (fun p => reads (parse_value dec fuel) p.2) ps ->
  parse_value dec (S fuel) (json_dumps (JDict ps) ++ rest) = Some (JDict ps, rest).
Proof.
  intros Hnd Hl Rl. destruct ps as [|v l]; [cbn; by rewrite (rb_object []) by constructor|].
  rewrite dumps_dict, <- !app_assoc. change ([125%N] ++ rest) with (125%N :: rest). cbn [app parse_value].
  pose proof (join_length member_text (v :: l)) as Hlen. pose proof (parse_members_dumps (parse_value dec fuel) (v :: l) rest) as Hp.
  destruct (join_head member_text 125 v l) as (c & t & E & Hc & Hne); [by eexists _, _|].
  rewrite E in *. rewrite <- app_comm_cons, skip_space_head by done.
  transitivity ('(vs, rest') ← parse_members (parse_value dec fuel) (length (c :: t ++ 125%N :: rest)) (c :: t ++ 125%N :: rest);
                fs ← dec_object dec vs; Some (JDict fs, rest')); [repeat case_match; done|].
  rewrite app_comm_cons, Hp; [cbn [mbind option_bind]; by rewrite rb_object | done | | done | done].
  rewrite length_app. etransitivity; [by apply Hlen | cbn; lia].
Qed.

(** Enough fuel for a value is one more than its height. *)
Lemma parse_value_dumps fuel v : plain v -> (height v < fuel)%nat -> reads (parse_value dec fuel) v.
Proof.
  revert v. induction fuel as [|fuel IH]; intros v Hv Hf rest Hr; [lia|].
  destruct Hv as [|b|z Hz|s|l Hl|fields Hnd Hfs].
  - cbn [json_dumps]. transitivity (parse_scalar dec (u "null" ++ rest)); [done|]. unfold parse_scalar.
    by destruct rb_constants as [-> | ->].
  - cbn [json_dumps]. transitivity (parse_scalar dec ((if b then u "true" else u "false") ++ rest)); [by destruct b|].
    unfold parse_scalar. destruct rb_constants as [-> | ->]; by destruct b.
  - by apply parse_int.
  - cbn [json_dumps]. unfold quoted. rewrite <- !app_assoc. cbn [app parse_value]. rewrite parse_quoted; [done|].
    rewrite length_app. pose proof (escaped_length s). cbn. lia.
  - apply parse_array; [done|]. apply Forall_forall. intros x Hx. rewrite Forall_forall in Hl.
    apply IH; [by apply Hl|]. pose proof (height_item _ _ Hx). lia.
  - apply parse_object; [done | done|]. apply Forall_forall. intros [k x] Hx. rewrite Forall_forall in Hfs.
    apply IH; [by apply (Hfs _ Hx)|]. pose proof (height_field _ _ _ Hx). cbn [snd]. lia.
Qed.

(** A value is lower than its text is long. *)
Lemma join_item {A} (f : A -> pytext) x l : x ∈ l -> (length (f x) <= length (join 44 (map f l)))%nat.
Proof.
  induction l as [|y l IH]; [by intros ?%elem_of_nil|]. destruct l as [|z l].
  { intros ->%list_elem_of_singleton. done. }
  change (join 44 (map f (y :: z :: l))) with (f y ++ 44%N :: join 44 (map f (z :: l))). rewrite length_app. cbn [length].
  intros [->|Hx]%elem_of_cons; [lia|]. specialize (IH Hx). lia.
Qed.
Lemma highest {A} (h : A -> nat) l : l <> [] -> exists x, x ∈ l /\ foldr (fun x n => Nat.max (h x) n) O l = h x.
Proof.
  induction l as [|x l IH]; [done|]. intros _. destruct l as [|y l]; [exists x; split; [left | cbn; lia]|].
  destruct IH as (z & Hz & E); [done|]. cbn [foldr] in *.
  destruct (Nat.max_spec (h x) (h z)) as [[_ H]|[_ H]]; [exists z | exists x]; rewrite E; (split; [|done]); [by right | left].
Qed.
Lemma height_text v : (height v <= length (json_dumps v))%nat.
Proof.
  remember (height v) as n eqn:Hn. revert v Hn. induction n as [|n IH]; intros v Hn; [lia|].
  destruct v as [| | | | |l|fields]; cbn [height] in Hn; try done.
  - destruct (decide (l = [])) as [->|Hl]; [injection Hn as ->; by apply Nat.leb_le|]. destruct (highest height l Hl) as (x & Hx & E).
    rewrite E in Hn. specialize (IH x ltac:(lia)). pose proof (join_item json_dumps x l Hx).
    cbn [json_dumps]. rewrite !length_app. change (length (u "[")) with 1%nat. lia.
  - destruct (decide (fields = [])) as [->|Hl]; [injection Hn as ->; by apply Nat.leb_le|].
    destruct (highest (fun p => height p.2) fields Hl) as ([k x] & Hx & E).
    rewrite E in Hn. specialize (IH x ltac:(cbn in *; lia)).
    pose proof (join_item (fun '(k, v) => quoted k ++ u ":" ++ json_dumps v) (k, x) fields Hx) as Hj. cbn beta iota in Hj.
    cbn [json_dumps]. rewrite !length_app in *. change (length (u "{")) with 1%nat. lia.
Qed.

Lemma loads_dumps_plain v : plain v -> json_loads_with dec (json_dumps v) = Some v.
Proof.
  intros Hv. unfold json_loads_with. rewrite <- (app_nil_r (json_dumps v)), skip_dumps by done.
  rewrite app_nil_r. rewrite <- (app_nil_r (json_dumps v)) at 2.
  rewrite parse_value_dumps; [done | done | | done]. pose proof (height_text v). lia.
Qed.
End RoundTrip.
