(* ===== verification/ScenarioData.v ===== *)
(** Data of the runner's scenario executor: the plan it receives
    (runner/models.py), API responses (runner/executors/api.py), traces and the
    exceptions (runner/errors.py and [ScenarioRuntimeError] of
    runner/scenario.py), with a monad for the computations that may raise. *)
From S2P Require Import Prelude PyText Json PyJson.
Open Scope Z_scope.

Abbreviation fields := (list (pytext * json)).

(** ** API responses *)

(** [ApiExecutionResult]; [JNull] stands for a body that is [None] or [null]. *)
Record ApiExecutionResult := {
  ar_status_code : Z;
  ar_json_body : json;
  ar_text : option pytext;
  ar_headers : list (pytext * pytext);
  ar_cookies : list (pytext * pytext);
  ar_elapsed_ms : Z;
  ar_response_time_ms : Z;
  ar_body_size : Z;
}.

(** ** Exceptions *)

(** [ScenarioRuntimeError]. *)
Record ScenarioRuntimeError := {
  re_error_type : pytext;
  re_message : pytext;
  re_retryable : bool;
  re_timeout : bool;
  re_total_timeout : bool;
  re_response : option ApiExecutionResult;
}.

Definition SAFE_ERROR_LIMIT : nat := 500.

(** [ScenarioRuntimeError.__init__] cuts the texts. *)
Definition runtime_error (error_type message : pytext) (retryable timeout total_timeout : bool)
    (response : option ApiExecutionResult) : ScenarioRuntimeError :=
  {| re_error_type := take 100 error_type; re_message := take SAFE_ERROR_LIMIT message;
     re_retryable := retryable; re_timeout := timeout; re_total_timeout := total_timeout;
     re_response := response |}.

(** The common cases of its keyword arguments. *)
Definition plain_error (error_type message : string) : ScenarioRuntimeError :=
  runtime_error (u error_type) (u message) false false false None.
Definition timeout_error (error_type message : string) : ScenarioRuntimeError :=
  runtime_error (u error_type) (u message) false true false None.
Definition retryable_error (error_type message : string) (timeout : bool) : ScenarioRuntimeError :=
  runtime_error (u error_type) (u message) true timeout false None.

Definition CANCEL_REQUESTED : pytext := u "CANCEL_REQUESTED".
Definition HTTP_5XX : pytext := u "HTTP_5XX".
Definition cancel_error : ScenarioRuntimeError := plain_error "CANCEL_REQUESTED" "Runner 检测到取消请求".
Definition total_timeout_error : ScenarioRuntimeError :=
  runtime_error (u "TOTAL_TIMEOUT") (u "Scenario 执行超时") false true true None.

(** The other exceptions the executor distinguishes.  [TargetTimeoutError] is a
    [TargetExecutionError], which is an [ExecutionError], as is
    [ScenarioRuntimeError]. *)
Inductive py_exn :=
  | TargetTimeoutError
  | TargetExecutionError
  | ExecutionError (error_type : pytext)
  | ProtocolError
  | PyTypeError
  | PyValueError
  | PyKeyError
  | PyOverflowError
  | OtherException.

Inductive exn := Runtime (e : ScenarioRuntimeError) | Py (x : py_exn).
Coercion Py : py_exn >-> exn.

(** ** Computations that may raise *)

Inductive py (A : Type) := Return (a : A) | Raise (x : exn).
Arguments Return {A} a.
Arguments Raise {A} x.

#[global] Instance py_ret : MRet py := fun A a => Return a.
#[global] Instance py_bind : MBind py := fun A B f m => match m with Return a => f a | Raise x => Raise x end.
#[global] Instance py_fmap : FMap py := fun A B f m => match m with Return a => Return (f a) | Raise x => Raise x end.

(** [if not b: raise x]. *)
Definition require (b : bool) (x : exn) : py unit := if b then Return tt else Raise x.

Fixpoint map_py {A B} (f : A -> py B) (l : list A) : py (list B) :=
  match l with
  | [] => Return []
  | x :: l' => y ← f x; ys ← map_py f l'; Return (y :: ys)
  end.

Definition of_option {A} (o : option A) (x : exn) : py A := match o with Some a => Return a | None => Raise x end.

(** A comparison or membership test of [Json], which raises [TypeError] only. *)
Definition of_test (r : result bool) : py bool := match r with Ok b => Return b | Err _ => Raise PyTypeError end.

(** [try: m except ...: raise h]: [h] is [None] for what is not caught. *)
Definition except {A} (m : py A) (h : exn -> option (py A)) : py A :=
  match m with
  | Return a => Return a
  | Raise x => match h x with Some r => r | None => Raise x end
  end.

(** ** The plan *)

Inductive NodeType :=
  | START | END_ | HTTP | IF | ELSE | LOOP | WAIT | SET_VARIABLE | EXTRACT | ASSERT_STATUS
  | ASSERT_JSONPATH | AI_ASSERTION | SQL_QUERY | SQL_EXECUTE | PYTHON_SCRIPT | API_CLEANUP
  | SQL_CLEANUP | OtherType (name : pytext).
#[global] Instance NodeType_eq_dec : EqDecision NodeType.
Proof. solve_decision. Defined.

Inductive FailurePolicy := STOP | CONTINUE | RETRY_ONCE.
#[global] Instance FailurePolicy_eq_dec : EqDecision FailurePolicy.
Proof. solve_decision. Defined.

(** [ScenarioNodePlan]; the display name is left out. *)
Record ScenarioNodePlan := {
  sn_id : string;
  sn_type : NodeType;
  sn_parent : option string;
  sn_enabled : bool;
  sn_timeout_ms : Z;
  sn_failure_policy : option FailurePolicy;
  sn_config : fields;
}.

(** [ScenarioSqlConnectionPlan]. *)
Record SqlConnectionPlan := {
  sq_connection_id : Z;
  sq_db_type : pytext;
  sq_host : pytext;
  sq_port : Z;
  sq_database_name : pytext;
  sq_username : pytext;
  sq_password_secret_id : Z;
  sq_ssl_enabled : bool;
}.

(** [ScenarioExecutionPlanResult], with the settings the executor reads. *)
Record ScenarioPlan := {
  spl_initial_context : fields;
  spl_stop_on_failure : bool;
  spl_cleanup_policy : pytext;
  spl_max_loop_iterations : Z;
  spl_nodes : list ScenarioNodePlan;
  spl_sql_connections : list SqlConnectionPlan;
  spl_secrets : list (Z * pytext);
}.

(** [_CLEANUP_TYPES] and [_SUPPORTED]. *)
Definition is_cleanup (node : ScenarioNodePlan) : bool :=
  bool_decide (sn_type node = API_CLEANUP \/ sn_type node = SQL_CLEANUP).
Definition supported (t : NodeType) : bool := match t with OtherType _ => false | _ => true end.

(** ** Traces *)

Inductive NodeOutcome := SUCCESS | SKIPPED | FAILED | TIMEOUT | CANCELLED.
#[global] Instance NodeOutcome_eq_dec : EqDecision NodeOutcome.
Proof. solve_decision. Defined.

(** [_TRACE_SEVERITY]. *)
Definition severity (s : NodeOutcome) : Z :=
  match s with SUCCESS | SKIPPED => 1 | FAILED => 2 | TIMEOUT => 3 | CANCELLED => 4 end.

Record Trace := {
  nt_node_id : string;
  nt_status : NodeOutcome;
  nt_duration_ms : Z;
  nt_retry_count : Z;
  nt_error_type : option pytext;
  nt_error_message : option pytext;
}.

Definition MAX_TRACE_DURATION_MS : Z := 86400000.

(** [a or b] of optional texts. *)
Definition or_text (a b : option pytext) : option pytext :=
  match a with Some (_ :: _) => a | _ => b end.

(** The trace [_record] stores for a node over the previous one. *)
Definition record_trace (previous : option Trace) (node_id : string) (status : NodeOutcome)
    (retry_count duration_ms : Z) (error_type error_message : option pytext) : Trace :=
  let duration := Z.min MAX_TRACE_DURATION_MS
                    (Z.max 0 duration_ms + match previous with Some p => nt_duration_ms p | None => 0 end) in
  let '(retry, status', et, em) :=
    match previous with
    | None => (retry_count, status, error_type, error_message)
    | Some p =>
        let retry := Z.min 3 (retry_count + nt_retry_count p) in
        if severity status <? severity (nt_status p)
        then (retry, nt_status p, nt_error_type p, nt_error_message p)
        else if severity (nt_status p) =? severity status
        then (retry, status, or_text error_type (nt_error_type p), or_text error_message (nt_error_message p))
        else (retry, status, error_type, error_message)
    end in
  {| nt_node_id := node_id; nt_status := status'; nt_duration_ms := duration;
     nt_retry_count := Z.min 3 retry; nt_error_type := et;
     nt_error_message := match em with Some (c :: m) => Some (take SAFE_ERROR_LIMIT (c :: m)) | _ => None end |}.

(** Whether the cleanup policy asks for the cleanup of this outcome. *)
Definition cleanup_policy_matches (policy outcome : pytext) : bool :=
  if decide (policy = u "ALWAYS") then true
  else if decide (policy = u "ON_SUCCESS") then bool_decide (outcome = u "SUCCESS")
  else if decide (policy = u "ON_FAILURE")
  then bool_decide (outcome ∈ [u "FAILURE"; u "CANCELLED"; u "TIMEOUT"])
  else false.
