(* ===== verification/RunnerValues.v ===== *)
(** Values at run time: references to context variables, conditions and response
    extraction ([_resolve], [_condition], [_literal], [_compare], [_lookup],
    [_variable_name], [_stringify_request_value] of runner/scenario.py;
    runner/runtime_values.py). *)
From S2P Require Import Prelude PyText Calendar Json PyJson ScenarioData.
From Stdlib Require Import SpecFloat.
Open Scope Z_scope.

(** ** Names and lookup *)

Definition is_letter (c : N) : bool := (((65 <=? c) && (c <=? 90)) || ((97 <=? c) && (c <=? 122)))%N.
(** [[A-Za-z_]] and [[A-Za-z0-9_.-]]. *)
Definition name_start (c : N) : bool := is_letter c || (c =? 95)%N.
Definition name_char (c : N) : bool := (name_start c || ascii_digit c || (c =? 46) || (c =? 45))%N.

(** [_variable_name]. *)
Definition variable_name (value : json) : bool :=
  match value with
  | JStr (c :: r) => name_start c && forallb name_char r && (length r <=? 127)%nat
  | _ => false
  end.

Fixpoint walk (current : json) (parts : list pytext) : option json :=
  match parts with
  | [] => Some current
  | p :: rest => match current with
                 | JDict fs => match field p fs with Some v => walk v rest | None => None end
                 | _ => None
                 end
  end.

(** [_lookup]; [None] stands for [KeyError]. *)
Definition lookup (context : fields) (name : pytext) : option json :=
  match field name context with
  | Some v => Some v
  | None => walk (JDict context) (split_on 46 name)
  end.

(** ** Templates *)

(** [{{name}}] at the front of a text: the name and what follows. *)
Definition match_template (s : pytext) : option (pytext * pytext) :=
  match s with
  | 123%N :: 123%N :: c :: r =>
      if name_start c then
        let '(n, r') := span name_char r in
        match r' with
        | 125%N :: 125%N :: rest => Some (c :: take n r, rest)
        | _ => None
        end
      else None
  | _ => None
  end.

(** [_TEMPLATE.fullmatch]. *)
Definition whole_template (s : pytext) : option pytext :=
  match match_template s with Some (name, []) => Some name | _ => None end.

(** [str] of a value that is no container. *)
Definition scalar_text (j : json) : pytext :=
  match j with
  | JNull => u "None"
  | JBool b => if b then u "True" else u "False"
  | JInt z => int_text z
  | JFloat f => float_repr f
  | JStr s => s
  | JList _ | JDict _ => json_dumps j
  end.

(** The text that replaces a template inside a longer text. *)
Definition rendered (child : json) : pytext :=
  match child with
  | JBool b => if b then u "true" else u "false"
  | _ => scalar_text child
  end.

(** [_TEMPLATE.sub(replace, value)]; [skip] counts the characters of a template
    already replaced. *)
Fixpoint render (context : fields) (s : pytext) (skip : nat) : option pytext :=
  match s with
  | [] => Some []
  | c :: r =>
      match skip with
      | S k => render context r k
      | O =>
          match match_template s with
          | Some (name, _) =>
              v ← lookup context name;
              t ← render context r (length name + 3);
              Some (rendered v ++ t)
          | None => t ← render context r O; Some (c :: t)
          end
      end
  end.

Definition missing_context : exn := Runtime (plain_error "MISSING_RUNTIME_CONTEXT" "Runtime Context 缺少变量").

Definition resolve_text (context : fields) (s : pytext) : py json :=
  match whole_template s with
  | Some name => of_option (lookup context name) missing_context
  | None => JStr <$> of_option (render context s O) missing_context
  end.

(** [_resolve]; its copies are values here. *)
Fixpoint resolve (context : fields) (value : json) : py json :=
  match value with
  | JDict fs =>
      JDict <$> (fix go (l : fields) : py fields :=
                   match l with
                   | [] => Return []
                   | (k, v) :: rest => v' ← resolve context v; rest' ← go rest; Return ((k, v') :: rest')
                   end) fs
  | JList l =>
      JList <$> (fix go (l : list json) : py (list json) :=
                   match l with
                   | [] => Return []
                   | v :: rest => v' ← resolve context v; rest' ← go rest; Return (v' :: rest')
                   end) l
  | JStr s => resolve_text context s
  | _ => Return value
  end.

(** [config.get(key)] and [config.get(key, default)]. *)
Definition get (config : fields) (key : string) : json := default JNull (field (u key) config).
Definition get_or (config : fields) (key : string) (d : json) : json := default d (field (u key) config).

(** ** Conditions *)

(** Python's type of a value, as [type(left) is type(right)] sees it. *)
Definition same_type (a b : json) : bool :=
  match a, b with
  | JNull, JNull | JBool _, JBool _ | JInt _, JInt _ | JFloat _, JFloat _ | JStr _, JStr _
  | JList _, JList _ | JDict _, JDict _ => true
  | _, _ => false
  end.

(** The lexicographic order of texts. *)
Fixpoint compare_texts (s t : pytext) : comparison :=
  match s, t with
  | [], [] => Eq
  | [], _ => Lt
  | _, [] => Gt
  | c :: s', d :: t' => match N.compare c d with Eq => compare_texts s' t' | o => o end
  end.

(** [left < right], [left == right] and [left > right] of two values of one type
    ([None]: unordered, as a NaN is); [TypeError] for values without an order.
    Lists compare at their first differing items, which may be of different
    types. *)
Fixpoint compare_json (a b : json) : py (option comparison) :=
  match a, b with
  | JStr s, JStr t => Return (Some (compare_texts s t))
  | JList l, JList l' =>
      (fix go l l' := match l, l' with
                      | [], [] => Return (Some Eq)
                      | [], _ => Return (Some Lt)
                      | _, [] => Return (Some Gt)
                      | x :: r, y :: r' => if py_eq x y then go r r' else compare_json x y
                      end) l l'
  | _, _ => match number_of a, number_of b with
            | Some x, Some y => Return (compare_values x y)
            | _, _ => Raise PyTypeError
            end
  end.

Definition condition_type_error (message : string) : exn := Runtime (plain_error "CONDITION_TYPE_ERROR" message).

(** [_compare].  Without an order the comparison raises before the operator is
    looked up. *)
Definition compare (left : json) (operator : option pytext) (right : json) : py bool :=
  let same := same_type left right && py_eq left right in
  let op_is s := bool_decide (operator = Some (u s)) in
  if op_is "==" then Return same
  else if op_is "!=" then Return (negb same)
  else if op_is "contains" then
    match left with
    | JStr _ | JList _ | JDict _ => of_test (is_in right left)
    | _ => Raise (condition_type_error "IF 条件类型不支持 contains")
    end
  else if negb (same_type left right) || match left with JBool _ => true | _ => false end
  then Raise (condition_type_error "IF 条件两侧类型不一致")
  else
    c ← except (compare_json left right)
          (fun x => match x with
                    | Py PyTypeError => Some (Raise (condition_type_error "IF 条件类型不支持比较"))
                    | _ => None
                    end);
    if op_is ">" then Return (bool_decide (c = Some Gt))
    else if op_is ">=" then Return (bool_decide (c = Some Gt \/ c = Some Eq))
    else if op_is "<" then Return (bool_decide (c = Some Lt))
    else if op_is "<=" then Return (bool_decide (c = Some Lt \/ c = Some Eq))
    else Raise (Runtime (plain_error "CONDITION_CONFIG_INVALID" "IF 运算符无效")).

(** *** The pattern [^\s*(.+?)\s*(==|!=|>=|<=|>|<|contains)\s*(.+?)\s*$]

    Alternatives are tried in the order of the engine: the longest run of white
    space first, the shortest group first. *)

Fixpoint first_some {A B} (f : A -> option B) (l : list A) : option B :=
  match l with [] => None | x :: l' => match f x with Some y => Some y | None => first_some f l' end end.

Definition newline : N := 10.
Definition operators : list pytext := u <$> ["=="; "!="; ">="; "<="; ">"; "<"; "contains"].

(** The counts [n, n-1, ..., 0] and [1, ..., n]. *)
Definition downto (n : nat) : list nat := reverse (seq 0 (S n)).
Definition upto (n : nat) : list nat := seq 1 n.

Definition spaces (s : pytext) : nat := fst (span isspace s).

(** The shortest second group whose rest is white space. *)
Definition match_right (s : pytext) : option pytext :=
  first_some (fun k =>
    let s' := drop k s in
    first_some (fun n =>
      let g := take n s' in
      if negb (existsb (N.eqb newline) g) && forallb isspace (drop n s') then Some g else None)
      (upto (length s')))
    (downto (spaces s)).

Definition match_operator (left s : pytext) : option (pytext * pytext * pytext) :=
  first_some (fun op =>
    r ← strip_prefix op s; right ← match_right r; Some (left, op, right)) operators.

(** [_CONDITION.fullmatch(s).groups()].  No operator begins with white space, so
    the white space before it is taken whole. *)
Definition match_condition (s : pytext) : option (pytext * pytext * pytext) :=
  first_some (fun k =>
    let s' := drop k s in
    first_some (fun n =>
      let g := take n s' in
      if existsb (N.eqb newline) g then None
      else match_operator g (snd (span isspace (drop n s'))))
      (upto (length s')))
    (downto (spaces s)).

Definition is_quote (c : N) : bool := ((c =? 39) || (c =? 34))%N.
(** [strip] of single and double quotes. *)
Definition strip_quotes (s : pytext) : pytext :=
  reverse (snd (span is_quote (reverse (snd (span is_quote s))))).

(** [bool(value)]. *)
Definition truthy (j : json) : bool :=
  match j with
  | JNull => false
  | JBool b => b
  | JInt z => negb (z =? 0)
  | JFloat f => match f with S754_zero _ => false | _ => true end
  | JStr s => bool_decide (s <> [])
  | JList l => match l with [] => false | _ => true end
  | JDict fs => match fs with [] => false | _ => true end
  end.

(** [_literal]. *)
Definition literal (context : fields) (value : pytext) : py json :=
  let stripped := strip value in
  resolved ← resolve_text context stripped;
  if negb (py_eq resolved (JStr stripped)) || negb (match resolved with JStr _ => true | _ => false end)
  then Return resolved
  else match json_loads stripped with
       | Some v => Return v
       | None => Return (JStr (strip_quotes stripped))
       end.

(** A value that is a text. *)
Definition text_of (j : json) : option pytext := match j with JStr s => Some s | _ => None end.

(** [_condition].  [str(operator)] of a value that is no text is none of the
    operators. *)
Definition condition (context : fields) (value : json) : py bool :=
  resolved ← resolve context value;
  match resolved with
  | JBool b => Return b
  | JDict fs =>
      left ← resolve context (get fs "left");
      right ← resolve context (get fs "right");
      compare left (text_of (get_or fs "operator" (JStr (u "==")))) right
  | JStr s =>
      match match_condition s with
      | None => Return (truthy resolved)
      | Some (l, op, r) =>
          left ← literal context l;
          right ← literal context r;
          compare left (Some op) right
      end
  | _ => Return (truthy resolved)
  end.

(** ** Responses *)

Definition path_char (c : N) : bool := (is_letter c || ascii_digit c || (c =? 95) || (c =? 45))%N.

Inductive path_step := Key (k : pytext) | Index (n : Z).

(** [_JSONPATH_TOKEN.match]: one step and the rest of the path.  [\d] matches
    every decimal digit of Unicode. *)
Definition unicode_digit (c : N) : bool := bool_decide (is_Some (digit_value c)).

Definition match_token (s : pytext) : option (path_step * pytext) :=
  match s with
  | 46%N :: c :: r =>
      if name_start c then let '(n, r') := span path_char r in Some (Key (c :: take n r), r') else None
  | 91%N :: r =>
      let '(n, r') := span unicode_digit r in
      match n, r' with
      | S _, 93%N :: rest =>
          Some (Index (fold_left (fun a c => a * 10 + default 0 (digit_value c)) (take n r) 0), rest)
      | _, _ =>
          match r with
          | q :: r1 =>
              if is_quote q then
                let '(n, r2) := span (fun c => negb (is_quote c)) r1 in
                match n, r2 with
                | S _, q' :: 93%N :: rest => Some (Key (take n r1), rest)
                | _, _ => None
                end
              else None
          | [] => None
          end
      end
  | _ => None
  end.

(** [current[key]] or [current[index]]; every exception becomes [KeyError]. *)
Definition path_step_get (current : json) (st : path_step) : option json :=
  match st, current with
  | Key k, JDict fs => field k fs
  | Index n, JList l => l !! Z.to_nat n
  | Index n, JStr s => (fun c => JStr [c]) <$> s !! Z.to_nat n
  | _, _ => None
  end.

Fixpoint jsonpath_walk (fuel : nat) (current : json) (s : pytext) : py json :=
  match s with
  | [] => Return current
  | _ =>
      match fuel with
      | O => Raise PyValueError
      | S fuel' =>
          match match_token s with
          | None => Raise PyValueError
          | Some (st, rest) =>
              next ← of_option (path_step_get current st) PyKeyError;
              jsonpath_walk fuel' next rest
          end
      end
  end.

(** [jsonpath_get]; every step consumes a character. *)
Definition jsonpath_get (document : json) (expression : pytext) : py json :=
  match expression with
  | 36%N :: r => jsonpath_walk (length r) document r
  | _ => Raise PyValueError
  end.

(** [case_insensitive_get], over [str.lower]. *)
Definition case_insensitive_get (lower : pytext -> pytext) (values : list (pytext * pytext)) (name : pytext) : py pytext :=
  of_option (first_some (fun '(k, v) => if decide (lower k = lower name) then Some v else None) values) PyKeyError.

(** [_stringify_request_value]. *)
Definition stringify_request_value (value : json) : py pytext :=
  match value with
  | JBool b => Return (if b then u "true" else u "false")
  | JNull => Raise ProtocolError
  | _ => Return (scalar_text value)
  end.

Example condition_template :
  condition [(u "n", JInt 3)] (JStr (u " {{n}} >= 2 ")) = Return true.
Proof. vm_compute. reflexivity. Qed.
Example condition_quoted :
  condition [(u "user", JDict [(u "role", JStr (u "admin"))])] (JStr (u "{{user.role}} == 'admin'")) = Return true.
Proof. vm_compute. reflexivity. Qed.
Example jsonpath_step :
  jsonpath_get (JDict [(u "a", JDict [(u "b c", JInt 7)])]) (u "$.a['b c']") = Return (JInt 7).
Proof. vm_compute. reflexivity. Qed.
