(* ===== verification/ScenarioSql.v ===== *)
(** SQL nodes: the check of a statement, the classification of driver errors and
    the conversion of result rows ([_validate_sql_statement], [_is_sql_timeout],
    [_sql_error_code], [_is_sql_retryable], [_json_safe_value],
    [_validate_context_size] of runner/scenario.py). *)
From S2P Require Import Prelude PyText Calendar Json PyJson ScenarioData RunnerValues.
From Stdlib Require Import SpecFloat.
Open Scope Z_scope.

(** What the runner uses of the Unicode tables: [str.isalpha] and [str.isalnum] of
    a character, the upper case of a character and the lower case of a text. *)
Class Unicode := {
  isalpha : N -> bool;
  isalnum : N -> bool;
  upper_char : N -> pytext;
  str_lower : pytext -> pytext;
}.

(** Their documented behaviour on ASCII. *)
Class UnicodeLaws `{Unicode} : Prop := {
  isalpha_ascii : forall c, (c < 128)%N -> isalpha c = is_letter c;
  isalnum_ascii : forall c, (c < 128)%N -> isalnum c = is_letter c || ascii_digit c;
  upper_char_ascii : forall c, (c < 128)%N ->
    upper_char c = [if ((97 <=? c) && (c <=? 122))%N then (c - 32)%N else c];
}.

(** Upper case restricted to ASCII, for examples. *)
#[local] Instance ascii_only : Unicode := {
  isalpha := is_letter;
  isalnum c := is_letter c || ascii_digit c;
  upper_char c := [if ((97 <=? c) && (c <=? 122))%N then (c - 32)%N else c];
  str_lower s := (fun c => if ((65 <=? c) && (c <=? 90))%N then (c + 32)%N else c) <$> s;
}.
#[local] Instance ascii_only_laws : UnicodeLaws.
Proof. split; reflexivity. Qed.

Inductive SqlMode := QUERY | EXECUTE | CLEANUP.
#[global] Instance SqlMode_eq_dec : EqDecision SqlMode.
Proof. solve_decision. Defined.

(** ** Keyword patterns *)

Section Statements.
Context `{Unicode}.

Definition str_upper (s : pytext) : pytext := mjoin (upper_char <$> s).

(** [\w]. *)
Definition word_char (c : N) : bool := isalnum c || (c =? 95)%N.

(** A pattern is words separated by [\s+], closed by a word boundary or by an
    opening parenthesis after [\s*]. *)
Record keyword_pattern := { kp_words : list pytext; kp_call : bool }.

Definition kw (words : list string) : keyword_pattern := {| kp_words := u <$> words; kp_call := false |}.
Definition call (word : string) : keyword_pattern := {| kp_words := [u word]; kp_call := true |}.

Fixpoint match_words (ws : list pytext) (s : pytext) : option pytext :=
  match ws with
  | [] => Some s
  | [w] => strip_prefix w s
  | w :: ws' =>
      r ← strip_prefix w s;
      match span isspace r with
      | (O, _) => None
      | (_, r') => match_words ws' r'
      end
  end.

Definition at_boundary (rest : pytext) : bool := match rest with [] => true | c :: _ => negb (word_char c) end.

(** The pattern at the front of [s], when no word character precedes it. *)
Definition match_keyword (p : keyword_pattern) (s : pytext) : bool :=
  match match_words (kp_words p) s with
  | None => false
  | Some r =>
      if kp_call p then match snd (span isspace r) with 40%N :: _ => true | _ => false end
      else at_boundary r
  end.

(** [re.search(p, s)]; [inside] says whether a word character comes before. *)
Fixpoint search_from (p : keyword_pattern) (inside : bool) (s : pytext) : bool :=
  (negb inside && match_keyword p s)
  || match s with [] => false | c :: r => search_from p (word_char c) r end.
Definition search (p : keyword_pattern) (s : pytext) : bool := search_from p false s.
Definition search_any (ps : list keyword_pattern) (s : pytext) : bool := existsb (fun p => search p s) ps.

Definition SQL_TRANSACTION_PATTERN : list keyword_pattern :=
  [kw ["BEGIN"]; kw ["START"; "TRANSACTION"]; kw ["COMMIT"]; kw ["ROLLBACK"]; kw ["SAVEPOINT"];
   kw ["RELEASE"; "SAVEPOINT"]].
Definition SQL_DANGEROUS_PATTERNS : list keyword_pattern :=
  [kw ["INTO"; "OUTFILE"]; kw ["INTO"; "DUMPFILE"]; call "LOAD_FILE"; kw ["LOAD"; "DATA"];
   call "SLEEP"; call "BENCHMARK"; call "GET_LOCK"; call "RELEASE_LOCK"; kw ["CALL"]; kw ["GRANT"];
   kw ["REVOKE"]; kw ["FOR"; "UPDATE"]; kw ["LOCK"]; kw ["KILL"]; kw ["SHUTDOWN"]].
Definition SQL_MUTATION_PATTERN : list keyword_pattern :=
  [kw ["ALTER"]; kw ["CREATE"]; kw ["DROP"]; kw ["TRUNCATE"]; kw ["RENAME"]; kw ["GRANT"]; kw ["REVOKE"]; kw ["USE"]].
Definition SQL_WRITE_PATTERN : list keyword_pattern :=
  [kw ["INSERT"]; kw ["UPDATE"]; kw ["DELETE"]; kw ["REPLACE"]; kw ["ALTER"]; kw ["DROP"]; kw ["TRUNCATE"];
   kw ["CREATE"]; kw ["RENAME"]; kw ["GRANT"]; kw ["REVOKE"]; kw ["USE"]; kw ["SET"]; kw ["KILL"];
   kw ["HANDLER"]; kw ["INTO"]].
Definition SQL_WITH_WRITE_PATTERN : list keyword_pattern :=
  [kw ["INSERT"]; kw ["UPDATE"]; kw ["DELETE"]; kw ["REPLACE"]; kw ["ALTER"]; kw ["DROP"]; kw ["TRUNCATE"]; kw ["CREATE"]].
Definition SQL_QUERY_START : list keyword_pattern :=
  [kw ["SELECT"]; kw ["WITH"]; kw ["SHOW"]; kw ["DESCRIBE"]; kw ["EXPLAIN"]].

(** [re.sub(r"\s+", " ", s)]. *)
Fixpoint collapse_spaces (after_space : bool) (s : pytext) : pytext :=
  match s with
  | [] => []
  | c :: r =>
      if isspace c then (if after_space then [] else [32%N]) ++ collapse_spaces true r
      else c :: collapse_spaces false r
  end.

(** [s.split(" ", 1)[0]]. *)
Definition first_word (s : pytext) : pytext := take (fst (span (fun c => negb (c =? 32)%N) s)) s.

Definition ends_with_semicolon (s : pytext) : bool := bool_decide (last s = Some 59%N).

Definition sql_error (error_type message : string) : exn := Runtime (plain_error error_type message).

(** [_validate_sql_statement]. *)
Definition validate_sql_statement (statement : pytext) (mode : SqlMode) : py pytext :=
  _ ← require ((1 <=? length statement)%nat && (length statement <=? Z.to_nat 10000)%nat)
        (sql_error "SQL_CONFIG_INVALID" "SQL 语句无效");
  let s := strip statement in
  _ ← require (negb (is_substring (u "{{") s || is_substring (u "}}") s))
        (sql_error "SQL_CONFIG_INVALID" "SQL 不允许模板文本");
  _ ← require (negb (existsb (fun m => is_substring m s) (u <$> ["--"; "#"; "/*"; "*/"])))
        (sql_error "SQL_CONFIG_INVALID" "SQL 不允许注释语法");
  let s := if ends_with_semicolon s then strip (take (length s - 1) s) else s in
  _ ← require (bool_decide (s <> []) && negb (existsb (N.eqb 59) s))
        (sql_error "SQL_CONFIG_INVALID" "SQL 仅允许单条语句");
  let normalized := str_upper (collapse_spaces false s) in
  _ ← require (negb (search_any SQL_TRANSACTION_PATTERN normalized))
        (sql_error "SQL_CONFIG_INVALID" "SQL 不允许事务控制语句");
  _ ← require (negb (search_any SQL_DANGEROUS_PATTERNS normalized))
        (sql_error "SQL_CONFIG_INVALID" "SQL 包含禁止的危险操作");
  let keyword := first_word normalized in
  _ ← match mode with
      | QUERY =>
          let unsafe := sql_error "SQL_QUERY_UNSAFE" "SQL_QUERY 仅允许只读查询" in
          _ ← require (existsb (fun p => match_keyword p normalized) SQL_QUERY_START) unsafe;
          _ ← require (negb (search_any SQL_WRITE_PATTERN normalized)) unsafe;
          require (negb (bool_decide (is_Some (strip_prefix (u "WITH") normalized))
                         && search_any SQL_WITH_WRITE_PATTERN normalized)) unsafe
      | EXECUTE =>
          require (bool_decide (keyword ∈ u <$> ["INSERT"; "UPDATE"; "DELETE"])
                   && negb (search_any SQL_MUTATION_PATTERN normalized))
            (sql_error "SQL_EXECUTE_UNSAFE" "SQL_EXECUTE 语句不受支持")
      | CLEANUP =>
          require (bool_decide (keyword ∈ u <$> ["UPDATE"; "DELETE"])
                   && negb (search_any SQL_MUTATION_PATTERN normalized))
            (sql_error "SQL_CLEANUP_UNSAFE" "SQL_CLEANUP 语句不受支持")
      end;
  Return s.

(** ** Driver errors *)

(** What the handler of [_sql] sees of an exception of the driver: its class, its
    first argument as a number ([code.isdigit()] texts converted), its text. *)
Record DriverError := {
  de_timeout_error : bool;
  de_os_error : bool;
  de_mysql_error : bool;
  de_code : option Z;
  de_text : pytext;
}.

Definition is_sql_timeout (e : DriverError) : bool :=
  de_timeout_error e
  || bool_decide (de_code e ∈ [Some 2013; Some 3024])
  || existsb (fun m => is_substring (u m) (str_lower (de_text e)))
       ["timed out"; "timeout"; "read timeout"; "write timeout"].

Definition SQL_TRANSIENT_CODES : list (option Z) := Some <$> [1205; 1213; 2006; 2013; 2055].

Definition is_sql_retryable (e : DriverError) (mode : SqlMode) : bool :=
  match mode with
  | QUERY => de_os_error e || bool_decide (de_code e ∈ SQL_TRANSIENT_CODES)
  | EXECUTE | CLEANUP => bool_decide (de_code e ∈ [Some 1205; Some 1213])
  end.

(** [except (TimeoutError, OSError, pymysql.MySQLError)] and the general handler
    after it. *)
Definition sql_failure (e : DriverError) (mode : SqlMode) : ScenarioRuntimeError :=
  if de_timeout_error e || de_os_error e || de_mysql_error e then
    let timeout := is_sql_timeout e in
    let retryable := is_sql_retryable e mode in
    runtime_error
      (if timeout then u "SQL_TIMEOUT" else if retryable then u "SQL_TRANSIENT_ERROR" else u "SQL_EXECUTION_ERROR")
      (if timeout then u "SQL 节点执行超时" else u "SQL 节点执行失败") retryable timeout false None
  else plain_error "SQL_EXECUTION_ERROR" "SQL 节点执行失败".
End Statements.

(** ** Result rows *)

(** A value of the driver: dates with their ISO text, decimals with the float
    nearest to them, bytes with their text. *)
Inductive db_value :=
  | DNull | DText (s : pytext) | DBool (b : bool) | DInt (z : Z) | DFloat (f : spec_float)
  | DDate (iso : pytext) | DDecimal (f : spec_float) | DBytes (decoded : pytext)
  | DDict (members : list (pytext * db_value)) | DList (items : list db_value) | DOther.

Definition MAX_JSON_VALUE_BYTES : Z := 64000.

(** [_json_safe_value]'s last check: [json.dumps] with [allow_nan=False] and the
    size of its encoding; [None] stands for [ValueError]. *)
Definition encoded_within (bound : Z) (j : json) : option json :=
  if finite_numbers j then
    match utf8_length (json_dumps j) with
    | Some n => if n <=? bound then Some j else None
    | None => None
    end
  else None.

Definition finite_float (f : spec_float) : option json :=
  match f with S754_nan | S754_infinity _ => None | _ => Some (JFloat f) end.

Fixpoint json_safe_value (value : db_value) : option json :=
  result ← match value with
           | DNull => Some JNull
           | DText s => Some (JStr s)
           | DBool b => Some (JBool b)
           | DInt z => Some (JInt z)
           | DFloat f | DDecimal f => finite_float f
           | DDate s | DBytes s => Some (JStr s)
           | DDict ms =>
               if (Z.to_nat 1000 <? length ms)%nat then None
               else JDict <$> (fix go (l : list (pytext * db_value)) (acc : fields) : option fields :=
                                 match l with
                                 | [] => Some acc
                                 | (k, v) :: rest => j ← json_safe_value v; go rest (set_field k j acc)
                                 end) ms []
           | DList l =>
               if (Z.to_nat 1000 <? length l)%nat then None
               else JList <$> (fix go (l : list db_value) : option (list json) :=
                                 match l with
                                 | [] => Some []
                                 | v :: rest => j ← json_safe_value v; js ← go rest; Some (j :: js)
                                 end) l
           | DOther => None
           end;
  encoded_within MAX_JSON_VALUE_BYTES result.

(** [_validate_context_size]. *)
Definition context_fits (context : fields) : bool :=
  bool_decide (is_Some (encoded_within 1000000 (JDict context))).

Example read_only_query :
  validate_sql_statement (u "  select * from t where updated = 1; ") QUERY = Return (u "select * from t where updated = 1").
Proof. vm_compute. reflexivity. Qed.
Example write_in_query :
  validate_sql_statement (u "with x as (select 1) DELETE from t") QUERY
  = Raise (sql_error "SQL_QUERY_UNSAFE" "SQL_QUERY 仅允许只读查询").
Proof. vm_compute. reflexivity. Qed.
