(* ===== verification/PyUrl.v ===== *)
(** What the runner uses of Python's [urllib.parse] (Python 3.12): splitting,
    joining and building URLs, query strings and percent-encoding, over UTF-8; and
    Base64. *)
From S2P Require Import Prelude PyText Calendar Json PyJson ScenarioData RunnerValues ScenarioSql.
Open Scope N_scope.

(** ** UTF-8 *)

(** The bytes of one character. *)
Definition utf8_bytes (c : N) : list N :=
  if c <? 128 then [c]
  else if c <? 2048 then [192 + c / 64; 128 + c mod 64]
  else if c <? 65536 then [224 + c / 4096; 128 + c / 64 mod 64; 128 + c mod 64]
  else [240 + c / 262144; 128 + c / 4096 mod 64; 128 + c / 64 mod 64; 128 + c mod 64].

(** The characters that have an encoding. *)
Definition scalar (c : N) : bool := (c <? 55296) || ((57344 <=? c) && (c <? 1114112)).

(** [s.encode("utf-8")]; [None] stands for [UnicodeEncodeError]. *)
Definition utf8_encode (s : pytext) : option (list N) :=
  if forallb scalar s then Some (mjoin (utf8_bytes <$> s)) else None.

Definition continuation (b : N) : bool := (128 <=? b) && (b <? 192).

(** The range of the second byte after a first byte of three or four. *)
Definition second_byte (b0 b1 : N) : bool :=
  (if b0 =? 224 then 160 <=? b1 else if b0 =? 240 then 144 <=? b1 else 128 <=? b1)
  && (if b0 =? 237 then b1 <? 160 else if b0 =? 244 then b1 <? 144 else b1 <? 192).

(** The first character of some bytes, and how many it takes; an invalid sequence
    is replaced by U+FFFD as far as it could have been valid. *)
Definition decode_char (b0 : N) (r : list N) : N * nat :=
  let bad n := (65533, n) in
  if b0 <? 128 then (b0, 1%nat)
  else if (194 <=? b0) && (b0 <? 224) then
    match r with
    | b1 :: _ => if continuation b1 then ((b0 - 192) * 64 + (b1 - 128), 2%nat) else bad 1%nat
    | [] => bad 1%nat
    end
  else if (224 <=? b0) && (b0 <? 240) then
    match r with
    | b1 :: r1 =>
        if second_byte b0 b1 then
          match r1 with
          | b2 :: _ => if continuation b2 then ((b0 - 224) * 4096 + (b1 - 128) * 64 + (b2 - 128), 3%nat) else bad 2%nat
          | [] => bad 2%nat
          end
        else bad 1%nat
    | [] => bad 1%nat
    end
  else if (240 <=? b0) && (b0 <? 245) then
    match r with
    | b1 :: r1 =>
        if second_byte b0 b1 then
          match r1 with
          | b2 :: r2 =>
              if continuation b2 then
                match r2 with
                | b3 :: _ =>
                    if continuation b3
                    then ((b0 - 240) * 262144 + (b1 - 128) * 4096 + (b2 - 128) * 64 + (b3 - 128), 4%nat) else bad 3%nat
                | [] => bad 3%nat
                end
              else bad 2%nat
          | [] => bad 2%nat
          end
        else bad 1%nat
    | [] => bad 1%nat
    end
  else bad 1%nat.

(** [bs.decode("utf-8", errors="replace")]; [skip] counts the bytes of the last
    character still to pass. *)
Fixpoint decode_replace (skip : nat) (bs : list N) : pytext :=
  match bs with
  | [] => []
  | b :: r =>
      match skip with
      | S k => decode_replace k r
      | O => let '(c, n) := decode_char b r in c :: decode_replace (n - 1) r
      end
  end.

(** ** Base64 *)

Definition base64_char (n : N) : N :=
  if n <? 26 then 65 + n else if n <? 52 then 71 + n else if n <? 62 then n - 4
  else if n =? 62 then 43 else 47.
Fixpoint base64 (bytes : list N) : pytext :=
  match bytes with
  | a :: b :: c :: r =>
      [base64_char (a / 4); base64_char ((a mod 4) * 16 + b / 16); base64_char ((b mod 16) * 4 + c / 64);
       base64_char (c mod 64)] ++ base64 r
  | [a; b] => [base64_char (a / 4); base64_char ((a mod 4) * 16 + b / 16); base64_char ((b mod 16) * 4); 61]
  | [a] => [base64_char (a / 4); base64_char ((a mod 4) * 16); 61; 61]
  | [] => []
  end.

Example base64_credential : base64 (mjoin (utf8_bytes <$> u "user:pass")) = u "dXNlcjpwYXNz".
Proof. vm_compute. reflexivity. Qed.

Definition base64_value (c : N) : option N :=
  if (65 <=? c) && (c <=? 90) then Some (c - 65)
  else if (97 <=? c) && (c <=? 122) then Some (c - 71)
  else if (48 <=? c) && (c <=? 57) then Some (c + 4)
  else if c =? 43 then Some 62 else if c =? 47 then Some 63 else None.

(** [base64.b64decode(s, validate=True)]; [None] stands for [ValueError]. *)
Fixpoint base64_decode (s : pytext) : option (list N) :=
  match s with
  | [] => Some []
  | [a; b; 61; 61] => x ← base64_value a; y ← base64_value b; Some [x * 4 + y / 16]
  | [a; b; c; 61] =>
      x ← base64_value a; y ← base64_value b; z ← base64_value c;
      Some [x * 4 + y / 16; (y mod 16) * 16 + z / 4]
  | a :: b :: c :: d :: r =>
      x ← base64_value a; y ← base64_value b; z ← base64_value c; v ← base64_value d; t ← base64_decode r;
      Some ([x * 4 + y / 16; (y mod 16) * 16 + z / 4; (z mod 4) * 64 + v] ++ t)
  | _ => None
  end.

(** ** Percent-encoding *)

Definition upper_hex (n : N) : N := if n <? 10 then 48 + n else 55 + n.

(** The bytes [quote] leaves alone. *)
Definition always_safe (b : N) : bool :=
  is_letter b || ascii_digit b || (b =? 95) || (b =? 46) || (b =? 45) || (b =? 126).

(** [quote_plus]. *)
Definition quote_byte (b : N) : pytext :=
  if always_safe b then [b] else if b =? 32 then [43] else [37; upper_hex (b / 16); upper_hex (b mod 16)].
Definition quote_plus (s : pytext) : option pytext :=
  bs ← utf8_encode s; Some (mjoin (quote_byte <$> bs)).

Definition hex_pair (r : pytext) : option N :=
  match r with
  | a :: b :: _ => x ← hex_value a; y ← hex_value b; Some (x * 16 + y)
  | _ => None
  end.

(** [unquote_to_bytes] of ASCII text; [skip] counts the digits already read. *)
Fixpoint percent_bytes (skip : nat) (s : pytext) : list N :=
  match s with
  | [] => []
  | c :: r =>
      match skip with
      | S k => percent_bytes k r
      | O =>
          match (if c =? 37 then hex_pair r else None) with
          | Some b => b :: percent_bytes 2 r
          | None => c :: percent_bytes 0 r
          end
      end
  end.

(** The runs of ASCII characters of a text, each decoded; [run] is the current one
    reversed. *)
Fixpoint unquote_runs (run s : pytext) : pytext :=
  let flush := decode_replace 0 (percent_bytes 0 (reverse run)) in
  match s with
  | [] => flush
  | c :: r => if c <? 128 then unquote_runs (c :: run) r else flush ++ c :: unquote_runs [] r
  end.

(** [unquote]. *)
Definition unquote (s : pytext) : pytext := if existsb (N.eqb 37) s then unquote_runs [] s else s.

Definition plus_to_space (s : pytext) : pytext := (fun c => if c =? 43 then 32 else c) <$> s.

(** [parse_qsl(qs, keep_blank_values=blank)]. *)
Definition parse_pair (blank : bool) (s : pytext) : option (pytext * pytext) :=
  match s with
  | [] => None
  | _ =>
      '(name, value) ← match partition_on 61 s with
                       | Some p => Some p
                       | None => if blank then Some (s, []) else None
                       end;
      if blank || bool_decide (value <> []) then Some (unquote (plus_to_space name), unquote (plus_to_space value)) else None
  end.
Definition parse_qsl (blank : bool) (qs : pytext) : list (pytext * pytext) :=
  match qs with [] => [] | _ => omap (parse_pair blank) (split_on 38 qs) end.

(** [urlencode(query, doseq=True)] of texts. *)
Definition encode_pair (p : pytext * pytext) : option pytext :=
  k ← quote_plus p.1; v ← quote_plus p.2; Some (k ++ 61 :: v).
Definition urlencode (query : list (pytext * pytext)) : option pytext := join 38 <$> mapM encode_pair query.

(** ** Splitting *)

Record SplitResult := {
  us_scheme : pytext;
  us_netloc : pytext;
  us_path : pytext;
  us_query : pytext;
  us_fragment : pytext;
}.

(** The normal form NFKC of a text, and which network locations with brackets are
    accepted, on which the releases of Python 3.12 differ. *)
Class UrlLibrary := { nfkc : pytext -> pytext; bracketed_netloc : pytext -> bool }.

Definition scheme_char (c : N) : bool := is_letter c || ascii_digit c || (c =? 43) || (c =? 45) || (c =? 46).
Definition ascii_lower (s : pytext) : pytext := (fun c => if (65 <=? c) && (c <=? 90) then c + 32 else c) <$> s.

(** The scheme, or the given one, and what follows it. *)
Definition split_scheme (scheme url : pytext) : pytext * pytext :=
  match partition_on 58 url with
  | Some (c :: a, rest) => if is_letter c && forallb scheme_char (c :: a) then (ascii_lower (c :: a), rest) else (scheme, url)
  | _ => (scheme, url)
  end.

Definition netloc_char (c : N) : bool := negb ((c =? 47) || (c =? 63) || (c =? 35)).


(** [s.partition(c)[0]] and [[2]], and [s.rpartition(c)]. *)
Definition before (c : N) (s : pytext) : pytext := match partition_on c s with Some (a, _) => a | None => s end.
Definition beyond (c : N) (s : pytext) : pytext := match partition_on c s with Some (_, b) => b | None => [] end.
Definition rpartition (c : N) (s : pytext) : option (pytext * pytext) :=
  '(b, a) ← partition_on c (reverse s); Some (reverse a, reverse b).
Definition has (c : N) (s : pytext) : bool := existsb (N.eqb c) s.

Section Split.
Context `{UrlLibrary}.

(** [_checknetloc]. *)
Definition netloc_ok (netloc : pytext) : bool :=
  forallb (fun c => c <? 128) netloc
  || let n := filter (fun c => negb ((c =? 64) || (c =? 58) || (c =? 35) || (c =? 63)) = true) netloc in
     bool_decide (n = nfkc n) || negb (existsb (fun c => (c =? 47) || (c =? 63) || (c =? 35) || (c =? 64) || (c =? 58)) (nfkc n)).

(** [urlsplit(url, scheme)]; [None] stands for [ValueError].  Leading control
    characters and blanks, and tabs and line ends anywhere, are dropped. *)
Definition clean_url (url : pytext) : pytext :=
  filter (fun c => negb ((c =? 9) || (c =? 13) || (c =? 10)) = true) (snd (span (fun c => c <=? 32) url)).
Definition split_netloc (url : pytext) : pytext * pytext :=
  match strip_prefix [47; 47] url with
  | Some r => let '(n, rest) := span netloc_char r in (take n r, rest)
  | None => ([], url)
  end.
Definition urlsplit_with (scheme url : pytext) : option SplitResult :=
  let '(scheme, url) := split_scheme scheme (clean_url url) in
  let '(netloc, url) := split_netloc url in
  if (has 91 netloc || has 93 netloc) && negb (bracketed_netloc netloc) then None
  else if negb (netloc_ok netloc) then None
  else
    let fragment := beyond 35 url in
    let url := before 35 url in
    Some {| us_scheme := scheme; us_netloc := netloc; us_path := before 63 url; us_query := beyond 63 url;
            us_fragment := fragment |}.
Definition urlsplit (url : pytext) : option SplitResult := urlsplit_with [] url.
End Split.

(** ** The network location *)

(** [_hostinfo]: host and port. *)
Definition hostinfo (netloc : pytext) : pytext * pytext :=
  let info := match rpartition 64 netloc with Some (_, h) => h | None => netloc end in
  match partition_on 91 info with
  | Some (_, bracketed) => (before 93 bracketed, beyond 58 (beyond 93 bracketed))
  | None => (before 58 info, beyond 58 info)
  end.

Section Location.
Context `{Unicode}.

(** [hostname]; [None] for an empty one. *)
Definition hostname (r : SplitResult) : option pytext :=
  match fst (hostinfo (us_netloc r)) with
  | [] => None
  | h => Some (match partition_on 37 h with
               | Some (a, zone) => str_lower a ++ 37 :: zone
               | None => str_lower h
               end)
  end.

(** [port]; [None] stands for [ValueError]. *)
Definition port (r : SplitResult) : option (option Z) :=
  match snd (hostinfo (us_netloc r)) with
  | [] => Some None
  | p => if forallb ascii_digit p && (digits_value 0 p <=? 65535)%Z then Some (Some (digits_value 0 p)) else None
  end.
End Location.

(** [username is not None], and the same of [password], which implies it. *)
Definition has_userinfo (r : SplitResult) : bool := bool_decide (is_Some (rpartition 64 (us_netloc r))).

(** ** Building *)

(** [urlunsplit] of a result with a network location. *)
Definition urlunsplit (r : SplitResult) : pytext :=
  let path := match us_path r with [] => [] | 47 :: _ => us_path r | p => 47 :: p end in
  us_scheme r ++ [58; 47; 47] ++ us_netloc r ++ path
  ++ (match us_query r with [] => [] | q => 63 :: q end)
  ++ (match us_fragment r with [] => [] | f => 35 :: f end).

Definition with_query (q : pytext) (r : SplitResult) : SplitResult :=
  {| us_scheme := us_scheme r; us_netloc := us_netloc r; us_path := us_path r; us_query := q; us_fragment := us_fragment r |}.

(** ** Joining *)

(** [_splitparams]: the parameters of the last segment of a path. *)
Definition split_params (path : pytext) : pytext * pytext :=
  match rpartition 47 path with
  | Some (a, b) => match partition_on 59 b with Some (x, y) => (a ++ 47 :: x, y) | None => (path, []) end
  | None => (before 59 path, beyond 59 path)
  end.
Definition with_params (path params : pytext) : pytext := match params with [] => path | _ => path ++ 59 :: params end.
(** A path taken apart and put together again, without an empty parameter. *)
Definition normal_path (path : pytext) : pytext := let '(p, params) := split_params path in with_params p params.

(** The segments of a path with [.] and [..] resolved; [acc] is reversed. *)
Fixpoint resolve_segments (acc segments : list pytext) : list pytext :=
  match segments with
  | [] => reverse acc
  | s :: r =>
      if decide (s = [46; 46]) then resolve_segments (tail acc) r
      else if decide (s = [46]) then resolve_segments acc r
      else resolve_segments (s :: acc) r
  end.

(** [segments[1:-1] = filter(None, segments[1:-1])]. *)
Definition drop_empty_inner (l : list pytext) : list pytext :=
  match l with
  | a :: b :: r => a :: filter (fun s => s <> []) (take (length (b :: r) - 1) (b :: r)) ++ drop (length (b :: r) - 1) (b :: r)
  | _ => l
  end.

Definition merge_path (base path : pytext) : pytext :=
  let base_parts := split_on 47 base in
  let base_parts := if decide (last base_parts = Some []) then base_parts else take (length base_parts - 1) base_parts in
  let segments := match path with
                  | 47 :: _ => split_on 47 path
                  | _ => drop_empty_inner (base_parts ++ split_on 47 path)
                  end in
  let resolved := resolve_segments [] segments in
  let resolved := if decide (last segments = Some [46] \/ last segments = Some [46; 46]) then resolved ++ [[]] else resolved in
  match join 47 resolved with [] => [47] | p => p end.

Section Join.
Context `{UrlLibrary}.

(** [urljoin] with a base of scheme http or https that has a network location. *)
Definition urljoin (base url : pytext) : option pytext :=
  match base, url with
  | [], _ => Some url
  | _, [] => Some base
  | _, _ =>
      b ← urlsplit base;
      r ← urlsplit_with (us_scheme b) url;
      if decide (us_scheme r <> us_scheme b) then Some url
      else
        let build netloc path query := urlunsplit {| us_scheme := us_scheme b; us_netloc := netloc; us_path := path;
                                                     us_query := query; us_fragment := us_fragment r |} in
        if decide (us_netloc r <> []) then Some (build (us_netloc r) (normal_path (us_path r)) (us_query r)) else
        let '(path, params) := split_params (us_path r) in
        match path, params with
        | [], [] => Some (build (us_netloc b) (normal_path (us_path b)) (match us_query r with [] => us_query b | q => q end))
        | _, _ => Some (build (us_netloc b) (with_params (merge_path (fst (split_params (us_path b))) path) params) (us_query r))
        end
  end.
End Join.
