(* ===== verification/ScenarioMonad.v ===== *)
(** The state of a scenario execution (the attributes of [ScenarioExecutor] in
    runner/scenario.py), a state and exception monad for its methods, and the
    surroundings the executor calls: clock, stop event, API executor, SQL driver,
    script interpreter. *)
From S2P Require Import Prelude PyText Json PyJson ScenarioData ScenarioSql.
Open Scope Z_scope.

(** The exceptions of the script interpreter: [SafeScriptBudgetExceeded], another
    [SafeScriptError], anything else. *)
Inductive script_error := BudgetExceeded | ScriptInvalid | ScriptCrashed.

(** ** Surroundings

    The surroundings have a state of their own that every call may change.  Time
    is the reading of the monotonic clock in nanoseconds; the rounding of
    [time.monotonic()] to a float is not modelled. *)
Class Surroundings (W : Type) := {
  read_clock : W -> Z * W;
  (** [stop_event.is_set()] and [stop_event.wait(timeout)]. *)
  stop_is_set : W -> bool * W;
  stop_wait : Z -> W -> bool * W;
  sleep : Z -> W -> W;
  (** [ApiRequestTemplate.from_mapping], [ApiExecutor.execute] and [close]. *)
  Template : Type;
  from_mapping : fields -> py_exn + Template;
  api_execute : Template -> W -> (py_exn + ApiExecutionResult) * W;
  api_close : W -> W;
  (** The SQL connector and the connections and cursors it returns. *)
  Connection : Type;
  Cursor : Type;
  sql_connect : SqlConnectionPlan -> pytext -> Z -> W -> (DriverError + Connection) * W;
  sql_cursor : Connection -> W -> (DriverError + Cursor) * W;
  sql_execute : Cursor -> pytext -> json -> W -> (DriverError + option Z) * W;
  sql_fetchmany : Cursor -> Z -> W -> (DriverError + option (list db_value)) * W;
  sql_commit : Connection -> W -> option DriverError * W;
  sql_rollback : Connection -> W -> W;
  close_cursor : Cursor -> W -> W;
  close_connection : Connection -> W -> W;
  (** [run_safe_script(script, context, max_steps)]: the context it leaves behind,
      and the exception it raised. *)
  run_safe_script : json -> fields -> Z -> fields * option script_error;
}.

(** ** State *)

(** The boolean attributes. *)
Record Flags := {
  f_failed : bool;
  f_cancelled : bool;
  f_total_timeout : bool;
  f_timed_out : bool;
  f_stop_requested : bool;
  f_running_cleanup : bool;
  f_cleanup_finalized : bool;
  f_cleanup_failed : bool;
}.

Record St (W : Type) := {
  st_world : W;
  st_context : fields;
  st_traces : gmap string Trace;
  st_flags : Flags;
  st_last_error : option ScenarioRuntimeError;
  st_latest_response : option ApiExecutionResult;
  st_pending_ai : list (string * ApiExecutionResult);
  st_api_created : bool;
  st_api_closed : bool;
}.
Arguments Build_St {W}.
Arguments st_world {W}.
Arguments st_context {W}.
Arguments st_traces {W}.
Arguments st_flags {W}.
Arguments st_last_error {W}.
Arguments st_latest_response {W}.
Arguments st_pending_ai {W}.
Arguments st_api_created {W}.
Arguments st_api_closed {W}.

(** The loops of the main flow stop when one of these is set. *)
Definition halted (f : Flags) : bool := f_cancelled f || f_total_timeout f || f_stop_requested f.

Definition set_failed (b : bool) (f : Flags) : Flags :=
  Build_Flags b (f_cancelled f) (f_total_timeout f) (f_timed_out f) (f_stop_requested f)
    (f_running_cleanup f) (f_cleanup_finalized f) (f_cleanup_failed f).
Definition set_cancelled (f : Flags) : Flags :=
  Build_Flags (f_failed f) true (f_total_timeout f) (f_timed_out f) (f_stop_requested f)
    (f_running_cleanup f) (f_cleanup_finalized f) (f_cleanup_failed f).
Definition set_total_timeout (f : Flags) : Flags :=
  Build_Flags (f_failed f) (f_cancelled f) true (f_timed_out f) (f_stop_requested f)
    (f_running_cleanup f) (f_cleanup_finalized f) (f_cleanup_failed f).
Definition set_timed_out (f : Flags) : Flags :=
  Build_Flags (f_failed f) (f_cancelled f) (f_total_timeout f) true (f_stop_requested f)
    (f_running_cleanup f) (f_cleanup_finalized f) (f_cleanup_failed f).
Definition set_stop_requested (f : Flags) : Flags :=
  Build_Flags (f_failed f) (f_cancelled f) (f_total_timeout f) (f_timed_out f) true
    (f_running_cleanup f) (f_cleanup_finalized f) (f_cleanup_failed f).
Definition set_running_cleanup (b : bool) (f : Flags) : Flags :=
  Build_Flags (f_failed f) (f_cancelled f) (f_total_timeout f) (f_timed_out f) (f_stop_requested f)
    b (f_cleanup_finalized f) (f_cleanup_failed f).
Definition set_cleanup_finalized (f : Flags) : Flags :=
  Build_Flags (f_failed f) (f_cancelled f) (f_total_timeout f) (f_timed_out f) (f_stop_requested f)
    (f_running_cleanup f) true (f_cleanup_failed f).
Definition set_cleanup_failed (f : Flags) : Flags :=
  Build_Flags (f_failed f) (f_cancelled f) (f_total_timeout f) (f_timed_out f) (f_stop_requested f)
    (f_running_cleanup f) (f_cleanup_finalized f) true.

Section Setters.
Context {W : Type}.
Implicit Types st : St W.

Definition with_world (w : W) st : St W :=
  Build_St w (st_context st) (st_traces st) (st_flags st) (st_last_error st) (st_latest_response st)
    (st_pending_ai st) (st_api_created st) (st_api_closed st).
Definition with_context (c : fields) st : St W :=
  Build_St (st_world st) c (st_traces st) (st_flags st) (st_last_error st) (st_latest_response st)
    (st_pending_ai st) (st_api_created st) (st_api_closed st).
Definition with_traces (t : gmap string Trace) st : St W :=
  Build_St (st_world st) (st_context st) t (st_flags st) (st_last_error st) (st_latest_response st)
    (st_pending_ai st) (st_api_created st) (st_api_closed st).
Definition with_flags (f : Flags -> Flags) st : St W :=
  Build_St (st_world st) (st_context st) (st_traces st) (f (st_flags st)) (st_last_error st)
    (st_latest_response st) (st_pending_ai st) (st_api_created st) (st_api_closed st).
Definition with_last_error (e : ScenarioRuntimeError) st : St W :=
  Build_St (st_world st) (st_context st) (st_traces st) (st_flags st) (Some e) (st_latest_response st)
    (st_pending_ai st) (st_api_created st) (st_api_closed st).
Definition with_latest_response (r : option ApiExecutionResult) st : St W :=
  Build_St (st_world st) (st_context st) (st_traces st) (st_flags st) (st_last_error st) r
    (st_pending_ai st) (st_api_created st) (st_api_closed st).
Definition with_pending_ai (l : list (string * ApiExecutionResult)) st : St W :=
  Build_St (st_world st) (st_context st) (st_traces st) (st_flags st) (st_last_error st)
    (st_latest_response st) l (st_api_created st) (st_api_closed st).
Definition with_api (created closed : bool) st : St W :=
  Build_St (st_world st) (st_context st) (st_traces st) (st_flags st) (st_last_error st)
    (st_latest_response st) (st_pending_ai st) created closed.
End Setters.

(** ** The monad *)

(** A method returns, raises, or does not finish within the fuel of its loops. *)
Inductive res (A : Type) := Val (a : A) | Exn (x : exn) | Unfinished.
Arguments Val {A} a.
Arguments Exn {A} x.
Arguments Unfinished {A}.

Definition M (W A : Type) : Type := St W -> St W * res A.

#[global] Instance M_ret W : MRet (M W) := fun A a st => (st, Val a).
#[global] Instance M_bind W : MBind (M W) := fun A B k m st =>
  match m st with
  | (st', Val a) => k a st'
  | (st', Exn x) => (st', Exn x)
  | (st', Unfinished) => (st', Unfinished)
  end.

Section Monad.
Context {W : Type}.

Definition raise {A} (x : exn) : M W A := fun st => (st, Exn x).
Definition unfinished {A} : M W A := fun st => (st, Unfinished).
Definition gets {A} (f : St W -> A) : M W A := fun st => (st, Val (f st)).
Definition modify (f : St W -> St W) : M W unit := fun st => (f st, Val tt).
Definition lift {A} (m : py A) : M W A := fun st => (st, match m with Return a => Val a | Raise x => Exn x end).
(** A call to the surroundings. *)
Definition call_world {A} (f : W -> A * W) : M W A :=
  fun st => let '(a, w) := f (st_world st) in (with_world w st, Val a).
Definition tell_world (f : W -> W) : M W unit := fun st => (with_world (f (st_world st)) st, Val tt).

(** [try: m except ...: h x], with [h x = None] for an exception not caught. *)
Definition catch {A} (m : M W A) (h : exn -> option (M W A)) : M W A := fun st =>
  match m st with
  | (st', Exn x) => match h x with Some m' => m' st' | None => (st', Exn x) end
  | r => r
  end.
(** [except ScenarioRuntimeError as exc]. *)
Definition catch_runtime {A} (m : M W A) (h : ScenarioRuntimeError -> M W A) : M W A :=
  catch m (fun x => match x with Runtime e => Some (h e) | _ => None end).
(** [try: m finally: f]. *)
Definition finally {A} (m : M W A) (f : M W unit) : M W A := fun st =>
  match m st with
  | (st', Unfinished) => (st', Unfinished)
  | (st', r) => match f st' with
                | (st'', Val _) => (st'', r)
                | (st'', Exn x) => (st'', Exn x)
                | (st'', Unfinished) => (st'', Unfinished)
                end
  end.

Definition when (b : bool) (m : M W unit) : M W unit := if b then m else mret tt.
Definition update_flags (f : Flags -> Flags) : M W unit := modify (with_flags f).

(** [for x in l: m x]. *)
Fixpoint for_each {A} (l : list A) (m : A -> M W unit) : M W unit :=
  match l with [] => mret tt | x :: l' => _ ← m x; for_each l' m end.
End Monad.
