(* ===== verification/ScenarioActions.v ===== *)
(** What the nodes of a scenario do: the leaf actions of [ScenarioExecutor]
    (runner/scenario.py) - HTTP requests, extraction, assertions, variables,
    waiting, scripts, SQL and the two kinds of cleanup. *)
From S2P Require Import Prelude PyText Json PyJson ScenarioData RunnerValues ScenarioSql PyUrl ScenarioMonad.
Open Scope Z_scope.

(** The arguments of [ScenarioExecutor.__init__] that are not surroundings. *)
Record Executor := {
  ex_plan : ScenarioPlan;
  ex_stop_event : bool;
  ex_deadline : option Z;
  ex_defer_cleanup : bool;
  ex_owns_api : bool;
}.

(** [round(ns / 10**6)], halves to even. *)
Definition round_ms (ns : Z) : Z :=
  let q := ns / 1000000 in
  let r := ns mod 1000000 in
  if 2 * r <? 1000000 then q
  else if 1000000 <? 2 * r then q + 1
  else if Z.even q then q else q + 1.

Definition ms (n : Z) : Z := n * 1000000.

(** [value in {"...", ...}]; a list or an object is not hashable. *)
Definition member (j : json) (names : list string) : py bool :=
  if hashable j then Return (match j with JStr s => bool_decide (s ∈ u <$> names) | _ => false end)
  else Raise PyTypeError.

(** [set(config) - allowed]. *)
Definition extra_fields (config : fields) (allowed : list string) : bool :=
  existsb (fun '((k, _) : pytext * json) => negb (bool_decide (k ∈ u <$> allowed))) config.

(** [type(value) is int], and [isinstance(value, int)] of a value that is no bool. *)
Definition int_of (j : json) : option Z := match j with JInt z => Some z | _ => None end.
Definition is_none (j : json) : bool := match j with JNull => true | _ => false end.

(** [value == "..."]. *)
Definition equals_text (j : json) (s : string) : bool :=
  match j with JStr t => bool_decide (t = u s) | _ => false end.

(** [min(value, bound)]. *)
Definition min_number (value : json) (bound : Z) : py json :=
  b ← of_test (less_than (JInt bound) value);
  Return (if b : bool then JInt bound else value).

(** [_SQL_NAME.fullmatch]. *)
Definition sql_name (s : pytext) : bool :=
  match s with
  | c :: r => name_start c && forallb (fun c => name_start c || ascii_digit c) r && (length r <=? 127)%nat
  | [] => false
  end.

(** ** Requests *)

(** [_request_items]: every item is an object with a name, its value is made a
    text. *)
Definition request_item (item : json) : py json :=
  match item with
  | JDict current =>
      _ ← require (match get current "name" with JStr s => bool_decide (strip s <> []) | _ => false end) ProtocolError;
      match field (u "value") current with
      | None | Some (JStr _) => Return item
      | Some v => t ← stringify_request_value v; Return (JDict (set_field (u "value") (JStr t) current))
      end
  | _ => Raise ProtocolError
  end.

Definition request_items (value : json) : py (list json) :=
  match value with JList l => map_py request_item l | _ => Raise ProtocolError end.

Definition type_none : json := JDict [(u "type", JStr (u "NONE"))].

Definition http_config_invalid : exn := Runtime (plain_error "HTTP_CONFIG_INVALID" "HTTP 节点配置无效").

Section Actions.
Context {W : Type} `{Unicode} `{Surroundings W} (ex : Executor).

Abbreviation plan := (ex_plan ex).

(** [ApiRequestTemplate.from_mapping]. *)
Definition template_of (request : fields) : py Template :=
  match from_mapping request with inl x => Raise x | inr t => Return t end.

(** [_http_request]. *)
Definition http_request (context : fields) (node : ScenarioNodePlan) : py Template :=
  let config := sn_config node in
  _ ← require (negb (extra_fields config
        ["method"; "url"; "query_params"; "headers"; "body"; "auth"; "cookies"; "timeout_ms";
         "follow_redirects"; "retry_policy"]))
        (Runtime (plain_error "HTTP_CONFIG_INVALID" "HTTP 节点配置包含未知字段"));
  except
    (rendered ← resolve context (JDict config);
     match rendered with
     | JDict r =>
         headers ← request_items (get_or r "headers" (JList []));
         query_params ← request_items (get_or r "query_params" (JList []));
         cookies ← request_items (get_or r "cookies" (JList []));
         let auth := get_or r "auth" type_none in
         let auth := if is_none auth then type_none else auth in
         timeout ← min_number (get_or r "timeout_ms" (JInt (sn_timeout_ms node))) (sn_timeout_ms node);
         template_of
           [(u "method", get_or r "method" (JStr (u "GET"))); (u "url", get r "url");
            (u "query_params", JList query_params); (u "headers", JList headers); (u "cookies", JList cookies);
            (u "body", get_or r "body" type_none); (u "auth", auth); (u "timeout_ms", timeout);
            (u "follow_redirects", get_or r "follow_redirects" (JBool true));
            (u "retry_policy", get_or r "retry_policy" (JDict [(u "max_retries", JInt 0)]))]
     | _ => Raise PyTypeError
     end)
    (fun x => match x with
              | Runtime _ | Py PyKeyError | Py OtherException => None
              | _ => Some (Raise http_config_invalid)
              end).

(** ** Time and control *)

Definition clock : M W Z := call_world read_clock.

(** [_duration_ms]. *)
Definition duration_ms (started : Z) : M W Z :=
  now ← clock; mret (Z.min MAX_TRACE_DURATION_MS (Z.max 0 (round_ms (now - started)))).

(** [_check_deadline_only]. *)
Definition check_deadline_only : M W unit :=
  match ex_deadline ex with
  | None => mret tt
  | Some d => now ← clock; when (d <=? now) (raise (Runtime total_timeout_error))
  end.

(** [_check_control]. *)
Definition check_control : M W unit :=
  _ ← (if ex_stop_event ex
       then set ← call_world stop_is_set; when set (raise (Runtime cancel_error))
       else mret tt);
  check_deadline_only.

(** [_executor().execute(request)]. *)
Definition execute_request (t : Template) : M W (py_exn + ApiExecutionResult) :=
  _ ← modify (fun st => with_api true (st_api_closed st) st);
  call_world (api_execute t).

Definition set_variable_value (name : pytext) (value : json) : M W unit :=
  modify (fun st => with_context (set_field name value (st_context st)) st).

(** ** Leaf actions; the details they return are not part of a trace *)

(** The exceptions of the API executor as seen by [_http] and [_api_cleanup]. *)
Definition request_failure (x : py_exn) (timeout_message network_message failed_type failed_message
    config_type config_message : string) : exn :=
  match x with
  | TargetTimeoutError => Runtime (retryable_error "TARGET_TIMEOUT" timeout_message true)
  | TargetExecutionError => Runtime (retryable_error "TARGET_NETWORK_ERROR" network_message false)
  | ExecutionError t => Runtime (runtime_error (match t with [] => u failed_type | _ => t end)
                                   (u failed_message) false false false None)
  | ProtocolError | PyTypeError | PyValueError => Runtime (plain_error config_type config_message)
  | _ => x
  end.

(** [_http]. *)
Definition http (node : ScenarioNodePlan) : M W unit :=
  _ ← modify (with_latest_response None);
  context ← gets st_context;
  request ← lift (http_request context node);
  started ← clock;
  answer ← execute_request request;
  match answer with
  | inl x => raise (request_failure x "目标 API 请求超时" "目标 API 网络请求失败" "HTTP_EXECUTION_ERROR"
                        "HTTP 节点执行失败" "HTTP_CONFIG_INVALID" "HTTP 节点配置无效")
  | inr result =>
      _ ← modify (with_latest_response (Some result));
      duration ← duration_ms started;
      if sn_timeout_ms node <? duration
      then raise (Runtime (runtime_error (u "NODE_TIMEOUT") (u "HTTP 节点执行超时") false true false (Some result)))
      else if (500 <=? ar_status_code result) && (ar_status_code result <=? 599)
      then raise (Runtime (runtime_error HTTP_5XX (u "目标 API 返回 5xx") true false false (Some result)))
      else mret tt
  end.

(** [_extract]: the value the expression selects, or the default of an optional
    extraction. *)
Definition extracted (config : fields) (response : option ApiExecutionResult) : py (pytext * json) :=
  let invalid := Runtime (plain_error "EXTRACT_CONFIG_INVALID" "EXTRACT 配置无效") in
  let source := get config "source" in
  let expression := get config "expression" in
  let required := get_or config "required" (JBool true) in
  _ ← require (variable_name (get config "name")) invalid;
  known ← member source ["JSONPATH"; "HEADER"; "COOKIE"];
  match get config "name", expression, required with
  | JStr name, JStr (c :: e), JBool required =>
      _ ← require known invalid;
      r ← of_option response (Runtime (plain_error "RESPONSE_VALUE_MISSING" "Response Snapshot 不存在"));
      value ← except
        (if equals_text source "JSONPATH" then jsonpath_get (ar_json_body r) (c :: e)
         else JStr <$> case_insensitive_get str_lower
                (if equals_text source "HEADER" then ar_headers r else ar_cookies r) (c :: e))
        (fun x => match x with
                  | Py (PyKeyError | PyTypeError | PyValueError) =>
                      Some (if required
                            then Raise (Runtime (plain_error "RESPONSE_VALUE_MISSING" "EXTRACT 未匹配响应值"))
                            else Return (get config "default_value"))
                  | _ => None
                  end);
      Return (name, value)
  | _, _, _ => Raise invalid
  end.

Definition extract (node : ScenarioNodePlan) : M W unit :=
  response ← gets st_latest_response;
  '(name, value) ← lift (extracted (sn_config node) response);
  set_variable_value name value.

Definition assertion_failed : exn := Runtime (plain_error "ASSERTION_FAILED" "断言失败").

(** [_assert]: every failure to evaluate is a failed assertion. *)
Definition assertion_holds (context : fields) (node : ScenarioNodePlan) (r : ApiExecutionResult) : py bool :=
  let config := sn_config node in
  except
    (if decide (sn_type node = ASSERT_STATUS) then
       expected ← resolve context (get config "expected");
       match expected with
       | JInt code =>
           _ ← require ((100 <=? code) && (code <=? 599)) PyValueError;
           Return (ar_status_code r =? code)
       | _ => Raise PyValueError
       end
     else
       expression ← resolve context (get config "expression");
       match expression with
       | JStr (36%N :: path) =>
           expected ← resolve context (get config "expected");
           actual ← jsonpath_get (ar_json_body r) (36%N :: path);
           Return (same_type actual expected && py_eq actual expected)
       | _ => Raise PyValueError
       end)
    (fun x => match x with
              | Py (PyKeyError | PyTypeError | PyValueError) | Runtime _ => Some (Raise assertion_failed)
              | _ => None
              end).

Definition assert (node : ScenarioNodePlan) : M W unit :=
  response ← gets st_latest_response;
  match response with
  | None => raise assertion_failed
  | Some r =>
      context ← gets st_context;
      passed ← lift (assertion_holds context node r);
      if passed : bool then mret tt else raise assertion_failed
  end.

(** [0 <= value <= 1] of a number that is no bool. *)
Definition is_probability (j : json) : bool :=
  match j with
  | JInt _ | JFloat _ =>
      match number_of j with
      | Some v => bool_decide (compare_values (Finite 0 0) v ∈ [Some Lt; Some Eq])
                  && bool_decide (compare_values v (Finite 1 0) ∈ [Some Lt; Some Eq])
      | None => false
      end
  | _ => false
  end.

Definition ai_config_valid (config : fields) : bool :=
  negb (extra_fields config ["prompt_id"; "criteria"; "confidence_threshold"])
  && match get config "prompt_id" with JInt z => 0 <? z | _ => false end
  && match get config "criteria" with
     | JStr s => bool_decide (strip s <> []) && (length s <=? 4000)%nat
     | _ => false
     end
  && match field (u "confidence_threshold") config with None => true | Some v => is_probability v end.

(** [_defer_ai_assertion]: the response is kept for the evaluation by the back
    end. *)
Definition defer_ai_assertion (node : ScenarioNodePlan) : M W unit :=
  response ← gets st_latest_response;
  match response with
  | None => raise (Runtime (plain_error "RESPONSE_VALUE_MISSING" "AI 断言缺少响应"))
  | Some r =>
      if ai_config_valid (sn_config node)
      then modify (fun st => with_pending_ai (st_pending_ai st ++ [(sn_id node, r)]) st)
      else raise (Runtime (plain_error "AI_ASSERTION_CONFIG_INVALID" "AI 断言配置无效"))
  end.

(** [_set_variable]. *)
Definition set_variable (node : ScenarioNodePlan) : M W unit :=
  let name := get (sn_config node) "name" in
  match name with
  | JStr n =>
      if variable_name name then
        context ← gets st_context;
        value ← lift (resolve context (get (sn_config node) "value"));
        set_variable_value n value
      else raise (Runtime (plain_error "VARIABLE_NAME_INVALID" "SET_VARIABLE 变量名无效"))
  | _ => raise (Runtime (plain_error "VARIABLE_NAME_INVALID" "SET_VARIABLE 变量名无效"))
  end.

(** The loop of [_wait]: steps of at most 100 ms until the duration is over or
    the stop event is set. *)
Fixpoint wait_loop (fuel : nat) (started total remaining : Z) : M W unit :=
  if remaining <=? 0 then mret tt
  else match fuel with
       | O => unfinished
       | S fuel' =>
           _ ← check_control;
           now ← clock;
           let elapsed := now - started in
           if total <=? elapsed then mret tt
           else
             let step := Z.min (Z.min (ms 100) remaining) (total - elapsed) in
             set ← call_world (stop_wait step);
             if set : bool then raise (Runtime cancel_error)
             else wait_loop fuel' started total (remaining - step)
       end.

(** Steps of 100 ms, one shorter step before the end of the duration and one
    after it. *)
Definition wait_fuel (duration : Z) : nat := (Z.to_nat (duration / 100) + 3)%nat.

(** [_wait]. *)
Definition wait (node : ScenarioNodePlan) : M W unit :=
  match get (sn_config node) "duration_ms" with
  | JInt duration =>
      if negb ((1 <=? duration) && (duration <=? 600000))
      then raise (Runtime (plain_error "WAIT_CONFIG_INVALID" "WAIT duration_ms 无效"))
      else if sn_timeout_ms node <? duration
      then raise (Runtime (retryable_error "WAIT_TIMEOUT" "WAIT 超过节点 timeout_ms" true))
      else
        started ← clock;
        if ex_stop_event ex then wait_loop (wait_fuel duration) started (ms duration) (ms duration)
        else
          let remaining := match ex_deadline ex with
                           | Some d => Z.min (ms duration) (Z.max 0 (d - started))
                           | None => ms duration
                           end in
          if remaining <=? 0 then raise (Runtime total_timeout_error)
          else
            _ ← tell_world (sleep remaining);
            _ ← check_control;
            when (remaining <? ms duration) (raise (Runtime total_timeout_error))
  | _ => raise (Runtime (plain_error "WAIT_CONFIG_INVALID" "WAIT duration_ms 无效"))
  end.

(** [_script]. *)
Definition script (node : ScenarioNodePlan) : M W unit :=
  let config := sn_config node in
  if extra_fields config ["script"]
  then raise (Runtime (plain_error "PYTHON_SCRIPT_INVALID" "Python Script 配置无效"))
  else
    context ← gets st_context;
    let max_steps := Z.max 20 (Z.min 500 (sn_timeout_ms node / 10)) in
    let '(context', error) := run_safe_script (get config "script") context max_steps in
    _ ← modify (with_context context');
    match error with
    | Some BudgetExceeded =>
        raise (Runtime (timeout_error "PYTHON_TIMEOUT" "Python Script 超过受限计算预算"))
    | Some ScriptInvalid =>
        raise (Runtime (plain_error "PYTHON_SCRIPT_INVALID" "Python Script 不符合受限执行规则"))
    | Some ScriptCrashed => raise (Runtime (plain_error "PYTHON_RUNTIME_ERROR" "Python Script 执行失败"))
    | None => check_control
    end.

(** ** SQL *)

(** [_sql_connection] and [_secret_value]. *)
Definition sql_connection (connection_id : Z) : py SqlConnectionPlan :=
  match filter (fun c => sq_connection_id c = connection_id) (spl_sql_connections plan) with
  | [c] => if decide (sq_db_type c = u "MYSQL") then Return c
           else Raise (sql_error "SQL_CONNECTION_INVALID" "SQL Connection 不可用")
  | _ => Raise (sql_error "SQL_CONNECTION_INVALID" "SQL Connection 不可用")
  end.
Definition secret_value (secret_id : Z) : py pytext :=
  match filter (fun p => p.1 = secret_id) (spl_secrets plan) with
  | [(_, c :: v)] => Return (c :: v)
  | _ => Raise (sql_error "SECRET_REFERENCE_INVALID" "Scenario Secret 引用无效")
  end.

Definition SQL_NODE_FIELDS : list string := ["connection_id"; "sql"; "params"; "result_variable"; "max_rows"].
Definition SQL_CLEANUP_FIELDS : list string :=
  ["cleanup_id"; "cleanup_type"; "policy"; "enabled"; "timeout_ms"; "method"; "url"; "query_params"; "headers";
   "cookies"; "body"; "auth"; "connection_id"; "sql"; "params"; "resource_id_param"].

Record SqlRequest := {
  rq_connection : SqlConnectionPlan;
  rq_password : pytext;
  rq_statement : pytext;
  rq_parameters : json;
  rq_result_variable : pytext;
  rq_max_rows : Z;
}.

(** The parameter of a cleanup that receives the resource identifier. *)
Definition with_resource_id (context config : fields) (parameters : json) : py json :=
  match get config "resource_id_param" with
  | JNull => Return parameters
  | JStr name =>
      match parameters, field (u "resource_id") context with
      | JDict ps, resource =>
          _ ← require (sql_name name) (sql_error "SQL_PARAMS_INVALID" "SQL Cleanup 参数无效");
          id ← of_option resource (sql_error "SQL_PARAMS_INVALID" "SQL Cleanup 缺少资源上下文");
          Return (JDict (set_field name id ps))
      | _, _ => Raise (sql_error "SQL_PARAMS_INVALID" "SQL Cleanup 参数无效")
      end
  | _ => Raise PyTypeError
  end.

(** The checks of [_sql] before it connects. *)
Definition sql_request (context : fields) (config : fields) (mode : SqlMode) (cleanup : bool) : py SqlRequest :=
  let invalid message := sql_error "SQL_CONFIG_INVALID" message in
  _ ← require (negb (extra_fields config (if cleanup then SQL_CLEANUP_FIELDS else SQL_NODE_FIELDS)))
        (invalid "SQL 节点配置无效");
  connection_id ← of_option (int_of (get config "connection_id")) (invalid "SQL 节点配置无效");
  _ ← require (0 <? connection_id) (invalid "SQL 节点配置无效");
  connection ← sql_connection connection_id;
  text ← of_option (text_of (get config "sql")) (invalid "SQL 节点配置无效");
  statement ← validate_sql_statement text mode;
  parameters ← resolve context (get_or config "params" (JDict []));
  _ ← match parameters with
      | JDict ps => require (forallb (fun '((k, _) : pytext * json) => sql_name k) ps)
                      (sql_error "SQL_PARAMS_INVALID" "SQL 参数名称无效")
      | JList _ => Return tt
      | _ => Raise (sql_error "SQL_PARAMS_INVALID" "SQL 参数格式无效")
      end;
  parameters ← (if cleanup then with_resource_id context config parameters else Return parameters);
  let variable := get_or config "result_variable"
                    (JStr (u (if decide (mode = QUERY) then "sql_rows" else "affected_rows"))) in
  _ ← require (variable_name variable) (invalid "SQL 结果变量名无效");
  let max_rows := get_or config "max_rows" (JInt 100) in
  _ ← require (negb (bool_decide (mode = QUERY))
               || match max_rows with JInt n => (1 <=? n) && (n <=? 1000) | _ => false end)
        (invalid "SQL 返回行数上限无效");
  password ← secret_value (sq_password_secret_id connection);
  Return {| rq_connection := connection; rq_password := password; rq_statement := statement;
            rq_parameters := parameters;
            rq_result_variable := match variable with JStr s => s | _ => [] end;
            rq_max_rows := match max_rows with JInt n => n | _ => 0 end |}.

(** A call to the driver; its exceptions are translated where [_sql] catches them. *)
Definition driver {A} (mode : SqlMode) (f : W -> (DriverError + A) * W) : M W A :=
  r ← call_world f;
  match r with inl e => raise (Runtime (sql_failure e mode)) | inr a => mret a end.

Definition check_size : M W unit :=
  context ← gets st_context; when (negb (context_fits context)) (raise PyValueError).

(** Inside the [try] of [_sql], after the statement ran. *)
Definition sql_fetch (mode : SqlMode) (rq : SqlRequest) (conn : Connection) (cur : Cursor)
    (affected : option Z) : M W unit :=
  match mode with
  | QUERY =>
      rows ← driver mode (sql_fetchmany cur (rq_max_rows rq + 1));
      match rows with
      | None => raise (sql_error "SQL_RESULT_INVALID" "SQL 查询结果无效")
      | Some rows =>
          safe_rows ← lift (of_option (mapM json_safe_value (take (Z.to_nat (rq_max_rows rq)) rows)) PyValueError);
          _ ← set_variable_value (rq_result_variable rq) (JList safe_rows);
          _ ← check_size;
          tell_world (sql_rollback conn)
      end
  | _ =>
      match affected with
      | None => raise (sql_error "SQL_RESULT_INVALID" "SQL 执行结果无效")
      | Some n =>
          failure ← call_world (sql_commit conn);
          match failure with
          | Some e => raise (Runtime (sql_failure e mode))
          | None =>
              _ ← set_variable_value (rq_result_variable rq) (JInt n);
              check_size
          end
      end
  end.

(** [except ...: _safe_rollback(connection); raise ...]. *)
Definition rolled_back {A} (conn : Connection) (m : M W A) : M W A :=
  catch m (fun x => Some (_ ← tell_world (sql_rollback conn);
    raise (match x with
           | Runtime _ => x
           | _ => Runtime (plain_error "SQL_EXECUTION_ERROR" "SQL 节点执行失败")
           end))).

(** [_sql]; [cleanup] is [cleanup_config is not None]. *)
Definition sql (node : ScenarioNodePlan) (mode : SqlMode) (cleanup : bool) : M W unit :=
  context ← gets st_context;
  rq ← lift (sql_request context (sn_config node) mode cleanup);
  started ← clock;
  let check := if cleanup then check_deadline_only else check_control in
  _ ← check;
  conn ← driver mode (sql_connect (rq_connection rq) (rq_password rq) (sn_timeout_ms node));
  finally (
    cur ← rolled_back conn (driver mode (sql_cursor conn));
    finally (rolled_back conn (
      affected ← driver mode (sql_execute cur (rq_statement rq) (rq_parameters rq));
      _ ← check;
      duration ← duration_ms started;
      _ ← when (sn_timeout_ms node <? duration) (raise (Runtime (timeout_error "SQL_NODE_TIMEOUT" "SQL 节点执行超时")));
      sql_fetch mode rq conn cur affected))
      (tell_world (close_cursor cur)))
    (tell_world (close_connection conn)).

(** ** Cleanup *)

(** [_cleanup_config]: [None] when the configuration is accepted. *)
Definition cleanup_config_error (node : ScenarioNodePlan) : option exn :=
  let config := sn_config node in
  let expected := if decide (sn_type node = API_CLEANUP) then "API" else "SQL" in
  let invalid message := Some (Runtime (plain_error "CLEANUP_CONFIG_INVALID" message)) in
  if extra_fields config SQL_CLEANUP_FIELDS then invalid "Cleanup 配置无效"
  else if negb (equals_text (get_or config "cleanup_type" (JStr (u expected))) expected)
  then invalid "Cleanup 类型无效"
  else match get_or config "timeout_ms" (JInt (sn_timeout_ms node)) with
       | JInt t => if (100 <=? t) && (t <=? 120000) && (t =? sn_timeout_ms node) then None
                   else invalid "Cleanup timeout 无效"
       | _ => invalid "Cleanup timeout 无效"
       end.

(** [_cleanup_credential]. *)
Definition cleanup_credential (context auth : fields) : py (option pytext) :=
  match get auth "secret_id", get auth "credential_ref" with
  | JNull, JNull => Return None
  | JNull, ref =>
      value ← resolve context ref;
      match value with JStr (c :: v) => Return (Some (c :: v)) | _ => Raise ProtocolError end
  | JInt id, JNull => _ ← require (0 <? id) ProtocolError; Some <$> secret_value id
  | _, _ => Raise ProtocolError
  end.

Definition header_item (name value : pytext) : json := JDict [(u "name", JStr name); (u "value", JStr value)].

(** The headers and query parameters with the credential of the cleanup added. *)
Definition cleanup_auth (auth : fields) (auth_type : pytext) (credential : option pytext) (headers query : list json)
  : py (list json * list json) :=
  let key_name := get auth "key_name" in
  let placement := get_or auth "placement" (JStr (u "HEADER")) in
  let header := equals_text placement "HEADER" in
  if decide (auth_type = u "BEARER") then
    c ← of_option credential ProtocolError;
    Return (headers ++ [header_item (u "Authorization") (u "Bearer " ++ c)], query)
  else if decide (auth_type = u "BASIC") then
    c ← of_option credential ProtocolError;
    _ ← require (existsb (N.eqb 58) c) ProtocolError;
    _ ← require (bool_decide (is_Some (utf8_length c))) PyValueError;
    Return (headers ++ [header_item (u "Authorization") (u "Basic " ++ base64 (mjoin (utf8_bytes <$> c)))], query)
  else if decide (auth_type = u "API_KEY") then
    c ← of_option credential ProtocolError;
    match key_name with
    | JStr k =>
        if header then Return (headers ++ [header_item k c], query)
        else if equals_text placement "QUERY" then Return (headers, query ++ [header_item k c])
        else Raise ProtocolError
    | _ => Raise ProtocolError
    end
  else
    _ ← require (is_none key_name && header) ProtocolError;
    Return (headers, query).

(** [_cleanup_request]. *)
Definition cleanup_request (context : fields) (node : ScenarioNodePlan) : py Template :=
  rendered ← resolve context (JDict (sn_config node));
  match rendered with
  | JDict r =>
      let method := get r "method" in
      allowed ← member method ["DELETE"; "POST"; "PUT"; "PATCH"];
      _ ← require allowed ProtocolError;
      headers ← request_items (get_or r "headers" (JList []));
      query ← request_items (get_or r "query_params" (JList []));
      cookies ← request_items (get_or r "cookies" (JList []));
      match get_or r "auth" type_none with
      | JDict auth =>
          _ ← require (negb (extra_fields auth ["type"; "credential_ref"; "secret_id"; "key_name"; "placement"]))
                ProtocolError;
          let auth_type := get_or auth "type" (JStr (u "NONE")) in
          known ← member auth_type ["NONE"; "BEARER"; "BASIC"; "API_KEY"];
          _ ← require known ProtocolError;
          let type_text := match auth_type with JStr t => t | _ => [] end in
          let placement := get_or auth "placement" (JStr (u "HEADER")) in
          let key_name := get auth "key_name" in
          _ ← require (negb ((equals_text auth_type "BEARER" || equals_text auth_type "BASIC")
                             && (negb (is_none key_name) || negb (equals_text placement "HEADER")))) ProtocolError;
          _ ← require (negb (equals_text auth_type "API_KEY")
                       || match key_name with JStr s => bool_decide (strip s <> []) | _ => false end) ProtocolError;
          credential ← cleanup_credential context auth;
          _ ← require (negb (equals_text auth_type "NONE" && bool_decide (is_Some credential))) ProtocolError;
          '(headers, query) ← cleanup_auth auth type_text credential headers query;
          let body := get r "body" in
          timeout ← min_number (get_or r "timeout_ms" (JInt (sn_timeout_ms node))) (sn_timeout_ms node);
          template_of
            [(u "method", method); (u "url", get r "url"); (u "query_params", JList query);
             (u "headers", JList headers); (u "cookies", JList cookies);
             (u "body", if is_none body then type_none else body); (u "auth", type_none);
             (u "timeout_ms", timeout); (u "follow_redirects", JBool false)]
      | _ => Raise ProtocolError
      end
  | _ => Raise ProtocolError
  end.

(** [_api_cleanup]. *)
Definition api_cleanup (node : ScenarioNodePlan) : M W unit :=
  context ← gets st_context;
  answer ← match cleanup_request context node with
           | Return request => execute_request request
           | Raise (Runtime e) => raise (Runtime e)
           | Raise (Py x) => mret (inl x)
           end;
  match answer with
  | inl x => raise (request_failure x "Cleanup 目标 API 请求超时" "Cleanup 目标 API 网络请求失败"
                        "HTTP_CLEANUP_ERROR" "API Cleanup 执行失败" "CLEANUP_CONFIG_INVALID" "API Cleanup 配置无效")
  | inr result =>
      let code := ar_status_code result in
      if 400 <=? code then
        raise (Runtime (runtime_error (if 500 <=? code then HTTP_5XX else u "HTTP_CLEANUP_ERROR")
                          (u "API Cleanup 返回错误状态") (500 <=? code) false false
                          (if 500 <=? code then Some result else None)))
      else mret tt
  end.
End Actions.
