(* ===== verification/ScenarioRun.v ===== *)
(** The control flow of [ScenarioExecutor] (runner/scenario.py): running the node
    tree, retries, traces, skipping, the cleanup phase and the result; and the
    part of the worker process (runner/isolation.py) that calls it. *)
From S2P Require Import Prelude PyText Json PyJson ScenarioData RunnerValues ScenarioSql ScenarioMonad ScenarioActions.
Open Scope Z_scope.

Section Run.
Context {W : Type} `{Unicode} `{Surroundings W} (ex : Executor).

Abbreviation plan := (ex_plan ex).
Abbreviation nodes := (spl_nodes plan).

(** [self.children.get(parent_id, ())]. *)
Definition children (parent : option string) : list ScenarioNodePlan :=
  filter (fun n => sn_parent n = parent) nodes.

(** The depth of the node tree is at most the number of nodes. *)
Definition depth_fuel : nat := length nodes.

(** ** Traces *)

(** [_record]. *)
Definition record (node : ScenarioNodePlan) (status : NodeOutcome) (retry_count duration : Z)
    (error_type error_message : option pytext) : M W unit :=
  modify (fun st => with_traces
    (<[sn_id node := record_trace (st_traces st !! sn_id node) (sn_id node) status retry_count duration
                       error_type error_message]> (st_traces st)) st).

Definition record_plain (node : ScenarioNodePlan) (status : NodeOutcome) (retry_count duration : Z) : M W unit :=
  record node status retry_count duration None None.

(** [_record_failure]. *)
Definition record_failure (node : ScenarioNodePlan) (e : ScenarioRuntimeError) (retry_count duration : Z) : M W unit :=
  record node (if re_timeout e then TIMEOUT else FAILED) retry_count duration
    (Some (re_error_type e)) (Some (re_message e)).

(** [_record_skipped]: a cleanup node is left to the cleanup phase. *)
Definition record_skipped (node : ScenarioNodePlan) : M W unit :=
  st ← gets id;
  if is_cleanup node && negb (f_running_cleanup (st_flags st)) && negb (f_cleanup_finalized (st_flags st))
  then mret tt
  else match st_traces st !! sn_id node with
       | Some _ => mret tt
       | None => record_plain node SKIPPED 0 0
       end.

(** [_skip_descendants]. *)
Fixpoint skip_descendants (fuel : nat) (node : ScenarioNodePlan) : M W unit :=
  match fuel with
  | O => unfinished
  | S fuel' => for_each (children (Some (sn_id node))) (fun child =>
                 _ ← record_skipped child; skip_descendants fuel' child)
  end.

Definition skip_tree (node : ScenarioNodePlan) : M W unit :=
  _ ← record_skipped node; skip_descendants depth_fuel node.

(** [_skip_siblings]: the siblings after the node. *)
Fixpoint after (node_id : string) (seen : bool) (l : list ScenarioNodePlan) : list ScenarioNodePlan :=
  match l with
  | [] => []
  | n :: l' => if decide (sn_id n = node_id) then after node_id true l'
               else if seen then n :: after node_id seen l' else after node_id seen l'
  end.
Definition skip_siblings (parent : option string) (node_id : string) : M W unit :=
  for_each (after node_id false (children parent)) skip_tree.

(** [_fill_missing_traces]. *)
Definition fill_missing_traces : M W unit := for_each nodes record_skipped.

(** [_ordered_traces]. *)
Definition ordered_traces (traces : gmap string Trace) : list Trace :=
  omap (fun n => traces !! sn_id n) nodes.

(** ** Failure policy *)

(** [_policy] and [_should_stop]. *)
Definition policy (node : ScenarioNodePlan) : FailurePolicy :=
  if decide (sn_failure_policy node = Some RETRY_ONCE) then RETRY_ONCE
  else if spl_stop_on_failure plan then STOP
  else default CONTINUE (sn_failure_policy node).

Definition is_cancel (e : ScenarioRuntimeError) : bool := bool_decide (re_error_type e = CANCEL_REQUESTED).

Definition should_stop (node : ScenarioNodePlan) (e : ScenarioRuntimeError) : bool :=
  re_total_timeout e || is_cancel e || negb (bool_decide (policy node = CONTINUE)).

(** ** Leaves *)

Definition add_duration (total duration : Z) : Z := Z.min MAX_TRACE_DURATION_MS (total + duration).

(** One attempt of [_run_leaf], inside its [try]. *)
Definition leaf_attempt (node : ScenarioNodePlan) (action : M W unit) (started attempt total : Z) : M W unit :=
  _ ← check_control ex;
  _ ← action;
  duration ← duration_ms started;
  _ ← check_control ex;
  _ ← when (sn_timeout_ms node <? duration) (raise (Runtime (timeout_error "NODE_TIMEOUT" "Scenario 节点执行超时")));
  record_plain node SUCCESS attempt (add_duration total duration).

(** The [except] clause of the last attempt. *)
Definition leaf_failed (node : ScenarioNodePlan) (e : ScenarioRuntimeError) (attempt total : Z) : M W unit :=
  _ ← when (re_timeout e) (update_flags set_timed_out);
  _ ← record_failure node e attempt total;
  _ ← update_flags (set_failed true);
  _ ← modify (with_last_error e);
  when (should_stop node e)
    (_ ← update_flags set_stop_requested; skip_siblings (sn_parent node) (sn_id node)).

(** The attempts of [_run_leaf]: [left] more of [max_attempts]. *)
Fixpoint leaf_attempts (node : ScenarioNodePlan) (action : M W unit) (max_attempts : Z) (left : nat)
    (attempt total : Z) (last_error : option ScenarioRuntimeError) : M W unit :=
  match left with
  | O => match last_error with Some e => raise (Runtime e) | None => mret tt end
  | S left' =>
      started ← clock;
      context_before ← gets st_context;
      catch_runtime (leaf_attempt node action started attempt total) (fun e =>
        _ ← modify (with_context context_before);
        duration ← duration_ms started;
        let total := add_duration total duration in
        if re_total_timeout e then
          _ ← update_flags (fun f => set_stop_requested (set_failed false (set_total_timeout f)));
          _ ← modify (with_last_error e);
          record_failure node e attempt total
        else if is_cancel e then
          _ ← update_flags (fun f => set_stop_requested (set_cancelled f));
          record_failure node e attempt total
        else if bool_decide (re_error_type e = HTTP_5XX) && bool_decide (is_Some (re_response e))
                && (max_attempts <=? attempt + 1) then
          record_plain node SUCCESS attempt total
        else if (attempt + 1 <? max_attempts) && re_retryable e then
          leaf_attempts node action max_attempts left' (attempt + 1) total (Some e)
        else leaf_failed node e attempt total)
  end.

(** [_run_leaf]. *)
Definition run_leaf (node : ScenarioNodePlan) (action : M W unit) : M W unit :=
  let max_attempts := if decide (policy node = RETRY_ONCE) then 2%nat else 1%nat in
  leaf_attempts node action (Z.of_nat max_attempts) max_attempts 0 0 None.

(** ** The node tree *)

(** What [_run_children] and [_run_children_one] do with an exception of a node. *)
Definition note_error (node : ScenarioNodePlan) (e : ScenarioRuntimeError) : M W unit :=
  _ ← record_failure node e 0 0;
  update_flags (fun f => if re_total_timeout e then set_total_timeout f
                         else if is_cancel e then set_cancelled f else f).

Section Node.
(** [_run_node] of the nodes one level below. *)
Context (run_child : ScenarioNodePlan -> M W unit).

(** [_run_children]. *)
Fixpoint run_siblings (parent : option string) (l : list ScenarioNodePlan) : M W unit :=
  match l with
  | [] => mret tt
  | node :: rest =>
      flags ← gets st_flags;
      if halted flags then _ ← skip_tree node; run_siblings parent rest
      else
        stop ← catch_runtime (_ ← check_control ex; _ ← run_child node; mret false) (fun e =>
          _ ← note_error node e;
          _ ← update_flags (fun f => set_failed (f_failed f || negb (re_total_timeout e)) f);
          _ ← modify (with_last_error e);
          if should_stop node e
          then _ ← update_flags set_stop_requested; _ ← skip_siblings parent (sn_id node); mret true
          else mret false);
        if stop : bool then mret tt else run_siblings parent rest
  end.
Definition run_children (parent : option string) : M W unit := run_siblings parent (children parent).

(** [_run_children_one]. *)
Definition run_children_one (node : ScenarioNodePlan) : M W unit :=
  flags ← gets st_flags;
  if halted flags then skip_tree node
  else
    catch_runtime (_ ← check_control ex; run_child node) (fun e =>
      _ ← note_error node e;
      _ ← update_flags (fun f => if re_total_timeout e || is_cancel e then f else set_failed true f);
      _ ← modify (with_last_error e);
      when (should_stop node e)
        (_ ← update_flags set_stop_requested;
         _ ← skip_siblings (sn_parent node) (sn_id node);
         skip_descendants depth_fuel node)).

(** [_run_if]. *)
Definition run_if (node : ScenarioNodePlan) : M W unit :=
  started ← clock;
  context ← gets st_context;
  matched ← lift (condition context (get (sn_config node) "condition"));
  duration ← duration_ms started;
  _ ← record_plain node SUCCESS 0 duration;
  for_each (children (Some (sn_id node))) (fun child =>
    if Bool.eqb matched (bool_decide (sn_type child = ELSE)) then skip_tree child
    else run_children_one child).

(** The values a LOOP iterates over. *)
Definition loop_values (context : fields) (node : ScenarioNodePlan) : py (list json) :=
  let invalid := Runtime (plain_error "LOOP_CONFIG_INVALID" "LOOP 配置无效") in
  match get (sn_config node) "items" with
  | JNull =>
      match get (sn_config node) "iterations" with
      | JInt n =>
          _ ← require (1 <=? n) invalid;
          _ ← require (n <=? spl_max_loop_iterations plan)
                (Runtime (plain_error "LOOP_LIMIT" "LOOP 次数超过安全上限"));
          Return (JInt <$> seqZ 0 n)
      | _ => Raise invalid
      end
  | items =>
      resolved ← resolve context items;
      match resolved with
      | JList l =>
          _ ← require (Z.of_nat (length l) <=? spl_max_loop_iterations plan)
                (Runtime (plain_error "LOOP_LIMIT" "LOOP items 超过安全上限"));
          Return l
      | _ => Raise (Runtime (plain_error "LOOP_CONFIG_INVALID" "LOOP items 必须是数组"))
      end
  end.

(** The children of a LOOP in one iteration; [true] when the execution halts. *)
Fixpoint loop_body (l : list ScenarioNodePlan) : M W bool :=
  match l with
  | [] => mret false
  | child :: rest =>
      _ ← run_children_one child;
      flags ← gets st_flags;
      if halted flags then mret true else loop_body rest
  end.

Fixpoint loop_iterations (node : ScenarioNodePlan) (started : Z) (item_name index_name : pytext) (index : Z)
    (values : list json) : M W unit :=
  match values with
  | [] => duration ← duration_ms started; record_plain node SUCCESS 0 duration
  | value :: rest =>
      flags ← gets st_flags;
      if halted flags then mret tt
      else
        _ ← check_control ex;
        _ ← set_variable_value item_name value;
        _ ← set_variable_value index_name (JInt index);
        stop ← loop_body (children (Some (sn_id node)));
        if stop : bool
        then duration ← duration_ms started; record_plain node SUCCESS 0 duration
        else loop_iterations node started item_name index_name (index + 1) rest
  end.

(** [_run_loop]. *)
Definition run_loop (node : ScenarioNodePlan) : M W unit :=
  started ← clock;
  context ← gets st_context;
  values ← lift (loop_values context node);
  match get_or (sn_config node) "item_variable" (JStr (u "loop_item")),
        get_or (sn_config node) "index_variable" (JStr (u "loop_index")) with
  | JStr item, JStr index =>
      if variable_name (JStr item) && variable_name (JStr index)
      then loop_iterations node started item index 0 values
      else raise (Runtime (plain_error "LOOP_CONFIG_INVALID" "LOOP 变量名无效"))
  | _, _ => raise (Runtime (plain_error "LOOP_CONFIG_INVALID" "LOOP 变量名无效"))
  end.

Definition leaf_action (node : ScenarioNodePlan) : option (M W unit) :=
  match sn_type node with
  | HTTP => Some (http node)
  | WAIT => Some (wait ex node)
  | SET_VARIABLE => Some (set_variable node)
  | EXTRACT => Some (extract node)
  | ASSERT_STATUS | ASSERT_JSONPATH => Some (assert node)
  | AI_ASSERTION => Some (defer_ai_assertion node)
  | SQL_QUERY => Some (sql ex node QUERY false)
  | SQL_EXECUTE => Some (sql ex node EXECUTE false)
  | PYTHON_SCRIPT => Some (script ex node)
  | _ => None
  end.

(** [_run_node]. *)
Definition run_node_with (node : ScenarioNodePlan) : M W unit :=
  running_cleanup ← gets (fun st => f_running_cleanup (st_flags st));
  if negb (sn_enabled node) then _ ← record_plain node SKIPPED 0 0; skip_descendants depth_fuel node
  else if is_cleanup node && negb running_cleanup then mret tt
  else if negb (supported (sn_type node))
  then raise (Runtime (plain_error "UNSUPPORTED_NODE" "Scenario 当前节点类型未开放，已拒绝执行"))
  else match sn_type node with
       | START | END_ => started ← clock; duration ← duration_ms started; record_plain node SUCCESS 0 duration
       | EXTRACT =>
           match get_or (sn_config node) "enabled" (JBool true) with
           | JBool false => started ← clock; duration ← duration_ms started; record_plain node SKIPPED 0 duration
           | _ => run_leaf node (extract node)
           end
       | IF => run_if node
       | ELSE =>
           started ← clock; duration ← duration_ms started;
           _ ← record_plain node SUCCESS 0 duration;
           run_children (Some (sn_id node))
       | LOOP => run_loop node
       | _ =>
           match leaf_action node with
           | Some action => run_leaf node action
           | None => raise (Runtime (plain_error "UNSUPPORTED_NODE" "Scenario 当前节点类型未开放，已拒绝执行"))
           end
       end.
End Node.

Fixpoint run_node (fuel : nat) (node : ScenarioNodePlan) : M W unit :=
  match fuel with
  | O => unfinished
  | S fuel' => run_node_with (run_node fuel') node
  end.

(** ** The cleanup phase *)

(** [_cleanup_outcome]. *)
Definition cleanup_outcome (f : Flags) : pytext :=
  if f_cancelled f then u "CANCELLED"
  else if f_total_timeout f || f_timed_out f then u "TIMEOUT"
  else if f_failed f then u "FAILURE"
  else u "SUCCESS".

(** One attempt of a cleanup, inside its [try]. *)
Definition cleanup_attempt (node : ScenarioNodePlan) (started attempt total : Z) : M W unit :=
  _ ← check_deadline_only ex;
  _ ← (if decide (sn_type node = API_CLEANUP) then api_cleanup ex node else sql ex node CLEANUP true);
  _ ← check_deadline_only ex;
  duration ← duration_ms started;
  _ ← when (sn_timeout_ms node <? duration)
        (raise (Runtime (timeout_error "CLEANUP_NODE_TIMEOUT" "Cleanup 节点执行超时")));
  record_plain node SUCCESS attempt (add_duration total duration).

Fixpoint cleanup_attempts (node : ScenarioNodePlan) (max_attempts : Z) (left : nat) (attempt total : Z) : M W unit :=
  match left with
  | O => mret tt
  | S left' =>
      started ← clock;
      catch_runtime (cleanup_attempt node started attempt total) (fun e =>
        duration ← duration_ms started;
        let total := add_duration total duration in
        _ ← when (re_total_timeout e) (update_flags set_total_timeout);
        _ ← when (re_timeout e) (update_flags set_timed_out);
        if (attempt + 1 <? max_attempts) && re_retryable e && negb (re_total_timeout e)
        then cleanup_attempts node max_attempts left' (attempt + 1) total
        else
          _ ← record_failure node e attempt total;
          _ ← update_flags set_cleanup_failed;
          modify (with_last_error e))
  end.

(** The policy of a cleanup node: its own, or that of the scenario. *)
Definition cleanup_policy (node : ScenarioNodePlan) : json :=
  get_or (sn_config node) "policy" (JStr (spl_cleanup_policy plan)).

(** Whether [_run_cleanup_node] runs the cleanup for this outcome. *)
Definition cleanup_wanted (node : ScenarioNodePlan) (primary_outcome : pytext) : py bool :=
  let invalid := Runtime (plain_error "CLEANUP_CONFIG_INVALID" "Cleanup 配置无效") in
  _ ← match cleanup_config_error node with Some x => Raise x | None => Return tt end;
  match get_or (sn_config node) "enabled" (JBool true) with
  | JBool enabled =>
      known ← member (cleanup_policy node) ["ALWAYS"; "ON_SUCCESS"; "ON_FAILURE"; "NEVER"];
      _ ← require known invalid;
      Return (enabled && match cleanup_policy node with
                         | JStr p => cleanup_policy_matches p primary_outcome
                         | _ => false
                         end)
  | _ => Raise invalid
  end.

(** [_run_cleanup_node]. *)
Definition run_cleanup_node (node : ScenarioNodePlan) (primary_outcome : pytext) : M W unit :=
  wanted ← lift (cleanup_wanted node primary_outcome);
  if wanted : bool then
    let max_attempts := if decide (sn_failure_policy node = Some RETRY_ONCE) then 2%nat else 1%nat in
    cleanup_attempts node (Z.of_nat max_attempts) max_attempts 0 0
  else record_plain node SKIPPED 0 0.

Definition cleanup_nodes : list ScenarioNodePlan := filter (fun n => is_cleanup n = true) nodes.

Definition cleanup_crashed : ScenarioRuntimeError := plain_error "CLEANUP_EXECUTION_ERROR" "Cleanup 执行失败".

(** What [_run_cleanups] does with an exception of one cleanup. *)
Definition cleanup_raised (node : ScenarioNodePlan) (x : exn) : M W unit :=
  let e := match x with Runtime e => e | _ => cleanup_crashed end in
  _ ← record_failure node e 0 0;
  _ ← update_flags (fun f => let f' := set_cleanup_failed f in if re_total_timeout e then set_total_timeout f' else f');
  modify (with_last_error e).

(** The loop of [_run_cleanups], which ends early only on a total timeout. *)
Fixpoint cleanup_loop (primary_outcome : pytext) (l : list ScenarioNodePlan) : M W unit :=
  match l with
  | [] => mret tt
  | node :: rest =>
      _ ← catch (run_cleanup_node node primary_outcome) (fun x => Some (cleanup_raised node x));
      flags ← gets st_flags;
      if f_total_timeout flags then mret tt else cleanup_loop primary_outcome rest
  end.

(** [_run_cleanups]. *)
Definition run_cleanups : M W unit :=
  match cleanup_nodes with
  | [] => update_flags set_cleanup_finalized
  | _ =>
      outcome ← gets (fun st => cleanup_outcome (st_flags st));
      _ ← update_flags (set_running_cleanup true);
      finally (cleanup_loop outcome (reverse cleanup_nodes))
        (update_flags (fun f => set_cleanup_finalized (set_running_cleanup false f)))
  end.

(** [close]; the executor closes the API executor it created. *)
Definition close : M W unit :=
  st ← gets id;
  if st_api_closed st then mret tt
  else
    _ ← modify (fun st => with_api (st_api_created st) true st);
    when (ex_owns_api ex && st_api_created st) (tell_world api_close).

(** ** The result *)

Record ScenarioResult := {
  res_outcome : NodeOutcome;
  res_traces : list Trace;
  res_error_type : option pytext;
  res_error_message : option pytext;
  res_pending_ai : list (string * ApiExecutionResult);
  res_cleanup_context : option fields;
}.

Definition error_type_or (e : option ScenarioRuntimeError) (d : pytext) : pytext :=
  match e with Some e => re_error_type e | None => d end.

(** The end of [execute]. *)
Definition result_of (st : St W) : ScenarioResult :=
  let f := st_flags st in
  let deferred := if ex_defer_cleanup ex then Some (st_context st) else None in
  let failure outcome error_type message :=
    {| res_outcome := outcome; res_traces := ordered_traces (st_traces st); res_error_type := Some error_type;
       res_error_message := Some (u message); res_pending_ai := []; res_cleanup_context := deferred |} in
  if f_cancelled f then failure CANCELLED CANCEL_REQUESTED "Runner 检测到取消请求"
  else if f_total_timeout f then failure TIMEOUT (u "SCENARIO_TIMEOUT") "Scenario 执行超时"
  else if f_timed_out f
  then failure TIMEOUT (error_type_or (st_last_error st) (u "SCENARIO_TIMEOUT")) "Scenario 节点执行超时"
  else if f_failed f || f_cleanup_failed f
  then failure FAILED (error_type_or (st_last_error st) (u "SCENARIO_EXECUTION_FAILED")) "Scenario 节点执行失败"
  else
    {| res_outcome := SUCCESS; res_traces := ordered_traces (st_traces st); res_error_type := None;
       res_error_message := None; res_pending_ai := st_pending_ai st;
       res_cleanup_context := match st_pending_ai st with
                              | [] => deferred
                              | _ => Some (st_context st)
                              end |}.

Definition initial_flags : Flags := Build_Flags false false false false false false false false.
Definition initial_state (w : W) : St W :=
  {| st_world := w; st_context := spl_initial_context plan; st_traces := ∅; st_flags := initial_flags;
     st_last_error := None; st_latest_response := None; st_pending_ai := []; st_api_created := false;
     st_api_closed := false |}.

(** The [try] of [execute] and its [finally]. *)
Definition main_flow : M W unit :=
  catch_runtime (run_children (run_node depth_fuel) None)
    (fun e => match nodes with [] => mret tt | n :: _ => record_failure n e 0 0 end).

Definition finish : M W unit :=
  pending ← gets st_pending_ai;
  _ ← when (bool_decide (length pending = O) && negb (ex_defer_cleanup ex)) run_cleanups;
  _ ← fill_missing_traces;
  close.

(** [ScenarioExecutor(plan, ...).execute()]. *)
Definition execute : M W ScenarioResult :=
  _ ← finally main_flow finish;
  gets result_of.

(** ** The cleanup task after an AI evaluation *)

Record CleanupTask := { ct_context : fields; ct_primary_outcome : pytext }.

Record CleanupResult := {
  cl_outcome : NodeOutcome;
  cl_traces : list Trace;
  cl_error_type : option pytext;
  cl_error_message : option pytext;
}.

(** [execute_cleanup_task]. *)
Definition execute_cleanup_task (task : CleanupTask) : M W CleanupResult :=
  if negb (bool_decide (ct_primary_outcome task ∈ u <$> ["SUCCESS"; "FAILURE"]))
  then raise (Runtime (plain_error "CLEANUP_CONFIG_INVALID" "Cleanup outcome 无效"))
  else
    _ ← modify (with_context (ct_context task));
    _ ← update_flags (set_running_cleanup true);
    _ ← finally (for_each (reverse cleanup_nodes) (fun n => run_cleanup_node n (ct_primary_outcome task)))
          (_ ← update_flags (fun f => set_cleanup_finalized (set_running_cleanup false f)); close);
    gets (fun st =>
      {| cl_outcome := if f_cleanup_failed (st_flags st) then FAILED else SUCCESS;
         cl_traces := omap (fun n => st_traces st !! sn_id n) cleanup_nodes;
         cl_error_type := re_error_type <$> st_last_error st;
         cl_error_message := match st_last_error st with
                             | Some _ => Some (u "Scenario Cleanup 执行失败")
                             | None => None
                             end |}).

(** ** Reuse by the API pipeline *)

Definition embedded (id : string) (type : NodeType) (timeout_ms : Z) (config : fields) : ScenarioNodePlan :=
  {| sn_id := id; sn_type := type; sn_parent := None; sn_enabled := true; sn_timeout_ms := timeout_ms;
     sn_failure_policy := None; sn_config := config |}.

(** [run_embedded_sql_query]. *)
Definition run_embedded_sql_query (config : fields) (timeout_ms : Z) : M W unit :=
  sql ex (embedded "embedded_sql_query" SQL_QUERY timeout_ms config) QUERY false.

(** [run_embedded_cleanup]. *)
Definition run_embedded_cleanup (config : fields) : M W unit :=
  known ← lift (member (get config "cleanup_type") ["API"; "SQL"]);
  match known, get_or config "timeout_ms" (JInt 30000) with
  | true, JInt timeout_ms =>
      let api := equals_text (get config "cleanup_type") "API" in
      let node := embedded "embedded_cleanup" (if api then API_CLEANUP else SQL_CLEANUP) timeout_ms config in
      match cleanup_config_error node with
      | Some x => raise x
      | None => if api then api_cleanup ex node else sql ex node CLEANUP true
      end
  | _, _ => raise (Runtime (plain_error "CLEANUP_CONFIG_INVALID" "Cleanup 配置无效"))
  end.

(** ** The worker process *)

Inductive ScenarioTask := ExecutePlan | ExecuteCleanup (task : CleanupTask).

(** The [IsolatedOutcome] a worker sends to its parent. *)
Inductive IsolatedOutcome :=
  | SCENARIO_RESULT (r : ScenarioResult)
  | SCENARIO_CLEANUP_RESULT (r : CleanupResult)
  | EXECUTION_ERROR (error_type error_message : pytext).

Definition worker_crashed : IsolatedOutcome :=
  EXECUTION_ERROR (u "SCENARIO_EXECUTOR_ERROR") (u "Scenario 隔离执行异常终止").

(** [_run_scenario_task_worker]: nothing is sent while the execution runs.
    [same_revision] is the comparison of the source revisions of parent and
    child. *)
Definition scenario_task_worker (same_revision : bool) (target : ScenarioTask) (w : W) : option IsolatedOutcome :=
  if negb same_revision
  then Some (EXECUTION_ERROR (u "RUNNER_RESTART_REQUIRED") (u "Runner 代码已更新，请重启 Runner 后重试"))
  else match target with
       | ExecutePlan =>
           match (execute (initial_state w)).2 with
           | Val r => Some (SCENARIO_RESULT r)
           | Exn _ => Some worker_crashed
           | Unfinished => None
           end
       | ExecuteCleanup task =>
           match (execute_cleanup_task task (initial_state w)).2 with
           | Val r => Some (SCENARIO_CLEANUP_RESULT r)
           | Exn _ => Some worker_crashed
           | Unfinished => None
           end
       end.
End Run.
