(* ===== verification/ScenarioProtocol.v ===== *)
(** Between the scenario executor and the back end: the checks of a plan and of a
    report in runner/protocol.py ([_scenario_settings], [_scenario_nodes],
    [_scenario_trace_payload], [scenario_execution_complete]) and the completion
    of a scenario in runner/consumer.py ([_complete_scenario_result],
    [_complete_scenario_disposition]). *)
From S2P Require Import Prelude PyText Json PyJson ScenarioData RunnerValues ScenarioSql ScenarioMonad ScenarioActions.
From S2P Require Import ScenarioRun.
Open Scope Z_scope.

(** ** The plan *)

Section Plan.
Context `{Unicode}.

Definition length_within (low high : nat) (s : pytext) : bool := (low <=? length s)%nat && (length s <=? high)%nat.

(** [_scenario_settings], for the settings the executor reads. *)
Definition settings_ok (plan : ScenarioPlan) : bool :=
  bool_decide (spl_cleanup_policy plan ∈ u <$> ["ALWAYS"; "ON_SUCCESS"; "ON_FAILURE"; "NEVER"])
  && (1 <=? spl_max_loop_iterations plan) && (spl_max_loop_iterations plan <=? 1000).

Definition node_id_ok (node_id : pytext) : bool :=
  length_within 1 64 node_id
  && match node_id with c :: _ => isalpha c | [] => false end
  && forallb (fun c => isalnum c || (c =? 95) || (c =? 45))%N node_id.

Definition node_type_ok (t : NodeType) : bool :=
  match t with OtherType name => length_within 1 64 name | _ => true end.

(** The checks of one node. *)
Definition node_ok (seen : list string) (n : ScenarioNodePlan) : bool :=
  node_id_ok (u (sn_id n)) && negb (bool_decide (sn_id n ∈ seen))
  && node_type_ok (sn_type n)
  && match sn_parent n with Some p => length_within 1 64 (u p) | None => true end
  && (100 <=? sn_timeout_ms n) && (sn_timeout_ms n <=? 600000)
  && (length (sn_config n) <=? 100)%nat
  && match utf8_length (json_dumps (JDict (sn_config n))) with Some k => k <=? 64000 | None => false end.

Fixpoint nodes_ok (seen : list string) (l : list ScenarioNodePlan) : bool :=
  match l with [] => true | n :: l' => node_ok seen n && nodes_ok (sn_id n :: seen) l' end.

(** [_scenario_nodes]. *)
Definition scenario_nodes_ok (l : list ScenarioNodePlan) : bool :=
  (2 <=? length l)%nat && (length l <=? 500)%nat
  && nodes_ok [] l
  && bool_decide (sn_type <$> head l = Some START) && bool_decide (sn_type <$> last l = Some END_)
  && forallb (fun n => match sn_parent n with Some p => bool_decide (p ∈ sn_id <$> l) | None => true end) l.

Definition plan_ok (plan : ScenarioPlan) : bool := settings_ok plan && scenario_nodes_ok (spl_nodes plan).
End Plan.

(** ** The report *)

(** The statuses a reported trace may have; PASSED and REVIEW come from the
    evaluation of AI assertions. *)
Inductive WireStatus := Node (s : NodeOutcome) | Passed | Review.
#[global] Instance WireStatus_eq_dec : EqDecision WireStatus.
Proof. solve_decision. Defined.

Record WireTrace := {
  wt_node_id : string;
  wt_status : WireStatus;
  wt_duration_ms : Z;
  wt_retry_count : Z;
  wt_error_type : option pytext;
  wt_error_message : option pytext;
}.

(** [to_wire] of a trace. *)
Definition wire (t : Trace) : WireTrace :=
  {| wt_node_id := nt_node_id t; wt_status := Node (nt_status t); wt_duration_ms := nt_duration_ms t;
     wt_retry_count := nt_retry_count t; wt_error_type := nt_error_type t; wt_error_message := nt_error_message t |}.

Definition text_ok (n : nat) (t : option pytext) : bool :=
  match t with Some s => length_within 1 n s | None => true end.

Definition trace_ok (seen : list string) (t : WireTrace) : bool :=
  length_within 1 64 (u (wt_node_id t)) && negb (bool_decide (wt_node_id t ∈ seen))
  && (0 <=? wt_duration_ms t) && (wt_duration_ms t <=? 86400000)
  && (0 <=? wt_retry_count t) && (wt_retry_count t <=? 3)
  && text_ok 100 (wt_error_type t) && text_ok 500 (wt_error_message t).

Fixpoint traces_ok (seen : list string) (l : list WireTrace) : bool :=
  match l with [] => true | t :: l' => trace_ok seen t && traces_ok (wt_node_id t :: seen) l' end.

(** [_scenario_trace_payload]. *)
Definition scenario_trace_payload (l : list WireTrace) : bool := (length l <=? 500)%nat && traces_ok [] l.

(** What the consumer sends. *)
Record Completion := {
  cp_outcome : NodeOutcome;
  cp_traces : list WireTrace;
  cp_error_type : option pytext;
  cp_error_message : option pytext;
  cp_evaluation_token : option string;
}.

(** The checks of [scenario_execution_complete] before it posts; a total timeout
    or a cancellation needs an explanation. *)
Definition completion_ok (c : Completion) : bool :=
  bool_decide (cp_outcome c <> SKIPPED)
  && scenario_trace_payload (cp_traces c)
  && text_ok 100 (cp_error_type c) && text_ok 500 (cp_error_message c)
  && implb (bool_decide (cp_outcome c ∈ [TIMEOUT; CANCELLED]))
       (bool_decide (is_Some (cp_error_type c)) && bool_decide (is_Some (cp_error_message c)))
  && text_ok (Z.to_nat 64000) (u <$> cp_evaluation_token c).

(** ** The consumer *)

Inductive ConsumeOutcome := ACKED | REQUEUED | REJECTED | STOPPED_AUTH.

(** The answers of the client as the consumer distinguishes them. *)
Inductive answer (A : Type) :=
  | Answer (a : A) | AuthenticationFailed | TransportFailed | RunnerFailed | UnknownFailure.
Arguments Answer {A} a.
Arguments AuthenticationFailed {A}.
Arguments TransportFailed {A}.
Arguments RunnerFailed {A}.
Arguments UnknownFailure {A}.

Inductive AssertionVerdict := PASS | FAIL | REVIEW_.
#[global] Instance AssertionVerdict_eq_dec : EqDecision AssertionVerdict.
Proof. solve_decision. Defined.

(** [ScenarioExecutionEvaluationResult]. *)
Record AiEvaluation := {
  ev_assertion_status : AssertionVerdict;
  ev_cleanup_outcome : pytext;
  ev_node_results : list (string * AssertionVerdict);
  ev_token : string;
}.

(** The answer to a completion: outcome, status of the run and of its case. *)
Record CompleteAnswer := { ca_outcome : pytext; ca_run_status : pytext; ca_case_run_status : pytext }.

(** What ended the isolated process, seen from the consumer. *)
Inductive IsolationEnd :=
  | Reported (o : IsolatedOutcome)
  | FORCE_STOPPED | TOTAL_TIMEOUT | CANCEL_UNRESPONSIVE.

Definition FORCE_STOPPED_ERROR_MESSAGE : string := "执行已被强制停止，Cleanup 可能未完成".
Definition TOTAL_TIMEOUT_ERROR_MESSAGE : string := "Run 总超时已终止执行".
Definition CANCEL_UNRESPONSIVE_ERROR_MESSAGE : string := "取消已请求，但隔离进程未在限定窗口内响应，已终止；Cleanup 可能未完成".
Definition CANCEL_REQUESTED_ERROR_MESSAGE : string := "Runner 检测到取消请求".

(** The traces with the verdict of an AI assertion; a report has one trace per
    node. *)
Definition judge (traces : list WireTrace) (r : string * AssertionVerdict) : option (list WireTrace) :=
  if decide (r.1 ∈ wt_node_id <$> traces) then
    Some ((fun t =>
      if decide (wt_node_id t = r.1) then
        match r.2 with
        | PASS => {| wt_node_id := wt_node_id t; wt_status := Passed; wt_duration_ms := wt_duration_ms t;
                     wt_retry_count := wt_retry_count t; wt_error_type := wt_error_type t;
                     wt_error_message := wt_error_message t |}
        | v => {| wt_node_id := wt_node_id t;
                  wt_status := if decide (v = REVIEW_) then Review else Node FAILED;
                  wt_duration_ms := wt_duration_ms t; wt_retry_count := wt_retry_count t;
                  wt_error_type := Some (if decide (v = REVIEW_) then u "ASSERTION_REVIEW" else u "ASSERTION_FAILED");
                  wt_error_message := Some (if decide (v = REVIEW_) then u "AI 断言需要人工复核" else u "AI 断言未通过") |}
        end
      else t) <$> traces)
  else None.

Fixpoint judge_all (traces : list WireTrace) (rs : list (string * AssertionVerdict)) : option (list WireTrace) :=
  match rs with [] => Some traces | r :: rs' => traces' ← judge traces r; judge_all traces' rs' end.

(** [traces.sort(key=...)]: plan order, the order of the list among equals. *)
Definition in_plan_order (nodes : list ScenarioNodePlan) (traces : list WireTrace) : list WireTrace :=
  mjoin ((fun n => filter (fun t => wt_node_id t = sn_id n) traces) <$> nodes)
  ++ filter (fun t => wt_node_id t ∉ sn_id <$> nodes) traces.

Section Consumer.
(** [scenario_execution_evaluate] and the isolated cleanup. *)
Context (nodes : list ScenarioNodePlan).
Context (evaluate : list (string * ApiExecutionResult) -> answer AiEvaluation).
Context (cleanup : CleanupTask -> option IsolatedOutcome).

(** The branch of [_complete_scenario_result] for deferred AI assertions. *)
Definition evaluated_completion (r : ScenarioResult) (context : fields) : ConsumeOutcome + Completion :=
  match evaluate (res_pending_ai r) with
  | AuthenticationFailed => inl STOPPED_AUTH
  | TransportFailed | UnknownFailure => inl REQUEUED
  | RunnerFailed => inl REJECTED
  | Answer ev =>
      match judge_all (wire <$> res_traces r) (ev_node_results ev) with
      | None => inl REJECTED
      | Some traces =>
          match cleanup {| ct_context := context; ct_primary_outcome := ev_cleanup_outcome ev |} with
          | Some (SCENARIO_CLEANUP_RESULT c) =>
              let '(outcome, et, em) :=
                match ev_assertion_status ev with
                | PASS => (SUCCESS, res_error_type r, res_error_message r)
                | FAIL => (FAILED, Some (u "ASSERTION_FAILED"), Some (u "一个或多个 AI 断言未通过"))
                | REVIEW_ => (FAILED, Some (u "ASSERTION_REVIEW"), Some (u "一个或多个 AI 断言需要人工复核"))
                end in
              let '(outcome, et, em) :=
                if decide (cl_outcome c = SUCCESS) then (outcome, et, em)
                else (FAILED, or_text (cl_error_type c) (Some (u "CLEANUP_EXECUTION_ERROR")),
                      Some (u "Scenario Cleanup 执行失败")) in
              inr {| cp_outcome := outcome;
                     cp_traces := in_plan_order nodes (traces ++ (wire <$> cl_traces c));
                     cp_error_type := et; cp_error_message := em; cp_evaluation_token := Some (ev_token ev) |}
          | _ => inl REJECTED
          end
      end
  end.

(** What [_complete_scenario_result] sends, or how it disposes of the delivery
    without sending. *)
Definition completion_of (o : IsolationEnd) : ConsumeOutcome + Completion :=
  let plain outcome et em := inr {| cp_outcome := outcome; cp_traces := []; cp_error_type := Some (u et);
                                    cp_error_message := Some (u em); cp_evaluation_token := None |} in
  match o with
  | Reported (SCENARIO_RESULT r) =>
      match res_pending_ai r, res_cleanup_context r with
      | [], _ =>
          let cancelled := bool_decide (res_outcome r = CANCELLED)
            && negb (bool_decide (res_error_type r ∈ [Some CANCEL_REQUESTED; Some (u "FORCE_STOP_REQUESTED")])) in
          inr {| cp_outcome := res_outcome r; cp_traces := wire <$> res_traces r;
                 cp_error_type := if cancelled then Some CANCEL_REQUESTED else res_error_type r;
                 cp_error_message := if cancelled then Some (u CANCEL_REQUESTED_ERROR_MESSAGE) else res_error_message r;
                 cp_evaluation_token := None |}
      | _, Some context => if decide (res_outcome r = SUCCESS) then evaluated_completion r context else inl REJECTED
      | _, None => inl REJECTED
      end
  | FORCE_STOPPED => plain CANCELLED "FORCE_STOP_REQUESTED" FORCE_STOPPED_ERROR_MESSAGE
  | TOTAL_TIMEOUT => plain TIMEOUT "TOTAL_TIMEOUT" TOTAL_TIMEOUT_ERROR_MESSAGE
  | CANCEL_UNRESPONSIVE => plain CANCELLED "CANCEL_REQUESTED" CANCEL_UNRESPONSIVE_ERROR_MESSAGE
  | Reported (SCENARIO_CLEANUP_RESULT _) => plain FAILED "SCENARIO_EXECUTOR_ERROR" "Scenario 执行失败"
  | Reported (EXECUTION_ERROR t _) =>
      inr {| cp_outcome := FAILED; cp_traces := [];
             cp_error_type := or_text (Some t) (Some (u "SCENARIO_EXECUTOR_ERROR"));
             cp_error_message := Some (u "Scenario 执行失败"); cp_evaluation_token := None |}
  end.

(** [_complete_scenario_disposition]. *)
Definition disposition (a : CompleteAnswer) : ConsumeOutcome :=
  let valid_run := if decide (ca_outcome a = u "SUCCESS") then [u "SUCCESS"]
                   else if decide (ca_outcome a = u "FAILED") then [u "FAILED"; u "REVIEW"]
                   else if decide (ca_outcome a = u "TIMEOUT") then [u "TIMEOUT"]
                   else if decide (ca_outcome a = u "CANCELLED") then [u "CANCELLED"] else [] in
  if bool_decide (ca_run_status a ∈ valid_run) && bool_decide (ca_case_run_status a ∈ valid_run)
  then ACKED else REJECTED.

(** [_complete_scenario_result]; [complete] is the client's request, made only
    with a completion that passes its own checks. *)
Definition complete_scenario_result (complete : Completion -> answer CompleteAnswer) (o : IsolationEnd)
  : ConsumeOutcome :=
  match completion_of o with
  | inl d => d
  | inr c =>
      match (if completion_ok c then complete c else RunnerFailed) with
      | Answer a => disposition a
      | AuthenticationFailed => STOPPED_AUTH
      | TransportFailed | UnknownFailure => REQUEUED
      | RunnerFailed => REJECTED
      end
  end.
End Consumer.
