(* ===== verification/ScenarioLogic.v ===== *)
(** Rules for the executor's monad: how a method moves the state ([moves]), which
    runtime errors it raises ([raises]), whether it finishes ([ends]); and what the
    leaf actions leave alone. *)
From S2P Require Import Prelude PyText Json PyJson ScenarioData RunnerValues ScenarioSql ScenarioMonad ScenarioActions.
Open Scope Z_scope.

Section Rules.
Context {W : Type}.
Implicit Types R : St W -> St W -> Prop.
Implicit Types P : ScenarioRuntimeError -> Prop.

(** However it ends, the method takes a state only to related states. *)
Definition moves {A} R (m : M W A) : Prop := forall st, R st (m st).1.
(** Every [ScenarioRuntimeError] the method raises satisfies [P]. *)
Definition raises {A} P (m : M W A) : Prop := forall st e, (m st).2 = Exn (Runtime e) -> P e.
(** The method returns or raises. *)
Definition ends {A} (m : M W A) : Prop := forall st, (m st).2 <> Unfinished.

(** A computation without state raises only errors that satisfy [P]. *)
Definition py_raises {A} P (m : py A) : Prop := forall e, m = Raise (Runtime e) -> P e.

Section Moves.
Context R `{!PreOrder R}.

Lemma moves_ret {A} (a : A) : moves R (mret a).
Proof. intros st. reflexivity. Qed.
Lemma moves_raise {A} x : moves R (raise x : M W A).
Proof. intros st. reflexivity. Qed.
Lemma moves_unfinished {A} : moves R (unfinished : M W A).
Proof. intros st. reflexivity. Qed.
Lemma moves_gets {A} (f : St W -> A) : moves R (gets f).
Proof. intros st. reflexivity. Qed.
Lemma moves_lift {A} (m : py A) : moves R (lift m).
Proof. intros st. reflexivity. Qed.
Lemma moves_bind {A B} (m : M W A) (k : A -> M W B) :
  moves R m -> (forall a, moves R (k a)) -> moves R (x ← m; k x).
Proof.
  intros Hm Hk st. specialize (Hm st). unfold mbind, M_bind.
  destruct (m st) as [st' [a|x|]]; cbn in *; [|done..]. etrans; [done | apply Hk].
Qed.
Lemma moves_modify f : (forall st, R st (f st)) -> moves R (modify f).
Proof. intros Hf st. apply Hf. Qed.
Lemma moves_call {A} (f : W -> A * W) : (forall st w, R st (with_world w st)) -> moves R (call_world f).
Proof. intros Hw st. unfold call_world. destruct (f (st_world st)). apply Hw. Qed.
Lemma moves_tell f : (forall st w, R st (with_world w st)) -> moves R (tell_world f).
Proof. intros Hw st. apply Hw. Qed.
Lemma moves_catch {A} (m : M W A) h :
  moves R m -> (forall x m', h x = Some m' -> moves R m') -> moves R (catch m h).
Proof.
  intros Hm Hh st. specialize (Hm st). unfold catch.
  destruct (m st) as [st' [a|x|]]; cbn in *; [done | | done].
  destruct (h x) as [m'|] eqn:E; cbn; [|done]. etrans; [done | by eapply Hh].
Qed.
Lemma moves_catch_runtime {A} (m : M W A) h :
  moves R m -> (forall e, moves R (h e)) -> moves R (catch_runtime m h).
Proof. intros Hm Hh. apply moves_catch; [done|]. intros [e|x] m' [= <-]. apply Hh. Qed.
Lemma moves_catch_raised {A} (m : M W A) (P : ScenarioRuntimeError -> Prop) h :
  moves R m -> raises P m -> (forall e, P e -> moves R (h e)) -> moves R (catch_runtime m h).
Proof.
  intros Hm Hp Hh st. specialize (Hm st). specialize (Hp st). unfold catch_runtime, catch.
  destruct (m st) as [st' [a|[e|x]|]]; cbn in *; [done | | done | done]. etrans; [done | apply Hh; auto].
Qed.
Lemma moves_finally {A} (m : M W A) f : moves R m -> moves R f -> moves R (finally m f).
Proof.
  intros Hm Hf st. specialize (Hm st). unfold finally.
  destruct (m st) as [st' r]; cbn in *. pose proof (Hf st') as Hf'.
  destruct r; cbn; [| |done]; destruct (f st') as [st'' [?|?|]]; cbn in *; by etrans.
Qed.
Lemma moves_when b m : moves R m -> moves R (when b m).
Proof. destruct b; [done | intros; apply moves_ret]. Qed.
Lemma moves_for_each {A} (l : list A) m : (forall x, x ∈ l -> moves R (m x)) -> moves R (for_each l m).
Proof.
  induction l as [|x l IH]; intros Hm; [apply moves_ret|]. cbn. apply moves_bind; [apply Hm; left|].
  intros _. apply IH. intros; apply Hm; by right.
Qed.
End Moves.

Lemma moves_weaken {A} R R' (m : M W A) : (forall st st', R st st' -> R' st st') -> moves R m -> moves R' m.
Proof. intros HR Hm st. apply HR, Hm. Qed.

Section Raises.
Context P.

Lemma raises_ret {A} (a : A) : raises P (mret a).
Proof. done. Qed.
Lemma raises_unfinished {A} : raises P (unfinished : M W A).
Proof. done. Qed.
Lemma raises_gets {A} (f : St W -> A) : raises P (gets f).
Proof. done. Qed.
Lemma raises_modify f : raises P (modify f).
Proof. done. Qed.
Lemma raises_call {A} (f : W -> A * W) : raises P (call_world f).
Proof. intros st e. unfold call_world. by destruct (f (st_world st)). Qed.
Lemma raises_tell f : raises P (tell_world f).
Proof. done. Qed.
Lemma raises_raise {A} e : P e -> raises P (raise (Runtime e) : M W A).
Proof. by intros ? st ? [= <-]. Qed.
Lemma raises_crash {A} x : raises P (raise (Py x) : M W A).
Proof. done. Qed.
Lemma raises_lift {A} (m : py A) : py_raises P m -> raises P (lift m).
Proof. intros Hm st e. cbn. destruct m as [a|x]; [done|]. intros [= ->]. by apply Hm. Qed.
Lemma raises_bind {A B} (m : M W A) (k : A -> M W B) :
  raises P m -> (forall a, raises P (k a)) -> raises P (x ← m; k x).
Proof.
  intros Hm Hk st e. specialize (Hm st). unfold mbind, M_bind.
  destruct (m st) as [st' [a|x|]]; cbn in *; [apply Hk | intros [= ->]; by apply Hm | done].
Qed.
Lemma raises_catch {A} (m : M W A) h :
  (forall x m', h x = Some m' -> raises P m') -> (forall e, h (Runtime e) = None -> P e) -> raises P (catch m h).
Proof.
  intros Hh Hn st e. unfold catch. destruct (m st) as [st' [a|x|]]; cbn; [done | | done].
  destruct (h x) as [m'|] eqn:E; cbn; [by eapply Hh | intros [= ->]; by apply Hn].
Qed.
Lemma raises_catch_runtime {A} (m : M W A) h : (forall e, raises P (h e)) -> raises P (catch_runtime m h).
Proof. intros Hh. apply raises_catch; [|done]. intros [e|x] m' [= <-]. apply Hh. Qed.
Lemma raises_finally {A} (m : M W A) f : raises P m -> raises P f -> raises P (finally m f).
Proof.
  intros Hm Hf st e. specialize (Hm st e). unfold finally. destruct (m st) as [st' r]; cbn in *.
  specialize (Hf st' e). destruct r as [a|x|]; cbn; [| |done]; destruct (f st') as [st'' [?|?|]]; cbn in *;
    intros ?; simplify_eq; auto.
Qed.
Lemma raises_when b m : raises P m -> raises P (when b m).
Proof. by destruct b. Qed.
Lemma raises_for_each {A} (l : list A) m : (forall x, x ∈ l -> raises P (m x)) -> raises P (for_each l m).
Proof.
  induction l as [|x l IH]; intros Hm; [done|]. cbn. apply raises_bind; [apply Hm; left|].
  intros _. apply IH. intros; apply Hm; by right.
Qed.

Lemma py_raises_return {A} (a : A) : py_raises P (Return a).
Proof. done. Qed.
Lemma py_raises_ret {A} (a : A) : py_raises P (mret a).
Proof. done. Qed.
Lemma py_raises_crash {A} x : py_raises P (Raise (Py x) : py A).
Proof. done. Qed.
Lemma py_raises_raise {A} e : P e -> py_raises P (Raise (Runtime e) : py A).
Proof. by intros ? ? [= <-]. Qed.
Lemma py_raises_bind {A B} (m : py A) (k : A -> py B) :
  py_raises P m -> (forall a, py_raises P (k a)) -> py_raises P (x ← m; k x).
Proof. intros Hm Hk e. destruct m as [a|x]; cbn; [apply Hk | intros [= ->]; by apply Hm]. Qed.
Lemma py_raises_fmap {A B} (f : A -> B) (m : py A) : py_raises P m -> py_raises P (f <$> m).
Proof. intros Hm e. destruct m as [a|x]; cbn; [done | intros [= ->]; by apply Hm]. Qed.
Lemma py_raises_require b x : (forall e, x = Runtime e -> P e) -> py_raises P (require b x).
Proof. intros Hx e. destruct b; [done|]. intros [= ->]. by apply Hx. Qed.
Lemma py_raises_option {A} (o : option A) x : (forall e, x = Runtime e -> P e) -> py_raises P (of_option o x).
Proof. intros Hx e. destruct o; [done|]. intros [= ->]. by apply Hx. Qed.
Lemma py_raises_test r : py_raises P (of_test r).
Proof. by destruct r. Qed.
Lemma py_raises_except {A} (m : py A) h :
  (forall x m', h x = Some m' -> py_raises P m') -> (forall e, h (Runtime e) = None -> m = Raise (Runtime e) -> P e) ->
  py_raises P (except m h).
Proof.
  intros Hh Hn e. destruct m as [a|x]; cbn; [done|]. destruct (h x) as [m'|] eqn:E; [by eapply Hh|].
  intros [= ->]. by apply Hn.
Qed.
Lemma py_raises_except_weak {A} (m : py A) h :
  py_raises P m -> (forall x m', h x = Some m' -> py_raises P m') -> py_raises P (except m h).
Proof. intros Hm Hh. apply py_raises_except; [done|]. intros e _. apply Hm. Qed.
Lemma py_raises_map {A B} (f : A -> py B) l : (forall x, py_raises P (f x)) -> py_raises P (map_py f l).
Proof.
  intros Hf. induction l as [|x l IH]; [done|]. cbn. apply py_raises_bind; [done|]. intros y.
  apply py_raises_bind; [done|]. done.
Qed.
End Raises.

Lemma ends_ret {A} (a : A) : ends (mret a).
Proof. done. Qed.
Lemma ends_raise {A} x : ends (raise x : M W A).
Proof. done. Qed.
Lemma ends_gets {A} (f : St W -> A) : ends (gets f).
Proof. done. Qed.
Lemma ends_modify f : ends (modify f).
Proof. done. Qed.
Lemma ends_lift {A} (m : py A) : ends (lift m).
Proof. intros st. by destruct m. Qed.
Lemma ends_call {A} (f : W -> A * W) : ends (call_world f).
Proof. intros st. unfold call_world. by destruct (f (st_world st)). Qed.
Lemma ends_tell f : ends (tell_world f).
Proof. done. Qed.
Lemma ends_bind {A B} (m : M W A) (k : A -> M W B) : ends m -> (forall a, ends (k a)) -> ends (x ← m; k x).
Proof.
  intros Hm Hk st. specialize (Hm st). unfold mbind, M_bind.
  destruct (m st) as [st' [a|x|]]; cbn in *; [apply Hk | done | done].
Qed.
Lemma ends_catch {A} (m : M W A) h : ends m -> (forall x m', h x = Some m' -> ends m') -> ends (catch m h).
Proof.
  intros Hm Hh st. specialize (Hm st). unfold catch. destruct (m st) as [st' [a|x|]]; cbn in *; [done | | done].
  destruct (h x) as [m'|] eqn:E; [by eapply Hh | done].
Qed.
Lemma ends_catch_runtime {A} (m : M W A) h : ends m -> (forall e, ends (h e)) -> ends (catch_runtime m h).
Proof. intros Hm Hh. apply ends_catch; [done|]. intros [e|x] m' [= <-]. apply Hh. Qed.
Lemma ends_finally {A} (m : M W A) f : ends m -> ends f -> ends (finally m f).
Proof.
  intros Hm Hf st. specialize (Hm st). unfold finally. destruct (m st) as [st' r]; cbn in *.
  specialize (Hf st'). destruct r; cbn; [| |done]; destruct (f st') as [st'' [?|?|]]; done.
Qed.
Lemma ends_when b m : ends m -> ends (when b m).
Proof. by destruct b. Qed.
Lemma ends_for_each {A} (l : list A) m : (forall x, x ∈ l -> ends (m x)) -> ends (for_each l m).
Proof.
  induction l as [|x l IH]; intros Hm; [done|]. cbn. apply ends_bind; [apply Hm; left|].
  intros _. apply IH. intros; apply Hm; by right.
Qed.
End Rules.

(** ** Automation *)

Create HintDb scenario.

(** Decompose a method along its syntax; the leaves are left to the hints. *)
Ltac moves_step :=
  lazymatch goal with
  | |- moves _ (@mret _ _ _ _) => apply moves_ret; apply _
  | |- moves _ (raise _) => apply moves_raise; apply _
  | |- moves _ unfinished => apply moves_unfinished; apply _
  | |- moves _ (gets _) => apply moves_gets; apply _
  | |- moves _ (lift _) => apply moves_lift; apply _
  | |- moves _ (@mbind _ _ _ _ _ _) => apply moves_bind; [apply _ | |intros ?]
  | |- moves _ (catch_runtime _ _) => apply moves_catch_runtime; [apply _ | |intros ?]
  | |- moves _ (finally _ _) => apply moves_finally; [apply _ | |]
  | |- moves _ (when _ _) => apply moves_when; [apply _|]
  | |- moves _ (for_each _ _) => apply moves_for_each; [apply _ | intros ? ?]
  | |- moves _ (match ?x with _ => _ end) => destruct x
  | |- moves _ (if ?x then _ else _) => destruct x
  end.
Ltac moves_solve := repeat first [moves_step | solve [eauto 3 with scenario]].

Ltac raises_step :=
  lazymatch goal with
  | |- raises _ (@mret _ _ _ _) => apply raises_ret
  | |- raises _ (raise (Runtime _)) => apply raises_raise
  | |- raises _ (raise (Py _)) => apply raises_crash
  | |- raises _ unfinished => apply raises_unfinished
  | |- raises _ (gets _) => apply raises_gets
  | |- raises _ (modify _) => apply raises_modify
  | |- raises _ (update_flags _) => apply raises_modify
  | |- raises _ (call_world _) => apply raises_call
  | |- raises _ (tell_world _) => apply raises_tell
  | |- raises _ (lift _) => apply raises_lift
  | |- raises _ (@mbind _ _ _ _ _ _) => apply raises_bind; [|intros ?]
  | |- raises _ (catch_runtime _ _) => apply raises_catch_runtime; intros ?
  | |- raises _ (finally _ _) => apply raises_finally
  | |- raises _ (when _ _) => apply raises_when
  | |- raises _ (for_each _ _) => apply raises_for_each; intros ? ?
  | |- raises _ (match ?x with _ => _ end) => destruct x
  | |- raises _ (if ?x then _ else _) => destruct x
  | |- py_raises _ (Return _) => apply py_raises_return
  | |- py_raises _ (@mret _ _ _ _) => apply py_raises_ret
  | |- py_raises _ (Raise (Py _)) => apply py_raises_crash
  | |- py_raises _ (Raise (Runtime _)) => apply py_raises_raise
  | |- py_raises _ (@mbind _ _ _ _ _ _) => apply py_raises_bind; [|intros ?]
  | |- py_raises _ (@fmap _ _ _ _ _ _) => apply py_raises_fmap
  | |- py_raises _ (require _ _) => apply py_raises_require
  | |- py_raises _ (of_option _ _) => apply py_raises_option
  | |- py_raises _ (of_test _) => apply py_raises_test
  | |- py_raises _ (map_py _ _) => apply py_raises_map; intros ?
  | |- py_raises _ (match ?x with _ => _ end) => destruct x
  | |- py_raises _ (if ?x then _ else _) => destruct x
  | |- forall e, Py _ = Runtime e -> _ => intros ? [=]
  | |- forall e, Runtime _ = Runtime e -> _ => intros ? [= <-]
  end.
Ltac raises_solve := repeat first [raises_step | solve [eauto 3 with scenario]].

Ltac ends_step :=
  lazymatch goal with
  | |- ends (@mret _ _ _ _) => apply ends_ret
  | |- ends (raise _) => apply ends_raise
  | |- ends (gets _) => apply ends_gets
  | |- ends (modify _) => apply ends_modify
  | |- ends (update_flags _) => apply ends_modify
  | |- ends (lift _) => apply ends_lift
  | |- ends (call_world _) => apply ends_call
  | |- ends (tell_world _) => apply ends_tell
  | |- ends (@mbind _ _ _ _ _ _) => apply ends_bind; [|intros ?]
  | |- ends (catch_runtime _ _) => apply ends_catch_runtime; [|intros ?]
  | |- ends (finally _ _) => apply ends_finally
  | |- ends (when _ _) => apply ends_when
  | |- ends (for_each _ _) => apply ends_for_each; intros ? ?
  | |- ends (match ?x with _ => _ end) => destruct x
  | |- ends (if ?x then _ else _) => destruct x
  end.
Ltac ends_solve := repeat first [ends_step | solve [eauto 3 with scenario]].

(** ** What actions leave alone *)

Section Frames.
Context {W : Type} `{Unicode} `{Surroundings W} (ex : Executor).
Implicit Types st : St W.

(** Only the surroundings change. *)
Definition timing st st' : Prop := exists w, st' = with_world w st.
#[global] Instance timing_preorder : PreOrder timing.
Proof.
  split; [intros []; by eexists | intros st ? ? [w ->] [w' ->]; by exists w'].
Qed.

(** Traces, flags and deferred assertions stay as they are. *)
Definition quiet st st' : Prop :=
  st_traces st' = st_traces st /\ st_flags st' = st_flags st /\ st_last_error st' = st_last_error st
  /\ st_api_closed st' = st_api_closed st /\ st_pending_ai st' = st_pending_ai st.
#[global] Instance quiet_preorder : PreOrder quiet.
Proof. split; [done | intros ??? (?&?&?&?&?) (?&?&?&?&?); repeat split; by etrans]. Qed.

(** Traces and flags stay as they are. *)
Definition acting st st' : Prop :=
  st_traces st' = st_traces st /\ st_flags st' = st_flags st /\ st_last_error st' = st_last_error st
  /\ st_api_closed st' = st_api_closed st.

Lemma timing_quiet st st' : timing st st' -> quiet st st'.
Proof. by intros [w ->]. Qed.
Lemma quiet_acting st st' : quiet st st' -> acting st st'.
Proof. by intros (?&?&?&?&?). Qed.

Lemma timing_call {A} (f : W -> A * W) : moves timing (call_world f).
Proof. apply moves_call. by eexists. Qed.
Lemma timing_tell f : moves timing (tell_world f).
Proof. apply moves_tell. by eexists. Qed.
#[local] Hint Resolve timing_call timing_tell : scenario.

Lemma clock_timing : moves timing clock.
Proof. apply timing_call. Qed.
#[local] Hint Resolve clock_timing : scenario.
Lemma duration_timing s : moves timing (duration_ms s).
Proof. unfold duration_ms. moves_solve. Qed.
Lemma deadline_timing : moves timing (check_deadline_only ex).
Proof. unfold check_deadline_only. moves_solve. Qed.
#[local] Hint Resolve duration_timing deadline_timing : scenario.
Lemma control_timing : moves timing (check_control ex).
Proof. unfold check_control. moves_solve. Qed.
#[local] Hint Resolve control_timing : scenario.

Lemma timing_is_quiet {A} (m : M W A) : moves timing m -> moves quiet m.
Proof. apply moves_weaken, timing_quiet. Qed.
#[local] Hint Resolve timing_is_quiet : scenario.

Lemma quiet_world {A} (f : W -> A * W) : moves quiet (call_world f).
Proof. auto with scenario. Qed.
Lemma quiet_tell f : moves quiet (tell_world f).
Proof. auto with scenario. Qed.
Lemma quiet_modify f : (forall st, quiet st (f st)) -> moves quiet (modify f).
Proof. apply moves_modify. Qed.
#[local] Hint Resolve quiet_world quiet_tell : scenario.
#[local] Hint Extern 1 (moves quiet (modify _)) => by apply quiet_modify : scenario.
Lemma quiet_set n v : moves quiet (set_variable_value n v).
Proof. unfold set_variable_value. moves_solve. Qed.
Lemma quiet_request t : moves quiet (execute_request t).
Proof. unfold execute_request. moves_solve. Qed.
#[local] Hint Resolve quiet_set quiet_request : scenario.

Lemma http_quiet n : moves quiet (http n).
Proof. unfold http. moves_solve. Qed.
Lemma extract_quiet n : moves quiet (extract n).
Proof. unfold extract. moves_solve. Qed.
Lemma assert_quiet n : moves quiet (assert n).
Proof. unfold assert. moves_solve. Qed.
Lemma set_variable_quiet n : moves quiet (set_variable n).
Proof. unfold set_variable. moves_solve. Qed.
Lemma script_quiet n : moves quiet (script ex n).
Proof. unfold script. moves_solve. Qed.
Lemma wait_loop_quiet fuel s t r : moves quiet (wait_loop ex fuel s t r).
Proof. revert r. induction fuel as [|fuel IH]; intros r; cbn [wait_loop]; moves_solve. Qed.
#[local] Hint Resolve wait_loop_quiet : scenario.
Lemma wait_quiet n : moves quiet (wait ex n).
Proof. unfold wait. moves_solve. Qed.

Lemma driver_quiet {A} mode (f : W -> (DriverError + A) * W) : moves quiet (driver mode f).
Proof. unfold driver. moves_solve. Qed.
#[local] Hint Resolve driver_quiet : scenario.
Lemma rolled_back_quiet {A} conn (m : M W A) : moves quiet m -> moves quiet (rolled_back conn m).
Proof. intros Hm. apply moves_catch; [apply _ | done |]. intros x m' [= <-]. moves_solve. Qed.
Lemma sql_fetch_quiet mode rq conn cur n : moves quiet (sql_fetch mode rq conn cur n).
Proof. unfold sql_fetch, check_size. moves_solve. Qed.
#[local] Hint Resolve rolled_back_quiet sql_fetch_quiet : scenario.
Lemma sql_quiet n mode b : moves quiet (sql ex n mode b).
Proof.
  unfold sql. moves_solve.
  all: apply rolled_back_quiet; moves_solve.
Qed.
Lemma api_cleanup_quiet n : moves quiet (api_cleanup ex n).
Proof. unfold api_cleanup. moves_solve. Qed.

Lemma defer_acting n : moves acting (defer_ai_assertion n).
Proof.
  intros st. unfold defer_ai_assertion, mbind, M_bind, gets. destruct (st_latest_response st); [|by split].
  by destruct (ai_config_valid (sn_config n)); split.
Qed.
End Frames.

(** ** The errors actions raise *)

(** Its texts fit the protocol's limits and are not empty; a total timeout is a
    timeout, a cancellation is none. *)
Definition proper (e : ScenarioRuntimeError) : Prop :=
  bool_decide (re_error_type e <> []) && (length (re_error_type e) <=? 100)%nat
  && bool_decide (re_message e <> []) && (length (re_message e) <=? SAFE_ERROR_LIMIT)%nat
  && implb (re_total_timeout e) (re_timeout e)
  && implb (re_timeout e) (negb (bool_decide (re_error_type e = CANCEL_REQUESTED))) = true.

Lemma proper_runtime_error t m retryable timeout total response :
  t <> [] -> m <> [] -> implb total timeout = true ->
  implb timeout (negb (bool_decide (take 100 t = CANCEL_REQUESTED))) = true ->
  proper (runtime_error t m retryable timeout total response).
Proof.
  intros Ht Hm Himp Hc. unfold proper, runtime_error. cbn [re_error_type re_message re_total_timeout re_timeout].
  rewrite Himp, Hc, !length_take. clear Hc. destruct t as [|c t], m as [|d m]; try congruence.
  assert (forall k, (100 `min` k <=? 100)%nat = true) as Hk by (intros; apply Nat.leb_le; lia).
  assert (forall k, (SAFE_ERROR_LIMIT `min` k <=? SAFE_ERROR_LIMIT)%nat = true) as Hl
    by (intros; apply Nat.leb_le; lia).
  rewrite Hk, Hl. reflexivity.
Qed.

(** An error that a node raises outside its action times out only with the whole
    scenario. *)
Definition node_error (e : ScenarioRuntimeError) : Prop :=
  proper e /\ implb (re_timeout e) (re_total_timeout e) = true.
Lemma node_error_proper e : node_error e -> proper e.
Proof. by intros []. Qed.

Lemma raises_weaken {W A} (P Q : ScenarioRuntimeError -> Prop) (m : M W A) :
  (forall e, P e -> Q e) -> raises P m -> raises Q m.
Proof. intros HPQ Hm st e E. eapply HPQ, Hm, E. Qed.
Lemma py_raises_weaken {A} (P Q : ScenarioRuntimeError -> Prop) (m : py A) :
  (forall e, P e -> Q e) -> py_raises P m -> py_raises Q m.
Proof. intros HPQ Hm e E. eapply HPQ, Hm, E. Qed.

Section Errors.
Context {W : Type} `{Unicode} `{Surroundings W} (ex : Executor).

#[local] Hint Extern 1 (proper _) => vm_compute; reflexivity : scenario.
#[local] Hint Extern 1 (node_error _) => split; vm_compute; reflexivity : scenario.

Lemma node_raises {A} (m : M W A) : raises node_error m -> raises proper m.
Proof. apply raises_weaken, node_error_proper. Qed.
Lemma node_py_raises {A} (m : py A) : py_raises node_error m -> py_raises proper m.
Proof. apply py_raises_weaken, node_error_proper. Qed.

Lemma timing_raises_control : raises node_error (check_control ex : M W unit).
Proof. unfold check_control, check_deadline_only, clock. raises_solve. Qed.
Lemma deadline_raises : raises node_error (check_deadline_only ex : M W unit).
Proof. unfold check_deadline_only, clock. raises_solve. Qed.
Lemma duration_raises P s : raises P (duration_ms s : M W Z).
Proof. unfold duration_ms, clock. raises_solve. Qed.
#[local] Hint Resolve node_raises node_py_raises : scenario.
#[local] Hint Resolve timing_raises_control deadline_raises duration_raises : scenario.

Lemma resolve_text_raises c s : py_raises node_error (resolve_text c s).
Proof. unfold resolve_text, missing_context. raises_solve. Qed.
#[local] Hint Resolve resolve_text_raises : scenario.
Lemma resolve_raises c : forall v, py_raises node_error (resolve c v).
Proof.
  fix IH 1. intros [| | | | |l|fs]; cbn [resolve]; raises_solve.
  - induction l as [|v l IHl]; cbn; [done|]. apply py_raises_bind; [apply IH|]. intros v'.
    apply py_raises_bind; [apply IHl | done].
  - induction fs as [|[k v] fs IHl]; cbn; [done|]. apply py_raises_bind; [apply IH|]. intros v'.
    apply py_raises_bind; [apply IHl | done].
Qed.
#[local] Hint Resolve resolve_raises : scenario.
Lemma compare_raises l op r : py_raises node_error (compare l op r).
Proof.
  unfold compare, condition_type_error. raises_solve.
  apply py_raises_except_weak.
  2: intros [e|[]] m' [= <-]; raises_solve.
  - intros e. clear. revert r. revert l. fix IH 1. intros l r.
    destruct l, r; cbn; try done. revert l0. induction l as [|x l IHl]; intros [|y l']; cbn; try done.
    destruct (py_eq x y); [apply IHl | apply IH].
Qed.
#[local] Hint Resolve compare_raises : scenario.
Lemma literal_raises c v : py_raises node_error (literal c v).
Proof. unfold literal. raises_solve. Qed.
#[local] Hint Resolve literal_raises : scenario.
Lemma condition_raises c v : py_raises node_error (condition c v).
Proof. unfold condition. raises_solve. Qed.
#[local] Hint Resolve condition_raises : scenario.

Lemma member_raises P j l : py_raises P (member j l).
Proof. unfold member. raises_solve. Qed.
Lemma min_number_raises P v b : py_raises P (min_number v b).
Proof. unfold min_number. raises_solve. Qed.
Lemma stringify_raises P v : py_raises P (stringify_request_value v).
Proof. unfold stringify_request_value. raises_solve. Qed.
#[local] Hint Resolve member_raises min_number_raises stringify_raises : scenario.
Lemma request_items_raises P v : py_raises P (request_items v).
Proof. unfold request_items, request_item. raises_solve. Qed.
Lemma template_raises P r : py_raises P (template_of r).
Proof. unfold template_of. raises_solve. Qed.
#[local] Hint Resolve request_items_raises template_raises : scenario.

Lemma http_request_raises c n : py_raises proper (http_request c n).
Proof.
  unfold http_request, http_config_invalid. raises_solve. apply py_raises_except_weak; [raises_solve|].
  intros [e|[]] m'; try done; intros [= <-]; raises_solve.
Qed.
Lemma request_failure_proper x a b c d e f e' :
  (u c <> [] /\ u d <> [] /\ u b <> [] /\ u a <> [] /\ u e <> [] /\ u f <> [])
  -> request_failure x a b c d e f = Runtime e' -> proper e'.
Proof.
  intros (?&?&?&?&?&?). destruct x as [| |t| | | | | |]; cbn; intros [= <-]; apply proper_runtime_error; try done.
  by destruct t.
Qed.
Lemma raises_request {A} x a b c d e f :
  (u c <> [] /\ u d <> [] /\ u b <> [] /\ u a <> [] /\ u e <> [] /\ u f <> [])
  -> raises proper (raise (request_failure x a b c d e f) : M W A).
Proof. intros Hne st e' [= E]. by eapply request_failure_proper. Qed.
#[local] Hint Resolve http_request_raises : scenario.
#[local] Hint Extern 1 (raises proper (raise (request_failure _ _ _ _ _ _ _))) =>
  apply raises_request; vm_compute; repeat split; discriminate : scenario.

Lemma http_raises n : raises proper (http n : M W unit).
Proof.
  unfold http, execute_request, clock. raises_solve; apply proper_runtime_error; done.
Qed.
Lemma jsonpath_raises P d e : py_raises P (jsonpath_get d e).
Proof.
  unfold jsonpath_get. raises_solve.
  match goal with |- py_raises _ (jsonpath_walk ?n _ ?s) => generalize n, d; revert s end.
  intros s n. revert s. induction n as [|n IH]; intros [|c s] d'; cbn [jsonpath_walk]; raises_solve.
Qed.
#[local] Hint Resolve jsonpath_raises : scenario.
Lemma extract_raises n : raises proper (extract n : M W unit).
Proof.
  unfold extract, extracted, set_variable_value. raises_solve.
  all: apply py_raises_except_weak; [unfold case_insensitive_get; raises_solve|].
  all: intros [e|[]] m'; try done; intros [= <-]; raises_solve.
Qed.
Lemma assert_raises n : raises proper (assert n : M W unit).
Proof.
  unfold assert, assertion_holds, assertion_failed. raises_solve.
  apply py_raises_except_weak; [raises_solve|]. intros [e|[]] m'; try done; intros [= <-]; raises_solve.
Qed.
Lemma defer_raises n : raises proper (defer_ai_assertion n : M W unit).
Proof. unfold defer_ai_assertion. raises_solve. Qed.
Lemma set_variable_raises n : raises proper (set_variable n : M W unit).
Proof. unfold set_variable, set_variable_value. raises_solve. Qed.
Lemma wait_loop_raises fuel s t r : raises proper (wait_loop ex fuel s t r : M W unit).
Proof. revert r. induction fuel as [|fuel IH]; intros r; cbn [wait_loop]; unfold clock; raises_solve. Qed.
#[local] Hint Resolve wait_loop_raises : scenario.
Lemma wait_raises n : raises proper (wait ex n : M W unit).
Proof. unfold wait, clock. raises_solve. Qed.
Lemma script_raises n : raises proper (script ex n : M W unit).
Proof. unfold script. raises_solve. Qed.

Lemma sql_failure_proper e mode : proper (sql_failure e mode).
Proof.
  unfold sql_failure. destruct (_ || _ || _); [|by vm_compute]. apply proper_runtime_error.
  - by destruct (is_sql_timeout e), (is_sql_retryable e mode).
  - by destruct (is_sql_timeout e).
  - done.
  - by destruct (is_sql_timeout e).
Qed.
#[local] Hint Resolve sql_failure_proper : scenario.
Lemma validate_sql_raises s mode : py_raises proper (validate_sql_statement s mode).
Proof. unfold validate_sql_statement, sql_error. raises_solve. Qed.
Lemma secret_raises id : py_raises proper (secret_value ex id).
Proof. unfold secret_value, sql_error. raises_solve. Qed.
Lemma resource_raises c cfg p : py_raises proper (with_resource_id c cfg p).
Proof. unfold with_resource_id, sql_error. raises_solve. Qed.
#[local] Hint Resolve validate_sql_raises secret_raises resource_raises : scenario.
Lemma sql_request_raises c cfg mode b : py_raises proper (sql_request ex c cfg mode b).
Proof. unfold sql_request, sql_connection, sql_error. raises_solve. Qed.
Lemma driver_raises {A} mode (f : W -> (DriverError + A) * W) : raises proper (driver mode f).
Proof. unfold driver. raises_solve. Qed.
#[local] Hint Resolve sql_request_raises driver_raises : scenario.
Lemma rolled_back_raises {A} conn (m : M W A) : raises proper m -> raises proper (rolled_back conn m).
Proof.
  intros Hm st e. unfold rolled_back, catch. specialize (Hm st). destruct (m st) as [st' [a|x|]]; [done| |done].
  destruct x as [e'|x]; cbn.
  - intros [= <-]. by apply Hm.
  - intros [= <-]. by vm_compute.
Qed.
Lemma sql_fetch_raises mode rq conn cur n : raises proper (sql_fetch mode rq conn cur n : M W unit).
Proof. unfold sql_fetch, check_size, set_variable_value, sql_error. raises_solve. Qed.
#[local] Hint Resolve rolled_back_raises sql_fetch_raises : scenario.
Lemma sql_raises n mode b : raises proper (sql ex n mode b : M W unit).
Proof. unfold sql, clock. raises_solve. all: apply rolled_back_raises; raises_solve. Qed.

Lemma cleanup_request_raises c n : py_raises proper (cleanup_request ex c n).
Proof. unfold cleanup_request, cleanup_credential, cleanup_auth. raises_solve. Qed.
Lemma api_cleanup_raises n : raises proper (api_cleanup ex n : M W unit).
Proof.
  unfold api_cleanup, execute_request. apply raises_bind; [raises_solve|]. intros c. apply raises_bind.
  - pose proof (cleanup_request_raises c n) as Hr. destruct (cleanup_request ex c n) as [t|[e|x]]; raises_solve.
  - intros a. raises_solve. apply proper_runtime_error; [by case_match | done..].
Qed.
End Errors.
