(* ===== verification/ScenarioInvariant.v ===== *)
(** The invariant of a scenario execution: traces are well formed, belong to the
    plan, and are explained by the flags the result is computed from. *)
From S2P Require Import Prelude PyText Json PyJson ScenarioData RunnerValues ScenarioSql ScenarioMonad ScenarioActions.
From S2P Require Import ScenarioRun ScenarioLogic.
Open Scope Z_scope.

(** ** Traces *)

(** What the protocol demands of a trace ([_scenario_trace_payload] of
    runner/protocol.py); a node that did not succeed shows an error type. *)
Definition text_within (n : nat) (t : option pytext) : Prop :=
  match t with Some s => s <> [] /\ (length s <= n)%nat | None => True end.

Definition bad (s : NodeOutcome) : Prop := s = FAILED \/ s = TIMEOUT.

Record trace_wf (k : string) (t : Trace) : Prop := {
  wf_id : nt_node_id t = k;
  wf_duration : 0 <= nt_duration_ms t <= MAX_TRACE_DURATION_MS;
  wf_retry : 0 <= nt_retry_count t <= 3;
  wf_type : text_within 100 (nt_error_type t);
  wf_message : text_within SAFE_ERROR_LIMIT (nt_error_message t);
  wf_bad : bad (nt_status t) -> is_Some (nt_error_type t);
}.

Lemma record_trace_status p k s r d et em :
  nt_status (record_trace p k s r d et em)
  = match p with Some t => if severity s <? severity (nt_status t) then nt_status t else s | None => s end.
Proof.
  unfold record_trace. destruct p as [t|]; [|done].
  destruct (severity s <? severity (nt_status t)); [done|]. by destruct (_ =? _).
Qed.

Lemma cut_message (em : option pytext) :
  text_within SAFE_ERROR_LIMIT
    (match em with Some (c :: m) => Some (take SAFE_ERROR_LIMIT (c :: m)) | _ => None end).
Proof.
  destruct em as [[|c m]|]; cbn [text_within]; [done| |done]. split; [done|].
  rewrite length_take. lia.
Qed.
Lemma or_text_within n a b : text_within n a -> text_within n b -> text_within n (or_text a b).
Proof. by destruct a as [[|]|]. Qed.

Lemma record_trace_wf p k s r d et em :
  match p with Some t => trace_wf k t | None => True end ->
  0 <= r -> text_within 100 et -> (bad s -> is_Some et) ->
  trace_wf k (record_trace p k s r d et em).
Proof.
  intros Hp Hr Ht Hb. unfold record_trace. destruct p as [t|].
  2:{ split; cbn [nt_node_id nt_duration_ms nt_retry_count nt_error_type nt_error_message nt_status]; auto using cut_message;
      unfold MAX_TRACE_DURATION_MS; lia. }
  destruct Hp as [Hid Hd Hr' Ht' Hm Hbad].
  destruct (severity s <? severity (nt_status t)) eqn:Hlt; [|destruct (_ =? _) eqn:Heq].
  all: split; cbn [nt_node_id nt_duration_ms nt_retry_count nt_error_type nt_error_message nt_status];
    auto using cut_message, or_text_within; unfold MAX_TRACE_DURATION_MS in *; try lia.
  intros Hs. destruct (Hb Hs) as [x ->]. cbn in Ht. destruct x; [by destruct Ht | by eexists].
Qed.

(** ** Flags that explain a status *)

(** Which flags a node status must have set. *)
Definition explained (f : Flags) (s : NodeOutcome) : Prop :=
  match s with
  | SUCCESS | SKIPPED => True
  | FAILED => f_failed f || f_cleanup_failed f || f_cancelled f || f_total_timeout f = true
  | TIMEOUT => f_timed_out f || f_total_timeout f = true
  | CANCELLED => False
  end.

Definition explains (f f' : Flags) : Prop := forall s, explained f s -> explained f' s.

Lemma explained_record f p k s r d et em :
  match p with Some t => explained f (nt_status t) | None => True end -> explained f s ->
  explained f (nt_status (record_trace p k s r d et em)).
Proof. rewrite record_trace_status. destruct p as [t|]; [|done]. by case_match. Qed.

Section Invariant.
Context {W : Type} `{Unicode} `{Surroundings W} (ex : Executor).
Abbreviation nodes := (spl_nodes (ex_plan ex)).
Implicit Types st : St W.

Record Good st : Prop := {
  good_plan : forall k t, st_traces st !! k = Some t -> exists n, n ∈ nodes /\ sn_id n = k;
  good_wf : forall k t, st_traces st !! k = Some t -> trace_wf k t;
  good_explained : forall k t, st_traces st !! k = Some t -> explained (st_flags st) (nt_status t);
  (** A failure is shown by a node. *)
  good_evidence : f_failed (st_flags st) || f_cleanup_failed (st_flags st) = true ->
    exists k t, st_traces st !! k = Some t /\ bad (nt_status t);
  (** A scenario that stops on failures has stopped. *)
  good_stop : spl_stop_on_failure (ex_plan ex) = true -> f_failed (st_flags st) = true ->
    halted (st_flags st) = true;
  good_last : forall e, st_last_error st = Some e -> proper e;
}.

Definition keeps st st' : Prop := Good st -> Good st'.
#[global] Instance keeps_preorder : PreOrder keeps.
Proof. split; [intros ? Hg; exact Hg | intros ? ? ? Ha Hb Hg; auto]. Qed.

Lemma acting_keeps st st' : acting st st' -> keeps st st'.
Proof.
  intros (Ht & Hf & Hl & _) [Hp Hw He Hv Hs Hg]. split; rewrite ?Ht, ?Hf, ?Hl; done.
Qed.
Lemma quiet_keeps st st' : quiet st st' -> keeps st st'.
Proof. intros Hq. apply acting_keeps, quiet_acting, Hq. Qed.
Lemma timing_keeps st st' : timing st st' -> keeps st st'.
Proof. intros Hq. apply quiet_keeps, timing_quiet, Hq. Qed.

Lemma acting_moves {A} (m : M W A) : moves acting m -> moves keeps m.
Proof. apply moves_weaken, acting_keeps. Qed.
Lemma quiet_moves {A} (m : M W A) : moves quiet m -> moves keeps m.
Proof. apply moves_weaken, quiet_keeps. Qed.
Lemma timing_moves {A} (m : M W A) : moves timing m -> moves keeps m.
Proof. apply moves_weaken, timing_keeps. Qed.

(** The trace of a node that did not succeed stays one. *)
Lemma bad_record p k s r d et em :
  (match p with Some t => bad (nt_status t) | None => False end \/ bad s) ->
  match p with Some t => nt_status t <> CANCELLED | None => True end -> s <> CANCELLED ->
  bad (nt_status (record_trace p k s r d et em)).
Proof.
  rewrite record_trace_status. unfold bad. destruct p as [t|]; [|naive_solver].
  destruct s, (nt_status t); cbn; naive_solver.
Qed.

(** Recording a status while setting flags: one step of every handler. *)
Lemma record_keeps n s r d et em (f : Flags -> Flags) st st' :
  n ∈ nodes -> 0 <= r -> text_within 100 et -> (bad s -> is_Some et) -> s <> CANCELLED ->
  st_traces st' = <[sn_id n := record_trace (st_traces st !! sn_id n) (sn_id n) s r d et em]> (st_traces st) ->
  st_flags st' = f (st_flags st) ->
  explains (st_flags st) (f (st_flags st)) -> explained (f (st_flags st)) s ->
  (f_failed (f (st_flags st)) || f_cleanup_failed (f (st_flags st)) = true ->
     bad s \/ f_failed (st_flags st) || f_cleanup_failed (st_flags st) = true) ->
  (spl_stop_on_failure (ex_plan ex) = true -> f_failed (f (st_flags st)) = true ->
     f_failed (st_flags st) = true \/ halted (f (st_flags st)) = true) ->
  (halted (st_flags st) = true -> halted (f (st_flags st)) = true) ->
  st_last_error st' = st_last_error st \/ (exists e, proper e /\ st_last_error st' = Some e) ->
  Good st -> Good st'.
Proof.
  intros Hn Hr Het Hb Hnc Ht Hf Hexp Hs Hev Hstop Hhalt Hlast [Hp Hw He Hv Hst Hgl].
  split; rewrite ?Ht, ?Hf.
  - intros k t. destruct (decide (sn_id n = k)) as [<-|Hk]; [by intros _; exists n|].
    rewrite lookup_insert_ne by done. apply Hp.
  - intros k t. destruct (decide (sn_id n = k)) as [<-|Hk].
    + rewrite lookup_insert_eq. intros [= <-]. apply record_trace_wf; auto. case_match; eauto.
    + rewrite lookup_insert_ne by done. apply Hw.
  - intros k t. destruct (decide (sn_id n = k)) as [<-|Hk].
    + rewrite lookup_insert_eq. intros [= <-]. apply explained_record; auto. case_match; eauto.
    + rewrite lookup_insert_ne by done. eauto.
  - intros [Hbs|(k & t & Hk & Hbt)%Hv]%Hev.
    + eexists (sn_id n), _; split; [apply lookup_insert_eq|]. apply bad_record; auto.
      case_match; [|done]. by intros E; eapply He in H1; rewrite E in H1.
    + destruct (decide (sn_id n = k)) as [<-|Hne].
      * eexists _, _; split; [apply lookup_insert_eq|]. rewrite Hk.
        apply bad_record; auto. by destruct Hbt as [-> | ->].
      * exists k, t. by rewrite lookup_insert_ne.
  - intros H1 H2. destruct (Hstop H1 H2) as [?|?]; auto.
  - destruct Hlast as [-> | (e & Hpe & ->)]; [done | by intros ? [= <-]].
Qed.

(** *** Recording without flags *)

Lemma text_within_none n : text_within n None.
Proof. done. Qed.

Lemma record_plain_keeps n s r d : n ∈ nodes -> 0 <= r -> s = SUCCESS \/ s = SKIPPED -> moves keeps (record_plain n s r d).
Proof.
  intros Hn Hr Hs st Hg. eapply (record_keeps n s r d None None id); try done.
  - by destruct Hs as [-> | ->]; intros [|].
  - by destruct Hs as [-> | ->].
  - by intros ?.
  - by destruct Hs as [-> | ->].
  - by right.
  - intros ? ?. by left.
  - by left.
Qed.

Lemma record_skipped_keeps n : n ∈ nodes -> moves keeps (record_skipped n).
Proof.
  intros Hn. unfold record_skipped. moves_solve. apply record_plain_keeps; auto; lia.
Qed.

Lemma children_nodes parent n : n ∈ children ex parent -> n ∈ nodes.
Proof. unfold children. by intros [_ ?]%list_elem_of_filter. Qed.
#[local] Hint Resolve record_skipped_keeps children_nodes : scenario.

Lemma skip_descendants_keeps fuel n : moves keeps (skip_descendants ex fuel n).
Proof.
  revert n. induction fuel as [|fuel IH]; intros n; cbn [skip_descendants]; moves_solve.
Qed.
#[local] Hint Resolve skip_descendants_keeps : scenario.
Lemma skip_tree_keeps n : n ∈ nodes -> moves keeps (skip_tree ex n).
Proof. intros Hn. unfold skip_tree. moves_solve. Qed.

Lemma after_sublist id seen l n : n ∈ after id seen l -> n ∈ l.
Proof.
  revert seen. induction l as [|m l IH]; intros seen; cbn; [done|].
  repeat case_match; intros Hn; try (right; by eapply IH).
  apply elem_of_cons in Hn as [->|Hn]; [left | right; by eapply IH].
Qed.
Lemma skip_siblings_keeps parent id : moves keeps (skip_siblings ex parent id).
Proof.
  unfold skip_siblings. moves_solve. eapply skip_tree_keeps, children_nodes, after_sublist. done.
Qed.
Lemma fill_keeps : moves keeps (fill_missing_traces ex).
Proof. unfold fill_missing_traces. moves_solve. Qed.
#[local] Hint Resolve skip_tree_keeps skip_siblings_keeps fill_keeps : scenario.

(** *** Recording a failure *)

Lemma should_stop_policy n e : spl_stop_on_failure (ex_plan ex) = true -> should_stop ex n e = true.
Proof.
  intros Hs. unfold should_stop, policy. rewrite Hs.
  destruct (decide (sn_failure_policy n = Some RETRY_ONCE)); by rewrite orb_true_r.
Qed.

Definition failure_status (e : ScenarioRuntimeError) : NodeOutcome := if re_timeout e then TIMEOUT else FAILED.
Lemma failure_bad e : bad (failure_status e).
Proof. unfold failure_status, bad. destruct (re_timeout e); auto. Qed.

Lemma proper_type e : proper e -> text_within 100 (Some (re_error_type e)).
Proof.
  unfold proper. rewrite !andb_true_iff, !bool_decide_eq_true, !Nat.leb_le. intros (((((? & ?) & ?) & ?) & ?) & ?).
  by split.
Qed.
Lemma proper_total e : proper e -> re_total_timeout e = true -> re_timeout e = true.
Proof. unfold proper. rewrite !andb_true_iff. intros [[_ Hi] _] Ht. by rewrite Ht in Hi. Qed.
Lemma proper_cancel e : proper e -> is_cancel e = true -> re_timeout e = false.
Proof.
  unfold proper, is_cancel. rewrite !andb_true_iff. intros [_ Hi] Hc. rewrite Hc in Hi.
  by destruct (re_timeout e).
Qed.

(** A failure is recorded while the flags that explain it are set. *)
Lemma failure_keeps n e r d (f : Flags -> Flags) st st' :
  n ∈ nodes -> 0 <= r -> proper e ->
  st_traces st' = <[sn_id n := record_trace (st_traces st !! sn_id n) (sn_id n) (failure_status e) r d
                      (Some (re_error_type e)) (Some (re_message e))]> (st_traces st) ->
  st_flags st' = f (st_flags st) ->
  explains (st_flags st) (f (st_flags st)) -> explained (f (st_flags st)) (failure_status e) ->
  (spl_stop_on_failure (ex_plan ex) = true -> f_failed (f (st_flags st)) = true ->
     f_failed (st_flags st) = true \/ halted (f (st_flags st)) = true) ->
  (halted (st_flags st) = true -> halted (f (st_flags st)) = true) ->
  st_last_error st' = st_last_error st \/ st_last_error st' = Some e ->
  Good st -> Good st'.
Proof.
  intros Hn Hr He Ht Hf Hx Hs Hstop Hh Hl. eapply (record_keeps n _ r d _ _ f); eauto using proper_type.
  - unfold failure_status. by destruct (re_timeout e).
  - intros _. left. apply failure_bad.
  - destruct Hl as [Hl|Hl]; [by left | right; eauto].
Qed.
End Invariant.

(** Goals about flags: explicit booleans. *)
Ltac flags :=
  unfold explains, explained, halted, failure_status in *; cbn in *;
  repeat match goal with
  | |- forall s : NodeOutcome, _ => intros []; cbn
  | |- context [if ?b then _ else _] => let E := fresh "B" in destruct b eqn:E; cbn in *
  | H : context [if ?b then _ else _] |- _ => let E := fresh "B" in destruct b eqn:E; cbn in *
  end;
  rewrite ?orb_true_iff in *; try tauto; try congruence.
