(* ===== verification/ScenarioFlow.v ===== *)
(** The control flow keeps the invariant of [ScenarioInvariant]: leaves, the node
    tree, the cleanup phase, the whole execution; and which errors reach whom. *)
From S2P Require Import Prelude PyText Json PyJson ScenarioData RunnerValues ScenarioSql ScenarioMonad ScenarioActions.
From S2P Require Import ScenarioRun ScenarioLogic ScenarioInvariant.
Open Scope Z_scope.

Section Flow.
Context {W : Type} `{Unicode} `{Surroundings W} (ex : Executor).
Abbreviation nodes := (spl_nodes (ex_plan ex)).
Implicit Types st : St W.
Abbreviation kept := (moves (keeps (W:=W) ex)).

#[local] Hint Resolve timing_moves quiet_moves acting_moves : scenario.
#[local] Hint Resolve clock_timing duration_timing deadline_timing control_timing timing_tell : scenario.
#[local] Hint Resolve record_skipped_keeps children_nodes skip_descendants_keeps skip_tree_keeps
  skip_siblings_keeps fill_keeps : scenario.

Ltac handler := unfold record_failure, record, record_plain, update_flags, modify, when, mbind, M_bind, mret, M_ret.

(** ** Leaves *)

Lemma leaf_failed_keeps n e r t : n ∈ nodes -> 0 <= r -> proper e -> kept (leaf_failed ex n e r t).
Proof.
  intros Hn Hr He st Hg. unfold leaf_failed. handler.
  destruct (should_stop ex n e) eqn:Hs.
  - destruct (re_timeout e) eqn:Ht; cbn [fst]; apply skip_siblings_keeps;
      revert Hg; (eapply (failure_keeps ex n e r t (fun f => set_stop_requested (set_failed true
        (if re_timeout e then set_timed_out f else f)))); [done..| | | | | | |]);
      rewrite ?Ht; try (unfold failure_status; rewrite Ht; reflexivity); try reflexivity; try (left; reflexivity); try (right; reflexivity); flags.
  - assert (spl_stop_on_failure (ex_plan ex) = true -> False) as Hns.
    { intros Hx. by rewrite (should_stop_policy ex n e Hx) in Hs. }
    destruct (re_timeout e) eqn:Ht; cbn [fst];
      revert Hg; (eapply (failure_keeps ex n e r t (fun f => (set_failed true
        (if re_timeout e then set_timed_out f else f)))); [done..| | | | | | |]);
      rewrite ?Ht; try (unfold failure_status; rewrite Ht; reflexivity); try reflexivity; try (left; reflexivity); try (right; reflexivity); flags.
Qed.

(** What an action may do. *)
Definition well_behaved (m : M W unit) : Prop := moves acting m /\ raises proper m.

Lemma leaf_attempt_keeps n action s a t : n ∈ nodes -> 0 <= a -> well_behaved action ->
  kept (leaf_attempt ex n action s a t).
Proof.
  intros Hn Ha [Hm _]. unfold leaf_attempt. moves_solve. apply record_plain_keeps; auto.
Qed.
Lemma leaf_attempt_raises n action s a t : well_behaved action -> raises proper (leaf_attempt ex n action s a t).
Proof.
  intros [_ Hr]. unfold leaf_attempt, record_plain, record. raises_solve.
  - apply node_raises, timing_raises_control.
  - apply duration_raises.
  - apply node_raises, timing_raises_control.
  - by vm_compute.
Qed.

Lemma leaf_attempts_keeps n action m left a t le : n ∈ nodes -> 0 <= a -> well_behaved action ->
  kept (leaf_attempts ex n action m left a t le).
Proof.
  intros Hn. revert a t le. induction left as [|left IH]; intros a t le Ha Hw; cbn [leaf_attempts]; [moves_solve|].
  apply moves_bind; [apply _ | moves_solve | intros s]. apply moves_bind; [apply _ | moves_solve | intros c].
  eapply moves_catch_raised; [apply _ | by apply leaf_attempt_keeps | by apply leaf_attempt_raises |].
  intros e He. apply moves_bind; [apply _ | |intros _].
  { apply moves_modify. intros st. by apply quiet_keeps. }
  apply moves_bind; [apply _ | moves_solve | intros d].
  destruct (re_total_timeout e) eqn:Htt; [|destruct (is_cancel e) eqn:Hc; [|]].
  - pose proof (proper_total e He Htt) as Ht. intros st Hg. handler. cbn [fst]. revert Hg.
    (eapply (failure_keeps ex n e a (add_duration t d) (fun f => set_stop_requested (set_failed false
        (set_total_timeout f)))); [done..| | | | | | |]);
      try (unfold failure_status; rewrite Ht; reflexivity); try reflexivity; try (left; reflexivity); try (right; reflexivity); flags.
  - pose proof (proper_cancel e He Hc) as Ht. intros st Hg. handler. cbn [fst]. revert Hg.
    (eapply (failure_keeps ex n e a (add_duration t d) (fun f => set_stop_requested (set_cancelled f)));
       [done..| | | | | | |]);
      try (unfold failure_status; rewrite Ht; reflexivity); try reflexivity; try (left; reflexivity); try (right; reflexivity); flags.
  - destruct (_ && _ && _); [|destruct (_ && _)].
    + apply record_plain_keeps; auto.
    + apply IH; [lia | done].
    + by apply leaf_failed_keeps.
Qed.
Lemma run_leaf_keeps n action : n ∈ nodes -> well_behaved action -> kept (run_leaf ex n action).
Proof. intros. unfold run_leaf. apply leaf_attempts_keeps; auto; lia. Qed.

(** Nothing but exceptions of other classes leaves a leaf. *)
Lemma skip_raises P n : raises (W:=W) P (skip_tree ex n).
Proof.
  assert (forall fuel n, raises (W:=W) P (skip_descendants ex fuel n)) as Hd.
  { induction fuel as [|fuel IH]; intros m; cbn [skip_descendants]; unfold record_skipped, record_plain, record;
      raises_solve; auto. }
  unfold skip_tree, record_skipped, record_plain, record. raises_solve; auto.
Qed.
Lemma skip_siblings_raises P parent id : raises (W:=W) P (skip_siblings ex parent id).
Proof. unfold skip_siblings. apply raises_for_each. intros. apply skip_raises. Qed.
Lemma skip_descendants_raises P fuel n : raises (W:=W) P (skip_descendants ex fuel n).
Proof.
  revert n. induction fuel as [|fuel IH]; intros m; cbn [skip_descendants]; unfold record_skipped, record_plain, record;
    raises_solve; auto.
Qed.
#[local] Hint Resolve skip_raises skip_siblings_raises skip_descendants_raises duration_raises : scenario.

Lemma leaf_attempts_raises P n action m left a t le :
  Z.of_nat left = m - a -> (left = O -> le = None) -> raises (W:=W) P (leaf_attempts ex n action m left a t le).
Proof.
  revert a t le. induction left as [|left IH]; intros a t le Hl Hle; cbn [leaf_attempts].
  { rewrite Hle by done. raises_solve. }
  unfold clock. do 2 (apply raises_bind; [raises_solve | intros ?]). apply raises_catch_runtime. intros e.
  do 2 (apply raises_bind; [raises_solve | intros ?]).
  unfold leaf_failed, record_failure, record_plain, record.
  do 3 (case_match; [raises_solve; fail|]). case_match eqn:Hb; [|raises_solve].
  apply andb_true_iff in Hb as [Hb%Z.ltb_lt _]. apply IH; [lia|]. intros ->. lia.
Qed.
Lemma run_leaf_raises P n action : raises (W:=W) P (run_leaf ex n action).
Proof. unfold run_leaf. apply leaf_attempts_raises; case_decide; done. Qed.

(** ** The node tree *)

(** What a run of a node may do to the state, and the errors that leave it. *)
Definition good_run (run : ScenarioNodePlan -> M W unit) : Prop :=
  forall n, n ∈ nodes -> kept (run n) /\ raises node_error (run n).

Lemma stop_of_error n e : re_total_timeout e || is_cancel e = true -> should_stop ex n e = true.
Proof. unfold should_stop. intros ->. done. Qed.

(** The flags after a node raised an error, up to [stop_requested]. *)
Definition error_flags (e : ScenarioRuntimeError) (f : Flags) : Flags :=
  if re_total_timeout e then set_total_timeout f else if is_cancel e then set_cancelled f else f.

Lemma node_error_keeps n e f st st' : n ∈ nodes -> node_error e ->
  (forall g, explains g (f g) /\ halted (f g) = (halted g || should_stop ex n e)
     /\ f_total_timeout (f g) = f_total_timeout g || re_total_timeout e
     /\ (re_total_timeout e = false -> is_cancel e = true -> f_cancelled (f g) = true)
     /\ (re_total_timeout e = false -> is_cancel e = false -> f_failed (f g) = true)) ->
  st_traces st' = <[sn_id n := record_trace (st_traces st !! sn_id n) (sn_id n) (failure_status e) 0 0
                      (Some (re_error_type e)) (Some (re_message e))]> (st_traces st) ->
  st_flags st' = f (st_flags st) -> st_last_error st' = Some e -> keeps ex st st'.
Proof.
  intros Hn [Hp Himp] Hf Ht Hfl Hl. destruct (Hf (st_flags st)) as (Hx & Hh & Htot & Hcan & Hfail).
  unfold keeps. eapply (failure_keeps ex n e 0 0 f); eauto; try lia.
  - unfold failure_status. destruct (re_timeout e); cbn in *.
    + by rewrite Htot, Himp, !orb_true_r.
    + destruct (re_total_timeout e); [by rewrite Htot, !orb_true_r|].
      destruct (is_cancel e); [rewrite Hcan by done; by rewrite !orb_true_r | by rewrite Hfail].
  - intros Hs _. right. by rewrite Hh, (should_stop_policy ex n e Hs), orb_true_r.
Qed.

Lemma siblings_handler_keeps n e (m : M W bool) : n ∈ nodes -> node_error e -> kept m ->
  kept (_ ← note_error n e;
        _ ← update_flags (fun f => set_failed (f_failed f || negb (re_total_timeout e)) f);
        _ ← modify (with_last_error e);
        if should_stop ex n e then _ ← update_flags set_stop_requested; m else mret false).
Proof.
  intros Hn He Hm st. unfold note_error. handler. fold (error_flags e).
  destruct (should_stop ex n e) eqn:Hs; cbn [fst].
  - etrans; [|apply Hm].
    eapply (node_error_keeps n e (fun f => set_stop_requested (set_failed
      (f_failed (error_flags e f) || negb (re_total_timeout e)) (error_flags e f)))); [done..| |reflexivity|reflexivity|reflexivity].
    intros g. rewrite Hs. unfold error_flags. destruct (re_total_timeout e), (is_cancel e);
      (split; [flags | unfold halted; cbn; split_and!; rewrite ?orb_true_r, ?orb_false_r; done]).
  - destruct (re_total_timeout e || is_cancel e) eqn:Hb; [by rewrite (stop_of_error n e Hb) in Hs|].
    apply orb_false_iff in Hb as [Hb1 Hb2].
    eapply (node_error_keeps n e (fun f => set_failed
      (f_failed (error_flags e f) || negb (re_total_timeout e)) (error_flags e f))); [done..| |reflexivity|reflexivity|reflexivity].
    intros g. rewrite Hs. unfold error_flags. rewrite Hb1, Hb2.
    (split; [flags | unfold halted; cbn; split_and!; rewrite ?orb_true_r, ?orb_false_r; done]).
Qed.

Lemma one_handler_keeps n e (m : M W unit) : n ∈ nodes -> node_error e -> kept m ->
  kept (_ ← note_error n e;
        _ ← update_flags (fun f => if re_total_timeout e || is_cancel e then f else set_failed true f);
        _ ← modify (with_last_error e);
        when (should_stop ex n e) (_ ← update_flags set_stop_requested; m)).
Proof.
  intros Hn He Hm st. unfold note_error. handler. fold (error_flags e).
  destruct (should_stop ex n e) eqn:Hs; cbn [fst].
  - etrans; [|apply Hm].
    eapply (node_error_keeps n e (fun f => set_stop_requested (if re_total_timeout e || is_cancel e
      then error_flags e f else set_failed true (error_flags e f)))); [done..| |reflexivity|reflexivity|reflexivity].
    intros g. rewrite Hs. unfold error_flags. destruct (re_total_timeout e), (is_cancel e);
      (split; [flags | unfold halted; cbn; split_and!; rewrite ?orb_true_r, ?orb_false_r; done]).
  - destruct (re_total_timeout e || is_cancel e) eqn:Hb; [by rewrite (stop_of_error n e Hb) in Hs|].
    apply orb_false_iff in Hb as [Hb1 Hb2].
    eapply (node_error_keeps n e (fun f => set_failed true (error_flags e f)));
      [done..| |reflexivity|reflexivity|reflexivity].
    intros g. rewrite Hs. unfold error_flags. rewrite Hb1, Hb2.
    (split; [flags | unfold halted; cbn; split_and!; rewrite ?orb_true_r, ?orb_false_r; done]).
Qed.

Lemma note_error_raises P n e : raises (W:=W) P (note_error n e).
Proof. unfold note_error, record_failure, record. raises_solve. Qed.
#[local] Hint Resolve note_error_raises timing_raises_control : scenario.

Section Node.
Context (run : ScenarioNodePlan -> M W unit) (Hrun : good_run run).

Lemma child_keeps n : n ∈ nodes -> kept (_ ← check_control ex; run n).
Proof. intros Hn. destruct (Hrun n Hn) as [Hk _]. moves_solve. Qed.
Lemma child_raises n : n ∈ nodes -> raises node_error (_ ← check_control ex; run n).
Proof. intros Hn. destruct (Hrun n Hn) as [_ Hr]. raises_solve. Qed.

Lemma run_siblings_keeps parent l : (forall n, n ∈ l -> n ∈ nodes) -> kept (run_siblings ex run parent l).
Proof.
  induction l as [|n l IH]; intros Hl; cbn [run_siblings]; [moves_solve|].
  assert (n ∈ nodes) as Hn by (apply Hl; left).
  assert (kept (run_siblings ex run parent l)) as Hrest by (apply IH; intros; apply Hl; by right).
  apply moves_bind; [apply _ | moves_solve | intros f]. destruct (halted f); [moves_solve|].
  apply moves_bind; [apply _ | | intros []; moves_solve].
  destruct (Hrun n Hn) as [Hk Hr]. eapply moves_catch_raised; [apply _ | moves_solve | |].
  - assert (raises node_error (_ ← check_control ex; _ ← run n; mret false)) as Hx by raises_solve. exact Hx.
  - intros e He. apply siblings_handler_keeps; auto. moves_solve.
Qed.
Lemma run_siblings_raises P parent l : raises P (run_siblings ex run parent l).
Proof.
  induction l as [|n l IH]; cbn [run_siblings]; raises_solve.
Qed.

Lemma run_one_keeps n : n ∈ nodes -> kept (run_children_one ex run n).
Proof.
  intros Hn. unfold run_children_one. apply moves_bind; [apply _ | moves_solve | intros f].
  destruct (halted f); [moves_solve|].
  eapply moves_catch_raised; [apply _ | by apply child_keeps | by apply child_raises |].
  intros e He. apply one_handler_keeps; auto. moves_solve.
Qed.
Lemma run_one_raises P n : raises P (run_children_one ex run n).
Proof. unfold run_children_one. raises_solve. Qed.
#[local] Hint Resolve run_one_keeps run_one_raises : scenario.

Lemma run_if_keeps n : n ∈ nodes -> kept (run_if ex run n).
Proof.
  intros Hn. unfold run_if. moves_solve. apply record_plain_keeps; auto; lia.
Qed.
Lemma run_if_raises n : raises node_error (run_if ex run n).
Proof. unfold run_if, clock, record_plain, record. raises_solve. apply condition_raises. Qed.

Lemma loop_body_keeps l : (forall n, n ∈ l -> n ∈ nodes) -> kept (loop_body ex run l).
Proof.
  induction l as [|n l IH]; intros Hl; cbn [loop_body]; [moves_solve|].
  assert (n ∈ nodes) as Hn by (apply Hl; left).
  assert (kept (loop_body ex run l)) by (apply IH; intros; apply Hl; by right). moves_solve.
Qed.
Lemma loop_body_raises P l : raises P (loop_body ex run l).
Proof. induction l as [|n l IH]; cbn [loop_body]; raises_solve. Qed.
#[local] Hint Resolve loop_body_keeps loop_body_raises : scenario.

Lemma set_value_keeps x v : kept (set_variable_value x v).
Proof. apply quiet_moves, quiet_set. Qed.
#[local] Hint Resolve set_value_keeps : scenario.

Lemma loop_iterations_keeps n s x y i values : n ∈ nodes -> kept (loop_iterations ex run n s x y i values).
Proof.
  intros Hn. revert i. induction values as [|v values IH]; intros i; cbn [loop_iterations]; moves_solve.
  all: apply record_plain_keeps; auto; lia.
Qed.
Lemma loop_iterations_raises n s x y i values : raises node_error (loop_iterations ex run n s x y i values).
Proof.
  revert i. induction values as [|v values IH]; intros i; cbn [loop_iterations];
    unfold record_plain, record, set_variable_value; raises_solve.
Qed.
Lemma run_loop_keeps n : n ∈ nodes -> kept (run_loop ex run n).
Proof. intros Hn. unfold run_loop. moves_solve; by apply loop_iterations_keeps. Qed.
Lemma run_loop_raises n : raises node_error (run_loop ex run n).
Proof.
  unfold run_loop, clock, loop_values. raises_solve.
  all: try (split; by vm_compute).
  all: try apply resolve_raises.
  all: apply loop_iterations_raises.
Qed.

Lemma leaf_action_behaved n action : leaf_action ex n = Some action -> well_behaved action.
Proof.
  unfold leaf_action, well_behaved. intros E. split.
  - destruct (sn_type n); try discriminate E; injection E as <-; try apply defer_acting;
      apply (moves_weaken _ _ _ quiet_acting);
      first [apply http_quiet | apply wait_quiet | apply set_variable_quiet | apply extract_quiet
            | apply assert_quiet | apply sql_quiet | apply script_quiet].
  - destruct (sn_type n); try discriminate E; injection E as <-;
      first [apply http_raises | apply wait_raises | apply set_variable_raises | apply extract_raises
            | apply assert_raises | apply sql_raises | apply script_raises | apply defer_raises].
Qed.

Lemma extract_behaved n : well_behaved (extract n).
Proof. split; [apply (moves_weaken _ _ _ quiet_acting), extract_quiet | apply extract_raises]. Qed.

Lemma run_node_with_keeps n : n ∈ nodes -> kept (run_node_with ex run n).
Proof.
  intros Hn. unfold run_node_with.
  assert (forall s r d, 0 <= r -> s = SUCCESS \/ s = SKIPPED -> kept (record_plain n s r d)) as Hrec
    by (intros; by apply record_plain_keeps).
  apply moves_bind; [apply _ | moves_solve | intros cleaning].
  destruct (negb (sn_enabled n)); [moves_solve; apply Hrec; auto; lia|].
  destruct (is_cleanup n && negb cleaning); [moves_solve|]. destruct (negb (supported (sn_type n))); [moves_solve|].
  pose proof (leaf_action_behaved n) as Hleaf.
  destruct (sn_type n) eqn:Hty; try (moves_solve; first [apply Hrec; auto; lia | apply run_leaf_keeps; eauto]; fail).
  - by apply run_if_keeps.
  - moves_solve; [apply Hrec; auto; lia |]. apply run_siblings_keeps. apply children_nodes.
  - by apply run_loop_keeps.
  - moves_solve; try (apply Hrec; auto; lia); apply run_leaf_keeps; auto using extract_behaved.
Qed.

Lemma run_node_with_raises n : raises node_error (run_node_with ex run n).
Proof.
  unfold run_node_with, record_plain, record, clock, run_children.
  apply raises_bind; [raises_solve | intros cleaning].
  destruct (negb (sn_enabled n)); [raises_solve|]. destruct (is_cleanup n && negb cleaning); [raises_solve|].
  destruct (negb (supported (sn_type n))); [raises_solve; split; by vm_compute|].
  destruct (sn_type n); raises_solve;
    first [apply run_if_raises | apply run_loop_raises | apply run_siblings_raises | apply run_leaf_raises
          | split; by vm_compute].
Qed.
End Node.

Lemma run_node_good fuel : good_run (run_node ex fuel).
Proof.
  induction fuel as [|fuel IH]; intros n Hn; [split; [apply moves_unfinished; apply _ | apply raises_unfinished]|].
  split; [by apply run_node_with_keeps | by apply run_node_with_raises].
Qed.

(** ** The cleanup phase *)

Lemma cleanup_nodes_nodes n : n ∈ cleanup_nodes ex -> n ∈ nodes.
Proof. unfold cleanup_nodes. by intros [_ ?]%list_elem_of_filter. Qed.

Lemma cleanup_attempt_keeps n s a t : n ∈ nodes -> 0 <= a -> kept (cleanup_attempt ex n s a t).
Proof.
  intros Hn Ha. unfold cleanup_attempt. pose proof (api_cleanup_quiet (W:=W)). pose proof (sql_quiet (W:=W)).
  moves_solve. apply record_plain_keeps; auto.
Qed.
Lemma cleanup_attempt_raises n s a t : raises (W:=W) proper (cleanup_attempt ex n s a t).
Proof.
  unfold cleanup_attempt, record_plain, record. raises_solve.
  all: try apply node_raises, deadline_raises.
  all: first [apply api_cleanup_raises | apply sql_raises | by vm_compute].
Qed.

(** Flags alone: nothing that was explained loses its explanation. *)
Lemma flags_keeps (f : Flags -> Flags) :
  (forall g, explains g (f g) /\ f_failed (f g) = f_failed g /\ f_cleanup_failed (f g) = f_cleanup_failed g
             /\ (halted g = true -> halted (f g) = true)) ->
  kept (update_flags f).
Proof.
  intros Hf st [Hp Hw He Hv Hs Hl]. destruct (Hf (st_flags st)) as (Hx & Hfa & Hfc & Hh).
  split; cbn [st_traces st_flags with_flags update_flags modify fst]; auto.
  - intros k t Ht. apply Hx. eauto.
  - by rewrite Hfa, Hfc.
  - rewrite Hfa. auto.
Qed.
Lemma timeout_flags_keeps e : kept (_ ← when (re_total_timeout e) (update_flags set_total_timeout);
                                    when (re_timeout e) (update_flags set_timed_out)).
Proof. moves_solve; apply flags_keeps; intros g; split_and!; flags. Qed.

Lemma cleanup_failed_keeps n e a t : n ∈ nodes -> 0 <= a -> proper e ->
  kept (_ ← when (re_total_timeout e) (update_flags set_total_timeout);
        _ ← when (re_timeout e) (update_flags set_timed_out);
        _ ← record_failure n e a t;
        _ ← update_flags set_cleanup_failed;
        modify (with_last_error e)).
Proof.
  intros Hn Ha He st Hg. handler. pose proof (proper_total e He) as Htt.
  destruct (re_total_timeout e) eqn:Ht1, (re_timeout e) eqn:Ht2; try (by discriminate Htt); cbn [fst]; revert Hg;
    (eapply (failure_keeps ex n e a t (fun f => set_cleanup_failed
        (let g := if re_total_timeout e then set_total_timeout f else f in
         if re_timeout e then set_timed_out g else g))); [done..| | | | | | |]);
      rewrite ?Ht1, ?Ht2; try (unfold failure_status; rewrite Ht2; reflexivity); try reflexivity; try (left; reflexivity); try (right; reflexivity); flags;
      intros; flags.
Qed.

Lemma cleanup_attempts_keeps n m left a t : n ∈ nodes -> 0 <= a -> kept (cleanup_attempts ex n m left a t).
Proof.
  intros Hn. revert a t. induction left as [|left IH]; intros a t Ha; cbn [cleanup_attempts]; [moves_solve|].
  apply moves_bind; [apply _ | moves_solve | intros s].
  eapply moves_catch_raised; [apply _ | by apply cleanup_attempt_keeps | by apply cleanup_attempt_raises |].
  intros e He. apply moves_bind; [apply _ | moves_solve | intros d].
  destruct ((a + 1 <? m) && re_retryable e && negb (re_total_timeout e)).
  - do 2 (apply moves_bind; [apply _ | apply moves_when; [apply _|]; apply flags_keeps; intros g; split_and!; flags
                            | intros _]). apply IH. lia.
  - by apply cleanup_failed_keeps.
Qed.

Lemma cleanup_wanted_raises n o : py_raises node_error (cleanup_wanted ex n o).
Proof.
  unfold cleanup_wanted. apply py_raises_bind.
  - unfold cleanup_config_error. intros e. repeat (case_match; simplify_eq); intros [= <-]; split; by vm_compute.
  - intros _. raises_solve; first [apply member_raises | split; by vm_compute].
Qed.
Lemma run_cleanup_node_keeps n o : n ∈ nodes -> kept (run_cleanup_node ex n o).
Proof.
  intros Hn. unfold run_cleanup_node. moves_solve.
  - apply cleanup_attempts_keeps; auto; lia.
  - apply record_plain_keeps; auto; lia.
Qed.
Lemma cleanup_attempts_raises P n m left a t : raises (W:=W) P (cleanup_attempts ex n m left a t).
Proof.
  revert a t. induction left as [|left IH]; intros a t; cbn [cleanup_attempts];
    unfold clock, record_failure, record; raises_solve.
Qed.
Lemma run_cleanup_node_raises n o : raises (W:=W) node_error (run_cleanup_node ex n o).
Proof.
  unfold run_cleanup_node, record_plain, record. raises_solve; [apply cleanup_wanted_raises | apply cleanup_attempts_raises].
Qed.

Lemma cleanup_raised_keeps n x : n ∈ nodes -> (forall e, x = Runtime e -> node_error e) -> kept (cleanup_raised n x).
Proof.
  intros Hn Hx st Hg. unfold cleanup_raised. handler. cbn [fst].
  set (e := match x with Runtime e => e | _ => cleanup_crashed end).
  assert (node_error e) as [He Himp]. { destruct x; [by apply Hx | split; by vm_compute]. }
  pose proof (proper_total e He) as Htt.
  revert Hg. (eapply (failure_keeps ex n e 0 0 (fun f => let f' := set_cleanup_failed f in
     if re_total_timeout e then set_total_timeout f' else f')); [done..| | | | | | |]); try reflexivity;
     try (right; reflexivity).
  all: destruct (re_total_timeout e) eqn:Ht1; rewrite ?Htt in * by done; flags; intros; flags.
Qed.

Lemma cleanup_loop_keeps o l : (forall n, n ∈ l -> n ∈ nodes) -> kept (cleanup_loop ex o l).
Proof.
  induction l as [|n l IH]; intros Hl; cbn [cleanup_loop]; [moves_solve|].
  assert (n ∈ nodes) as Hn by (apply Hl; left).
  assert (kept (cleanup_loop ex o l)) by (apply IH; intros; apply Hl; by right).
  apply moves_bind; [apply _ | | intros _; moves_solve].
  intros st Hg. pose proof (run_cleanup_node_keeps n o Hn st Hg) as Hg'.
  pose proof (run_cleanup_node_raises n o st) as Hr. unfold catch.
  destruct (run_cleanup_node ex n o st) as [st' [[]|x|]]; cbn [fst snd] in *; [done | | done].
  apply cleanup_raised_keeps; [done | | done]. intros e ->. by apply Hr.
Qed.

Lemma run_cleanups_keeps : kept (run_cleanups ex).
Proof.
  unfold run_cleanups. destruct (cleanup_nodes ex) as [|c cs] eqn:Hc.
  { apply flags_keeps. intros g. split_and!; flags. }
  rewrite <- Hc. apply moves_bind; [apply _ | moves_solve | intros o]. apply moves_bind; [apply _ | | intros _].
  { apply flags_keeps. intros g. split_and!; flags. }
  apply moves_finally; [apply _ | |].
  - apply cleanup_loop_keeps. intros n Hn. rewrite elem_of_reverse in Hn. by apply cleanup_nodes_nodes.
  - apply flags_keeps. intros g. split_and!; flags.
Qed.

Lemma close_keeps : kept (close ex).
Proof.
  intros st [Hp Hw He Hv Hs Hl]. unfold close. handler. unfold gets. cbn [id].
  destruct (st_api_closed st); [done|]. destruct (_ && _); done.
Qed.

Lemma main_flow_keeps : kept (main_flow ex).
Proof.
  unfold main_flow, run_children. eapply moves_catch_raised.
  - apply _.
  - apply run_siblings_keeps; [apply run_node_good | apply children_nodes].
  - apply (run_siblings_raises _ (fun _ => False)).
  - done.
Qed.
Lemma main_flow_raises P : raises (W:=W) P (main_flow ex).
Proof.
  unfold main_flow. apply raises_catch_runtime. intros e. unfold record_failure, record. raises_solve.
Qed.

Lemma finish_keeps : kept (finish ex).
Proof.
  unfold finish. pose proof run_cleanups_keeps. pose proof close_keeps. moves_solve.
Qed.

Lemma initial_good (w : W) : Good ex (initial_state ex w).
Proof. by split. Qed.

Lemma execute_good w : Good ex ((execute ex (initial_state ex w)).1 : St W).
Proof.
  assert (kept (execute ex)) as Hk.
  { unfold execute. pose proof main_flow_keeps. pose proof finish_keeps. moves_solve. }
  apply Hk, initial_good.
Qed.
End Flow.
