(* ===== verification/ScenarioReport.v ===== *)
(** What is reported: every node has a trace after the execution, skipping
    changes nothing but missing traces, and methods finish within their fuel. *)
From S2P Require Import Prelude PyText Json PyJson ScenarioData RunnerValues ScenarioSql ScenarioMonad ScenarioActions.
From S2P Require Import ScenarioRun ScenarioLogic ScenarioInvariant ScenarioFlow.
Open Scope Z_scope.

Section Report.
Context {W : Type} `{Unicode} `{Surroundings W} (ex : Executor).
Abbreviation nodes := (spl_nodes (ex_plan ex)).
Implicit Types st : St W.

(** ** Skipping *)

(** Traces are added for nodes without one, with the status SKIPPED; nothing else
    changes. *)
Definition skipping st st' : Prop :=
  st' = with_traces (st_traces st') st
  /\ forall k, match st_traces st !! k with
               | Some t => st_traces st' !! k = Some t
               | None => match st_traces st' !! k with Some t => nt_status t = SKIPPED | None => True end
               end.
#[global] Instance skipping_preorder : PreOrder skipping.
Proof.
  split.
  - intros st. split; [by destruct st|]. intros k. by destruct (st_traces st !! k).
  - intros st1 st2 st3 [E1 H1] [E2 H2]. split.
    + rewrite E2. rewrite E1 at 1. by destruct st1, st2, st3.
    + intros k. specialize (H1 k). specialize (H2 k). destruct (st_traces st1 !! k).
      * by rewrite H1 in H2.
      * destruct (st_traces st2 !! k); [by rewrite H2 | done].
Qed.

Lemma record_skipped_skips n : moves skipping (record_skipped n).
Proof.
  intros st. unfold record_skipped, gets, mbind, M_bind. cbn [id].
  destruct (_ && _ && _); [reflexivity|]. destruct (st_traces st !! sn_id n) eqn:Hn; [reflexivity|].
  unfold record_plain, record, modify. cbn [fst]. split; [by destruct st|]. intros k. cbn [st_traces with_traces].
  rewrite Hn. destruct (decide (sn_id n = k)) as [<-|Hk]; [by rewrite Hn, lookup_insert_eq|].
  rewrite lookup_insert_ne by done. by destruct (st_traces st !! k).
Qed.
#[local] Hint Resolve record_skipped_skips : scenario.
Lemma skip_descendants_skips fuel n : moves skipping (skip_descendants ex fuel n).
Proof. revert n. induction fuel as [|fuel IH]; intros n; cbn [skip_descendants]; moves_solve. Qed.
#[local] Hint Resolve skip_descendants_skips : scenario.
Lemma skip_tree_skips n : moves skipping (skip_tree ex n).
Proof. unfold skip_tree. moves_solve. Qed.
#[local] Hint Resolve skip_tree_skips : scenario.

(** With the execution halted, the rest of a level is skipped. *)
Lemma run_siblings_halted run parent l st : halted (st_flags st) = true ->
  skipping st (run_siblings ex run parent l st).1.
Proof.
  revert st. induction l as [|n l IH]; intros st Hh; [reflexivity|]. cbn [run_siblings].
  unfold gets. unfold mbind at 1, M_bind. rewrite Hh.
  pose proof (skip_tree_skips n st) as Hs. unfold mbind, M_bind.
  destruct (skip_tree ex n st) as [st' [[]|x|]]; cbn [fst] in *; [|done..].
  etrans; [done|]. apply IH. destruct Hs as [-> _]. done.
Qed.

(** ** Coverage *)

Definition recorded st (n : ScenarioNodePlan) : Prop := is_Some (st_traces st !! sn_id n).

(** Recorded nodes stay recorded; flags and deferred assertions stay. *)
Lemma skipping_recorded st st' n : skipping st st' -> recorded st n -> recorded st' n.
Proof. intros [_ Hs] [t Ht]. specialize (Hs (sn_id n)). rewrite Ht in Hs. by eexists. Qed.

Lemma record_skipped_records n st :
  is_cleanup n = false \/ f_cleanup_finalized (st_flags st) = true -> recorded (record_skipped n st).1 n.
Proof.
  intros Hc. unfold record_skipped, gets, mbind, M_bind. cbn [id].
  replace (is_cleanup n && negb (f_running_cleanup (st_flags st)) && negb (f_cleanup_finalized (st_flags st)))
    with false by (destruct Hc as [-> | ->]; [done | by rewrite andb_false_r]).
  destruct (st_traces st !! sn_id n) eqn:Hn; [by eexists|].
  unfold record_plain, record, modify, recorded. cbn [fst st_traces with_traces]. rewrite lookup_insert_eq. by eexists.
Qed.

Lemma record_skipped_ends n : ends (record_skipped n : M W unit).
Proof. unfold record_skipped, record_plain, record. ends_solve. Qed.

Lemma record_skipped_returns n st : exists st', record_skipped n st = (st', Val tt).
Proof.
  unfold record_skipped, gets, mbind, M_bind. cbn [id]. destruct (_ && _ && _); [by eexists|].
  destruct (st_traces st !! sn_id n); by eexists.
Qed.

Lemma fill_records l st n :
  n ∈ l -> is_cleanup n = false \/ f_cleanup_finalized (st_flags st) = true -> recorded (for_each l record_skipped st).1 n.
Proof.
  revert st. induction l as [|m l IH]; intros st; [by intros ?%elem_of_nil|].
  intros Hn Hc. cbn [for_each]. unfold mbind, M_bind.
  pose proof (record_skipped_skips m st) as Hs. pose proof (record_skipped_records m st) as Hr.
  destruct (record_skipped_returns m st) as [st' E]. rewrite E in *. cbn [fst] in *.
  assert (st_flags st' = st_flags st) as Hf by (destruct Hs as [-> _]; done).
  apply elem_of_cons in Hn as [->|Hn]; [|apply IH; [done | by rewrite Hf]].
  assert (moves skipping (for_each l record_skipped)) as Hm by moves_solve.
  eapply skipping_recorded; [apply Hm | auto].
Qed.

(** ** Deferred assertions *)

Definition same_pending st st' : Prop := st_pending_ai st' = st_pending_ai st.
#[global] Instance same_pending_preorder : PreOrder same_pending.
Proof. split; [done | intros ??? E1 E2; unfold same_pending in *; congruence]. Qed.

Lemma pending_modify f : (forall st, same_pending st (f st)) -> moves same_pending (modify f).
Proof. apply moves_modify. Qed.
Lemma pending_quiet {A} (m : M W A) : moves quiet m -> moves same_pending m.
Proof. apply moves_weaken. by intros st st' (_&_&_&_&?). Qed.
Lemma pending_timing {A} (m : M W A) : moves timing m -> moves same_pending m.
Proof. intros Hm. by apply pending_quiet, timing_is_quiet. Qed.
Lemma pending_skipping {A} (m : M W A) : moves skipping m -> moves same_pending m.
Proof. apply moves_weaken. by intros st st' [-> _]. Qed.
#[local] Hint Resolve pending_quiet pending_timing pending_skipping : scenario.
#[local] Hint Resolve clock_timing duration_timing deadline_timing control_timing timing_tell : scenario.
#[local] Hint Resolve api_cleanup_quiet sql_quiet : scenario.
#[local] Hint Extern 1 (moves same_pending (modify _)) => by apply pending_modify : scenario.
#[local] Hint Extern 1 (moves same_pending (update_flags _)) => by apply pending_modify : scenario.
#[local] Hint Extern 1 (moves same_pending (record _ _ _ _ _ _)) => by apply pending_modify : scenario.
#[local] Hint Extern 1 (moves same_pending (record_plain _ _ _ _)) => by apply pending_modify : scenario.
#[local] Hint Extern 1 (moves same_pending (record_failure _ _ _ _)) => by apply pending_modify : scenario.

Lemma cleanup_attempts_pending n m left a t : moves same_pending (cleanup_attempts ex n m left a t).
Proof.
  revert a t. induction left as [|left IH]; intros a t; cbn [cleanup_attempts]; unfold cleanup_attempt; moves_solve.
Qed.
Lemma run_cleanup_node_pending n o : moves same_pending (run_cleanup_node ex n o).
Proof. pose proof cleanup_attempts_pending. unfold run_cleanup_node. moves_solve. Qed.
Lemma cleanup_loop_pending o l : moves same_pending (cleanup_loop ex o l).
Proof.
  pose proof run_cleanup_node_pending. induction l as [|n l IH]; cbn [cleanup_loop]; moves_solve.
  apply moves_catch; [apply _ | auto |]. intros x m' [= <-]. unfold cleanup_raised. moves_solve.
Qed.
Lemma run_cleanups_pending : moves same_pending (run_cleanups ex).
Proof. pose proof cleanup_loop_pending. unfold run_cleanups. moves_solve. Qed.
Lemma fill_pending : moves same_pending (fill_missing_traces ex).
Proof. apply pending_skipping. unfold fill_missing_traces. moves_solve. Qed.

Lemma close_traces st : exists w c, close ex st = (with_api (st_api_created st) c (with_world w st), Val tt).
Proof.
  unfold close, gets, modify, when, tell_world, mbind, M_bind, mret, M_ret. cbn [id].
  destruct (st_api_closed st) eqn:E.
  - exists (st_world st), true. rewrite <- E. by destruct st.
  - destruct (_ && _); [exists (api_close (st_world st)), true | exists (st_world st), true]; by destruct st.
Qed.

Lemma run_cleanups_finalizes st st' : run_cleanups ex st = (st', Val tt) -> f_cleanup_finalized (st_flags st') = true.
Proof.
  unfold run_cleanups. destruct (cleanup_nodes ex) as [|c cs]; [by intros [= <-]|].
  unfold gets, update_flags, modify, mbind, M_bind, finally.
  destruct (cleanup_loop _ _ _ _) as [st1 [[]|x|]]; by intros [= <-].
Qed.

(** What [finish] leaves behind when it returns. *)
Lemma finish_records st st' : finish ex st = (st', Val tt) ->
  st_pending_ai st' = st_pending_ai st
  /\ (forall n, n ∈ nodes -> is_cleanup n = false -> recorded st' n)
  /\ (st_pending_ai st' = [] -> ex_defer_cleanup ex = false -> forall n, n ∈ nodes -> recorded st' n).
Proof.
  unfold finish, gets. unfold mbind at 1, M_bind. intros E.
  unfold mbind, M_bind in E.
  destruct (when _ _ st) as [st1 [[]|x|]] eqn:E1; [|done..].
  destruct (fill_missing_traces ex st1) as [st2 [[]|x|]] eqn:E2; [|done..].
  destruct (close_traces st2) as (w & c & E3). rewrite E3 in E. injection E as <-.
  assert (st_pending_ai st1 = st_pending_ai st) as Hp1.
  { change st1 with ((st1, Val tt : res unit).1). rewrite <- E1. apply moves_when; [apply _ | apply run_cleanups_pending]. }
  assert (st_pending_ai st2 = st_pending_ai st1) as Hp2.
  { change st2 with ((st2, Val tt : res unit).1). rewrite <- E2. apply fill_pending. }
  assert (forall n, n ∈ nodes -> is_cleanup n = false \/ f_cleanup_finalized (st_flags st1) = true -> recorded st2 n) as Hr.
  { intros n Hn Hc. pose proof (fill_records nodes st1 n Hn Hc) as Hx. unfold fill_missing_traces in E2.
    by rewrite E2 in Hx. }
  split_and!.
  - cbn. congruence.
  - intros n Hn Hc. apply Hr; auto.
  - cbn. intros Hp Hd n Hn. apply Hr; [done|]. right.
    rewrite Hp2, Hp1 in Hp. rewrite Hp, Hd in E1. cbn [length bool_decide negb andb when] in E1.
    by apply run_cleanups_finalizes in E1.
Qed.

Lemma ordered_ids st : (forall n, n ∈ nodes -> recorded st n) -> (forall k t, st_traces st !! k = Some t -> nt_node_id t = k) ->
  nt_node_id <$> ordered_traces ex (st_traces st) = sn_id <$> nodes.
Proof.
  unfold ordered_traces. intros Hr Hid. induction nodes as [|n l IH]; [done|]. cbn.
  destruct (Hr n) as [t Ht]; [left|]. rewrite Ht. cbn. f_equal; [by apply Hid|].
  apply IH. intros m Hm. apply Hr. by right.
Qed.
End Report.
