(* ===== verification/ScenarioEnds.v ===== *)
(** Every execution ends: the recursion of the node tree is bounded by the number
    of nodes, and a WAIT by its duration. *)
From S2P Require Import Prelude PyText Json PyJson ScenarioData RunnerValues ScenarioSql ScenarioMonad ScenarioActions.
From S2P Require Import ScenarioRun ScenarioLogic ScenarioInvariant.
Open Scope Z_scope.

(** The monotonic clock does not run backwards, and waiting for the stop event
    without success takes the time it was given. *)
Class ClockLaws (W : Type) `{Surroundings W} := {
  time_of : W -> Z;
  read_clock_time : forall w, time_of w <= (read_clock w).1 <= time_of (read_clock w).2;
  stop_is_set_time : forall w, time_of w <= time_of (stop_is_set w).2;
  stop_wait_time : forall d w, (stop_wait d w).1 = false -> time_of w + d <= time_of (stop_wait d w).2;
}.

Section Ends.
Context {W : Type} `{Unicode} `{Surroundings W} `{!ClockLaws W} (ex : Executor).
Abbreviation nodes := (spl_nodes (ex_plan ex)).
Implicit Types st : St W.

(** ** Waiting *)

Definition later st st' : Prop := time_of (st_world st) <= time_of (st_world st').
#[global] Instance later_preorder : PreOrder later.
Proof. split; [intros ?; unfold later; lia | intros ???; unfold later; lia]. Qed.

Lemma clock_later : moves later clock.
Proof.
  intros st. unfold clock, call_world, later. pose proof (read_clock_time (st_world st)).
  destruct (read_clock (st_world st)). cbn in *. lia.
Qed.
#[local] Hint Resolve clock_later : scenario.
Lemma control_later : moves later (check_control ex).
Proof.
  unfold check_control, check_deadline_only. moves_solve.
  intros st. unfold call_world, later. pose proof (stop_is_set_time (st_world st)).
  by destruct (stop_is_set (st_world st)).
Qed.

Lemma clock_ends : ends (clock : M W Z).
Proof. apply ends_call. Qed.
#[local] Hint Resolve clock_ends : scenario.
Lemma duration_ends s : ends (duration_ms s : M W Z).
Proof. unfold duration_ms. ends_solve. Qed.
Lemma deadline_ends : ends (check_deadline_only ex : M W unit).
Proof. unfold check_deadline_only. ends_solve. Qed.
#[local] Hint Resolve duration_ends deadline_ends : scenario.
Lemma control_ends : ends (check_control ex : M W unit).
Proof. unfold check_control. ends_solve. Qed.
#[local] Hint Resolve control_ends : scenario.

(** Either the steps of 100 ms suffice for what remains, or the time is over. *)
Lemma wait_loop_ends fuel started total remaining st :
  remaining <= ms 100 * (Z.of_nat fuel - 2) \/ (1 <= fuel)%nat /\ started + total <= time_of (st_world st) ->
  (wait_loop ex fuel started total remaining st).2 <> Unfinished.
Proof.
  revert remaining st. induction fuel as [|fuel IH]; intros remaining st Hf; cbn [wait_loop].
  { destruct (Z.leb_spec remaining 0); [done|]. unfold ms in *. exfalso. destruct Hf as [?|[? _]]; lia. }
  destruct (Z.leb_spec remaining 0) as [|Hrem]; [done|].
  unfold mbind, M_bind. pose proof (control_ends st) as Hc. pose proof (control_later st) as Hl.
  destruct (check_control ex st) as [st1 [[]|x|]]; cbn [fst snd] in *; [|done..].
  unfold clock at 1, call_world at 1. pose proof (read_clock_time (st_world st1)) as Ht.
  destruct (read_clock (st_world st1)) as [now w1]. cbn [fst snd] in Ht.
  destruct (Z.leb_spec total (now - started)) as [|Hel]; [done|].
  unfold call_world. cbn [st_world with_world].
  set (step := Z.min (Z.min (ms 100) remaining) (total - (now - started))).
  pose proof (stop_wait_time step w1) as Hw. destruct (stop_wait step w1) as [[] w2]; [done|]. cbn [fst snd] in Hw.
  specialize (Hw eq_refl). apply IH. cbn [st_world with_world]. unfold later in Hl.
  destruct Hf as [Hf|[_ Hf]]; [|lia]. unfold ms in *. lia.
Qed.

Lemma wait_ends n : ends (wait ex n : M W unit).
Proof.
  unfold wait. destruct (get (sn_config n) "duration_ms") as [| |d| | | |]; ends_solve.
  intros st. apply wait_loop_ends. left. unfold wait_fuel, ms.
  assert (d <= 100 * (d / 100) + 99) by (pose proof (Z.mod_pos_bound d 100); pose proof (Z.div_mod d 100); lia).
  destruct (decide (0 <= d)); [|nia].
  assert (0 <= d / 100) by (apply Z.div_pos; lia). rewrite Nat2Z.inj_add, Z2Nat.id by done. lia.
Qed.

(** ** Actions *)

Lemma http_ends n : ends (http n : M W unit).
Proof. unfold http, execute_request. ends_solve. Qed.
Lemma extract_ends n : ends (extract n : M W unit).
Proof. unfold extract, set_variable_value. ends_solve. Qed.
Lemma assert_ends n : ends (assert n : M W unit).
Proof. unfold assert. ends_solve. Qed.
Lemma defer_ends n : ends (defer_ai_assertion n : M W unit).
Proof. unfold defer_ai_assertion. ends_solve. Qed.
Lemma set_variable_ends n : ends (set_variable n : M W unit).
Proof. unfold set_variable, set_variable_value. ends_solve. Qed.
Lemma script_ends n : ends (script ex n : M W unit).
Proof. unfold script. ends_solve. Qed.
Lemma driver_ends {A} mode (f : W -> (DriverError + A) * W) : ends (driver mode f).
Proof. unfold driver. ends_solve. Qed.
Lemma rolled_back_ends {A} conn (m : M W A) : ends m -> ends (rolled_back conn m).
Proof. intros Hm. apply ends_catch; [done|]. intros x m' [= <-]. ends_solve. Qed.
#[local] Hint Resolve driver_ends : scenario.
Lemma sql_ends n mode b : ends (sql ex n mode b : M W unit).
Proof.
  unfold sql, sql_fetch, check_size, set_variable_value. ends_solve.
  all: apply rolled_back_ends; ends_solve.
Qed.
Lemma api_cleanup_ends n : ends (api_cleanup ex n : M W unit).
Proof. unfold api_cleanup, execute_request. ends_solve. Qed.

Lemma leaf_action_ends n action : leaf_action ex n = Some action -> ends (action : M W unit).
Proof.
  unfold leaf_action. destruct (sn_type n); intros E; try discriminate E; injection E as <-;
    first [apply http_ends | apply wait_ends | apply set_variable_ends | apply extract_ends | apply assert_ends
          | apply sql_ends | apply script_ends | apply defer_ends].
Qed.

(** ** The node tree *)

(** The ancestors of a node, from itself up to a root. *)
Inductive ancestry : list ScenarioNodePlan -> Prop :=
  | ancestry_root n : n ∈ nodes -> sn_parent n = None -> ancestry [n]
  | ancestry_child n m l : n ∈ nodes -> sn_parent n = Some (sn_id m) -> ancestry (m :: l) -> ancestry (n :: m :: l).

Context (Hids : NoDup (sn_id <$> nodes)).

Lemma ancestry_nodes l n : ancestry l -> n ∈ l -> n ∈ nodes.
Proof.
  induction 1 as [m Hm _|m p l Hm _ _ IH]; [by intros ->%list_elem_of_singleton|].
  intros [->|Hn]%elem_of_cons; auto.
Qed.

(** A node's ancestry is determined by the node, so no node occurs in it twice. *)
Lemma ancestry_unique n l l' : ancestry (n :: l) -> ancestry (n :: l') -> l = l'.
Proof.
  intros Hl. remember (n :: l) as k eqn:E. revert n l l' E.
  induction Hl as [m Hm Hp|m p l Hm Hp Hl IH]; intros n k l' [= -> <-] Hl'; inversion Hl' as [|? q l'' ? Hq Hl'']; subst.
  - done.
  - congruence.
  - congruence.
  - assert (q = p) as ->.
    { apply (NoDup_ids_inj sn_id nodes); [done | | |congruence].
      - apply (ancestry_nodes (q :: l'')); [done | left].
      - apply (ancestry_nodes (p :: l)); [done | left]. }
    f_equal. by apply (IH p).
Qed.
Lemma ancestry_suffix l1 n l2 : ancestry (l1 ++ n :: l2) -> ancestry (n :: l2).
Proof. induction l1 as [|m l1 IH]; [done|]. intros Ha. apply IH. inversion Ha; subst; [by destruct l1 | congruence]. Qed.
Lemma ancestry_NoDup l : ancestry l -> NoDup l.
Proof.
  induction 1 as [m Hm Hp|m p l Hm Hp Hl IH]; [apply NoDup_singleton|].
  apply NoDup_cons. split; [|done]. intros Hin.
  apply list_elem_of_split in Hin as (l1 & l2 & E).
  assert (ancestry (m :: l2)) as Hs by (apply (ancestry_suffix l1); by rewrite <- E).
  assert (p :: l = l2) as Hx by (eapply ancestry_unique; [by constructor | done]).
  apply (f_equal length) in E, Hx. rewrite length_app in E. cbn in *. lia.
Qed.
Lemma ancestry_length l : ancestry l -> (length l <= length nodes)%nat.
Proof.
  intros Ha. apply submseteq_length, NoDup_submseteq; [by apply ancestry_NoDup|]. intros n. by apply ancestry_nodes.
Qed.

Lemma children_ancestry n m l : ancestry (n :: l) -> m ∈ children ex (Some (sn_id n)) -> ancestry (m :: n :: l).
Proof. intros Ha [Hp Hm]%list_elem_of_filter. by constructor. Qed.
Lemma siblings_ancestry n m l : ancestry (n :: l) -> m ∈ children ex (sn_parent n) -> ancestry (m :: l).
Proof.
  intros Ha [Hp Hm]%list_elem_of_filter. inversion Ha as [? ? Hn|? p l' ? Hn Hl]; subst; constructor; congruence.
Qed.
Lemma roots_ancestry m : m ∈ children ex None -> ancestry [m].
Proof. intros [Hp Hm]%list_elem_of_filter. by constructor. Qed.

(** Enough fuel for a node: with its ancestors it exceeds the number of nodes. *)
Lemma skip_descendants_ends fuel n l :
  ancestry (n :: l) -> (length nodes < fuel + length (n :: l))%nat -> ends (skip_descendants ex fuel n : M W unit).
Proof.
  revert n l. induction fuel as [|fuel IH]; intros n l Ha Hf; cbn [skip_descendants].
  { apply ancestry_length in Ha. cbn in *. lia. }
  apply ends_for_each. intros m Hm. apply ends_bind; [unfold record_skipped, record_plain, record; ends_solve|].
  intros _. eapply IH; [by apply children_ancestry | cbn in *; lia].
Qed.
Lemma skip_tree_ends n l : ancestry (n :: l) -> ends (skip_tree ex n : M W unit).
Proof.
  intros Ha. unfold skip_tree. apply ends_bind; [unfold record_skipped, record_plain, record; ends_solve|].
  intros _. eapply skip_descendants_ends; [done|]. unfold depth_fuel. cbn. lia.
Qed.

Lemma skip_siblings_ends n l : ancestry (n :: l) -> ends (skip_siblings ex (sn_parent n) (sn_id n) : M W unit).
Proof.
  intros Ha. unfold skip_siblings. apply ends_for_each. intros m Hm%after_sublist.
  eapply skip_tree_ends, siblings_ancestry; done.
Qed.

(** ** Leaves and nodes *)

Lemma leaf_attempts_ends n l action m left a t le : ancestry (n :: l) -> ends action ->
  ends (leaf_attempts ex n action m left a t le : M W unit).
Proof.
  intros Ha Hact. pose proof (skip_siblings_ends n l Ha) as Hs. revert a t le.
  induction left as [|left IH]; intros a t le; cbn [leaf_attempts];
    unfold leaf_attempt, leaf_failed, record_failure, record_plain, record; ends_solve.
Qed.
Lemma run_leaf_ends n l action : ancestry (n :: l) -> ends action -> ends (run_leaf ex n action : M W unit).
Proof. intros Ha Hact. unfold run_leaf. by eapply leaf_attempts_ends. Qed.

Section Node.
(** [run] ends for the children of [n]. *)
Context (run : ScenarioNodePlan -> M W unit).

Lemma run_siblings_ends parent l :
  (forall m, m ∈ l -> ends (run m) /\ sn_parent m = parent /\ exists k, ancestry (m :: k)) ->
  ends (run_siblings ex run parent l).
Proof.
  induction l as [|m l IH]; intros Hl; cbn [run_siblings]; [ends_solve|].
  destruct (Hl m) as (Hr & Hp & k & Ha); [left|]. pose proof (skip_tree_ends m k Ha). subst parent.
  pose proof (skip_siblings_ends m k Ha).
  assert (ends (run_siblings ex run (sn_parent m) l)) by (apply IH; intros; apply Hl; by right).
  unfold note_error, record_failure, record. ends_solve.
Qed.

Context (n : ScenarioNodePlan) (l : list ScenarioNodePlan) (Ha : ancestry (n :: l)).
Context (Hrun : forall m, m ∈ children ex (Some (sn_id n)) -> ends (run m)).

Lemma run_one_ends m : m ∈ children ex (Some (sn_id n)) -> ends (run_children_one ex run m).
Proof.
  intros Hm. pose proof (Hrun m Hm). pose proof (children_ancestry n m l Ha Hm) as Ham.
  pose proof (skip_tree_ends m _ Ham). pose proof (skip_siblings_ends m _ Ham).
  assert (ends (skip_descendants ex (depth_fuel ex) m : M W unit)).
  { eapply skip_descendants_ends; [done|]. unfold depth_fuel. cbn. lia. }
  unfold run_children_one, note_error, record_failure, record. ends_solve.
Qed.
Lemma loop_body_ends k : (forall m, m ∈ k -> m ∈ children ex (Some (sn_id n))) -> ends (loop_body ex run k).
Proof.
  induction k as [|m k IH]; intros Hk; cbn [loop_body]; [ends_solve|].
  assert (ends (run_children_one ex run m)) by (apply run_one_ends, Hk; left).
  assert (ends (loop_body ex run k)) by (apply IH; intros; apply Hk; by right). ends_solve.
Qed.
Lemma loop_iterations_ends s x y i values : ends (loop_iterations ex run n s x y i values).
Proof.
  pose proof (loop_body_ends (children ex (Some (sn_id n))) (fun m Hm => Hm)).
  revert i. induction values as [|v values IH]; intros i; cbn [loop_iterations];
    unfold set_variable_value, record_plain, record; ends_solve.
Qed.

Lemma run_node_with_ends : ends (run_node_with ex run n).
Proof.
  assert (ends (skip_descendants ex (depth_fuel ex) n : M W unit)).
  { eapply skip_descendants_ends; [done|]. unfold depth_fuel. cbn. lia. }
  pose proof (fun a Hb => run_leaf_ends n l a Ha Hb) as Hleaf. pose proof (leaf_action_ends n) as Hact.
  pose proof (extract_ends n). pose proof loop_iterations_ends.
  assert (ends (run_children ex run (Some (sn_id n)))).
  { apply run_siblings_ends. intros m Hm. split; [by apply Hrun|]. split; [by apply list_elem_of_filter in Hm as []|].
    eexists. by apply children_ancestry. }
  assert (forall m, m ∈ children ex (Some (sn_id n)) -> ends (skip_tree ex m : M W unit)) as Hskip.
  { intros m Hm. eapply skip_tree_ends. by apply children_ancestry. }
  pose proof run_one_ends. unfold run_node_with, run_if, run_loop, record_plain, record.
  apply ends_bind; [ends_solve | intros c]. destruct (negb (sn_enabled n)); [ends_solve|].
  destruct (is_cleanup n && negb c); [ends_solve|]. destruct (negb (supported (sn_type n))); [ends_solve|].
  destruct (sn_type n); ends_solve.
Qed.
End Node.

Lemma run_node_ends fuel n l :
  ancestry (n :: l) -> (length nodes < fuel + length (n :: l))%nat -> ends (run_node ex fuel n : M W unit).
Proof.
  revert n l. induction fuel as [|fuel IH]; intros n l Ha Hf; cbn [run_node].
  { apply ancestry_length in Ha. cbn in *. lia. }
  eapply run_node_with_ends; [done|]. intros m Hm. eapply IH; [by apply children_ancestry | cbn in *; lia].
Qed.

(** ** The execution *)

Lemma main_flow_ends : ends (main_flow ex : M W unit).
Proof.
  unfold main_flow, record_failure, record. apply ends_catch_runtime; [|intros e; ends_solve].
  apply run_siblings_ends. intros m Hm. pose proof (roots_ancestry m Hm) as Ha. split; [|split].
  - eapply run_node_ends; [done|]. unfold depth_fuel. cbn. lia.
  - by apply list_elem_of_filter in Hm as [].
  - by eexists.
Qed.
Lemma cleanup_attempts_ends n m left a t : ends (cleanup_attempts ex n m left a t : M W unit).
Proof.
  pose proof api_cleanup_ends. pose proof sql_ends. revert a t.
  induction left as [|left IH]; intros a t; cbn [cleanup_attempts];
    unfold cleanup_attempt, record_failure, record_plain, record; ends_solve.
Qed.
Lemma run_cleanup_node_ends n o : ends (run_cleanup_node ex n o : M W unit).
Proof. pose proof cleanup_attempts_ends. unfold run_cleanup_node, record_plain, record. ends_solve. Qed.
Lemma run_cleanups_ends : ends (run_cleanups ex : M W unit).
Proof.
  unfold run_cleanups. destruct (cleanup_nodes ex); [ends_solve|]. do 2 (apply ends_bind; [ends_solve | intros ?]).
  apply ends_finally; [|ends_solve]. generalize (reverse (s :: l)). intros k.
  induction k as [|n k IH]; cbn [cleanup_loop]; ends_solve.
  apply ends_catch; [apply run_cleanup_node_ends|]. intros x m' [= <-].
  unfold cleanup_raised, record_failure, record. ends_solve.
Qed.
Lemma close_ends : ends (close ex : M W unit).
Proof. unfold close. ends_solve. Qed.
Lemma execute_ends : ends (execute ex : M W ScenarioResult).
Proof.
  pose proof main_flow_ends. pose proof run_cleanups_ends. pose proof close_ends.
  unfold execute, finish, fill_missing_traces, record_skipped, record_plain, record. ends_solve.
Qed.
Lemma execute_cleanup_task_ends task : ends (execute_cleanup_task ex task : M W CleanupResult).
Proof.
  pose proof run_cleanup_node_ends. pose proof close_ends. unfold execute_cleanup_task. ends_solve.
Qed.
End Ends.

(** ** A small deployment of the scenario executor

    Surroundings with a clock that advances by a millisecond per reading, scripted API
    answers and a log of the requests; and the plans used as examples. *)

From S2P Require Import ScenarioProtocol.

Module ScenarioDemo.

#[global] Instance demo_unicode : Unicode := {
  isalpha := is_letter;
  isalnum c := is_letter c || ascii_digit c;
  upper_char c := [if ((97 <=? c) && (c <=? 122))%N then (c - 32)%N else c];
  str_lower s := (fun c => if ((65 <=? c) && (c <=? 90))%N then (c + 32)%N else c) <$> s;
}.

(** The time in nanoseconds, the answers still to come, the URLs requested, and
    whether the stop event is set. *)
Record world := { dw_time : Z; dw_answers : list (py_exn + ApiExecutionResult); dw_log : list pytext; dw_stop : bool }.

Definition at_time (t : Z) (w : world) : world :=
  {| dw_time := t; dw_answers := dw_answers w; dw_log := dw_log w; dw_stop := dw_stop w |}.

Definition ok_response (code : Z) (body : json) : ApiExecutionResult :=
  {| ar_status_code := code; ar_json_body := body; ar_text := None; ar_headers := []; ar_cookies := [];
     ar_elapsed_ms := 1; ar_response_time_ms := 1; ar_body_size := 2 |}.

(** The template of a request is the text of its URL. *)
#[global] Instance demo_surroundings : Surroundings world := {
  read_clock w := (dw_time w, at_time (dw_time w + 1000000) w);
  stop_is_set w := (dw_stop w, w);
  stop_wait d w := (dw_stop w, at_time (dw_time w + d) w);
  sleep d w := at_time (dw_time w + d) w;
  Template := pytext;
  from_mapping request := match get request "url" with JStr s => inr s | _ => inl ProtocolError end;
  api_execute url w :=
    (match dw_answers w with a :: _ => a | [] => inr (ok_response 200 (JDict [])) end,
     {| dw_time := dw_time w; dw_answers := tail (dw_answers w); dw_log := dw_log w ++ [url]; dw_stop := dw_stop w |});
  api_close w := w;
  Connection := unit;
  Cursor := unit;
  sql_connect _ _ _ w := (inr tt, w);
  sql_cursor _ w := (inr tt, w);
  sql_execute _ _ _ w := (inr (Some 1), w);
  sql_fetchmany _ _ w := (inr (Some []), w);
  sql_commit _ w := (None, w);
  sql_rollback _ w := w;
  close_cursor _ w := w;
  close_connection _ w := w;
  run_safe_script _ context _ := (context, None);
}.

#[global] Instance demo_clock : ClockLaws world.
Proof.
  refine {| time_of := dw_time |}; cbn; intros; try lia.
Defined.

Definition start_world (answers : list (py_exn + ApiExecutionResult)) : world :=
  {| dw_time := 0; dw_answers := answers; dw_log := []; dw_stop := false |}.

(** ** Plans *)

Definition node (id : string) (type : NodeType) (parent : option string) (policy : option FailurePolicy) (config : fields)
  : ScenarioNodePlan :=
  {| sn_id := id; sn_type := type; sn_parent := parent; sn_enabled := true; sn_timeout_ms := 30000;
     sn_failure_policy := policy; sn_config := config |}.
Definition disabled (n : ScenarioNodePlan) : ScenarioNodePlan :=
  {| sn_id := sn_id n; sn_type := sn_type n; sn_parent := sn_parent n; sn_enabled := false;
     sn_timeout_ms := sn_timeout_ms n; sn_failure_policy := sn_failure_policy n; sn_config := sn_config n |}.

Definition plan_of (stop_on_failure : bool) (nodes : list ScenarioNodePlan) : ScenarioPlan :=
  {| spl_initial_context := [(u "order", JStr (u "2024-001"))]; spl_stop_on_failure := stop_on_failure;
     spl_cleanup_policy := u "ALWAYS"; spl_max_loop_iterations := 100; spl_nodes := nodes;
     spl_sql_connections := []; spl_secrets := [] |}.
(** As [_run_scenario_task_worker] constructs it. *)
Definition executor_of (plan : ScenarioPlan) : Executor :=
  {| ex_plan := plan; ex_stop_event := true; ex_deadline := None; ex_defer_cleanup := false; ex_owns_api := true |}.

Definition start := node "start" START None None [].
Definition finish_ := node "end" END_ None None [].
Definition create := node "create" HTTP None None [(u "url", JStr (u "/orders")); (u "method", JStr (u "POST"))].
Definition check_status (code : Z) := node "check" ASSERT_STATUS None None [(u "expected", JInt code)].
Definition judge_ai := node "judge" AI_ASSERTION None None [(u "prompt_id", JInt 1); (u "criteria", JStr (u "polite"))].
Definition delete (policy : option FailurePolicy) :=
  node "delete" API_CLEANUP None policy [(u "method", JStr (u "DELETE")); (u "url", JStr (u "/orders/1"))].
Definition branch := node "branch" IF None None [(u "condition", JStr (u "{{order}} contains 2024"))].
Definition inner := node "inner" HTTP (Some "branch") None [(u "url", JStr (u "/inner"))].
Definition repeat_ := node "repeat" LOOP None None [(u "iterations", JInt 2)].
Definition body := node "body" HTTP (Some "repeat") None [(u "url", JStr (u "/body/{{loop_index}}"))].

Definition run (plan : ScenarioPlan) (answers : list (py_exn + ApiExecutionResult)) : St world * res ScenarioResult :=
  execute (executor_of plan) (initial_state (executor_of plan) (start_world answers)).

Definition summary (r : St world * res ScenarioResult) : option (NodeOutcome * list (string * NodeOutcome) * list pytext) :=
  match r.2 with
  | Val x => Some (res_outcome x, (fun t => (nt_node_id t, nt_status t)) <$> res_traces x, dw_log (st_world r.1))
  | _ => None
  end.

(** A scenario that creates an order, checks the answer and deletes the order. *)
Example demo_success :
  summary (run (plan_of true [start; create; check_status 200; delete None; finish_]) [])
  = Some (SUCCESS, [("start", SUCCESS); ("create", SUCCESS); ("check", SUCCESS); ("delete", SUCCESS); ("end", SUCCESS)],
          [u "/orders"; u "/orders/1"]).
Proof. vm_compute. reflexivity. Qed.

(** The check fails: the end is skipped, the cleanup still runs. *)
Example demo_failure :
  summary (run (plan_of true [start; create; check_status 201; delete None; finish_]) [])
  = Some (FAILED, [("start", SUCCESS); ("create", SUCCESS); ("check", FAILED); ("delete", SUCCESS); ("end", SKIPPED)],
          [u "/orders"; u "/orders/1"]).
Proof. vm_compute. reflexivity. Qed.

Example demo_loop :
  summary (run (plan_of true [start; repeat_; body; finish_]) [])
  = Some (SUCCESS, [("start", SUCCESS); ("repeat", SUCCESS); ("body", SUCCESS); ("end", SUCCESS)],
          [u "/body/0"; u "/body/1"]).
Proof. vm_compute. reflexivity. Qed.
End ScenarioDemo.
