(* ===== verification/ScenarioTheorems.v ===== *)
(** Properties of the scenario executor of the runner. *)
From S2P Require Import Prelude PyText Json PyJson ScenarioData RunnerValues ScenarioSql ScenarioMonad ScenarioActions.
From S2P Require Import ScenarioRun ScenarioProtocol ScenarioLogic ScenarioInvariant ScenarioFlow ScenarioReport.
From S2P Require Import ScenarioEnds.
Open Scope Z_scope.

Section Theorems.
Context {W : Type} `{Unicode} `{Surroundings W}.
Implicit Types (ex : Executor) (st : St W).

(** The state and result of an execution that returns. *)
Lemma execute_inv ex w st r : execute ex (initial_state ex w) = (st, Val r) ->
  Good ex st /\ r = result_of ex st
  /\ (forall n, n ∈ spl_nodes (ex_plan ex) -> is_cleanup n = false -> recorded st n)
  /\ (st_pending_ai st = [] -> ex_defer_cleanup ex = false -> forall n, n ∈ spl_nodes (ex_plan ex) -> recorded st n).
Proof.
  intros E. pose proof (execute_good ex w) as Hg. rewrite E in Hg. split; [done|].
  unfold execute, gets, mbind, M_bind, finally in E.
  destruct (main_flow ex (initial_state ex w)) as [st1 r1].
  destruct (finish ex st1) as [st2 [[]|x|]] eqn:E2; destruct r1; try discriminate E.
  injection E as <- <-. apply finish_records in E2 as (_ & H1 & H2). done.
Qed.

Lemma ordered_elem ex st t : t ∈ ordered_traces ex (st_traces st) -> exists n, n ∈ spl_nodes (ex_plan ex) /\ st_traces st !! sn_id n = Some t.
Proof. unfold ordered_traces. intros (n & Hn & Ht)%list_elem_of_omap. eauto. Qed.
Lemma elem_ordered ex st n t : n ∈ spl_nodes (ex_plan ex) -> st_traces st !! sn_id n = Some t -> t ∈ ordered_traces ex (st_traces st).
Proof. intros Hn Ht. unfold ordered_traces. apply list_elem_of_omap. eauto. Qed.

Lemma result_traces ex st : res_traces (result_of ex st) = ordered_traces ex (st_traces st).
Proof. unfold result_of. by repeat case_match. Qed.

Lemma scenario_outcome_ok ex w st r : execute ex (initial_state ex w) = (st, Val r) -> res_outcome r <> SKIPPED.
Proof. intros (_ & -> & _)%execute_inv. unfold result_of. by repeat case_match. Qed.

Lemma reports_every_node ex w st r :
  execute ex (initial_state ex w) = (st, Val r) ->
  (forall n, n ∈ spl_nodes (ex_plan ex) -> is_cleanup n = false -> sn_id n ∈ nt_node_id <$> res_traces r)
  /\ (st_pending_ai st = [] -> ex_defer_cleanup ex = false ->
      nt_node_id <$> res_traces r = sn_id <$> spl_nodes (ex_plan ex)).
Proof.
  intros (Hg & -> & Hmain & Hall)%execute_inv. rewrite result_traces.
  assert (forall k t, st_traces st !! k = Some t -> nt_node_id t = k) as Hid.
  { intros k t Ht. by apply (wf_id k t), (good_wf ex st Hg). }
  split.
  - intros n Hn Hc. destruct (Hmain n Hn Hc) as [t Ht]. rewrite <- (Hid _ _ Ht).
    apply list_elem_of_fmap_2. by eapply elem_ordered.
  - intros Hp Hd. apply ordered_ids; auto.
Qed.

(** C14: Every node of the plan is reported exactly once and in plan order, unless
    an AI assertion was deferred or the cleanup is left to a later task: then the
    cleanup nodes may be missing. *)
Theorem scenario_reports_every_node ex w st r :
  execute ex (initial_state ex w) = (st, Val r) ->
  (forall n, n ∈ spl_nodes (ex_plan ex) -> is_cleanup n = false -> sn_id n ∈ nt_node_id <$> res_traces r)
  /\ (st_pending_ai st = [] -> ex_defer_cleanup ex = false ->
      nt_node_id <$> res_traces r = sn_id <$> spl_nodes (ex_plan ex)).
Proof. apply reports_every_node. Qed.

Lemma outcome_sound ex w st r :
  execute ex (initial_state ex w) = (st, Val r) ->
  (res_outcome r = SUCCESS -> Forall (fun t => nt_status t = SUCCESS \/ nt_status t = SKIPPED) (res_traces r))
  /\ (res_outcome r = FAILED ->
      Exists (fun t => nt_status t = FAILED) (res_traces r) /\ Forall (fun t => nt_status t <> TIMEOUT) (res_traces r))
  /\ Forall (fun t => nt_status t = TIMEOUT -> res_outcome r = TIMEOUT \/ res_outcome r = CANCELLED) (res_traces r)
  /\ res_outcome r <> SKIPPED.
Proof.
  intros (Hg & -> & _ & _)%execute_inv. rewrite result_traces.
  assert (forall t, t ∈ ordered_traces ex (st_traces st) -> explained (st_flags st) (nt_status t)) as Hx.
  { intros t (n & _ & Ht)%ordered_elem. by eapply good_explained. }
  pose proof (good_evidence ex st Hg) as Hev. pose proof (good_plan ex st Hg) as Hpl.
  unfold result_of. destruct (f_cancelled (st_flags st)) eqn:Hc; [|destruct (f_total_timeout (st_flags st)) eqn:Htt;
    [|destruct (f_timed_out (st_flags st)) eqn:Hto; [|destruct (f_failed _ || f_cleanup_failed _) eqn:Hf]]];
    cbn [res_outcome]; split_and!; try done; try (apply Forall_forall; intros t Ht; by auto).
  - intros _. split.
    + destruct (Hev eq_refl) as (k & t & Hk & Hb). destruct (Hpl k t Hk) as (n & Hn & <-).
      apply Exists_exists. exists t. split; [by eapply elem_ordered|].
      destruct Hb as [->|Hb]; [done|]. eapply elem_ordered in Hk; [|done]. apply Hx in Hk.
      rewrite Hb in Hk. cbn in Hk. by rewrite Htt, Hto in Hk.
    + apply Forall_forall. intros t Ht E. apply Hx in Ht. rewrite E in Ht. cbn in Ht. by rewrite Htt, Hto in Ht.
  - apply Forall_forall. intros t Ht E. apply Hx in Ht. rewrite E in Ht. cbn in Ht. by rewrite Htt, Hto in Ht.
  - intros _. apply Forall_forall. intros t Ht. apply Hx in Ht. apply orb_false_iff in Hf as [Hf1 Hf2].
    destruct (nt_status t); auto; cbn in Ht; rewrite ?Hf1, ?Hf2, ?Hc, ?Htt, ?Hto in Ht; done.
  - apply Forall_forall. intros t Ht E. apply Hx in Ht. rewrite E in Ht. cbn in Ht. by rewrite Htt, Hto in Ht.
Qed.

(** C12: The outcome agrees with the reported nodes: after SUCCESS every node
    succeeded or was skipped; after FAILED some node failed and none timed out; a
    node that timed out makes the outcome TIMEOUT or CANCELLED. *)
Theorem scenario_outcome_sound ex w st r :
  execute ex (initial_state ex w) = (st, Val r) ->
  (res_outcome r = SUCCESS -> Forall (fun t => nt_status t = SUCCESS \/ nt_status t = SKIPPED) (res_traces r))
  /\ (res_outcome r = FAILED ->
      Exists (fun t => nt_status t = FAILED) (res_traces r) /\ Forall (fun t => nt_status t <> TIMEOUT) (res_traces r))
  /\ Forall (fun t => nt_status t = TIMEOUT -> res_outcome r = TIMEOUT \/ res_outcome r = CANCELLED) (res_traces r)
  /\ res_outcome r <> SKIPPED.
Proof. apply outcome_sound. Qed.

(** ** What the protocol accepts *)

Lemma nodes_ok_ids seen l : nodes_ok seen l = true ->
  NoDup (sn_id <$> l) /\ (forall n, n ∈ l -> (sn_id n ∉ seen) /\ length_within 1 64 (u (sn_id n)) = true).
Proof.
  revert seen. induction l as [|n l IH]; intros seen; cbn [nodes_ok]; [split; [constructor | by intros ? ?%elem_of_nil]|].
  rewrite andb_true_iff. intros [Hn (Hnd & Hl)%IH].
  unfold node_ok, node_id_ok in Hn. rewrite !andb_true_iff in Hn. destruct Hn as [[[[[[[[[Hlen _] _] Hs] _] _] _] _] _] _].
  rewrite negb_true_iff, bool_decide_eq_false in Hs. split.
  - cbn. apply NoDup_cons. split; [|done]. intros (m & E & Hm)%list_elem_of_fmap. destruct (Hl m Hm) as [Hx _].
    rewrite elem_of_cons in Hx. naive_solver.
  - intros m [->|Hm]%elem_of_cons; [done|]. destruct (Hl m Hm) as [Hx ?]. rewrite elem_of_cons in Hx. naive_solver.
Qed.
Lemma plan_ok_ids ex : plan_ok (ex_plan ex) = true ->
  NoDup (sn_id <$> spl_nodes (ex_plan ex)) /\ (length (spl_nodes (ex_plan ex)) <= 500)%nat
  /\ (forall n, n ∈ spl_nodes (ex_plan ex) -> length_within 1 64 (u (sn_id n)) = true).
Proof.
  unfold plan_ok, scenario_nodes_ok. rewrite !andb_true_iff.
  intros [_ [[[[[_ Hlen] (Hnd & Hl)%nodes_ok_ids] _] _] _]]. split; [done|]. split; [by apply Nat.leb_le|].
  intros n Hn. by apply Hl.
Qed.

Lemma text_within_ok n t : text_within n t -> text_ok n t = true.
Proof.
  destruct t as [s|]; [|done]. intros [Hs Hn]. unfold text_ok, length_within. apply andb_true_iff.
  rewrite !Nat.leb_le. destruct s; [done | cbn in *; lia].
Qed.
Lemma trace_wf_ok seen k t : trace_wf k t -> k ∉ seen -> length_within 1 64 (u k) = true -> trace_ok seen (wire t) = true.
Proof.
  intros [Hid Hd Hr Ht Hm _] Hs Hk. unfold trace_ok, wire.
  cbn [wt_node_id wt_duration_ms wt_retry_count wt_error_type wt_error_message]. subst k.
  rewrite Hk, (bool_decide_eq_false_2 _ Hs). unfold MAX_TRACE_DURATION_MS in Hd.
  rewrite (text_within_ok _ _ Ht), (text_within_ok _ _ Hm : text_ok 500 _ = true). lia.
Qed.

Lemma ordered_ok ex st seen l : (forall k t, st_traces st !! k = Some t -> trace_wf k t) ->
  NoDup (sn_id <$> l) -> (forall n, n ∈ l -> (sn_id n ∉ seen) /\ length_within 1 64 (u (sn_id n)) = true) ->
  traces_ok seen (wire <$> omap (fun n => st_traces st !! sn_id n) l) = true.
Proof.
  intros Hwf. revert seen. induction l as [|n l IH]; intros seen Hnd Hl; [done|]. cbn in Hnd.
  apply NoDup_cons in Hnd as [Hni Hnd].
  assert (forall seen', (forall m, m ∈ l -> sn_id m ∉ seen') ->
            traces_ok seen' (wire <$> omap (fun n => st_traces st !! sn_id n) l) = true) as Hrest.
  { intros seen' Hs'. apply IH; [done|]. intros m Hm. split; [by apply Hs' | apply Hl; by right]. }
  cbn. destruct (st_traces st !! sn_id n) as [t|] eqn:Ht; cbn.
  - destruct (Hl n) as [Hns Hlen]; [left|]. rewrite (trace_wf_ok seen (sn_id n) t); [|by apply Hwf | done | done].
    rewrite (wf_id _ _ (Hwf _ _ Ht)). apply Hrest. intros m Hm [E|Hs]%elem_of_cons.
    + apply Hni. rewrite <- E. by apply list_elem_of_fmap_2.
    + destruct (Hl m) as [Hms _]; [by right|]. done.
  - apply Hrest. intros m Hm. apply Hl. by right.
Qed.

Lemma result_error_ok ex st : Good ex st ->
  text_ok 100 (res_error_type (result_of ex st)) = true /\ text_ok 500 (res_error_message (result_of ex st)) = true
  /\ (res_outcome (result_of ex st) <> SUCCESS ->
      is_Some (res_error_type (result_of ex st)) /\ is_Some (res_error_message (result_of ex st))).
Proof.
  intros Hg. assert (forall d, length_within 1 100 d = true -> text_ok 100 (Some (error_type_or (st_last_error st) d)) = true) as He.
  { intros d Hd. unfold error_type_or. destruct (st_last_error st) as [e|] eqn:E; [|done].
    apply text_within_ok, proper_type, (good_last ex st Hg), E. }
  unfold result_of.
  destruct (f_cancelled (st_flags st)); [|destruct (f_total_timeout (st_flags st));
    [|destruct (f_timed_out (st_flags st)); [|destruct (f_failed _ || f_cleanup_failed _)]]];
    cbn [res_outcome res_error_type res_error_message];
    (split; [first [by vm_compute | apply He; by vm_compute] | split; [by vm_compute | by eauto]]).
Qed.

Lemma report_well_formed ex w st r evaluate cleanup :
  plan_ok (ex_plan ex) = true -> execute ex (initial_state ex w) = (st, Val r) -> res_pending_ai r = [] ->
  exists c, completion_of (spl_nodes (ex_plan ex)) evaluate cleanup (Reported (SCENARIO_RESULT r)) = inr c
    /\ completion_ok c = true /\ cp_outcome c = res_outcome r /\ cp_traces c = wire <$> res_traces r.
Proof.
  intros (Hnd & Hlen & Hids)%plan_ok_ids E Hp.
  pose proof (scenario_outcome_ok ex w st r E) as Hskip.
  apply execute_inv in E as (Hg & -> & _ & _).
  destruct (result_error_ok ex st Hg) as (He & Hm & Hn).
  eexists. split; [cbn [completion_of]; by rewrite Hp|].
  set (r := result_of ex st) in *.
  set (cancelled := bool_decide (res_outcome r = CANCELLED) && negb _).
  split; [|done]. unfold completion_ok. cbn [cp_outcome cp_traces cp_error_type cp_error_message cp_evaluation_token].
  rewrite !andb_true_iff. split_and!.
  - by apply bool_decide_eq_true.
  - unfold scenario_trace_payload. apply andb_true_iff. split.
    + apply Nat.leb_le. rewrite length_fmap. unfold r. rewrite result_traces. unfold ordered_traces.
      etrans; [|exact Hlen]. clear. induction (spl_nodes (ex_plan ex)) as [|n l IH]; [done|]. cbn.
      destruct (st_traces st !! sn_id n); cbn; lia.
    + unfold r. rewrite result_traces. apply ordered_ok; [done | apply (good_wf ex st Hg) | done|].
      intros n Hx. split; [apply not_elem_of_nil | by apply Hids].
  - by destruct cancelled.
  - by destruct cancelled.
  - apply implb_true_iff. intros [Hc|[Hc|[]%elem_of_nil]%elem_of_cons]%bool_decide_eq_true%elem_of_cons;
      (destruct Hn as [Ht1 Ht2]; [by rewrite Hc|]); destruct cancelled; apply andb_true_iff;
      rewrite !bool_decide_eq_true; split; auto; by eexists.
  - done.
Qed.


(** ** Stopping *)

Lemma run_siblings_app ex run parent l1 l2 st :
  let st' := (run_siblings ex run parent (l1 ++ l2) st).1 in
  match run_siblings ex run parent l1 st with
  | (st1, Val _) => st' = st1 /\ halted (st_flags st1) = true \/ st' = (run_siblings ex run parent l2 st1).1
  | (st1, _) => st' = st1
  end.
Proof.
  cbn zeta. revert st. induction l1 as [|n l1 IH]; intros st; cbn [app run_siblings]; [by right|].
  unfold gets. unfold mbind, M_bind. destruct (halted (st_flags st)).
  { destruct (skip_tree ex n st) as [st1 [[]|x|]]; [apply IH | done..]. }
  destruct (catch_runtime _ _ st) as [st1 [[]|x|]] eqn:E; [|apply IH | done..].
  left. split; [done|].
  clear IH. unfold catch_runtime, catch in E.
  destruct (match check_control ex st with (st', Val _) => _ | (st', Exn x) => _ | (st', Unfinished) => _ end)
    as [st2 [[]|[e|x]|]] eqn:E0; try discriminate E.
  - exfalso. destruct (check_control ex st) as [st3 [[]|x|]]; try discriminate E0.
    by destruct (run n st3) as [st4 [[]|x|]].
  - unfold note_error, record_failure, record, update_flags, modify, mret, M_ret, mbind, M_bind in E.
    cbn beta iota in E. destruct (should_stop ex n e); [|discriminate E].
    match type of E with context [skip_siblings ex parent (sn_id n) ?x] => set (y := x) in E end.
    assert (moves skipping (skip_siblings (W:=W) ex parent (sn_id n))) as Hs.
    { unfold skip_siblings. apply moves_for_each; [apply _|]. intros. apply skip_tree_skips. }
    specialize (Hs y). destruct (skip_siblings ex parent (sn_id n) y) as [st3 [[]|x|]]; try discriminate E.
    injection E as <-. cbn [fst] in Hs. destruct Hs as [-> _]. unfold y, halted. cbn.
    by rewrite !orb_true_r.
Qed.

(** C17: In a scenario that stops on failures, once a top-level node has failed (and
    in any scenario once it was cancelled or its time is over) the rest of the main
    flow calls nothing: neither the surroundings nor the context change, and the
    only new traces are those of skipped nodes. *)
Theorem scenario_stops_on_failure ex w l1 l2 st1 :
  children ex None = l1 ++ l2 ->
  run_siblings ex (run_node ex (depth_fuel ex)) None l1 (initial_state ex w) = (st1, Val tt) ->
  spl_stop_on_failure (ex_plan ex) && f_failed (st_flags st1)
    || f_cancelled (st_flags st1) || f_total_timeout (st_flags st1) = true ->
  let st2 := (main_flow ex (initial_state ex w)).1 in
  st_world st2 = st_world st1 /\ st_context st2 = st_context st1 /\ st_flags st2 = st_flags st1
  /\ forall k t, st_traces st2 !! k = Some t ->
      st_traces st1 !! k = Some t \/ st_traces st1 !! k = None /\ nt_status t = SKIPPED.
Proof.
  intros Hl Hrun Hstop. cbn zeta.
  assert (Good ex st1) as Hg.
  { change st1 with ((st1, Val tt : res unit).1). rewrite <- Hrun.
    apply (run_siblings_keeps ex (run_node ex (depth_fuel ex))); [apply run_node_good | | apply initial_good].
    intros n Hn. apply (children_nodes ex None). rewrite Hl. apply elem_of_app. by left. }
  assert (halted (st_flags st1) = true) as Hh.
  { rewrite !orb_true_iff, andb_true_iff in Hstop. destruct Hstop as [[[Hs Hf]|Hc]|Ht].
    - by apply (good_stop ex st1 Hg).
    - unfold halted. by rewrite Hc.
    - unfold halted. by rewrite Ht, orb_true_r. }
  assert (skipping st1 (main_flow ex (initial_state ex w)).1) as Hsk.
  { assert ((main_flow ex (initial_state ex w)).1
            = (run_siblings ex (run_node ex (depth_fuel ex)) None (l1 ++ l2) (initial_state ex w)).1) as ->.
    { unfold main_flow, run_children. rewrite Hl. unfold catch_runtime, catch.
      pose proof (run_siblings_raises ex (run_node ex (depth_fuel ex)) (fun _ => False) None (l1 ++ l2)
                    (initial_state ex w)) as Hr.
      destruct (run_siblings ex (run_node ex (depth_fuel ex)) None (l1 ++ l2) (initial_state ex w))
        as [st' [[]|[e|x]|]]; [done | by destruct (Hr e) | done..]. }
    pose proof (run_siblings_app ex (run_node ex (depth_fuel ex)) None l1 l2 (initial_state ex w)) as Hx.
    cbn zeta in Hx. rewrite Hrun in Hx. destruct Hx as [[-> _]| ->]; [reflexivity | by apply run_siblings_halted]. }
  destruct Hsk as [Ew Ht]. rewrite Ew. cbn [st_world st_context st_flags st_traces with_traces]. split_and!; try done.
  intros k t Hk. specialize (Ht k). destruct (st_traces st1 !! k) as [t'|].
  - left. congruence.
  - right. by rewrite Hk in Ht.
Qed.

(** ** Leaves *)

Definition same_context st st' : Prop := st_context st' = st_context st.
#[local] Instance same_context_preorder : PreOrder same_context.
Proof. split; [done | intros ??? E1 E2; unfold same_context in *; congruence]. Qed.

Lemma same_context_timing {A} (m : M W A) : moves timing m -> moves same_context m.
Proof. apply moves_weaken. by intros st st' [w ->]. Qed.
Lemma same_context_skipping {A} (m : M W A) : moves skipping m -> moves same_context m.
Proof. apply moves_weaken. by intros st st' [-> _]. Qed.
Lemma same_context_modify f : (forall st, same_context st (f st)) -> moves same_context (modify f).
Proof. apply moves_modify. Qed.

Lemma leaf_failed_context ex n e a t : moves same_context (leaf_failed ex n e a t).
Proof.
  assert (moves same_context (skip_siblings ex (sn_parent n) (sn_id n))).
  { apply same_context_skipping. unfold skip_siblings. apply moves_for_each; [apply _|]. intros. apply skip_tree_skips. }
  unfold leaf_failed, record_failure, record, update_flags. moves_solve; by apply same_context_modify.
Qed.

(** A successful attempt of a leaf: its action succeeded, from the same context. *)
Lemma leaf_attempt_success ex n action s a t st st' :
  leaf_attempt ex n action s a t st = (st', Val tt) ->
  exists st1 st2, st_context st1 = st_context st /\ action st1 = (st2, Val tt) /\ st_context st' = st_context st2.
Proof.
  unfold leaf_attempt, mbind, M_bind. pose proof (control_timing ex st) as H1.
  destruct (check_control ex st) as [st1 [[]|x|]]; intros E; try discriminate E. cbn [fst] in H1.
  destruct (action st1) as [st2 [[]|x|]] eqn:Ea; try discriminate E.
  pose proof (duration_timing s st2) as H2. destruct (duration_ms s st2) as [st3 [d|x|]]; try discriminate E.
  pose proof (control_timing ex st3) as H3. destruct (check_control ex st3) as [st4 [[]|x|]]; try discriminate E.
  cbn [fst] in *. destruct (sn_timeout_ms n <? d); cbn [when] in E; [discriminate E|]. injection E as <-.
  exists st1, st2. destruct H1 as [w1 ->], H2 as [w2 ->], H3 as [w3 ->]. done.
Qed.

Lemma leaf_attempts_context ex n action m left a t le st st' :
  leaf_attempts ex n action m left a t le st = (st', Val tt) ->
  st_context st' = st_context st
  \/ exists st1 st2, st_context st1 = st_context st /\ action st1 = (st2, Val tt) /\ st_context st' = st_context st2.
Proof.
  revert a t le st. induction left as [|left IH]; intros a t le st; cbn [leaf_attempts].
  { destruct le; [done|]. intros [= <-]. by left. }
  unfold mbind at 1, M_bind. pose proof (clock_timing st) as Hc. destruct (clock st) as [sta [s|x|]]; try done.
  destruct Hc as [w Hc]. cbn [fst] in Hc. unfold gets. unfold mbind at 1, M_bind. unfold catch_runtime, catch.
  destruct (leaf_attempt ex n action s a t sta) as [stb [[]|[e|x]|]] eqn:E; try done.
  { intros [= <-]. right. apply leaf_attempt_success in E as (st1 & st2 & E1 & E2 & E3).
    exists st1, st2. subst sta. done. }
  unfold mbind at 1, M_bind, modify at 1. unfold mbind at 1, M_bind.
  pose proof (duration_timing s (with_context (st_context sta) stb)) as Hd.
  destruct (duration_ms s _) as [stc [d|x|]]; try done. destruct Hd as [w' Hd]. cbn [fst] in Hd.
  assert (st_context stc = st_context st) as Hctx by (subst stc sta; done).
  destruct (re_total_timeout e); [intros [= <-]; by left|]. destruct (is_cancel e); [intros [= <-]; by left|].
  destruct (_ && _ && _); [intros [= <-]; by left|]. destruct (_ && _).
  - intros E'. apply IH in E' as [E'|(st1 & st2 & E1 & E2 & E3)]; [left; congruence|].
    right. exists st1, st2. split_and!; congruence.
  - intros E'. left. rewrite <- Hctx. pose proof (leaf_failed_context ex n e a (add_duration t d) stc) as Hl.
    rewrite E' in Hl. exact Hl.
Qed.

(** A leaf changes the context at most as one successful run of its action
    does, starting from the context the leaf found: failed attempts, retried or
    not, leave no variables behind. *)
Theorem leaf_context_atomic ex n action st st' :
  run_leaf ex n action st = (st', Val tt) ->
  st_context st' = st_context st
  \/ exists st1 st2, st_context st1 = st_context st /\ action st1 = (st2, Val tt) /\ st_context st' = st_context st2.
Proof. unfold run_leaf. apply leaf_attempts_context. Qed.

(** ** Cleanup *)

(** Recorded nodes stay recorded. *)
Definition growing st st' : Prop := forall n, recorded st n -> recorded st' n.
#[local] Instance growing_preorder : PreOrder growing.
Proof. split; [by intros ? ? | intros ??? H1 H2 n Hn; auto]. Qed.

Lemma record_recorded n s r d et em st : recorded (record n s r d et em st).1 n.
Proof. unfold record, modify, recorded. cbn. rewrite lookup_insert_eq. by eexists. Qed.
Lemma record_growing n s r d et em : moves growing (record n s r d et em).
Proof.
  intros st m Hm. unfold recorded, record, modify in *. cbn.
  destruct (decide (sn_id n = sn_id m)) as [<-|Hne]; [rewrite lookup_insert_eq; by eexists | by rewrite lookup_insert_ne].
Qed.
Lemma growing_modify f : (forall st, st_traces (f st) = st_traces st) -> moves growing (modify f).
Proof. intros Hf. apply moves_modify. intros st n. unfold recorded. by rewrite Hf. Qed.
Lemma growing_quiet {A} (m : M W A) : moves quiet m -> moves growing m.
Proof. apply moves_weaken. intros st st' (E & _) n. unfold recorded. by rewrite E. Qed.
Lemma growing_timing {A} (m : M W A) : moves timing m -> moves growing m.
Proof. intros Hm. by apply growing_quiet, timing_is_quiet. Qed.
#[local] Hint Resolve record_growing growing_quiet growing_timing clock_timing duration_timing deadline_timing
  api_cleanup_quiet sql_quiet : scenario.
#[local] Hint Extern 1 (moves growing (modify _)) => by apply growing_modify : scenario.
#[local] Hint Extern 1 (moves growing (update_flags _)) => by apply growing_modify : scenario.

Lemma cleanup_attempts_growing ex n m left a t : moves growing (cleanup_attempts ex n m left a t).
Proof.
  revert a t. induction left as [|left IH]; intros a t; cbn [cleanup_attempts];
    unfold cleanup_attempt, record_failure, record_plain; moves_solve.
Qed.
Lemma run_cleanup_node_growing ex n o : moves growing (run_cleanup_node ex n o).
Proof. pose proof cleanup_attempts_growing. unfold run_cleanup_node, record_plain. moves_solve. Qed.
Lemma cleanup_step_growing ex n o :
  moves growing (catch (run_cleanup_node ex n o) (fun x => Some (cleanup_raised n x))).
Proof.
  apply moves_catch; [apply _ | apply run_cleanup_node_growing|]. intros x m' [= <-].
  unfold cleanup_raised, record_failure. moves_solve.
Qed.
Lemma cleanup_loop_growing ex o l : moves growing (cleanup_loop ex o l).
Proof. pose proof cleanup_step_growing. induction l as [|n l IH]; cbn [cleanup_loop]; moves_solve. Qed.

(** A cleanup that returns has recorded its node. *)
Lemma cleanup_attempts_records ex n m left a t st st' :
  Z.of_nat left = m - a -> (0 < left)%nat -> cleanup_attempts ex n m left a t st = (st', Val tt) -> recorded st' n.
Proof.
  revert a t st. induction left as [|left IH]; intros a t st Hl Hpos; [lia|]. cbn [cleanup_attempts].
  unfold mbind at 1, M_bind. destruct (clock st) as [sta [s|x|]]; try done. unfold catch_runtime, catch.
  destruct (cleanup_attempt ex n s a t sta) as [stb [[]|[e|x]|]] eqn:E; try done.
  - intros [= <-]. unfold cleanup_attempt, mbind, M_bind in E.
    repeat (match type of E with context [match ?m ?s with _ => _ end] =>
              destruct (m s) as [? [?|?|]]; try discriminate E end).
    unfold record_plain in E. match type of E with record ?n ?s ?r ?d ?et ?em ?st0 = _ =>
      pose proof (record_recorded n s r d et em st0) as Hr end. by rewrite E in Hr.
  - unfold mbind at 1, M_bind. destruct (duration_ms s stb) as [stc [d|x|]]; try done.
    unfold mbind at 1, M_bind. destruct (when (re_total_timeout e) _ stc) as [std [[]|x|]]; try done.
    unfold mbind at 1, M_bind. destruct (when (re_timeout e) _ std) as [ste [[]|x|]]; try done.
    destruct (_ && _ && _) eqn:Hb.
    + rewrite !andb_true_iff in Hb. destruct Hb as [[Hb%Z.ltb_lt _] _]. apply IH; lia.
    + unfold record_failure, update_flags, modify, mbind, M_bind. intros [= <-].
      match goal with |- recorded ?x _ => idtac end.
      unfold recorded. cbn. rewrite lookup_insert_eq. by eexists.
Qed.
Lemma cleanup_step_records ex n o st st' :
  catch (run_cleanup_node ex n o) (fun x => Some (cleanup_raised n x)) st = (st', Val tt) -> recorded st' n.
Proof.
  unfold catch. destruct (run_cleanup_node ex n o st) as [st1 [[]|x|]] eqn:E; try done.
  - intros [= <-]. unfold run_cleanup_node, mbind, M_bind, lift in E.
    destruct (cleanup_wanted ex n o) as [[]|x]; try discriminate E.
    + destruct (decide _) in E; eapply cleanup_attempts_records in E; [done | lia | lia | done | lia | lia].
    + pose proof (record_recorded n SKIPPED 0 0 None None st) as Hr. unfold record_plain in E. by rewrite E in Hr.
  - unfold cleanup_raised, record_failure, record, update_flags, modify, mbind, M_bind. intros [= <-].
    unfold recorded. cbn. rewrite lookup_insert_eq. by eexists.
Qed.


(** ** Termination *)

(** C15: Every execution comes to an end: if the node identifiers are distinct and
    the clock behaves, [execute] returns a result or an exception leaves it, whatever
    the shape of the plan, the answers of the surroundings and the loops; the worker
    always sends a message. *)
Theorem scenario_execution_ends ex `{!ClockLaws W} w :
  NoDup (sn_id <$> spl_nodes (ex_plan ex)) ->
  (execute ex (initial_state ex w)).2 <> Unfinished
  /\ forall revision task, scenario_task_worker ex revision task w <> None.
Proof.
  intros Hnd. pose proof (execute_ends ex Hnd (initial_state ex w)) as He. split; [done|].
  intros revision task. unfold scenario_task_worker. destruct revision; cbn [negb]; [|discriminate].
  destruct task as [|task].
  - destruct (execute ex (initial_state ex w)).2; [discriminate..|congruence].
  - pose proof (execute_cleanup_task_ends ex task (initial_state ex w)).
    destruct (execute_cleanup_task ex task (initial_state ex w)).2; [discriminate..|congruence].
Qed.
End Theorems.

Module ScenarioWitness.
Import ScenarioDemo.

Definition orders : ScenarioPlan := plan_of true [start; create; check_status 200; delete None; finish_].
Definition broken : ScenarioPlan := plan_of true [start; create; check_status 201; delete None; finish_].

(** The parts of a run the witnesses look at. *)
Definition result_facts (r : St world * res ScenarioResult) : option (NodeOutcome * nat * nat) :=
  match r.2 with
  | Val x => Some (res_outcome x, length (res_pending_ai x), length (st_pending_ai r.1))
  | _ => None
  end.
Lemma result_facts_inv r o : result_facts r = Some (o, 0%nat, 0%nat) ->
  exists st x, r = (st, Val x) /\ res_outcome x = o /\ res_pending_ai x = [] /\ st_pending_ai st = [].
Proof.
  destruct r as [st [x|x|]]; cbn; try discriminate. intros [= Ho Hp%nil_length_inv Hs%nil_length_inv]. eauto 6.
Qed.
Lemma orders_facts : result_facts (execute (executor_of orders) (initial_state (executor_of orders) (start_world []))) = Some (SUCCESS, 0%nat, 0%nat).
Proof. vm_compute. reflexivity. Qed.
Lemma broken_facts : result_facts (execute (executor_of broken) (initial_state (executor_of broken) (start_world []))) = Some (FAILED, 0%nat, 0%nat).
Proof. vm_compute. reflexivity. Qed.
Lemma orders_ok : plan_ok orders = true.
Proof. vm_compute. reflexivity. Qed.

Lemma reports_witness : exists st r, execute (executor_of orders) (initial_state (executor_of orders) (start_world [])) = (st, Val r)
  /\ nt_node_id <$> res_traces r = sn_id <$> spl_nodes orders.
Proof.
  destruct (result_facts_inv _ _ orders_facts) as (st & r & E & _ & _ & Hp). exists st, r. split; [exact E|].
  destruct (scenario_reports_every_node (executor_of orders) (start_world []) st r E) as [_ Hr]. exact (Hr Hp eq_refl).
Defined.

Lemma outcome_witness : exists st r, execute (executor_of broken) (initial_state (executor_of broken) (start_world [])) = (st, Val r)
  /\ res_outcome r = FAILED /\ Exists (fun t => nt_status t = FAILED) (res_traces r).
Proof.
  destruct (result_facts_inv _ _ broken_facts) as (st & r & E & Ho & _ & _). exists st, r. split; [exact E|].
  destruct (scenario_outcome_sound (executor_of broken) (start_world []) st r E) as (_ & Hf & _). split; [exact Ho | apply (Hf Ho)].
Defined.


(** The check fails; the end of the plan is not reached. *)
Lemma stops_witness :
  let ex := executor_of broken in
  let st0 := initial_state ex (start_world []) in
  let st1 := (run_siblings ex (run_node ex (depth_fuel ex)) None [start; create; check_status 201] st0).1 in
  f_failed (st_flags st1) = true
  /\ st_world (main_flow ex st0).1 = st_world st1
  /\ st_context (main_flow ex st0).1 = st_context st1.
Proof.
  intros ex st0 st1. split; [vm_compute; reflexivity|].
  destruct (scenario_stops_on_failure ex (start_world []) [start; create; check_status 201] [delete None; finish_] st1)
    as (Hw & Hc & _); [vm_compute; reflexivity.. | split; assumption].
Defined.

(** A leaf that fails leaves the context as it was. *)
Lemma atomic_witness :
  let ex := executor_of orders in
  let st0 := initial_state ex (start_world []) in
  let st' := (run_leaf ex create (http create) st0).1 in
  run_leaf ex create (http create) st0 = (st', Val tt)
  /\ (st_context st' = st_context st0
      \/ exists st1 st2, st_context st1 = st_context st0 /\ http create st1 = (st2, Val tt) /\ st_context st' = st_context st2).
Proof.
  intros ex st0 st'. assert (run_leaf ex create (http create) st0 = (st', Val tt)) as E by (vm_compute; reflexivity).
  split; [exact E | exact (leaf_context_atomic ex create (http create) st0 st' E)].
Defined.

(** The first of two cleanups fails. *)
Definition second : ScenarioNodePlan :=
  node "second" API_CLEANUP None None [(u "method", JStr (u "DELETE")); (u "url", JStr (u "/orders/2"))].

Lemma ends_witness :
  let ex := executor_of (plan_of true [start; repeat_; body; finish_]) in
  (execute ex (initial_state ex (start_world []))).2 <> Unfinished.
Proof.
  intros ex. apply (scenario_execution_ends ex (start_world [])).
  apply (bool_decide_eq_true_1 (NoDup (sn_id <$> spl_nodes (ex_plan ex)))). vm_compute. reflexivity.
Defined.

(** ** What the executor does that it should not *)

(** A cleanup node that the plan disables runs all the same. *)
Theorem disabled_cleanup_runs :
  summary (run (plan_of true [start; create; disabled (delete None); finish_]) [])
  = Some (SUCCESS, [("start", SUCCESS); ("create", SUCCESS); ("delete", SUCCESS); ("end", SUCCESS)],
          [u "/orders"; u "/orders/1"]).
Proof. vm_compute. reflexivity. Qed.

(** A cleanup that times out and succeeds when it is repeated makes the
    outcome of the scenario TIMEOUT, though every node is reported as SUCCESS. *)
Theorem retried_cleanup_times_out :
  summary (run (plan_of true [start; create; delete (Some RETRY_ONCE); finish_])
             [inr (ok_response 200 (JDict [])); inl TargetTimeoutError; inr (ok_response 200 (JDict []))])
  = Some (TIMEOUT, [("start", SUCCESS); ("create", SUCCESS); ("delete", SUCCESS); ("end", SUCCESS)],
          [u "/orders"; u "/orders/1"; u "/orders/1"]).
Proof. vm_compute. reflexivity. Qed.

(** A condition that looks for a number in a text raises an exception no
    handler of the executor expects: the traces are lost and the scenario is
    reported as FAILED without any. *)
Theorem contains_condition_aborts_scenario :
  let plan := plan_of false [start; create; branch; inner; finish_] in
  (run plan []).2 = Exn PyTypeError
  /\ dw_log (st_world (run plan []).1) = [u "/orders"]
  /\ exists m, scenario_task_worker (executor_of plan) true ExecutePlan (start_world []) = Some m
      /\ exists c, completion_of (spl_nodes plan) (fun _ => RunnerFailed) (fun _ => None) (Reported m) = inr c
          /\ cp_outcome c = FAILED /\ cp_traces c = [].
Proof.
  split_and!; [vm_compute; reflexivity..|]. eexists. split; [vm_compute; reflexivity|].
  eexists. split; [vm_compute; reflexivity|]. split; reflexivity.
Qed.

(** When a scenario fails before or after an AI assertion was deferred, the
    cleanup neither runs nor is reported, and no evaluation is asked for. *)
Theorem failure_with_deferred_ai_skips_cleanup :
  let plan := plan_of false [start; create; check_status 201; judge_ai; delete None; finish_] in
  summary (run plan [])
  = Some (FAILED, [("start", SUCCESS); ("create", SUCCESS); ("check", FAILED); ("judge", SUCCESS); ("end", SUCCESS)], [u "/orders"])
  /\ (match (run plan []).2 with Val r => res_pending_ai r | _ => [] end) = [].
Proof. split; vm_compute; reflexivity. Qed.
End ScenarioWitness.
