(* ===== verification/ScenarioCompletion.v ===== *)
(** The runner and the back end together: what the scenario executor reports is
    what the back end accepts and stores.  The statuses of the wire are read as
    [ScenarioExecutionCompleteRequest] of runs/schemas.py does, and the client of
    the consumer is the back end's [complete_scenario_execution]. *)
From S2P Require Import Prelude PyText Projects RunData RunStatusOps RunControl RunDispatch RunExecution RunInvariant.
From S2P Require Import RunCreate RunHandlers RunSystem RunExample.
From S2P Require Import Json PyJson ScenarioData RunnerValues ScenarioSql ScenarioMonad ScenarioActions.
From S2P Require Import ScenarioRun ScenarioProtocol ScenarioLogic ScenarioInvariant ScenarioFlow ScenarioReport.
From S2P Require Import ScenarioEnds ScenarioTheorems.
Open Scope Z_scope.

(** ** Between the two programs *)

Definition node_status (s : NodeOutcome) : RunNodeStatus.t :=
  match s with
  | SUCCESS => RunNodeStatus.SUCCESS | SKIPPED => RunNodeStatus.SKIPPED | FAILED => RunNodeStatus.FAILED
  | TIMEOUT => RunNodeStatus.TIMEOUT | CANCELLED => RunNodeStatus.CANCELLED
  end.
Definition trace_status (s : WireStatus) : TraceStatus :=
  match s with Node s => T_NODE (node_status s) | Passed => T_PASSED | Review => T_NODE RunNodeStatus.REVIEW end.
Definition scenario_outcome (s : NodeOutcome) : option ScenarioOutcome :=
  match s with
  | SUCCESS => Some S_SUCCESS | FAILED => Some S_FAILED | TIMEOUT => Some S_TIMEOUT
  | CANCELLED => Some S_CANCELLED | SKIPPED => None
  end.
Definition run_status (o : ScenarioOutcome) : RunStatus.t :=
  match o with
  | S_SUCCESS => RunStatus.SUCCESS | S_FAILED => RunStatus.FAILED | S_TIMEOUT => RunStatus.TIMEOUT
  | S_CANCELLED => RunStatus.CANCELLED
  end.
Definition case_status (o : ScenarioOutcome) : RunNodeStatus.t :=
  match o with
  | S_SUCCESS => RunNodeStatus.SUCCESS | S_FAILED => RunNodeStatus.FAILED | S_TIMEOUT => RunNodeStatus.TIMEOUT
  | S_CANCELLED => RunNodeStatus.CANCELLED
  end.

Section Request.
(** [_sanitize_scenario_text]. *)
Context (sanitize : pytext -> pytext).

(** [ScenarioExecutionTrace] and [ScenarioExecutionCompleteRequest]. *)
Definition trace_request (t : WireTrace) : ScenarioTrace :=
  {| tc_node_id := wt_node_id t; tc_status := trace_status (wt_status t); tc_duration_ms := wt_duration_ms t;
     tc_retry_count := wt_retry_count t; tc_error_type := sanitize <$> wt_error_type t;
     tc_error_message := sanitize <$> wt_error_message t |}.
Definition request_of (message_id : string) (case_run_id : Z) (c : Completion) : option ScenarioCompleteRequest :=
  o ← scenario_outcome (cp_outcome c);
  Some {| sp_message_id := message_id; sp_case_run_id := case_run_id; sp_outcome := o;
          sp_traces := trace_request <$> cp_traces c; sp_error_type := sanitize <$> cp_error_type c;
          sp_error_message := sanitize <$> cp_error_message c; sp_evaluation_token := cp_evaluation_token c |}.
End Request.

(** ** Validation *)

Lemma check_traces_ok ids seen l :
  NoDup (tc_node_id <$> l) -> (forall t, t ∈ l -> tc_node_id t ∈ ids /\ (tc_node_id t ∉ seen)) ->
  check_traces ids seen l = Ok tt.
Proof.
  revert seen. induction l as [|t l IH]; intros seen Hnd Hl; [done|]. cbn [check_traces].
  destruct (Hl t) as [Hi Hs]; [left|]. rewrite (bool_decide_true _ Hi), (bool_decide_false _ Hs). cbn.
  cbn in Hnd. apply NoDup_cons in Hnd as [Hni Hnd]. apply IH; [done|]. intros x Hx.
  destruct (Hl x) as [Hxi Hxs]; [by right|]. split; [done|]. intros [E|E]%elem_of_cons; [|done].
  apply Hni. rewrite <- E. by apply list_elem_of_fmap_2.
Qed.

(** ** The steps *)

Abbreviation reported := (fun l : list ScenarioTrace =>
  list_to_map (M := gmap string RunNodeStatus.t) (reverse ((fun t => (tc_node_id t, scenario_trace_status (tc_status t))) <$> l))).

Lemma reported_lookup l i s : NoDup (tc_node_id <$> l) ->
  reported l !! i = Some s <-> exists t, t ∈ l /\ tc_node_id t = i /\ scenario_trace_status (tc_status t) = s.
Proof.
  intros Hnd. rewrite <- elem_of_list_to_map.
  - rewrite elem_of_reverse, list_elem_of_fmap. split.
    + intros (t & [= -> ->] & Ht). eauto.
    + intros (t & Ht & <- & <-). eauto.
  - rewrite fmap_reverse, <- list_fmap_compose, reverse_Permutation. exact Hnd.
Qed.
Lemma reported_values l s : NoDup (tc_node_id <$> l) ->
  s ∈ (map_to_list (reported l)).*2 <-> exists t, t ∈ l /\ scenario_trace_status (tc_status t) = s.
Proof.
  intros Hnd. rewrite list_elem_of_fmap. split.
  - intros ([i x] & -> & Hx%elem_of_map_to_list). apply reported_lookup in Hx as (t & Ht & _ & E); [|done]. eauto.
  - intros (t & Ht & E). exists (tc_node_id t, s). split; [done|]. apply elem_of_map_to_list, reported_lookup; eauto.
Qed.

(** What the statuses of the nodes must show for an outcome. *)
Record shows_outcome (o : ScenarioOutcome) (ids : list string) (by_node : gmap string RunNodeStatus.t) : Prop := {
  so_nodes : forall i, i ∈ ids -> exists s, by_node !! i = Some s
    /\ s ∈ [RunNodeStatus.SUCCESS; RunNodeStatus.SKIPPED; RunNodeStatus.FAILED; RunNodeStatus.TIMEOUT]
    /\ (o = S_SUCCESS -> s ∈ [RunNodeStatus.SUCCESS; RunNodeStatus.SKIPPED])
    /\ (o = S_FAILED -> s <> RunNodeStatus.TIMEOUT);
  so_evidence : o <> S_SUCCESS -> exists i, i ∈ ids /\ by_node !! i = Some (case_status o);
}.

(** The traces of an execution, as [scenario_outcome_sound] describes them. *)
Record traces_show (o : ScenarioOutcome) (l : list ScenarioTrace) : Prop := {
  ts_plain : forall t, t ∈ l -> exists s, tc_status t = T_NODE s
    /\ s ∈ [RunNodeStatus.SUCCESS; RunNodeStatus.SKIPPED; RunNodeStatus.FAILED; RunNodeStatus.TIMEOUT]
    /\ (o = S_SUCCESS -> s ∈ [RunNodeStatus.SUCCESS; RunNodeStatus.SKIPPED])
    /\ (o = S_FAILED -> s <> RunNodeStatus.TIMEOUT);
  ts_failed : o = S_FAILED -> exists t, t ∈ l /\ tc_status t = T_NODE RunNodeStatus.FAILED;
}.

Lemma reported_shows o l : NoDup (tc_node_id <$> l) -> traces_show o l ->
  forall i, i ∈ tc_node_id <$> l -> exists s, reported l !! i = Some s
    /\ s ∈ [RunNodeStatus.SUCCESS; RunNodeStatus.SKIPPED; RunNodeStatus.FAILED; RunNodeStatus.TIMEOUT]
    /\ (o = S_SUCCESS -> s ∈ [RunNodeStatus.SUCCESS; RunNodeStatus.SKIPPED])
    /\ (o = S_FAILED -> s <> RunNodeStatus.TIMEOUT).
Proof.
  intros Hnd Hs i (t & -> & Ht)%list_elem_of_fmap. destruct (ts_plain _ _ Hs t Ht) as (s & E & Hp).
  exists s. split; [|done]. apply reported_lookup; [done|]. exists t. by rewrite E.
Qed.

Lemma status_by_node_shows o l c : NoDup (tc_node_id <$> l) -> traces_show o l -> o <> S_CANCELLED ->
  (exists s, first_unfinished c = Some s /\ sr_node_id s ∈ tc_node_id <$> l) ->
  shows_outcome o (tc_node_id <$> l) (status_by_node o l c).
Proof.
  intros Hnd Hs Ho (s0 & Hf & Hin). pose proof (reported_shows o l Hnd Hs) as Hr.
  unfold status_by_node. rewrite Hf. cbn zeta. destruct o; [|..|done].
  - split; [exact Hr | done].
  - destruct (ts_failed _ _ Hs eq_refl) as (t & Ht & E).
    assert (existsb (fun s => bool_decide (s ∈ [RunNodeStatus.FAILED; RunNodeStatus.REVIEW]))
              (map_to_list (reported l)).*2 = true) as ->.
    { apply existsb_exists. exists RunNodeStatus.FAILED. split; [|done]. apply list_elem_of_In, reported_values; [done|].
      exists t. by rewrite E. }
    split; [exact Hr|]. intros _. exists (tc_node_id t). split; [by apply list_elem_of_fmap_2|].
    apply reported_lookup; [done|]. exists t. by rewrite E.
  - destruct (existsb _ _) eqn:He.
    + apply existsb_exists in He as (s & Hx%list_elem_of_In & ->%bool_decide_eq_true).
      apply reported_values in Hx as (t & Ht & E); [|done].
      split; [exact Hr|]. intros _. exists (tc_node_id t). split; [by apply list_elem_of_fmap_2|].
      apply reported_lookup; eauto.
    + split.
      * intros i Hi. destruct (decide (sr_node_id s0 = i)) as [<-|Hne].
        -- exists RunNodeStatus.TIMEOUT. rewrite lookup_insert_eq. split_and!; [done | solve_in | done | done].
        -- rewrite lookup_insert_ne by done. by apply Hr.
      * intros _. exists (sr_node_id s0). split; [done|]. by rewrite lookup_insert_eq.
Qed.

(** A step that has not ended. *)
Definition open_step (s : StepRun) : Prop :=
  sr_status s ∈ [RunNodeStatus.CREATED; RunNodeStatus.ASSIGNED; RunNodeStatus.RUNNING].

Lemma finish_step_ok now o l by_node et em s x :
  open_step s -> by_node !! sr_node_id s = Some x ->
  x ∈ [RunNodeStatus.SUCCESS; RunNodeStatus.SKIPPED; RunNodeStatus.FAILED; RunNodeStatus.TIMEOUT] ->
  exists s', finish_scenario_step now o l by_node et em s = Ok s' /\ sr_status s' = x.
Proof.
  intros Hs Hx Hin. unfold finish_scenario_step. rewrite Hx.
  assert (node_terminal (sr_status s) = false) as ->.
  { unfold open_step in Hs. revert Hs. by destruct (sr_status s); intros Hs; decide_in Hs. }
  cbn. unfold set_step_status, set_node_status. unfold open_step, sr_status in *.
  set (p := match trace_of l (sr_node_id s) with Some _ => _ | None => _ end). clearbody p.
  rewrite decide_False.
  2:{ intros E. rewrite E in Hs. revert Hs Hin. by destruct x; intros H1 H2; decide_in H1; decide_in H2. }
  rewrite bool_decide_true.
  - cbn. eexists. split; [done|]. done.
  - revert Hs Hin. destruct (n_status (sr_node s)); intros H1 H2; decide_in H1; destruct x; decide_in H2; solve_in.
Qed.

Lemma desired_shows o ids by_node steps : shows_outcome o ids by_node -> o <> S_CANCELLED ->
  (forall i, i ∈ ids -> exists s : StepRun, s ∈ steps /\ by_node !! i = Some (sr_status s)) ->
  (forall s : StepRun, s ∈ steps -> exists i, i ∈ ids /\ by_node !! i = Some (sr_status s)) ->
  desired_case_status (sr_status <$> steps) = case_status o.
Proof.
  intros Hso Ho Hto Hfrom.
  assert (forall x, x ∈ sr_status <$> steps ->
            x ∈ [RunNodeStatus.SUCCESS; RunNodeStatus.SKIPPED; RunNodeStatus.FAILED; RunNodeStatus.TIMEOUT]
            /\ (o = S_SUCCESS -> x ∈ [RunNodeStatus.SUCCESS; RunNodeStatus.SKIPPED])
            /\ (o = S_FAILED -> x <> RunNodeStatus.TIMEOUT)) as Hall.
  { intros x (s & -> & Hs)%list_elem_of_fmap. destruct (Hfrom s Hs) as (i & Hi & E).
    destruct (so_nodes _ _ _ Hso i Hi) as (y & E' & Hy). congruence. }
  assert (o <> S_SUCCESS -> case_status o ∈ sr_status <$> steps) as Hev.
  { intros Hne. destruct (so_evidence _ _ _ Hso Hne) as (i & Hi & E). destruct (Hto i Hi) as (s & Hs & E').
    rewrite E in E'. injection E' as ->. by apply list_elem_of_fmap_2. }
  assert (forall x, x ∉ [RunNodeStatus.SUCCESS; RunNodeStatus.SKIPPED; RunNodeStatus.FAILED; RunNodeStatus.TIMEOUT] ->
            bool_decide (x ∈ sr_status <$> steps) = false) as Hno.
  { intros x Hx. apply bool_decide_false. intros [Hy _]%Hall. done. }
  assert (forallb node_terminal (sr_status <$> steps) = true) as Hterm.
  { apply forallb_forall. intros x [Hx _]%list_elem_of_In%Hall. by destruct x; decide_in Hx. }
  unfold desired_case_status. rewrite !(Hno RunNodeStatus.CANCELLING), !(Hno RunNodeStatus.ASSIGNED),
    !(Hno RunNodeStatus.RUNNING), Hterm, !(Hno RunNodeStatus.CANCELLED), !(Hno RunNodeStatus.REVIEW)
    by (intros Hx; by decide_in Hx). cbn [orb negb].
  destruct o; [| | |done].
  - rewrite !bool_decide_false; [done|..]; intros (_ & Hx & _)%Hall; specialize (Hx eq_refl); by decide_in Hx.
  - rewrite bool_decide_false by (intros (_ & _ & Hx)%Hall; by apply Hx).
    by rewrite bool_decide_true by (apply Hev; done).
  - by rewrite bool_decide_true by (apply Hev; done).
Qed.

(** The case run that a report of the whole plan leaves behind. *)
Lemma finish_case_ok now o (p : ScenarioCompleteRequest) et em c :
  NoDup (tc_node_id <$> sp_traces p) -> traces_show o (sp_traces p) -> o <> S_CANCELLED ->
  cr_status c = RunNodeStatus.RUNNING -> Forall open_step (cr_steps c) -> cr_steps c <> [] ->
  sr_node_id <$> cr_steps c = tc_node_id <$> sp_traces p ->
  exists c', finish_scenario_case now o p et em c = Ok c' /\ cr_id c' = cr_id c /\ cr_status c' = case_status o.
Proof.
  intros Hnd Hts Ho Hc Hopen Hne Hids. rewrite Forall_forall in Hopen.
  assert (shows_outcome o (tc_node_id <$> sp_traces p) (status_by_node o (sp_traces p) c)) as Hso.
  { apply status_by_node_shows; [done..|]. destruct (cr_steps c) as [|s l] eqn:E; [done|]. exists s. split.
    - unfold first_unfinished. rewrite E, filter_cons_True; [done|].
      specialize (Hopen s ltac:(left)). unfold open_step in Hopen. revert Hopen.
      by destruct (sr_status s); intros Hs; decide_in Hs.
    - rewrite <- Hids. cbn. left. }
  unfold finish_scenario_case. cbn zeta.
  set (f := finish_scenario_step now o (sp_traces p) (status_by_node o (sp_traces p) c) et em).
  assert (forall s, s ∈ cr_steps c -> exists s', f s = Ok s'
            /\ status_by_node o (sp_traces p) c !! sr_node_id s = Some (sr_status s')) as Hf.
  { intros s Hs. destruct (so_nodes _ _ _ Hso (sr_node_id s)) as (x & Hx & Hin & _).
    { rewrite <- Hids. by apply list_elem_of_fmap_2. }
    destruct (finish_step_ok now o (sp_traces p) _ et em s x (Hopen s Hs) Hx Hin) as (s' & E & <-). eauto. }
  destruct (map_result_total f (cr_steps c)) as [steps Hsteps]; [intros s Hs; destruct (Hf s Hs) as (s' & ? & _); eauto|].
  assert (Forall2 (fun s s' => status_by_node o (sp_traces p) c !! sr_node_id s = Some (sr_status s')) (cr_steps c) steps)
    as Hrel.
  { eapply map_result_Forall2; [exact Hsteps|]. intros s s' Hs E. destruct (Hf s Hs) as (y & E' & Hy). congruence. }
  assert (bool_decide (o = S_SUCCESS) && existsb (fun s => bool_decide (s ∈ [RunNodeStatus.FAILED; RunNodeStatus.TIMEOUT;
            RunNodeStatus.CANCELLED])) ((map_to_list (status_by_node o (sp_traces p) c)).*2) = false) as ->.
  { apply andb_false_iff. destruct (decide (o = S_SUCCESS)) as [->|]; [right | left; by apply bool_decide_false].
    apply not_true_iff_false. intros (s & Hs%list_elem_of_In & Hb%bool_decide_eq_true)%existsb_exists.
    unfold status_by_node in Hs. apply reported_values in Hs as (t & Ht & E); [|done].
    destruct (ts_plain _ _ Hts t Ht) as (x & Ex & _ & Hx & _). specialize (Hx eq_refl). rewrite Ex in E. cbn in E. subst x.
    by destruct s; decide_in Hb; decide_in Hx. }
  cbn. rewrite Hsteps. cbn. eexists. split; [done|].
  assert (desired_case_status (sr_status <$> steps) = case_status o) as Hd.
  { apply (desired_shows o _ _ _ Hso Ho).
    - intros i Hi. rewrite <- Hids in Hi. apply list_elem_of_fmap in Hi as (s & -> & Hs).
      destruct (Forall2_elem_l _ _ _ _ Hrel Hs) as (s' & Hs' & E). eauto.
    - intros s' Hs'. apply Forall2_flip in Hrel. destruct (Forall2_elem_l _ _ _ _ Hrel Hs') as (s & Hs & E).
      exists (sr_node_id s). split; [|done]. rewrite <- Hids. by apply list_elem_of_fmap_2. }
  apply Forall2_length in Hrel. unfold aggregate_case_status. cbn [cr_steps cr_with_steps].
  destruct steps as [|s0 steps]; [by destruct (cr_steps c)|].
  change (cr_status (cr_with_steps c (s0 :: steps))) with (cr_status c). rewrite Hc.
  replace (node_terminal RunNodeStatus.RUNNING) with false by done. rewrite Hd.
  rewrite decide_False by (by destruct o). rewrite decide_False by (by destruct o). done.
Qed.

(** ** The run *)

Lemma complete_core_ok now cx p o :
  r_status (cx_run cx) = RunStatus.RUNNING -> r_case_runs (cx_run cx) = [cx_case cx] -> o <> S_CANCELLED ->
  (forall et em, exists c', finish_scenario_case now o p et em (cx_case cx) = Ok c'
     /\ cr_id c' = cr_id (cx_case cx) /\ cr_status c' = case_status o) ->
  exists et em run', complete_scenario_core now cx p o = Ok (run_status o, et, em, run')
    /\ r_status run' = run_status o /\ r_id run' = r_id (cx_run cx)
    /\ exists c', r_case_runs run' = [c'] /\ cr_id c' = cr_id (cx_case cx) /\ cr_status c' = case_status o.
Proof.
  intros Hr Hcases Ho Hfin. unfold complete_scenario_core.
  destruct (Hfin (safe_error 100 (sp_error_type p)) (safe_error 500 (sp_error_message p))) as (c' & Hc & Hid & Hst).
  destruct (scenario_result o (cx_run cx) _ _) as [[rs et] em] eqn:Er.
  assert (rs = run_status o) as ->.
  { apply (f_equal (fun x => x.1.1)) in Er. cbn [fst] in Er. rewrite <- Er. by destruct o. }
  rewrite decide_False by done. rewrite Hc. unfold mbind, result_bind. cbn beta iota zeta.
  set (run1 := recompute_summary _).
  assert (r_case_runs run1 = [c']) as Hc1.
  { unfold run1, recompute_summary, replace_case. cbn. rewrite Hcases. cbn. by rewrite decide_True by done. }
  assert (r_status run1 = RunStatus.RUNNING) as Hr1 by done.
  assert (r_id run1 = r_id (cx_run cx)) as Hi1 by done.
  assert (ensure_terminal_run_matches_children run1 (run_status o) = Ok tt) as ->.
  { unfold ensure_terminal_run_matches_children. rewrite Hc1. cbn [fmap list_fmap]. rewrite Hst. by destruct o. }
  clearbody run1. cbn. unfold set_run_status. rewrite Hr1, decide_False by (by destruct o).
  rewrite bool_decide_true by (destruct o; [solve_in..|done]). cbn beta iota.
  eexists _, _, _. split; [reflexivity|]. split; [done|]. split; [exact Hi1|]. exists c'. auto.
Qed.

(** What the back end must have for the execution whose report it receives. *)
Record awaits `{Settings} `{Catalog} `{Evaluation} (d : Db) (run_id cred message_id : string) (case_run_id : Z)
    (nodes : list ScenarioNodePlan) (cx : ExecutionContext) : Prop := {
  aw_context : execution_context d run_id cred message_id (Some case_run_id) = Ok cx;
  aw_first : db_scenario_results d !! (r_id (cx_run cx), cr_id (cx_case cx)) = None;
  aw_run : r_status (cx_run cx) = RunStatus.RUNNING;
  aw_case : cr_status (cx_case cx) = RunNodeStatus.RUNNING;
  aw_cases : r_case_runs (cx_run cx) = [cx_case cx];
  aw_steps : sr_node_id <$> cr_steps (cx_case cx) = sn_id <$> nodes;
  aw_open : Forall open_step (cr_steps (cx_case cx));
}.

(** The answer to a report, as the client reads it. *)
Definition complete_answer (x : ScenarioCompleteResponse) : CompleteAnswer :=
  {| ca_outcome := u (RunStatus.value (sx_run_status x)); ca_run_status := u (RunStatus.value (sx_run_status x));
     ca_case_run_status := u (RunNodeStatus.value (sx_case_run_status x)) |}.

Section Composition.
Context `{Settings} `{Catalog} `{Evaluation} {W : Type} `{Unicode} `{Surroundings W}.
Context (sanitize : pytext -> pytext).
Implicit Types (ex : Executor).

(** The back end as the consumer's client, in a given state of the database. *)
Definition report_to (d : Db) (now : datetime) (run_id cred message_id : string) (case_run_id : Z) (c : Completion)
  : answer CompleteAnswer :=
  match request_of sanitize message_id case_run_id c with
  | None => RunnerFailed
  | Some p => match out_result (complete_scenario_execution d now run_id cred p) with
              | Ok x => Answer (complete_answer x)
              | Err (AuthenticationError _) => AuthenticationFailed
              | Err _ => RunnerFailed
              end
  end.

Lemma complete_scenario_accepts d now run_id cred p cx nodes dsl :
  awaits d run_id cred (sp_message_id p) (sp_case_run_id p) nodes cx ->
  load_supported_scenario (cx_run cx) = Ok dsl -> dn_id <$> dsl = sn_id <$> nodes ->
  Forall (fun n => dn_enabled n && dn_ai_assertion n = false) dsl ->
  nodes <> [] -> NoDup (sn_id <$> nodes) -> tc_node_id <$> sp_traces p = sn_id <$> nodes ->
  traces_show (sp_outcome p) (sp_traces p) -> sp_outcome p <> S_CANCELLED -> sp_evaluation_token p = None ->
  out_result (complete_scenario_execution d now run_id cred p)
  = Ok {| sx_run_status := run_status (sp_outcome p); sx_case_run_status := case_status (sp_outcome p);
          sx_idempotent := false |}
  /\ r_status <$> db_runs (out_db (complete_scenario_execution d now run_id cred p)) !! r_id (cx_run cx)
     = Some (run_status (sp_outcome p)).
Proof.
  intros [Hcx Hfirst Hrun Hcase Hcases Hsteps Hopen] Hdsl Hids Hai Hne Hnd Htr Hshow Ho Htok.
  assert (cr_steps (cx_case cx) <> []) as Hsne by (intros E; rewrite E in Hsteps; by destruct nodes).
  destruct (complete_core_ok now cx p (sp_outcome p) Hrun Hcases Ho)
    as (et & em & run' & Hcore & Hst & Hid & c' & Hc' & Hcid & Hcst).
  { intros et em. apply finish_case_ok; rewrite ?Htr; assumption. }
  unfold complete_scenario_execution. rewrite Hcx. cbn. rewrite Hfirst, Hdsl. cbn.
  rewrite decide_False by (by rewrite Hrun).
  assert (complete_scenario_guards cx (sp_outcome p) = Ok tt) as ->.
  { unfold complete_scenario_guards. rewrite decide_False by done. by rewrite Hrun, Hcase. }
  assert (validate_scenario_traces dsl p = Ok tt) as ->.
  { unfold validate_scenario_traces. rewrite check_traces_ok; [|by rewrite Htr|].
    - cbn. replace (forallb _ _) with true; [by rewrite andb_false_r|]. symmetry. apply forallb_forall.
      intros i Hi%list_elem_of_In. apply bool_decide_true. by rewrite Htr, <- Hids.
    - intros t Ht. split; [|by intros ?%elem_of_nil]. rewrite Hids, <- Htr. by apply list_elem_of_fmap_2. }
  assert (check_scenario_evaluation now cx dsl p (sp_outcome p) = Ok tt) as ->.
  { unfold check_scenario_evaluation. rewrite Htok.
    assert (filter (fun n => dn_enabled n && dn_ai_assertion n = true) dsl = []) as ->; [|done].
    clear -Hai. induction Hai as [|n l Hn Hl IH]; [done|]. rewrite filter_cons_False by (by rewrite Hn). done. }
  cbn. rewrite Hsteps, Hids.
  assert (forallb (fun i => bool_decide (i ∈ sn_id <$> nodes)) (sn_id <$> nodes) = true) as Hfa.
  { apply forallb_forall. intros i Hi%list_elem_of_In. by apply bool_decide_true. }
  rewrite Hfa. cbn. rewrite Hcore. cbn. unfold find_case. rewrite Hc', filter_cons_True by done. cbn.
  rewrite Hcst. split; [done|]. rewrite <- Hid, lookup_insert_eq. cbn. by rewrite Hst.
Qed.

Lemma no_cancelled_trace ex w st r : execute ex (initial_state ex w) = (st, Val r) ->
  Forall (fun t => nt_status t <> CANCELLED) (res_traces r).
Proof.
  intros (Hg & -> & _)%execute_inv. rewrite result_traces. apply Forall_forall.
  intros t (n & _ & Ht)%ordered_elem E. apply (good_explained ex st Hg) in Ht. by rewrite E in Ht.
Qed.

Lemma execution_traces_show ex w st r o :
  execute ex (initial_state ex w) = (st, Val r) -> scenario_outcome (res_outcome r) = Some o ->
  traces_show o (trace_request sanitize <$> (wire <$> res_traces r)).
Proof.
  intros E Ho. pose proof (no_cancelled_trace ex w st r E) as Hnc.
  destruct (outcome_sound ex w st r E) as (Hs & Hf & _ & _). rewrite Forall_forall in Hnc. split.
  - intros t (t1 & -> & (t0 & -> & Ht)%list_elem_of_fmap)%list_elem_of_fmap. eexists. split; [reflexivity|].
    specialize (Hnc t0 Ht). split_and!.
    + by destruct (nt_status t0); [solve_in..|done].
    + intros ->. destruct (res_outcome r); try discriminate Ho. specialize (Hs eq_refl). rewrite Forall_forall in Hs.
      destruct (Hs t0 Ht) as [->| ->]; solve_in.
    + intros ->. destruct (res_outcome r); try discriminate Ho. destruct (Hf eq_refl) as [_ Hto].
      rewrite Forall_forall in Hto. specialize (Hto t0 Ht). by destruct (nt_status t0).
  - intros ->. destruct (res_outcome r); try discriminate Ho. destruct (Hf eq_refl) as [Hx _].
    apply Exists_exists in Hx as (t & Ht & Hst). exists (trace_request sanitize (wire t)). split.
    + by apply list_elem_of_fmap_2, list_elem_of_fmap_2.
    + cbn. by rewrite Hst.
Qed.


(** ** Reports the back end refuses *)

Lemma ordered_ids_sublist ex (st : St W) : (forall k t, st_traces st !! k = Some t -> nt_node_id t = k) ->
  nt_node_id <$> ordered_traces ex (st_traces st) `sublist_of` sn_id <$> spl_nodes (ex_plan ex).
Proof.
  intros Hid. unfold ordered_traces. induction (spl_nodes (ex_plan ex)) as [|n l IH]; [constructor|]. cbn.
  destruct (st_traces st !! sn_id n) as [t|] eqn:Ht; cbn; [rewrite (Hid _ _ Ht)|]; by constructor.
Qed.

Lemma reported_ids ex w st r : execute ex (initial_state ex w) = (st, Val r) ->
  nt_node_id <$> res_traces r `sublist_of` sn_id <$> spl_nodes (ex_plan ex).
Proof.
  intros (Hg & -> & _)%execute_inv. rewrite result_traces. apply ordered_ids_sublist.
  intros k t Ht. by apply (wf_id k t), (good_wf ex st Hg).
Qed.

Lemma trace_of_unique l t : NoDup (tc_node_id <$> l) -> t ∈ l -> trace_of l (tc_node_id t) = Some t.
Proof.
  intros Hnd Ht. unfold trace_of. induction l as [|x l IH]; [by apply elem_of_nil in Ht|].
  cbn in Hnd. apply NoDup_cons in Hnd as [Hx Hnd]. apply elem_of_cons in Ht as [<-|Ht]; [by rewrite filter_cons_True|].
  rewrite filter_cons_False; [by apply IH|]. intros E. apply Hx. rewrite E. by apply list_elem_of_fmap_2.
Qed.

(** An unevaluated AI assertion that was not skipped. *)
Lemma unevaluated_refused now cx dsl p o n t : sp_evaluation_token p = None -> NoDup (tc_node_id <$> sp_traces p) ->
  n ∈ dsl -> dn_enabled n && dn_ai_assertion n = true ->
  t ∈ sp_traces p -> tc_node_id t = dn_id n -> tc_status t <> T_NODE RunNodeStatus.SKIPPED ->
  exists e, check_scenario_evaluation now cx dsl p o = Err (RunStateConflictError e).
Proof.
  intros Htok Hnd Hn Hai Ht Hid Hst. unfold check_scenario_evaluation. rewrite Htok. cbn zeta.
  assert (n ∈ filter (fun n => dn_enabled n && dn_ai_assertion n = true) dsl) as Hf by by apply list_elem_of_filter.
  rewrite (bool_decide_false (filter _ _ = [])) by (intros E; rewrite E in Hf; by apply elem_of_nil in Hf).
  assert (existsb (fun n => match trace_of (sp_traces p) (dn_id n) with
                            | Some t => negb (bool_decide (tc_status t = T_NODE RunNodeStatus.SKIPPED))
                            | None => false end)
            (filter (fun n => dn_enabled n && dn_ai_assertion n = true) dsl) = true) as ->.
  { apply existsb_exists. exists n. split; [by apply list_elem_of_In|]. rewrite <- Hid, (trace_of_unique _ _ Hnd Ht).
    by rewrite bool_decide_false. }
  rewrite orb_true_r. cbn. by eexists.
Qed.

Lemma complete_scenario_refuses d now run_id cred p cx nodes dsl n t :
  awaits d run_id cred (sp_message_id p) (sp_case_run_id p) nodes cx ->
  load_supported_scenario (cx_run cx) = Ok dsl -> dn_id <$> dsl = sn_id <$> nodes ->
  NoDup (tc_node_id <$> sp_traces p) -> (forall x, x ∈ sp_traces p -> tc_node_id x ∈ sn_id <$> nodes) ->
  sp_outcome p <> S_SUCCESS -> sp_evaluation_token p = None ->
  n ∈ dsl -> dn_enabled n && dn_ai_assertion n = true ->
  t ∈ sp_traces p -> tc_node_id t = dn_id n -> tc_status t <> T_NODE RunNodeStatus.SKIPPED ->
  exists e, complete_scenario_execution d now run_id cred p = (d, [], Err (RunStateConflictError e)).
Proof.
  intros [Hcx Hfirst Hrun Hcase _ _ _] Hdsl Hids Hnd Hknown Hns Htok Hn Hai Ht Hid Hst.
  unfold complete_scenario_execution. rewrite Hcx. cbn. rewrite Hfirst, Hdsl. cbn. rewrite decide_False by (by rewrite Hrun).
  unfold complete_scenario_guards. destruct (decide (sp_outcome p = S_CANCELLED)) as [Hc|Hc].
  { rewrite Hrun. rewrite bool_decide_false by (intros Hx; decide_in Hx). cbn. by eexists. }
  rewrite Hrun, Hcase. cbn. unfold validate_scenario_traces.
  rewrite check_traces_ok; [|done | intros x Hx; rewrite Hids; split; [by apply Hknown | by intros ?%elem_of_nil]].
  cbn. rewrite (bool_decide_false (sp_outcome p = S_SUCCESS)) by done. cbn.
  destruct (unevaluated_refused now cx dsl p (sp_outcome p) n t) as [e ->]; [done..|]. cbn. by eexists.
Qed.

(** A scenario that did not succeed but got past an AI assertion never
    completes: the executor does not pass the assertion on to be evaluated, so the
    report has no evaluation, and the back end refuses it; the run stays as it was
    and the delivery is thrown away. *)
Theorem failed_scenario_with_ai_refused ex w st r evaluate cleanup d now run_id cred message_id case_run_id cx dsl n t :
  plan_ok (ex_plan ex) = true -> execute ex (initial_state ex w) = (st, Val r) -> res_outcome r <> SUCCESS ->
  awaits d run_id cred message_id case_run_id (spl_nodes (ex_plan ex)) cx ->
  load_supported_scenario (cx_run cx) = Ok dsl -> dn_id <$> dsl = sn_id <$> spl_nodes (ex_plan ex) ->
  n ∈ dsl -> dn_enabled n && dn_ai_assertion n = true ->
  t ∈ res_traces r -> nt_node_id t = dn_id n -> nt_status t <> SKIPPED ->
  complete_scenario_result (spl_nodes (ex_plan ex)) evaluate cleanup
    (report_to d now run_id cred message_id case_run_id) (Reported (SCENARIO_RESULT r)) = REJECTED
  /\ forall c p, completion_of (spl_nodes (ex_plan ex)) evaluate cleanup (Reported (SCENARIO_RESULT r)) = inr c ->
      request_of sanitize message_id case_run_id c = Some p ->
      exists e, complete_scenario_execution d now run_id cred p = (d, [], Err (RunStateConflictError e)).
Proof.
  intros Hplan E Hns Haw Hdsl Hids Hn Hai Ht Hid Hst.
  assert (res_pending_ai r = []) as Hrp.
  { apply execute_inv in E as (_ & -> & _). unfold result_of in *. by repeat case_match. }
  destruct (report_well_formed ex w st r evaluate cleanup Hplan E Hrp) as (c & Hc & Hok & Hco & Hct).
  assert (cp_evaluation_token c = None) as Htok.
  { cbn [completion_of] in Hc. rewrite Hrp in Hc. by injection Hc as <-. }
  pose proof (reported_ids ex w st r E) as Hsub. destruct (plan_ok_ids ex Hplan) as (Hnd & _ & _).
  assert (forall p, request_of sanitize message_id case_run_id c = Some p ->
            exists e, complete_scenario_execution d now run_id cred p = (d, [], Err (RunStateConflictError e))) as Href.
  { intros p Hp. unfold request_of in Hp. rewrite Hco, Hct, Htok in Hp.
    destruct (scenario_outcome (res_outcome r)) as [o|] eqn:Ho; [|discriminate Hp]. injection Hp as <-.
    assert (tc_node_id <$> (trace_request sanitize <$> (wire <$> res_traces r)) = nt_node_id <$> res_traces r) as Hi
      by (by rewrite <- !list_fmap_compose).
    eapply (complete_scenario_refuses _ _ _ _ _ cx (spl_nodes (ex_plan ex)) dsl n (trace_request sanitize (wire t))).
    all: cbn [sp_message_id sp_case_run_id sp_traces sp_outcome sp_evaluation_token]; try done.
    - rewrite Hi. by eapply sublist_NoDup.
    - intros x Hx. eapply list_elem_of_fmap_2 in Hx. rewrite Hi in Hx. by eapply sublist_subseteq.
    - intros ->. by destruct (res_outcome r).
    - by apply list_elem_of_fmap_2, list_elem_of_fmap_2.
    - cbn. intros [= Hx]. by destruct (nt_status t). }
  split; [|intros c' p Hc'; rewrite Hc in Hc'; injection Hc' as <-; apply Href].
  unfold complete_scenario_result. rewrite Hc, Hok. unfold report_to.
  destruct (request_of sanitize message_id case_run_id c) as [p|]; [|done].
  destruct (Href p eq_refl) as [e ->]. done.
Qed.
End Composition.

(** ** Two scenario runs *)

Module CompletionDemo.
Import Demo.

(** Version 1 of the scenario creates, checks and deletes an order; version 2 has
    a check that fails, followed by an AI assertion. *)
Definition judged : ScenarioPlan :=
  ScenarioDemo.plan_of false
    [ScenarioDemo.start; ScenarioDemo.create; ScenarioDemo.check_status 201; ScenarioDemo.judge_ai;
     ScenarioDemo.delete None; ScenarioDemo.finish_].
Definition plan_of_version (v : Z) : ScenarioPlan := if decide (v = 2) then judged else ScenarioWitness.orders.
Definition dsl_of (p : ScenarioPlan) : list DslNode :=
  (fun n => {| dn_id := sn_id n; dn_enabled := sn_enabled n; dn_ai_assertion := bool_decide (sn_type n = AI_ASSERTION) |})
    <$> spl_nodes p.

#[local] Instance scenario_catalog : Catalog := {|
  load_supported_api_case := fun _ _ => Err (RunStateConflictError "");
  load_supported_scenario := fun run =>
    match h_target (r_header run) with
    | ScenarioTarget _ v => Ok (dsl_of (plan_of_version v))
    | _ => Err (RunStateConflictError "")
    end;
  load_pinned_web_case := fun _ => Err (RunStateConflictError "");
  web_session_recovery_binding := fun _ _ _ => Err (RunStateConflictError "");
|}.
#[local] Instance scenario_assets : Assets := {|
  resolve_target := fun p =>
    let v := default 1 (rq_scenario_version_id p) in
    ([], {| ts_target := Some (ScenarioTarget 1 v); ts_required_capabilities := ["API"];
            ts_steps := (fun n => (sn_id n, sn_id n, "NODE")) <$> spl_nodes (plan_of_version v); ts_iterations := [] |});
  get_environment := fun i => if decide (i = 1) then Some {| env_project_id := 1; env_enabled := true |} else None;
  capture_case_run_requirement_sources := fun _ => Ok tt;
|}.

Definition scenario_payload (v : Z) : RunCreateRequest :=
  {| rq_project_id := 1; rq_environment_id := 1; rq_runner_id := "r1"; rq_run_type := RunType.SCENARIO;
     rq_case_id := None; rq_case_version_id := None; rq_scenario_id := Some 1;
     rq_scenario_version_id := Some v; rq_web_case_id := None; rq_web_case_version_id := None;
     rq_required_capabilities := []; rq_required_tags := ["linux"];
     rq_required_slot_type := RunnerSlotType.API; rq_required_slot_count := 1; rq_total_timeout_ms := None |}.

Fixpoint scenario_play (d : Db) (now : Z) (l : list request) : Db :=
  match l with [] => d | q :: l' => scenario_play (handle d now q).1 (now + 1000000) l' end.

(** The run of a version, started. *)
Definition started (v : Z) : Db :=
  scenario_play base_db 0
    [RCreate admin (scenario_payload v) HeartbeatPresent "run_1" 1 1; RDispatch admin "run_1" HeartbeatPresent false "msg_1";
     RPublished "run_1" {| pr_published := true; pr_code := None |}; RClaim "run_1" "credential" "msg_1";
     RStartScenario "run_1" "credential" "msg_1" 1].

(** What the witnesses need of the started run. *)
Lemma started_awaits v : v = 1 \/ v = 2 ->
  exists cx, awaits (started v) "run_1" "credential" "msg_1" 1 (spl_nodes (plan_of_version v)) cx
    /\ load_supported_scenario (cx_run cx) = Ok (dsl_of (plan_of_version v))
    /\ r_id (cx_run cx) = "run_1".
Proof.
  intros [->| ->].
  all: eexists; split; [constructor; [vm_compute; reflexivity.. |] | split; vm_compute; reflexivity].
  all: apply (bool_decide_unpack (Forall (fun s : StepRun => sr_status s ∈ [RunNodeStatus.CREATED; RunNodeStatus.ASSIGNED;
         RunNodeStatus.RUNNING]) _)); vm_compute; exact I.
Qed.

Abbreviation executor := ScenarioDemo.executor_of.
Abbreviation begin := (fun p => initial_state (executor p) (ScenarioDemo.start_world [])).

Lemma orders_plain : Forall (fun n => dn_enabled n && dn_ai_assertion n = false) (dsl_of ScenarioWitness.orders).
Proof. repeat constructor. Qed.
Lemma orders_dsl_ids : dn_id <$> dsl_of ScenarioWitness.orders = sn_id <$> spl_nodes ScenarioWitness.orders.
Proof. reflexivity. Qed.
Lemma judged_ok : plan_ok judged = true.
Proof. vm_compute. reflexivity. Qed.


(** What the executor reports about the second version. *)
Definition judged_facts (r : St ScenarioDemo.world * res ScenarioResult) : option (NodeOutcome * list (string * NodeOutcome)) :=
  match r.2 with
  | Val x => Some (res_outcome x, (fun t => (nt_node_id t, nt_status t)) <$> res_traces x)
  | _ => None
  end.
Lemma judged_runs : judged_facts (execute (executor judged) (begin judged))
  = Some (FAILED, [("start", SUCCESS); ("create", SUCCESS); ("check", FAILED); ("judge", SUCCESS); ("end", SUCCESS)]).
Proof. vm_compute. reflexivity. Qed.
Lemma judged_facts_inv r l : judged_facts r = Some (FAILED, l) -> ("judge", SUCCESS) ∈ l ->
  exists st x t, r = (st, Val x) /\ res_outcome x = FAILED
    /\ t ∈ res_traces x /\ nt_node_id t = "judge" /\ nt_status t = SUCCESS.
Proof.
  destruct r as [st [x|x|]]; cbn; try discriminate. intros [= Ho <-] (t & Et & Ht)%list_elem_of_fmap.
  injection Et as E1 E2. eauto 10.
Qed.

Lemma refused_witness : exists st r, execute (executor judged) (begin judged) = (st, Val r)
  /\ complete_scenario_result (spl_nodes judged) (fun _ => RunnerFailed) (fun _ => None)
       (report_to id (started 2) 9000000 "run_1" "credential" "msg_1" 1) (Reported (SCENARIO_RESULT r)) = REJECTED.
Proof.
  destruct (judged_facts_inv _ _ judged_runs) as (st & r & t & E & Ho & Ht & Hid & Hst);
    [do 3 right; left|].
  destruct (started_awaits 2) as (cx & Haw & Hdsl & _); [right; reflexivity|].
  exists st, r. split; [exact E|].
  destruct (failed_scenario_with_ai_refused id (executor judged) (ScenarioDemo.start_world []) st r
    (fun _ => RunnerFailed) (fun _ => None) (started 2) 9000000 "run_1" "credential" "msg_1" 1 cx (dsl_of judged)
    {| dn_id := "judge"; dn_enabled := true; dn_ai_assertion := true |} t judged_ok E) as [Hrej _].
  - rewrite Ho. discriminate.
  - exact Haw.
  - exact Hdsl.
  - reflexivity.
  - do 3 right. left.
  - reflexivity.
  - exact Ht.
  - exact Hid.
  - rewrite Hst. discriminate.
  - exact Hrej.
Defined.
End CompletionDemo.
