(* ===== verification/PyUrlLemmas.v ===== *)
(** Round trips of the URL functions: UTF-8, percent-encoding, query strings, and
    splitting a URL that was built from its parts. *)
From S2P Require Import Prelude PyText Calendar Json PyJson ScenarioData RunnerValues ScenarioSql PyUrl.
Open Scope N_scope.

Lemma mjoin_fmap_cons {A B} (f : A -> list B) x l : mjoin (f <$> x :: l) = f x ++ mjoin (f <$> l).
Proof. reflexivity. Qed.

Lemma Forall_mjoin {A B} (P : A -> Prop) (Q : B -> Prop) (f : A -> list B) l :
  Forall P l -> (forall x, P x -> Forall Q (f x)) -> Forall Q (mjoin (f <$> l)).
Proof. intros Hl Hf. induction Hl as [|x l Hx Hl IH]; [constructor|]. rewrite mjoin_fmap_cons. apply Forall_app. auto. Qed.

(** ** UTF-8 *)

(** Decides the comparisons of a goal by linear arithmetic. *)
Ltac decide_bytes :=
  repeat match goal with
         | |- context [?a <? ?b] => rewrite (proj2 (N.ltb_lt a b)) by lia
         | |- context [?a <? ?b] => rewrite (proj2 (N.ltb_ge a b)) by lia
         | |- context [?a <=? ?b] => rewrite (proj2 (N.leb_le a b)) by lia
         | |- context [?a <=? ?b] => rewrite (proj2 (N.leb_gt a b)) by lia
         | |- context [?a =? ?b] => rewrite (proj2 (N.eqb_eq a b)) by lia
         | |- context [?a =? ?b] => rewrite (proj2 (N.eqb_neq a b)) by lia
         end; cbn [andb orb negb].

Lemma decode_char_bytes c r : scalar c = true ->
  exists b bs, utf8_bytes c = b :: bs /\ decode_char b (bs ++ r) = (c, length (utf8_bytes c)).
Proof.
  intros Hc. unfold utf8_bytes.
  assert (c < 55296 \/ 57344 <= c < 1114112) as Hr.
  { unfold scalar in Hc. lia. }
  pose proof (N.div_mod c 64 ltac:(lia)) as E1. pose proof (N.mod_lt c 64 ltac:(lia)) as L1.
  pose proof (N.div_mod (c / 64) 64 ltac:(lia)) as E2. pose proof (N.mod_lt (c / 64) 64 ltac:(lia)) as L2.
  pose proof (N.div_mod (c / 4096) 64 ltac:(lia)) as E3. pose proof (N.mod_lt (c / 4096) 64 ltac:(lia)) as L3.
  assert (c / 64 / 64 = c / 4096) as D2 by (rewrite N.Div0.div_div; done).
  assert (c / 4096 / 64 = c / 262144) as D3 by (rewrite N.Div0.div_div; done).
  rewrite D2 in E2. rewrite D3 in E3. clear D2 D3 Hc.
  set (q1 := c / 64) in *. set (q2 := c / 4096) in *. set (q3 := c / 262144) in *.
  set (r1 := c mod 64) in *. set (r2 := q1 mod 64) in *. set (r3 := q2 mod 64) in *.
  clearbody r1 r2 r3 q1 q2 q3.
  destruct (N.ltb_spec c 128); [|destruct (N.ltb_spec c 2048); [|destruct (N.ltb_spec c 65536)]].
  - eexists _, _. split; [done|]. unfold decode_char. decide_bytes. done.
  - eexists _, _. split; [done|]. unfold decode_char, continuation. cbn [app]. decide_bytes. f_equal. lia.
  - eexists _, _. split; [done|]. unfold decode_char, continuation, second_byte. cbn [app].
    destruct (N.eqb_spec (224 + c / 4096) 224), (N.eqb_spec (224 + c / 4096) 237); decide_bytes; f_equal; lia.
  - eexists _, _. split; [done|]. unfold decode_char, continuation, second_byte. cbn [app].
    destruct (N.eqb_spec (240 + c / 262144) 240), (N.eqb_spec (240 + c / 262144) 244); decide_bytes; f_equal; lia.
Qed.

Lemma decode_replace_skip bs r : decode_replace (length bs) (bs ++ r) = decode_replace 0 r.
Proof. induction bs as [|b bs IH]; [done|]. exact IH. Qed.

(** Decoding what was encoded. *)
Lemma decode_encode s : forallb scalar s = true -> decode_replace 0 (mjoin (utf8_bytes <$> s)) = s.
Proof.
  induction s as [|c s IH]; [done|]. cbn [forallb]. intros [Hc Hs]%andb_true_iff. rewrite mjoin_fmap_cons.
  destruct (decode_char_bytes c (mjoin (utf8_bytes <$> s)) Hc) as (b & bs & E & Hd). rewrite E in *.
  cbn [app decode_replace]. rewrite Hd. cbn [length Nat.sub]. rewrite Nat.sub_0_r, decode_replace_skip. f_equal. by apply IH.
Qed.

Lemma utf8_byte_range s : forallb scalar s = true -> Forall (fun b => b < 256) (mjoin (utf8_bytes <$> s)).
Proof.
  induction s as [|c s IH]; [constructor|]. cbn [forallb]. intros [Hc Hs]%andb_true_iff. rewrite mjoin_fmap_cons. apply Forall_app. split; [|auto].
  assert (c < 1114112) as Hr by (unfold scalar in Hc; lia). unfold utf8_bytes.
  pose proof (N.mod_lt c 64 ltac:(lia)). pose proof (N.mod_lt (c / 64) 64 ltac:(lia)).
  pose proof (N.mod_lt (c / 4096) 64 ltac:(lia)).
  destruct (N.ltb_spec c 128); [|destruct (N.ltb_spec c 2048); [|destruct (N.ltb_spec c 65536)]]; repeat constructor; lia.
Qed.

(** ** Percent-encoding *)

Lemma hex_digit_round n : n < 16 -> hex_value (upper_hex n) = Some n.
Proof.
  intros Hn. unfold upper_hex, hex_value. destruct (N.ltb_spec n 10).
  - rewrite (proj2 (N.leb_le 48 (48 + n))), (proj2 (N.leb_le (48 + n) 57)) by lia. cbn [andb]. f_equal. lia.
  - rewrite (proj2 (N.leb_gt (55 + n) 57)) by lia. rewrite andb_false_r, (proj2 (N.leb_gt 97 (55 + n))) by lia. cbn [andb].
    rewrite (proj2 (N.leb_le 65 (55 + n))), (proj2 (N.leb_le (55 + n) 70)) by lia. cbn [andb]. f_equal. lia.
Qed.

(** What [quote_plus] makes of a byte, after plus signs became blanks again. *)
Definition plain_byte (b : N) : pytext :=
  if always_safe b then [b] else if b =? 32 then [32] else [37; upper_hex (b / 16); upper_hex (b mod 16)].

Lemma always_safe_cases b : always_safe b = true -> b <> 37 /\ b <> 43 /\ b <> 38 /\ b <> 61 /\ b <> 35 /\ b <> 63 /\ 32 < b < 128.
Proof. unfold always_safe, is_letter, ascii_digit. intros. lia. Qed.
Lemma upper_hex_cases n : n < 16 -> 48 <= upper_hex n <= 57 \/ 65 <= upper_hex n <= 70.
Proof. intros Hn. unfold upper_hex. destruct (N.ltb_spec n 10); lia. Qed.

Lemma quote_byte_chars b : b < 256 -> Forall (fun c => c <> 38 /\ c <> 61 /\ c <> 35 /\ c <> 63 /\ 32 < c < 128) (quote_byte b).
Proof.
  intros Hb. unfold quote_byte. destruct (always_safe b) eqn:Hs.
  - apply always_safe_cases in Hs. repeat constructor; lia.
  - destruct (N.eqb_spec b 32); [repeat constructor; lia|].
    assert (b / 16 < 16) as H1 by (apply N.Div0.div_lt_upper_bound; lia).
    pose proof (N.mod_lt b 16 ltac:(lia)) as H2.
    apply upper_hex_cases in H1, H2. repeat constructor; lia.
Qed.

Lemma plus_to_space_app s t : plus_to_space (s ++ t) = plus_to_space s ++ plus_to_space t.
Proof. apply fmap_app. Qed.
Lemma plus_quote_byte b : b < 256 -> plus_to_space (quote_byte b) = plain_byte b.
Proof.
  intros Hb. unfold quote_byte, plain_byte, plus_to_space. destruct (always_safe b) eqn:Hs.
  - apply always_safe_cases in Hs. cbn. decide_bytes. done.
  - destruct (N.eqb_spec b 32); [done|]. cbn.
    assert (b / 16 < 16) as H1 by (apply N.Div0.div_lt_upper_bound; lia).
    pose proof (N.mod_lt b 16 ltac:(lia)) as H2. apply upper_hex_cases in H1, H2.
    rewrite (proj2 (N.eqb_neq (upper_hex (b / 16)) 43)) by lia.
    rewrite (proj2 (N.eqb_neq (upper_hex (b mod 16)) 43)) by lia. done.
Qed.

Lemma percent_plain bs : Forall (fun b => b < 256) bs -> percent_bytes 0 (mjoin (plain_byte <$> bs)) = bs.
Proof.
  induction 1 as [|b bs Hb Hbs IH]; [done|]. rewrite mjoin_fmap_cons. unfold plain_byte at 1.
  destruct (always_safe b) eqn:Hs.
  - apply always_safe_cases in Hs. cbn. rewrite (proj2 (N.eqb_neq b 37)) by lia. cbn. by rewrite IH.
  - destruct (N.eqb_spec b 32) as [->|]; [cbn; by rewrite IH|].
    assert (b / 16 < 16) as H1 by (apply N.Div0.div_lt_upper_bound; lia).
    pose proof (N.mod_lt b 16 ltac:(lia)) as H2.
    pose proof (N.div_mod b 16 ltac:(lia)) as E.
    cbn -[N.div N.modulo]. rewrite (hex_digit_round _ H1), (hex_digit_round _ H2). cbn -[N.div N.modulo].
    rewrite IH. f_equal. lia.
Qed.

Lemma plain_byte_ascii b : b < 256 -> Forall (fun c => c < 128) (plain_byte b).
Proof.
  intros Hb. unfold plain_byte. destruct (always_safe b) eqn:Hs.
  - apply always_safe_cases in Hs. repeat constructor; lia.
  - destruct (N.eqb_spec b 32); [repeat constructor; lia|].
    assert (b / 16 < 16) as H1 by (apply N.Div0.div_lt_upper_bound; lia).
    pose proof (N.mod_lt b 16 ltac:(lia)) as H2. apply upper_hex_cases in H1, H2. repeat constructor; lia.
Qed.

Lemma unquote_runs_ascii run s : Forall (fun c => c < 128) s ->
  unquote_runs run s = decode_replace 0 (percent_bytes 0 (reverse run ++ s)).
Proof.
  intros Hs. revert run. induction Hs as [|c s Hc Hs IH]; intros run; cbn [unquote_runs]; [by rewrite app_nil_r|].
  rewrite (proj2 (N.ltb_lt c 128)) by lia. rewrite IH, reverse_cons, <- app_assoc. done.
Qed.

Lemma percent_none s : existsb (N.eqb 37) s = false -> percent_bytes 0 s = s.
Proof.
  induction s as [|c s IH]; [done|]. cbn [existsb]. intros [Hc Hs]%orb_false_iff. rewrite N.eqb_sym in Hc.
  cbn [percent_bytes]. rewrite Hc. by rewrite IH.
Qed.

Lemma decode_ascii s : Forall (fun c => c < 128) s -> decode_replace 0 s = s.
Proof.
  induction 1 as [|c s Hc Hs IH]; [done|]. cbn. unfold decode_char. rewrite (proj2 (N.ltb_lt c 128)) by lia. cbn. by rewrite IH.
Qed.

(** [unquote] of ASCII text. *)
Lemma unquote_ascii s : Forall (fun c => c < 128) s -> unquote s = decode_replace 0 (percent_bytes 0 s).
Proof.
  intros Hs. unfold unquote. destruct (existsb (N.eqb 37) s) eqn:E; [by apply unquote_runs_ascii|].
  rewrite (percent_none s E). symmetry. by apply decode_ascii.
Qed.

Lemma quote_plus_inv s q : quote_plus s = Some q ->
  forallb scalar s = true /\ q = mjoin (quote_byte <$> mjoin (utf8_bytes <$> s)).
Proof. unfold quote_plus, utf8_encode. destruct (forallb scalar s); [|done]. cbn. by intros [= <-]. Qed.

Lemma plus_quote_bytes bs : Forall (fun b => b < 256) bs -> plus_to_space (mjoin (quote_byte <$> bs)) = mjoin (plain_byte <$> bs).
Proof. induction 1 as [|b bs Hb Hbs IH]; [done|]. rewrite !mjoin_fmap_cons. by rewrite plus_to_space_app, plus_quote_byte, IH. Qed.

(** What [quote_plus] encodes, [parse_qsl] decodes. *)
Lemma unquote_quote s q : quote_plus s = Some q -> unquote (plus_to_space q) = s.
Proof.
  intros [Hs ->]%quote_plus_inv. pose proof (utf8_byte_range s Hs) as Hb. rewrite plus_quote_bytes by done.
  rewrite unquote_ascii by (eapply Forall_mjoin; [exact Hb | apply plain_byte_ascii]). rewrite percent_plain by done.
  by apply decode_encode.
Qed.
Lemma quote_plus_chars s q : quote_plus s = Some q ->
  Forall (fun c => c <> 38 /\ c <> 61 /\ c <> 35 /\ c <> 63 /\ 32 < c < 128) q.
Proof.
  intros [Hs ->]%quote_plus_inv. pose proof (utf8_byte_range s Hs) as Hb.
  eapply Forall_mjoin; [exact Hb | apply quote_byte_chars].
Qed.

(** ** Query strings *)

Lemma split_on_none sep s : Forall (fun c => c <> sep) s -> split_on sep s = [s].
Proof.
  induction 1 as [|c s Hc Hs IH]; [done|]. cbn [split_on]. rewrite (proj2 (N.eqb_neq c sep) Hc), IH. done.
Qed.
Lemma split_on_before sep s t : Forall (fun c => c <> sep) s -> split_on sep (s ++ sep :: t) = s :: split_on sep t.
Proof.
  induction 1 as [|c s Hc Hs IH]; cbn [app split_on]; [by rewrite N.eqb_refl|].
  rewrite (proj2 (N.eqb_neq c sep) Hc), IH. done.
Qed.
Lemma split_join sep l : l <> [] -> Forall (Forall (fun c => c <> sep)) l -> split_on sep (join sep l) = l.
Proof.
  intros Hne Hl. induction Hl as [|s l Hs Hl IH]; [done|]. destruct l as [|t l]; cbn [join]; [by apply split_on_none|].
  rewrite split_on_before by done. f_equal. by apply IH.
Qed.
Lemma partition_app sep s t : Forall (fun c => c <> sep) s -> partition_on sep (s ++ sep :: t) = Some (s, t).
Proof.
  induction 1 as [|c s Hc Hs IH]; cbn [app partition_on]; [by rewrite N.eqb_refl|].
  rewrite (proj2 (N.eqb_neq c sep) Hc), IH. done.
Qed.
Lemma partition_none sep s : Forall (fun c => c <> sep) s -> partition_on sep s = None.
Proof.
  induction 1 as [|c s Hc Hs IH]; [done|]. cbn [partition_on]. by rewrite (proj2 (N.eqb_neq c sep) Hc), IH.
Qed.

(** The characters of an encoded query. *)
Definition query_char (c : N) : Prop := c <> 35 /\ c <> 63 /\ 32 < c < 128.

Lemma encode_pair_chars p e : encode_pair p = Some e -> Forall query_char e /\ Forall (fun c => c <> 38) e /\ e <> [].
Proof.
  unfold encode_pair. destruct (quote_plus p.1) as [k|] eqn:Ek; [|done]. destruct (quote_plus p.2) as [v|] eqn:Ev; [|done].
  cbn. intros [= <-]. apply quote_plus_chars in Ek, Ev. unfold query_char. split_and!.
  - apply Forall_app. split; [eapply Forall_impl; [exact Ek | cbn; lia]|]. constructor; [lia|].
    eapply Forall_impl; [exact Ev | cbn; lia].
  - apply Forall_app. split; [eapply Forall_impl; [exact Ek | cbn; lia]|]. constructor; [lia|].
    eapply Forall_impl; [exact Ev | cbn; lia].
  - by destruct k.
Qed.
Lemma parse_encode_pair p e : encode_pair p = Some e -> parse_pair true e = Some p.
Proof.
  intros E. destruct (encode_pair_chars p e E) as (_ & _ & Hne). unfold encode_pair in E.
  destruct (quote_plus p.1) as [k|] eqn:Ek; [|done]. destruct (quote_plus p.2) as [v|] eqn:Ev; [|done]. injection E as <-.
  unfold parse_pair. rewrite partition_app.
  2:{ eapply Forall_impl; [exact (quote_plus_chars _ _ Ek) | cbn; lia]. }
  cbn. rewrite (unquote_quote _ _ Ek), (unquote_quote _ _ Ev). destruct (k ++ 61 :: v) eqn:E; [done|]. by destruct p.
Qed.

Lemma urlencode_chars l q : urlencode l = Some q -> Forall query_char q.
Proof.
  unfold urlencode. destruct (mapM encode_pair l) as [es|] eqn:E; [|done]. intros [= <-].
  apply mapM_Some in E. assert (Forall (Forall query_char) es) as Hes.
  { induction E as [|p e l es He Hl IH]; constructor; [by apply (encode_pair_chars p e He) | done]. }
  clear E. induction Hes as [|e es He Hes IH]; [constructor|]. destruct es; cbn [join]; [done|].
  apply Forall_app. split; [done|]. constructor; [unfold query_char; lia | exact IH].
Qed.

Lemma parse_encode_pairs l es : Forall2 (fun p e => encode_pair p = Some e) l es ->
  omap (parse_pair true) es = l /\ Forall (Forall (fun c => c <> 38)) es.
Proof.
  induction 1 as [|p e l es He Hl [IH1 IH2]]; [done|]. split.
  - cbn. rewrite (parse_encode_pair p e He). by f_equal.
  - constructor; [by apply (encode_pair_chars p e He) | done].
Qed.

(** A query string that was built is read back as it was. *)
Lemma parse_urlencode l q : urlencode l = Some q -> parse_qsl true q = l.
Proof.
  unfold urlencode. destruct (mapM encode_pair l) as [es|] eqn:E; [|done]. intros [= <-]. apply mapM_Some in E.
  destruct (parse_encode_pairs l es E) as [Hp Hc]. destruct E as [|p e l es He Hl]; [done|].
  unfold parse_qsl. destruct (join 38 (e :: es)) as [|c q] eqn:Ej.
  { destruct (encode_pair_chars p e He) as (_ & _ & Hne). destruct e; [done|]. by destruct es. }
  by rewrite <- Ej, split_join.
Qed.

(** ** Splitting what was built *)

Definition clean_char (c : N) : Prop := c <> 9 /\ c <> 10 /\ c <> 13.

(** The results of [urlsplit] with a scheme and a network location. *)
Record canonical `{UrlLibrary} (r : SplitResult) : Prop := {
  can_scheme : exists c a, us_scheme r = c :: a /\ is_letter c = true /\ forallb scheme_char (c :: a) = true
    /\ ascii_lower (c :: a) = c :: a;
  can_netloc : Forall (fun c => netloc_char c = true /\ clean_char c) (us_netloc r);
  can_brackets : (has 91 (us_netloc r) || has 93 (us_netloc r)) && negb (bracketed_netloc (us_netloc r)) = false;
  can_netloc_ok : netloc_ok (us_netloc r) = true;
  can_path : Forall (fun c => c <> 35 /\ c <> 63 /\ clean_char c) (us_path r);
  can_root : us_path r = [] \/ exists p, us_path r = 47 :: p;
  can_query : Forall (fun c => c <> 35 /\ clean_char c) (us_query r);
  can_fragment : Forall clean_char (us_fragment r);
}.

Lemma filter_all {A} (l : list A) (Q : A -> Prop) `{!forall a, Decision (Q a)} : Forall Q l -> filter Q l = l.
Proof. intros Hl. induction Hl as [|a l Ha _ IH]; [reflexivity|]. rewrite filter_cons, decide_True by done. by f_equal. Qed.
Lemma span_stop f s t : Forall (fun c => f c = true) s -> match t with [] => True | c :: _ => f c = false end ->
  span f (s ++ t) = (length s, t).
Proof.
  intros Hs Ht. induction Hs as [|c s Hc Hs IH]; cbn [app span length].
  - destruct t as [|c t]; [done|]. cbn. by rewrite Ht.
  - by rewrite Hc, IH.
Qed.
Lemma before_app c s t : Forall (fun x => x <> c) s -> before c (s ++ c :: t) = s /\ beyond c (s ++ c :: t) = t.
Proof. intros Hs. unfold before, beyond. by rewrite partition_app. Qed.
Lemma before_none c s : Forall (fun x => x <> c) s -> before c s = s /\ beyond c s = [].
Proof. intros Hs. unfold before, beyond. by rewrite partition_none. Qed.

Lemma strip_prefix_app p s : strip_prefix p (p ++ s) = Some s.
Proof. unfold strip_prefix. rewrite take_app_length, decide_True by done. by rewrite drop_app_length. Qed.
Lemma strip_prefix_Some p s r : strip_prefix p s = Some r -> s = p ++ r.
Proof.
  unfold strip_prefix. destruct (decide _) as [E|]; [|done]. intros [= <-]. rewrite <- E at 1. by rewrite take_drop.
Qed.

(** An optional part after its separator. *)
Definition part (c : N) (s : pytext) : pytext := match s with [] => [] | _ => c :: s end.
Lemma part_split c s t : Forall (fun x => x <> c) s -> before c (s ++ part c t) = s /\ beyond c (s ++ part c t) = t.
Proof. intros Hs. destruct t; cbn [part]; [rewrite app_nil_r; by apply before_none | by apply before_app]. Qed.

Section Split.
Context `{UrlLibrary}.

Lemma urlunsplit_canonical r : canonical r ->
  urlunsplit r = us_scheme r ++ 58 :: 47 :: 47 :: us_netloc r ++ (us_path r ++ part 63 (us_query r)) ++ part 35 (us_fragment r).
Proof.
  intros Hr. unfold urlunsplit. rewrite <- !app_assoc.
  destruct (can_root r Hr) as [->|(p & ->)]; destruct (us_query r), (us_fragment r); reflexivity.
Qed.

Lemma Forall_part (P : N -> Prop) c s : P c -> Forall P s -> Forall P (part c s).
Proof. intros Hc Hs. destruct s; [constructor|]. by constructor. Qed.

Lemma urlsplit_urlunsplit r : canonical r -> urlsplit (urlunsplit r) = Some r.
Proof.
  intros Hr. rewrite urlunsplit_canonical by done.
  destruct (can_scheme r Hr) as (c & a & Es & Hc & Ha & Hl). destruct Hr as [_ Hn Hb Hok Hp Hroot Hq Hf].
  set (body := us_path r ++ part 63 (us_query r)).
  assert (Forall (fun x => x <> 35 /\ clean_char x) body) as Hbody.
  { apply Forall_app. split; [eapply Forall_impl; [exact Hp | unfold clean_char; cbn; tauto]|].
    apply Forall_part; [unfold clean_char; lia | done]. }
  assert (Forall (fun x => scheme_char x = true) (c :: a)) as Hsc by (apply Forall_forall; intros x Hx; by
    eapply forallb_forall in Ha; [|apply list_elem_of_In]).
  assert (forall x, scheme_char x = true -> x <> 58 /\ clean_char x /\ 32 < x) as Hsx.
  { intros x. unfold scheme_char, is_letter, ascii_digit, clean_char. lia. }
  unfold urlsplit, urlsplit_with.
  assert (clean_url (us_scheme r ++ 58 :: 47 :: 47 :: us_netloc r ++ body ++ part 35 (us_fragment r))
          = us_scheme r ++ 58 :: 47 :: 47 :: us_netloc r ++ body ++ part 35 (us_fragment r)) as ->.
  { unfold clean_url. rewrite Es. cbn [app span].
    pose proof (Hsx c ltac:(by inversion Hsc)) as (_ & _ & Hgt).
    rewrite (proj2 (N.leb_gt c 32)) by lia. cbn [snd]. apply filter_all.
    assert (Forall clean_char (c :: a ++ 58 :: 47 :: 47 :: us_netloc r ++ body ++ part 35 (us_fragment r))) as Hall.
    { change (c :: a ++ ?x) with ((c :: a) ++ x). apply Forall_app. split.
      - eapply Forall_impl; [exact Hsc|]. intros x Hx. by apply Hsx.
      - repeat (constructor; [unfold clean_char; lia|]). apply Forall_app. split.
        + eapply Forall_impl; [exact Hn | by intros ? []].
        + apply Forall_app. split; [eapply Forall_impl; [exact Hbody | by intros ? []]|].
          apply Forall_part; [unfold clean_char; lia | done]. }
    eapply Forall_impl; [exact Hall|]. unfold clean_char. intros x Hx. lia. }
  unfold split_scheme. rewrite Es, partition_app by (eapply Forall_impl; [exact Hsc | intros x Hx; by apply Hsx]).
  rewrite Hc, Ha, Hl. cbn [andb]. unfold split_netloc.
  change (47 :: 47 :: ?x) with ([47; 47] ++ x). rewrite strip_prefix_app, span_stop.
  2:{ eapply Forall_impl; [exact Hn | by intros ? []]. }
  2:{ unfold body. destruct Hroot as [->|(p & ->)]; [|done]. destruct (us_query r); [|done]. by destruct (us_fragment r). }
  rewrite take_app_length, Hb, Hok. cbn [negb].
  destruct (part_split 35 body (us_fragment r)) as [-> ->]; [eapply Forall_impl; [exact Hbody | by intros ? []]|].
  unfold body. destruct (part_split 63 (us_path r) (us_query r)) as [-> ->]; [eapply Forall_impl; [exact Hp | intros x Hx; apply Hx]|].
  rewrite <- Es. by destruct r.
Qed.

Lemma partition_Some c s a b : partition_on c s = Some (a, b) -> s = a ++ c :: b /\ Forall (fun x => x <> c) a.
Proof.
  revert a. induction s as [|x s IH]; intros a; [done|]. cbn [partition_on].
  destruct (N.eqb_spec x c) as [->|Hx]; [intros [= <- <-]; by split|].
  destruct (partition_on c s) as [[a' b']|]; [|done]. cbn. intros [= <- <-]. destruct (IH a' eq_refl) as [-> Ha].
  split; [done | by constructor].
Qed.
Lemma partition_None c s : partition_on c s = None -> Forall (fun x => x <> c) s.
Proof.
  induction s as [|x s IH]; [constructor|]. cbn [partition_on]. destruct (N.eqb_spec x c); [done|].
  destruct (partition_on c s) as [[a b]|]; [done|]. constructor; auto.
Qed.
(** The parts of a text keep what all its characters have. *)
Lemma before_beyond (P : N -> Prop) c s : Forall P s ->
  Forall (fun x => P x /\ x <> c) (before c s) /\ Forall P (beyond c s).
Proof.
  intros Hs. unfold before, beyond. destruct (partition_on c s) as [[a b]|] eqn:E.
  - apply partition_Some in E as [-> Ha]. apply Forall_app in Hs as [Hs1 Hs2]. split; [|by inversion Hs2].
    apply Forall_and. done.
  - apply partition_None in E. split; [by apply Forall_and | constructor].
Qed.
Lemma before_head c x s : x <> c -> exists p, before c (x :: s) = x :: p.
Proof.
  intros Hx. unfold before. cbn [partition_on]. rewrite (proj2 (N.eqb_neq x c) Hx).
  destruct (partition_on c s) as [[a b]|]; by eexists.
Qed.
Lemma span_parts f s : Forall (fun c => f c = true) (take (fst (span f s)) s)
  /\ s = take (fst (span f s)) s ++ snd (span f s)
  /\ match snd (span f s) with [] => True | c :: _ => f c = false end.
Proof.
  induction s as [|c s IH]; cbn [span]; [by repeat constructor|]. destruct (f c) eqn:Hc; [|by cbn].
  destruct (span f s) as [n r]. cbn in *. destruct IH as (H1 & H2 & H3). split_and!; [by constructor | by f_equal | done].
Qed.

Lemma clean_url_clean s : Forall clean_char (clean_url s).
Proof.
  unfold clean_url. apply Forall_forall. intros c [Hc _]%list_elem_of_filter. unfold clean_char. lia.
Qed.

Lemma ascii_lower_letter c : is_letter c = true -> exists c', ascii_lower [c] = [c'] /\ is_letter c' = true /\ ascii_lower [c'] = [c'].
Proof.
  unfold is_letter, ascii_lower. intros Hc. cbn. eexists. split; [done|].
  destruct ((65 <=? c) && (c <=? 90)) eqn:E; [|by rewrite E]. split; [lia|].
  replace ((65 <=? c + 32) && (c + 32 <=? 90)) with false by lia. done.
Qed.
Lemma ascii_lower_scheme a : forallb scheme_char a = true ->
  forallb scheme_char (ascii_lower a) = true /\ ascii_lower (ascii_lower a) = ascii_lower a.
Proof.
  induction a as [|c a IH]; [done|]. cbn [forallb ascii_lower fmap list_fmap]. intros [Hc [IH1 IH2]%IH]%andb_true_iff.
  fold (ascii_lower a) in *. rewrite IH1. unfold ascii_lower in IH2 |- *. rewrite IH2. clear IH1 IH2.
  unfold scheme_char, is_letter, ascii_digit in *. destruct ((65 <=? c) && (c <=? 90)) eqn:E; [|rewrite E; split; [lia|done]].
  split; [lia|]. by replace ((65 <=? c + 32) && (c + 32 <=? 90)) with false by lia.
Qed.

Lemma split_scheme_parts url : Forall clean_char url -> let '(scheme, rest) := split_scheme [] url in
  Forall clean_char rest
  /\ (scheme <> [] -> exists c a, scheme = c :: a /\ is_letter c = true /\ forallb scheme_char (c :: a) = true
        /\ ascii_lower (c :: a) = c :: a).
Proof.
  intros Hu. unfold split_scheme. destruct (partition_on 58 url) as [[[|c a] rest]|] eqn:E; [done| |done].
  apply partition_Some in E as [-> _]. pose proof Hu as [_ Hrest]%Forall_app.
  destruct (is_letter c && forallb scheme_char (c :: a)) eqn:Hs; [|split; [|done]].
  - split; [by inversion Hrest|]. intros _. apply andb_true_iff in Hs as [Hc Hs].
    destruct (ascii_lower_letter c Hc) as (c' & E1 & E2 & _). destruct (ascii_lower_scheme _ Hs) as [H1 H2].
    change (ascii_lower (c :: a)) with (ascii_lower [c] ++ ascii_lower a) in *. rewrite E1 in *.
    exists c', (ascii_lower a). done.
  - done.
Qed.

Lemma urlsplit_canonical url r : urlsplit url = Some r -> us_scheme r <> [] -> us_netloc r <> [] -> canonical r.
Proof.
  unfold urlsplit, urlsplit_with. pose proof (split_scheme_parts _ (clean_url_clean url)) as Hsc.
  destruct (split_scheme [] (clean_url url)) as [scheme rest]. destruct Hsc as [Hrest Hscheme].
  destruct (split_netloc rest) as [netloc tail] eqn:En.
  destruct (_ && negb (bracketed_netloc netloc)) eqn:Hb; [done|]. destruct (negb (netloc_ok netloc)) eqn:Ho; [done|].
  intros [= <-]. cbn [us_scheme us_netloc]. intros Hs Hn.
  assert (Forall (fun c => netloc_char c = true /\ clean_char c) netloc /\ Forall clean_char tail
          /\ match tail with [] => True | c :: _ => netloc_char c = false end) as (Hnl & Htail & Hstop).
  { unfold split_netloc in En. destruct (strip_prefix [47; 47] rest) as [r|] eqn:Er; [|by injection En as <- _].
    apply strip_prefix_Some in Er as ->. apply Forall_app in Hrest as [_ Hrest].
    destruct (span_parts netloc_char r) as (H1 & H2 & H3). destruct (span netloc_char r) as [n t].
    cbn [fst snd] in *. injection En as <- <-. rewrite H2 in Hrest.
    apply Forall_app in Hrest as [Hr1 Hr2]. split_and!; [by apply Forall_and | done | done]. }
  destruct (before_beyond clean_char 35 tail Htail) as [Hbody Hfrag].
  destruct (before_beyond (fun x => clean_char x /\ x <> 35) 63 (before 35 tail) Hbody) as [Hpath Hquery].
  split; cbn [us_scheme us_netloc us_path us_query us_fragment]; auto.
  - by apply negb_false_iff.
  - eapply Forall_impl; [exact Hpath|]. by intros x [[? ?] ?].
  - destruct tail as [|c tail]; [by left|]. unfold netloc_char in Hstop.
    destruct (N.eqb_spec c 35) as [->|H35]; [left; unfold before at 2; cbn; done|].
    destruct (before_head 35 c tail H35) as [p ->].
    destruct (N.eqb_spec c 63) as [->|H63]; [left; done|].
    destruct (before_head 63 c p H63) as [p' ->]. right. exists p'. f_equal. lia.
  - eapply Forall_impl; [exact Hquery|]. by intros x [? ?].
Qed.

Lemma with_query_canonical q r : canonical r -> Forall (fun c => c <> 35 /\ clean_char c) q -> canonical (with_query q r).
Proof. intros [] Hq. by split. Qed.

(** A URL whose query was replaced has the new query. *)
Lemma urlsplit_with_query url r q : urlsplit url = Some r -> us_scheme r <> [] -> us_netloc r <> [] -> Forall query_char q ->
  urlsplit (urlunsplit (with_query q r)) = Some (with_query q r).
Proof.
  intros E Hs Hn Hq. apply urlsplit_urlunsplit, with_query_canonical; [by eapply urlsplit_canonical|].
  eapply Forall_impl; [exact Hq|]. unfold query_char, clean_char. lia.
Qed.
End Split.
