(* ===== verification/Envelope.v ===== *)
(** The task envelope on both sides of the broker: the message body the back end
    publishes ([RunTaskEnvelope.model_dump] in [runs/schemas.py], [to_utc_isoformat]
    in [core/time.py], [RabbitMQTaskPublisher.publish] in
    [infrastructure/rabbitmq/client.py]) and the runner's strict parser
    ([runner/envelope.py]).  A body is the list of its bytes; Python's recursion
    limit is not modelled. *)
From S2P Require Import Prelude PyText Calendar Json PyJson RunData RunDispatch ScenarioData RunnerValues ScenarioSql PyUrl.
Open Scope Z_scope.

(** ** What the modules use of [str], [bytes] and [datetime] *)

(** [bs.decode("utf-8")]: every character must be the one whose encoding is
    there; [None] stands for [UnicodeDecodeError].  [skip] counts the bytes of the
    last character still to pass. *)
Fixpoint decode_strict (skip : nat) (bs : list N) : option pytext :=
  match bs with
  | [] => Some []
  | b :: r =>
      match skip with
      | S k => decode_strict k r
      | O =>
          let '(c, n) := decode_char b r in
          if decide (utf8_bytes c = take n (b :: r)) then cons c <$> decode_strict (n - 1) r else None
      end
  end.

(** [f"{z:0{n}d}"] for [0 <= z < 10 ** n]. *)
Fixpoint padded (n : nat) (z : Z) : pytext :=
  match n with O => [] | S n' => padded n' (z / 10) ++ [(48 + Z.to_N (z mod 10))%N] end.

(** The datetimes Python has: the years 1 to 9999. *)
Definition datetime_min : Z := -62135596800000000.
Definition datetime_max : Z := 253402300799999999.

(** [datetime.isoformat()] without its offset. *)
Definition wall_text (t : Z) : pytext :=
  let d := date_of (t / day_us) in
  let us := t mod day_us in
  padded 4 (year d) ++ u "-" ++ padded 2 (month d) ++ u "-" ++ padded 2 (day d) ++ u "T"
  ++ padded 2 (us / 3600000000) ++ u ":" ++ padded 2 (us / 60000000 mod 60) ++ u ":"
  ++ padded 2 (us / 1000000 mod 60)
  ++ (if decide (us mod 1000000 = 0) then [] else u "." ++ padded 6 (us mod 1000000)).

(** [to_utc_isoformat] of a UTC datetime. *)
Definition to_utc_isoformat (t : Z) : pytext := wall_text t ++ u "+00:00".

(** [n] ASCII digits. *)
Definition fixed_digits (n : nat) (s : pytext) : option (Z * pytext) :=
  let ds := take n s in
  if decide (length ds = n /\ Forall (fun c => ascii_digit c = true) ds)
  then Some (digits_value 0 ds, drop n s) else None.

(** The next character must be [c]. *)
Definition expect (c : N) (s : pytext) : option pytext :=
  match s with x :: r => if (x =? c)%N then Some r else None | [] => None end.

(** The fraction of a second, in microseconds: the digits beyond the sixth are
    dropped. *)
Definition fraction (s : pytext) : option (Z * pytext) :=
  match s with
  | 46%N :: r =>
      let '(ds, r') := take_digits r in
      if decide (ds = []) then None
      else let ds := take 6 ds in Some (digits_value 0 ds * 10 ^ (6 - Z.of_nat (length ds)), r')
  | _ => Some (0, s)
  end.

(** [datetime.fromisoformat] on a text of the shape
    [YYYY-MM-DDThh:mm:ss[.f+](+|-)hh:mm]; [None] stands for [ValueError].  The
    minutes of the offset are not checked on their own, only the whole offset. *)
Definition fromisoformat (s : pytext) : option pydatetime :=
  '(yy, s) ← fixed_digits 4 s; s ← expect 45 s;
  '(mo, s) ← fixed_digits 2 s; s ← expect 45 s;
  '(dd, s) ← fixed_digits 2 s; s ← expect 84 s;
  '(hh, s) ← fixed_digits 2 s; s ← expect 58 s;
  '(mi, s) ← fixed_digits 2 s; s ← expect 58 s;
  '(ss, s) ← fixed_digits 2 s; '(us, s) ← fraction s;
  '(sign, s) ← match s with 43%N :: r => Some (1, r) | 45%N :: r => Some (-1, r) | _ => None end;
  '(oh, s) ← fixed_digits 2 s; s ← expect 58 s;
  '(om, s) ← fixed_digits 2 s;
  let offset := sign * (oh * 60 + om) * minute_us in
  if decide (s = [] /\ 1 <= yy /\ 1 <= mo <= 12 /\ 1 <= dd <= days_in_month yy mo
             /\ hh <= 23 /\ mi <= 59 /\ ss <= 59 /\ Z.abs offset < day_us)
  then Some (Aware (day_number {| year := yy; month := mo; day := dd |} * day_us
                    + ((hh * 60 + mi) * 60 + ss) * 1000000 + us) offset)
  else None.

(** ** The publisher's body *)

(** [RunTaskEnvelope.model_dump(mode="json")]. *)
Definition envelope_fields (p : TaskPayload) : list (pytext * json) :=
  [(u "schema_version", JInt (tp_schema_version p)); (u "message_id", JStr (u (tp_message_id p)));
   (u "run_id", JStr (u (tp_run_id p))); (u "runner_id", JStr (u (tp_runner_id p)));
   (u "run_type", JStr (u (tp_run_type p))); (u "required_slot_type", JStr (u (tp_required_slot_type p)));
   (u "attempt", JInt (tp_attempt p)); (u "enqueued_at", JStr (to_utc_isoformat (tp_enqueued_at p)))].

(** The first line of [publish]: the body of a payload. *)
Definition publish_body (payload : list (pytext * json)) : option (list N) := utf8_encode (json_dumps (JDict payload)).

(** ** The runner's parser *)

Definition MAX_ENVELOPE_BYTES : nat := 64 * 1024.

(** What a parser raises: [EnvelopeError] with its message, or the [TypeError] of
    looking an unhashable value up in a set. *)
Inductive failure := EnvelopeError (message : string) | UnhashableType.
Inductive parsed (A : Type) := Parsed (a : A) | Raised (e : failure).
Arguments Parsed {A}.
Arguments Raised {A}.
#[global] Instance parsed_bind : MBind parsed := fun A B f r =>
  match r with Parsed a => f a | Raised e => Raised e end.
Definition ensure (b : bool) (message : string) : parsed unit :=
  if b then Parsed tt else Raised (EnvelopeError message).

(** [_object_without_duplicates]. *)
Fixpoint object_without_duplicates (result pairs : list (pytext * json)) : option (list (pytext * json)) :=
  match pairs with
  | [] => Some result
  | (key, value) :: rest =>
      if has_field key result then None else object_without_duplicates (set_field key value result) rest
  end.

(** [json.loads] with [object_pairs_hook=_object_without_duplicates] and
    [parse_constant=_reject_constant]. *)
Definition strict_decoder : decoder :=
  {| dec_constants := finite_constants; dec_object := object_without_duplicates [] |}.

(** [_decode_object]; [parse_task_envelope] begins with the same statements. *)
Definition decode_object (body : list N) (label : string) : parsed (list (pytext * json)) :=
  _ ← ensure (length body <=? MAX_ENVELOPE_BYTES)%nat (label +:+ "为空、类型无效或超过大小限制");
  match (s ← decode_strict 0 body; json_loads_with strict_decoder s) with
  | None => Raised (EnvelopeError (label +:+ " JSON 无效"))
  | Some (JDict fields) => Parsed fields
  | Some _ => Raised (EnvelopeError (label +:+ "必须是 JSON 对象"))
  end.

(** [set(payload) == allowed]. *)
Definition same_keys (payload : list (pytext * json)) (allowed : list pytext) : bool :=
  forallb (fun k => bool_decide (k ∈ allowed)) payload.*1 && forallb (fun k => has_field k payload) allowed.

(** [payload.get(name)]. *)
Definition get (name : string) (payload : list (pytext * json)) : json := default JNull (field (u name) payload).

Definition is_bool (j : json) : bool := match j with JBool _ => true | _ => false end.
Definition schema_version_ok (payload : list (pytext * json)) : bool :=
  py_eq (get "schema_version" payload) (JInt 1) && negb (is_bool (get "schema_version" payload)).

(** [[A-Za-z0-9_-]]. *)
Definition identifier_char (c : N) : bool :=
  (((48 <=? c) && (c <=? 57)) || ((65 <=? c) && (c <=? 90)) || ((97 <=? c) && (c <=? 122)) || (c =? 95) || (c =? 45))%N.

Definition length_ok (max_length : nat) (s : pytext) : bool := (1 <=? length s)%nat && (length s <=? max_length)%nat.

(** [_identifier]. *)
Definition identifier (payload : list (pytext * json)) (field_name : string) (max_length : nat) : parsed pytext :=
  match get field_name payload with
  | JStr value =>
      _ ← ensure (length_ok max_length value && forallb identifier_char value) ("任务信封 " +:+ field_name +:+ " 无效");
      Parsed value
  | _ => Raised (EnvelopeError ("任务信封 " +:+ field_name +:+ " 无效"))
  end.

(** [_plain_text]. *)
Definition plain_text (payload : list (pytext * json)) (field_name : string) (max_length : nat) : parsed pytext :=
  match get field_name payload with
  | JStr value => _ ← ensure (length_ok max_length value) ("任务信封 " +:+ field_name +:+ " 无效"); Parsed value
  | _ => Raised (EnvelopeError ("任务信封 " +:+ field_name +:+ " 无效"))
  end.

(** [_DATETIME_PATTERN.fullmatch]; [\d] is any decimal digit of Unicode. *)
Inductive shape := Digit | Char (c : N).
Fixpoint match_shape (p : list shape) (s : pytext) : option pytext :=
  match p, s with
  | [], _ => Some s
  | Digit :: p', c :: s' => if bool_decide (is_Some (digit_value c)) then match_shape p' s' else None
  | Char x :: p', c :: s' => if (c =? x)%N then match_shape p' s' else None
  | _, [] => None
  end.
Definition wall_shape : list shape :=
  [Digit; Digit; Digit; Digit; Char 45; Digit; Digit; Char 45; Digit; Digit; Char 84;
   Digit; Digit; Char 58; Digit; Digit; Char 58; Digit; Digit].
Definition offset_shape : list shape := [Digit; Digit; Char 58; Digit; Digit].
(** [(?:\.\d{1,6})?]: what follows is never a digit or a point. *)
Definition skip_fraction (s : pytext) : option pytext :=
  match s with
  | 46%N :: r =>
      let '(n, r') := span (fun c => bool_decide (is_Some (digit_value c))) r in
      if decide (1 <= n <= 6)%nat then Some r' else None
  | _ => Some s
  end.
Definition datetime_pattern (s : pytext) : bool :=
  match (r ← match_shape wall_shape s; skip_fraction r) with
  | Some [90%N] => true
  | Some (c :: r) => ((c =? 43) || (c =? 45))%N && bool_decide (match_shape offset_shape r = Some [])
  | _ => false
  end.

(** [value.replace("Z", "+00:00")]. *)
Definition replace_z (s : pytext) : pytext := mjoin ((fun c => if (c =? 90)%N then u "+00:00" else [c]) <$> s).

(** [_parse_enqueued_at]; what the pattern accepts always has an offset. *)
Definition parse_enqueued_at (value : json) : parsed pydatetime :=
  match value with
  | JStr s =>
      _ ← ensure ((length s <=? 64)%nat && datetime_pattern s) "任务信封 enqueued_at 格式无效";
      match fromisoformat (replace_z s) with
      | Some d => Parsed d
      | None => Raised (EnvelopeError "任务信封 enqueued_at 格式无效")
      end
  | _ => Raised (EnvelopeError "任务信封 enqueued_at 格式无效")
  end.

Record RunTaskEnvelopeV1 := {
  rt_message_id : pytext;
  rt_run_id : pytext;
  rt_runner_id : pytext;
  rt_run_type : pytext;
  rt_required_slot_type : pytext;
  rt_attempt : Z;
  rt_enqueued_at : pydatetime;
}.

(** The envelope of a Web recording and of a Web exploration: [wt_id] is the
    recording or the exploration. *)
Record WebTaskEnvelopeV1 := {
  wt_id : pytext;
  wt_message_id : pytext;
  wt_runner_id : pytext;
  wt_project_id : Z;
  wt_attempt : Z;
  wt_enqueued_at : pydatetime;
}.

(** [value in {...}]: a list or an object cannot be looked up. *)
Definition in_set (value : json) (names : list pytext) : parsed bool :=
  if hashable value then Parsed (match value with JStr s => bool_decide (s ∈ names) | _ => false end)
  else Raised UnhashableType.

(** An integer that is not a [bool], within bounds. *)
Definition int_within (low : Z) (high : option Z) (value : json) (message : string) : parsed Z :=
  match value with
  | JInt z => _ ← ensure ((low <=? z) && match high with Some h => z <=? h | None => true end) message; Parsed z
  | _ => Raised (EnvelopeError message)
  end.

Definition expect_runner (expected : option pytext) (runner_id : pytext) (message : string) : parsed unit :=
  ensure (match expected with None => true | Some e => bool_decide (runner_id = e) end) message.

Definition RUN_FIELDS : list pytext :=
  u <$> ["schema_version"; "message_id"; "run_id"; "runner_id"; "run_type"; "required_slot_type"; "attempt"; "enqueued_at"].

(** Whether a slot type can run a run type. *)
Definition slot_matches (run_type slot_type : pytext) : bool :=
  negb (bool_decide (run_type = u "WEB_CASE") && negb (bool_decide (slot_type = u "WEB"))
        || bool_decide (run_type ∈ [u "API_CASE"; u "SCENARIO"])
           && negb (bool_decide (slot_type ∈ [u "API"; u "PERFORMANCE"]))).

Definition text_of (value : json) : pytext := match value with JStr s => s | _ => [] end.

(** [parse_task_envelope]. *)
Definition parse_task_envelope (body : list N) (expected_runner_id : option pytext) : parsed RunTaskEnvelopeV1 :=
  payload ← decode_object body "任务信封";
  _ ← ensure (same_keys payload RUN_FIELDS) "任务信封字段集合不符合 V1 协议";
  _ ← ensure (schema_version_ok payload) "任务信封 schema_version 不受支持";
  message_id ← identifier payload "message_id" 64;
  run_id ← identifier payload "run_id" 128;
  runner_id ← identifier payload "runner_id" 64;
  _ ← expect_runner expected_runner_id runner_id "任务信封 runner_id 与本机身份不一致";
  let run_type := get "run_type" payload in
  known ← in_set run_type (u <$> ["API_CASE"; "SCENARIO"; "WEB_CASE"]);
  _ ← ensure known "任务信封 run_type 无效";
  let slot_type := get "required_slot_type" payload in
  known ← in_set slot_type (u <$> ["API"; "WEB"; "PERFORMANCE"]);
  _ ← ensure known "任务信封 required_slot_type 无效";
  _ ← ensure (slot_matches (text_of run_type) (text_of slot_type)) "任务信封 required_slot_type 与 run_type 不匹配";
  attempt ← int_within 1 (Some 10) (get "attempt" payload) "任务信封 attempt 无效";
  enqueued_at ← parse_enqueued_at (get "enqueued_at" payload);
  Parsed {| rt_message_id := message_id; rt_run_id := run_id; rt_runner_id := runner_id;
            rt_run_type := text_of run_type; rt_required_slot_type := text_of slot_type;
            rt_attempt := attempt; rt_enqueued_at := enqueued_at |}.

(** [parse_web_recording_envelope] and [parse_web_exploration_envelope], which
    differ in the name of the identifier, the task type and the messages' subject. *)
Definition parse_web_envelope (label id_field task_type : string) (body : list N) (expected_runner_id : option pytext)
  : parsed WebTaskEnvelopeV1 :=
  payload ← decode_object body label;
  _ ← ensure (same_keys payload (u <$> ["schema_version"; "task_type"; id_field; "message_id"; "runner_id";
                                         "project_id"; "attempt"; "enqueued_at"]))
        (label +:+ "字段集合不符合 V1 协议");
  _ ← ensure (schema_version_ok payload) (label +:+ " schema_version 不受支持");
  _ ← ensure (py_eq (get "task_type" payload) (JStr (u task_type))) (label +:+ " task_type 无效");
  task_id ← plain_text payload id_field 128;
  message_id ← identifier payload "message_id" 64;
  runner_id ← plain_text payload "runner_id" 64;
  _ ← expect_runner expected_runner_id runner_id (label +:+ " runner_id 与本机身份不一致");
  project_id ← int_within 1 None (get "project_id" payload) (label +:+ " project_id 无效");
  attempt ← int_within 1 (Some 10) (get "attempt" payload) (label +:+ " attempt 无效");
  enqueued_at ← parse_enqueued_at (get "enqueued_at" payload);
  Parsed {| wt_id := task_id; wt_message_id := message_id; wt_runner_id := runner_id; wt_project_id := project_id;
            wt_attempt := attempt; wt_enqueued_at := enqueued_at |}.
Definition parse_web_recording_envelope := parse_web_envelope "录制任务信封" "recording_id" "WEB_RECORDING".
Definition parse_web_exploration_envelope := parse_web_envelope "探索任务信封" "exploration_id" "WEB_EXPLORATION".

Inductive TaskEnvelope :=
  | RunTask (e : RunTaskEnvelopeV1)
  | WebRecordingTask (e : WebTaskEnvelopeV1)
  | WebExplorationTask (e : WebTaskEnvelopeV1).

(** [parse_task_or_recording_envelope]. *)
Definition parse_task_or_recording_envelope (body : list N) (expected_runner_id : option pytext) : parsed TaskEnvelope :=
  payload ← decode_object body "任务信封";
  let task_type := get "task_type" payload in
  if py_eq task_type (JStr (u "WEB_RECORDING")) then
    e ← parse_web_recording_envelope body expected_runner_id; Parsed (WebRecordingTask e)
  else if py_eq task_type (JStr (u "WEB_EXPLORATION")) then
    e ← parse_web_exploration_envelope body expected_runner_id; Parsed (WebExplorationTask e)
  else e ← parse_task_envelope body expected_runner_id; Parsed (RunTask e).

(** ** Examples *)

Definition example_payload : TaskPayload :=
  {| tp_schema_version := 1; tp_message_id := "msg_1"; tp_run_id := "run-7"; tp_runner_id := "runner_a";
     tp_run_type := "API_CASE"; tp_required_slot_type := "API"; tp_attempt := 1; tp_enqueued_at := 1700000000123456 |}.
Example isoformat_instant : to_utc_isoformat 1700000000123456 = u "2023-11-14T22:13:20.123456+00:00".
Proof. vm_compute. reflexivity. Qed.
Example fromisoformat_offset :
  fromisoformat (u "2023-11-14T22:13:20.5-05:30") = Some (Aware 1700000000500000 (-330 * minute_us)).
Proof. vm_compute. reflexivity. Qed.
Example fromisoformat_no_such_day : fromisoformat (u "2023-02-29T00:00:00+00:00") = None.
Proof. vm_compute. reflexivity. Qed.
Example example_parsed :
  parse_task_or_recording_envelope (default [] (publish_body (envelope_fields example_payload))) (Some (u "runner_a"))
  = Parsed (RunTask {| rt_message_id := u "msg_1"; rt_run_id := u "run-7"; rt_runner_id := u "runner_a";
                       rt_run_type := u "API_CASE"; rt_required_slot_type := u "API"; rt_attempt := 1;
                       rt_enqueued_at := Aware 1700000000123456 0 |}).
Proof. vm_compute. reflexivity. Qed.
