(* ===== verification/EnvelopeLemmas.v ===== *)
(** The pieces of the envelope's round trip: UTF-8, the text of a datetime, and the
    fields of a payload in any order. *)
From S2P Require Import Prelude PyText Calendar Json PyJson PyJsonLemmas RunData RunDispatch ScenarioData RunnerValues.
From S2P Require Import ScenarioSql PyUrl PyUrlLemmas Envelope.
From Stdlib Require Import Ascii.
Open Scope Z_scope.

(** ** UTF-8 *)

Lemma decode_strict_skip bs r : decode_strict (length bs) (bs ++ r) = decode_strict 0 r.
Proof. induction bs as [|b bs IH]; [done|]. exact IH. Qed.

Lemma decode_strict_encode s : forallb scalar s = true -> decode_strict 0 (mjoin (utf8_bytes <$> s)) = Some s.
Proof.
  induction s as [|c s IH]; [done|]. cbn [forallb]. intros [Hc Hs]%andb_true_iff. rewrite mjoin_fmap_cons.
  destruct (decode_char_bytes c (mjoin (utf8_bytes <$> s)) Hc) as (b & bs & E & Hd). rewrite E in *.
  cbn [app decode_strict]. rewrite Hd, E. rewrite decide_True by (symmetry; apply (take_app_length (b :: bs))).
  cbn [length Nat.sub]. rewrite Nat.sub_0_r, decode_strict_skip, IH by done. done.
Qed.

Lemma utf8_bytes_length c : (length (utf8_bytes c) <= 4)%nat.
Proof. unfold utf8_bytes. repeat case_match; cbn; lia. Qed.
Lemma encoded_length s : (length (mjoin (utf8_bytes <$> s)) <= 4 * length s)%nat.
Proof.
  induction s as [|c s IH]; [done|]. rewrite mjoin_fmap_cons, length_app. pose proof (utf8_bytes_length c). cbn [length]. lia.
Qed.

(** ** Objects with distinct keys *)

Lemma has_field_false k fields : k ∉ fields.*1 -> has_field k fields = false.
Proof.
  intros Hk. apply bool_decide_eq_false. intros [v Hv]. apply Hk. apply field_elem in Hv.
  apply list_elem_of_fmap. by exists (k, v).
Qed.

Lemma without_duplicates_distinct ps acc : NoDup (acc ++ ps).*1 -> object_without_duplicates acc ps = Some (acc ++ ps).
Proof.
  revert acc. induction ps as [|[k v] ps IH]; intros acc Hnd; cbn; [by rewrite app_nil_r|].
  assert (k ∉ acc.*1).
  { rewrite fmap_app in Hnd. apply NoDup_app in Hnd as (_ & Hx & _). intros Hk. apply (Hx _ Hk). cbn. left. }
  rewrite has_field_false, set_field_new by done. rewrite IH; rewrite <- app_assoc; done.
Qed.
#[global] Instance strict_reads_back : ReadsBack strict_decoder.
Proof. split; [by left|]. intros ps Hps. by apply (without_duplicates_distinct ps []). Qed.

Lemma field_of_distinct k v fields : NoDup fields.*1 -> (k, v) ∈ fields -> field k fields = Some v.
Proof.
  induction fields as [|[k' v'] l IH]; [by intros _ ?%elem_of_nil|]. cbn. intros [Hk Hl]%NoDup_cons.
  intros [[= <- <-]|Hin]%elem_of_cons; [by rewrite decide_True|].
  rewrite decide_False; [by apply IH|]. intros ->. apply Hk. apply list_elem_of_fmap. by exists (k, v).
Qed.

(** ** Digits *)

Lemma padded_length n z : length (padded n z) = n.
Proof. revert z. induction n as [|n IH]; intros z; [done|]. cbn. rewrite length_app, IH. cbn. lia. Qed.
Lemma padded_char z : ascii_digit (48 + Z.to_N (z mod 10)) = true.
Proof. pose proof (Z.mod_pos_bound z 10 ltac:(lia)). unfold ascii_digit. lia. Qed.
Lemma padded_digits n z : Forall (fun c => ascii_digit c = true) (padded n z).
Proof.
  revert z. induction n as [|n IH]; intros z; [constructor|]. apply Forall_app. split; [done|].
  constructor; [apply padded_char | constructor].
Qed.
Lemma padded_value n z : 0 <= z < 10 ^ Z.of_nat n -> digits_value 0 (padded n z) = z.
Proof.
  revert z. induction n as [|n IH]; intros z Hz; [cbn in *; lia|]. cbn [padded]. rewrite digits_value_app.
  rewrite Nat2Z.inj_succ, Z.pow_succ_r in Hz by lia. rewrite IH.
  - pose proof (Z.mod_pos_bound z 10 ltac:(lia)). pose proof (Z.div_mod z 10 ltac:(lia)). cbn [digits_value]. lia.
  - split; [apply Z.div_pos; lia | apply Z.div_lt_upper_bound; lia].
Qed.

Lemma fixed_digits_padded n z s : 0 <= z < 10 ^ Z.of_nat n -> fixed_digits n (padded n z ++ s) = Some (z, s).
Proof.
  intros Hz. unfold fixed_digits. rewrite take_app_length', drop_app_length' by (by rewrite padded_length).
  rewrite decide_True by (split; [apply padded_length | apply padded_digits]). by rewrite padded_value.
Qed.

Lemma ascii_digit_value c : ascii_digit c = true -> bool_decide (is_Some (digit_value c)) = true.
Proof.
  unfold ascii_digit, digit_value. cbn [digit_in digit_zeros]. intros [-> Hc]%andb_true_iff.
  rewrite (proj2 (N.ltb_lt _ _)) by lia. done.
Qed.
Lemma match_shape_padded n z p s : match_shape (replicate n Digit ++ p) (padded n z ++ s) = match_shape p s.
Proof.
  pose proof (padded_digits n z) as Hd. pose proof (padded_length n z) as Hl.
  revert Hd Hl. generalize (padded n z) as ds. intros ds. revert n. induction ds as [|d ds IH]; intros n Hd Hl.
  - by destruct n.
  - destruct n as [|n]; [done|]. apply Forall_cons in Hd as [Hd Hds]. cbn [replicate app match_shape].
    rewrite ascii_digit_value by done. apply IH; [done | by injection Hl].
Qed.
Lemma span_padded n z c s : bool_decide (is_Some (digit_value c)) = false ->
  span (fun c => bool_decide (is_Some (digit_value c))) (padded n z ++ c :: s) = (n, c :: s).
Proof.
  intros Hc. pose proof (padded_digits n z) as Hd. rewrite <- (padded_length n z) at 2.
  induction Hd as [|d ds Hd _ IH]; cbn [app span length]; [by rewrite Hc | by rewrite ascii_digit_value, IH].
Qed.

(** ** The text of a datetime *)

Section year.
#[local] Ltac Zify.zify_post_hook ::= Z.to_euclidean_division_equations.

Lemma days_before_year_mono y y' : y <= y' -> days_before_year y <= days_before_year y'.
Proof. unfold days_before_year. intros H. lia. Qed.

Lemma day_range t : datetime_min <= t <= datetime_max -> -719162 <= t / day_us <= 2932896.
Proof. unfold datetime_min, datetime_max, day_us, minute_us. intros H. lia. Qed.
End year.

Lemma year_range n : -719162 <= n <= 2932896 -> 1 <= year (date_of n) <= 9999.
Proof.
  intros Hn. unfold date_of. pose proof (year_day_spec (n + 719162)) as H.
  destruct (year_day (n + 719162)) as [y r]. destruct H as [Hy Hr]. destruct (month_day (leap y) r) as [m d]. cbn [year].
  assert (0 <= r <= 365) by (destruct (leap y); lia).
  destruct (Z.le_gt_cases y 0) as [Hlow|Hlow].
  { pose proof (days_before_year_mono y 0 Hlow) as Hm. change (days_before_year 0) with (-366) in Hm. lia. }
  destruct (Z.le_gt_cases y 9999) as [Hhigh|Hhigh]; [lia|].
  pose proof (days_before_year_mono 10000 y ltac:(lia)) as Hm. change (days_before_year 10000) with 3652059 in Hm. lia.
Qed.

(** The parts of an instant and their ranges. *)
Record wall_parts (t : Z) (d : date) (hh mi ss us : Z) : Prop := {
  wp_instant : t = day_number d * day_us + ((hh * 60 + mi) * 60 + ss) * 1000000 + us;
  wp_year : 1 <= year d <= 9999;
  wp_month : 1 <= month d <= 12;
  wp_day : 1 <= day d <= days_in_month (year d) (month d);
  wp_hour : 0 <= hh <= 23;
  wp_minute : 0 <= mi <= 59;
  wp_second : 0 <= ss <= 59;
  wp_micro : 0 <= us < 1000000;
}.

Section parts.
#[local] Ltac Zify.zify_post_hook ::= Z.to_euclidean_division_equations.
Lemma clock_parts (w : Z) : 0 <= w < day_us ->
  w = ((w / 3600000000 * 60 + w / 60000000 mod 60) * 60 + w / 1000000 mod 60) * 1000000 + w mod 1000000
  /\ 0 <= w / 3600000000 <= 23.
Proof. unfold day_us, minute_us. intros H. lia. Qed.
End parts.

Lemma instant_parts t : datetime_min <= t <= datetime_max ->
  let w := t mod day_us in
  wall_parts t (date_of (t / day_us)) (w / 3600000000) (w / 60000000 mod 60) (w / 1000000 mod 60) (w mod 1000000).
Proof.
  intros Ht w. pose proof (day_range t Ht) as Hn. destruct (date_of_spec (t / day_us)) as [Hd [Hm Hday]].
  assert (0 <= w < day_us) as Hw by (apply Z.mod_pos_bound; done).
  destruct (clock_parts w Hw) as [Hc Hh]. split; try done.
  - rewrite Hd. pose proof (Z.div_mod t day_us ltac:(done)) as E. unfold w in *. lia.
  - by apply year_range.
  - pose proof (Z.mod_pos_bound (w / 60000000) 60). lia.
  - pose proof (Z.mod_pos_bound (w / 1000000) 60). lia.
  - apply Z.mod_pos_bound. lia.
Qed.

Lemma days_in_month_le y m : days_in_month y m <= 31.
Proof. unfold days_in_month. repeat case_match; lia. Qed.

Definition fraction_text (us : Z) : pytext := if decide (us = 0) then [] else u "." ++ padded 6 us.
Definition date_text (d : date) (hh mi ss : Z) (rest : pytext) : pytext :=
  padded 4 (year d) ++ 45%N :: padded 2 (month d) ++ 45%N :: padded 2 (day d) ++ 84%N
  :: padded 2 hh ++ 58%N :: padded 2 mi ++ 58%N :: padded 2 ss ++ rest.

Lemma isoformat_text t : to_utc_isoformat t =
  let w := t mod day_us in
  date_text (date_of (t / day_us)) (w / 3600000000) (w / 60000000 mod 60) (w / 1000000 mod 60)
    (fraction_text (w mod 1000000) ++ u "+00:00").
Proof. unfold to_utc_isoformat, wall_text, date_text, fraction_text. by rewrite <- !app_assoc. Qed.

Lemma fraction_read us : 0 <= us < 1000000 -> fraction (fraction_text us ++ u "+00:00") = Some (us, u "+00:00").
Proof.
  intros Hus. unfold fraction_text. case_decide as E; [by subst|].
  rewrite <- app_assoc. change (u "." ++ ?x) with (46%N :: x). unfold fraction.
  rewrite take_digits_app by (apply padded_digits || done).
  rewrite decide_False by (intros Hnil; apply (f_equal length) in Hnil; by rewrite padded_length in Hnil).
  rewrite take_ge, padded_length by (by rewrite padded_length). rewrite padded_value by done. by rewrite Z.mul_1_r.
Qed.

Lemma fromisoformat_text t : datetime_min <= t <= datetime_max -> fromisoformat (to_utc_isoformat t) = Some (Aware t 0).
Proof.
  intros Ht. rewrite isoformat_text. destruct (instant_parts t Ht) as [E Hy Hm Hd Hh Hi Hs Hu]. cbn zeta in *.
  set (w := t mod day_us) in *. set (dt := date_of (t / day_us)) in *. pose proof (days_in_month_le (year dt) (month dt)).
  unfold fromisoformat, date_text.
  repeat (rewrite fixed_digits_padded by (cbn; lia); cbn [mbind option_bind expect N.eqb Pos.eqb]).
  rewrite fraction_read by done. cbn [mbind option_bind].
  change (u "+00:00") with (43%N :: padded 2 0 ++ 58%N :: padded 2 0 ++ []). cbn beta iota. cbn [mbind option_bind].
  repeat (rewrite fixed_digits_padded by (cbn; lia); cbn [mbind option_bind expect N.eqb Pos.eqb]).
  rewrite decide_True.
  - do 2 f_equal. rewrite E at 1. by destruct dt.
  - split_and!; try done; try lia.
Qed.

(** The characters of such a text. *)
Definition iso_char (c : N) : bool :=
  (ascii_digit c || (c =? 45) || (c =? 84) || (c =? 58) || (c =? 46) || (c =? 43))%N.
Lemma isoformat_chars t : Forall (fun c => iso_char c = true) (to_utc_isoformat t).
Proof.
  assert (forall n z, Forall (fun c => iso_char c = true) (padded n z)) as Hp.
  { intros n z. eapply Forall_impl; [apply padded_digits|]. unfold iso_char. cbn. by intros c ->. }
  rewrite isoformat_text. cbn zeta. unfold date_text, fraction_text.
  change (u "+00:00") with (43%N :: padded 2 0 ++ 58%N :: padded 2 0). change (u ".") with [46%N].
  case_decide; repeat first [apply Hp | apply Forall_app; split | constructor; [reflexivity|] | by apply Forall_nil].
Qed.
Lemma isoformat_no_z t : replace_z (to_utc_isoformat t) = to_utc_isoformat t.
Proof.
  pose proof (isoformat_chars t) as H. unfold replace_z. induction H as [|c s Hc _ IH]; [done|].
  rewrite mjoin_fmap_cons, IH. rewrite (proj2 (N.eqb_neq _ _)); [done|]. by intros ->.
Qed.
Lemma isoformat_length t : (length (to_utc_isoformat t) <= 32)%nat.
Proof.
  rewrite isoformat_text. cbn zeta. unfold date_text, fraction_text. case_decide;
    repeat (rewrite length_app || rewrite padded_length || cbn [length]); change (length (u "+00:00")) with 6%nat; try lia.
  change (length (u ".")) with 1%nat. lia.
Qed.

Lemma isoformat_matches t : datetime_min <= t <= datetime_max -> datetime_pattern (to_utc_isoformat t) = true.
Proof.
  intros Ht. rewrite isoformat_text. cbn zeta. unfold datetime_pattern, date_text.
  change wall_shape with (replicate 4 Digit ++ Char 45 :: replicate 2 Digit ++ Char 45 :: replicate 2 Digit ++ Char 84
    :: replicate 2 Digit ++ Char 58 :: replicate 2 Digit ++ Char 58 :: replicate 2 Digit ++ []).
  repeat (rewrite match_shape_padded; cbn [match_shape N.eqb Pos.eqb]). cbn [mbind option_bind].
  unfold fraction_text. case_decide; [by vm_compute|].
  rewrite <- app_assoc. change (u "." ++ ?x) with (46%N :: x). change (u "+00:00") with (43%N :: u "00:00").
  unfold skip_fraction. rewrite span_padded by done. rewrite decide_True by lia. by vm_compute.
Qed.

Lemma enqueued_at_read t : datetime_min <= t <= datetime_max ->
  parse_enqueued_at (JStr (to_utc_isoformat t)) = Parsed (Aware t 0).
Proof.
  intros Ht. unfold parse_enqueued_at. rewrite isoformat_matches by done.
  rewrite (proj2 (Nat.leb_le _ 64)) by (etransitivity; [apply isoformat_length | lia]).
  cbn [andb ensure mbind parsed_bind]. by rewrite isoformat_no_z, fromisoformat_text.
Qed.

(** ** The size and the characters of a body *)

Lemma u_safe s : all_safe s = true -> forallb identifier_char (u s) = true /\ length (u s) = String.length s.
Proof.
  induction s as [|c s IH]; [done|]. cbn [all_safe]. intros [Hc Hs]%andb_true_iff. destruct (IH Hs) as [IH1 IH2].
  assert (identifier_char (N_of_ascii c) = true) as Hi by exact Hc.
  rewrite u_ascii by (unfold identifier_char in Hi; lia). cbn [forallb length String.length]. by rewrite Hi, IH1, IH2.
Qed.

Lemma identifier_scalar s : forallb identifier_char s = true -> Forall (fun c => scalar c = true) s.
Proof.
  rewrite forallb_forall. intros H. apply Forall_forall. intros c Hc%list_elem_of_In. specialize (H _ Hc).
  unfold identifier_char in H. unfold scalar. lia.
Qed.

Lemma escape_scalar c : scalar c = true -> Forall (fun c => scalar c = true) (escape_char c).
Proof.
  intros Hc. unfold escape_char. assert (forall n, (n < 16)%N -> scalar (hex_digit n) = true) as Hh.
  { intros n Hn. unfold hex_digit, scalar. case_match; lia. }
  pose proof (N.mod_lt c 16 ltac:(lia)). repeat case_match; try (by repeat constructor).
  assert (c / 16 < 16)%N by (apply N.Div0.div_lt_upper_bound; lia).
  apply Forall_app. split; [by repeat constructor|]. by repeat constructor; apply Hh.
Qed.
Lemma escape_length c : (length (escape_char c) <= 6)%nat.
Proof. unfold escape_char. repeat case_match; rewrite ?length_app; cbn [length]; (lia || by apply Nat.leb_le). Qed.

Lemma quoted_scalar s : Forall (fun c => scalar c = true) s -> Forall (fun c => scalar c = true) (quoted s).
Proof.
  intros Hs. unfold quoted. repeat (apply Forall_app; split); [by repeat constructor | | by repeat constructor].
  by eapply Forall_mjoin; [exact Hs | apply escape_scalar].
Qed.
Lemma quoted_length s : (length (quoted s) <= 6 * length s + 2)%nat.
Proof.
  unfold quoted. rewrite !length_app. cbn [length]. assert (length (mjoin (escape_char <$> s)) <= 6 * length s)%nat; [|lia].
  induction s as [|c s IH]; [done|]. rewrite mjoin_fmap_cons, length_app. pose proof (escape_length c). cbn [length]. lia.
Qed.

(** A member with a short key whose value is a short text or a small number. *)
Record small_member (p : pytext * json) : Prop := {
  sm_key : (length p.1 <= 18)%nat /\ Forall (fun c => scalar c = true) p.1;
  sm_value : (exists s, p.2 = JStr s /\ (length s <= 128)%nat /\ Forall (fun c => scalar c = true) s)
             \/ (exists z, p.2 = JInt z /\ 1 <= z <= 10);
}.

Lemma small_int z : 1 <= z <= 10 -> (length (int_text z) <= 2)%nat /\ Forall (fun c => scalar c = true) (int_text z).
Proof.
  intros Hz. assert (z ∈ [1; 2; 3; 4; 5; 6; 7; 8; 9; 10]) as Hin by (rewrite !elem_of_cons; lia).
  repeat (apply elem_of_cons in Hin as [-> | Hin]; [split; [by apply Nat.leb_le | by repeat constructor]|]).
  by apply elem_of_nil in Hin.
Qed.

Lemma small_member_text p : small_member p ->
  (length (member_text p) <= 900)%nat /\ Forall (fun c => scalar c = true) (member_text p).
Proof.
  intros [[Hk Sk] Hv]. unfold member_text. rewrite !length_app. change (length (u ":")) with 1%nat.
  pose proof (quoted_length p.1). destruct Hv as [(s & -> & Hs & Ss)|(z & -> & [Hs Ss]%small_int)]; cbn [json_dumps].
  - pose proof (quoted_length s). split; [lia|]. apply Forall_app; split; [by apply quoted_scalar|]. apply Forall_app; split; [by repeat constructor|].
    by apply quoted_scalar.
  - split; [lia|]. apply Forall_app; split; [by apply quoted_scalar|]. apply Forall_app; split; [by repeat constructor | done].
Qed.

Lemma join_bound {A} (f : A -> pytext) n l : (forall x, x ∈ l -> (length (f x) <= n)%nat) ->
  (length (join 44 (map f l)) <= length l * (n + 1))%nat.
Proof.
  induction l as [|x l IH]; [done|]. intros Hf. pose proof (Hf x ltac:(left)). destruct l as [|y l]; [cbn; lia|].
  change (join 44 (map f (x :: y :: l))) with (f x ++ 44%N :: join 44 (map f (y :: l))).
  rewrite length_app. cbn [length] in *. specialize (IH ltac:(intros z Hz; apply Hf; by right)). lia.
Qed.
Lemma join_forall {A} (f : A -> pytext) (P : N -> Prop) l : P 44%N -> (forall x, x ∈ l -> Forall P (f x)) ->
  Forall P (join 44 (map f l)).
Proof.
  intros HP. induction l as [|x l IH]; [constructor|]. intros Hf. pose proof (Hf x ltac:(left)).
  destruct l as [|y l]; [done|].
  change (join 44 (map f (x :: y :: l))) with (f x ++ 44%N :: join 44 (map f (y :: l))).
  apply Forall_app. split; [done|]. constructor; [done|]. apply IH. intros z Hz. apply Hf. by right.
Qed.

(** The body of a payload of at most ten small members, decoded. *)
Lemma small_body fields : NoDup fields.*1 -> Forall small_member fields -> fields <> [] -> (length fields <= 10)%nat ->
  exists body, publish_body fields = Some body /\ forall label, decode_object body label = Parsed fields.
Proof.
  intros Hnd Hs Hne Hl. rewrite Forall_forall in Hs. destruct fields as [|p ps]; [done|].
  assert (Forall (fun c => scalar c = true) (json_dumps (JDict (p :: ps)))) as Hsc.
  { rewrite dumps_dict. repeat (apply Forall_app; split); [by repeat constructor | | by repeat constructor].
    apply join_forall; [done|]. intros x Hx. by apply small_member_text, Hs. }
  assert (length (json_dumps (JDict (p :: ps))) <= 10 * 902)%nat as Hlen.
  { rewrite dumps_dict, !length_app. cbn [length] in *.
    pose proof (join_bound member_text 900 (p :: ps) ltac:(intros x Hx; by apply small_member_text, Hs)). cbn [length] in *. lia. }
  assert (forallb scalar (json_dumps (JDict (p :: ps))) = true) as Hb.
  { apply forallb_forall. intros c Hc. rewrite Forall_forall in Hsc. by apply Hsc, list_elem_of_In. }
  unfold publish_body, utf8_encode. rewrite Hb. eexists. split; [done|]. intros label. unfold decode_object.
  rewrite (proj2 (Nat.leb_le _ _)) by (etransitivity; [apply encoded_length | unfold MAX_ENVELOPE_BYTES; lia]).
  cbn [ensure mbind parsed_bind]. rewrite decode_strict_encode by done. cbn [mbind option_bind].
  rewrite loads_dumps_plain; [done | apply _|]. constructor; [done|]. apply Forall_forall. intros x Hx.
  destruct (Hs x Hx) as [_ [(s & -> & _)|(z & -> & Hz)]]; constructor.
  assert (11 < int_limit); [|lia]. by vm_compute.
Qed.

(** ** What the parser lets through *)

Lemma parsed_bind_inv {A B} (m : parsed A) (f : A -> parsed B) b :
  (x ← m; f x) = Parsed b -> exists a, m = Parsed a /\ f a = Parsed b.
Proof. destruct m as [a|e]; [by exists a | done]. Qed.
Lemma ensure_inv b message r : ensure b message = Parsed r -> b = true.
Proof. by destruct b. Qed.

(** Takes the statements of a parser that returned apart. *)
Ltac inv_parsed :=
  repeat match goal with
         | H : (_ ≫= _) = Parsed _ |- _ => apply parsed_bind_inv in H as (? & ? & H)
         | H : ensure _ _ = Parsed _ |- _ => apply ensure_inv in H
         | H : Parsed _ = Parsed _ |- _ => injection H as H
         end.

Lemma identifier_inv payload name n s : identifier payload name n = Parsed s ->
  length_ok n s = true /\ forallb identifier_char s = true.
Proof. unfold identifier. destruct (get name payload); try done. intros H. inv_parsed. subst. by apply andb_true_iff. Qed.
Lemma int_within_inv low high v message z : int_within low high v message = Parsed z ->
  low <= z /\ forall h, high = Some h -> z <= h.
Proof.
  unfold int_within. destruct v; try done. intros H. inv_parsed. subst.
  match goal with H : _ && _ = true |- _ => apply andb_true_iff in H as [? Hh] end.
  split; [lia|]. intros h ->. lia.
Qed.
Lemma in_set_inv v names : in_set v names = Parsed true -> text_of v ∈ names.
Proof. unfold in_set. destruct v; try done. cbn. intros [= H]. by apply bool_decide_eq_true_1 in H. Qed.

Section ordinal.
#[local] Ltac Zify.zify_post_hook ::= Z.to_euclidean_division_equations.
Lemma days_of_year y : days_before_year y + (if leap y then 366 else 365) = days_before_year (y + 1).
Proof. unfold days_before_year, leap. case_match eqn:E; lia. Qed.
End ordinal.

Lemma day_of_year (d : date) : date_wf d ->
  0 <= days_before_month (leap (year d)) (month d) + day d - 1 <= (if leap (year d) then 365 else 364).
Proof.
  destruct d as [y m dd]. unfold date_wf, days_in_month. cbn [year month day]. intros [Hm Hd].
  assert (m ∈ [1; 2; 3; 4; 5; 6; 7; 8; 9; 10; 11; 12]) as Hin by (rewrite !elem_of_cons; lia).
  repeat (apply elem_of_cons in Hin as [-> | Hin];
    [cbn in Hd; destruct (leap y);
     match goal with |- context [days_before_month ?b ?n] =>
       let v := eval vm_compute in (days_before_month b n) in change (days_before_month b n) with v
     end; lia|]).
  by apply elem_of_nil in Hin.
Qed.

Lemma day_number_range d : 1 <= year d <= 9999 -> date_wf d -> -719162 <= day_number d <= 2932896.
Proof.
  intros Hy Hd. pose proof (day_of_year d Hd) as Hn. unfold day_number.
  pose proof (days_of_year (year d)) as Hs. pose proof (days_before_year_mono 1 (year d) ltac:(lia)) as Hlow.
  pose proof (days_before_year_mono (year d + 1) 10000 ltac:(lia)) as Hhigh.
  change (days_before_year 1) with 0 in Hlow. change (days_before_year 10000) with 3652059 in Hhigh.
  destruct (leap (year d)); lia.
Qed.

Lemma digits_value_bound ds : Forall (fun c => ascii_digit c = true) ds -> 0 <= digits_value 0 ds < 10 ^ Z.of_nat (length ds).
Proof.
  intros Hd. assert (forall acc, 0 <= acc -> acc * 10 ^ Z.of_nat (length ds) <= digits_value acc ds
                                 < (acc + 1) * 10 ^ Z.of_nat (length ds)) as H; [|specialize (H 0); lia].
  induction Hd as [|d ds Hc _ IH]; intros acc Ha; cbn [digits_value length]; [cbn; lia|].
  rewrite Nat2Z.inj_succ, Z.pow_succ_r by lia. unfold ascii_digit in Hc. specialize (IH (acc * 10 + Z.of_N (d - 48)) ltac:(lia)).
  pose proof (Z.pow_pos_nonneg 10 (Z.of_nat (length ds)) ltac:(lia) ltac:(lia)). nia.
Qed.
Lemma fixed_digits_inv n s z r : fixed_digits n s = Some (z, r) -> 0 <= z < 10 ^ Z.of_nat n.
Proof. unfold fixed_digits. case_decide as H; [|done]. intros [= <- _]. destruct H as [E Hd]. pose proof (digits_value_bound _ Hd). by rewrite E in *. Qed.

Lemma take_digits_digits s : Forall (fun c => ascii_digit c = true) (take_digits s).1.
Proof.
  unfold take_digits. destruct (span ascii_digit s) as [n r] eqn:E. cbn [fst]. revert n r E.
  induction s as [|c s IH]; cbn; intros n r; [intros [= <- _]; constructor|].
  destruct (ascii_digit c) eqn:Hc; [|intros [= <- _]; constructor].
  destruct (span ascii_digit s) as [m r']. intros [= <- _]. cbn. constructor; [done|]. by eapply IH.
Qed.
Lemma fraction_inv s us r : fraction s = Some (us, r) -> 0 <= us < 1000000.
Proof.
  assert (forall ds, Forall (fun c => ascii_digit c = true) ds ->
            0 <= digits_value 0 (take 6 ds) * 10 ^ (6 - Z.of_nat (length (take 6 ds))) < 1000000) as Hb.
  { intros ds Hd. pose proof (digits_value_bound (take 6 ds) (Forall_take _ _ _ Hd)) as Hv.
    assert (length (take 6 ds) <= 6)%nat as Hl by (rewrite length_take; lia).
    pose proof (Z.pow_pos_nonneg 10 (6 - Z.of_nat (length (take 6 ds))) ltac:(lia) ltac:(lia)).
    change 1000000 with (10 ^ 6).
    assert (10 ^ 6 = 10 ^ Z.of_nat (length (take 6 ds)) * 10 ^ (6 - Z.of_nat (length (take 6 ds)))) as E
      by (rewrite <- Z.pow_add_r by lia; f_equal; lia).
    rewrite E. nia. }
  unfold fraction. destruct s as [|c s]; [intros [= <- _]; lia|].
  pose proof (take_digits_digits s) as Hd. destruct (take_digits s) as [ds r'].
  specialize (Hb ds Hd). repeat case_match; intros [= <- _]; done || lia.
Qed.

Lemma fromisoformat_inv s d : fromisoformat s = Some d ->
  exists us offset, d = Aware us offset /\ Z.abs offset < day_us /\ datetime_min <= us <= datetime_max.
Proof.
  unfold fromisoformat. intros H.
  repeat match goal with
         | H : (_ ≫= _) = Some _ |- _ => apply bind_Some in H as ([? ?] & ? & H) || apply bind_Some in H as (? & ? & H)
         | H : fixed_digits _ _ = Some _ |- _ => apply fixed_digits_inv in H
         | H : fraction _ = Some _ |- _ => apply fraction_inv in H
         end.
  case_decide as Hc; [|done]. injection H as <-. eexists _, _. split; [done|]. destruct Hc as (_ & ? & ? & ? & ? & ? & ? & ?).
  split; [done|]. cbn in *.
  match goal with |- context [day_number ?d] => pose proof (day_number_range d ltac:(cbn; lia) ltac:(done)) end.
  unfold datetime_min, datetime_max, day_us, minute_us in *. lia.
Qed.

Lemma enqueued_at_inv v d : parse_enqueued_at v = Parsed d ->
  exists us offset, d = Aware us offset /\ Z.abs offset < day_us /\ datetime_min <= us <= datetime_max.
Proof.
  unfold parse_enqueued_at. destruct v; try done. intros H. inv_parsed.
  destruct (fromisoformat _) eqn:E; [|done]. inv_parsed. subst. by eapply fromisoformat_inv.
Qed.

Lemma same_keys_spec payload allowed : same_keys payload allowed = true -> forall k, k ∈ payload.*1 <-> k ∈ allowed.
Proof.
  unfold same_keys. rewrite andb_true_iff, !forallb_forall. intros [H1 H2] k. split; intros Hk.
  - by apply (bool_decide_eq_true_1 (k ∈ allowed)), H1, list_elem_of_In.
  - specialize (H2 k (proj1 (list_elem_of_In _ _) Hk)). apply bool_decide_eq_true_1 in H2 as [v Hv].
    apply field_elem in Hv. apply list_elem_of_fmap. by exists (k, v).
Qed.

Lemma without_duplicates_inv ps acc fs : NoDup acc.*1 -> object_without_duplicates acc ps = Some fs -> NoDup fs.*1.
Proof.
  revert acc. induction ps as [|[k v] ps IH]; intros acc Hnd; cbn; [by intros [= <-]|].
  destruct (has_field k acc) eqn:Hk; [done|]. apply IH.
  assert (k ∉ acc.*1) as Hni.
  { intros ([k' x] & -> & Hin)%list_elem_of_fmap. apply bool_decide_eq_false_1 in Hk. apply Hk. exists x. by apply field_of_distinct. }
  rewrite set_field_new, fmap_app by done. apply NoDup_app. split_and!; [done | | apply NoDup_singleton].
  cbn. intros x Hx ->%list_elem_of_singleton. done.
Qed.

(** The decoder makes an object only of the members its hook was given. *)
Lemma parse_constant_value cs s v r : parse_constant cs s = Some (v, r) -> v ∈ cs.*2.
Proof.
  induction cs as [|[name x] cs IH]; [done|]. cbn. destruct (strip_prefix name s); [intros [= -> _]; left | intros H; right; auto].
Qed.
Lemma parse_unsigned_value negative s v r : parse_unsigned negative s = Some (v, r) -> (exists z, v = JInt z) \/ (exists f, v = JFloat f).
Proof.
  unfold parse_unsigned.
  lazymatch goal with |- context [let '(_, _) := ?m in _] => destruct m as [ds r0] end.
  case_decide; [done|]. destruct (take_fraction r0) as [fr r1]. destruct (take_exponent r1) as [ex r2].
  destruct fr, ex; try (intros [= <- _]; by right; eexists).
  destruct (_ <? _)%nat; [done|]. intros [= <- _]. by left; eexists.
Qed.
Lemma scalar_no_object s fs r : parse_scalar strict_decoder s <> Some (JDict fs, r).
Proof.
  unfold parse_scalar. destruct (parse_constant _ s) as [[v r']|] eqn:E.
  - intros [= -> ->]. apply parse_constant_value in E. cbn in E. rewrite !elem_of_cons, elem_of_nil in E.
    by destruct E as [|[|[|]]].
  - lazymatch goal with |- ?m <> _ => enough (forall v r', m = Some (v, r') -> (exists z, v = JInt z) \/ (exists f, v = JFloat f)) as H end.
    { intros Hm. apply H in Hm as [[? ?]|[? ?]]; done. }
    intros v r'. repeat case_match; apply parse_unsigned_value.
Qed.

Lemma parse_value_other dec fuel c s : c <> 34%N -> c <> 91%N -> c <> 123%N ->
  parse_value dec (S fuel) (c :: s) = parse_scalar dec (c :: s).
Proof.
  intros. cbn [parse_value]. destruct c as [|p]; [done|]. do 7 (destruct p as [p|p|]; try done).
Qed.
Lemma closing_brace {A} (a : pytext -> A) b t v :
  match t with 125%N :: r => a r | _ => b end = v -> (exists r, a r = v) \/ b = v.
Proof.
  destruct t as [|[|p] t]; auto. do 7 (destruct p as [p|p|]; auto). intros H. left. by exists t.
Qed.
Lemma parse_value_object fuel s fs r : parse_value strict_decoder fuel s = Some (JDict fs, r) ->
  exists ps, dec_object strict_decoder ps = Some fs.
Proof.
  destruct fuel as [|fuel]; [done|]. destruct s as [|c s]; [by intros ?%scalar_no_object|].
  destruct (decide (c = 34%N)) as [->|]; [|destruct (decide (c = 91%N)) as [->|]; [|destruct (decide (c = 123%N)) as [->|]]].
  - cbn [parse_value]. intros ([? ?] & _ & ?)%bind_Some. done.
  - cbn [parse_value]. intros H. assert (exists vs, Some (JDict fs, r) = Some (JList vs, r)) as [vs Hvs]; [|done].
    revert H. generalize (skip_json_space s). intros t. 
    destruct (parse_items (parse_value strict_decoder fuel) (length s) s) as [[vs rest]|]; cbn; repeat case_match; intros [=].
  - cbn [parse_value]. intros [(r' & H)|H]%closing_brace; cbn beta in H.
    + apply bind_Some in H as (fs' & H & [= -> _]). by exists [].
    + apply bind_Some in H as ([ps rest] & _ & H). apply bind_Some in H as (fs' & H & [= -> _]). by exists ps.
  - rewrite parse_value_other by done. by intros ?%scalar_no_object.
Qed.

(** A decoded body is small and repeats no field. *)
Lemma decode_object_inv body label payload : decode_object body label = Parsed payload ->
  (length body <= MAX_ENVELOPE_BYTES)%nat /\ NoDup payload.*1 /\ forall label', decode_object body label' = Parsed payload.
Proof.
  unfold decode_object. intros H. inv_parsed. rename H0 into Hlen.
  destruct (decode_strict 0 body ≫= _) as [[| | | | | |fs]|] eqn:E; try done. inv_parsed. subst.
  split; [by apply Nat.leb_le|]. split; [|intros label'; by rewrite Hlen].
  apply bind_Some in E as (t & _ & E). unfold json_loads_with in E. apply bind_Some in E as ([v r] & E & Hv).
  case_decide; [|done]. injection Hv as ->. apply parse_value_object in E as (ps & Hps).
  by eapply (without_duplicates_inv ps []); [constructor | exact Hps].
Qed.
