(* ===== verification/EnvelopeTheorems.v ===== *)
(** The envelope across the broker: the runner reads back every field the back end
    published, and takes nothing else for an envelope. *)
From S2P Require Import Prelude PyText Calendar Json PyJson PyJsonLemmas RunData RunStatusOps RunDispatch RunCreate.
From S2P Require Import RunInvariant RunHandlers RunSystem RunExample RunTheorems ScenarioData RunnerValues ScenarioSql PyUrl PyUrlLemmas Envelope EnvelopeLemmas.
Open Scope Z_scope.

(** What the runner should make of a payload. *)
Definition received (p : TaskPayload) : RunTaskEnvelopeV1 :=
  {| rt_message_id := u (tp_message_id p); rt_run_id := u (tp_run_id p); rt_runner_id := u (tp_runner_id p);
     rt_run_type := u (tp_run_type p); rt_required_slot_type := u (tp_required_slot_type p);
     rt_attempt := tp_attempt p; rt_enqueued_at := Aware (tp_enqueued_at p) 0 |}.

Lemma envelope_keys p : (envelope_fields p).*1 = RUN_FIELDS.
Proof. reflexivity. Qed.
Lemma run_fields_distinct : NoDup RUN_FIELDS.
Proof. apply (bool_decide_unpack _). vm_compute. exact I. Qed.

(** The conditions of [RunTaskEnvelope.model_validate], one by one. *)
Record valid_parts (p : TaskPayload) : Prop := {
  vp_version : tp_schema_version p = 1;
  vp_message : safe_id 64 (tp_message_id p) = true;
  vp_run : safe_id 128 (tp_run_id p) = true;
  vp_runner : safe_id 64 (tp_runner_id p) = true;
  vp_type : tp_run_type p ∈ ["API_CASE"; "SCENARIO"; "WEB_CASE"]%string;
  vp_slot : tp_required_slot_type p ∈ ["API"; "WEB"; "PERFORMANCE"]%string;
  vp_attempt : 1 <= tp_attempt p <= 10;
}.
Lemma envelope_parts p : envelope_valid p = true -> valid_parts p.
Proof.
  unfold envelope_valid, run_type_ok, slot_type_ok. rewrite !andb_true_iff, !bool_decide_eq_true. intros H.
  destruct_and!. split; try done; lia.
Qed.

Lemma safe_id_text n s : safe_id n s = true -> length_ok n (u s) = true /\ forallb identifier_char (u s) = true.
Proof.
  unfold safe_id, length_ok. rewrite !andb_true_iff. intros [[Hne Hn] [Hi Hl]%u_safe]. rewrite Hl. split; [|done].
  rewrite negb_true_iff, bool_decide_eq_false in Hne. split; [|done]. by destruct s.
Qed.

Lemma named_text (names : list string) (s : string) : s ∈ names -> u s ∈ u <$> names.
Proof. intros Hs. apply list_elem_of_fmap. by exists s. Qed.

Lemma small_text n (s : string) : safe_id n s = true -> (n <= 128)%nat ->
  exists t, JStr (u s) = JStr t /\ (length t <= 128)%nat /\ Forall (fun c => scalar c = true) t.
Proof.
  intros [Hl Hi]%safe_id_text Hn. exists (u s). split; [done|]. split; [|by apply identifier_scalar].
  unfold length_ok in Hl. apply andb_true_iff in Hl as [_ Hl%Nat.leb_le]. lia.
Qed.

Lemma small_name (names : list string) (s : string) : s ∈ names -> forallb (fun s => safe_id 128 s) names = true -> safe_id 128 s = true.
Proof. intros Hs H. rewrite forallb_forall in H. by apply H, list_elem_of_In. Qed.

Lemma small_envelope p : valid_parts p -> Forall small_member (envelope_fields p).
Proof.
  intros [V M R U T S A]. unfold envelope_fields.
  assert (forall k, forallb scalar (u k) && (length (u k) <=? 18)%nat = true ->
            (length (u k) <= 18)%nat /\ Forall (fun c => scalar c = true) (u k)) as Hk.
  { intros k [Hs Hl%Nat.leb_le]%andb_true_iff. split; [done|]. rewrite forallb_forall in Hs. apply Forall_forall.
    intros c Hc. by apply Hs, list_elem_of_In. }
  repeat (apply Forall_cons; split; [split; [by apply Hk|]; cbn [snd]|]); try by apply Forall_nil.
  - right. exists 1. by rewrite V.
  - left. by eapply small_text; [exact M | lia].
  - left. by eapply small_text; [exact R | lia].
  - left. by eapply small_text; [exact U | lia].
  - left. eapply small_text; [by eapply small_name; [exact T|] | lia].
  - left. eapply small_text; [by eapply small_name; [exact S|] | lia].
  - right. by exists (tp_attempt p).
  - left. eexists. split; [done|]. split; [pose proof (isoformat_length (tp_enqueued_at p)); lia|].
    eapply Forall_impl; [apply isoformat_chars|]. cbn. unfold iso_char, ascii_digit, scalar. intros c Hc. lia.
Qed.

Section Permuted.
Context (p : TaskPayload) (fields : list (pytext * json)) (Hperm : fields ≡ₚ envelope_fields p).

Lemma permuted_distinct : NoDup fields.*1.
Proof. rewrite Hperm, envelope_keys. apply run_fields_distinct. Qed.
Lemma permuted_get k v : (u k, v) ∈ envelope_fields p -> get k fields = v.
Proof.
  intros Hin. unfold get. rewrite (field_of_distinct (u k) v fields); [done | apply permuted_distinct | by rewrite Hperm].
Qed.
Lemma permuted_keys : same_keys fields RUN_FIELDS = true.
Proof.
  unfold same_keys. rewrite andb_true_iff, !forallb_forall. split.
  - intros k Hk%list_elem_of_In. rewrite Hperm, envelope_keys in Hk. by apply bool_decide_eq_true.
  - intros k Hk%list_elem_of_In. rewrite <- (envelope_keys p) in Hk. apply list_elem_of_fmap in Hk as ([k' v] & -> & Hin).
    apply bool_decide_eq_true. exists v. apply field_of_distinct; [apply permuted_distinct | by rewrite Hperm].
Qed.
Lemma permuted_no_task_type : get "task_type" fields = JNull.
Proof.
  unfold get. destruct (field (u "task_type") fields) as [v|] eqn:E; [|done]. apply field_elem in E.
  assert (u "task_type" ∉ RUN_FIELDS) as Hni by (apply (bool_decide_unpack _); vm_compute; exact I).
  exfalso. apply Hni. rewrite <- (envelope_keys p), <- Hperm. apply list_elem_of_fmap. by exists (u "task_type", v).
Qed.

Lemma permuted_identifier k (v : string) n :
  (u k, JStr (u v)) ∈ envelope_fields p -> safe_id n v = true -> identifier fields k n = Parsed (u v).
Proof.
  intros Hin [Hl Hi]%safe_id_text. unfold identifier. rewrite (permuted_get _ _ Hin), Hl, Hi. done.
Qed.
Lemma permuted_in_set k (v : string) (names : list string) :
  (u k, JStr (u v)) ∈ envelope_fields p -> v ∈ names -> in_set (get k fields) (u <$> names) = Parsed true.
Proof.
  intros Hin Hv. rewrite (permuted_get _ _ Hin). unfold in_set. cbn [hashable].
  by rewrite bool_decide_eq_true_2 by (by apply named_text).
Qed.
End Permuted.

(** The members of a payload. *)
Ltac in_envelope := unfold envelope_fields; rewrite !elem_of_cons; tauto.

Lemma permuted_parse p fields body runner_id :
  valid_parts p -> datetime_min <= tp_enqueued_at p <= datetime_max -> fields ≡ₚ envelope_fields p ->
  (forall label, decode_object body label = Parsed fields) ->
  parse_task_envelope body (Some runner_id)
  = if decide (runner_id = u (tp_runner_id p)) then
      if slot_matches (u (tp_run_type p)) (u (tp_required_slot_type p)) then Parsed (received p)
      else Raised (EnvelopeError "任务信封 required_slot_type 与 run_type 不匹配")
    else Raised (EnvelopeError "任务信封 runner_id 与本机身份不一致").
Proof.
  intros [V M R U T S A] Ht Hperm Hbody. unfold parse_task_envelope. rewrite Hbody. cbn [mbind parsed_bind].
  rewrite (permuted_keys p) by done. cbn [ensure mbind parsed_bind].
  unfold schema_version_ok. rewrite (permuted_get p fields Hperm "schema_version" (JInt 1)) by (rewrite <- V; in_envelope).
  change (py_eq (JInt 1) (JInt 1) && negb (is_bool (JInt 1))) with true. cbn [ensure mbind parsed_bind].
  rewrite (permuted_identifier p fields Hperm "message_id" (tp_message_id p)) by (in_envelope || done).
  rewrite (permuted_identifier p fields Hperm "run_id" (tp_run_id p)) by (in_envelope || done).
  rewrite (permuted_identifier p fields Hperm "runner_id" (tp_runner_id p)) by (in_envelope || done).
  cbn [mbind parsed_bind]. unfold expect_runner. case_decide as Hid; [subst | by rewrite bool_decide_eq_false_2 by congruence].
  rewrite bool_decide_eq_true_2 by done. cbn [ensure mbind parsed_bind].
  rewrite (permuted_in_set p fields Hperm "run_type" (tp_run_type p)) by (in_envelope || done).
  cbn [ensure mbind parsed_bind].
  rewrite (permuted_in_set p fields Hperm "required_slot_type" (tp_required_slot_type p)) by (in_envelope || done).
  cbn [ensure mbind parsed_bind].
  rewrite (permuted_get p fields Hperm "run_type" (JStr (u (tp_run_type p)))) by in_envelope.
  rewrite (permuted_get p fields Hperm "required_slot_type" (JStr (u (tp_required_slot_type p)))) by in_envelope.
  rewrite (permuted_get p fields Hperm "attempt" (JInt (tp_attempt p))) by in_envelope.
  rewrite (permuted_get p fields Hperm "enqueued_at" (JStr (to_utc_isoformat (tp_enqueued_at p)))) by in_envelope.
  cbn [text_of]. destruct (slot_matches _ _); [|done]. cbn [ensure mbind parsed_bind int_within].
  rewrite (proj2 (Z.leb_le 1 _)), (proj2 (Z.leb_le _ 10)) by lia. cbn [andb ensure mbind parsed_bind].
  by rewrite enqueued_at_read.
Qed.

Lemma permuted_body p fields : valid_parts p -> fields ≡ₚ envelope_fields p ->
  exists body, publish_body fields = Some body /\ forall label, decode_object body label = Parsed fields.
Proof.
  intros Hv Hperm. apply small_body.
  - by eapply permuted_distinct.
  - rewrite Hperm. by apply small_envelope.
  - intros ->. by apply Permutation_nil_l in Hperm.
  - rewrite Hperm. cbn. lia.
Qed.

Lemma permuted_union p fields body expected : fields ≡ₚ envelope_fields p ->
  (forall label, decode_object body label = Parsed fields) ->
  parse_task_or_recording_envelope body expected = e ← parse_task_envelope body expected; Parsed (RunTask e).
Proof.
  intros Hperm Hd. unfold parse_task_or_recording_envelope. rewrite Hd. cbn [mbind parsed_bind].
  rewrite (permuted_no_task_type p) by done. done.
Qed.

(** C25: a valid task envelope survives the broker.  Whatever order the stored
    payload keeps its members in, its body can be encoded, and the runner it is
    addressed to reads back every field the back end put in, the instant to the
    microsecond; it refuses the body in one case, a slot type that cannot run the
    run type.  Any other runner refuses it. *)
Theorem envelope_crosses_broker p fields runner_id :
  envelope_valid p = true -> datetime_min <= tp_enqueued_at p <= datetime_max -> fields ≡ₚ envelope_fields p ->
  exists body, publish_body fields = Some body
  /\ parse_task_or_recording_envelope body (Some runner_id)
     = if decide (runner_id = u (tp_runner_id p)) then
         if slot_matches (u (tp_run_type p)) (u (tp_required_slot_type p)) then Parsed (RunTask (received p))
         else Raised (EnvelopeError "任务信封 required_slot_type 与 run_type 不匹配")
       else Raised (EnvelopeError "任务信封 runner_id 与本机身份不一致").
Proof.
  intros Hv%envelope_parts Ht Hperm. destruct (permuted_body p fields Hv Hperm) as (body & Hb & Hd).
  exists body. split; [done|]. rewrite (permuted_union p fields), (permuted_parse p fields) by done.
  case_decide; [|done]. by destruct (slot_matches _ _).
Qed.

(** Which slots a run type can use. *)
Definition slot_fits (t : RunType.t) (s : RunnerSlotType.t) : bool :=
  Bool.eqb (bool_decide (t = RunType.WEB_CASE)) (bool_decide (s = RunnerSlotType.WEB)).
Lemma slot_matches_values t s : slot_matches (u (RunType.value t)) (u (RunnerSlotType.value s)) = slot_fits t s.
Proof. by destruct t, s. Qed.

Lemma validate_parts r ob p : validate_dispatch_payload r ob = Some p ->
  p = ob_payload ob /\ r_runner_id r = Some (tp_runner_id p) /\ tp_run_type p = RunType.value (r_run_type r)
  /\ tp_required_slot_type p = RunnerSlotType.value (h_required_slot_type (r_header r))
  /\ tp_message_id p = ob_message_id ob.
Proof.
  unfold validate_dispatch_payload. destruct (_ && _) eqn:Hb; [|done]. intros [= <-].
  rewrite !andb_true_iff, !bool_decide_eq_true in Hb. destruct_and!. done.
Qed.

Section dispatch.
Context `{Catalog}.

(** C4: dispatching a run ends at the right runner.  What a dispatch hands to the
    broker is recorded in the outbox row of the run, numbered at most ten, and
    routed to the runner of the run; and when that runner parses the published
    body, it takes it for the task of this run, with the message id and the attempt
    of the outbox row.  Only a run whose slot type does not fit its run type is
    refused there. *)
Theorem dispatched_message_reaches_runner d now user k hb pre m d' evs key p fields :
  db_inv d -> dispatch_request d now user k hb pre m = (d', evs, Ok (inr (key, p))) ->
  datetime_min <= tp_enqueued_at p <= datetime_max -> fields ≡ₚ envelope_fields p ->
  exists r ob runner body, db_runs d' !! k = Some r /\ r_outbox r = Some ob
    /\ ob_status ob = DispatchOutboxStatus.PENDING /\ 1 <= ob_attempt_count ob <= DISPATCH_MAX_ATTEMPTS
    /\ r_runner_id r = Some runner /\ key = expected_dispatch_routing_key r
    /\ publish_body fields = Some body
    /\ parse_task_or_recording_envelope body (Some (u runner))
       = if slot_fits (r_run_type r) (h_required_slot_type (r_header r)) then
           Parsed (RunTask {| rt_message_id := u (ob_message_id ob); rt_run_id := u k; rt_runner_id := u runner;
                              rt_run_type := u (RunType.value (r_run_type r));
                              rt_required_slot_type := u (RunnerSlotType.value (h_required_slot_type (r_header r)));
                              rt_attempt := ob_attempt_count ob; rt_enqueued_at := Aware (tp_enqueued_at p) 0 |})
         else Raised (EnvelopeError "任务信封 required_slot_type 与 run_type 不匹配").
Proof.
  intros Hd Hreq Ht Hperm.
  destruct (dispatch_hands_over_valid_attempt _ _ _ _ _ _ _ _ _ _ _ Hd Hreq)
    as (r & ob & Hr & Hob & _ & Hst & Hp & Hat & Hn & Hv & Hid & -> & [p' Hval] & _).
  apply validate_parts in Hval as (-> & Hrun & Hty & Hsl & Hmsg). rewrite Hp in *.
  apply envelope_parts in Hv. destruct (permuted_body p fields Hv Hperm) as (body & Hb & Hdec).
  exists r, ob, (tp_runner_id p), body. split_and!; try done; try lia.
  rewrite (permuted_union p fields), (permuted_parse p fields) by done. rewrite decide_True by done.
  rewrite Hty, Hsl, slot_matches_values. destruct (slot_fits _ _); [|done]. unfold received.
  by rewrite Hty, Hsl, Hid, Hmsg, Hat.
Qed.
End dispatch.

(** An envelope the protocol allows, for a runner that expects [expected]. *)
Record well_formed (expected : option pytext) (e : RunTaskEnvelopeV1) : Prop := {
  wf_message : length_ok 64 (rt_message_id e) = true /\ forallb identifier_char (rt_message_id e) = true;
  wf_run : length_ok 128 (rt_run_id e) = true /\ forallb identifier_char (rt_run_id e) = true;
  wf_runner : length_ok 64 (rt_runner_id e) = true /\ forallb identifier_char (rt_runner_id e) = true;
  wf_expected : forall r, expected = Some r -> rt_runner_id e = r;
  wf_type : rt_run_type e ∈ u <$> ["API_CASE"; "SCENARIO"; "WEB_CASE"]%string;
  wf_slot : rt_required_slot_type e ∈ u <$> ["API"; "WEB"; "PERFORMANCE"]%string;
  wf_match : slot_matches (rt_run_type e) (rt_required_slot_type e) = true;
  wf_attempt : 1 <= rt_attempt e <= 10;
  wf_enqueued : exists us offset, rt_enqueued_at e = Aware us offset /\ Z.abs offset < day_us
                /\ datetime_min <= us <= datetime_max;
}.

Lemma expect_runner_inv expected r message x : expect_runner expected r message = Parsed x -> forall e, expected = Some e -> r = e.
Proof. unfold expect_runner. intros H e ->. inv_parsed. by eapply bool_decide_eq_true_1. Qed.

Lemma parse_task_envelope_inv body expected e : parse_task_envelope body expected = Parsed e ->
  well_formed expected e
  /\ exists payload, decode_object body "任务信封" = Parsed payload /\ same_keys payload RUN_FIELDS = true.
Proof.
  unfold parse_task_envelope. intros H. inv_parsed. simplify_eq. split; [|by eexists].
  repeat match goal with
         | H : identifier _ _ _ = Parsed _ |- _ => apply identifier_inv in H
         | H : in_set _ _ = Parsed true |- _ => apply in_set_inv in H
         | H : parse_enqueued_at _ = Parsed _ |- _ => apply enqueued_at_inv in H
         end.
  split; try done; [by eapply expect_runner_inv|]. cbn.
  match goal with H : int_within _ _ _ _ = Parsed _ |- _ => apply int_within_inv in H as [? Hh] end. specialize (Hh 10 eq_refl). lia.
Qed.


(** ** The failures of the parsers *)

(** [m] fails with nothing but an [EnvelopeError]. *)
Definition tidy {A} (m : parsed A) : Prop := m <> Raised UnhashableType.

Lemma bind_unhashable {A B} (m : parsed A) (f : A -> parsed B) :
  (x ← m; f x) = Raised UnhashableType -> tidy m -> exists a, m = Parsed a /\ f a = Raised UnhashableType.
Proof. destruct m as [a|[]]; [by exists a | done | done]. Qed.
Lemma bind_unhashable_or {A B} (m : parsed A) (f : A -> parsed B) :
  (x ← m; f x) = Raised UnhashableType -> m = Raised UnhashableType \/ exists a, m = Parsed a /\ f a = Raised UnhashableType.
Proof. destruct m as [a|[]]; [right; by exists a | done | by left]. Qed.
Lemma tidy_bind {A B} (m : parsed A) (f : A -> parsed B) : tidy m -> (forall a, tidy (f a)) -> tidy (x ← m; f x).
Proof. intros Hm Hf H. apply bind_unhashable in H as (a & _ & H); [by apply (Hf a) | done]. Qed.
Lemma tidy_ensure b message : tidy (ensure b message).
Proof. by destruct b. Qed.
Lemma tidy_parsed {A} (a : A) : tidy (Parsed a).
Proof. done. Qed.
Lemma tidy_decode body label : tidy (decode_object body label).
Proof. apply tidy_bind; [apply tidy_ensure|]. intros _. destruct (_ ≫= _) as [[]|]; done. Qed.
Lemma tidy_identifier payload name n : tidy (identifier payload name n).
Proof. unfold identifier. destruct (get name payload); try done. apply tidy_bind; [apply tidy_ensure | done]. Qed.
Lemma tidy_plain payload name n : tidy (plain_text payload name n).
Proof. unfold plain_text. destruct (get name payload); try done. apply tidy_bind; [apply tidy_ensure | done]. Qed.
Lemma tidy_int low high v message : tidy (int_within low high v message).
Proof. unfold int_within. destruct v; try done. apply tidy_bind; [apply tidy_ensure | done]. Qed.
Lemma tidy_enqueued v : tidy (parse_enqueued_at v).
Proof. unfold parse_enqueued_at. destruct v; try done. apply tidy_bind; [apply tidy_ensure|]. intros _. by destruct (fromisoformat _). Qed.

Create HintDb parsing.
#[local] Hint Resolve tidy_bind tidy_ensure tidy_parsed tidy_decode tidy_identifier tidy_plain tidy_int tidy_enqueued : parsing.

Lemma tidy_web label id_field task_type body expected : tidy (parse_web_envelope label id_field task_type body expected).
Proof. unfold parse_web_envelope, expect_runner. eauto 30 with parsing. Qed.
#[local] Hint Resolve tidy_web : parsing.

Lemma parse_task_unhashable body expected : parse_task_envelope body expected = Raised UnhashableType ->
  exists payload, decode_object body "任务信封" = Parsed payload /\ same_keys payload RUN_FIELDS = true
  /\ (hashable (get "run_type" payload) = false \/ hashable (get "required_slot_type" payload) = false).
Proof.
  unfold parse_task_envelope, expect_runner. intros H.
  apply bind_unhashable in H as (payload & Hd & H); [|eauto with parsing]. exists payload.
  apply bind_unhashable in H as (? & Hk & H); [|eauto with parsing]. apply ensure_inv in Hk. split_and!; [done | done|].
  destruct (hashable (get "run_type" payload)) eqn:Ht; [|by left]. right.
  destruct (hashable (get "required_slot_type" payload)) eqn:Hs; [|done]. exfalso. revert H.
  unfold in_set. rewrite Ht, Hs. lazymatch goal with |- ?m = _ -> False => change (tidy m) end. eauto 40 with parsing.
Qed.
(** the parsers' only failure besides [EnvelopeError] is the [TypeError] of
    looking up a run type or a slot type that is a list or an object: a body that
    raises it is otherwise a task for this runner up to that field. *)
Theorem unhashable_field_escapes body expected :
  parse_task_or_recording_envelope body expected = Raised UnhashableType ->
  exists payload, decode_object body "任务信封" = Parsed payload /\ payload.*1 ≡ₚ RUN_FIELDS
  /\ (hashable (get "run_type" payload) = false \/ hashable (get "required_slot_type" payload) = false).
Proof.
  unfold parse_task_or_recording_envelope. intros H. apply bind_unhashable in H as (payload & Hd & H); [|eauto with parsing].
  assert (parse_task_envelope body expected = Raised UnhashableType) as Ht.
  { repeat case_match; apply bind_unhashable_or in H as [H|(? & _ & ?)]; try done; by apply tidy_web in H. }
  apply parse_task_unhashable in Ht as (payload' & Hd' & Hk & Hh). exists payload'.
  pose proof (decode_object_inv _ _ _ Hd') as (_ & Hnd & _). split_and!; [done | | done].
  apply NoDup_Permutation; [done | apply run_fields_distinct | by apply same_keys_spec].
Qed.

(** Such a body: the run type is an empty list. *)
Definition unhashable_payload : list (pytext * json) :=
  set_field (u "run_type") (JList []) (envelope_fields example_payload).
Example unhashable_body :
  exists body, publish_body unhashable_payload = Some body
  /\ parse_task_or_recording_envelope body (Some (u "runner_a")) = Raised UnhashableType.
Proof. eexists. split; [reflexivity|]. vm_compute. reflexivity. Qed.

Module EnvelopeWitness.
Import Demo.

Lemma crosses_witness :
  exists body, publish_body (reverse (envelope_fields example_payload)) = Some body
  /\ parse_task_or_recording_envelope body (Some (u "runner_a")) = Parsed (RunTask (received example_payload)).
Proof.
  refine (envelope_crosses_broker example_payload (reverse (envelope_fields example_payload)) (u "runner_a") _ _ _).
  - reflexivity.
  - vm_compute. split; discriminate.
  - apply reverse_Permutation.
Defined.


Lemma unhashable_witness :
  exists payload, decode_object (default [] (publish_body unhashable_payload)) "任务信封" = Parsed payload
  /\ payload.*1 ≡ₚ RUN_FIELDS
  /\ (hashable (get "run_type" payload) = false \/ hashable (get "required_slot_type" payload) = false).
Proof. apply (unhashable_field_escapes _ (Some (u "runner_a"))). vm_compute. reflexivity. Defined.

Lemma dispatched_witness :
  exists body, publish_body (envelope_fields ContractWitness.envelope) = Some body
  /\ parse_task_or_recording_envelope body (Some (u "r1")) = Parsed (RunTask (received ContractWitness.envelope)).
Proof.
  destruct (dispatched_message_reaches_runner created 1000000 admin "run_1" HeartbeatPresent false "msg_1"
    (out_db ContractWitness.dispatched) (out_events ContractWitness.dispatched) "runner.r1.api" ContractWitness.envelope
    (envelope_fields ContractWitness.envelope)) as (r & ob & runner & body & Hr & Hob & _ & _ & Hrun & _ & Hb & Hp).
  - apply play_inv, base_inv.
  - vm_compute. reflexivity.
  - vm_compute. split; discriminate.
  - reflexivity.
  - exists body. split; [exact Hb|]. vm_compute in Hr. injection Hr as <-. vm_compute in Hob. injection Hob as <-.
    vm_compute in Hrun. injection Hrun as <-. rewrite Hp. vm_compute. reflexivity.
Defined.

(** A run of an API case that asks for a Web slot is created and dispatched, and
    its runner refuses the message. *)
Definition web_runner : Runner :=
  {| rn_id := "r1"; rn_status := RunnerStatus.ACTIVE; rn_credential_digest := digest64;
     rn_last_heartbeat_at := Some 0; rn_tags := ["linux"%string]; rn_ready_capabilities := ["API"%string];
     rn_slots := [ {| sl_type := RunnerSlotType.WEB; sl_total := 1; sl_available := 1 |} ]; rn_chrome_version := None |}.
Definition web_db : Db :=
  {| db_projects := db_projects base_db; db_runs := ∅; db_runners := {[ "r1"%string := web_runner ]}; db_api_results := ∅;
     db_scenario_results := ∅; db_web_results := ∅; db_session_profiles := ∅; db_resources := []; db_evidence := [] |}.
Definition web_slot_payload : RunCreateRequest :=
  let q := create_payload 1 in
  {| rq_project_id := rq_project_id q; rq_environment_id := rq_environment_id q; rq_runner_id := rq_runner_id q;
     rq_run_type := RunType.API_CASE; rq_case_id := rq_case_id q; rq_case_version_id := rq_case_version_id q;
     rq_scenario_id := None; rq_scenario_version_id := None; rq_web_case_id := None; rq_web_case_version_id := None;
     rq_required_capabilities := []; rq_required_tags := rq_required_tags q;
     rq_required_slot_type := RunnerSlotType.WEB; rq_required_slot_count := 1; rq_total_timeout_ms := None |}.
Example web_slot_refused :
  let d := play web_db 0 [RCreate admin web_slot_payload HeartbeatPresent "run_1" 1 1] in
  exists d' evs p body, dispatch_request d 1000000 admin "run_1" HeartbeatPresent false "msg_1" = (d', evs, Ok (inr ("runner.r1.web"%string, p)))
  /\ publish_body (envelope_fields p) = Some body
  /\ parse_task_or_recording_envelope body (Some (u "r1"))
     = Raised (EnvelopeError "任务信封 required_slot_type 与 run_type 不匹配").
Proof. eexists _, _, _, _. split; [vm_compute; reflexivity|]. split; [vm_compute; reflexivity|]. vm_compute. reflexivity. Qed.
End EnvelopeWitness.
