(* ===== verification/ApiTemplate.v ===== *)
(** The request of an API case on the runner (runner/executors/api.py):
    [ApiRequestTemplate] with its parts, parsed from the plan by [from_mapping] and
    validated by [_validate_template].  Checks that only establish the type of a
    field are part of parsing. *)
From S2P Require Import Prelude PyText Calendar Json PyJson ScenarioData RunnerValues ScenarioSql PyUrl ScenarioMonad.
From S2P Require Import ScenarioActions.
Open Scope Z_scope.

(** ** Data *)

Record RequestValue := { rv_name : pytext; rv_value : pytext; rv_enabled : bool }.

Inductive BodyType := B_NONE | B_JSON | B_FORM_URLENCODED | B_MULTIPART | B_RAW.
#[global] Instance BodyType_eq_dec : EqDecision BodyType.
Proof. solve_decision. Defined.

(** [JNull] stands for no content. *)
Record RequestBody := { rb_type : BodyType; rb_content : json; rb_content_type : option pytext }.

Inductive AuthType := A_NONE | A_BEARER | A_BASIC | A_API_KEY.
#[global] Instance AuthType_eq_dec : EqDecision AuthType.
Proof. solve_decision. Defined.
Inductive Placement := HEADER_ | QUERY_.
#[global] Instance Placement_eq_dec : EqDecision Placement.
Proof. solve_decision. Defined.

Record RequestAuth := {
  ra_type : AuthType;
  ra_token : option pytext;
  ra_username : option pytext;
  ra_password : option pytext;
  ra_key_name : option pytext;
  ra_key_value : option pytext;
  ra_placement : Placement;
}.

Record RetryPolicy := { rp_max_retries : Z; rp_backoff_ms : Z; rp_retry_on : list pytext }.

Record ApiRequestTemplate := {
  at_method : pytext;
  at_url : pytext;
  at_query_params : list RequestValue;
  at_headers : list RequestValue;
  at_cookies : list RequestValue;
  at_body : RequestBody;
  at_auth : RequestAuth;
  at_timeout_ms : Z;
  at_follow_redirects : bool;
  at_retry_policy : RetryPolicy;
}.

Definition MAX_REQUEST_BYTES : Z := 2 * 1024 * 1024.
Definition MAX_HEADER_COUNT : nat := 200.
Definition MAX_COOKIE_COUNT : nat := 100.
Definition MAX_ITEM_NAME : nat := 255.
Definition MAX_ITEM_VALUE : nat := Z.to_nat 10000.
Definition MAX_TIMEOUT_MS : Z := 120000.
Definition ALLOWED_METHODS : list string := ["GET"; "POST"; "PUT"; "PATCH"; "DELETE"; "HEAD"; "OPTIONS"].
Definition ALLOWED_RETRY_ON : list string := ["TARGET_NETWORK_ERROR"; "TARGET_TIMEOUT"; "HTTP_5XX"].

Definition body_type_of (s : pytext) : option BodyType :=
  if decide (s = u "NONE") then Some B_NONE else if decide (s = u "JSON") then Some B_JSON
  else if decide (s = u "FORM_URLENCODED") then Some B_FORM_URLENCODED
  else if decide (s = u "MULTIPART") then Some B_MULTIPART else if decide (s = u "RAW") then Some B_RAW else None.
Definition auth_type_of (s : pytext) : option AuthType :=
  if decide (s = u "NONE") then Some A_NONE else if decide (s = u "BEARER") then Some A_BEARER
  else if decide (s = u "BASIC") then Some A_BASIC else if decide (s = u "API_KEY") then Some A_API_KEY else None.

(** ** Characters *)

Definition line_break (c : N) : bool := ((c =? 13) || (c =? 10))%N.
Definition has_line_break (s : pytext) : bool := existsb line_break s.

(** [_has_http_control]. *)
Definition has_http_control (s : pytext) : bool :=
  existsb (fun c => (c <? 32) || ((127 <=? c) && (c <=? 159)))%N s.

(** [_HTTP_TOKEN]. *)
Definition token_char (c : N) : bool :=
  is_letter c || ascii_digit c || bool_decide (c ∈ u "!#$%&'*+-.^_`|~").
Definition http_token (s : pytext) : bool := bool_decide (s <> []) && forallb token_char s.

Definition within (low high : nat) (s : pytext) : bool := (low <=? length s)%nat && (length s <=? high)%nat.

(** ** Multipart and form bodies *)

(** A part of a multipart body: field name, file name, content, content type. *)
Record FilePart := {
  fp_name : pytext;
  fp_filename : option pytext;
  fp_content : list N;
  fp_content_type : option pytext;
}.

Definition TOO_LARGE : exn := Py (ExecutionError (u "REQUEST_TOO_LARGE")).

(** [len(s.encode())]; a lone surrogate raises [UnicodeEncodeError], a
    [ValueError]. *)
Definition encoded (s : pytext) : py (list N) := of_option (utf8_encode s) PyValueError.

(** One field of [_multipart_data]; [None] for a disabled one. *)
Definition multipart_item (item : json) (total : Z) : py (option (FilePart * Z)) :=
  match item with
  | JDict f =>
      _ ← require (negb (extra_fields f ["name"; "value"; "enabled"; "filename"; "content_type"; "encoding"])) ProtocolError;
      match get_or f "enabled" (JBool true), get f "name" with
      | JBool enabled, JStr name =>
          _ ← require (within 1 255 name) ProtocolError;
          if negb enabled then Return None
          else
            match get f "filename", get f "value" with
            | JNull, JStr value =>
                _ ← require (equals_text (get_or f "encoding" (JStr (u "TEXT"))) "TEXT" && is_none (get f "content_type"))
                      ProtocolError;
                n ← encoded name;
                v ← encoded value;
                let total := total + Z.of_nat (length n) + Z.of_nat (length v) in
                _ ← require (total <=? MAX_REQUEST_BYTES) TOO_LARGE;
                Return (Some ({| fp_name := name; fp_filename := None; fp_content := v; fp_content_type := None |}, total))
            | JStr filename, JStr value =>
                match get f "content_type" with
                | JStr content_type =>
                    _ ← require (within 1 255 filename && negb (bool_decide (filename ∈ [u "."; u ".."]))
                                 && negb (has 47 filename) && negb (has 92 filename)
                                 && equals_text (get_or f "encoding" (JStr (u "TEXT"))) "BASE64"
                                 && within 1 255 content_type && negb (has_http_control content_type)) ProtocolError;
                    decoded ← of_option (base64_decode value) ProtocolError;
                    n ← encoded name;
                    file ← encoded filename;
                    let total := total + Z.of_nat (length n) + Z.of_nat (length file) + Z.of_nat (length decoded) in
                    _ ← require (total <=? MAX_REQUEST_BYTES) TOO_LARGE;
                    Return (Some ({| fp_name := name; fp_filename := Some filename; fp_content := decoded;
                                     fp_content_type := Some content_type |}, total))
                | _ => Raise ProtocolError
                end
            | _, _ => Raise ProtocolError
            end
      | _, _ => Raise ProtocolError
      end
  | _ => Raise ProtocolError
  end.

Fixpoint multipart_items (items : list json) (total : Z) : py (list FilePart * Z) :=
  match items with
  | [] => Return ([], total)
  | item :: rest =>
      r ← multipart_item item total;
      match r with
      | None => multipart_items rest total
      | Some (part, total) => '(parts, total) ← multipart_items rest total; Return (part :: parts, total)
      end
  end.

(** [_multipart_data]. *)
Definition multipart_data (content : json) : py (list FilePart * Z) :=
  items ← match content with
          | JDict f => Return ((fun '(k, v) => JDict [(u "name", JStr k); (u "value", v); (u "enabled", JBool true)]) <$> f)
          | JList l => Return l
          | _ => Raise ProtocolError
          end;
  _ ← require (length items <=? 200)%nat ProtocolError;
  multipart_items items 0.

(** [_form_data]. *)
Definition form_item (item : json) : py (pytext * pytext) :=
  match item with
  | JDict f =>
      _ ← require (negb (extra_fields f ["name"; "value"])) ProtocolError;
      match field (u "name") f, field (u "value") f with
      | Some (JStr n), Some (JStr v) => Return (n, v)
      | _, _ => Raise ProtocolError
      end
  | _ => Raise ProtocolError
  end.
Definition form_data (content : json) : py (list (pytext * pytext)) :=
  match content with
  | JDict f => map_py (fun '(k, v) => match v with JStr s => Return (k, s) | _ => Raise ProtocolError end) f
  | JList l => map_py form_item l
  | _ => Raise ProtocolError
  end.

(** ** Validation *)

(** [_validate_body]. *)
Definition validate_body (body : RequestBody) : py unit :=
  let none := bool_decide (rb_type body = B_NONE) in
  _ ← require (Bool.eqb none (is_none (rb_content body))) ProtocolError;
  _ ← require (negb (bool_decide (rb_type body = B_JSON))
               || match rb_content body with JDict _ | JList _ => true | _ => false end) ProtocolError;
  _ ← (if decide (rb_type body = B_MULTIPART) then
         _ ← multipart_data (rb_content body);
         require (bool_decide (rb_content_type body = None)) ProtocolError
       else Return tt);
  require (match rb_content_type body with
           | Some t => (length t <=? 255)%nat && negb (has_http_control t)
           | None => true
           end) ProtocolError.

(** [_validate_auth]. *)
Definition given (t : option pytext) : bool := match t with Some (_ :: _) => true | _ => false end.
Definition absent (t : option pytext) : bool := bool_decide (t = None).
Definition bounded (n : Z) (t : option pytext) : bool :=
  match t with Some s => (Z.of_nat (length s) <=? n) | None => true end.
Definition validate_auth (a : RequestAuth) : py unit :=
  _ ← require (bounded 10000 (ra_token a) && bounded 1000 (ra_username a) && bounded 10000 (ra_password a)
               && bounded 255 (ra_key_name a) && bounded 10000 (ra_key_value a)) ProtocolError;
  _ ← require
        (match ra_type a with
         | A_NONE => absent (ra_token a) && absent (ra_username a) && absent (ra_password a)
                     && absent (ra_key_name a) && absent (ra_key_value a)
         | A_BEARER => given (ra_token a) && absent (ra_username a) && absent (ra_password a)
                       && absent (ra_key_name a) && absent (ra_key_value a)
         | A_BASIC => given (ra_username a) && given (ra_password a) && absent (ra_token a)
                      && absent (ra_key_name a) && absent (ra_key_value a)
         | A_API_KEY => given (ra_key_name a) && given (ra_key_value a) && absent (ra_token a)
                        && absent (ra_username a) && absent (ra_password a)
         end) ProtocolError;
  _ ← require (bool_decide (ra_type a = A_API_KEY) || bool_decide (ra_placement a = HEADER_)) ProtocolError;
  match ra_type a with
  | A_NONE => Return tt
  | A_BASIC => require (negb (has 58 (default [] (ra_username a)))) ProtocolError
  | A_BEARER => require (negb (has_http_control (default [] (ra_token a)))) ProtocolError
  | A_API_KEY =>
      let name := default [] (ra_key_name a) in
      if decide (ra_placement a = HEADER_)
      then require (http_token name && negb (has_http_control (default [] (ra_key_value a)))) ProtocolError
      else require (negb (has_line_break name)) ProtocolError
  end.

(** [_validate_retry_policy_values]. *)
Definition validate_retry_policy (p : RetryPolicy) : py unit :=
  require ((0 <=? rp_max_retries p) && (rp_max_retries p <=? 1) && (0 <=? rp_backoff_ms p) && (rp_backoff_ms p <=? 30000)
           && (length (rp_retry_on p) <=? 3)%nat
           && forallb (fun s => bool_decide (s ∈ u <$> ALLOWED_RETRY_ON)) (rp_retry_on p)
           && bool_decide (NoDup (rp_retry_on p))
           && ((rp_max_retries p <=? 0) || bool_decide (rp_retry_on p <> []))) ProtocolError.

(** [_validate_request_items]; the names of headers and cookies are tokens. *)
Definition validate_items (tokens : bool) (max_count : nat) (items : list RequestValue) : py unit :=
  require ((length items <=? max_count)%nat
           && forallb (fun i => within 1 MAX_ITEM_NAME (rv_name i) && (length (rv_value i) <=? MAX_ITEM_VALUE)%nat
                                && negb (has_line_break (rv_value i))
                                && (negb tokens || http_token (rv_name i) && negb (has_http_control (rv_value i)))) items)
    ProtocolError.

Section Validation.
Context `{Unicode} `{UrlLibrary}.

(** [_validate_target_url]. *)
Definition validate_target_url (url : pytext) : py unit :=
  if decide (is_Some (strip_prefix (u "{{") url)) then Return tt
  else
    parsed ← of_option (urlsplit url) PyValueError;
    _ ← require (bool_decide (us_scheme parsed ∈ [u "http"; u "https"]) && bool_decide (us_netloc parsed <> [])) ProtocolError;
    p ← of_option (port parsed) ProtocolError;
    _ ← require (bool_decide (is_Some (hostname parsed))
                 && match p with Some n => (1 <=? n) && (n <=? 65535) | None => true end) ProtocolError;
    _ ← require (negb (has_userinfo parsed)) ProtocolError;
    require (negb (has_line_break url)) ProtocolError.

Definition enabled_names (items : list RequestValue) : list pytext :=
  (fun i => str_lower (rv_name i)) <$> filter (fun i => rv_enabled i = true) items.

(** [_reject_duplicate_enabled]. *)
Definition reject_duplicate_enabled (items : list RequestValue) : py unit :=
  require (bool_decide (NoDup (enabled_names items))) ProtocolError.

(** [_validate_auth_conflicts]. *)
Definition validate_auth_conflicts (t : ApiRequestTemplate) : py unit :=
  let header_names := enabled_names (at_headers t) in
  parsed ← of_option (urlsplit (at_url t)) PyValueError;
  let query_names := enabled_names (at_query_params t) ++ ((fun p => str_lower p.1) <$> parse_qsl false (us_query parsed)) in
  _ ← require (negb (bool_decide (enabled_names (at_cookies t) <> []) && bool_decide (u "cookie" ∈ header_names))) ProtocolError;
  _ ← require (negb (bool_decide (ra_type (at_auth t) ∈ [A_BEARER; A_BASIC])
                     && bool_decide (u "authorization" ∈ header_names))) ProtocolError;
  match ra_type (at_auth t), ra_key_name (at_auth t) with
  | A_API_KEY, Some name =>
      require (negb (bool_decide (str_lower name ∈ if decide (ra_placement (at_auth t) = HEADER_) then header_names
                                                   else query_names))) ProtocolError
  | _, _ => Return tt
  end.

(** [_validate_template]; method and URL are normalized by then. *)
Definition validate_template (t : ApiRequestTemplate) : py unit :=
  _ ← require (bool_decide (at_method t ∈ u <$> ALLOWED_METHODS)) ProtocolError;
  _ ← require (within 1 (Z.to_nat 4000) (at_url t)) ProtocolError;
  _ ← validate_target_url (at_url t);
  _ ← validate_items false 200 (at_query_params t);
  _ ← validate_items true MAX_HEADER_COUNT (at_headers t);
  _ ← validate_items true MAX_COOKIE_COUNT (at_cookies t);
  _ ← validate_body (at_body t);
  _ ← validate_auth (at_auth t);
  _ ← require ((100 <=? at_timeout_ms t) && (at_timeout_ms t <=? MAX_TIMEOUT_MS)) ProtocolError;
  _ ← validate_retry_policy (at_retry_policy t);
  _ ← reject_duplicate_enabled (at_query_params t);
  _ ← reject_duplicate_enabled (at_headers t);
  _ ← reject_duplicate_enabled (at_cookies t);
  validate_auth_conflicts t.
End Validation.

(** ** Parsing *)

(** [_text]. *)
Definition text_field (j : json) (max_length : nat) : py pytext :=
  match j with JStr s => _ ← require (within 1 max_length s) ProtocolError; Return s | _ => Raise ProtocolError end.

(** [_parse_items]. *)
Definition parse_item (item : json) : py RequestValue :=
  match item with
  | JDict f =>
      _ ← require (negb (extra_fields f ["name"; "value"; "enabled"; "description"])) ProtocolError;
      name ← text_field (get f "name") MAX_ITEM_NAME;
      match get_or f "value" (JStr []), get_or f "enabled" (JBool true) with
      | JStr value, JBool enabled =>
          _ ← require ((length value <=? MAX_ITEM_VALUE)%nat && negb (has_line_break value)) ProtocolError;
          _ ← require (match get f "description" with
                       | JNull => true | JStr s => (length s <=? 500)%nat | _ => false end) ProtocolError;
          _ ← require (within 1 MAX_ITEM_NAME (strip name)) ProtocolError;
          Return {| rv_name := strip name; rv_value := value; rv_enabled := enabled |}
      | _, _ => Raise ProtocolError
      end
  | _ => Raise ProtocolError
  end.
Definition parse_items (value : json) (max_count : nat) : py (list RequestValue) :=
  match value with
  | JList l => _ ← require (length l <=? max_count)%nat ProtocolError; map_py parse_item l
  | _ => Raise ProtocolError
  end.

(** [_parse_body]; the constructor validates. *)
Definition parse_body (value : json) : py RequestBody :=
  match value with
  | JDict f =>
      _ ← require (negb (extra_fields f ["type"; "content"; "content_type"])) ProtocolError;
      match get_or f "type" (JStr (u "NONE")) with
      | JStr t =>
          type ← of_option (body_type_of t) ProtocolError;
          content_type ← match get f "content_type" with
                         | JNull => Return None
                         | JStr s => _ ← require ((length s <=? 255)%nat && negb (has_line_break s)) ProtocolError; Return (Some s)
                         | _ => Raise ProtocolError
                         end;
          let body := {| rb_type := type; rb_content := get f "content"; rb_content_type := content_type |} in
          _ ← validate_body body;
          Return body
      | _ => Raise ProtocolError
      end
  | _ => Raise ProtocolError
  end.

Definition optional_text (j : json) : py (option pytext) :=
  match j with JNull => Return None | JStr s => Return (Some s) | _ => Raise ProtocolError end.

(** [_parse_auth]; the constructor validates. *)
Definition parse_auth (value : json) : py RequestAuth :=
  match value with
  | JDict f =>
      _ ← require (negb (extra_fields f ["type"; "token"; "username"; "password"; "key_name"; "key_value"; "placement"]))
            ProtocolError;
      match get_or f "type" (JStr (u "NONE")) with
      | JStr t =>
          type ← of_option (auth_type_of t) ProtocolError;
          placement ← match get_or f "placement" (JStr (u "HEADER")) with
                      | JNull => _ ← require (negb (bool_decide (type = A_API_KEY))) ProtocolError; Return HEADER_
                      | JStr p => if decide (p = u "HEADER") then Return HEADER_
                                  else if decide (p = u "QUERY") then Return QUERY_ else Raise ProtocolError
                      | _ => Raise ProtocolError
                      end;
          token ← optional_text (get f "token");
          username ← optional_text (get f "username");
          password ← optional_text (get f "password");
          key_name ← optional_text (get f "key_name");
          key_value ← optional_text (get f "key_value");
          let auth := {| ra_type := type; ra_token := token; ra_username := username; ra_password := password;
                         ra_key_name := key_name; ra_key_value := key_value; ra_placement := placement |} in
          _ ← validate_auth auth;
          Return auth
      | _ => Raise ProtocolError
      end
  | _ => Raise ProtocolError
  end.

(** [_parse_retry_policy]. *)
Definition parse_retry_policy (value : json) : py RetryPolicy :=
  match value with
  | JDict f =>
      _ ← require (negb (extra_fields f ["max_retries"; "backoff_ms"; "retry_on"])) ProtocolError;
      match get_or f "max_retries" (JInt 0), get_or f "backoff_ms" (JInt 0), get_or f "retry_on" (JList []) with
      | JInt max_retries, JInt backoff_ms, JList l =>
          retry_on ← map_py (fun j => match j with JStr s => Return s | _ => Raise ProtocolError end) l;
          let policy := {| rp_max_retries := max_retries; rp_backoff_ms := backoff_ms; rp_retry_on := retry_on |} in
          _ ← validate_retry_policy policy;
          Return policy
      | _, _, _ => Raise ProtocolError
      end
  | _ => Raise ProtocolError
  end.

Definition no_retry : RetryPolicy := {| rp_max_retries := 0; rp_backoff_ms := 0; rp_retry_on := [] |}.

Section Parsing.
Context `{Unicode} `{UrlLibrary}.

(** [ApiRequestTemplate.from_mapping]; the constructor validates. *)
Definition api_request_template (value : fields) : py ApiRequestTemplate :=
  _ ← require (negb (extra_fields value ["method"; "url"; "query_params"; "headers"; "cookies"; "body"; "auth"; "timeout_ms";
                                         "follow_redirects"; "retry_policy"])) ProtocolError;
  method ← text_field (get value "method") 16;
  let method := str_upper method in
  _ ← require (bool_decide (method ∈ u <$> ALLOWED_METHODS)) ProtocolError;
  url ← text_field (get value "url") (Z.to_nat 4000);
  let url := strip url in
  _ ← validate_target_url url;
  query_params ← parse_items (get_or value "query_params" (JList [])) 200;
  headers ← parse_items (get_or value "headers" (JList [])) MAX_HEADER_COUNT;
  cookies ← parse_items (get_or value "cookies" (JList [])) MAX_COOKIE_COUNT;
  body ← parse_body (get_or value "body" (JDict []));
  auth ← parse_auth (get_or value "auth" (JDict []));
  match get_or value "timeout_ms" (JInt 30000), get_or value "follow_redirects" (JBool true) with
  | JInt timeout_ms, JBool follow_redirects =>
      _ ← require ((100 <=? timeout_ms) && (timeout_ms <=? MAX_TIMEOUT_MS)) ProtocolError;
      retry_policy ← match field (u "retry_policy") value with
                     | Some p => parse_retry_policy p
                     | None => Return no_retry
                     end;
      let t := {| at_method := method; at_url := url; at_query_params := query_params; at_headers := headers;
                  at_cookies := cookies; at_body := body; at_auth := auth; at_timeout_ms := timeout_ms;
                  at_follow_redirects := follow_redirects; at_retry_policy := retry_policy |} in
      _ ← validate_template t;
      Return t
  | _, _ => Raise ProtocolError
  end.
End Parsing.
