(* ===== verification/ApiExecutor.v ===== *)
(** The API executor of the runner (runner/executors/api.py): [ApiExecutor.execute]
    sends the request of a template, follows redirects itself - dropping the
    credentials when one leaves the origin - and makes a bounded snapshot of the
    response. *)
From S2P Require Import Prelude PyText Calendar Json PyJson ScenarioData RunnerValues ScenarioSql PyUrl ScenarioMonad.
From S2P Require Import ScenarioActions ApiTemplate.
Open Scope Z_scope.

(** ** The HTTP client *)

(** The exceptions of the client: [httpx.TimeoutException] or [TimeoutError];
    [httpx.RequestError] or [OSError]; [httpx.InvalidURL], [UnicodeError] or
    [ValueError]; anything else. *)
Inductive http_error := HttpTimeout | HttpNetwork | HttpInvalid | HttpOther.
#[global] Instance http_error_eq_dec : EqDecision http_error.
Proof. solve_decision. Defined.

(** The body argument of a request: none, [json], [data], [content] or [files]. *)
Inductive SentBody :=
  | NoBody
  | JsonBody (content : json)
  | DataBody (data : list (pytext * pytext))
  | ContentBody (content : list N)
  | FilesBody (files : list FilePart).

(** The arguments of one request; the timeout is in nanoseconds. *)
Record HttpRequest := {
  rq_method : pytext;
  rq_url : pytext;
  rq_params : list (pytext * pytext);
  rq_headers : list (pytext * pytext);
  rq_cookies : list (pytext * pytext);
  rq_body : SentBody;
  rq_timeout : Z;
}.

(** [response.content]: read already, or raising [RuntimeError] because the
    response is a stream - then the chunks it yields and the exception it ends
    with, if any. *)
Inductive Content := Loaded (content : list N) | Streamed (chunks : list (list N)) (failure : option http_error).

(** A response; the headers are those of [headers.items()], with lower-case names
    that do not repeat. *)
Record HttpResponse := {
  hr_status_code : Z;
  hr_headers : list (pytext * pytext);
  hr_cookies : http_error + list (pytext * pytext);
  hr_encoding : option pytext;
  hr_content : Content;
}.

(** What [bytes.decode] of another encoding than UTF-8 ends with. *)
Inductive decode_failure := UnknownCodec | DecodeError.

(** The client, its clock in nanoseconds, [str(httpx.QueryParams(data))] and the
    codecs of the Python installation.  [http_send] stands for building and sending
    a request. *)
Class HttpClient (W : Type) := {
  http_clock : W -> Z * W;
  http_send : HttpRequest -> W -> (http_error + HttpResponse) * W;
  http_close : HttpResponse -> W -> W;
  has_send : bool;
  query_text : list (pytext * pytext) -> pytext;
  decode_with : pytext -> list N -> decode_failure + pytext;
}.

(** ** Building requests *)

(** [d[key] = value]. *)
Fixpoint dict_set (key value : pytext) (d : list (pytext * pytext)) : list (pytext * pytext) :=
  match d with
  | [] => [(key, value)]
  | (k, v) :: r => if decide (k = key) then (k, value) :: r else (k, v) :: dict_set key value r
  end.
Fixpoint dict_get (key : pytext) (d : list (pytext * pytext)) : option pytext :=
  match d with [] => None | (k, v) :: r => if decide (k = key) then Some v else dict_get key r end.

(** [[(item.name, item.value) for item in items if item.enabled]], and the dict. *)
Definition enabled_pairs (items : list RequestValue) : list (pytext * pytext) :=
  (fun i => (rv_name i, rv_value i)) <$> filter (fun i => rv_enabled i = true) items.
Definition dict_of (pairs : list (pytext * pytext)) : list (pytext * pytext) :=
  foldl (fun d '(k, v) => dict_set k v d) [] pairs.

(** [_inject_auth]; [AssertionError] cannot occur after validation. *)
Definition inject_auth (auth : RequestAuth) (headers query : list (pytext * pytext))
    : py (list (pytext * pytext) * list (pytext * pytext)) :=
  match ra_type auth with
  | A_NONE => Return (headers, query)
  | A_BEARER =>
      token ← of_option (ra_token auth) OtherException;
      Return (dict_set (u "Authorization") (u "Bearer " ++ token) headers, query)
  | A_BASIC =>
      username ← of_option (ra_username auth) OtherException;
      password ← of_option (ra_password auth) OtherException;
      credential ← encoded (username ++ u ":" ++ password);
      Return (dict_set (u "Authorization") (u "Basic " ++ base64 credential) headers, query)
  | A_API_KEY =>
      name ← of_option (ra_key_name auth) OtherException;
      value ← of_option (ra_key_value auth) OtherException;
      Return (match ra_placement auth with
              | HEADER_ => (dict_set name value headers, query)
              | QUERY_ => (headers, query ++ [(name, value)])
              end)
  end.

(** [_auth_query]. *)
Definition auth_query (auth : RequestAuth) : list (pytext * pytext) :=
  match ra_type auth, ra_placement auth, ra_key_name auth, ra_key_value auth with
  | A_API_KEY, QUERY_, Some name, Some value => [(name, value)]
  | _, _, _, _ => []
  end.

(** [_check_body_size]. *)
Definition check_body_size (content : list N) : py unit :=
  require (Z.of_nat (length content) <=? MAX_REQUEST_BYTES) TOO_LARGE.

(** [_request_kwargs]: headers, cookies, params and body. *)
Record RequestKwargs := {
  kw_headers : list (pytext * pytext);
  kw_cookies : list (pytext * pytext);
  kw_params : list (pytext * pytext);
  kw_body : SentBody;
}.
Definition request_body (query_text : list (pytext * pytext) -> pytext) (body : RequestBody) : py SentBody :=
  match rb_type body with
  | B_NONE => Return NoBody
  | B_JSON =>
      bytes ← encoded (json_dumps (rb_content body));
      _ ← check_body_size bytes;
      Return (JsonBody (rb_content body))
  | B_FORM_URLENCODED =>
      data ← form_data (rb_content body);
      bytes ← encoded (query_text data);
      _ ← check_body_size bytes;
      Return (DataBody data)
  | B_RAW =>
      match rb_content body with
      | JStr s => bytes ← encoded s; _ ← check_body_size bytes; Return (ContentBody bytes)
      | _ => Raise ProtocolError
      end
  | B_MULTIPART =>
      '(files, size) ← multipart_data (rb_content body);
      _ ← require (size <=? MAX_REQUEST_BYTES) TOO_LARGE;
      Return (FilesBody files)
  end.
Definition request_kwargs (query_text : list (pytext * pytext) -> pytext) (t : ApiRequestTemplate) : py RequestKwargs :=
  '(headers, params) ← inject_auth (at_auth t) (dict_of (enabled_pairs (at_headers t))) (enabled_pairs (at_query_params t));
  body ← request_body query_text (at_body t);
  let headers := match rb_content_type (at_body t) with
                 | Some ((_ :: _) as content_type) => dict_set (u "Content-Type") content_type headers
                 | _ => headers
                 end in
  Return {| kw_headers := headers; kw_cookies := dict_of (enabled_pairs (at_cookies t)); kw_params := params; kw_body := body |}.

(** ** Redirects *)

Definition MAX_REDIRECTS : nat := 10.
Definition REDIRECT_STATUS_CODES : list Z := [301; 302; 303; 307; 308].
Definition SAFE_NAMES : list string := ["accept"; "accept-encoding"; "accept-language"; "cache-control"; "user-agent"].
Definition ENTITY_NAMES : list string := ["content-length"; "content-type"; "transfer-encoding"].
Definition SENSITIVE_MARKERS : list string :=
  ["auth"; "token"; "secret"; "password"; "passwd"; "credential"; "session"; "cookie"; "api_key"; "apikey"; "access_key"].

Definition UNSAFE_REDIRECT : exn := Py (ExecutionError (u "UNSAFE_REDIRECT")).
Definition REDIRECT_LIMIT : exn := Py (ExecutionError (u "REDIRECT_LIMIT")).

(** [_redirect_location]. *)
Definition redirect_location (r : HttpResponse) : option pytext :=
  match dict_get (u "location") (hr_headers r) with Some ((_ :: _) as s) => Some s | _ => None end.

(** [_redirect_method]: the next method, and whether the body is dropped. *)
Definition redirect_method (method : pytext) (status_code : Z) : pytext * bool :=
  if decide (status_code = 303 /\ method <> u "HEAD") then (u "GET", true)
  else if decide ((status_code = 301 \/ status_code = 302) /\ method = u "POST") then (u "GET", true)
  else (method, false).

(** One request of the redirect loop. *)
Record Hop := {
  hp_method : pytext;
  hp_url : pytext;
  hp_headers : list (pytext * pytext);
  hp_cookies : list (pytext * pytext);
  hp_params : list (pytext * pytext);
  hp_body : SentBody;
  hp_credentials : bool;
}.

Section Redirects.
Context `{Unicode} `{UrlLibrary}.

Definition named (names : list string) (p : pytext * pytext) : bool := bool_decide (str_lower p.1 ∈ u <$> names).

(** [_without_entity_headers] and [_cross_origin_headers]. *)
Definition without_entity_headers (headers : list (pytext * pytext)) : list (pytext * pytext) :=
  filter (fun p => named ENTITY_NAMES p = false) headers.
Definition cross_origin_headers (headers : list (pytext * pytext)) : list (pytext * pytext) :=
  filter (fun p => named SAFE_NAMES p = true) headers.

(** [_looks_sensitive_name] and [_sensitive_query_names]. *)
Definition looks_sensitive_name (name : pytext) : bool :=
  let normalized := (fun c => if (c =? 45)%N then 95%N else c) <$> str_lower name in
  existsb (fun marker => is_substring (u marker) normalized) SENSITIVE_MARKERS.
Definition sensitive_query_names (t : ApiRequestTemplate) : list pytext :=
  ((fun i => str_lower (rv_name i))
     <$> filter (fun i => rv_enabled i && looks_sensitive_name (rv_name i) = true) (at_query_params t))
  ++ match ra_type (at_auth t), ra_placement (at_auth t), ra_key_name (at_auth t) with
     | A_API_KEY, QUERY_, Some name => [str_lower name]
     | _, _, _ => []
     end.

(** A URL whose query is replaced by what [f] makes of it. *)
Definition map_query (f : list (pytext * pytext) -> list (pytext * pytext)) (url : pytext) : py pytext :=
  parsed ← of_option (urlsplit url) PyValueError;
  query ← of_option (urlencode (f (parse_qsl true (us_query parsed)))) PyValueError;
  Return (urlunsplit (with_query query parsed)).

(** [_without_named_query]. *)
Definition without_named_query (url : pytext) (names : list pytext) : py pytext :=
  match names with
  | [] => Return url
  | _ => map_query (filter (fun p => str_lower p.1 ∉ names)) url
  end.

(** [_with_query_params]. *)
Definition with_query_params (url : pytext) (params : list (pytext * pytext)) : py pytext :=
  match params with
  | [] => Return url
  | _ => map_query (fun query => query ++ params) url
  end.

(** [_origin]; [None] stands for [ValueError]. *)
Definition origin (url : pytext) : option (pytext * pytext * Z) :=
  parsed ← urlsplit url;
  let scheme := str_lower (us_scheme parsed) in
  p ← port parsed;
  Some (scheme, str_lower (default [] (hostname parsed)),
        match p with
        | Some n => if decide (n = 0) then (if decide (scheme = u "https") then 443 else 80) else n
        | None => if decide (scheme = u "https") then 443 else 80
        end).

(** [_resolve_redirect_url]. *)
Definition unsafe_target {A} (x : exn) : option (py A) :=
  match x with Py ProtocolError | Py PyValueError => Some (Raise UNSAFE_REDIRECT) | _ => None end.
Definition resolve_redirect_url (current_url location : pytext) : py pytext :=
  _ ← require (Nat.leb (length location) (Z.to_nat 4000) && negb (has_line_break location)) UNSAFE_REDIRECT;
  target ← except (target ← of_option (urljoin current_url location) PyValueError;
                   _ ← validate_target_url target;
                   Return target) unsafe_target;
  parsed ← of_option (urlsplit target) PyValueError;
  Return (urlunsplit {| us_scheme := us_scheme parsed; us_netloc := us_netloc parsed; us_path := us_path parsed;
                        us_query := us_query parsed; us_fragment := [] |}).

(** The rest of an iteration of [_request_with_redirects] that follows a
    redirect. *)
Definition next_hop (t : ApiRequestTemplate) (has_send : bool) (h : Hop) (status_code : Z) (location : pytext) : py Hop :=
  target_url ← resolve_redirect_url (hp_url h) location;
  from ← of_option (origin (hp_url h)) PyValueError;
  to ← of_option (origin target_url) PyValueError;
  let cross_origin := negb (bool_decide (from = to)) in
  let '(method, drop_body) := redirect_method (hp_method h) status_code in
  _ ← require (negb (cross_origin && match hp_body h with NoBody => false | _ => true end && negb drop_body)) UNSAFE_REDIRECT;
  _ ← require (negb (cross_origin && negb has_send)) UNSAFE_REDIRECT;
  let body := if drop_body then NoBody else hp_body h in
  let headers := if drop_body then without_entity_headers (hp_headers h) else hp_headers h in
  if cross_origin then
    url ← without_named_query target_url (sensitive_query_names t);
    Return {| hp_method := method; hp_url := url; hp_headers := cross_origin_headers headers; hp_cookies := [];
              hp_params := []; hp_body := body; hp_credentials := false |}
  else
    let params := if hp_credentials h then auth_query (at_auth t) else [] in
    url ← (match params with
           | [] => Return target_url
           | _ => without_named_query target_url ((fun p => str_lower p.1) <$> params)
           end);
    Return {| hp_method := method; hp_url := url; hp_headers := headers; hp_cookies := hp_cookies h;
              hp_params := params; hp_body := body; hp_credentials := hp_credentials h |}.

Definition first_hop (t : ApiRequestTemplate) (kw : RequestKwargs) : Hop :=
  {| hp_method := at_method t; hp_url := at_url t; hp_headers := kw_headers kw; hp_cookies := kw_cookies kw;
     hp_params := kw_params kw; hp_body := kw_body kw; hp_credentials := true |}.

(** What [_send_once] passes to the client. *)
Definition hop_request (has_send : bool) (h : Hop) (timeout : Z) : py HttpRequest :=
  let request url params := {| rq_method := hp_method h; rq_url := url; rq_params := params; rq_headers := hp_headers h;
                               rq_cookies := hp_cookies h; rq_body := hp_body h; rq_timeout := timeout |} in
  if has_send then url ← with_query_params (hp_url h) (hp_params h); Return (request url [])
  else Return (request (hp_url h) (hp_params h)).
End Redirects.

(** ** Responses *)

Definition MAX_RESPONSE_BYTES : Z := 2000000.
Definition MAX_RESPONSE_HEADER_COUNT : nat := 100.
Definition RESPONSE_TOO_LARGE : exn := Py (ExecutionError (u "RESPONSE_TOO_LARGE")).
Definition RESPONSE_INVALID : exn := Py (ExecutionError (u "RESPONSE_INVALID")).

(** An exception of the executor, or of the client. *)
Inductive api_failure := Raised (x : exn) | Client (e : http_error).

(** The loop over [iter_bytes]; [read] is what was joined so far. *)
Fixpoint read_chunks (limit : Z) (chunks : list (list N)) (failure : option http_error) (read : list N)
    : http_error + (list N * bool) :=
  match chunks with
  | [] => match failure with Some e => inl e | None => inr (read, false) end
  | chunk :: rest =>
      let remaining := limit - Z.of_nat (length read) in
      if remaining <=? 0 then inr (read, false)
      else if remaining <? Z.of_nat (length chunk) then inr (read ++ take (Z.to_nat remaining) chunk, true)
      else read_chunks limit rest failure (read ++ chunk)
  end.

(** [_read_capped_content]: the content, and whether it was cut. *)
Definition read_capped_content (r : HttpResponse) (limit : Z) : http_error + (list N * bool) :=
  match hr_content r with
  | Loaded content => inr (take (Z.to_nat limit) content, limit <? Z.of_nat (length content))
  | Streamed chunks failure => read_chunks limit chunks failure []
  end.

(** [_header_indicates_truncation]. *)
Definition header_indicates_truncation (r : HttpResponse) (limit : Z) : bool :=
  match dict_get (u "content-length") (hr_headers r) with
  | Some s => match py_int s with Some n => limit <? n | None => false end
  | None => false
  end.

(** [_response_map]. *)
Definition response_map (max_count : nat) (values : list (pytext * pytext)) : py (list (pytext * pytext)) :=
  _ ← require (length values <=? max_count)%nat RESPONSE_INVALID;
  _ ← require (forallb (fun p => (length p.1 <=? MAX_ITEM_NAME)%nat && (length p.2 <=? MAX_ITEM_VALUE)%nat) values)
        RESPONSE_INVALID;
  Return values.

(** [_parse_response_body]: the JSON value, or the text. *)
Definition parse_response_body (value : pytext) : json * option pytext :=
  match value with
  | [] => (JNull, None)
  | _ => match json_loads value with Some j => (j, None) | None => (JNull, Some value) end
  end.

(** [_validate_snapshot_body_size]. *)
Definition snapshot (json_body : json) (text : option pytext) : json :=
  JDict [(u "json_body", json_body); (u "text", match text with Some s => JStr s | None => JNull end)].
Definition validate_snapshot_body_size (json_body : json) (text : option pytext) : py unit :=
  size ← of_option (utf8_length (json_dumps (snapshot json_body text))) RESPONSE_INVALID;
  require (size <=? MAX_RESPONSE_BYTES) RESPONSE_TOO_LARGE.

Section Execute.
Context `{Unicode} `{UrlLibrary} {W : Type} `{HttpClient W}.

(** [_decode_body]. *)
Definition decode_body (content : list N) (r : HttpResponse) : py pytext :=
  let encoding := match hr_encoding r with Some ((_ :: _) as e) => e | _ => u "utf-8" end in
  if decide (encoding = u "utf-8") then Return (decode_replace 0 content)
  else match decode_with encoding content with
       | inr s => Return s
       | inl UnknownCodec => Return (decode_replace 0 content)
       | inl DecodeError => Raise PyValueError
       end.

Definition of_py {A} (m : py A) : api_failure + A := match m with Return a => inr a | Raise x => inl (Raised x) end.
Definition of_client {A} (r : http_error + A) : api_failure + A := match r with inr a => inr a | inl e => inl (Client e) end.
Definition and_then {A B} (m : api_failure + A) (f : A -> api_failure + B) : api_failure + B :=
  match m with inl x => inl x | inr a => f a end.

(** [_summarize_response]. *)
Definition summarize_response (limit : Z) (r : HttpResponse) (elapsed_ms : Z) : api_failure + ApiExecutionResult :=
  and_then (of_py (require ((100 <=? hr_status_code r) && (hr_status_code r <=? 599)) ProtocolError)) (fun _ =>
  and_then (of_client (read_capped_content r limit)) (fun '(content, too_large) =>
  and_then (of_py (require (negb (too_large || header_indicates_truncation r limit)) RESPONSE_TOO_LARGE)) (fun _ =>
  and_then (of_py (response_map MAX_RESPONSE_HEADER_COUNT (hr_headers r))) (fun headers =>
  and_then (of_client (hr_cookies r)) (fun cookies =>
  and_then (of_py (response_map 100 cookies)) (fun cookies =>
  and_then (of_py (decode_body content r)) (fun decoded =>
  let '(json_body, text) := parse_response_body decoded in
  and_then (of_py (validate_snapshot_body_size json_body text)) (fun _ =>
  inr {| ar_status_code := hr_status_code r; ar_json_body := json_body; ar_text := text; ar_headers := headers;
         ar_cookies := cookies; ar_elapsed_ms := elapsed_ms; ar_response_time_ms := elapsed_ms;
         ar_body_size := Z.of_nat (length content) |})))))))).

(** ** The redirect loop *)

(** [_remaining_timeout_seconds], in nanoseconds. *)
Definition remaining_timeout (timeout_ms started : Z) (w : W) : py Z * W :=
  let '(now, w) := http_clock w in
  let remaining := ms timeout_ms - Z.max 0 (now - started) in
  (if remaining <=? 0 then Raise TargetTimeoutError else Return remaining, w).

(** One iteration up to the response. *)
Definition send_hop (t : ApiRequestTemplate) (started : Z) (h : Hop) (w : W) : (api_failure + HttpResponse) * W :=
  let '(timeout, w) := remaining_timeout (at_timeout_ms t) started w in
  match timeout with
  | Raise x => (inl (Raised x), w)
  | Return timeout =>
      match hop_request has_send h timeout with
      | Raise x => (inl (Raised x), w)
      | Return request => let '(r, w) := http_send request w in (of_client r, w)
      end
  end.

(** Whether a response is a redirect to follow. *)
Definition followed (t : ApiRequestTemplate) (r : HttpResponse) : option pytext :=
  if at_follow_redirects t && bool_decide (hr_status_code r ∈ REDIRECT_STATUS_CODES) then redirect_location r else None.

(** [_request_with_redirects] with [left] redirects left. *)
Fixpoint follow_redirects (left : nat) (t : ApiRequestTemplate) (started : Z) (h : Hop) (w : W)
    : (api_failure + HttpResponse) * W :=
  let '(answer, w) := send_hop t started h w in
  match answer with
  | inl x => (inl x, w)
  | inr r =>
      match followed t r with
      | None => (inr r, w)
      | Some location =>
          let w := http_close r w in
          match left with
          | O => (inl (Raised REDIRECT_LIMIT), w)
          | S left' =>
              match next_hop t has_send h (hr_status_code r) location with
              | Raise x => (inl (Raised x), w)
              | Return h' => follow_redirects left' t started h' w
              end
          end
      end
  end.
Definition request_with_redirects (t : ApiRequestTemplate) (started : Z) (w : W) : (api_failure + HttpResponse) * W :=
  match request_kwargs query_text t with
  | Raise x => (inl (Raised x), w)
  | Return kw => follow_redirects MAX_REDIRECTS t started (first_hop t kw) w
  end.

(** ** [execute] *)

Definition as_py_exn (x : exn) : py_exn := match x with Py x => x | Runtime e => ExecutionError (re_error_type e) end.

(** The [except] clauses. *)
Definition translated (f : api_failure) : py_exn :=
  match f with
  | Client HttpTimeout => TargetTimeoutError
  | Client HttpNetwork => TargetExecutionError
  | Client HttpInvalid | Raised (Py PyValueError) => ExecutionError (u "REQUEST_INVALID")
  | Client HttpOther => OtherException
  | Raised x => as_py_exn x
  end.

Definition translate {A} (r : api_failure + A) : py_exn + A := match r with inl f => inl (translated f) | inr a => inr a end.

(** The [try] statement. *)
Definition perform (limit : Z) (t : ApiRequestTemplate) (w : W) : (api_failure + ApiExecutionResult) * W :=
  let '(started, w) := http_clock w in
  let '(answer, w) := request_with_redirects t started w in
  match answer with
  | inl x => (inl x, w)
  | inr r =>
      let '(now, w) := http_clock w in
      (summarize_response limit r (Z.max 0 ((now - started) / 1000000)), http_close r w)
  end.

Definition executable (t : ApiRequestTemplate) : py unit :=
  _ ← validate_template t;
  require (negb (bool_decide (is_Some (strip_prefix (u "{{") (at_url t))))) (Py (ExecutionError (u "RUNTIME_TEMPLATE"))).

(** [ApiExecutor(max_response_bytes=limit).execute(template)]. *)
Definition execute_api (limit : Z) (t : ApiRequestTemplate) (w : W) : (py_exn + ApiExecutionResult) * W :=
  match executable t with
  | Raise x => (inl (as_py_exn x), w)
  | Return _ => let '(r, w) := perform limit t w in (translate r, w)
  end.
End Execute.
