(* ===== verification/ApiRedirects.v ===== *)
(** Redirects of the API executor: which URL a request goes to, and what it
    carries.  The requests passed to the client are recorded in a log beside the
    state of the client. *)
From S2P Require Import Prelude PyText Calendar Json PyJson ScenarioData RunnerValues ScenarioSql PyUrl PyUrlLemmas ScenarioMonad.
From S2P Require Import ScenarioActions ApiTemplate ApiExecutor.
Open Scope Z_scope.

(** Inversion of the computations of the executor. *)
Lemma require_Return b x v : require b x = Return v -> b = true.
Proof. by destruct b. Qed.
Lemma of_option_Return {A} (o : option A) x v : of_option o x = Return v -> o = Some v.
Proof. destruct o; [by intros [= ->] | done]. Qed.
Lemma bind_Return {A B} (m : py A) (f : A -> py B) v : (x ← m; f x) = Return v -> exists a, m = Return a /\ f a = Return v.
Proof. destruct m as [a|]; [by exists a | done]. Qed.

(** Splits the first bind of a hypothesis. *)
Ltac split_bind H a Ha := apply bind_Return in H; destruct H as (a & Ha & H).

(** ** URLs with a scheme and a network location *)

Section Urls.
Context `{Unicode} `{UrlLibrary}.

(** The parts of an absolute URL. *)
Definition absolute (url : pytext) (r : SplitResult) : Prop :=
  urlsplit url = Some r /\ us_scheme r <> [] /\ us_netloc r <> [].

Definition origin_of (r : SplitResult) : option (pytext * pytext * Z) :=
  let scheme := str_lower (us_scheme r) in
  p ← port r;
  Some (scheme, str_lower (default [] (hostname r)),
        match p with
        | Some n => if decide (n = 0) then (if decide (scheme = u "https") then 443 else 80) else n
        | None => if decide (scheme = u "https") then 443 else 80
        end).

Lemma origin_absolute url r : absolute url r -> origin url = origin_of r.
Proof. intros (E & _). unfold origin. by rewrite E. Qed.
Lemma origin_of_query q r : origin_of (with_query q r) = origin_of r.
Proof. reflexivity. Qed.

(** Replacing the query of a URL keeps it at its origin. *)
Lemma map_query_absolute f url r url' : absolute url r -> map_query f url = Return url' ->
  exists q, absolute url' (with_query q r) /\ parse_qsl true q = f (parse_qsl true (us_query r)).
Proof.
  intros (E & Hs & Hn). unfold map_query. intros Hm. split_bind Hm parsed Hp.
  apply of_option_Return in Hp. rewrite E in Hp. injection Hp as <-. split_bind Hm q Hq. apply of_option_Return in Hq.
  injection Hm as <-. exists q. split; [split_and!; [|done|done] | by apply parse_urlencode].
  eapply urlsplit_with_query; eauto. by eapply urlencode_chars.
Qed.

Lemma without_named_query_absolute url names r url' : absolute url r -> without_named_query url names = Return url' ->
  exists q, absolute url' (with_query q r) /\ Forall (fun p => str_lower p.1 ∉ names) (parse_qsl true q).
Proof.
  intros Hr. unfold without_named_query. destruct names as [|n names].
  - intros [= <-]. exists (us_query r). split; [by destruct r|]. apply Forall_forall. intros p _. apply not_elem_of_nil.
  - intros Hm. destruct (map_query_absolute _ _ _ _ Hr Hm) as (q & Hq & Eq). exists q. split; [done|]. rewrite Eq.
    apply Forall_forall. intros p Hp. by apply list_elem_of_filter in Hp as [? _].
Qed.
Lemma with_query_params_absolute url params r url' : absolute url r -> with_query_params url params = Return url' ->
  exists q, absolute url' (with_query q r).
Proof.
  intros Hr. unfold with_query_params. destruct params as [|p params].
  - intros [= <-]. exists (us_query r). by destruct r.
  - intros Hm. destruct (map_query_absolute _ _ _ _ Hr Hm) as (q & Hq & _). by exists q.
Qed.

(** ** The target of a redirect *)

Definition brace : N := 123.

(** A text that starts with a brace has no scheme of its own. *)
Lemma no_scheme scheme s : split_scheme scheme (clean_url (brace :: s)) = (scheme, clean_url (brace :: s)).
Proof.
  unfold clean_url, brace. cbn [span]. change (123 <=? 32)%N with false. cbn [snd].
  rewrite filter_cons_True by done. unfold split_scheme. cbn [partition_on]. change (123 =? 58)%N with false. cbn match.
  destruct (partition_on 58 _) as [[a b]|]; [|done]. done.
Qed.
Lemma urlsplit_with_scheme scheme url r : urlsplit_with scheme url = Some r ->
  us_scheme r = fst (split_scheme scheme (clean_url url)).
Proof.
  unfold urlsplit_with. destruct (split_scheme scheme (clean_url url)) as [s rest]. destruct (split_netloc rest) as [n t].
  destruct (_ && _); [done|]. destruct (negb _); [done|]. by intros [= <-].
Qed.

Lemma urlunsplit_head r : us_scheme r <> [] -> exists s, urlunsplit r = us_scheme r ++ s.
Proof. intros _. unfold urlunsplit. by eexists. Qed.

Lemma absolute_head url r : absolute url r -> forall s, url <> brace :: s.
Proof.
  intros (E & Hs & _) s ->. unfold urlsplit in E. apply urlsplit_with_scheme in E. rewrite no_scheme in E. by cbn in E.
Qed.

Lemma letter_brace c : is_letter c = true -> c <> brace.
Proof. unfold is_letter, brace. lia. Qed.
Lemma urljoin_head base location r s : absolute base r -> urljoin base location = Some s -> forall s', s <> brace :: s'.
Proof.
  intros Hb Hj. pose proof Hb as (E & Hs & Hn).
  pose proof (can_scheme r (urlsplit_canonical base r E Hs Hn)) as (c & a & Ec & Hc & _).
  assert (forall x, urlunsplit x = s -> us_scheme x = us_scheme r -> forall s', s <> brace :: s') as Hbuild.
  { intros x <- Ex s' E'. unfold urlunsplit in E'. rewrite Ex, Ec in E'. injection E' as Eb _.
    exact (letter_brace c Hc Eb). }
  destruct base as [|b0 base]; [by apply urlsplit_with_scheme in E|].
  destruct location as [|l0 location]; [injection Hj as <-; by eapply absolute_head|].
  cbn [urljoin] in Hj. rewrite E in Hj. cbn [mbind option_bind] in Hj.
  destruct (urlsplit_with (us_scheme r) (l0 :: location)) as [j|] eqn:Ej; [|done]. cbn [mbind option_bind] in Hj.
  destruct (decide (us_scheme j <> us_scheme r)) as [Hd|Hd].
  { injection Hj as <-. intros s' E'. rewrite E' in Ej. apply urlsplit_with_scheme in Ej. by rewrite no_scheme in Ej. }
  destruct (decide (us_netloc j <> [])); [injection Hj as Hj; by eapply Hbuild|].
  destruct (split_params (us_path j)) as [[|p0 path] [|q0 params]]; injection Hj as Hj; by eapply Hbuild.
Qed.

Lemma validate_absolute url : validate_target_url url = Return tt -> (forall s, url <> brace :: s) ->
  exists r, absolute url r.
Proof.
  intros Hv Hb. unfold validate_target_url in Hv. destruct (decide _) as [[s Hs]|_].
  { apply strip_prefix_Some in Hs. by destruct (Hb (brace :: s)). }
  split_bind Hv r Hr. apply of_option_Return in Hr. split_bind Hv v Hc. apply require_Return in Hc.
  apply andb_true_iff in Hc as [Hsc Hnl]. exists r. split_and!; [done| |by apply bool_decide_eq_true_1 in Hnl].
  intros E. rewrite E in Hsc. vm_compute in Hsc. discriminate Hsc.
Qed.

Definition no_fragment (r : SplitResult) : SplitResult :=
  {| us_scheme := us_scheme r; us_netloc := us_netloc r; us_path := us_path r; us_query := us_query r; us_fragment := [] |}.

Lemma no_fragment_absolute url r : absolute url r -> absolute (urlunsplit (no_fragment r)) (no_fragment r).
Proof.
  intros (E & Hs & Hn). split_and!; [|done|done]. apply urlsplit_urlunsplit.
  destruct (urlsplit_canonical url r E Hs Hn). split; try done.
Qed.

(** What a redirect resolves to is an absolute URL. *)
Lemma resolve_absolute base location r target : absolute base r -> resolve_redirect_url base location = Return target ->
  exists r', absolute target r'.
Proof.
  intros Hb Hr. unfold resolve_redirect_url in Hr. split_bind Hr x Hx. clear x Hx. split_bind Hr url Hu.
  unfold except in Hu. destruct (urljoin base location) as [joined|] eqn:Ej; [|done]. cbn [of_option mbind py_bind] in Hu.
  destruct (validate_target_url joined) as [[]|x] eqn:Ev; [|cbn in Hu; by destruct x as [|[]]].
  cbn in Hu. injection Hu as <-. destruct (validate_absolute joined Ev (urljoin_head _ _ _ _ Hb Ej)) as [j Hj].
  split_bind Hr parsed Hp. apply of_option_Return in Hp. pose proof Hj as (E & _). rewrite E in Hp. injection Hp as <-.
  injection Hr as <-. exists (no_fragment j). by eapply no_fragment_absolute.
Qed.
End Urls.

(** ** Hops *)

Section Hops.
Context `{Unicode} `{UrlLibrary}.

(** A request at the origin of its template. *)
Definition home_url (t : ApiRequestTemplate) (url : pytext) : Prop := origin url = origin (at_url t).

(** A request that carries no credential: its headers are among the safe ones, and
    it has no cookies, parameters or body. *)
Definition bare (r : HttpRequest) : Prop :=
  Forall (fun p => str_lower p.1 ∈ u <$> SAFE_NAMES) (rq_headers r)
  /\ rq_cookies r = [] /\ rq_params r = [] /\ rq_body r = NoBody.

(** The query of a URL names none of the sensitive parameters of the template. *)
Definition no_sensitive_query (t : ApiRequestTemplate) (url : pytext) : Prop :=
  exists r, urlsplit url = Some r
    /\ Forall (fun p => str_lower p.1 ∉ sensitive_query_names t) (parse_qsl true (us_query r)).

Definition home_hop (t : ApiRequestTemplate) (h : Hop) : Prop := home_url t (hp_url h) /\ exists r, absolute (hp_url h) r.
Definition bare_hop (h : Hop) : Prop :=
  Forall (fun p => str_lower p.1 ∈ u <$> SAFE_NAMES) (hp_headers h)
  /\ hp_cookies h = [] /\ hp_params h = [] /\ hp_body h = NoBody /\ hp_credentials h = false
  /\ exists r, absolute (hp_url h) r.

Lemma Forall_filter_sub {A} (l : list A) (Q P : A -> Prop) `{!forall a, Decision (Q a)} : Forall P l -> Forall P (filter Q l).
Proof. rewrite !Forall_forall. intros Hl x [_ Hx]%list_elem_of_filter. auto. Qed.
Lemma cross_origin_headers_safe headers :
  Forall (fun p => str_lower p.1 ∈ u <$> SAFE_NAMES) (cross_origin_headers headers).
Proof. apply Forall_forall. intros p [Hp _]%list_elem_of_filter. by apply bool_decide_eq_true_1 in Hp. Qed.

(** The branches of a followed redirect. *)
Lemma next_hop_branches t s h status location h' :
  (exists r, absolute (hp_url h) r) -> next_hop t s h status location = Return h' ->
  let '(method, drop) := redirect_method (hp_method h) status in
  let headers := if drop then without_entity_headers (hp_headers h) else hp_headers h in
  let body := if drop then NoBody else hp_body h in
  exists target r, absolute target r /\ hp_body h' = body
  /\ ((origin target <> origin (hp_url h)
       /\ (hp_body h = NoBody \/ drop = true)
       /\ hp_headers h' = cross_origin_headers headers /\ hp_cookies h' = [] /\ hp_params h' = [] /\ hp_credentials h' = false
       /\ without_named_query target (sensitive_query_names t) = Return (hp_url h'))
      \/ (origin target = origin (hp_url h)
          /\ hp_headers h' = headers /\ hp_cookies h' = hp_cookies h /\ hp_credentials h' = hp_credentials h
          /\ hp_params h' = (if hp_credentials h then auth_query (at_auth t) else [])
          /\ without_named_query target ((fun p => str_lower p.1) <$> hp_params h') = Return (hp_url h'))).
Proof.
  intros [r0 H0'] Hn. unfold next_hop in Hn. split_bind Hn target Ht. split_bind Hn from Hf. split_bind Hn to_ Hto.
  apply of_option_Return in Hf, Hto. destruct (redirect_method (hp_method h) status) as [method drop].
  split_bind Hn v Hbody. apply require_Return in Hbody. split_bind Hn v' Hsend. clear v v' Hsend.
  destruct (resolve_absolute _ _ _ _ H0' Ht) as [r Hr]. exists target, r.
  destruct (bool_decide_reflect (from = to_)) as [E|E]; cbn [negb andb] in *.
  - split_bind Hn url Hu. injection Hn as <-. cbn. split_and!; [done..|]. right.
    split_and!; [congruence|done..|]. by destruct (if hp_credentials h then _ else _).
  - split_bind Hn url Hu. injection Hn as <-. cbn. split_and!; [done..|]. left.
    split_and!; [congruence| |done..]. destruct (hp_body h), drop; auto; done.
Qed.

(** A bare hop is followed by bare ones. *)
Lemma bare_next t s h status location h' : bare_hop h -> next_hop t s h status location = Return h' -> bare_hop h'.
Proof.
  intros (Hh & Hc & Hp & Hb & Hcr & Hu) Hn. apply next_hop_branches in Hn; [|done].
  destruct (redirect_method (hp_method h) status) as [method drop].
  destruct Hn as (target & r & Hr & Eb & [(_ & _ & Eh & Ec & Ep & Ecr & Eu)|(_ & Eh & Ec & Ecr & Ep & Eu)]);
    destruct (without_named_query_absolute _ _ _ _ Hr Eu) as (q & Hq & _); unfold bare_hop;
    rewrite Eh, Ec, ?Ecr, ?Ep, Eb, Hb, ?Hcr, ?Hc; (split_and!; [| done | done | by destruct drop | done | by eexists]).
  - apply cross_origin_headers_safe.
  - destruct drop; [by apply Forall_filter_sub | done].
Qed.

(** From home, a redirect stays at home or drops the credentials. *)
Lemma home_next t s h status location h' : home_hop t h -> next_hop t s h status location = Return h' ->
  home_hop t h' \/ bare_hop h' /\ no_sensitive_query t (hp_url h').
Proof.
  intros [Ho Hu] Hn. apply next_hop_branches in Hn; [|done].
  destruct (redirect_method (hp_method h) status) as [method drop].
  destruct Hn as (target & r & Hr & Eb & [(_ & Hdrop & Eh & Ec & Ep & Ecr & Eu)|(Eo & _ & _ & _ & _ & Eu)]);
    destruct (without_named_query_absolute _ _ _ _ Hr Eu) as (q & Hq & Hs).
  - right. split.
    + unfold bare_hop. rewrite Eh, Ec, Ep, Ecr, Eb. split_and!; [apply cross_origin_headers_safe | done | done | | done | by eexists].
      destruct Hdrop as [->| ->]; [by destruct drop | done].
    + exists (with_query q r). split; [apply Hq | exact Hs].
  - left. split; [|by eexists]. unfold home_url. rewrite (origin_absolute _ _ Hq), origin_of_query, <- (origin_absolute _ _ Hr), Eo. exact Ho.
Qed.

(** The request of a hop. *)
Lemma home_request t s h timeout q : home_hop t h -> hop_request s h timeout = Return q -> home_url t (rq_url q).
Proof.
  intros [Ho [r Hr]]. unfold hop_request. destruct s; [|by intros [= <-]]. intros Hq. split_bind Hq url Hu. injection Hq as <-.
  cbn. destruct (with_query_params_absolute _ _ _ _ Hr Hu) as (q' & Hq'). unfold home_url.
  rewrite (origin_absolute _ _ Hq'), origin_of_query, <- (origin_absolute _ _ Hr). exact Ho.
Qed.
Lemma bare_request s h timeout q : bare_hop h -> hop_request s h timeout = Return q -> bare q /\ rq_url q = hp_url h.
Proof.
  intros (Hh & Hc & Hp & Hb & _). unfold hop_request. rewrite Hp. cbn [with_query_params]. destruct s; intros [= <-]; done.
Qed.
Lemma request_timeout s h timeout q : hop_request s h timeout = Return q -> rq_timeout q = timeout.
Proof. unfold hop_request. destruct s; [|by intros [= <-]]. intros Hq. split_bind Hq url Hu. by injection Hq as <-. Qed.
End Hops.

(** ** The log *)

(** A client whose requests are recorded. *)
#[global] Instance recording `{HttpClient W} : HttpClient (W * list HttpRequest) := {
  http_clock '(w, log) := let '(n, w) := http_clock w in (n, (w, log));
  http_send r '(w, log) := let '(a, w) := http_send r w in (a, (w, log ++ [r]));
  http_close r '(w, log) := (http_close r w, log);
  has_send := has_send;
  query_text := query_text;
  decode_with := decode_with;
}.

Section Log.
Context `{Unicode} `{UrlLibrary} {W : Type} `{HttpClient W}.
Implicit Types w : W.

Definition log_of {A} (x : A * (W * list HttpRequest)) : list HttpRequest := x.2.2.

Definition within_timeout (t : ApiRequestTemplate) (r : HttpRequest) : Prop := 0 < rq_timeout r <= ms (at_timeout_ms t).

(** A hop sends its request, or none. *)
Lemma send_hop_log t started h w log :
  (exists timeout q, 0 < timeout <= ms (at_timeout_ms t) /\ hop_request has_send h timeout = Return q
     /\ log_of (send_hop t started h (w, log)) = log ++ [q])
  \/ (exists x, (send_hop t started h (w, log)).1 = inl x) /\ log_of (send_hop t started h (w, log)) = log.
Proof.
  unfold send_hop, remaining_timeout, log_of. cbn [http_clock has_send http_send recording].
  destruct (http_clock w) as [now w1]. destruct (Z.leb_spec (ms (at_timeout_ms t) - Z.max 0 (now - started)) 0); [by right; split; [eexists|]|].
  destruct (hop_request has_send h _) as [q|x] eqn:Eq; [|by right; split; [eexists|]].
  destruct (http_send q w1) as [a w2]. left. eexists _, q. split_and!; [| |exact Eq|done]; lia.
Qed.

(** The requests of the loop, with at most [left] redirects followed. *)
Inductive requests_from (t : ApiRequestTemplate) : nat -> Hop -> list HttpRequest -> Prop :=
  | requests_none left h : requests_from t left h []
  | requests_last left h timeout q :
      0 < timeout <= ms (at_timeout_ms t) -> hop_request has_send h timeout = Return q -> requests_from t left h [q]
  | requests_next left h timeout q status location h' l :
      0 < timeout <= ms (at_timeout_ms t) -> hop_request has_send h timeout = Return q ->
      next_hop t has_send h status location = Return h' -> requests_from t left h' l ->
      requests_from t (S left) h (q :: l).

Lemma follow_requests left t started h w log :
  exists l, log_of (follow_redirects left t started h (w, log)) = log ++ l /\ requests_from t left h l.
Proof.
  revert h w log. induction left as [|left IH]; intros h w log; cbn [follow_redirects];
    pose proof (send_hop_log t started h w log) as Hs; destruct (send_hop t started h (w, log)) as [answer [w1 log1]];
    cbn [log_of fst snd] in Hs; (destruct Hs as [(timeout & q & Ht & Hq & ->)|[[x ->] ->]];
      [|exists []; rewrite app_nil_r; by split; [|constructor]]);
    (destruct answer as [x|r]; [by exists [q]; split; [|by eapply requests_last]|]);
    (destruct (followed t r) as [location|]; [|by exists [q]; split; [|by eapply requests_last]]).
  - exists [q]. by split; [|by eapply requests_last].
  - change (has_send (W := W * list HttpRequest)) with (has_send (W := W)).
    destruct (next_hop t has_send h (hr_status_code r) location) as [h'|x] eqn:En; [|by exists [q]; split; [|by eapply requests_last]].
    destruct (IH h' (http_close r w1) (log ++ [q])) as (l & El & Hl). exists (q :: l). split; [|by eapply requests_next].
    rewrite <- app_assoc in El. exact El.
Qed.

Lemma requests_length t left h l : requests_from t left h l -> (length l <= S left)%nat.
Proof. induction 1; cbn; lia. Qed.
Lemma requests_timeout t left h l : requests_from t left h l -> Forall (within_timeout t) l.
Proof.
  induction 1 as [|left h timeout q Ht Hq|left h timeout q status location h' l Ht Hq Hn Hl IH]; constructor; auto;
    unfold within_timeout; by rewrite (request_timeout _ _ _ _ Hq).
Qed.

Lemma requests_bare t left h l : requests_from t left h l -> bare_hop h ->
  Forall bare l /\ (forall r, head l = Some r -> rq_url r = hp_url h).
Proof.
  induction 1 as [|left h timeout q Ht Hq|left h timeout q status location h' l Ht Hq Hn Hl IH]; intros Hb; [done|..];
    destruct (bare_request _ _ _ _ Hb Hq) as [Hbq Hu].
  - split; [by constructor | by intros ? [= <-]].
  - destruct (IH (bare_next _ _ _ _ _ _ Hb Hn)) as [IH1 _]. split; [by constructor | by intros ? [= <-]].
Qed.

(** The requests of a loop that starts at home: those at home, then the bare ones. *)
Lemma requests_home t left h l : requests_from t left h l -> home_hop t h ->
  exists l1 l2, l = l1 ++ l2 /\ Forall (fun r => home_url t (rq_url r)) l1 /\ Forall bare l2
    /\ (forall r, head l2 = Some r -> no_sensitive_query t (rq_url r)).
Proof.
  induction 1 as [left h|left h timeout q Ht Hq|left h timeout q status location h' l Ht Hq Hn Hl IH]; intros Hh.
  - exists [], []. done.
  - exists [q], []. split_and!; [done | constructor; [exact (home_request _ _ _ _ _ Hh Hq)|done] | done..].
  - destruct (home_next _ _ _ _ _ _ Hh Hn) as [Hh'|[Hb Hs]].
    + destruct (IH Hh') as (l1 & l2 & -> & H3 & H4 & H5). exists (q :: l1), l2.
      split_and!; [done | constructor; [exact (home_request _ _ _ _ _ Hh Hq)|done] | done..].
    + destruct (requests_bare _ _ _ _ Hl Hb) as [H3 H4]. exists [q], l.
      split_and!; [done | constructor; [exact (home_request _ _ _ _ _ Hh Hq)|done] | done |]. intros r Hr. by rewrite (H4 r Hr).
Qed.
End Log.
