(* ===== verification/ApiErrors.v ===== *)
(** The errors of the API executor: which exceptions [execute] raises, given what
    its client raises. *)
From S2P Require Import Prelude PyText Calendar Json PyJson ScenarioData RunnerValues ScenarioSql PyUrl PyUrlLemmas ScenarioMonad.
From S2P Require Import ScenarioActions ApiTemplate ApiExecutor ApiRedirects.
Open Scope Z_scope.

(** The exceptions the callers of the executor know: [ExecutionError] with its
    subclasses, [ProtocolError], and [ValueError] of an invalid URL. *)
Definition expected (x : exn) : bool :=
  match x with
  | Py TargetTimeoutError | Py TargetExecutionError | Py (ExecutionError _) | Py ProtocolError | Py PyValueError => true
  | _ => false
  end.

(** The exceptions of a computation are in [E]. *)
Definition raises_in (E : exn -> bool) {A} (m : py A) : Prop := forall x, m = Raise x -> E x = true.
Abbreviation raises_only := (raises_in expected).

Section Raises.
Context (E : exn -> bool).
Lemma raises_Return {A} (a : A) : raises_in E (Return a).
Proof. by intros x. Qed.
Lemma raises_Raise {A} x : E x = true -> raises_in E (Raise (A := A) x).
Proof. by intros Hx y [= <-]. Qed.
Lemma raises_require b x : E x = true -> raises_in E (require b x).
Proof. intros Hx y. destruct b; [done | by intros [= <-]]. Qed.
Lemma raises_option {A} (o : option A) x : E x = true -> raises_in E (of_option o x).
Proof. intros Hx y. destruct o; [done | by intros [= <-]]. Qed.
Lemma raises_in_bind {A B} (m : py A) (f : A -> py B) :
  raises_in E m -> (forall a, m = Return a -> raises_in E (f a)) -> raises_in E (x ← m; f x).
Proof. intros Hm Hf x. destruct m as [a|y]; [by apply Hf | intros [= <-]; by apply Hm]. Qed.
Lemma raises_map {A B} (f : A -> py B) l : Forall (fun a => raises_in E (f a)) l -> raises_in E (map_py f l).
Proof.
  induction 1 as [|a l Ha Hl IH]; [apply raises_Return|]. apply raises_in_bind; [auto|]. intros b _.
  apply raises_in_bind; [auto|]. intros bs _. apply raises_Return.
Qed.
Lemma raises_map_all {A B} (f : A -> py B) l : (forall a, raises_in E (f a)) -> raises_in E (map_py f l).
Proof. intros Hf. apply raises_map, Forall_forall. auto. Qed.
End Raises.

Create HintDb raises discriminated.
#[export] Hint Resolve raises_Return raises_Raise raises_require raises_option raises_map_all : raises.

(** Walks through a computation. *)
Ltac walk :=
  repeat (first [ solve [auto 3 with raises] | progress cbn beta iota zeta | apply raises_in_bind; [|intros ? ?] | case_match ]).

Lemma raises_encoded s : raises_only (encoded s).
Proof. unfold encoded. auto with raises. Qed.
#[export] Hint Resolve raises_encoded : raises.

Lemma raises_multipart_item item total : raises_only (multipart_item item total).
Proof. unfold multipart_item. walk. Qed.
#[export] Hint Resolve raises_multipart_item : raises.
Lemma raises_multipart_items items total : raises_only (multipart_items items total).
Proof.
  revert total. induction items as [|i items IH]; intros total; cbn [multipart_items]; walk.
Qed.
#[export] Hint Resolve raises_multipart_items : raises.
Lemma raises_multipart_data content : raises_only (multipart_data content).
Proof. unfold multipart_data. walk. Qed.
#[export] Hint Resolve raises_multipart_data : raises.
Lemma raises_form_data content : raises_only (form_data content).
Proof.
  unfold form_data. destruct content; auto with raises; apply raises_map_all; intros item; unfold form_item; walk.
Qed.
#[export] Hint Resolve raises_form_data : raises.

Lemma raises_validate_body b : raises_only (validate_body b).
Proof. unfold validate_body. walk. Qed.
Lemma raises_validate_auth a : raises_only (validate_auth a).
Proof. unfold validate_auth. walk. Qed.
Lemma raises_validate_retry p : raises_only (validate_retry_policy p).
Proof. unfold validate_retry_policy. auto with raises. Qed.
Lemma raises_validate_items b n l : raises_only (validate_items b n l).
Proof. unfold validate_items. auto with raises. Qed.
#[export] Hint Resolve raises_validate_body raises_validate_auth raises_validate_retry raises_validate_items : raises.

Section Errors.
Context `{Unicode} `{UrlLibrary}.

Lemma raises_validate_url url : raises_only (validate_target_url url).
Proof. unfold validate_target_url. walk. Qed.
Lemma raises_duplicates l : raises_only (reject_duplicate_enabled l).
Proof. unfold reject_duplicate_enabled. auto with raises. Qed.
Lemma raises_conflicts t : raises_only (validate_auth_conflicts t).
Proof. unfold validate_auth_conflicts. walk. Qed.
Hint Resolve raises_validate_url raises_duplicates raises_conflicts : raises.
Lemma raises_executable t : raises_only (executable t).
Proof. unfold executable, validate_template. walk. Qed.

(** The validated authentication has the values its type needs. *)
Lemma given_Some o : given o = true -> exists s, o = Some s.
Proof. destruct o; [by eexists | done]. Qed.
Lemma raises_inject_auth a h q : validate_auth a = Return tt -> raises_only (inject_auth a h q).
Proof.
  intros Hv. unfold validate_auth in Hv. split_bind Hv v1 Hb. split_bind Hv v2 Hc. clear Hv Hb v1. apply require_Return in Hc.
  unfold inject_auth. destruct (ra_type a).
  - walk.
  - repeat (apply andb_true_iff in Hc as [Hc _]). destruct (given_Some _ Hc) as [s ->]. cbn [of_option mbind py_bind]. walk.
  - repeat (apply andb_true_iff in Hc as [Hc ?]). destruct (given_Some _ Hc) as [s ->].
    match goal with Hp : given (ra_password a) = true |- _ => destruct (given_Some _ Hp) as [p ->] end. cbn [of_option mbind py_bind]. walk.
  - repeat (apply andb_true_iff in Hc as [Hc ?]). destruct (given_Some _ Hc) as [s ->].
    match goal with Hp : given (ra_key_value a) = true |- _ => destruct (given_Some _ Hp) as [p ->] end. cbn [of_option mbind py_bind]. walk.
Qed.

Lemma executable_auth t v : executable t = Return v -> validate_auth (at_auth t) = Return tt.
Proof.
  unfold executable, validate_template. intros He. split_bind He v0 Hv. clear He. repeat (let a := fresh in let E := fresh "E" in split_bind Hv a E).
  match goal with E : validate_auth _ = Return ?a |- _ => by destruct a end.
Qed.

Lemma raises_request_kwargs f t : validate_auth (at_auth t) = Return tt -> raises_only (request_kwargs f t).
Proof.
  intros Hv. unfold request_kwargs, request_body, check_body_size. apply raises_in_bind; [by apply raises_inject_auth|]. intros [h q] _. walk.
Qed.

Lemma raises_map_query f url : raises_only (map_query f url).
Proof. unfold map_query. walk. Qed.
Hint Resolve raises_map_query : raises.
Lemma raises_without_named url names : raises_only (without_named_query url names).
Proof. unfold without_named_query. walk. Qed.
Lemma raises_with_params url params : raises_only (with_query_params url params).
Proof. unfold with_query_params. walk. Qed.
Hint Resolve raises_without_named raises_with_params : raises.
Lemma raises_hop_request s h timeout : raises_only (hop_request s h timeout).
Proof. unfold hop_request. walk. Qed.
Lemma raises_resolve base location : raises_only (resolve_redirect_url base location).
Proof.
  unfold resolve_redirect_url. apply raises_in_bind; [auto with raises|]. intros _ _. apply raises_in_bind; [|intros; walk].
  intros x. unfold except. case_match eqn:E; [done|]. assert (expected x0 = true) as Hx.
  { revert x0 E. change (raises_only (target ← of_option (urljoin base location) PyValueError; _ ← validate_target_url target; Return target)).
    walk. }
  unfold unsafe_target. destruct x0 as [|[]]; intros [= <-]; done.
Qed.
Hint Resolve raises_resolve : raises.
Lemma raises_next_hop t s h status location : raises_only (next_hop t s h status location).
Proof. unfold next_hop. walk. Qed.

Lemma raises_response_map n l : raises_only (response_map n l).
Proof. unfold response_map. walk. Qed.
Lemma raises_snapshot j s : raises_only (validate_snapshot_body_size j s).
Proof. unfold validate_snapshot_body_size. walk. Qed.
Context {W : Type} `{HttpClient W}.
Lemma raises_decode content r : raises_only (decode_body content r).
Proof. unfold decode_body. walk. Qed.
End Errors.
#[export] Hint Resolve raises_hop_request raises_next_hop raises_response_map raises_snapshot raises_decode : raises.

(** ** With a client whose exceptions are known *)

(** The client raises timeouts, network errors and errors of the request only. *)
Definition known_response (r : HttpResponse) : Prop :=
  hr_cookies r <> inl HttpOther /\ (forall chunks, hr_content r <> Streamed chunks (Some HttpOther)).
Class KnownErrors W `{HttpClient W} : Prop := {
  known_send : forall q (w : W), (http_send q w).1 <> inl HttpOther;
  known_answer : forall q (w : W) r, (http_send q w).1 = inr r -> known_response r;
}.

Definition known_failure (f : api_failure) : Prop :=
  match f with Raised x => expected x = true | Client e => e <> HttpOther end.

(** A result whose exception is known, and whose value satisfies [P]. *)
Definition ends_known {A} (P : A -> Prop) (r : api_failure + A) : Prop :=
  match r with inl f => known_failure f | inr a => P a end.

Lemma ends_of_py {A} (P : A -> Prop) m : raises_only m -> (forall a, m = Return a -> P a) -> ends_known P (of_py m).
Proof. intros Hm HP. destruct m as [a|x]; [by apply HP | by apply Hm]. Qed.
Lemma ends_and_then {A B} (P : B -> Prop) (m : api_failure + A) f :
  ends_known (fun a => ends_known P (f a)) m -> ends_known P (and_then m f).
Proof. by destruct m. Qed.

Lemma read_chunks_error limit chunks failure read e : read_chunks limit chunks failure read = inl e -> failure = Some e.
Proof.
  revert read. induction chunks as [|c chunks IH]; intros read; cbn [read_chunks].
  - destruct failure; [by intros [= ->] | done].
  - destruct (_ <=? 0); [done|]. destruct (_ <? _); [done | apply IH].
Qed.

Section Known.
Context `{Unicode} `{UrlLibrary} {W : Type} `{HttpClient W}.

Lemma summarize_ends limit r elapsed : known_response r -> ends_known (fun _ => True) (summarize_response limit r elapsed).
Proof.
  intros [Hc Hs]. unfold summarize_response.
  apply ends_and_then, ends_of_py; [auto with raises|]. intros _ _.
  apply ends_and_then. destruct (read_capped_content r limit) as [e|[content cut]] eqn:Er; cbn.
  { intros ->. unfold read_capped_content in Er. destruct (hr_content r) as [|chunks failure] eqn:E; [done|].
    apply read_chunks_error in Er as ->. by apply (Hs chunks). }
  apply ends_and_then, ends_of_py; [auto with raises|]. intros _ _.
  apply ends_and_then, ends_of_py; [auto with raises|]. intros headers _.
  apply ends_and_then. destruct (hr_cookies r) as [e|cookies]; cbn; [by intros ->|].
  apply ends_and_then, ends_of_py; [auto with raises|]. intros cookies' _.
  apply ends_and_then, ends_of_py; [auto with raises|]. intros decoded _.
  destruct (parse_response_body decoded) as [j s]. apply ends_and_then, ends_of_py; [auto with raises|]. done.
Qed.

Context `{!KnownErrors W}.

Lemma send_hop_ends t started h (w : W) : ends_known known_response (send_hop t started h w).1.
Proof.
  unfold send_hop, remaining_timeout. destruct (http_clock w) as [now w1]. destruct (_ <=? 0); [done|].
  destruct (hop_request has_send h _) as [q|x] eqn:Eq; [|cbn; by eapply raises_hop_request].
  pose proof (known_send q w1) as Hs. pose proof (known_answer q w1) as Ha. destruct (http_send q w1) as [[e|r] w2]; cbn in *; [congruence|by apply Ha].
Qed.
Lemma follow_ends left t started h (w : W) : ends_known known_response (follow_redirects left t started h w).1.
Proof.
  revert h w. induction left as [|left IH]; intros h w; cbn [follow_redirects];
    pose proof (send_hop_ends t started h w) as Hs; destruct (send_hop t started h w) as [[f|r] w1]; cbn in Hs; try done;
    (destruct (followed t r) as [location|]; [|done]); [done|].
  destruct (next_hop _ _ _ _ _) as [h'|x] eqn:En; [apply IH | cbn; by eapply raises_next_hop].
Qed.
Lemma perform_ends limit t (w : W) : validate_auth (at_auth t) = Return tt -> ends_known (fun _ => True) (perform limit t w).1.
Proof.
  intros Hv. unfold perform. destruct (http_clock w) as [started w1]. unfold request_with_redirects.
  destruct (request_kwargs query_text t) as [kw|x] eqn:Ek; [|cbn; by eapply raises_request_kwargs].
  pose proof (follow_ends MAX_REDIRECTS t started (first_hop t kw) w1) as Hf.
  destruct (follow_redirects MAX_REDIRECTS t started (first_hop t kw) w1) as [[f|r] w2]; [done|]. cbn in Hf.
  destruct (http_clock w2) as [now w3]. by apply summarize_ends.
Qed.

(** The exceptions of [execute]. *)
Lemma execute_api_ends limit t (w : W) x : (execute_api limit t w).1 = inl x -> expected (Py x) = true.
Proof.
  unfold execute_api. destruct (executable t) as [v|y] eqn:Ee.
  - pose proof (perform_ends limit t w (executable_auth t v Ee)) as Hp. destruct (perform limit t w) as [[f|r] w1]; [|done].
    cbn in *. intros [= <-]. destruct f as [[|[]]|[]]; try done.
  - cbn. intros [= <-]. pose proof (raises_executable t y Ee) as Hy. by destruct y as [|[]].
Qed.
End Known.
