(* ===== verification/ApiTheorems.v ===== *)
(** What the API executor guarantees: credentials stay at the origin of the
    request, the snapshot of a response is bounded, failures are errors its callers
    know, and query parameters arrive as they were given. *)
From S2P Require Import Prelude PyText Calendar Json PyJson ScenarioData RunnerValues ScenarioSql PyUrl PyUrlLemmas ScenarioMonad.
From S2P Require Import ScenarioActions ScenarioRun ScenarioEnds ApiTemplate ApiExecutor ApiRedirects ApiErrors.
Open Scope Z_scope.

(** ** The API executor among the surroundings of a scenario *)

(** The surroundings in which a scenario runs: its API executor is [ApiExecutor],
    over an HTTP client. *)
Definition as_sum {A} (m : py A) : py_exn + A := match m with Return a => inr a | Raise x => inl (as_py_exn x) end.
Definition api_surroundings {W} `{Unicode} `{UrlLibrary} `{HttpClient W} (s : Surroundings W) : Surroundings W := {|
  read_clock := read_clock;
  stop_is_set := stop_is_set;
  stop_wait := stop_wait;
  sleep := sleep;
  Template := ApiRequestTemplate;
  from_mapping request := as_sum (api_request_template request);
  api_execute t w := execute_api MAX_RESPONSE_BYTES t w;
  api_close := api_close;
  Connection := Connection;
  Cursor := Cursor;
  sql_connect := sql_connect;
  sql_cursor := sql_cursor;
  sql_execute := sql_execute;
  sql_fetchmany := sql_fetchmany;
  sql_commit := sql_commit;
  sql_rollback := sql_rollback;
  close_cursor := close_cursor;
  close_connection := close_connection;
  run_safe_script := run_safe_script;
|}.

(** ** Credentials *)

Section Credentials.
Context `{Unicode} `{UrlLibrary} {W : Type} `{HttpClient W}.

Lemma executable_home t v kw : executable t = Return v -> home_hop t (first_hop t kw).
Proof.
  intros He. split; [done|]. cbn. unfold executable in He. split_bind He v0 Hv. apply require_Return in He.
  apply negb_true_iff, bool_decide_eq_false_1 in He. unfold validate_template in Hv.
  split_bind Hv v1 H3. split_bind Hv v2 H4. split_bind Hv v3 Hu. destruct v3.
  unfold validate_target_url in Hu. rewrite decide_False in Hu by done.
  split_bind Hu r Hr. apply of_option_Return in Hr. split_bind Hu v4 Hc. apply require_Return in Hc.
  apply andb_true_iff in Hc as [Hsc Hnl]. exists r. split_and!; [done| |by apply bool_decide_eq_true_1 in Hnl].
  intros E. rewrite E in Hsc. vm_compute in Hsc. discriminate Hsc.
Qed.

(** The log of an execution is the log of its redirect loop. *)
Lemma execute_log limit t (w : W) : log_of (execute_api limit t (w, [])) = []
  \/ exists v kw, executable t = Return v /\ requests_from (W := W) t MAX_REDIRECTS (first_hop t kw) (log_of (execute_api limit t (w, []))).
Proof.
  unfold execute_api. destruct (executable t) as [v|x]; [|by left].
  unfold perform, request_with_redirects. cbn [http_clock recording]. destruct (http_clock w) as [started w1].
  change (query_text (W := W * list HttpRequest)) with (query_text (W := W)).
  destruct (request_kwargs query_text t) as [kw|x]; [|by left]. right. exists v, kw. split; [done|].
  destruct (follow_requests MAX_REDIRECTS t started (first_hop t kw) w1 []) as (l & El & Hl).
  destruct (follow_redirects MAX_REDIRECTS t started (first_hop t kw) (w1, [])) as [[f|r] [w2 log]]; cbn in El |- *; subst log; [done|].
  destruct (http_clock w2) as [now w3]. exact Hl.
Qed.

(** C19: An execution sends at most eleven requests, each within the timeout of the
    template.  Those up to the first redirect to another origin go to the origin
    of the template; all later ones carry safe headers only and no cookies, query
    parameters or body, and the first of them has no sensitive parameter of the
    template in its URL.  Whatever the target answers, the credentials of the
    template are sent to its own origin only. *)
Theorem credentials_stay_at_origin limit t (w : W) :
  let log := log_of (execute_api limit t (w, [])) in
  (length log <= 11)%nat /\ Forall (within_timeout t) log
  /\ exists home others, log = home ++ others
     /\ Forall (fun r => home_url t (rq_url r)) home
     /\ Forall bare others
     /\ (forall r, head others = Some r -> no_sensitive_query t (rq_url r)).
Proof.
  cbn zeta. destruct (execute_log limit t w) as [-> | (v & kw & He & Hl)].
  - split_and!; [cbn; lia | constructor |]. exists [], []. done.
  - split_and!; [exact (requests_length _ _ _ _ Hl) | by eapply requests_timeout |].
    eapply requests_home; [exact Hl | by eapply executable_home].
Qed.
End Credentials.

(** ** Query parameters *)

Section Parameters.
Context `{Unicode} `{UrlLibrary}.

(** Adding query parameters to an absolute URL keeps its scheme, network location,
    path and fragment; whoever decodes the new query reads the parameters of the
    old one followed by exactly those that were added. *)
Theorem query_params_added url r params url' :
  urlsplit url = Some r -> us_scheme r <> [] -> us_netloc r <> [] -> params <> [] ->
  with_query_params url params = Return url' ->
  exists q, urlsplit url' = Some (with_query q r) /\ parse_qsl true q = parse_qsl true (us_query r) ++ params.
Proof.
  intros E Hs Hn Hp Hw. unfold with_query_params in Hw. destruct params as [|p params]; [done|].
  destruct (map_query_absolute _ _ _ _ (conj E (conj Hs Hn)) Hw) as (q & Hq & Hd). exists q. split; [apply Hq | exact Hd].
Qed.
End Parameters.

(** ** Responses *)

(** The limit falls on the end of a chunk. *)
Definition on_boundary (limit : Z) (read : list N) (chunks : list (list N)) : Prop :=
  exists l1 c l2, chunks = l1 ++ c :: l2 /\ Z.of_nat (length (read ++ mjoin l1)) = limit.

Lemma mjoin_snoc_length (read c : list N) (l : list (list N)) : length ((read ++ c) ++ mjoin l) = length (read ++ mjoin (c :: l)).
Proof. cbn. rewrite <- app_assoc. done. Qed.
Lemma read_chunks_spec limit chunks read : Z.of_nat (length read) <= limit ->
  exists cut, read_chunks limit chunks None read = inr (take (Z.to_nat limit) (read ++ mjoin chunks), cut)
    /\ (cut = true <-> limit < Z.of_nat (length (read ++ mjoin chunks)) /\ ~ on_boundary limit read chunks).
Proof.
  revert read. induction chunks as [|c chunks IH]; intros read Hr; cbn [read_chunks].
  - exists false. cbn. rewrite app_nil_r, take_ge by lia. split; [done|]. split; [done|]. lia.
  - destruct (Z.leb_spec (limit - Z.of_nat (length read)) 0).
    { exists false. rewrite take_app_le, take_ge by lia. split; [done|]. split; [done|]. intros [_ Hn]. destruct Hn.
      exists [], c, chunks. split; [done|]. cbn. rewrite app_nil_r. lia. }
    destruct (Z.ltb_spec (limit - Z.of_nat (length read)) (Z.of_nat (length c))).
    { exists true. cbn [mjoin list_join]. split.
      - rewrite app_assoc, (take_app_le (read ++ c)) by (rewrite length_app; lia). rewrite take_app_ge by lia.
        do 3 f_equal. f_equal. lia.
      - split; [|done]. intros _. rewrite !length_app. split; [lia|]. intros (l1 & c' & l2 & E & El).
        destruct l1 as [|c1 l1]; [rewrite app_nil_r in El; lia|]. injection E as <- ->. cbn in El. rewrite !length_app in El. lia. }
    assert (on_boundary limit (read ++ c) chunks <-> on_boundary limit read (c :: chunks)) as Hb.
    { split.
      - intros (l1 & c' & l2 & -> & El). exists (c :: l1), c', l2. split; [done|]. by rewrite <- mjoin_snoc_length.
      - intros (l1 & c' & l2 & E1 & El). destruct l1 as [|c1 l1]; [cbn in El; rewrite app_nil_r in El; lia|].
        injection E1 as <- ->. exists l1, c', l2. split; [done|]. by rewrite mjoin_snoc_length. }
    destruct (IH (read ++ c)) as (cut & E & Hc); [rewrite length_app; lia|].
    exists cut. rewrite E, Hc, Hb. cbn [mjoin list_join]. by rewrite <- !app_assoc.
Qed.

(** What is read of a streamed body is its beginning, up to the limit; the executor
    notices that the body is longer exactly when the limit does not fall on the end
    of a chunk. *)
Theorem read_capped_content_spec limit r chunks : 0 <= limit -> hr_content r = Streamed chunks None ->
  exists cut, read_capped_content r limit = inr (take (Z.to_nat limit) (mjoin chunks), cut)
    /\ (cut = true <-> limit < Z.of_nat (length (mjoin chunks)) /\ ~ on_boundary limit [] chunks).
Proof. intros Hl Hc. unfold read_capped_content. rewrite Hc. by apply (read_chunks_spec limit chunks []). Qed.

(** The response with another content. *)
Definition with_content (c : Content) (r : HttpResponse) : HttpResponse :=
  {| hr_status_code := hr_status_code r; hr_headers := hr_headers r; hr_cookies := hr_cookies r; hr_encoding := hr_encoding r;
     hr_content := c |}.

Lemma and_then_inr {A B} (m : api_failure + A) (f : A -> api_failure + B) b :
  and_then m f = inr b -> exists a, m = inr a /\ f a = inr b.
Proof. destruct m as [|a]; [done | by exists a]. Qed.
Lemma of_py_inr {A} (m : py A) a : of_py m = inr a -> m = Return a.
Proof. destruct m; [by intros [= ->] | done]. Qed.
Lemma of_client_inr {A} (m : http_error + A) a : of_client m = inr a -> m = inr a.
Proof. destruct m; [done | by intros [= ->]]. Qed.

Lemma response_map_Return n values l : response_map n values = Return l ->
  (length l <= n)%nat /\ Forall (fun p => (length p.1 <= 255)%nat /\ Z.of_nat (length p.2) <= 10000) l.
Proof.
  intros Hm. unfold response_map in Hm. split_bind Hm a1 H1. split_bind Hm a2 H2. apply require_Return in H1, H2.
  injection Hm as <-. split; [by apply Nat.leb_le|]. apply Forall_forall. intros p Hp.
  eapply forallb_forall in H2; [|by apply list_elem_of_In]. apply andb_true_iff in H2 as [H2 H3].
  apply Nat.leb_le in H2, H3. unfold MAX_ITEM_NAME in H2. unfold MAX_ITEM_VALUE in H3. lia.
Qed.

(** The content has at most as many bytes as the limit. *)
Lemma read_chunks_length limit chunks failure read content cut : 0 <= limit -> Z.of_nat (length read) <= limit ->
  read_chunks limit chunks failure read = inr (content, cut) -> Z.of_nat (length content) <= limit.
Proof.
  intros Hl. revert read. induction chunks as [|c chunks IH]; intros read Hr; cbn [read_chunks].
  - destruct failure; [done|]. by intros [= <- _].
  - destruct (Z.leb_spec (limit - Z.of_nat (length read)) 0); [by intros [= <- _]|].
    destruct (Z.ltb_spec (limit - Z.of_nat (length read)) (Z.of_nat (length c))).
    + intros [= <- _]. rewrite length_app, length_take. lia.
    + apply IH. rewrite length_app. lia.
Qed.
Lemma read_capped_length limit r content cut : 0 <= limit ->
  read_capped_content r limit = inr (content, cut) -> Z.of_nat (length content) <= limit.
Proof.
  intros Hl. unfold read_capped_content. destruct (hr_content r) as [c|chunks failure].
  - intros [= <- _]. rewrite length_take. lia.
  - apply read_chunks_length; cbn; lia.
Qed.

Section Results.
Context `{Unicode} `{UrlLibrary} {W : Type} `{HttpClient W}.

(** A result within the bounds of a report. *)
Record bounded_result (limit : Z) (r : ApiExecutionResult) : Prop := {
  br_status : 100 <= ar_status_code r <= 599;
  br_body : 0 <= ar_body_size r <= limit;
  br_headers : (length (ar_headers r) <= 100)%nat
    /\ Forall (fun p => (length p.1 <= 255)%nat /\ Z.of_nat (length p.2) <= 10000) (ar_headers r);
  br_cookies : (length (ar_cookies r) <= 100)%nat
    /\ Forall (fun p => (length p.1 <= 255)%nat /\ Z.of_nat (length p.2) <= 10000) (ar_cookies r);
  br_one_body : ar_json_body r = JNull \/ ar_text r = None;
  br_snapshot : exists n, utf8_length (json_dumps (snapshot (ar_json_body r) (ar_text r))) = Some n /\ n <= 2000000;
}.

Lemma parse_response_body_one s j t : parse_response_body s = (j, t) -> j = JNull \/ t = None.
Proof.
  unfold parse_response_body. destruct s as [|c s]; [intros [= <- <-]; by left|].
  destruct (json_loads (c :: s)); intros [= <- <-]; auto.
Qed.
Lemma summarize_bounded limit r elapsed result : 0 <= limit -> summarize_response limit r elapsed = inr result ->
  bounded_result limit result /\ ar_elapsed_ms result = elapsed.
Proof.
  intros Hl Hs. unfold summarize_response in Hs.
  apply and_then_inr in Hs as (v1 & H3 & Hs). apply of_py_inr, require_Return in H3.
  apply and_then_inr in Hs as ([content cut] & H4 & Hs). apply of_client_inr, read_capped_length in H4; [|done].
  apply and_then_inr in Hs as (v2 & H5 & Hs). clear H5.
  apply and_then_inr in Hs as (headers & H6 & Hs). apply of_py_inr, response_map_Return in H6.
  apply and_then_inr in Hs as (cookies' & _ & Hs).
  apply and_then_inr in Hs as (cookies & H7 & Hs). apply of_py_inr, response_map_Return in H7.
  apply and_then_inr in Hs as (decoded & _ & Hs). destruct (parse_response_body decoded) as [j t] eqn:Ep.
  apply and_then_inr in Hs as (v3 & H8 & Hs). apply of_py_inr in H8. unfold validate_snapshot_body_size in H8.
  split_bind H8 n Hn. apply of_option_Return in Hn. apply require_Return in H8. injection Hs as <-.
  split; [split; cbn|]; [lia|lia|done|done|by eapply parse_response_body_one| |done].
  exists n. split; [done|]. unfold MAX_RESPONSE_BYTES in H8. lia.
Qed.

(** C20: The result of an execution is bounded: its status code is an HTTP status, its
    body has at most [limit] bytes, names and values of headers and cookies are
    short and few, it holds a JSON body or a text but not both, and the two are
    encoded in at most 2,000,000 bytes. *)
Theorem api_result_bounded limit t (w : W) result :
  0 <= limit -> (execute_api limit t w).1 = inr result -> bounded_result limit result /\ 0 <= ar_elapsed_ms result.
Proof.
  intros Hl. unfold execute_api. destruct (executable t); [|done]. unfold perform.
  destruct (http_clock w) as [started w1]. destruct (request_with_redirects t started w1) as [[f|r] w2]; [done|].
  destruct (http_clock w2) as [now w3]. cbn.
  destruct (summarize_response limit r _) as [f|result'] eqn:Es; [done|]. intros [= <-].
  apply summarize_bounded in Es as [Hb ->]; [|done]. split; [done | lia].
Qed.

(** A body whose first chunk ends at the limit is taken for a complete one, whatever
    follows. *)
Theorem oversized_stream_accepted limit r chunk rest elapsed :
  Z.of_nat (length chunk) = limit -> 0 < limit -> rest <> [] ->
  summarize_response limit (with_content (Streamed (chunk :: rest) None) r) elapsed
  = summarize_response limit (with_content (Loaded chunk) r) elapsed.
Proof.
  intros Hc Hl Hr. assert (read_capped_content (with_content (Streamed (chunk :: rest) None) r) limit
    = read_capped_content (with_content (Loaded chunk) r) limit) as E.
  { unfold read_capped_content. cbn [with_content hr_content read_chunks length app]. change (Z.of_nat 0) with 0.
    rewrite Z.sub_0_r, (proj2 (Z.leb_gt limit 0)), Hc, (proj2 (Z.ltb_ge limit limit)) by lia.
    destruct rest as [|c rest]; [done|]. cbn [read_chunks]. rewrite Hc, (proj2 (Z.leb_le (limit - limit) 0)) by lia.
    rewrite take_ge by lia. done. }
  unfold summarize_response. by rewrite E.
Qed.
End Results.

(** ** Failures of an HTTP node *)

(** What [_http_request] turns into a runtime error, or is one. *)
Definition handled (x : exn) : bool := match x with Py PyKeyError | Py OtherException => false | _ => true end.

Lemma raises_weaken_in {A} (E F : exn -> bool) (m : py A) : (forall x, E x = true -> F x = true) -> raises_in E m -> raises_in F m.
Proof. unfold raises_in. auto. Qed.
Lemma raises_fmap {A B} E (f : A -> B) (m : py A) : raises_in E m -> raises_in E (f <$> m).
Proof. intros Hm x. destruct m; [done|]. intros [= <-]. by apply Hm. Qed.
#[export] Hint Resolve raises_fmap : raises.

Lemma raises_resolve_text c s : raises_in handled (resolve_text c s).
Proof. unfold resolve_text. walk. Qed.
Lemma raises_resolve_json c : forall v, raises_in handled (resolve c v).
Proof.
  fix IH 1. intros [| | | |s|l|fs]; cbn [resolve]; try apply raises_Return; [apply raises_resolve_text|..]; apply raises_fmap.
  - induction l as [|v l IHl]; [apply raises_Return|]. apply raises_in_bind; [apply IH|]. intros v' _.
    apply raises_in_bind; [apply IHl|]. intros l' _. apply raises_Return.
  - induction fs as [|[k v] fs IHl]; [apply raises_Return|]. apply raises_in_bind; [apply IH|]. intros v' _.
    apply raises_in_bind; [apply IHl|]. intros l' _. apply raises_Return.
Qed.
Lemma raises_request_items v : raises_in handled (request_items v).
Proof.
  unfold request_items. destruct v; auto with raises. apply raises_map_all. intros item.
  unfold request_item, stringify_request_value. walk.
Qed.
Lemma raises_min_number v b : raises_in handled (min_number v b).
Proof. unfold min_number. apply raises_in_bind; [|auto with raises]. unfold of_test. destruct (less_than _ _); auto with raises. Qed.
#[export] Hint Resolve raises_resolve_json raises_request_items raises_min_number : raises.

Section Node.
Context `{Unicode} `{UrlLibrary} {W : Type} `{HttpClient W} (s : Surroundings W).

Lemma raises_text_field j n : raises_only (text_field j n).
Proof. unfold text_field. walk. Qed.
Hint Resolve raises_text_field : raises.
Lemma raises_parse_items v n : raises_only (parse_items v n).
Proof. unfold parse_items. walk. apply raises_map_all. intros item. unfold parse_item. walk. Qed.
Lemma raises_parse_body v : raises_only (parse_body v).
Proof. unfold parse_body. walk. Qed.
Lemma raises_optional_text v : raises_only (optional_text v).
Proof. unfold optional_text. destruct v; auto with raises. Qed.
Hint Resolve raises_optional_text : raises.
Lemma raises_parse_auth v : raises_only (parse_auth v).
Proof. unfold parse_auth. walk. Qed.
Lemma raises_parse_retry v : raises_only (parse_retry_policy v).
Proof.
  unfold parse_retry_policy. walk. apply raises_map_all. intros item. destruct item; auto with raises.
Qed.
Lemma raises_validate_template t : raises_only (validate_template t).
Proof. unfold validate_template. pose proof raises_validate_url. pose proof raises_duplicates. pose proof raises_conflicts. walk. Qed.
Hint Resolve raises_parse_items raises_parse_body raises_parse_auth raises_parse_retry raises_validate_template : raises.
Lemma raises_template v : raises_only (api_request_template v).
Proof. unfold api_request_template. pose proof raises_validate_url. walk. Qed.

Lemma raises_http_request c node :
  forall x, http_request (H0 := api_surroundings s) c node = Raise x -> exists e, x = Runtime e.
Proof.
  intros x Hx. unfold http_request in Hx. destruct (negb _); [|injection Hx as <-; by eexists]. cbn [require mbind py_bind] in Hx.
  match type of Hx with except ?m _ = _ => assert (raises_in handled m) as Hm end.
  { apply raises_in_bind; [auto with raises|]. intros [] _; auto with raises.
    repeat (apply raises_in_bind; [auto with raises|]; intros ? _; cbn zeta).
    unfold template_of. intros y. cbn [from_mapping api_surroundings]. unfold as_sum.
    match goal with |- context [api_request_template ?v] => pose proof (raises_template v) as Ht; destruct (api_request_template v) as [t|z] end; [done|].
    intros [= <-]. specialize (Ht z eq_refl). by destruct z as [|[]]. }
  unfold except in Hx. match type of Hm with raises_in _ ?m => destruct m as [a|y] end; [done|]. specialize (Hm y eq_refl).
  destruct y as [e|[]]; injection Hx as <-; try discriminate Hm; by eexists.
Qed.

Lemma request_failure_expected x a b c d e f : expected (Py x) = true -> exists r, request_failure x a b c d e f = Runtime r.
Proof. destruct x; try done; by eexists. Qed.

(** An HTTP node of a scenario that runs over the API executor fails with a
    [ScenarioRuntimeError] and with nothing else, whatever its configuration and
    whatever the target answers, as long as the HTTP client raises timeouts, network
    errors and errors of the request only. *)
Theorem http_node_fails_with_runtime_error `{!KnownErrors W} node st x :
  (http (H0 := api_surroundings s) node st).2 = Exn x -> exists e, x = Runtime e.
Proof.
  unfold http, mbind, M_bind, modify, gets, lift, clock, call_world, execute_request, duration_ms, raise.
  cbn beta iota delta [st_context with_latest_response].
  destruct (http_request (st_context st) node) as [t|y] eqn:Et; [|intros [= <-]; exact (raises_http_request _ _ _ Et)].
  destruct (read_clock _) as [started w1]. unfold modify. cbn beta iota.
  cbn [api_execute api_surroundings]. unfold mbind, M_bind, call_world, modify. cbn beta iota.
  match goal with |- context [execute_api ?l ?t ?w] => pose proof (execute_api_ends l t w) as He; destruct (execute_api l t w) as [[f|result] w2] end.
  - intros [= <-]. apply request_failure_expected, He. reflexivity.
  - cbn beta iota. unfold clock, call_world, mret, M_ret. destruct (read_clock _) as [now w3]. cbn beta iota.
    repeat case_match; intros Hx; try discriminate Hx; injection Hx as <-; by eexists.
Qed.
End Node.

(** ** Examples *)

Module Demo.
Import ScenarioDemo.
#[local] Instance ascii_urls : UrlLibrary := { nfkc s := s; bracketed_netloc _ := true }.

Definition ok (content : Content) (headers : list (pytext * pytext)) (status : Z) : HttpResponse :=
  {| hr_status_code := status; hr_headers := headers; hr_cookies := inr []; hr_encoding := None; hr_content := content |}.

(** A network of two hosts: a.test redirects to b.test. *)
#[local] Instance network : HttpClient unit := {
  http_clock w := (0, w);
  http_send q w :=
    (if is_substring (u "//a.test") (rq_url q)
     then inr (ok (Loaded []) [(u "location", u "https://b.test/next?token=9&page=2")] 302)
     else inr (ok (Loaded (u "[1, 2]")) [(u "content-length", u "6")] 200), w);
  http_close _ w := w;
  has_send := true;
  query_text _ := [];
  decode_with _ _ := inl UnknownCodec;
}.
#[local] Instance network_errors : KnownErrors unit.
Proof.
  split.
  - intros q w. cbn [http_send network fst]. by destruct (is_substring _ _).
  - intros q w r. cbn [http_send network fst]. destruct (is_substring _ _); intros [= <-]; split; done.
Defined.

Definition template : ApiRequestTemplate :=
  {| at_method := u "GET"; at_url := u "http://a.test/start"; at_query_params := [{| rv_name := u "token"; rv_value := u "q s"; rv_enabled := true |}];
     at_headers := [{| rv_name := u "Accept"; rv_value := u "*/*"; rv_enabled := true |}; {| rv_name := u "X-Session"; rv_value := u "s1"; rv_enabled := true |}];
     at_cookies := [{| rv_name := u "sid"; rv_value := u "c1"; rv_enabled := true |}];
     at_body := {| rb_type := B_NONE; rb_content := JNull; rb_content_type := None |};
     at_auth := {| ra_type := A_BEARER; ra_token := Some (u "secret"); ra_username := None; ra_password := None;
                   ra_key_name := None; ra_key_value := None; ra_placement := HEADER_ |};
     at_timeout_ms := 1000; at_follow_redirects := true; at_retry_policy := no_retry |}.

(** The first request carries the credentials, the second none of them. *)
Example two_requests :
  (fun q => (rq_url q, rq_headers q, rq_cookies q)) <$> log_of (execute_api 100 template (tt, []))
  = [(u "http://a.test/start?token=q+s",
      [(u "Accept", u "*/*"); (u "X-Session", u "s1"); (u "Authorization", u "Bearer secret")], [(u "sid", u "c1")]);
     (u "https://b.test/next?page=2", [(u "Accept", u "*/*")], [])].
Proof. vm_compute. reflexivity. Qed.

Definition answer : ApiExecutionResult :=
  {| ar_status_code := 200; ar_json_body := JList [JInt 1; JInt 2]; ar_text := None; ar_headers := [(u "content-length", u "6")];
     ar_cookies := []; ar_elapsed_ms := 0; ar_response_time_ms := 0; ar_body_size := 6 |}.

Lemma api_result_bounded_witness :
  (execute_api 100 template tt).1 = inr answer /\ bounded_result 100 answer /\ 0 <= ar_elapsed_ms answer.
Proof.
  assert ((execute_api 100 template tt).1 = inr answer) as E by (vm_compute; reflexivity). split; [exact E|].
  apply (api_result_bounded 100 template tt answer); [lia | exact E].
Defined.

Definition start_url : pytext := u "http://a.test/start?x=1".
Definition start_parts : SplitResult :=
  {| us_scheme := u "http"; us_netloc := u "a.test"; us_path := u "/start"; us_query := u "x=1"; us_fragment := [] |}.
Lemma query_params_added_witness :
  exists q, urlsplit (u "http://a.test/start?x=1&a+b=%26") = Some (with_query q start_parts)
    /\ parse_qsl true q = parse_qsl true (us_query start_parts) ++ [(u "a b", u "&")].
Proof.
  apply (query_params_added start_url start_parts [(u "a b", u "&")]); vm_compute; (reflexivity || discriminate).
Defined.

Lemma read_capped_content_spec_witness :
  exists cut, read_capped_content (ok (Streamed [u "ab"; u "cde"] None) [] 200) 4 = inr (take (Z.to_nat 4) (mjoin [u "ab"; u "cde"]), cut)
    /\ (cut = true <-> 4 < Z.of_nat (length (mjoin [u "ab"; u "cde"])) /\ ~ on_boundary 4 [] [u "ab"; u "cde"]).
Proof. apply (read_capped_content_spec 4 (ok (Streamed [u "ab"; u "cde"] None) [] 200)); [lia | reflexivity]. Defined.

Lemma oversized_stream_accepted_witness :
  summarize_response (W := unit) 2 (with_content (Streamed [u "12"; u "34"] None) (ok (Loaded []) [] 200)) 0
  = summarize_response (W := unit) 2 (with_content (Loaded (u "12")) (ok (Loaded []) [] 200)) 0.
Proof.
  apply (oversized_stream_accepted 2 (ok (Loaded []) [] 200) (u "12") [u "34"] 0); [reflexivity | lia | discriminate].
Defined.
(** The number 12 is reported for a body of four digits. *)
Example cut_number :
  summarize_response (W := unit) 2 (with_content (Streamed [u "12"; u "34"] None) (ok (Loaded []) [] 200)) 0
  = inr {| ar_status_code := 200; ar_json_body := JInt 12; ar_text := None; ar_headers := []; ar_cookies := [];
           ar_elapsed_ms := 0; ar_response_time_ms := 0; ar_body_size := 2 |}.
Proof. vm_compute. reflexivity. Qed.

(** A network that never answers. *)
#[local] Instance offline : HttpClient world := {
  http_clock w := (0, w);
  http_send q w := (inl HttpTimeout, w);
  http_close _ w := w;
  has_send := true;
  query_text _ := [];
  decode_with _ _ := inl UnknownCodec;
}.
#[local] Instance offline_errors : KnownErrors world.
Proof. split; intros q w; [|intros r]; cbn [http_send offline fst]; discriminate. Defined.

Definition get_node : ScenarioNodePlan := node "get" HTTP None None [(u "url", JStr (u "http://a.test/start"))].
Definition get_executor : Executor := executor_of (plan_of true [get_node]).
Definition timeout : exn := Runtime (retryable_error "TARGET_TIMEOUT" "目标 API 请求超时" true).

Lemma http_node_fails_with_runtime_error_witness :
  (http (H0 := api_surroundings demo_surroundings) get_node (initial_state get_executor (start_world []))).2 = Exn timeout
  /\ exists e, timeout = Runtime e.
Proof.
  assert ((http (H0 := api_surroundings demo_surroundings) get_node (initial_state get_executor (start_world []))).2 = Exn timeout)
    as E by (vm_compute; reflexivity).
  split; [exact E|]. exact (http_node_fails_with_runtime_error demo_surroundings get_node _ timeout E).
Defined.
End Demo.
