(* ===== verification/ApiPipeline.v ===== *)
(** The pipeline of an API case on the runner (runner/api_pipeline.py): pre-actions,
    the request with its retries, extractors, post-actions and cleanups over one
    context, and the worker process that runs it (runner/isolation.py).  It sends
    its requests with [ApiExecutor] and runs SQL and cleanups with an embedded
    [ScenarioExecutor]. *)
From S2P Require Import Prelude PyText Calendar Json PyJson ScenarioData RunnerValues ScenarioSql PyUrl PyUrlLemmas ScenarioMonad.
From S2P Require Import ScenarioActions ScenarioRun ApiTemplate ApiExecutor ApiRedirects ApiErrors ApiTheorems.
Open Scope Z_scope.

(** ** Data *)

(** [ExecutionPlanResult] as far as the pipeline reads it. *)
Record ApiPlan := {
  ap_request : ApiRequestTemplate;
  ap_initial_context : fields;
  ap_pre_actions : list fields;
  ap_extractors : list fields;
  ap_post_actions : list fields;
  ap_sql_connections : list SqlConnectionPlan;
  ap_secrets : list (Z * pytext);
  ap_cleanups : list fields;
  ap_defer_cleanup : bool;
}.

Inductive ResourceStatus := R_PENDING | R_CLEANED | R_FAILED | R_SKIPPED.
#[global] Instance ResourceStatus_eq_dec : EqDecision ResourceStatus.
Proof. solve_decision. Defined.

(** A registered resource; the message of a failed cleanup is constant. *)
Record Resource := {
  rs_sequence : Z;
  rs_name : pytext;
  rs_type : pytext;
  rs_id : pytext;
  rs_cleanup : fields;
  rs_status : ResourceStatus;
  rs_attempt_count : Z;
  rs_error_code : option pytext;
}.

Inductive Phase := PRE | AUTH_REFRESH | EXTRACTOR | POST.
#[global] Instance Phase_eq_dec : EqDecision Phase.
Proof. solve_decision. Defined.

Inductive ActionStatus := T_SUCCESS | T_SKIPPED | T_FAILED.
#[global] Instance ActionStatus_eq_dec : EqDecision ActionStatus.
Proof. solve_decision. Defined.

(** [tr_type] is the value whose text is the type of the trace, after [EXTRACT_] for
    an extractor. *)
Record ActionTrace := {
  tr_sequence : Z;
  tr_phase : Phase;
  tr_type : json;
  tr_name : option pytext;
  tr_status : ActionStatus;
  tr_duration_ms : Z;
  tr_error_type : option pytext;
}.

(** What one call of a random generator is asked for: so many bits, a number of a
    range, one of so many choices. *)
Inductive Draw := Bits (k : Z) | Between (low high : Z) | Choose (n : Z).

(** [random.Random(seed)] and [random.SystemRandom()]; every generator is used once.
    The names of exception classes, in upper case. *)
Class PipelineLibrary (W : Type) := {
  draw : option Z -> Draw -> W -> Z * W;
  class_name : exn -> pytext;
}.

(** ** State *)

Record PSt (W : Type) := {
  ps_world : W;
  ps_context : fields;
  ps_resources : list Resource;
  ps_traces : list ActionTrace;
  ps_retry_count : Z;
}.
Arguments Build_PSt {W}.
Arguments ps_world {W}.
Arguments ps_context {W}.
Arguments ps_resources {W}.
Arguments ps_traces {W}.
Arguments ps_retry_count {W}.

Section Setters.
Context {W : Type}.
Definition pipe_world (w : W) (s : PSt W) : PSt W :=
  Build_PSt w (ps_context s) (ps_resources s) (ps_traces s) (ps_retry_count s).
Definition pipe_context (c : fields) (s : PSt W) : PSt W :=
  Build_PSt (ps_world s) c (ps_resources s) (ps_traces s) (ps_retry_count s).
Definition pipe_resources (l : list Resource) (s : PSt W) : PSt W :=
  Build_PSt (ps_world s) (ps_context s) l (ps_traces s) (ps_retry_count s).
Definition pipe_traces (l : list ActionTrace) (s : PSt W) : PSt W :=
  Build_PSt (ps_world s) (ps_context s) (ps_resources s) l (ps_retry_count s).
Definition pipe_retry_count (n : Z) (s : PSt W) : PSt W :=
  Build_PSt (ps_world s) (ps_context s) (ps_resources s) (ps_traces s) n.
End Setters.

(** The methods of the pipeline: they change the state, and return or raise. *)
Definition P (W A : Type) : Type := PSt W -> PSt W * res A.
#[global] Instance P_ret W : MRet (P W) := fun A a s => (s, Val a).
#[global] Instance P_bind W : MBind (P W) := fun A B k m s =>
  match m s with
  | (s', Val a) => k a s'
  | (s', Exn x) => (s', Exn x)
  | (s', Unfinished) => (s', Unfinished)
  end.

Section Monad.
Context {W : Type}.
Definition fails {A} (x : exn) : P W A := fun s => (s, Exn x).
Definition endless {A} : P W A := fun s => (s, Unfinished).
Definition asks {A} (f : PSt W -> A) : P W A := fun s => (s, Val (f s)).
Definition puts (f : PSt W -> PSt W) : P W unit := fun s => (f s, Val tt).
Definition lifts {A} (m : py A) : P W A := fun s => (s, match m with Return a => Val a | Raise x => Exn x end).
Definition calls {A} (f : W -> A * W) : P W A := fun s => let '(a, w) := f (ps_world s) in (pipe_world w s, Val a).
(** [try: m except Exception as exc]. *)
Definition attempt {A} (m : P W A) : P W (exn + A) := fun s =>
  match m s with
  | (s', Val a) => (s', Val (inr a))
  | (s', Exn x) => (s', Val (inl x))
  | (s', Unfinished) => (s', Unfinished)
  end.
(** [try: m finally: f] where [f] does not raise. *)
Definition ensuring {A} (m : P W A) (f : PSt W -> PSt W) : P W A := fun s =>
  match m s with (s', Unfinished) => (s', Unfinished) | (s', r) => (f s', r) end.
Fixpoint each {A} (m : A -> P W unit) (l : list A) : P W unit :=
  match l with [] => mret tt | x :: l' => _ ← m x; each m l' end.
End Monad.

(** ** Values *)

Definition RUNTIME_TEMPLATE : exn := Py (ExecutionError (u "RUNTIME_TEMPLATE")).

(** [_context_value]. *)
Definition context_value (context : fields) (name : pytext) : py json := of_option (field name context) RUNTIME_TEMPLATE.

(** [_TEMPLATE.sub(replace, value)]; [_stringify] is [rendered]. *)
Fixpoint render_pipeline (context : fields) (s : pytext) (skip : nat) : py pytext :=
  match s with
  | [] => Return []
  | c :: r =>
      match skip with
      | S k => render_pipeline context r k
      | O =>
          match match_template s with
          | Some (name, _) =>
              v ← context_value context name;
              t ← render_pipeline context r (length name + 3);
              Return (rendered v ++ t)
          | None => t ← render_pipeline context r O; Return (c :: t)
          end
      end
  end.

Definition resolve_pipeline_text (context : fields) (s : pytext) : py json :=
  match whole_template s with
  | Some name => context_value context name
  | None =>
      t ← render_pipeline context s O;
      _ ← require (negb (is_substring (u "{{") t || is_substring (u "}}") t)) RUNTIME_TEMPLATE;
      Return (JStr t)
  end.

(** [_resolve]. *)
Fixpoint resolve_pipeline (context : fields) (value : json) : py json :=
  match value with
  | JDict fs =>
      JDict <$> (fix go (l : fields) : py fields :=
                   match l with
                   | [] => Return []
                   | (k, v) :: rest => v' ← resolve_pipeline context v; rest' ← go rest; Return ((k, v') :: rest')
                   end) fs
  | JList l =>
      JList <$> (fix go (l : list json) : py (list json) :=
                   match l with
                   | [] => Return []
                   | v :: rest => v' ← resolve_pipeline context v; rest' ← go rest; Return (v' :: rest')
                   end) l
  | JStr s => resolve_pipeline_text context s
  | _ => Return value
  end.

(** [_VARIABLE.fullmatch], and [isinstance(name, str)]. *)
Definition variable (j : json) : option pytext :=
  match j with
  | JStr (c :: r) => if name_start c && forallb name_char r && (length r <=? 254)%nat then Some (c :: r) else None
  | _ => None
  end.

(** [_validate_context]. *)
Definition MAX_CONTEXT_BYTES : Z := 64000.
Definition validate_context (context : fields) : py unit :=
  size ← of_option (utf8_length (json_dumps (JDict context))) PyValueError;
  require (size <=? MAX_CONTEXT_BYTES) (Py (ExecutionError (u "RUNTIME_CONTEXT_LIMIT"))).

(** [set(action) != allowed]. *)
Definition exact_fields (f : fields) (allowed : list string) : bool :=
  negb (extra_fields f allowed) && forallb (fun k => has_field (u k) f) allowed.

Definition remove_field (key : pytext) (f : fields) : fields := filter (fun p => p.1 <> key) f.

(** *** [_faker_value] *)

Definition hex_digits (n : nat) (z : Z) : pytext :=
  (fun i => hex_digit (Z.to_N (Z.shiftr z (4 * Z.of_nat i) mod 16))) <$> reverse (seq 0 n).

(** [str(uuid.UUID(int=bits, version=4))]. *)
Definition uuid4 (bits : Z) : pytext :=
  let v := Z.lor (Z.land bits (Z.lnot (Z.shiftl 49152 48))) (Z.shiftl 32768 48) in
  let v := Z.lor (Z.land v (Z.lnot (Z.shiftl 61440 64))) (Z.shiftl 4 76) in
  let h := hex_digits 32 v in
  take 8 h ++ u "-" ++ take 4 (drop 8 h) ++ u "-" ++ take 4 (drop 12 h) ++ u "-" ++ take 4 (drop 16 h) ++ u "-" ++ drop 20 h.

Definition chosen (names : list string) (i : Z) : json := JStr (u (default "" (names !! Z.to_nat i))).

(** What a generator draws, and the value made of it. *)
Definition generators : list (string * (Draw * (Z -> json))) :=
  [("uuid", (Bits 128, fun z => JStr (uuid4 z)));
   ("email", (Bits 40, fun z => JStr (u "test-" ++ hex_digits 10 z ++ u "@example.test")));
   ("username", (Between 100000 999999, fun z => JStr (u "user_" ++ int_text z)));
   ("first_name", (Choose 4, chosen ["Alice"; "Bob"; "Carol"; "David"]));
   ("last_name", (Choose 4, chosen ["Smith"; "Jones"; "Taylor"; "Brown"]));
   ("integer", (Between 0 1000000, JInt));
   ("word", (Choose 4, chosen ["alpha"; "bravo"; "charlie"; "delta"]));
   ("boolean", (Bits 1, fun z => JBool (negb (z =? 0))))].
Fixpoint generator_named (name : json) (l : list (string * (Draw * (Z -> json)))) : option (Draw * (Z -> json)) :=
  match l with [] => None | (k, g) :: r => if equals_text name k then Some g else generator_named name r end.

(** *** [_response_value] *)

Definition response_value (lower : pytext -> pytext) (extractor : fields) (r : ApiExecutionResult) : py json :=
  match get extractor "expression" with
  | JStr (c :: s) =>
      let source := get extractor "source" in
      if equals_text source "JSONPATH" then jsonpath_get (ar_json_body r) (c :: s)
      else if equals_text source "HEADER" then JStr <$> case_insensitive_get lower (ar_headers r) (c :: s)
      else if equals_text source "COOKIE" then JStr <$> case_insensitive_get lower (ar_cookies r) (c :: s)
      else Raise ProtocolError
  | _ => Raise ProtocolError
  end.

(** The value, or the default of one that is not required. *)
Definition response_value_or (lower : pytext -> pytext) (extractor : fields) (r : ApiExecutionResult) (missing : string) : py json :=
  except (response_value lower extractor r)
    (fun x => match x with
              | Py PyKeyError | Py PyTypeError | Py PyValueError =>
                  Some (if truthy (get_or extractor "required" (JBool true)) then Raise (Py (ExecutionError (u missing)))
                        else Return (get extractor "default_value"))
              | _ => None
              end).

(** *** [_render_request] *)

Definition body_type_text (t : BodyType) : pytext :=
  u match t with
    | B_NONE => "NONE" | B_JSON => "JSON" | B_FORM_URLENCODED => "FORM_URLENCODED" | B_MULTIPART => "MULTIPART" | B_RAW => "RAW"
    end.
Definition auth_type_text (t : AuthType) : pytext :=
  u match t with A_NONE => "NONE" | A_BEARER => "BEARER" | A_BASIC => "BASIC" | A_API_KEY => "API_KEY" end.
Definition or_null (t : option pytext) : json := match t with Some s => JStr s | None => JNull end.

(** [_render_items]; the cookies are rendered alike. *)
Definition render_item (context : fields) (item : RequestValue) : py json :=
  v ← resolve_pipeline context (JStr (rv_value item));
  Return (JDict [(u "name", JStr (rv_name item)); (u "value", JStr (rendered v)); (u "enabled", JBool (rv_enabled item))]).

Section Render.
Context `{Unicode} `{UrlLibrary}.
Definition render_request (context : fields) (t : ApiRequestTemplate) : py ApiRequestTemplate :=
  let resolved := resolve_pipeline context in
  url ← resolved (JStr (at_url t));
  query_params ← map_py (render_item context) (at_query_params t);
  headers ← map_py (render_item context) (at_headers t);
  cookies ← map_py (render_item context) (at_cookies t);
  content ← resolved (rb_content (at_body t));
  token ← resolved (or_null (ra_token (at_auth t)));
  password ← resolved (or_null (ra_password (at_auth t)));
  key_value ← resolved (or_null (ra_key_value (at_auth t)));
  api_request_template
    [(u "method", JStr (at_method t)); (u "url", url); (u "query_params", JList query_params); (u "headers", JList headers);
     (u "cookies", JList cookies);
     (u "body", JDict [(u "type", JStr (body_type_text (rb_type (at_body t)))); (u "content", content);
                       (u "content_type", or_null (rb_content_type (at_body t)))]);
     (u "auth", JDict [(u "type", JStr (auth_type_text (ra_type (at_auth t)))); (u "token", token);
                       (u "username", or_null (ra_username (at_auth t))); (u "password", password);
                       (u "key_name", or_null (ra_key_name (at_auth t))); (u "key_value", key_value);
                       (u "placement", JStr (u match ra_placement (at_auth t) with HEADER_ => "HEADER" | QUERY_ => "QUERY" end))]);
     (u "timeout_ms", JInt (at_timeout_ms t)); (u "follow_redirects", JBool (at_follow_redirects t));
     (u "retry_policy", JDict [(u "max_retries", JInt (rp_max_retries (at_retry_policy t)));
                               (u "backoff_ms", JInt (rp_backoff_ms (at_retry_policy t)));
                               (u "retry_on", JList (JStr <$> rp_retry_on (at_retry_policy t)))])].
End Render.

(** ** The actions *)

Section Pipeline.
Context `{Unicode} `{UrlLibrary} {W : Type} `{HttpClient W} `{PipelineLibrary W} (s : Surroundings W) (plan : ApiPlan).

(** [getattr(exc, "error_type", None)], with the name of the class for want of
    one. *)
Definition error_type_of (x : exn) : option pytext :=
  match x with
  | Runtime e => or_none (re_error_type e)
  | Py TargetTimeoutError => Some (u "TARGET_TIMEOUT")
  | Py TargetExecutionError => Some (u "TARGET_NETWORK_ERROR")
  | Py (ExecutionError t) => or_none t
  | _ => None
  end.
Definition named_error (x : exn) : pytext := default (class_name x) (error_type_of x).

Definition current_context : P W fields := asks ps_context.
Definition set_context (name : pytext) (value : json) : P W unit :=
  puts (fun st => pipe_context (set_field name value (ps_context st)) st).
Definition check_context : P W unit := context ← current_context; lifts (validate_context context).

(** [self._api_executor.execute(self._render_request(template))]. *)
Definition send (t : ApiRequestTemplate) : P W (py_exn + ApiExecutionResult) := calls (execute_api MAX_RESPONSE_BYTES t).
Definition send_or_fail (t : ApiRequestTemplate) : P W ApiExecutionResult :=
  answer ← send t;
  match answer with inl x => fails (Py x) | inr r => mret r end.

(** [_scenario_runtime]: an executor without nodes that shares the context; it does
    not own the API executor. *)
Definition embedded_executor (context : fields) : Executor :=
  {| ex_plan := {| spl_initial_context := context; spl_stop_on_failure := true; spl_cleanup_policy := u "ALWAYS";
                   spl_max_loop_iterations := 1; spl_nodes := []; spl_sql_connections := ap_sql_connections plan;
                   spl_secrets := ap_secrets plan |};
     ex_stop_event := false; ex_deadline := None; ex_defer_cleanup := false; ex_owns_api := false |}.
Definition embedding (m : Executor -> M W unit) : P W unit := fun st =>
  let ex := embedded_executor (ps_context st) in
  let '(inner, r) := m ex (initial_state ex (ps_world st)) in
  (pipe_context (st_context inner) (pipe_world (st_world inner) st), r).

(** [_apply_sql_query]. *)
Definition apply_sql_query (action : fields) : P W unit :=
  let config := filter (fun p => p.1 ∉ [u "type"; u "enabled"]) action in
  let timeout_ms := Z.min (at_timeout_ms (ap_request plan)) 120000 in
  _ ← embedding (fun ex => run_embedded_sql_query (H0 := api_surroundings s) ex config timeout_ms);
  check_context.

(** [_apply_script]. *)
Definition script_failure (e : script_error) : exn :=
  Py (ExecutionError (u match e with
                        | BudgetExceeded => "PYTHON_TIMEOUT"
                        | ScriptInvalid => "PYTHON_SCRIPT_INVALID"
                        | ScriptCrashed => "PYTHON_RUNTIME_ERROR"
                        end)).
Definition apply_script (action : fields) : P W unit :=
  _ ← lifts (require (exact_fields action ["type"; "script"; "enabled"]) ProtocolError);
  match get action "enabled", get action "script" with
  | JBool enabled, JStr script =>
      if enabled then
        context ← current_context;
        let '(context', failure) := run_safe_script (JStr script) context 500 in
        _ ← puts (pipe_context context');
        match failure with Some e => fails (script_failure e) | None => check_context end
      else mret tt
  | _, _ => fails ProtocolError
  end.

(** [_apply_get_token]. *)
Definition apply_get_token (action : fields) : P W unit :=
  match exact_fields action ["type"; "name"; "source"; "expression"; "required"; "default_value"; "request"; "enabled"],
        get action "request" with
  | true, JDict request =>
      template ← lifts (api_request_template request);
      context ← current_context;
      template ← lifts (render_request context template);
      response ← send_or_fail template;
      _ ← lifts (require ((200 <=? ar_status_code response) && (ar_status_code response <=? 299))
                   (Py (ExecutionError (u (if equals_text (get action "type") "GET_TOKEN" then "AUTH_REQUEST_REJECTED"
                                           else "SETUP_REQUEST_REJECTED")))));
      name ← lifts (of_option (variable (get action "name")) ProtocolError);
      value ← lifts (response_value_or str_lower action response "TOKEN_VALUE_MISSING");
      _ ← set_context name value;
      check_context
  | _, _ => fails ProtocolError
  end.

(** [_faker_value]. *)
Definition faker_value (generator seed : json) : P W json :=
  seed ← match seed with JNull => mret None | JInt z => mret (Some z) | _ => fails ProtocolError end;
  match generator_named generator generators with
  | Some (d, value) => z ← calls (draw seed d); mret (value z)
  | None => fails ProtocolError
  end.

Definition has_extra (action : fields) (allowed : list string) : P W unit := lifts (require (negb (extra_fields action allowed)) ProtocolError).

(** [_apply_pre_action]. *)
Definition apply_pre_action (action : fields) : P W unit :=
  let action_type := get_or action "type" (JStr (u "SET_VARIABLE")) in
  match get_or action "enabled" (JBool true) with
  | JBool false => mret tt
  | JBool true =>
      nameless ← lifts (member action_type ["PYTHON_SCRIPT"; "SQL_QUERY"]);
      let name := variable (get action "name") in
      _ ← lifts (require (nameless || bool_decide (is_Some name)) ProtocolError);
      let name := default [] name in
      _ ← (if equals_text action_type "SET_VARIABLE" then
             _ ← has_extra action ["type"; "name"; "value"; "enabled"];
             value ← lifts (of_option (field (u "value") action) ProtocolError);
             context ← current_context;
             value ← lifts (resolve_pipeline context value);
             set_context name value
           else if equals_text action_type "FAKER" then
             _ ← has_extra action ["type"; "name"; "generator"; "seed"; "enabled"];
             value ← faker_value (get action "generator") (get action "seed");
             set_context name value
           else if equals_text action_type "PYTHON_SCRIPT" then apply_script action
           else if equals_text action_type "SQL_QUERY" then apply_sql_query action
           else if equals_text action_type "GET_TOKEN" || equals_text action_type "API_SETUP" then apply_get_token action
           else fails ProtocolError);
      check_context
  | _ => fails ProtocolError
  end.

(** [_apply_extractor]. *)
Definition apply_extractor (extractor : fields) (response : ApiExecutionResult) : P W unit :=
  match get_or extractor "enabled" (JBool true) with
  | JBool false => mret tt
  | JBool true =>
      name ← lifts (of_option (variable (get extractor "name")) ProtocolError);
      value ← lifts (response_value_or str_lower extractor response "RESPONSE_VALUE_MISSING");
      _ ← set_context name value;
      check_context
  | _ => fails ProtocolError
  end.

(** [_register_resource]. *)
Definition resource_cleanup (action : fields) : py fields :=
  let inline := get action "cleanup" in
  let reference := get action "cleanup_ref" in
  _ ← require (is_none inline || is_none reference) ProtocolError;
  cleanup ← (if is_none reference then Return inline
             else match filter (fun c => py_eq (get c "cleanup_id") reference = true) (ap_cleanups plan) with
                  | [c] => Return (JDict c)
                  | _ => Raise ProtocolError
                  end);
  match cleanup with JDict f => Return f | _ => Raise ProtocolError end.
Definition resource_entry (resource_type resource_id : pytext) (metadata : fields) : json :=
  JDict [(u "resource_type", JStr resource_type); (u "resource_id", JStr resource_id); (u "metadata", JDict metadata)].
Definition register_resource (action : fields) : P W unit :=
  match get_or action "enabled" (JBool true) with
  | JBool false => mret tt
  | JBool true =>
      _ ← has_extra action ["type"; "name"; "resource_type"; "value"; "metadata"; "cleanup"; "cleanup_ref"; "enabled"];
      name ← lifts (of_option (variable (get action "name")) ProtocolError);
      resource_type ← lifts (of_option (variable (get action "resource_type")) ProtocolError);
      cleanup ← lifts (resource_cleanup action);
      context ← current_context;
      value ← lifts (resolve_pipeline context (get action "value"));
      let resource_id := rendered value in
      _ ← lifts (require (within 1 512 resource_id) ProtocolError);
      metadata ← lifts (resolve_pipeline context (get_or action "metadata" (JDict [])));
      match metadata with
      | JDict metadata =>
          _ ← puts (fun st => pipe_resources (ps_resources st ++
                [{| rs_sequence := Z.of_nat (length (ps_resources st)) + 1; rs_name := name; rs_type := resource_type;
                    rs_id := resource_id; rs_cleanup := cleanup; rs_status := R_PENDING; rs_attempt_count := 0;
                    rs_error_code := None |}]) st);
          match get_or context "__resources" (JDict []) with
          | JDict runtime_resources =>
              _ ← set_context (u "__resources") (JDict (set_field name (resource_entry resource_type resource_id metadata)
                                                          runtime_resources));
              check_context
          | _ => fails (Py (ExecutionError (u "RUNTIME_CONTEXT_INVALID")))
          end
      | _ => fails ProtocolError
      end
  | _ => fails ProtocolError
  end.

(** [_apply_post_action]. *)
Definition apply_post_action (action : fields) (response : ApiExecutionResult) : P W unit :=
  let action_type := get_or action "type" (JStr (u "SET_VARIABLE")) in
  if equals_text action_type "EXTRACT_RESPONSE" then apply_extractor action response
  else if equals_text action_type "PYTHON_SCRIPT" then apply_script action
  else if equals_text action_type "REGISTER_RESOURCE" then register_resource action
  else if negb (equals_text action_type "SET_VARIABLE") then fails ProtocolError
  else
    match get_or action "enabled" (JBool true) with
    | JBool false => mret tt
    | JBool true =>
        _ ← has_extra action ["type"; "name"; "value"; "enabled"];
        value ← lifts (of_option (field (u "value") action) ProtocolError);
        name ← lifts (of_option (variable (get action "name")) ProtocolError);
        context ← current_context;
        value ← lifts (resolve_pipeline context value);
        _ ← set_context name value;
        check_context
    | _ => fails ProtocolError
    end.

(** ** Traces *)

(** [_execute_traced_action] around the action itself. *)
Definition trace_type (phase : Phase) (action : fields) : json :=
  match phase with
  | EXTRACTOR => get_or action "source" (JStr (u "UNKNOWN"))
  | _ => get_or action "type" (JStr (u "SET_VARIABLE"))
  end.
Definition action_trace (phase : Phase) (sequence : Z) (action : fields) (failure : option exn) (elapsed : Z) : ActionTrace :=
  {| tr_sequence := sequence; tr_phase := phase; tr_type := trace_type phase action;
     tr_name := text_of (get action "name");
     tr_status := match failure with
                  | Some _ => T_FAILED
                  | None => match get_or action "enabled" (JBool true) with JBool false => T_SKIPPED | _ => T_SUCCESS end
                  end;
     tr_duration_ms := Z.min 86400000 (Z.max 0 (round_ms elapsed));
     tr_error_type := take 100 <$> (named_error <$> failure) |}.
Definition traced (phase : Phase) (sequence : Z) (action : fields) (m : P W unit) : P W unit :=
  started ← calls read_clock;
  r ← attempt m;
  now ← calls read_clock;
  let failure := match r with inl x => Some x | inr _ => None end in
  _ ← puts (fun st => pipe_traces (ps_traces st ++ [action_trace phase sequence action failure (now - started)]) st);
  match r with inl x => fails x | inr _ => mret tt end.

(** [for sequence, action in enumerate(actions, start=1)]. *)
Definition traced_actions (phase : Phase) (m : fields -> P W unit) (actions : list fields) : P W unit :=
  each (fun '(i, action) => traced phase i action (m action)) (imap (fun i action => (Z.of_nat i + 1, action)) actions).

(** ** The request *)

(** [_execute_target_with_retries]. *)
Definition token_actions : list fields :=
  filter (fun a => equals_text (get a "type") "GET_TOKEN" && truthy (get_or a "enabled" (JBool true)) = true) (ap_pre_actions plan).
Definition is_target_failure (x : py_exn) : bool :=
  match x with TargetTimeoutError | TargetExecutionError => true | _ => false end.
(** The answer of the target, or the failure of the target; other exceptions are
    raised. *)
Definition send_rendered : P W (py_exn + ApiExecutionResult) :=
  context ← current_context;
  request ← lifts (render_request context (ap_request plan));
  answer ← send request;
  match answer with
  | inl x => if is_target_failure x then mret (inl x) else fails (Py x)
  | inr r => mret (inr r)
  end.
Definition retry_reason (answer : py_exn + ApiExecutionResult) : option pytext :=
  match answer with
  | inl TargetTimeoutError => Some (u "TARGET_TIMEOUT")
  | inl _ => Some (u "TARGET_NETWORK_ERROR")
  | inr r => if (500 <=? ar_status_code r) && (ar_status_code r <=? 599) then Some HTTP_5XX else None
  end.
(** The request, once more after the tokens were fetched again if it is answered
    with 401 for the first time. *)
Definition send_authorized (refresh_used : bool) : P W (bool * (py_exn + ApiExecutionResult)) :=
  answer ← send_rendered;
  match answer with
  | inr r =>
      if (ar_status_code r =? 401) && bool_decide (token_actions <> []) && negb refresh_used then
        _ ← traced_actions AUTH_REFRESH apply_get_token token_actions;
        answer ← send_rendered;
        mret (true, answer)
      else mret (refresh_used, answer)
  | inl _ => mret (refresh_used, answer)
  end.
Definition back_off (backoff_ms : Z) : P W unit :=
  if decide (backoff_ms = 0) then mret tt else puts (fun st => pipe_world (sleep (ms backoff_ms) (ps_world st)) st).
Fixpoint target_attempts (left : nat) (refresh_used : bool) : P W ApiExecutionResult :=
  let policy := at_retry_policy (ap_request plan) in
  '(refresh_used, answer) ← send_authorized refresh_used;
  retry_count ← asks ps_retry_count;
  let again := (retry_count <? rp_max_retries policy)
               && match retry_reason answer with Some t => bool_decide (t ∈ rp_retry_on policy) | None => false end in
  if negb again then match answer with inl x => fails (Py x) | inr r => mret r end
  else
    _ ← back_off (rp_backoff_ms policy);
    _ ← puts (fun st => pipe_retry_count (ps_retry_count st + 1) st);
    match left with O => endless | S left' => target_attempts left' refresh_used end.
Definition execute_target_with_retries : P W ApiExecutionResult :=
  target_attempts (Z.to_nat (rp_max_retries (at_retry_policy (ap_request plan)))) false.

(** ** Cleanups *)

(** [_run_one_cleanup]: the error and the status. *)
Definition run_one_cleanup (cleanup : fields) (outcome : string) : P W (option exn * ResourceStatus) :=
  let policy := get_or cleanup "policy" (JStr (u "ALWAYS")) in
  match get_or cleanup "enabled" (JBool true) with
  | JBool enabled =>
      known ← lifts (member policy ["ALWAYS"; "ON_SUCCESS"; "ON_FAILURE"; "NEVER"]);
      if negb known then mret (Some (Py ProtocolError), R_FAILED)
      else if negb enabled || equals_text policy "NEVER"
              || equals_text policy "ON_SUCCESS" && negb (bool_decide (outcome = "SUCCESS"))
              || equals_text policy "ON_FAILURE" && bool_decide (outcome = "SUCCESS")
      then mret (None, R_SKIPPED)
      else
        r ← attempt (embedding (fun ex => run_embedded_cleanup (H0 := api_surroundings s) ex cleanup));
        mret (match r with inl x => (Some x, R_FAILED) | inr _ => (None, R_CLEANED) end)
  | _ => mret (Some (Py ProtocolError), R_FAILED)
  end.

Definition CLEANUP_EXECUTION_ERROR : pytext := u "CLEANUP_EXECUTION_ERROR".
Definition cleanup_error_code (x : exn) : pytext := default CLEANUP_EXECUTION_ERROR (error_type_of x).
Definition after_cleanup (r : Resource) (error : option exn) (status : ResourceStatus) : Resource :=
  {| rs_sequence := rs_sequence r; rs_name := rs_name r; rs_type := rs_type r; rs_id := rs_id r; rs_cleanup := rs_cleanup r;
     rs_status := status;
     rs_attempt_count := match error, status with Some _, _ | None, R_CLEANED => 1 | None, _ => rs_attempt_count r end;
     rs_error_code := match error with Some x => Some (cleanup_error_code x) | None => rs_error_code r end |}.
Definition first_of (a b : option exn) : option exn := match a with Some _ => a | None => b end.

(** [self.resources[i]] is updated in place. *)
Definition update_resource (i : nat) (f : Resource -> Resource) : P W unit :=
  puts (fun st => pipe_resources (alter f i (ps_resources st)) st).

Definition RESOURCE_ID : pytext := u "resource_id".
(** One iteration of the loop over the resources: the context has the identifier of
    the resource meanwhile. *)
Definition restore_id (previous : option json) (context : fields) : fields :=
  match previous with Some v => set_field RESOURCE_ID v context | None => remove_field RESOURCE_ID context end.
Definition clean_resource (outcome : string) (i : nat) (r : Resource) : P W (option exn) :=
  context ← current_context;
  _ ← set_context RESOURCE_ID (JStr (rs_id r));
  ensuring
    ('(error, status) ← run_one_cleanup (rs_cleanup r) outcome;
     _ ← update_resource i (fun r => after_cleanup r error status);
     mret error)
    (fun st => pipe_context (restore_id (field RESOURCE_ID context) (ps_context st)) st).
Fixpoint clean_resources (outcome : string) (l : list (nat * Resource)) (first_error : option exn) : P W (option exn) :=
  match l with
  | [] => mret first_error
  | (i, r) :: rest =>
      error ← clean_resource outcome i r;
      clean_resources outcome rest (first_of first_error error)
  end.
Fixpoint clean_unbound (outcome : string) (bound : list pytext) (l : list fields) (first_error : option exn) : P W (option exn) :=
  match l with
  | [] => mret first_error
  | cleanup :: rest =>
      let id := get cleanup "cleanup_id" in
      if negb (hashable id) then fails PyTypeError
      else if match id with JStr t => bool_decide (t ∈ bound) | _ => false end
      then clean_unbound outcome bound rest first_error
      else
        '(error, _) ← run_one_cleanup cleanup outcome;
        clean_unbound outcome bound rest (first_of first_error error)
  end.
Definition cleanup_id (r : Resource) : option pytext := text_of (get (rs_cleanup r) "cleanup_id").
(** [_run_cleanups]. *)
Definition run_pipeline_cleanups (outcome : string) : P W (option exn) :=
  resources ← asks ps_resources;
  first_error ← clean_resources outcome (reverse (imap pair resources)) None;
  clean_unbound outcome (omap cleanup_id resources) (reverse (ap_cleanups plan)) first_error.

(** ** [execute] *)

(** [ApiPipelineExecutionResult]; the context for a cleanup that is pending. *)
Record PipelineResult := {
  pr_response : ApiExecutionResult;
  pr_resources : list Resource;
  pr_traces : list ActionTrace;
  pr_retry_count : Z;
  pr_cleanup_context : option fields;
}.

(** How the pipeline ends: an exception carries the attributes [action_traces] and
    [retry_count] when they were set. *)
Inductive PipelineEnd :=
  | Finished (r : PipelineResult)
  | Broken (x : exn) (traces : list ActionTrace) (retry_count : Z).

(** The inner [try]. *)
Definition primary : P W ApiExecutionResult :=
  _ ← traced_actions PRE apply_pre_action (ap_pre_actions plan);
  response ← execute_target_with_retries;
  _ ← traced_actions EXTRACTOR (fun a => apply_extractor a response) (ap_extractors plan);
  _ ← traced_actions POST (fun a => apply_post_action a response) (ap_post_actions plan);
  mret response.

Definition pipeline_outcome (r : exn + ApiExecutionResult) : string :=
  match r with
  | inr _ => "SUCCESS"
  | inl x =>
      match error_type_of x with
      | Some t => if decide (t ∈ [u "TARGET_TIMEOUT"; u "TOTAL_TIMEOUT"]) then "TIMEOUT" else "FAILURE"
      | None => "FAILURE"
      end
  end.

Definition result_with (response : ApiExecutionResult) (cleanup_context : option fields) (st : PSt W) : PipelineResult :=
  {| pr_response := response; pr_resources := ps_resources st; pr_traces := ps_traces st;
     pr_retry_count := ps_retry_count st; pr_cleanup_context := cleanup_context |}.

Definition cleanup_failure (x : exn) : exn := Py (ExecutionError (cleanup_error_code x)).

Definition pipeline_body : P W PipelineEnd :=
  r ← attempt primary;
  match r with
  | inr response =>
      if ap_defer_cleanup plan then asks (fun st => Finished (result_with response (Some (ps_context st)) st))
      else
        error ← run_pipeline_cleanups (pipeline_outcome r);
        match error with
        | Some x => mret (Broken (cleanup_failure x) [] 0)
        | None => asks (fun st => Finished (result_with response None st))
        end
  | inl x =>
      _ ← run_pipeline_cleanups (pipeline_outcome r);
      asks (fun st => Broken x (ps_traces st) (ps_retry_count st))
  end.

Definition initial_pipeline (w : W) : PSt W :=
  {| ps_world := w; ps_context := ap_initial_context plan; ps_resources := []; ps_traces := []; ps_retry_count := 0 |}.

(** [ApiCasePipelineExecutor(plan, api_executor=executor).execute()]: an exception of
    the cleanups carries no attributes. *)
Definition execute_pipeline (w : W) : PSt W * res PipelineEnd :=
  match pipeline_body (initial_pipeline w) with
  | (st, Exn x) => (st, Val (Broken x [] 0))
  | r => r
  end.

(** [execute_cleanup_task]. *)
Record PipelineCleanupTask := { pt_context : fields; pt_resources : list Resource; pt_outcome : string }.
Definition execute_pipeline_cleanup (task : PipelineCleanupTask) (w : W) : PSt W * res (list Resource) :=
  let st := {| ps_world := w; ps_context := pt_context task; ps_resources := pt_resources task; ps_traces := [];
               ps_retry_count := 0 |} in
  (_ ← lifts (require (bool_decide (pt_outcome task ∈ ["SUCCESS"; "FAILURE"; "CANCELLED"; "TIMEOUT"])) ProtocolError);
   error ← run_pipeline_cleanups (pt_outcome task);
   match error with Some x => fails (cleanup_failure x) | None => asks ps_resources end) st.
End Pipeline.

(** ** The worker process *)

(** What the child process is asked to do. *)
Inductive ApiTask := RunRequest (t : ApiRequestTemplate) | RunPlan (plan : ApiPlan) | RunCleanup (plan : ApiPlan) (task : PipelineCleanupTask).

(** The [IsolatedOutcome] of an API task. *)
Inductive ApiOutcome :=
  | HTTP_RESPONSE (r : ApiExecutionResult)
  | API_PIPELINE_RESULT (r : PipelineResult)
  | API_CLEANUP_RESULT (resources : list Resource)
  | API_TARGET_TIMEOUT (traces : list ActionTrace) (retry_count : Z)
  | API_TARGET_NETWORK_ERROR (traces : list ActionTrace) (retry_count : Z)
  | API_EXECUTION_ERROR (error_type : pytext) (traces : list ActionTrace) (retry_count : Z).

Definition EXECUTOR_ERROR : pytext := u "EXECUTOR_ERROR".
Definition or_executor_error (t : pytext) : pytext := match t with [] => EXECUTOR_ERROR | _ => t end.

(** The [except] clauses of [_run_api_task_worker]. *)
Definition failed_outcome (x : exn) (traces : list ActionTrace) (retry_count : Z) : ApiOutcome :=
  match x with
  | Py TargetTimeoutError => API_TARGET_TIMEOUT traces retry_count
  | Py TargetExecutionError => API_TARGET_NETWORK_ERROR traces retry_count
  | Py (ExecutionError t) => API_EXECUTION_ERROR (or_executor_error t) traces retry_count
  | Runtime e => API_EXECUTION_ERROR (or_executor_error (re_error_type e)) traces retry_count
  | _ => API_EXECUTION_ERROR EXECUTOR_ERROR [] 0
  end.

Section Worker.
Context `{Unicode} `{UrlLibrary} {W : Type} `{HttpClient W} `{PipelineLibrary W} (s : Surroundings W).

(** [_run_api_task_worker]: nothing is sent while the execution runs. *)
Definition api_task_worker (same_revision : bool) (task : ApiTask) (w : W) : option ApiOutcome :=
  if negb same_revision then Some (API_EXECUTION_ERROR (u "RUNNER_RESTART_REQUIRED") [] 0)
  else
    match task with
    | RunRequest t =>
        Some (match (execute_api MAX_RESPONSE_BYTES t w).1 with
              | inr r => HTTP_RESPONSE r
              | inl x => failed_outcome x [] 0
              end)
    | RunPlan plan =>
        match (execute_pipeline s plan w).2 with
        | Val (Finished r) => Some (API_PIPELINE_RESULT r)
        | Val (Broken x traces n) => Some (failed_outcome x traces n)
        | Exn x => Some (failed_outcome x [] 0)
        | Unfinished => None
        end
    | RunCleanup plan task =>
        match (execute_pipeline_cleanup s plan task w).2 with
        | Val resources => Some (API_CLEANUP_RESULT resources)
        | Exn x => Some (failed_outcome x [] 0)
        | Unfinished => None
        end
    end.
End Worker.
