(* ===== verification/ApiPipelineLogic.v ===== *)
(** Reasoning about the pipeline of an API case: what its methods keep, that they
    end, and what they do to resources and traces. *)
From S2P Require Import Prelude PyText Calendar Json PyJson ScenarioData RunnerValues ScenarioSql PyUrl PyUrlLemmas ScenarioMonad.
From S2P Require Import ScenarioActions ScenarioRun ScenarioLogic ScenarioEnds ApiTemplate ApiExecutor ApiRedirects ApiErrors ApiTheorems ApiPipeline.
Open Scope Z_scope.

(** ** What a method keeps *)

Section Keeps.
Context {W : Type} (R : relation (PSt W)) `{!PreOrder R}.

Definition keeps {A} (m : P W A) : Prop := forall st, R st (m st).1.

Lemma keeps_ret {A} (a : A) : keeps (mret a).
Proof. intros st. reflexivity. Qed.
Lemma keeps_fails {A} x : keeps (fails x : P W A).
Proof. intros st. reflexivity. Qed.
Lemma keeps_endless {A} : keeps (endless : P W A).
Proof. intros st. reflexivity. Qed.
Lemma keeps_asks {A} (f : PSt W -> A) : keeps (asks f).
Proof. intros st. reflexivity. Qed.
Lemma keeps_lifts {A} (m : py A) : keeps (lifts m).
Proof. intros st. reflexivity. Qed.
Lemma keeps_puts f : (forall st, R st (f st)) -> keeps (puts f).
Proof. intros Hf st. apply Hf. Qed.
Lemma keeps_calls {A} (f : W -> A * W) : (forall w st, R st (pipe_world w st)) -> keeps (calls f).
Proof. intros Hf st. unfold calls. destruct (f (ps_world st)). apply Hf. Qed.
Lemma keeps_bind {A B} (m : P W A) (k : A -> P W B) : keeps m -> (forall a, keeps (k a)) -> keeps (x ← m; k x).
Proof.
  intros Hm Hk st. unfold mbind, P_bind. pose proof (Hm st) as H1. destruct (m st) as [st1 [a|x|]]; cbn in *; [|done..].
  etrans; [exact H1 | apply Hk].
Qed.
Lemma keeps_attempt {A} (m : P W A) : keeps m -> keeps (attempt m).
Proof. intros Hm st. unfold attempt. pose proof (Hm st) as H1. by destruct (m st) as [st1 [a|x|]]. Qed.
Lemma keeps_ensuring {A} (m : P W A) f : keeps m -> (forall st, R st (f st)) -> keeps (ensuring m f).
Proof.
  intros Hm Hf st. unfold ensuring. pose proof (Hm st) as H1. destruct (m st) as [st1 [a|x|]]; cbn in *; [| |done]; (etrans; [exact H1 | apply Hf]).
Qed.
Lemma keeps_each {A} (m : A -> P W unit) l : (forall a, keeps (m a)) -> keeps (each m l).
Proof. intros Hm. induction l as [|a l IH]; cbn [each]; [apply keeps_ret|]. apply keeps_bind; [apply Hm | done]. Qed.
End Keeps.

Lemma keeps_current_context {W} (R : relation (PSt W)) `{!PreOrder R} : keeps R (current_context : P W fields).
Proof. apply keeps_asks, _. Qed.

Create HintDb pipeline discriminated.
#[export] Hint Resolve keeps_ret keeps_fails keeps_endless keeps_asks keeps_lifts keeps_current_context : pipeline.
#[export] Hint Extern 0 (PreOrder _) => apply _ : pipeline.

Ltac keeps_step :=
  first
  [ solve [auto 3 with pipeline]
  | progress cbn beta iota zeta
  | match goal with
    | |- keeps _ (@mbind _ _ _ _ _ _) => apply keeps_bind; [apply _| |intros ?]
    | |- keeps _ (attempt _) => apply keeps_attempt
    | |- keeps _ (calls _) => apply keeps_calls; intros ??; solve [done | by intros ?]
    | |- keeps _ (puts _) => apply keeps_puts; intros ?; solve [done | by intros ?]
    | |- keeps _ (each _ _) => apply keeps_each; [apply _|intros ?]
    | |- keeps _ (match ?x with _ => _ end) => destruct x
    end ].
Ltac keeps_solve := repeat keeps_step.

(** The states with the same value of [f]. *)
Definition same {W B} (f : PSt W -> B) : relation (PSt W) := fun st st' => f st' = f st.
#[global] Instance same_preorder {W B} (f : PSt W -> B) : PreOrder (same f).
Proof. split; [done | intros ??? H1 H2; unfold same in *; congruence]. Qed.

(** Resources and traces, which the actions themselves leave alone. *)
Definition records {W} (st : PSt W) : list Resource * list ActionTrace * Z := (ps_resources st, ps_traces st, ps_retry_count st).

Section Actions.
Context `{Unicode} `{UrlLibrary} {W : Type} `{HttpClient W} `{PipelineLibrary W} (s : Surroundings W) (plan : ApiPlan).

Lemma keeps_embedding m : keeps (same records) (embedding plan m : P W unit).
Proof. intros st. unfold embedding. by destruct (m _ _) as [inner r]. Qed.
Hint Resolve keeps_embedding : pipeline.
Lemma keeps_check_context : keeps (same records) (check_context : P W unit).
Proof. unfold check_context, current_context. keeps_solve. Qed.
Lemma keeps_set_context n v : keeps (same records) (set_context n v : P W unit).
Proof. unfold set_context. keeps_solve. Qed.
Hint Resolve keeps_check_context keeps_set_context : pipeline.
Lemma keeps_sql_query action : keeps (same records) (apply_sql_query s plan action : P W unit).
Proof. unfold apply_sql_query. keeps_solve. Qed.
Lemma keeps_script action : keeps (same records) (apply_script s action : P W unit).
Proof. unfold apply_script, current_context. keeps_solve. Qed.
Lemma keeps_send t : keeps (same records) (send t : P W _).
Proof. unfold send. keeps_solve. Qed.
Hint Resolve keeps_sql_query keeps_script keeps_send : pipeline.
Lemma keeps_get_token action : keeps (same records) (apply_get_token action : P W unit).
Proof. unfold apply_get_token, send_or_fail, current_context. keeps_solve. Qed.
Hint Resolve keeps_get_token : pipeline.
Lemma keeps_pre_action action : keeps (same records) (apply_pre_action s plan action : P W unit).
Proof. unfold apply_pre_action, has_extra, faker_value, current_context. keeps_solve. Qed.
Lemma keeps_extractor action r : keeps (same records) (apply_extractor action r : P W unit).
Proof. unfold apply_extractor. keeps_solve. Qed.
Hint Resolve keeps_pre_action keeps_extractor : pipeline.
Lemma keeps_send_rendered : keeps (same records) (send_rendered plan : P W _).
Proof. unfold send_rendered, current_context. keeps_solve. Qed.
Lemma keeps_run_one cleanup outcome : keeps (same records) (run_one_cleanup s plan cleanup outcome : P W _).
Proof. unfold run_one_cleanup. keeps_solve. Qed.
End Actions.

(** A weaker relation is kept as well. *)
Lemma keeps_weaken {W A} (R R' : relation (PSt W)) (m : P W A) : (forall st st', R st st' -> R' st st') -> keeps R m -> keeps R' m.
Proof. intros HR Hm st. apply HR, Hm. Qed.

(** ** Methods end *)

Section Finishes.
Context {W : Type}.
Definition finishes {A} (m : P W A) : Prop := forall st, (m st).2 <> Unfinished.
Lemma finishes_ret {A} (a : A) : finishes (mret a).
Proof. done. Qed.
Lemma finishes_fails {A} x : finishes (fails x : P W A).
Proof. done. Qed.
Lemma finishes_asks {A} (f : PSt W -> A) : finishes (asks f).
Proof. done. Qed.
Lemma finishes_puts f : finishes (puts f : P W unit).
Proof. done. Qed.
Lemma finishes_lifts {A} (m : py A) : finishes (lifts m : P W A).
Proof. intros st. unfold lifts. by destruct m. Qed.
Lemma finishes_calls {A} (f : W -> A * W) : finishes (calls f).
Proof. intros st. unfold calls. by destruct (f (ps_world st)). Qed.
Lemma finishes_bind {A B} (m : P W A) (k : A -> P W B) : finishes m -> (forall a, finishes (k a)) -> finishes (x ← m; k x).
Proof. intros Hm Hk st. unfold mbind, P_bind. pose proof (Hm st). destruct (m st) as [st1 [a|x|]]; [apply Hk | done | done]. Qed.
Lemma finishes_attempt {A} (m : P W A) : finishes m -> finishes (attempt m).
Proof. intros Hm st. unfold attempt. pose proof (Hm st). by destruct (m st) as [st1 [a|x|]]. Qed.
Lemma finishes_ensuring {A} (m : P W A) f : finishes m -> finishes (ensuring m f).
Proof. intros Hm st. unfold ensuring. pose proof (Hm st). by destruct (m st) as [st1 [a|x|]]. Qed.
Lemma finishes_each {A} (m : A -> P W unit) l : (forall a, finishes (m a)) -> finishes (each m l).
Proof. intros Hm. induction l as [|a l IH]; cbn [each]; [apply finishes_ret|]. by apply finishes_bind. Qed.
End Finishes.
#[export] Hint Resolve finishes_ret finishes_fails finishes_asks finishes_puts finishes_lifts finishes_calls : pipeline.

Ltac finishes_step :=
  first
  [ solve [auto 3 with pipeline]
  | progress cbn beta iota zeta
  | match goal with
    | |- finishes (@mbind _ _ _ _ _ _) => apply finishes_bind; [|intros ?]
    | |- finishes (attempt _) => apply finishes_attempt
    | |- finishes (ensuring _ _) => apply finishes_ensuring
    | |- finishes (each _ _) => apply finishes_each; intros ?
    | |- finishes (match ?x with _ => _ end) => destruct x
    end ].
Ltac finishes_solve := repeat finishes_step.

Section Ends.
Context `{Unicode} `{UrlLibrary} {W : Type} `{HttpClient W} `{PipelineLibrary W} (s : Surroundings W) (plan : ApiPlan).

Lemma finishes_embedding m : (forall ex st, (m ex st).2 <> Unfinished) -> finishes (embedding plan m : P W unit).
Proof.
  intros Hm st. unfold embedding. match goal with |- context [m ?ex ?i] => pose proof (Hm ex i) end. by destruct (m _ _) as [inner r].
Qed.
Lemma embedded_sql_ends ex config timeout_ms (st : St W) :
  (run_embedded_sql_query (H0 := api_surroundings s) ex config timeout_ms st).2 <> Unfinished.
Proof. apply sql_ends. Qed.
Lemma embedded_cleanup_ends ex config (st : St W) :
  (run_embedded_cleanup (H0 := api_surroundings s) ex config st).2 <> Unfinished.
Proof.
  unfold run_embedded_cleanup, mbind, M_bind, lift. destruct (member _ _) as [[]|x]; [|done|done].
  destruct (get_or config "timeout_ms" (JInt 30000)); try done.
  destruct (cleanup_config_error _); [done|]. destruct (equals_text _ _); [apply api_cleanup_ends | apply sql_ends].
Qed.

Lemma finishes_check_context : finishes (check_context : P W unit).
Proof. unfold check_context, current_context. finishes_solve. Qed.
Lemma finishes_sql_query action : finishes (apply_sql_query s plan action : P W unit).
Proof.
  unfold apply_sql_query. apply finishes_bind; [|intros; apply finishes_check_context].
  apply finishes_embedding. intros. apply embedded_sql_ends.
Qed.
Hint Resolve finishes_check_context finishes_sql_query : pipeline.
Lemma finishes_set_context n v : finishes (set_context n v : P W unit).
Proof. unfold set_context. finishes_solve. Qed.
Lemma finishes_script action : finishes (apply_script s action : P W unit).
Proof. unfold apply_script, current_context. finishes_solve. Qed.
Lemma finishes_send t : finishes (send t : P W _).
Proof. unfold send. finishes_solve. Qed.
Hint Resolve finishes_script finishes_send finishes_set_context : pipeline.
Lemma finishes_get_token action : finishes (apply_get_token action : P W unit).
Proof. unfold apply_get_token, send_or_fail, current_context. finishes_solve. Qed.
Hint Resolve finishes_get_token : pipeline.
Lemma finishes_pre_action action : finishes (apply_pre_action s plan action : P W unit).
Proof. unfold apply_pre_action, has_extra, faker_value, current_context. finishes_solve. Qed.
Lemma finishes_extractor action r : finishes (apply_extractor action r : P W unit).
Proof. unfold apply_extractor. finishes_solve. Qed.
Lemma finishes_register action : finishes (register_resource plan action : P W unit).
Proof. unfold register_resource, has_extra, current_context. finishes_solve. Qed.
Hint Resolve finishes_pre_action finishes_extractor finishes_register : pipeline.
Lemma finishes_post_action action r : finishes (apply_post_action s plan action r : P W unit).
Proof. unfold apply_post_action, has_extra, current_context. finishes_solve. Qed.
Lemma finishes_traced_actions phase (m : fields -> P W unit) l : (forall a, finishes (m a)) -> finishes (traced_actions s phase m l).
Proof. intros Hm. unfold traced_actions, traced. apply finishes_each. intros [i a]. finishes_solve. Qed.
Lemma finishes_send_rendered : finishes (send_rendered plan : P W _).
Proof. unfold send_rendered, current_context. finishes_solve. Qed.
Hint Resolve finishes_post_action finishes_traced_actions finishes_send_rendered : pipeline.
Lemma finishes_send_authorized used : finishes (send_authorized s plan used : P W _).
Proof. unfold send_authorized. finishes_solve. Qed.
Lemma finishes_run_one cleanup outcome : finishes (run_one_cleanup s plan cleanup outcome : P W _).
Proof.
  unfold run_one_cleanup. finishes_solve. apply finishes_embedding. intros. apply embedded_cleanup_ends.
Qed.
Hint Resolve finishes_send_authorized finishes_run_one : pipeline.
Lemma finishes_clean_resources outcome l first : finishes (clean_resources s plan outcome l first : P W _).
Proof.
  revert first. induction l as [|[i r] l IH]; intros first; cbn [clean_resources]; [finishes_solve|].
  apply finishes_bind; [|intros; apply IH]. unfold clean_resource, current_context, update_resource. finishes_solve.
Qed.
Lemma finishes_clean_unbound outcome bound l first : finishes (clean_unbound s plan outcome bound l first : P W _).
Proof.
  revert first. induction l as [|c l IH]; intros first; cbn [clean_unbound]; [finishes_solve|].
  destruct (negb _); [finishes_solve|]. destruct (match _ with JStr t => _ | _ => _ end); [apply IH|]. apply finishes_bind; [auto with pipeline|].
  intros [error status]. apply IH.
Qed.
Hint Resolve finishes_clean_resources finishes_clean_unbound : pipeline.
Lemma finishes_cleanups outcome : finishes (run_pipeline_cleanups s plan outcome : P W _).
Proof. unfold run_pipeline_cleanups. finishes_solve. Qed.
Hint Resolve finishes_cleanups : pipeline.
End Ends.

(** ** Retries *)

Section Retries.
Context `{Unicode} `{UrlLibrary} {W : Type} `{HttpClient W} `{PipelineLibrary W} (s : Surroundings W) (plan : ApiPlan).
Abbreviation retries := (rp_max_retries (at_retry_policy (ap_request plan))).

Lemma records_retry (m : P W unit) : keeps (same records) m -> keeps (same ps_retry_count) m.
Proof. apply keeps_weaken. unfold same, records. congruence. Qed.
Lemma keeps_post_retry action r : keeps (same ps_retry_count) (apply_post_action s plan action r : P W unit).
Proof.
  unfold apply_post_action. destruct (equals_text _ _); [apply records_retry, keeps_extractor|].
  destruct (equals_text _ _); [apply records_retry, keeps_script|].
  destruct (equals_text _ _). { unfold register_resource, has_extra, current_context, check_context, set_context. keeps_solve. }
  unfold has_extra, current_context, check_context, set_context. keeps_solve.
Qed.
Lemma keeps_traced_retry phase (m : fields -> P W unit) l : (forall a, keeps (same ps_retry_count) (m a)) ->
  keeps (same ps_retry_count) (traced_actions s phase m l).
Proof. intros Hm. unfold traced_actions, traced. apply keeps_each; [apply _|]. intros [i a]. keeps_solve. Qed.
Lemma keeps_send_authorized used : keeps (same ps_retry_count) (send_authorized s plan used : P W _).
Proof.
  assert (keeps (same ps_retry_count) (send_rendered plan : P W _)) as Hs.
  { eapply keeps_weaken; [|apply keeps_send_rendered]. unfold same, records. congruence. }
  unfold send_authorized. apply keeps_bind; [apply _ | exact Hs |]. intros [x|r]; [auto with pipeline|].
  destruct (_ && _); [|auto with pipeline]. apply keeps_bind; [apply _| |intros _; apply keeps_bind; [apply _ | exact Hs | auto with pipeline]].
  apply keeps_traced_retry. intros a. apply records_retry, keeps_get_token.
Qed.

(** A repeated request is one of at most [max_retries]. *)
Definition within_retries {A} (st : PSt W) (r : PSt W * res A) : Prop :=
  r.2 <> Unfinished /\ ps_retry_count st <= ps_retry_count r.1 <= Z.max (ps_retry_count st) retries.
Lemma target_attempts_retries left used (st : PSt W) :
  0 <= ps_retry_count st -> retries - ps_retry_count st <= Z.of_nat left ->
  within_retries st (target_attempts s plan left used st).
Proof.
  revert used st. induction left as [|left IH]; intros used st H0' Hl; cbn [target_attempts]; unfold mbind at 1, P_bind at 1;
    pose proof (finishes_send_authorized s plan used st) as Hf; pose proof (keeps_send_authorized used st) as Hk; unfold same in Hk;
    destruct (send_authorized s plan used st) as [st1 [[used' answer]|x|]]; cbn [fst snd] in Hf, Hk |- *; try (split; [done|cbn; lia]);
    unfold mbind at 1, P_bind at 1, asks; cbn beta iota zeta; destruct (Z.ltb_spec (ps_retry_count st1) retries) as [Hr|Hr]; cbn [andb];
    try lia; try (cbn [negb]; destruct answer; (split; [done | cbn; lia])).
  destruct (match retry_reason answer with Some t => bool_decide (t ∈ rp_retry_on (at_retry_policy (ap_request plan))) | None => false end);
    cbn [negb]; [|destruct answer; (split; [done | cbn; lia])].
  unfold mbind, P_bind, back_off, puts, mret, P_ret.
  destruct (decide (rp_backoff_ms (at_retry_policy (ap_request plan)) = 0)); cbn beta iota;
    match goal with |- context [target_attempts s plan left used' ?st2] => specialize (IH used' st2) end;
    cbn [ps_retry_count pipe_retry_count pipe_world] in IH; (destruct IH as [IH1 IH2]; [lia|lia|]); (split; [done | cbn in *; lia]).
Qed.

(** A method that leaves the retries alone, before and after one that is within
    them. *)
Lemma within_before {A B} (m : P W A) (k : A -> P W B) st : finishes m -> keeps (same ps_retry_count) m ->
  (forall a st', ps_retry_count st' = ps_retry_count st -> within_retries st' (k a st')) -> within_retries st ((x ← m; k x) st).
Proof.
  intros Hf Hk Hm. unfold mbind, P_bind. specialize (Hf st). specialize (Hk st). unfold same in Hk.
  destruct (m st) as [st1 [a|x|]]; cbn [fst snd] in *; [| |done].
  - specialize (Hm a st1 Hk). unfold within_retries in *. rewrite Hk in Hm. exact Hm.
  - split; [done | cbn; lia].
Qed.
Lemma within_after {A B} (m : P W A) (k : A -> P W B) st : within_retries st (m st) ->
  (forall a, finishes (k a)) -> (forall a, keeps (same ps_retry_count) (k a)) -> within_retries st ((x ← m; k x) st).
Proof.
  intros Hm Hf Hk. unfold mbind, P_bind. destruct (m st) as [st1 [a|x|]]; [|split; [done|apply Hm]|by destruct Hm].
  unfold within_retries in *. specialize (Hf a st1). specialize (Hk a st1). unfold same in Hk. cbn [fst snd] in Hm. rewrite Hk. tauto.
Qed.
Lemma within_attempt {A} (m : P W A) st : within_retries st (m st) -> within_retries st (attempt m st).
Proof. unfold attempt, within_retries. destruct (m st) as [st1 [a|x|]]; cbn; intuition congruence. Qed.

Lemma primary_retries (st : PSt W) : ps_retry_count st = 0 -> within_retries st (primary s plan st).
Proof.
  intros H0'. unfold primary. apply within_before.
  - apply finishes_traced_actions, finishes_pre_action.
  - apply keeps_traced_retry. intros a. apply records_retry, keeps_pre_action.
  - intros _ st' Hst'. apply within_after.
    + apply target_attempts_retries; lia.
    + intros r. apply finishes_bind; [apply finishes_traced_actions; intros; apply finishes_extractor|]. intros _.
      apply finishes_bind; [apply finishes_traced_actions; intros; apply finishes_post_action | auto with pipeline].
    + intros r. apply keeps_bind; [apply _ | apply keeps_traced_retry; intros; apply records_retry, keeps_extractor|]. intros _.
      apply keeps_bind; [apply _ | apply keeps_traced_retry; intros; apply keeps_post_retry | auto with pipeline].
Qed.
End Retries.

(** ** Traces *)

Section Traces.
Context `{Unicode} `{UrlLibrary} {W : Type} `{HttpClient W} `{PipelineLibrary W} (s : Surroundings W) (plan : ApiPlan).

Definition no_failure (l : list ActionTrace) : Prop := Forall (fun tr => tr_status tr <> T_FAILED) l.
(** The last trace is that of an action that failed with [x]. *)
Definition failed_last (x : exn) (l : list ActionTrace) : Prop :=
  exists before tr, l = before ++ [tr] /\ no_failure before /\ tr_status tr = T_FAILED
    /\ tr_error_type tr = Some (take 100 (named_error (W := W) x)).
Definition traces_sound {A} (r : PSt W * res A) : Prop :=
  match r.2 with
  | Val _ => no_failure (ps_traces r.1)
  | Exn x => no_failure (ps_traces r.1) \/ failed_last x (ps_traces r.1)
  | Unfinished => True
  end.
Definition traces_well {A} (m : P W A) : Prop := forall st, no_failure (ps_traces st) -> traces_sound (m st).

Lemma well_keeps {A} (m : P W A) : keeps (same ps_traces) m -> traces_well m.
Proof.
  intros Hk st Hst. specialize (Hk st). unfold same in Hk. unfold traces_sound. rewrite Hk. destruct (m st).2; auto.
Qed.
Lemma well_bind {A B} (m : P W A) (k : A -> P W B) : traces_well m -> (forall a, traces_well (k a)) -> traces_well (x ← m; k x).
Proof.
  intros Hm Hk st Hst. specialize (Hm st Hst). unfold mbind, P_bind, traces_sound in *.
  destruct (m st) as [st1 [a|x|]]; cbn in *; [by apply Hk | done | done].
Qed.
Lemma well_each {A} (m : A -> P W unit) l : (forall a, traces_well (m a)) -> traces_well (each m l).
Proof. intros Hm. induction l as [|a l IH]; cbn [each]; [apply well_keeps; auto with pipeline | by apply well_bind]. Qed.

Lemma well_traced phase i action (m : P W unit) : keeps (same ps_traces) m -> traces_well (traced s phase i action m).
Proof.
  intros Hk st Hst. unfold traced, mbind, P_bind, calls, attempt, puts, fails, mret, P_ret.
  destruct (read_clock (ps_world st)) as [started w1]. cbn [fst snd]. specialize (Hk (pipe_world w1 st)). unfold same in Hk.
  destruct (m (pipe_world w1 st)) as [st1 [a|x|]]; cbn [fst snd] in *; [| |done];
    destruct (read_clock (ps_world st1)) as [now w2]; unfold traces_sound; cbn in *; rewrite Hk.
  - apply Forall_app. split; [exact Hst|]. constructor; [|constructor]. cbn. by destruct (get_or action "enabled" (JBool true)) as [|[]| | | | |].
  - right. eexists _, _. split; [reflexivity|]. done.
Qed.
Lemma well_traced_actions phase (m : fields -> P W unit) l : (forall a, keeps (same ps_traces) (m a)) ->
  traces_well (traced_actions s phase m l).
Proof. intros Hm. unfold traced_actions. apply well_each. intros [i a]. by apply well_traced. Qed.

Lemma records_traces {A} (m : P W A) : keeps (same records) m -> keeps (same ps_traces) m.
Proof. apply keeps_weaken. unfold same, records. congruence. Qed.
Lemma keeps_post_traces action r : keeps (same ps_traces) (apply_post_action s plan action r : P W unit).
Proof.
  unfold apply_post_action. destruct (equals_text _ _); [apply records_traces, keeps_extractor|].
  destruct (equals_text _ _); [apply records_traces, keeps_script|].
  destruct (equals_text _ _). { unfold register_resource, has_extra, current_context, check_context, set_context. keeps_solve. }
  unfold has_extra, current_context, check_context, set_context. keeps_solve.
Qed.
Lemma well_send_authorized used : traces_well (send_authorized s plan used : P W _).
Proof.
  assert (traces_well (send_rendered plan : P W _)) as Hs by apply well_keeps, records_traces, keeps_send_rendered.
  unfold send_authorized. apply well_bind; [exact Hs|]. intros [x|r]; [apply well_keeps; auto with pipeline|].
  destruct (_ && _); [|apply well_keeps; auto with pipeline]. apply well_bind.
  - apply well_traced_actions. intros. apply records_traces, keeps_get_token.
  - intros _. apply well_bind; [exact Hs|]. intros. apply well_keeps. auto with pipeline.
Qed.
Lemma well_target left used : traces_well (target_attempts s plan left used : P W _).
Proof.
  revert used. induction left as [|left IH]; intros used; cbn [target_attempts];
    (apply well_bind; [apply well_send_authorized|]); intros [used' answer]; (apply well_bind; [apply well_keeps; auto with pipeline|]);
    intros n; cbn zeta; (destruct (negb _); [apply well_keeps; destruct answer; auto with pipeline|]);
    (apply well_bind; [apply well_keeps; unfold back_off; keeps_solve|]); intros _;
    (apply well_bind; [apply well_keeps; keeps_solve|]); intros _; [apply well_keeps; auto with pipeline | apply IH].
Qed.
Lemma well_primary : traces_well (primary s plan : P W _).
Proof.
  unfold primary. apply well_bind; [apply well_traced_actions; intros; apply records_traces, keeps_pre_action|]. intros _.
  apply well_bind; [apply well_target|]. intros r.
  apply well_bind; [apply well_traced_actions; intros; apply records_traces, keeps_extractor|]. intros _.
  apply well_bind; [apply well_traced_actions; intros; apply keeps_post_traces|]. intros _. apply well_keeps. auto with pipeline.
Qed.
End Traces.
