(* ===== verification/ApiPipelineTheorems.v ===== *)
(** What the pipeline of an API case guarantees: it ends, its traces tell which
    action failed, and every registered resource is dealt with as its policy
    says. *)
From S2P Require Import Prelude PyText Calendar Json PyJson ScenarioData RunnerValues ScenarioSql PyUrl PyUrlLemmas ScenarioMonad.
From S2P Require Import ScenarioActions ScenarioRun ScenarioEnds.
From S2P Require Import ApiTemplate ApiExecutor ApiRedirects ApiErrors ApiTheorems ApiPipeline ApiPipelineLogic.
Open Scope Z_scope.

(** ** Resources *)

(** Resources as they are registered. *)
Definition fresh (r : Resource) : Prop := rs_status r = R_PENDING /\ rs_attempt_count r = 0 /\ rs_error_code r = None.

(** Whether a cleanup is not to be run after the given outcome. *)
Definition cleanup_skipped (cleanup : fields) (outcome : string) : bool :=
  let policy := get_or cleanup "policy" (JStr (u "ALWAYS")) in
  match get_or cleanup "enabled" (JBool true) with
  | JBool enabled =>
      existsb (equals_text policy) ["ALWAYS"; "ON_SUCCESS"; "ON_FAILURE"; "NEVER"]
      && (negb enabled || equals_text policy "NEVER"
          || equals_text policy "ON_SUCCESS" && negb (bool_decide (outcome = "SUCCESS"))
          || equals_text policy "ON_FAILURE" && bool_decide (outcome = "SUCCESS"))
  | _ => false
  end.

(** A resource before and after its cleanup. *)
Definition cleaned (outcome : string) (r r' : Resource) : Prop :=
  rs_sequence r' = rs_sequence r /\ rs_id r' = rs_id r /\ rs_cleanup r' = rs_cleanup r
  /\ match rs_status r' with
     | R_PENDING => False
     | R_SKIPPED => cleanup_skipped (rs_cleanup r) outcome = true /\ rs_attempt_count r' = 0 /\ rs_error_code r' = None
     | R_CLEANED => cleanup_skipped (rs_cleanup r) outcome = false /\ rs_attempt_count r' = 1 /\ rs_error_code r' = None
     | R_FAILED => cleanup_skipped (rs_cleanup r) outcome = false /\ rs_attempt_count r' = 1 /\ is_Some (rs_error_code r')
     end.

Section Resources.
Context `{Unicode} `{UrlLibrary} {W : Type} `{HttpClient W} `{PipelineLibrary W} (s : Surroundings W) (plan : ApiPlan).
Implicit Types st : PSt W.

(** [fresh] resources stay so until they are cleaned up. *)
Definition stay_fresh st st' : Prop := Forall fresh (ps_resources st) -> Forall fresh (ps_resources st').
#[local] Instance stay_fresh_preorder : PreOrder stay_fresh.
Proof. split; [intros ??; done | intros ???; unfold stay_fresh; auto]. Qed.
Lemma records_fresh {A} (m : P W A) : keeps (same records) m -> keeps stay_fresh m.
Proof. apply keeps_weaken. unfold same, records, stay_fresh. intros st st' [= E _ _]. by rewrite E. Qed.
Lemma keeps_register_fresh action : keeps stay_fresh (register_resource plan action : P W unit).
Proof.
  unfold register_resource, has_extra, current_context, check_context, set_context. keeps_solve.
  all: apply keeps_puts; intros st Hst; apply Forall_app; split; [exact Hst | by apply Forall_singleton].
Qed.
Lemma keeps_post_fresh action r : keeps stay_fresh (apply_post_action s plan action r : P W unit).
Proof.
  unfold apply_post_action. destruct (equals_text _ _); [apply records_fresh, keeps_extractor|].
  destruct (equals_text _ _); [apply records_fresh, keeps_script|].
  destruct (equals_text _ _); [apply keeps_register_fresh|].
  unfold has_extra, current_context, check_context, set_context. keeps_solve.
Qed.
Lemma keeps_traced_fresh phase (m : fields -> P W unit) l : (forall a, keeps stay_fresh (m a)) -> keeps stay_fresh (traced_actions s phase m l).
Proof. intros Hm. unfold traced_actions, traced. apply keeps_each; [apply _|]. intros [i a]. keeps_solve. Qed.
Lemma keeps_authorized_fresh used : keeps stay_fresh (send_authorized s plan used : P W _).
Proof.
  assert (keeps stay_fresh (send_rendered plan : P W _)) as Hs by apply records_fresh, keeps_send_rendered.
  unfold send_authorized. apply keeps_bind; [apply _ | exact Hs |]. intros [x|r]; [auto with pipeline|].
  destruct (_ && _); [|auto with pipeline]. apply keeps_bind; [apply _| |intros _; apply keeps_bind; [apply _ | exact Hs | auto with pipeline]].
  apply keeps_traced_fresh. intros a. apply records_fresh, keeps_get_token.
Qed.
Lemma keeps_target_fresh left used : keeps stay_fresh (target_attempts s plan left used : P W _).
Proof.
  revert used. induction left as [|left IH]; intros used; cbn [target_attempts];
    (apply keeps_bind; [apply _ | apply keeps_authorized_fresh|]); intros [used' answer]; unfold back_off; keeps_solve.
Qed.
Lemma primary_fresh : keeps stay_fresh (primary s plan : P W _).
Proof.
  unfold primary. apply keeps_bind; [apply _ | apply keeps_traced_fresh; intros; apply records_fresh, keeps_pre_action|]. intros _.
  apply keeps_bind; [apply _ | apply keeps_target_fresh|]. intros r.
  apply keeps_bind; [apply _ | apply keeps_traced_fresh; intros; apply records_fresh, keeps_extractor|]. intros _.
  apply keeps_bind; [apply _ | apply keeps_traced_fresh; intros; apply keeps_post_fresh|]. intros _. auto with pipeline.
Qed.

(** ** Cleaning up *)

Lemma member_existsb j names b : member j names = Return b -> b = existsb (equals_text j) names.
Proof.
  unfold member. destruct (hashable j); [|done]. intros [= <-]. destruct j; try (by induction names).
  induction names as [|n names IH]; [done|]. cbn [existsb equals_text]. rewrite <- IH. clear IH.
  destruct (bool_decide_reflect (s0 = u n)) as [->|Hn]; cbn [orb].
  - apply bool_decide_eq_true_2. left.
  - apply bool_decide_ext. cbn. rewrite elem_of_cons. tauto.
Qed.

Lemma run_one_spec cleanup outcome st st' error status :
  run_one_cleanup s plan cleanup outcome st = (st', Val (error, status)) ->
  match status with
  | R_PENDING => False
  | R_SKIPPED => cleanup_skipped cleanup outcome = true /\ error = None
  | R_CLEANED => cleanup_skipped cleanup outcome = false /\ error = None
  | R_FAILED => cleanup_skipped cleanup outcome = false /\ is_Some error
  end.
Proof.
  unfold run_one_cleanup, cleanup_skipped.
  destruct (get_or cleanup "enabled" (JBool true)) as [|enabled| | | | |]; try (intros [= <- <- <-]; by split; [|eexists]).
  unfold mbind, P_bind, lifts, mret, P_ret. destruct (member _ _) as [known|x] eqn:Em; [|done].
  apply member_existsb in Em as ->. destruct (existsb _ _); cbn [negb andb]; [|intros [= <- <- <-]; by split; [|eexists]].
  destruct (_ || _); [by intros [= <- <- <-]|]. unfold attempt.
  destruct (embedding plan _ st) as [st1 [[]|x|]]; intros E; [injection E as _ <- <-; done | injection E as _ <- <-; by split; [|eexists] | done].
Qed.

Lemma after_cleanup_cleaned outcome r error status : fresh r ->
  match status with
  | R_PENDING => False
  | R_SKIPPED => cleanup_skipped (rs_cleanup r) outcome = true /\ error = None
  | R_CLEANED => cleanup_skipped (rs_cleanup r) outcome = false /\ error = None
  | R_FAILED => cleanup_skipped (rs_cleanup r) outcome = false /\ is_Some error
  end -> cleaned outcome r (after_cleanup r error status) /\ (error = None -> status <> R_FAILED).
Proof.
  intros (Hs & Ha & He) Hr. unfold cleaned, after_cleanup. cbn. destruct status; [done| | |].
  - destruct Hr as [Hr ->]. done.
  - destruct Hr as [Hr [x ->]]. done.
  - destruct Hr as [Hr ->]. done.
Qed.

Lemma clean_resource_spec outcome i r st st' error :
  ps_resources st !! i = Some r -> fresh r -> clean_resource s plan outcome i r st = (st', Val error) ->
  exists r', ps_resources st' = <[i := r']> (ps_resources st) /\ cleaned outcome r r' /\ (error = None -> rs_status r' <> R_FAILED).
Proof.
  intros Hi Hf. unfold clean_resource, mbind, P_bind, current_context, asks, set_context, puts, ensuring, update_resource, mret, P_ret. cbn beta iota.
  match goal with |- context [run_one_cleanup s plan (rs_cleanup r) outcome ?st1] =>
    pose proof (keeps_run_one s plan (rs_cleanup r) outcome st1) as Hk;
    destruct (run_one_cleanup s plan (rs_cleanup r) outcome st1) as [st2 [[err status]|x|]] eqn:Er end; [|done|done].
  intros [= <- <-]. cbn. unfold same, records in Hk. cbn in Hk. injection Hk as Hres _ _.
  apply run_one_spec in Er. destruct (after_cleanup_cleaned outcome r err status Hf Er) as [Hc Hn].
  exists (after_cleanup r err status). split; [|done]. rewrite Hres. apply list_eq. intros j.
  destruct (decide (i = j)) as [<-|Hj].
  - rewrite list_lookup_alter_eq, list_lookup_insert_eq by (by eapply lookup_lt_Some). by rewrite Hi.
  - by rewrite list_lookup_alter_ne, list_lookup_insert_ne.
Qed.

Lemma first_of_None a b : first_of a b = None -> a = None /\ b = None.
Proof. by destruct a. Qed.

(** The resources at the listed positions are cleaned up, the others stay. *)
Lemma clean_resources_spec outcome l st first st' error :
  NoDup l.*1 -> (forall i r, (i, r) ∈ l -> ps_resources st !! i = Some r /\ fresh r) ->
  clean_resources s plan outcome l first st = (st', Val error) ->
  (forall i, i ∉ l.*1 -> ps_resources st' !! i = ps_resources st !! i)
  /\ (forall i r, (i, r) ∈ l -> exists r', ps_resources st' !! i = Some r' /\ cleaned outcome r r'
        /\ (error = None -> rs_status r' <> R_FAILED))
  /\ (error = None -> first = None).
Proof.
  revert st first. induction l as [|[i r] l IH]; intros st first Hnd Hl Hc; cbn [clean_resources] in Hc.
  { injection Hc as <- <-. split_and!; [done | by intros ?? ?%elem_of_nil | done]. }
  cbn [fmap list_fmap fst] in Hnd. apply NoDup_cons in Hnd as [Hni Hnd].
  destruct (Hl i r) as [Hi Hf]; [left|]. unfold mbind, P_bind in Hc.
  destruct (clean_resource s plan outcome i r st) as [st1 [e1|x|]] eqn:E1; [|done|done].
  destruct (clean_resource_spec _ _ _ _ _ _ Hi Hf E1) as (r' & Hr' & Hcl & Hn).
  assert (i < length (ps_resources st))%nat as Hlt by (by eapply lookup_lt_Some).
  destruct (IH st1 (first_of first e1) Hnd) as (IH1 & IH2 & IH3); [|exact Hc|].
  { intros j q Hj. destruct (Hl j q) as [H3 H4]; [by right|]. split; [|done]. rewrite Hr', list_lookup_insert_ne; [done|].
    intros ->. apply Hni. apply list_elem_of_fmap. by exists (j, q). }
  split_and!.
  - intros j [Hj1 Hj2]%not_elem_of_cons. rewrite IH1, Hr' by done. by apply list_lookup_insert_ne.
  - intros j q [[= -> ->]|Hj]%elem_of_cons; [|by apply IH2]. exists r'. rewrite IH1, Hr', list_lookup_insert_eq by done.
    split_and!; [done|done|]. intros He. apply Hn. by apply IH3, first_of_None in He as [_ ?].
  - intros He. by apply IH3, first_of_None in He as [? _].
Qed.

Lemma clean_unbound_spec outcome bound l first st st' error :
  clean_unbound s plan outcome bound l first st = (st', Val error) ->
  ps_resources st' = ps_resources st /\ (error = None -> first = None).
Proof.
  revert st first. induction l as [|c l IH]; intros st first Hc; cbn [clean_unbound] in Hc; [by injection Hc as <- <-|].
  destruct (negb _); [done|]. destruct (match get c "cleanup_id" with JStr t => _ | _ => _ end); [by eapply IH|].
  unfold mbind, P_bind in Hc. pose proof (keeps_run_one s plan c outcome st) as Hk.
  destruct (run_one_cleanup s plan c outcome st) as [st1 [[e1 status]|x|]]; [|done|done].
  destruct (IH _ _ Hc) as [-> IH2]. cbn in Hk. injection Hk as Hk _ _. split; [done|]. intros He. by apply IH2, first_of_None in He as [? _].
Qed.

Lemma imap_pair_fst {A} (l : list A) : (imap pair l).*1 = seq 0 (length l).
Proof.
  apply list_eq. intros i. rewrite list_lookup_fmap, list_lookup_imap.
  destruct (l !! i) as [x|] eqn:E; cbn.
  - apply lookup_lt_Some in E. rewrite lookup_seq_lt by done. done.
  - apply lookup_ge_None in E. by rewrite lookup_seq_ge.
Qed.

(** Every resource is cleaned up, or skipped, as its policy says. *)
Lemma cleanups_spec outcome st st' error : Forall fresh (ps_resources st) ->
  run_pipeline_cleanups s plan outcome st = (st', Val error) ->
  Forall2 (fun r r' => cleaned outcome r r' /\ (error = None -> rs_status r' <> R_FAILED)) (ps_resources st) (ps_resources st').
Proof.
  intros Hf. unfold run_pipeline_cleanups, mbind, P_bind, asks. cbn beta iota.
  destruct (clean_resources s plan outcome (reverse (imap pair (ps_resources st))) None st) as [st1 [e1|x|]] eqn:E1; [|done|done].
  intros Hu. apply clean_unbound_spec in Hu as [-> He].
  apply clean_resources_spec in E1 as (H3 & H4 & _).
  2:{ rewrite fmap_reverse, reverse_Permutation, imap_pair_fst. apply NoDup_seq. }
  2:{ intros i r Hi. rewrite elem_of_reverse in Hi. apply elem_of_lookup_imap in Hi as (j & x & [= <- <-] & Hx).
      split; [done|]. by eapply Forall_lookup_1 in Hf. }
  apply Forall2_same_length_lookup_2.
  - assert (forall i, is_Some (ps_resources st !! i) <-> is_Some (ps_resources st1 !! i)) as Hi.
    { intros i. destruct (ps_resources st !! i) as [r|] eqn:E.
      - destruct (H4 i r) as (r' & -> & _); [|done]. rewrite elem_of_reverse. apply elem_of_lookup_imap. eauto.
      - rewrite H3, E; [done|]. rewrite fmap_reverse, elem_of_reverse, imap_pair_fst, elem_of_seq. apply lookup_ge_None in E. lia. }
    destruct (Nat.lt_trichotomy (length (ps_resources st)) (length (ps_resources st1))) as [Hlt|[?|Hlt]]; [exfalso|done|exfalso].
    + apply lookup_lt_is_Some in Hlt. apply Hi, lookup_lt_is_Some in Hlt. lia.
    + apply lookup_lt_is_Some in Hlt. apply Hi, lookup_lt_is_Some in Hlt. lia.
  - intros i r r' Hr Hr'. destruct (H4 i r) as (r2 & E & Hc & Hn).
    { rewrite elem_of_reverse. apply elem_of_lookup_imap. eauto. }
    rewrite Hr' in E. injection E as <-. split; [done|]. intros Hnone. by apply Hn, He.
Qed.

(** C21: How a pipeline treats its resources: if the main part succeeds and the cleanup
    is to wait for the assertions, they are handed over as they were registered;
    otherwise each is cleaned up, or skipped, exactly as its policy says for the
    outcome of the main part - after a failure of it too, which is what the pipeline
    then ends with, traces and retries included.  A pipeline that finishes without
    deferring the cleanup has no resource whose cleanup failed. *)
Theorem pipeline_cleans_up w st e : pipeline_body s plan (initial_pipeline plan w) = (st, Val e) ->
  let '(before, r) := primary s plan (initial_pipeline plan w) in
  match r with
  | Val response =>
      if ap_defer_cleanup plan
      then e = Finished (result_with response (Some (ps_context before)) before) /\ Forall fresh (ps_resources before)
      else Forall2 (cleaned "SUCCESS") (ps_resources before) (ps_resources st)
           /\ (forall result, e = Finished result ->
                 pr_response result = response /\ pr_resources result = ps_resources st
                 /\ Forall (fun r => rs_status r <> R_FAILED) (pr_resources result))
  | Exn x =>
      Forall2 (cleaned (pipeline_outcome (inl x))) (ps_resources before) (ps_resources st)
      /\ e = Broken x (ps_traces st) (ps_retry_count st)
  | Unfinished => False
  end.
Proof.
  intros He. pose proof (primary_fresh (initial_pipeline plan w)) as Hf.
  unfold pipeline_body, attempt in He. unfold mbind at 1, P_bind at 1 in He.
  destruct (primary s plan (initial_pipeline plan w)) as [before [response|x|]]; cbn [fst snd] in *; [| |done].
  - specialize (Hf (Forall_nil_2 _)). destruct (ap_defer_cleanup plan); [injection He as <- <-; done|].
    unfold mbind, P_bind in He. destruct (run_pipeline_cleanups s plan _ before) as [st1 [error|x|]] eqn:Ec; [|done|done].
    apply cleanups_spec in Ec; [|done]. destruct error as [x|]; injection He as <- <-.
    + split; [eapply Forall2_impl; [exact Ec | by intros ?? []] | done].
    + split; [eapply Forall2_impl; [exact Ec | by intros ?? []]|]. intros result [= <-]. split_and!; [done|done|]. cbn.
      eapply Forall2_Forall_r; [exact Ec|]. apply Forall_forall. intros r _ r' [_ Hn]. by apply Hn.
  - specialize (Hf (Forall_nil_2 _)). unfold mbind, P_bind in He.
    destruct (run_pipeline_cleanups s plan _ before) as [st1 [error|y|]] eqn:Ec; [|done|done]. injection He as <- <-.
    apply cleanups_spec in Ec; [|done]. split; [eapply Forall2_impl; [exact Ec | by intros ?? []] | done].
Qed.
End Resources.

(** ** Reports *)

Section Reports.
Context `{Unicode} `{UrlLibrary} {W : Type} `{HttpClient W} `{PipelineLibrary W} (s : Surroundings W) (plan : ApiPlan).

(** What the cleanups do not change. *)
Definition report (st : PSt W) : list ActionTrace * Z := (ps_traces st, ps_retry_count st).
Lemma keeps_cleanups outcome : keeps (same report) (run_pipeline_cleanups s plan outcome : P W _).
Proof.
  assert (forall c, keeps (same report) (run_one_cleanup s plan c outcome : P W _)) as Ho.
  { intros c. eapply keeps_weaken; [|apply keeps_run_one]. unfold same, records, report. congruence. }
  unfold run_pipeline_cleanups. apply keeps_bind; [apply _ | auto with pipeline|]. intros l. apply keeps_bind; [apply _| |].
  - generalize (None : option exn). induction (reverse (imap pair l)) as [|[i r] rest IH]; intros first; cbn [clean_resources]; [auto with pipeline|].
    apply keeps_bind; [apply _| |intros; apply IH]. unfold clean_resource, set_context. apply keeps_bind; [apply _ | auto with pipeline|]. intros c.
    apply keeps_bind; [apply _ | keeps_solve|]. intros _. apply keeps_ensuring; [apply _| |done].
    apply keeps_bind; [apply _ | apply Ho|]. intros [e status]. unfold update_resource. keeps_solve.
  - intros first. revert first. induction (reverse (ap_cleanups plan)) as [|c rest IH]; intros first; cbn [clean_unbound]; [auto with pipeline|].
    destruct (negb _); [auto with pipeline|]. destruct (match get c "cleanup_id" with JStr t => _ | _ => _ end); [apply IH|].
    apply keeps_bind; [apply _ | apply Ho|]. intros [e status]. apply IH.
Qed.

Abbreviation max_retries := (rp_max_retries (at_retry_policy (ap_request plan))).

(** The traces and retries a pipeline ends with. *)
Definition report_sound (e : PipelineEnd) : Prop :=
  match e with
  | Finished r => no_failure (pr_traces r) /\ 0 <= pr_retry_count r <= Z.max 0 max_retries
  | Broken x traces n => (no_failure traces \/ failed_last (W := W) x traces) /\ 0 <= n <= Z.max 0 max_retries
  end.

Definition reported (r : PSt W * res PipelineEnd) : Prop :=
  r.2 <> Unfinished /\ (forall e, r.2 = Val e -> report_sound e).
Lemma execute_pipeline_report w : reported (execute_pipeline s plan w).
Proof.
  pose proof (primary_retries s plan (initial_pipeline plan w) eq_refl) as [Hf Hr].
  pose proof (well_primary s plan (initial_pipeline plan w) (Forall_nil_2 _)) as Ht.
  unfold execute_pipeline, pipeline_body, attempt. unfold mbind at 1, P_bind at 1. unfold traces_sound in Ht.
  destruct (primary s plan (initial_pipeline plan w)) as [before [response|x|]]; cbn [fst snd initial_pipeline ps_retry_count] in *; [| |done].
  - destruct (ap_defer_cleanup plan); [split; [done|]; intros e E; injection E as <-; cbn in *; split; [exact Ht | lia]|]. unfold mbind, P_bind.
    pose proof (finishes_cleanups s plan "SUCCESS" before) as Hc. pose proof (keeps_cleanups "SUCCESS" before) as Hk. cbn [pipeline_outcome].
    destruct (run_pipeline_cleanups s plan "SUCCESS" before) as [st1 [[x|]|x|]]; cbn [fst snd] in *; [| | |done].
    + split; [done|]. intros e E; injection E as <-. split; [left; constructor | lia].
    + split; [done|]. intros e E; injection E as <-. injection Hk as Hk1 Hk2. cbn. rewrite Hk1, Hk2. done.
    + split; [done|]. intros e E; injection E as <-. split; [left; constructor | lia].
  - unfold mbind, P_bind.
    match goal with |- context [run_pipeline_cleanups s plan ?o before] =>
      pose proof (finishes_cleanups s plan o before) as Hc; pose proof (keeps_cleanups o before) as Hk;
      destruct (run_pipeline_cleanups s plan o before) as [st1 [error|y|]] end; cbn [fst snd] in *; [| |done].
    + split; [done|]. intros e E; injection E as <-. injection Hk as Hk1 Hk2. cbn. rewrite Hk1, Hk2. done.
    + split; [done|]. intros e E; injection E as <-. split; [left; constructor | lia].
Qed.

End Reports.

Section Worker.
Context `{Unicode} `{UrlLibrary} {W : Type} `{HttpClient W} `{PipelineLibrary W} (s : Surroundings W).

(** The worker process of an API case always sends an outcome: the request, the
    pipeline and the cleanup end, whatever the target, the database and the scripts
    do. *)
Theorem api_worker_answers same_revision task (w : W) : exists outcome, api_task_worker s same_revision task w = Some outcome.
Proof.
  unfold api_task_worker. destruct (negb same_revision); [by eexists|]. destruct task as [t|plan|plan task].
  - by eexists.
  - pose proof (execute_pipeline_report s plan w) as [Hf _].
    destruct (execute_pipeline s plan w).2 as [[r|x traces n]|x|]; [by eexists..|done].
  - unfold execute_pipeline_cleanup. match goal with |- context [mbind ?k ?m ?st] => assert ((mbind k m st).2 <> Unfinished) as Hf end.
    { apply finishes_bind; [apply finishes_lifts|]. intros _. apply finishes_bind; [apply finishes_cleanups|]. intros [x|]; auto with pipeline. }
    match goal with |- context [mbind ?k ?m ?st] => destruct (mbind k m st).2 end; [by eexists..|done].
Qed.
End Worker.

(** ** Examples *)

Module PipelineDemo.
Import ScenarioDemo.
#[local] Instance plain_urls : UrlLibrary := { nfkc s := s; bracketed_netloc _ := true }.

(** A target that creates orders; whether it deletes them again is [deletes]. *)
Definition target (deletes : bool) : HttpClient world := {|
  http_clock w := (0, w);
  http_send q w :=
    (inr {| hr_status_code := if decide (rq_method q = u "DELETE") then (if deletes then 204 else 500) else 201;
            hr_headers := []; hr_cookies := inr []; hr_encoding := None;
            hr_content := Loaded (if decide (rq_method q = u "DELETE") then [] else json_dumps (JDict [(u "id", JInt 7)])) |}, w);
  http_close _ w := w;
  has_send := true;
  query_text _ := [];
  decode_with _ _ := inl UnknownCodec;
|}.
#[local] Instance zero : PipelineLibrary world := { draw _ _ w := (0, w); class_name _ := u "ERROR" }.

Definition request : ApiRequestTemplate :=
  {| at_method := u "POST"; at_url := u "http://a.test/orders"; at_query_params := []; at_headers := []; at_cookies := [];
     at_body := {| rb_type := B_NONE; rb_content := JNull; rb_content_type := None |};
     at_auth := {| ra_type := A_NONE; ra_token := None; ra_username := None; ra_password := None; ra_key_name := None;
                   ra_key_value := None; ra_placement := HEADER_ |};
     at_timeout_ms := 1000; at_follow_redirects := true; at_retry_policy := no_retry |}.
Definition delete_order (policy : string) : fields :=
  [(u "cleanup_type", JStr (u "API")); (u "method", JStr (u "DELETE")); (u "url", JStr (u "http://a.test/orders/{{resource_id}}"));
   (u "policy", JStr (u policy)); (u "enabled", JBool true)].
Definition plan (policy : string) : ApiPlan :=
  {| ap_request := request; ap_initial_context := []; ap_pre_actions := [[(u "name", JStr (u "kind")); (u "value", JStr (u "order"))]];
     ap_extractors := [[(u "name", JStr (u "order_id")); (u "source", JStr (u "JSONPATH")); (u "expression", JStr (u "$.id"))]];
     ap_post_actions := [[(u "type", JStr (u "REGISTER_RESOURCE")); (u "name", JStr (u "order")); (u "resource_type", JStr (u "order"));
                          (u "value", JStr (u "{{order_id}}")); (u "cleanup", JDict (delete_order policy))]];
     ap_sql_connections := []; ap_secrets := []; ap_cleanups := []; ap_defer_cleanup := false |}.

Definition run_demo (deletes : bool) (policy : string) : PSt world * res PipelineEnd :=
  execute_pipeline (H1 := target deletes) demo_surroundings (plan policy) (start_world []).

(** The order is deleted. *)
Example demo_cleaned :
  (fun r => (rs_id r, rs_status r, rs_attempt_count r)) <$> ps_resources (run_demo true "ALWAYS").1 = [(u "7", R_CLEANED, 1)].
Proof. vm_compute. reflexivity. Qed.
(** It is kept after a success. *)
Example demo_skipped :
  (fun r => (rs_id r, rs_status r, rs_attempt_count r)) <$> ps_resources (run_demo true "ON_FAILURE").1 = [(u "7", R_SKIPPED, 0)].
Proof. vm_compute. reflexivity. Qed.

(** When a cleanup fails after a successful main part, the exception says nothing of
    the actions: the traces of the three actions are lost on the way to the worker,
    as is the resource that is left behind. *)
Example failed_cleanup_loses_traces :
  api_task_worker (H1 := target false) demo_surroundings true (RunPlan (plan "ALWAYS")) (start_world [])
  = Some (API_EXECUTION_ERROR HTTP_5XX [] 0)
  /\ length (ps_traces (run_demo false "ALWAYS").1) = 3%nat
  /\ rs_status <$> ps_resources (run_demo false "ALWAYS").1 = [R_FAILED].
Proof. vm_compute. done. Qed.

Definition demo_state : PSt world :=
  Eval vm_compute in (pipeline_body (H1 := target true) demo_surroundings (plan "ALWAYS") (initial_pipeline (plan "ALWAYS") (start_world []))).1.
Definition no_end : PipelineEnd := Broken (Py OtherException) [] 0.
Definition demo_end : PipelineEnd :=
  Eval vm_compute in
    match (pipeline_body (H1 := target true) demo_surroundings (plan "ALWAYS") (initial_pipeline (plan "ALWAYS") (start_world []))).2 with
    | Val e => e | _ => no_end
    end.

Lemma pipeline_cleans_up_witness :
  let '(before, r) := primary (H1 := target true) demo_surroundings (plan "ALWAYS") (initial_pipeline (plan "ALWAYS") (start_world [])) in
  match r with
  | Val response =>
      if ap_defer_cleanup (plan "ALWAYS")
      then demo_end = Finished (result_with response (Some (ps_context before)) before) /\ Forall fresh (ps_resources before)
      else Forall2 (cleaned "SUCCESS") (ps_resources before) (ps_resources demo_state)
           /\ (forall result, demo_end = Finished result ->
                 pr_response result = response /\ pr_resources result = ps_resources demo_state
                 /\ Forall (fun r => rs_status r <> R_FAILED) (pr_resources result))
  | Exn x =>
      Forall2 (cleaned (pipeline_outcome (inl x))) (ps_resources before) (ps_resources demo_state)
      /\ demo_end = Broken x (ps_traces demo_state) (ps_retry_count demo_state)
  | Unfinished => False
  end.
Proof.
  apply (pipeline_cleans_up (H1 := target true) demo_surroundings (plan "ALWAYS") (start_world []) demo_state demo_end).
  vm_compute. reflexivity.
Defined.

End PipelineDemo.
