(* ===== verification/ApiConsumer.v ===== *)
(** The runner's consumption of API tasks ([runner/consumer.py]): from the body of a
    delivery to its acknowledgement, with the claim, the plan, the isolated process
    and its watch, the retries, the deferred cleanup and the report of the result.
    The client, the clock, the child process, the stop event and the slots are a
    world the consumer acts on; what it does to the broker and to its processes is
    logged.  The other paths of the consumer build on the same world.  Times are exact
    numbers of microseconds; the texts of error messages are constants and are not
    modelled. *)
From S2P Require Import Prelude PyText Calendar Json PyJson RunData RunDispatch ScenarioData RunnerValues ScenarioSql PyUrl.
From S2P Require Import ScenarioActions ScenarioProtocol ApiTemplate ApiExecutor ApiPipeline Envelope.
Open Scope Z_scope.

(** ** Data *)

Inductive Report := HTTP_RESPONSE_ | EXECUTION_ERROR_ | TIMEOUT_ | CANCELLED_.
#[global] Instance Report_eq_dec : EqDecision Report.
Proof. solve_decision. Defined.
Definition report_value (r : Report) : pytext :=
  match r with
  | HTTP_RESPONSE_ => u "HTTP_RESPONSE" | EXECUTION_ERROR_ => u "EXECUTION_ERROR"
  | TIMEOUT_ => u "TIMEOUT" | CANCELLED_ => u "CANCELLED"
  end.

(** The [completion_kwargs] of [execution_complete]; [kw_cleanup] is
    [_cleanup_context], there when [_cleanup_pending] is set. *)
Record Kwargs := {
  kw_outcome : Report;
  kw_response : option ScenarioData.ApiExecutionResult;
  kw_error_type : option pytext;
  kw_retry_count : Z;
  kw_resources : option (list Resource);
  kw_traces : list ActionTrace;
  kw_cleanup : option fields;
  kw_token : option string;
}.

(** [ExecutionPlanResult]. *)
Record TaskPlan := { tk_case_run_id : Z; tk_plan : ApiPlan; tk_total_timeout_ms : Z }.
(** [has_pipeline]. *)
Definition has_pipeline (p : ApiPlan) : bool :=
  negb (bool_decide (ap_pre_actions p = [] /\ ap_extractors p = [] /\ ap_post_actions p = [] /\ ap_cleanups p = [])).

Record StartAnswer := { st_status : pytext; st_started_at : option Z }.
Record ControlAnswer := { ct_cancellation_requested : bool; ct_force_stop_requested : bool }.
Inductive Control := FORCE_STOP | CANCEL.
Record EvaluationAnswer := { el_cleanup_outcome : string; el_token : string }.

(** The check [execution_complete] of the client makes of the back end's answer to a
    report; [sent] is the outcome it reported. *)
Definition completion_accepted (sent : Report) (a : CompleteAnswer) : bool :=
  let outcome := ca_outcome a in
  (bool_decide (outcome = report_value sent)
   || bool_decide (outcome = u "CANCELLED") && negb (bool_decide (sent = CANCELLED_)))
  && (if decide (outcome = u "TIMEOUT")
      then bool_decide (ca_run_status a ∈ [u "RUNNING"; u "TIMEOUT"]) && bool_decide (ca_case_run_status a = u "TIMEOUT")
      else if decide (outcome = u "CANCELLED")
      then bool_decide (ca_run_status a = u "CANCELLED") && bool_decide (ca_case_run_status a = u "CANCELLED")
      else bool_decide (ca_run_status a ∈ [u "RUNNING"; u "SUCCESS"; u "FAILED"; u "TIMEOUT"])
           && bool_decide (ca_case_run_status a ∈ [u "SUCCESS"; u "FAILED"; u "REVIEW"])).

(** What an inline execution or an operation of the child process raises. *)
Inductive task_exn :=
  | Interrupted
  | RaisedTimeout (traces : list ActionTrace)
  | RaisedError (error_type : pytext) (traces : list ActionTrace)
  | RaisedAuthentication | RaisedTransport | RaisedRunner
  | RaisedOther.

(** What the back end answers to the completion of a recording or an exploration. *)
Record TaskAnswer := { ta_outcome : pytext; ta_status : pytext }.

(** The results of load tests by run and message. *)
Definition CacheKey : Type := pytext * pytext.
Definition ResultCache : Type := gmap CacheKey json.

(** What the consumer does that others see. *)
Inductive event :=
  | Ack | Nack | Reject | StopConsuming
  | Started | CancelRequested | StopRequested | Killed | Closed
  | Reported_ (case_run_id : Z) (kw : Kwargs) (a : answer CompleteAnswer)
  | ReportedRun (case_run_id : Z) (outcome : pytext) (a : answer CompleteAnswer)
  | ReportedTask (outcome : pytext) (a : answer TaskAnswer)
  | LoadStarted (key : CacheKey) | Measured (key : CacheKey) (result : json)
  | ReportedLoad (case_run_id : Z) (a : answer pytext)
  | ClaimedAs (status : pytext)
  | TaskClaimedAs (status : pytext) (idempotent : bool)
  | Acquired | Released.

(** The methods of the client, the child process, the clock, the stop event and the
    slots; [w_request_cancel] answers whether the process took the request. *)
Class ConsumerWorld (W : Type) := {
  w_clock : W -> Z * W;
  w_claim : RunTaskEnvelopeV1 -> W -> answer pytext * W;
  w_plan : RunTaskEnvelopeV1 -> W -> answer TaskPlan * W;
  w_start : RunTaskEnvelopeV1 -> Z -> W -> answer StartAnswer * W;
  w_control : RunTaskEnvelopeV1 -> Z -> W -> answer ControlAnswer * W;
  w_evaluate : RunTaskEnvelopeV1 -> Z -> ScenarioData.ApiExecutionResult -> W -> answer EvaluationAnswer * W;
  w_complete : RunTaskEnvelopeV1 -> Z -> Kwargs -> W -> answer CompleteAnswer * W;
  w_inline : ApiTask -> W -> (task_exn + ApiOutcome) * W;
  w_create : ApiTask -> W -> (task_exn + unit) * W;
  w_spawn : W -> (task_exn + unit) * W;
  w_is_alive : W -> bool * W;
  w_poll : W -> (task_exn + bool) * W;
  w_outcome : W -> option ApiOutcome * W;
  w_request_cancel : W -> bool * W;
  w_terminate : W -> W;
  w_close : W -> W;
  w_sleep : Z -> W -> W;
  w_stop_is_set : W -> bool * W;
  w_stop_wait : Z -> W -> bool * W;
  w_stop_set : W -> W;
  w_try_acquire : pytext -> W -> bool * W;
  w_release : W -> W;
}.

(** The settings of a consumer. *)
Record ConsumerSettings := {
  has_executor : bool;
  has_isolation : bool;
  has_stop_event : bool;
  has_slot_state : bool;
  has_performance_isolation : bool;
  has_result_store : bool;
  force_stop_poll : Z;
  scenario_cancel_wait : Z;
}.

(** ** The monad *)

(** The world, the consumer's own [_performance_result_cache], and the log. *)
Record Cs (W : Type) := { cs_world : W; cs_cache : ResultCache; cs_log : list event }.
Arguments Build_Cs {W}.
Arguments cs_world {W}.
Arguments cs_cache {W}.
Arguments cs_log {W}.

(** A method returns, raises an exception its callers may catch, or is still
    running. *)
Inductive ends (A : Type) := Done (a : A) | Raises (x : task_exn) | Running.
Arguments Done {A}.
Arguments Raises {A}.
Arguments Running {A}.

Definition M (W A : Type) : Type := Cs W -> Cs W * ends A.
#[global] Instance M_ret W : MRet (M W) := fun A a s => (s, Done a).
#[global] Instance M_bind W : MBind (M W) := fun A B k m s =>
  match m s with
  | (s', Done a) => k a s'
  | (s', Raises x) => (s', Raises x)
  | (s', Running) => (s', Running)
  end.

Section Consumer.
Context {W : Type} `{ConsumerWorld W} (cfg : ConsumerSettings).

Definition log (e : event) : M W unit := fun s => (Build_Cs (cs_world s) (cs_cache s) (cs_log s ++ [e]), Done tt).
Definition world {A} (f : W -> A * W) : M W A := fun s =>
  let '(a, w) := f (cs_world s) in (Build_Cs w (cs_cache s) (cs_log s), Done a).
Definition world_ (f : W -> W) : M W unit := world (fun w => (tt, f w)).
Definition raises {A} (x : task_exn) : M W A := fun s => (s, Raises x).
Definition still_running {A} : M W A := fun s => (s, Running).
Definition or_raise {A} (r : task_exn + A) : M W A := match r with inl x => raises x | inr a => mret a end.
(** [try: m except ...: h], and [try: m finally: f]. *)
Definition catch {A} (m : M W A) (h : task_exn -> M W A) : M W A := fun s =>
  match m s with (s', Raises x) => h x s' | r => r end.
Definition finally {A} (m : M W A) (f : M W unit) : M W A := fun s =>
  match m s with (s', Running) => (s', Running) | (s', r) => ((f s').1, r) end.

(** ** Disposing of a delivery *)

(** [basic_ack], [_nack], [_reject], and [_reject] with [_stop_consuming]. *)
Definition dispose (o : ConsumeOutcome) : M W ConsumeOutcome :=
  _ ← match o with
      | ACKED => log Ack
      | REQUEUED => log Nack
      | REJECTED => log Reject
      | STOPPED_AUTH => _ ← log Reject; log StopConsuming
      end;
  mret o.

(** The [except] clauses around a call of the client; [unknown] is what becomes of
    the delivery after an exception that is none of the runner's. *)
Definition answered {A} (unknown : ConsumeOutcome) (a : answer A) : M W (ConsumeOutcome + A) :=
  let turn_away o := o ← dispose o; mret (inl o) in
  match a with
  | Answer v => mret (inr v)
  | AuthenticationFailed => turn_away STOPPED_AUTH
  | TransportFailed => turn_away REQUEUED
  | RunnerFailed => turn_away REJECTED
  | UnknownFailure => turn_away unknown
  end.

(** A report to the back end and its [except] clauses. *)
Definition tell {A} (report : W -> answer A * W) (e : answer A -> event) : M W (ConsumeOutcome + A) :=
  a ← world report;
  _ ← log (e a);
  answered REQUEUED a.

(** A child process: created, started, watched by [body], and closed. *)
Definition with_process {A} (create : W -> (task_exn + unit) * W) (body : M W A) : M W A :=
  created ← world create;
  _ ← or_raise created;
  finally
    (r ← world w_spawn;
     _ ← or_raise r;
     _ ← log Started;
     body)
    (_ ← world_ w_close; log Closed).

(** [_complete_disposition]. *)
Definition valid_statuses (outcome : pytext) : list pytext :=
  if decide (outcome = u "TIMEOUT") then [u "TIMEOUT"]
  else if decide (outcome = u "CANCELLED") then [u "CANCELLED"]
  else if decide (outcome ∈ [u "HTTP_RESPONSE"; u "EXECUTION_ERROR"]) then [u "SUCCESS"; u "FAILED"; u "REVIEW"]
  else [].
Definition confirms (a : CompleteAnswer) : bool :=
  bool_decide (ca_run_status a ∈ valid_statuses (ca_outcome a) /\ ca_run_status a <> u "REVIEW")
  && bool_decide (ca_case_run_status a ∈ valid_statuses (ca_outcome a)).
Definition complete_disposition (a : CompleteAnswer) : M W ConsumeOutcome :=
  dispose (if confirms a then ACKED else REJECTED).

Section Task.
Context (envelope : RunTaskEnvelopeV1).

(** [execution_complete] and its [except] clauses. *)
Definition execution_complete (case_run_id : Z) (kw : Kwargs) : M W (ConsumeOutcome + CompleteAnswer) :=
  tell (w_complete envelope case_run_id kw) (Reported_ case_run_id kw).

(** [_complete_total_timeout], [_complete_execution_error] and [_complete_cancelled]
    report their keyword arguments. *)
Definition report (case_run_id : Z) (kw : Kwargs) : M W ConsumeOutcome :=
  r ← execution_complete case_run_id kw;
  match r with inl o => mret o | inr a => complete_disposition a end.
Definition failure_kwargs (outcome : Report) (error_type : pytext) (retry_count : Z) (resources : option (list Resource)) : Kwargs :=
  {| kw_outcome := outcome; kw_response := None; kw_error_type := Some error_type; kw_retry_count := retry_count;
     kw_resources := resources; kw_traces := []; kw_cleanup := None; kw_token := None |}.
Definition complete_total_timeout (case_run_id retry_count : Z) : M W ConsumeOutcome :=
  report case_run_id (failure_kwargs TIMEOUT_ (u "TOTAL_TIMEOUT") retry_count None).
Definition complete_execution_error (case_run_id : Z) (error_type : pytext) (retry_count : Z) : M W ConsumeOutcome :=
  report case_run_id (failure_kwargs EXECUTION_ERROR_ error_type retry_count None).
Definition complete_cancelled (case_run_id retry_count : Z) (error_type : pytext) (resources : option (list Resource))
  : M W ConsumeOutcome :=
  report case_run_id (failure_kwargs CANCELLED_ error_type retry_count resources).
(** [_complete_control_result]. *)
Definition complete_control_result (case_run_id : Z) (control : Control) (retry_count : Z) (resources : option (list Resource))
  : M W ConsumeOutcome :=
  complete_cancelled case_run_id retry_count
    (match control with FORCE_STOP => u "FORCE_STOP_REQUESTED" | CANCEL => u "CANCEL_REQUESTED" end) resources.

(** [_check_control] over [_check_control_state]. *)
Definition check_control (case_run_id : Z) : M W (ConsumeOutcome + option Control) :=
  a ← world (w_control envelope case_run_id);
  r ← answered REJECTED a;
  match r with
  | inl o => mret (inl o)
  | inr c => mret (inr (if ct_force_stop_requested c then Some FORCE_STOP
                        else if ct_cancellation_requested c then Some CANCEL else None))
  end.

(** ** The isolated process *)

(** What [_execute_isolated] returns besides a failed control check. *)
Inductive IsoEnd := Sent (o : ApiOutcome) | ForceStopped | TotalTimeout.

(** [deadline is not None and self._clock() >= deadline]. *)
Definition past (deadline : option Z) : M W bool :=
  match deadline with None => mret false | Some d => now ← world w_clock; mret (bool_decide (d <= now)) end.

(** [process.terminate()] and [process.join()]. *)
Definition kill : M W unit := _ ← world_ w_terminate; log Killed.

Definition aborted : ApiOutcome := API_EXECUTION_ERROR EXECUTOR_ERROR [] 0.

(** After the loop of [_execute_isolated]. *)
Definition collect (deadline : option Z) : M W (ConsumeOutcome + IsoEnd) :=
  r ← world w_poll;
  _ ← or_raise r;
  o ← world w_outcome;
  match o with
  | Some o => mret (inr (Sent o))
  | None => late ← past deadline; mret (inr (if late : bool then TotalTimeout else Sent aborted))
  end.

(** The loop of [_execute_isolated]; [last] is [last_force_check]. *)
Fixpoint watch (fuel : nat) (case_run_id : Z) (deadline : option Z) (last : Z) : M W (ConsumeOutcome + IsoEnd) :=
  match fuel with
  | O => still_running
  | S fuel' =>
      alive ← world w_is_alive;
      if negb alive then collect deadline
      else
        r ← world w_poll;
        ready ← or_raise r;
        if ready : bool then collect deadline
        else
          now ← world w_clock;
          let go_on last :=
            late ← past deadline;
            if late : bool then _ ← kill; mret (inr TotalTimeout) else watch fuel' case_run_id deadline last in
          if decide (force_stop_poll cfg <= now - last) then
            c ← check_control case_run_id;
            match c with
            | inl o => _ ← kill; mret (inl o)
            | inr (Some FORCE_STOP) => _ ← kill; mret (inr ForceStopped)
            | inr _ => go_on now
            end
          else go_on last
  end.

(** [_execute_isolated]. *)
Definition execute_isolated (fuel : nat) (case_run_id : Z) (task : ApiTask) (deadline : option Z)
  : M W (ConsumeOutcome + IsoEnd) :=
  if has_isolation cfg then
    with_process (w_create task) (watch fuel case_run_id deadline 0)
  else
    _ ← (if has_executor cfg then mret tt else raises RaisedOther);
    r ← world (w_inline task);
    o ← or_raise r;
    mret (inr (Sent o)).

(** ** Retries *)

(** [_completion_kwargs_from_outcome]. *)
Definition completion_kwargs (o : ApiOutcome) : Kwargs :=
  let broken outcome error_type retry_count traces :=
    {| kw_outcome := outcome; kw_response := None; kw_error_type := Some error_type; kw_retry_count := retry_count;
       kw_resources := None; kw_traces := traces; kw_cleanup := None; kw_token := None |} in
  match o with
  | HTTP_RESPONSE r =>
      {| kw_outcome := HTTP_RESPONSE_; kw_response := Some r; kw_error_type := None; kw_retry_count := 0;
         kw_resources := None; kw_traces := []; kw_cleanup := None; kw_token := None |}
  | API_PIPELINE_RESULT r =>
      {| kw_outcome := HTTP_RESPONSE_; kw_response := Some (pr_response r); kw_error_type := None;
         kw_retry_count := pr_retry_count r; kw_resources := Some (pr_resources r); kw_traces := pr_traces r;
         kw_cleanup := pr_cleanup_context r; kw_token := None |}
  | API_TARGET_TIMEOUT traces n => broken TIMEOUT_ (u "TARGET_TIMEOUT") n traces
  | API_TARGET_NETWORK_ERROR traces n => broken EXECUTION_ERROR_ (u "TARGET_NETWORK_ERROR") n traces
  | API_EXECUTION_ERROR t traces n => broken EXECUTION_ERROR_ (or_executor_error t) n traces
  | API_CLEANUP_RESULT _ => broken EXECUTION_ERROR_ EXECUTOR_ERROR 0 []
  end.

(** The [except] clauses of [_execute_with_retries]. *)
Definition raised_kwargs (x : task_exn) : Kwargs :=
  let broken outcome error_type traces :=
    {| kw_outcome := outcome; kw_response := None; kw_error_type := Some error_type; kw_retry_count := 0;
       kw_resources := None; kw_traces := traces; kw_cleanup := None; kw_token := None |} in
  match x with
  | Interrupted => broken EXECUTION_ERROR_ (u "EXECUTOR_INTERRUPTED") []
  | RaisedTimeout traces => broken TIMEOUT_ (u "TARGET_TIMEOUT") traces
  | RaisedError t traces => broken EXECUTION_ERROR_ t traces
  | _ => broken EXECUTION_ERROR_ EXECUTOR_ERROR []
  end.

Definition with_retry_count (kw : Kwargs) (n : Z) : Kwargs :=
  {| kw_outcome := kw_outcome kw; kw_response := kw_response kw; kw_error_type := kw_error_type kw; kw_retry_count := n;
     kw_resources := kw_resources kw; kw_traces := kw_traces kw; kw_cleanup := kw_cleanup kw; kw_token := kw_token kw |}.

(** [_retry_reason]. *)
Definition retry_reason (kw : Kwargs) : option pytext :=
  if match kw_response kw with Some r => (500 <=? ar_status_code r) && (ar_status_code r <=? 599) | None => false end
  then Some (u "HTTP_5XX")
  else if decide (kw_outcome kw = TIMEOUT_) then Some (u "TARGET_TIMEOUT")
  else if decide (kw_outcome kw = EXECUTION_ERROR_ /\ kw_error_type kw = Some (u "TARGET_NETWORK_ERROR"))
  then Some (u "TARGET_NETWORK_ERROR")
  else None.

(** One attempt of [_execute_with_retries]. *)
Definition attempt_once (fuel : nat) (case_run_id : Z) (task : ApiTask) (deadline : option Z) (retry_count : Z)
  : M W (ConsumeOutcome + Kwargs) :=
  catch
    (_ ← (if has_executor cfg then mret tt else raises RaisedOther);
     r ← execute_isolated fuel case_run_id task deadline;
     match r with
     | inl o => mret (inl o)
     | inr ForceStopped =>
         o ← complete_cancelled case_run_id retry_count (u "FORCE_STOP_REQUESTED") None; mret (inl o)
     | inr TotalTimeout => o ← complete_total_timeout case_run_id retry_count; mret (inl o)
     | inr (Sent outcome) =>
         late ← past deadline;
         if late : bool then o ← complete_total_timeout case_run_id retry_count; mret (inl o)
         else mret (inr (completion_kwargs outcome))
     end)
    (fun x =>
       _ ← match x with Interrupted => if has_stop_event cfg then world_ w_stop_set else mret tt | _ => mret tt end;
       mret (inr (raised_kwargs x))).

(** The loop of [_wait_retry_with_control] with a stop event. *)
Fixpoint wait_loop (fuel : nat) (case_run_id : Z) (deadline : option Z) (retry_count remaining : Z)
  : M W (ConsumeOutcome + (bool * option Control)) :=
  match fuel with
  | O => still_running
  | S fuel' =>
      let timeout := o ← complete_total_timeout case_run_id retry_count; mret (inl o) in
      let after step :=
        stopped ← world (w_stop_wait step);
        if stopped : bool then mret (inr (true, None))
        else
          late ← past deadline;
          if late : bool then timeout
          else
            c ← check_control case_run_id;
            match c with
            | inl o => mret (inl o)
            | inr (Some control) => mret (inr (true, Some control))
            | inr None =>
                if decide (remaining - step <= 0) then mret (inr (false, None))
                else wait_loop fuel' case_run_id deadline retry_count (remaining - step)
            end in
      match deadline with
      | None => after (Z.min 500000 remaining)
      | Some d =>
          now ← world w_clock;
          if decide (d - now <= 0) then timeout else after (Z.min (Z.min 500000 remaining) (d - now))
      end
  end.

(** [_wait_retry_with_control]: whether to stop retrying, and the control found. *)
Definition wait_retry_with_control (fuel : nat) (case_run_id : Z) (policy : RetryPolicy) (deadline : option Z) (retry_count : Z)
  : M W (ConsumeOutcome + (bool * option Control)) :=
  let timeout := o ← complete_total_timeout case_run_id retry_count; mret (inl o) in
  let checked :=
    c ← check_control case_run_id;
    mret (match c with inl o => inl o | inr control => inr (false, control) end) in
  let delay_ms := Z.min 30000 (rp_backoff_ms policy * 2 ^ retry_count) in
  if decide (delay_ms <= 0) then
    late ← past deadline;
    if late : bool then timeout
    else
      stopped ← (if has_stop_event cfg then world w_stop_is_set else mret false);
      if stopped : bool then mret (inr (true, None)) else checked
  else if has_stop_event cfg then wait_loop fuel case_run_id deadline retry_count (delay_ms * 1000)
  else
    let sleep_then_check step :=
      _ ← world_ (w_sleep step);
      late ← past deadline;
      if late : bool then timeout else checked in
    match deadline with
    | None => sleep_then_check (delay_ms * 1000)
    | Some d =>
        now ← world w_clock;
        if decide (d - now <= 0) then timeout else sleep_then_check (Z.min (delay_ms * 1000) (d - now))
    end.

(** The loop of [_execute_with_retries]; [left] is how many retries the policy still
    allows. *)
Fixpoint retry_loop (fuel left : nat) (case_run_id : Z) (task : ApiTask) (policy : RetryPolicy) (deadline : option Z)
    (retry_count : Z) : M W (ConsumeOutcome + Kwargs) :=
  late ← past deadline;
  if late : bool then o ← complete_total_timeout case_run_id retry_count; mret (inl o)
  else
    r ← attempt_once fuel case_run_id task deadline retry_count;
    match r with
    | inl o => mret (inl o)
    | inr kw =>
        match left, retry_reason kw with
        | S left', Some reason =>
            if decide (reason ∈ rp_retry_on policy) then
              c ← check_control case_run_id;
              match c with
              | inl o => mret (inl o)
              | inr (Some control) => o ← complete_control_result case_run_id control retry_count None; mret (inl o)
              | inr None =>
                  w ← wait_retry_with_control fuel case_run_id policy deadline retry_count;
                  match w with
                  | inl o => mret (inl o)
                  | inr (_, Some control) => o ← complete_control_result case_run_id control retry_count None; mret (inl o)
                  | inr (true, None) => mret (inr (with_retry_count kw retry_count))
                  | inr (false, None) => retry_loop fuel left' case_run_id task policy deadline (retry_count + 1)
                  end
              end
            else mret (inr (with_retry_count kw (Z.min 3 (retry_count + kw_retry_count kw))))
        | _, _ => mret (inr (with_retry_count kw (Z.min 3 (retry_count + kw_retry_count kw))))
        end
    end.

(** [_execute_with_retries]. *)
Definition execute_with_retries (fuel : nat) (case_run_id : Z) (task : ApiTask) (policy : RetryPolicy) (deadline : option Z)
  : M W (ConsumeOutcome + Kwargs) :=
  match validate_retry_policy policy with
  | Raise _ => o ← dispose REJECTED; mret (inl o)
  | Return _ => retry_loop fuel (Z.to_nat (rp_max_retries policy)) case_run_id task policy deadline 0
  end.

(** [_execute_deferred_cleanup]. *)
Definition execute_deferred_cleanup (fuel : nat) (plan : TaskPlan) (context : fields) (resources : list Resource)
    (outcome : string) (deadline : option Z) : M W (ConsumeOutcome + list Resource) :=
  let case_run_id := tk_case_run_id plan in
  let task := RunCleanup (tk_plan plan) {| pt_context := context; pt_resources := resources; pt_outcome := outcome |} in
  r ← execute_isolated fuel case_run_id task deadline;
  match r with
  | inl o => mret (inl o)
  | inr ForceStopped => o ← complete_cancelled case_run_id 0 (u "FORCE_STOP_REQUESTED") None; mret (inl o)
  | inr TotalTimeout => o ← complete_total_timeout case_run_id 0; mret (inl o)
  | inr (Sent (API_CLEANUP_RESULT resources')) => mret (inr resources')
  | inr (Sent _) => o ← complete_execution_error case_run_id (u "CLEANUP_EXECUTION_ERROR") 0; mret (inl o)
  end.

(** ** One delivery *)

Definition with_cleanup (kw : Kwargs) (resources : list Resource) (token : option string) : Kwargs :=
  {| kw_outcome := kw_outcome kw; kw_response := kw_response kw; kw_error_type := kw_error_type kw;
     kw_retry_count := kw_retry_count kw; kw_resources := Some resources; kw_traces := kw_traces kw;
     kw_cleanup := None; kw_token := token |}.

(** The plan of the next case run, started. *)
Definition open_case : M W (ConsumeOutcome + (TaskPlan * StartAnswer)) :=
  a ← world (w_plan envelope);
  r ← answered REJECTED a;
  match r with
  | inl o => mret (inl o)
  | inr plan =>
      match validate_retry_policy (at_retry_policy (ap_request (tk_plan plan))) with
      | Raise _ => o ← dispose REJECTED; mret (inl o)
      | Return _ =>
          a ← world (w_start envelope (tk_case_run_id plan));
          r ← answered REJECTED a;
          mret (match r with inl o => inl o | inr started => inr (plan, started) end)
      end
  end.

(** From the end of the execution to the arguments of the report: the second control
    check, and the evaluation and the cleanup of a pipeline that deferred it. *)
Definition settle_case (fuel : nat) (plan : TaskPlan) (deadline : option Z) (kw : Kwargs) : M W (ConsumeOutcome + Kwargs) :=
  let case_run_id := tk_case_run_id plan in
  let resources := default [] (kw_resources kw) in
  c ← check_control case_run_id;
  match c, kw_cleanup kw with
  | inl o, _ => mret (inl o)
  | inr (Some control), None =>
      o ← complete_control_result case_run_id control (kw_retry_count kw) (kw_resources kw); mret (inl o)
  | inr (Some control), Some context =>
      r ← execute_deferred_cleanup fuel plan context resources "CANCELLED" deadline;
      match r with
      | inl o => mret (inl o)
      | inr resources' =>
          o ← complete_control_result case_run_id control (kw_retry_count kw) (Some resources'); mret (inl o)
      end
  | inr None, None => mret (inr kw)
  | inr None, Some context =>
      match kw_response kw with
      | None => o ← dispose REJECTED; mret (inl o)
      | Some response =>
          a ← world (w_evaluate envelope case_run_id response);
          r ← answered REQUEUED a;
          match r with
          | inl o => mret (inl o)
          | inr evaluation =>
              r ← execute_deferred_cleanup fuel plan context resources (el_cleanup_outcome evaluation) deadline;
              mret (match r with
                    | inl o => inl o
                    | inr resources' => inr (with_cleanup kw resources' (Some (el_token evaluation)))
                    end)
          end
      end
  end.

(** The task of a plan, and the retries it allows. *)
Definition plan_task (plan : ApiPlan) : ApiTask := if has_pipeline plan then RunPlan plan else RunRequest (ap_request plan).
Definition plan_retries (plan : ApiPlan) : RetryPolicy :=
  if has_pipeline plan then no_retry else at_retry_policy (ap_request plan).

(** [_deadline_from]. *)
Definition deadline_from (started_at : option Z) (total_timeout_ms : Z) : option Z :=
  (fun t => t + total_timeout_ms * 1000) <$> started_at.

(** The end of a turn: report the case run; [None] while the run goes on. *)
Definition report_case (case_run_id : Z) (kw : Kwargs) : M W (option ConsumeOutcome) :=
  r ← execution_complete case_run_id kw;
  match r with
  | inl o => mret (Some o)
  | inr complete =>
      if decide (ca_run_status complete = u "RUNNING") then
        if decide (ca_case_run_status complete ∈ u <$> ["SUCCESS"; "FAILED"; "REVIEW"; "TIMEOUT"]) then mret None
        else o ← dispose REJECTED; mret (Some o)
      else o ← complete_disposition complete; mret (Some o)
  end.

(** One turn of the loop of [_process_execution_delivery]: [None] goes on with the
    next case run of the run. *)
Definition execute_case (fuel : nat) : M W (option ConsumeOutcome) :=
  r ← open_case;
  match r with
  | inl o => mret (Some o)
  | inr (plan, started) =>
      let case_run_id := tk_case_run_id plan in
      if decide (st_status started = u "CANCELLING")
      then o ← complete_cancelled case_run_id 0 (u "CANCEL_REQUESTED") None; mret (Some o)
      else
        c ← check_control case_run_id;
        match c with
        | inl o => mret (Some o)
        | inr (Some control) => o ← complete_control_result case_run_id control 0 None; mret (Some o)
        | inr None =>
            let deadline := deadline_from (st_started_at started) (tk_total_timeout_ms plan) in
            r ← execute_with_retries fuel case_run_id (plan_task (tk_plan plan)) (plan_retries (tk_plan plan)) deadline;
            match r with
            | inl o => mret (Some o)
            | inr kw =>
                r ← settle_case fuel plan deadline kw;
                match r with
                | inl o => mret (Some o)
                | inr kw' => report_case case_run_id kw'
                end
            end
        end
  end.

(** The loop over the case runs of a run; [rounds] bounds how many. *)
Fixpoint case_loop (rounds fuel : nat) : M W ConsumeOutcome :=
  match rounds with
  | O => still_running
  | S rounds' => r ← execute_case fuel; match r with Some o => mret o | None => case_loop rounds' fuel end
  end.

Definition claim_task : M W (ConsumeOutcome + pytext) :=
  a ← world (w_claim envelope);
  r ← answered REJECTED a;
  match r with inl o => mret (inl o) | inr status => _ ← log (ClaimedAs status); mret (inr status) end.

(** [_process_execution_delivery]. *)
Definition process_api_delivery (rounds fuel : nat) : M W ConsumeOutcome :=
  r ← claim_task;
  match r with
  | inl o => mret o
  | inr status => if decide (status = u "CANCELLED") then dispose ACKED else case_loop rounds fuel
  end.
End Task.

(** ** From the body *)

(** The consumer's own name, and the delivery of a task of any kind. *)
Context (runner_id : pytext) (deliver : TaskEnvelope -> M W ConsumeOutcome).

(** [process_delivery]: claim only. *)
Definition process_delivery (body : list N) : M W ConsumeOutcome :=
  match parse_task_envelope body (Some runner_id) with
  | Raised (EnvelopeError _) => dispose REJECTED
  | Raised UnhashableType => raises RaisedOther
  | Parsed envelope => r ← claim_task envelope; match r with inl o => mret o | inr _ => dispose ACKED end
  end.

(** The slot a task needs. *)
Definition expected_slot (e : TaskEnvelope) : pytext :=
  match e with RunTask e => rt_required_slot_type e | _ => u "WEB" end.

(** [process_execution_delivery]. *)
Definition process_execution_delivery (body : list N) : M W ConsumeOutcome :=
  match parse_task_or_recording_envelope body (Some runner_id) with
  | Raised (EnvelopeError _) => dispose REJECTED
  | Raised UnhashableType => raises RaisedOther
  | Parsed e =>
      _ ← match e with
          | RunTask r => if bool_decide (rt_run_type r = u "API_CASE") && negb (has_executor cfg)
                         then raises RaisedOther else mret tt
          | _ => mret tt
          end;
      if has_slot_state cfg then
        free ← world (w_try_acquire (expected_slot e));
        if free : bool then _ ← log Acquired; finally (deliver e) (_ ← world_ w_release; log Released) else dispose REQUEUED
      else deliver e
  end.
End Consumer.
