(* ===== verification/ApiConsumerLogic.v ===== *)
(** A program logic for the consumer: what a method adds to the log, by how it ends.
    [settles] follows the disposal of a delivery through the method, [keeps] a
    property of the events it adds; acknowledgements follow confirmations
    ([acks_confirmed]), and child processes are closed ([closed]). *)
From S2P Require Import Prelude PyText Calendar Json PyJson RunData RunDispatch ScenarioData RunnerValues ScenarioSql PyUrl.
From S2P Require Import ScenarioActions ScenarioProtocol ApiTemplate ApiExecutor ApiPipeline Envelope ApiConsumer.
Open Scope Z_scope.

(** ** Settling a delivery *)

(** The events that settle a delivery. *)
Definition settling (e : event) : bool := match e with Ack | Nack | Reject | StopConsuming => true | _ => false end.
Definition settlement (l : list event) : list event := List.filter settling l.
(** How a delivery is settled. *)
Definition settled_as (o : option ConsumeOutcome) : list event :=
  match o with
  | None => []
  | Some ACKED => [Ack]
  | Some REQUEUED => [Nack]
  | Some REJECTED => [Reject]
  | Some STOPPED_AUTH => [Reject; StopConsuming]
  end.

Lemma settlement_app l l' : settlement (l ++ l') = settlement l ++ settlement l'.
Proof. apply List.filter_app. Qed.

Section Logic.
Context {W : Type}.

(** [m] starts with the delivery settled as [st]; where it returns [a], the delivery
    is settled as [f a], and where it raises or still runs it is not settled. *)
Definition settles {A} (st : option ConsumeOutcome) (f : A -> option ConsumeOutcome) (m : M W A) : Prop :=
  forall s, exists added, cs_log (m s).1 = cs_log s ++ added
  /\ settled_as st ++ settlement added = match (m s).2 with Done a => settled_as (f a) | _ => [] end.

Lemma settles_ret {A} st f (a : A) : f a = st -> settles st f (mret a).
Proof. intros <- s. exists []. by rewrite !app_nil_r. Qed.
Lemma settles_bind {A B} st f g (m : M W A) (k : A -> M W B) :
  settles st f m -> (forall a, settles (f a) g (k a)) -> settles st g (x ← m; k x).
Proof.
  intros Hm Hk s. destruct (Hm s) as (l1 & E1 & H1). unfold mbind, M_bind. destruct (m s) as [s1 [a|x|]]; cbn [fst snd] in *.
  - destruct (Hk a s1) as (l2 & E2 & H2). exists (l1 ++ l2). rewrite E2, E1, app_assoc. split; [done|].
    by rewrite settlement_app, app_assoc, H1.
  - by exists l1.
  - by exists l1.
Qed.
Lemma settles_catch {A} g (m : M W A) h : settles None g m -> (forall x, settles None g (h x)) -> settles None g (catch m h).
Proof.
  intros Hm Hh s. destruct (Hm s) as (l1 & E1 & H1). unfold catch. destruct (m s) as [s1 [a|x|]]; cbn [fst snd] in *.
  - by exists l1.
  - destruct (Hh x s1) as (l2 & E2 & H2). exists (l1 ++ l2). rewrite E2, E1, app_assoc. split; [done|].
    cbn in *. by rewrite settlement_app, H1.
  - by exists l1.
Qed.
Lemma settles_finally {A} st g (m : M W A) f : settles st g m -> settles None (fun _ => None) f -> settles st g (finally m f).
Proof.
  intros Hm Hf s. destruct (Hm s) as (l1 & E1 & H1). unfold finally.
  assert (forall s', exists l2, cs_log (f s').1 = cs_log s' ++ l2 /\ settlement l2 = []) as Hf'.
  { intros s'. destruct (Hf s') as (l2 & E2 & H2). exists l2. split; [done|]. cbn in H2. by destruct (f s').2. }
  destruct (m s) as [s1 r]; cbn [fst snd] in *. destruct r as [a|x|]; [| |by exists l1];
    destruct (Hf' s1) as (l2 & E2 & H2); exists (l1 ++ l2); cbn [fst snd]; rewrite E2, E1, app_assoc;
    (split; [done|]); by rewrite settlement_app, H2, app_nil_r.
Qed.
Lemma settles_world {A} st (f : W -> A * W) : settles st (fun _ => st) (world f).
Proof. intros s. unfold world. destruct (f (cs_world s)) as [a w]. exists []. by rewrite !app_nil_r. Qed.
Lemma settles_log st e : settling e = false -> settles st (fun _ => st) (log e).
Proof. intros He s. exists [e]. split; [done|]. cbn. by rewrite He, app_nil_r. Qed.
Lemma settles_raises {A} f x : settles (A := A) None f (raises x).
Proof. intros s. exists []. by rewrite app_nil_r. Qed.
Lemma settles_running {A} f : settles (A := A) None f still_running.
Proof. intros s. exists []. by rewrite app_nil_r. Qed.
Lemma settles_or_raise {A} (r : task_exn + A) : settles None (fun _ => None) (or_raise r).
Proof. destruct r; [apply settles_raises | by apply settles_ret]. Qed.
Lemma settles_dispose o : settles None Some (dispose o).
Proof.
  intros s. exists (settled_as (Some o)). unfold dispose, mbind, M_bind, log. destruct o; cbn; (split; [|done]); try done.
  by rewrite <- app_assoc.
Qed.

(** Where a step of the consumer leaves a delivery: settled on the left, open on the
    right. *)
Definition disposed {A} (r : ConsumeOutcome + A) : option ConsumeOutcome := match r with inl o => Some o | inr _ => None end.

Lemma settles_answered {A} unknown (a : answer A) : settles None disposed (answered unknown a).
Proof.
  unfold answered. destruct a; try (eapply settles_bind; [apply settles_dispose | intros o; by apply settles_ret]).
  by apply settles_ret.
Qed.
End Logic.

Create HintDb consumer.
#[export] Hint Resolve settles_world settles_log settles_raises settles_running settles_or_raise settles_dispose
  settles_answered : consumer.
#[export] Hint Extern 1 (settling _ = false) => reflexivity : consumer.

(** One statement of a method: [settle_step] takes the binds, the [try]s and the
    branches apart and closes what the lemmas of the database settle. *)
Ltac settle_step :=
  match goal with
  | |- settles _ _ (mret (match ?x with _ => _ end)) => destruct x
  | |- settles _ _ (mret _) => apply settles_ret; reflexivity
  | |- settles _ _ (catch _ _) => apply settles_catch; [|intros ?]
  | |- settles _ _ (finally _ _) => apply settles_finally
  | |- settles _ _ (mbind _ _) => eapply settles_bind; [solve [eauto with consumer] | intros ?; cbn beta]
  | |- settles _ _ (match ?x with _ => _ end) => destruct x
  | |- settles _ _ (let _ := _ in _) => cbv zeta
  | |- settles _ _ _ => solve [eauto with consumer]
  | |- settles None _ (mbind _ _) => apply (settles_bind None (fun _ => None)); [|intros ?; cbn beta]
  end.
Ltac settle := repeat (settle_step; cbn [disposed]).

Section Common.
Context {W : Type} `{ConsumerWorld W}.

Lemma settles_tell {A} f (e : answer A -> event) : (forall a, settling (e a) = false) -> settles (W := W) None disposed (tell f e).
Proof. intros He. unfold tell. settle. Qed.
Lemma settles_with_process {A} g create (body : M W A) : settles None g body -> settles None g (with_process create body).
Proof. intros Hb. unfold with_process, world_. settle. Qed.
Lemma settles_past d : settles (W := W) None (fun _ => None) (past d).
Proof. unfold past. settle. Qed.
Lemma settles_kill st : settles (W := W) st (fun _ => st) kill.
Proof. unfold kill, world_. settle. Qed.
End Common.
#[export] Hint Resolve settles_past settles_kill : consumer.
#[export] Hint Extern 1 (settles _ _ (tell _ _)) => apply settles_tell; reflexivity : consumer.
#[export] Hint Extern 2 (settles _ _ (with_process _ _)) => apply settles_with_process : consumer.

(** ** Properties of the events *)

(** A property that the empty log has and that two logs pass on to their
    concatenation. *)
Class LogProperty (C : list event -> Prop) : Prop := {
  lp_nil : C [];
  lp_app l l' : C l -> C l' -> C (l ++ l');
}.

Lemma M_assoc {W A B D} (m : M W A) (f : A -> M W B) (k : B -> M W D) s :
  (y ← (x ← m; f x); k y) s = (x ← m; y ← f x; k y) s.
Proof. unfold mbind, M_bind. by destruct (m s) as [? []]. Qed.

Section Keeps.
Context {W : Type} (always : bool) (C : list event -> Prop) `{!LogProperty C}.

(** What [m] adds to the log has the property, however it ends; without [always],
    unless it still runs. *)
Definition keeps {A} (m : M W A) : Prop :=
  forall s, exists added, cs_log (m s).1 = cs_log s ++ added /\ (C added \/ always = false /\ (m s).2 = Running).

Lemma keeps_same {A} (m : M W A) : (forall s, cs_log (m s).1 = cs_log s) -> keeps m.
Proof. intros Hm s. exists []. rewrite app_nil_r. split; [apply Hm | left; apply lp_nil]. Qed.
Lemma keeps_log_ret {A} (a : A) : keeps (mret a).
Proof. by apply keeps_same. Qed.
Lemma keeps_raises {A} x : keeps (A := A) (raises x).
Proof. by apply keeps_same. Qed.
Lemma keeps_running {A} : keeps (A := A) still_running.
Proof. by apply keeps_same. Qed.
Lemma keeps_world {A} (f : W -> A * W) : keeps (world f).
Proof. apply keeps_same. intros s. unfold world. by destruct (f (cs_world s)). Qed.
Lemma keeps_or_raise {A} (r : task_exn + A) : keeps (or_raise r).
Proof. destruct r; [apply keeps_raises | apply keeps_log_ret]. Qed.
Lemma keeps_log e : C [e] -> keeps (log e).
Proof. intros He s. exists [e]. auto. Qed.

Lemma keeps_ext {A} (m m' : M W A) : (forall s, m s = m' s) -> keeps m -> keeps m'.
Proof. intros E Hm s. rewrite <- E. apply Hm. Qed.

Lemma keeps_assoc {A B D} (m : M W A) (f : A -> M W B) (k : B -> M W D) :
  keeps (x ← m; y ← f x; k y) -> keeps (y ← (x ← m; f x); k y).
Proof. apply keeps_ext. intros s. symmetry. apply M_assoc. Qed.

(** [m2] after [m1]: what both add. *)
Lemma keeps_then (l0 l1 l2 l : list event) (P : Prop) :
  l1 = l0 ++ l -> C l -> (exists l', l2 = l1 ++ l' /\ (C l' \/ P)) -> exists l', l2 = l0 ++ l' /\ (C l' \/ P).
Proof.
  intros -> Hl (l' & -> & H'). exists (l ++ l'). rewrite app_assoc. split; [done|].
  destruct H'; [left; by apply lp_app | by right].
Qed.
Lemma keeps_log_bind {A B} (m : M W A) (k : A -> M W B) : keeps m -> (forall a, keeps (k a)) -> keeps (x ← m; k x).
Proof.
  intros Hm Hk s. destruct (Hm s) as (l1 & E1 & H1). unfold mbind, M_bind.
  destruct (m s) as [s1 [a|x|]]; cbn [fst snd] in *; [|exists l1; by intuition..].
  eapply keeps_then; [exact E1 | by destruct H1 as [|[_ ?]] | apply Hk].
Qed.
Lemma keeps_catch {A} (m : M W A) h : keeps m -> (forall x, keeps (h x)) -> keeps (catch m h).
Proof.
  intros Hm Hh s. destruct (Hm s) as (l1 & E1 & H1). unfold catch.
  destruct (m s) as [s1 [a|x|]]; cbn [fst snd] in *; [exists l1; by intuition | | exists l1; by intuition].
  eapply keeps_then; [exact E1 | by destruct H1 as [|[_ ?]] | apply Hh].
Qed.
Lemma keeps_finally {A} (m : M W A) f : keeps m -> keeps f -> (forall s, (f s).2 <> Running) -> keeps (finally m f).
Proof.
  intros Hm Hf Hend s. destruct (Hm s) as (l1 & E1 & H1). unfold finally.
  destruct (m s) as [s1 r]; cbn [fst snd] in *. specialize (Hf s1). specialize (Hend s1).
  destruct r; [| |exists l1; by intuition]; (eapply keeps_then; [exact E1 | by destruct H1 as [|[_ ?]]|]);
    cbn [fst snd]; destruct Hf as (l2 & E2 & H2); exists l2; (split; [done|]); left; by destruct H2 as [|[_ ?]].
Qed.
End Keeps.

#[export] Hint Resolve keeps_log_ret keeps_world keeps_raises keeps_running keeps_or_raise : consumer.
#[export] Hint Extern 1 (LogProperty _) => apply _ : consumer.

Ltac keep_step :=
  match goal with
  | |- keeps _ _ (catch _ _) => apply keeps_catch; [apply _| |intros ?]
  | |- keeps _ _ (finally _ _) => apply keeps_finally; [apply _| | |done]
  | |- keeps _ _ (mbind _ _) => apply keeps_log_bind; [apply _| |intros ?; cbn beta]
  | |- keeps _ _ (match ?x with _ => _ end) => destruct x
  | |- keeps _ _ (let _ := _ in _) => cbv zeta
  | |- keeps _ _ (log _) => apply keeps_log
  | |- keeps _ _ _ => solve [eauto with consumer]
  end.
Ltac keep := repeat keep_step.

(** ** Time *)

(** What the watch relies on: [time_of] is the time in a world; the clock shows it,
    nothing turns it back, a poll that found nothing has waited its 0.2 seconds, and
    the back end says when a case run was started. *)
Class TimedWorld (W : Type) `{ConsumerWorld W} (time_of : W -> Z) : Prop := {
  tw_clock w : (w_clock w).1 = time_of w /\ time_of w <= time_of (w_clock w).2;
  tw_poll w : time_of w + match (w_poll w).1 with inr false => 200000 | _ => 0 end <= time_of (w_poll w).2;
  tw_plan e w : time_of w <= time_of (w_plan e w).2;
  tw_start e c w : time_of w <= time_of (w_start e c w).2;
  tw_control e c w : time_of w <= time_of (w_control e c w).2;
  tw_evaluate e c r w : time_of w <= time_of (w_evaluate e c r w).2;
  tw_complete e c kw w : time_of w <= time_of (w_complete e c kw w).2;
  tw_inline t w : time_of w <= time_of (w_inline t w).2;
  tw_create t w : time_of w <= time_of (w_create t w).2;
  tw_spawn w : time_of w <= time_of (w_spawn w).2;
  tw_alive w : time_of w <= time_of (w_is_alive w).2;
  tw_outcome w : time_of w <= time_of (w_outcome w).2;
  tw_request_cancel w : time_of w <= time_of (w_request_cancel w).2;
  tw_terminate w : time_of w <= time_of (w_terminate w);
  tw_close w : time_of w <= time_of (w_close w);
  tw_sleep n w : time_of w <= time_of (w_sleep n w);
  tw_stop_is_set w : time_of w <= time_of (w_stop_is_set w).2;
  tw_stop_wait n w : time_of w <= time_of (w_stop_wait n w).2;
  tw_stop_set w : time_of w <= time_of (w_stop_set w);
  tw_started_at e c w a : (w_start e c w).1 = Answer a -> is_Some (st_started_at a);
}.


(** From the time [T] on, [m] ends and does not turn the time back. *)
Definition timely {W} `{TimedWorld W time_of} {A} (T : Z) (m : M W A) : Prop :=
  forall s, T <= time_of (cs_world s) -> (m s).2 <> Running /\ T <= time_of (cs_world (m s).1).

Section Timing.
Context {W : Type} `{TimedWorld W time_of}.

Lemma bind_done {A B} (m : M W A) (k : A -> M W B) s s' a : m s = (s', Done a) -> (x ← m; k x) s = k a s'.
Proof. intros E. unfold mbind, M_bind. by rewrite E. Qed.
Lemma bind_world {A B} (f : W -> A * W) (k : A -> M W B) (s : Cs W) :
  (x ← world f; k x) s = k (f (cs_world s)).1 (Build_Cs (f (cs_world s)).2 (cs_cache s) (cs_log s)).
Proof. apply bind_done. unfold world. by destruct (f (cs_world s)). Qed.

Lemma timely_ret {A} T (a : A) : timely T (mret a).
Proof. by intros s Hs. Qed.
Lemma timely_raises {A} T x : timely (A := A) T (raises x).
Proof. by intros s Hs. Qed.
Lemma timely_or_raise {A} T (r : task_exn + A) : timely T (or_raise r).
Proof. destruct r; [apply timely_raises | apply timely_ret]. Qed.
Lemma timely_log T e : timely T (log e).
Proof. by intros s Hs. Qed.
Lemma timely_world {A} T (f : W -> A * W) : (forall w, time_of w <= time_of (f w).2) -> timely T (world f).
Proof. intros Hf s Hs. unfold world. specialize (Hf (cs_world s)). destruct (f (cs_world s)). cbn in *. split; [done | lia]. Qed.
Lemma timely_bind {A B} T (m : M W A) (k : A -> M W B) : timely T m -> (forall a, timely T (k a)) -> timely T (x ← m; k x).
Proof.
  intros Hm Hk s Hs. destruct (Hm s Hs) as [H1 H2]. unfold mbind, M_bind. destruct (m s) as [s1 [a|x|]]; cbn [fst snd] in *; [by apply Hk | done | done].
Qed.
Lemma timely_catch {A} T (m : M W A) h : timely T m -> (forall x, timely T (h x)) -> timely T (catch m h).
Proof.
  intros Hm Hh s Hs. destruct (Hm s Hs) as [H1 H2]. unfold catch. destruct (m s) as [s1 [a|x|]]; cbn [fst snd] in *; [done | by apply Hh | done].
Qed.
Lemma timely_finally {A} T (m : M W A) f : timely T m -> timely T f -> timely T (finally m f).
Proof.
  intros Hm Hf s Hs. destruct (Hm s Hs) as [H1 H2]. unfold finally. destruct (m s) as [s1 [a|x|]]; cbn [fst snd] in *;
    [split; [done|]; by apply Hf | split; [done|]; by apply Hf | done].
Qed.
End Timing.

#[export] Hint Resolve timely_ret timely_raises timely_or_raise timely_log timely_world : consumer.
#[export] Hint Extern 1 (forall _, (_ <= _)%Z) => intros ?; cbn beta; cbn [snd];
  first [apply tw_clock | apply tw_plan | apply tw_start | apply tw_control | apply tw_evaluate | apply tw_complete | apply tw_inline
        | apply tw_create | apply tw_spawn | apply tw_alive | apply tw_outcome | apply tw_request_cancel | apply tw_terminate
        | apply tw_close | apply tw_sleep | apply tw_stop_is_set | apply tw_stop_wait | apply tw_stop_set] : consumer.
Ltac timely_step :=
  match goal with
  | |- timely _ (catch _ _) => apply timely_catch; [|intros ?]
  | |- timely _ (finally _ _) => apply timely_finally
  | |- timely _ (mbind _ _) => apply timely_bind; [|intros ?; cbn beta]
  | |- timely _ (match ?x with _ => _ end) => destruct x
  | |- timely _ (let _ := _ in _) => cbv zeta
  | |- timely _ _ => solve [eauto with consumer]
  end.
Ltac time_ := repeat timely_step.


Section TimedSteps.
Context {W : Type} `{TimedWorld W time_of}.

Lemma timely_poll T : timely T (world w_poll).
Proof. apply timely_world. intros w. pose proof (tw_poll w). repeat case_match; lia. Qed.
Lemma timely_dispose T o : timely T (dispose o).
Proof. unfold dispose. time_. Qed.
#[local] Hint Resolve timely_poll timely_dispose : consumer.
Lemma timely_answered {A} T unknown (a : answer A) : timely T (answered unknown a).
Proof. unfold answered. time_. Qed.
#[local] Hint Resolve timely_answered : consumer.
Lemma timely_past T d : timely T (past d).
Proof. unfold past. time_. Qed.
Lemma timely_kill T : timely T kill.
Proof. unfold kill, world_. time_. Qed.
Lemma timely_tell {A} T f (e : answer A -> event) : (forall w, time_of w <= time_of (f w).2) -> timely T (tell f e).
Proof. intros Hf. unfold tell. time_. Qed.
Lemma timely_with_process {A} T create (body : M W A) :
  (forall w, time_of w <= time_of (create w).2) -> timely T body -> timely T (with_process create body).
Proof. intros Hc Hb. unfold with_process, world_. time_. Qed.

(** The end of a round: past the deadline the process is killed, otherwise there is
    another round. *)
Lemma timely_go_on {A} T d (killed : A) (k : M W A) : (T < d -> timely T k) ->
  timely T (late ← past (Some d); if late : bool then _ ← kill; mret killed else k).
Proof.
  intros Hk s Hs. pose proof (tw_clock (cs_world s)) as [E Ht].
  assert (past (Some d) s = (Build_Cs (w_clock (cs_world s)).2 (cs_cache s) (cs_log s), Done (bool_decide (d <= time_of (cs_world s))))) as Ep.
  { unfold past. rewrite bind_world, E. done. }
  rewrite (bind_done _ _ _ _ _ Ep). case_bool_decide as Hd; [|apply Hk; cbn; lia].
  apply (timely_bind T kill (fun _ => mret killed)); [eauto using timely_kill with consumer.. | cbn; lia].
Qed.

(** A poll that finds nothing. *)
Lemma timely_polled {A} T (ready : M W A) (k : M W A) :
  timely T ready -> timely (T + 200000) k -> timely T (r ← world w_poll; b ← or_raise r; if b : bool then ready else k).
Proof.
  intros Hr Hk s Hs. rewrite bind_world. pose proof (tw_poll (cs_world s)) as Hp.
  destruct (w_poll (cs_world s)) as [[x|[|]] w]; cbn [fst snd] in *; [split; [done | change (T <= time_of w); lia] | apply Hr; cbn; lia|].
  rewrite (bind_done (or_raise (inr false)) _ _ _ _ eq_refl).
  destruct (Hk (Build_Cs w (cs_cache s) (cs_log s))) as [? ?]; [cbn; lia | split; [done | lia]].
Qed.
(** Fuel for what follows a step that needs none. *)
Lemma ends_after {A B} (m : M W A) (k : nat -> A -> M W B) s :
  timely (time_of (cs_world s)) m ->
  (forall s' a, m s = (s', Done a) -> exists n, forall fuel, (n <= fuel)%nat -> (k fuel a s').2 <> Running) ->
  exists n, forall fuel, (n <= fuel)%nat -> ((x ← m; k fuel x) s).2 <> Running.
Proof.
  intros Hm Hk. destruct (Hm s ltac:(lia)) as [Hend _]. unfold mbind, M_bind. destruct (m s) as [s' [a|x|]]; cbn [snd] in *;
    [by apply Hk | by exists O | done].
Qed.
(** The rounds left from the time [T] to the deadline [d]. *)
Definition rounds_to (d T : Z) : nat := Z.to_nat ((d - T) / 200000 + 1).
Lemma rounds_to_next d T fuel : T + 200000 < d -> (rounds_to d T < S fuel)%nat -> (rounds_to d (T + 200000) < fuel)%nat.
Proof.
  unfold rounds_to. intros Hd Hf.
  replace ((d - (T + 200000)) / 200000) with ((d - T) / 200000 - 1)
    by (replace (d - (T + 200000)) with (d - T + -1 * 200000) by lia; rewrite Z.div_add; lia).
  assert (1 <= (d - T) / 200000) by (apply Z.div_le_lower_bound; lia). lia.
Qed.
End TimedSteps.
#[export] Hint Resolve timely_poll timely_dispose timely_answered timely_past timely_kill timely_tell timely_with_process : consumer.

(** ** Acknowledgements and processes in the log *)

(** What the steps shared by the deliveries keep, from what disposing keeps. *)
Section Steps.
Context {W : Type} `{ConsumerWorld W} (envelope : RunTaskEnvelopeV1).
Context (always : bool) (C : list event -> Prop) `{!LogProperty C}.
Context (keeps_dispose : forall o, o <> ACKED -> keeps (W := W) always C (dispose o)).
#[local] Hint Extern 1 (keeps _ _ (dispose _)) => apply keeps_dispose; discriminate : consumer.

Lemma keeps_answered {A} unknown (a : answer A) : unknown <> ACKED -> keeps (W := W) always C (answered unknown a).
Proof. intros Hu. unfold answered. keep. Qed.
#[local] Hint Extern 1 (keeps _ _ (answered _ _)) => apply keeps_answered; discriminate : consumer.
Lemma keeps_check_control c : keeps always C (check_control envelope c).
Proof. unfold check_control. keep. Qed.
Lemma keeps_past d : keeps (W := W) always C (past d).
Proof. unfold past. keep. Qed.
End Steps.

(** ** Acknowledgements *)

(** An event after which a delivery may be acknowledged: a report the back end
    confirmed as final, or a claim of a task that it says is over. *)
Definition confirming (e : event) : Prop :=
  match e with
  | Reported_ _ _ (Answer a) => confirms a = true
  | ReportedRun _ _ (Answer a) => disposition a = ACKED
  | ReportedTask outcome (Answer a) => ta_status a = outcome
  | ReportedLoad _ (Answer status) => status ∈ [u "SUCCESS"; u "FAILED"]
  | ClaimedAs status => status = u "CANCELLED"
  | TaskClaimedAs status _ => status ∈ [u "CANCELLED"; u "COMPLETED"; u "FAILED"]
  | _ => False
  end.
(** Every acknowledgement directly follows such an event. *)
Definition acks_confirmed (l : list event) : Prop :=
  forall pre post, l = pre ++ Ack :: post -> exists pre' e, pre = pre' ++ [e] /\ confirming e.

#[global] Instance acks_confirmed_log : LogProperty acks_confirmed.
Proof.
  split; [by intros [|? ?] ?|]. intros l l' Hl Hl' pre post E. apply app_eq_app in E as (k & [[-> E]|[-> ->]]).
  - destruct k as [|e k]; cbn in E; [subst l' | injection E as <- ->; by eapply Hl].
    destruct (Hl' [] post eq_refl) as ([|? ?] & ? & ? & _); done.
  - destruct (Hl' k post eq_refl) as (pre' & e & -> & He). exists (l ++ pre'), e. by rewrite app_assoc.
Qed.

Lemma no_ack_confirmed l : Forall (fun e => e <> Ack) l -> acks_confirmed l.
Proof. intros Hl pre post ->. apply Forall_app in Hl as [_ [? _]%Forall_cons]. done. Qed.
Lemma ack_after e : confirming e -> e <> Ack -> acks_confirmed [e; Ack].
Proof.
  intros He Hne [|x [|y pre]] post E; [by injection E as -> _ | | by destruct pre]. injection E as -> _. by exists [], x.
Qed.

Section Acks.
Context {W : Type} `{ConsumerWorld W}.

Lemma acks_dispose o : o <> ACKED -> keeps (W := W) true acks_confirmed (dispose o).
Proof.
  intros Ho s. exists (settled_as (Some o)). unfold dispose, mbind, M_bind, log.
  destruct o; try done; cbn; (split; [by rewrite <- ?app_assoc|]); left; apply no_ack_confirmed; by repeat constructor.
Qed.

(** A report and the disposal it leads to, in one piece. *)
Lemma acks_answer {A B} f (ev : answer B -> event) (k : ConsumeOutcome + B -> M W A) :
  (forall a, ev a <> Ack) -> (forall o, keeps true acks_confirmed (k (inl o))) ->
  (forall a s, exists added, cs_log (k (inr a) s).1 = cs_log s ++ added /\ acks_confirmed (ev (Answer a) :: added)) ->
  keeps true acks_confirmed (r ← tell f ev; k r).
Proof.
  intros Hev Hl Hr. apply keeps_assoc. apply keeps_log_bind; [apply _ | apply keeps_world; apply _|].
  intros a. apply keeps_assoc. destruct a as [a| | | |].
  { intros s. destruct (Hr a (Build_Cs (cs_world s) (cs_cache s) (cs_log s ++ [ev (Answer a)]))) as (added & E & Hc).
    exists (ev (Answer a) :: added). split; [|by left]. etransitivity; [exact E|]. cbn [cs_log]. by rewrite <- app_assoc. }
  all: apply keeps_log_bind; [apply _ | apply keeps_log, no_ack_confirmed; by repeat constructor|]; intros [];
    cbn [answered]; apply keeps_assoc;
    apply keeps_log_bind; [apply _ | by apply acks_dispose|];
    intros o; apply Hl.
Qed.

Lemma log_then_ret {A B} (m : M W A) (g : A -> B) s : cs_log ((x ← m; mret (g x) : M W B) s).1 = cs_log (m s).1.
Proof. unfold mbind, M_bind. by destruct (m s) as [? []]. Qed.

(** The claim: a task cancelled meanwhile is acknowledged, another one goes on. *)
Lemma acks_claimed envelope (k : M W ConsumeOutcome) : keeps true acks_confirmed k ->
  keeps true acks_confirmed (r ← claim_task envelope;
    match r with inl o => mret o | inr status => if decide (status = u "CANCELLED") then dispose ACKED else k end).
Proof.
  intros Hk. unfold claim_task. apply keeps_assoc. apply keeps_log_bind; [apply _ | apply keeps_world; apply _|]. intros a. apply keeps_assoc.
  apply keeps_log_bind; [apply _ | by apply keeps_answered; [apply _ | apply acks_dispose|]|].
  intros [o|status]; cbn beta iota; [by apply keeps_log_ret; apply _|].
  destruct (decide (status = u "CANCELLED")) as [->|Hs].
  - intros s. exists [ClaimedAs (u "CANCELLED"); Ack]. split; [|left; by apply ack_after].
    unfold mbind, M_bind, mret, M_ret, log. rewrite decide_True by done.
    transitivity ((cs_log s ++ [ClaimedAs (u "CANCELLED")]) ++ [Ack]); [reflexivity | by rewrite <- app_assoc].
  - apply keeps_assoc. apply keeps_log_bind; [apply _ | apply keeps_log, no_ack_confirmed; by repeat constructor|]. intros [].
    eapply keeps_ext; [|exact Hk]. intros s. unfold mret, M_ret, mbind, M_bind. by rewrite decide_False.
Qed.
End Acks.
#[export] Hint Resolve keeps_past : consumer.
#[export] Hint Extern 1 (keeps _ acks_confirmed (dispose _)) => apply acks_dispose; discriminate : consumer.
#[export] Hint Extern 1 (keeps _ acks_confirmed (answered _ _)) => apply keeps_answered; [apply _ | apply acks_dispose | discriminate] : consumer.
#[export] Hint Extern 1 (keeps _ acks_confirmed (check_control _ _)) => apply keeps_check_control; [apply _ | apply acks_dispose] : consumer.

(** ** Processes *)

Definition is_started (e : event) : bool := match e with Started => true | _ => false end.
Definition is_closed (e : event) : bool := match e with Closed => true | _ => false end.
Definition count (f : event -> bool) (l : list event) : nat := length (List.filter f l).
Lemma count_app f l l' : count f (l ++ l') = (count f l + count f l')%nat.
Proof. unfold count. by rewrite List.filter_app, length_app. Qed.

(** No more processes started than closed. *)
Definition closed (l : list event) : Prop := (count is_started l <= count is_closed l)%nat.
#[global] Instance closed_log : LogProperty closed.
Proof. unfold closed. split; [cbn; lia|]. intros l l'. rewrite !count_app. lia. Qed.
Definition none_started (l : list event) : Prop := count is_started l = 0%nat.
#[global] Instance none_started_log : LogProperty none_started.
Proof. split; [done|]. unfold none_started. intros l l'. rewrite count_app. lia. Qed.

Section Processes.
Context {W : Type} `{ConsumerWorld W} (envelope : RunTaskEnvelopeV1).

(** At most [n] processes are started. *)
Definition starts {A} (n : nat) (m : M W A) : Prop :=
  forall s, exists added, cs_log (m s).1 = cs_log s ++ added /\ (count is_started added <= n)%nat.
Lemma starts_none {A} (m : M W A) n : keeps true none_started m -> starts n m.
Proof. intros Hm s. destruct (Hm s) as (l & E & [Hl|[? _]]); [|done]. exists l. split; [done|]. rewrite Hl. lia. Qed.
Lemma starts_le {A} (m : M W A) n n' : starts n m -> (n <= n')%nat -> starts n' m.
Proof. intros Hm Hn s. destruct (Hm s) as (l & E & Hl). exists l. split; [done|]. lia. Qed.
Lemma starts_bind {A B} n n' (m : M W A) (k : A -> M W B) : starts n m -> (forall a, starts n' (k a)) -> starts (n + n') (x ← m; k x).
Proof.
  intros Hm Hk s. destruct (Hm s) as (l1 & E1 & H1). unfold mbind, M_bind. destruct (m s) as [s1 [a|x|]]; cbn [fst] in *;
    [|exists l1; split; [done | lia]..].
  destruct (Hk a s1) as (l2 & E2 & H2). exists (l1 ++ l2). rewrite E2, E1, app_assoc, count_app. split; [done | lia].
Qed.
Lemma starts_catch {A} n (m : M W A) h : starts n m -> (forall x, keeps true none_started (h x)) -> starts n (catch m h).
Proof.
  intros Hm Hh s. destruct (Hm s) as (l1 & E1 & H1). unfold catch. destruct (m s) as [s1 [a|x|]]; cbn [fst] in *; [by exists l1 | | by exists l1].
  destruct (Hh x s1) as (l2 & E2 & [H2|[? _]]); [|done]. exists (l1 ++ l2). rewrite E2, E1, app_assoc, count_app. split; [done|].
  rewrite H2. lia.
Qed.

(** Steps that start no process. *)
Lemma unstarted_dispose o : o <> ACKED -> keeps (W := W) true none_started (dispose o).
Proof. intros _. unfold dispose. destruct o; keep; reflexivity. Qed.
Lemma unstarted_dispose_any o : keeps (W := W) true none_started (dispose o).
Proof. unfold dispose. destruct o; keep; reflexivity. Qed.
#[local] Hint Resolve unstarted_dispose_any : consumer.
Lemma unstarted_check_control c : keeps true none_started (check_control envelope c).
Proof. apply keeps_check_control; [apply _ | apply unstarted_dispose]. Qed.
Lemma unstarted_answered {A} unknown (a : answer A) : keeps (W := W) true none_started (answered unknown a).
Proof. unfold answered. keep. Qed.
#[local] Hint Resolve unstarted_answered : consumer.
Lemma unstarted_tell {A} f (e : answer A -> event) : (forall a, is_started (e a) = false) -> keeps (W := W) true none_started (tell f e).
Proof. intros He. unfold tell. keep. unfold none_started, count. cbn. by rewrite He. Qed.

(** The whole [try]: whatever it started, it closed. *)
Lemma guarded_log {A} (m : M W A) f s :
  starts 1 m -> (forall s, cs_log (f s).1 = cs_log s ++ [Closed]) ->
  exists added, cs_log (finally m f s).1 = cs_log s ++ added /\ (count is_started added <= 1)%nat
                /\ ((finally m f s).2 = Running \/ closed added).
Proof.
  intros Hm Hf. destruct (Hm s) as (l & E & Hl). unfold finally.
  destruct (m s) as [s1 [a|x|]]; cbn [fst snd] in *; [| |exists l; by auto];
    (exists (l ++ [Closed]); split; [by rewrite Hf, app_assoc, <- E|]; unfold closed; rewrite !count_app; cbn; split; [lia | right; lia]).
Qed.
(** A process that is watched without starting another one is started at most once,
    and closed. *)
Lemma with_process_log {A} create (body : M W A) s : keeps true none_started body -> exists added,
  cs_log (with_process create body s).1 = cs_log s ++ added /\ (count is_started added <= 1)%nat
  /\ ((with_process create body s).2 = Running \/ closed added).
Proof.
  intros Hb. assert (starts 1 (r ← world w_spawn; _ ← or_raise r; _ ← log Started; body)) as Hs.
  { apply (starts_bind 0 1); [apply starts_none; keep|]. intros r. apply (starts_bind 0 1); [apply starts_none; keep|]. intros [].
    apply (starts_bind 1 0); [intros s'; by exists [Started]|]. intros []. by apply starts_none. }
  pose proof (fun s f => guarded_log _ f s Hs) as Hg. unfold with_process.
  lazymatch goal with |- context [finally ?m ?f] => specialize (fun s => Hg s f (fun _ => eq_refl)); set (g := finally m f) in * end.
  unfold mbind, M_bind, world. destruct (create (cs_world s)) as [[x|[]] w]; [|apply (Hg (Build_Cs w (cs_cache s) (cs_log s)))].
  exists []. rewrite app_nil_r. unfold closed. cbn. split; [done|]. split; [lia | right; lia].
Qed.
Lemma closed_unstarted {A} (m : M W A) : keeps true none_started m -> keeps false closed m.
Proof.
  intros Hm s. destruct (Hm s) as (l & E & [Hl|[? _]]); [|done]. exists l. split; [done|]. left. unfold closed. rewrite Hl. lia.
Qed.
Lemma closed_with_process {A} create (body : M W A) : keeps true none_started body -> keeps false closed (with_process create body).
Proof. intros Hb s. destruct (with_process_log create body s Hb) as (l & E & _ & Hc). exists l. split; [done|]. destruct Hc; auto. Qed.
Lemma starts_with_process {A} create (body : M W A) : keeps true none_started body -> starts 1 (with_process create body).
Proof. intros Hb s. destruct (with_process_log create body s Hb) as (l & E & Hl & _). by exists l. Qed.
Lemma unstarted_claim : keeps true none_started (claim_task envelope).
Proof. unfold claim_task. keep. done. Qed.
End Processes.
#[export] Hint Resolve unstarted_dispose_any unstarted_answered unstarted_check_control unstarted_claim : consumer.
#[export] Hint Extern 1 (keeps _ none_started (tell _ _)) => apply unstarted_tell; reflexivity : consumer.
