(* ===== verification/ApiConsumerLemmas.v ===== *)
(** The logics of the consumer followed through the API path: settlement,
    acknowledgements, processes and time. *)
From S2P Require Import Prelude PyText Calendar Json PyJson RunData RunDispatch ScenarioData RunnerValues ScenarioSql PyUrl.
From S2P Require Import ScenarioActions ScenarioProtocol ApiTemplate ApiExecutor ApiPipeline Envelope ApiConsumer ApiConsumerLogic.
Open Scope Z_scope.

Section Settling.
Context {W : Type} `{ConsumerWorld W} (cfg : ConsumerSettings) (envelope : RunTaskEnvelopeV1).

Lemma settles_execution_complete c kw : settles None disposed (execution_complete envelope c kw).
Proof. unfold execution_complete. settle. Qed.
#[local] Hint Resolve settles_execution_complete : consumer.
Lemma settles_report c kw : settles None Some (report envelope c kw).
Proof. unfold report, complete_disposition. settle. Qed.
#[local] Hint Resolve settles_report : consumer.
Lemma settles_check_control c : settles None disposed (check_control envelope c).
Proof. unfold check_control. settle. Qed.
#[local] Hint Resolve settles_check_control : consumer.
Lemma settles_collect d : settles None disposed (collect d).
Proof. unfold collect. settle. Qed.
#[local] Hint Resolve settles_collect : consumer.

Lemma settles_watch fuel c d last : settles None disposed (watch cfg envelope fuel c d last).
Proof. revert last. induction fuel as [|fuel IH]; intros last; cbn [watch]; settle. Qed.
#[local] Hint Resolve settles_watch : consumer.

Lemma settles_execute_isolated fuel c t d : settles None disposed (execute_isolated cfg envelope fuel c t d).
Proof.
  unfold execute_isolated, world_. settle.
Qed.
#[local] Hint Resolve settles_execute_isolated : consumer.
Lemma settles_attempt_once fuel c t d n : settles None disposed (attempt_once cfg envelope fuel c t d n).
Proof. unfold attempt_once, complete_cancelled, complete_total_timeout, world_. settle. Qed.
#[local] Hint Resolve settles_attempt_once : consumer.

Lemma settles_wait_loop fuel c d n left : settles None disposed (wait_loop envelope fuel c d n left).
Proof. revert left. induction fuel as [|fuel IH]; intros left; cbn [wait_loop]; unfold complete_total_timeout; settle. Qed.
#[local] Hint Resolve settles_wait_loop : consumer.
Lemma settles_wait_retry fuel c p d n : settles None disposed (wait_retry_with_control cfg envelope fuel c p d n).
Proof.
  unfold wait_retry_with_control, complete_total_timeout, world_. settle.
Qed.
#[local] Hint Resolve settles_wait_retry : consumer.

Lemma settles_retry_loop fuel left c t p d n : settles None disposed (retry_loop cfg envelope fuel left c t p d n).
Proof.
  revert n. induction left as [|left IH]; intros n; cbn [retry_loop];
    unfold complete_total_timeout, complete_control_result, complete_cancelled; settle.
Qed.
#[local] Hint Resolve settles_retry_loop : consumer.
Lemma settles_execute_with_retries fuel c t p d : settles None disposed (execute_with_retries cfg envelope fuel c t p d).
Proof. unfold execute_with_retries. settle. Qed.
#[local] Hint Resolve settles_execute_with_retries : consumer.
Lemma settles_deferred_cleanup fuel plan ctx rs o d : settles None disposed (execute_deferred_cleanup cfg envelope fuel plan ctx rs o d).
Proof. unfold execute_deferred_cleanup, complete_total_timeout, complete_cancelled, complete_execution_error. settle. Qed.
#[local] Hint Resolve settles_deferred_cleanup : consumer.

Lemma settles_open_case : settles None disposed (open_case envelope).
Proof. unfold open_case. settle. Qed.
Lemma settles_settle_case fuel plan d kw : settles None disposed (settle_case cfg envelope fuel plan d kw).
Proof. unfold settle_case, complete_control_result, complete_cancelled. settle. Qed.
#[local] Hint Resolve settles_open_case settles_settle_case : consumer.
Lemma settles_report_case c kw : settles None id (report_case envelope c kw).
Proof. unfold report_case, complete_disposition. settle. Qed.
#[local] Hint Resolve settles_report_case : consumer.
Lemma settles_execute_case fuel : settles None id (execute_case cfg envelope fuel).
Proof. unfold execute_case, complete_control_result, complete_cancelled, complete_disposition. settle. Qed.
#[local] Hint Resolve settles_execute_case : consumer.
Lemma settles_case_loop rounds fuel : settles None Some (case_loop cfg envelope rounds fuel).
Proof. induction rounds as [|rounds IH]; cbn [case_loop]; settle. Qed.
Lemma settles_claim_task : settles None disposed (claim_task envelope).
Proof. unfold claim_task. settle. Qed.
#[local] Hint Resolve settles_case_loop settles_claim_task : consumer.
Lemma settles_api_delivery rounds fuel : settles None Some (process_api_delivery cfg envelope rounds fuel).
Proof. unfold process_api_delivery. settle. Qed.
End Settling.

(** ** Properties of a whole delivery's log *)

(** What every method keeps, from what the ones that dispose, report and execute
    keep. *)
Section Traversal.
Context {W : Type} `{ConsumerWorld W} (cfg : ConsumerSettings) (envelope : RunTaskEnvelopeV1).
Context (always : bool) (C : list event -> Prop) `{!LogProperty C}.
Context (keeps_dispose : forall o, o <> ACKED -> keeps (W := W) always C (dispose o)).
Context (keeps_report : forall c kw, keeps always C (report envelope c kw)).
Context (keeps_report_case : forall c kw, keeps always C (report_case envelope c kw)).
Context (keeps_isolated : forall fuel c t d, keeps always C (execute_isolated cfg envelope fuel c t d)).
#[local] Hint Resolve keeps_report keeps_report_case keeps_isolated : consumer.
#[local] Hint Extern 1 (keeps _ _ (dispose _)) => apply keeps_dispose; discriminate : consumer.
#[local] Hint Extern 1 (keeps _ _ (answered _ _)) => apply keeps_answered; [apply _ | apply keeps_dispose | discriminate] : consumer.
#[local] Hint Extern 1 (keeps _ _ (check_control _ _)) => apply keeps_check_control; [apply _ | apply keeps_dispose] : consumer.

Lemma keeps_attempt_once fuel c t d n : keeps always C (attempt_once cfg envelope fuel c t d n).
Proof. unfold attempt_once, complete_cancelled, complete_total_timeout, world_. keep. Qed.
Lemma keeps_wait_loop fuel c d n left : keeps always C (wait_loop envelope fuel c d n left).
Proof. revert left. induction fuel as [|fuel IH]; intros left; cbn [wait_loop]; unfold complete_total_timeout; keep. Qed.
#[local] Hint Resolve keeps_attempt_once keeps_wait_loop : consumer.
Lemma keeps_wait_retry fuel c p d n : keeps always C (wait_retry_with_control cfg envelope fuel c p d n).
Proof. unfold wait_retry_with_control, complete_total_timeout, world_. keep. Qed.
#[local] Hint Resolve keeps_wait_retry : consumer.
Lemma keeps_retry_loop fuel left c t p d n : keeps always C (retry_loop cfg envelope fuel left c t p d n).
Proof.
  revert n. induction left as [|left IH]; intros n; cbn [retry_loop];
    unfold complete_total_timeout, complete_control_result, complete_cancelled; keep.
Qed.
#[local] Hint Resolve keeps_retry_loop : consumer.
Lemma keeps_execute_with_retries fuel c t p d : keeps always C (execute_with_retries cfg envelope fuel c t p d).
Proof. unfold execute_with_retries. keep. Qed.
Lemma keeps_deferred_cleanup fuel plan ctx rs o d : keeps always C (execute_deferred_cleanup cfg envelope fuel plan ctx rs o d).
Proof. unfold execute_deferred_cleanup, complete_total_timeout, complete_cancelled, complete_execution_error. keep. Qed.
#[local] Hint Resolve keeps_execute_with_retries keeps_deferred_cleanup : consumer.
Lemma keeps_open_case : keeps always C (open_case envelope).
Proof. unfold open_case. keep. Qed.
Lemma keeps_settle_case fuel plan d kw : keeps always C (settle_case cfg envelope fuel plan d kw).
Proof. unfold settle_case, complete_control_result, complete_cancelled. keep. Qed.
#[local] Hint Resolve keeps_open_case keeps_settle_case : consumer.
Lemma keeps_execute_case fuel : keeps always C (execute_case cfg envelope fuel).
Proof. unfold execute_case, complete_control_result, complete_cancelled. keep. Qed.
#[local] Hint Resolve keeps_execute_case : consumer.
Lemma keeps_case_loop rounds fuel : keeps always C (case_loop cfg envelope rounds fuel).
Proof. induction rounds as [|rounds IH]; cbn [case_loop]; keep. Qed.
End Traversal.

(** ** Acknowledgements *)

Section Acks.
Context {W : Type} `{ConsumerWorld W} (cfg : ConsumerSettings) (envelope : RunTaskEnvelopeV1).


Lemma acks_complete_disposition c kw a (s : Cs W) :
  exists added, cs_log (complete_disposition a s).1 = cs_log s ++ added /\ acks_confirmed (Reported_ c kw (Answer a) :: added).
Proof.
  unfold complete_disposition. destruct (confirms a) eqn:E.
  - exists [Ack]. split; [done|]. by apply ack_after.
  - exists [Reject]. split; [done|]. apply no_ack_confirmed. by repeat constructor.
Qed.
Lemma acks_report c kw : keeps true acks_confirmed (report envelope c kw).
Proof. apply acks_answer; [done | intros o; apply keeps_log_ret; apply _|]. intros a s. apply acks_complete_disposition. Qed.
Lemma acks_report_case c kw : keeps true acks_confirmed (report_case envelope c kw).
Proof.
  apply acks_answer; [done | intros o; apply keeps_log_ret; apply _|]. intros a s.
  repeat case_decide; [eexists [] | eexists [Reject] | rewrite log_then_ret; apply acks_complete_disposition];
    (split; [by rewrite ?app_nil_r | apply no_ack_confirmed; by repeat constructor]).
Qed.
Lemma acks_isolated fuel c t d : keeps true acks_confirmed (execute_isolated cfg envelope fuel c t d).
Proof.
  assert (forall e, e <> Ack -> acks_confirmed [e]) as Hone by (intros e He; apply no_ack_confirmed; by repeat constructor).
  assert (forall last, keeps true acks_confirmed (watch cfg envelope fuel c d last)) as Hw.
  { induction fuel as [|fuel IH]; intros last; cbn [watch]; [keep|]. unfold collect, kill, world_.
    pose proof (keeps_check_control envelope true acks_confirmed acks_dispose c).
    pose proof (keeps_past (W := W) true acks_confirmed).
    keep; by apply Hone. }
  unfold execute_isolated, with_process, world_. keep; by apply Hone.
Qed.

Lemma acks_case_loop rounds fuel : keeps true acks_confirmed (case_loop cfg envelope rounds fuel).
Proof. apply keeps_case_loop; [apply _ | apply acks_dispose | apply acks_report | apply acks_report_case | apply acks_isolated]. Qed.

Lemma acks_api_delivery rounds fuel : keeps true acks_confirmed (process_api_delivery cfg envelope rounds fuel).
Proof. apply acks_claimed, acks_case_loop. Qed.
End Acks.

(** ** Processes *)

Section Processes.
Context {W : Type} `{ConsumerWorld W} (cfg : ConsumerSettings) (envelope : RunTaskEnvelopeV1).

(** The methods that start no process. *)
Lemma unstarted_complete c kw : keeps true none_started (execution_complete envelope c kw).
Proof. unfold execution_complete. keep. Qed.
#[local] Hint Resolve unstarted_complete : consumer.
Lemma unstarted_report c kw : keeps true none_started (report envelope c kw).
Proof. unfold report, complete_disposition. keep. Qed.
Lemma unstarted_report_case c kw : keeps true none_started (report_case envelope c kw).
Proof. unfold report_case, complete_disposition. keep. Qed.
#[local] Hint Resolve unstarted_report unstarted_report_case : consumer.
Lemma unstarted_watch fuel c d last : keeps true none_started (watch cfg envelope fuel c d last).
Proof. revert last. induction fuel as [|fuel IH]; intros last; cbn [watch]; unfold collect, kill, world_; keep; reflexivity. Qed.
Lemma unstarted_wait fuel c p d n : keeps true none_started (wait_retry_with_control cfg envelope fuel c p d n).
Proof. apply keeps_wait_retry; [apply _ | apply unstarted_dispose | apply unstarted_report]. Qed.
Lemma unstarted_open_case : keeps true none_started (open_case envelope).
Proof. apply keeps_open_case; [apply _ | apply unstarted_dispose]. Qed.
#[local] Hint Resolve unstarted_watch unstarted_wait unstarted_open_case : consumer.

Lemma isolated_log fuel c t d s : exists added,
  cs_log (execute_isolated cfg envelope fuel c t d s).1 = cs_log s ++ added /\ (count is_started added <= 1)%nat
  /\ ((execute_isolated cfg envelope fuel c t d s).2 = Running \/ closed added).
Proof.
  unfold execute_isolated. destruct (has_isolation cfg); [apply with_process_log; eauto with consumer|].
  lazymatch goal with |- exists l, cs_log (?m s).1 = _ /\ _ => assert (keeps true none_started m) as Hk by keep end.
  destruct (Hk s) as (l & E & [Hl|[? _]]); [|done]. exists l. split; [exact E|]. unfold closed. rewrite Hl. split; [lia | right; lia].
Qed.

Lemma starts_isolated fuel c t d : starts 1 (execute_isolated cfg envelope fuel c t d).
Proof. intros s. destruct (isolated_log fuel c t d s) as (l & E & Hl & _). by exists l. Qed.
Lemma starts_attempt_once fuel c t d n : starts 1 (attempt_once cfg envelope fuel c t d n).
Proof.
  unfold attempt_once. apply starts_catch; [|unfold world_; intros x; keep].
  apply (starts_bind 0 1); [apply starts_none; keep|]. intros []. apply (starts_bind 1 0); [apply starts_isolated|].
  intros r. unfold complete_cancelled, complete_total_timeout. apply starts_none. keep.
Qed.
Lemma starts_retry_loop fuel left c t p d n : starts (S left) (retry_loop cfg envelope fuel left c t p d n).
Proof.
  revert n. induction left as [|left IH]; intros n; cbn [retry_loop];
    unfold complete_total_timeout, complete_control_result, complete_cancelled;
    (apply (starts_bind 0); [apply starts_none; keep|]; intros [|]; [apply starts_none; keep|]).
  - apply (starts_bind 1 0); [apply starts_attempt_once|]. intros r. apply starts_none. keep.
  - apply (starts_bind 1 (S left)); [apply starts_attempt_once|]. intros [o|kw]; [apply starts_none; keep|].
    destruct (retry_reason kw); [|apply starts_none; keep]. case_decide; [|apply starts_none; keep].
    apply (starts_bind 0); [apply starts_none; keep|]. intros [o|[control|]]; [apply starts_none; keep..|].
    apply (starts_bind 0); [apply starts_none; keep|]. intros [o|[[|] [control|]]]; try (apply starts_none; solve [keep]). apply IH.
Qed.
Lemma starts_with_retries fuel c t p d : starts 2 (execute_with_retries cfg envelope fuel c t p d).
Proof.
  unfold execute_with_retries. destruct (validate_retry_policy p) eqn:E; [|apply starts_none; keep].
  eapply starts_le; [apply starts_retry_loop|]. unfold validate_retry_policy, require in E.
  destruct (_ && _) eqn:Hb in E; [|done]. rewrite !andb_true_iff in Hb. lia.
Qed.
Lemma starts_deferred_cleanup fuel plan ctx rs o d : starts 1 (execute_deferred_cleanup cfg envelope fuel plan ctx rs o d).
Proof.
  unfold execute_deferred_cleanup. apply (starts_bind 1 0); [apply starts_isolated|]. intros r.
  unfold complete_total_timeout, complete_cancelled, complete_execution_error. apply starts_none. keep.
Qed.
Lemma starts_settle_case fuel plan d kw : starts 1 (settle_case cfg envelope fuel plan d kw).
Proof.
  assert (forall A (k : _ -> M W A) ctx rs o, (forall r, keeps true none_started (k r)) ->
    starts 1 (r ← execute_deferred_cleanup cfg envelope fuel plan ctx rs o d; k r)) as Hd.
  { intros A k ctx rs o Hk. apply (starts_bind 1 0); [apply starts_deferred_cleanup|]. intros r. by apply starts_none. }
  unfold settle_case, complete_control_result, complete_cancelled.
  apply (starts_bind 0 1); [apply starts_none; keep|]. intros [o|[control|]]; [apply starts_none; keep| |].
  - destruct (kw_cleanup kw); [|apply starts_none; keep]. apply Hd. intros r. keep.
  - destruct (kw_cleanup kw); [|apply starts_none; keep]. destruct (kw_response kw); [|apply starts_none; keep].
    apply (starts_bind 0 1); [apply starts_none; keep|]. intros ev0. apply (starts_bind 0 1).
    + apply starts_none, keeps_answered; [apply _ | apply unstarted_dispose | done].
    + intros [o|ev]; [apply starts_none; keep|]. apply Hd. intros r. keep.
Qed.
Lemma starts_execute_case fuel : starts 3 (execute_case cfg envelope fuel).
Proof.
  unfold execute_case, complete_control_result, complete_cancelled.
  apply (starts_bind 0 3); [apply starts_none; keep|]. intros [o|[plan started]]; [apply starts_none; keep|].
  case_decide; [apply starts_none; keep|]. apply (starts_bind 0 3); [apply starts_none; keep|].
  intros [o|[control|]]; [apply starts_none; keep..|]. apply (starts_bind 2 1); [apply starts_with_retries|].
  intros [o|kw]; [apply starts_none; keep|]. apply (starts_bind 1 0); [apply starts_settle_case|].
  intros [o|kw']; apply starts_none; keep.
Qed.
End Processes.

Section Closing.
Context {W : Type} `{ConsumerWorld W} (cfg : ConsumerSettings) (envelope : RunTaskEnvelopeV1).

Lemma closed_case_loop rounds fuel : keeps false closed (case_loop cfg envelope rounds fuel).
Proof.
  apply keeps_case_loop; [apply _ | | | |].
  - intros o Ho. by apply closed_unstarted, unstarted_dispose.
  - intros c kw. apply closed_unstarted, unstarted_report.
  - intros c kw. apply closed_unstarted, unstarted_report_case.
  - intros fuel' c t d s. destruct (isolated_log cfg envelope fuel' c t d s) as (l & E & _ & Hl). exists l. split; [done|].
    destruct Hl; [by right | by left].
Qed.
Lemma closed_api_delivery rounds fuel : keeps false closed (process_api_delivery cfg envelope rounds fuel).
Proof.
  assert (forall o, keeps (W := W) false closed (dispose o)) as Hd by (intros o; apply closed_unstarted, unstarted_dispose_any).
  assert (forall A u (a : answer A), keeps (W := W) false closed (answered u a)) as Ha by (intros A v a; unfold answered; keep).
  pose proof (closed_case_loop rounds fuel). unfold process_api_delivery, claim_task. keep. unfold closed. cbn. lia.
Qed.
End Closing.

Section Delivery.
Context {W : Type} `{ConsumerWorld W} (cfg : ConsumerSettings) (runner_id : pytext).
Context (deliver : TaskEnvelope -> M W ConsumeOutcome).

Lemma settles_release : settles (W := W) None (fun _ => None) (_ ← world_ w_release; log Released).
Proof. unfold world_. settle. Qed.

Lemma settles_execution_delivery body :
  (forall e, settles None Some (deliver e)) ->
  settles None Some (process_execution_delivery cfg runner_id deliver body) /\ settles None Some (process_delivery (W := W) runner_id body).
Proof.
  intros Ho. pose proof settles_release. pose proof (fun e => settles_claim_task (W := W) e).
  split; [unfold process_execution_delivery | unfold process_delivery]; settle.
Qed.
(** What the deliveries keep, the entry keeps. *)
Lemma keeps_execution_delivery always C `{!LogProperty C} body :
  (forall o, o <> ACKED -> keeps (W := W) always C (dispose o)) -> C [Acquired] -> C [Released] ->
  (forall e, keeps always C (deliver e)) -> keeps always C (process_execution_delivery cfg runner_id deliver body).
Proof.
  intros Hd Ha Hr Ho. pose proof (Hd REJECTED ltac:(done)). pose proof (Hd REQUEUED ltac:(done)).
  unfold process_execution_delivery, world_. keep; done.
Qed.
End Delivery.

(** ** The deadline *)

Section Deadline.
Context {W : Type} `{TimedWorld W time_of} (cfg : ConsumerSettings) (envelope : RunTaskEnvelopeV1).

Lemma timely_complete T c kw : timely T (execution_complete envelope c kw).
Proof. unfold execution_complete. time_. Qed.
Lemma timely_check_control T c : timely T (check_control envelope c).
Proof. unfold check_control. time_. Qed.
#[local] Hint Resolve timely_complete timely_check_control : consumer.
Lemma timely_report T c kw : timely T (report envelope c kw).
Proof. unfold report, complete_disposition. time_. Qed.
Lemma timely_report_case T c kw : timely T (report_case envelope c kw).
Proof. unfold report_case, complete_disposition. time_. Qed.
#[local] Hint Resolve timely_report timely_report_case : consumer.
Lemma timely_collect T d : timely T (collect d).
Proof. unfold collect. time_. Qed.
#[local] Hint Resolve timely_collect : consumer.

(** The rounds of the watch: each takes 0.2 seconds. *)
Lemma timely_watch fuel c d last T :
  (rounds_to d T < fuel)%nat -> timely T (watch cfg envelope fuel c (Some d) last).
Proof.
  revert last T. induction fuel as [|fuel IH]; intros last T Hf; [lia|]. cbn [watch].
  apply timely_bind; [eauto with consumer|]. intros [|]; cbn [negb]; [|eauto with consumer].
  apply timely_polled; [eauto with consumer|].
  assert (forall last', timely (T + 200000) (late ← past (Some d); if late : bool then _ ← kill; mret (inr TotalTimeout)
            else watch cfg envelope fuel c (Some d) last')) as Hgo.
  { intros last'. apply timely_go_on. intros Hd. apply IH. by apply rounds_to_next. }
  repeat (apply Hgo || timely_step).
Qed.
Lemma timely_isolated fuel c t d T : (rounds_to d T < fuel)%nat ->
  timely T (execute_isolated cfg envelope fuel c t (Some d)).
Proof. intros Hf. pose proof (fun last => timely_watch fuel c d last T Hf). unfold execute_isolated, world_. time_. Qed.

(** The rounds of the waiting: each takes a microsecond at least off what remains. *)
Lemma timely_wait_loop fuel c d n left T : 0 < left -> (Z.to_nat left < fuel)%nat ->
  timely T (wait_loop envelope fuel c d n left).
Proof.
  revert left. induction fuel as [|fuel IH]; intros left Hl Hf; [lia|]. cbn [wait_loop]. unfold complete_total_timeout.
  assert (forall step, 1 <= step <= left -> timely T (stopped ← world (w_stop_wait step);
    if stopped : bool then mret (inr (true, None))
    else late ← past d;
         if late : bool then o ← report envelope c (failure_kwargs TIMEOUT_ (u "TOTAL_TIMEOUT") n None); mret (inl o)
         else r ← check_control envelope c;
              match r with
              | inl o => mret (inl o)
              | inr (Some control) => mret (inr (true, Some control))
              | inr None => if decide (left - step <= 0) then mret (inr (false, None)) else wait_loop envelope fuel c d n (left - step)
              end)) as Hstep.
  { intros step Hs. do 2 (apply timely_bind; [eauto with consumer|]; intros [|]; [time_|]).
    apply timely_bind; [eauto with consumer|]. intros [o|[control|]]; [time_..|]. case_decide; [time_|]. apply IH; lia. }
  destruct d as [d|]; [|apply Hstep; lia]. apply timely_bind; [eauto with consumer|]. intros now.
  case_decide; [time_|]. apply Hstep. lia.
Qed.
Lemma timely_wait_retry fuel c p d n T : (Z.to_nat 30000000 < fuel)%nat ->
  timely T (wait_retry_with_control cfg envelope fuel c p d n).
Proof.
  intros Hf. unfold wait_retry_with_control, complete_total_timeout, world_. cbv zeta.
  case_decide as Hd; [time_|]. destruct (has_stop_event cfg); [|time_]. apply timely_wait_loop; lia.
Qed.

(** Fuel that is enough from the time [T] to the deadline [d]. *)
Definition enough (d T : Z) (fuel : nat) : Prop :=
  (rounds_to d T < fuel)%nat /\ (Z.to_nat 30000000 < fuel)%nat.

Section Fuel.
Context (d T : Z) (fuel : nat) (Hfuel : enough d T fuel).
Lemma timely_isolated_enough c t : timely T (execute_isolated cfg envelope fuel c t (Some d)).
Proof. apply timely_isolated, Hfuel. Qed.
Lemma timely_wait_enough c p n : timely T (wait_retry_with_control cfg envelope fuel c p (Some d) n).
Proof. apply timely_wait_retry, Hfuel. Qed.
#[local] Hint Resolve timely_isolated_enough timely_wait_enough : consumer.
Lemma timely_attempt_once c t n : timely T (attempt_once cfg envelope fuel c t (Some d) n).
Proof. unfold attempt_once, complete_cancelled, complete_total_timeout, world_. time_. Qed.
#[local] Hint Resolve timely_attempt_once : consumer.
Lemma timely_retry_loop left c t p n : timely T (retry_loop cfg envelope fuel left c t p (Some d) n).
Proof.
  revert n. induction left as [|left IH]; intros n; cbn [retry_loop];
    unfold complete_total_timeout, complete_control_result, complete_cancelled; time_.
Qed.
#[local] Hint Resolve timely_retry_loop : consumer.
Lemma timely_with_retries c t p : timely T (execute_with_retries cfg envelope fuel c t p (Some d)).
Proof. unfold execute_with_retries. time_. Qed.
Lemma timely_deferred_cleanup plan ctx rs o : timely T (execute_deferred_cleanup cfg envelope fuel plan ctx rs o (Some d)).
Proof. unfold execute_deferred_cleanup, complete_total_timeout, complete_cancelled, complete_execution_error. time_. Qed.
#[local] Hint Resolve timely_with_retries timely_deferred_cleanup : consumer.
Lemma timely_settle_case plan kw : timely T (settle_case cfg envelope fuel plan (Some d) kw).
Proof. unfold settle_case, complete_control_result, complete_cancelled. time_. Qed.
End Fuel.

Lemma timely_open_case T : timely T (open_case envelope).
Proof. unfold open_case. time_. Qed.
Lemma open_case_started s s' plan started : open_case envelope s = (s', Done (inr (plan, started))) -> is_Some (st_started_at started).
Proof.
  unfold open_case. rewrite bind_world. destruct (w_plan envelope (cs_world s)) as [[plan'| | | |] w]; try done. cbn [fst snd answered].
  rewrite (bind_done (mret (inr plan')) _ _ _ _ eq_refl). destruct (validate_retry_policy _); [|done]. rewrite bind_world. cbn [cs_world].
  pose proof (tw_started_at envelope (tk_case_run_id plan') w) as Hs.
  destruct (w_start envelope (tk_case_run_id plan') w) as [[a1| | | |] w']; try done. cbn. intros [= _ _ <-]. by apply Hs.
Qed.

(** A case run always comes to an end.  However long the target takes to answer,
    and even if the child process hangs, the execution of a case run ends once its
    deadline is past: enough fuel is a round for every 0.2 seconds to the deadline
    and one for every microsecond of the longest wait between two attempts. *)
Lemma case_ends (s : Cs W) :
  exists n, forall fuel, (n <= fuel)%nat -> (execute_case cfg envelope fuel s).2 <> Running.
Proof.
  unfold execute_case. destruct (timely_open_case (time_of (cs_world s)) s ltac:(lia)) as [Hend Ht].
  destruct (open_case envelope s) as [s1 [r|x|]] eqn:E; cbn [fst snd] in *; [|exists O; intros fuel _; unfold mbind, M_bind; by rewrite E | done].
  destruct r as [o|[plan started]].
  { exists O. intros fuel _. by rewrite (bind_done _ _ _ _ _ E). }
  destruct (open_case_started _ _ _ _ E) as [t Hst].
  set (d := t + tk_total_timeout_ms plan * 1000). set (T := time_of (cs_world s1)).
  exists (S (Nat.max (rounds_to d T) (Z.to_nat 30000000))). intros fuel Hf. rewrite (bind_done _ _ _ _ _ E).
  assert (enough d T fuel) as Henough by (unfold enough; lia).
  pose proof (timely_with_retries d T fuel Henough). pose proof (timely_settle_case d T fuel Henough).
  lazymatch goal with |- (?m s1).2 <> _ => assert (timely T m) as Hm; [|by apply (Hm s1)] end.
  unfold complete_control_result, complete_cancelled, deadline_from. rewrite Hst. cbn [fmap option_fmap option_map]. time_.
Qed.
End Deadline.
