(* ===== verification/Supervision.v ===== *)
(** The supervision of the child process of a scenario or a Web execution
    ([_execute_scenario_isolated] and [_execute_web_isolated] of
    [runner/consumer.py], which differ in the process and in what is reported of
    one that ended without a message): the watch over the total timeout, over a
    force stop and over a cancellation the process is asked to carry out itself. *)
From S2P Require Import Prelude PyText Calendar Json PyJson RunData RunDispatch ScenarioData RunnerValues ScenarioSql PyUrl.
From S2P Require Import ScenarioActions ScenarioProtocol ApiTemplate ApiExecutor ApiPipeline Envelope ApiConsumer.
From S2P Require Import ApiConsumerLogic.
Open Scope Z_scope.

(** How a supervised process ends. *)
Inductive ProcessEnd (Msg : Type) := Outcome (o : Msg) | Forced | OutOfTime | Unresponsive.
Arguments Outcome {Msg}.
Arguments Forced {Msg}.
Arguments OutOfTime {Msg}.
Arguments Unresponsive {Msg}.

Section Supervision.
Context {W : Type} `{ConsumerWorld W} (cfg : ConsumerSettings) (envelope : RunTaskEnvelopeV1).
(** What the process sent, and what stands for a message it did not send. *)
Context {Msg : Type} (sent : W -> option Msg * W) (crashed : Msg).

(** [deadline is not None and now >= deadline]. *)
Definition reached (deadline : option Z) (now : Z) : bool := match deadline with Some d => d <=? now | None => false end.

(** After the loop; [cancelling] is [cancel_requested]. *)
Definition collect_process (deadline : option Z) (cancelling : bool) : M W (ConsumeOutcome + ProcessEnd Msg) :=
  r ← world w_poll;
  _ ← or_raise r;
  o ← world sent;
  match o with
  | Some o => mret (inr (Outcome o))
  | None =>
      if cancelling then mret (inr Unresponsive)
      else late ← past deadline; mret (inr (if late : bool then OutOfTime else Outcome crashed))
  end.

(** The loop; [cancel] is [cancel_deadline], there once [cancel_requested]. *)
Fixpoint watch_process (fuel : nat) (case_run_id : Z) (deadline : option Z) (last : Z) (cancel : option Z)
  : M W (ConsumeOutcome + ProcessEnd Msg) :=
  match fuel with
  | O => still_running
  | S fuel' =>
      let stop e := _ ← kill; mret (inr e) in
      alive ← world w_is_alive;
      if negb alive then collect_process deadline (bool_decide (is_Some cancel))
      else
        r ← world w_poll;
        ready ← or_raise r;
        if ready : bool then collect_process deadline (bool_decide (is_Some cancel))
        else
          now ← world w_clock;
          if reached deadline now then stop OutOfTime
          else
            match cancel with
            | Some c => if reached (Some c) now then stop Unresponsive else watch_process fuel' case_run_id deadline last cancel
            | None =>
                if decide (force_stop_poll cfg <= now - last) then
                  c ← check_control envelope case_run_id;
                  match c with
                  | inl o => _ ← kill; mret (inl o)
                  | inr (Some FORCE_STOP) => stop Forced
                  | inr (Some CANCEL) =>
                      taken ← world w_request_cancel;
                      if taken : bool then
                        _ ← log CancelRequested;
                        watch_process fuel' case_run_id deadline now (Some (now + scenario_cancel_wait cfg))
                      else stop Unresponsive
                  | inr None => watch_process fuel' case_run_id deadline now None
                  end
                else watch_process fuel' case_run_id deadline last None
            end
  end.

Definition supervise (create : W -> (task_exn + unit) * W) (fuel : nat) (case_run_id : Z) (deadline : option Z)
  : M W (ConsumeOutcome + ProcessEnd Msg) :=
  with_process create (watch_process fuel case_run_id deadline 0 None).

(** The disposal of a report that is final when the statuses of run and case run
    agree with the outcome. *)
Definition report_run (case_run_id : Z) (outcome : pytext) (report : W -> answer CompleteAnswer * W) : M W ConsumeOutcome :=
  r ← tell report (ReportedRun case_run_id outcome);
  match r with inl o => mret o | inr a => dispose (disposition a) end.

(** ** Its logic *)

Lemma settles_collect_process d c : settles None disposed (collect_process d c).
Proof. unfold collect_process. settle. Qed.
Lemma settles_control c : settles None disposed (check_control envelope c).
Proof. unfold check_control. settle. Qed.
#[local] Hint Resolve settles_collect_process settles_control : consumer.
Lemma settles_watch_process fuel c d last cancel : settles None disposed (watch_process fuel c d last cancel).
Proof. revert last cancel. induction fuel as [|fuel IH]; intros last cancel; cbn [watch_process]; settle. Qed.
#[local] Hint Resolve settles_watch_process : consumer.
Lemma settles_supervise create fuel c d : settles None disposed (supervise create fuel c d).
Proof. unfold supervise. eauto with consumer. Qed.
Lemma settles_report_run c o f : settles None Some (report_run c o f).
Proof. unfold report_run. settle. Qed.

Section Keeps.
Context (always : bool) (C : list event -> Prop) `{!LogProperty C}.
Context (keeps_dispose : forall o, o <> ACKED -> keeps (W := W) always C (dispose o)).
Context (keeps_one : C [CancelRequested] /\ C [Killed]).
#[local] Hint Extern 1 (keeps _ _ (check_control _ _)) => apply keeps_check_control; [apply _ | apply keeps_dispose] : consumer.
Lemma keeps_watch_process fuel c d last cancel : keeps always C (watch_process fuel c d last cancel).
Proof.
  destruct keeps_one. revert last cancel.
  induction fuel as [|fuel IH]; intros last cancel; cbn [watch_process]; unfold collect_process, kill, world_; keep; done.
Qed.
Lemma keeps_supervise create fuel c d : C [Started] -> C [Closed] -> keeps always C (supervise create fuel c d).
Proof. intros ? ?. pose proof keeps_watch_process. unfold supervise, with_process, world_. keep; done. Qed.
End Keeps.

Lemma acks_report_run c o f : keeps true acks_confirmed (report_run c o f).
Proof.
  apply acks_answer; [done | intros ?; apply keeps_log_ret, _|]. intros a s. cbn beta iota.
  exists (settled_as (Some (disposition a))). unfold dispose, mbind, M_bind, log.
  destruct (disposition a) eqn:E; cbn; (split; [by rewrite <- ?app_assoc|]);
    [by apply ack_after | apply no_ack_confirmed; by repeat constructor..].
Qed.
Lemma acks_supervise create fuel c d : keeps true acks_confirmed (supervise create fuel c d).
Proof.
  assert (forall e, e <> Ack -> acks_confirmed [e]) as Hone by (intros e He; apply no_ack_confirmed; by repeat constructor).
  apply keeps_supervise; [apply _ | apply acks_dispose | split | |]; by apply Hone.
Qed.
Lemma supervise_log create fuel c d s : exists added,
  cs_log (supervise create fuel c d s).1 = cs_log s ++ added /\ (count is_started added <= 1)%nat
  /\ ((supervise create fuel c d s).2 = Running \/ closed added).
Proof. apply with_process_log, keeps_watch_process; [apply _ | apply unstarted_dispose | done]. Qed.
Lemma unstarted_report_run c o f : keeps true none_started (report_run c o f).
Proof. unfold report_run. keep. Qed.
End Supervision.
#[export] Hint Resolve settles_supervise settles_report_run settles_control acks_report_run acks_supervise unstarted_report_run : consumer.

(** ** Time *)

Section Deadline.
Context {W : Type} `{TimedWorld W time_of} (cfg : ConsumerSettings) (envelope : RunTaskEnvelopeV1).
Context {Msg : Type} (sent : W -> option Msg * W) (crashed : Msg).
Context (sent_timely : forall w, time_of w <= time_of (sent w).2).

Lemma timely_control T c : timely T (check_control envelope c).
Proof. unfold check_control. time_. Qed.
#[local] Hint Resolve timely_control : consumer.
Lemma timely_collect_process T d c : timely T (collect_process sent crashed d c).
Proof. unfold collect_process. time_. Qed.
#[local] Hint Resolve timely_collect_process : consumer.

(** The rounds of the watch. *)
Lemma timely_watch_process fuel c d last cancel T :
  (rounds_to d T < fuel)%nat -> timely T (watch_process cfg envelope sent crashed fuel c (Some d) last cancel).
Proof.
  revert last cancel T. induction fuel as [|fuel IH]; intros last cancel T Hf; [lia|]. cbn [watch_process].
  apply timely_bind; [eauto with consumer|]. intros [|]; cbn [negb]; [|eauto with consumer].
  apply timely_polled; [eauto with consumer|]. intros s Hs. rewrite bind_world. pose proof (tw_clock (cs_world s)) as [-> Ht].
  lazymatch goal with |- (?m ?s').2 <> _ /\ _ => enough (timely (T + 200000) m) as Hm by (apply Hm; cbn; lia) end.
  cbn [reached]. destruct (Z.leb_spec d (time_of (cs_world s))); [time_|].
  assert (forall last' cancel', timely (T + 200000) (watch_process cfg envelope sent crashed fuel c (Some d) last' cancel')) as Hgo.
  { intros last' cancel'. apply IH. apply rounds_to_next; [lia | done]. }
  repeat (apply Hgo || timely_step).
Qed.
Lemma timely_supervise create fuel c d T : (forall w, time_of w <= time_of (create w).2) -> (rounds_to d T < fuel)%nat ->
  timely T (supervise cfg envelope sent crashed create fuel c (Some d)).
Proof. intros Hc Hf. apply timely_with_process; [done|]. by apply timely_watch_process. Qed.
Lemma timely_report_run T c o f : (forall w, time_of w <= time_of (f w).2) -> timely T (report_run c o f).
Proof. intros Hf. unfold report_run. time_. Qed.
End Deadline.
#[export] Hint Resolve timely_control timely_report_run : consumer.
