(* ===== verification/ScenarioConsumer.v ===== *)
(** The runner's consumption of scenario tasks ([runner/consumer.py]): claim, plan and
    start, the supervised process, the evaluation of deferred AI assertions with the
    cleanup in a process of its own, and the report. *)
From S2P Require Import Prelude PyText Calendar Json PyJson RunData RunDispatch ScenarioData RunnerValues ScenarioSql PyUrl.
From S2P Require Import ScenarioActions ScenarioRun ScenarioProtocol ApiTemplate ApiExecutor ApiPipeline Envelope ApiConsumer.
From S2P Require Import ApiConsumerLogic Supervision.
Open Scope Z_scope.

(** [ScenarioExecutionPlanResult]. *)
Record ScenarioTaskPlan := { sk_case_run_id : Z; sk_plan : ScenarioPlan; sk_total_timeout_ms : Z }.

(** The client's methods for scenarios, and the processes of the two factories. *)
Class ScenarioWorld (W : Type) := {
  w_scenario_plan : RunTaskEnvelopeV1 -> W -> answer ScenarioTaskPlan * W;
  w_scenario_start : RunTaskEnvelopeV1 -> Z -> W -> answer StartAnswer * W;
  w_scenario_evaluate : RunTaskEnvelopeV1 -> Z -> list (string * ScenarioData.ApiExecutionResult) -> W -> answer AiEvaluation * W;
  w_scenario_post : RunTaskEnvelopeV1 -> Z -> Completion -> W -> answer CompleteAnswer * W;
  w_scenario_create : ScenarioPlan -> ScenarioTask -> W -> (task_exn + unit) * W;
  w_scenario_outcome : W -> option IsolatedOutcome * W;
}.

Definition outcome_text (o : NodeOutcome) : string :=
  match o with
  | SUCCESS => "SUCCESS" | SKIPPED => "SKIPPED" | FAILED => "FAILED" | TIMEOUT => "TIMEOUT" | CANCELLED => "CANCELLED"
  end.

Section Scenario.
Context {W : Type} `{ConsumerWorld W} `{ScenarioWorld W} (cfg : ConsumerSettings) (envelope : RunTaskEnvelopeV1).

(** [scenario_execution_complete] of the client: a completion that fails its own
    checks is not posted. *)
Definition w_scenario_complete (case_run_id : Z) (c : Completion) (w : W) : answer CompleteAnswer * W :=
  if completion_ok c then w_scenario_post envelope case_run_id c w else (RunnerFailed, w).
Definition report_scenario (case_run_id : Z) (c : Completion) : M W ConsumeOutcome :=
  report_run case_run_id (u (outcome_text (cp_outcome c))) (w_scenario_complete case_run_id c).

(** [_complete_scenario_cancelled] and [_complete_scenario_control]. *)
Definition cancelled_completion (error_type error_message : string) : Completion :=
  {| cp_outcome := CANCELLED; cp_traces := []; cp_error_type := Some (u error_type);
     cp_error_message := Some (u error_message); cp_evaluation_token := None |}.
Definition complete_scenario_cancelled (case_run_id : Z) : M W ConsumeOutcome :=
  report_scenario case_run_id (cancelled_completion "CANCEL_REQUESTED" CANCEL_REQUESTED_ERROR_MESSAGE).
Definition complete_scenario_control (case_run_id : Z) (control : Control) : M W ConsumeOutcome :=
  match control with
  | FORCE_STOP => report_scenario case_run_id (cancelled_completion "FORCE_STOP_REQUESTED" FORCE_STOPPED_ERROR_MESSAGE)
  | CANCEL => complete_scenario_cancelled case_run_id
  end.

(** How the supervision of a scenario ends, for [_complete_scenario_result]. *)
Definition isolation_end (e : ProcessEnd IsolatedOutcome) : IsolationEnd :=
  match e with
  | Outcome o => Reported o | Forced => FORCE_STOPPED | OutOfTime => TOTAL_TIMEOUT | Unresponsive => CANCEL_UNRESPONSIVE
  end.

(** [_execute_scenario_isolated]. *)
Definition execute_scenario_isolated (fuel : nat) (plan : ScenarioTaskPlan) (deadline : option Z)
  : M W (ConsumeOutcome + ProcessEnd IsolatedOutcome) :=
  supervise cfg envelope w_scenario_outcome worker_crashed (w_scenario_create (sk_plan plan) ExecutePlan) fuel
    (sk_case_run_id plan) deadline.

(** [_execute_scenario_cleanup_isolated]. *)
Definition timed_out_cleanup : IsolatedOutcome :=
  SCENARIO_CLEANUP_RESULT {| cl_outcome := FAILED; cl_traces := []; cl_error_type := Some (u "TOTAL_TIMEOUT");
                             cl_error_message := Some (u TOTAL_TIMEOUT_ERROR_MESSAGE) |}.
Fixpoint watch_cleanup (fuel : nat) (deadline : option Z) : M W (option IsolatedOutcome) :=
  match fuel with
  | O => still_running
  | S fuel' =>
      let over := r ← world w_poll; _ ← or_raise r; world w_scenario_outcome in
      alive ← world w_is_alive;
      if negb alive then over
      else
        r ← world w_poll;
        ready ← or_raise r;
        if ready : bool then over
        else
          late ← past deadline;
          if late : bool then _ ← kill; mret (Some timed_out_cleanup) else watch_cleanup fuel' deadline
  end.
Definition execute_scenario_cleanup (fuel : nat) (plan : ScenarioPlan) (task : CleanupTask) (deadline : option Z)
  : M W (option IsolatedOutcome) :=
  with_process (w_scenario_create plan (ExecuteCleanup task)) (watch_cleanup fuel deadline).

(** A successful result with deferred AI assertions. *)
Definition deferred (e : IsolationEnd) : option (ScenarioResult * fields) :=
  match e with
  | Reported (SCENARIO_RESULT r) =>
      match res_pending_ai r, res_cleanup_context r with
      | _ :: _, Some context => if decide (res_outcome r = SUCCESS) then Some (r, context) else None
      | _, _ => None
      end
  | _ => None
  end.

(** [_complete_scenario_result]: the evaluation and the cleanup of a deferred result
    are requests and a process of their own; the completion is that of
    [completion_of] for their answers. *)
Definition scenario_completion (fuel : nat) (plan : ScenarioTaskPlan) (deadline : option Z) (e : IsolationEnd)
  : M W (ConsumeOutcome + Completion) :=
  let nodes := spl_nodes (sk_plan plan) in
  let completed evaluate cleanup :=
    match completion_of nodes evaluate cleanup e with
    | inl o => o ← dispose o; mret (inl o)
    | inr c => mret (inr c)
    end in
  match deferred e with
  | None => completed (fun _ => UnknownFailure) (fun _ => None)
  | Some (r, context) =>
      a ← world (w_scenario_evaluate envelope (sk_case_run_id plan) (res_pending_ai r));
      ev ← answered REQUEUED a;
      match ev with
      | inl o => mret (inl o)
      | inr ev =>
          match judge_all (wire <$> res_traces r) (ev_node_results ev) with
          | None => o ← dispose REJECTED; mret (inl o)
          | Some _ =>
              c ← execute_scenario_cleanup fuel (sk_plan plan)
                    {| ct_context := context; ct_primary_outcome := ev_cleanup_outcome ev |} deadline;
              completed (fun _ => Answer ev) (fun _ => c)
          end
      end
  end.
Definition complete_scenario_task (fuel : nat) (plan : ScenarioTaskPlan) (deadline : option Z) (e : IsolationEnd) : M W ConsumeOutcome :=
  r ← scenario_completion fuel plan deadline e;
  match r with inl o => mret o | inr c => report_scenario (sk_case_run_id plan) c end.

(** The plan, started. *)
Definition open_scenario : M W (ConsumeOutcome + (ScenarioTaskPlan * StartAnswer)) :=
  a ← world (w_scenario_plan envelope);
  r ← answered REJECTED a;
  match r with
  | inl o => mret (inl o)
  | inr plan =>
      a ← world (w_scenario_start envelope (sk_case_run_id plan));
      r ← answered REJECTED a;
      mret (match r with inl o => inl o | inr started => inr (plan, started) end)
  end.

(** From the started plan to the disposal. *)
Definition run_scenario (fuel : nat) (plan : ScenarioTaskPlan) (started : StartAnswer) : M W ConsumeOutcome :=
  let case_run_id := sk_case_run_id plan in
  if decide (st_status started = u "CANCELLING") then complete_scenario_cancelled case_run_id
  else
    c ← check_control envelope case_run_id;
    match c with
    | inl o => mret o
    | inr (Some control) => complete_scenario_control case_run_id control
    | inr None =>
        let deadline := deadline_from (st_started_at started) (sk_total_timeout_ms plan) in
        r ← execute_scenario_isolated fuel plan deadline;
        match r with
        | inl o => mret o
        | inr e =>
            c ← check_control envelope case_run_id;
            match c with
            | inl o => mret o
            | inr (Some control) => complete_scenario_control case_run_id control
            | inr None => complete_scenario_task fuel plan deadline (isolation_end e)
            end
        end
    end.

(** [_process_scenario_execution_delivery]. *)
Definition process_scenario_delivery (fuel : nat) : M W ConsumeOutcome :=
  r ← claim_task envelope;
  match r with
  | inl o => mret o
  | inr status =>
      if decide (status = u "CANCELLED") then dispose ACKED
      else
        r ← open_scenario;
        match r with inl o => mret o | inr (plan, started) => run_scenario fuel plan started end
  end.
End Scenario.

(** ** Its logic *)

Section Logic.
Context {W : Type} `{ConsumerWorld W} `{ScenarioWorld W} (cfg : ConsumerSettings) (envelope : RunTaskEnvelopeV1).

Lemma settles_watch_cleanup fuel d : settles None (fun _ => None) (watch_cleanup fuel d).
Proof. induction fuel as [|fuel IH]; cbn [watch_cleanup]; settle. Qed.
#[local] Hint Resolve settles_watch_cleanup : consumer.
Lemma settles_scenario_cleanup fuel p t d : settles None (fun _ => None) (execute_scenario_cleanup fuel p t d).
Proof. unfold execute_scenario_cleanup. eauto with consumer. Qed.
#[local] Hint Resolve settles_scenario_cleanup : consumer.
Lemma settles_scenario_completion fuel p d e : settles None disposed (scenario_completion envelope fuel p d e).
Proof. unfold scenario_completion. settle. Qed.
Lemma settles_open_scenario : settles None disposed (open_scenario envelope).
Proof. unfold open_scenario. settle. Qed.
Lemma settles_claim : settles None disposed (claim_task envelope).
Proof. unfold claim_task. settle. Qed.
#[local] Hint Resolve settles_scenario_completion settles_open_scenario settles_claim : consumer.
Lemma settles_scenario_task fuel p d e : settles None Some (complete_scenario_task envelope fuel p d e).
Proof. unfold complete_scenario_task, report_scenario. settle. Qed.
#[local] Hint Resolve settles_scenario_task : consumer.
Lemma settles_run_scenario fuel p st : settles None Some (run_scenario cfg envelope fuel p st).
Proof.
  unfold run_scenario, complete_scenario_control, complete_scenario_cancelled, report_scenario, execute_scenario_isolated. settle.
Qed.
#[local] Hint Resolve settles_run_scenario : consumer.
Lemma settles_scenario_delivery fuel : settles None Some (process_scenario_delivery cfg envelope fuel).
Proof. unfold process_scenario_delivery. settle. Qed.

(** Acknowledgements. *)
Lemma acks_scenario_cleanup fuel p t d : keeps true acks_confirmed (execute_scenario_cleanup fuel p t d).
Proof.
  assert (forall e, e <> Ack -> acks_confirmed [e]) as Hone by (intros e He; apply no_ack_confirmed; by repeat constructor).
  assert (keeps true acks_confirmed (watch_cleanup fuel d)) as Hw.
  { induction fuel as [|fuel IH]; cbn [watch_cleanup]; unfold kill, world_; keep; by apply Hone. }
  unfold execute_scenario_cleanup, with_process, world_. keep; by apply Hone.
Qed.
#[local] Hint Resolve acks_scenario_cleanup : consumer.
(** What [completion_of] answers instead of a completion is no acknowledgement. *)
Lemma refused_completion nodes evaluate cleanup e o : completion_of nodes evaluate cleanup e = inl o -> o <> ACKED.
Proof. unfold completion_of, evaluated_completion. intros Hc. repeat case_match; simplify_eq; done. Qed.
Lemma acks_completed {A} nodes evaluate cleanup e (f : ConsumeOutcome -> A) (g : Completion -> M W A) :
  (forall c, keeps true acks_confirmed (g c)) ->
  keeps true acks_confirmed (match completion_of nodes evaluate cleanup e with
                             | inl o => o ← dispose o; mret (f o) | inr c => g c end).
Proof.
  intros Hg. destruct (completion_of _ _ _ _) as [o|c] eqn:E; [|apply Hg].
  apply keeps_log_bind; [apply _ | apply acks_dispose; by eapply refused_completion|]. intros o'. eauto with consumer.
Qed.
Lemma acks_scenario_completion fuel p d e : keeps true acks_confirmed (scenario_completion envelope fuel p d e).
Proof.
  unfold scenario_completion. cbv zeta.
  repeat (apply acks_completed; [intros ?; apply keeps_log_ret; apply _] || keep_step).
Qed.
#[local] Hint Resolve acks_scenario_completion : consumer.
Lemma acks_run_scenario fuel p st : keeps true acks_confirmed (run_scenario cfg envelope fuel p st).
Proof.
  unfold run_scenario, complete_scenario_control, complete_scenario_cancelled, complete_scenario_task, report_scenario, execute_scenario_isolated. keep.
Qed.
Lemma acks_scenario_delivery fuel : keeps true acks_confirmed (process_scenario_delivery cfg envelope fuel).
Proof.
  apply acks_claimed. pose proof (acks_run_scenario fuel). unfold open_scenario. keep.
Qed.

(** Processes. *)
Lemma unstarted_watch_cleanup fuel d : keeps true none_started (watch_cleanup fuel d).
Proof. induction fuel as [|fuel IH]; cbn [watch_cleanup]; unfold kill, world_; keep; done. Qed.
Lemma starts_scenario_completion fuel p d e : starts 1 (scenario_completion envelope fuel p d e).
Proof.
  unfold scenario_completion. destruct (deferred e) as [[r context]|]; [|apply starts_none; keep].
  apply (starts_bind 0 1); [apply starts_none; keep|]. intros a. apply (starts_bind 0 1); [apply starts_none; keep|]. intros [o|ev]; [apply starts_none; keep|].
  destruct (judge_all _ _); [|apply starts_none; keep].
  apply (starts_bind 1 0); [apply starts_with_process, unstarted_watch_cleanup|]. intros c. apply starts_none. keep.
Qed.
Lemma starts_run_scenario fuel p st : starts 2 (run_scenario cfg envelope fuel p st).
Proof.
  unfold run_scenario, complete_scenario_control, complete_scenario_cancelled, report_scenario. cbv zeta.
  case_decide; [apply starts_none; keep|]. apply (starts_bind 0 2); [apply starts_none; keep|].
  intros [o|[control|]]; [apply starts_none; keep..|].
  apply (starts_bind 1 1); [intros s; destruct (supervise_log cfg envelope w_scenario_outcome worker_crashed
    (w_scenario_create (sk_plan p) ExecutePlan) fuel (sk_case_run_id p) (deadline_from (st_started_at st) (sk_total_timeout_ms p)) s)
    as (l & E & Hl & _); by exists l|].
  intros [o|e]; [apply starts_none; keep|]. apply (starts_bind 0 1); [apply starts_none; keep|].
  intros [o|[control|]]; [apply starts_none; keep..|]. unfold complete_scenario_task.
  apply (starts_bind 1 0); [apply starts_scenario_completion|]. unfold report_scenario. intros [o|c]; apply starts_none; keep.
Qed.
Lemma starts_scenario_delivery fuel : starts 2 (process_scenario_delivery cfg envelope fuel).
Proof.
  unfold process_scenario_delivery. apply (starts_bind 0 2); [apply starts_none; keep|]. intros [o|status]; [apply starts_none; keep|].
  case_decide; [apply starts_none; keep|]. apply (starts_bind 0 2); [apply starts_none; unfold open_scenario; keep|].
  intros [o|[p st]]; [apply starts_none; keep | apply starts_run_scenario].
Qed.
#[local] Hint Extern 1 (keeps false closed (dispose _)) => apply closed_unstarted, unstarted_dispose_any : consumer.
#[local] Hint Extern 1 (keeps false closed (answered _ _)) => apply closed_unstarted, unstarted_answered : consumer.
#[local] Hint Extern 1 (keeps false closed (check_control _ _)) => apply closed_unstarted, unstarted_check_control : consumer.
#[local] Hint Extern 1 (keeps false closed (claim_task _)) => apply closed_unstarted, unstarted_claim : consumer.
#[local] Hint Extern 1 (keeps false closed (report_run _ _ _)) => apply closed_unstarted, unstarted_report_run : consumer.
#[local] Hint Extern 1 (keeps false closed (supervise _ _ _ _ _ _ _ _)) =>
  apply closed_with_process, keeps_watch_process; [apply _ | apply unstarted_dispose | done] : consumer.
#[local] Hint Extern 1 (keeps false closed (execute_scenario_cleanup _ _ _ _)) =>
  apply closed_with_process, unstarted_watch_cleanup : consumer.
Lemma closed_scenario_delivery fuel : keeps false closed (process_scenario_delivery cfg envelope fuel).
Proof.
  unfold process_scenario_delivery, open_scenario, run_scenario, complete_scenario_control, complete_scenario_cancelled, complete_scenario_task,
    scenario_completion, report_scenario, execute_scenario_isolated. keep.
Qed.
End Logic.

(** What the watch relies on besides [TimedWorld]. *)
Class TimedScenarioWorld (W : Type) `{TimedWorld W time_of} `{ScenarioWorld W} : Prop := {
  ts_plan e w : time_of w <= time_of (w_scenario_plan e w).2;
  ts_start e c w : time_of w <= time_of (w_scenario_start e c w).2;
  ts_evaluate e c l w : time_of w <= time_of (w_scenario_evaluate e c l w).2;
  ts_post e c l w : time_of w <= time_of (w_scenario_post e c l w).2;
  ts_create p t w : time_of w <= time_of (w_scenario_create p t w).2;
  ts_outcome w : time_of w <= time_of (w_scenario_outcome w).2;
  ts_claim e w : time_of w <= time_of (w_claim e w).2;
  ts_started_at e c w a : (w_scenario_start e c w).1 = Answer a -> is_Some (st_started_at a);
}.

Section Deadline.
Context {W : Type} `{TimedScenarioWorld W} (cfg : ConsumerSettings) (envelope : RunTaskEnvelopeV1).
#[local] Hint Extern 2 (forall _, (_ <= _)%Z) => intros ?; cbn beta; cbn [snd];
  first [apply ts_plan | apply ts_start | apply ts_evaluate | apply ts_post | apply ts_create | apply ts_outcome | apply ts_claim] : consumer.

Lemma timely_watch_cleanup fuel d T : (rounds_to d T < fuel)%nat -> timely T (watch_cleanup fuel (Some d)).
Proof.
  revert T. induction fuel as [|fuel IH]; intros T Hf; [lia|]. cbn [watch_cleanup].
  apply timely_bind; [eauto with consumer|]. intros [|]; cbn [negb]; [|time_].
  apply timely_polled; [time_|]. apply timely_go_on. intros Hd. apply IH. by apply rounds_to_next.
Qed.
Lemma timely_report_scenario T c x : timely T (report_scenario envelope c x).
Proof.
  apply timely_report_run. intros w. unfold w_scenario_complete. destruct (completion_ok x); [apply ts_post | cbn; lia].
Qed.
#[local] Hint Resolve timely_report_scenario : consumer.
Lemma timely_run_scenario fuel p st t T : st_started_at st = Some t ->
  (rounds_to (t + sk_total_timeout_ms p * 1000) T < fuel)%nat -> timely T (run_scenario cfg envelope fuel p st).
Proof.
  intros Hst Hf. unfold run_scenario, complete_scenario_task, scenario_completion, deadline_from,
    complete_scenario_control, complete_scenario_cancelled. rewrite Hst. cbn [fmap option_fmap option_map].
  assert (timely T (execute_scenario_isolated cfg envelope fuel p (Some (t + sk_total_timeout_ms p * 1000)))) as Hx.
  { apply timely_supervise; [intros w; apply ts_outcome | intros w; apply ts_create | done]. }
  assert (forall task, timely T (execute_scenario_cleanup fuel (sk_plan p) task (Some (t + sk_total_timeout_ms p * 1000)))) as Hy.
  { intros task. apply timely_with_process; [intros w; apply ts_create | by apply timely_watch_cleanup]. }
  cbv zeta. time_.
Qed.
Lemma timely_claim T : timely T (claim_task envelope).
Proof. unfold claim_task. time_. Qed.
Lemma timely_open_scenario T : timely T (open_scenario envelope).
Proof. unfold open_scenario. time_. Qed.
Lemma open_scenario_started s s' p st : open_scenario envelope s = (s', Done (inr (p, st))) -> is_Some (st_started_at st).
Proof.
  unfold open_scenario. rewrite bind_world. destruct (w_scenario_plan envelope (cs_world s)) as [[p'| | | |] w]; try done. cbn [fst snd answered].
  rewrite (bind_done (mret (inr p')) _ _ _ _ eq_refl). rewrite bind_world. cbn [cs_world].
  pose proof (ts_started_at envelope (sk_case_run_id p') w) as Hs.
  destruct (w_scenario_start envelope (sk_case_run_id p') w) as [[a1| | | |] w']; try done. cbn. intros [= _ _ <-]. by apply Hs.
Qed.

(** A scenario delivery always comes to an end: its two processes are watched, and
    killed at the deadline of the run. *)
Lemma scenario_ends (s : Cs W) :
  exists n, forall fuel, (n <= fuel)%nat -> (process_scenario_delivery cfg envelope fuel s).2 <> Running.
Proof.
  apply (ends_after (claim_task envelope)); [apply timely_claim|]. intros s1 [o|status] _; [by exists O|].
  case_decide; [by exists O|]. apply (ends_after (open_scenario envelope)); [apply timely_open_scenario|].
  intros s2 [o|[p st]] E; [by exists O|]. destruct (open_scenario_started _ _ _ _ E) as [t Ht].
  exists (S (rounds_to (t + sk_total_timeout_ms p * 1000) (time_of (cs_world s2)))). intros fuel Hf.
  by apply (timely_run_scenario fuel p st t (time_of (cs_world s2))); [|lia|].
Qed.
End Deadline.
