(* ===== verification/WebConsumer.v ===== *)
(** The runner's consumption of Web tasks ([runner/consumer.py]): claim, plan and
    start, the supervised browser process, the evidence, the evaluation of AI
    assertions, and the report.  Taking the evidence from the temporary directory and
    uploading it ([_prepare_web_evidence], [_upload_web_evidence]) is one operation of
    the world; a trace's locator attempts and healing context, which are kept for
    display, are left out. *)
From stdpp Require Import pretty.
From S2P Require Import Prelude PyText Calendar Json PyJson RunData RunDispatch ScenarioData RunnerValues ScenarioSql PyUrl.
From S2P Require Import ScenarioActions ScenarioProtocol ApiTemplate ApiExecutor ApiPipeline Envelope ApiConsumer.
From S2P Require Import ApiConsumerLogic Supervision RunWeb.
Open Scope Z_scope.

(** ** Data *)

(** [WebExecutionPlanResult]: of the actions and assertions the consumer looks at the
    number; [wk_content] is what it passes on. *)
Record WebTaskPlan := {
  wk_case_run_id : Z;
  wk_actions : nat;
  wk_assertions : nat;
  wk_total_timeout_ms : Z;
  wk_content : json;
}.

(** [WebExecutionResult.to_wire], without the evidence. *)
Record WebResult := {
  wb_outcome : WebOutcome;
  wb_traces : list WebTrace;
  wb_error_type : option pytext;
  wb_error_message : option pytext;
  wb_refreshed_session : option WebRefreshedSession;
  wb_session_recovery : option WebSessionRecoveryAudit;
  wb_pending_ai : list (string * json);
}.
(** What [_run_web_task_worker] sends. *)
Inductive WebMessage := WEB_RESULT (r : WebResult) | WEB_EXECUTION_ERROR (error_type : pytext).

(** The arguments of [web_execution_complete]. *)
Record WebCompletion := {
  wq_outcome : WebOutcome;
  wq_traces : list WebTrace;
  wq_error_type : option pytext;
  wq_error_message : option pytext;
  wq_refreshed_session : option WebRefreshedSession;
  wq_session_recovery : option WebSessionRecoveryAudit;
  wq_evaluation_token : option string;
}.

Definition web_outcome_text (o : WebOutcome) : string :=
  match o with W_SUCCESS => "SUCCESS" | W_FAILED => "FAILED" | W_TIMEOUT => "TIMEOUT" | W_CANCELLED => "CANCELLED" end.

(** [WebExecutionEvaluationResult]. *)
Record WebEvaluation := {
  we_assertion_status : AssertionVerdict;
  we_node_results : list (string * AssertionVerdict);
  we_token : string;
}.

(** The client's methods for Web executions, the process and the evidence;
    [refresh_ok] is the client's check of a refreshed session and its audit. *)
Class WebWorld (W : Type) := {
  w_web_plan : RunTaskEnvelopeV1 -> W -> answer WebTaskPlan * W;
  w_web_start : RunTaskEnvelopeV1 -> Z -> W -> answer StartAnswer * W;
  w_web_evaluate : RunTaskEnvelopeV1 -> Z -> list (string * json) -> W -> answer WebEvaluation * W;
  w_web_post : RunTaskEnvelopeV1 -> Z -> WebCompletion -> W -> answer CompleteAnswer * W;
  w_web_create : WebTaskPlan -> W -> (task_exn + unit) * W;
  w_web_outcome : W -> option WebMessage * W;
  w_web_evidence : RunTaskEnvelopeV1 -> Z -> ProcessEnd WebMessage -> W -> answer unit * W;
  refresh_ok : WebRefreshedSession -> bool;
  audit_ok : WebSessionRecoveryAudit -> bool;
}.

(** ** What is reported *)

Definition node_name (prefix : string) (i : nat) : string := prefix +:+ "_" +:+ pretty (S i).
(** The node ids of a plan. *)
Definition plan_nodes (plan : WebTaskPlan) : list string :=
  (node_name "action" <$> seq 0 (wk_actions plan)) ++ (node_name "assertion" <$> seq 0 (wk_assertions plan)).

(** [_web_terminal_traces]: the first node has the status, the others are skipped. *)
Definition web_terminal_traces (plan : WebTaskPlan) (status : WebTraceStatus) : list WebTrace :=
  imap (fun i node => {| wt_node_id := node; wt_status := if decide (i = 0%nat) then status else WT_SKIPPED;
                         wt_duration_ms := 0; wt_error_type := None; wt_error_message := None |})
    (plan_nodes plan).

Definition plain_completion (outcome : WebOutcome) (traces : list WebTrace) (error_type error_message : option pytext) : WebCompletion :=
  {| wq_outcome := outcome; wq_traces := traces; wq_error_type := error_type; wq_error_message := error_message;
     wq_refreshed_session := None; wq_session_recovery := None; wq_evaluation_token := None |}.

(** The first part of [_complete_web_result]: the completion before the evaluation,
    and the AI assertions to evaluate. *)
Definition web_completion_of (plan : WebTaskPlan) (e : ProcessEnd WebMessage) : WebCompletion * list (string * json) :=
  match e with
  | Outcome (WEB_RESULT r) =>
      let cancelled := bool_decide (wb_outcome r = W_CANCELLED) in
      ({| wq_outcome := wb_outcome r; wq_traces := wb_traces r;
          wq_error_type := if cancelled then Some (u "CANCEL_REQUESTED") else wb_error_type r;
          wq_error_message := if cancelled then or_text (wb_error_message r) (Some (u CANCEL_REQUESTED_ERROR_MESSAGE))
                              else wb_error_message r;
          wq_refreshed_session := wb_refreshed_session r; wq_session_recovery := wb_session_recovery r;
          wq_evaluation_token := None |}, wb_pending_ai r)
  | Forced => (plain_completion W_CANCELLED [] (Some (u "CANCEL_REQUESTED")) (Some (u "Web 执行已被强制停止")), [])
  | OutOfTime =>
      (plain_completion W_TIMEOUT (web_terminal_traces plan WT_TIMEOUT) (Some (u "TOTAL_TIMEOUT"))
         (Some (u TOTAL_TIMEOUT_ERROR_MESSAGE)), [])
  | Unresponsive =>
      (plain_completion W_CANCELLED [] (Some (u "CANCEL_REQUESTED")) (Some (u CANCEL_UNRESPONSIVE_ERROR_MESSAGE)), [])
  | Outcome (WEB_EXECUTION_ERROR _) =>
      (plain_completion W_FAILED (web_terminal_traces plan WT_FAILED) (Some (u "WEB_EXECUTOR_ERROR"))
         (Some (u "Web 执行失败")), [])
  end.

(** The verdicts of an evaluation in the traces; for a node named twice the last one
    counts. *)
Definition verdict_of (ev : WebEvaluation) (node : string) : option AssertionVerdict :=
  snd <$> last (filter (fun p => p.1 = node) (we_node_results ev)).
Definition judged_trace (ev : WebEvaluation) (t : WebTrace) : WebTrace :=
  let set s et em := {| wt_node_id := wt_node_id t; wt_status := s; wt_duration_ms := wt_duration_ms t;
                        wt_error_type := et; wt_error_message := em |} in
  match verdict_of ev (wt_node_id t) with
  | Some PASS => set WT_SUCCESS None None
  | Some FAIL => set WT_FAILED (Some (u "ASSERTION_FAILED")) (Some (u "Web AI 语义断言未通过"))
  | Some REVIEW_ => set WT_REVIEW (Some (u "ASSERTION_REVIEW")) (Some (u "Web AI 语义断言需要人工复核"))
  | None => t
  end.
Definition judged_completion (c : WebCompletion) (ev : WebEvaluation) : WebCompletion :=
  let '(outcome, et, em) :=
    match we_assertion_status ev with
    | PASS => (wq_outcome c, wq_error_type c, wq_error_message c)
    | FAIL => (W_FAILED, Some (u "ASSERTION_FAILED"), Some (u "Web AI 语义断言未通过"))
    | REVIEW_ => (W_FAILED, Some (u "ASSERTION_REVIEW"), Some (u "Web AI 语义断言需要人工复核"))
    end in
  {| wq_outcome := outcome; wq_traces := judged_trace ev <$> wq_traces c; wq_error_type := et; wq_error_message := em;
     wq_refreshed_session := wq_refreshed_session c; wq_session_recovery := wq_session_recovery c;
     wq_evaluation_token := Some (we_token ev) |}.

(** [_web_outcome_is_cancelled]. *)
Definition web_outcome_is_cancelled (e : ProcessEnd WebMessage) : bool :=
  match e with
  | Forced | Unresponsive => true
  | Outcome (WEB_RESULT r) => bool_decide (wb_outcome r = W_CANCELLED)
  | _ => false
  end.

(** [_web_evidence_failure_traces]. *)
Definition web_evidence_failure_traces (plan : WebTaskPlan) (e : ProcessEnd WebMessage) : option (list WebTrace) :=
  match e with
  | Outcome (WEB_RESULT r) =>
      let ids := wt_node_id <$> wb_traces r in
      if bool_decide (length ids = length (plan_nodes plan)) && bool_decide (NoDup ids)
         && forallb (fun n => bool_decide (n ∈ plan_nodes plan)) ids && forallb (fun n => bool_decide (n ∈ ids)) (plan_nodes plan)
      then Some (wb_traces r) else None
  | _ => None
  end.

(** ** The client's checks *)

Definition web_trace_ok (seen : list string) (t : WebTrace) : bool :=
  length_within 1 64 (u (wt_node_id t)) && negb (bool_decide (wt_node_id t ∈ seen))
  && (0 <=? wt_duration_ms t) && (wt_duration_ms t <=? 86400000)
  && text_ok 100 (wt_error_type t) && text_ok 500 (wt_error_message t).
Fixpoint web_traces_ok (seen : list string) (l : list WebTrace) : bool :=
  match l with [] => true | t :: l' => web_trace_ok seen t && web_traces_ok (wt_node_id t :: seen) l' end.
(** [_web_trace_payload]. *)
Definition web_trace_payload (l : list WebTrace) : bool := (length l <=? 300)%nat && web_traces_ok [] l.

(** The checks [web_execution_complete] makes before it posts. *)
Definition web_completion_ok `{WebWorld W} (c : WebCompletion) : bool :=
  let text v := match v with Some (_ :: _) => true | _ => false end in
  web_trace_payload (wq_traces c) && text_ok 100 (wq_error_type c) && text_ok 500 (wq_error_message c)
  && match wq_outcome c with
     | W_SUCCESS => bool_decide (wq_error_type c = None) && bool_decide (wq_error_message c = None)
     | W_CANCELLED => bool_decide (wq_error_type c = Some (u "CANCEL_REQUESTED")) && text (wq_error_message c)
     | _ => text (wq_error_type c) && text (wq_error_message c)
     end
  && match wq_refreshed_session c with Some r => refresh_ok r | None => true end
  && match wq_session_recovery c with Some a => audit_ok a | None => true end
  && implb (bool_decide (is_Some (wq_refreshed_session c)))
       (bool_decide ((ra_status <$> wq_session_recovery c) = Some RECOVERED))
  && text_ok (Z.to_nat 64000) (u <$> wq_evaluation_token c).

(** ** The delivery *)

Section Web.
Context {W : Type} `{ConsumerWorld W} `{WebWorld W} (cfg : ConsumerSettings) (envelope : RunTaskEnvelopeV1).

Definition w_web_complete (case_run_id : Z) (c : WebCompletion) (w : W) : answer CompleteAnswer * W :=
  if web_completion_ok c then w_web_post envelope case_run_id c w else (RunnerFailed, w).
Definition report_web (case_run_id : Z) (c : WebCompletion) : M W ConsumeOutcome :=
  report_run case_run_id (u (web_outcome_text (wq_outcome c))) (w_web_complete case_run_id c).

(** [_complete_web_cancelled]; [_complete_web_control] does the same for both controls. *)
Definition complete_web_cancelled (case_run_id : Z) : M W ConsumeOutcome :=
  report_web case_run_id
    (plain_completion W_CANCELLED [] (Some (u "CANCEL_REQUESTED")) (Some (u CANCEL_REQUESTED_ERROR_MESSAGE))).

(** [_complete_web_result]. *)
Definition complete_web_result (plan : WebTaskPlan) (e : ProcessEnd WebMessage) : M W ConsumeOutcome :=
  let case_run_id := wk_case_run_id plan in
  let '(c, pending) := web_completion_of plan e in
  if bool_decide (pending = []) || bool_decide (wq_outcome c ∈ [W_CANCELLED; W_TIMEOUT]) then report_web case_run_id c
  else
    a ← world (w_web_evaluate envelope case_run_id pending);
    r ← answered REQUEUED a;
    match r with
    | inl o => mret o
    | inr ev => report_web case_run_id (judged_completion c ev)
    end.

(** [_complete_web_evidence_failure]. *)
Definition complete_web_evidence_failure (plan : WebTaskPlan) (e : ProcessEnd WebMessage) (pending : option Control)
    (fallback : ConsumeOutcome) : M W ConsumeOutcome :=
  match pending with
  | Some _ => complete_web_cancelled (wk_case_run_id plan)
  | None =>
      if web_outcome_is_cancelled e then complete_web_result plan e
      else
        match web_evidence_failure_traces plan e with
        | None => dispose fallback
        | Some traces =>
            report_web (wk_case_run_id plan)
              (plain_completion W_FAILED traces (Some WEB_EVIDENCE_ERROR_TYPE) (Some WEB_EVIDENCE_ERROR_MESSAGE))
        end
  end.

(** [_execute_web_isolated] and the [except] clauses around it: an exception of the
    process rejects the delivery, an interrupt is not caught. *)
Definition execute_web_isolated (fuel : nat) (plan : WebTaskPlan) (deadline : option Z)
  : M W (ConsumeOutcome + ProcessEnd WebMessage) :=
  catch
    (supervise cfg envelope w_web_outcome (WEB_EXECUTION_ERROR (u "WEB_EXECUTOR_ERROR")) (w_web_create plan) fuel
       (wk_case_run_id plan) deadline)
    (fun x => match x with
              | Interrupted => raises Interrupted
              | RaisedAuthentication => o ← dispose STOPPED_AUTH; mret (inl o)
              | RaisedTransport => o ← dispose REQUEUED; mret (inl o)
              | _ => o ← dispose REJECTED; mret (inl o)
              end).

(** From the end of the process to the disposal. *)
Definition settle_web (plan : WebTaskPlan) (e : ProcessEnd WebMessage) : M W ConsumeOutcome :=
  let case_run_id := wk_case_run_id plan in
  c ← match e with
      | Outcome (WEB_RESULT _) => check_control envelope case_run_id
      | _ => mret (inr None)
      end;
  match c with
  | inl o => mret o
  | inr pending =>
      a ← world (w_web_evidence envelope case_run_id e);
      match a with
      | AuthenticationFailed => dispose STOPPED_AUTH
      | TransportFailed | UnknownFailure => complete_web_evidence_failure plan e pending REQUEUED
      | RunnerFailed => complete_web_evidence_failure plan e pending REJECTED
      | Answer _ =>
          match pending with
          | Some _ => complete_web_cancelled case_run_id
          | None => complete_web_result plan e
          end
      end
  end.

Definition open_web : M W (ConsumeOutcome + (WebTaskPlan * StartAnswer)) :=
  a ← world (w_web_plan envelope);
  r ← answered REJECTED a;
  match r with
  | inl o => mret (inl o)
  | inr plan =>
      a ← world (w_web_start envelope (wk_case_run_id plan));
      r ← answered REJECTED a;
      mret (match r with inl o => inl o | inr started => inr (plan, started) end)
  end.

(** From the started plan to the disposal. *)
Definition run_web (fuel : nat) (plan : WebTaskPlan) (started : StartAnswer) : M W ConsumeOutcome :=
  let case_run_id := wk_case_run_id plan in
  if decide (st_status started = u "CANCELLING") then complete_web_cancelled case_run_id
  else
    c ← check_control envelope case_run_id;
    match c with
    | inl o => mret o
    | inr (Some _) => complete_web_cancelled case_run_id
    | inr None =>
        r ← execute_web_isolated fuel plan (deadline_from (st_started_at started) (wk_total_timeout_ms plan));
        match r with inl o => mret o | inr e => settle_web plan e end
    end.

(** [_process_web_execution_delivery]. *)
Definition process_web_delivery (fuel : nat) : M W ConsumeOutcome :=
  r ← claim_task envelope;
  match r with
  | inl o => mret o
  | inr status =>
      if decide (status = u "CANCELLED") then dispose ACKED
      else
        r ← open_web;
        match r with inl o => mret o | inr (plan, started) => run_web fuel plan started end
  end.
End Web.

(** ** Its logic *)

Section Logic.
Context {W : Type} `{ConsumerWorld W} `{WebWorld W} (cfg : ConsumerSettings) (envelope : RunTaskEnvelopeV1).

Lemma settles_web_cancelled c : settles None Some (complete_web_cancelled envelope c).
Proof. unfold complete_web_cancelled, report_web. eauto with consumer. Qed.
#[local] Hint Resolve settles_web_cancelled : consumer.
Lemma settles_web_result p e : settles None Some (complete_web_result envelope p e).
Proof. unfold complete_web_result, report_web. settle. Qed.
#[local] Hint Resolve settles_web_result : consumer.
Lemma settles_evidence_failure p e pending o : settles None Some (complete_web_evidence_failure envelope p e pending o).
Proof.
  unfold complete_web_evidence_failure. destruct pending; [apply settles_web_cancelled|].
  destruct (web_outcome_is_cancelled e); [apply settles_web_result|].
  destruct (web_evidence_failure_traces p e); [apply settles_report_run | apply settles_dispose].
Qed.
#[local] Hint Resolve settles_evidence_failure : consumer.
Lemma settles_settle_web p e : settles None Some (settle_web envelope p e).
Proof.
  unfold settle_web. apply (settles_bind None disposed); [settle|]. intros [o|pending]; cbn [disposed]; settle.
Qed.
Lemma settles_web_isolated fuel p d : settles None disposed (execute_web_isolated cfg envelope fuel p d).
Proof. unfold execute_web_isolated. settle. Qed.
Lemma settles_open_web : settles None disposed (open_web envelope).
Proof. unfold open_web. settle. Qed.
Lemma settles_claim_web : settles None disposed (claim_task envelope).
Proof. unfold claim_task. settle. Qed.
#[local] Hint Resolve settles_settle_web settles_web_isolated settles_open_web settles_claim_web : consumer.
Lemma settles_web_delivery fuel : settles None Some (process_web_delivery cfg envelope fuel).
Proof. unfold process_web_delivery, run_web. settle. Qed.

(** Acknowledgements. *)
Lemma acks_web_cancelled c : keeps true acks_confirmed (complete_web_cancelled envelope c).
Proof. unfold complete_web_cancelled, report_web. eauto with consumer. Qed.
#[local] Hint Resolve acks_web_cancelled : consumer.
Lemma acks_web_result p e : keeps true acks_confirmed (complete_web_result envelope p e).
Proof. unfold complete_web_result, report_web. keep. Qed.
#[local] Hint Resolve acks_web_result : consumer.
Lemma acks_evidence_failure p e pending o : o <> ACKED ->
  keeps true acks_confirmed (complete_web_evidence_failure envelope p e pending o).
Proof.
  intros Ho. unfold complete_web_evidence_failure. destruct pending; [apply acks_web_cancelled|].
  destruct (web_outcome_is_cancelled e); [apply acks_web_result|].
  destruct (web_evidence_failure_traces p e); [apply acks_report_run | by apply acks_dispose].
Qed.
#[local] Hint Extern 1 (keeps _ _ (complete_web_evidence_failure _ _ _ _ _)) => apply acks_evidence_failure; discriminate : consumer.
Lemma acks_web_delivery fuel : keeps true acks_confirmed (process_web_delivery cfg envelope fuel).
Proof. apply acks_claimed. unfold open_web, run_web, settle_web, execute_web_isolated. keep. Qed.

(** Processes. *)
Lemma unstarted_web_result p e : keeps true none_started (complete_web_result envelope p e).
Proof. unfold complete_web_result, report_web. keep. Qed.
Lemma unstarted_evidence_failure p e pending o : keeps true none_started (complete_web_evidence_failure envelope p e pending o).
Proof.
  unfold complete_web_evidence_failure. destruct pending; [apply unstarted_report_run|].
  destruct (web_outcome_is_cancelled e); [apply unstarted_web_result|].
  destruct (web_evidence_failure_traces p e); [apply unstarted_report_run | apply unstarted_dispose_any].
Qed.
Lemma unstarted_settle_web p e : keeps true none_started (settle_web envelope p e).
Proof.
  unfold settle_web. apply keeps_log_bind; [apply _ | keep|]. intros [o|pending]; [keep|].
  apply keeps_log_bind; [apply _ | keep|]. intros [[]| | | |];
    [destruct pending; [apply unstarted_report_run | apply unstarted_web_result] | apply unstarted_dispose_any | apply unstarted_evidence_failure..].
Qed.
#[local] Hint Resolve unstarted_settle_web : consumer.
Lemma web_isolated_log fuel p d s : exists added,
  cs_log (execute_web_isolated cfg envelope fuel p d s).1 = cs_log s ++ added /\ (count is_started added <= 1)%nat
  /\ ((execute_web_isolated cfg envelope fuel p d s).2 = Running \/ closed added).
Proof.
  unfold execute_web_isolated, catch.
  destruct (supervise_log cfg envelope w_web_outcome (WEB_EXECUTION_ERROR (u "WEB_EXECUTOR_ERROR")) (w_web_create p) fuel
    (wk_case_run_id p) d s) as (l & E & Hl & Hc). destruct (supervise _ _ _ _ _ _ _ _ s) as [s1 [a|x|]]; cbn [fst snd] in *; [by exists l | | by exists l].
  lazymatch goal with |- exists l, cs_log (?h s1).1 = _ /\ _ => assert (keeps true none_started h) as Hk by keep end.
  destruct (Hk s1) as (l2 & E2 & [H2|[? _]]); [|done]. exists (l ++ l2). rewrite E2, E, app_assoc. unfold closed in *. rewrite !count_app, H2.
  split; [done|]. split; [lia|]. destruct Hc; [done | right; lia].
Qed.
Lemma starts_web_delivery fuel : starts 1 (process_web_delivery cfg envelope fuel).
Proof.
  unfold process_web_delivery, run_web, complete_web_cancelled, report_web. apply (starts_bind 0 1); [apply starts_none; keep|].
  intros [o|status]; [apply starts_none; keep|]. case_decide; [apply starts_none; keep|].
  apply (starts_bind 0 1); [apply starts_none; unfold open_web; keep|]. intros [o|[p st]]; [apply starts_none; keep|].
  case_decide; [apply starts_none; keep|]. apply (starts_bind 0 1); [apply starts_none; keep|].
  intros [o|[control|]]; [apply starts_none; keep..|]. apply (starts_bind 1 0); [|intros r; apply starts_none; keep].
  intros s. destruct (web_isolated_log fuel p (deadline_from (st_started_at st) (wk_total_timeout_ms p)) s) as (l & E & Hl & _). by exists l.
Qed.
#[local] Hint Extern 2 (keeps false closed _) => apply closed_unstarted; solve [eauto with consumer] : consumer.
Lemma closed_web_isolated fuel p d : keeps false closed (execute_web_isolated cfg envelope fuel p d).
Proof. intros s. destruct (web_isolated_log fuel p d s) as (l & E & _ & Hc). exists l. split; [done|]. destruct Hc; auto. Qed.
#[local] Hint Resolve closed_web_isolated : consumer.
Lemma closed_web_delivery fuel : keeps false closed (process_web_delivery cfg envelope fuel).
Proof. unfold process_web_delivery, open_web, run_web, complete_web_cancelled, report_web. keep. Qed.
End Logic.

Class TimedWebWorld (W : Type) `{TimedWorld W time_of} `{WebWorld W} : Prop := {
  tb_plan e w : time_of w <= time_of (w_web_plan e w).2;
  tb_start e c w : time_of w <= time_of (w_web_start e c w).2;
  tb_evaluate e c l w : time_of w <= time_of (w_web_evaluate e c l w).2;
  tb_post e c l w : time_of w <= time_of (w_web_post e c l w).2;
  tb_create p w : time_of w <= time_of (w_web_create p w).2;
  tb_outcome w : time_of w <= time_of (w_web_outcome w).2;
  tb_evidence e c x w : time_of w <= time_of (w_web_evidence e c x w).2;
  tb_claim e w : time_of w <= time_of (w_claim e w).2;
  tb_started_at e c w a : (w_web_start e c w).1 = Answer a -> is_Some (st_started_at a);
}.

Section Deadline.
Context {W : Type} `{TimedWebWorld W} (cfg : ConsumerSettings) (envelope : RunTaskEnvelopeV1).
#[local] Hint Extern 2 (forall _, (_ <= _)%Z) => intros ?; cbn beta; cbn [snd];
  first [apply tb_plan | apply tb_start | apply tb_evaluate | apply tb_post | apply tb_create | apply tb_outcome | apply tb_evidence
        | apply tb_claim] : consumer.

Lemma timely_report_web T c x : timely T (report_web envelope c x).
Proof. apply timely_report_run. intros w. unfold w_web_complete. destruct (web_completion_ok x); [apply tb_post | cbn; lia]. Qed.
#[local] Hint Resolve timely_report_web : consumer.
Lemma timely_web_result T p e : timely T (complete_web_result envelope p e).
Proof. unfold complete_web_result. time_. Qed.
Lemma timely_evidence_failure T p e pending o : timely T (complete_web_evidence_failure envelope p e pending o).
Proof.
  unfold complete_web_evidence_failure. destruct pending; [apply timely_report_web|].
  destruct (web_outcome_is_cancelled e); [apply timely_web_result|].
  destruct (web_evidence_failure_traces p e); [apply timely_report_web | apply timely_dispose].
Qed.
Lemma timely_settle_web T p e : timely T (settle_web envelope p e).
Proof.
  unfold settle_web. apply timely_bind; [time_|]. intros [o|pending]; [time_|]. apply timely_bind; [time_|].
  intros [[]| | | |];
    [destruct pending; [apply timely_report_web | apply timely_web_result] | apply timely_dispose | apply timely_evidence_failure..].
Qed.
#[local] Hint Resolve timely_settle_web : consumer.
Lemma timely_run_web fuel p st t T : st_started_at st = Some t ->
  (rounds_to (t + wk_total_timeout_ms p * 1000) T < fuel)%nat -> timely T (run_web cfg envelope fuel p st).
Proof.
  intros Hst Hf. unfold run_web, deadline_from, complete_web_cancelled. rewrite Hst. cbn [fmap option_fmap option_map].
  assert (timely T (execute_web_isolated cfg envelope fuel p (Some (t + wk_total_timeout_ms p * 1000)))) as Hx.
  { apply timely_catch; [|intros x; time_]. apply timely_supervise; [intros w; apply tb_outcome | intros w; apply tb_create | done]. }
  cbv zeta. time_.
Qed.
Lemma timely_claim_web T : timely T (claim_task envelope).
Proof. unfold claim_task. time_. Qed.
Lemma timely_open_web T : timely T (open_web envelope).
Proof. unfold open_web. time_. Qed.
Lemma open_web_started s s' p st : open_web envelope s = (s', Done (inr (p, st))) -> is_Some (st_started_at st).
Proof.
  unfold open_web. rewrite bind_world. destruct (w_web_plan envelope (cs_world s)) as [[p'| | | |] w]; try done. cbn [fst snd answered].
  rewrite (bind_done (mret (inr p')) _ _ _ _ eq_refl). rewrite bind_world. cbn [cs_world].
  pose proof (tb_started_at envelope (wk_case_run_id p') w) as Hs.
  destruct (w_web_start envelope (wk_case_run_id p') w) as [[a1| | | |] w']; try done. cbn. intros [= _ _ <-]. by apply Hs.
Qed.

(** A Web delivery always comes to an end. *)
Lemma web_ends (s : Cs W) : exists n, forall fuel, (n <= fuel)%nat -> (process_web_delivery cfg envelope fuel s).2 <> Running.
Proof.
  apply (ends_after (claim_task envelope)); [apply timely_claim_web|]. intros s1 [o|status] _; [by exists O|].
  case_decide; [by exists O|]. apply (ends_after (open_web envelope)); [apply timely_open_web|].
  intros s2 [o|[p st]] E; [by exists O|]. destruct (open_web_started _ _ _ _ E) as [t Ht].
  exists (S (rounds_to (t + wk_total_timeout_ms p * 1000) (time_of (cs_world s2)))). intros fuel Hf.
  by apply (timely_run_web fuel p st t (time_of (cs_world s2))); [|lia|].
Qed.
End Deadline.
