(* ===== verification/RecordingConsumer.v ===== *)
(** The runner's consumption of Web recordings and Web explorations
    ([runner/consumer.py]): the claim, the plan, the headed browser process with its
    stop and cancel requests, the exploration in the runner itself, and the report. *)
From S2P Require Import Prelude PyText Calendar Json PyJson RunData RunDispatch ScenarioData RunnerValues ScenarioSql PyUrl.
From S2P Require Import ScenarioActions ScenarioProtocol ApiTemplate ApiExecutor ApiPipeline Envelope ApiConsumer.
From S2P Require Import ApiConsumerLogic Supervision.
Open Scope Z_scope.

Inductive TaskOutcome := T_COMPLETED | T_FAILED | T_CANCELLED.
#[global] Instance TaskOutcome_eq_dec : EqDecision TaskOutcome.
Proof. solve_decision. Defined.
Definition task_outcome_text (o : TaskOutcome) : pytext :=
  match o with T_COMPLETED => u "COMPLETED" | T_FAILED => u "FAILED" | T_CANCELLED => u "CANCELLED" end.

(** ** Data of recordings *)

Record RecordingControl := { rc_stop_requested : bool; rc_cancellation_requested : bool }.
(** [WebRecordingExecutionResult], and the arguments of
    [web_recording_execution_complete]. *)
Record RecordingResult := {
  rr_outcome : TaskOutcome;
  rr_events : list json;
  rr_error_type : option pytext;
  rr_error_message : option pytext;
  rr_storage_state : option json;
}.
(** What [_run_web_recording_task_worker] sends. *)
Inductive RecordingMessage := WEB_RECORDING_RESULT (r : RecordingResult) | RECORDING_ERROR (error_type : pytext).
(** What [_execute_web_recording_isolated] returns. *)
Inductive RecordingEnd := RecordingSent (m : RecordingMessage) | CancelUnresponsive | StopUnresponsive.

(** The client's methods for recordings, and the headed process.  [inl] of a plan is
    the [ProtocolError] of a back end that refuses it; [None] of a request is a
    process that does not take such requests. *)
Class RecordingWorld (W : Type) := {
  w_recording_claim : WebTaskEnvelopeV1 -> W -> answer (pytext * bool) * W;
  w_recording_control : WebTaskEnvelopeV1 -> W -> answer RecordingControl * W;
  w_recording_plan : WebTaskEnvelopeV1 -> W -> (unit + answer json) * W;
  w_recording_start : WebTaskEnvelopeV1 -> W -> answer pytext * W;
  w_recording_complete : WebTaskEnvelopeV1 -> RecordingResult -> W -> answer TaskAnswer * W;
  w_recording_create : json -> W -> (task_exn + unit) * W;
  w_recording_outcome : W -> option RecordingMessage * W;
  w_recording_cancel : W -> option (task_exn + unit) * W;
  w_recording_stop : W -> option (task_exn + unit) * W;
}.

(** ** Data of explorations *)

(** The arguments of [web_exploration_execution_complete] without the message. *)
Record ExplorationResult := {
  xr_outcome : TaskOutcome;
  xr_observations : list json;
  xr_action_trace : list json;
  xr_result_summary : option json;
  xr_error_type : option pytext;
}.
(** [w_explore] is the [WebExplorationExecutor], which runs in the runner's process
    with the client's methods as callbacks. *)
Class ExplorationWorld (W : Type) := {
  w_exploration_claim : WebTaskEnvelopeV1 -> W -> answer (pytext * bool) * W;
  w_exploration_cancelled : WebTaskEnvelopeV1 -> W -> answer bool * W;
  w_exploration_plan : WebTaskEnvelopeV1 -> W -> answer json * W;
  w_exploration_start : WebTaskEnvelopeV1 -> W -> answer pytext * W;
  w_exploration_complete : WebTaskEnvelopeV1 -> ExplorationResult -> W -> answer TaskAnswer * W;
  w_explore : WebTaskEnvelopeV1 -> json -> W -> answer ExplorationResult * W;
}.

(** The completion of a task: acknowledged when the answer [agrees]. *)
Definition report_task `{ConsumerWorld W} (outcome : pytext) (agrees : TaskAnswer -> bool) (report : W -> answer TaskAnswer * W)
  : M W ConsumeOutcome :=
  r ← tell report (ReportedTask outcome);
  match r with inl o => mret o | inr a => dispose (if agrees a then ACKED else REJECTED) end.

(** ** Recordings *)

Section Recording.
Context {W : Type} `{ConsumerWorld W} `{RecordingWorld W} (cfg : ConsumerSettings) (envelope : WebTaskEnvelopeV1).

(** [_complete_web_recording]. *)
Definition complete_web_recording (c : RecordingResult) : M W ConsumeOutcome :=
  let outcome := task_outcome_text (rr_outcome c) in
  report_task outcome (fun a => bool_decide (ta_outcome a = outcome) && bool_decide (ta_status a = outcome))
    (w_recording_complete envelope c).
Definition recorded (outcome : TaskOutcome) (events : list json) (error_type error_message : option pytext)
    (storage_state : option json) : RecordingResult :=
  {| rr_outcome := outcome; rr_events := events; rr_error_type := error_type; rr_error_message := error_message;
     rr_storage_state := storage_state |}.
Definition recording_cancelled : RecordingResult :=
  recorded T_CANCELLED [] (Some (u "CANCEL_REQUESTED")) (Some (u CANCEL_REQUESTED_ERROR_MESSAGE)) None.
Definition recording_stopped : RecordingResult := recorded T_COMPLETED [] None None None.

(** A look at the control before the process is started. *)
Definition recording_control : M W (ConsumeOutcome + unit) :=
  a ← world (w_recording_control envelope);
  r ← answered REJECTED a;
  match r with
  | inl o => mret (inl o)
  | inr c =>
      if rc_cancellation_requested c then o ← complete_web_recording recording_cancelled; mret (inl o)
      else if rc_stop_requested c then o ← complete_web_recording recording_stopped; mret (inl o)
      else mret (inr tt)
  end.

(** The plan; when the back end refuses it the control is read once more. *)
Definition recording_plan : M W (ConsumeOutcome + json) :=
  p ← world (w_recording_plan envelope);
  match p with
  | inr a => answered REJECTED a
  | inl tt =>
      r ← recording_control;
      match r with inl o => mret (inl o) | inr _ => o ← dispose REJECTED; mret (inl o) end
  end.

(** The first [try] of [_process_web_recording_delivery], after the claim. *)
Definition prepare_recording : M W (ConsumeOutcome + json) :=
  r ← recording_control;
  match r with
  | inl o => mret (inl o)
  | inr _ =>
      r ← recording_plan;
      match r with
      | inl o => mret (inl o)
      | inr plan =>
          a ← world (w_recording_start envelope);
          r ← answered REJECTED a;
          match r with
          | inl o => mret (inl o)
          | inr status =>
              if decide (status = u "STOP_REQUESTED") then o ← complete_web_recording recording_stopped; mret (inl o)
              else
                r ← recording_control;
                mret (match r with inl o => inl o | inr _ => inr plan end)
          end
      end
  end.
Definition open_recording : M W (ConsumeOutcome + json) :=
  a ← world (w_recording_claim envelope);
  r ← answered REJECTED a;
  match r with
  | inl o => mret (inl o)
  | inr (status, idempotent) =>
      _ ← log (TaskClaimedAs status idempotent);
      if bool_decide (status = u "CANCELLED") || idempotent && bool_decide (status ∈ [u "COMPLETED"; u "FAILED"])
      then o ← dispose ACKED; mret (inl o)
      else if decide (status = u "STOP_REQUESTED") then o ← complete_web_recording recording_stopped; mret (inl o)
      else prepare_recording
  end.

(** After the loop. *)
Definition collect_recording : M W (ConsumeOutcome + RecordingEnd) :=
  r ← world w_poll;
  _ ← or_raise r;
  o ← world w_recording_outcome;
  mret (inr (RecordingSent (default (RECORDING_ERROR (u "WEB_RECORDING_EXECUTOR_ERROR")) o))).

(** A request to the process; [None] when it does not take it. *)
Definition request (f : W -> option (task_exn + unit) * W) (e : event) : M W (option unit) :=
  r ← world f;
  match r with
  | None => mret None
  | Some r => _ ← or_raise r; _ ← log e; mret (Some tt)
  end.

(** A look at the control while the process runs; an exception that is none of the
    client's leaves the loop. *)
Definition watch_control : M W (ConsumeOutcome + RecordingControl) :=
  a ← world (w_recording_control envelope);
  match a with
  | Answer c => mret (inr c)
  | UnknownFailure => raises RaisedOther
  | _ => _ ← kill; answered REJECTED a
  end.

(** The loop of [_execute_web_recording_isolated]; [until] is [control_deadline]. *)
Fixpoint watch_recording (fuel : nat) (cancelling stopping : bool) (until : option Z) (last : Z)
  : M W (ConsumeOutcome + RecordingEnd) :=
  match fuel with
  | O => still_running
  | S fuel' =>
      let wait now := Some (now + scenario_cancel_wait cfg) in
      alive ← world w_is_alive;
      if negb alive then collect_recording
      else
        r ← world w_poll;
        ready ← or_raise r;
        if ready : bool then collect_recording
        else
          now ← world w_clock;
          set ← (if has_stop_event cfg then world w_stop_is_set else mret false);
          taken ← (if set && negb stopping then request w_recording_stop StopRequested else mret None);
          let stopping := match taken with Some _ => true | None => stopping end in
          let until := match taken with Some _ => wait now | None => until end in
          if (cancelling || stopping) && bool_decide (is_Some until) then
            if reached until now then _ ← kill; mret (inr (if cancelling then CancelUnresponsive else StopUnresponsive))
            else watch_recording fuel' cancelling stopping until last
          else if decide (force_stop_poll cfg <= now - last) then
            c ← watch_control;
            match c with
            | inl o => mret (inl o)
            | inr c =>
                if rc_cancellation_requested c && negb cancelling then
                  taken ← request w_recording_cancel CancelRequested;
                  match taken with
                  | None => _ ← kill; mret (inr CancelUnresponsive)
                  | Some _ => watch_recording fuel' true stopping (wait now) now
                  end
                else if rc_stop_requested c && negb stopping then
                  taken ← request w_recording_stop StopRequested;
                  match taken with
                  | None => _ ← kill; mret (inr StopUnresponsive)
                  | Some _ => watch_recording fuel' cancelling true (wait now) now
                  end
                else watch_recording fuel' cancelling stopping until now
            end
          else watch_recording fuel' cancelling stopping until last
  end.

(** [_execute_web_recording_isolated]. *)
Definition execute_web_recording_isolated (fuel : nat) (plan : json) : M W (ConsumeOutcome + RecordingEnd) :=
  with_process (w_recording_create plan) (watch_recording fuel false false None 0).

(** What is reported of a process that ended.  A total timeout and a force stop are
    ends the loop does not produce. *)
Definition recording_completion (e : RecordingEnd) : RecordingResult :=
  match e with
  | RecordingSent (WEB_RECORDING_RESULT r) =>
      if decide (rr_outcome r = T_CANCELLED)
      then recorded T_CANCELLED [] (Some (u "CANCEL_REQUESTED"))
             (or_text (rr_error_message r) (Some (u CANCEL_REQUESTED_ERROR_MESSAGE))) None
      else r
  | RecordingSent (RECORDING_ERROR t) =>
      recorded T_FAILED [] (or_text (Some t) (Some (u "WEB_RECORDING_EXECUTOR_ERROR"))) (Some (u "Web 录制执行失败")) None
  | StopUnresponsive =>
      recorded T_FAILED [] (Some (u "STOP_UNRESPONSIVE")) (Some (u "Web 录制停止请求未在限定窗口内响应")) None
  | CancelUnresponsive =>
      recorded T_CANCELLED [] (Some (u "CANCEL_REQUESTED")) (Some (u CANCEL_UNRESPONSIVE_ERROR_MESSAGE)) None
  end.

(** [except] clauses without one for an exception that is none of the client's. *)
Definition known_answer {A} (a : answer A) : M W (ConsumeOutcome + A) :=
  match a with UnknownFailure => raises RaisedOther | _ => answered REJECTED a end.

(** From the plan to the disposal. *)
Definition run_recording (fuel : nat) (plan : json) : M W ConsumeOutcome :=
  r ← execute_web_recording_isolated fuel plan;
  match r with
  | inl o => mret o
  | inr e =>
      a ← world (w_recording_control envelope);
      r ← known_answer a;
      match r with
      | inl o => mret o
      | inr c => complete_web_recording (if rc_cancellation_requested c then recording_cancelled else recording_completion e)
      end
  end.

(** [_process_web_recording_delivery]. *)
Definition process_recording_delivery (fuel : nat) : M W ConsumeOutcome :=
  r ← open_recording;
  match r with inl o => mret o | inr plan => run_recording fuel plan end.
End Recording.

(** ** Explorations *)

Section Exploration.
Context {W : Type} `{ConsumerWorld W} `{ExplorationWorld W} (envelope : WebTaskEnvelopeV1).

(** [_complete_web_exploration]. *)
Definition complete_web_exploration (c : ExplorationResult) : M W ConsumeOutcome :=
  let outcome := task_outcome_text (xr_outcome c) in
  report_task outcome (fun a => bool_decide (ta_status a = outcome)) (w_exploration_complete envelope c).
Definition explored (outcome : TaskOutcome) (summary : option json) (error_type : option pytext) : ExplorationResult :=
  {| xr_outcome := outcome; xr_observations := []; xr_action_trace := []; xr_result_summary := summary; xr_error_type := error_type |}.
Definition exploration_refused : ExplorationResult := explored T_FAILED None (Some (u "WEB_EXPLORATION_PROTOCOL_ERROR")).

(** The [except] clauses of a call after the claim: an error of the runner fails the
    exploration. *)
Definition claimed_answer {A} (a : answer A) : M W (ConsumeOutcome + A) :=
  match a with
  | RunnerFailed => o ← complete_web_exploration exploration_refused; mret (inl o)
  | _ => answered REJECTED a
  end.

(** After the claim: the control, the plan and the start. *)
Definition prepare_exploration : M W (ConsumeOutcome + json) :=
  a ← world (w_exploration_cancelled envelope);
  r ← claimed_answer a;
  match r with
  | inl o => mret (inl o)
  | inr true =>
      o ← complete_web_exploration (explored T_CANCELLED None (Some (u "CANCEL_REQUESTED"))); mret (inl o)
  | inr false =>
      a ← world (w_exploration_plan envelope);
      r ← claimed_answer a;
      match r with
      | inl o => mret (inl o)
      | inr plan =>
          a ← world (w_exploration_start envelope);
          r ← claimed_answer a;
          match r with
          | inl o => mret (inl o)
          | inr status =>
              if decide (status = u "RUNNING") then mret (inr plan)
              else o ← complete_web_exploration exploration_refused; mret (inl o)
          end
      end
  end.
Definition open_exploration : M W (ConsumeOutcome + json) :=
  a ← world (w_exploration_claim envelope);
  r ← answered REJECTED a;
  match r with
  | inl o => mret (inl o)
  | inr (status, idempotent) =>
      _ ← log (TaskClaimedAs status idempotent);
      if bool_decide (status ∈ [u "COMPLETED"; u "FAILED"; u "CANCELLED"]) then o ← dispose ACKED; mret (inl o)
      else if decide (status = u "STOP_REQUESTED") then
        o ← complete_web_exploration (explored T_COMPLETED (Some (JDict [(u "reason", JStr (u "任务开始前已请求停止"))])) None);
        mret (inl o)
      else prepare_exploration
  end.

(** The [except] clauses around the executor. *)
Definition executor_answer {A} (a : answer A) : M W (ConsumeOutcome + A) :=
  match a with
  | UnknownFailure =>
      o ← complete_web_exploration (explored T_FAILED None (Some (u "WEB_EXPLORATION_ERROR"))); mret (inl o)
  | _ => claimed_answer a
  end.

(** [_process_web_exploration_delivery]. *)
Definition process_exploration_delivery : M W ConsumeOutcome :=
  r ← open_exploration;
  match r with
  | inl o => mret o
  | inr plan =>
      a ← world (w_explore envelope plan);
      r ← executor_answer a;
      match r with inl o => mret o | inr result => complete_web_exploration result end
  end.
End Exploration.

(** ** Their logic *)

Section Logic.
Context {W : Type} `{ConsumerWorld W} `{RecordingWorld W} `{ExplorationWorld W} (cfg : ConsumerSettings) (envelope : WebTaskEnvelopeV1).

Lemma settles_report_task o f g : settles (W := W) None Some (report_task o f g).
Proof. unfold report_task. settle. Qed.
#[local] Hint Resolve settles_report_task : consumer.
Lemma settles_complete_recording c : settles None Some (complete_web_recording envelope c).
Proof. apply settles_report_task. Qed.
Lemma settles_complete_exploration c : settles None Some (complete_web_exploration envelope c).
Proof. apply settles_report_task. Qed.
#[local] Hint Resolve settles_complete_recording settles_complete_exploration : consumer.
Lemma settles_recording_control : settles None disposed (recording_control envelope).
Proof. unfold recording_control. settle. Qed.
#[local] Hint Resolve settles_recording_control : consumer.
Lemma settles_recording_plan : settles None disposed (recording_plan envelope).
Proof. unfold recording_plan. settle. Qed.
#[local] Hint Resolve settles_recording_plan : consumer.
Lemma settles_prepare_recording : settles None disposed (prepare_recording envelope).
Proof. unfold prepare_recording. settle. Qed.
#[local] Hint Resolve settles_prepare_recording : consumer.
Lemma settles_open_recording : settles None disposed (open_recording envelope).
Proof. unfold open_recording. settle. Qed.
Lemma settles_collect_recording : settles None disposed collect_recording.
Proof. unfold collect_recording. settle. Qed.
Lemma settles_request f e : settling e = false -> settles (W := W) None (fun _ => None) (request f e).
Proof. intros He. unfold request. settle. Qed.
#[local] Hint Extern 1 (settles _ _ (request _ _)) => apply settles_request; reflexivity : consumer.
Lemma settles_watch_control : settles None disposed (watch_control envelope).
Proof. unfold watch_control. settle. Qed.
#[local] Hint Resolve settles_open_recording settles_collect_recording settles_watch_control : consumer.
Lemma settles_watch_recording fuel c s u l : settles None disposed (watch_recording cfg envelope fuel c s u l).
Proof.
  revert c s u l. induction fuel as [|fuel IH]; intros c s u l; cbn [watch_recording]; [settle|].
  do 5 (settle_step; try settle_step). all: settle.
Qed.
#[local] Hint Resolve settles_watch_recording : consumer.
Lemma settles_known_answer {A} (a : answer A) : settles (W := W) None disposed (known_answer a).
Proof. unfold known_answer. settle. Qed.
#[local] Hint Resolve settles_known_answer : consumer.
Lemma settles_run_recording fuel plan : settles None Some (run_recording cfg envelope fuel plan).
Proof. unfold run_recording, execute_web_recording_isolated. settle. Qed.
#[local] Hint Resolve settles_run_recording : consumer.
Lemma settles_recording_delivery fuel : settles None Some (process_recording_delivery cfg envelope fuel).
Proof. unfold process_recording_delivery. settle. Qed.

Lemma settles_claimed_answer {A} (a : answer A) : settles None disposed (claimed_answer envelope a).
Proof. unfold claimed_answer. settle. Qed.
#[local] Hint Resolve settles_claimed_answer : consumer.
Lemma settles_prepare_exploration : settles None disposed (prepare_exploration envelope).
Proof. unfold prepare_exploration. settle. Qed.
#[local] Hint Resolve settles_prepare_exploration : consumer.
Lemma settles_open_exploration : settles None disposed (open_exploration envelope).
Proof. unfold open_exploration. settle. Qed.
#[local] Hint Resolve settles_open_exploration : consumer.
Lemma settles_executor_answer {A} (a : answer A) : settles None disposed (executor_answer envelope a).
Proof. unfold executor_answer. settle. Qed.
#[local] Hint Resolve settles_executor_answer : consumer.
Lemma settles_exploration_delivery : settles None Some (process_exploration_delivery envelope).
Proof. unfold process_exploration_delivery. settle. Qed.

(** Acknowledgements. *)
Lemma acks_report_task o f g : (forall a, f a = true -> ta_status a = o) -> keeps (W := W) true acks_confirmed (report_task o f g).
Proof.
  intros Hf. apply acks_answer; [done | intros ?; apply keeps_log_ret, _|]. intros a s. cbn beta iota.
  exists (settled_as (Some (if f a then ACKED else REJECTED))). unfold dispose, mbind, M_bind, log. destruct (f a) eqn:E; cbn;
    (split; [by rewrite <- ?app_assoc|]); [apply ack_after; [by apply Hf | done] | apply no_ack_confirmed; by repeat constructor].
Qed.
Lemma acks_complete_recording c : keeps true acks_confirmed (complete_web_recording envelope c).
Proof. apply acks_report_task. intros a [_ E]%andb_true_iff. by apply bool_decide_eq_true in E. Qed.
Lemma acks_complete_exploration c : keeps true acks_confirmed (complete_web_exploration envelope c).
Proof. apply acks_report_task. intros a E. by apply bool_decide_eq_true in E. Qed.
#[local] Hint Resolve acks_complete_recording acks_complete_exploration : consumer.
(** The claim of a task that is over. *)
Lemma acks_task_claimed {A} status idempotent (b : bool) (f : ConsumeOutcome -> A) (k : M W A) :
  (b = true -> status ∈ [u "CANCELLED"; u "COMPLETED"; u "FAILED"]) -> keeps true acks_confirmed k ->
  keeps true acks_confirmed (_ ← log (TaskClaimedAs status idempotent); if b then o ← dispose ACKED; mret (f o) else k).
Proof.
  intros Hb Hk. destruct b.
  - intros s. exists [TaskClaimedAs status idempotent; Ack]. split; [|left; apply ack_after; [by apply Hb | done]].
    transitivity ((cs_log s ++ [TaskClaimedAs status idempotent]) ++ [Ack]); [reflexivity | by rewrite <- app_assoc].
  - apply keeps_log_bind; [apply _ | apply keeps_log, no_ack_confirmed; by repeat constructor|]. by intros [].
Qed.
Lemma acks_recording_control : keeps true acks_confirmed (recording_control envelope).
Proof. unfold recording_control. keep. Qed.
#[local] Hint Resolve acks_recording_control : consumer.
Lemma acks_open_recording : keeps true acks_confirmed (open_recording envelope).
Proof.
  unfold open_recording. apply keeps_log_bind; [apply _ | keep|]. intros a. apply keeps_log_bind; [apply _ | keep|].
  intros [o|[status idempotent]]; [keep|]. apply acks_task_claimed.
  - intros [E%bool_decide_eq_true|[_ E%bool_decide_eq_true]%andb_true_iff]%orb_true_iff; [subst; left | by right].
  - unfold prepare_recording, recording_plan. keep.
Qed.
Lemma acks_watch_recording fuel c s u l : keeps true acks_confirmed (watch_recording cfg envelope fuel c s u l).
Proof.
  revert c s u l. induction fuel as [|fuel IH]; intros c s u l; cbn [watch_recording]; [keep|].
  unfold collect_recording, watch_control, request, kill, world_. keep; apply no_ack_confirmed; by repeat constructor.
Qed.
Lemma acks_recording_delivery fuel : keeps true acks_confirmed (process_recording_delivery cfg envelope fuel).
Proof.
  pose proof acks_open_recording. pose proof acks_watch_recording.
  unfold process_recording_delivery, run_recording, execute_web_recording_isolated, known_answer, with_process, world_.
  keep; apply no_ack_confirmed; by repeat constructor.
Qed.
Lemma acks_exploration_delivery : keeps true acks_confirmed (process_exploration_delivery envelope).
Proof.
  unfold process_exploration_delivery. apply keeps_log_bind; [apply _ | | intros r; unfold executor_answer, claimed_answer; keep].
  unfold open_exploration. apply keeps_log_bind; [apply _ | keep|]. intros a. apply keeps_log_bind; [apply _ | keep|].
  intros [o|[status idempotent]]; [keep|]. apply acks_task_claimed.
  - intros E%bool_decide_eq_true. revert E. rewrite !elem_of_cons. tauto.
  - unfold prepare_exploration, claimed_answer. keep.
Qed.

(** Processes. *)
Lemma unstarted_report_task o f g : keeps (W := W) true none_started (report_task o f g).
Proof. unfold report_task. keep. Qed.
#[local] Hint Resolve unstarted_report_task : consumer.
Lemma unstarted_recording_control : keeps true none_started (recording_control envelope).
Proof. unfold recording_control, complete_web_recording. keep. Qed.
#[local] Hint Resolve unstarted_recording_control : consumer.
Lemma unstarted_open_recording : keeps true none_started (open_recording envelope).
Proof. unfold open_recording, prepare_recording, recording_plan, complete_web_recording. keep; done. Qed.
Lemma unstarted_watch_recording fuel c s u l : keeps true none_started (watch_recording cfg envelope fuel c s u l).
Proof.
  revert c s u l. induction fuel as [|fuel IH]; intros c s u l; cbn [watch_recording]; [keep|].
  unfold collect_recording, watch_control, request, kill, world_. keep; done.
Qed.
Lemma unstarted_exploration_delivery : keeps true none_started (process_exploration_delivery envelope).
Proof.
  unfold process_exploration_delivery, open_exploration, prepare_exploration, executor_answer, claimed_answer, complete_web_exploration.
  keep; done.
Qed.
Lemma unstarted_recording_report (a : answer RecordingControl) c : keeps true none_started
  (r ← known_answer a; match r with inl o => mret o | inr x => complete_web_recording envelope (c x) end).
Proof. unfold known_answer, complete_web_recording. keep. Qed.
Lemma starts_recording_delivery fuel : starts 1 (process_recording_delivery cfg envelope fuel).
Proof.
  apply (starts_bind 0 1); [apply starts_none, unstarted_open_recording|]. intros [o|plan]; [apply starts_none; keep|].
  apply (starts_bind 1 0); [apply starts_with_process, unstarted_watch_recording|]. intros [o|e]; apply starts_none; [keep|].
  apply keeps_log_bind; [apply _ | keep|]. intros a. exact (unstarted_recording_report a _).
Qed.
Lemma closed_recording_delivery fuel : keeps false closed (process_recording_delivery cfg envelope fuel).
Proof.
  apply keeps_log_bind; [apply _ | apply closed_unstarted, unstarted_open_recording|]. intros [o|plan]; [apply closed_unstarted; keep|].
  apply keeps_log_bind; [apply _ | apply closed_with_process, unstarted_watch_recording|]. intros [o|e]; apply closed_unstarted; [keep|].
  apply keeps_log_bind; [apply _ | keep|]. intros a. exact (unstarted_recording_report a _).
Qed.
End Logic.
