(* ===== verification/PerformanceConsumer.v ===== *)
(** The runner's consumption of load tests ([runner/consumer.py]): claim, plan and
    start, the supervised load, and its result, which is kept until the back end has
    it, so that a message delivered again does not apply the load again. *)
From S2P Require Import Prelude PyText Calendar Json PyJson RunData RunDispatch ScenarioData RunnerValues ScenarioSql PyUrl.
From S2P Require Import ScenarioActions ScenarioRun ScenarioProtocol ApiTemplate ApiExecutor ApiPipeline Envelope ApiConsumer.
From S2P Require Import ApiConsumerLogic ApiConsumerLemmas Supervision ScenarioConsumer.
Open Scope Z_scope.

(** [PerformanceExecutionPlanResult]; [pp_load] are the parameters of the load. *)
Inductive LoadTarget := LoadScenario (p : ScenarioTaskPlan) | LoadCase (p : TaskPlan).
Record PerformancePlan := {
  pp_schema_version : Z;
  pp_case_run_id : Z;
  pp_target_type : pytext;
  pp_request : ApiRequestTemplate;
  pp_total_timeout_ms : Z;
  pp_target_plan : option LoadTarget;
  pp_load : json;
}.
(** What [_run_performance_task_worker] sends. *)
Inductive PerformanceMessage := PERFORMANCE_RESULT (result : json) | LOAD_CANCELLED | LOAD_ERROR (error_type : pytext).

(** The client's methods for load tests, the load itself, and the store of results;
    deleting a stored result either works or fails with a [StateError]. *)
Class PerformanceWorld (W : Type) := {
  w_load_plan : RunTaskEnvelopeV1 -> W -> answer PerformancePlan * W;
  w_load_scenario : RunTaskEnvelopeV1 -> Z -> W -> answer ScenarioTaskPlan * W;
  w_load_case : RunTaskEnvelopeV1 -> Z -> W -> answer TaskPlan * W;
  w_load_complete : RunTaskEnvelopeV1 -> Z -> Z -> list json -> W -> answer pytext * W;
  w_load_inline : RunTaskEnvelopeV1 -> PerformancePlan -> W -> (task_exn + json) * W;
  w_load_create : PerformancePlan -> W -> (task_exn + unit) * W;
  w_load_outcome : W -> option PerformanceMessage * W;
  w_store_load : CacheKey -> W -> answer (option json) * W;
  w_store_save : CacheKey -> json -> W -> answer unit * W;
  w_store_delete : CacheKey -> W -> bool * W;
}.

(** The key of a task, and the content of a result that can be reported. *)
Definition cache_key (e : RunTaskEnvelopeV1) : CacheKey := (rt_run_id e, rt_message_id e).
Definition load_result (v : json) : option (Z * list json) :=
  match v with
  | JDict fields =>
      match get "wall_duration_ms" fields, get "samples" fields with
      | JInt wall_duration_ms, JList samples => Some (wall_duration_ms, samples)
      | _, _ => None
      end
  | _ => None
  end.

(** [replace(target_plan, request=plan.request)] and [replace(plan, target_plan=...)]. *)
Definition with_request (p : TaskPlan) (r : ApiRequestTemplate) : TaskPlan :=
  let a := tk_plan p in
  {| tk_case_run_id := tk_case_run_id p; tk_total_timeout_ms := tk_total_timeout_ms p;
     tk_plan := {| ap_request := r; ap_initial_context := ap_initial_context a; ap_pre_actions := ap_pre_actions a;
                   ap_extractors := ap_extractors a; ap_post_actions := ap_post_actions a; ap_sql_connections := ap_sql_connections a;
                   ap_secrets := ap_secrets a; ap_cleanups := ap_cleanups a; ap_defer_cleanup := ap_defer_cleanup a |} |}.
Definition with_target (p : PerformancePlan) (t : LoadTarget) : PerformancePlan :=
  {| pp_schema_version := pp_schema_version p; pp_case_run_id := pp_case_run_id p; pp_target_type := pp_target_type p;
     pp_request := pp_request p; pp_total_timeout_ms := pp_total_timeout_ms p; pp_target_plan := Some t; pp_load := pp_load p |}.

Section Performance.
Context {W : Type} `{ConsumerWorld W} `{ScenarioWorld W} `{PerformanceWorld W} (cfg : ConsumerSettings) (envelope : RunTaskEnvelopeV1).
Abbreviation key := (cache_key envelope).

(** The cache. *)
Definition cached (k : CacheKey) : M W (option json) := fun s => (s, Done (cs_cache s !! k)).
Definition update_cache (f : ResultCache -> ResultCache) : M W unit := fun s =>
  (Build_Cs (cs_world s) (f (cs_cache s)) (cs_log s), Done tt).

(** A call of the client whose exceptions the method around it handles. *)
Definition ask {A} (f : W -> answer A * W) : M W A :=
  a ← world f;
  match a with
  | Answer v => mret v
  | AuthenticationFailed => raises RaisedAuthentication
  | TransportFailed => raises RaisedTransport
  | RunnerFailed => raises RaisedRunner
  | UnknownFailure => raises RaisedOther
  end.

(** [_forget_performance_result]; an error of the store is ignored. *)
Definition forget_performance_result : M W unit :=
  _ ← update_cache (delete key);
  if has_result_store cfg then _ ← world (w_store_delete key); mret tt else mret tt.

(** [_execute_performance_isolated]. *)
Definition execute_performance_isolated (fuel : nat) (plan : PerformancePlan) (started : StartAnswer)
  : M W (ConsumeOutcome + ProcessEnd PerformanceMessage) :=
  if has_performance_isolation cfg then
    supervise cfg envelope w_load_outcome (LOAD_ERROR (u "PERFORMANCE_EXECUTOR_ERROR")) (w_load_create plan) fuel
      (pp_case_run_id plan) (deadline_from (st_started_at started) (pp_total_timeout_ms plan))
  else
    r ← world (w_load_inline envelope plan);
    v ← or_raise r;
    mret (inr (Outcome (PERFORMANCE_RESULT v))).

(** [performance_complete] and what becomes of the delivery. *)
Definition report_load (case_run_id wall_duration_ms : Z) (samples : list json) : M W ConsumeOutcome :=
  a ← world (w_load_complete envelope case_run_id wall_duration_ms samples);
  _ ← log (ReportedLoad case_run_id a);
  match a with
  | Answer status =>
      _ ← forget_performance_result;
      dispose (if decide (status ∈ [u "SUCCESS"; u "FAILED"]) then ACKED else REJECTED)
  | AuthenticationFailed => _ ← forget_performance_result; dispose STOPPED_AUTH
  | TransportFailed => dispose REQUEUED
  | RunnerFailed => _ ← forget_performance_result; dispose REJECTED
  | UnknownFailure => dispose REQUEUED
  end.

(** [_complete_performance_outcome]. *)
Definition complete_performance_outcome (case_run_id : Z) (e : ProcessEnd PerformanceMessage) : M W ConsumeOutcome :=
  match e with
  | OutOfTime => complete_total_timeout envelope case_run_id 0
  | Forced => complete_cancelled envelope case_run_id 0 (u "FORCE_STOP_REQUESTED") None
  | Unresponsive | Outcome LOAD_CANCELLED => complete_cancelled envelope case_run_id 0 (u "CANCEL_REQUESTED") None
  | Outcome (LOAD_ERROR t) =>
      _ ← forget_performance_result;
      complete_execution_error envelope case_run_id (default (u "PERFORMANCE_EXECUTOR_ERROR") (or_text (Some t) None)) 0
  | Outcome (PERFORMANCE_RESULT v) =>
      match load_result v with
      | Some (wall_duration_ms, samples) => report_load case_run_id wall_duration_ms samples
      | None =>
          _ ← forget_performance_result;
          complete_execution_error envelope case_run_id
            (match v with JDict _ => u "PERFORMANCE_RESULT_INVALID" | _ => u "PERFORMANCE_EXECUTOR_ERROR" end) 0
      end
  end.

(** A result from an earlier delivery of the message. *)
Definition known_result : M W (option json) :=
  c ← cached key;
  match c with
  | Some v => mret (Some v)
  | None =>
      if has_result_store cfg then
        stored ← ask (w_store_load key);
        match stored with
        | Some v => _ ← update_cache (fun c => <[key := v]> c); mret (Some v)
        | None => mret None
        end
      else mret None
  end.

(** The load is applied; a result is kept, in memory and in the store. *)
Definition save_result (v : json) : M W (ConsumeOutcome + ProcessEnd PerformanceMessage) :=
  let r := inr (Outcome (PERFORMANCE_RESULT v)) in
  if has_result_store cfg then
    a ← world (w_store_save key v);
    match a with
    | Answer _ => mret r
    | UnknownFailure => raises RaisedOther
    | _ => o ← dispose REQUEUED; mret (inl o)
    end
  else mret r.
Definition keep_result (r : ConsumeOutcome + ProcessEnd PerformanceMessage) : M W (ConsumeOutcome + ProcessEnd PerformanceMessage) :=
  match r with
  | inr (Outcome (PERFORMANCE_RESULT v)) =>
      _ ← log (Measured key v);
      _ ← update_cache (fun c => <[key := v]> c);
      save_result v
  | _ => mret r
  end.
Definition apply_load (fuel : nat) (plan : PerformancePlan) (started : StartAnswer) : M W (ConsumeOutcome + ProcessEnd PerformanceMessage) :=
  _ ← log (LoadStarted key);
  r ← execute_performance_isolated fuel plan started;
  keep_result r.

(** The plan of the target. *)
Definition target_plan (plan : PerformancePlan) : M W PerformancePlan :=
  if decide (3 <= pp_schema_version plan) then
    if decide (pp_target_type plan = u "SCENARIO") then
      p ← ask (w_load_scenario envelope (pp_case_run_id plan)); mret (with_target plan (LoadScenario p))
    else
      p ← ask (w_load_case envelope (pp_case_run_id plan)); mret (with_target plan (LoadCase (with_request p (pp_request plan))))
  else mret plan.
Definition start_load (plan : PerformancePlan) : M W StartAnswer :=
  if decide (pp_target_type plan = u "SCENARIO") then ask (w_scenario_start envelope (pp_case_run_id plan))
  else ask (w_start envelope (pp_case_run_id plan)).

(** From the started run to the disposal. *)
Definition run_load (fuel : nat) (plan : PerformancePlan) (started : StartAnswer) : M W ConsumeOutcome :=
  let case_run_id := pp_case_run_id plan in
  if decide (st_status started = u "CANCELLING") then complete_cancelled envelope case_run_id 0 (u "CANCEL_REQUESTED") None
  else
    c ← check_control envelope case_run_id;
    match c with
    | inl o => mret o
    | inr (Some control) => complete_control_result envelope case_run_id control 0 None
    | inr None =>
        known ← known_result;
        match known with
        | Some v => complete_performance_outcome case_run_id (Outcome (PERFORMANCE_RESULT v))
        | None =>
            r ← apply_load fuel plan started;
            match r with inl o => mret o | inr e => complete_performance_outcome case_run_id e end
        end
    end.

(** The [except] clauses of [_process_performance_delivery]; [plan] as read so far. *)
Definition handle (plan : option PerformancePlan) (x : task_exn) : M W ConsumeOutcome :=
  match x with
  | Interrupted => raises Interrupted
  | RaisedAuthentication => _ ← forget_performance_result; dispose STOPPED_AUTH
  | RaisedTransport => dispose REQUEUED
  | RaisedError t _ =>
      match plan with
      | Some plan =>
          if decide (t = u "CANCEL_REQUESTED")
          then complete_cancelled envelope (pp_case_run_id plan) 0 (u "CANCEL_REQUESTED") None else dispose REJECTED
      | None => dispose REJECTED
      end
  | RaisedTimeout _ => dispose REJECTED
  | RaisedRunner => _ ← forget_performance_result; dispose REJECTED
  | RaisedOther => dispose REQUEUED
  end.

(** Claim and plan. *)
Definition open_load : M W (ConsumeOutcome + PerformancePlan) :=
  status ← ask (w_claim envelope);
  _ ← log (ClaimedAs status);
  if decide (status = u "CANCELLED") then _ ← forget_performance_result; o ← dispose ACKED; mret (inl o)
  else plan ← ask (w_load_plan envelope); mret (inr plan).
Definition execute_load (fuel : nat) (plan : PerformancePlan) : M W ConsumeOutcome :=
  plan ← target_plan plan;
  started ← start_load plan;
  run_load fuel plan started.

(** [_process_performance_delivery]. *)
Definition process_performance_delivery (fuel : nat) : M W ConsumeOutcome :=
  if has_executor cfg then
    r ← catch open_load (fun x => o ← handle None x; mret (inl o));
    match r with
    | inl o => mret o
    | inr plan => catch (execute_load fuel plan) (handle (Some plan))
    end
  else dispose REJECTED.
End Performance.

(** ** Its logic *)

Section Logic.
Context {W : Type} `{ConsumerWorld W} `{ScenarioWorld W} `{PerformanceWorld W} (cfg : ConsumerSettings) (envelope : RunTaskEnvelopeV1).

(** Settlement. *)
Lemma settles_cached k : settles (W := W) None (fun _ => None) (cached k).
Proof. intros s. exists []. by rewrite app_nil_r. Qed.
Lemma settles_update_cache st f : settles (W := W) st (fun _ => st) (update_cache f).
Proof. intros s. exists []. by rewrite !app_nil_r. Qed.
Lemma settles_ask {A} (f : W -> answer A * W) : settles None (fun _ => None) (ask f).
Proof. unfold ask. settle. Qed.
#[local] Hint Resolve settles_cached settles_update_cache settles_ask : consumer.
Lemma settles_forget st : settles st (fun _ => st) (forget_performance_result cfg envelope).
Proof. unfold forget_performance_result. settle. Qed.
#[local] Hint Resolve settles_forget settles_report settles_check_control : consumer.
Lemma settles_execute_performance fuel p st : settles None disposed (execute_performance_isolated cfg envelope fuel p st).
Proof. unfold execute_performance_isolated. settle. Qed.
Lemma settles_report_load c w l : settles None Some (report_load cfg envelope c w l).
Proof. unfold report_load. settle. Qed.
#[local] Hint Resolve settles_execute_performance settles_report_load : consumer.
Lemma settles_performance_outcome c e : settles None Some (complete_performance_outcome cfg envelope c e).
Proof. unfold complete_performance_outcome, complete_total_timeout, complete_cancelled, complete_execution_error. settle. Qed.
Lemma settles_known_result : settles None (fun _ => None) (known_result cfg envelope).
Proof. unfold known_result. settle. Qed.
Lemma settles_keep_result r : settles (disposed r) disposed (keep_result cfg envelope r).
Proof. unfold keep_result, save_result. destruct r as [o|[[v| |t]| | |]]; cbn [disposed]; settle. Qed.
Lemma settles_apply_load fuel p st : settles None disposed (apply_load cfg envelope fuel p st).
Proof.
  unfold apply_load. apply (settles_bind None (fun _ => None)); [settle|]. intros [].
  eapply settles_bind; [apply settles_execute_performance | apply settles_keep_result].
Qed.
#[local] Hint Resolve settles_performance_outcome settles_known_result settles_apply_load : consumer.
Lemma settles_execute_load fuel p : settles None Some (execute_load cfg envelope fuel p).
Proof.
  unfold execute_load, target_plan, start_load, run_load, complete_control_result, complete_cancelled.
  apply (settles_bind None (fun _ => None)); [settle|]. intros p'. apply (settles_bind None (fun _ => None)); [settle|]. intros st. settle.
Qed.
Lemma settles_handle p x : settles None Some (handle cfg envelope p x).
Proof. unfold handle, complete_cancelled. settle. Qed.
#[local] Hint Resolve settles_execute_load settles_handle : consumer.
Lemma settles_open_load : settles None disposed (open_load cfg envelope).
Proof. unfold open_load. settle. Qed.
#[local] Hint Resolve settles_open_load : consumer.
Lemma settles_performance_delivery fuel : settles None Some (process_performance_delivery cfg envelope fuel).
Proof.
  unfold process_performance_delivery. destruct (has_executor cfg); [|settle].
  apply (settles_bind None disposed); [settle|]. intros [o|p]; cbn [disposed]; settle.
Qed.

(** Acknowledgements. *)
Lemma dispose_log (o : ConsumeOutcome) (s : Cs W) : cs_log (dispose o s).1 = cs_log s ++ settled_as (Some o).
Proof. unfold dispose, mbind, M_bind, log. destruct o; cbn; by rewrite <- ?app_assoc. Qed.
Lemma forget_done s : exists s', forget_performance_result cfg envelope s = (s', Done tt)
  /\ cs_log s' = cs_log s /\ cs_cache s' = delete (cache_key envelope) (cs_cache s).
Proof.
  unfold forget_performance_result. destruct (has_result_store cfg); [|by eexists].
  unfold mbind, M_bind, update_cache, world. cbn. destruct (w_store_delete _ _). by eexists.
Qed.
(** An event, then the disposal it allows. *)
Lemma acks_after_event {A} e o (m : M W A) : e <> Ack -> (o = ACKED -> confirming e) ->
  (forall s, cs_log (m s).1 = cs_log s ++ settled_as (Some o)) -> keeps true acks_confirmed (_ ← log e; m).
Proof.
  intros He Hc Hm s. exists (e :: settled_as (Some o)). split.
  - unfold mbind, M_bind, log. rewrite Hm. cbn [cs_log]. by rewrite <- app_assoc.
  - left. destruct o; [by apply ack_after; [apply Hc|] | apply no_ack_confirmed; by repeat constructor..].
Qed.
Lemma forget_then_log {A} (m : M W A) o s : (forall s, cs_log (m s).1 = cs_log s ++ settled_as (Some o)) ->
  cs_log ((_ ← forget_performance_result cfg envelope; m) s).1 = cs_log s ++ settled_as (Some o).
Proof. intros Hm. destruct (forget_done s) as (s' & E & El & _). unfold mbind, M_bind. by rewrite E, Hm, El. Qed.

Section Keeps.
Context (always : bool) (C : list event -> Prop) `{!LogProperty C}.
Lemma keeps_cached k : keeps (W := W) always C (cached k).
Proof. by apply keeps_same. Qed.
Lemma keeps_update_cache f : keeps (W := W) always C (update_cache f).
Proof. by apply keeps_same. Qed.
#[local] Hint Resolve keeps_cached keeps_update_cache : consumer.
Lemma keeps_ask {A} (f : W -> answer A * W) : keeps always C (ask f).
Proof. unfold ask. keep. Qed.
Lemma keeps_forget : keeps always C (forget_performance_result cfg envelope).
Proof. unfold forget_performance_result. keep. Qed.
#[local] Hint Resolve keeps_ask : consumer.
Lemma keeps_known_result : keeps always C (known_result cfg envelope).
Proof. unfold known_result. keep. Qed.
End Keeps.
#[local] Hint Resolve keeps_cached keeps_update_cache keeps_ask keeps_forget keeps_known_result : consumer.

Lemma acks_report_load c w l : keeps true acks_confirmed (report_load cfg envelope c w l).
Proof.
  unfold report_load. apply keeps_log_bind; [apply _ | keep|]. intros a.
  destruct a as [status| | | |]; eapply acks_after_event; try done; try (intros s; apply forget_then_log); try apply dispose_log; try done.
  cbn. by case_decide.
Qed.
#[local] Hint Resolve acks_report_load acks_report : consumer.
Lemma acks_open_load : keeps true acks_confirmed (open_load cfg envelope).
Proof.
  unfold open_load. apply keeps_log_bind; [apply _ | keep|]. intros status. case_decide as E.
  - apply (acks_after_event _ ACKED); [done | done|]. intros s. apply forget_then_log. intros s'. rewrite log_then_ret. apply dispose_log.
  - apply keeps_log_bind; [apply _ | apply keeps_log, no_ack_confirmed; by repeat constructor|]. intros []. keep.
Qed.
Lemma acks_handle p x : keeps true acks_confirmed (handle cfg envelope p x).
Proof. unfold handle, complete_cancelled. keep. Qed.
Lemma acks_execute_load fuel p : keeps true acks_confirmed (execute_load cfg envelope fuel p).
Proof.
  unfold execute_load, target_plan, start_load, run_load, apply_load, keep_result, save_result, execute_performance_isolated, complete_performance_outcome,
    complete_control_result, complete_total_timeout, complete_execution_error, complete_cancelled.
  keep; apply no_ack_confirmed; by repeat constructor.
Qed.
#[local] Hint Resolve acks_open_load acks_handle acks_execute_load : consumer.
Lemma acks_performance_delivery fuel : keeps true acks_confirmed (process_performance_delivery cfg envelope fuel).
Proof. unfold process_performance_delivery. keep. Qed.

(** Processes. *)
#[local] Hint Resolve unstarted_report : consumer.
Lemma unstarted_handle p x : keeps true none_started (handle cfg envelope p x).
Proof. unfold handle, complete_cancelled. keep. Qed.
Lemma unstarted_open_load : keeps true none_started (open_load cfg envelope).
Proof. unfold open_load. keep; done. Qed.
Lemma unstarted_report_load c w l : keeps true none_started (report_load cfg envelope c w l).
Proof. unfold report_load. keep; done. Qed.
#[local] Hint Resolve unstarted_handle unstarted_open_load unstarted_report_load : consumer.
Lemma unstarted_performance_outcome c e : keeps true none_started (complete_performance_outcome cfg envelope c e).
Proof. unfold complete_performance_outcome, complete_total_timeout, complete_execution_error, complete_cancelled. keep. Qed.
#[local] Hint Resolve unstarted_performance_outcome : consumer.
Lemma performance_isolated_log fuel p st s : exists added,
  cs_log (execute_performance_isolated cfg envelope fuel p st s).1 = cs_log s ++ added /\ (count is_started added <= 1)%nat
  /\ ((execute_performance_isolated cfg envelope fuel p st s).2 = Running \/ closed added).
Proof.
  unfold execute_performance_isolated. destruct (has_performance_isolation cfg); [apply supervise_log|].
  lazymatch goal with |- exists l, cs_log (?m s).1 = _ /\ _ => assert (keeps true none_started m) as Hk by keep end.
  destruct (Hk s) as (l & E & [Hl|[? _]]); [|done]. exists l. split; [done|]. unfold closed. rewrite Hl. split; [lia | right; lia].
Qed.
Lemma starts_apply_load fuel p st : starts 1 (apply_load cfg envelope fuel p st).
Proof.
  unfold apply_load, keep_result, save_result. apply (starts_bind 0 1); [apply starts_none; by apply keeps_log|]. intros [].
  apply (starts_bind 1 0); [|intros r; apply starts_none; keep; done].
  intros s. destruct (performance_isolated_log fuel p st s) as (l & E & Hl & _). by exists l.
Qed.
Lemma starts_execute_load fuel p : starts 1 (execute_load cfg envelope fuel p).
Proof.
  unfold execute_load, target_plan, start_load, run_load, complete_control_result, complete_cancelled.
  apply (starts_bind 0 1); [apply starts_none; keep|]. intros p'. apply (starts_bind 0 1); [apply starts_none; keep|]. intros st.
  cbv zeta. case_decide; [apply starts_none; keep|]. apply (starts_bind 0 1); [apply starts_none; keep|].
  intros [o|[control|]]; [apply starts_none; keep..|]. apply (starts_bind 0 1); [apply starts_none; keep|].
  intros [v|]; [apply starts_none; keep|]. apply (starts_bind 1 0); [apply starts_apply_load | intros r; apply starts_none; keep].
Qed.
Lemma starts_performance_delivery fuel : starts 1 (process_performance_delivery cfg envelope fuel).
Proof.
  unfold process_performance_delivery. destruct (has_executor cfg); [|apply starts_none; keep].
  apply (starts_bind 0 1); [apply starts_none; keep|]. intros [o|p]; [apply starts_none; keep|].
  apply starts_catch; [apply starts_execute_load | apply unstarted_handle].
Qed.
#[local] Hint Extern 2 (keeps false closed _) => apply closed_unstarted; solve [eauto with consumer] : consumer.
Lemma closed_performance_isolated fuel p st : keeps false closed (execute_performance_isolated cfg envelope fuel p st).
Proof. intros s. destruct (performance_isolated_log fuel p st s) as (l & E & _ & Hc). exists l. split; [done|]. destruct Hc; auto. Qed.
#[local] Hint Resolve closed_performance_isolated : consumer.
Lemma closed_performance_delivery fuel : keeps false closed (process_performance_delivery cfg envelope fuel).
Proof.
  unfold process_performance_delivery, execute_load, target_plan, start_load, run_load, complete_control_result, complete_cancelled, apply_load, keep_result, save_result.
  keep; unfold closed; cbn; lia.
Qed.
End Logic.

(** ** A load is applied once *)

(** The events that say the load of the task [k] was applied or measured. *)
Definition loads (k : CacheKey) (e : event) : bool :=
  match e with LoadStarted k' => bool_decide (k' = k) | Measured k' _ => bool_decide (k' = k) | _ => false end.
Definition quiet (k : CacheKey) (l : list event) : Prop := Forall (fun e => loads k e = false) l.

Section Calm.
Context {W : Type} `{ConsumerWorld W} `{ScenarioWorld W} `{PerformanceWorld W} (cfg : ConsumerSettings) (k : CacheKey).

(** [m] neither applies the load of [k] nor touches its cached result. *)
Definition calm {A} (m : M W A) : Prop :=
  forall s, exists added, cs_log (m s).1 = cs_log s ++ added /\ quiet k added /\ cs_cache (m s).1 !! k = cs_cache s !! k.

Lemma calm_same {A} (m : M W A) : (forall s, cs_log (m s).1 = cs_log s /\ cs_cache (m s).1 = cs_cache s) -> calm m.
Proof. intros Hm s. destruct (Hm s) as [E1 E2]. exists []. rewrite E1, E2, app_nil_r. split_and!; [done | constructor | done]. Qed.
Lemma calm_ret {A} (a : A) : calm (mret a).
Proof. by apply calm_same. Qed.
Lemma calm_raises {A} x : calm (A := A) (raises x).
Proof. by apply calm_same. Qed.
Lemma calm_running {A} : calm (A := A) still_running.
Proof. by apply calm_same. Qed.
Lemma calm_or_raise {A} (r : task_exn + A) : calm (or_raise r).
Proof. destruct r; by apply calm_same. Qed.
Lemma calm_world {A} (f : W -> A * W) : calm (world f).
Proof. apply calm_same. intros s. unfold world. by destruct (f (cs_world s)). Qed.
Lemma calm_log e : loads k e = false -> calm (log e).
Proof. intros He s. exists [e]. split_and!; [done | by constructor | done]. Qed.
Lemma calm_cached k' : calm (cached k').
Proof. by apply calm_same. Qed.
Lemma calm_update f : (forall c : ResultCache, f c !! k = c !! k) -> calm (update_cache f).
Proof. intros Hf s. exists []. rewrite app_nil_r. split_and!; [done | constructor | apply Hf]. Qed.
Lemma calm_then (s0 s1 s2 : Cs W) l : cs_log s1 = cs_log s0 ++ l -> quiet k l -> cs_cache s1 !! k = cs_cache s0 !! k ->
  (exists l', cs_log s2 = cs_log s1 ++ l' /\ quiet k l' /\ cs_cache s2 !! k = cs_cache s1 !! k) ->
  exists l', cs_log s2 = cs_log s0 ++ l' /\ quiet k l' /\ cs_cache s2 !! k = cs_cache s0 !! k.
Proof.
  intros E1 Q1 C1 (l' & E2 & Q2 & C2). exists (l ++ l'). rewrite E2, E1, app_assoc. split_and!; [done | by apply Forall_app | congruence].
Qed.
Lemma calm_bind {A B} (m : M W A) (f : A -> M W B) : calm m -> (forall a, calm (f a)) -> calm (x ← m; f x).
Proof.
  intros Hm Hf s. destruct (Hm s) as (l & E & Hl & Hc). unfold mbind, M_bind. destruct (m s) as [s1 [a|x|]]; cbn [fst] in *;
    [by eapply calm_then; [| | |apply Hf] | by exists l..].
Qed.
Lemma calm_catch {A} (m : M W A) h : calm m -> (forall x, calm (h x)) -> calm (catch m h).
Proof.
  intros Hm Hh s. destruct (Hm s) as (l & E & Hl & Hc). unfold catch. destruct (m s) as [s1 [a|x|]]; cbn [fst] in *;
    [by exists l | by eapply calm_then; [| | |apply Hh] | by exists l].
Qed.
Lemma calm_finally {A} (m : M W A) f : calm m -> calm f -> calm (finally m f).
Proof.
  intros Hm Hf s. destruct (Hm s) as (l & E & Hl & Hc). unfold finally. destruct (m s) as [s1 [a|x|]]; cbn [fst] in *;
    [by eapply calm_then; [| | |apply Hf].. | by exists l].
Qed.
End Calm.

Create HintDb calm.
#[export] Hint Resolve calm_ret calm_raises calm_running calm_or_raise calm_world calm_cached : calm.
#[export] Hint Extern 1 (calm _ (log _)) => apply calm_log; (reflexivity || by apply bool_decide_false) : calm.
Ltac calm_step :=
  match goal with
  | |- calm _ (mbind _ _) => apply calm_bind; [|intros ?; cbn beta]
  | |- calm _ (catch _ _) => apply calm_catch; [|intros ?]
  | |- calm _ (finally _ _) => apply calm_finally
  | |- calm _ (match ?x with _ => _ end) => destruct x
  | |- calm _ (let _ := _ in _) => cbv zeta
  | |- calm _ _ => solve [eauto with calm]
  end.
Ltac calms := repeat calm_step.

Section CalmSteps.
Context {W : Type} `{ConsumerWorld W} `{ScenarioWorld W} `{PerformanceWorld W} (cfg : ConsumerSettings) (envelope : RunTaskEnvelopeV1) (k : CacheKey).

Lemma calm_dispose o : calm (W := W) k (dispose o).
Proof. unfold dispose. calms. Qed.
#[local] Hint Resolve calm_dispose : calm.
Lemma calm_answered {A} o (a : answer A) : calm (W := W) k (answered o a).
Proof. unfold answered. calms. Qed.
#[local] Hint Resolve calm_answered : calm.
Lemma calm_check_control c : calm k (check_control envelope c).
Proof. unfold check_control. calms. Qed.
Lemma calm_report c kw : calm k (report envelope c kw).
Proof. unfold report, execution_complete, tell, complete_disposition. calms. Qed.
Lemma calm_ask {A} (f : W -> answer A * W) : calm k (ask f).
Proof. unfold ask. calms. Qed.
#[local] Hint Resolve calm_check_control calm_report calm_ask : calm.
Lemma calm_watch_process {Msg} sent (crashed : Msg) fuel c d last cancel : calm k (watch_process cfg envelope sent crashed fuel c d last cancel).
Proof.
  revert last cancel. induction fuel as [|fuel IH]; intros last cancel; cbn [watch_process]; unfold collect_process, past, kill, world_; calms.
Qed.
#[local] Hint Resolve calm_watch_process : calm.
Lemma calm_execute_performance fuel p st : calm k (execute_performance_isolated cfg envelope fuel p st).
Proof. unfold execute_performance_isolated, supervise, with_process, world_. calms. Qed.
Lemma calm_target_plan p : calm k (target_plan envelope p).
Proof. unfold target_plan. calms. Qed.
Lemma calm_start_load p : calm k (start_load envelope p).
Proof. unfold start_load. calms. Qed.

(** Another task's delivery is calm altogether. *)
Section Other.
Context (Hk : cache_key envelope <> k).
Lemma calm_forget : calm k (forget_performance_result cfg envelope).
Proof. unfold forget_performance_result. apply calm_bind; [apply calm_update; intros c; by apply lookup_delete_ne|]. intros []. calms. Qed.
#[local] Hint Resolve calm_forget calm_execute_performance calm_target_plan calm_start_load : calm.
Lemma calm_insert v : calm (W := W) k (update_cache (fun c => <[cache_key envelope := v]> c)).
Proof. apply calm_update. intros c. by apply lookup_insert_ne. Qed.
#[local] Hint Resolve calm_insert : calm.
Lemma calm_performance_outcome c e : calm k (complete_performance_outcome cfg envelope c e).
Proof. unfold complete_performance_outcome, report_load, complete_total_timeout, complete_execution_error, complete_cancelled. calms. Qed.
#[local] Hint Resolve calm_performance_outcome : calm.
Lemma calm_run_load fuel p st : calm k (run_load cfg envelope fuel p st).
Proof. unfold run_load, known_result, apply_load, keep_result, save_result, complete_control_result, complete_cancelled. calms. Qed.
#[local] Hint Resolve calm_run_load : calm.
Lemma calm_other_delivery fuel : calm k (process_performance_delivery cfg envelope fuel).
Proof. unfold process_performance_delivery, execute_load, open_load, handle, complete_cancelled. calms. Qed.
End Other.
End CalmSteps.
#[export] Hint Resolve calm_dispose calm_answered calm_check_control calm_report calm_ask calm_execute_performance calm_target_plan calm_start_load : calm.

Section Once.
Context {W : Type} `{ConsumerWorld W} `{ScenarioWorld W} `{PerformanceWorld W} (cfg : ConsumerSettings) (envelope : RunTaskEnvelopeV1).
Abbreviation k := (cache_key envelope).

(** The delivery ended and will not come again. *)
Definition final {A} (f : A -> option ConsumeOutcome) (r : ends A) : Prop := exists a o, r = Done a /\ f a = Some o /\ o <> REQUEUED.

(** *** A cached result *)

Section Retained.
Context (v : json) (x : Z * list json) (Hv : load_result v = Some x).

(** From a state with the result [v] of the task, [m] does not apply the load, and
    keeps the result unless the delivery is over. *)
Definition retains {A} (f : A -> option ConsumeOutcome) (m : M W A) : Prop :=
  forall s, cs_cache s !! k = Some v -> exists added, cs_log (m s).1 = cs_log s ++ added /\ quiet k added
  /\ (cs_cache (m s).1 !! k = Some v \/ final f (m s).2).

Lemma retains_calm {A} f (m : M W A) : calm k m -> retains f m.
Proof. intros Hm s Hs. destruct (Hm s) as (l & E & Q & C). exists l. split_and!; [done | done | left; congruence]. Qed.
Lemma retains_bind {A B} f g (m : M W A) (h : A -> M W B) : retains f m -> (forall a, f a = None -> retains g (h a)) ->
  (forall a o, f a = Some o -> exists b, h a = mret b /\ g b = Some o) -> retains g (y ← m; h y).
Proof.
  intros Hm Hn Hs s Hc. destruct (Hm s Hc) as (l & E & Q & C). unfold mbind, M_bind.
  destruct (m s) as [s1 [a|e|]]; cbn [fst snd] in *;
    [|exists l; split_and!; [done | done|]; left; destruct C as [|(? & ? & ? & _)]; done..].
  destruct (f a) as [o|] eqn:Ef.
  - destruct (Hs a o Ef) as (b & -> & Hb). exists l. split_and!; [done | done|]. destruct C as [|(a' & o' & [= <-] & Ef' & Ho)]; [by left|].
    right. exists b, o'. split_and!; [done | congruence | done].
  - assert (cs_cache s1 !! k = Some v) as Hc1 by (destruct C as [|(a' & o' & [= <-] & Ef' & _)]; congruence).
    destruct (Hn a Ef s1 Hc1) as (l' & E' & Q' & C'). exists (l ++ l'). rewrite E', E, app_assoc. split_and!; [done | by apply Forall_app | done].
Qed.
Lemma retains_after {A B} g (m : M W A) (h : A -> M W B) : calm k m -> (forall a, retains g (h a)) -> retains g (y ← m; h y).
Proof. intros Hm Hh. apply (retains_bind (fun _ => None)); [by apply retains_calm | auto | done]. Qed.
Lemma retains_catch {A} f (m : M W A) h : retains f m -> (forall e, retains f (h e)) -> retains f (catch m h).
Proof.
  intros Hm Hh s Hc. destruct (Hm s Hc) as (l & E & Q & C). unfold catch. destruct (m s) as [s1 [a|e|]]; cbn [fst snd] in *;
    [by exists l | | by exists l].
  assert (cs_cache s1 !! k = Some v) as Hc1 by (destruct C as [|(? & ? & ? & _)]; done).
  destruct (Hh e s1 Hc1) as (l' & E' & Q' & C'). exists (l ++ l'). rewrite E', E, app_assoc. split_and!; [done | by apply Forall_app | done].
Qed.
Lemma retains_finally {A} f (m : M W A) h : retains f m -> calm k h -> retains f (finally m h).
Proof.
  intros Hm Hh s Hc. destruct (Hm s Hc) as (l & E & Q & C). unfold finally. destruct (m s) as [s1 r]; cbn [fst snd] in *.
  destruct (Hh s1) as (l' & E' & Q' & C').
  destruct r; [| |by exists l]; (exists (l ++ l'); cbn [fst snd]; rewrite E', E, app_assoc, C'; split_and!; [done | by apply Forall_app | done]).
Qed.
Lemma retains_over {A} (f : A -> option ConsumeOutcome) o (g : ConsumeOutcome -> A) : o <> REQUEUED -> (forall o, f (g o) = Some o) ->
  retains f (_ ← forget_performance_result cfg envelope; o ← dispose o; mret (g o)).
Proof.
  intros Ho Hf s Hc. destruct (forget_done cfg envelope s) as (s' & E & El & _).
  assert ((_ ← forget_performance_result cfg envelope; o ← dispose o; mret (g o)) s = (y ← dispose o; mret (g y)) s') as ->
    by (unfold mbind at 1, M_bind at 1; by rewrite E).
  exists (settled_as (Some o)). rewrite log_then_ret, dispose_log, El. split_and!; [done | by destruct o; repeat constructor|].
  right. exists (g o), o. split_and!; [by destruct o | apply Hf | done].
Qed.
Lemma retains_forget o : o <> REQUEUED -> retains Some (_ ← forget_performance_result cfg envelope; dispose o).
Proof.
  intros Ho s Hc. destruct (retains_over Some o id Ho (fun _ => eq_refl) s Hc) as (l & E & Q & C). exists l. revert E C.
  unfold mbind, M_bind, mret, M_ret. destruct (forget_performance_result cfg envelope s) as [s1 [[]| |]]; [|by auto..].
  destruct (dispose o s1) as [s2 [ | |]]; by auto.
Qed.

Lemma retains_report_load c w l : retains Some (report_load cfg envelope c w l).
Proof.
  unfold report_load. apply retains_after; [calms|]. intros a. apply retains_after; [calms|]. intros [].
  destruct a as [status| | | |]; [case_decide; by apply retains_forget | by apply retains_forget | apply retains_calm; calms
    | by apply retains_forget | apply retains_calm; calms].
Qed.
Lemma retains_known_outcome c : retains Some (complete_performance_outcome cfg envelope c (Outcome (PERFORMANCE_RESULT v))).
Proof. unfold complete_performance_outcome. rewrite Hv. destruct x. apply retains_report_load. Qed.
Lemma retains_run_load fuel p st : retains Some (run_load cfg envelope fuel p st).
Proof.
  unfold run_load, complete_control_result, complete_cancelled. cbv zeta. case_decide; [apply retains_calm; calms|].
  apply retains_after; [calms|]. intros [o|[control|]]; [apply retains_calm; calms..|].
  intros s Hc. assert (known_result cfg envelope s = (s, Done (Some v))) as Ek.
  { unfold known_result, mbind, M_bind, cached. by rewrite Hc. }
  rewrite (bind_done _ _ _ _ _ Ek). by apply retains_known_outcome.
Qed.
Lemma retains_handle p e : retains Some (handle cfg envelope p e).
Proof.
  unfold handle, complete_cancelled. destruct e; first [by apply retains_forget | apply retains_calm; solve [calms]].
Qed.
Lemma retains_delivery fuel : retains Some (process_performance_delivery cfg envelope fuel).
Proof.
  unfold process_performance_delivery. destruct (has_executor cfg); [|apply retains_calm; calms].
  apply (retains_bind disposed).
  - apply retains_catch.
    + unfold open_load. apply retains_after; [calms|]. intros status. apply retains_after; [calms|]. intros [].
      case_decide; [by apply retains_over | apply retains_calm; calms].
    + intros e. apply (retains_bind Some); [apply retains_handle | done|]. intros o o' [= <-]. by eexists.
  - intros [o|p] Hn; [done|]. apply retains_catch; [|apply retains_handle].
    unfold execute_load. apply retains_after; [calms|]. intros p'. apply retains_after; [calms|]. intros st. apply retains_run_load.
  - intros [o|p] o' [= <-]. by eexists.
Qed.
End Retained.

(** *** A new result *)

Definition unmeasured (l : list event) : Prop := Forall (fun e => forall v, e <> Measured k v) l.
#[local] Instance unmeasured_log : LogProperty unmeasured.
Proof. split; [constructor | by apply Forall_app_2]. Qed.
Lemma quiet_unmeasured l : quiet k l -> unmeasured l.
Proof. intros Hl. apply (Forall_impl _ _ _ Hl). intros e He v ->. cbn in He. by apply bool_decide_eq_false in He. Qed.
Lemma unmeasured_calm {A} (m : M W A) : calm k m -> keeps true unmeasured m.
Proof. intros Hm s. destruct (Hm s) as (l & E & Q & _). exists l. split; [done|]. left. by apply quiet_unmeasured. Qed.

(** A result that [m] measures is cached in the end, unless the delivery is over. *)
Definition measures {A} (f : A -> option ConsumeOutcome) (m : M W A) : Prop :=
  forall s, exists added, cs_log (m s).1 = cs_log s ++ added
  /\ forall v, Measured k v ∈ added -> is_Some (load_result v) -> cs_cache (m s).1 !! k = Some v \/ final f (m s).2.

Lemma not_measured l v : unmeasured l -> Measured k v ∉ l.
Proof. intros Hl Hin. by apply (proj1 (Forall_forall _ _) Hl _ Hin v). Qed.
Lemma measures_none {A} f (m : M W A) : keeps true unmeasured m -> measures f m.
Proof.
  intros Hm s. destruct (Hm s) as (l & E & [U|[? _]]); [|done]. exists l. split; [done|]. intros v Hin. by apply not_measured in Hin.
Qed.
Lemma measures_after {A B} g (m : M W A) (h : A -> M W B) : keeps true unmeasured m -> (forall a, measures g (h a)) -> measures g (y ← m; h y).
Proof.
  intros Hm Hh s. destruct (Hm s) as (l & E & [U|[? _]]); [|done]. unfold mbind, M_bind.
  destruct (m s) as [s1 [a|e|]]; cbn [fst snd] in *; [|exists l; split; [done|]; intros v Hin; by apply not_measured in Hin..].
  destruct (Hh a s1) as (l' & E' & M'). exists (l ++ l'). rewrite E', E, app_assoc. split; [done|].
  intros v [Hin|Hin]%elem_of_app; [by apply not_measured in Hin | by apply M'].
Qed.
Lemma measures_finally {A} f (m : M W A) h : measures f m -> calm k h -> measures f (finally m h).
Proof.
  intros Hm Hh s. destruct (Hm s) as (l & E & M'). unfold finally. destruct (m s) as [s1 r]; cbn [fst snd] in *.
  destruct (Hh s1) as (l' & E' & Q' & C').
  destruct r; [| |by exists l]; (exists (l ++ l'); cbn [fst snd]; rewrite E', E, app_assoc, C'; split; [done|];
    intros v [Hin|Hin]%elem_of_app; [by apply M' | by apply not_measured in Hin; [|apply quiet_unmeasured]]).
Qed.
Lemma measures_catch {A} f (m : M W A) h : measures f m -> (forall e, keeps true unmeasured (h e)) ->
  (forall e v x, load_result v = Some x -> retains v f (h e)) -> measures f (catch m h).
Proof.
  intros Hm Hu Hh s. destruct (Hm s) as (l & E & M'). unfold catch. destruct (m s) as [s1 [a|e|]]; cbn [fst snd] in *; [by exists l | | by exists l].
  destruct (Hu e s1) as (l' & E' & [U|[? _]]); [|done]. exists (l ++ l'). rewrite E', E, app_assoc. split; [done|].
  intros v [Hin|Hin]%elem_of_app Hv; [|by apply not_measured in Hin]. destruct Hv as [x Hx].
  destruct (M' v Hin ltac:(by eexists)) as [Hc|(? & ? & ? & _)]; [|done].
  by destruct (Hh e v x Hx s1 Hc) as (_ & _ & _ & C).
Qed.
Lemma measures_ext {A} f (m m' : M W A) : (forall s, m s = m' s) -> measures f m -> measures f m'.
Proof. intros E Hm s. rewrite <- E. apply Hm. Qed.

#[local] Hint Extern 2 (keeps _ unmeasured _) => apply unmeasured_calm; solve [calms] : consumer.
#[local] Hint Resolve keeps_forget keeps_ask keeps_known_result : consumer.
Lemma unmeasured_outcome c e : keeps true unmeasured (complete_performance_outcome cfg envelope c e).
Proof.
  unfold complete_performance_outcome, report_load, complete_total_timeout, complete_execution_error, complete_cancelled.
  keep; constructor; by try constructor.
Qed.
#[local] Hint Resolve unmeasured_outcome : consumer.

(** The new result is cached before anything else can happen to it. *)
Lemma measures_result c r : measures Some (r ← keep_result cfg envelope r;
  match r with inl o => mret o | inr e => complete_performance_outcome cfg envelope c e end).
Proof.
  unfold keep_result. destruct r as [o|[[v| |t]| | |]]; try (apply measures_none; solve [keep]).
  set (rest := fun r : ConsumeOutcome + ProcessEnd PerformanceMessage =>
    match r with inl o => mret o | inr e => complete_performance_outcome cfg envelope c e end : M W ConsumeOutcome).
  set (save := save_result cfg envelope v).
  assert (keeps true unmeasured (y ← save; rest y)) as Hu by (unfold save, save_result, rest; keep).
  assert (forall x, load_result v = Some x -> retains v Some (y ← save; rest y)) as Hr.
  { intros x Hx. assert (retains v Some (rest (inr (Outcome (PERFORMANCE_RESULT v))))) as Hk by exact (retains_known_outcome v x Hx c).
    unfold save, save_result. cbv zeta. destruct (has_result_store cfg); [|exact Hk].
    intros s Hc. rewrite M_assoc. revert s Hc. apply retains_after; [calms|].
    assert (retains v Some (y ← (o ← dispose REQUEUED; mret (inl o)); rest y)) as Hq.
    { intros s Hc. rewrite M_assoc. revert s Hc. apply retains_after; [calms|]. intros o. apply (retains_calm v Some (mret o)). calms. }
    intros [a| | | |]; [exact Hk | exact Hq.. | apply (retains_calm v Some (raises RaisedOther)); calms]. }
  intros s. set (s1 := Build_Cs (cs_world s) (<[k := v]> (cs_cache s)) (cs_log s ++ [Measured k v])).
  change (exists added, cs_log ((y ← save; rest y) s1).1 = cs_log s ++ added
    /\ forall v', Measured k v' ∈ added -> is_Some (load_result v') -> cs_cache ((y ← save; rest y) s1).1 !! k = Some v'
       \/ final Some ((y ← save; rest y) s1).2).
  destruct (Hu s1) as (l & E & [U|[? _]]); [|done]. exists (Measured k v :: l). split; [rewrite E; unfold s1; cbn [cs_log]; by rewrite <- app_assoc|].
  intros v' [Ev|Hin]%elem_of_cons Hx; [|by apply not_measured in Hin]. injection Ev as ->. destruct Hx as [x Hx].
  assert (cs_cache s1 !! k = Some v) as Hc by apply lookup_insert_eq. by destruct (Hr x Hx s1 Hc) as (_ & _ & _ & C).
Qed.
Lemma measures_run_load fuel p st : measures Some (run_load cfg envelope fuel p st).
Proof.
  unfold run_load, complete_control_result, complete_cancelled. cbv zeta. case_decide; [apply measures_none; keep|].
  apply measures_after; [keep|]. intros [o|[control|]]; [apply measures_none; keep..|].
  apply measures_after; [keep|]. intros [v|]; [apply measures_none; keep|].
  unfold apply_load. eapply measures_ext; [intros s; symmetry; apply M_assoc|].
  apply measures_after; [apply keeps_log; by repeat constructor|]. intros []. eapply measures_ext; [intros s; symmetry; apply M_assoc|].
  apply measures_after; [keep|]. intros r. apply measures_result.
Qed.
Lemma unmeasured_handle p e : keeps true unmeasured (handle cfg envelope p e).
Proof. unfold handle, complete_cancelled. keep. Qed.
Lemma measures_delivery fuel : measures Some (process_performance_delivery cfg envelope fuel).
Proof.
  pose proof unmeasured_handle as Hh. unfold process_performance_delivery. destruct (has_executor cfg); [|apply measures_none; keep].
  apply measures_after; [unfold open_load; keep; by repeat constructor|]. intros [o|p]; [apply measures_none; keep|].
  apply measures_catch; [|apply Hh | intros e v x _; apply retains_handle].
  unfold execute_load. apply measures_after; [keep|]. intros p'. apply measures_after; [keep|]. intros st. apply measures_run_load.
Qed.
End Once.

(** ** Time *)

Class TimedPerformanceWorld (W : Type) `{TimedWorld W time_of} `{PerformanceWorld W} : Prop := {
  tp_plan e w : time_of w <= time_of (w_load_plan e w).2;
  tp_scenario e c w : time_of w <= time_of (w_load_scenario e c w).2;
  tp_case e c w : time_of w <= time_of (w_load_case e c w).2;
  tp_complete e c n l w : time_of w <= time_of (w_load_complete e c n l w).2;
  tp_inline e p w : time_of w <= time_of (w_load_inline e p w).2;
  tp_create p w : time_of w <= time_of (w_load_create p w).2;
  tp_outcome w : time_of w <= time_of (w_load_outcome w).2;
  tp_load k w : time_of w <= time_of (w_store_load k w).2;
  tp_save k v w : time_of w <= time_of (w_store_save k v w).2;
  tp_delete k w : time_of w <= time_of (w_store_delete k w).2;
}.

Section Deadline.
Context {W : Type} `{ConsumerWorld W} `{!TimedWorld W time_of} `{ScenarioWorld W} `{!TimedScenarioWorld W} `{PerformanceWorld W}
  `{!TimedPerformanceWorld W} (cfg : ConsumerSettings) (envelope : RunTaskEnvelopeV1).
#[local] Hint Extern 2 (forall _, (_ <= _)%Z) => intros ?; cbn beta; cbn [snd];
  first [apply ts_start | apply ts_claim | apply tp_plan | apply tp_scenario | apply tp_case | apply tp_complete | apply tp_inline
        | apply tp_create | apply tp_outcome | apply tp_load | apply tp_save | apply tp_delete] : consumer.

Lemma timely_cached T k : timely (W := W) T (cached k).
Proof. by intros s Hs. Qed.
Lemma timely_update_cache T f : timely (W := W) T (update_cache f).
Proof. by intros s Hs. Qed.
Lemma timely_ask {A} T (f : W -> answer A * W) : (forall w, time_of w <= time_of (f w).2) -> timely T (ask f).
Proof. intros Hf. unfold ask. time_. Qed.
#[local] Hint Resolve timely_cached timely_update_cache timely_ask : consumer.
Lemma timely_forget T : timely T (forget_performance_result cfg envelope).
Proof. unfold forget_performance_result. time_. Qed.
#[local] Hint Resolve timely_forget timely_report : consumer.
Lemma timely_performance_outcome T c e : timely T (complete_performance_outcome cfg envelope c e).
Proof. unfold complete_performance_outcome, report_load, complete_total_timeout, complete_execution_error, complete_cancelled. time_. Qed.
#[local] Hint Resolve timely_performance_outcome : consumer.
Lemma timely_execute_performance fuel p st t T : st_started_at st = Some t ->
  (rounds_to (t + pp_total_timeout_ms p * 1000) T < fuel)%nat -> timely T (execute_performance_isolated cfg envelope fuel p st).
Proof.
  intros Hst Hf. unfold execute_performance_isolated, deadline_from. rewrite Hst. cbn [fmap option_fmap option_map].
  destruct (has_performance_isolation cfg); [|time_].
  apply timely_supervise; [intros w; apply tp_outcome | intros w; apply tp_create | done].
Qed.
Lemma timely_run_load fuel p st t T : st_started_at st = Some t ->
  (rounds_to (t + pp_total_timeout_ms p * 1000) T < fuel)%nat -> timely T (run_load cfg envelope fuel p st).
Proof.
  intros Hst Hf. pose proof (timely_execute_performance fuel p st t T Hst Hf) as Hx.
  unfold run_load, known_result, apply_load, keep_result, save_result, complete_control_result, complete_cancelled. cbv zeta. time_.
Qed.
Lemma timely_handle T p e : timely T (handle cfg envelope p e).
Proof. unfold handle, complete_cancelled. time_. Qed.
Lemma timely_open_load T : timely T (open_load cfg envelope).
Proof. unfold open_load. time_. Qed.
Lemma timely_target_plan T p : timely T (target_plan envelope p).
Proof. unfold target_plan. time_. Qed.
Lemma timely_start_load T p : timely T (start_load envelope p).
Proof. unfold start_load. time_. Qed.
#[local] Hint Resolve timely_handle timely_open_load timely_target_plan timely_start_load : consumer.

Lemma ask_done {A} (f : W -> answer A * W) s s' a : ask f s = (s', Done a) -> (f (cs_world s)).1 = Answer a.
Proof.
  unfold ask. rewrite bind_world. destruct (f (cs_world s)) as [[v| | | |] w]; try done. cbn. by intros [= _ <-].
Qed.
Lemma start_load_started p s s' st : start_load envelope p s = (s', Done st) -> is_Some (st_started_at st).
Proof. unfold start_load. case_decide; intros E%ask_done; [by eapply ts_started_at | by eapply tw_started_at]. Qed.
Lemma fueled_catch {A} (m : nat -> M W A) h s : (forall T x, timely T (h x)) ->
  (exists n, forall fuel, (n <= fuel)%nat -> (m fuel s).2 <> Running) ->
  exists n, forall fuel, (n <= fuel)%nat -> (catch (m fuel) h s).2 <> Running.
Proof.
  intros Hh [n Hn]. exists n. intros fuel Hf. specialize (Hn fuel Hf). unfold catch.
  destruct (m fuel s) as [s' [a|x|]]; [done | | done]. by apply (Hh (time_of (cs_world s'))).
Qed.

(** The delivery of a load test comes to an end. *)
Lemma performance_ends (s : Cs W) :
  exists n, forall fuel, (n <= fuel)%nat -> (process_performance_delivery cfg envelope fuel s).2 <> Running.
Proof.
  unfold process_performance_delivery. destruct (has_executor cfg) eqn:Hx; [|exists O; intros fuel _; by apply (timely_dispose (time_of (cs_world s)))].
  apply (ends_after (catch (open_load cfg envelope) _)).
  { apply timely_catch; [eauto with consumer|]. intros x. time_. }
  intros s1 [o|p] _; [by exists O|]. apply fueled_catch; [intros T x; apply timely_handle|]. unfold execute_load.
  apply (ends_after (target_plan envelope p)); [apply timely_target_plan|]. intros s2 p' _.
  apply (ends_after (start_load envelope p')); [apply timely_start_load|]. intros s3 st E. destruct (start_load_started _ _ _ _ E) as [t Ht].
  exists (S (rounds_to (t + pp_total_timeout_ms p' * 1000) (time_of (cs_world s3)))). intros fuel Hf.
  by apply (timely_run_load fuel p' st t (time_of (cs_world s3))); [|lia|].
Qed.
End Deadline.
