(* ===== verification/TaskConsumer.v ===== *)
(** The runner's task consumer as a whole ([process_execution_delivery] of
    [runner/consumer.py]): every kind of run goes to its path, and what the paths
    guarantee together. *)
From S2P Require Import Prelude PyText Calendar Json PyJson RunData RunDispatch ScenarioData RunnerValues ScenarioSql PyUrl.
From S2P Require Import ScenarioActions ScenarioRun ScenarioProtocol ApiTemplate ApiExecutor ApiPipeline Envelope ApiConsumer.
From S2P Require Import ApiConsumerLogic ApiConsumerLemmas Supervision RunWeb ScenarioConsumer WebConsumer RecordingConsumer PerformanceConsumer.
Open Scope Z_scope.

Section Consumer.
Context {W : Type} `{ConsumerWorld W} `{ScenarioWorld W} `{WebWorld W} `{RecordingWorld W} `{ExplorationWorld W} `{PerformanceWorld W}.
Context (cfg : ConsumerSettings) (runner_id : pytext).

(** The branches of [process_execution_delivery]: a load test is told by its slot,
    whatever the type of its run. *)
Definition deliver (rounds fuel : nat) (e : TaskEnvelope) : M W ConsumeOutcome :=
  match e with
  | WebRecordingTask e => process_recording_delivery cfg e fuel
  | WebExplorationTask e => process_exploration_delivery e
  | RunTask e =>
      if decide (rt_required_slot_type e = u "PERFORMANCE") then process_performance_delivery cfg e fuel
      else if decide (rt_run_type e = u "SCENARIO") then process_scenario_delivery cfg e fuel
      else if decide (rt_run_type e = u "WEB_CASE") then process_web_delivery cfg e fuel
      else process_api_delivery cfg e rounds fuel
  end.
Definition consume (rounds fuel : nat) (body : list N) : M W ConsumeOutcome :=
  process_execution_delivery cfg runner_id (deliver rounds fuel) body.



(** C24: processes are bounded and not leaked.  One case run of an API task starts at
    most three child processes, the attempts its retry policy allows and a deferred
    cleanup, a scenario at most two, and a Web case, a recording and a load test one;
    and when a delivery of any kind has ended, returning or raising, every process it
    started has been closed. *)
Theorem processes_bounded_and_closed rounds fuel body (s : Cs W) :
  (forall e, starts 3 (execute_case cfg e fuel) /\ starts 2 (process_scenario_delivery cfg e fuel)
             /\ starts 1 (process_web_delivery cfg e fuel) /\ starts 1 (process_performance_delivery cfg e fuel))
  /\ (forall e, starts 1 (process_recording_delivery cfg e fuel))
  /\ exists added, cs_log (consume rounds fuel body s).1 = cs_log s ++ added
     /\ ((consume rounds fuel body s).2 <> Running -> (count is_started added <= count is_closed added)%nat).
Proof.
  split; [intros e; split_and!; [apply starts_execute_case | apply starts_scenario_delivery | apply starts_web_delivery | apply starts_performance_delivery]|].
  split; [intros e; apply starts_recording_delivery|].
  assert (keeps false closed (consume rounds fuel body)) as Hk.
  { apply keeps_execution_delivery; [apply _ | intros o _; apply closed_unstarted, unstarted_dispose_any | unfold closed; cbn; lia..|].
    intros [e|e|e]; cbn [deliver]; [|apply closed_recording_delivery | apply closed_unstarted, unstarted_exploration_delivery].
    repeat case_decide; [apply closed_performance_delivery | apply closed_scenario_delivery | apply closed_web_delivery | apply closed_api_delivery]. }
  destruct (Hk s) as (added & E & Hc). exists added. split; [done|]. intros Hn. by destruct Hc as [|[_ ?]].
Qed.
End Consumer.

(** ** A load is applied once *)

Section Load.
Context {W : Type} `{ConsumerWorld W} `{ScenarioWorld W} `{WebWorld W} `{RecordingWorld W} `{ExplorationWorld W} `{PerformanceWorld W}.
Context (cfg : ConsumerSettings) (runner_id : pytext) (rounds fuel : nat).

(** The other paths do not touch the results of load tests. *)
Section Calm.
Context (k : CacheKey).
Lemma calm_tell {A} f (e : answer A -> event) : (forall a, loads k (e a) = false) -> calm (W := W) k (tell f e).
Proof. intros He. unfold tell. calms. by apply calm_log. Qed.
#[local] Hint Extern 1 (calm _ (tell _ _)) => apply calm_tell; reflexivity : calm.
Lemma calm_with_process {A} create (body : M W A) : calm k body -> calm k (with_process create body).
Proof. intros Hb. unfold with_process, world_. calms. Qed.
#[local] Hint Resolve calm_with_process calm_watch_process : calm.
Lemma calm_report_run c o f : calm (W := W) k (report_run c o f).
Proof. unfold report_run. calms. Qed.
Lemma calm_claim_task e : calm (W := W) k (claim_task e).
Proof. unfold claim_task. calms. Qed.
#[local] Hint Resolve calm_report_run calm_claim_task : calm.

Lemma calm_watch e n c d last : calm (W := W) k (watch cfg e n c d last).
Proof. revert last. induction n as [|n IH]; intros last; cbn [watch]; unfold collect, past, kill, world_; calms. Qed.
#[local] Hint Resolve calm_watch : calm.
Lemma calm_execute_isolated e n c t d : calm (W := W) k (execute_isolated cfg e n c t d).
Proof. unfold execute_isolated. calms. Qed.
#[local] Hint Resolve calm_execute_isolated : calm.
Lemma calm_attempt_once e n c t d r : calm (W := W) k (attempt_once cfg e n c t d r).
Proof. unfold attempt_once, complete_cancelled, complete_total_timeout, past, world_. calms. Qed.
Lemma calm_wait_loop e n c d r left : calm (W := W) k (wait_loop e n c d r left).
Proof. revert left. induction n as [|n IH]; intros left; cbn [wait_loop]; unfold complete_total_timeout, past; calms. Qed.
#[local] Hint Resolve calm_attempt_once calm_wait_loop : calm.
Lemma calm_retry_loop e n left c t p d r : calm (W := W) k (retry_loop cfg e n left c t p d r).
Proof.
  revert r. induction left as [|left IH]; intros r; cbn [retry_loop];
    unfold wait_retry_with_control, complete_total_timeout, complete_control_result, complete_cancelled, past, world_; calms.
Qed.
#[local] Hint Resolve calm_retry_loop : calm.
Lemma calm_deferred_cleanup e n p c l o d : calm (W := W) k (execute_deferred_cleanup cfg e n p c l o d).
Proof. unfold execute_deferred_cleanup, complete_total_timeout, complete_cancelled, complete_execution_error. calms. Qed.
#[local] Hint Resolve calm_deferred_cleanup : calm.
Lemma calm_execute_case e n : calm (W := W) k (execute_case cfg e n).
Proof.
  unfold execute_case, open_case, execute_with_retries, settle_case, report_case, execution_complete, complete_disposition, complete_control_result,
    complete_cancelled. calms.
Qed.
#[local] Hint Resolve calm_execute_case : calm.
Lemma calm_api_delivery e : calm (W := W) k (process_api_delivery cfg e rounds fuel).
Proof. unfold process_api_delivery. calms. induction rounds as [|m IH]; cbn [case_loop]; calms. Qed.
Lemma calm_watch_cleanup n d : calm (W := W) k (watch_cleanup n d).
Proof. induction n as [|n IH]; cbn [watch_cleanup]; unfold past, kill, world_; calms. Qed.
#[local] Hint Resolve calm_watch_cleanup : calm.
Lemma calm_scenario_delivery e : calm (W := W) k (process_scenario_delivery cfg e fuel).
Proof.
  unfold process_scenario_delivery, open_scenario, run_scenario, complete_scenario_control, complete_scenario_cancelled, complete_scenario_task,
    report_scenario, execute_scenario_isolated, scenario_completion, execute_scenario_cleanup, supervise. calms.
Qed.
Lemma calm_web_result e p x : calm (W := W) k (complete_web_result e p x).
Proof. unfold complete_web_result, report_web. calms. Qed.
#[local] Hint Resolve calm_web_result : calm.
Lemma calm_web_delivery e : calm (W := W) k (process_web_delivery cfg e fuel).
Proof.
  unfold process_web_delivery, open_web, run_web, settle_web, complete_web_evidence_failure, complete_web_cancelled, report_web,
    execute_web_isolated, supervise. calms.
Qed.
Lemma calm_watch_recording e n c s u l : calm (W := W) k (watch_recording cfg e n c s u l).
Proof.
  revert c s u l. induction n as [|n IH]; intros c s u l; cbn [watch_recording];
    unfold collect_recording, watch_control, request, kill, world_; calms.
Qed.
#[local] Hint Resolve calm_watch_recording : calm.
Lemma calm_recording_delivery e : calm (W := W) k (process_recording_delivery cfg e fuel).
Proof.
  unfold process_recording_delivery, open_recording, prepare_recording, recording_plan, recording_control, run_recording,
    execute_web_recording_isolated, known_answer, complete_web_recording, report_task. calms.
Qed.
Lemma calm_exploration_delivery e : calm (W := W) k (process_exploration_delivery e).
Proof.
  unfold process_exploration_delivery, open_exploration, prepare_exploration, executor_answer, claimed_answer, complete_web_exploration, report_task.
  calms.
Qed.
End Calm.

(** The load test a message is about. *)
Definition load_of (body : list N) : option CacheKey :=
  match parse_task_or_recording_envelope body (Some runner_id) with
  | Parsed (RunTask e) => if decide (rt_required_slot_type e = u "PERFORMANCE") then Some (cache_key e) else None
  | _ => None
  end.
Abbreviation step := (consume cfg runner_id rounds fuel).

(** The entry around a delivery. *)
Lemma calm_entry k d body :
  (forall e, parse_task_or_recording_envelope body (Some runner_id) = Parsed e -> calm k (d e)) ->
  calm (W := W) k (process_execution_delivery cfg runner_id d body).
Proof.
  intros Hd. unfold process_execution_delivery. destruct (parse_task_or_recording_envelope _ _) as [e|[]]; [|calms..].
  specialize (Hd e eq_refl). unfold world_. calms.
Qed.
Lemma calm_other_body k body : load_of body <> Some k -> calm k (step body).
Proof.
  intros Hk. apply calm_entry. intros [e|e|e] E; cbn [deliver]; [|apply calm_recording_delivery | apply calm_exploration_delivery].
  unfold load_of in Hk. rewrite E in Hk.
  repeat case_decide; [apply calm_other_delivery; congruence | apply calm_scenario_delivery | apply calm_web_delivery | apply calm_api_delivery].
Qed.
(** A property of the delivery of a load test that entering and leaving the entry do
    not disturb. *)
Lemma load_entry (P : M W ConsumeOutcome -> Prop) body k : load_of body = Some k ->
  (forall m : M W ConsumeOutcome, calm k m -> P m) ->
  (forall A (m : M W A) h, calm k m -> (forall a, P (h a)) -> P (y ← m; h y)) ->
  (forall m f, P m -> calm k f -> P (finally m f)) ->
  (forall e, cache_key e = k -> P (process_performance_delivery cfg e fuel)) -> P (step body).
Proof.
  intros Hl Hcalm Hbind Hfin Hload. unfold load_of in Hl. unfold consume, process_execution_delivery.
  destruct (parse_task_or_recording_envelope _ _) as [[e|e|e]|]; try done. case_decide as Hs; [|done]. injection Hl as Hk.
  assert (P (deliver cfg rounds fuel (RunTask e))) as Hd by (cbn [deliver]; rewrite decide_True by done; by apply Hload).
  apply Hbind; [calms|]. intros _. destruct (has_slot_state cfg); [|exact Hd]. apply Hbind; [calms|]. intros [|]; [|apply Hcalm; calms].
  apply Hbind; [calms|]. intros _. apply Hfin; [exact Hd | unfold world_; calms].
Qed.

(** All deliveries of a sequence, and that those of one load test come again. *)
Fixpoint consume_all (bodies : list (list N)) (s : Cs W) : Cs W :=
  match bodies with [] => s | b :: l => consume_all l (step b s).1 end.
Fixpoint redelivered (k : CacheKey) (bodies : list (list N)) (s : Cs W) : Prop :=
  match bodies with
  | [] => True
  | b :: l => (load_of b = Some k -> (step b s).2 = Done REQUEUED) /\ redelivered k l (step b s).1
  end.

Lemma retains_step body e v x : load_of body = Some (cache_key e) -> load_result v = Some x -> retains e v Some (step body).
Proof.
  intros Hl Hx. apply (load_entry (retains e v Some) _ _ Hl).
  - intros m. apply retains_calm.
  - intros A m h. apply retains_after.
  - intros m f. apply retains_finally.
  - intros e' Hk. pose proof (retains_delivery cfg e' v x Hx fuel) as Hr. unfold retains in *. by rewrite Hk in Hr.
Qed.
Lemma measures_step body e : load_of body = Some (cache_key e) -> measures e Some (step body).
Proof.
  intros Hl. apply (load_entry (measures e Some) _ _ Hl).
  - intros m Hm. by apply measures_none, unmeasured_calm.
  - intros A m h Hm. by apply measures_after, unmeasured_calm.
  - intros m f. apply measures_finally.
  - intros e' Hk. pose proof (measures_delivery cfg e' fuel) as Hr. unfold measures in *. by rewrite Hk in Hr.
Qed.

(** With the result cached, no delivery applies the load. *)
Lemma cached_load_quiet e v x bodies s : load_result v = Some x -> cs_cache s !! cache_key e = Some v -> redelivered (cache_key e) bodies s ->
  exists added, cs_log (consume_all bodies s) = cs_log s ++ added /\ quiet (cache_key e) added
  /\ cs_cache (consume_all bodies s) !! cache_key e = Some v.
Proof.
  intros Hx. revert s. induction bodies as [|b l IH]; intros s Hc Hr; cbn [consume_all redelivered] in *.
  { exists []. rewrite app_nil_r. split_and!; [done | constructor | done]. }
  destruct Hr as [Hb Hr]. assert (exists added, cs_log (step b s).1 = cs_log s ++ added /\ quiet (cache_key e) added
    /\ cs_cache (step b s).1 !! cache_key e = Some v) as (l1 & E1 & Q1 & C1).
  { destruct (decide (load_of b = Some (cache_key e))) as [Hl|Hl].
    - destruct (retains_step b e v x Hl Hx s Hc) as (l1 & E1 & Q1 & C1). exists l1. split_and!; [done | done|].
      destruct C1 as [|(a & o & Ea & [= <-] & Ho)]; [done|]. rewrite (Hb Hl) in Ea. congruence.
    - destruct (calm_other_body _ _ Hl s) as (l1 & E1 & Q1 & C1). exists l1. split_and!; [done | done | congruence]. }
  destruct (IH _ C1 Hr) as (l2 & E2 & Q2 & C2). exists (l1 ++ l2). rewrite E2, E1, app_assoc. split_and!; [done | by apply Forall_app | done].
Qed.

End Load.

Section Ends.
Context {W : Type} `{ConsumerWorld W} `{ScenarioWorld W} `{WebWorld W} `{PerformanceWorld W} {time_of : W -> Z}.
Context `{!TimedWorld W time_of} `{!TimedScenarioWorld W} `{!TimedWebWorld W} `{!TimedPerformanceWorld W}.
Context (cfg : ConsumerSettings) (envelope : RunTaskEnvelopeV1).

End Ends.

(** ** An example world: targets that never answer *)

Module ConsumerWitness.

Definition slow_request : ApiRequestTemplate :=
  {| at_method := u "GET"; at_url := u "http://a.test/slow"; at_query_params := []; at_headers := []; at_cookies := [];
     at_body := {| rb_type := B_NONE; rb_content := JNull; rb_content_type := None |};
     at_auth := {| ra_type := A_NONE; ra_token := None; ra_username := None; ra_password := None; ra_key_name := None;
                   ra_key_value := None; ra_placement := HEADER_ |};
     at_timeout_ms := 1000; at_follow_redirects := true; at_retry_policy := no_retry |}.
Definition slow_plan : TaskPlan :=
  {| tk_case_run_id := 1; tk_total_timeout_ms := 1000;
     tk_plan := {| ap_request := slow_request; ap_initial_context := []; ap_pre_actions := []; ap_extractors := []; ap_post_actions := [];
                   ap_sql_connections := []; ap_secrets := []; ap_cleanups := []; ap_defer_cleanup := false |} |}.
Definition timed_out : CompleteAnswer :=
  {| ca_outcome := u "TIMEOUT"; ca_run_status := u "TIMEOUT"; ca_case_run_status := u "TIMEOUT" |}.

(** A world that is its own clock. *)
#[local] Instance slow_world : ConsumerWorld Z := {|
  w_clock w := (w, w);
  w_claim _ w := (Answer (u "ASSIGNED"), w);
  w_plan _ w := (Answer slow_plan, w);
  w_start _ _ w := (Answer {| st_status := u "RUNNING"; st_started_at := Some 0 |}, w);
  w_control _ _ w := (Answer {| ct_cancellation_requested := false; ct_force_stop_requested := false |}, w);
  w_evaluate _ _ _ w := (TransportFailed, w);
  w_complete _ _ _ w := (Answer timed_out, w);
  w_inline _ w := (inl RaisedOther, w);
  w_create _ w := (inr tt, w);
  w_spawn w := (inr tt, w);
  w_is_alive w := (true, w);
  w_poll w := (inr false, w + 200000);
  w_outcome w := (None, w);
  w_request_cancel w := (true, w);
  w_terminate w := w;
  w_close w := w;
  w_sleep n w := w + Z.max 0 n;
  w_stop_is_set w := (false, w);
  w_stop_wait n w := (false, w + Z.max 0 n);
  w_stop_set w := w;
  w_try_acquire _ w := (true, w);
  w_release w := w;
|}.
#[local] Instance slow_world_timed : TimedWorld Z id.
Proof. split; cbn; intros; try lia. by simplify_eq. Qed.

(** A scenario of two nodes, and a Web case of one action. *)
Definition node (name : string) (t : NodeType) : ScenarioNodePlan :=
  {| sn_id := name; sn_type := t; sn_parent := None; sn_enabled := true; sn_timeout_ms := 1000; sn_failure_policy := None;
     sn_config := [] |}.
Definition slow_scenario : ScenarioTaskPlan :=
  {| sk_case_run_id := 1; sk_total_timeout_ms := 1000;
     sk_plan := {| spl_initial_context := []; spl_stop_on_failure := true; spl_cleanup_policy := u "ALWAYS";
                   spl_max_loop_iterations := 10; spl_nodes := [node "start" START; node "end" END_]; spl_sql_connections := [];
                   spl_secrets := [] |} |}.
Definition slow_web : WebTaskPlan :=
  {| wk_case_run_id := 1; wk_actions := 1; wk_assertions := 0; wk_total_timeout_ms := 1000; wk_content := JNull |}.
#[local] Instance slow_scenarios : ScenarioWorld Z := {|
  w_scenario_plan _ w := (Answer slow_scenario, w);
  w_scenario_start _ _ w := (Answer {| st_status := u "RUNNING"; st_started_at := Some 0 |}, w);
  w_scenario_evaluate _ _ _ w := (TransportFailed, w);
  w_scenario_post _ _ _ w := (Answer timed_out, w);
  w_scenario_create _ _ w := (inr tt, w);
  w_scenario_outcome w := (None, w);
|}.
#[local] Instance slow_webs : WebWorld Z := {|
  w_web_plan _ w := (Answer slow_web, w);
  w_web_start _ _ w := (Answer {| st_status := u "RUNNING"; st_started_at := Some 0 |}, w);
  w_web_evaluate _ _ _ w := (TransportFailed, w);
  w_web_post _ _ _ w := (Answer timed_out, w);
  w_web_create _ w := (inr tt, w);
  w_web_outcome w := (None, w);
  w_web_evidence _ _ _ w := (Answer tt, w);
  refresh_ok _ := true;
  audit_ok _ := true;
|}.
#[local] Instance slow_scenarios_timed : TimedScenarioWorld Z.
Proof. split; cbn; intros; try lia. by simplify_eq. Qed.
#[local] Instance slow_webs_timed : TimedWebWorld Z.
Proof. split; cbn; intros; try lia. by simplify_eq. Qed.

(** A recording that is stopped before it starts, an exploration that finds nothing,
    and a load test whose result the back end does not take. *)
#[local] Instance recordings : RecordingWorld Z := {|
  w_recording_claim _ w := (Answer (u "CLAIMED", false), w);
  w_recording_control _ w := (Answer {| rc_stop_requested := true; rc_cancellation_requested := false |}, w);
  w_recording_plan _ w := (inl tt, w);
  w_recording_start _ w := (Answer (u "RUNNING"), w);
  w_recording_complete _ c w := (Answer {| ta_outcome := task_outcome_text (rr_outcome c); ta_status := task_outcome_text (rr_outcome c) |}, w);
  w_recording_create _ w := (inr tt, w);
  w_recording_outcome w := (None, w);
  w_recording_cancel w := (None, w);
  w_recording_stop w := (None, w);
|}.
#[local] Instance explorations : ExplorationWorld Z := {|
  w_exploration_claim _ w := (Answer (u "CLAIMED", false), w);
  w_exploration_cancelled _ w := (Answer false, w);
  w_exploration_plan _ w := (Answer JNull, w);
  w_exploration_start _ w := (Answer (u "RUNNING"), w);
  w_exploration_complete _ c w := (Answer {| ta_outcome := task_outcome_text (xr_outcome c); ta_status := task_outcome_text (xr_outcome c) |}, w);
  w_explore _ _ w := (Answer (explored T_COMPLETED (Some JNull) None), w);
|}.
Definition measurement : json := JDict [(u "wall_duration_ms", JInt 900); (u "samples", JList [JDict []])].
Definition load_plan : PerformancePlan :=
  {| pp_schema_version := 2; pp_case_run_id := 1; pp_target_type := u "API_CASE"; pp_request := slow_request; pp_total_timeout_ms := 1000;
     pp_target_plan := None; pp_load := JNull |}.
#[local] Instance load_tests : PerformanceWorld Z := {|
  w_load_plan _ w := (Answer load_plan, w);
  w_load_scenario _ _ w := (Answer slow_scenario, w);
  w_load_case _ _ w := (Answer slow_plan, w);
  w_load_complete _ _ _ _ w := (TransportFailed, w);
  w_load_inline _ _ w := (inr measurement, w);
  w_load_create _ w := (inr tt, w);
  w_load_outcome w := (Some (PERFORMANCE_RESULT measurement), w);
  w_store_load _ w := (Answer None, w);
  w_store_save _ _ w := (Answer tt, w);
  w_store_delete _ w := (true, w);
|}.
#[local] Instance load_tests_timed : TimedPerformanceWorld Z.
Proof. split; cbn; intros; lia. Qed.

Definition settings : ConsumerSettings :=
  {| has_executor := true; has_isolation := true; has_stop_event := true; has_slot_state := true;
     has_performance_isolation := true; has_result_store := true; force_stop_poll := 1000000;
     scenario_cancel_wait := 5000000 |}.
Definition slow_task : RunTaskEnvelopeV1 :=
  {| rt_message_id := u "msg_1"; rt_run_id := u "run-7"; rt_runner_id := u "runner_a"; rt_run_type := u "API_CASE";
     rt_required_slot_type := u "API"; rt_attempt := 1; rt_enqueued_at := Aware 0 0 |}.

(** The process is killed after a second, the timeout is reported, and the delivery
    is acknowledged. *)
Example slow_case :
  let '(s, r) := consume settings (u "runner_a") 1 10 (default [] (publish_body (envelope_fields example_payload))) (Build_Cs 0 ∅ []) in
  r = Done ACKED /\ cs_world s = 1000000
  /\ cs_log s = [Acquired; ClaimedAs (u "ASSIGNED"); Started; Killed; Closed;
       Reported_ 1 (failure_kwargs TIMEOUT_ (u "TOTAL_TIMEOUT") 0 None) (Answer timed_out); Ack; Released].
Proof. vm_compute. split_and!; reflexivity. Qed.

(** A message of the back end. *)
Definition message (run_type slot : string) : list N :=
  default [] (publish_body (envelope_fields
    {| tp_schema_version := 1; tp_message_id := "msg_1"; tp_run_id := "run-7"; tp_runner_id := "runner_a"; tp_run_type := run_type;
       tp_required_slot_type := slot; tp_attempt := 1; tp_enqueued_at := 1700000000123456 |})).
Abbreviation consumed l := (consume settings (u "runner_a") 1 10 l (Build_Cs 0 ∅ [])).
Example slow_scenario_case :
  (consumed (message "SCENARIO" "API")).2 = Done ACKED
  /\ cs_log (consumed (message "SCENARIO" "API")).1 = [Acquired; ClaimedAs (u "ASSIGNED"); Started; Killed; Closed;
       ReportedRun 1 (u "TIMEOUT") (Answer timed_out); Ack; Released].
Proof. vm_compute. split_and!; reflexivity. Qed.
Example slow_web_case :
  (consumed (message "WEB_CASE" "WEB")).2 = Done ACKED
  /\ cs_log (consumed (message "WEB_CASE" "WEB")).1 = [Acquired; ClaimedAs (u "ASSIGNED"); Started; Killed; Closed;
       ReportedRun 1 (u "TIMEOUT") (Answer timed_out); Ack; Released].
Proof. vm_compute. split_and!; reflexivity. Qed.


(** A process that answers at once. *)
Definition fast_world : ConsumerWorld Z := {|
  w_clock w := (w, w);
  w_claim _ w := (Answer (u "ASSIGNED"), w);
  w_plan _ w := (Answer slow_plan, w);
  w_start _ _ w := (Answer {| st_status := u "RUNNING"; st_started_at := Some 0 |}, w);
  w_control _ _ w := (Answer {| ct_cancellation_requested := false; ct_force_stop_requested := false |}, w);
  w_evaluate _ _ _ w := (TransportFailed, w);
  w_complete _ _ _ w := (Answer timed_out, w);
  w_inline _ w := (inl RaisedOther, w);
  w_create _ w := (inr tt, w);
  w_spawn w := (inr tt, w);
  w_is_alive w := (true, w);
  w_poll w := (inr true, w);
  w_outcome w := (None, w);
  w_request_cancel w := (true, w);
  w_terminate w := w;
  w_close w := w;
  w_sleep n w := w;
  w_stop_is_set w := (false, w);
  w_stop_wait n w := (false, w);
  w_stop_set w := w;
  w_try_acquire _ w := (true, w);
  w_release w := w;
|}.
Definition load_message : list N := message "API_CASE" "PERFORMANCE".
Definition load_key : CacheKey := (u "run-7", u "msg_1").
Definition first_delivery : list event :=
  [Acquired; ClaimedAs (u "ASSIGNED"); LoadStarted load_key; Started; Closed; Measured load_key measurement;
   ReportedLoad 1 TransportFailed; Nack; Released].
Abbreviation after_first := (consume (H := fast_world) settings (u "runner_a") 1 10 load_message (Build_Cs 0 ∅ [])).
End ConsumerWitness.
