(* ===== verification/ApiReports.v ===== *)
(** The two ends of a report: what the back end answers to the completion of an API
    execution, and what the runner's consumer makes of the answer. *)
From S2P Require Import Prelude PyText Calendar Json PyJson ScenarioData RunnerValues ScenarioSql PyUrl.
From S2P Require Import ScenarioActions ScenarioProtocol ApiTemplate ApiExecutor ApiPipeline Envelope ApiConsumer.
From S2P Require Import Projects RunData RunStatusOps RunControl RunDispatch RunCreate RunExecution RunInvariant RunHandlers RunSystem RunExample.

(** The outcome a runner reports, and the answer it gets. *)
Definition report_of (o : ExecutionOutcome) : Report :=
  match o with
  | HTTP_RESPONSE => HTTP_RESPONSE_ | EXECUTION_ERROR => EXECUTION_ERROR_ | O_TIMEOUT => TIMEOUT_ | O_CANCELLED => CANCELLED_
  end.
Definition effective_outcome (r : TestRun) (o : ExecutionOutcome) : ExecutionOutcome :=
  if decide (r_status r = RunStatus.CANCELLING) then O_CANCELLED else o.
Definition answer_of (effective : ExecutionOutcome) (x : ApiCompleteResponse) : CompleteAnswer :=
  {| ca_outcome := u (outcome_value effective); ca_run_status := u (RunStatus.value (ax_run_status x));
     ca_case_run_status := u (RunNodeStatus.value (ax_case_run_status x)) |}.

(** What the consumer does with the answer to a final report: the client's check,
    then [_complete_disposition]. *)
Definition disposal (sent : Report) (a : CompleteAnswer) : ConsumeOutcome :=
  if completion_accepted sent a then if confirms a then ACKED else REJECTED else REJECTED.

Section Answers.
Context `{Catalog} `{Evaluation} `{Settings}.

(** The status of a run with one case run is that of the case run. *)
Lemma single_final now cx p eff st et em final r' :
  run_inv (cx_run cx) -> r_case_runs (cx_run cx) = [cx_case cx] ->
  complete_api_core now cx p eff st et em = Ok (final, r') -> final = api_final_status [api_node_status st].
Proof.
  intros Hr Hone. unfold complete_api_core. intros ?; inv_ok.
  match goal with x : CaseRun |- _ => rename x into c' end.
  apply finish_case_step in E as [[Hev _] Hst]; [| eapply run_case_ok; [done | rewrite Hone; left] | apply api_node_status_terminal].
  assert (a0 = [c']) as ->.
  { cbn [r_case_runs replace_case r_with_case_runs r_with_control] in E0. rewrite Hone in E0. cbn [fmap list_fmap] in E0.
    rewrite (decide_True (P := cr_id (cx_case cx) = cr_id c')) in E0 by (symmetry; apply Hev).
    case_decide; [|by injection E0]. unfold cancel_other_cases in E0. cbn [map_result] in E0.
    rewrite bool_decide_eq_true_2 in E0 by apply Hev. cbn in E0. by injection E0. }
  match goal with x : api_close_run _ _ _ _ _ = _ |- _ => rename x into Hclose end.
  unfold api_close_run in Hclose. cbn [r_case_runs recompute_summary r_with_case_runs fmap list_fmap] in Hclose. rewrite Hst in Hclose.
  cbn [forallb] in Hclose. rewrite api_node_status_terminal in Hclose. cbn [andb negb] in Hclose.
  destruct (api_final_error _ _ _ _) as [e1 e2]. inv_ok.
  match goal with x : bool * TestRun |- _ => destruct x as [b r2] end. by inv_ok.
Qed.

(** Which results an outcome can have. *)
Lemma result_of_outcome now cx p content eff st et em : api_result_status now cx p content eff = Ok (st, et, em) ->
  match eff with
  | HTTP_RESPONSE => st ∈ [RunNodeStatus.SUCCESS; RunNodeStatus.FAILED; RunNodeStatus.REVIEW]
  | EXECUTION_ERROR => st = RunNodeStatus.FAILED
  | O_TIMEOUT => st = RunNodeStatus.TIMEOUT
  | O_CANCELLED => st = RunNodeStatus.CANCELLED
  end.
Proof.
  unfold api_result_status. destruct eff; intros Hx.
  - inv_ok. destruct (_ : AssertionStatus.t); injection Hx as <- _ _; set_solver.
  - by injection Hx as <- _ _.
  - destruct (bool_decide _); by injection Hx as <- _ _.
  - destruct (_ || _); by injection Hx as <- _ _.
Qed.

End Answers.

Module ReportWitness.
Import Demo.

(** A run of one case, started. *)
Definition started : Db := play base_db 0 [create 1; dispatch; published; claim; start 1].
Definition finished : outcome ApiCompleteResponse :=
  complete_api_execution started 9000000 "run_1" "credential" (complete_payload HTTP_RESPONSE (Some "bad") 1) true.


(** A data-driven run of two case runs whose first failed: its second one times out,
    the run has FAILED, and the client takes the answer for a violation of the
    protocol. *)
Definition second_started : Db :=
  play base_db 0 [create 2; dispatch; published; claim; start 1; complete HTTP_RESPONSE (Some "bad") 1; start 2].
Example last_timeout_rejected : exists x,
  out_result (complete_api_execution second_started 9000000 "run_1" "credential" (complete_payload O_TIMEOUT None 2) true) = Ok x
  /\ ax_run_status x = RunStatus.FAILED /\ completion_accepted TIMEOUT_ (answer_of O_TIMEOUT x) = false.
Proof. eexists. split; [vm_compute; reflexivity|]. split; vm_compute; reflexivity. Qed.

(** The first of two case runs runs into the total timeout: the run goes on, and the
    consumer rejects the delivery, so that nobody executes the second one. *)
Definition first_started : Db := play base_db 0 [create 2; dispatch; published; claim; start 1].
Example total_timeout_abandons_run : exists x,
  out_result (complete_api_execution first_started 9000000 "run_1" "credential" (complete_payload O_TIMEOUT None 1) true) = Ok x
  /\ ax_run_status x = RunStatus.RUNNING /\ completion_accepted TIMEOUT_ (answer_of O_TIMEOUT x) = true
  /\ disposal TIMEOUT_ (answer_of O_TIMEOUT x) = REJECTED.
Proof. eexists. split; [vm_compute; reflexivity|]. split_and!; vm_compute; reflexivity. Qed.
End ReportWitness.
