(* ===== verification/WebReports.v ===== *)
(** The two ends of a Web report: what the back end answers to a completion, what the
    runner's consumer makes of the answer, and which reports of the consumer the back
    end refuses. *)
From stdpp Require Import pretty.
From S2P Require Import Prelude PyText Calendar Json PyJson ScenarioData RunnerValues ScenarioSql PyUrl.
From S2P Require Import ScenarioActions ScenarioProtocol ApiTemplate ApiExecutor ApiPipeline Envelope ApiConsumer.
From S2P Require Import ApiConsumerLogic Supervision WebConsumer.
From S2P Require Import Projects RunData RunStatusOps RunControl RunDispatch RunCreate RunExecution RunWeb RunInvariant RunHandlers RunSystem.
From S2P Require Import RunExample RunTheorems RunExecutionTheorems RunWebTheorems.

(** The payload [web_execution_complete] posts; [redact] is [redact_text] of
    runner/redaction.py, applied to the error texts of the traces. *)
Definition posted_trace (redact : pytext -> pytext) (t : WebTrace) : WebTrace :=
  {| wt_node_id := wt_node_id t; wt_status := wt_status t; wt_duration_ms := wt_duration_ms t;
     wt_error_type := redact <$> wt_error_type t; wt_error_message := redact <$> wt_error_message t |}.
Definition web_request (redact : pytext -> pytext) (message_id : string) (case_run_id : Z) (c : WebCompletion) : WebCompleteRequest :=
  {| wp_message_id := message_id; wp_case_run_id := case_run_id; wp_outcome := wq_outcome c;
     wp_traces := posted_trace redact <$> wq_traces c; wp_error_type := wq_error_type c; wp_error_message := wq_error_message c;
     wp_refreshed_session := wq_refreshed_session c; wp_session_recovery := wq_session_recovery c;
     wp_evaluation_token := wq_evaluation_token c |}.

(** The outcome a completion is stored with, and the answer. *)
Definition effective_web (r : TestRun) (o : WebOutcome) : WebOutcome :=
  if bool_decide (r_status r ∈ [RunStatus.CANCELLING; RunStatus.CANCELLED]) then W_CANCELLED else o.
Definition web_answer_of (effective : WebOutcome) (x : WebCompleteResponse) : CompleteAnswer :=
  {| ca_outcome := u (web_outcome_text effective); ca_run_status := u (RunStatus.value (wx_run_status x));
     ca_case_run_status := u (RunNodeStatus.value (wx_case_run_status x)) |}.

(** The check [web_execution_complete] makes of the answer. *)
Definition web_completion_accepted (sent : WebOutcome) (a : CompleteAnswer) (error_type error_message : option pytext) : bool :=
  let outcome := ca_outcome a in
  let text v := match v with Some (_ :: _) => true | _ => false end in
  bool_decide (outcome ∈ u <$> ["SUCCESS"; "FAILED"; "TIMEOUT"; "CANCELLED"])
  && (bool_decide (outcome = u (web_outcome_text sent))
      || bool_decide (outcome = u "CANCELLED") && negb (bool_decide (sent = W_CANCELLED)))
  && bool_decide (ca_run_status a = outcome)
  && (if decide (outcome = u "FAILED") then bool_decide (ca_case_run_status a ∈ [u "FAILED"; u "REVIEW"])
      else bool_decide (ca_case_run_status a = outcome))
  && (if decide (outcome = u "SUCCESS") then bool_decide (error_type = None) && bool_decide (error_message = None)
      else text error_type && text error_message)
  && implb (bool_decide (outcome = u "CANCELLED"))
       (bool_decide (error_type ∈ [Some (u "CANCEL_REQUESTED"); Some (u "FORCE_STOP_REQUESTED")])).
(** The client's check, then [_complete_web_disposition]. *)
Definition web_disposal (sent : WebOutcome) (a : CompleteAnswer) (error_type error_message : option pytext) : ConsumeOutcome :=
  if web_completion_accepted sent a error_type error_message then disposition a else REJECTED.

Section Answers.
Context `{Settings} `{Catalog} `{Evaluation} `{Assets}.

(** The status of a closed run with one case run, and that of the case run. *)
Definition consistent (eff : WebOutcome) (s : RunNodeStatus.t) : Prop :=
  match eff with
  | W_SUCCESS => s = RunNodeStatus.SUCCESS
  | W_FAILED => s ∈ [RunNodeStatus.FAILED; RunNodeStatus.REVIEW]
  | W_TIMEOUT => s = RunNodeStatus.TIMEOUT
  | W_CANCELLED => s = RunNodeStatus.CANCELLED
  end.
Lemma closed_consistent now run c0 c r run' eff :
  r_case_runs run = [c0] -> cr_id c = cr_id c0 -> r.1.1 = outcome_status eff ->
  close_web_run now run c r = Ok run' -> (eff = W_SUCCESS -> cr_status c <> RunNodeStatus.SKIPPED) -> consistent eff (cr_status c).
Proof.
  intros Hone Hid Hr Hclose Hns. unfold close_web_run in Hclose. apply bind_ok in Hclose as ([] & Hens & _).
  unfold ensure_terminal_run_matches_children in Hens. rewrite Hr in Hens.
  assert (r_case_runs (recompute_summary (replace_case run c)) = [c]) as Hcases.
  { cbn. rewrite Hone. cbn. by rewrite decide_True by done. }
  rewrite Hcases in Hens. replace (negb (run_terminal (outcome_status eff))) with false in Hens by (by destruct eff).
  apply bind_ok in Hens as ([] & _ & Hens). cbn [fmap list_fmap forallb] in Hens.
  destruct eff; cbn [outcome_status consistent] in *; inv_ok; destruct (cr_status c); try done; try (by exfalso; apply Hns);
    first [solve [repeat constructor] | apply andb_true_iff in G as [_ G]; done].
Qed.

Lemma web_case_result now cx p first eff c r : complete_web_case now cx p first eff = Ok (c, r) ->
  exists et em, r = web_result eff (cx_run cx) et em.
Proof. unfold complete_web_case. intros (c0 & _ & E)%bind_ok. injection E as _ <-. by eexists _, _. Qed.

(** What passes the client's check. *)
Lemma consistent_acknowledged sent eff run et em s x :
  eff = sent \/ eff = W_CANCELLED -> consistent eff s -> wx_case_run_status x = s ->
  wx_run_status x = (web_result eff run et em).1.1 ->
  web_disposal sent (web_answer_of eff x) (web_result eff run et em).1.2 (web_result eff run et em).2 = ACKED.
Proof.
  intros He Hs Hx Hrun. unfold web_disposal, web_answer_of. rewrite Hx, Hrun, web_result_status.
  destruct eff; cbn [consistent outcome_status] in *; unfold web_result.
  - subst s. destruct He as [<-|]; [vm_compute; reflexivity | done].
  - destruct He as [<-|]; [|done]. unfold text_or. repeat (apply elem_of_cons in Hs as [-> | Hs]);
      [destruct et as [[|]|], em as [[|]|]; vm_compute; reflexivity.. | by apply elem_of_nil in Hs].
  - subst s. destruct He as [<-|]; [|done]. unfold text_or. destruct et as [[|]|], em as [[|]|]; vm_compute; reflexivity.
  - subst s. destruct (r_force_stop_requested_at run); destruct sent; vm_compute; reflexivity.
Qed.

(** C9: an accepted Web report is acknowledged.  Whatever outcome the runner reports,
    and also when the run was cancelled meanwhile, the answer to the first completion
    the back end accepts of a run with its one case run passes the client's check and
    is final, so the consumer acknowledges the delivery. *)
Theorem web_report_acknowledged d now k cred p d' evs x r c0 row :
  db_inv d -> db_runs d !! k = Some r -> r_case_runs r = [c0] ->
  complete_web_execution d now k cred p = (d', evs, Ok x) -> wx_idempotent x = false ->
  db_web_results d' !! (k, wp_case_run_id p) = Some row ->
  web_disposal (wp_outcome p) (web_answer_of (effective_web r (wp_outcome p)) x) (wr_error_type row) (wr_error_message row) = ACKED.
Proof.
  intros Hd Hk Hone Hc Hi Hrow. destruct (complete_web_open _ _ _ _ _ _ _ _ Hc Hi) as (cx & content & c & res & d1 & r' & Hw).
  destruct (web_completion_stored _ _ _ _ _ _ _ _ _ _ _ _ _ Hd Hw) as (Hr & _ & Hcok & _ & _ & Hid & _ & _ & Hcl & _).
  rewrite Hk in Hr. injection Hr as ->.
  destruct Hw as [Hcx _ _ first eff _ _ Hg _ Hcase _ Hclose Hdb Hxr Hxc].
  destruct (execution_context_ok _ _ _ _ _ _ Hcx) as [Hrun _ _ _ Hin Hcid]. pose proof (di_keys _ Hd _ _ Hrun) as Hkey.
  rewrite Hone in Hin. apply list_elem_of_singleton in Hin as E0.
  assert (row = {| wr_message_id := wp_message_id p; wr_status := res.1.1; wr_session_recovery := wx_session_recovery x;
                   wr_error_type := res.1.2; wr_error_message := res.2; wr_completed_at := now |}) as ->.
  { subst d'. cbn in Hrow. rewrite Hkey, Hcid, lookup_insert_eq in Hrow. by injection Hrow as <-. }
  destruct (web_case_result _ _ _ _ _ _ _ Hcase) as (et & em & ->). cbn [wr_error_type wr_error_message].
  change (effective_web (cx_run cx) (wp_outcome p)) with eff.
  apply consistent_acknowledged with (s := cr_status c); [|eapply closed_consistent; [exact Hone | | apply web_result_status | exact Hclose|]| done | done].
  - unfold eff. destruct first; auto.
  - by rewrite Hid, <- Hcid, E0.
  - intros Heff. assert (first = false) as Hf by (unfold eff in Heff; by destruct first).
    assert (wp_outcome p = W_SUCCESS) as Hp by (unfold eff in Heff; by rewrite Hf in Heff).
    assert (cr_status (cx_case cx) = RunNodeStatus.RUNNING) as Hrunning.
    { unfold complete_web_guards in Hg. rewrite decide_False in Hg by (by rewrite Heff). inv_ok.
      apply andb_true_iff in G as [_ G]. by apply bool_decide_eq_true in G. }
    rewrite Hf, Heff in Hcase. rewrite <- Hp in Hcase.
    destruct (complete_web_case_shows _ _ _ _ _ Hcok Hrunning ltac:(by rewrite Hp) Hcase Hcl) as [[_ Hdes] _].
    rewrite Hdes, decide_False by (intros [E _]; congruence). apply desired_not_skipped.
Qed.
End Answers.

(** ** Reports of the supervision *)

(** The names of the nodes of a plan are distinct. *)
Lemma append_inj (a b c : string) : a +:+ b = a +:+ c -> b = c.
Proof. induction a as [|x a IH]; [done|]. intros [= E]. auto. Qed.
Lemma node_name_inj prefix : Inj (=) (=) (node_name prefix).
Proof. intros i j E%append_inj%append_inj. apply (inj pretty) in E. lia. Qed.
Lemma plan_nodes_distinct plan : NoDup (plan_nodes plan).
Proof.
  unfold plan_nodes. apply NoDup_app. split_and!.
  - apply NoDup_fmap_2; [apply node_name_inj | apply NoDup_seq].
  - intros n (i & -> & _)%list_elem_of_fmap (j & E & _)%list_elem_of_fmap. done.
  - apply NoDup_fmap_2; [apply node_name_inj | apply NoDup_seq].
Qed.

Section Terminal.
Context (redact : pytext -> pytext) (plan : WebTaskPlan) (status : WebTraceStatus).
Abbreviation traces := (posted_trace redact <$> web_terminal_traces plan status).

Lemma terminal_nodes : wt_node_id <$> traces = plan_nodes plan.
Proof.
  rewrite <- list_fmap_compose. unfold web_terminal_traces. rewrite fmap_imap. apply list_eq. intros i.
  rewrite list_lookup_imap. by destruct (plan_nodes plan !! i).
Qed.
Lemma terminal_trace i n : plan_nodes plan !! i = Some n ->
  exists t, web_trace_of traces n = Some t /\ wt_status t = if decide (i = 0%nat) then status else WT_SKIPPED.
Proof.
  intros Hn. set (t := posted_trace redact {| wt_node_id := n; wt_status := if decide (i = 0%nat) then status else WT_SKIPPED;
    wt_duration_ms := 0; wt_error_type := None; wt_error_message := None |}). exists t. split; [|done].
  change n with (wt_node_id t). apply web_trace_of_unique; [rewrite terminal_nodes; apply plan_nodes_distinct|].
  apply list_elem_of_fmap_2, (list_elem_of_lookup_2 _ i). unfold web_terminal_traces. by rewrite list_lookup_imap, Hn.
Qed.
Lemma terminal_elem t : t ∈ traces -> (wt_status t = WT_SKIPPED \/ wt_status t = status)
  /\ (wt_status t <> WT_SKIPPED -> head (plan_nodes plan) = Some (wt_node_id t)).
Proof.
  intros (t0 & -> & Ht)%list_elem_of_fmap. apply list_elem_of_lookup in Ht as [i Hi]. unfold web_terminal_traces in Hi.
  rewrite list_lookup_imap in Hi. destruct (plan_nodes plan !! i) as [n|] eqn:Hn; [|done]. injection Hi as <-. cbn.
  case_decide as E; [|by split; [left|]]. split; [by right|]. intros _. rewrite head_lookup. by subst i.
Qed.
Lemma terminal_first : plan_nodes plan <> [] -> exists t, t ∈ traces /\ wt_status t = status.
Proof.
  destruct (plan_nodes plan) as [|n l] eqn:En; [done|]. intros _. eexists. split; [apply list_elem_of_fmap_2|].
  - unfold web_terminal_traces. rewrite En. left.
  - done.
Qed.
End Terminal.

(** A step that has not ended. *)
Definition step_open (s : StepRun) : Prop :=
  sr_status s ∈ [RunNodeStatus.CREATED; RunNodeStatus.ASSIGNED; RunNodeStatus.RUNNING].
Lemma set_open_step now s x upd : step_open s ->
  x ∈ [RunNodeStatus.SUCCESS; RunNodeStatus.SKIPPED; RunNodeStatus.FAILED; RunNodeStatus.TIMEOUT] ->
  exists s', set_step_status now s x upd = Ok s' /\ sr_status s' = x.
Proof.
  intros Hs Hin. unfold set_step_status, set_node_status. unfold step_open, sr_status in *. rewrite decide_False.
  2:{ intros E. rewrite E in Hs. revert Hs Hin. by destruct x; intros H1 H2; decide_in H1; decide_in H2. }
  rewrite bool_decide_true; [cbn; by eexists|].
  revert Hs Hin. destruct (n_status (sr_node s)); intros H1 H2; decide_in H1; destruct x; decide_in H2; solve_in.
Qed.

(** One node says how the execution ended, the others were skipped. *)
Lemma desired_of_terminal x l : x ∈ [RunNodeStatus.FAILED; RunNodeStatus.TIMEOUT] ->
  Forall (fun s => s = RunNodeStatus.SKIPPED) l -> desired_case_status (x :: l) = x.
Proof.
  intros Hx Hl. unfold desired_case_status.
  assert (x = RunNodeStatus.FAILED \/ x = RunNodeStatus.TIMEOUT) as Hc by (destruct x; decide_in Hx; auto). clear Hx.
  assert (forall y, y <> x -> y <> RunNodeStatus.SKIPPED -> bool_decide (y ∈ x :: l) = false) as Hno.
  { intros y H1 H2. apply bool_decide_false. intros [->|E]%elem_of_cons; [done|]. rewrite Forall_forall in Hl. apply H2. by apply Hl. }
  assert (forallb node_terminal (x :: l) = true) as ->.
  { apply forallb_forall. intros y [<-|Hy%list_elem_of_In]; [by destruct Hc as [-> | ->]|]. rewrite Forall_forall in Hl. by rewrite (Hl y Hy). }
  destruct Hc as [-> | ->]; rewrite ?(Hno RunNodeStatus.CANCELLING), ?(Hno RunNodeStatus.ASSIGNED), ?(Hno RunNodeStatus.RUNNING),
    ?(Hno RunNodeStatus.CANCELLED), ?(Hno RunNodeStatus.TIMEOUT) by done; cbn [orb negb];
    by rewrite bool_decide_true by left.
Qed.

Section Reports.
Context `{Settings} `{Catalog} `{Evaluation} `{Assets} (redact : pytext -> pytext).

(** What the back end has for the Web execution of a plan that is under way. *)
Record web_awaits (d : Db) (now : datetime) (run_id cred message_id : string) (plan : WebTaskPlan) (cx : ExecutionContext)
    (content : WebCaseContent) : Prop := {
  wa_context : execution_context d run_id cred message_id (Some (wk_case_run_id plan)) = Ok cx;
  wa_first : db_web_results d !! (r_id (cx_run cx), cr_id (cx_case cx)) = None;
  wa_content : load_supported_web_case d now (cx_run cx) = Ok content;
  wa_run : r_status (cx_run cx) = RunStatus.RUNNING;
  wa_case : cr_status (cx_case cx) = RunNodeStatus.RUNNING;
  wa_cases : r_case_runs (cx_run cx) = [cx_case cx];
  wa_steps : sr_node_id <$> cr_steps (cx_case cx) = plan_nodes plan;
  wa_open : Forall step_open (cr_steps (cx_case cx));
}.

(** The outcomes the supervision reports itself. *)
Definition terminal_outcome (o : WebOutcome) (s : WebTraceStatus) : Prop :=
  (o = W_TIMEOUT /\ s = WT_TIMEOUT) \/ (o = W_FAILED /\ s = WT_FAILED).

Lemma terminal_cover plan s c : sr_node_id <$> cr_steps c = plan_nodes plan ->
  traces_cover c (posted_trace redact <$> web_terminal_traces plan s) = true.
Proof.
  intros Hs. unfold traces_cover. rewrite terminal_nodes, Hs. apply andb_true_iff. rewrite !bool_decide_eq_true. split; [|done].
  rewrite size_list_to_set by apply plan_nodes_distinct. by rewrite <- (length_fmap wt_node_id), terminal_nodes.
Qed.

(** The closed case run of a terminal report. *)
Lemma terminal_case now plan o s c : terminal_outcome o s -> plan_nodes plan <> [] ->
  cr_status c = RunNodeStatus.RUNNING -> sr_node_id <$> cr_steps c = plan_nodes plan -> Forall step_open (cr_steps c) ->
  exists c', finish_web_case now (posted_trace redact <$> web_terminal_traces plan s) None c = Ok c'
    /\ cr_id c' = cr_id c /\ cr_status c' = web_node_status s.
Proof.
  intros Ho Hne Hc Hids Hopen. unfold finish_web_case. set (f := finish_web_step now _).
  assert (web_node_status s ∈ [RunNodeStatus.FAILED; RunNodeStatus.TIMEOUT]) as Hs by (destruct Ho as [[_ ->]|[_ ->]]; solve_in).
  assert (forall i x, cr_steps c !! i = Some x -> exists x', f x = Ok x'
    /\ sr_status x' = if decide (i = 0%nat) then web_node_status s else RunNodeStatus.SKIPPED) as Hf.
  { intros i x Hi. destruct (terminal_trace redact plan s i (sr_node_id x)) as (t & Ht & Hst).
    { by rewrite <- Hids, list_lookup_fmap, Hi. }
    unfold f, finish_web_step. rewrite Ht. cbn [some_or mbind result_bind]. rewrite Hst.
    apply list_elem_of_lookup_2 in Hi. rewrite Forall_forall in Hopen. case_decide.
    - apply set_open_step; [by apply Hopen|]. destruct Ho as [[_ ->]|[_ ->]]; solve_in.
    - apply set_open_step; [by apply Hopen | solve_in]. }
  destruct (map_result_total f (cr_steps c)) as [steps Hsteps].
  { intros x [i Hi]%list_elem_of_lookup. destruct (Hf i x Hi) as (x' & ? & _). eauto. }
  rewrite Hsteps. cbn [mbind result_bind]. eexists. split; [done|].
  apply map_result_ok in Hsteps as Hrel. pose proof (Forall2_length _ _ _ Hrel) as Hlen.
  assert (forall i x', steps !! i = Some x' -> sr_status x' = if decide (i = 0%nat) then web_node_status s else RunNodeStatus.SKIPPED) as Hst.
  { intros i x' Hx'. destruct (Forall2_lookup_r _ _ _ _ _ Hrel Hx') as (x & Hx & E). destruct (Hf i x Hx) as (y & E' & Hy). congruence. }
  assert (desired_case_status (sr_status <$> steps) = web_node_status s) as Hd.
  { destruct steps as [|x0 steps]; [destruct (cr_steps c); [by rewrite <- Hids in Hne | done]|]. cbn [fmap list_fmap].
    pose proof (Hst 0%nat x0 eq_refl) as ->. cbn. apply desired_of_terminal; [done|]. apply Forall_fmap, Forall_lookup.
    intros i x Hx. exact (Hst (S i) x Hx). }
  rewrite <- Hd. split; [unfold aggregate_case_status; by repeat (case_match || case_decide)|].
  change steps with (cr_steps (cr_with_steps c steps)). apply (aggregate_finished now (cr_with_steps c steps)); [done| |].
  - cbn. intros ->. destruct (cr_steps c); [by rewrite <- Hids in Hne | done].
  - cbn. apply Forall_lookup. intros i x Hx. rewrite (Hst i x Hx). case_decide; [|done]. by destruct Ho as [[_ ->]|[_ ->]].
Qed.

Lemma terminal_close now run c0 c r o s : terminal_outcome o s ->
  r_status run = RunStatus.RUNNING -> r_case_runs run = [c0] -> cr_id c = cr_id c0 -> cr_status c = web_node_status s ->
  r.1.1 = outcome_status o -> exists run', close_web_run now run c r = Ok run'.
Proof.
  intros Ho Hr Hone Hid Hst Hro. unfold close_web_run. set (run1 := recompute_summary _).
  assert (r_case_runs run1 = [c]) as Hc1.
  { unfold run1, recompute_summary, replace_case. cbn. rewrite Hone. cbn. by rewrite decide_True by done. }
  assert (r_status run1 = RunStatus.RUNNING) as Hr1 by done. clearbody run1. rewrite Hro.
  assert (ensure_terminal_run_matches_children run1 (outcome_status o) = Ok tt) as ->.
  { unfold ensure_terminal_run_matches_children. rewrite Hc1. cbn [fmap list_fmap]. rewrite Hst. by destruct Ho as [[-> ->]|[-> ->]]. }
  cbn [mbind result_bind]. unfold set_run_status. rewrite Hr1. destruct Ho as [[-> ->]|[-> ->]]; rewrite decide_False by done;
    (rewrite bool_decide_true by solve_in); cbn; by eexists.
Qed.

(** The report of the supervision passes the checks of the handler. *)
Section Handler.
Context (message_id : string) (plan : WebTaskPlan) (o : WebOutcome) (s : WebTraceStatus) (et em : option pytext).
Context (Ho : terminal_outcome o s) (Het : et ∉ [Some WEB_EVIDENCE_ERROR_TYPE; Some WEB_SESSION_RECOVERY_FAILED]).
Abbreviation p := (web_request redact message_id (wk_case_run_id plan) (plain_completion o (web_terminal_traces plan s) et em)).

Lemma terminal_not_cancelled : o <> W_CANCELLED.
Proof. by destruct Ho as [[-> _]|[-> _]]. Qed.
Lemma terminal_evaluation now cx ai : (forall n, head (plan_nodes plan) = Some n -> n ∉ ai) -> check_web_evaluation now cx ai p o = Ok tt.
Proof.
  intros Hai. unfold check_web_evaluation. cbn [web_request plain_completion wp_evaluation_token wp_traces wq_evaluation_token wq_traces].
  lazymatch goal with |- raise_if ?b _ = _ => enough (b = false) as -> by done end.
  apply andb_false_iff. right. apply orb_false_iff. split; [by destruct Ho as [[-> _]|[-> _]]|].
  apply not_true_iff_false. intros (t & Ht%list_elem_of_In & [Hn%bool_decide_eq_true Hs%negb_true_iff]%andb_true_iff)%existsb_exists.
  apply bool_decide_eq_false in Hs. apply terminal_elem in Ht as [_ Hh]. by apply (Hai _ (Hh Hs)).
Qed.
Lemma terminal_no_failure code : code ∈ [WEB_EVIDENCE_ERROR_TYPE; WEB_SESSION_RECOVERY_FAILED] -> web_failure false p code = false.
Proof.
  intros Hc. unfold web_failure. cbn [web_request plain_completion wp_error_type wq_error_type].
  apply andb_false_iff. right. apply bool_decide_false. intros ->. apply Het.
  revert Hc. rewrite !elem_of_cons, elem_of_nil. naive_solver.
Qed.
Lemma terminal_failures : check_web_failures false p = Ok tt.
Proof.
  unfold check_web_failures. rewrite (terminal_no_failure WEB_SESSION_RECOVERY_FAILED) by solve_in. cbn [andb negb].
  cbn [web_request plain_completion wp_session_recovery wq_session_recovery fmap option_fmap option_map raise_if mbind result_bind].
  rewrite (bool_decide_false (None = Some RECOVERY_FAILED)) by done. cbn [andb raise_if mbind result_bind].
  cbn [wp_error_type wq_error_type]. by rewrite (bool_decide_false (et = Some WEB_EVIDENCE_ERROR_TYPE)) by (intros ->; apply Het; left).
Qed.
Lemma terminal_outcome_ok b : plan_nodes plan <> [] -> check_web_outcome o b p = Ok tt.
Proof.
  intros Hne. destruct (terminal_first redact plan s Hne) as (t & Ht & Hs).
  assert (forall l : list WebTraceStatus, s ∈ l -> existsb (fun t => bool_decide (wt_status t ∈ l)) (wp_traces p) = true) as Hhas.
  { intros l Hl. apply existsb_exists. exists t. split; [by apply list_elem_of_In|]. by rewrite Hs, bool_decide_true. }
  unfold check_web_outcome. destruct Ho as [[-> ->]|[-> ->]].
  - rewrite (Hhas [WT_TIMEOUT]) by left. done.
  - rewrite (Hhas [WT_FAILED; WT_REVIEW]) by left. by destruct b.
Qed.
Lemma terminal_complete_case now cx : plan_nodes plan <> [] ->
  cr_status (cx_case cx) = RunNodeStatus.RUNNING -> sr_node_id <$> cr_steps (cx_case cx) = plan_nodes plan ->
  Forall step_open (cr_steps (cx_case cx)) ->
  exists c r, complete_web_case now cx p false o = Ok (c, r) /\ cr_id c = cr_id (cx_case cx)
    /\ cr_status c = web_node_status s /\ r.1.1 = outcome_status o.
Proof.
  intros Hne Hc Hids Hopen. destruct (terminal_case now plan o s (cx_case cx) Ho Hne Hc Hids Hopen) as (c & Ec & Hid & Hst).
  unfold complete_web_case. rewrite !terminal_no_failure by solve_in. rewrite decide_False by apply terminal_not_cancelled.
  rewrite terminal_outcome_ok by done. cbn [mbind result_bind]. cbn [web_request wp_traces wq_traces plain_completion]. rewrite Ec.
  cbn [mbind result_bind]. eexists _, _. split_and!; [done | done | done | apply web_result_status].
Qed.
End Handler.


(** A report the back end cannot accept: it leaves out a step of every case run it may
    be about, or it judges an AI assertion without an evaluation of the back end. *)
Definition incomplete_report (d : Db) (now : datetime) (r : TestRun) (p : WebCompleteRequest) : Prop :=
  (forall c, c ∈ r_case_runs r -> traces_cover c (wp_traces p) = false)
  \/ (wp_evaluation_token p = None /\ wp_outcome p <> W_TIMEOUT /\ exists content t, load_supported_web_case d now r = Ok content
      /\ t ∈ wp_traces p /\ wt_node_id t ∈ web_ai_assertions content /\ wt_status t <> WT_SKIPPED).

End Reports.

(** ** Reports of a Web run *)

Module WebReportWitness.
Import Demo WebDemo.

Definition demo_plan : WebTaskPlan :=
  {| wk_case_run_id := 1; wk_actions := 1; wk_assertions := 1; wk_total_timeout_ms := 60000; wk_content := JNull |}.
Definition demo_run : TestRun := web_run_of both_running "run_1".
Definition demo_context : option ExecutionContext :=
  match execution_context both_running "run_1" "credential" "msg_1" (Some 1%Z) with Ok cx => Some cx | Err _ => None end.
Definition stored_result : WebExecutionResult :=
  {| wr_message_id := "msg_1"; wr_status := RunStatus.SUCCESS; wr_session_recovery := Some UPDATED; wr_error_type := None;
     wr_error_message := None; wr_completed_at := 20000000 |}.

Lemma demo_one_case : exists c0, r_case_runs demo_run = [c0].
Proof. vm_compute. by eexists. Qed.

(** The answer the first run's successful report gets is final. *)
Lemma web_report_acknowledged_witness :
  db_web_results (out_db first) !! ("run_1", wp_case_run_id (refreshed "msg_1" 1 "one")) = Some stored_result
  /\ web_disposal (wp_outcome (refreshed "msg_1" 1 "one"))
    (web_answer_of (effective_web demo_run (wp_outcome (refreshed "msg_1" 1 "one"))) (answer UPDATED))
    (wr_error_type stored_result) (wr_error_message stored_result) = ACKED.
Proof.
  assert (db_web_results (out_db first) !! ("run_1", wp_case_run_id (refreshed "msg_1" 1 "one")) = Some stored_result) as Hrow
    by (vm_compute; reflexivity).
  split; [exact Hrow|]. destruct demo_one_case as [c0 Hcase].
  apply (web_report_acknowledged both_running 20000000 "run_1" "credential" (refreshed "msg_1" 1 "one") (out_db first) (out_events first)
    (answer UPDATED) demo_run c0 stored_result).
  - apply both_running_inv.
  - vm_compute. reflexivity.
  - exact Hcase.
  - vm_compute. reflexivity.
  - reflexivity.
  - exact Hrow.
Defined.


(** The child answers that no browser could be started. *)
Definition no_browser : ProcessEnd WebMessage :=
  Outcome (WEB_RESULT {| wb_outcome := W_FAILED; wb_traces := []; wb_error_type := Some (u "WEB_EXECUTOR_ERROR");
    wb_error_message := Some (u "Web 执行失败"); wb_refreshed_session := None; wb_session_recovery := None; wb_pending_ai := [] |}).
End WebReportWitness.
